(* ===== verification/_CoqProject ===== *)
-Q . S2P
Prelude.v
PyFloat.v
PyVal.v
PyEnv.v
Gate.v
Health.v
RiskManager.v
StageGuard.v
Allocation.v
RateLimit.v
OrderStore.v
Recovery.v
BrokerRules.v
Failover.v
BrokerMonitor.v
OrderRouter.v
FillShadow.v
OrderLifecycle.v
Sizing.v
Sprt.v
Scheduler.v
EventBus.v
Calendar.v
Spread.v
Cost.v
DataQuality.v
DataService.v
Workers.v
Backfill.v
DataFetch.v
ShadowGateway.v
Emergency.v
Snapshot.v
Workflow.v
HealthStore.v
TimeSync.v
ExecutionModel.v
Resync.v
LiquidityMonitor.v
Stress.v
Bridge.v
Portfolio.v
Alpha.v
Strategy.v
SessionBreakout.v
RoundNumber.v
Manifest.v
Registry.v
Certification.v
Profile.v
Session.v
Config.v
PaperPoc.v
Ideas.v
Evaluation.v
