(* ===== verification/Prelude.v ===== *)
(** * Verification of the fx_toushi trading system

    The repository is a Python signal and execution system for foreign
    exchange: strategies propose candidates, guards decide which of them may be
    traded, a router sends the resulting orders to a broker, and monitors,
    stores and alarms watch and record all of it.  This library models the core
    of [src/src/] as executable functions and proves what the parts promise.

    ** How the parts interact

    Market data are fetched by the data service (DataService, DataFetch, and
    Backfill for ranges of the past), which tries its providers in order under
    rate-limit stages (Workers), checks each frame with the quality guard
    (DataQuality) and reports delays to the health monitor (Health); a gap is
    queued and settled by Resync through the backfill of Backfill.  The session
    manager (Session) starts a session from a mode profile (Profile) over the
    workflow (Workflow) and catches up after an interruption: it plans backfill
    jobs, runs them through Resync and DataFetch and judges the lag.  The event
    bus (EventBus) carries events to the shadow session, the scheduler
    (Scheduler) runs the periodic jobs, among them the clock guard (TimeSync)
    and the escalation of the health store (HealthStore).

    The strategy engine (Registry) runs the plugins of a manifest (Manifest)
    through the class [StrategyPlugin], which Registry instantiates with the
    plugins of Strategy and SessionBreakout; the plugin of RoundNumber emits the
    candidates of the contract.  The engine's candidates go through the
    allocation filters (Allocation).  The gate aggregator (Gate) merges what
    news, calendar (Calendar), spread (Spread), liquidity (LiquidityMonitor) and
    risk say about the market; the risk manager (RiskManager) turns it into a
    ticket decision, which the stress lab (Stress) predicts for scenarios and
    Portfolio compares with the exposure; the stage guard (StageGuard) limits
    the autonomy of the system.  Size and stops come from Sizing and the overlay
    of Alpha, the price of a round trip from Cost, the fill from ExecutionModel,
    a strategy that degrades is stopped by the sequential test (Sprt).

    An order is created and followed by the life cycle (OrderLifecycle) over the
    order store (OrderStore), and dispatched by the router (OrderRouter) through
    the failover file (Failover), the kill switch, the broker rules
    (BrokerRules) and the rate limiter (RateLimit) to a broker adapter;
    BrokerMonitor watches latencies and errors and plans failovers; Recovery
    plans what to do with a lost order; Emergency runs the playbooks; FillShadow
    records fills and detects their drift, Bridge reports the day's evidence to
    Health; the certification (Certification) runs its scenarios over adapter,
    router, limiter and failover planner, and StageGuard reads its status back;
    ShadowGateway keeps the sessions with the shadow feed; Snapshot and Workflow
    serve all of them.

    Around the live system: Config applies patches to the configuration and
    compares profiles; PaperPoc runs the engine of Registry over historical bars
    with its own admission, stops and costs; Ideas keeps the stages of a research
    idea; Evaluation judges a live strategy and candidate feeds, and alerts
    through Failover.

    ** Files and what they model

    - Prelude: the error monad [res], the state-and-error monad [M], truthiness,
      tactics ([to_props], [preserve], [totals], [zdiv]) and sorting.
    - PyFloat: binary64 on the Standard Library's [spec_float]; PyVal: dynamic
      values, dictionaries, text and numbers; PyEnv: [datetime], clocks, uuids,
      JSONL files and the class [HasWorld] through which a component writes.
    - Strategy: [strategies/base.py], [strategies/donchian.py],
      [strategies/us_session_momentum.py] and the feature context of
      [features/pipeline.py]; SessionBreakout:
      [strategies/us_orb_vwap_retest.py],
      [strategies/asia_compression_expansion_breakout.py] (the session states
      [resolve_state] and the bar loop [follow] are shared); RoundNumber:
      [contract.py], [strategies/round_number_rejection.py]; Manifest and
      Registry: the models and the engine of [strategies/registry.py];
      Allocation: [strategies/allocation.py], [strategies/candidate.py]; Alpha:
      [strategies/alpha_pulse.py], [execution/alpha_overlay.py],
      [analytics/pnl_feedback.py], [execution/adjustments.py].
    - Gate: [core/gate.py]; Health: [core/health.py]; HealthStore:
      [core/health_store.py], [core/health_jobs.py]; RiskManager:
      [risk/manager.py], [risk/capital_guard.py], [risk/correlation_guard.py],
      [funding/service.py]; LiquidityMonitor: [risk/liquidity_monitor.py];
      Stress: [risk/stress_lab.py]; Portfolio: [risk/portfolio_exposure.py];
      StageGuard: [brokers/stage_guard.py].
    - RateLimit and BrokerMonitor: [brokers/monitor.py]; BrokerRules:
      [infra/broker_rules.py], [brokers/policy.py]; Failover:
      [brokers/failover.py], [emergency/planner.py], [infra/alert.py];
      Emergency: [emergency/orchestrator.py]; OrderRouter:
      [execution/order_router.py], [brokers/adapter.py], [brokers/sandbox.py];
      FillShadow: [brokers/fill_shadow.py], [brokers/fill_drift.py],
      [brokers/fill_replay.py]; OrderStore: [brokers/order_store.py];
      OrderLifecycle: [brokers/order_lifecycle.py]; Recovery:
      [brokers/recovery.py]; Bridge: [execution/bridge.py]; ExecutionModel:
      [execution/model.py].
    - Sizing: [sizing/]; Sprt: [risk/sprt.py]; Cost: [execution/cost.py];
      Calendar: [calendar/]; Spread: [execution/spread.py],
      [core/spread_guard.py].
    - Scheduler: [core/scheduler.py]; EventBus: [core/event_bus.py] and the start
      of [shadow/session.py]; TimeSync: [core/time_sync.py]; Resync:
      [core/resync.py]; Workflow: [core/workflow.py], [infra/registry.py];
      Snapshot: [core/snapshot.py], [persistence/], [utils/hashing.py].
    - DataQuality: [data/quality.py]; DataService: the configuration, buffer,
      collector and logs of [data/service.py]; Workers: its rate-limit stages and
      polling, [data/rate_limit_guard.py]; Backfill: its backfill; DataFetch: its
      [fetch_latest], and [data/fallback.py].
    - ShadowGateway: [shadow_gateway/] but its SQLite cache.
    - Certification: [brokers/certification.py].
    - Profile and Session: [core/session.py]; a context object the caller shares
      with the manager is a field of the manager's state.
    - Config: [infra/config.py], [config/diff.py]; PaperPoc:
      [backtest/paper_poc.py]; Ideas: [research/registry.py]; Evaluation:
      [risk/live_guard.py], [data/realtime_evaluator.py].

    A Python class is a record of its fields, a method is a definition of the
    same name in [M] over the record (or a pure function where it changes
    nothing), in the order of the source and with its exceptions as values of
    [exn].  A file is the list of its lines or a decoded document, the wall
    clock, [uuid4] and the outcome of guarded writes are the readings of [Env],
    in the order the program asks for them.  A component that calls another runs
    its operation on its own copy of the part's state ([zoom]).

    ** What the theorems show

    - Safety: every signal of a run under a policy comes from an enabled
      strategy and an admissible candidate ([Registry.run_selects_admissible],
      over [Allocation.selected_is_admissible]); auto-execute is never on
      against the guards ([Gate.gate_run_auto_execute_safe]); orders respect the
      stage ([OrderLifecycle.create_respects_stage]); a dry catch-up is dry
      ([Session.dry_run_is_dry]); a patch without approval keeps the dangerous
      keys ([Config.unapproved_patch_keeps_dangerous]); a simulation respects the
      limits on open positions ([PaperPoc.concurrency_within_limits]); an idea
      advances as its checklists allow ([Ideas.advance_is_guarded]).
    - Invariants: the bus accounts for every message
      ([EventBus.bus_accounts_for_all]); no symbol exceeds its quota of signals
      in a session ([SessionBreakout.orb_respects_quota],
      [asia_respects_quota]); a manifest that loads is well formed
      ([Manifest.loaded_manifest_well_formed]); whatever a caller does, a session
      is consistent ([Session.session_stays_consistent]); a profile is pinned by
      its first load ([Profile.profile_is_pinned]); a simulation balances: it
      closes what it opens and its equity is that of its trades
      ([PaperPoc.simulation_balances]).
    - Equivalence with a declarative specification: the router's admission
      ([OrderRouter.submit_accepts_iff]), the sequential test, the kill-switch
      precedence, the quality verdict ([DataQuality.quality_ok_iff]), the
      rollovers of a holding window ([Cost.rollovers_counted]), what of a
      certification the stage guard accepts
      ([Certification.certification_decides_stage]), the stress lab and the live
      manager ([Stress.lab_predicts_live_manager]), the leaves at which two
      profiles differ ([Config.diff_lists_changes]), the verdict of the live
      guard ([Evaluation.live_guard_verdict]).
    - Refinement: a run of the engine implements its manifest
      ([Registry.run_follows_manifest]); every stage-guard operation is a step of
      an abstract ladder ([StageGuard.stage_exec_refines]); the emergency
      orchestrator refines an abstract board; a resync settles its queue.
    - Functional behaviour: signals of the Donchian and pullback plugins satisfy
      their conditions ([Strategy.donchian_signals_break_out],
      [pullback_signals_agree]); a liquidity update assesses the samples of its
      window; the clock guard; the snapshot is atomic whatever write fails; the
      jobs of a catch-up cover its range ([Session.backfill_jobs_cover_range]);
      what a bar does to the positions of a simulation
      ([PaperPoc.bar_settles_positions]); what the evaluation of a feed records
      ([Evaluation.feed_evaluation_verdict]).
    - Termination and liveness: when a job's loop ends
      ([Scheduler.run_ends_at_first_streak]), that the counting loops of Cost
      end, that a backfill asks the providers boundedly often, that the scan of
      round levels ends ([RoundNumber.bar_answers_with_contract]), that a slow
      order blocks the router, that back pressure keeps its policy.
    - Round trips of the gate state, the stage guard's file, the order store and
      the event log; bounds of sizes, costs, slippage, the spacing of signals
      ([RoundNumber.signals_are_spaced]) and rate-limit state.
    - Some theorems state behaviour that a reader of the documentation would not
      expect; they are listed as findings of the manifest.

    ** Bounds and fuel

    Integers are unbounded, as in Python; floats are binary64.  Recursion on
    fuel: [PyFloat.frepr] (17 digits determine a float; 400 covers its
    exponents), [PyEnv.take_frac] (six digits), [Recovery.replace_all] (the
    length of the text), [Config.class_ranges] and [Config.tokens] (the length
    of the pattern), [Scheduler.turns] (the number of turns one follows a
    loop that need not end), [Cost.while] (the days of the window, enough by
    [rollovers_counted] and [weekends_counted_a_day_late]),
    [DataService.chunks_from] (the number of chunks, enough by
    [chunks_tile_range], and by [segments_tile] for the jobs of a catch-up),
    [HealthStore.count_from] (the days between the two dates),
    [RoundNumber.first_touch] ([scan_fuel], half-unit steps up to the
    price 1000, enough by [bar_answers_with_contract]).

    ** Not modelled

    The text layer of JSON, YAML and CSV (a file is decoded or not), file locks,
    uncaught I/O errors, [str.format] beyond plain fields, the basic and week
    forms of [fromisoformat], non-ASCII text.  Parameters stand for sha1, sha256,
    blake2b, [math.log], the C library's [pow], [random], the zone database,
    SMTP, SQLite, jsonschema, the parsing of a manifest by pydantic (its own
    validators are modelled), the secrets vault, the providers' network calls,
    file sizes and times, [time.monotonic] and [time.perf_counter].  The event
    loop is an explicit sequence of readings and steps.  The engine's logs are
    appended to; the rotation before an append is modelled on its own
    ([Manifest.maybe_rotate_log]).  Plugins compute their signals at the call, as
    all plugins of the repository do.  What pandas and numpy compute for
    PaperPoc (frames, correlations, drawdown, random draws) and Evaluation (a
    series of returns) are parameters, and so are Ed25519 signatures; shell
    patterns are matched on ASCII text.  Left out as parts: the computation of
    features, scoring, the other backtests and the export of series, benchmarks,
    research experiments and reporters (numerical code over pandas frames), the
    provider adapters (network), the SQL stores, the command line and
    graphical interfaces, and [archive/], [tools/] (retired code and scripts). *)

From Stdlib Require Export Ascii.
From stdpp Require Export base tactics list option strings pretty gmap sorting.
From Stdlib Require Export ZArith Lia.


(** * Exceptions raised by the modelled code *)

Inductive exn : Type :=
  | ValueError (msg : string)
  | TypeError (msg : string)
  | AttributeError (msg : string)
  | KeyError (msg : string)
  | OverflowError (msg : string)
  | ZeroDivisionError (msg : string)
  | StopIteration
  | StageGuardError (msg : string)
  | StageRequestNotFound (id : string)
  | StageRequestNotApproved (msg : string)
  | OrderDispatchRejected (reason runbook_ref : string)
  | BrokerAccessDenied (msg : string)
  | BrokerOrderRejected (msg : string)
  | BrokerRulesError (msg : string)
  | RecoveryPlannerError (msg : string)
  | SpreadDataDegradedError (msg : string)
  | ProviderError (msg : string)
  | DataQualityError (msg : string) (quality_flag : Z)
  | OtherError (cls msg : string).

#[export] Instance exn_eq_dec : EqDecision exn.
Proof. solve_decision. Defined.

(** * The error monad: a Python expression that returns or raises *)

Inductive res (A : Type) : Type :=
  | Ok (a : A)
  | Raise (e : exn).
Arguments Ok {_} _.
Arguments Raise {_} _.

#[export] Instance res_ret : MRet res := λ _ a, Ok a.
#[export] Instance res_bind : MBind res := λ _ _ f m,
  match m with Ok a => f a | Raise e => Raise e end.
#[export] Instance res_fmap : FMap res := λ _ _ f m,
  match m with Ok a => Ok (f a) | Raise e => Raise e end.
#[export] Instance res_eq_dec {A} `{EqDecision A} : EqDecision (res A).
Proof. solve_decision. Defined.

Definition is_ok {A} (m : res A) : bool :=
  match m with Ok _ => true | Raise _ => false end.

(** Run [f] on each element, left to right, stopping at the first exception. *)
Fixpoint mapM_res {A B} (f : A → res B) (l : list A) : res (list B) :=
  match l with
  | [] => Ok []
  | a :: l => b ← f a; bs ← mapM_res f l; Ok (b :: bs)
  end.

(** [filter] with a test that may raise. *)
Fixpoint filterM_res {A} (f : A → res bool) (l : list A) : res (list A) :=
  match l with
  | [] => Ok []
  | a :: l => b ← f a; bs ← filterM_res f l; Ok (if b : bool then a :: bs else bs)
  end.

Lemma bind_ok {A B} (m : res A) (f : A → res B) b :
  m ≫= f = Ok b ↔ ∃ a, m = Ok a ∧ f a = Ok b.
Proof.
  destruct m as [a|e]; simpl; split.
  - intros H. by exists a.
  - intros (a' & [= <-] & H). exact H.
  - intros [=].
  - intros (a' & [=] & _).
Qed.

Lemma mapM_res_Forall2 {A B} (f : A → res B) l l' :
  mapM_res f l = Ok l' → Forall2 (λ a b, f a = Ok b) l l'.
Proof.
  revert l'. induction l as [|a l IH]; intros l' H; simpl in H.
  - injection H as <-. constructor.
  - apply bind_ok in H as (b & Hb & H). apply bind_ok in H as (bs & Hbs & H).
    injection H as <-. constructor; auto.
Qed.

Lemma mapM_res_length {A B} (f : A → res B) l l' :
  mapM_res f l = Ok l' → length l' = length l.
Proof. intros H. symmetry. by eapply Forall2_length, mapM_res_Forall2. Qed.

Lemma mapM_res_pure {A B} (f : A → res B) (g : A → B) l :
  (∀ a, f a = Ok (g a)) → mapM_res f l = Ok (g <$> l).
Proof. intros H. induction l as [|a l IH]; simpl; [done|]. by rewrite H; simpl; rewrite IH. Qed.

(** * The state-and-error monad: a method that may raise after mutating [S] *)

Definition M (S A : Type) : Type := S → res A * S.

#[export] Instance M_ret {S} : MRet (M S) := λ _ a s, (Ok a, s).
#[export] Instance M_bind {S} : MBind (M S) := λ _ _ f m s,
  match m s with
  | (Ok a, s') => f a s'
  | (Raise e, s') => (Raise e, s')
  end.

Definition raise {S A} (e : exn) : M S A := λ s, (Raise e, s).
Definition get {S} : M S S := λ s, (Ok s, s).
Definition gets {S A} (f : S → A) : M S A := λ s, (Ok (f s), s).
Definition modify {S} (f : S → S) : M S unit := λ s, (Ok tt, f s).
Definition lift {S A} (m : res A) : M S A := λ s, (m, s).
Definition when {S} (b : bool) (m : M S unit) : M S unit := if b then m else mret tt.

(** [try: m except: h] where [h] decides which exceptions it handles. *)
Definition try_catch {S A} (m : M S A) (h : exn → option (M S A)) : M S A := λ s,
  match m s with
  | (Ok a, s') => (Ok a, s')
  | (Raise e, s') => match h e with Some k => k s' | None => (Raise e, s') end
  end.

Fixpoint for_each {S A} (f : A → M S unit) (l : list A) : M S unit :=
  match l with
  | [] => mret tt
  | a :: l => _ ← f a; for_each f l
  end.

(** Running a bind. *)
Lemma bind_run {S A B} (m : M S A) (f : A → M S B) s :
  (m ≫= f) s = match m s with (Ok a, s') => f a s' | (Raise e, s') => (Raise e, s') end.
Proof. reflexivity. Qed.

Lemma bind_Ok {S A B} (m : M S A) (f : A → M S B) s b s' :
  (m ≫= f) s = (Ok b, s') ↔ ∃ a s1, m s = (Ok a, s1) ∧ f a s1 = (Ok b, s').
Proof.
  rewrite bind_run. destruct (m s) as [[a|e] s1]; split.
  - intros E. by exists a, s1.
  - by intros (? & ? & [= <- <-] & E).
  - done.
  - by intros (? & ? & ? & ?).
Qed.

Lemma lift_Ok {S A} (m : res A) (s : S) a s' : lift m s = (Ok a, s') ↔ m = Ok a ∧ s' = s.
Proof. unfold lift. naive_solver. Qed.

(** Steps that always return. *)
Definition total {S A} (m : M S A) : Prop := ∀ s, ∃ a s', m s = (Ok a, s').

Lemma total_bind {S A B} (m : M S A) (f : A → M S B) : total m → (∀ a, total (f a)) → total (m ≫= f).
Proof.
  intros Hm Hf s. destruct (Hm s) as (a & s' & E). destruct (Hf a s') as (b & s'' & E').
  exists b, s''. by rewrite bind_run, E.
Qed.

Lemma total_ret {S A} (a : A) : total (mret a : M S A).
Proof. intros s. by exists a, s. Qed.
Lemma total_gets {S A} (f : S → A) : total (gets f).
Proof. intros s. by exists (f s), s. Qed.
Lemma total_modify {S} (f : S → S) : total (modify f).
Proof. intros s. by exists tt, (f s). Qed.
Lemma total_get {S} : total (get (S:=S)).
Proof. intros s. by exists s, s. Qed.
Lemma total_when {S} b (m : M S unit) : total m → total (when b m).
Proof. intros Hm. destruct b; [done|apply total_ret]. Qed.

Create HintDb pytotal discriminated.
#[export] Hint Resolve total_ret total_gets total_modify total_get total_when : pytotal.

(** A Hoare-style judgement over the monad: from a state satisfying [P], the
    outcome and the final state satisfy [Q].  [preserves] is the special case
    of an invariant, kept on the exceptional exits too. *)
Definition hoare {S A} (P : S → Prop) (m : M S A) (Q : res A → S → Prop) : Prop :=
  ∀ s, P s → Q (m s).1 (m s).2.

Definition preserves {S A} (P : S → Prop) (m : M S A) : Prop :=
  ∀ s, P s → P (m s).2.

Create HintDb pymon discriminated.

Section preserves.
Context {S : Type} (P : S → Prop).

Lemma preserves_ret {A} (a : A) : preserves P (mret a).
Proof. by intros s H. Qed.

Lemma preserves_raise {A} e : preserves P (raise (A:=A) e).
Proof. by intros s H. Qed.

Lemma preserves_get : preserves P get.
Proof. by intros s H. Qed.

Lemma preserves_gets {A} (f : S → A) : preserves P (gets f).
Proof. by intros s H. Qed.

Lemma preserves_lift {A} (m : res A) : preserves P (lift m).
Proof. by intros s H. Qed.

Lemma preserves_modify f : (∀ s, P s → P (f s)) → preserves P (modify f).
Proof. by intros Hf s H; apply Hf. Qed.

Lemma preserves_bind {A B} (m : M S A) (f : A → M S B) :
  preserves P m → (∀ a, preserves P (f a)) → preserves P (m ≫= f).
Proof.
  intros Hm Hf s H. specialize (Hm s H). unfold mbind, M_bind.
  destruct (m s) as [[a|e] s']; simpl in *; [by apply Hf | done].
Qed.

Lemma preserves_when b m : preserves P m → preserves P (when b m).
Proof. by destruct b; [|intros _ s H]. Qed.

Lemma preserves_for_each {A} (f : A → M S unit) l :
  (∀ a, preserves P (f a)) → preserves P (for_each f l).
Proof.
  intros Hf. induction l as [|a l IH]; simpl; [apply preserves_ret|].
  by apply preserves_bind.
Qed.
End preserves.

#[export] Hint Resolve preserves_ret preserves_raise preserves_get preserves_gets
  preserves_lift preserves_bind preserves_when preserves_for_each : pymon.

(** * Lists of records updated in place *)

(** Update the first element that satisfies [p]. *)
Fixpoint update_first {A} (p : A → bool) (f : A → A) (l : list A) : list A :=
  match l with
  | [] => []
  | x :: l => if p x then f x :: l else x :: update_first p f l
  end.

(** * Python truthiness *)

Class Truthy (A : Type) := truthy : A → bool.
#[export] Instance truthy_bool : Truthy bool := λ b, b.
#[export] Instance truthy_string : Truthy string := λ s, negb (String.eqb s "").
#[export] Instance truthy_Z : Truthy Z := λ z, negb (Z.eqb z 0).
#[export] Instance truthy_list {A} : Truthy (list A) := λ l,
  match l with [] => false | _ => true end.
#[export] Instance truthy_option {A} `{Truthy A} : Truthy (option A) := λ o,
  match o with Some a => truthy a | None => false end.

(** Python's [a or b] on values of one type. *)
Definition py_or {A} `{Truthy A} (a b : A) : A := if truthy a then a else b.

Declare Scope py_scope.
Delimit Scope py_scope with py.
Notation "a 'or?' b" := (py_or a b) (at level 60, right associativity) : py_scope.
Open Scope py_scope.

(** Membership of a string in a literal set, as in [x in {"a", "b"}]. *)
Definition str_in (s : string) (l : list string) : bool := existsb (String.eqb s) l.

Lemma str_in_spec s l : str_in s l = true ↔ s ∈ l.
Proof.
  unfold str_in. rewrite existsb_exists. split.
  - intros (x & Hx & ->%String.eqb_eq). by apply list_elem_of_In.
  - intros H. exists s. split; [by apply list_elem_of_In | by apply String.eqb_eq].
Qed.

Lemma str_in_false s l : str_in s l = false ↔ s ∉ l.
Proof. rewrite <- str_in_spec. by destruct (str_in s l). Qed.

(** * Tactics *)

(** Case analysis on the scrutinee of the first [match]/[if] of the goal. *)
Ltac case_match_goal :=
  match goal with
  | |- context [match ?x with _ => _ end] =>
      lazymatch x with
      | context [match _ with _ => _ end] => fail
      | _ => let H := fresh "Hm" in destruct x eqn:H
      end
  end.

(** The same on a hypothesis. *)
Ltac case_match_in H :=
  match type of H with
  | context [match ?x with _ => _ end] =>
      lazymatch x with
      | context [match _ with _ => _ end] => fail
      | _ => let H' := fresh "Hm" in destruct x eqn:H'
      end
  end.

(** Turn boolean connectives and tests of the context into propositions. *)
Ltac to_props :=
  repeat match goal with
  | H : _ && _ = true |- _ => apply andb_true_iff in H as [? ?]
  | H : _ || _ = false |- _ => apply orb_false_iff in H as [? ?]
  | H : negb _ = true |- _ => apply negb_true_iff in H
  | H : negb _ = false |- _ => apply negb_false_iff in H
  | H : String.eqb _ _ = true |- _ => apply String.eqb_eq in H
  | H : String.eqb _ _ = false |- _ => apply String.eqb_neq in H
  | H : Z.leb _ _ = true |- _ => apply Z.leb_le in H
  | H : Z.leb _ _ = false |- _ => apply Z.leb_gt in H
  | H : Z.ltb _ _ = true |- _ => apply Z.ltb_lt in H
  | H : Z.ltb _ _ = false |- _ => apply Z.ltb_ge in H
  | H : Z.eqb _ _ = true |- _ => apply Z.eqb_eq in H
  | H : Z.eqb _ _ = false |- _ => apply Z.eqb_neq in H
  | H : Nat.leb _ _ = true |- _ => apply Nat.leb_le in H
  | H : Nat.leb _ _ = false |- _ => apply Nat.leb_gt in H
  | H : Nat.ltb _ _ = true |- _ => apply Nat.ltb_lt in H
  | H : Nat.ltb _ _ = false |- _ => apply Nat.ltb_ge in H
  end.

(** Invariant goals over the monad: decompose binds, tests and matches. *)
Ltac preserve :=
  repeat (first
    [ assumption
    | solve [eauto with pymon nocore]
    | apply preserves_bind; [|intros ?]
    | apply preserves_when
    | apply preserves_for_each; intros ?
    | match goal with |- preserves _ (match ?x with _ => _ end) => destruct x eqn:? end ]).

(** Totality goals over the monad. *)
Ltac totals :=
  repeat (first
    [ assumption
    | solve [eauto with pytotal nocore]
    | apply total_bind; [|intros ?]
    | apply total_when
    | match goal with |- total (match ?x with _ => _ end) => destruct x eqn:? end ]).

(** [lia] with division and remainder by constants. *)
Ltac zdiv := Z.div_mod_to_equations; lia.

(** * Text concatenation *)

#[global] Arguments String.append !_ _ : simpl nomatch.

Lemma string_app_assoc (a b c : string) : (a +:+ b) +:+ c = a +:+ (b +:+ c).
Proof. induction a as [|x a IH]; simpl; [done|]. by rewrite IH. Qed.

Lemma string_app_nil_r (a : string) : a +:+ "" = a.
Proof. induction a as [|x a IH]; simpl; [done|]. by rewrite IH. Qed.

(** * Insertion sort: the stable result of [sorted] for a total preorder *)

Section isort.
Context {A : Type} (lt : A → A → bool).

(** Insert after every element that is not greater. *)
Fixpoint insert_sorted (x : A) (l : list A) : list A :=
  match l with
  | [] => [x]
  | y :: l' => if lt x y then x :: l else y :: insert_sorted x l'
  end.

(** [sorted(l)] for a comparison [lt]: elements are inserted left to right. *)
Definition isort (l : list A) : list A := fold_left (λ acc x, insert_sorted x acc) l [].

Lemma insert_sorted_perm x l : insert_sorted x l ≡ₚ x :: l.
Proof.
  induction l as [|y l IH]; simpl; [done|]. destruct (lt x y); [done|].
  rewrite IH. apply Permutation_swap.
Qed.

Lemma isort_acc_perm l acc : fold_left (λ acc x, insert_sorted x acc) l acc ≡ₚ acc ++ l.
Proof.
  revert acc. induction l as [|x l IH]; intros acc; simpl; [by rewrite app_nil_r|].
  rewrite IH, insert_sorted_perm. apply Permutation_middle.
Qed.

Lemma isort_perm l : isort l ≡ₚ l.
Proof. apply isort_acc_perm. Qed.

Lemma isort_length l : length (isort l) = length l.
Proof. apply Permutation_length, isort_perm. Qed.

(** An element that is below none of the others goes last. *)
Lemma insert_sorted_last x l : (∀ y, y ∈ l → lt x y = false) → insert_sorted x l = l ++ [x].
Proof.
  induction l as [|y l IH]; intros Hl; simpl; [done|].
  rewrite (Hl y) by left. f_equal. apply IH. intros z Hz. apply Hl. by right.
Qed.

Lemma isort_snoc x l : (∀ y, y ∈ l → lt x y = false) → isort (l ++ [x]) = isort l ++ [x].
Proof.
  intros Hl. unfold isort. rewrite fold_left_app. simpl. apply insert_sorted_last.
  intros y Hy. apply Hl. by rewrite isort_acc_perm in Hy.
Qed.

(** Sorting commutes with a change that keeps the order. *)
Lemma isort_map (f : A → A) l : (∀ x y, lt (f x) (f y) = lt x y) → isort (f <$> l) = f <$> isort l.
Proof.
  intros Hf.
  assert (∀ x acc, insert_sorted (f x) (f <$> acc) = f <$> insert_sorted x acc) as Hins.
  { intros x acc. induction acc as [|y acc IHa]; simpl; [done|]. rewrite Hf.
    destruct (lt x y); simpl; [done|]. f_equal. exact IHa. }
  unfold isort. change (@nil A) with (f <$> @nil A) at 1. generalize (@nil A).
  induction l as [|x l IH]; intros acc; simpl; [done|]. rewrite Hins. apply IH.
Qed.

Lemma elem_of_isort x l : x ∈ isort l ↔ x ∈ l.
Proof. by rewrite isort_perm. Qed.

(** Sortedness needs the comparison to be a strict weak order on the elements. *)
Context (D : A → Prop).
Context (lt_asym : ∀ x y, D x → D y → lt x y = true → lt y x = false).
Context (ge_trans : ∀ x y z, D x → D y → D z → lt y x = false → lt z y = false → lt z x = false).

Abbreviation sorted_by := (StronglySorted (λ x y, lt y x = false)).

Lemma insert_sorted_sorted x l :
  D x → Forall D l → sorted_by l → sorted_by (insert_sorted x l).
Proof using lt_asym ge_trans.
  intros Hx Hl Hs. induction Hs as [|y l Hs IH Hall]; simpl.
  { constructor; [constructor|done]. }
  apply Forall_cons in Hl as [Hy Hl]. destruct (lt x y) eqn:E.
  - constructor; [by constructor|]. constructor; [by apply lt_asym|].
    rewrite Forall_forall in Hall, Hl. apply Forall_forall. intros z Hz.
    eapply (ge_trans x y z); eauto.
  - constructor; [by apply IH|]. rewrite insert_sorted_perm. by constructor.
Qed.

Lemma isort_acc_sorted l acc :
  Forall D acc → Forall D l → sorted_by acc →
  sorted_by (fold_left (λ acc x, insert_sorted x acc) l acc).
Proof using lt_asym ge_trans.
  revert acc. induction l as [|x l IH]; intros acc Ha Hl Hs; simpl; [done|].
  apply Forall_cons in Hl as [Hx Hl]. apply IH; [|done|by apply insert_sorted_sorted].
  rewrite insert_sorted_perm. by constructor.
Qed.

Lemma isort_sorted l : Forall D l → sorted_by (isort l).
Proof using lt_asym ge_trans. intros H. by apply isort_acc_sorted; [|done|constructor]. Qed.
End isort.
