(* ===== verification/PyFloat.v ===== *)
(** Python's [float]: IEEE 754 binary64 as the pure [spec_float] of the
    Standard Library, with the operations the modelled code uses: arithmetic,
    comparisons, [max]/[min], conversion from [int] and from decimal text,
    [round], [int], [math.floor] and [repr].  The second half shows that the
    comparisons of numbers other than NaN are a total preorder. *)

From Stdlib Require Export SpecFloat.
From S2P Require Import Prelude.

Local Open Scope Z_scope.

(** * Format and arithmetic *)

Definition prec : Z := 53.
Definition emax : Z := 1024.

Abbreviation float := spec_float.

Definition fadd (x y : float) : float := SFadd prec emax x y.
Definition fsub (x y : float) : float := SFsub prec emax x y.
Definition fmul (x y : float) : float := SFmul prec emax x y.
Definition fdiv_ieee (x y : float) : float := SFdiv prec emax x y.
Definition fopp (x : float) : float := SFopp x.
Definition fabs (x : float) : float := SFabs x.
Definition fltb (x y : float) : bool := SFltb x y.
Definition fleb (x y : float) : bool := SFleb x y.
Definition feqb (x y : float) : bool := SFeqb x y.
Definition fgtb (x y : float) : bool := fltb y x.
Definition fgeb (x y : float) : bool := fleb y x.

Definition fzero : float := S754_zero false.
Definition is_nan (x : float) : bool :=
  match x with S754_nan => true | _ => false end.
Definition is_inf (x : float) : bool :=
  match x with S754_infinity _ => true | _ => false end.

(** [max(a, b)] keeps [a] unless [b > a]; [min(a, b)] keeps [a] unless [b < a]. *)
Definition fmax (a b : float) : float := if fltb a b then b else a.
Definition fmin (a b : float) : float := if fltb b a then b else a.

#[export] Instance truthy_float : Truthy float := λ x,
  match x with S754_zero _ => false | _ => true end.

(** The nearest binary64 to an integer, ties to even, infinite on overflow. *)
Definition of_Z (z : Z) : float := binary_normalize prec emax z 0 false.

(** [float(n)] of an [int] raises [OverflowError] out of range. *)
Definition float_of_int (z : Z) : res float :=
  let f := of_Z z in
  if is_inf f then Raise (OverflowError "int too large to convert to float") else Ok f.

(** The correctly rounded quotient of two integers. *)
Definition of_ratio_pos (s : bool) (n d : positive) : float :=
  let '(q, e, l) := SFdiv_core_binary prec emax (Zpos n) 0 (Zpos d) 0 in
  binary_round_aux prec emax s q e l.

Definition of_ratio (n : Z) (d : positive) : float :=
  match n with
  | Z0 => S754_zero false
  | Zpos p => of_ratio_pos false p d
  | Zneg p => of_ratio_pos true p d
  end.

(** The value of the decimal literal [m * 10 ^ e]. *)
Definition of_dec (m e : Z) : float :=
  if 0 <=? e then of_Z (m * 10 ^ e) else of_ratio m (Z.to_pos (10 ^ (- e))).

(** Python raises on a zero divisor instead of returning an infinity. *)
Definition fdiv (x y : float) : res float :=
  match y with
  | S754_zero _ => Raise (ZeroDivisionError "float division by zero")
  | _ => Ok (fdiv_ieee x y)
  end.

(** * Rounding to integers and to decimals *)

(** [n / d] rounded half to even, for [0 <= n]. *)
Definition div_half_even (n : Z) (d : positive) : Z :=
  let q := n / Zpos d in
  let r := n mod Zpos d in
  match 2 * r ?= Zpos d with
  | Lt => q
  | Gt => q + 1
  | Eq => if Z.even q then q else q + 1
  end.

(** The numerator and denominator of [m * 2 ^ e]. *)
Definition ratio_of (m : positive) (e : Z) : Z * positive :=
  if 0 <=? e then (Zpos m * 2 ^ e, xH) else (Zpos m, Z.to_pos (2 ^ (- e))).

Definition with_sign (s : bool) (z : Z) : Z := if s then - z else z.

(** [round(x, k)] for [0 <= k]: the decimal is rounded half to even on the
    exact value, then converted back. *)
Definition fround (x : float) (k : Z) : float :=
  match x with
  | S754_finite s m e =>
      let '(n, d) := ratio_of m e in
      match div_half_even (n * 10 ^ k) d with
      | Zpos q => of_ratio_pos s q (Z.to_pos (10 ^ k))
      | _ => S754_zero s
      end
  | _ => x
  end.

(** [int(x)] truncates toward zero; [round(x)] rounds half to even. *)
Definition ftrunc (x : float) : res Z :=
  match x with
  | S754_finite s m e =>
      let '(n, d) := ratio_of m e in Ok (with_sign s (n / Zpos d))
  | S754_zero _ => Ok 0
  | S754_infinity _ => Raise (OverflowError "cannot convert float infinity to integer")
  | S754_nan => Raise (ValueError "cannot convert float NaN to integer")
  end.

Definition fround_int (x : float) : res Z :=
  match x with
  | S754_finite s m e =>
      let '(n, d) := ratio_of m e in Ok (with_sign s (div_half_even n d))
  | S754_zero _ => Ok 0
  | S754_infinity _ => Raise (OverflowError "cannot convert float infinity to integer")
  | S754_nan => Raise (ValueError "cannot convert float NaN to integer")
  end.

Definition ffloor (x : float) : res Z :=
  match x with
  | S754_finite s m e =>
      let '(n, d) := ratio_of m e in Ok (with_sign s n / Zpos d)
  | S754_zero _ => Ok 0
  | S754_infinity _ => Raise (OverflowError "cannot convert float infinity to integer")
  | S754_nan => Raise (ValueError "cannot convert float NaN to integer")
  end.

(** * [repr]: the shortest decimal that reads back as the same number *)

Definition ndigits (z : Z) : Z := Z.of_nat (String.length (pretty z)).

(** The decimal exponent [k] with [10^k <= n/d < 10^(k+1)]. *)
Fixpoint dec_exp_small (fuel : nat) (n d : Z) (k : Z) : Z :=
  match fuel with
  | O => k
  | S fuel => if d <=? n then k else dec_exp_small fuel (n * 10) d (k - 1)
  end.

Definition dec_exp (n : Z) (d : positive) : Z :=
  if Zpos d <=? n then ndigits (n / Zpos d) - 1 else dec_exp_small 400 n (Zpos d) 0.

(** [p] significant digits of [n/d], as [(q, e)] standing for [q * 10^e]. *)
Definition dec_digits (n : Z) (d : positive) (k p : Z) : Z * Z :=
  let e := k - p + 1 in
  if 0 <=? e then (div_half_even n (Z.to_pos (Zpos d * 10 ^ e)), e)
  else (div_half_even (n * 10 ^ (- e)) d, e).

Fixpoint shortest (fuel : nat) (x : float) (n : Z) (d : positive) (k p : Z) : Z * Z :=
  match fuel with
  | O => dec_digits n d k 17
  | S fuel =>
      let '(q, e) := dec_digits n d k p in
      if feqb (of_dec q e) x then (q, e) else shortest fuel x n d k (p + 1)
  end.

Fixpoint zeros (n : nat) : string :=
  match n with O => "" | S n => String "0"%char (zeros n) end.

(** Drop trailing zeros of the digit string [q]. *)
Fixpoint trim_zeros (fuel : nat) (q e : Z) : Z * Z :=
  match fuel with
  | O => (q, e)
  | S fuel => if (q mod 10 =? 0) && negb (q =? 0) then trim_zeros fuel (q / 10) (e + 1) else (q, e)
  end.

(** Lay out the digits [q * 10^e] the way [repr] does. *)
Definition layout (q e : Z) : string :=
  let '(q, e) := trim_zeros 400 q e in
  let ds := pretty q in
  let nd := Z.of_nat (String.length ds) in
  let k := nd + e - 1 in
  if (k <? -4) || (16 <=? k) then
    let mant := String.substring 0 1 ds +:+
      (if 1 <? nd then "." +:+ String.substring 1 (String.length ds) ds else "") in
    let ex := pretty (Z.abs k) in
    mant +:+ "e" +:+ (if k <? 0 then "-" else "+") +:+ (if Z.abs k <? 10 then "0" else "") +:+ ex
  else if 0 <=? e then ds +:+ zeros (Z.to_nat e) +:+ ".0"
  else if 0 <=? k then
    String.substring 0 (Z.to_nat (k + 1)) ds +:+ "." +:+
    String.substring (Z.to_nat (k + 1)) (String.length ds) ds
  else "0." +:+ zeros (Z.to_nat (- k - 1)) +:+ ds.

Definition frepr (x : float) : string :=
  match x with
  | S754_zero s => if s then "-0.0" else "0.0"
  | S754_infinity s => if s then "-inf" else "inf"
  | S754_nan => "nan"
  | S754_finite s m e =>
      let '(n, d) := ratio_of m e in
      let '(q, e') := shortest 17 (S754_finite false m e) n d (dec_exp n d) 1 in
      (if s then "-" else "") +:+ layout q e'
  end.

(** [f"{x:.1f}"]: the exact value rounded half to even to one decimal. *)
Definition ffixed1 (x : float) : string :=
  match x with
  | S754_zero s => if s then "-0.0" else "0.0"
  | S754_infinity s => if s then "-inf" else "inf"
  | S754_nan => "nan"
  | S754_finite s m e =>
      let '(n, d) := ratio_of m e in
      let q := div_half_even (n * 10) d in
      (if s then "-" else "") +:+ pretty (q / 10) +:+ "." +:+ pretty (q mod 10)
  end.

(** * Order *)

(** Numbers other than NaN are ordered by class, then exponent, then mantissa. *)
Definition fkey (x : float) : Z * Z * Z :=
  match x with
  | S754_infinity true => (-2, 0, 0)
  | S754_finite true m e => (-1, - e, Zneg m)
  | S754_zero _ | S754_nan => (0, 0, 0)
  | S754_finite false m e => (1, e, Zpos m)
  | S754_infinity false => (2, 0, 0)
  end.

Definition klt (a b : Z * Z * Z) : Prop :=
  let '(a1, a2, a3) := a in
  let '(b1, b2, b3) := b in
  a1 < b1 ∨ a1 = b1 ∧ (a2 < b2 ∨ a2 = b2 ∧ a3 < b3).

Lemma fcmp_key x y :
  is_nan x = false → is_nan y = false →
  match SFcompare x y with
  | Some Lt => klt (fkey x) (fkey y)
  | Some Gt => klt (fkey y) (fkey x)
  | Some Eq => fkey x = fkey y
  | None => False
  end.
Proof.
  destruct x as [sx|sx| |sx mx ex], y as [sy|sy| |sy my ey]; try done;
    intros _ _; destruct sx, sy; simpl; try lia; try done.
  - destruct (Z.compare_spec ex ey) as [->|?|?]; simpl; [|lia..].
    change (Pos.compare_cont Eq mx my) with (Pos.compare mx my).
    destruct (Pos.compare_spec mx my); simpl; [congruence|lia..].
  - destruct (Z.compare_spec ex ey) as [->|?|?]; simpl; [|lia..].
    change (Pos.compare_cont Eq mx my) with (Pos.compare mx my).
    destruct (Pos.compare_spec mx my); simpl; [congruence|lia..].
Qed.

Lemma klt_irrefl a : ¬ klt a a.
Proof. destruct a as [[??]?]; simpl; lia. Qed.

Lemma klt_trans a b c : klt a b → klt b c → klt a c.
Proof. destruct a as [[??]?], b as [[??]?], c as [[??]?]; simpl; lia. Qed.

Lemma klt_total a b : klt a b ∨ a = b ∨ klt b a.
Proof.
  destruct a as [[a1 a2] a3], b as [[b1 b2] b3]; simpl.
  destruct (Z.lt_trichotomy a1 b1) as [?|[<-|?]]; [lia| |lia].
  destruct (Z.lt_trichotomy a2 b2) as [?|[<-|?]]; [lia| |lia].
  destruct (Z.lt_trichotomy a3 b3) as [?|[<-|?]]; [lia|by auto|lia].
Qed.

Lemma fcmp_nan_l y : SFcompare S754_nan y = None.
Proof. by destruct y. Qed.

Lemma fcmp_nan_r x : SFcompare x S754_nan = None.
Proof. by destruct x as [[]|[]| |[] ??]. Qed.

(** Close a goal whose context orders two keys both ways. *)
Ltac klt_absurd :=
  exfalso;
  repeat match goal with H : _ = fkey _ |- _ => rewrite H in * |- end;
  repeat match goal with H : fkey _ = _ |- _ => rewrite H in * |- end;
  solve [ eapply klt_irrefl; eassumption
        | eapply klt_irrefl, klt_trans; eassumption ].

(** Reduce a comparison lemma to the three orderings of the keys. *)
Ltac fcmp_cases x y :=
  destruct (is_nan x) eqn:Hx;
    [destruct x; try done; rewrite fcmp_nan_l; split; [done | by intros (? & _)]|];
  destruct (is_nan y) eqn:Hy;
    [destruct y; try done; rewrite fcmp_nan_r; split; [done | by intros (_ & ? & _)]|];
  pose proof (fcmp_key x y Hx Hy) as H;
  destruct (SFcompare x y) as [[]|]; [..|done].

Lemma fltb_spec x y :
  fltb x y = true ↔ is_nan x = false ∧ is_nan y = false ∧ klt (fkey x) (fkey y).
Proof.
  unfold fltb, SFltb. fcmp_cases x y; split; try done; intros (_ & _ & Hk); klt_absurd.
Qed.

Lemma fleb_spec x y :
  fleb x y = true ↔ is_nan x = false ∧ is_nan y = false ∧ ¬ klt (fkey y) (fkey x).
Proof.
  unfold fleb, SFleb. fcmp_cases x y; split; try done.
  - intros _. split_and!; [done..|]. intros Hk. klt_absurd.
  - intros _. split_and!; [done..|]. intros Hk. klt_absurd.
  - by intros (_ & _ & Hk).
Qed.

Lemma feqb_spec x y :
  feqb x y = true ↔ is_nan x = false ∧ is_nan y = false ∧ fkey x = fkey y.
Proof.
  unfold feqb, SFeqb. fcmp_cases x y; split; try done; intros (_ & _ & Hk); klt_absurd.
Qed.

Lemma fltb_irrefl x : fltb x x = false.
Proof.
  destruct (fltb x x) eqn:H; [|done].
  apply fltb_spec in H as (_ & _ & H). by apply klt_irrefl in H.
Qed.

Lemma fltb_trans x y z : fltb x y = true → fltb y z = true → fltb x z = true.
Proof.
  rewrite !fltb_spec. intros (? & ? & ?) (? & ? & ?). split_and!; try done.
  by eapply klt_trans.
Qed.

Lemma fltb_asym x y : fltb x y = true → fltb y x = false.
Proof.
  intros H. destruct (fltb y x) eqn:H'; [|done].
  by rewrite <- (fltb_irrefl x), (fltb_trans x y x).
Qed.

Lemma fleb_trans x y z : fleb x y = true → fleb y z = true → fleb x z = true.
Proof.
  rewrite !fleb_spec. intros (? & ? & H1) (? & ? & H2). split_and!; try done.
  intros Hk. destruct (klt_total (fkey x) (fkey y)) as [H'|[H'|H']]; [|congruence|done].
  by apply H2, (klt_trans _ (fkey x)).
Qed.

Lemma fleb_refl x : is_nan x = false → fleb x x = true.
Proof. intros H. apply fleb_spec. split_and!; [done..|]. apply klt_irrefl. Qed.

Lemma fltb_fleb x y :
  is_nan x = false → is_nan y = false → fltb x y = negb (fleb y x).
Proof.
  intros Hx Hy. destruct (fltb x y) eqn:H1, (fleb y x) eqn:H2; try done.
  - apply fltb_spec in H1 as (_ & _ & ?). by apply fleb_spec in H2 as (_ & _ & ?).
  - exfalso. destruct (klt_total (fkey x) (fkey y)) as [H|H].
    + assert (fltb x y = true) by (by apply fltb_spec). congruence.
    + assert (fleb y x = true); [|congruence].
      apply fleb_spec. split_and!; [done..|]. intros Hk. destruct H as [H|H].
      * rewrite H in Hk. by apply klt_irrefl in Hk.
      * by apply (klt_irrefl (fkey x)), (klt_trans _ (fkey y)).
Qed.

Lemma fltb_fleb_weak x y : fltb x y = true → fleb x y = true.
Proof.
  rewrite fltb_spec, fleb_spec. intros (? & ? & ?). split_and!; [done..|].
  intros ?. by apply (klt_irrefl (fkey x)), (klt_trans _ (fkey y)).
Qed.

Lemma fleb_fltb_trans x y z : fleb x y = true → fltb y z = true → fltb x z = true.
Proof.
  rewrite fleb_spec, !fltb_spec. intros (? & ? & H1) (? & ? & H2). split_and!; [done..|].
  destruct (klt_total (fkey x) (fkey y)) as [Hk|[Hk|Hk]].
  - by eapply klt_trans.
  - by rewrite Hk.
  - done.
Qed.

Lemma fleb_total x y :
  is_nan x = false → is_nan y = false → fleb x y = true ∨ fleb y x = true.
Proof.
  intros Hx Hy. destruct (fleb x y) eqn:H; [by left|right].
  apply fltb_fleb_weak. by rewrite fltb_fleb, H.
Qed.

(** A NaN operand makes every comparison false. *)
Lemma fltb_nan_l y : fltb S754_nan y = false.
Proof. unfold fltb, SFltb. by rewrite fcmp_nan_l. Qed.
Lemma fltb_nan_r x : fltb x S754_nan = false.
Proof. unfold fltb, SFltb. by rewrite fcmp_nan_r. Qed.

Lemma fltb_not_nan x y : fltb x y = true → is_nan x = false ∧ is_nan y = false.
Proof. rewrite fltb_spec. tauto. Qed.
Lemma fleb_not_nan x y : fleb x y = true → is_nan x = false ∧ is_nan y = false.
Proof. rewrite fleb_spec. tauto. Qed.

(** [max] and [min] bound their operands when neither is NaN. *)
Lemma fmax_ge_l a b : is_nan a = false → fleb a (fmax a b) = true.
Proof.
  intros Ha. unfold fmax. destruct (fltb a b) eqn:H; [by apply fltb_fleb_weak | by apply fleb_refl].
Qed.

Lemma fmax_ge_r a b :
  is_nan a = false → is_nan b = false → fleb b (fmax a b) = true.
Proof.
  intros Ha Hb. unfold fmax. destruct (fltb a b) eqn:H; [by apply fleb_refl|].
  rewrite fltb_fleb in H by done. by apply negb_false_iff.
Qed.

Lemma fmin_le_l a b : is_nan a = false → fleb (fmin a b) a = true.
Proof.
  intros Ha. unfold fmin. destruct (fltb b a) eqn:H; [by apply fltb_fleb_weak | by apply fleb_refl].
Qed.

Lemma fmin_le_r a b :
  is_nan a = false → is_nan b = false → fleb (fmin a b) b = true.
Proof.
  intros Ha Hb. unfold fmin. destruct (fltb b a) eqn:H; [by apply fleb_refl|].
  rewrite fltb_fleb in H by done. by apply negb_false_iff.
Qed.

#[export] Instance float_eq_dec : EqDecision float.
Proof. solve_decision. Defined.

Create HintDb pyfloat discriminated.
#[export] Hint Resolve fltb_irrefl fleb_refl fltb_fleb_weak fmax_ge_l fmax_ge_r
  fmin_le_l fmin_le_r : pyfloat.
Create Rewrite HintDb pyfloat_rw.
#[export] Hint Rewrite fltb_nan_l fltb_nan_r fltb_irrefl : pyfloat_rw.

(** * [sum] of floats: compensated summation, as the interpreter does since 3.12 *)

Definition sum_step (s : float * float) (x : float) : float * float :=
  let '(f, c) := s in
  let t := fadd f x in
  (t, fadd c (if fgeb (fabs f) (fabs x) then fadd (fsub f t) x else fadd (fsub x t) f)).

Definition fsum (l : list float) : float :=
  let '(f, c) := fold_left sum_step l (fzero, fzero) in
  if feqb c fzero || is_nan c || is_inf c then f else fadd f c.
