(* ===== verification/PyVal.v ===== *)
(** Dynamically typed Python values (what [yaml.safe_load] and [json.loads]
    return and what [json.dumps] accepts), insertion-ordered dictionaries, the
    text functions the code applies to them ([strip], [lower], [str], [repr],
    [int], [float]) and the coercion helpers shared by several modules.
    Text is ASCII and dictionary keys are strings. *)

From S2P Require Import Prelude PyFloat.

Local Open Scope Z_scope.

(** * Text *)

Definition is_space (c : ascii) : bool :=
  let n := N_of_ascii c in
  ((9 <=? n) && (n <=? 13) || (28 <=? n) && (n <=? 32))%N.

Fixpoint lstrip (s : string) : string :=
  match s with
  | String c s' => if is_space c then lstrip s' else s
  | EmptyString => EmptyString
  end.

(** Drop the trailing white space of a text. *)
Fixpoint rstrip (s : string) : string :=
  match s with
  | String c s' =>
      match rstrip s' with
      | EmptyString => if is_space c then EmptyString else String c EmptyString
      | t => String c t
      end
  | EmptyString => EmptyString
  end.

Definition strip (s : string) : string := rstrip (lstrip s).

Definition lower_char (c : ascii) : ascii :=
  let n := N_of_ascii c in
  if ((65 <=? n) && (n <=? 90))%N then ascii_of_N (n + 32) else c.
Definition upper_char (c : ascii) : ascii :=
  let n := N_of_ascii c in
  if ((97 <=? n) && (n <=? 122))%N then ascii_of_N (n - 32) else c.

Fixpoint map_string (f : ascii → ascii) (s : string) : string :=
  match s with
  | String c s => String (f c) (map_string f s)
  | EmptyString => EmptyString
  end.

Definition lower : string → string := map_string lower_char.
Definition upper : string → string := map_string upper_char.

Fixpoint string_rev_app (s acc : string) : string :=
  match s with
  | String c s => string_rev_app s (String c acc)
  | EmptyString => acc
  end.
Definition string_rev (s : string) : string := string_rev_app s "".

Definition starts_with (p s : string) : bool := String.prefix p s.
Definition ends_with (p s : string) : bool := String.prefix (string_rev p) (string_rev s).

(** [s.split(sep, 1)] for a one-character separator that occurs in [s]. *)
Fixpoint split_once (sep : ascii) (s : string) : option (string * string) :=
  match s with
  | EmptyString => None
  | String c s =>
      if Ascii.eqb c sep then Some ("", s)
      else match split_once sep s with
           | Some (l, r) => Some (String c l, r)
           | None => None
           end
  end.

(** [s.split(sep)] for a one-character separator. *)
Fixpoint split_all (sep : ascii) (s : string) : list string :=
  match s with
  | EmptyString => [""]
  | String c s => if Ascii.eqb c sep then "" :: split_all sep s else match split_all sep s with [] => [String c ""] | x :: l => String c x :: l end
  end.

Fixpoint string_chars (s : string) : list string :=
  match s with
  | String c s => String c "" :: string_chars s
  | EmptyString => []
  end.

(** [s.replace(c, t)] for a one-character pattern. *)
Fixpoint replace_char (c : ascii) (t s : string) : string :=
  match s with
  | String x s => if Ascii.eqb x c then t +:+ replace_char c t s else String x (replace_char c t s)
  | EmptyString => EmptyString
  end.

Fixpoint join (sep : string) (l : list string) : string :=
  match l with
  | [] => ""
  | [s] => s
  | s :: l => s +:+ sep +:+ join sep l
  end.

(** * Numbers in text *)

Definition digit_of (c : ascii) : option Z :=
  let n := Z.of_N (N_of_ascii c) in
  if (48 <=? n) && (n <=? 57) then Some (n - 48) else None.

(** Digits with single underscores between them: value, count and the rest. *)
Fixpoint scan_digits (s : string) (acc cnt : Z) : Z * Z * string :=
  match s with
  | String c rest =>
      match digit_of c with
      | Some d => scan_digits rest (acc * 10 + d) (cnt + 1)
      | None =>
          match rest with
          | String c' _ =>
              if Ascii.eqb c "_"%char && (0 <? cnt) && (match digit_of c' with Some _ => true | None => false end)
              then scan_digits rest acc cnt
              else (acc, cnt, s)
          | EmptyString => (acc, cnt, s)
          end
      end
  | EmptyString => (acc, cnt, s)
  end.

Definition scan_sign (s : string) : bool * string :=
  match s with
  | String c r => if Ascii.eqb c "-"%char then (true, r) else if Ascii.eqb c "+"%char then (false, r) else (false, s)
  | EmptyString => (false, s)
  end.

(** [int(text)]; [None] is [ValueError]. *)
Definition parse_int (s : string) : option Z :=
  let '(neg, r) := scan_sign (strip s) in
  let '(v, n, rest) := scan_digits r 0 0 in
  if (0 <? n) && String.eqb rest "" then Some (with_sign neg v) else None.

Definition scan_exponent (s : string) : option (Z * string) :=
  match s with
  | String c r =>
      if Ascii.eqb (lower_char c) "e"%char then
        let '(neg, r) := scan_sign r in
        let '(v, n, rest) := scan_digits r 0 0 in
        if 0 <? n then Some (with_sign neg v, rest) else None
      else Some (0, s)
  | EmptyString => Some (0, s)
  end.

Definition signed (neg : bool) (x : float) : float := if neg then fopp x else x.

(** A decimal literal: [m * 10^e] with its sign, an infinity or a NaN. *)
Inductive number := NFin (neg : bool) (m e : Z) | NInf (neg : bool) | NNan.

(** The text [float] and [Decimal] read; [None] when it is no number. *)
Definition parse_number (s : string) : option number :=
  let '(neg, r) := scan_sign (strip s) in
  if str_in (lower r) ["inf"; "infinity"] then Some (NInf neg)
  else if String.eqb (lower r) "nan" then Some NNan
  else
    let '(v, n, rest) := scan_digits r 0 0 in
    let '(v, m, rest) :=
      match rest with
      | String c r' =>
          if Ascii.eqb c "."%char then
            let '(f, m, rest') := scan_digits r' 0 0 in (v * 10 ^ m + f, m, rest')
          else (v, 0, rest)
      | EmptyString => (v, 0, rest)
      end in
    match scan_exponent rest with
    | Some (e, rest') =>
        if (0 <? n + m) && String.eqb rest' "" then Some (NFin neg v (e - m)) else None
    | None => None
    end.

(** [float(text)]; [None] is [ValueError]. *)
Definition parse_float (s : string) : option float :=
  match parse_number s with
  | Some (NFin neg m e) => Some (signed neg (of_dec m e))
  | Some (NInf neg) => Some (S754_infinity neg)
  | Some NNan => Some S754_nan
  | None => None
  end.

(** * Values *)

#[warnings="-register-all"]
Inductive pyval : Type :=
  | VNone
  | VBool (b : bool)
  | VInt (z : Z)
  | VFloat (f : float)
  | VStr (s : string)
  | VList (l : list pyval)
  | VDict (d : list (string * pyval)).

Abbreviation dict := (list (string * pyval)).

Section pyval_ind.
  Variable P : pyval → Prop.
  Hypothesis Hnone : P VNone.
  Hypothesis Hbool : ∀ b, P (VBool b).
  Hypothesis Hint : ∀ z, P (VInt z).
  Hypothesis Hfloat : ∀ f, P (VFloat f).
  Hypothesis Hstr : ∀ s, P (VStr s).
  Hypothesis Hlist : ∀ l, Forall P l → P (VList l).
  Hypothesis Hdict : ∀ d, Forall (λ kv, P kv.2) d → P (VDict d).

  (** Induction on values with the hypothesis for every element. *)
Fixpoint pyval_rect_nested (v : pyval) : P v :=
    match v with
    | VNone => Hnone
    | VBool b => Hbool b
    | VInt z => Hint z
    | VFloat f => Hfloat f
    | VStr s => Hstr s
    | VList l => Hlist l ((fix go l : Forall P l :=
        match l with
        | [] => Forall_nil_2 _
        | v :: l => Forall_cons_2 _ _ _ (pyval_rect_nested v) (go l)
        end) l)
    | VDict d => Hdict d ((fix go d : Forall (λ kv, P kv.2) d :=
        match d with
        | [] => Forall_nil_2 _
        | kv :: d => Forall_cons_2 _ _ _ (pyval_rect_nested kv.2) (go d)
        end) d)
    end.
End pyval_ind.

Definition is_mapping (v : pyval) : bool := match v with VDict _ => true | _ => false end.

#[export] Instance truthy_pyval : Truthy pyval := λ v,
  match v with
  | VNone => false
  | VBool b => b
  | VInt z => truthy z
  | VFloat f => truthy f
  | VStr s => truthy s
  | VList l => truthy l
  | VDict d => truthy d
  end.

(** * Dictionaries: insertion order, one entry per key *)

Fixpoint dlookup {A} (k : string) (d : list (string * A)) : option A :=
  match d with
  | [] => None
  | (k', v) :: d => if String.eqb k k' then Some v else dlookup k d
  end.

(** Assignment replaces in place or appends. *)
Fixpoint dset {A} (k : string) (v : A) (d : list (string * A)) : list (string * A) :=
  match d with
  | [] => [(k, v)]
  | (k', v') :: d => if String.eqb k k' then (k', v) :: d else (k', v') :: dset k v d
  end.

Fixpoint dpop {A} (k : string) (d : list (string * A)) : list (string * A) :=
  match d with
  | [] => []
  | (k', v') :: d => if String.eqb k k' then d else (k', v') :: dpop k d
  end.

(** [d.get(k)]: a missing key and a [None] value are both [None]. *)
Definition dget (k : string) (d : dict) : pyval := default VNone (dlookup k d).
Definition dget_or (k : string) (dflt : pyval) (d : dict) : pyval := default dflt (dlookup k d).

Definition dmem {A} (k : string) (d : list (string * A)) : bool :=
  match dlookup k d with Some _ => true | None => false end.

(** [d[k]] *)
Definition dindex {A} (k : string) (d : list (string * A)) : res A :=
  match dlookup k d with Some v => Ok v | None => Raise (KeyError k) end.

(** [v.get(k)] on a value that may not be a mapping. *)
Definition vget (v : pyval) (k : string) : res pyval :=
  match v with
  | VDict d => Ok (dget k d)
  | _ => Raise (AttributeError "get")
  end.
Definition vget_or (v : pyval) (k : string) (dflt : pyval) : res pyval :=
  match v with
  | VDict d => Ok (dget_or k dflt d)
  | _ => Raise (AttributeError "get")
  end.

Definition as_dict_or_empty (v : pyval) : dict := match v with VDict d => d | _ => [] end.

(** Merge the entries of [ov] into [merged], in order (also [dict.update] and
    the [{**a, **b}] display). *)
Definition dupdate (d ov : dict) : dict := fold_left (λ m kv, dset kv.1 kv.2 m) ov d.

Definition keys {A} (d : list (string * A)) : list string := d.*1.

Lemma dlookup_dset_eq {A} k (v : A) d : dlookup k (dset k v d) = Some v.
Proof.
  induction d as [|[k' v'] d IH]; simpl; [by rewrite String.eqb_refl|].
  destruct (String.eqb k k') eqn:E; simpl; by rewrite E.
Qed.

Lemma dlookup_dset_ne {A} k k' (v : A) d : k ≠ k' → dlookup k' (dset k v d) = dlookup k' d.
Proof.
  intros Hne. induction d as [|[k1 v1] d IH]; simpl.
  - destruct (String.eqb_spec k' k); [congruence|done].
  - destruct (String.eqb_spec k k1) as [->|]; simpl; [|by rewrite IH].
    by destruct (String.eqb_spec k' k1); [congruence|].
Qed.

Lemma dlookup_None_keys {A} k (d : list (string * A)) : dlookup k d = None ↔ k ∉ keys d.
Proof.
  induction d as [|[k' v'] d IH]; simpl; [by split; [intros _ ?%elem_of_nil|]|].
  rewrite elem_of_cons. destruct (String.eqb_spec k k'); [|rewrite IH; tauto].
  split; [done|]. intros H. exfalso. auto.
Qed.

Lemma keys_dset {A} k (v : A) d :
  keys (dset k v d) = if dmem k d then keys d else keys d ++ [k].
Proof.
  unfold dmem. induction d as [|[k' v'] d IH]; simpl; [done|].
  destruct (String.eqb k k'); simpl; [done|]. rewrite IH. by destruct (dlookup k d).
Qed.

Lemma NoDup_dset {A} k (v : A) d : NoDup (keys d) → NoDup (keys (dset k v d)).
Proof.
  intros H. rewrite keys_dset. unfold dmem. destruct (dlookup k d) eqn:E; [done|].
  apply dlookup_None_keys in E. apply NoDup_app. split_and!; [done| |apply NoDup_singleton].
  intros x Hx ->%list_elem_of_singleton. done.
Qed.

Lemma dlookup_in {A} k (v : A) d : NoDup (keys d) → (k, v) ∈ d ↔ dlookup k d = Some v.
Proof.
  induction d as [|[x y] d IH]; cbn; intros Hn; [split; [by intros ?%not_elem_of_nil|done]|]. apply NoDup_cons in Hn as [Hx Hn].
  rewrite elem_of_cons. destruct (String.eqb_spec k x) as [->|Hk].
  - split; [intros [[= ->]|H2]; [done|]|intros [= ->]; by left]. destruct Hx. apply list_elem_of_fmap. by exists (x, v).
  - rewrite <- IH by done. split; [intros [[= -> ->]|]; done|by right].
Qed.

Lemma elem_of_dset {A} k k' (v v' : A) d : (k', v') ∈ dset k v d → (k' = k ∧ v' = v) ∨ (k', v') ∈ d.
Proof.
  induction d as [|[x y] d IH]; cbn; [intros [= -> ->]%list_elem_of_singleton; by left|].
  destruct (String.eqb k x) eqn:E; intros [[= -> ->]|H]%elem_of_cons; to_props.
  - left. by subst.
  - right. by constructor.
  - right. constructor.
  - destruct (IH H); [by left|right; by constructor].
Qed.

Lemma dlookup_dpop_eq {A} k (d : list (string * A)) :
  NoDup (keys d) → dlookup k (dpop k d) = None.
Proof.
  induction d as [|[k' v'] d IH]; simpl; intros H; [done|].
  apply NoDup_cons in H as [H1 H2].
  destruct (String.eqb_spec k k') as [->|Hne]; simpl; [by apply dlookup_None_keys|].
  by destruct (String.eqb_spec k k'); [|apply IH].
Qed.

Lemma dlookup_dpop_ne {A} k k' (d : list (string * A)) :
  k ≠ k' → dlookup k' (dpop k d) = dlookup k' d.
Proof.
  intros Hne. induction d as [|[k1 v1] d IH]; simpl; [done|].
  destruct (String.eqb_spec k k1) as [->|]; simpl; [|by rewrite IH].
  by destruct (String.eqb_spec k' k1); [congruence|].
Qed.

Lemma keys_dpop_subseteq {A} k (d : list (string * A)) : keys (dpop k d) `sublist_of` keys d.
Proof.
  induction d as [|[k' v'] d IH]; simpl; [constructor|].
  destruct (String.eqb k k'); simpl; by constructor.
Qed.

Lemma NoDup_dpop {A} k (d : list (string * A)) : NoDup (keys d) → NoDup (keys (dpop k d)).
Proof. intros H. eapply sublist_NoDup; [done|apply keys_dpop_subseteq]. Qed.

Create Rewrite HintDb pydict.
#[export] Hint Rewrite @dlookup_dset_eq : pydict.
#[export] Hint Rewrite @dlookup_dset_ne using congruence : pydict.
#[export] Hint Rewrite @dlookup_dpop_ne using congruence : pydict.

Lemma dget_dset_eq k v d : dget k (dset k v d) = v.
Proof. unfold dget. by rewrite dlookup_dset_eq. Qed.
Lemma dget_dset_ne k k' v d : k ≠ k' → dget k' (dset k v d) = dget k' d.
Proof. intros H. unfold dget. by rewrite dlookup_dset_ne. Qed.

(** * [str] and [repr] *)

Definition hex_digit (n : N) : string :=
  String (ascii_of_N (if (n <? 10)%N then 48 + n else 87 + n)) "".

(** One character of a quoted string, [q] being the quote in use. *)
Definition repr_char (q c : ascii) : string :=
  let n := N_of_ascii c in
  if Ascii.eqb c q || Ascii.eqb c "\"%char then String "\"%char (String c "")
  else if (n =? 10)%N then "\n"
  else if (n =? 13)%N then "\r"
  else if (n =? 9)%N then "\t"
  else if ((n <? 32) || (n =? 127))%N then "\x" +:+ hex_digit (n / 16) +:+ hex_digit (n mod 16)
  else String c "".

Fixpoint repr_chars (q : ascii) (s : string) : string :=
  match s with
  | String c s => repr_char q c +:+ repr_chars q s
  | EmptyString => ""
  end.

Fixpoint has_char (c : ascii) (s : string) : bool :=
  match s with String x s => Ascii.eqb x c || has_char c s | EmptyString => false end.

Definition squote : ascii := ascii_of_N 39.
Definition dquote : ascii := ascii_of_N 34.

Definition str_repr (s : string) : string :=
  let q := if has_char squote s && negb (has_char dquote s) then dquote else squote in
  String q (repr_chars q s +:+ String q "").

Fixpoint py_repr (v : pyval) : string :=
  match v with
  | VNone => "None"
  | VBool b => if b then "True" else "False"
  | VInt z => pretty z
  | VFloat f => frepr f
  | VStr s => str_repr s
  | VList l => "[" +:+ join ", " ((fix go l := match l with [] => [] | v :: l => py_repr v :: go l end) l) +:+ "]"
  | VDict d => "{" +:+ join ", " ((fix go d := match d with [] => [] | (k, v) :: d => (str_repr k +:+ ": " +:+ py_repr v) :: go d end) d) +:+ "}"
  end.

(** [str(v)] *)
Definition py_str (v : pyval) : string := match v with VStr s => s | _ => py_repr v end.

(** Iterating over a value. *)
Definition py_iter (v : pyval) : res (list pyval) :=
  match v with
  | VList l => Ok l
  | VStr s => Ok (VStr <$> string_chars s)
  | VDict d => Ok (VStr <$> keys d)
  | _ => Raise (TypeError "object is not iterable")
  end.

(** [float(v)] and [int(v)] on an arbitrary value. *)
Definition py_float (v : pyval) : res float :=
  match v with
  | VBool b => Ok (of_Z (if b then 1 else 0))
  | VInt z => float_of_int z
  | VFloat f => Ok f
  | VStr s => match parse_float s with Some f => Ok f | None => Raise (ValueError "could not convert string to float") end
  | _ => Raise (TypeError "float() argument must be a string or a real number")
  end.

Definition py_int (v : pyval) : res Z :=
  match v with
  | VBool b => Ok (if b then 1 else 0)
  | VInt z => Ok z
  | VFloat f => ftrunc f
  | VStr s => match parse_int s with Some z => Ok z | None => Raise (ValueError "invalid literal for int()") end
  | _ => Raise (TypeError "int() argument must be a string or a real number")
  end.

(** Equality of values: numbers compare across types, [dict] up to order. *)
Definition num_of (v : pyval) : option (Z + float) :=
  match v with
  | VBool b => Some (inl (if b then 1 else 0))
  | VInt z => Some (inl z)
  | VFloat f => Some (inr f)
  | _ => None
  end.

(** The test [v == s] against a text constant. *)
Definition eq_str (v : pyval) (s : string) : bool :=
  match v with VStr t => String.eqb t s | _ => false end.

(** * Structural equality *)

Fixpoint pyval_eqb (a b : pyval) : bool :=
  match a, b with
  | VNone, VNone => true
  | VBool x, VBool y => Bool.eqb x y
  | VInt x, VInt y => Z.eqb x y
  | VFloat x, VFloat y => bool_decide (x = y)
  | VStr x, VStr y => String.eqb x y
  | VList l, VList l' =>
      (fix go l l' := match l, l' with
        | [], [] => true
        | a :: l, b :: l' => pyval_eqb a b && go l l'
        | _, _ => false end) l l'
  | VDict d, VDict d' =>
      (fix go d d' := match d, d' with
        | [], [] => true
        | (k, a) :: d, (k', b) :: d' => String.eqb k k' && pyval_eqb a b && go d d'
        | _, _ => false end) d d'
  | _, _ => false
  end.

Lemma pyval_eqb_eq a b : pyval_eqb a b = true ↔ a = b.
Proof.
  revert b. induction a as [|x|x|x|x|l IH|d IH] using pyval_rect_nested; intros b; destruct b; simpl;
    try (split; [done | intros [=]]); try done.
  - rewrite Bool.eqb_true_iff. split; congruence.
  - rewrite Z.eqb_eq. split; congruence.
  - rewrite bool_decide_eq_true. split; congruence.
  - rewrite String.eqb_eq. split; congruence.
  - revert l0. induction IH as [|a l Ha _ IH]; intros [|b l']; try (split; [done | intros [=]]); try done.
    rewrite andb_true_iff, Ha, IH. split; [intros [-> [= ->]]; done | intros [= -> ->]; done].
  - revert d0. induction IH as [|[k a] l Ha _ IH]; intros [|[k' b] l']; try (split; [done | intros [=]]); try done.
    rewrite !andb_true_iff, IH, String.eqb_eq. simpl in Ha. rewrite Ha.
    split; [intros [[-> ->] [= ->]]; done | intros [= -> -> ->]; done].
Qed.

#[export] Instance pyval_eq_dec : EqDecision pyval.
Proof.
  intros a b. destruct (pyval_eqb a b) eqn:E.
  - left. by apply pyval_eqb_eq.
  - right. intros H. apply pyval_eqb_eq in H. congruence.
Defined.

(** * Recursive merge of configuration mappings *)

Fixpoint merge_val (old : option pyval) (v : pyval) {struct v} : pyval :=
  match v, old with
  | VDict ov, Some (VDict b) =>
      VDict ((fix go (merged : dict) (ov : dict) : dict :=
        match ov with
        | [] => merged
        | (k, v') :: ov => go (dset k (merge_val (dlookup k merged) v') merged) ov
        end) b ov)
  | _, _ => v
  end.

Fixpoint merge_into (merged ov : dict) : dict :=
  match ov with
  | [] => merged
  | (k, v) :: ov => merge_into (dset k (merge_val (dlookup k merged) v) merged) ov
  end.

Lemma merge_val_dict b ov : merge_val (Some (VDict b)) (VDict ov) = VDict (merge_into b ov).
Proof. reflexivity. Qed.

Lemma dlookup_merge_into k b ov :
  NoDup (keys ov) →
  dlookup k (merge_into b ov) =
    match dlookup k ov with
    | Some v => Some (merge_val (dlookup k b) v)
    | None => dlookup k b
    end.
Proof.
  revert b. induction ov as [|[k' v] ov IH]; intros b Hnd; simpl; [done|].
  apply NoDup_cons in Hnd as [Hk Hnd]. rewrite (IH _ Hnd).
  destruct (String.eqb_spec k k') as [->|Hne].
  - apply dlookup_None_keys in Hk. simpl in Hk. rewrite Hk. by rewrite dlookup_dset_eq.
  - by rewrite dlookup_dset_ne by congruence.
Qed.

(** [v[k]] on a value that may not be a mapping. *)
Definition vindex (v : pyval) (k : string) : res pyval :=
  match v with
  | VDict d => dindex k d
  | _ => Raise (TypeError "indices must be integers or slices")
  end.

(** [v in {"a", "b"}] for a set of text constants. *)
Definition v_in (v : pyval) (l : list string) : bool :=
  match v with VStr s => str_in s l | _ => false end.

(** Python's [<] on text. *)
Definition str_ltb (a b : string) : bool := String.ltb a b.

(** [sorted(texts)] *)
Definition sorted_strings (l : list string) : list string := isort str_ltb l.

Definition vopt_str (o : option string) : pyval := match o with Some s => VStr s | None => VNone end.
Definition vopt_float (o : option float) : pyval := match o with Some f => VFloat f | None => VNone end.

(** * Trimming and suffix tests on text that ends in a given character *)

Lemma rstrip_snoc s c : is_space c = false → rstrip (s +:+ String c "") = s +:+ String c "".
Proof.
  intros Hc. induction s as [|x s IH]; [cbn; by rewrite Hc|].
  cbn. rewrite IH. by destruct s.
Qed.

Lemma string_rev_app_spec s acc : string_rev_app s acc = string_rev s +:+ acc.
Proof.
  unfold string_rev. revert acc. induction s as [|x s IH]; intros acc; simpl; [done|].
  rewrite IH, (IH (String x "")), string_app_assoc. done.
Qed.

Lemma string_rev_snoc s c : string_rev (s +:+ String c "") = String c (string_rev s).
Proof.
  induction s as [|x s IH]; [done|].
  change (string_rev (String x s)) with (string_rev_app s (String x "")).
  change (string_rev (String x s +:+ String c "")) with (string_rev_app (s +:+ String c "") (String x "")).
  by rewrite !string_rev_app_spec, IH.
Qed.

Lemma ends_with_char_snoc c s x : ends_with (String c "") (s +:+ String x "") = bool_decide (c = x).
Proof.
  unfold ends_with. rewrite string_rev_snoc.
  change (string_rev (String c "")) with (String c ""). cbn [String.prefix].
  destruct (ascii_dec c x) as [Hc|Hc].
  - rewrite bool_decide_true by done. by destruct (string_rev s).
  - by rewrite bool_decide_false.
Qed.

Lemma v_in_false2 v a b : v_in v [a; b] = false ↔ v ≠ VStr a ∧ v ≠ VStr b.
Proof.
  destruct v; simpl; try (split; [by split|done]).
  rewrite orb_false_r, orb_false_iff, !String.eqb_neq. split; intros [? ?]; split; congruence.
Qed.

(** [dict(value)]: a mapping, or a sequence of key-value pairs with text keys. *)
Definition pair_of (v : pyval) : res (string * pyval) :=
  l ← py_iter v;
  match l with
  | [VStr k; x] => Ok (k, x)
  | [_; _] => Raise (TypeError "unhashable or non-text key")
  | _ => Raise (ValueError "dictionary update sequence element has the wrong length")
  end.

Definition to_dict (v : pyval) : res dict :=
  match v with
  | VDict d => Ok d
  | _ => l ← py_iter v; kvs ← mapM_res pair_of l; Ok (dupdate [] kvs)
  end.

(** * JSON text, [json.dumps(value, ensure_ascii=False)] *)

Definition json_char (c : ascii) : string :=
  let n := N_of_ascii c in
  if Ascii.eqb c dquote then String "\" (String dquote "")
  else if Ascii.eqb c "\" then "\\"
  else if (n =? 10)%N then "\n" else if (n =? 13)%N then "\r" else if (n =? 9)%N then "\t"
  else if (n =? 8)%N then "\b" else if (n =? 12)%N then "\f"
  else if (n <? 32)%N then "\u00" +:+ hex_digit (n / 16) +:+ hex_digit (n mod 16)
  else String c "".

Fixpoint json_chars (s : string) : string :=
  match s with EmptyString => EmptyString | String c s => json_char c +:+ json_chars s end.

Definition json_string (s : string) : string := String dquote (json_chars s) +:+ String dquote "".

Definition json_float (x : float) : string :=
  if is_nan x then "NaN" else if is_inf x then (if fltb x fzero then "-Infinity" else "Infinity") else frepr x.

Fixpoint json_dumps (v : pyval) : string :=
  match v with
  | VNone => "null"
  | VBool b => if b then "true" else "false"
  | VInt z => pretty z
  | VFloat x => json_float x
  | VStr s => json_string s
  | VList l => "[" +:+ join ", " (json_dumps <$> l) +:+ "]"
  | VDict d => "{" +:+ join ", " ((λ kv : string * pyval, json_string kv.1 +:+ ": " +:+ json_dumps kv.2) <$> d) +:+ "}"
  end.

(** * The order of text *)

Lemma string_compare_trans a b c :
  String.compare a b = Lt → String.compare b c = Lt → String.compare a c = Lt.
Proof.
  revert b c. induction a as [|x a IH]; intros [|y b] [|z c]; cbn; try done.
  unfold Ascii.compare.
  destruct (N.compare_spec (N_of_ascii x) (N_of_ascii y)) as [E|E|E]; try done;
    destruct (N.compare_spec (N_of_ascii y) (N_of_ascii z)) as [E'|E'|E']; try done; intros H1 H2.
  - rewrite E, E', N.compare_refl. by eapply IH.
  - rewrite E. by apply N.compare_lt_iff in E' as ->.
  - rewrite <- E'. by apply N.compare_lt_iff in E as ->.
  - assert (N_of_ascii x < N_of_ascii z)%N as ->%N.compare_lt_iff by lia. done.
Qed.

Lemma string_compare_refl a : String.compare a a = Eq.
Proof. pose proof (String.compare_antisym a a). by destruct (String.compare a a). Qed.

Lemma str_ltb_asym a b : str_ltb a b = true → str_ltb b a = false.
Proof.
  unfold str_ltb, String.ltb. rewrite (String.compare_antisym b a). by destruct (String.compare a b).
Qed.

Lemma str_ltb_total a b : str_ltb a b = false → str_ltb b a = false → a = b.
Proof.
  unfold str_ltb, String.ltb. rewrite (String.compare_antisym b a).
  destruct (String.compare a b) eqn:E; try done. intros _ _. by apply String.compare_eq_iff.
Qed.

Lemma str_ltb_ge_trans a b c : str_ltb b a = false → str_ltb c b = false → str_ltb c a = false.
Proof.
  intros H1 H2. destruct (str_ltb c a) eqn:E; [|done].
  destruct (str_ltb a b) eqn:Eab.
  - unfold str_ltb, String.ltb in *.
    destruct (String.compare c a) eqn:E1; try done. destruct (String.compare a b) eqn:E2; try done.
    by rewrite (string_compare_trans c a b E1 E2) in H2.
  - by rewrite (str_ltb_total a b Eab H1), H2 in E.
Qed.
(** * The text of a truthy value is not empty *)

Lemma app_not_empty_l a b : a ≠ "" → a +:+ b ≠ "".
Proof. by destruct a. Qed.
Lemma app_not_empty_r a b : b ≠ "" → a +:+ b ≠ "".
Proof. by destruct a. Qed.

Create HintDb pytext discriminated.
#[export] Hint Resolve app_not_empty_l app_not_empty_r : pytext.
#[export] Hint Extern 1 (String _ _ ≠ "") => discriminate : pytext.

Lemma pretty_N_not_empty n s : (0 < n)%N ∨ s ≠ "" → pretty_N_go n s ≠ "".
Proof.
  revert s. induction (N.lt_wf_0 n) as [n _ IH]; intros s Hs.
  destruct (N.eq_dec n 0) as [->|Hn]; [rewrite pretty_N_go_0; destruct Hs; [lia|done]|].
  rewrite pretty_N_go_step by lia. apply IH; [apply N.div_lt; lia|by right].
Qed.

Lemma pretty_Z_not_empty (z : Z) : pretty z ≠ "".
Proof.
  destruct z as [|p|p]; [done|change (pretty (Npos p) ≠ "")|by apply app_not_empty_l].
  unfold pretty, pretty_N. destruct (decide _); [done|]. apply pretty_N_not_empty. by left.
Qed.

Lemma frepr_not_empty x : frepr x ≠ "".
Proof.
  destruct x as [[]|[]| |s m e]; try done. cbn [frepr]. destruct (ratio_of m e) as [n d]. destruct (shortest _ _ _ _ _ _) as [q e'].
  apply app_not_empty_r. unfold layout. destruct (trim_zeros _ _ _) as [q' e'']. cbv zeta.
  repeat case_match_goal; eauto 6 with pytext.
Qed.

Lemma py_str_not_empty v : truthy v = true → py_str v ≠ "".
Proof.
  destruct v as [|[]|z|x|s|l|d]; cbn; try done; intros H.
  - apply pretty_Z_not_empty.
  - apply frepr_not_empty.
  - intros ->. done.
Qed.

(** [v.get(k) or v.get(k')], the second lookup made only when it is needed. *)
Definition get_either (v : pyval) (k k' : string) : res pyval := x ← vget v k; if truthy x then Ok x else vget v k'.

Local Open Scope py_scope.
Lemma int_or z : py_int (VInt z or? VInt 0) = Ok z.
Proof. unfold py_or. change (truthy (VInt z)) with (negb (z =? 0)%Z). by destruct (Z.eqb_spec z 0) as [->|]. Qed.

Lemma text_or (s dflt : string) : py_str (VStr s or? VStr dflt) = if String.eqb s "" then dflt else s.
Proof. change (py_str (if negb (String.eqb s "") then VStr s else VStr dflt) = if String.eqb s "" then dflt else s). by destruct (String.eqb s ""). Qed.
