(* ===== verification/PyEnv.v ===== *)
(** The environment of the modelled code: [datetime] values with their ISO
    8601 text, and the world a component writes to (the wall clock and the
    [uuid4] source it reads, and the JSONL records it appends).  A component
    reaches the world through the class [HasWorld]. *)

From S2P Require Import Prelude PyFloat PyVal.

Local Open Scope Z_scope.

(** * [datetime]: civil fields and a UTC offset in seconds ([None] is naive) *)

Record datetime : Type := DateTime {
  dt_year : Z; dt_month : Z; dt_day : Z;
  dt_hour : Z; dt_minute : Z; dt_second : Z; dt_micro : Z;
  dt_tz : option Z;
}.

#[export] Instance datetime_eq_dec : EqDecision datetime.
Proof. solve_decision. Defined.

Definition is_leap (y : Z) : bool :=
  (y mod 4 =? 0) && (negb (y mod 100 =? 0) || (y mod 400 =? 0)).

Definition days_in_month (y m : Z) : Z :=
  if m =? 2 then (if is_leap y then 29 else 28)
  else if existsb (Z.eqb m) [4; 6; 9; 11] then 30 else 31.

Definition in_range (lo z hi : Z) : bool := (lo <=? z) && (z <=? hi).

Definition valid_tz (o : option Z) : bool :=
  match o with Some z => in_range (-86399) z 86399 | None => true end.

Definition valid_dt (d : datetime) : bool :=
  in_range 1 (dt_year d) 9999 && in_range 1 (dt_month d) 12 &&
  in_range 1 (dt_day d) (days_in_month (dt_year d) (dt_month d)) &&
  in_range 0 (dt_hour d) 23 && in_range 0 (dt_minute d) 59 &&
  in_range 0 (dt_second d) 59 && in_range 0 (dt_micro d) 999999 && valid_tz (dt_tz d).

(** ** Text *)

Definition digit_char (n : Z) : ascii := ascii_of_N (Z.to_N (48 + n)).
Definition pad2 (n : Z) : string := String (digit_char (n / 10)) (String (digit_char (n mod 10)) "").
Definition pad4 (n : Z) : string := pad2 (n / 100) +:+ pad2 (n mod 100).
Definition pad6 (n : Z) : string := pad2 (n / 10000) +:+ pad4 (n mod 10000).

Definition iso_offset (o : option Z) : string :=
  match o with
  | None => ""
  | Some z =>
      let a := Z.abs z in
      (if z <? 0 then "-" else "+") +:+ pad2 (a / 3600) +:+ ":" +:+ pad2 (a / 60 mod 60) +:+
      (if a mod 60 =? 0 then "" else ":" +:+ pad2 (a mod 60))
  end.

Definition iso_date (d : datetime) : string :=
  pad4 (dt_year d) +:+ "-" +:+ pad2 (dt_month d) +:+ "-" +:+ pad2 (dt_day d).

Definition iso_clock (d : datetime) : string :=
  pad2 (dt_hour d) +:+ ":" +:+ pad2 (dt_minute d) +:+ ":" +:+ pad2 (dt_second d) +:+
  (if dt_micro d =? 0 then "" else "." +:+ pad6 (dt_micro d)).

Definition isoformat (d : datetime) : string :=
  iso_date d +:+ "T" +:+ iso_clock d +:+ iso_offset (dt_tz d).

(** Fixed-width readers. *)
Definition take2 (s : string) : option (Z * string) :=
  match s with
  | String a (String b r) =>
      match digit_of a, digit_of b with
      | Some x, Some y => Some (x * 10 + y, r)
      | _, _ => None
      end
  | _ => None
  end.

Definition take4 (s : string) : option (Z * string) :=
  '(a, s) ← take2 s; '(b, s) ← take2 s; Some (a * 100 + b, s).

Definition expect (c : ascii) (s : string) : option string :=
  match s with
  | String x r => if Ascii.eqb x c then Some r else None
  | EmptyString => None
  end.

(** A fraction of a second: at most six digits count. *)
Fixpoint take_frac (fuel : nat) (s : string) (acc : Z) : Z * string :=
  match fuel with
  | O => (acc, s)
  | S fuel =>
      match s with
      | String c r =>
          match digit_of c with
          | Some d => take_frac fuel r (acc * 10 + d)
          | None => (acc * 10 ^ Z.of_nat (S fuel), s)
          end
      | EmptyString => (acc * 10 ^ Z.of_nat (S fuel), s)
      end
  end.

Definition parse_offset (s : string) : option (option Z) :=
  match s with
  | EmptyString => Some None
  | String c r =>
      if Ascii.eqb c "Z"%char then (if String.eqb r "" then Some (Some 0) else None)
      else if Ascii.eqb c "+"%char || Ascii.eqb c "-"%char then
        '(h, r) ← take2 r;
        r ← expect ":"%char r;
        '(m, r) ← take2 r;
        s ← (match r with
             | EmptyString => Some 0
             | _ => r ← expect ":"%char r; '(sec, r) ← take2 r;
                    if String.eqb r "" then Some sec else None
             end);
        Some (Some (with_sign (Ascii.eqb c "-"%char) (h * 3600 + m * 60 + s)))
      else None
  end.

Definition parse_clock (s : string) : option (Z * Z * Z * Z * string) :=
  '(h, s) ← take2 s;
  match expect ":"%char s with
  | None => Some (h, 0, 0, 0, s)
  | Some s =>
      '(m, s) ← take2 s;
      match expect ":"%char s with
      | None => Some (h, m, 0, 0, s)
      | Some s =>
          '(sec, s) ← take2 s;
          match expect "."%char s with
          | None => Some (h, m, sec, 0, s)
          | Some s => let '(us, s) := take_frac 6 s 0 in Some (h, m, sec, us, s)
          end
      end
  end.

(** [datetime.fromisoformat] on the extended calendar form
    [YYYY-MM-DD[THH[:MM[:SS[.ffffff]]]][offset]]; [None] is [ValueError].  The
    basic and week-date forms newer interpreters also accept are not read. *)
Definition fromisoformat (s : string) : option datetime :=
  '(y, s) ← take4 s;
  s ← expect "-"%char s;
  '(mo, s) ← take2 s;
  s ← expect "-"%char s;
  '(d, s) ← take2 s;
  dt ← (match s with
    | EmptyString => Some (DateTime y mo d 0 0 0 0 None)
    | String _ s =>
        '(h, m, sec, us, s) ← parse_clock s;
        tz ← parse_offset s;
        Some (DateTime y mo d h m sec us tz)
    end);
  if valid_dt dt then Some dt else None.

(** ** The time line: microseconds since the epoch, naive values read as UTC *)

Definition days_from_civil (y m d : Z) : Z :=
  let y := if m <=? 2 then y - 1 else y in
  let era := y / 400 in
  let yoe := y - era * 400 in
  let doy := (153 * (m + (if 2 <? m then -3 else 9)) + 2) / 5 + d - 1 in
  let doe := yoe * 365 + yoe / 4 - yoe / 100 + doy in
  era * 146097 + doe - 719468.

Definition civil_from_days (z : Z) : Z * Z * Z :=
  let z := z + 719468 in
  let era := z / 146097 in
  let doe := z - era * 146097 in
  let yoe := (doe - doe / 1460 + doe / 36524 - doe / 146096) / 365 in
  let doy := doe - (365 * yoe + yoe / 4 - yoe / 100) in
  let mp := (5 * doy + 2) / 153 in
  let d := doy - (153 * mp + 2) / 5 + 1 in
  let m := mp + (if mp <? 10 then 3 else -9) in
  (yoe + era * 400 + (if m <=? 2 then 1 else 0), m, d).

Definition utc_us (d : datetime) : Z :=
  ((days_from_civil (dt_year d) (dt_month d) (dt_day d) * 86400
    + dt_hour d * 3600 + dt_minute d * 60 + dt_second d
    - default 0 (dt_tz d)) * 1000000) + dt_micro d.

Definition from_utc_us (us : Z) : datetime :=
  let secs := us / 1000000 in
  let days := secs / 86400 in
  let s := secs mod 86400 in
  let '(y, m, d) := civil_from_days days in
  DateTime y m d (s / 3600) (s / 60 mod 60) (s mod 60) (us mod 1000000) (Some 0).

(** The two conversions are inverse on days and on microseconds. *)
Lemma civil_roundtrip z : let '(y, m, d) := civil_from_days z in days_from_civil y m d = z.
Proof.
  unfold civil_from_days. set (z' := z + 719468). set (era := z' / 146097). set (doe := z' - era * 146097).
  assert (0 <= doe < 146097) as Hdoe by (subst doe era; zdiv).
  set (yoe := (doe - doe / 1460 + doe / 36524 - doe / 146096) / 365).
  assert (0 <= yoe <= 399) as Hyoe by (subst yoe; clearbody doe; zdiv).
  set (doy := doe - (365 * yoe + yoe / 4 - yoe / 100)).
  assert (0 <= doy <= 365) as Hdoy by (subst doy yoe; clearbody doe; zdiv).
  set (mp := (5 * doy + 2) / 153). assert (0 <= mp <= 11) as Hmp by (subst mp; clearbody doy; zdiv).
  unfold days_from_civil.
  assert ((mp + (if mp <? 10 then 3 else -9) <=? 2) = negb (mp <? 10)) as Em.
  { destruct (Z.ltb_spec mp 10); cbn [negb]; [apply Z.leb_gt|apply Z.leb_le]; lia. }
  assert ((if mp + (if mp <? 10 then 3 else -9) <=? 2 then
    yoe + era * 400 + (if mp + (if mp <? 10 then 3 else -9) <=? 2 then 1 else 0) - 1
    else yoe + era * 400 + (if mp + (if mp <? 10 then 3 else -9) <=? 2 then 1 else 0)) = yoe + era * 400) as ->.
  { destruct (_ <=? 2); lia. }
  assert ((yoe + era * 400) / 400 = era) as -> by zdiv. replace (yoe + era * 400 - era * 400) with yoe by lia.
  replace (mp + (if mp <? 10 then 3 else -9) + (if 2 <? mp + (if mp <? 10 then 3 else -9) then -3 else 9)) with mp.
  2: { destruct (Z.ltb_spec mp 10); [rewrite (proj2 (Z.ltb_lt 2 _)) by lia|rewrite (proj2 (Z.ltb_ge 2 _)) by lia]; lia. }
  subst doy doe z'. lia.
Qed.

Lemma utc_us_from_utc_us us : utc_us (from_utc_us us) = us.
Proof.
  unfold from_utc_us. pose proof (civil_roundtrip (us / 1000000 / 86400)) as Hc.
  destruct (civil_from_days _) as [[y m] d]. unfold utc_us. cbn [dt_year dt_month dt_day dt_hour dt_minute dt_second dt_tz dt_micro default].
  rewrite Hc. cbn [default id]. zdiv.
Qed.

Definition minutes_us (m : Z) : Z := m * 60000000.
Definition hours_us (h : Z) : Z := h * 3600000000.

(** [datetime.now(timezone.utc).replace(microsecond=0).isoformat()] with the
    suffix "+00:00" of a UTC value replaced by "Z". *)
Definition iso_z (d : datetime) : string :=
  isoformat (DateTime (dt_year d) (dt_month d) (dt_day d) (dt_hour d) (dt_minute d) (dt_second d) 0 None) +:+ "Z".

(** [f"{now:%Y%m%d}"] *)
Definition yyyymmdd (d : datetime) : string := pad4 (dt_year d) +:+ pad2 (dt_month d) +:+ pad2 (dt_day d).

(** ** Reading back what [isoformat] prints *)

Lemma digit_of_char n : 0 <= n < 10 → digit_of (digit_char n) = Some n.
Proof.
  intros H.
  assert (n = 0 ∨ n = 1 ∨ n = 2 ∨ n = 3 ∨ n = 4 ∨ n = 5 ∨ n = 6 ∨ n = 7 ∨ n = 8 ∨ n = 9)
    as Hn by lia.
  repeat destruct Hn as [->|Hn]; [reflexivity..|]. by subst.
Qed.

Lemma take2_pad2 n r : 0 <= n < 100 → take2 (pad2 n +:+ r) = Some (n, r).
Proof.
  intros H. simpl. rewrite !digit_of_char by zdiv. do 2 f_equal. zdiv.
Qed.

Lemma take4_pad4 n r : 0 <= n < 10000 → take4 (pad4 n +:+ r) = Some (n, r).
Proof.
  intros H. unfold take4, pad4. rewrite string_app_assoc.
  rewrite take2_pad2 by zdiv. cbn [mbind option_bind].
  rewrite take2_pad2 by zdiv. cbn [mbind option_bind]. do 2 f_equal. zdiv.
Qed.

Lemma take_frac_pad6 n r : 0 <= n < 1000000 → take_frac 6 (pad6 n +:+ r) 0 = (n, r).
Proof.
  intros H. unfold pad6, pad4, pad2. simpl. rewrite !digit_of_char by zdiv. f_equal. zdiv.
Qed.

Lemma parse_iso_offset o : valid_tz o = true → parse_offset (iso_offset o) = Some o.
Proof.
  destruct o as [z|]; simpl; [|done]. unfold in_range. intros H. to_props.
  set (a := Z.abs z).
  assert (Ha : with_sign (z <? 0) (a / 3600 * 3600 + a / 60 mod 60 * 60 + a mod 60) = z).
  { unfold with_sign, a. destruct (z <? 0) eqn:?; to_props; zdiv. }
  assert (Hp : ∀ b : bool, parse_offset ((if b then "-" else "+") +:+ pad2 (a / 3600) +:+ ":" +:+
    pad2 (a / 60 mod 60) +:+ (if a mod 60 =? 0 then "" else ":" +:+ pad2 (a mod 60))) =
    Some (Some (with_sign b (a / 3600 * 3600 + a / 60 mod 60 * 60 + a mod 60)))).
  { intros b.
    assert (Hr : ∀ t, take2 (pad2 (a / 3600) +:+ t) = Some (a / 3600, t)) by (intros; apply take2_pad2; zdiv).
    assert (Hm : ∀ t, take2 (pad2 (a / 60 mod 60) +:+ t) = Some (a / 60 mod 60, t))
      by (intros; apply take2_pad2; zdiv).
    assert (Hs : take2 (pad2 (a mod 60)) = Some (a mod 60, ""))
      by (rewrite <- (string_app_nil_r (pad2 _)); apply take2_pad2; zdiv).
    destruct b; cbn -[pad2 take2 Z.mul Z.div Z.modulo]; rewrite Hr;
      cbn -[pad2 take2 Z.mul Z.div Z.modulo]; rewrite Hm;
      cbn -[pad2 take2 Z.mul Z.div Z.modulo]; destruct (a mod 60 =? 0) eqn:E;
      cbn -[pad2 take2 Z.mul Z.div Z.modulo]; to_props.
    all: rewrite ?Hs; cbn -[pad2 take2 Z.mul Z.div Z.modulo]; rewrite ?E; reflexivity. }
  rewrite Hp, Ha. done.
Qed.

Lemma take2_pad2_nil n : 0 <= n < 100 → take2 (pad2 n) = Some (n, "").
Proof. intros H. rewrite <- (string_app_nil_r (pad2 n)). by apply take2_pad2. Qed.

Lemma days_in_month_bound y m : days_in_month y m <= 31.
Proof.
  unfold days_in_month. destruct (m =? 2); [destruct (is_leap y); lia|].
  destruct (existsb (Z.eqb m) _); lia.
Qed.

Lemma iso_offset_head o :
  iso_offset o = "" ∨ ∃ c r, iso_offset o = String c r ∧ Ascii.eqb c ":"%char = false ∧ Ascii.eqb c "."%char = false.
Proof.
  destruct o as [z|]; [right|by left]. cbn [iso_offset].
  destruct (z <? 0); cbn -[pad2]; eauto.
Qed.

Lemma expect_offset c o :
  c = ":"%char ∨ c = "."%char → expect c (iso_offset o) = None.
Proof.
  intros Hc. destruct (iso_offset_head o) as [->|(x & r & -> & H1 & H2)]; [done|].
  destruct Hc as [->| ->]; cbn [expect]; by rewrite ?H1, ?H2.
Qed.

Lemma parse_iso_clock d o :
  valid_dt d = true →
  parse_clock (iso_clock d +:+ iso_offset o) =
    Some (dt_hour d, dt_minute d, dt_second d, dt_micro d, iso_offset o).
Proof.
  intros H. unfold valid_dt, in_range in H. to_props.
  unfold iso_clock, parse_clock. rewrite !string_app_assoc.
  rewrite take2_pad2 by lia. cbn -[pad2 pad6 take2 take_frac]. rewrite take2_pad2 by lia.
  cbn -[pad2 pad6 take2 take_frac]. rewrite take2_pad2 by lia.
  cbn -[pad2 pad6 take2 take_frac]. destruct (dt_micro d =? 0) eqn:E; to_props.
  - rewrite E. cbn -[expect iso_offset]. by rewrite expect_offset by auto.
  - cbn -[pad6 take_frac]. by rewrite take_frac_pad6 by lia.
Qed.

Lemma fromisoformat_isoformat d :
  valid_dt d = true → fromisoformat (isoformat d) = Some d.
Proof.
  intros Hv. pose proof Hv as Hv'. unfold valid_dt, in_range in Hv'. to_props.
  pose proof (days_in_month_bound (dt_year d) (dt_month d)).
  unfold fromisoformat, isoformat, iso_date. rewrite !string_app_assoc.
  rewrite take4_pad4 by lia. cbn -[pad2 take2 iso_clock iso_offset].
  rewrite take2_pad2 by lia. cbn -[pad2 take2 iso_clock iso_offset].
  rewrite take2_pad2 by lia. cbn -[pad2 take2 iso_clock iso_offset parse_clock].
  rewrite parse_iso_clock by done. cbn -[iso_offset parse_offset].
  rewrite parse_iso_offset by done. cbn -[valid_dt].
  destruct d; cbn -[valid_dt] in *. by rewrite Hv.
Qed.

(** * The world: clock, identifiers, appended records *)

(** The readings of the wall clock (UTC) and of [uuid4().hex], in the order the
    program asks for them, and whether each guarded file write succeeds. *)
Class Env := {
  clock_at : nat → datetime;
  uuid_at : nat → string;
  io_ok_at : nat → bool;
}.

Record world : Type := World {
  w_tick : nat;
  w_uuid : nat;
  w_io : nat;
  w_out : list (string * pyval);
}.

Definition world0 : world := World 0 0 0 [].

(** A component whose state holds a world. *)
Class HasWorld (S : Type) := {
  wget : S → world;
  wset : world → S → S;
  wget_wset : ∀ w s, wget (wset w s) = w;
  wset_wset : ∀ w w' s, wset w (wset w' s) = wset w s;
  wset_wget : ∀ s, wset (wget s) s = s;
}.

#[export] Instance world_has_world : HasWorld world.
Proof. refine {| wget := id; wset := λ w _, w |}; by intros. Defined.

Section world.
Context `{Env} {S : Type} `{HasWorld S}.

Definition now_utc : M S datetime := λ s,
  let w := wget s in
  (Ok (clock_at (w_tick w)), wset (World (1 + w_tick w) (w_uuid w) (w_io w) (w_out w)) s).

Definition utcnow_iso : M S string := d ← now_utc; mret (iso_z d).

Definition fresh_uuid : M S string := λ s,
  let w := wget s in
  (Ok (uuid_at (w_uuid w)), wset (World (w_tick w) (1 + w_uuid w) (w_io w) (w_out w)) s).

(** Append one record to the JSONL file [path]; an I/O error is outside the
    model where the code does not catch it. *)
Definition append_jsonl (path : string) (payload : pyval) : M S unit := λ s,
  let w := wget s in
  (Ok tt, wset (World (w_tick w) (w_uuid w) (w_io w) (w_out w ++ [(path, payload)])) s).

(** The same inside [try: ... except OSError]: [false] when the write failed. *)
Definition try_append_jsonl (path : string) (payload : pyval) : M S bool := λ s,
  let w := wget s in
  if io_ok_at (w_io w)
  then (Ok true, wset (World (w_tick w) (w_uuid w) (1 + w_io w) (w_out w ++ [(path, payload)])) s)
  else (Ok false, wset (World (w_tick w) (w_uuid w) (1 + w_io w) (w_out w)) s).

Lemma preserves_world (P : S → Prop) :
  (∀ w s, P s → P (wset w s)) →
  preserves P now_utc ∧ preserves P utcnow_iso ∧ preserves P fresh_uuid ∧
  (∀ p v, preserves P (append_jsonl p v)) ∧ (∀ p v, preserves P (try_append_jsonl p v)).
Proof.
  intros HP. split_and!; try (intros s Hs; by apply HP); intros p v s Hs; [by apply HP|].
  unfold try_append_jsonl. destruct (io_ok_at _); by apply HP.
Qed.

Lemma total_now_utc : total now_utc.
Proof. intros s. by eexists _, _. Qed.
Lemma total_utcnow_iso : total utcnow_iso.
Proof. intros s. by eexists _, _. Qed.
Lemma total_fresh_uuid : total fresh_uuid.
Proof. intros s. by eexists _, _. Qed.
Lemma total_append_jsonl p v : total (append_jsonl p v).
Proof. intros s. by eexists _, _. Qed.
Lemma total_try_append_jsonl p v : total (try_append_jsonl p v).
Proof. intros s. unfold try_append_jsonl. destruct (io_ok_at _); by eexists _, _. Qed.
End world.

#[export] Hint Resolve total_now_utc total_utcnow_iso total_fresh_uuid total_append_jsonl total_try_append_jsonl : pytotal.

(** Run a method of a component [T] that is part of the state [S]: the world it
    sees is the world of [S], and the other parts of [S] do not change. *)
Definition zoom {S T A} `{HasWorld S} `{HasWorld T} (g : S → T) (p : T → S → S) (m : M T A) : M S A := λ s,
  let (r, t) := m (wset (wget s) (g s)) in (r, wset (wget t) (p t s)).

Lemma zoom_run {S T A} `{HasWorld S} `{HasWorld T} (g : S → T) (p : T → S → S) (m : M T A) s :
  zoom g p m s = ((m (wset (wget s) (g s))).1,
    wset (wget (m (wset (wget s) (g s))).2) (p (m (wset (wget s) (g s))).2 s)).
Proof. unfold zoom. by destruct (m _). Qed.

Lemma preserves_zoom {S T A} `{HasWorld S} `{HasWorld T} (P : S → Prop) (g : S → T) (p : T → S → S) (m : M T A) :
  (∀ w s, P s → P (wset w s)) → (∀ t s, P s → P (p t s)) → preserves P (zoom g p m).
Proof. intros Hw Hp s Hs. rewrite zoom_run. by apply Hw, Hp. Qed.

Lemma total_zoom {S T A} `{HasWorld S} `{HasWorld T} (g : S → T) (p : T → S → S) (m : M T A) :
  total m → total (zoom g p m).
Proof.
  intros Hm s. destruct (Hm (wset (wget s) (g s))) as (a & t & E). rewrite zoom_run, E. by eexists _, _.
Qed.

(** [f"{uuid.uuid4().hex[:n]}"] *)
Definition hex_prefix (n : nat) (s : string) : string := String.substring 0 n s.

(** ** The text of a timestamp needs no trimming *)

Definition ends_in_digit (s : string) : Prop :=
  ∃ t n, s = t +:+ String (digit_char n) "" ∧ 0 <= n < 10.

Lemma ends_in_digit_app s t : ends_in_digit t → ends_in_digit (s +:+ t).
Proof.
  intros (u & n & -> & Hn). exists (s +:+ u), n. by rewrite string_app_assoc.
Qed.

Lemma ends_in_digit_pad2 n : 0 <= n < 100 → ends_in_digit (pad2 n).
Proof. intros H. exists (String (digit_char (n / 10)) ""), (n mod 10). split; [done|zdiv]. Qed.

Lemma digit_char_plain n : 0 <= n < 10 →
  is_space (digit_char n) = false ∧ "Z"%char ≠ digit_char n.
Proof.
  intros H.
  assert (n = 0 ∨ n = 1 ∨ n = 2 ∨ n = 3 ∨ n = 4 ∨ n = 5 ∨ n = 6 ∨ n = 7 ∨ n = 8 ∨ n = 9)
    as Hn by lia.
  repeat destruct Hn as [->|Hn]; [by split..|]. by subst.
Qed.

Lemma isoformat_ends_in_digit d : valid_dt d = true → ends_in_digit (isoformat d).
Proof.
  intros H. unfold valid_dt, in_range in H. to_props. unfold isoformat.
  apply ends_in_digit_app, ends_in_digit_app.
  destruct (dt_tz d) as [z|]; cbn [iso_offset].
  - unfold valid_tz, in_range in *. to_props. apply ends_in_digit_app.
    do 3 apply ends_in_digit_app. destruct (_ =? 0).
    + rewrite string_app_nil_r. apply ends_in_digit_pad2. zdiv.
    + apply ends_in_digit_app, ends_in_digit_app, ends_in_digit_pad2. zdiv.
  - rewrite string_app_nil_r. unfold iso_clock. do 4 apply ends_in_digit_app.
    destruct (_ =? 0).
    + rewrite string_app_nil_r. apply ends_in_digit_pad2. lia.
    + unfold pad6, pad4. do 4 apply ends_in_digit_app. apply ends_in_digit_pad2. zdiv.
Qed.

Lemma isoformat_plain d :
  valid_dt d = true →
  strip (isoformat d) = isoformat d ∧ ends_with "Z" (isoformat d) = false.
Proof.
  intros H. pose proof (isoformat_ends_in_digit d H) as (s & n & E & Hn).
  apply digit_char_plain in Hn as [Hsp HZ].
  assert (lstrip (isoformat d) = isoformat d) as Hl.
  { unfold valid_dt, in_range in H. to_props. unfold isoformat, iso_date, pad4, pad2 at 1.
    cbn -[pad2 iso_clock iso_offset].
    destruct (digit_char_plain (dt_year d / 100 / 10)) as [-> _]; [zdiv|done]. }
  unfold strip. rewrite Hl, E, rstrip_snoc by done. split; [done|].
  rewrite ends_with_char_snoc. by apply bool_decide_false.
Qed.

(** A concrete environment for evaluating the model: one reading per second. *)
Definition sample_env : Env := {|
  clock_at n := from_utc_us (1773999000000000 + Z.of_nat n * 1000000);
  uuid_at n := "0123456789abcdef" +:+ pretty n;
  io_ok_at _ := true |}.

(** [now.isoformat().replace("+00:00", "Z")] of a UTC reading. *)
Definition iso_us_z (d : datetime) : string :=
  isoformat (DateTime (dt_year d) (dt_month d) (dt_day d) (dt_hour d) (dt_minute d) (dt_second d) (dt_micro d) None) +:+ "Z".

(** ** JSONL files as the code reads them back *)

(** One line of a text file: empty, blank, not decodable as JSON, or a value. *)
Inductive line :=
  | LEmpty
  | LSpace
  | LBad
  | LJson (v : pyval).

(** A file: [None] when it does not exist. *)
Abbreviation file := (option (list line)).

(** Whole-file JSON or YAML: [None] absent, [Some None] not decodable. *)
Abbreviation document := (option (option pyval)).

Definition is_blank (l : line) : bool := match l with LEmpty | LSpace => true | _ => false end.
Definition file_lines (f : file) : list line := default [] f.

(** The last line with something on it. *)
Definition last_line (f : file) : option line :=
  last (List.filter (λ l, negb (is_blank l)) (file_lines f)).

(** [astimezone(timezone.utc)] as microseconds on the UTC time line: out of the
    calendar it raises. *)
Definition min_us : Z := utc_us (DateTime 1 1 1 0 0 0 0 None).
Definition max_us : Z := utc_us (DateTime 9999 12 31 23 59 59 999999 None).
Definition to_utc_us (d : datetime) : res Z :=
  let us := utc_us d in
  if in_range min_us us max_us then Ok us else Raise (OverflowError "date value out of range").
