(* ===== verification/Gate.v ===== *)
(** The gate state of [src/core/gate.py]: the state records with their
    [to_dict]/[from_dict], [GateState.enforce_auto_execute_guards], and the
    [GateAggregator] that merges partial updates.

    Fields the code reads back without a conversion ([data.get(...)]) hold any
    value; [per_symbol] is a finite map (the code never depends on its order,
    [to_dict] sorts the keys).  [copy.deepcopy] is the identity on these
    immutable values. *)

From S2P Require Import Prelude PyFloat PyVal PyEnv.

(** * Optional timestamps *)

Definition datetime_to_iso (value : option datetime) : pyval :=
  match value with None => VNone | Some d => VStr (isoformat d) end.

Definition datetime_from_iso (value : pyval) : res (option datetime) :=
  match value with
  | VNone => Ok None
  | VStr s =>
      let text := strip s in
      let text := if ends_with "Z" text
                  then String.substring 0 (String.length text - 1) text +:+ "+00:00" else text in
      match fromisoformat text with
      | Some d => Ok (Some d)
      | None => Raise (ValueError "Invalid isoformat string")
      end
  | _ => Raise (AttributeError "strip")
  end.

(** * Records *)

Record NewsGateState := News {
  news_blocked : bool; news_reason : pyval; news_release_ts : option datetime }.
Record CalendarGateState := Calendar {
  cal_blocked : bool; cal_holiday_block : bool; cal_reason : pyval }.
Record SpreadGateState := Spread {
  spread_state : pyval; spread_reason : pyval; spread_cooldown_eta : option datetime }.
Record LiquidityGateState := Liquidity {
  liq_state : pyval; liq_recommendation : pyval; liq_updated_at : option datetime }.
Record GateBlockState := Block {
  block_news : option NewsGateState;
  block_calendar : option CalendarGateState;
  block_spread : option SpreadGateState }.
Record MarketGateState := Market {
  market_news : NewsGateState;
  market_calendar : CalendarGateState;
  market_spread : SpreadGateState;
  market_liquidity : LiquidityGateState;
  latency_data_status : pyval;
  slippage_data_status : pyval;
  profit_readiness_status : pyval;
  per_symbol : gmap string GateBlockState }.
Record RiskGateState := Risk {
  reduce_only : bool; reduce_only_reason : pyval;
  kill_switch_recommendation : pyval; kill_switch_reason : pyval }.
Record HumanGateState := Human {
  double_entry_required : bool;
  required_roles : list pyval;
  acknowledged_roles : list pyval;
  manual_comment_required : bool;
  comment_min_length : Z;
  ack_deadline : option datetime }.
Record GateState := Gate {
  market : MarketGateState;
  risk : RiskGateState;
  human : HumanGateState;
  auto_execute : bool;
  cfg_hash : pyval;
  data_hash : pyval;
  schema_version : pyval }.

Definition news_to_dict (s : NewsGateState) : dict :=
  [("blocked", VBool (news_blocked s)); ("reason", news_reason s);
   ("release_ts", datetime_to_iso (news_release_ts s))].

Definition news_from_dict (data : pyval) : res NewsGateState :=
  b ← vindex data "blocked";
  r ← vget data "reason";
  t ← vget data "release_ts";
  ts ← datetime_from_iso t;
  Ok (News (truthy b) r ts).

Definition calendar_to_dict (s : CalendarGateState) : dict :=
  [("blocked", VBool (cal_blocked s)); ("holiday_block", VBool (cal_holiday_block s));
   ("reason", cal_reason s)].

Definition calendar_from_dict (data : pyval) : res CalendarGateState :=
  b ← vindex data "blocked";
  h ← vindex data "holiday_block";
  r ← vget data "reason";
  Ok (Calendar (truthy b) (truthy h) r).

Definition spread_to_dict (s : SpreadGateState) : dict :=
  [("state", spread_state s); ("reason", spread_reason s);
   ("cooldown_eta", datetime_to_iso (spread_cooldown_eta s))].

Definition spread_from_dict (data : pyval) : res SpreadGateState :=
  s ← vindex data "state";
  r ← vget data "reason";
  t ← vget data "cooldown_eta";
  ts ← datetime_from_iso t;
  Ok (Spread s r ts).

Definition liquidity_to_dict (s : LiquidityGateState) : dict :=
  [("state", liq_state s); ("recommendation", liq_recommendation s);
   ("updated_at", datetime_to_iso (liq_updated_at s))].

Definition liquidity_from_dict (data : pyval) : res LiquidityGateState :=
  s ← vget_or data "state" (VStr "normal");
  r ← vget data "recommendation";
  t ← vget data "updated_at";
  ts ← datetime_from_iso t;
  Ok (Liquidity s r ts).

(** ** Per-symbol blocks *)

Definition block_to_dict (b : GateBlockState) : dict :=
  (match block_news b with Some n => [("news", VDict (news_to_dict n))] | None => [] end) ++
  (match block_calendar b with Some c => [("calendar", VDict (calendar_to_dict c))] | None => [] end) ++
  (match block_spread b with Some s => [("spread", VDict (spread_to_dict s))] | None => [] end).

Definition block_is_empty (b : GateBlockState) : bool :=
  match b with Block None None None => true | _ => false end.

(** [X.from_dict(v) if v else None] *)
Definition opt_from_dict {A} (f : pyval → res A) (v : pyval) : res (option A) :=
  if truthy v then Some <$> f v else Ok None.

Definition block_from_dict (data : pyval) : res GateBlockState :=
  n ← vget data "news";
  c ← vget data "calendar";
  s ← vget data "spread";
  n ← opt_from_dict news_from_dict n;
  c ← opt_from_dict calendar_from_dict c;
  s ← opt_from_dict spread_from_dict s;
  Ok (Block n c s).

(** ** Market, risk, human and overall state *)

Definition market_default : MarketGateState :=
  Market (News false VNone None) (Calendar false false VNone) (Spread (VStr "normal") VNone None)
    (Liquidity (VStr "normal") VNone None) (VStr "ok") (VStr "ok") (VStr "ok") ∅.

Definition symbol_ltb (a b : string * GateBlockState) : bool := str_ltb a.1 b.1.

(** The non-empty blocks in symbol order. *)
Definition per_symbol_to_dict (m : gmap string GateBlockState) : dict :=
  omap (λ kb : string * GateBlockState,
    match block_to_dict kb.2 with [] => None | d => Some (kb.1, VDict d) end)
    (isort symbol_ltb (map_to_list m)).

Definition market_to_dict (m : MarketGateState) : dict :=
  [("news", VDict (news_to_dict (market_news m)));
   ("calendar", VDict (calendar_to_dict (market_calendar m)));
   ("spread", VDict (spread_to_dict (market_spread m)));
   ("liquidity", VDict (liquidity_to_dict (market_liquidity m)));
   ("latency_data_status", latency_data_status m);
   ("slippage_data_status", slippage_data_status m);
   ("profit_readiness_status", profit_readiness_status m);
   ("per_symbol", VDict (per_symbol_to_dict (per_symbol m)))].

(** [{symbol: from_dict(block) for symbol, block in data.items()}] *)
Definition per_symbol_from_dict (d : pyval) : res (gmap string GateBlockState) :=
  match d with
  | VDict d =>
      bs ← mapM_res (λ kv : string * pyval, b ← block_from_dict kv.2; Ok (kv.1, b)) d;
      Ok (fold_left (λ m kb, <[kb.1 := kb.2]> m) bs ∅)
  | _ => Raise (AttributeError "items")
  end.

Definition market_from_dict (data : pyval) : res MarketGateState :=
  ps ← vget data "per_symbol";
  per_symbol ← per_symbol_from_dict (if truthy ps then ps else VDict []);
  n ← vindex data "news"; n ← news_from_dict n;
  c ← vindex data "calendar"; c ← calendar_from_dict c;
  s ← vindex data "spread"; s ← spread_from_dict s;
  l ← vget_or data "liquidity" (VDict []); l ← liquidity_from_dict l;
  la ← vget_or data "latency_data_status" (VStr "ok");
  sl ← vget_or data "slippage_data_status" (VStr "ok");
  pr ← vget_or data "profit_readiness_status" (VStr "ok");
  Ok (Market n c s l la sl pr per_symbol).

Definition risk_default : RiskGateState := Risk false VNone VNone VNone.

Definition risk_to_dict (r : RiskGateState) : dict :=
  [("reduce_only", VBool (reduce_only r)); ("reduce_only_reason", reduce_only_reason r);
   ("kill_switch_recommendation", kill_switch_recommendation r);
   ("kill_switch_reason", kill_switch_reason r)].

Definition risk_from_dict (data : pyval) : res RiskGateState :=
  b ← vindex data "reduce_only";
  r ← vget data "reduce_only_reason";
  k ← vget data "kill_switch_recommendation";
  kr ← vget data "kill_switch_reason";
  Ok (Risk (truthy b) r k kr).

Definition human_default : HumanGateState := Human false [] [] false 0 None.

Definition human_to_dict (h : HumanGateState) : dict :=
  [("double_entry_required", VBool (double_entry_required h));
   ("required_roles", VList (required_roles h));
   ("acknowledged_roles", VList (acknowledged_roles h));
   ("ack_deadline", datetime_to_iso (ack_deadline h));
   ("manual_comment_required", VBool (manual_comment_required h));
   ("comment_min_length", VInt (comment_min_length h))].

Definition human_from_dict (data : pyval) : res HumanGateState :=
  d ← vindex data "double_entry_required";
  r ← vget_or data "required_roles" (VList []); r ← py_iter r;
  a ← vget_or data "acknowledged_roles" (VList []); a ← py_iter a;
  m ← vindex data "manual_comment_required";
  c ← vindex data "comment_min_length"; c ← py_int c;
  t ← vget data "ack_deadline"; t ← datetime_from_iso t;
  Ok (Human (truthy d) r a (truthy m) c t).

Definition gate_default : GateState :=
  Gate market_default risk_default human_default false VNone VNone VNone.

(** [data[k] = v] unless [v] is [None]. *)
Definition opt_entry (k : string) (v : pyval) : dict :=
  match v with VNone => [] | _ => [(k, v)] end.

Definition gate_to_dict (g : GateState) : dict :=
  [("market", VDict (market_to_dict (market g)));
   ("risk", VDict (risk_to_dict (risk g)));
   ("human", VDict (human_to_dict (human g)));
   ("auto_execute", VBool (auto_execute g))] ++
  opt_entry "cfg_hash" (cfg_hash g) ++ opt_entry "data_hash" (data_hash g) ++
  opt_entry "schema_version" (schema_version g).

Definition gate_from_dict (data : pyval) : res GateState :=
  m ← vindex data "market"; m ← market_from_dict m;
  r ← vindex data "risk"; r ← risk_from_dict r;
  h ← vindex data "human"; h ← human_from_dict h;
  a ← vget_or data "auto_execute" (VBool false);
  c ← vget data "cfg_hash";
  d ← vget data "data_hash";
  v ← vget data "schema_version";
  Ok (Gate m r h (truthy a) c d v).

(** * Field updates *)

Definition with_auto_execute (b : bool) (g : GateState) : GateState :=
  Gate (market g) (risk g) (human g) b (cfg_hash g) (data_hash g) (schema_version g).
Definition with_market (m : MarketGateState) (g : GateState) : GateState :=
  Gate m (risk g) (human g) (auto_execute g) (cfg_hash g) (data_hash g) (schema_version g).
Definition with_risk (r : RiskGateState) (g : GateState) : GateState :=
  Gate (market g) r (human g) (auto_execute g) (cfg_hash g) (data_hash g) (schema_version g).
Definition with_human (h : HumanGateState) (g : GateState) : GateState :=
  Gate (market g) (risk g) h (auto_execute g) (cfg_hash g) (data_hash g) (schema_version g).
Definition with_hashes (c d : pyval) (g : GateState) : GateState :=
  Gate (market g) (risk g) (human g) (auto_execute g) c d (schema_version g).
Definition with_schema_version (v : pyval) (g : GateState) : GateState :=
  Gate (market g) (risk g) (human g) (auto_execute g) (cfg_hash g) (data_hash g) v.

Definition with_news (n : NewsGateState) (m : MarketGateState) : MarketGateState :=
  Market n (market_calendar m) (market_spread m) (market_liquidity m) (latency_data_status m)
    (slippage_data_status m) (profit_readiness_status m) (per_symbol m).
Definition with_calendar (c : CalendarGateState) (m : MarketGateState) : MarketGateState :=
  Market (market_news m) c (market_spread m) (market_liquidity m) (latency_data_status m)
    (slippage_data_status m) (profit_readiness_status m) (per_symbol m).
Definition with_spread (s : SpreadGateState) (m : MarketGateState) : MarketGateState :=
  Market (market_news m) (market_calendar m) s (market_liquidity m) (latency_data_status m)
    (slippage_data_status m) (profit_readiness_status m) (per_symbol m).
Definition with_liquidity (l : LiquidityGateState) (m : MarketGateState) : MarketGateState :=
  Market (market_news m) (market_calendar m) (market_spread m) l (latency_data_status m)
    (slippage_data_status m) (profit_readiness_status m) (per_symbol m).
Definition with_readiness (v : pyval) (m : MarketGateState) : MarketGateState :=
  Market (market_news m) (market_calendar m) (market_spread m) (market_liquidity m)
    (latency_data_status m) (slippage_data_status m) v (per_symbol m).
Definition with_per_symbol (p : gmap string GateBlockState) (m : MarketGateState) : MarketGateState :=
  Market (market_news m) (market_calendar m) (market_spread m) (market_liquidity m)
    (latency_data_status m) (slippage_data_status m) (profit_readiness_status m) p.

(** * Guards *)

Definition enforce_auto_execute_guards (board_mode : string) (kill_switch_state : option string)
    (spread_status : string) (g : GateState) : GateState :=
  let normalized_board := lower board_mode in
  let normalized_spread := lower spread_status in
  let normalized_kill_switch := lower (default "none" kill_switch_state or? "none") in
  if negb (String.eqb normalized_board "normal")
     || str_in normalized_spread ["cooldown"; "block"; "halt"]
     || negb (str_in normalized_kill_switch ["none"; "normal"])
     || v_in (liq_state (market_liquidity (market g))) ["guarded"; "halted"]
     || reduce_only (risk g)
  then with_auto_execute false g else g.

(** * The aggregator *)

(** The version given to the aggregator, with the hash attributes it may carry. *)
Record schema_arg := SchemaArg {
  sv_value : pyval; sv_cfg_hash : option pyval; sv_data_hash : option pyval }.

Definition aggregator_init (version : pyval) (initial_state : option GateState) : GateState :=
  let g := default gate_default initial_state in
  match version with VNone => g | v => with_schema_version v g end.

Definition set_schema_version (version : schema_arg) (g : GateState) : GateState :=
  let g := with_schema_version (sv_value version) g in
  let c := match cfg_hash g, sv_cfg_hash version with VNone, Some h => h | h, _ => h end in
  let d := match data_hash g, sv_data_hash version with VNone, Some h => h | h, _ => h end in
  with_hashes c d g.

Definition set_hashes (cfg data : pyval) (g : GateState) : GateState :=
  with_hashes (if truthy cfg then cfg else cfg_hash g) (if truthy data then data else data_hash g) g.

Definition set_auto_execute (board_mode : string) (g : GateState) : GateState :=
  with_auto_execute
    (String.eqb (lower board_mode) "normal"
     && eq_str (profit_readiness_status (market g)) "ok"
     && negb (reduce_only (risk g))) g.

(** A component of a symbol's block. *)
Inductive component :=
  | CNews (v : option NewsGateState)
  | CCalendar (v : option CalendarGateState)
  | CSpread (v : option SpreadGateState).

Definition component_is_none (c : component) : bool :=
  match c with CNews None | CCalendar None | CSpread None => true | _ => false end.

(** [setattr(block, component, value)] *)
Definition set_component (c : component) (b : GateBlockState) : GateBlockState :=
  match c with
  | CNews v => Block v (block_calendar b) (block_spread b)
  | CCalendar v => Block (block_news b) v (block_spread b)
  | CSpread v => Block (block_news b) (block_calendar b) v
  end.

Definition assign_symbol_component (symbol : string) (c : component) (g : GateState) : GateState :=
  let ps := per_symbol (market g) in
  let put p := with_market (with_per_symbol p (market g)) g in
  if component_is_none c then
    match ps !! symbol with
    | None => g
    | Some block =>
        let block := set_component c block in
        if block_is_empty block then put (delete symbol ps) else put (<[symbol := block]> ps)
    end
  else
    let block := default (Block None None None) (ps !! symbol) in
    put (<[symbol := set_component c block]> ps).

Definition assign_all {A} (mk : option A → component) (l : option (list (string * option A)))
    (g : GateState) : GateState :=
  fold_left (λ g sv, assign_symbol_component sv.1 (mk sv.2) g) (default [] l) g.

Definition update_news (global : option NewsGateState)
    (symbols : option (list (string * option NewsGateState))) (g : GateState) : GateState :=
  let g := match global with Some n => with_market (with_news n (market g)) g | None => g end in
  assign_all CNews symbols g.

Definition update_calendar (global : option CalendarGateState)
    (symbols : option (list (string * option CalendarGateState))) (g : GateState) : GateState :=
  let g := match global with Some c => with_market (with_calendar c (market g)) g | None => g end in
  assign_all CCalendar symbols g.

Definition update_spread (global : option SpreadGateState)
    (symbols : option (list (string * option SpreadGateState))) (g : GateState) : GateState :=
  let g := match global with
    | Some s =>
        let g := with_market (with_spread s (market g)) g in
        if negb (eq_str (spread_state s) "normal") then set_auto_execute "guarded" g else g
    | None => g
    end in
  assign_all CSpread symbols g.

Definition update_liquidity (global : option LiquidityGateState) (g : GateState) : GateState :=
  match global with
  | Some l =>
      let g := with_market (with_liquidity l (market g)) g in
      if v_in (liq_state l) ["guarded"; "halted"] then set_auto_execute "guarded" g else g
  | None => g
  end.

(** [None] stands for the default argument [_UNSET]. *)
Definition update_risk (ro : option bool) (ro_reason ks_rec ks_reason : option pyval)
    (g : GateState) : GateState :=
  let r := risk g in
  let r := Risk (default (reduce_only r) ro) (default (reduce_only_reason r) ro_reason)
    (default (kill_switch_recommendation r) ks_rec) (default (kill_switch_reason r) ks_reason) in
  let g := with_risk r g in
  if reduce_only r then with_auto_execute false g else g.

(** The argument is the [risk_state] of a risk assessment. *)
Definition apply_risk_assessment (risk_state : RiskGateState) (g : GateState) : GateState :=
  let g := with_risk risk_state g in
  if reduce_only (risk g) then with_auto_execute false g else g.

Definition update_human (de : option bool) (req ack : option (list pyval))
    (deadline : option (option datetime)) (mc : option bool) (len : option Z)
    (g : GateState) : GateState :=
  let h := human g in
  with_human (Human (default (double_entry_required h) de) (default (required_roles h) req)
    (default (acknowledged_roles h) ack) (default (manual_comment_required h) mc)
    (default (comment_min_length h) len) (default (ack_deadline h) deadline)) g.

Definition clear_symbol (symbol : string) (g : GateState) : GateState :=
  with_market (with_per_symbol (delete symbol (per_symbol (market g))) (market g)) g.

Definition set_profit_readiness_status (status : pyval) (board_mode : string)
    (allow_auto_execute : bool) (g : GateState) : GateState :=
  let g := with_market (with_readiness status (market g)) g in
  if negb allow_auto_execute then with_auto_execute false g
  else with_auto_execute
    (String.eqb (lower board_mode) "normal" && eq_str status "ok" && negb (reduce_only (risk g))) g.

(** ** Persisting *)

(** What [_resolve_hashes] finds in the process environment and on disk: the
    digest of the configured file when it exists, two environment variables, and
    the data manifest ([None] inside is undecodable JSON). *)
Record os_env := OsEnv {
  env_cfg_path_sha : option string;
  env_cfg_hash : option string;
  env_data_hash : option string;
  env_manifest : option (option pyval) }.

Definition resolve_hashes (env : os_env) (cfg data : pyval) : res (pyval * pyval) :=
  let cfg_resolved :=
    if truthy cfg then cfg else
    match env_cfg_path_sha env with
    | Some h => VStr h
    | None => if truthy (env_cfg_hash env) then vopt_str (env_cfg_hash env) else cfg
    end in
  data_resolved ← (
    if truthy data then Ok data
    else if truthy (env_data_hash env) then Ok (vopt_str (env_data_hash env))
    else match env_manifest env with
      | None => Ok data
      | Some None => Ok VNone
      | Some (Some manifest) =>
          s ← vget manifest "strategies";
          e ← vget (if truthy s then s else VDict []) "m1_baseline_ma_rsi";
          vget (if truthy e then e else VDict []) "dataset_sha256"
      end);
  Ok (cfg_resolved, data_resolved).

(** The new state and the mapping written to the snapshot file. *)
Definition persist_latest (env : os_env) (cfg data : pyval) (g : GateState) : res (GateState * dict) :=
  '(c, d) ← resolve_hashes env cfg data;
  let g := set_hashes c d g in
  Ok (g, gate_to_dict g).

(** ** The aggregator as a state machine *)

Inductive gate_op :=
  | OpNews (g : option NewsGateState) (l : option (list (string * option NewsGateState)))
  | OpCalendar (g : option CalendarGateState) (l : option (list (string * option CalendarGateState)))
  | OpSpread (g : option SpreadGateState) (l : option (list (string * option SpreadGateState)))
  | OpLiquidity (g : option LiquidityGateState)
  | OpRisk (ro : option bool) (ror ksr ksn : option pyval)
  | OpAssessment (r : RiskGateState)
  | OpHuman (de : option bool) (req ack : option (list pyval)) (dl : option (option datetime))
      (mc : option bool) (len : option Z)
  | OpClear (symbol : string)
  | OpReadiness (status : pyval) (board_mode : string) (allow : bool)
  | OpAutoExecute (board_mode : string)
  | OpSchema (v : schema_arg)
  | OpHashes (c d : pyval)
  | OpEnforce (board_mode : string) (ks : option string) (spread : string).

Definition gate_step (op : gate_op) : GateState → GateState :=
  match op with
  | OpNews g l => update_news g l
  | OpCalendar g l => update_calendar g l
  | OpSpread g l => update_spread g l
  | OpLiquidity g => update_liquidity g
  | OpRisk a b c d => update_risk a b c d
  | OpAssessment r => apply_risk_assessment r
  | OpHuman a b c d e f => update_human a b c d e f
  | OpClear s => clear_symbol s
  | OpReadiness s b a => set_profit_readiness_status s b a
  | OpAutoExecute b => set_auto_execute b
  | OpSchema v => set_schema_version v
  | OpHashes c d => set_hashes c d
  | OpEnforce b k s => enforce_auto_execute_guards b k s
  end.

Definition gate_run (ops : list gate_op) (g : GateState) : GateState :=
  fold_left (λ g op, gate_step op g) ops g.

(** * Well-formed states *)

Definition ts_ok (t : option datetime) : bool := match t with Some d => valid_dt d | None => true end.

Definition news_ok (n : NewsGateState) : bool := ts_ok (news_release_ts n).
Definition spread_ok (s : SpreadGateState) : bool := ts_ok (spread_cooldown_eta s).

Definition block_ok (b : GateBlockState) : bool :=
  negb (block_is_empty b) &&
  (match block_news b with Some n => news_ok n | None => true end) &&
  (match block_spread b with Some s => spread_ok s | None => true end).

(** Every per-symbol block holds at least one component. *)
Definition no_empty_block (g : GateState) : Prop :=
  map_Forall (λ _ b, block_is_empty b = false) (per_symbol (market g)).

(** Timestamps are valid and no per-symbol block is empty. *)
Definition gate_ok (g : GateState) : Prop :=
  news_ok (market_news (market g)) = true ∧ spread_ok (market_spread (market g)) = true ∧
  ts_ok (liq_updated_at (market_liquidity (market g))) = true ∧
  map_Forall (λ _ b, block_ok b = true) (per_symbol (market g)) ∧
  ts_ok (ack_deadline (human g)) = true.

(** The safety relation the aggregator maintains between its fields. *)
Definition auto_execute_safe (g : GateState) : Prop :=
  auto_execute g = true →
  reduce_only (risk g) = false ∧ profit_readiness_status (market g) = VStr "ok".

(** * Round trip through the dictionaries *)

Lemma datetime_roundtrip t : ts_ok t = true → datetime_from_iso (datetime_to_iso t) = Ok t.
Proof.
  destruct t as [d|]; simpl; [|done]. intros Hd.
  destruct (isoformat_plain d Hd) as [Hs Hz]. rewrite Hs, Hz.
  by rewrite fromisoformat_isoformat.
Qed.

Lemma news_roundtrip n : news_ok n = true → news_from_dict (VDict (news_to_dict n)) = Ok n.
Proof.
  destruct n as [b r t]. intros H. unfold news_from_dict. cbn -[datetime_from_iso datetime_to_iso].
  rewrite datetime_roundtrip by done. done.
Qed.

Lemma calendar_roundtrip c : calendar_from_dict (VDict (calendar_to_dict c)) = Ok c.
Proof. by destruct c. Qed.

Lemma spread_roundtrip s : spread_ok s = true → spread_from_dict (VDict (spread_to_dict s)) = Ok s.
Proof.
  destruct s as [b r t]. intros H. unfold spread_from_dict. cbn -[datetime_from_iso datetime_to_iso].
  rewrite datetime_roundtrip by done. done.
Qed.

Lemma liquidity_roundtrip l :
  ts_ok (liq_updated_at l) = true → liquidity_from_dict (VDict (liquidity_to_dict l)) = Ok l.
Proof.
  destruct l as [b r t]. intros H. unfold liquidity_from_dict. cbn -[datetime_from_iso datetime_to_iso].
  rewrite datetime_roundtrip by done. done.
Qed.

Lemma block_roundtrip b : block_ok b = true → block_from_dict (VDict (block_to_dict b)) = Ok b.
Proof.
  unfold block_ok. intros H. to_props. destruct b as [n c s]. simpl in *.
  unfold block_from_dict, opt_from_dict, vget.
  destruct n as [n|], c as [c|], s as [s|]; try done;
    cbn -[news_from_dict news_to_dict calendar_from_dict calendar_to_dict spread_from_dict spread_to_dict];
    try (rewrite news_roundtrip by done);
    cbn -[calendar_from_dict calendar_to_dict spread_from_dict spread_to_dict];
    rewrite ?calendar_roundtrip; cbn -[spread_from_dict spread_to_dict];
    try (rewrite spread_roundtrip by done); done.
Qed.

Lemma per_symbol_entries (l : list (string * GateBlockState)) :
  Forall (λ kb, block_ok kb.2 = true) l →
  omap (λ kb : string * GateBlockState,
    match block_to_dict kb.2 with [] => None | d => Some (kb.1, VDict d) end) l =
  (λ kb, (kb.1, VDict (block_to_dict kb.2))) <$> l.
Proof.
  induction 1 as [|[k b] l Hb _ IH]; [done|]. cbn -[block_to_dict].
  destruct (block_to_dict b) eqn:E; cbn; [|by f_equal].
  exfalso. unfold block_ok in Hb. destruct b as [[]  [] []]; simpl in *; done.
Qed.

Lemma per_symbol_entries_read (l : list (string * GateBlockState)) :
  Forall (λ kb, block_ok kb.2 = true) l →
  mapM_res (λ kv : string * pyval, b ← block_from_dict kv.2; Ok (kv.1, b))
    ((λ kb, (kb.1, VDict (block_to_dict kb.2))) <$> l) = Ok l.
Proof.
  induction 1 as [|[k b] l Hb _ IH]; [done|]. cbn -[block_from_dict block_to_dict].
  simpl in Hb. rewrite block_roundtrip by done. cbn -[block_from_dict block_to_dict].
  by rewrite IH.
Qed.

Lemma fold_insert_list_to_map {A} (l : list (string * A)) (m : gmap string A) :
  NoDup l.*1 → fold_left (λ m kb, <[kb.1 := kb.2]> m) l m = list_to_map l ∪ m.
Proof.
  revert m. induction l as [|[k a] l IH]; intros m Hnd; simpl.
  { by rewrite (left_id_L ∅ (∪)). }
  apply NoDup_cons in Hnd as [Hk Hnd]. rewrite IH by done.
  rewrite <- insert_union_l. rewrite insert_union_r; [done|].
  by apply not_elem_of_list_to_map_1.
Qed.

Lemma per_symbol_roundtrip m :
  map_Forall (λ _ b, block_ok b = true) m →
  per_symbol_from_dict (VDict (per_symbol_to_dict m)) = Ok m.
Proof.
  intros Hm. unfold per_symbol_from_dict, per_symbol_to_dict.
  set (l := isort symbol_ltb (map_to_list m)).
  assert (Hp : l ≡ₚ map_to_list m) by apply isort_perm.
  assert (Hl : Forall (λ kb, block_ok kb.2 = true) l).
  { rewrite Hp. apply map_Forall_to_list in Hm.
    eapply Forall_impl; [exact Hm|]. by intros [k b]. }
  assert (Hnd : NoDup l.*1) by (rewrite Hp; apply NoDup_fst_map_to_list).
  rewrite per_symbol_entries, per_symbol_entries_read by done. cbn.
  rewrite fold_insert_list_to_map, (right_id_L ∅ (∪)) by done.
  rewrite (list_to_map_proper l (map_to_list m)) by done. by rewrite list_to_map_to_list.
Qed.

#[local] Opaque per_symbol_from_dict per_symbol_to_dict news_to_dict news_from_dict
  calendar_to_dict calendar_from_dict spread_to_dict spread_from_dict liquidity_to_dict
  liquidity_from_dict datetime_to_iso datetime_from_iso.

Lemma market_roundtrip m :
  news_ok (market_news m) = true → spread_ok (market_spread m) = true →
  ts_ok (liq_updated_at (market_liquidity m)) = true →
  map_Forall (λ _ b, block_ok b = true) (per_symbol m) →
  market_from_dict (VDict (market_to_dict m)) = Ok m.
Proof.
  destruct m as [n c s l la sl pr ps]; cbn. intros Hn Hs Hl Hp. unfold market_from_dict.
  assert (Hps : per_symbol_from_dict (let v := VDict (per_symbol_to_dict ps) in
    if truthy v then v else VDict []) = Ok ps).
  { rewrite <- (per_symbol_roundtrip ps Hp). cbn. unfold truthy, truthy_pyval.
    by destruct (per_symbol_to_dict ps). }
  cbn in *. rewrite Hps. cbn. rewrite news_roundtrip by done. cbn.
  rewrite calendar_roundtrip. cbn. rewrite spread_roundtrip by done. cbn.
  rewrite liquidity_roundtrip by done. done.
Qed.

Lemma human_roundtrip h :
  ts_ok (ack_deadline h) = true → human_from_dict (VDict (human_to_dict h)) = Ok h.
Proof.
  destruct h. intros H. unfold human_from_dict. cbn. rewrite datetime_roundtrip by done. done.
Qed.

#[local] Opaque market_from_dict market_to_dict human_from_dict human_to_dict.

Lemma gate_roundtrip (g : GateState) : gate_ok g → gate_from_dict (VDict (gate_to_dict g)) = Ok g.
Proof.
  intros (Hn & Hs & Hl & Hp & Hh). destruct g as [m r h ae ch dh sv]; cbn in *.
  unfold gate_from_dict. cbn. rewrite market_roundtrip by done. cbn.
  rewrite human_roundtrip by done. destruct r, ch, dh, sv; reflexivity.
Qed.

(** A well-formed gate state survives [GateState.from_dict] of its own
    [to_dict]: global and per-symbol gates, risk, human, the auto-execute flag
    and the optional hashes all come back unchanged. *)
Theorem gate_state_roundtrip (g : GateState) :
  gate_ok g → gate_from_dict (VDict (gate_to_dict g)) = Ok g.
Proof. exact (gate_roundtrip g). Qed.

#[local] Transparent market_from_dict market_to_dict human_from_dict human_to_dict
  per_symbol_from_dict per_symbol_to_dict news_to_dict news_from_dict
  calendar_to_dict calendar_from_dict spread_to_dict spread_from_dict liquidity_to_dict
  liquidity_from_dict datetime_to_iso datetime_from_iso.

Definition sample_ts : datetime := (DateTime 2026 3 20 9 30 0 0 (Some 0))%Z.

(** A gate state that exercises every component. *)
Definition sample_gate : GateState :=
  Gate
    (Market (News true (VStr "nfp") (Some sample_ts)) (Calendar false false VNone)
      (Spread (VStr "cooldown") (VStr "wide_spread") (Some sample_ts))
      (Liquidity (VStr "normal") VNone None) (VStr "ok") (VStr "ok") (VStr "ok")
      {["USDJPY" := Block (Some (News false VNone None)) None None;
        "EURUSD" := Block None (Some (Calendar true true (VStr "holiday"))) None]})
    (Risk false VNone VNone VNone)
    (Human true [VStr "ops"] [] false 0%Z None) false (VStr "abc") VNone (VInt 3%Z).

Lemma sample_gate_ok : gate_ok sample_gate.
Proof. split_and!; try done. apply map_Forall_to_list. vm_compute. by repeat constructor. Qed.

Lemma gate_state_roundtrip_witness :
  gate_ok sample_gate ∧ gate_from_dict (VDict (gate_to_dict sample_gate)) = Ok sample_gate.
Proof.
  split; [apply sample_gate_ok | exact (gate_state_roundtrip sample_gate sample_gate_ok)].
Defined.

(** * The aggregator: frame lemmas *)

(** A step that leaves the three fields of the safety relation alone. *)
Definition same_guards (g g' : GateState) : Prop :=
  auto_execute g' = auto_execute g ∧ risk g' = risk g ∧
  profit_readiness_status (market g') = profit_readiness_status (market g).

Lemma same_guards_refl g : same_guards g g.
Proof. done. Qed.

Lemma same_guards_safe g g' : same_guards g g' → auto_execute_safe g → auto_execute_safe g'.
Proof. unfold auto_execute_safe. intros (-> & -> & ->). done. Qed.

Lemma assign_symbol_guards symbol c g : same_guards g (assign_symbol_component symbol c g).
Proof.
  unfold assign_symbol_component. destruct (component_is_none c); [|done].
  destruct (_ !! symbol); [|done]. by destruct (block_is_empty _).
Qed.

Lemma assign_all_guards {A} (mk : option A → component) l g : same_guards g (assign_all mk l g).
Proof.
  unfold assign_all. generalize (default [] l) as l'. intros l'. revert g.
  induction l' as [|sv l' IH]; intros g; simpl; [done|].
  destruct (IH (assign_symbol_component sv.1 (mk sv.2) g)) as (E1 & E2 & E3).
  destruct (assign_symbol_guards sv.1 (mk sv.2) g) as (F1 & F2 & F3).
  repeat split; congruence.
Qed.

Lemma with_auto_execute_safe b g :
  (b = true → reduce_only (risk g) = false ∧ profit_readiness_status (market g) = VStr "ok") →
  auto_execute_safe (with_auto_execute b g).
Proof. done. Qed.

Lemma set_auto_execute_safe board g : auto_execute_safe (set_auto_execute board g).
Proof.
  apply with_auto_execute_safe. intros H. to_props.
  destruct (profit_readiness_status _); try done. simpl in *. by to_props; subst.
Qed.

Lemma gate_step_safe op g : auto_execute_safe g → auto_execute_safe (gate_step op g).
Proof.
  intros Hg. destruct op; simpl.
  - unfold update_news. eapply same_guards_safe; [apply assign_all_guards|]. by destruct g0.
  - unfold update_calendar. eapply same_guards_safe; [apply assign_all_guards|]. by destruct g0.
  - unfold update_spread. eapply same_guards_safe; [apply assign_all_guards|].
    destruct g0 as [s|]; [|done]. destruct (negb _); [apply set_auto_execute_safe|done].
  - unfold update_liquidity. destruct g0 as [l|]; [|done].
    destruct (v_in _ _); [apply set_auto_execute_safe|done].
  - unfold update_risk. destruct (reduce_only _) eqn:E; [done|].
    intros Ha. destruct (Hg Ha) as [_ Hr]. by split.
  - unfold apply_risk_assessment. destruct (reduce_only _) eqn:E; [done|].
    intros Ha. destruct (Hg Ha) as [_ Hr]. by split.
  - done.
  - done.
  - unfold set_profit_readiness_status. destruct allow; [|done]. intros H. simpl in *. to_props.
    split; [done|]. destruct status; try done. simpl in *. by to_props; subst.
  - apply set_auto_execute_safe.
  - done.
  - done.
  - unfold enforce_auto_execute_guards. destruct (_ || _); [done|done].
Qed.


(** * Per-symbol blocks *)

Lemma assign_symbol_lookup symbol c g sym' :
  per_symbol (market (assign_symbol_component symbol c g)) !! sym' =
    if decide (sym' = symbol) then
      if component_is_none c && bool_decide (per_symbol (market g) !! symbol = None) then None
      else let b := set_component c (default (Block None None None) (per_symbol (market g) !! symbol)) in
        if block_is_empty b then None else Some b
    else per_symbol (market g) !! sym'.
Proof.
  unfold assign_symbol_component. destruct (component_is_none c) eqn:Hc; simpl.
  - destruct (per_symbol (market g) !! symbol) as [b|] eqn:Hb; simpl.
    + destruct (block_is_empty _) eqn:He; simpl; case_decide; subst; by simplify_map_eq.
    + case_decide; by subst.
  - assert (∀ b, block_is_empty (set_component c b) = false) as ->.
    { intros []. by destruct c as [[]|[]|[]], block_news0, block_calendar0, block_spread0. }
    case_decide; subst; by simplify_map_eq.
Qed.

Lemma assign_symbol_no_empty symbol c g :
  no_empty_block g → no_empty_block (assign_symbol_component symbol c g).
Proof.
  intros H sym' b. rewrite assign_symbol_lookup. case_decide; [|apply H].
  destruct (_ && _); [done|]. cbn zeta. set (b' := set_component _ _).
  destruct (block_is_empty b') eqn:E; [done|]. by intros [= <-].
Qed.

Lemma assign_all_no_empty {A} (mk : option A → component) l g :
  no_empty_block g → no_empty_block (assign_all mk l g).
Proof.
  unfold assign_all. generalize (default [] l) as l'. intros l'. revert g.
  induction l' as [|sv l' IH]; intros g Hg; simpl; [done|]. by apply IH, assign_symbol_no_empty.
Qed.

(** Every aggregator operation keeps the per-symbol table free of empty
    blocks: clearing the last component of a symbol removes the symbol, so the
    table can be serialised and read back without loss. *)
Theorem gate_step_no_empty_block (op : gate_op) (g : GateState) :
  no_empty_block g → no_empty_block (gate_step op g).
Proof.
  intros Hg. destruct op; simpl; try done.
  - apply assign_all_no_empty. by destruct g0.
  - apply assign_all_no_empty. by destruct g0.
  - apply assign_all_no_empty. destruct g0; [|done]. by destruct (negb _).
  - unfold update_liquidity. destruct g0; [|done]. by destruct (v_in _ _).
  - unfold update_risk. by destruct (reduce_only _).
  - unfold apply_risk_assessment. by destruct (reduce_only _).
  - by apply map_Forall_delete.
  - unfold set_profit_readiness_status. by destruct allow.
  - unfold enforce_auto_execute_guards. by destruct (_ || _).
Qed.

Lemma gate_step_no_empty_block_witness :
  no_empty_block sample_gate ∧
  no_empty_block (gate_step (OpNews None (Some [("USDJPY", None)])) sample_gate).
Proof.
  assert (H : no_empty_block sample_gate).
  { apply map_Forall_to_list. vm_compute. by repeat constructor. }
  split; [exact H|].
  exact (gate_step_no_empty_block (OpNews None (Some [("USDJPY", None)])) sample_gate H).
Defined.

(** [enforce_auto_execute_guards] leaves [auto_execute] on exactly when it
    was on and every guardrail holds: board mode "normal", spread outside
    cooldown/block/halt, kill switch absent, empty, "none" or "normal" (all up to
    case), liquidity neither guarded nor halted, and reduce-only off. *)
Theorem enforce_auto_execute_guards_iff (board : string) (ks : option string) (spread : string)
    (g : GateState) :
  auto_execute (enforce_auto_execute_guards board ks spread g) = true ↔
    auto_execute g = true ∧ lower board = "normal" ∧
    lower spread ∉ ["cooldown"; "block"; "halt"] ∧
    (ks = None ∨ ks = Some "" ∨ ∃ k, ks = Some k ∧ lower k ∈ ["none"; "normal"]) ∧
    (liq_state (market_liquidity (market g)) ≠ VStr "guarded" ∧
     liq_state (market_liquidity (market g)) ≠ VStr "halted") ∧
    reduce_only (risk g) = false.
Proof.
  assert (Hks : str_in (lower (default "none" ks or? "none")) ["none"; "normal"] = true ↔
    ks = None ∨ ks = Some "" ∨ ∃ k, ks = Some k ∧ lower k ∈ ["none"; "normal"]).
  { rewrite str_in_spec. unfold py_or. destruct ks as [[|c k]|]; cbn -[lower].
    - split; intros _; [by auto|by left].
    - split; [intros H; right; right; by exists (String c k)|].
      intros [?|[?|(k' & [= <-] & ?)]]; done.
    - split; intros _; [by auto|by left]. }
  assert (Hliq : v_in (liq_state (market_liquidity (market g))) ["guarded"; "halted"] = false ↔
    liq_state (market_liquidity (market g)) ≠ VStr "guarded" ∧
    liq_state (market_liquidity (market g)) ≠ VStr "halted").
  { apply v_in_false2. }
  unfold enforce_auto_execute_guards. rewrite <- Hks, <- Hliq, <- str_in_false.
  destruct (String.eqb_spec (lower board) "normal"); cbn [negb orb]; [|split; [done|tauto]].
  destruct (str_in (lower spread) _); cbn [negb orb]; [split; [done|intros (_ & _ & [=] & _)]|].
  destruct (str_in (lower _) _); cbn [negb orb]; [|split; [done|intros (_ & _ & _ & [=] & _)]].
  destruct (v_in _ _); cbn [negb orb]; [split; [done|intros (_ & _ & _ & _ & [=] & _)]|].
  destruct (reduce_only _); cbn [negb orb]; [split; [done|intros (_ & _ & _ & _ & _ & [=])]|tauto].
Qed.

(** [update_risk] turns [auto_execute] off only for reduce-only: a kill
    switch recommendation alone, even "hard_stop", leaves it as it was, although
    the comment in the method says kill-switch conditions force it off. *)
Theorem update_risk_kill_switch_keeps_auto_execute (g : GateState) (level reason : string) :
  let g' := update_risk None None (Some (VStr level)) (Some (VStr reason)) g in
  kill_switch_recommendation (risk g') = VStr level ∧
  auto_execute g' = (auto_execute g && negb (reduce_only (risk g))).
Proof.
  unfold update_risk. simpl. destruct (reduce_only (risk g)); simpl; split; try done.
  - by rewrite andb_false_r.
  - by rewrite andb_true_r.
Qed.
