(* ===== verification/Health.v ===== *)
(** The health monitor of [src/core/health.py]: reasons raised against the
    process, the merged status, queued operator actions, suggestions, and the
    guardrail snapshot that combines health, gate and kill switch. *)

From S2P Require Import Prelude PyFloat PyVal PyEnv Gate.

Local Open Scope Z_scope.

(** * Data *)

Definition SEVERITY_ORDER : list string := ["ok"; "warn"; "degraded"; "soft_stop"; "hard_stop"].
Definition DEFAULT_HEALTH_EVENT_LOG : string := "logs/events/health.changed.jsonl".

Record HealthReason := Reason {
  reason_code : string; reason_level : string; reason_detail : option string;
  reason_action : option string; raised_at : datetime }.

Record KillSwitchSuggestion := KillSwitch {
  ks_state : string; ks_reason : string; ks_runbook : option string }.

Record HealthState := Health {
  status : string;
  reasons : list HealthReason;
  board_mode_suggestion : option string;
  board_mode_runbook : option string;
  kill_switch : option KillSwitchSuggestion }.

Record HealthAction := Action {
  action_id : string; action_name : string; action_reason : string;
  action_evidence : list string; action_expires : option datetime; queued_at : datetime }.

Record GuardrailSnapshot := Guardrail {
  g_health_status : string; g_board_mode : string; g_kill_switch_state : pyval;
  g_spread_status : pyval; g_liquidity_status : pyval; g_reduce_only : bool;
  g_exit_code : Z; g_reasons : list string; g_banner : pyval; g_runbook : option string;
  g_kill_switch_reason : pyval; g_spread_reason : pyval; g_reduce_only_reason : pyval }.

(** The monitor object: its state, its queue and the world it writes to. *)
Record HealthMonitor := Monitor {
  hm_state : HealthState; hm_actions : list HealthAction; hm_world : world }.

Definition health0 : HealthState := Health "ok" [] None None None.
Definition monitor0 (w : world) : HealthMonitor := Monitor health0 [] w.

#[export] Instance health_has_world : HasWorld HealthMonitor.
Proof.
  refine {| wget := hm_world; wset := λ w m, Monitor (hm_state m) (hm_actions m) w |}; by try intros [].
Defined.

Definition LEVEL_TO_STATUS : list (string * string) :=
  [("ok", "ok"); ("info", "ok"); ("warning", "warn"); ("degraded", "degraded");
   ("soft_stop", "soft_stop"); ("critical", "soft_stop"); ("hard_stop", "hard_stop");
   ("fatal", "hard_stop"); ("warn", "warn")].

Definition map_level (level : string) : string := default "degraded" (dlookup level LEVEL_TO_STATUS).

Definition reason_to_dict (r : HealthReason) : dict :=
  [("code", VStr (reason_code r)); ("level", VStr (reason_level r));
   ("detail", vopt_str (reason_detail r)); ("recommended_action", vopt_str (reason_action r));
   ("raised_at", VStr (isoformat (raised_at r)))].

Definition kill_switch_to_dict (k : KillSwitchSuggestion) : dict :=
  [("state", VStr (ks_state k)); ("reason", VStr (ks_reason k)); ("runbook", vopt_str (ks_runbook k))].

Definition health_to_dict (h : HealthState) : dict :=
  [("status", VStr (status h)); ("reasons", VList ((λ r, VDict (reason_to_dict r)) <$> reasons h));
   ("board_mode_suggestion", vopt_str (board_mode_suggestion h));
   ("board_mode_runbook", vopt_str (board_mode_runbook h));
   ("kill_switch", match kill_switch h with Some k => VDict (kill_switch_to_dict k) | None => VNone end)].

Definition action_to_dict (a : HealthAction) : dict :=
  [("id", VStr (action_id a)); ("action", VStr (action_name a)); ("reason", VStr (action_reason a));
   ("evidence", VList (VStr <$> action_evidence a)); ("expires_at", datetime_to_iso (action_expires a));
   ("queued_at", VStr (isoformat (queued_at a)))].

Definition guardrail_to_dict (g : GuardrailSnapshot) : dict :=
  [("health_status", VStr (g_health_status g)); ("board_mode", VStr (g_board_mode g));
   ("kill_switch_state", g_kill_switch_state g); ("spread_status", g_spread_status g);
   ("liquidity_status", g_liquidity_status g); ("reduce_only", VBool (g_reduce_only g));
   ("exit_code", VInt (g_exit_code g)); ("reasons", VList (VStr <$> g_reasons g));
   ("banner", g_banner g); ("runbook", vopt_str (g_runbook g));
   ("kill_switch_reason", g_kill_switch_reason g); ("spread_reason", g_spread_reason g);
   ("reduce_only_reason", g_reduce_only_reason g)].

(** * Severity *)

Fixpoint index_of (x : string) (l : list string) (i : nat) : option nat :=
  match l with
  | [] => None
  | y :: l => if String.eqb x y then Some i else index_of x l (S i)
  end.

Definition severity (s : string) (dflt : nat) : nat := default dflt (index_of s SEVERITY_ORDER 0).

Definition merge_status (current incoming : string) : string :=
  nth (Nat.max (severity current 0) (severity incoming 1)) SEVERITY_ORDER "hard_stop".

Definition recompute_status (rs : list HealthReason) : string :=
  fold_left (λ st r, merge_status st (map_level (reason_level r))) rs "ok".

(** * Methods *)

Definition set_state (h : HealthState) (m : HealthMonitor) : HealthMonitor :=
  Monitor h (hm_actions m) (hm_world m).
Definition set_actions (l : list HealthAction) (m : HealthMonitor) : HealthMonitor :=
  Monitor (hm_state m) l (hm_world m).
Definition set_status (s : string) (h : HealthState) : HealthState :=
  Health s (reasons h) (board_mode_suggestion h) (board_mode_runbook h) (kill_switch h).
Definition set_reasons (l : list HealthReason) (h : HealthState) : HealthState :=
  Health (status h) l (board_mode_suggestion h) (board_mode_runbook h) (kill_switch h).
Definition set_suggestion (s : string) (r : option string) (h : HealthState) : HealthState :=
  Health (status h) (reasons h) (Some s) r (kill_switch h).
Definition set_kill_switch (k : KillSwitchSuggestion) (h : HealthState) : HealthState :=
  Health (status h) (reasons h) (board_mode_suggestion h) (board_mode_runbook h) (Some k).

Definition has_code (code : string) (r : HealthReason) : bool := String.eqb (reason_code r) code.

(** [action.split("runbook:", 1)[-1].strip() or None] of a "runbook:" action. *)
Definition runbook_of (action : option string) : option string :=
  match action with
  | Some a =>
      if starts_with "runbook:" a then
        let r := strip (String.substring 8 (String.length a - 8) a) in
        if truthy r then Some r else None
      else None
  | None => None
  end.

Section methods.
Context `{Env}.

Definition emit_health_event (level reason : string) (detail action : option string)
    (simulated : bool) : M HealthMonitor unit :=
  now ← now_utc;
  let payload := [("event", VStr "health.changed"); ("ts", VStr (iso_us_z now));
     ("level", VStr level); ("reason", VStr reason); ("detail", vopt_str detail);
     ("recommended_action", vopt_str action); ("simulated", VBool simulated)] ++
    (match runbook_of action with Some r => [("runbook_ref", VStr r)] | None => [] end) in
  ok ← try_append_jsonl DEFAULT_HEALTH_EVENT_LOG (VDict payload);
  if ok : bool
  then modify (λ m, set_state (set_status (merge_status (status (hm_state m)) (map_level level)) (hm_state m)) m)
  else mret tt.

Definition raise_condition (level reason : string) (detail action : option string)
    (simulated : bool) : M HealthMonitor unit :=
  rs ← gets (λ m, reasons (hm_state m));
  now ← now_utc;
  let upsert := Reason reason level detail action now in
  let rs := if existsb (has_code reason) rs
            then update_first (has_code reason) (λ _, upsert) rs
            else rs ++ [upsert] in
  _ ← modify (λ m, set_state (set_reasons rs (hm_state m)) m);
  emit_health_event level reason detail action simulated.

Definition queue_action (action reason : string) (evidence : option (list string))
    (expires_at : option datetime) (id : option string) : M HealthMonitor HealthAction :=
  let id := default "" id or? (action +:+ ":" +:+ reason) in
  acts ← gets hm_actions;
  match List.find (λ a, String.eqb (action_id a) id) acts with
  | Some a => mret a
  | None =>
      now ← now_utc;
      let item := Action id action reason (default [] evidence) expires_at now in
      _ ← modify (λ m, set_actions (hm_actions m ++ [item]) m);
      mret item
  end.

(** The queue without its first item of that id, and the item. *)
Fixpoint take_action (id : string) (l : list HealthAction) : option HealthAction * list HealthAction :=
  match l with
  | [] => (None, [])
  | a :: l =>
      if String.eqb (action_id a) id then (Some a, l)
      else let '(r, l) := take_action id l in (r, a :: l)
  end.

Definition ack_action (id actor : string) : M HealthMonitor dict :=
  acts ← gets hm_actions;
  let '(acknowledged, remaining) := take_action id acts in
  _ ← modify (set_actions remaining);
  now ← now_utc;
  let payload := [("action_id", VStr id); ("actor", VStr actor); ("ack_ts", VStr (isoformat now))] in
  mret (payload ++ match acknowledged with
    | Some a => [("status", VStr "acknowledged"); ("reason", VStr (action_reason a));
                 ("action", VStr (action_name a)); ("evidence", VList (VStr <$> action_evidence a))]
    | None => [("status", VStr "not_found")]
    end).

Definition clear (reason : option string) : M HealthMonitor unit :=
  match reason with
  | None => modify (λ m, Monitor health0 [] (hm_world m))
  | Some code => modify (λ m,
      let rs := List.filter (λ r, negb (has_code code r)) (reasons (hm_state m)) in
      let acts := List.filter (λ a, negb (String.eqb (action_reason a) code)) (hm_actions m) in
      let h := set_reasons rs (hm_state m) in
      Monitor (set_status (match rs with [] => "ok" | _ => recompute_status rs end) h) acts (hm_world m))
  end.

Definition enforce_auto_execute_policy (h : HealthState) (g : GateState) : GateState :=
  if str_in (status h) ["warn"; "degraded"; "soft_stop"; "hard_stop"] then with_auto_execute false g
  else if str_in (lower (default "" (board_mode_suggestion h))) ["guarded"; "halted"; "halt"]
  then with_auto_execute false g else g.

Definition suggest_guarded (reason : string) (runbook : option string) (gate : option GateState)
    (evidence : option (list string)) (id : option string) (expires_at : option datetime)
    : M HealthMonitor (option GateState) :=
  _ ← modify (λ m, set_state (set_suggestion reason runbook (hm_state m)) m);
  _ ← queue_action "guarded" reason evidence expires_at id;
  h ← gets hm_state;
  mret (enforce_auto_execute_policy h <$> gate).

Definition suggest_kill_switch (state reason : string) (runbook : option string)
    (gate : option GateState) : M HealthMonitor (option GateState) :=
  _ ← modify (λ m, set_state (set_kill_switch (KillSwitch state reason runbook) (hm_state m)) m);
  mret (with_auto_execute false <$> gate).

Definition suggest_resume (reason : string) (runbook : option string)
    (evidence : option (list string)) (id : option string) (expires_at : option datetime)
    : M HealthMonitor unit :=
  _ ← modify (λ m, set_state (set_suggestion reason runbook (hm_state m)) m);
  _ ← queue_action "resume" reason evidence expires_at id;
  mret tt.
End methods.

(** ** The guardrail snapshot *)

Definition normalise_spread_state (state : pyval) : pyval :=
  if v_in state ["halt"; "block"] then VStr "block"
  else if v_in state ["watch"; "cooldown"] then VStr "cooldown" else state.

Definition compute_exit_code (health_status : string) (kill_switch_state spread_status : pyval)
    (reduce_only : bool) : Z :=
  if String.eqb health_status "hard_stop" || eq_str kill_switch_state "hard_stop" then 63
  else if eq_str kill_switch_state "soft_stop" then 62
  else if eq_str spread_status "block" then 62
  else if eq_str spread_status "cooldown" || reduce_only
          || str_in health_status ["warn"; "degraded"; "soft_stop"] then 21
  else 0.

Definition guardrail_snapshot (health : HealthState) (gate : GateState)
    (kill_switch_state : option string) : GuardrailSnapshot :=
  let spread_state := normalise_spread_state (spread_state (market_spread (market gate))) in
  let spread_reason := spread_reason (market_spread (market gate)) in
  let liquidity_status := liq_state (market_liquidity (market gate)) in
  let ks_reason :=
    if truthy (kill_switch_reason (risk gate)) then kill_switch_reason (risk gate)
    else vopt_str (ks_reason <$> kill_switch health) in
  let ro_reason := reduce_only_reason (risk gate) in
  let effective_kill_switch :=
    vopt_str kill_switch_state or? vopt_str (ks_state <$> kill_switch health)
    or? kill_switch_recommendation (risk gate) or? VStr "none" in
  let board_mode :=
    if eq_str effective_kill_switch "hard_stop" || String.eqb (status health) "hard_stop" then "halted"
    else if negb (eq_str spread_state "normal") || reduce_only (risk gate)
            || v_in liquidity_status ["guarded"; "halted"]
            || str_in (status health) ["warn"; "degraded"; "soft_stop"] then "guarded"
    else "normal" in
  let liquidity_reason :=
    if negb (eq_str liquidity_status "normal") then VStr ("liquidity_" +:+ py_str liquidity_status) else VNone in
  let banner := vopt_str (board_mode_suggestion health) or? spread_reason or? ro_reason
    or? ks_reason or? liquidity_reason in
  let forced := String.eqb board_mode "guarded" && negb (reduce_only (risk gate)) in
  let effective_reduce_only := forced || reduce_only (risk gate) in
  let ro_reason := if forced then ro_reason or? VStr "board_mode_guarded" else ro_reason in
  let reasons :=
    (reason_code <$> reasons health) ++
    (if truthy spread_reason then ["spread:" +:+ py_str spread_reason] else []) ++
    (if negb (eq_str liquidity_status "normal") then ["liquidity:" +:+ py_str liquidity_status] else []) ++
    (if truthy ro_reason then ["reduce_only:" +:+ py_str ro_reason] else []) ++
    (if negb (eq_str effective_kill_switch "none") then ["kill_switch:" +:+ py_str effective_kill_switch] else []) in
  let exit_code := compute_exit_code (status health) effective_kill_switch spread_state effective_reduce_only in
  let runbook := match kill_switch health with
    | Some k => if truthy (ks_runbook k) then ks_runbook k else board_mode_runbook health
    | None => board_mode_runbook health end in
  Guardrail (status health) board_mode effective_kill_switch spread_state liquidity_status
    effective_reduce_only exit_code reasons banner runbook ks_reason spread_reason ro_reason.

(** * The monitor as a state machine *)

Inductive health_op :=
  | HRaise (level reason : string) (detail action : option string) (simulated : bool)
  | HClear (reason : option string)
  | HQueue (action reason : string) (evidence : option (list string)) (exp : option datetime) (id : option string)
  | HAck (id actor : string)
  | HGuarded (reason : string) (runbook : option string) (evidence : option (list string))
      (id : option string) (exp : option datetime)
  | HKillSwitch (state reason : string) (runbook : option string)
  | HResume (reason : string) (runbook : option string) (evidence : option (list string))
      (id : option string) (exp : option datetime).

Definition health_exec `{Env} (op : health_op) : M HealthMonitor unit :=
  match op with
  | HRaise l r d a s => raise_condition l r d a s
  | HClear r => clear r
  | HQueue a r e x i => _ ← queue_action a r e x i; mret tt
  | HAck i a => _ ← ack_action i a; mret tt
  | HGuarded r b e i x => _ ← suggest_guarded r b None e i x; mret tt
  | HKillSwitch s r b => _ ← suggest_kill_switch s r b None; mret tt
  | HResume r b e i x => suggest_resume r b e i x
  end.

(** * Severity lemmas *)

Lemma index_of_bound x : ∃ i, severity x 0 = i ∧ (i < 5)%nat.
Proof.
  unfold severity, SEVERITY_ORDER. cbn. eexists; split; [reflexivity|].
  repeat (destruct (String.eqb _ _); [cbn; lia|]). cbn. lia.
Qed.

Lemma severity_bound x d : (d < 5)%nat → (severity x d < 5)%nat.
Proof.
  intros Hd. unfold severity, SEVERITY_ORDER. cbn.
  repeat (destruct (String.eqb _ _); [cbn; lia|]). cbn. lia.
Qed.

Lemma severity_nth i d : (i < 5)%nat → severity (nth i SEVERITY_ORDER "hard_stop") d = i.
Proof. intros H. do 5 (destruct i as [|i]; [reflexivity|]). lia. Qed.

Lemma severity_merge a b d :
  severity (merge_status a b) d = Nat.max (severity a 0) (severity b 1).
Proof.
  unfold merge_status. apply severity_nth.
  pose proof (severity_bound a 0). pose proof (severity_bound b 1). lia.
Qed.

Definition reason_severity (r : HealthReason) : nat := severity (map_level (reason_level r)) 1.
Definition max_severity (rs : list HealthReason) : nat := foldr Nat.max 0%nat (reason_severity <$> rs).

Lemma recompute_severity rs : severity (recompute_status rs) 0 = max_severity rs.
Proof.
  unfold recompute_status.
  assert (G : ∀ st, severity (fold_left (λ st r, merge_status st (map_level (reason_level r))) rs st) 0
    = Nat.max (severity st 0) (max_severity rs)).
  { induction rs as [|r rs IH]; intros st; cbn -[severity merge_status map_level]; [lia|].
    rewrite IH, severity_merge. unfold max_severity, reason_severity. cbn. lia. }
  rewrite G. reflexivity.
Qed.

Lemma max_severity_app rs rs' : max_severity (rs ++ rs') = Nat.max (max_severity rs) (max_severity rs').
Proof. unfold max_severity. induction rs as [|r rs IH]; cbn; [done|]. rewrite IH. lia. Qed.

Lemma max_severity_single u : max_severity [u] = reason_severity u.
Proof. unfold max_severity. cbn -[reason_severity]. lia. Qed.

Lemma max_severity_update p u rs :
  (max_severity (update_first p (λ _, u) rs) ≤ Nat.max (max_severity rs) (reason_severity u))%nat.
Proof.
  unfold max_severity. induction rs as [|r rs IH]; cbn -[reason_severity]; [lia|].
  destruct (p r); cbn -[reason_severity]; lia.
Qed.

Lemma max_severity_filter p rs : (max_severity (List.filter p rs) ≤ max_severity rs)%nat.
Proof.
  unfold max_severity. induction rs as [|r rs IH]; cbn -[reason_severity]; [lia|].
  destruct (p r); cbn -[reason_severity]; lia.
Qed.

(** The reported status is at least as severe as every standing reason. *)
Definition status_dominates (m : HealthMonitor) : Prop :=
  (max_severity (reasons (hm_state m)) ≤ severity (status (hm_state m)) 0)%nat.

(** At most one reason per code. *)
Definition codes_unique (m : HealthMonitor) : Prop := NoDup (reason_code <$> reasons (hm_state m)).

Lemma queue_action_state `{Env} a r e x i m : hm_state (queue_action a r e x i m).2 = hm_state m.
Proof. unfold queue_action, gets, mbind, M_bind. by destruct (List.find _ _). Qed.

Lemma ack_action_state `{Env} i a m : hm_state (ack_action i a m).2 = hm_state m.
Proof. unfold ack_action, gets, mbind, M_bind. by destruct (take_action _ _). Qed.

(** The reasons after [raise_condition] and, when the log write succeeds, the
    merged status. *)
Lemma raise_condition_spec `{Env} level reason detail action sim m :
  let u := Reason reason level detail action (clock_at (w_tick (hm_world m))) in
  let rs := reasons (hm_state m) in
  let m' := (raise_condition level reason detail action sim m).2 in
  (raise_condition level reason detail action sim m).1 = Ok tt ∧
  reasons (hm_state m') =
    (if existsb (has_code reason) rs then update_first (has_code reason) (λ _, u) rs else rs ++ [u]) ∧
  status (hm_state m') =
    (if io_ok_at (w_io (hm_world m)) then merge_status (status (hm_state m)) (map_level level)
     else status (hm_state m)).
Proof.
  unfold raise_condition, emit_health_event, now_utc, try_append_jsonl, gets, modify, mbind, M_bind.
  cbn -[merge_status map_level update_first]. by destruct (io_ok_at _).
Qed.

Lemma hoare_suggest `{Env} (P : HealthState → Prop) f a r e x i m :
  P (f (hm_state m)) →
  P (hm_state ((_ ← modify (λ m, set_state (f (hm_state m)) m); queue_action a r e x i) m).2).
Proof. intros HP. unfold mbind, M_bind, modify. cbn -[queue_action]. by rewrite queue_action_state. Qed.

Lemma health_exec_frame `{Env} op m :
  match op with HRaise _ _ _ _ _ | HClear _ => True | _ =>
    reasons (hm_state (health_exec op m).2) = reasons (hm_state m) ∧
    status (hm_state (health_exec op m).2) = status (hm_state m)
  end.
Proof.
  destruct op; try done; cbn [health_exec].
  - unfold mbind at 1 2, M_bind at 1 2. pose proof (queue_action_state action reason evidence exp id m) as E.
    destruct (queue_action _ _ _ _ _ m) as [[] ?]; cbn in *; by rewrite E.
  - unfold mbind at 1 2, M_bind at 1 2. pose proof (ack_action_state id actor m) as E.
    destruct (ack_action _ _ m) as [[] ?]; cbn in *; by rewrite E.
  - unfold suggest_guarded, mbind, M_bind, modify, gets. cbn -[queue_action].
    set (m1 := set_state _ m). pose proof (queue_action_state "guarded" reason evidence exp id m1) as E.
    destruct (queue_action _ _ _ _ _ m1) as [[] ?]; cbn in *; by rewrite E.
  - unfold suggest_resume, mbind, M_bind, modify, gets. cbn -[queue_action].
    set (m1 := set_state _ m). pose proof (queue_action_state "resume" reason evidence exp id m1) as E.
    destruct (queue_action _ _ _ _ _ m1) as [[] ?]; cbn in *; by rewrite E.
Qed.

(** C36. As long as the health log can be written, the reported status is at
    least as severe as every standing reason, whatever is raised, cleared,
    queued, acknowledged or suggested. *)
Theorem health_status_dominates `{Env} (op : health_op) (m : HealthMonitor) :
  (∀ n, io_ok_at n = true) → status_dominates m → status_dominates (health_exec op m).2.
Proof.
  intros Hio Hm. unfold status_dominates in *. pose proof (health_exec_frame op m) as F.
  destruct op; try (destruct F as [-> ->]; exact Hm).
  - cbn [health_exec]. destruct (raise_condition_spec level reason detail action simulated m) as (_ & -> & ->).
    rewrite Hio, severity_merge. set (u := Reason _ _ _ _ _).
    assert (Hu : severity (map_level level) 1 = reason_severity u) by reflexivity. rewrite Hu.
    destruct (existsb _ _).
    + pose proof (max_severity_update (has_code reason) u (reasons (hm_state m))). lia.
    + rewrite max_severity_app, max_severity_single. lia.
  - destruct reason as [code|]; cbn -[severity recompute_status max_severity]; [|cbn; lia].
    set (rs := List.filter _ _). destruct rs eqn:E; [cbn; lia|].
    rewrite recompute_severity. lia.
Qed.

Lemma health_status_dominates_witness :
  status_dominates (monitor0 world0) ∧
  status_dominates (@health_exec sample_env (HRaise "critical" "broker_latency" None None false) (monitor0 world0)).2.
Proof.
  split; [apply Nat.le_0_l|].
  apply (@health_status_dominates sample_env); [reflexivity | apply Nat.le_0_l].
Defined.

(** When the health log cannot be written, [raise_condition] records the
    reason but leaves the status unchanged: a fresh monitor that is told of a
    "fatal" condition still reports "ok". *)
Theorem health_log_failure_hides_condition `{Env} (w : world) (code : string) :
  io_ok_at (w_io w) = false →
  let m := (raise_condition "fatal" code None None false (monitor0 w)).2 in
  (reason_code <$> reasons (hm_state m)) = [code] ∧ status (hm_state m) = "ok" ∧
  recompute_status (reasons (hm_state m)) = "hard_stop".
Proof.
  intros Hio. destruct (raise_condition_spec "fatal" code None None false (monitor0 w)) as (_ & Hr & Hs).
  cbn zeta in *. rewrite Hs, Hr. cbn [hm_world monitor0]. rewrite Hio. by split_and!.
Qed.

(** An environment whose first guarded write fails. *)
Definition failing_env : Env := {|
  clock_at := @clock_at sample_env; uuid_at := @uuid_at sample_env; io_ok_at _ := false |}.

Lemma health_log_failure_hides_condition_witness :
  let m := (@raise_condition failing_env "fatal" "disk" None None false (monitor0 world0)).2 in
  (reason_code <$> reasons (hm_state m)) = ["disk"] ∧ status (hm_state m) = "ok" ∧
  recompute_status (reasons (hm_state m)) = "hard_stop".
Proof. exact (@health_log_failure_hides_condition failing_env world0 "disk" eq_refl). Defined.

Lemma update_first_codes code u rs :
  reason_code u = code →
  reason_code <$> update_first (has_code code) (λ _, u) rs = reason_code <$> rs.
Proof.
  intros Hu. induction rs as [|r rs IH]; cbn; [done|]. unfold has_code at 1.
  destruct (String.eqb_spec (reason_code r) code); cbn; congruence.
Qed.

Lemma existsb_code_false code rs :
  existsb (has_code code) rs = false → code ∉ reason_code <$> rs.
Proof.
  unfold has_code. induction rs as [|r rs IH]; cbn; [intros _; apply not_elem_of_nil|].
  intros H. to_props. rewrite not_elem_of_cons. split; [congruence|by apply IH].
Qed.

Lemma filter_codes_sublist p rs : reason_code <$> List.filter p rs `sublist_of` reason_code <$> rs.
Proof. induction rs as [|r rs IH]; cbn; [constructor|]. destruct (p r); cbn; by constructor. Qed.

(** The monitor keeps one reason per code: raising an existing code updates
    it in place and clearing a code removes it, so no operation duplicates one. *)
Theorem health_codes_unique `{Env} (op : health_op) (m : HealthMonitor) :
  codes_unique m → codes_unique (health_exec op m).2.
Proof.
  intros Hm. unfold codes_unique in *. pose proof (health_exec_frame op m) as F.
  destruct op; try (destruct F as [-> _]; exact Hm).
  - cbn [health_exec]. destruct (raise_condition_spec level reason detail action simulated m) as (_ & -> & _).
    destruct (existsb _ _) eqn:E; [by rewrite update_first_codes|].
    rewrite fmap_app. apply NoDup_app. split_and!; [done| |apply NoDup_singleton].
    intros x Hx ->%list_elem_of_singleton. by apply existsb_code_false in E.
  - destruct reason as [code|]; cbn; [|constructor].
    eapply sublist_NoDup; [exact Hm|apply filter_codes_sublist].
Qed.

Lemma health_codes_unique_witness :
  codes_unique (monitor0 world0) ∧
  codes_unique (@health_exec sample_env (HRaise "warn" "x" None None false) (monitor0 world0)).2.
Proof. split; [constructor|]. apply (@health_codes_unique sample_env). constructor. Defined.

(** The exit code and the board mode of a guardrail snapshot agree: 63
    exactly when the board is halted; a guarded board is reduce-only and exits
    with 21 or 62; a normal board exits with 0, except that a "soft_stop" kill
    switch exits with 62 while the board mode stays "normal". *)
Theorem guardrail_exit_code (h : HealthState) (g : GateState) (ks : option string) :
  let s := guardrail_snapshot h g ks in
  (g_board_mode s = "halted" ∧ g_exit_code s = 63) ∨
  (g_board_mode s = "guarded" ∧ g_reduce_only s = true ∧ (g_exit_code s = 21 ∨ g_exit_code s = 62)) ∨
  (g_board_mode s = "normal" ∧ g_reduce_only s = false ∧
   g_exit_code s = if eq_str (g_kill_switch_state s) "soft_stop" then 62 else 0).
Proof.
  unfold guardrail_snapshot, compute_exit_code. cbn zeta. cbn [g_board_mode g_exit_code g_reduce_only g_kill_switch_state].
  set (eks := vopt_str ks or? _). set (sp := normalise_spread_state _).
  destruct (eq_str eks "hard_stop") eqn:Ek; cbn [orb].
  { left. by rewrite orb_true_r. }
  destruct (String.eqb (status h) "hard_stop") eqn:Eh; cbn [orb]; [by left|right].
  destruct (negb (eq_str sp "normal")) eqn:Esp; cbn [orb].
  2: destruct (reduce_only (risk g)) eqn:Er; cbn [orb].
  3: destruct (v_in _ ["guarded"; "halted"]); cbn [orb].
  4: destruct (str_in (status h) _) eqn:Es; cbn [orb].
  1-4: left; split; [done|]; cbn; rewrite ?andb_true_l;
    destruct (reduce_only (risk g)); cbn; rewrite ?orb_true_r;
    split; [done| |done|]; destruct (eq_str eks "soft_stop"), (eq_str sp "block"); auto.
  right. split_and!; [done|done|]. cbn [String.eqb Ascii.eqb Bool.eqb andb orb negb].
  to_props. assert (eq_str sp "block" = false ∧ eq_str sp "cooldown" = false) as [-> ->].
  { destruct sp; try done. cbn in *. by to_props; subst. }
  by destruct (eq_str eks "soft_stop").
Qed.
