(* ===== verification/RiskManager.v ===== *)
(** The risk manager of [src/risk/manager.py] (kill-switch guidance from
    drawdown, exposure, spread and capital, and the per-ticket decision) with
    the funding curve of [src/funding/service.py], and the capital and
    correlation guards of [src/risk]. *)

From S2P Require Import Prelude PyFloat PyVal PyEnv Gate Health.

Local Open Scope Z_scope.

(** * Funding *)

(** A calendar date, as [(year, month, day)]. *)
Definition date : Type := Z * Z * Z.

Record SwapRate := Swap {
  swap_pair : string; swap_long : float; swap_short : float; triple_day : option string }.

Record FundingCurve := Curve {
  points : list (date * float); swap_rates : list (string * SwapRate) }.

Fixpoint date_lookup (d : date) (l : list (date * float)) : option float :=
  match l with
  | [] => None
  | (d', v) :: l => if bool_decide (d = d') then Some v else date_lookup d l
  end.

Definition rate_on (c : FundingCurve) (d : date) : float := default fzero (date_lookup d (points c)).

Definition swap_rate (c : FundingCurve) (pair direction : string) : float :=
  match dlookup pair (swap_rates c) with
  | None => fzero
  | Some e => if str_in (lower direction) ["long"; "buy"] then swap_long e else swap_short e
  end.

(** Monday is 0; day 0 of the epoch was a Thursday. *)
Definition weekday (d : date) : Z :=
  let '(y, m, dd) := d in (days_from_civil y m dd + 3) mod 7.

Definition is_triple_day (d : date) (t : option string) : bool :=
  match t with
  | None => false
  | Some t =>
      truthy t &&
      match dlookup (String.substring 0 3 (lower (strip t)))
              [("mon", 0); ("tue", 1); ("wed", 2); ("thu", 3); ("fri", 4)] with
      | Some n => n =? weekday d
      | None => false
      end
  end.

Definition swap_penalty (c : FundingCurve) (pair direction : string) (d : date) : float :=
  let rate := swap_rate c pair direction in
  if feqb rate fzero then fzero
  else
    let triple := match dlookup pair (swap_rates c) with Some e => triple_day e | None => None end in
    if is_triple_day d triple then fmul rate (of_Z 3) else rate.

(** * Data *)

Definition DEFAULT_RISK_DECISION_LOG : string := "logs/events/risk.decision.jsonl".

Record RiskSnapshot := Snapshot {
  daily_drawdown_pct : float; weekly_drawdown_pct : float;
  equity_pct_of_base : option float; exposure_r_eff : option float;
  snap_spread_status : option string; session_date : option date; funding_rate : option float }.

Record RiskAssessment := Assessment {
  risk_state : RiskGateState; kill_switch_suggestion : option string;
  assess_kill_switch_reason : option string; assess_funding_rate : option float }.

Record RiskDecision := Decision {
  d_allowed : bool; d_reduce_only : bool; d_board_mode : string;
  d_kill_switch_state : pyval; d_spread_status : string; d_reason : pyval; d_exit_code : Z }.

Definition assessment_to_dict (a : RiskAssessment) : dict :=
  [("risk_state", VDict (risk_to_dict (risk_state a)));
   ("kill_switch_suggestion", vopt_str (kill_switch_suggestion a));
   ("kill_switch_reason", vopt_str (assess_kill_switch_reason a));
   ("funding_rate", vopt_float (assess_funding_rate a))].

Definition decision_to_dict (d : RiskDecision) : dict :=
  [("allowed", VBool (d_allowed d)); ("reduce_only", VBool (d_reduce_only d));
   ("board_mode", VStr (d_board_mode d)); ("kill_switch_state", d_kill_switch_state d);
   ("spread_status", VStr (d_spread_status d)); ("reason", d_reason d);
   ("exit_code", VInt (d_exit_code d))].

(** The advisor is a callable given by the caller. *)
Definition advisor : Type := GateState → option RiskAssessment → string → pyval → bool * pyval.

Record RiskManager := Manager {
  daily_stop_pct : float; weekly_stop_pct : float; r_eff_soft_stop : float;
  r_eff_hard_stop : float; capital_floor_pct : float;
  reduce_only_advisor : option advisor; funding_curve : option FundingCurve }.

(** ** Construction from a policy file; [None] is a file that does not exist *)

Definition as_dict_get (v : pyval) (k : string) : pyval :=
  match v with VDict d => dget_or k (VDict []) d | _ => VDict [] end.

Definition from_policy (file : option pyval) (profile : string) (curve : option FundingCurve)
    : res RiskManager :=
  let daily := of_dec 25 (-1) in
  let weekly := of_dec 50 (-1) in
  let soft := of_dec 20 (-1) in
  let hard := of_dec 25 (-1) in
  let floor := of_dec 80 0 in
  match file with
  | None => Ok (Manager daily weekly soft hard floor None curve)
  | Some raw =>
      let payload := if truthy raw then raw else VDict [] in
      profiles ← vget_or payload "profiles" (VDict []);
      let profile_cfg := as_dict_get profiles profile in
      let risk_limits := as_dict_get profile_cfg "risk_limits" in
      let ks := as_dict_get profile_cfg "kill_switch" in
      drawdown ← vget_or ks "drawdown_threshold_pct" (VDict []);
      '(daily, weekly) ← (match drawdown with
        | VDict d =>
            a ← py_float (dget_or "daily" (VFloat daily) d);
            b ← py_float (dget_or "weekly" (VFloat weekly) d); Ok (a, b)
        | _ => Ok (daily, weekly) end);
      f ← vget_or ks "capital_floor_pct_of_base" (VFloat floor); f ← py_float f;
      s ← vget_or risk_limits "exposure_r_eff_soft_stop" (VFloat soft); s ← py_float s;
      h ← vget_or risk_limits "exposure_r_eff_hard_stop" (VFloat hard); h ← py_float h;
      Ok (Manager daily weekly s h f None curve)
  end.

(** * Evaluation *)

(** The kill switch being built and its reason. *)
Abbreviation ks_acc := (option (string * string)).

(** The local function [_apply_kill_switch]. *)
Definition apply_kill_switch (level reason : string) (ks : ks_acc) : ks_acc :=
  match ks with
  | Some (l, _) =>
      if String.eqb l "hard_stop" then ks
      else if String.eqb level "hard_stop" then Some (level, reason) else ks
  | None => Some (level, reason)
  end.

Definition apply_if (b : bool) (level reason : string) (ks : ks_acc) : ks_acc :=
  if b then apply_kill_switch level reason ks else ks.

(** The guard rails of one snapshot: reduce-only with its reason, kill switch. *)
Definition guard_rails (rm : RiskManager) (s : RiskSnapshot) : bool * option string * ks_acc :=
  let '(ro, ror, ks) :=
    match exposure_r_eff s with
    | Some e =>
        if fgeb e (r_eff_hard_stop rm) then (false, None, apply_kill_switch "hard_stop" "r_eff_hard_stop" None)
        else if fgeb e (r_eff_soft_stop rm) then (true, Some "r_eff_soft_stop", None)
        else (false, None, None)
    | None => (false, None, None)
    end in
  let spread := lower (default "" (snap_spread_status s)) in
  let '(ro, ror, ks) :=
    if str_in spread ["block"; "halt"] then (ro, ror, apply_kill_switch "soft_stop" "spread_block" ks)
    else if str_in spread ["cooldown"; "watch"] && negb ro then (true, Some "spread_cooldown", ks)
    else (ro, ror, ks) in
  let ks := apply_if (fgeb (daily_drawdown_pct s) (daily_stop_pct rm)) "soft_stop" "daily_drawdown" ks in
  let ks := apply_if (fgeb (weekly_drawdown_pct s) (weekly_stop_pct rm)) "soft_stop" "weekly_drawdown" ks in
  let ks := apply_if (match equity_pct_of_base s with
      | Some q => fleb q (capital_floor_pct rm) | None => false end) "hard_stop" "capital_floor" ks in
  (ro, ror, ks).

Section evaluate.
Context `{Env}.

(** [evaluate] against the health monitor of the state. *)
Definition evaluate (rm : RiskManager) (s : RiskSnapshot) : M HealthMonitor RiskAssessment :=
  let funding := match funding_rate s, funding_curve rm, session_date s with
    | None, Some c, Some d => Some (rate_on c d)
    | f, _, _ => f
    end in
  let '(ro, ror, ks) := guard_rails rm s in
  let rs := Risk ro (vopt_str ror) (vopt_str (fst <$> ks)) (vopt_str (snd <$> ks)) in
  _ ← (match ks with
    | Some (level, reason) =>
        raise_condition (if String.eqb level "hard_stop" then "critical" else "warning")
          "risk_kill_switch" (Some reason) (Some "runbook:RUN-RISK-01#kill-switch") false
    | None =>
        when ro (raise_condition "warning" "risk_reduce_only" ror
          (Some "runbook:RUN-RISK-01#reduce-only") false)
    end);
  mret (Assessment rs (fst <$> ks) (snd <$> ks) funding).
End evaluate.

(** ** Ticket decision *)

Definition normalise_ticket_spread (spread_state : pyval) : string :=
  if v_in spread_state ["halt"; "block"] then "block"
  else if v_in spread_state ["cooldown"; "watch"] then "cooldown" else "normal".

Definition evaluate_reduce_only_advisor (rm : RiskManager) (gate : GateState)
    (a : option RiskAssessment) (spread : string) (ks : pyval) : bool * pyval :=
  match reduce_only_advisor rm with
  | None => (false, VNone)
  | Some f => f gate a spread ks
  end.

(** The kill-switch level and the spread class the decision is based on. *)
Definition effective_ks (gate : GateState) (a : option RiskAssessment) (ks : option string) : pyval :=
  vopt_str ks or? vopt_str (a ≫= kill_switch_suggestion)
    or? kill_switch_recommendation (risk gate) or? VStr "none".
Definition effective_spread (gate : GateState) (sp : option string) : string :=
  normalise_ticket_spread (vopt_str sp or? spread_state (market_spread (market gate))).

(** The decision of [evaluate_ticket], before it is logged. *)
Definition ticket_decision (rm : RiskManager) (gate_state : option GateState)
    (assessment : option RiskAssessment) (spread_status kill_switch_state : option string)
    : RiskDecision :=
  let gate := default gate_default gate_state in
  let effective_spread := effective_spread gate spread_status in
  let ks := effective_ks gate assessment kill_switch_state in
  let ro := reduce_only (risk gate) ||
    match assessment with Some a => reduce_only (risk_state a) | None => false end in
  let ro_reason := match assessment with
    | Some a => if truthy (reduce_only_reason (risk_state a))
                then reduce_only_reason (risk_state a) else reduce_only_reason (risk gate)
    | None => reduce_only_reason (risk gate) end in
  let '(adv, adv_reason) := evaluate_reduce_only_advisor rm gate assessment effective_spread ks in
  let '(ro, ro_reason) :=
    if adv then (true, match ro_reason with VNone => adv_reason or? VStr "reduce_only_advisor" | r => r end)
    else (ro, ro_reason) in
  let reason := spread_reason (market_spread (market gate)) or? kill_switch_reason (risk gate)
    or? vopt_str (assessment ≫= assess_kill_switch_reason) or? ro_reason in
  if eq_str ks "hard_stop" then
    Decision false ro "halted" ks effective_spread (reason or? VStr "kill_switch_hard_stop") 63
  else if String.eqb effective_spread "block" then
    Decision false true "guarded" (ks or? VStr "soft_stop") effective_spread (reason or? VStr "spread_block") 62
  else if eq_str ks "soft_stop" then
    Decision false true "guarded" ks effective_spread (reason or? VStr "kill_switch_soft_stop") 62
  else if String.eqb effective_spread "cooldown" || ro then
    Decision true ro "guarded" ks effective_spread
      (reason or? VStr (if ro then "reduce_only" else "spread_cooldown")) 21
  else Decision true ro "normal" ks effective_spread reason 0.

Section evaluate_ticket.
Context `{Env} {S : Type} `{HasWorld S}.

Definition emit_risk_decision (d : RiskDecision) (actor runbook : option string) (gate : GateState)
    : M S unit :=
  ts ← utcnow_iso;
  _ ← try_append_jsonl DEFAULT_RISK_DECISION_LOG (VDict
    [("event", VStr "risk.decision"); ("ts", VStr ts); ("actor", vopt_str actor);
     ("runbook_ref", vopt_str runbook); ("decision", VDict (decision_to_dict d));
     ("gate", VDict (gate_to_dict gate))]);
  mret tt.

Definition evaluate_ticket (rm : RiskManager) (gate_state : option GateState)
    (assessment : option RiskAssessment) (spread_status kill_switch_state actor runbook : option string)
    : M S RiskDecision :=
  let d := ticket_decision rm gate_state assessment spread_status kill_switch_state in
  _ ← emit_risk_decision d actor runbook (default gate_default gate_state);
  mret d.
End evaluate_ticket.

Definition simulate_losses (rm : RiskManager) (drawdown weekly : float) (loss_streak : Z) : option string :=
  if fgeb weekly (weekly_stop_pct rm) then Some "soft_stop"
  else if fgeb drawdown (daily_stop_pct rm) then Some "soft_stop"
  else if 5 <=? loss_streak then Some "soft_stop" else None.

(** * Capital and correlation guards *)

Definition simulate_capital (warn halt peak : float) : string :=
  if fgeb peak halt then "halt" else if fgeb peak warn then "throttle" else "ok".

Definition correlation_breaches (pairs : list (string * float)) (threshold : float) : list string :=
  omap (λ p : string * float, if fgeb (fabs p.2) threshold then Some p.1 else None) pairs.

Definition simulate_correlation (threshold hotness : float) : string :=
  if fgeb hotness threshold then "hot"
  else if fgeb hotness (fmul threshold (of_dec 9 (-1))) then "warm" else "ok".

(** * Kill-switch precedence *)

Section conditions.
Variables (rm : RiskManager) (s : RiskSnapshot).

Definition exposure_hard : bool :=
  match exposure_r_eff s with Some e => fgeb e (r_eff_hard_stop rm) | None => false end.
Definition exposure_soft : bool :=
  match exposure_r_eff s with Some e => fgeb e (r_eff_soft_stop rm) | None => false end.
Definition capital_breached : bool :=
  match equity_pct_of_base s with Some q => fleb q (capital_floor_pct rm) | None => false end.
Definition spread_in (l : list string) : bool := str_in (lower (default "" (snap_spread_status s))) l.

(** What the guidance means: hard stops first, then the first soft stop. *)
Definition kill_switch_spec : ks_acc :=
  if exposure_hard then Some ("hard_stop", "r_eff_hard_stop")
  else if capital_breached then Some ("hard_stop", "capital_floor")
  else if spread_in ["block"; "halt"] then Some ("soft_stop", "spread_block")
  else if fgeb (daily_drawdown_pct s) (daily_stop_pct rm) then Some ("soft_stop", "daily_drawdown")
  else if fgeb (weekly_drawdown_pct s) (weekly_stop_pct rm) then Some ("soft_stop", "weekly_drawdown")
  else None.

Definition reduce_only_spec : option string :=
  if negb exposure_hard && exposure_soft then Some "r_eff_soft_stop"
  else if spread_in ["cooldown"; "watch"] then Some "spread_cooldown" else None.
End conditions.

Lemma spread_in_disjoint s :
  spread_in s ["block"; "halt"] = true → spread_in s ["cooldown"; "watch"] = false.
Proof.
  unfold spread_in. generalize (lower (default "" (snap_spread_status s))). intros x Hx.
  apply str_in_spec in Hx. by repeat (apply elem_of_cons in Hx as [->|Hx]); [..|apply elem_of_nil in Hx].
Qed.

Lemma guard_rails_eq (rm : RiskManager) (s : RiskSnapshot) :
  guard_rails rm s =
    (match reduce_only_spec rm s with Some _ => true | None => false end,
     reduce_only_spec rm s, kill_switch_spec rm s).
Proof.
  pose proof (spread_in_disjoint s) as Hd. unfold spread_in in Hd.
  unfold guard_rails, reduce_only_spec, kill_switch_spec, exposure_hard, exposure_soft,
    capital_breached, spread_in, apply_if.
  destruct (exposure_r_eff s) as [e|]; [destruct (fgeb e (r_eff_hard_stop rm)); [|destruct (fgeb e (r_eff_soft_stop rm))]|];
    (destruct (str_in _ ["block"; "halt"]); [rewrite (Hd eq_refl)|destruct (str_in _ ["cooldown"; "watch"])]);
    destruct (fgeb (daily_drawdown_pct s) _), (fgeb (weekly_drawdown_pct s) _);
    (destruct (equity_pct_of_base s) as [q|]; [destruct (fleb q _)|]); reflexivity.
Qed.

(** [RiskManager.evaluate] follows one precedence: a hard stop (effective
    exposure, then the capital floor) overrides every soft stop, the first soft
    stop in the order spread, daily drawdown, weekly drawdown gives the reason,
    and reduce-only comes from the soft exposure limit or else a cooling-down
    spread. *)
Theorem guard_rails_precedence (rm : RiskManager) (s : RiskSnapshot) :
  guard_rails rm s =
    (match reduce_only_spec rm s with Some _ => true | None => false end,
     reduce_only_spec rm s, kill_switch_spec rm s).
Proof. apply guard_rails_eq. Qed.

(** An evaluation always returns, and reports what it found to the health
    monitor when its log is writable: a hard stop leaves the status at
    "soft_stop" or worse, a soft stop or reduce-only at "warn" or worse, and a
    clean snapshot leaves the monitor untouched. *)
Theorem evaluate_reports_health `{Env} (rm : RiskManager) (s : RiskSnapshot) (m : HealthMonitor) :
  (∀ n, io_ok_at n = true) →
  ∃ a m', evaluate rm s m = (Ok a, m') ∧
    kill_switch_suggestion a = fst <$> kill_switch_spec rm s ∧
    match kill_switch_spec rm s, reduce_only_spec rm s with
    | Some (level, _), _ => ((if String.eqb level "hard_stop" then 3 else 1) ≤ severity (status (hm_state m')) 0)%nat
    | None, Some _ => (1 ≤ severity (status (hm_state m')) 0)%nat
    | None, None => m' = m
    end.
Proof.
  intros Hio. unfold evaluate. rewrite guard_rails_eq.
  destruct (kill_switch_spec rm s) as [[level reason]|] eqn:Ek.
  - set (lv := if String.eqb level "hard_stop" then "critical" else "warning").
    destruct (raise_condition_spec lv "risk_kill_switch" (Some reason)
      (Some "runbook:RUN-RISK-01#kill-switch") false m) as (Hr & _ & Hs).
    unfold mbind, M_bind. destruct (raise_condition _ _ _ _ _ m) as [r m'] eqn:E. cbn in Hr; subst r.
    eexists _, m'. split; [reflexivity|]. split; [done|].
    cbn [snd] in Hs. rewrite Hs, Hio, severity_merge.
    unfold lv. destruct (String.eqb level "hard_stop"); cbn -[severity]; cbn; lia.
  - destruct (reduce_only_spec rm s) as [reason|] eqn:Er; cbn [when].
    + destruct (raise_condition_spec "warning" "risk_reduce_only" (Some reason)
        (Some "runbook:RUN-RISK-01#reduce-only") false m) as (Hr & _ & Hs).
      unfold mbind, M_bind. destruct (raise_condition _ _ _ _ _ m) as [r m'] eqn:E. cbn in Hr; subst r.
      eexists _, m'. split; [reflexivity|]. split; [done|].
      cbn [snd] in Hs. rewrite Hs, Hio, severity_merge. cbn -[severity]. cbn. lia.
    + by eexists _, m.
Qed.

Definition default_manager : RiskManager :=
  Manager (of_dec 25 (-1)) (of_Z 5) (of_Z 2) (of_dec 25 (-1)) (of_Z 80) None None.

Definition stressed_snapshot : RiskSnapshot :=
  Snapshot (of_Z 3) fzero (Some (of_Z 75)) (Some (of_dec 21 (-1))) (Some "cooldown") None None.

Lemma evaluate_reports_health_witness :
  ∃ a m', @evaluate sample_env default_manager stressed_snapshot (monitor0 world0) = (Ok a, m') ∧
    kill_switch_suggestion a = Some "hard_stop" ∧ (3 ≤ severity (status (hm_state m')) 0)%nat.
Proof.
  destruct (@evaluate_reports_health sample_env default_manager stressed_snapshot (monitor0 world0) (λ _, eq_refl))
    as (a & m' & E & Hk & Hs).
  exists a, m'. split; [exact E|]. split; [exact Hk | exact Hs].
Defined.

(** * Ticket decisions *)

(** A ticket is allowed exactly when no kill switch is stopping ("hard_stop"
    or "soft_stop") and the spread is not blocked; a refused ticket exits with 63
    on a halted board or with 62, guarded and reduce-only; an allowed one exits
    with 0 on a normal board that is not reduce-only, else with 21, guarded. *)
Theorem ticket_decision_table (rm : RiskManager) (g : GateState) (a : option RiskAssessment)
    (sp ks : option string) :
  let d := ticket_decision rm (Some g) a sp ks in
  (d_allowed d = true ↔
    effective_ks g a ks ≠ VStr "hard_stop" ∧ effective_ks g a ks ≠ VStr "soft_stop" ∧
    effective_spread g sp ≠ "block") ∧
  ((d_allowed d, d_board_mode d, d_exit_code d) = (false, "halted", 63) ∨
   (d_allowed d, d_board_mode d, d_exit_code d, d_reduce_only d) = (false, "guarded", 62, true) ∨
   (d_allowed d, d_board_mode d, d_exit_code d) = (true, "guarded", 21) ∨
   (d_allowed d, d_board_mode d, d_exit_code d, d_reduce_only d) = (true, "normal", 0, false)).
Proof.
  unfold ticket_decision. cbn zeta. cbn [default from_option id].
  destruct (evaluate_reduce_only_advisor _ _ _ _ _) as [adv adv_reason].
  set (p := if adv then _ else _). destruct p as [ro ro_reason]. cbn beta iota.
  assert (Heq : ∀ v s, eq_str v s = true ↔ v = VStr s).
  { intros v s. destruct v; cbn; try (split; [done|congruence]). rewrite String.eqb_eq. split; congruence. }
  assert (Hne : ∀ v s, eq_str v s = false ↔ v ≠ VStr s).
  { intros v s. rewrite <- Heq. by destruct (eq_str v s). }
  destruct (eq_str (effective_ks g a ks) "hard_stop") eqn:E1.
  { apply Heq in E1. cbn. split; [|by auto]. split; [done|]. intros (Hx & _). by destruct Hx. }
  apply Hne in E1. destruct (String.eqb_spec (effective_spread g sp) "block") as [E2|E2].
  { cbn. split; [|by auto]. split; [done|]. intros (_ & _ & Hx). by destruct Hx. }
  destruct (eq_str (effective_ks g a ks) "soft_stop") eqn:E3.
  { apply Heq in E3. cbn. split; [|by auto]. split; [done|]. intros (_ & Hx & _). by destruct Hx. }
  apply Hne in E3.
  destruct (String.eqb (effective_spread g sp) "cooldown" || ro) eqn:E4; cbn; (split; [done|]).
  - by auto.
  - to_props. subst ro. by auto 6.
Qed.

(** The two places that classify a spread agree on the classes the code knows. *)
Lemma normalise_spread_agree v :
  v_in v ["normal"; "watch"; "cooldown"; "halt"; "block"] = true →
  normalise_spread_state v = VStr (normalise_ticket_spread v).
Proof.
  destruct v; cbn [v_in]; intros Hx; try done. apply str_in_spec in Hx.
  by repeat (apply elem_of_cons in Hx as [->|Hx]); [..|apply elem_of_nil in Hx].
Qed.

Lemma py_or_none v : (VNone or? v) = v.
Proof. done. Qed.

Lemma normalise_ticket_spread_cases v :
  normalise_ticket_spread v = "block" ∨ normalise_ticket_spread v = "cooldown" ∨
  normalise_ticket_spread v = "normal".
Proof. unfold normalise_ticket_spread. do 2 (destruct (v_in _ _); auto). Qed.

(** With a healthy monitor, no advisor, a liquid market and a known spread
    state, the operator's guardrail snapshot and the risk manager's ticket
    decision reach the same exit code from the same gate; their board modes
    agree too, except that a recommended "soft_stop" on an otherwise normal
    board shows as "normal" in the snapshot while tickets are refused on a
    "guarded" board. *)
Theorem guardrail_ticket_agree (rm : RiskManager) (g : GateState) (h : HealthState)
    (Hadv : reduce_only_advisor rm = None) (Hs : status h = "ok") (Hk : kill_switch h = None)
    (Hl : v_in (liq_state (market_liquidity (market g))) ["guarded"; "halted"] = false)
    (Hsp : v_in (spread_state (market_spread (market g)))
             ["normal"; "watch"; "cooldown"; "halt"; "block"] = true) :
  let d := ticket_decision rm (Some g) None None None in
  let s := guardrail_snapshot h g None in
  g_exit_code s = d_exit_code d ∧
  (g_board_mode s = d_board_mode d ∨
   (g_board_mode s = "normal" ∧ d_board_mode d = "guarded" ∧
    g_kill_switch_state s = VStr "soft_stop" ∧ d_allowed d = false)).
Proof.
  pose proof (normalise_spread_agree _ Hsp) as Hn.
  unfold ticket_decision, guardrail_snapshot, compute_exit_code, evaluate_reduce_only_advisor,
    effective_ks, effective_spread.
  cbn zeta. cbn [default from_option id g_exit_code g_board_mode g_kill_switch_state].
  rewrite Hadv, Hs, Hk, Hl, Hn.
  cbn [mbind option_bind fmap option_fmap option_map vopt_str].
  rewrite !py_or_none.
  set (ks := py_or (kill_switch_recommendation (risk g)) _).
  set (ro := reduce_only (risk g) || false).
  destruct (normalise_ticket_spread_cases (spread_state (market_spread (market g)))) as [E|[E|E]];
    rewrite E; destruct (eq_str ks "hard_stop") eqn:E1, (eq_str ks "soft_stop") eqn:E2, (reduce_only (risk g)) eqn:Ero;
    subst ro; cbn; rewrite ?E1, ?E2; cbn; auto 8.
  all: destruct ks; try done.
  cbn in E2. apply String.eqb_eq in E2 as ->. auto 8.
Qed.

Definition soft_stopped_gate : GateState :=
  with_risk (Risk false VNone (VStr "soft_stop") (VStr "daily_drawdown")) gate_default.

Lemma guardrail_ticket_agree_witness :
  let d := ticket_decision default_manager (Some soft_stopped_gate) None None None in
  let s := guardrail_snapshot health0 soft_stopped_gate None in
  g_exit_code s = 62 ∧ d_exit_code d = 62 ∧ g_board_mode s = "normal" ∧ d_board_mode d = "guarded".
Proof.
  destruct (guardrail_ticket_agree default_manager soft_stopped_gate health0 eq_refl eq_refl eq_refl
    eq_refl eq_refl) as [He _].
  cbn zeta. split_and!; [exact (eq_trans He eq_refl)|reflexivity..].
Defined.
