(* ===== verification/StageGuard.v ===== *)
(** The autonomy stage guard of [src/brokers/stage_guard.py]: the ladder
    manual_only, reduce_only, partial_auto, full_auto, its evaluation against
    the operational context, the request and approval workflow, and the state
    file that survives a restart. *)

From S2P Require Import Prelude PyFloat PyVal PyEnv.

Local Open Scope Z_scope.
Local Open Scope py_scope.

(** * Data *)

Inductive StageName := manual_only | reduce_only | partial_auto | full_auto.

#[export] Instance StageName_eq_dec : EqDecision StageName.
Proof. solve_decision. Defined.

Definition allowed_order : list StageName := [manual_only; reduce_only; partial_auto; full_auto].

Definition stage_str (s : StageName) : string :=
  match s with
  | manual_only => "manual_only" | reduce_only => "reduce_only"
  | partial_auto => "partial_auto" | full_auto => "full_auto"
  end.

(** [_allowed_order.index] *)
Definition stage_index (s : StageName) : Z :=
  match s with manual_only => 0 | reduce_only => 1 | partial_auto => 2 | full_auto => 3 end.

(** The stage a value names, when it is one of [_allowed_order]. *)
Definition stage_of (v : pyval) : option StageName :=
  match v with
  | VStr s => list_find (λ st, stage_str st = s) allowed_order ≫= λ p, Some p.2
  | _ => None
  end.

Record StageTransition := Transition {
  from_stage : pyval; to_stage : pyval; t_actor : pyval; t_reason : pyval; t_ts : pyval }.

Record StageRequest := Request {
  request_id : string; requested_stage : pyval; requested_by : pyval; requested_at : pyval;
  r_status : pyval; r_reason : pyval; approved_by : pyval; approved_at : pyval }.

Record StageGuardContext := Context_ {
  ops_readiness_score : option float; certification_status : option string;
  fill_shadow_alerts : Z; emergency_active : bool; drill_overdue : bool;
  incident_count : Z; risk_disclosure_ok : bool; stage_guard_enabled : bool; notes : list string }.

Record StageGuardEvaluation := Evaluation {
  allowed_promotions : list StageName; blocks : list (StageName * list string);
  recommended_demotions : list StageName; next_actions : list string; runbook_refs : list string }.

Definition transition_to_dict (t : StageTransition) : dict :=
  [("from_stage", from_stage t); ("to_stage", to_stage t); ("actor", t_actor t);
   ("reason", t_reason t); ("ts", t_ts t)].

Definition request_to_dict (r : StageRequest) : dict :=
  [("request_id", VStr (request_id r)); ("requested_stage", requested_stage r);
   ("requested_by", requested_by r); ("requested_at", requested_at r); ("status", r_status r);
   ("reason", r_reason r); ("approved_by", approved_by r); ("approved_at", approved_at r)].

Definition stages_val (l : list StageName) : pyval := VList ((λ s, VStr (stage_str s)) <$> l).
Definition strings_val (l : list string) : pyval := VList (VStr <$> l).
Definition blocks_val (l : list (StageName * list string)) : pyval :=
  VDict ((λ p, (stage_str p.1, strings_val p.2)) <$> l).

Definition evaluation_to_dict (e : StageGuardEvaluation) : dict :=
  [("allowed_promotions", stages_val (allowed_promotions e)); ("blocks", blocks_val (blocks e));
   ("recommended_demotions", stages_val (recommended_demotions e));
   ("next_actions", strings_val (next_actions e)); ("runbook_refs", strings_val (runbook_refs e))].

(** * Evaluation *)

Definition score_below (c : StageGuardContext) (n : Z) : bool :=
  match ops_readiness_score c with Some s => fltb s (of_Z n) | None => false end.
Definition score_missing (c : StageGuardContext) : bool :=
  match ops_readiness_score c with Some _ => false | None => true end.

Definition reason_if (b : bool) (r : string) : list string := if b then [r] else [].

Definition stage_requirements (stage : StageName) (c : StageGuardContext) : list string :=
  match stage with
  | manual_only => []
  | reduce_only =>
      reason_if (score_missing c || score_below c 70) "ops_readiness_score<70" ++
      reason_if (match certification_status c with
                 | Some s => negb (str_in s ["pass"; "pass_with_warning"]) | None => true end)
        "broker_certification_not_pass" ++
      reason_if (truthy (fill_shadow_alerts c)) "fill_shadow_alerts" ++
      reason_if (negb (risk_disclosure_ok c)) "risk_disclosure_pending"
  | partial_auto =>
      reason_if (score_missing c || score_below c 80) "ops_readiness_score<80" ++
      reason_if (drill_overdue c) "emergency_drill_overdue" ++
      reason_if (emergency_active c) "emergency_active"
  | full_auto => ["requires_m3_soak"]
  end.

Definition automated (stage : StageName) : bool :=
  match stage with partial_auto | full_auto => true | _ => false end.

Definition recommend (b : bool) (l : list StageName) : list StageName :=
  if b && negb (bool_decide (reduce_only ∈ l)) then l ++ [reduce_only] else l.

Definition recommended_demotions_of (stage : StageName) (c : StageGuardContext) : list StageName :=
  if emergency_active c && negb (bool_decide (stage = manual_only)) then [manual_only]
  else
    let l := if truthy (fill_shadow_alerts c) && automated stage then [reduce_only] else [] in
    let l := recommend (score_below c 75 && automated stage) l in
    recommend (drill_overdue c && automated stage) l.

(** The stages above the current one, in order. *)
Definition higher (s : StageName) : list StageName :=
  List.filter (λ t, negb (stage_index t <=? stage_index s)) allowed_order.

Definition evaluate (cur : StageName) (c : StageGuardContext) : StageGuardEvaluation :=
  if negb (stage_guard_enabled c) then
    Evaluation [] ((λ s, (s, ["feature_flag_disabled"])) <$>
        List.filter (λ s, negb (bool_decide (s = cur))) allowed_order) []
      ["Enable brokers.autonomy_stage_enabled to evaluate stages."] ["RUN-BROKER-API-03"]
  else
    let allowed := List.filter (λ s, negb (truthy (stage_requirements s c))) (higher cur) in
    let blocks := (λ s, (s, stage_requirements s c)) <$>
        List.filter (λ s, truthy (stage_requirements s c)) (higher cur) in
    let tasks :=
      (if emergency_active c
       then [("Emergency plan active: review API failover status.", "RUN-BROKER-API-02")] else []) ++
      (if truthy (fill_shadow_alerts c)
       then [("FillShadow alerts detected: review shadow reconciliation.", "RUN-BROKER-API-02")] else []) ++
      (if score_below c 75
       then [("Ops readiness below threshold: review ops readiness evidence.", "OPS-READINESS-01")] else []) ++
      (if drill_overdue c
       then [("Emergency drill overdue: schedule drill execution.", "RUN-BROKER-API-02")] else []) in
    let refs := sorted_strings (remove_dups tasks.*2) in
    Evaluation allowed blocks (recommended_demotions_of cur c) tasks.*1
      (if truthy refs then refs else ["RUN-BROKER-API-03"]).

(** * The operational context, read from files other components write *)

Record StageFiles := Files {
  feature_flags : document; readiness_metrics : file; certification_metrics : file;
  shadow_events : file; failover_state : document; drill_plans : file; drill_executions : file }.

Definition parse_ts (value : string) : res (option Z) :=
  if negb (truthy value) then Ok None
  else match fromisoformat (replace_char "Z" "+00:00" value) with
       | None => Ok None
       | Some d => us ← to_utc_us d; Ok (Some us)
       end.

Definition profile_flag (flag : string) (defaults : dict) (profile : string) : bool :=
  match dget profile defaults with
  | VDict flags => match dget flag flags with VBool true => true | _ => false end
  | _ => false
  end.

Definition load_feature_flag (flag : string) (f : document) : bool :=
  match f with
  | Some (Some payload) =>
      match (if truthy payload then payload else VDict []) with
      | VDict p =>
          match dget "defaults" p with
          | VDict defaults => existsb (profile_flag flag defaults) ["live"; "paper"; "backtest"]
          | _ => false
          end
      | _ => false
      end
  | _ => false
  end.

(** The JSON value of the last line that is not blank, if it decodes. *)
Definition last_json (f : file) : option pyval :=
  match last_line f with Some (LJson v) => Some v | _ => None end.

Definition load_ops_readiness_score (f : file) : res (option float) :=
  match last_json f with
  | None => Ok None
  | Some payload =>
      score ← vget payload "readiness_score";
      match py_float score with
      | Ok x => Ok (Some x)
      | Raise (TypeError _) | Raise (ValueError _) => Ok None
      | Raise e => Raise e
      end
  end.

Definition load_certification_status (f : file) : res (option string) :=
  match last_json f with
  | None => Ok None
  | Some payload =>
      status ← vget payload "status";
      Ok (if truthy status then Some (py_str status) else None)
  end.

(** Whether one line of the shadow log counts as an alert. *)
Definition shadow_alert (cutoff : Z) (l : line) : res bool :=
  match l with
  | LJson payload =>
      event ← vget payload "event";
      if negb (eq_str event "shadow.fill_drift_detected") then Ok false
      else
        t ← vget payload "ts";
        ts ← parse_ts (py_str (t or? VStr ""));
        if match ts with Some us => us <? cutoff | None => false end then Ok false
        else s ← vget payload "severity"; Ok (String.eqb (py_str s) "major")
  | _ => Ok false
  end.

Definition count_alerts (cutoff : Z) (f : file) : res Z :=
  l ← filterM_res (shadow_alert cutoff) (file_lines f); Ok (Z.of_nat (length l)).

Definition load_failover_active (f : document) : res bool :=
  match f with
  | Some (Some payload) =>
      v ← vget payload "status";
      Ok (str_in (py_str (v or? VStr "")) ["blocked"; "active"; "triggered"])
  | _ => Ok false
  end.

Definition plan_id_from_execution_id (execution_id : string) : string :=
  if ends_with "-run" execution_id
  then String.substring 0 (String.length execution_id - 4) execution_id else execution_id.

(** The status recorded by one execution, keyed by its plan. *)
Definition completion_entry (l : line) : res (option (string * string)) :=
  match l with
  | LJson data =>
      execution_id ← vget data "execution_id";
      if negb (truthy execution_id) then Ok None
      else
        p ← vget data "plan_id";
        let plan_id := if truthy p then p else VStr (plan_id_from_execution_id (py_str execution_id)) in
        status ← vget data "status";
        Ok (if truthy plan_id && truthy status then Some (py_str plan_id, py_str status) else None)
  | _ => Ok None
  end.

Definition load_drill_completion (f : file) : res (list (string * string)) :=
  entries ← mapM_res completion_entry (file_lines f);
  Ok (fold_left (λ m e, match e with Some kv => dset kv.1 kv.2 m | None => m end) entries []).

Definition plan_overdue (completion : list (string * string)) (now : Z) (plan : pyval * Z) : bool :=
  truthy plan.1 && (plan.2 <=? now) &&
  match dlookup (py_str plan.1) completion with
  | Some s => negb (str_in s ["completed"; "completed_with_notes"])
  | None => true
  end.

Section context.
Context `{Env} {S : Type} `{HasWorld S}.

Definition now_us : M S Z := d ← now_utc; mret (utc_us d).

Definition count_fill_shadow_alerts (f : file) (hours : Z) : M S Z :=
  match f with
  | None => mret 0
  | Some _ => now ← now_us; lift (count_alerts (now - hours_us hours) f)
  end.

Fixpoint read_plans (lines : list line) : M S (list (pyval * Z)) :=
  match lines with
  | [] => mret []
  | LJson data :: lines =>
      v ← lift (vget data "scheduled_for");
      ts ← lift (parse_ts (py_str (v or? VStr "")));
      due ← match ts with Some us => mret us | None => now_us end;
      plan_id ← lift (vget data "plan_id");
      plans ← read_plans lines;
      mret ((plan_id, due) :: plans)
  | _ :: lines => read_plans lines
  end.

Definition load_drill_plans (f : file) : M S (list (pyval * Z)) := read_plans (file_lines f).

Definition load_drill_overdue (plans_file exec_file : file) : M S bool :=
  plans ← load_drill_plans plans_file;
  if negb (truthy plans) then mret false
  else
    completion ← lift (load_drill_completion exec_file);
    now ← now_us;
    mret (existsb (plan_overdue completion now) plans).

Definition load_context (fs : StageFiles) : M S StageGuardContext :=
  score ← lift (load_ops_readiness_score (readiness_metrics fs));
  cert ← lift (load_certification_status (certification_metrics fs));
  alerts ← count_fill_shadow_alerts (shadow_events fs) 24;
  emergency ← lift (load_failover_active (failover_state fs));
  overdue ← load_drill_overdue (drill_plans fs) (drill_executions fs);
  mret (Context_ score cert alerts emergency overdue 0 true
    (load_feature_flag "brokers.autonomy_stage_enabled" (feature_flags fs))
    ((match score with None => ["ops_readiness_score:missing"] | Some _ => [] end) ++
     (match cert with None => ["broker_certification:missing"] | Some _ => [] end))).
End context.

(** * The guard *)

Record AutonomyStageGuard := Guard {
  stage : StageName; updated_at : pyval; updated_by : pyval;
  history : list StageTransition; requests : list StageRequest;
  state_file : document; event_log : file; files : StageFiles; sg_world : world }.

#[export] Instance guard_has_world : HasWorld AutonomyStageGuard.
Proof.
  refine {| wget := sg_world;
    wset := λ w g, Guard (stage g) (updated_at g) (updated_by g) (history g) (requests g)
      (state_file g) (event_log g) (files g) w |}; by try intros [].
Defined.

Definition set_memory (s : StageName) (at_ by_ : pyval) (h : list StageTransition)
    (rs : list StageRequest) (g : AutonomyStageGuard) : AutonomyStageGuard :=
  Guard s at_ by_ h rs (state_file g) (event_log g) (files g) (sg_world g).
Definition set_requests (rs : list StageRequest) (g : AutonomyStageGuard) : AutonomyStageGuard :=
  set_memory (stage g) (updated_at g) (updated_by g) (history g) rs g.

Definition state_payload (g : AutonomyStageGuard) : dict :=
  [("stage", VStr (stage_str (stage g))); ("updated_at", updated_at g); ("updated_by", updated_by g);
   ("history", VList ((λ t, VDict (transition_to_dict t)) <$> history g));
   ("requests", VList ((λ r, VDict (request_to_dict r)) <$> requests g))].

Definition save_state : M AutonomyStageGuard unit := modify (λ g,
  Guard (stage g) (updated_at g) (updated_by g) (history g) (requests g)
    (Some (Some (VDict (state_payload g)))) (event_log g) (files g) (sg_world g)).

Definition append_event (payload : dict) : M AutonomyStageGuard unit := modify (λ g,
  Guard (stage g) (updated_at g) (updated_by g) (history g) (requests g) (state_file g)
    (Some (file_lines (event_log g) ++ [LJson (VDict payload)])) (files g) (sg_world g)).

Definition is_dict (v : pyval) : bool := match v with VDict _ => true | _ => false end.

Section guard.
Context `{Env}.

Definition append_audit (payload : dict) : M AutonomyStageGuard unit :=
  append_jsonl "logs/audit/autonomy_stage.jsonl" (VDict payload).
Definition append_ops_worklog (payload : dict) : M AutonomyStageGuard unit :=
  append_jsonl "ops_worklog.jsonl" (VDict payload).

Definition read_transition (entry : pyval) : M AutonomyStageGuard StageTransition :=
  let d := as_dict_or_empty entry in
  now ← utcnow_iso;
  mret (Transition (dget_or "from_stage" (VStr "manual_only") d) (dget_or "to_stage" (VStr "manual_only") d)
    (dget_or "actor" (VStr "system") d) (dget "reason" d) (dget_or "ts" (VStr now) d)).

Definition read_request (entry : pyval) : M AutonomyStageGuard StageRequest :=
  let d := as_dict_or_empty entry in
  now ← utcnow_iso;
  mret (Request (py_str (dget "request_id" d)) (dget "requested_stage" d)
    (dget_or "requested_by" (VStr "system") d) (dget_or "requested_at" (VStr now) d)
    (dget_or "status" (VStr "requested") d) (dget "reason" d) (dget "approved_by" d) (dget "approved_at" d)).

Fixpoint read_each {A} (f : pyval → M AutonomyStageGuard A) (l : list pyval) : M AutonomyStageGuard (list A) :=
  match l with
  | [] => mret []
  | v :: l => a ← f v; rest ← read_each f l; mret (a :: rest)
  end.

Definition default_state : M AutonomyStageGuard unit :=
  now ← utcnow_iso;
  modify (λ g, set_memory manual_only (VStr now) (VStr "system") (history g) (requests g) g).

Definition load_state : M AutonomyStageGuard unit :=
  f ← gets state_file;
  match f with
  | Some (Some payload) =>
      sv ← lift (vget payload "stage");
      let st := default manual_only (stage_of (sv or? VStr "manual_only")) in
      at_ ← lift (vget payload "updated_at");
      at_ ← (if truthy at_ then mret at_ else now ← utcnow_iso; mret (VStr now));
      by_ ← lift (vget payload "updated_by");
      _ ← modify (λ g, set_memory st at_ (by_ or? VStr "system") (history g) (requests g) g);
      h ← lift (vget payload "history");
      entries ← lift (py_iter (h or? VList []));
      hist ← read_each read_transition (List.filter is_dict entries);
      _ ← modify (λ g, set_memory (stage g) (updated_at g) (updated_by g) hist (requests g) g);
      r ← lift (vget payload "requests");
      entries ← lift (py_iter (r or? VList []));
      reqs ← read_each read_request (List.filter is_dict entries);
      modify (set_requests reqs)
  | _ => default_state
  end.

(** [__init__]: the memory fields before [_load_state] are not read. *)
Definition guard_init (st : option StageName) (f : document) (ev : file) (fs : StageFiles) (w : world)
    : res unit * AutonomyStageGuard :=
  (_ ← load_state;
   match st with
   | Some s => modify (λ g, set_memory s (updated_at g) (updated_by g) (history g) (requests g) g)
   | None => mret tt
   end) (Guard manual_only VNone VNone [] [] f ev fs w).

Definition apply_transition (t : StageTransition) (target : StageName) : M AutonomyStageGuard unit :=
  _ ← modify (λ g, set_memory target (t_ts t) (t_actor t) (history g ++ [t]) (requests g) g);
  save_state.

(** The transition, its record and the audit entry, shared by the three moves. *)
Definition move_to (target : StageName) (actor : string) (reason audit_reason : pyval)
    : M AutonomyStageGuard StageTransition :=
  g ← get;
  ts ← utcnow_iso;
  let t := Transition (VStr (stage_str (stage g))) (VStr (stage_str target)) (VStr actor) reason (VStr ts) in
  _ ← apply_transition t target;
  _ ← append_audit [("event", VStr "audit.autonomy_stage_changed"); ("stage_from", from_stage t);
    ("stage_to", to_stage t); ("actor", VStr actor); ("reason", audit_reason); ("ts", VStr ts)];
  mret t.

Definition effective_context (c : option StageGuardContext) : M AutonomyStageGuard StageGuardContext :=
  match c with
  | Some c => mret c
  | None => fs ← gets files; load_context fs
  end.

Fixpoint stage_lookup {A} (s : StageName) (l : list (StageName * A)) : option A :=
  match l with [] => None | (t, a) :: l => if decide (s = t) then Some a else stage_lookup s l end.

(** The evaluation that [promote] runs unless it is overridden. *)
Definition check_promotion (s : StageName) (context : option StageGuardContext) : M AutonomyStageGuard unit :=
  c ← effective_context context;
  g ← get;
  let e := evaluate (stage g) c in
  when (negb (bool_decide (s ∈ allowed_promotions e)))
    (raise (StageGuardError ("Stage promotion blocked: " +:+ stage_str s +:+ " (" +:+
       (let r := join ", " (default [] (stage_lookup s (blocks e))) in
        if truthy r then r else "blocked") +:+ ")"))).

Definition promote (target : pyval) (actor : string) (reason : pyval)
    (context : option StageGuardContext) (override : bool) : M AutonomyStageGuard StageTransition :=
  match stage_of target with
  | None => raise (StageGuardError ("Unknown stage: " +:+ py_str target))
  | Some s =>
      _ ← when (negb override) (check_promotion s context);
      g ← get;
      if stage_index s <? stage_index (stage g)
      then raise (StageGuardError ("Cannot demote from " +:+ stage_str (stage g) +:+ " to " +:+ stage_str s))
      else move_to s actor reason reason
  end.

Definition stage_at (i : Z) : option StageName := nth_error allowed_order (Z.to_nat i).

Definition rollback_one (actor : string) (reason : pyval) : M AutonomyStageGuard (option StageTransition) :=
  g ← get;
  let i := stage_index (stage g) in
  if i =? 0 then mret None
  else match stage_at (i - 1) with
       | Some target => t ← move_to target actor reason (reason or? VStr "rollback"); mret (Some t)
       | None => raise (OtherError "IndexError" "tuple index out of range")
       end.

Definition on_error (error_class : string) (actor : string) (reason : pyval)
    : M AutonomyStageGuard (option StageTransition) :=
  if String.eqb error_class "circuit_breaker" then rollback_one actor (reason or? VStr "circuit_breaker")
  else mret None.

Definition recover (actor : string) (reason : pyval) : M AutonomyStageGuard (option StageTransition) :=
  g ← get;
  let i := stage_index (stage g) in
  if 4 <=? i + 1 then mret None
  else match stage_at (i + 1) with
       | Some target => t ← move_to target actor reason (reason or? VStr "recover"); mret (Some t)
       | None => raise (OtherError "IndexError" "tuple index out of range")
       end.

(** ** Requests *)

Definition request_transition (target : pyval) (actor : string) (reason : pyval)
    : M AutonomyStageGuard StageRequest :=
  match stage_of target with
  | None => raise (StageGuardError ("Unknown stage: " +:+ py_str target))
  | Some s =>
      u ← fresh_uuid;
      ts ← utcnow_iso;
      let r := Request ("stage-" +:+ hex_prefix 8 u) target (VStr actor) (VStr ts)
        (VStr "requested") reason VNone VNone in
      _ ← modify (λ g, set_requests (requests g ++ [r]) g);
      _ ← append_audit [("event", VStr "audit.autonomy_stage_request"); ("request_id", VStr (request_id r));
        ("requested_stage", target); ("requested_by", VStr actor); ("reason", reason); ("ts", VStr ts)];
      _ ← append_event [("event", VStr "autonomy_stage.requested"); ("request_id", VStr (request_id r));
        ("requested_stage", target); ("requested_by", VStr actor); ("ts", VStr ts)];
      _ ← append_ops_worklog [("timestamp", VStr ts); ("task", VStr "autonomy_stage_review");
        ("request_id", VStr (request_id r)); ("requested_stage", target); ("status", VStr "pending");
        ("runbook_ref", VStr "RUN-BROKER-API-03")];
      _ ← save_state;
      mret r
  end.

Definition has_id (id : string) (r : StageRequest) : bool := String.eqb (request_id r) id.

Definition find_request (id : string) : M AutonomyStageGuard StageRequest :=
  rs ← gets requests;
  match List.find (has_id id) rs with
  | Some r => mret r
  | None => raise (StageRequestNotFound id)
  end.

Definition decide_request (status at_ : pyval) (actor : string) (r : StageRequest) : StageRequest :=
  Request (request_id r) (requested_stage r) (requested_by r) (requested_at r) status (r_reason r)
    (VStr actor) at_.

Definition approve_request (id actor : string) (reason : pyval) (context : option StageGuardContext)
    : M AutonomyStageGuard StageTransition :=
  r ← find_request id;
  if negb (eq_str (r_status r) "requested")
  then raise (StageRequestNotApproved ("Request " +:+ id +:+ " not approvable"))
  else
    t ← promote (requested_stage r) actor (reason or? r_reason r) context false;
    _ ← modify (λ g, set_requests
      (update_first (has_id id) (decide_request (VStr "approved") (t_ts t) actor) (requests g)) g);
    _ ← append_audit [("event", VStr "audit.autonomy_stage_approved"); ("request_id", VStr id);
      ("stage", requested_stage r); ("approved_by", VStr actor); ("reason", reason or? r_reason r);
      ("ts", t_ts t)];
    _ ← save_state;
    mret t.

Definition deny_request (id actor : string) (reason : pyval) : M AutonomyStageGuard StageRequest :=
  r ← find_request id;
  if negb (eq_str (r_status r) "requested")
  then raise (StageRequestNotApproved ("Request " +:+ id +:+ " not deniable"))
  else
    ts ← utcnow_iso;
    _ ← modify (λ g, set_requests
      (update_first (has_id id) (decide_request (VStr "denied") (VStr ts) actor) (requests g)) g);
    _ ← append_audit [("event", VStr "audit.autonomy_stage_denied"); ("request_id", VStr id);
      ("stage", requested_stage r); ("approved_by", VStr actor); ("reason", reason); ("ts", VStr ts)];
    _ ← append_event [("event", VStr "autonomy_stage.denied"); ("request_id", VStr id);
      ("requested_stage", requested_stage r); ("denied_by", VStr actor); ("reason", reason); ("ts", VStr ts)];
    _ ← save_state;
    mret (decide_request (VStr "denied") (VStr ts) actor r).

Definition pending_requests (g : AutonomyStageGuard) : list StageRequest :=
  List.filter (λ r, eq_str (r_status r) "requested") (requests g).

(** ** Review events *)

(** The age test of [_should_emit_event] on the last event of the log. *)
Definition should_emit_event (event : string) : M AutonomyStageGuard bool :=
  f ← gets event_log;
  match last (List.filter (λ l, match l with LEmpty => false | _ => true end) (file_lines f)) with
  | Some (LJson prev) =>
      e ← lift (vget prev "event");
      if negb (eq_str e event) then mret true
      else
        ts ← lift (vget prev "ts");
        match parse_ts (py_str ts) with
        | Ok (Some us) => now ← now_us; mret (hours_us 1 <? now - us)
        | _ => mret true
        end
  | _ => mret true
  end.

Definition emit_review_tasks (c : StageGuardContext) (e : StageGuardEvaluation) : M AutonomyStageGuard unit :=
  if negb (truthy (recommended_demotions e)) && negb (truthy (blocks e)) then mret tt
  else
    ts ← utcnow_iso;
    g ← get;
    ok ← should_emit_event "autonomy_stage.review_needed";
    when ok (
      _ ← append_event [("event", VStr "autonomy_stage.review_needed"); ("ts", VStr ts);
        ("stage", VStr (stage_str (stage g))); ("recommended_demotions", stages_val (recommended_demotions e));
        ("blocks", blocks_val (blocks e)); ("ops_readiness_score", vopt_float (ops_readiness_score c));
        ("certification_status", vopt_str (certification_status c));
        ("fill_shadow_alerts", VInt (fill_shadow_alerts c)); ("emergency_active", VBool (emergency_active c));
        ("drill_overdue", VBool (drill_overdue c)); ("runbook_refs", strings_val (runbook_refs e))];
      append_ops_worklog [("timestamp", VStr ts); ("task", VStr "autonomy_stage_review");
        ("status", VStr "needed"); ("stage", VStr (stage_str (stage g)));
        ("runbook_ref", VStr "RUN-BROKER-API-03")]).

(** The method [evaluate]; with [emit_events] off it only computes. *)
Definition evaluate_emit (c : StageGuardContext) (emit_events : bool)
    : M AutonomyStageGuard StageGuardEvaluation :=
  g ← get;
  let e := evaluate (stage g) c in
  _ ← when (emit_events && stage_guard_enabled c) (emit_review_tasks c e);
  mret e.

Definition status (context : option StageGuardContext) : M AutonomyStageGuard dict :=
  c ← effective_context context;
  e ← evaluate_emit c true;
  g ← get;
  mret [("stage", VStr (stage_str (stage g))); ("updated_at", updated_at g); ("updated_by", updated_by g);
    ("pending_requests", VList ((λ r, VDict (request_to_dict r)) <$> pending_requests g));
    ("evaluation", VDict (evaluation_to_dict e));
    ("context", VDict [("ops_readiness_score", vopt_float (ops_readiness_score c));
      ("certification_status", vopt_str (certification_status c));
      ("fill_shadow_alerts", VInt (fill_shadow_alerts c)); ("emergency_active", VBool (emergency_active c));
      ("drill_overdue", VBool (drill_overdue c)); ("incident_count", VInt (incident_count c));
      ("risk_disclosure_ok", VBool (risk_disclosure_ok c));
      ("stage_guard_enabled", VBool (stage_guard_enabled c)); ("notes", strings_val (notes c))])].

(** ** The guard as a state machine; the caller may also replace the files
    the context is read from *)

Inductive stage_op :=
  | SPromote (target : pyval) (actor : string) (reason : pyval) (c : option StageGuardContext) (override : bool)
  | SRollback (actor : string) (reason : pyval)
  | SError (error_class actor : string) (reason : pyval)
  | SRecover (actor : string) (reason : pyval)
  | SRequest (target : pyval) (actor : string) (reason : pyval)
  | SApprove (id actor : string) (reason : pyval) (c : option StageGuardContext)
  | SDeny (id actor : string) (reason : pyval)
  | SStatus (c : option StageGuardContext).

Definition stage_exec (op : stage_op) : M AutonomyStageGuard unit :=
  match op with
  | SPromote t a r c o => _ ← promote t a r c o; mret tt
  | SRollback a r => _ ← rollback_one a r; mret tt
  | SError e a r => _ ← on_error e a r; mret tt
  | SRecover a r => _ ← recover a r; mret tt
  | SRequest t a r => _ ← request_transition t a r; mret tt
  | SApprove i a r c => _ ← approve_request i a r c; mret tt
  | SDeny i a r => _ ← deny_request i a r; mret tt
  | SStatus c => _ ← status c; mret tt
  end.

(** A run: operations that raise leave the state they reached. *)
Definition stage_run (ops : list stage_op) (g : AutonomyStageGuard) : AutonomyStageGuard :=
  fold_left (λ g op, (stage_exec op g).2) ops g.
End guard.

(** * Theorems *)

(** ** What an evaluation promises *)


Lemma in_filter {A} (p : A → bool) l x : x ∈ List.filter p l ↔ x ∈ l ∧ p x = true.
Proof. rewrite !list_elem_of_In. apply filter_In. Qed.

Lemma in_higher s cur : s ∈ higher cur ↔ stage_index cur < stage_index s.
Proof.
  unfold higher. rewrite in_filter. rewrite negb_true_iff, Z.leb_gt.
  split; [by intros [_ ?]|]. intros Hlt. split; [|done]. destruct s; unfold allowed_order; set_solver.
Qed.

Lemma allowed_promotions_spec cur c s :
  s ∈ allowed_promotions (evaluate cur c) ↔
  stage_guard_enabled c = true ∧ stage_index cur < stage_index s ∧ stage_requirements s c = [].
Proof.
  unfold evaluate. destruct (stage_guard_enabled c); cbn [negb allowed_promotions].
  - rewrite in_filter, in_higher. destruct (stage_requirements s c); cbn; naive_solver.
  - rewrite elem_of_nil. naive_solver.
Qed.

(** An evaluation splits the stages above the current one: with the
    feature enabled each is either an allowed promotion, with no open
    requirement, or blocked with its non-empty reasons, never both; "full_auto"
    is always blocked. With the feature disabled nothing is allowed and every
    other stage is blocked. *)
Theorem evaluate_partitions (cur : StageName) (c : StageGuardContext) (s : StageName) :
  let e := evaluate cur c in
  (s ∈ allowed_promotions e ↔
    stage_guard_enabled c = true ∧ stage_index cur < stage_index s ∧ stage_requirements s c = []) ∧
  (∀ rs, (s, rs) ∈ blocks e ↔
    if stage_guard_enabled c
    then stage_index cur < stage_index s ∧ rs = stage_requirements s c ∧ rs ≠ []
    else s ≠ cur ∧ rs = ["feature_flag_disabled"]) ∧
  full_auto ∉ allowed_promotions e.
Proof.
  cbn zeta. split; [apply allowed_promotions_spec|]. split.
  - intros rs. unfold evaluate. destruct (stage_guard_enabled c); cbn [negb blocks].
    + rewrite list_elem_of_fmap. setoid_rewrite in_filter. setoid_rewrite in_higher. split.
      * intros (s' & [= -> ->] & Hlt & Hr). split_and!; [done..|]. by destruct (stage_requirements s' c).
      * intros (Hlt & -> & Hr). exists s. split_and!; [done..|]. by destruct (stage_requirements s c).
    + rewrite list_elem_of_fmap. setoid_rewrite in_filter. setoid_rewrite negb_true_iff.
      setoid_rewrite bool_decide_eq_false. split.
      * by intros (s' & [= -> ->] & _ & Hr).
      * intros (Hs & ->). exists s. split_and!; [done| |done]. destruct s; unfold allowed_order; set_solver.
  - rewrite allowed_promotions_spec. by intros (_ & _ & ?).
Qed.

(** What the requirements of a stage mean. *)
Definition ready_for (s : StageName) (c : StageGuardContext) : Prop :=
  match s with
  | manual_only => True
  | reduce_only => (∃ x, ops_readiness_score c = Some x ∧ fltb x (of_Z 70) = false) ∧
      (certification_status c = Some "pass" ∨ certification_status c = Some "pass_with_warning") ∧
      fill_shadow_alerts c = 0 ∧ risk_disclosure_ok c = true
  | partial_auto => (∃ x, ops_readiness_score c = Some x ∧ fltb x (of_Z 80) = false) ∧
      drill_overdue c = false ∧ emergency_active c = false
  | full_auto => False
  end.

Lemma reason_if_nil b r : reason_if b r = [] ↔ b = false.
Proof. by destruct b. Qed.

Lemma score_reason_nil c n r :
  reason_if (score_missing c || score_below c n) r = [] ↔
  ∃ x, ops_readiness_score c = Some x ∧ fltb x (of_Z n) = false.
Proof.
  rewrite reason_if_nil. unfold score_missing, score_below.
  destruct (ops_readiness_score c) as [x|]; cbn [orb]; naive_solver.
Qed.

Lemma requirements_met s c : stage_requirements s c = [] ↔ ready_for s c.
Proof.
  destruct s; cbn [stage_requirements ready_for]; [done| | |done];
    rewrite ?app_nil, score_reason_nil, !reason_if_nil; [|done].
  assert (∀ z : Z, truthy z = false ↔ z = 0) as ->.
  { intros z. unfold truthy, truthy_Z. rewrite negb_false_iff. apply Z.eqb_eq. }
  rewrite negb_false_iff.
  assert (match certification_status c with
    | Some s => negb (str_in s ["pass"; "pass_with_warning"]) | None => true end = false ↔
    certification_status c = Some "pass" ∨ certification_status c = Some "pass_with_warning") as ->;
    [|done].
  destruct (certification_status c) as [x|]; [|naive_solver].
  rewrite negb_false_iff, str_in_spec, !elem_of_cons, elem_of_nil. naive_solver.
Qed.

(** ** Every operation is a step of the ladder *)

(** Memory and disk, without the logs and the world. *)
Definition same_memory (g g' : AutonomyStageGuard) : Prop :=
  stage g' = stage g ∧ updated_at g' = updated_at g ∧ updated_by g' = updated_by g ∧
  history g' = history g ∧ requests g' = requests g ∧ state_file g' = state_file g.

#[export] Instance same_memory_refl : Reflexive same_memory.
Proof. by intros g. Qed.

Definition saved (g : AutonomyStageGuard) : Prop := state_file g = Some (Some (VDict (state_payload g))).

Lemma same_memory_trans g1 g2 g3 : same_memory g1 g2 → same_memory g2 g3 → same_memory g1 g3.
Proof. unfold same_memory. intros (?&?&?&?&?&?) (?&?&?&?&?&?). split_and!; congruence. Qed.

(** Which moves an operation may make from a stage. *)
Definition may_move (op : stage_op) (cur next : StageName) : Prop :=
  match op with
  | SPromote t _ _ _ true => stage_of t = Some next ∧ stage_index cur <= stage_index next
  | SPromote _ _ _ _ false | SApprove _ _ _ _ =>
      stage_index cur < stage_index next ∧ ∃ c, stage_guard_enabled c = true ∧ ready_for next c
  | SRollback _ _ => stage_index next = stage_index cur - 1
  | SError e _ _ => e = "circuit_breaker" ∧ stage_index next = stage_index cur - 1
  | SRecover _ _ => stage_index next = stage_index cur + 1
  | _ => False
  end.

(** The abstract step: nothing changes, or one move that appends its record and
    is saved, or requests change and are saved. *)
Inductive memory_step (op : stage_op) (g g' : AutonomyStageGuard) : Prop :=
  | step_none : same_memory g g' → memory_step op g g'
  | step_move t next :
      may_move op (stage g) next → stage g' = next →
      from_stage t = VStr (stage_str (stage g)) → to_stage t = VStr (stage_str next) →
      history g' = history g ++ [t] → saved g' → memory_step op g g'
  | step_requests :
      stage g' = stage g → history g' = history g → saved g' → memory_step op g g'.

Section steps.
Context `{Env}.

Section frame.
Variable g0 : AutonomyStageGuard.
Abbreviation P := (same_memory g0).

Lemma same_memory_world : ∀ w g, P g → P (wset w g).
Proof. by intros w [] (?&?&?&?&?&?). Qed.

Lemma same_memory_effects :
  preserves P now_utc ∧ preserves P utcnow_iso ∧ preserves P fresh_uuid ∧
  (∀ p v, preserves P (append_jsonl p v)) ∧ (∀ p v, preserves P (try_append_jsonl p v)).
Proof. apply preserves_world, same_memory_world. Qed.

Lemma same_memory_now : preserves P now_us.
Proof. apply preserves_bind; [apply same_memory_effects|]. intros d. apply preserves_ret. Qed.

Lemma same_memory_event d : preserves P (append_event d).
Proof. apply preserves_modify. by intros g (?&?&?&?&?&?). Qed.

Lemma same_memory_plans l : preserves P (read_plans l).
Proof.
  induction l as [|[| | |v] l IH]; cbn [read_plans]; try apply preserves_ret; try done.
  do 2 (apply preserves_bind; [apply preserves_lift|intros ?]).
  apply preserves_bind; [case_match_goal; [apply preserves_ret|apply same_memory_now]|intros ?].
  preserve.
Qed.

Lemma same_memory_context fs : preserves P (load_context fs).
Proof.
  pose proof same_memory_now as Hn.
  unfold load_context, count_fill_shadow_alerts, load_drill_overdue, load_drill_plans.
  repeat (apply preserves_bind; [|intros ?]); try (case_match_goal; preserve); preserve.
  apply same_memory_plans.
Qed.

Lemma same_memory_effective c : preserves P (effective_context c).
Proof.
  destruct c; cbn [effective_context]; [apply preserves_ret|].
  apply preserves_bind; [apply preserves_gets|]. intros fs. apply same_memory_context.
Qed.
End frame.

(** What one move leaves behind. *)
Definition moved (g g' : AutonomyStageGuard) (t : StageTransition) (next : StageName) : Prop :=
  stage g' = next ∧ from_stage t = VStr (stage_str (stage g)) ∧ to_stage t = VStr (stage_str next) ∧
  history g' = history g ++ [t] ∧ requests g' = requests g ∧ saved g'.

Lemma move_to_spec next a r ar g : ∃ t g', move_to next a r ar g = (Ok t, g') ∧ moved g g' t next.
Proof.
  exists (Transition (VStr (stage_str (stage g))) (VStr (stage_str next)) (VStr a) r
    (VStr (iso_z (clock_at (w_tick (sg_world g)))))), (move_to next a r ar g).2.
  split; [reflexivity|]. by repeat split.
Qed.

Lemma moved_same g1 g g' t next : same_memory g g1 → moved g1 g' t next → moved g g' t next.
Proof.
  intros (Hs & _ & _ & Hh & Hr & _) (? & Ht & ? & Hh' & Hr' & ?).
  unfold moved. rewrite <- Hs, <- Hh, <- Hr. done.
Qed.

Lemma check_promotion_spec s c g :
  ∃ r g', check_promotion s c g = (r, g') ∧ same_memory g g' ∧
    (r = Ok tt → stage_index (stage g) < stage_index s ∧
       ∃ c, stage_guard_enabled c = true ∧ ready_for s c).
Proof.
  unfold check_promotion. rewrite bind_run.
  pose proof (same_memory_effective g c g (same_memory_refl g)) as Hc.
  destruct (effective_context c g) as [[ctx|e] g1]; [|by eexists _, _].
  cbn [snd] in Hc. unfold get. rewrite bind_run.
  destruct (bool_decide_reflect (s ∈ allowed_promotions (evaluate (stage g1) ctx))) as [Hin|Hin];
    cbn [negb when]; eexists _, _; (split; [reflexivity|split; [done|]]); [|done].
  intros _. apply allowed_promotions_spec in Hin as (He & Hlt & Hr%requirements_met).
  destruct Hc as (<- & _). by eauto.
Qed.

Lemma promote_spec target a r c o g :
  match promote target a r c o g with
  | (Raise _, g') => same_memory g g'
  | (Ok t, g') => ∃ next, stage_of target = Some next ∧ moved g g' t next ∧
      (if o then stage_index (stage g) <= stage_index next
       else stage_index (stage g) < stage_index next ∧ ∃ c, stage_guard_enabled c = true ∧ ready_for next c)
  end.
Proof.
  unfold promote. destruct (stage_of target) as [s|]; [|done].
  assert (∃ r1 g1, when (negb o) (check_promotion s c) g = (r1, g1) ∧ same_memory g g1 ∧
    (r1 = Ok tt → o = false → stage_index (stage g) < stage_index s ∧
       ∃ c, stage_guard_enabled c = true ∧ ready_for s c)) as (r1 & g1 & E & Hm & Hok).
  { destruct o; cbn [when negb]; [by eexists _, _|].
    destruct (check_promotion_spec s c g) as (r1 & g1 & ? & ? & ?). exists r1, g1. split; [done|split; [done|]]. by intros Hr _; auto. }
  rewrite bind_run, E. destruct r1 as [[]|]; [|done]. rewrite bind_run. cbn [get].
  destruct (_ <? _) eqn:El; [done|].
  destruct (move_to_spec s a r r g1) as (t & g' & -> & Hmv).
  exists s. split; [done|]. split; [by eapply moved_same|].
  destruct Hm as (Hs & _). rewrite Hs in El. to_props. destruct o; [done|by apply Hok].
Qed.

Ltac eval_stage_at :=
  try match goal with
  | |- context [?a <=? ?b] =>
      let v := eval vm_compute in (a <=? b) in change (a <=? b) with v; cbn beta iota
  end;
  match goal with
  | |- context [stage_at ?i] =>
      let v := eval vm_compute in (stage_at i) in change (stage_at i) with v; cbn beta iota; rewrite bind_run
  end.

Lemma rollback_spec a r g :
  match rollback_one a r g with
  | (Raise _, _) => False
  | (Ok None, g') => g' = g ∧ stage g = manual_only
  | (Ok (Some t), g') => ∃ next, moved g g' t next ∧ stage_index next = stage_index (stage g) - 1
  end.
Proof.
  unfold rollback_one. rewrite bind_run. cbn [get].
  destruct (stage g) eqn:Es; [done|..]; cbn -[move_to stage_at]; eval_stage_at;
    match goal with |- context [move_to ?n _ ?r ?ar g] =>
      destruct (move_to_spec n a r ar g) as (t & g' & -> & Hm) end;
    eexists; (split; [exact Hm|done]).
Qed.

Lemma recover_spec a r g :
  match recover a r g with
  | (Raise _, _) => False
  | (Ok None, g') => g' = g ∧ stage g = full_auto
  | (Ok (Some t), g') => ∃ next, moved g g' t next ∧ stage_index next = stage_index (stage g) + 1
  end.
Proof.
  unfold recover. rewrite bind_run. cbn [get].
  destruct (stage g) eqn:Es; [..|done]; cbn -[move_to stage_at]; eval_stage_at;
    match goal with |- context [move_to ?n _ ?r ?ar g] =>
      destruct (move_to_spec n a r ar g) as (t & g' & -> & Hm) end;
    eexists; (split; [exact Hm|done]).
Qed.

(** Effects that touch neither memory nor the state file. *)
Definition quiet {A} (m : M AutonomyStageGuard A) : Prop :=
  ∀ g, ∃ a g', m g = (Ok a, g') ∧ same_memory g g'.

Lemma quiet_uuid : quiet fresh_uuid.
Proof. intros g. by eexists _, _. Qed.
Lemma quiet_iso : quiet utcnow_iso.
Proof. intros g. by eexists _, _. Qed.
Lemma quiet_audit d : quiet (append_audit d).
Proof. intros g. by eexists _, _. Qed.
Lemma quiet_worklog d : quiet (append_ops_worklog d).
Proof. intros g. by eexists _, _. Qed.
Lemma quiet_event d : quiet (append_event d).
Proof. intros g. by eexists _, _. Qed.

(** Run the next effect of the goal, keeping its result abstract. *)
Ltac run_quiet H :=
  rewrite bind_run;
  match goal with
  | |- context [match ?m ?g with (_, _) => _ end] =>
      let a := fresh "a" in let g' := fresh "g" in let E := fresh "E" in let Hm := fresh "Hm" in
      assert (∃ a g', m g = (Ok a, g') ∧ same_memory g g') as (a & g' & E & Hm) by apply H;
      rewrite E; clear E
  end.

(** Changing the requests, then only logging, then saving. *)
Lemma save_spec rs g g1 :
  same_memory (set_requests rs g) g1 →
  ∃ g', save_state g1 = (Ok tt, g') ∧ stage g' = stage g ∧ history g' = history g ∧
    requests g' = rs ∧ saved g'.
Proof. intros (?&?&?&?&?&?). eexists. split; [reflexivity|]. by split_and!. Qed.

Lemma request_spec target a r g :
  match request_transition target a r g with
  | (Raise _, g') => g' = g
  | (Ok q, g') => is_Some (stage_of target) ∧ stage g' = stage g ∧ history g' = history g ∧
      requests g' = requests g ++ [q] ∧ r_status q = VStr "requested" ∧ requested_stage q = target ∧ saved g'
  end.
Proof.
  unfold request_transition. destruct (stage_of target) as [s|]; [|done].
  run_quiet quiet_uuid. run_quiet quiet_iso. cbn zeta. set (q := Request _ _ _ _ _ _ _ _).
  rewrite bind_run. cbn [modify].
  assert (requests g1 = requests g) as ->.
  { destruct Hm as (_&_&_&_&?&_), Hm0 as (_&_&_&_&?&_). congruence. }
  set (rs := requests g ++ [q]). assert (same_memory (set_requests rs g) (set_requests rs g1)) as H3.
  { destruct Hm as (?&?&?&?&?&?), Hm0 as (?&?&?&?&?&?). cbn. split_and!; cbn; congruence. }
  revert H3. generalize (set_requests rs g1). intros g3 H3.
  run_quiet quiet_audit. run_quiet quiet_event. run_quiet quiet_worklog. rewrite bind_run.
  match goal with |- context [save_state ?g4] =>
    destruct (save_spec rs g g4) as (gf & E & Hs & Hh & Hr & Hsv); 
      [do 3 (eapply same_memory_trans; [|eassumption]); assumption|] end.
  rewrite E. split; [by eexists|]. by split_and!.
Qed.

Lemma find_request_spec id g :
  find_request id g = match List.find (has_id id) (requests g) with
    | Some r => (Ok r, g) | None => (Raise (StageRequestNotFound id), g) end.
Proof. unfold find_request. rewrite bind_run. cbn [gets]. by destruct (List.find _ _). Qed.

Lemma approve_spec id a r c g :
  match approve_request id a r c g with
  | (Raise _, g') => same_memory g g'
  | (Ok t, g') => ∃ q next, List.find (has_id id) (requests g) = Some q ∧
      r_status q = VStr "requested" ∧ stage_of (requested_stage q) = Some next ∧
      stage_index (stage g) < stage_index next ∧
      (∃ c, stage_guard_enabled c = true ∧ ready_for next c) ∧
      stage g' = next ∧ from_stage t = VStr (stage_str (stage g)) ∧ to_stage t = VStr (stage_str next) ∧
      history g' = history g ++ [t] ∧
      requests g' = update_first (has_id id) (decide_request (VStr "approved") (t_ts t) a) (requests g) ∧
      saved g'
  end.
Proof.
  unfold approve_request. rewrite bind_run, find_request_spec.
  destruct (List.find _ _) as [q|]; [|done].
  destruct (eq_str (r_status q) "requested") eqn:Es; cbn [negb]; [|done].
  rewrite bind_run. pose proof (promote_spec (requested_stage q) a (r or? r_reason q) c false g) as Hp.
  destruct (promote _ _ _ _ _ g) as [[t|] g1]; [|done].
  destruct Hp as (next & Hn & (H1 & H2 & H3 & H4 & H5 & H6) & Hlt & Hc).
  rewrite bind_run. cbn [modify]. rewrite bind_run. unfold append_audit, append_jsonl. rewrite bind_run.
  cbn [save_state modify mret M_ret]. exists q, next.
  assert (r_status q = VStr "requested").
  { destruct (r_status q); try done. cbn in Es. by apply String.eqb_eq in Es as ->. }
  cbn. rewrite H5. by split_and!.
Qed.

Lemma deny_spec id a r g :
  match deny_request id a r g with
  | (Raise _, g') => g' = g
  | (Ok _, g') => ∃ q at_, List.find (has_id id) (requests g) = Some q ∧ r_status q = VStr "requested" ∧
      stage g' = stage g ∧ history g' = history g ∧
      requests g' = update_first (has_id id) (decide_request (VStr "denied") at_ a) (requests g) ∧ saved g'
  end.
Proof.
  unfold deny_request. rewrite bind_run, find_request_spec.
  destruct (List.find _ _) as [q|]; [|done].
  destruct (eq_str (r_status q) "requested") eqn:Es; cbn [negb]; [|done].
  assert (r_status q = VStr "requested").
  { destruct (r_status q); try done. cbn in Es. by apply String.eqb_eq in Es as ->. }
  exists q, (VStr (iso_z (clock_at (w_tick (sg_world g))))). by split_and!.
Qed.

Lemma status_spec c g : same_memory g (status c g).2.
Proof.
  pose proof (same_memory_effects g) as (_ & Hiso & _ & Hj & _).
  unfold status, evaluate_emit, emit_review_tasks, should_emit_event, append_ops_worklog.
  apply (preserves_bind (same_memory g)); [apply same_memory_effective| |reflexivity]. intros ctx.
  apply preserves_bind; [|intros ?; apply preserves_bind; [apply preserves_get|intros; apply preserves_ret]].
  apply preserves_bind; [apply preserves_get|intros g1].
  apply preserves_bind; [apply preserves_when|intros; apply preserves_ret].
  destruct (_ && _); [apply preserves_ret|].
  apply preserves_bind; [done|intros ts]. apply preserves_bind; [apply preserves_get|intros g2].
  pose proof (same_memory_now g). pose proof (same_memory_event g).
  apply preserves_bind; [preserve|intros b]. preserve; auto.
Qed.

Lemma stage_exec_step (op : stage_op) (g : AutonomyStageGuard) :
  memory_step op g (stage_exec op g).2.
Proof.
  destruct op as [t a r c o|a r|e a r|a r|t a r|id a r c|id a r|c]; cbn [stage_exec]; rewrite bind_run.
  - pose proof (promote_spec t a r c o g) as Hp.
    destruct (promote t a r c o g) as [[tr|] g']; [|by apply step_none].
    destruct Hp as (next & Ht & (H1 & H2 & H3 & H4 & H5 & H6) & Hm).
    by apply (step_move _ _ _ tr next); [destruct o|..].
  - pose proof (rollback_spec a r g) as Hp.
    destruct (rollback_one a r g) as [[[tr|]|] g']; [|by destruct Hp as [-> _]; apply step_none|done].
    destruct Hp as (next & (H1 & H2 & H3 & H4 & H5 & H6) & Hm). by apply (step_move _ _ _ tr next).
  - unfold on_error. destruct (String.eqb_spec e "circuit_breaker") as [->|]; [|by apply step_none].
    pose proof (rollback_spec a (r or? VStr "circuit_breaker") g) as Hp.
    destruct (rollback_one _ _ g) as [[[tr|]|] g']; [|by destruct Hp as [-> _]; apply step_none|done].
    destruct Hp as (next & (H1 & H2 & H3 & H4 & H5 & H6) & Hm). by apply (step_move _ _ _ tr next).
  - pose proof (recover_spec a r g) as Hp.
    destruct (recover a r g) as [[[tr|]|] g']; [|by destruct Hp as [-> _]; apply step_none|done].
    destruct Hp as (next & (H1 & H2 & H3 & H4 & H5 & H6) & Hm). by apply (step_move _ _ _ tr next).
  - pose proof (request_spec t a r g) as Hp.
    destruct (request_transition t a r g) as [[q|] g']; [|by subst; apply step_none].
    destruct Hp as (? & ? & ? & ? & ? & ? & ?). by apply step_requests.
  - pose proof (approve_spec id a r c g) as Hp.
    destruct (approve_request id a r c g) as [[tr|] g']; [|by apply step_none].
    destruct Hp as (q & next & ? & ? & ? & ? & ? & ? & ? & ? & ? & ? & ?).
    by apply (step_move _ _ _ tr next).
  - pose proof (deny_spec id a r g) as Hp.
    destruct (deny_request id a r g) as [[q|] g']; [|by subst; apply step_none].
    destruct Hp as (? & ? & ? & ? & ? & ? & ? & ?). by apply step_requests.
  - pose proof (status_spec c g) as Hp. destruct (status c g) as [[d|] g']; by apply step_none.
Qed.
End steps.

(** ** Runs of the guard *)

Lemma same_memory_saved g g' : same_memory g g' → saved g → saved g'.
Proof.
  unfold saved, state_payload. by intros (-> & -> & -> & -> & -> & ->).
Qed.

(** The records of a run connect one stage to another. *)
Fixpoint chained (s : StageName) (h : list StageTransition) (e : StageName) : Prop :=
  match h with
  | [] => s = e
  | t :: h => ∃ n, from_stage t = VStr (stage_str s) ∧ to_stage t = VStr (stage_str n) ∧ chained n h e
  end.

Lemma chained_app s h1 m h2 e : chained s h1 m → chained m h2 e → chained s (h1 ++ h2) e.
Proof.
  revert s. induction h1 as [|t h1 IH]; intros s; cbn; [by intros ->|].
  intros (n & ? & ? & ?) ?. exists n. by auto.
Qed.

(** Operations that go through the evaluation or down. *)
Definition guarded_op (op : stage_op) : bool :=
  match op with SRecover _ _ => false | SPromote _ _ _ _ o => negb o | _ => true end.

Section runs.
Context `{Env}.

Lemma stage_run_cons op ops g : stage_run (op :: ops) g = stage_run ops (stage_exec op g).2.
Proof. reflexivity. Qed.

(** The history is a faithful chain: any run only appends to it, and the
    appended records lead, without a gap, from the stage before the run to the
    stage after it. *)
Theorem history_is_chain (ops : list stage_op) (g : AutonomyStageGuard) :
  ∃ h, history (stage_run ops g) = history g ++ h ∧ chained (stage g) h (stage (stage_run ops g)).
Proof.
  revert g. induction ops as [|op ops IH]; intros g; [exists []; by rewrite app_nil_r|].
  rewrite stage_run_cons. destruct (IH (stage_exec op g).2) as (h & -> & Hc).
  destruct (stage_exec_step op g) as [(Hs & _ & _ & Hh & _)|t next _ Hs Hf Ht Hh _|Hs Hh _];
    rewrite Hh, Hs in *.
  - by exists h.
  - exists (t :: h). rewrite <- app_assoc. split; [done|]. by exists next.
  - by exists h.
Qed.

(** Without an override and without [recover], no run reaches "full_auto":
    evaluation never allows it, and every other operation moves down or stays. *)
Theorem full_auto_needs_bypass (ops : list stage_op) (g : AutonomyStageGuard)
    (Hg : stage g ≠ full_auto) (Hops : forallb guarded_op ops = true) :
  stage (stage_run ops g) ≠ full_auto.
Proof.
  revert g Hg. induction ops as [|op ops IH]; intros g Hg; [done|].
  cbn in Hops. apply andb_true_iff in Hops as [Hop Hops].
  rewrite stage_run_cons. apply IH; [done|].
  destruct (stage_exec_step op g) as [(-> & _)|t next Hm -> _ _ _ _| -> _ _]; [done| |done].
  intros ->. destruct op as [? ? ? ? []| | | | | | |]; cbn in *; try done;
    first [by destruct Hm as (_ & ? & _ & [])
      | destruct (stage g); cbn in *; first [done|lia]
      | destruct Hm as [_ Hm]; destruct (stage g); cbn in *; first [done|lia]].
Qed.

Lemma run_same_or_saved ops g : same_memory g (stage_run ops g) ∨ saved (stage_run ops g).
Proof.
  revert g. induction ops as [|op ops IH]; intros g; [by left|]. rewrite stage_run_cons.
  destruct (IH (stage_exec op g).2) as [Hs|Hs]; [|by right].
  destruct (stage_exec_step op g) as [Hn|t next _ _ _ _ _ Hsv|_ _ Hsv];
    [left|right; by eapply same_memory_saved..].
  by eapply same_memory_trans.
Qed.
End runs.

(** ** Restart *)

Section restart.
Context `{Env}.

Lemma stage_of_str s : stage_of (VStr (stage_str s) or? VStr "manual_only") = Some s.
Proof. by destruct s. Qed.

Lemma read_each_dicts {A} (f : pyval → M AutonomyStageGuard A) (to_dict : A → dict) (l : list A) :
  (∀ a g, ∃ w, f (VDict (to_dict a)) g = (Ok a, wset w g)) →
  ∀ g, ∃ w, read_each f (List.filter is_dict ((λ a, VDict (to_dict a)) <$> l)) g = (Ok l, wset w g).
Proof.
  intros Hf. induction l as [|a l IH]; intros g; cbn [fmap list_fmap List.filter is_dict read_each].
  { exists (wget g). by rewrite wset_wget. }
  rewrite bind_run. destruct (Hf a g) as [w1 ->]. rewrite bind_run.
  destruct (IH (wset w1 g)) as [w2 ->]. exists w2. cbn [mret M_ret]. by rewrite wset_wset.
Qed.

Lemma read_transition_dict t g : ∃ w, read_transition (VDict (transition_to_dict t)) g = (Ok t, wset w g).
Proof. eexists. destruct t. reflexivity. Qed.

Lemma read_request_dict r g : ∃ w, read_request (VDict (request_to_dict r)) g = (Ok r, wset w g).
Proof. eexists. destruct r. reflexivity. Qed.

(** Iterating over a stored list, with [or []] for the empty one. *)
Lemma py_iter_stored l : py_iter (VList l or? VList []) = Ok l.
Proof. by destruct l. Qed.

Lemma state_payload_fields g :
  let p := VDict (state_payload g) in
  vget p "stage" = Ok (VStr (stage_str (stage g))) ∧ vget p "updated_at" = Ok (updated_at g) ∧
  vget p "updated_by" = Ok (updated_by g) ∧
  vget p "history" = Ok (VList ((λ t, VDict (transition_to_dict t)) <$> history g)) ∧
  vget p "requests" = Ok (VList ((λ r, VDict (request_to_dict r)) <$> requests g)).
Proof. by split_and!. Qed.

Lemma load_state_saved g0 g :
  state_file g = Some (Some (VDict (state_payload g0))) →
  ∃ at_ by_ w, load_state g =
    (Ok tt, wset w (set_memory (stage g0) at_ by_ (history g0) (requests g0) g)) ∧
    (truthy (updated_at g0) = true → at_ = updated_at g0) ∧
    (truthy (updated_by g0) = true → by_ = updated_by g0).
Proof.
  intros Hf. destruct (state_payload_fields g0) as (Es & Ea & Eb & Eh & Er).
  unfold load_state. rewrite bind_run. cbn [gets]. rewrite Hf.
  rewrite bind_run. cbn [lift]. rewrite Es, bind_run. cbn [lift]. rewrite Ea, bind_run.
  set (m := if truthy (updated_at g0) then _ else _).
  assert (∃ at_ w, m g = (Ok at_, wset w g) ∧ (truthy (updated_at g0) = true → at_ = updated_at g0))
    as (at_ & w1 & -> & Hat).
  { unfold m. destruct (truthy (updated_at g0)).
    - exists (updated_at g0), (wget g). by rewrite wset_wget.
    - by eexists _, _. }
  rewrite bind_run. cbn [lift]. rewrite Eb, bind_run. cbn [modify].
  rewrite bind_run. cbn [lift]. rewrite Eh, bind_run. cbn [lift]. rewrite py_iter_stored, bind_run.
  match goal with |- context [read_each read_transition _ ?g1] =>
    destruct (read_each_dicts read_transition transition_to_dict (history g0) read_transition_dict g1) as [w2 ->] end.
  rewrite bind_run. cbn [modify]. rewrite bind_run. cbn [lift]. rewrite Er, bind_run. cbn [lift].
  rewrite py_iter_stored, bind_run.
  match goal with |- context [read_each read_request _ ?g1] =>
    destruct (read_each_dicts read_request request_to_dict (requests g0) read_request_dict g1) as [w3 ->] end.
  eexists at_, (updated_by g0 or? VStr "system"), w3. split; [|split; [done|]].
  - cbn [modify]. by rewrite stage_of_str.
  - intros Ht. unfold py_or. by rewrite Ht.
Qed.

(** Restart: once anything the guard keeps has changed, a new guard built
    on the state file recovers the stage, the history and the requests exactly,
    whatever the logs, the clock and the other files then are; the time and the
    author of the last change too, unless they were empty. *)
Theorem restart_recovers (ops : list stage_op) (g : AutonomyStageGuard) (ev : file) (fs : StageFiles) (w : world)
    (Hg : saved g ∨ ¬ same_memory g (stage_run ops g)) :
  let g' := stage_run ops g in
  ∃ g2, guard_init None (state_file g') ev fs w = (Ok tt, g2) ∧
    stage g2 = stage g' ∧ history g2 = history g' ∧ requests g2 = requests g' ∧
    (truthy (updated_at g') = true → updated_at g2 = updated_at g') ∧
    (truthy (updated_by g') = true → updated_by g2 = updated_by g').
Proof.
  intros g'.
  assert (saved g') as Hs.
  { destruct (run_same_or_saved ops g) as [Hm|Hs]; [|done].
    destruct Hg as [Hg|Hg]; [by eapply same_memory_saved|done]. }
  unfold guard_init.
  destruct (load_state_saved g' (Guard manual_only VNone VNone [] [] (state_file g') ev fs w) Hs)
    as (at_ & by_ & w' & E & Ha & Hb).
  eexists. rewrite bind_run, E. split; [reflexivity|]. by split_and!.
Qed.
End restart.

Definition no_files : StageFiles := Files None None None None None None None.
Definition ready_context : StageGuardContext :=
  Context_ (Some (of_Z 90)) (Some "pass") 0 false false 0 true true [].
Definition fresh_guard : AutonomyStageGuard :=
  (@guard_init sample_env None None None no_files world0).2.
Definition sample_ops : list stage_op :=
  [SRequest (VStr "reduce_only") "ops" VNone; SApprove "stage-01234567" "lead" VNone (Some ready_context);
   SPromote (VStr "partial_auto") "lead" VNone (Some ready_context) false; SError "circuit_breaker" "api" VNone].

Lemma restart_recovers_witness :
  let g' := @stage_run sample_env sample_ops fresh_guard in
  stage g' = reduce_only ∧ length (history g') = 3%nat ∧
  ∃ g2, @guard_init sample_env None (state_file g') None no_files world0 = (Ok tt, g2) ∧ stage g2 = stage g'.
Proof.
  assert (¬ same_memory fresh_guard (@stage_run sample_env sample_ops fresh_guard)) as Hn.
  { intros (Hs & _). vm_compute in Hs. discriminate. }
  destruct (@restart_recovers sample_env sample_ops fresh_guard None no_files world0 (or_intror Hn))
    as (g2 & E & Hs & _).
  split; [vm_compute; reflexivity|]. split; [vm_compute; reflexivity|]. exists g2. exact (conj E Hs).
Defined.

Lemma full_auto_needs_bypass_witness :
  stage (@stage_run sample_env sample_ops fresh_guard) ≠ full_auto.
Proof. apply (@full_auto_needs_bypass sample_env); [vm_compute; discriminate | reflexivity]. Defined.

(** ** Decided requests and the recovery step *)

Lemma find_update_first {A} (p p' : A → bool) (f : A → A) l q :
  (∀ x, p (f x) = p x) → List.find p l = Some q → (p' q = true → p q = false ∨ List.find p' l ≠ Some q) →
  List.find p (update_first p' f l) = Some q.
Proof.
  intros Hf. induction l as [|x l IH]; cbn; [done|]. intros Hq Hne.
  destruct (p' x) eqn:E'; cbn in *; rewrite ?Hf; destruct (p x) eqn:Ex; try done.
  - injection Hq as ->. destruct (Hne E') as [?|Hn]; [congruence|done].
  - by apply IH.
Qed.

Lemma find_app_l {A} (p : A → bool) l l' q : List.find p l = Some q → List.find p (l ++ l') = Some q.
Proof. induction l as [|x l IH]; cbn; [done|]. by destruct (p x). Qed.

Section decided.
Context `{Env}.

Lemma decided_step op g id q :
  List.find (has_id id) (requests g) = Some q → r_status q ≠ VStr "requested" →
  List.find (has_id id) (requests (stage_exec op g).2) = Some q.
Proof.
  intros Hq Hd.
  assert (∀ id' st at_ a q', List.find (has_id id') (requests g) = Some q' → r_status q' = VStr "requested" →
    List.find (has_id id) (update_first (has_id id') (decide_request st at_ a) (requests g)) = Some q) as Hup.
  { intros id' st at_ a q' Hq' Hr. apply find_update_first; [done..|]. intros _. right. congruence. }
  destruct op as [t a r c o|a r|e a r|a r|t a r|id' a r c|id' a r|c]; cbn [stage_exec]; rewrite bind_run.
  - pose proof (promote_spec t a r c o g) as Hp. destruct (promote t a r c o g) as [[tr|] g'].
    + destruct Hp as (? & _ & (_&_&_&_&Hr&_) & _). cbn. by rewrite Hr.
    + destruct Hp as (_&_&_&_&Hr&_). cbn. by rewrite Hr.
  - pose proof (rollback_spec a r g) as Hp. destruct (rollback_one a r g) as [[[tr|]|] g']; [| |done].
    + destruct Hp as (? & (_&_&_&_&Hr&_) & _). cbn. by rewrite Hr.
    + by destruct Hp as [-> _].
  - unfold on_error. destruct (String.eqb e "circuit_breaker"); [|done].
    pose proof (rollback_spec a (r or? VStr "circuit_breaker") g) as Hp.
    destruct (rollback_one _ _ g) as [[[tr|]|] g']; [| |done].
    + destruct Hp as (? & (_&_&_&_&Hr&_) & _). cbn. by rewrite Hr.
    + by destruct Hp as [-> _].
  - pose proof (recover_spec a r g) as Hp. destruct (recover a r g) as [[[tr|]|] g']; [| |done].
    + destruct Hp as (? & (_&_&_&_&Hr&_) & _). cbn. by rewrite Hr.
    + by destruct Hp as [-> _].
  - pose proof (request_spec t a r g) as Hp. destruct (request_transition t a r g) as [[n|] g'].
    + destruct Hp as (_&_&_&Hr&_). cbn. rewrite Hr. by apply find_app_l.
    + by subst.
  - pose proof (approve_spec id' a r c g) as Hp. destruct (approve_request id' a r c g) as [[tr|] g'].
    + destruct Hp as (q' & _ & ? & ? & _ & _ & _ & _ & _ & _ & _ & Hr & _). cbn. rewrite Hr. by eapply Hup.
    + destruct Hp as (_&_&_&_&Hr&_). cbn. by rewrite Hr.
  - pose proof (deny_spec id' a r g) as Hp. destruct (deny_request id' a r g) as [[n|] g'].
    + destruct Hp as (q' & ? & ? & ? & _ & _ & Hr & _). cbn. rewrite Hr. by eapply Hup.
    + by subst.
  - pose proof (status_spec c g) as Hp. destruct (status c g) as [[d|] g'];
      destruct Hp as (_&_&_&_&Hr&_); cbn in *; by rewrite Hr.
Qed.

(** A request is decided once: as soon as its status is no longer
    "requested", no run of operations changes the record, and approving or
    denying it again raises. *)
Theorem decided_request_is_final (ops : list stage_op) (g : AutonomyStageGuard) (id : string) (q : StageRequest)
    (Hq : List.find (has_id id) (requests g) = Some q) (Hd : eq_str (r_status q) "requested" = false) :
  let g' := stage_run ops g in
  List.find (has_id id) (requests g') = Some q ∧
  (∀ a r c, ∃ msg, approve_request id a r c g' = (Raise (StageRequestNotApproved msg), g')) ∧
  (∀ a r, ∃ msg, deny_request id a r g' = (Raise (StageRequestNotApproved msg), g')).
Proof.
  intros g'.
  assert (List.find (has_id id) (requests g') = Some q) as Hq'.
  { unfold g'. clear g'. revert g Hq. induction ops as [|op ops IH]; intros g Hq; [done|].
    rewrite stage_run_cons. apply IH, decided_step; [done|]. intros E. by rewrite E in Hd. }
  split; [done|].
  split; intros; eexists; unfold approve_request, deny_request;
    rewrite bind_run, find_request_spec, Hq', Hd; reflexivity.
Qed.

(** [recover] promotes without evaluating: from "partial_auto" it always
    reaches "full_auto", a stage no evaluation of any context allows. *)
Theorem recover_skips_evaluation (g : AutonomyStageGuard) (a : string) (r : pyval)
    (Hg : stage g = partial_auto) :
  (∃ t, (recover a r g).1 = Ok (Some t)) ∧ stage (recover a r g).2 = full_auto ∧
  ∀ c, full_auto ∉ allowed_promotions (evaluate (stage g) c).
Proof.
  pose proof (recover_spec a r g) as Hp. destruct (recover a r g) as [[[t|]|] g']; [| |done].
  - destruct Hp as (n & (Hs & _) & Hi). split; [by eexists|]. split.
    + cbn. rewrite Hs, Hg in *. by destruct n.
    + intros c. rewrite allowed_promotions_spec. by intros (_ & _ & ?).
  - rewrite Hg in Hp. by destruct Hp.
Qed.
End decided.

Definition denied_guard : AutonomyStageGuard :=
  @stage_run sample_env [SRequest (VStr "full_auto") "ops" VNone; SDeny "stage-01234567" "lead" VNone] fresh_guard.

Lemma decided_request_is_final_witness :
  ∃ q, List.find (has_id "stage-01234567") (requests (@stage_run sample_env sample_ops denied_guard)) = Some q.
Proof.
  destruct (List.find (has_id "stage-01234567") (requests denied_guard)) as [q|] eqn:E;
    [|vm_compute in E; discriminate].
  assert (eq_str (r_status q) "requested" = false) as Hd.
  { vm_compute in E. injection E as <-. reflexivity. }
  exists q. exact (proj1 (@decided_request_is_final sample_env sample_ops denied_guard _ q E Hd)).
Defined.

Lemma recover_skips_evaluation_witness :
  let g := @stage_run sample_env (take 3 sample_ops) fresh_guard in
  stage g = partial_auto ∧ stage (@recover sample_env "ops" VNone g).2 = full_auto.
Proof.
  split; [vm_compute; reflexivity|].
  refine (proj1 (proj2 (@recover_skips_evaluation sample_env _ "ops" VNone _))). vm_compute; reflexivity.
Defined.
