(* ===== verification/Allocation.v ===== *)
(** Signal admission of [src/strategies/allocation.py]: the configuration
    coercions, the hard filters, the conflicts with open positions, the score,
    the tie-break order and the selection per symbol, with the trade record of
    [src/strategies/candidate.py]. *)

From S2P Require Import Prelude PyFloat PyVal PyEnv.

Local Open Scope Z_scope.
Local Open Scope py_scope.

(** * Coercions *)

Definition fnan : float := S754_nan.

(** [float(str(value).strip())], [TypeError] and [ValueError] caught; an [int]
    too large for a float still raises. *)
Definition coerce_float (value : pyval) (dflt : float) : res float :=
  match value with
  | VNone => Ok dflt
  | VBool b => Ok (of_Z (if b then 1 else 0))
  | VInt z => float_of_int z
  | VFloat f => Ok f
  | v => Ok (default dflt (parse_float (strip (py_str v))))
  end.

Definition coerce_int (value : pyval) (dflt : Z) : Z :=
  match value with
  | VNone => dflt
  | VBool b => if b then 1 else 0
  | VInt z => z
  | v => default dflt (parse_int (strip (py_str v)))
  end.

Definition normalize_text (value : pyval) : string :=
  match value with VNone => "" | v => lower (strip (py_str v)) end.

Definition positive_int_or_none (value : pyval) : option Z :=
  let parsed := coerce_int value 0 in if 0 <? parsed then Some parsed else None.

(** [_deep_merge] *)
Definition deep_merge (base override : dict) : dict := merge_into base override.

(** ** Symbol templates

    [str.format] on the fields the templates use, [{name}] and the doubled
    braces; attribute, index, conversion and format-spec fields are not read
    and fall under [KeyError] here. *)

Fixpoint format_fields (env : list (string * string)) (s : string) (field : option string) : res string :=
  match s, field with
  | EmptyString, None => Ok ""
  | EmptyString, Some _ => Raise (ValueError "expected '}' before end of string")
  | String c s, Some name =>
      if Ascii.eqb c "}" then
        match dlookup (string_rev name) env with
        | Some v => r ← format_fields env s None; Ok (v +:+ r)
        | None => Raise (KeyError (string_rev name))
        end
      else format_fields env s (Some (String c name))
  | String c s, None =>
      if Ascii.eqb c "{" then
        match s with
        | String c' s' =>
            if Ascii.eqb c' "{" then r ← format_fields env s' None; Ok (String "{" r)
            else format_fields env s (Some "")
        | EmptyString => Raise (ValueError "Single '{' encountered in format string")
        end
      else if Ascii.eqb c "}" then
        match s with
        | String c' s' =>
            if Ascii.eqb c' "}" then r ← format_fields env s' None; Ok (String "}" r)
            else Raise (ValueError "Single '}' encountered in format string")
        | EmptyString => Raise (ValueError "Single '}' encountered in format string")
        end
      else r ← format_fields env s None; Ok (String c r)
  end.

Definition render_symbol_scoped_value (value : string) (symbol : option string) : res string :=
  let text := strip value in
  match symbol with
  | None => Ok text
  | Some sym =>
      if negb (truthy text) then Ok text
      else
        let long := (6 <=? String.length sym)%nat in
        let base := if long then upper (String.substring 0 3 sym) else sym in
        let quote := if long then upper (String.substring 3 3 sym) else "" in
        match format_fields [("symbol", sym); ("symbol_lower", lower sym); ("base", base);
          ("quote", quote); ("base_lower", lower base); ("quote_lower", lower quote)] text None with
        | Raise (KeyError _) => Ok text
        | r => r
        end
  end.

(** ** Session hours *)

Definition session_items (value : pyval) : list string :=
  match value with
  | VStr s => [s]
  | VList l => List.filter (λ s, truthy (strip s)) (py_str <$> l)
  | VDict d => List.filter (λ s, truthy (strip s)) (keys d)
  | _ => []
  end.

Definition parse_session_item (item : string) : option (Z * Z) :=
  '(l, r) ← split_once "-" (strip item);
  let start := coerce_int (VStr l) (-1) in
  let stop := coerce_int (VStr r) (-1) in
  if in_range 0 start 23 && in_range 0 stop 23 then Some (start, stop) else None.

Definition parse_session_ranges (value : pyval) : list (Z * Z) :=
  omap parse_session_item (session_items value).

Definition hour_in_range (hour : Z) (r : Z * Z) : bool :=
  let '(start, stop) := r in
  ((start <=? stop) && ((start <=? hour) && (hour <=? stop))) ||
  ((stop <? start) && ((start <=? hour) || (hour <=? stop))).

Definition hour_in_ranges (hour : Z) (ranges : list (Z * Z)) : bool :=
  match ranges with [] => true | _ => existsb (hour_in_range hour) ranges end.

(** * Candidates, positions, outcomes *)

(** A signal is any object; its attributes default to [None]. *)
Record Signal := MkSignal {
  s_symbol : pyval; s_direction : pyval; s_score : pyval; s_confidence : pyval; s_quality : pyval }.

Record CandidateTrade := Trade {
  candidate_id : string; tr_strategy_id : string; tr_symbol : string; side : string; timestamp : string;
  entry : option float; stop : option float; target : option float; confidence : option float;
  tr_expected_holding_minutes : option float; tr_portfolio_group : string; tr_exposure_bucket : string;
  expected_edge : option float; tr_estimated_cost : option float; quality_score : option float;
  regime_fit : option float; session_tag : option string; atr_value : option float;
  trend_value : option float; cost_ratio : option float; metadata : dict }.

Definition or_none (s : string) : pyval := if truthy s then VStr s else VNone.

Definition trade_as_dict (t : CandidateTrade) : dict :=
  [("candidate_id", VStr (candidate_id t)); ("strategy_id", VStr (tr_strategy_id t));
   ("symbol", VStr (tr_symbol t)); ("side", VStr (side t)); ("timestamp", VStr (timestamp t));
   ("entry", vopt_float (entry t)); ("stop", vopt_float (stop t)); ("target", vopt_float (target t));
   ("confidence", vopt_float (confidence t));
   ("expected_holding_minutes", vopt_float (tr_expected_holding_minutes t));
   ("portfolio_group", or_none (tr_portfolio_group t)); ("exposure_bucket", or_none (tr_exposure_bucket t));
   ("expected_edge", vopt_float (expected_edge t)); ("estimated_cost", vopt_float (tr_estimated_cost t));
   ("quality_score", vopt_float (quality_score t)); ("regime_fit", vopt_float (regime_fit t));
   ("session_tag", vopt_str (session_tag t)); ("atr_value", vopt_float (atr_value t));
   ("trend_value", vopt_float (trend_value t)); ("cost_ratio", vopt_float (cost_ratio t));
   ("metadata", VDict (metadata t))].

(** [object_id] is [id(candidate)]: equal only for the same object. *)
Record AllocationCandidate := Candidate {
  object_id : Z; strategy_id : string; signal : Signal; priority : Z; weight : float;
  parameters : dict; trade : option CandidateTrade }.

Record AllocationActivePosition := Position {
  p_strategy_id : string; p_symbol : string; p_direction : string; opened_at : option datetime;
  position_id : string; p_portfolio_group : string; p_exposure_bucket : string }.

Record AllocationContext := AllocCtx {
  now : datetime; board_mode : string; kill_switch_state : string;
  regime_value : option float; open_positions : list AllocationActivePosition }.

Record AllocationOutcome := Outcome {
  o_strategy_id : string; o_symbol : string; o_selected : bool; o_reason : string;
  o_score : option float; o_decision : string; o_portfolio_group : string; o_exposure_bucket : string;
  o_estimated_cost : option float; o_slot_cost : option float;
  o_blocked_by_strategy_id : option string; o_blocked_by_position_id : option string;
  o_replaced_candidate_id : option string; o_notes : option string }.

Definition outcome_as_dict (o : AllocationOutcome) : dict :=
  [("strategy_id", VStr (o_strategy_id o)); ("symbol", VStr (o_symbol o)); ("selected", VBool (o_selected o));
   ("decision", VStr (o_decision o)); ("reason", VStr (o_reason o)); ("reason_code", VStr (o_reason o));
   ("score", vopt_float (o_score o)); ("portfolio_group", or_none (o_portfolio_group o));
   ("exposure_bucket", or_none (o_exposure_bucket o)); ("estimated_cost", vopt_float (o_estimated_cost o));
   ("slot_cost", vopt_float (o_slot_cost o)); ("blocked_by_strategy_id", vopt_str (o_blocked_by_strategy_id o));
   ("blocked_by_position_id", vopt_str (o_blocked_by_position_id o));
   ("replaced_candidate_id", vopt_str (o_replaced_candidate_id o)); ("notes", vopt_str (o_notes o))].

Record AllocationResult := Result { selected : list AllocationCandidate; outcomes : list AllocationOutcome }.

Definition result_as_dict (r : AllocationResult) : dict :=
  [("selected_strategy_ids", VList ((λ c, VStr (strategy_id c)) <$> selected r));
   ("outcomes", VList ((λ o, VDict (outcome_as_dict o)) <$> outcomes r))].

Record EvaluatedCandidate := Evaluated {
  e_candidate : AllocationCandidate; e_symbol : string; e_score : option float; e_accepted : bool;
  e_reason : string; e_role_priority : Z; e_portfolio_group : string; e_exposure_bucket : string;
  e_estimated_cost : option float; e_slot_cost : option float;
  e_blocked_by_strategy_id : option string; e_blocked_by_position_id : option string;
  e_replaced_candidate_id : option string; e_notes : option string }.

(** ** Reading a signal or its trade *)

Definition signal_symbol (s : Signal) : string :=
  match s_symbol s with VNone => "UNKNOWN" | v => upper (strip (py_str v)) or? "UNKNOWN" end.

Definition signal_direction (s : Signal) : string := normalize_text (s_direction s).

Definition signal_score (s : Signal) : res float :=
  score ← coerce_float (s_score s) fnan;
  if feqb score score then Ok score
  else
    conf ← coerce_float (s_confidence s) fnan;
    if feqb conf conf then Ok conf
    else
      quality ← coerce_float (s_quality s) fnan;
      Ok (if feqb quality quality then quality else of_Z 1).

Definition candidate_symbol (c : AllocationCandidate) : string :=
  match trade c with
  | Some t => if truthy (tr_symbol t) then tr_symbol t else signal_symbol (signal c)
  | None => signal_symbol (signal c)
  end.

Definition candidate_direction (c : AllocationCandidate) : string :=
  match trade c with
  | Some t => if truthy (side t) then normalize_text (VStr (side t)) else signal_direction (signal c)
  | None => signal_direction (signal c)
  end.

Definition candidate_score (c : AllocationCandidate) : res float :=
  match trade c with
  | Some t =>
      match expected_edge t, confidence t, quality_score t with
      | Some x, _, _ | None, Some x, _ | None, None, Some x => Ok x
      | None, None, None => signal_score (signal c)
      end
  | None => signal_score (signal c)
  end.

Definition extract_execution (parameters : dict) : dict := as_dict_or_empty (dget "execution" parameters).

Definition extract_cost_estimate (parameters : dict) : res (float * float) :=
  let execution := extract_execution parameters in
  spread ← coerce_float (dget "spread" execution) fzero;
  slippage ← coerce_float (dget "slippage" execution) fzero;
  Ok (spread, slippage).

Definition candidate_estimated_cost (c : AllocationCandidate) : res float :=
  match trade c ≫= tr_estimated_cost with
  | Some x => Ok x
  | None => '(spread, slippage) ← extract_cost_estimate (parameters c); Ok (fadd spread slippage)
  end.

Definition decision_from_reason (selected : bool) (reason : string) : string :=
  if selected then "accept"
  else if ends_with "_deferred" reason then "defer"
  else if starts_with "replace_" reason then "replace"
  else if starts_with "resize_" reason then "resize"
  else "reject".

(** * The policy *)

Record StrategyAllocationPolicy := Policy {
  mode : string; tie_break_rules : list pyval; selection_mode : string;
  max_selected_per_symbol : option Z; global_config : dict; strategy_config : list (string * dict);
  source_path : option string }.

Definition policy_init (mode : string) (rules : list pyval) (selection : string) (limit : option Z)
    (global : dict) (strategies : dict) (path : option string) : res StrategyAllocationPolicy :=
  cfgs ← mapM_res (λ kv : string * pyval, d ← to_dict kv.2; Ok (kv.1, d)) strategies;
  Ok (Policy mode rules selection limit global cfgs path).

Definition default_rules : list pyval := [VStr "score_desc"; VStr "priority_asc"; VStr "strategy_id_asc"].

Definition pass_through : StrategyAllocationPolicy :=
  Policy "pass_through" default_rules "select_many" None [] [] None.

Definition is_pass_through (p : StrategyAllocationPolicy) : bool := String.eqb (mode p) "pass_through".

Definition get_mapping (k : string) (d : dict) : dict := as_dict_or_empty (dget k d).

(** [_load_runtime_guardrail_payload]: the file is absent ([None]), unreadable
    ([Some None]) or a JSON value. *)
Definition load_runtime_guardrail_payload (file : option (option pyval)) : dict :=
  match file with Some (Some (VDict d)) => d | _ => [] end.

(** The configuration of the active profile, before the runtime guardrail. *)
Definition select_profile (path : string) (payload : dict) (active : pyval) : res dict :=
  let defaults := get_mapping "defaults" payload in
  match dget "profiles" payload with
  | VDict profiles =>
      found ← (match active with
        | VStr k => Ok (dget k profiles)
        | VList _ | VDict _ => Raise (TypeError "unhashable type")
        | _ => Ok VNone end);
      match found with
      | VDict selected => Ok (deep_merge defaults selected)
      | _ => Raise (ValueError ("Allocation profile '" +:+ py_str active +:+ "' not found in " +:+ path +:+
               ". Available profiles: " +:+ py_repr (VList (VStr <$> sorted_strings (keys profiles)))))
      end
  | _ => Ok (deep_merge defaults payload)
  end.

Definition guardrail_applies (payload : dict) (profile : option string) (active : pyval) : bool :=
  let guardrail_profile :=
    py_str (dget "allocation_profile" payload or? (vopt_str profile or? VStr "")) in
  String.eqb (py_str (dget "status" payload or? VStr "")) "active" &&
  (negb (truthy guardrail_profile) || eq_str active guardrail_profile).

Definition selection_of (global : dict) : string * option Z :=
  let '(m, raw) := match dget "selection" global with
    | VDict s => (normalize_text (dget "mode" s) or? "select_one", dget "max_per_symbol" s)
    | _ => ("select_one", VNone) end in
  (if str_in m ["select_one"; "select_many"] then m else "select_one",
   match raw with VNone => None | v => positive_int_or_none v end).

(** [load] on the parsed YAML payload of [path]. *)
Definition load (path : string) (yaml : pyval) (profile : option string) (guardrail_file : option (option pyval))
    : res StrategyAllocationPolicy :=
  match (yaml or? VDict []) with
  | VDict payload =>
      let active := vopt_str profile or? (dget "active_profile" payload or? VStr "pass_through") in
      selected ← select_profile path payload active;
      let guardrail := load_runtime_guardrail_payload guardrail_file in
      let selected :=
        match dget "allocation_profile_overrides" guardrail with
        | VDict overrides =>
            if guardrail_applies guardrail profile active then deep_merge selected overrides else selected
        | _ => selected
        end in
      let mode := normalize_text (dget "mode" selected) or? "pass_through" in
      let rules := match dget "tie_break" selected with VList l => l | _ => [] end in
      let rules := if truthy rules then rules else default_rules in
      let global := get_mapping "global" selected in
      let '(selection, limit) := selection_of global in
      policy_init mode rules selection limit global (get_mapping "strategies" selected) (Some path)
  | _ => Raise (ValueError ("Allocation config must be a mapping: " +:+ path))
  end.

(** ** Configuration of one strategy *)

Section policy.
Variable pol : StrategyAllocationPolicy.

(** A section of the global configuration overridden by the strategy's. *)
Definition merged_cfg (key : string) (strategy_cfg : dict) : dict :=
  deep_merge (get_mapping key (global_config pol)) (get_mapping key strategy_cfg).

Definition resolve_hard_filters (cfg : dict) : dict :=
  let merged := merged_cfg "hard_filters" cfg in
  if dmem "kill_switch_blocked_states" merged then merged
  else dset "kill_switch_blocked_states" (VList [VStr "soft_stop"; VStr "hard_stop"; VStr "triggered"]) merged.
Definition resolve_cost_penalty (cfg : dict) : dict := merged_cfg "cost_penalty" cfg.
Definition resolve_regime_cfg (cfg : dict) : dict := merged_cfg "regime" cfg.
Definition resolve_portfolio_cfg (cfg : dict) : dict := merged_cfg "portfolio" cfg.

Definition template_of (cfg : dict) (k1 k2 : string) : string :=
  let p := resolve_portfolio_cfg cfg in strip (py_str (dget k1 p or? (dget k2 p or? VStr ""))).

Definition portfolio_group (cfg : dict) (symbol : option string) : res string :=
  render_symbol_scoped_value (template_of cfg "group_template" "group") symbol.
Definition exposure_bucket (cfg : dict) (symbol : option string) : res string :=
  render_symbol_scoped_value (template_of cfg "exposure_bucket_template" "exposure_bucket") symbol.

Definition cfg_of (strategy : string) : dict := default [] (dlookup strategy (strategy_config pol)).

Definition candidate_metadata (strategy : string) (symbol : option string) : res dict :=
  let p := resolve_portfolio_cfg (cfg_of strategy) in
  g ← portfolio_group (cfg_of strategy) symbol;
  b ← exposure_bucket (cfg_of strategy) symbol;
  h ← coerce_float (dget "expected_holding_minutes" p) fzero;
  c ← coerce_float (dget "slot_cost" p) fzero;
  Ok [("portfolio_group", VStr g); ("exposure_bucket", VStr b); ("expected_holding_minutes", VFloat h);
      ("slot_cost", VFloat c); ("role_priority", VInt (coerce_int (dget "role_priority" p) 100))].

(** ** Matches with the open positions *)

Definition position_portfolio_group (p : AllocationActivePosition) : res string :=
  if truthy (p_portfolio_group p) then Ok (strip (p_portfolio_group p))
  else portfolio_group (cfg_of (p_strategy_id p)) (Some (p_symbol p)).
Definition position_exposure_bucket (p : AllocationActivePosition) : res string :=
  if truthy (p_exposure_bucket p) then Ok (strip (p_exposure_bucket p))
  else exposure_bucket (cfg_of (p_strategy_id p)) (Some (p_symbol p)).

Definition symbol_matching (c : AllocationCandidate) (ctx : AllocationContext) : list AllocationActivePosition :=
  List.filter (λ p, String.eqb (p_symbol p) (candidate_symbol c)) (open_positions ctx).

(** Positions in the candidate's group; none when the group is empty. *)
Definition group_matching (c : AllocationCandidate) (ctx : AllocationContext) (cfg : dict)
    : res (list AllocationActivePosition) :=
  g ← portfolio_group cfg (Some (candidate_symbol c));
  if negb (truthy g) then Ok []
  else filterM_res (λ p, pg ← position_portfolio_group p; Ok (String.eqb pg g)) (open_positions ctx).
Definition exposure_matching (c : AllocationCandidate) (ctx : AllocationContext) (cfg : dict)
    : res (list AllocationActivePosition) :=
  b ← exposure_bucket cfg (Some (candidate_symbol c));
  if negb (truthy b) then Ok []
  else filterM_res (λ p, pb ← position_exposure_bucket p; Ok (String.eqb pb b)) (open_positions ctx).

Definition matches (l : list AllocationActivePosition) : Z := Z.of_nat (length l).

Abbreviation conflict := (string * option string * option string)%type.

(** A conflict names the first matching position. *)
Definition conflict_with (reason : string) (l : list AllocationActivePosition) : option conflict :=
  Some (reason, p_strategy_id <$> head l, position_id <$> head l).

Definition policy_text (portfolio_cfg : dict) (key : string) : string :=
  normalize_text (dget key portfolio_cfg) or? "allow".

(** The limit, then the block and defer policies, for one kind of match. *)
Definition limit_conflict (limit : option Z) (policy kind : string) (l : list AllocationActivePosition)
    : option conflict :=
  if match limit with Some n => n <=? matches l | None => false end
  then conflict_with ("active_" +:+ kind +:+ "_limit") l
  else if 0 <? matches l then
    if String.eqb policy "block" then conflict_with ("active_" +:+ kind +:+ "_conflict") l
    else if String.eqb policy "defer" then conflict_with ("active_" +:+ kind +:+ "_deferred") l
    else None
  else None.

Definition resolve_active_position_conflict (c : AllocationCandidate) (ctx : AllocationContext) (cfg : dict)
    : res (option conflict) :=
  match open_positions ctx with
  | [] => Ok None
  | _ =>
      let p := resolve_portfolio_cfg cfg in
      match limit_conflict None (policy_text p "active_symbol_policy") "symbol" (symbol_matching c ctx) with
      | Some r => Ok (Some r)
      | None =>
          groups ← group_matching c ctx cfg;
          match limit_conflict (positive_int_or_none (dget "max_active_per_group" p))
                  (policy_text p "active_group_policy") "group" groups with
          | Some r => Ok (Some r)
          | None =>
              buckets ← exposure_matching c ctx cfg;
              Ok (limit_conflict (positive_int_or_none (dget "max_active_per_exposure_bucket" p))
                    (policy_text p "active_exposure_policy") "exposure" buckets)
          end
      end
  end.

(** ** Score *)

Definition regime_multiplier (c : AllocationCandidate) (cfg : dict) (regime_value : option float) : res float :=
  match regime_value with
  | None => Ok (of_Z 1)
  | Some v =>
      let r := resolve_regime_cfg cfg in
      threshold ← coerce_float (dget "trend_threshold" r) fzero;
      align_bonus ← coerce_float (dget "align_bonus" r) fzero;
      mismatch_penalty ← coerce_float (dget "mismatch_penalty" r) (of_Z 1);
      let direction := candidate_direction c in
      let aligned :=
        if String.eqb direction "long" then fgtb v threshold
        else if String.eqb direction "short" then fltb v (fopp threshold) else true in
      Ok (if aligned then fmax fzero (fadd (of_Z 1) align_bonus) else fmax fzero mismatch_penalty)
  end.

(** [cfg.get("score", {}).get(key)] *)
Definition score_cfg (d : dict) (key : string) : res pyval := vget (dget_or "score" (VDict []) d) key.

Definition positive (x : float) : bool := fgtb x fzero.
Definition fsub_if (b : bool) (score x : float) : float := if b then fsub score x else score.

(** The penalty for [n] matching positions under the "penalize" policy. *)
Definition match_penalty (p : dict) (policy_key penalty_key : string)
    (l : list AllocationActivePosition) (score : float) : res float :=
  penalty ← coerce_float (dget penalty_key p) fzero;
  Ok (fsub_if ((0 <? matches l) && String.eqb (policy_text p policy_key) "penalize" && positive penalty)
        score (fmul (of_Z (matches l)) penalty)).

Definition compute_score (c : AllocationCandidate) (cfg : dict) (ctx : AllocationContext)
    (spread slippage : float) : res float :=
  strategy_weight ← coerce_float (dget "weight" cfg) (weight c or? of_Z 1);
  bias ← score_cfg cfg "bias"; strategy_bias ← coerce_float bias fzero;
  base ← candidate_score c;
  let score := fadd (fmul base strategy_weight) strategy_bias in
  m ← regime_multiplier c cfg (regime_value ctx);
  let score := fmul score m in
  let penalty := resolve_cost_penalty cfg in
  spread_weight ← coerce_float (dget "spread_weight" penalty) fzero;
  slippage_weight ← coerce_float (dget "slippage_weight" penalty) fzero;
  let score := fsub score (fmul spread spread_weight) in
  let score := fsub score (fmul slippage slippage_weight) in
  let p := resolve_portfolio_cfg cfg in
  holding ← (match trade c ≫= tr_expected_holding_minutes with
    | Some x => Ok x
    | None => coerce_float (dget "expected_holding_minutes" p) fzero end);
  holding_weight ← coerce_float (dget "holding_minute_weight" p) fzero;
  let score := fsub_if (positive holding && positive holding_weight) score (fmul holding holding_weight) in
  slot_cost ← coerce_float (dget "slot_cost" p) fzero;
  let score := fsub_if (positive slot_cost) score slot_cost in
  score ← match_penalty p "active_symbol_policy" "active_symbol_penalty" (symbol_matching c ctx) score;
  groups ← group_matching c ctx cfg;
  score ← match_penalty p "active_group_policy" "active_group_penalty" groups score;
  buckets ← exposure_matching c ctx cfg;
  score ← match_penalty p "active_exposure_policy" "active_exposure_penalty" buckets score;
  Ok (fround score 8).

(** ** Evaluation of one candidate *)

Definition rejected (c : AllocationCandidate) (reason : string) : EvaluatedCandidate :=
  Evaluated c (candidate_symbol c) None false reason 100 "" "" None None None None None None.

Definition blocked_states (filters : dict) : res (list string) :=
  l ← py_iter (dget_or "kill_switch_blocked_states" (VList []) filters); Ok (map normalize_text l).

Definition board_mode_ok (filters : dict) (mode : string) : bool :=
  match dget "board_modes" filters with
  | VList l => negb (truthy l) || str_in (normalize_text (VStr mode)) (normalize_text <$> l)
  | _ => true
  end.

Definition session_ranges (filters : dict) : list (Z * Z) :=
  let ranges := parse_session_ranges (dget "session_utc_ranges" filters) in
  if truthy ranges then ranges else parse_session_ranges (dget "session_utc_range" filters).

Definition min_score (cfg : dict) : res float :=
  g ← score_cfg (global_config pol) "min_score"; g ← coerce_float g fzero;
  s ← score_cfg cfg "min_score"; s ← coerce_float s fzero;
  Ok (fmax g s).

Definition evaluate_candidate (c : AllocationCandidate) (ctx : AllocationContext) : res EvaluatedCandidate :=
  let symbol := candidate_symbol c in
  match dlookup (strategy_id c) (strategy_config pol),
        truthy (dget_or "require_strategy_config" (VBool true) (global_config pol)) with
  | None, true => Ok (rejected c "strategy_not_configured")
  | found, _ =>
      let cfg := default [] found in
      let p := resolve_portfolio_cfg cfg in
      let role := coerce_int (dget "role_priority" p) 100 in
      group ← portfolio_group cfg (Some symbol);
      bucket ← exposure_bucket cfg (Some symbol);
      slot ← coerce_float (dget "slot_cost" p) fzero;
      let reject reason cost bs bp notes :=
        Evaluated c symbol None false reason role group bucket cost (Some slot) bs bp None notes in
      if negb (truthy (dget_or "enabled" (VBool true) cfg))
      then Ok (reject "strategy_disabled" None None None None)
      else
        let filters := resolve_hard_filters cfg in
        let ks := normalize_text (VStr (kill_switch_state ctx)) in
        states ← blocked_states filters;
        if truthy ks && str_in ks states then Ok (reject "kill_switch_blocked" None None None None)
        else if negb (board_mode_ok filters (board_mode ctx))
        then Ok (reject "board_mode_blocked" None None None None)
        else
          '(spread, slippage) ← extract_cost_estimate (parameters c);
          cost ← candidate_estimated_cost c;
          spread_max ← coerce_float (dget "spread_max" filters) (of_Z (-1));
          if fgeb spread_max fzero && fgtb spread spread_max
          then Ok (reject "spread_blocked" (Some cost) None None None)
          else if negb (hour_in_ranges (dt_hour (now ctx)) (session_ranges filters))
          then Ok (reject "session_blocked" (Some cost) None None None)
          else
            conflict ← resolve_active_position_conflict c ctx cfg;
            match conflict with
            | Some (reason, bs, bp) =>
                Ok (reject reason (Some cost) bs bp (Some "blocked by active position policy"))
            | None =>
                score ← compute_score c cfg ctx spread slippage;
                floor ← min_score cfg;
                let accepted := negb (fltb score floor) in
                Ok (Evaluated c symbol (Some score) accepted
                  (if accepted then "candidate_ok" else "score_below_min") role group bucket (Some cost)
                  (Some slot) None None None None)
            end
  end.

(** ** Tie break *)

Inductive key := KFloat (x : float) | KInt (z : Z) | KStr (s : string).

(** Python's [==] and [<] on two keys of the same rule. *)
Definition key_eqb (a b : key) : bool :=
  match a, b with
  | KFloat x, KFloat y => feqb x y
  | KInt x, KInt y => x =? y
  | KStr x, KStr y => String.eqb x y
  | _, _ => false
  end.
Definition key_ltb (a b : key) : bool :=
  match a, b with
  | KFloat x, KFloat y => fltb x y
  | KInt x, KInt y => x <? y
  | KStr x, KStr y => str_ltb x y
  | _, _ => false
  end.

(** [<] on tuples: the first keys that differ decide. *)
Fixpoint tuple_ltb (a b : list key) : bool :=
  match a, b with
  | x :: a, y :: b => if key_eqb x y then tuple_ltb a b else key_ltb x y
  | [], _ :: _ => true
  | _, [] => false
  end.

(** [chr(255 - ord(ch))] on each character. *)
Definition complement_text (s : string) : string := map_string (λ c, ascii_of_N (255 - N_of_ascii c)) s.

Definition rule_key (item : EvaluatedCandidate) (rule : pyval) : option key :=
  let score := default (fopp (S754_infinity false)) (e_score item) in
  let c := e_candidate item in
  let token := normalize_text rule in
  if String.eqb token "score_desc" then Some (KFloat (fopp score))
  else if String.eqb token "score_asc" then Some (KFloat score)
  else if String.eqb token "priority_asc" then Some (KInt (priority c))
  else if String.eqb token "priority_desc" then Some (KInt (- priority c))
  else if String.eqb token "role_priority_asc" then Some (KInt (e_role_priority item))
  else if String.eqb token "role_priority_desc" then Some (KInt (- e_role_priority item))
  else if String.eqb token "weight_desc" then Some (KFloat (fopp (weight c)))
  else if String.eqb token "weight_asc" then Some (KFloat (weight c))
  else if String.eqb token "strategy_id_desc" then Some (KStr (complement_text (strategy_id c)))
  else if String.eqb token "strategy_id_asc" then Some (KStr (strategy_id c))
  else None.

Definition tie_break_sort_key (item : EvaluatedCandidate) : list key :=
  let score := default (fopp (S754_infinity false)) (e_score item) in
  let keys := omap (rule_key item) (tie_break_rules pol) in
  match keys with
  | [] => [KFloat (fopp score); KInt (priority (e_candidate item)); KStr (strategy_id (e_candidate item))]
  | _ => keys ++ [KStr (strategy_id (e_candidate item))]
  end.

Definition tie_ltb (a b : EvaluatedCandidate) : bool := tuple_ltb (tie_break_sort_key a) (tie_break_sort_key b).

(** ** Selection *)

Definition build_outcome (item : EvaluatedCandidate) (sel : bool) (reason : option string)
    (bs replaced : option string) : AllocationOutcome :=
  let or_else (a b : option string) := if truthy a then a else b in
  let code := default "" (or_else reason (Some (e_reason item))) in
  Outcome (strategy_id (e_candidate item)) (e_symbol item) sel code (e_score item)
    (decision_from_reason sel code) (e_portfolio_group item) (e_exposure_bucket item)
    (e_estimated_cost item) (e_slot_cost item) (or_else bs (e_blocked_by_strategy_id item))
    (e_blocked_by_position_id item) (or_else replaced (e_replaced_candidate_id item)) (e_notes item).

(** One candidate of the symbol's list, in arrival order. *)
Fixpoint group_add (symbol : string) (c : AllocationCandidate)
    (groups : list (string * list AllocationCandidate)) : list (string * list AllocationCandidate) :=
  match groups with
  | [] => [(symbol, [c])]
  | (s, l) :: rest => if String.eqb s symbol then (s, l ++ [c]) :: rest else (s, l) :: group_add symbol c rest
  end.

Definition by_symbol (l : list AllocationCandidate) : list (string * list AllocationCandidate) :=
  isort (λ a b, str_ltb a.1 b.1) (fold_left (λ g c, group_add (signal_symbol (signal c)) c g) l []).

Definition is_accepted (e : EvaluatedCandidate) : bool :=
  e_accepted e && match e_score e with Some _ => true | None => false end.

Definition keep_count (n : Z) : Z :=
  if String.eqb (selection_mode pol) "select_many"
  then match max_selected_per_symbol pol with Some m => Z.min n m | None => n end
  else 1.

(** [l[:k]], a negative [k] counting from the end. *)
Definition slice_to {A} (k : Z) (l : list A) : list A :=
  take (Z.to_nat (if k <? 0 then Z.of_nat (length l) + k else k)) l.

(** Selection among the candidates of one symbol. *)
Definition select_symbol (evaluated : list EvaluatedCandidate)
    : list AllocationCandidate * list AllocationOutcome :=
  let accepted := List.filter is_accepted evaluated in
  match accepted with
  | [] => ([], (λ e, build_outcome e false None None None) <$> evaluated)
  | _ =>
      let sorted := isort tie_ltb accepted in
      let chosen := slice_to (keep_count (Z.of_nat (length sorted))) sorted in
      let refs := (λ e, object_id (e_candidate e)) <$> chosen in
      let winner := head chosen in
      let outcome_of e :=
        if bool_decide (object_id (e_candidate e) ∈ refs)
        then build_outcome e true (Some "selected") None None
        else build_outcome e false
               (Some (if String.eqb (selection_mode pol) "select_many" then "selection_limit" else "tie_break_lost"))
               ((λ w, strategy_id (e_candidate w)) <$> winner)
               (winner ≫= λ w, candidate_id <$> trade (e_candidate w)) in
      (e_candidate <$> chosen,
       (outcome_of <$> sorted) ++
       ((λ e, build_outcome e false None None None) <$> List.filter (λ e, negb (e_accepted e)) evaluated))
  end.

Definition pass_through_outcome (c : AllocationCandidate) : res AllocationOutcome :=
  score ← candidate_score c;
  cost ← candidate_estimated_cost c;
  Ok (Outcome (strategy_id c) (candidate_symbol c) true "pass_through" (Some score) "accept" "" ""
    (Some cost) None None None None None).

Definition allocate (candidates : list AllocationCandidate) (ctx : AllocationContext) : res AllocationResult :=
  match candidates with
  | [] => Ok (Result [] [])
  | _ =>
      if is_pass_through pol then outs ← mapM_res pass_through_outcome candidates; Ok (Result candidates outs)
      else
        parts ← mapM_res (λ g : string * list AllocationCandidate,
            evaluated ← mapM_res (λ c, evaluate_candidate c ctx) g.2; Ok (select_symbol evaluated))
          (by_symbol candidates);
        Ok (Result (concat parts.*1) (concat parts.*2))
  end.
End policy.

(** * The tie-break order *)

Definition key_cmp (a b : key) : comparison :=
  match a, b with
  | KFloat x, KFloat y => default Eq (SpecFloat.SFcompare x y)
  | KInt x, KInt y => Z.compare x y
  | KStr x, KStr y => String.compare x y
  | _, _ => Eq
  end.

(** Keys that Python can order: of one type, and no NaN. *)
Definition comparable (a b : key) : Prop :=
  match a, b with
  | KFloat x, KFloat y => is_nan x = false ∧ is_nan y = false
  | KInt _, KInt _ | KStr _, KStr _ => True
  | _, _ => False
  end.

Fixpoint tuple_cmp (a b : list key) : comparison :=
  match a, b with
  | x :: a, y :: b => match key_cmp x y with Eq => tuple_cmp a b | c => c end
  | _, _ => Eq
  end.

Lemma key_eqb_cmp a b : comparable a b → key_eqb a b = bool_decide (key_cmp a b = Eq).
Proof.
  destruct a as [x|x|x], b as [y|y|y]; cbn; try done.
  - intros [Hx Hy]. unfold feqb, SpecFloat.SFeqb. pose proof (fcmp_key x y Hx Hy).
    by destruct (SpecFloat.SFcompare x y) as [[]|].
  - intros _. destruct (Z.compare_spec x y) as [->|?|?]; cbn; [apply Z.eqb_refl|apply Z.eqb_neq; lia..].
  - intros _. destruct (String.compare x y) eqn:E; cbn.
    + by apply String.compare_eq_iff in E as ->; apply String.eqb_refl.
    + apply String.eqb_neq. intros ->. by rewrite string_compare_refl in E.
    + apply String.eqb_neq. intros ->. by rewrite string_compare_refl in E.
Qed.

Lemma key_ltb_cmp a b : comparable a b → key_ltb a b = bool_decide (key_cmp a b = Lt).
Proof.
  destruct a as [x|x|x], b as [y|y|y]; cbn; try done.
  - intros [Hx Hy]. unfold fltb, SpecFloat.SFltb. pose proof (fcmp_key x y Hx Hy).
    by destruct (SpecFloat.SFcompare x y) as [[]|].
  - intros _. unfold Z.ltb. by destruct (x ?= y).
  - intros _. unfold str_ltb, String.ltb. by destruct (String.compare x y).
Qed.

(** The laws of a total order, with [Eq] as its congruence. *)
Lemma key_cmp_antisym a b : comparable a b → key_cmp b a = CompOpp (key_cmp a b).
Proof.
  destruct a as [x|x|x], b as [y|y|y]; cbn; try done.
  - intros [Hx Hy]. pose proof (fcmp_key x y Hx Hy) as H1. pose proof (fcmp_key y x Hy Hx) as H2.
    destruct (SpecFloat.SFcompare x y) as [[]|], (SpecFloat.SFcompare y x) as [[]|]; try done; klt_absurd.
  - intros _. apply Z.compare_antisym.
  - intros _. apply String.compare_antisym.
Qed.

Lemma key_cmp_eq a b c : comparable a b → comparable b c → key_cmp a b = Eq → key_cmp a c = key_cmp b c.
Proof.
  destruct a as [x|x|x], b as [y|y|y], c as [z|z|z]; cbn; try done.
  - intros [Hx Hy] [_ Hz]. pose proof (fcmp_key x y Hx Hy) as H1.
    pose proof (fcmp_key x z Hx Hz) as H2. pose proof (fcmp_key y z Hy Hz) as H3.
    destruct (SpecFloat.SFcompare x y) as [[]|]; try done. intros _. rewrite H1 in H2.
    destruct (SpecFloat.SFcompare x z) as [[]|], (SpecFloat.SFcompare y z) as [[]|]; try done; klt_absurd.
  - by intros _ _ ->%Z.compare_eq.
  - by intros _ _ ->%String.compare_eq_iff.
Qed.

Lemma key_cmp_trans a b c :
  comparable a b → comparable b c → key_cmp a b = Lt → key_cmp b c = Lt → key_cmp a c = Lt.
Proof.
  destruct a as [x|x|x], b as [y|y|y], c as [z|z|z]; cbn; try done.
  - intros [Hx Hy] [_ Hz]. pose proof (fcmp_key x y Hx Hy) as H1.
    pose proof (fcmp_key x z Hx Hz) as H2. pose proof (fcmp_key y z Hy Hz) as H3.
    destruct (SpecFloat.SFcompare x y) as [[]|]; try done. intros _.
    destruct (SpecFloat.SFcompare y z) as [[]|]; try done. intros _.
    pose proof (klt_trans _ _ _ H1 H3). destruct (SpecFloat.SFcompare x z) as [[]|]; try done; klt_absurd.
  - intros _ _. rewrite !Z.compare_lt_iff. lia.
  - intros _ _. apply string_compare_trans.
Qed.

Abbreviation comparable_tuples := (Forall2 comparable).

Lemma tuple_ltb_cmp a b : comparable_tuples a b → tuple_ltb a b = bool_decide (tuple_cmp a b = Lt).
Proof.
  induction 1 as [|x y a b Hxy _ IH]; cbn; [done|].
  rewrite key_eqb_cmp, key_ltb_cmp by done. destruct (key_cmp x y); cbn; [by rewrite IH|done..].
Qed.

Lemma tuple_cmp_antisym a b : comparable_tuples a b → tuple_cmp b a = CompOpp (tuple_cmp a b).
Proof.
  induction 1 as [|x y a b Hxy _ IH]; cbn; [done|].
  rewrite (key_cmp_antisym x y) by done. by destruct (key_cmp x y); cbn.
Qed.

Lemma comparable_sym a b : comparable a b → comparable b a.
Proof. destruct a, b; cbn; naive_solver. Qed.
Lemma comparable_trans a b c : comparable a b → comparable b c → comparable a c.
Proof. destruct a, b, c; cbn; naive_solver. Qed.

(** Not being above is transitive. *)
Lemma tuple_cmp_le_trans a b c :
  comparable_tuples a b → comparable_tuples b c →
  tuple_cmp a b ≠ Gt → tuple_cmp b c ≠ Gt → tuple_cmp a c ≠ Gt.
Proof.
  intros H. revert c. induction H as [|x y a b Hxy _ IH]; intros c Hc; inversion Hc as [|? z ? c' Hyz Hc']; subst; cbn; [done|].
  destruct (key_cmp x y) eqn:E1; [| |done].
  - rewrite (key_cmp_eq x y z Hxy Hyz E1). destruct (key_cmp y z); [by apply IH|done..].
  - intros _. destruct (key_cmp y z) eqn:E2; [| |done].
    + assert (key_cmp x z = Lt) as ->; [|done].
      pose proof (key_cmp_antisym y z Hyz) as Ha. rewrite E2 in Ha. cbn in Ha.
      pose proof (key_cmp_eq z y x (comparable_sym _ _ Hyz) (comparable_sym _ _ Hxy) Ha) as He.
      rewrite (key_cmp_antisym z x), He, (key_cmp_antisym x y), E1 by eauto using comparable_sym, comparable_trans.
      done.
    + by rewrite (key_cmp_trans x y z Hxy Hyz E1 E2).
Qed.

(** * Selection *)

Section selection.
Variable pol : StrategyAllocationPolicy.

(** An item the tie break can order: a score and a weight that are numbers. *)
Definition ordered_item (e : EvaluatedCandidate) : Prop :=
  (∃ s, e_score e = Some s ∧ is_nan s = false) ∧ is_nan (weight (e_candidate e)) = false.

Lemma is_nan_opp x : is_nan (fopp x) = is_nan x.
Proof. by destruct x. Qed.

Lemma rule_key_comparable a b r :
  ordered_item a → ordered_item b →
  match rule_key a r, rule_key b r with
  | Some x, Some y => comparable x y
  | None, None => True
  | _, _ => False
  end.
Proof.
  intros [(sa & Ea & Na) Wa] [(sb & Eb & Nb) Wb]. unfold rule_key. rewrite Ea, Eb.
  set (t := normalize_text r). clearbody t.
  repeat match goal with |- context [String.eqb t ?s] => destruct (String.eqb t s); [cbn; rewrite ?is_nan_opp; done|] end.
  done.
Qed.

Lemma tie_keys_comparable a b :
  ordered_item a → ordered_item b → comparable_tuples (tie_break_sort_key pol a) (tie_break_sort_key pol b).
Proof.
  intros Ha Hb. unfold tie_break_sort_key.
  assert (comparable_tuples (omap (rule_key a) (tie_break_rules pol)) (omap (rule_key b) (tie_break_rules pol))) as Ho.
  { induction (tie_break_rules pol) as [|r l IH]; [constructor|]. cbn.
    pose proof (rule_key_comparable a b r Ha Hb).
    destruct (rule_key a r), (rule_key b r); try done. by constructor. }
  destruct Ho as [|x y l l' Hxy Hl].
  - destruct Ha as [(sa & -> & Na) _], Hb as [(sb & -> & Nb) _].
    repeat constructor; cbn; by rewrite is_nan_opp.
  - apply Forall2_app; [by constructor|]. by repeat constructor.
Qed.

Lemma tie_ltb_cmp a b : ordered_item a → ordered_item b →
  tie_ltb pol a b = bool_decide (tuple_cmp (tie_break_sort_key pol a) (tie_break_sort_key pol b) = Lt).
Proof. intros Ha Hb. by apply tuple_ltb_cmp, tie_keys_comparable. Qed.

Lemma tie_ltb_ge a b : ordered_item a → ordered_item b →
  tie_ltb pol b a = false ↔ tuple_cmp (tie_break_sort_key pol a) (tie_break_sort_key pol b) ≠ Gt.
Proof.
  intros Ha Hb. rewrite tie_ltb_cmp by done.
  rewrite (tuple_cmp_antisym (tie_break_sort_key pol a)) by by apply tie_keys_comparable.
  rewrite bool_decide_eq_false. by destruct (tuple_cmp _ _).
Qed.

Lemma tie_sorted l : Forall ordered_item l →
  StronglySorted (λ x y, tie_ltb pol y x = false) (isort (tie_ltb pol) l).
Proof.
  apply isort_sorted.
  - intros x y Hx Hy. rewrite tie_ltb_ge, tie_ltb_cmp by done.
    intros E%bool_decide_eq_true. by rewrite E.
  - intros x y z Hx Hy Hz. rewrite !tie_ltb_ge by done.
    apply tuple_cmp_le_trans; by apply tie_keys_comparable.
Qed.

Lemma slice_to_split {A} (k : Z) (l : list A) : ∃ n, slice_to k l = take n l ∧ l = take n l ++ drop n l.
Proof. eexists. split; [reflexivity|]. by rewrite take_drop. Qed.

(** The limit on the number of winners for one symbol. *)
Definition quota (n : nat) : nat :=
  if String.eqb (selection_mode pol) "select_many"
  then match max_selected_per_symbol pol with Some m => Nat.min n (Z.to_nat m) | None => n end
  else Nat.min n 1.

Lemma slice_keep_length {A} (l : list A) :
  (∀ m, max_selected_per_symbol pol = Some m → 0 ≤ m) →
  length (slice_to (keep_count pol (Z.of_nat (length l))) l) = quota (length l).
Proof.
  intros Hm. unfold slice_to, keep_count, quota. rewrite length_take.
  destruct (String.eqb _ _); [destruct (max_selected_per_symbol pol) as [m|]; [specialize (Hm m eq_refl)|]|];
    destruct (Z.ltb_spec 0 0); try lia;
    match goal with |- context [if ?b then _ else _] => destruct b eqn:? end; lia.
Qed.

(** For one symbol the selection keeps as many accepted candidates as the
    policy allows (one, or all up to the limit), and the kept ones are the best:
    no accepted candidate that was left out comes strictly before a kept one in
    the tie-break order. Scores and weights must be numbers. *)
Theorem selection_keeps_the_best (ev : list EvaluatedCandidate)
    (Hm : ∀ m, max_selected_per_symbol pol = Some m → 0 ≤ m)
    (Ho : Forall ordered_item (List.filter is_accepted ev)) :
  ∃ kept dropped,
    List.filter is_accepted ev ≡ₚ kept ++ dropped ∧
    (select_symbol pol ev).1 = e_candidate <$> kept ∧
    length kept = quota (length (List.filter is_accepted ev)) ∧
    ∀ k d, k ∈ kept → d ∈ dropped → tie_ltb pol d k = false.
Proof.
  unfold select_symbol. destruct (List.filter is_accepted ev) as [|a l] eqn:E.
  { exists [], []. split; [done|]. split; [done|]. split.
    - unfold quota. cbn. destruct (String.eqb _ _); [destruct (max_selected_per_symbol pol)|]; done.
    - by intros k d ?%elem_of_nil. }
  set (srt := isort (tie_ltb pol) (a :: l)).
  destruct (slice_to_split (keep_count pol (Z.of_nat (length srt))) srt) as (n & Hn & Hs).
  exists (take n srt), (drop n srt). cbn [fst]. split; [|split; [by rewrite Hn|split]].
  - rewrite take_drop. symmetry. apply isort_perm.
  - rewrite <- Hn, slice_keep_length by done. unfold srt. by rewrite isort_length.
  - pose proof (tie_sorted (a :: l) Ho) as Hsort. fold srt in Hsort. rewrite Hs in Hsort.
    intros k d Hk Hd. apply StronglySorted_app in Hsort as [Hsort _]. by apply Hsort.
Qed.
End selection.

(** * Allocation *)

Section allocation.
Variable pol : StrategyAllocationPolicy.

Lemma group_add_perm s c groups : concat (group_add s c groups).*2 ≡ₚ c :: concat groups.*2.
Proof.
  induction groups as [|[s' l] rest IH]; cbn; [done|]. destruct (String.eqb s' s); cbn.
  - rewrite <- app_assoc. cbn. by rewrite Permutation_middle.
  - rewrite IH. by rewrite Permutation_middle.
Qed.

Lemma by_symbol_perm l : concat (by_symbol l).*2 ≡ₚ l.
Proof.
  unfold by_symbol. rewrite isort_perm.
  cut (∀ g, concat (fold_left (λ g c, group_add (signal_symbol (signal c)) c g) l g).*2 ≡ₚ concat g.*2 ++ l).
  { intros H. by rewrite H. }
  induction l as [|c l IH]; intros g; cbn [fold_left]; [by rewrite app_nil_r|].
  rewrite IH, group_add_perm. cbn. by rewrite Permutation_middle.
Qed.

Lemma evaluate_candidate_of c ctx e :
  evaluate_candidate pol c ctx = Ok e → e_candidate e = c.
Proof.
  unfold evaluate_candidate. cbn zeta. intros H.
  repeat first
    [ injection H as <-; reflexivity
    | discriminate H
    | let x := fresh "x" in let E := fresh "E" in apply bind_ok in H as (x & E & H); clear E
    | case_match_in H ].
Qed.

Lemma evaluated_candidates l ctx ev :
  mapM_res (λ c, evaluate_candidate pol c ctx) l = Ok ev → e_candidate <$> ev = l.
Proof.
  intros H%mapM_res_Forall2. induction H as [|c e l ev He _ IH]; [done|].
  cbn. by rewrite (evaluate_candidate_of c ctx e He), IH.
Qed.

Definition outcome_matches (o : AllocationOutcome) : Prop := o_decision o = "accept" ↔ o_selected o = true.

Lemma decision_accept sel reason : decision_from_reason sel reason = "accept" ↔ sel = true.
Proof. unfold decision_from_reason. destruct sel; [done|]. by repeat case_match_goal. Qed.

Lemma accepted_split ev :
  (∀ e, e ∈ ev → e_accepted e = is_accepted e) →
  List.filter is_accepted ev ++ List.filter (λ e, negb (e_accepted e)) ev ≡ₚ ev.
Proof.
  induction ev as [|e ev IH]; intros Ha; [done|]. cbn [List.filter].
  rewrite <- (Ha e) by left. destruct (e_accepted e); cbn [negb app].
  - rewrite IH; [done|]. intros; apply Ha; by right.
  - rewrite <- Permutation_middle, IH; [done|]. intros; apply Ha; by right.
Qed.

Lemma accepted_has_score c ctx e :
  evaluate_candidate pol c ctx = Ok e → e_accepted e = is_accepted e.
Proof.
  unfold evaluate_candidate, is_accepted. cbn zeta. intros H.
  repeat first
    [ injection H as <-; cbn; rewrite ?andb_true_r; reflexivity
    | discriminate H
    | let x := fresh "x" in let E := fresh "E" in apply bind_ok in H as (x & E & H); clear E
    | case_match_in H ].
Qed.

Lemma select_symbol_sub ev : (select_symbol pol ev).1 ⊆+ e_candidate <$> ev.
Proof.
  unfold select_symbol. destruct (List.filter is_accepted ev) as [|a l] eqn:E; cbn [fst].
  { apply submseteq_nil_l. }
  apply fmap_submseteq. unfold slice_to. etrans; [apply sublist_submseteq, sublist_take|].
  rewrite isort_perm, <- E. clear E. apply sublist_submseteq.
  induction ev as [|e ev IH]; cbn; [done|]. destruct (is_accepted e); by constructor.
Qed.

Lemma select_symbol_accepted ev c :
  c ∈ (select_symbol pol ev).1 → ∃ e, e ∈ ev ∧ e_candidate e = c ∧ is_accepted e = true.
Proof.
  unfold select_symbol. destruct (List.filter is_accepted ev) as [|a l] eqn:E; cbn [fst].
  { by intros ?%elem_of_nil. }
  rewrite list_elem_of_fmap. intros (e & -> & He). exists e.
  assert (e ∈ List.filter is_accepted ev) as Hin.
  { rewrite E, <- (isort_perm (tie_ltb pol)). by eapply elem_of_take in He as (? & ? & _); eapply list_elem_of_lookup_2. }
  rewrite list_elem_of_In, filter_In, <- list_elem_of_In in Hin. naive_solver.
Qed.

Lemma build_outcome_matches e sel r bs rp : outcome_matches (build_outcome e sel r bs rp).
Proof. apply decision_accept. Qed.

Lemma select_symbol_outcomes ev :
  (∀ e, e ∈ ev → e_accepted e = is_accepted e) →
  o_strategy_id <$> (select_symbol pol ev).2 ≡ₚ strategy_id <$> (e_candidate <$> ev) ∧
  Forall outcome_matches (select_symbol pol ev).2.
Proof.
  intros Ha. unfold select_symbol. destruct (List.filter is_accepted ev) as [|a l] eqn:E; cbn [snd].
  - rewrite <- !list_fmap_compose. split; [done|].
    apply Forall_fmap, Forall_true. intros e. apply build_outcome_matches.
  - rewrite fmap_app, <- !list_fmap_compose. split.
    + etrans; [|apply fmap_Permutation, (accepted_split ev Ha)]. rewrite E, fmap_app.
      apply Permutation_app; [|done]. etrans; [|apply fmap_Permutation, (isort_perm (tie_ltb pol))].
      apply reflexive_eq, list_fmap_ext. intros i e _. cbn. by destruct (bool_decide _).
    + apply Forall_app. split; apply Forall_fmap, Forall_true; intros e; cbn;
        [destruct (bool_decide _)|]; apply build_outcome_matches.
Qed.

Lemma part_of ctx g part :
  (ev ← mapM_res (λ c, evaluate_candidate pol c ctx) g; Ok (select_symbol pol ev)) = Ok part →
  ∃ ev, mapM_res (λ c, evaluate_candidate pol c ctx) g = Ok ev ∧ part = select_symbol pol ev ∧
    e_candidate <$> ev = g ∧ (∀ e, e ∈ ev → e_accepted e = is_accepted e ∧ evaluate_candidate pol (e_candidate e) ctx = Ok e).
Proof.
  intros (ev & Hev & [= <-])%bind_ok. exists ev. split; [done|]. split; [done|].
  split; [by eapply evaluated_candidates|].
  intros e He. apply mapM_res_Forall2 in Hev. apply list_elem_of_lookup in He as [i Hi].
  destruct (Forall2_lookup_r _ _ _ _ _ Hev Hi) as (c & _ & Hc).
  pose proof (evaluate_candidate_of c ctx e Hc) as ->. split; [by eapply accepted_has_score|done].
Qed.

(** Nothing is lost and nothing is invented: a completed allocation reports
    exactly one outcome per candidate, selects each candidate object at most as
    often as it was offered, and an outcome's decision is "accept" exactly when
    it is selected. *)
Theorem allocate_accounts_for_all (cs : list AllocationCandidate) (ctx : AllocationContext)
    (r : AllocationResult) (Hr : allocate pol cs ctx = Ok r) :
  o_strategy_id <$> outcomes r ≡ₚ strategy_id <$> cs ∧ selected r ⊆+ cs ∧
  Forall outcome_matches (outcomes r).
Proof.
  unfold allocate in Hr. destruct cs as [|c0 cs0]; [by injection Hr as <-|].
  set (cs := c0 :: cs0) in *. destruct (is_pass_through pol).
  - apply bind_ok in Hr as (outs & Ho & [= <-]). cbn [outcomes selected]. apply mapM_res_Forall2 in Ho.
    assert (o_strategy_id <$> outs = strategy_id <$> cs ∧ Forall outcome_matches outs) as [-> ?]; [|done].
    induction Ho as [|c o l l' Hc _ [IH1 IH2]]; [done|]. unfold pass_through_outcome in Hc.
    apply bind_ok in Hc as (s & _ & Hc). apply bind_ok in Hc as (x & _ & [= <-]).
    cbn. rewrite IH1. split; [done|]. by constructor.
  - apply bind_ok in Hr as (parts & Hp & [= <-]). cbn [outcomes selected]. apply mapM_res_Forall2 in Hp.
    assert (concat (by_symbol cs).*2 ≡ₚ cs) as Hcs by apply by_symbol_perm.
    rewrite <- Hcs. clear Hcs. induction Hp as [|g part gs parts Hg _ (IH1 & IH2 & IH3)]; [done|].
    destruct (part_of ctx g.2 part Hg) as (ev & _ & -> & Hev & Hacc).
    destruct (select_symbol_outcomes ev) as [H1 H2]; [by intros e He; apply Hacc|].
    rewrite !fmap_cons. cbn [concat]. rewrite !fmap_app. split_and!.
    + by rewrite H1, Hev, IH1.
    + apply submseteq_app; [|done]. rewrite <- Hev. apply select_symbol_sub.
    + by apply Forall_app.
Qed.

Lemma selected_accepted cs ctx r c :
  is_pass_through pol = false → allocate pol cs ctx = Ok r → c ∈ selected r →
  ∃ e, evaluate_candidate pol c ctx = Ok e ∧ e_candidate e = c ∧ is_accepted e = true.
Proof.
  intros Hpt Hr. unfold allocate in Hr. destruct cs as [|c0 cs0]; [injection Hr as <-; by intros ?%elem_of_nil|].
  rewrite Hpt in Hr. apply bind_ok in Hr as (parts & Hp & [= <-]). cbn [selected]. apply mapM_res_Forall2 in Hp.
  rewrite list_elem_of_In, in_concat. intros (part & Hpart%list_elem_of_In & Hc%list_elem_of_In).
  apply list_elem_of_fmap in Hpart as (part' & -> & Hpart).
  apply list_elem_of_lookup in Hpart as [i Hi].
  destruct (Forall2_lookup_r _ _ _ _ _ Hp Hi) as (g & _ & Hg).
  destruct (part_of ctx g.2 part' Hg) as (ev & _ & -> & _ & Hacc).
  destruct (select_symbol_accepted ev c Hc) as (e & He & <- & ?).
  exists e. split; [by apply Hacc|done].
Qed.

(** Only offered candidates are selected. *)
Lemma selected_offered cs ctx r c : is_pass_through pol = false → allocate pol cs ctx = Ok r → c ∈ selected r → c ∈ cs.
Proof.
  intros Hpt Hr Hc. unfold allocate in Hr. destruct cs as [|c0 cs0]; [by injection Hr as <-|]. set (cs := c0 :: cs0) in *.
  rewrite Hpt in Hr. apply bind_ok in Hr as (parts & Hp & [= <-]). cbn [selected] in Hc. apply mapM_res_Forall2 in Hp.
  rewrite <- (by_symbol_perm cs). induction Hp as [|g part gs parts Hg _ IH]; [done|]. cbn in Hc |- *.
  apply elem_of_app in Hc as [Hc|Hc]; [|apply elem_of_app; right; by apply IH]. apply elem_of_app. left.
  destruct (part_of ctx g.2 part Hg) as (ev & _ & -> & <- & _). by eapply elem_of_submseteq, select_symbol_sub.
Qed.
End allocation.

(** * What a selected candidate has passed *)

Section admission.
Variable pol : StrategyAllocationPolicy.

Record admissible (c : AllocationCandidate) (ctx : AllocationContext) (cfg : dict) : Prop := {
  adm_configured : match dlookup (strategy_id c) (strategy_config pol) with
    | Some d => cfg = d
    | None => cfg = [] ∧ truthy (dget_or "require_strategy_config" (VBool true) (global_config pol)) = false
    end;
  adm_enabled : truthy (dget_or "enabled" (VBool true) cfg) = true;
  adm_kill_switch : ∃ states, blocked_states (resolve_hard_filters pol cfg) = Ok states ∧
    let ks := normalize_text (VStr (kill_switch_state ctx)) in ks = "" ∨ ks ∉ states;
  adm_board : board_mode_ok (resolve_hard_filters pol cfg) (board_mode ctx) = true;
  adm_session : hour_in_ranges (dt_hour (now ctx)) (session_ranges (resolve_hard_filters pol cfg)) = true;
  adm_spread : ∃ spread slippage spread_max score floor,
    extract_cost_estimate (parameters c) = Ok (spread, slippage) ∧
    coerce_float (dget "spread_max" (resolve_hard_filters pol cfg)) (of_Z (-1)) = Ok spread_max ∧
    (fleb fzero spread_max = true → fltb spread_max spread = false) ∧
    compute_score pol c cfg ctx spread slippage = Ok score ∧ min_score pol cfg = Ok floor ∧
    fltb score floor = false;
  adm_positions : resolve_active_position_conflict pol c ctx cfg = Ok None
}.

Lemma accepted_admissible c ctx e :
  evaluate_candidate pol c ctx = Ok e → is_accepted e = true → ∃ cfg, admissible c ctx cfg.
Proof.
  unfold evaluate_candidate. cbn zeta. intros H Ha.
  assert (∀ e', e_accepted e' = false → Ok e' = Ok e → False) as reject.
  { intros e' Hf [= ->]. unfold is_accepted in Ha. by rewrite Hf in Ha. }
  destruct (dlookup (strategy_id c) (strategy_config pol)) as [cfg|] eqn:Ec;
    [exists cfg | destruct (truthy (dget_or "require_strategy_config" _ _)) eqn:Er; [by apply reject in H|]; exists []]; cbn [default from_option id] in H.
  all: apply bind_ok in H as (g & _ & H); apply bind_ok in H as (b & _ & H); apply bind_ok in H as (sl & _ & H).
  all: destruct (truthy (dget_or "enabled" _ _)) eqn:Een; cbn [negb] in H; [|by apply reject in H].
  all: apply bind_ok in H as (states & Est & H).
  all: destruct (truthy (normalize_text (VStr (kill_switch_state ctx))) && _) eqn:Eks; [by apply reject in H|].
  all: destruct (board_mode_ok _ _) eqn:Eb; cbn [negb] in H; [|by apply reject in H].
  all: apply bind_ok in H as ([spread slippage] & Ecost & H).
  all: apply bind_ok in H as (cost & _ & H); apply bind_ok in H as (smax & Esm & H).
  all: destruct (fgeb smax fzero && fgtb spread smax) eqn:Esp; [by apply reject in H|].
  all: destruct (hour_in_ranges _ _) eqn:Eh; cbn [negb] in H; [|by apply reject in H].
  all: apply bind_ok in H as ([[[reason bs] bp]|] & Econf & H); [by apply reject in H|].
  all: apply bind_ok in H as (score & Escore & H); apply bind_ok in H as (floor & Efl & H).
  all: injection H as <-; unfold is_accepted in Ha; cbn in Ha; rewrite andb_true_r in Ha; apply negb_true_iff in Ha.
  all: split; [by rewrite Ec| |exists states; split; [done|]|done|done| |done]; try done.
  all: try (exists spread, slippage, smax, score, floor; split_and!; try done;
    unfold fgeb, fgtb in Esp; intros Hge; rewrite Hge in Esp; done).
  all: apply andb_false_iff in Eks as [Eks|Eks];
    [left; apply negb_false_iff, String.eqb_eq in Eks; done | right; by apply str_in_false].
Qed.


(** The default kill switch: when no configuration lists blocked states of
    its own, a "soft_stop", "hard_stop" or "triggered" kill switch (in any case,
    with any surrounding blanks) lets no candidate through. *)
Theorem kill_switch_selects_nothing (cs : list AllocationCandidate) (ctx : AllocationContext)
    (r : AllocationResult) (Hpt : is_pass_through pol = false) (Hr : allocate pol cs ctx = Ok r)
    (Hks : normalize_text (VStr (kill_switch_state ctx)) ∈ ["soft_stop"; "hard_stop"; "triggered"])
    (Hcfg : ∀ id, dmem "kill_switch_blocked_states" (merged_cfg pol "hard_filters" (cfg_of pol id)) = false) :
  selected r = [].
Proof.
  destruct (selected r) as [|c l] eqn:El; [done|exfalso].
  destruct (selected_accepted pol cs ctx r c Hpt Hr) as (e & He & _ & Ha); [rewrite El; by left|].
  destruct (accepted_admissible c ctx e He Ha) as [cfg [Hc _ (states & Hs & Hn) _ _ _ _]].
  assert (cfg = cfg_of pol (strategy_id c)) as ->.
  { unfold cfg_of. destruct (dlookup _ _); [done|]. by destruct Hc as [-> _]. }
  unfold resolve_hard_filters in Hs. rewrite Hcfg in Hs.
  unfold blocked_states, dget_or in Hs. rewrite dlookup_dset_eq in Hs. cbn in Hs. injection Hs as <-.
  destruct Hn as [Hn|Hn]; [|done].
  rewrite Hn in Hks. by repeat (apply elem_of_cons in Hks as [Hks|Hks]); try apply elem_of_nil in Hks.
Qed.
End admission.

(** * Open positions and session hours *)

(** What a limit and a policy allow among the matching positions. *)
Definition within (limit : option Z) (policy : string) (l : list AllocationActivePosition) : Prop :=
  (∀ n, limit = Some n → matches l < n) ∧
  (policy = "block" ∨ policy = "defer" → l = []).

Lemma limit_conflict_none limit policy kind l :
  limit_conflict limit policy kind l = None ↔ within limit policy l.
Proof.
  unfold limit_conflict, within, conflict_with.
  destruct (match limit with Some n => n <=? matches l | None => false end) eqn:El.
  { split; [done|]. intros [Hn _]. destruct limit as [n|]; [|done]. specialize (Hn n eq_refl).
    to_props. lia. }
  assert (∀ n, limit = Some n → matches l < n) as Hlim.
  { intros n ->. to_props. lia. }
  destruct (0 <? matches l) eqn:Em; to_props.
  - assert (l ≠ []) as Hne by by intros ->.
    destruct (String.eqb_spec policy "block") as [->|H1]; [split; [done|intros [_ H]; by destruct Hne; auto]|].
    destruct (String.eqb_spec policy "defer") as [->|H2]; [split; [done|intros [_ H]; by destruct Hne; auto]|].
    split; [|done]. intros _. split; [done|]. by intros [?|?].
  - split; [|done]. intros _. split; [done|]. intros _. unfold matches in Em. destruct l; [done|]. cbn in Em; lia.
Qed.

Section positions.
Variable pol : StrategyAllocationPolicy.

(** A candidate is free of conflicts exactly when, for each of the three
    ways a position can match it (symbol, group, exposure bucket), the matches
    stay below the configured limit and a "block" or "defer" policy finds none. *)
Theorem no_conflict_iff (c : AllocationCandidate) (ctx : AllocationContext) (cfg : dict)
    (Hp : open_positions ctx ≠ []) :
  let p := resolve_portfolio_cfg pol cfg in
  resolve_active_position_conflict pol c ctx cfg = Ok None ↔
  within None (policy_text p "active_symbol_policy") (symbol_matching c ctx) ∧
  ∃ groups buckets, group_matching pol c ctx cfg = Ok groups ∧ exposure_matching pol c ctx cfg = Ok buckets ∧
    within (positive_int_or_none (dget "max_active_per_group" p)) (policy_text p "active_group_policy") groups ∧
    within (positive_int_or_none (dget "max_active_per_exposure_bucket" p))
      (policy_text p "active_exposure_policy") buckets.
Proof.
  cbn zeta. unfold resolve_active_position_conflict. destruct (open_positions ctx) as [|q qs]; [done|]. clear Hp.
  rewrite <- (limit_conflict_none _ _ "symbol"). cbn zeta.
  destruct (limit_conflict None _ "symbol" _) as [r|]; [split; [done|by intros [? _]]|].
  rewrite bind_ok. split.
  - intros (groups & Hg & H). split; [done|].
    destruct (limit_conflict _ _ "group" groups) as [r|] eqn:El; [done|].
    apply bind_ok in H as (buckets & Hb & [= H]). exists groups, buckets.
    apply limit_conflict_none in El, H. done.
  - intros (_ & groups & buckets & Hg & Hb & Hl & Hl'). exists groups. split; [done|].
    apply (limit_conflict_none _ _ "group") in Hl as ->. apply bind_ok. exists buckets. split; [done|].
    by apply (limit_conflict_none _ _ "exposure") in Hl' as ->.
Qed.
End positions.

(** A session range is a stretch of the clock face: an hour is inside
    [(start, stop)] exactly when it is reached from [start] no later than
    [stop], counting hours modulo 24, so a range may run over midnight. *)
Theorem hour_in_range_modular (hour start stop : Z)
    (Hh : 0 <= hour <= 23) (Hs : 0 <= start <= 23) (He : 0 <= stop <= 23) :
  hour_in_range hour (start, stop) = ((hour - start) mod 24 <=? (stop - start) mod 24).
Proof.
  unfold hour_in_range. apply eq_bool_prop_intro.
  rewrite !orb_True, !andb_True, !Is_true_true, !Z.leb_le, Z.ltb_lt. zdiv.
Qed.

Lemma hour_in_range_modular_witness :
  hour_in_range 2 (22, 6) = true ∧ ((2 - 22) mod 24 <=? (6 - 22) mod 24) = true.
Proof. split; [rewrite (hour_in_range_modular 2 22 6) by lia; reflexivity | reflexivity]. Defined.

(** * Scores that are not numbers *)

(** A score that is NaN passes the minimum: every evaluation that computes
    one accepts the candidate, because the code only rejects [score < min_score]. *)
Theorem nan_score_is_accepted (pol : StrategyAllocationPolicy) (c : AllocationCandidate) (ctx : AllocationContext)
    (e : EvaluatedCandidate) (s : float) (He : evaluate_candidate pol c ctx = Ok e)
    (Hs : e_score e = Some s) (Hn : is_nan s = true) : e_accepted e = true.
Proof.
  revert He. unfold evaluate_candidate. cbn zeta. intros H.
  repeat first
    [ discriminate H
    | injection H as <-; cbn in Hs; first [discriminate Hs | injection Hs as ->; destruct s; try done; by rewrite fltb_nan_l]
    | let x := fresh "x" in let E := fresh "E" in apply bind_ok in H as (x & E & H)
    | case_match_in H ].
Qed.

Definition sample_policy : StrategyAllocationPolicy :=
  Policy "hybrid" default_rules "select_one" None
    [("score", VDict [("min_score", VFloat (of_dec 5 (-1)))]);
     ("portfolio", VDict [("group", VStr "fx_{base_lower}"); ("active_group_policy", VStr "block")])]
    [("alpha", []); ("beta", [("portfolio", VDict [("group", VStr "metals")])])] None.

Definition sample_signal (symbol : pyval) (score : pyval) : Signal := MkSignal symbol (VStr "long") score VNone VNone.
Definition sample_trade (edge : option float) : CandidateTrade :=
  Trade "t1" "alpha" "EURUSD" "buy" "2026-03-20T08:00:00Z" None None None None None "" "" edge
    None None None None None None None [].
Definition alpha_candidate : AllocationCandidate :=
  Candidate 1 "alpha" (sample_signal (VStr "EURUSD") (VFloat (of_dec 9 (-1)))) 1 (of_Z 1) [] None.
Definition beta_candidate : AllocationCandidate :=
  Candidate 2 "beta" (sample_signal (VStr "EURUSD") (VFloat (of_dec 8 (-1)))) 2 (of_Z 1) [] None.
Definition nan_candidate : AllocationCandidate :=
  Candidate 3 "alpha" (sample_signal (VStr "EURUSD") VNone) 1 (of_Z 1) [] (Some (sample_trade (Some S754_nan))).
Definition sample_context (ks : string) (ps : list AllocationActivePosition) : AllocationContext :=
  AllocCtx (DateTime 2026 3 20 8 0 0 0 (Some 0)) "normal" ks None ps.
Definition usd_position : AllocationActivePosition := Position "alpha" "USDJPY" "long" None "p1" "" "".
Definition eur_position : AllocationActivePosition := Position "alpha" "EURGBP" "long" None "p2" "" "".

Lemma nan_score_is_accepted_witness :
  ∃ e, evaluate_candidate sample_policy nan_candidate (sample_context "none" []) = Ok e ∧
    e_score e = Some S754_nan ∧ e_accepted e = true.
Proof.
  eexists. split; [vm_compute; reflexivity|]. split; [reflexivity|].
  apply (nan_score_is_accepted sample_policy nan_candidate (sample_context "none" []) _ S754_nan);
    [vm_compute; reflexivity | reflexivity | reflexivity].
Defined.

Definition sample_evaluated : list EvaluatedCandidate :=
  match mapM_res (λ c, evaluate_candidate sample_policy c (sample_context "none" [])) [beta_candidate; alpha_candidate] with
  | Ok l => l | Raise _ => [] end.

Lemma selection_keeps_the_best_witness :
  ∃ kept dropped, List.filter is_accepted sample_evaluated ≡ₚ kept ++ dropped ∧
    (select_symbol sample_policy sample_evaluated).1 = e_candidate <$> kept ∧ length kept = 1%nat.
Proof.
  destruct (selection_keeps_the_best sample_policy sample_evaluated) as (k & d & Hp & Hs & Hl & _).
  - intros m Hm. discriminate Hm.
  - repeat (first [constructor | vm_compute; eexists; split; reflexivity]); vm_compute; try reflexivity;
      eexists; split; reflexivity.
  - exists k, d. split; [exact Hp|]. split; [exact Hs|]. rewrite Hl. vm_compute. reflexivity.
Defined.

Lemma allocate_accounts_for_all_witness :
  ∃ r, allocate sample_policy [beta_candidate; alpha_candidate] (sample_context "none" []) = Ok r ∧
    o_strategy_id <$> outcomes r ≡ₚ ["beta"; "alpha"] ∧ selected r ⊆+ [beta_candidate; alpha_candidate].
Proof.
  destruct (allocate sample_policy [beta_candidate; alpha_candidate] (sample_context "none" [])) as [r|] eqn:E;
    [|vm_compute in E; discriminate E].
  destruct (allocate_accounts_for_all sample_policy _ _ r E) as (H1 & H2 & _).
  exists r. split; [reflexivity|]. split; [exact H1|exact H2].
Defined.


Lemma kill_switch_selects_nothing_witness :
  ∃ r, allocate sample_policy [beta_candidate; alpha_candidate] (sample_context " Hard_Stop " []) = Ok r ∧ selected r = [].
Proof.
  destruct (allocate sample_policy [beta_candidate; alpha_candidate] (sample_context " Hard_Stop " [])) as [r|] eqn:E;
    [|vm_compute in E; discriminate E].
  exists r. split; [reflexivity|].
  apply (kill_switch_selects_nothing sample_policy _ _ r eq_refl E).
  - vm_compute. right. left.
  - intros id. unfold cfg_of, sample_policy. cbn [strategy_config dlookup].
    destruct (String.eqb id "alpha"); [reflexivity|]. destruct (String.eqb id "beta"); reflexivity.
Defined.

Lemma no_conflict_iff_witness :
  resolve_active_position_conflict sample_policy alpha_candidate (sample_context "none" [usd_position]) [] = Ok None ∧
  resolve_active_position_conflict sample_policy alpha_candidate (sample_context "none" [eur_position]) [] ≠ Ok None.
Proof.
  split; [|vm_compute; discriminate].
  apply no_conflict_iff; [discriminate|]. split; [by split|].
  exists [], []. split; [vm_compute; reflexivity|]. split; [vm_compute; reflexivity|]. by repeat split.
Defined.
