(* ===== verification/RateLimit.v ===== *)
(** The broker API rate limiter of [src/brokers/monitor.py]: configuration, the
    token window with its credit for high-priority calls, the waiting queue and
    the records it writes. *)

From S2P Require Import Prelude PyFloat PyVal PyEnv.

Local Open Scope Z_scope.
Local Open Scope py_scope.

(** * Data *)

Record RateLimitConfig := Config {
  burst : Z; sustained_per_min : Z; reset_sec : Z; priority_rules : list (string * string);
  max_queue_sec : Z }.

Definition from_payload (payload : dict) : res RateLimitConfig :=
  b ← py_int (dget_or "burst" (VInt 30) payload);
  s ← py_int (dget_or "sustained_per_min" (VInt 60) payload);
  r ← py_int (dget_or "reset_sec" (VInt 60) payload);
  rules ← (match dget "priority_rules" payload or? VDict [] with
    | VDict d => Ok (fold_left (λ m kv, dset kv.1 (py_str kv.2) m) d [])
    | _ => Raise (AttributeError "items") end);
  q ← py_int (dget_or "max_queue_sec" (VInt 120) payload);
  Ok (Config b s r rules q).

(** [load_rate_limit_window] on the parsed YAML file; [None] is a missing file. *)
Definition load_config (yaml : option pyval) : res RateLimitConfig :=
  let payload := default (VDict []) yaml or? VDict [] in
  match (match payload with VDict p => dget "rate_limit" p | _ => VDict [] end) or? VDict [] with
  | VDict d => from_payload d
  | _ => Raise (AttributeError "get")
  end.

(** A token count: [min] of an [int] burst and a [float] yields either. *)
Inductive num := NInt (z : Z) | NFloat (x : float).

Definition num_float (n : num) : float := match n with NInt z => of_Z z | NFloat x => x end.
Definition num_ge1 (n : num) : bool := match n with NInt z => 1 <=? z | NFloat x => fgeb x (of_Z 1) end.
Definition num_pred (n : num) : num := match n with NInt z => NInt (z - 1) | NFloat x => NFloat (fsub x (of_Z 1)) end.
Definition num_round2 (n : num) : pyval := match n with NInt z => VInt z | NFloat x => VFloat (fround x 2) end.

(** [min(burst, x)] and [min(n, float(burst))]; the first wins a tie. *)
Definition min_burst (b : Z) (x : float) : num := if fltb x (of_Z b) then NFloat x else NInt b.
Definition cap_tokens (b : Z) (n : num) : num := if fltb (of_Z b) (num_float n) then NFloat (of_Z b) else n.

Record RateLimitReservation := Reservation {
  allowed : bool; wait_sec : float; queue_wait_ms : float; res_priority : string;
  tokens_left : num; queued : bool; res_queue_depth : Z }.

Record RateLimitQueueEntry := Entry { q_operation : string; q_priority : string; enqueued_at : float }.

Record RateLimitWindow := Window {
  config : RateLimitConfig; tokens : num; last_refill : float; queue : list RateLimitQueueEntry;
  credit_used : Z; ticks : nat; rw_world : world }.

#[export] Instance window_has_world : HasWorld RateLimitWindow.
Proof.
  refine {| wget := rw_world;
    wset := λ w r, Window (config r) (tokens r) (last_refill r) (queue r) (credit_used r) (ticks r) w |};
    by try intros [].
Defined.

Definition credit_limit : Z := 1.
Definition METRICS : string := "metrics/broker_rate_limit.jsonl".

Definition set_config (c : RateLimitConfig) (r : RateLimitWindow) : RateLimitWindow :=
  Window c (tokens r) (last_refill r) (queue r) (credit_used r) (ticks r) (rw_world r).
Definition set_tokens (t : num) (r : RateLimitWindow) : RateLimitWindow :=
  Window (config r) t (last_refill r) (queue r) (credit_used r) (ticks r) (rw_world r).
Definition set_last_refill (x : float) (r : RateLimitWindow) : RateLimitWindow :=
  Window (config r) (tokens r) x (queue r) (credit_used r) (ticks r) (rw_world r).
Definition set_queue (q : list RateLimitQueueEntry) (r : RateLimitWindow) : RateLimitWindow :=
  Window (config r) (tokens r) (last_refill r) q (credit_used r) (ticks r) (rw_world r).
Definition set_credit (c : Z) (r : RateLimitWindow) : RateLimitWindow :=
  Window (config r) (tokens r) (last_refill r) (queue r) c (ticks r) (rw_world r).
Definition set_ticks (n : nat) (r : RateLimitWindow) : RateLimitWindow :=
  Window (config r) (tokens r) (last_refill r) (queue r) (credit_used r) n (rw_world r).

(** * Operations *)

Section window.
Context `{Env}.

(** The injected clock [time_fn], by the number of the reading. *)
Variable time_at : nat → float.

Definition time_fn : M RateLimitWindow float := λ r, (Ok (time_at (ticks r)), set_ticks (1 + ticks r) r).

Definition window_init (c : RateLimitConfig) (w : world) : RateLimitWindow :=
  Window c (NFloat (of_Z (burst c))) (time_at 0) [] 0 1 w.

Definition prune_queue : M RateLimitWindow unit :=
  q ← gets queue;
  if negb (truthy q) then mret tt
  else
    now ← time_fn;
    modify (λ r, set_queue
      (List.filter (λ e, fleb (fsub now (enqueued_at e)) (of_Z (Z.max (max_queue_sec (config r)) 1))) (queue r)) r).

Definition queue_depth : M RateLimitWindow Z := _ ← prune_queue; gets (λ r, Z.of_nat (length (queue r))).

Fixpoint snapshot_entries (q : list RateLimitQueueEntry) : M RateLimitWindow (list dict) :=
  match q with
  | [] => mret []
  | e :: q =>
      now ← time_fn;
      rest ← snapshot_entries q;
      mret ([("operation", VStr (q_operation e)); ("priority", VStr (q_priority e));
             ("queued_for_sec", VFloat (fround (fsub now (enqueued_at e)) 2))] :: rest)
  end.
Definition queue_snapshot : M RateLimitWindow (list dict) :=
  _ ← prune_queue; q ← gets queue; snapshot_entries q.

Definition refill_tokens : M RateLimitWindow unit :=
  now ← time_fn;
  r ← get;
  let elapsed := fmax (fsub now (last_refill r)) fzero in
  let rate := fdiv_ieee (of_Z (sustained_per_min (config r))) (of_Z 60) in
  _ ← modify (set_tokens (min_burst (burst (config r)) (fadd (num_float (tokens r)) (fmul elapsed rate))));
  _ ← when (fgeb elapsed (of_Z (reset_sec (config r)))) (modify (set_last_refill now));
  t ← gets tokens;
  when (num_ge1 t) (modify (set_credit 0)).

Definition tokens_remaining : M RateLimitWindow num := _ ← refill_tokens; gets tokens.

Definition priority_for (r : RateLimitWindow) (operation : string) : string :=
  default "medium" (dlookup operation (priority_rules (config r))).

Definition append_metrics (operation : string) (v : RateLimitReservation) (credit : bool) (event : string)
    : M RateLimitWindow unit :=
  ts ← utcnow_iso;
  t ← gets tokens;
  depth ← queue_depth;
  append_jsonl METRICS (VDict [("ts", VStr ts); ("event", VStr event); ("operation", VStr operation);
    ("priority", VStr (res_priority v)); ("allowed", VBool (allowed v)); ("wait_sec", VFloat (fround (wait_sec v) 2));
    ("queue_wait_ms", VFloat (queue_wait_ms v)); ("tokens_remaining", num_round2 t); ("queue_depth", VInt depth);
    ("credit_used", VBool credit)]).

(** An allowed reservation: one token is taken and the grant recorded. *)
Definition grant (operation priority : string) (credit : bool) : M RateLimitWindow RateLimitReservation :=
  _ ← modify (λ r, set_tokens (num_pred (tokens r)) r);
  t ← gets tokens;
  depth ← queue_depth;
  let v := Reservation true fzero fzero priority t false depth in
  _ ← append_metrics operation v credit "broker_rate_limit";
  mret v.

Definition reserve_detail (operation : string) (priority : option string) : M RateLimitWindow RateLimitReservation :=
  r ← get;
  let priority := (default "" priority) or? priority_for r operation in
  _ ← refill_tokens;
  r ← get;
  if num_ge1 (tokens r) then grant operation priority false
  else if String.eqb priority "high" && (credit_used r <? credit_limit) then
    _ ← modify (set_credit (credit_used r + 1));
    grant operation priority true
  else
    now ← time_fn;
    let wait := fmax (fsub (of_Z (reset_sec (config r))) (fsub now (last_refill r))) fzero in
    at_ ← time_fn;
    _ ← modify (λ r, set_queue (queue r ++ [Entry operation priority at_]) r);
    _ ← prune_queue;
    t ← gets tokens;
    depth ← queue_depth;
    let v := Reservation false wait (fround (fmul wait (of_Z 1000)) 2) priority t true depth in
    _ ← append_metrics operation v false "broker_rate_limit";
    mret v.

Definition reserve (operation priority : string) : M RateLimitWindow (bool * float) :=
  v ← reserve_detail operation (Some priority); mret (allowed v, wait_sec v).

Definition append_limit_event (reason : string) : M RateLimitWindow unit :=
  t ← gets tokens;
  depth ← queue_depth;
  _ ← append_metrics "rate_limit_update" (Reservation true fzero fzero "system" t false depth) false
        "broker_rate_limit_adjusted";
  ts ← utcnow_iso;
  r ← get;
  append_jsonl METRICS (VDict [("ts", VStr ts); ("event", VStr "broker_rate_limit_adjusted_detail");
    ("reason", VStr reason); ("burst", VInt (burst (config r))); ("sustained_per_min", VInt (sustained_per_min (config r)))]).

Definition with_limits (b s : Z) (c : RateLimitConfig) : RateLimitConfig :=
  Config b s (reset_sec c) (priority_rules c) (max_queue_sec c).

Definition update_limits (b s : option Z) : M RateLimitWindow unit :=
  _ ← modify (λ r, set_config (with_limits
        (match b with Some x => Z.max 1 x | None => burst (config r) end)
        (match s with Some x => Z.max 1 x | None => sustained_per_min (config r) end) (config r)) r);
  _ ← modify (λ r, set_tokens (cap_tokens (burst (config r)) (tokens r)) r);
  append_limit_event "manual_update".

Definition shrink_capacity (factor : float) (reason : string) : M RateLimitWindow unit :=
  r ← get;
  b ← lift (ftrunc (fmul (of_Z (burst (config r))) factor));
  _ ← modify (λ r, set_config (with_limits (Z.max 1 b) (sustained_per_min (config r)) (config r)) r);
  s ← lift (ftrunc (fmul (of_Z (sustained_per_min (config r))) factor));
  _ ← modify (λ r, set_config (with_limits (burst (config r)) (Z.max 1 s) (config r)) r);
  _ ← modify (λ r, set_tokens (cap_tokens (burst (config r)) (tokens r)) r);
  append_limit_event reason.
End window.

(** * Frames: what the recording steps leave alone *)

(** The limiter without its queue, its clock and its world. *)
Definition same_budget (r r' : RateLimitWindow) : Prop :=
  config r' = config r ∧ tokens r' = tokens r ∧ last_refill r' = last_refill r ∧ credit_used r' = credit_used r.

Section frames.
Context `{Env}.
Variable time_at : nat → float.
Variable r0 : RateLimitWindow.
Abbreviation P := (same_budget r0).

Lemma budget_time : preserves P (time_fn time_at).
Proof. by intros r (?&?&?&?). Qed.

Lemma budget_queue f : preserves P (modify (λ r, set_queue (f r) r)).
Proof. apply preserves_modify. by intros r (?&?&?&?). Qed.

Lemma budget_world : ∀ w r, P r → P (wset w r).
Proof. by intros w r (?&?&?&?). Qed.

Lemma budget_prune : preserves P (prune_queue time_at).
Proof.
  unfold prune_queue. apply preserves_bind; [apply preserves_gets|intros q].
  destruct (negb _); [apply preserves_ret|].
  apply preserves_bind; [apply budget_time|intros now]. apply budget_queue.
Qed.

Lemma budget_depth : preserves P (queue_depth time_at).
Proof. apply preserves_bind; [apply budget_prune|intros]. apply preserves_gets. Qed.

Lemma budget_metrics o v c e : preserves P (append_metrics time_at o v c e).
Proof.
  pose proof (preserves_world P budget_world) as (_ & Hiso & _ & Hj & _).
  unfold append_metrics. apply preserves_bind; [done|intros ts].
  apply preserves_bind; [apply preserves_gets|intros t].
  apply preserves_bind; [apply budget_depth|intros d]. apply Hj.
Qed.
End frames.

Section reserve.
Context `{Env}.
Variable time_at : nat → float.

Lemma total_time : total (time_fn time_at).
Proof. intros r. by eexists _, _. Qed.

Lemma total_prune : total (prune_queue time_at).
Proof.
  apply total_bind; [apply total_gets|]. intros q. destruct (negb _); [apply total_ret|].
  apply total_bind; [apply total_time|]. intros now. apply total_modify.
Qed.

Lemma total_depth : total (queue_depth time_at).
Proof. apply total_bind; [apply total_prune|]. intros _. apply total_gets. Qed.

Lemma total_metrics o v c e : total (append_metrics time_at o v c e).
Proof.
  apply total_bind; [intros r; by eexists _, _|]. intros ts. apply total_bind; [apply total_gets|]. intros t.
  apply total_bind; [apply total_depth|]. intros d r. by eexists _, _.
Qed.

(** A total step that keeps the budget, run. *)
Lemma run_budget {A} (m : M RateLimitWindow A) r :
  total m → preserves (same_budget r) m → ∃ a r', m r = (Ok a, r') ∧ same_budget r r'.
Proof.
  intros Ht Hp. destruct (Ht r) as (a & r' & E). exists a, r'. split; [done|].
  specialize (Hp r). rewrite E in Hp. by apply Hp.
Qed.

Lemma same_budget_trans r1 r2 r3 : same_budget r1 r2 → same_budget r2 r3 → same_budget r1 r3.
Proof. intros (?&?&?&?) (?&?&?&?). unfold same_budget. split_and!; congruence. Qed.

Lemma grant_spec o p c r :
  ∃ v r', grant time_at o p c r = (Ok v, r') ∧ allowed v = true ∧
    same_budget (set_tokens (num_pred (tokens r)) r) r'.
Proof.
  unfold grant. rewrite bind_run. cbn [modify]. rewrite bind_run. cbn [gets].
  set (r1 := set_tokens _ r).
  rewrite bind_run. destruct (run_budget (queue_depth time_at) r1) as (d & r2 & -> & H2);
    [apply total_depth|apply budget_depth|].
  cbn zeta. rewrite bind_run. set (v := Reservation _ _ _ _ _ _ _).
  destruct (run_budget (append_metrics time_at o v c "broker_rate_limit") r2) as (u & r3 & -> & H3);
    [apply total_metrics|apply budget_metrics|].
  exists v, r3. split; [done|]. split; [done|]. by eapply same_budget_trans.
Qed.

Lemma refill_runs r : ∃ r1, refill_tokens time_at r = (Ok tt, r1) ∧ config r1 = config r ∧
  credit_used r1 = if num_ge1 (tokens r1) then 0 else credit_used r.
Proof.
  unfold refill_tokens. rewrite bind_run. cbn [time_fn]. rewrite bind_run. cbn [get]. rewrite bind_run.
  cbn [modify]. rewrite bind_run. set (r1 := set_tokens _ _).
  set (t := min_burst _ _) in r1.
  destruct (fgeb _ _); cbn [when modify mret M_ret]; rewrite bind_run; cbn [gets];
    (destruct (num_ge1 _) eqn:E; change (num_ge1 t = true) in E || change (num_ge1 t = false) in E);
    eexists; (split; [reflexivity|split; [reflexivity|]]);
    match goal with |- _ = (if num_ge1 ?x then _ else _) => change x with t end; by rewrite E.
Qed.

(** What one reservation may do once the tokens have been refilled. *)
Definition reserve_rule (priority : string) (r1 : RateLimitWindow) : bool * num * Z :=
  if num_ge1 (tokens r1) then (true, num_pred (tokens r1), credit_used r1)
  else if String.eqb priority "high" && (credit_used r1 <? credit_limit)
  then (true, num_pred (tokens r1), credit_used r1 + 1)
  else (false, tokens r1, credit_used r1).

Lemma reserve_runs o p r :
  ∃ v r1 r', refill_tokens time_at r = (Ok tt, r1) ∧ reserve_detail time_at o p r = (Ok v, r') ∧
    config r' = config r ∧ last_refill r' = last_refill r1 ∧
    (allowed v, tokens r', credit_used r') = reserve_rule (default "" p or? priority_for r o) r1.
Proof.
  destruct (refill_runs r) as (r1 & E1 & Hc & _).
  unfold reserve_detail, reserve_rule. rewrite bind_run. cbn [get]. cbn zeta. rewrite bind_run, E1, bind_run. cbn [get].
  set (prio := default "" p or? _).
  destruct (num_ge1 (tokens r1)) eqn:Eg.
  { destruct (grant_spec o prio false r1) as (v & r' & -> & Ha & (H1 & H2 & H3 & H4)).
    exists v, r1, r'. split; [done|]. split; [done|]. split; [by rewrite H1, <- Hc|]. split; [done|].
    by rewrite Ha, H2, H4, Eg. }
  destruct (String.eqb prio "high" && _) eqn:Eh.
  { rewrite bind_run. cbn [modify].
    destruct (grant_spec o prio true (set_credit (credit_used r1 + 1) r1))
      as (v & r' & -> & Ha & (H1 & H2 & H3 & H4)).
    exists v, r1, r'. split; [done|]. split; [done|]. split; [by rewrite H1, <- Hc|]. split; [done|].
    by rewrite Ha, H2, H4, Eg, Eh. }
  rewrite bind_run. destruct (run_budget (time_fn time_at) r1) as (now & r2 & -> & H2);
    [apply total_time|apply budget_time|]. cbn zeta.
  rewrite bind_run. destruct (run_budget (time_fn time_at) r2) as (at_ & r3 & -> & H3);
    [apply total_time|apply budget_time|].
  rewrite bind_run. cbn [modify].
  rewrite bind_run. set (r4 := set_queue _ r3).
  destruct (run_budget (prune_queue time_at) r4) as (u & r5 & -> & H5); [apply total_prune|apply budget_prune|].
  rewrite bind_run. cbn [gets]. rewrite bind_run.
  destruct (run_budget (queue_depth time_at) r5) as (d & r6 & -> & H6); [apply total_depth|apply budget_depth|].
  set (v := Reservation _ _ _ _ _ _ _). rewrite bind_run.
  destruct (run_budget (append_metrics time_at o v false "broker_rate_limit") r6) as (u' & r7 & -> & H7);
    [apply total_metrics|apply budget_metrics|].
  assert (same_budget r1 r7) as (K1 & K2 & K3 & K4).
  { eapply same_budget_trans; [apply H2|]. eapply same_budget_trans; [apply H3|].
    eapply same_budget_trans; [|apply H7]. eapply same_budget_trans; [|apply H6]. apply H5. }
  exists v, r1, r7. split; [done|]. split; [done|]. split; [congruence|]. split; [done|]. by rewrite K2, K4, Eg, Eh.
Qed.

(** The decision rule of a reservation: it always returns; after the refill
    it is allowed when a token is there, or, for a "high" priority call, on the
    one credit that no token has paid back yet; an allowed call takes exactly one
    token, a refused one leaves tokens and credit alone; the limits never change. *)
Theorem reserve_decision (o : string) (p : option string) (r : RateLimitWindow) :
  ∃ v r1 r', refill_tokens time_at r = (Ok tt, r1) ∧ reserve_detail time_at o p r = (Ok v, r') ∧
    config r' = config r ∧
    (allowed v, tokens r', credit_used r') = reserve_rule (default "" p or? priority_for r o) r1.
Proof.
  destruct (reserve_runs o p r) as (v & r1 & r' & ? & ? & ? & _ & ?). exists v, r1, r'. by split_and!.
Qed.
End reserve.

(** * Any sequence of calls *)

Inductive rate_op :=
  | RReserve (operation : string) (priority : option string)
  | RTokens
  | RSnapshot
  | RUpdate (burst sustained : option Z)
  | RShrink (factor : float) (reason : string).

Definition rate_exec `{Env} (time_at : nat → float) (op : rate_op) : M RateLimitWindow unit :=
  match op with
  | RReserve o p => _ ← reserve_detail time_at o p; mret tt
  | RTokens => _ ← tokens_remaining time_at; mret tt
  | RSnapshot => _ ← queue_snapshot time_at; mret tt
  | RUpdate b s => update_limits time_at b s
  | RShrink f reason => shrink_capacity time_at f reason
  end.

(** ** A frozen instant *)

(** The outcomes of [n] reservations in a row. *)
Fixpoint reserve_many `{Env} (time_at : nat → float) (n : nat) (r : RateLimitWindow) : list bool :=
  match n with
  | O => []
  | S n => let '(v, r') := reserve_detail time_at "place_order" (Some "medium") r in
           match v with Ok v => [allowed v] | Raise _ => [] end ++ reserve_many time_at n r'
  end.

Definition default_config : RateLimitConfig := Config 30 60 60 [] 120.

Lemma frozen_refill `{Env} r :
  config r = default_config → last_refill r = fzero → tokens r = NFloat (of_Z 30) ∨ tokens r = NInt 29 →
  ∃ r1, refill_tokens (λ _, of_Z 30) r = (Ok tt, r1) ∧ tokens r1 = NInt 30 ∧ last_refill r1 = fzero.
Proof.
  destruct r as [c t l q k n w]; cbn [config last_refill tokens]. intros -> -> Ht.
  destruct Ht as [->| ->]; eexists; (split; [vm_compute; reflexivity|]; split; reflexivity).
Qed.

(** The window does not limit the rate: [_refill_tokens] moves
    [_last_refill] only once [reset_sec] seconds have passed, so before that
    every call is credited the whole time since the last refill again. With the
    default limits (burst 30, 60 per minute) and the clock standing still thirty
    seconds after the window was built at time 0, any number of reservations are
    all allowed. *)
Theorem frozen_clock_never_limits `{Env} (n : nat) (w : world) :
  reserve_many (λ _, of_Z 30) n (window_init (λ _, fzero) default_config w) = replicate n true.
Proof.
  cut (∀ r, config r = default_config → last_refill r = fzero → tokens r = NFloat (of_Z 30) ∨ tokens r = NInt 29 →
    reserve_many (λ _, of_Z 30) n r = replicate n true).
  { intros Hcut. apply Hcut; [done|done|by left]. }
  induction n as [|n IH]; intros r Hc Hl Ht; [done|].
  destruct (frozen_refill r Hc Hl Ht) as (r1 & E1 & Ht1 & Hl1).
  destruct (reserve_runs (λ _, of_Z 30) "place_order" (Some "medium") r)
    as (v & r1' & r' & E1' & E & Hc' & Hl' & Hrule).
  rewrite E1 in E1'. injection E1' as <-. cbn [reserve_many]. rewrite E.
  unfold reserve_rule in Hrule. rewrite Ht1 in Hrule. injection Hrule as Ha Htk _.
  rewrite Ha. cbn [replicate app]. f_equal. apply IH; [congruence|congruence|by right].
Qed.

(** ** Invariants *)

(** The credit of the high-priority calls is never overdrawn. *)
Definition credit_ok (r : RateLimitWindow) : Prop := 0 <= credit_used r <= credit_limit.
(** Capacities stay positive. *)
Definition limits_ok (r : RateLimitWindow) : Prop := 1 <= burst (config r) ∧ 1 <= sustained_per_min (config r).
Definition rate_inv (r : RateLimitWindow) : Prop := credit_ok r ∧ limits_ok r.

Lemma budget_inv r r' : same_budget r r' → rate_inv r → rate_inv r'.
Proof. intros (Hc & _ & _ & Hk). unfold rate_inv, credit_ok, limits_ok. by rewrite Hc, Hk. Qed.

Section invariants.
Context `{Env}.
Variable time_at : nat → float.

Lemma budget_entries r0 q : preserves (same_budget r0) (snapshot_entries time_at q).
Proof.
  induction q as [|e q IH]; cbn [snapshot_entries]; [apply preserves_ret|].
  apply preserves_bind; [apply budget_time|intros now].
  apply preserves_bind; [done|intros rest]. apply preserves_ret.
Qed.

Lemma budget_snapshot r0 : preserves (same_budget r0) (queue_snapshot time_at).
Proof.
  apply preserves_bind; [apply budget_prune|intros _].
  apply preserves_bind; [apply preserves_gets|intros q]. apply budget_entries.
Qed.

Lemma budget_limit_event r0 reason : preserves (same_budget r0) (append_limit_event time_at reason).
Proof.
  pose proof (preserves_world (same_budget r0) (budget_world r0)) as (_ & Hiso & _ & Hj & _).
  apply preserves_bind; [apply preserves_gets|intros t].
  apply preserves_bind; [apply budget_depth|intros d].
  apply preserves_bind; [apply budget_metrics|intros _].
  apply preserves_bind; [done|intros ts]. apply preserves_bind; [apply preserves_get|intros r]. apply Hj.
Qed.

(** A step that keeps every budget keeps the invariant. *)
Lemma inv_of_budget {A} (m : M RateLimitWindow A) :
  (∀ r0, preserves (same_budget r0) m) → preserves rate_inv m.
Proof. intros Hm r Hr. eapply budget_inv; [|exact Hr]. by apply Hm. Qed.

Lemma inv_limit_event reason : preserves rate_inv (append_limit_event time_at reason).
Proof. apply inv_of_budget. intros r0. apply budget_limit_event. Qed.

Lemma inv_reserve o p : preserves rate_inv (reserve_detail time_at o p).
Proof.
  intros r [Hk Hl]. destruct (reserve_runs time_at o p r) as (v & r1 & r' & E1 & -> & Hc & _ & Hrule).
  destruct (refill_runs time_at r) as (r1' & E1' & Hc1 & Hk1). rewrite E1 in E1'. injection E1' as <-.
  cbn [snd]. split; [|unfold limits_ok; by rewrite Hc].
  assert (credit_ok r1) as Hk'.
  { unfold credit_ok in *. rewrite Hk1. destruct (num_ge1 _); unfold credit_limit in *; lia. }
  unfold reserve_rule in Hrule. destruct (num_ge1 (tokens r1)).
  { injection Hrule as _ _ Hcr. unfold credit_ok. by rewrite Hcr. }
  destruct (_ && (credit_used r1 <? credit_limit)) eqn:E; injection Hrule as _ _ Hcr;
    unfold credit_ok in *; rewrite Hcr; [to_props; lia|done].
Qed.

(** Whatever calls are made, in any order and at any times, the credit
    given to high-priority calls stays within its limit of one, and the burst and
    the sustained rate stay at least one, also when a call raises. *)
Theorem rate_exec_invariant (ops : list rate_op) (r : RateLimitWindow) (Hr : rate_inv r) :
  rate_inv (fold_left (λ r op, (rate_exec time_at op r).2) ops r).
Proof.
  revert r Hr. induction ops as [|op ops IH]; intros r Hr; [done|]. cbn [fold_left]. apply IH.
  revert r Hr. change (preserves rate_inv (rate_exec time_at op)).
  destruct op as [o p| | |b s|f reason]; cbn [rate_exec].
  - apply preserves_bind; [apply inv_reserve|intros; apply preserves_ret].
  - apply preserves_bind; [|intros; apply preserves_ret]. unfold tokens_remaining.
    apply preserves_bind; [|intros; apply preserves_gets]. intros r [Hk Hl].
    destruct (refill_runs time_at r) as (r1 & -> & Hc & Hk1). cbn [snd].
    split; [|unfold limits_ok; by rewrite Hc].
    unfold credit_ok in *. rewrite Hk1. destruct (num_ge1 _); unfold credit_limit in *; lia.
  - apply preserves_bind; [|intros; apply preserves_ret]. apply inv_of_budget. intros r0. apply budget_snapshot.
  - apply preserves_bind; [|intros _; apply preserves_bind; [|intros _; apply inv_limit_event]].
    + apply preserves_modify. intros r [Hk [Hb Hs]]. split; [done|]. split; cbn; [destruct b|destruct s]; lia.
    + apply preserves_modify. by intros r [Hk Hl].
  - apply preserves_bind; [apply preserves_get|intros r0].
    apply preserves_bind; [apply preserves_lift|intros b].
    apply preserves_bind; [apply preserves_modify; intros r [Hk [Hb Hs]]; split; [done|]; split; cbn; lia|intros _].
    apply preserves_bind; [apply preserves_lift|intros s].
    apply preserves_bind; [apply preserves_modify; intros r [Hk [Hb Hs]]; split; [done|]; split; cbn; lia|intros _].
    apply preserves_bind; [apply preserves_modify; by intros r [Hk Hl]|intros _]. apply inv_limit_event.
Qed.
End invariants.

Definition sample_window : RateLimitWindow := window_init (λ _, fzero) (Config 1 60 60 [] 120) world0.

Lemma rate_exec_invariant_witness :
  let ops := [RReserve "a" None; RReserve "b" (Some "high"); RReserve "c" (Some "high"); RShrink (of_dec 8 (-1)) "hit"] in
  let r := fold_left (λ r op, (@rate_exec sample_env (λ _, fzero) op r).2) ops sample_window in
  credit_used r = 1 ∧ rate_inv r.
Proof.
  split; [vm_compute; reflexivity|].
  apply (@rate_exec_invariant sample_env). repeat split; cbn; unfold credit_limit; lia.
Defined.
