(* ===== verification/OrderStore.v ===== *)
(** The order store of [src/brokers/order_store.py]: order envelopes and state
    records on disk, their encoding and decoding, the latest state and the
    history of an order, and the archiving of old files.  The advisory file
    locks only order concurrent processes and are not part of the model. *)

From S2P Require Import Prelude PyFloat PyVal PyEnv.

Local Open Scope Z_scope.
Local Open Scope py_scope.

(** * Data *)

Record RecoveryAction := Action {
  code : string; label : string; action_parameters : option dict; requires_manual : bool }.

Record RecoveryPlan := Plan {
  plan_order_id : string; plan_id : string; trigger_reason : string; actions : list RecoveryAction;
  plan_runbook_ref : string; plan_status : string; assigned_to : pyval; created_at : pyval;
  updated_at : pyval; notes : list pyval }.

Record OrderEnvelope := Envelope {
  env_order_id : string; external_id : pyval; env_mode : string; stage_guard_stage : string;
  strategy_id : pyval; ticket_id : pyval; profile : string; risk_snapshot : dict; protect_pips : pyval;
  reduce_only : bool; submitted_by : string; submitted_at : string }.

Record OrderState := State {
  order_id : string; status : string; last_transition : string; attempt : Z; evidence_hash : string;
  error_code : pyval; retry_after : pyval; ack_received_at : pyval; fill_summary : pyval;
  recovery_plan : option RecoveryPlan; schema_version : string }.

Definition action_to_dict (a : RecoveryAction) : dict :=
  [("code", VStr (code a)); ("label", VStr (label a)); ("requires_manual", VBool (requires_manual a))] ++
  match action_parameters a with
  | Some p => if truthy p then [("parameters", VDict p)] else []
  | None => []
  end.

Definition plan_to_dict (p : RecoveryPlan) : dict :=
  [("order_id", VStr (plan_order_id p)); ("plan_id", VStr (plan_id p));
   ("trigger_reason", VStr (trigger_reason p));
   ("actions", VList ((λ a, VDict (action_to_dict a)) <$> actions p)); ("assigned_to", assigned_to p);
   ("runbook_ref", VStr (plan_runbook_ref p)); ("status", VStr (plan_status p));
   ("created_at", created_at p); ("updated_at", updated_at p); ("notes", VList (notes p))].

Definition envelope_to_dict (e : OrderEnvelope) : dict :=
  [("order_id", VStr (env_order_id e)); ("external_id", external_id e); ("mode", VStr (env_mode e));
   ("stage_guard_stage", VStr (stage_guard_stage e)); ("strategy_id", strategy_id e); ("ticket_id", ticket_id e);
   ("profile", VStr (profile e)); ("risk_snapshot", VDict (risk_snapshot e)); ("protect_pips", protect_pips e);
   ("reduce_only", VBool (reduce_only e)); ("submitted_by", VStr (submitted_by e));
   ("submitted_at", VStr (submitted_at e))].

Definition state_to_dict (s : OrderState) : dict :=
  [("schema_version", VStr (schema_version s)); ("order_id", VStr (order_id s)); ("status", VStr (status s));
   ("last_transition", VStr (last_transition s)); ("attempt", VInt (attempt s)); ("error_code", error_code s);
   ("retry_after", retry_after s); ("ack_received_at", ack_received_at s); ("fill_summary", fill_summary s);
   ("evidence_hash", VStr (evidence_hash s));
   ("recovery_plan", match recovery_plan s with Some p => VDict (plan_to_dict p) | None => VNone end)].

(** * Decoding *)

Definition get_str (k : string) (d : dict) : string := py_str (dget k d).

Definition action_from_payload (d : dict) : res RecoveryAction :=
  p ← to_dict (dget "parameters" d or? VDict []);
  Ok (Action (get_str "code" d) (get_str "label" d) (Some p)
    (truthy (dget_or "requires_manual" (VBool false) d))).

(** The mappings of a list, decoded; anything else in it is skipped. *)
Fixpoint actions_from_payload (l : list pyval) : res (list RecoveryAction) :=
  match l with
  | [] => Ok []
  | VDict d :: l => a ← action_from_payload d; rest ← actions_from_payload l; Ok (a :: rest)
  | _ :: l => actions_from_payload l
  end.

Definition plan_from_payload (d : dict) : res RecoveryPlan :=
  items ← py_iter (dget "actions" d or? VList []);
  acts ← actions_from_payload items;
  ns ← py_iter (dget "notes" d or? VList []);
  Ok (Plan (get_str "order_id" d) (get_str "plan_id" d) (get_str "trigger_reason" d) acts
    (get_str "runbook_ref" d) (get_str "status" d) (dget "assigned_to" d) (dget "created_at" d)
    (dget "updated_at" d) ns).

Definition state_from_payload (payload : pyval) : res OrderState :=
  rp ← vget payload "recovery_plan";
  let d := as_dict_or_empty payload in
  recovery ← (match rp with VDict r => p ← plan_from_payload r; Ok (Some p) | _ => Ok None end);
  n ← py_int (dget_or "attempt" (VInt 1) d);
  Ok (State (get_str "order_id" d) (get_str "status" d) (get_str "last_transition" d) n
    (get_str "evidence_hash" d) (dget "error_code" d) (dget "retry_after" d) (dget "ack_received_at" d)
    (dget "fill_summary" d) recovery (py_str (dget "schema_version" d or? VStr "broker.order_state.v1"))).

(** * The disk *)

(** One JSONL file of a mode's directory; [f_mtime] in microseconds. *)
Record StateFile := MkFile { f_name : string; f_mtime : Z; f_lines : list line }.

Record OrderStateStore := Store {
  mode_dirs : list (string * list StateFile);
  envelopes : list (string * list (string * pyval));
  archive : list (string * list line);
  os_world : world }.

#[export] Instance store_has_world : HasWorld OrderStateStore.
Proof.
  refine {| wget := os_world; wset := λ w s, Store (mode_dirs s) (envelopes s) (archive s) w |};
    by try intros [].
Defined.

Definition set_dirs (d : list (string * list StateFile)) (s : OrderStateStore) : OrderStateStore :=
  Store d (envelopes s) (archive s) (os_world s).

Definition dir_of (mode : string) (s : OrderStateStore) : list StateFile := default [] (dlookup mode (mode_dirs s)).
Definition envelope_of (mode id : string) (s : OrderStateStore) : option pyval :=
  dlookup mode (envelopes s) ≫= dlookup id.

(** [open(path, "ab")] and one line: the file is created when it is missing. *)
Definition append_line (name : string) (now : Z) (l : line) (files : list StateFile) : list StateFile :=
  if existsb (λ f, String.eqb (f_name f) name) files
  then (λ f, if String.eqb (f_name f) name then MkFile name now (f_lines f ++ [l]) else f) <$> files
  else files ++ [MkFile name now [l]].

(** [sorted(directory.glob("*.jsonl"))] *)
Definition sorted_files (files : list StateFile) : list StateFile :=
  isort (λ f g, str_ltb (f_name f) (f_name g)) files.

(** [_read_jsonl]: the values of the lines that decode; [null] is skipped too. *)
Definition read_line (l : line) : option pyval :=
  match l with LJson VNone => None | LJson v => Some v | _ => None end.
Definition read_jsonl (f : StateFile) : list pyval := omap read_line (f_lines f).

(** Every record of a mode in the order it is read. *)
Definition records (mode : string) (s : OrderStateStore) : list pyval :=
  concat (read_jsonl <$> sorted_files (dir_of mode s)).

(** The states of one order among the records, oldest first. *)
Fixpoint states_of (id : string) (rs : list pyval) : res (list OrderState) :=
  match rs with
  | [] => Ok []
  | r :: rs =>
      rid ← vget r "order_id";
      if String.eqb (py_str rid) id
      then st ← state_from_payload r; rest ← states_of id rs; Ok (st :: rest)
      else states_of id rs
  end.

Definition history (id mode : string) (s : OrderStateStore) : res (list OrderState) := states_of id (records mode s).
Definition latest_state (id mode : string) (s : OrderStateStore) : res (option OrderState) :=
  h ← history id mode s; Ok (last h).

(** The latest state of every order, in the order they first appear. *)
Fixpoint latest_all (rs : list pyval) (acc : list (string * OrderState)) : res (list (string * OrderState)) :=
  match rs with
  | [] => Ok acc
  | r :: rs =>
      rid ← vget r "order_id";
      let id := py_str (rid or? VStr "") in
      if negb (truthy id) then latest_all rs acc
      else st ← state_from_payload r; latest_all rs (dset id st acc)
  end.

Section store.
Context `{Env}.
(** [hashlib.sha256(...).hexdigest()] of a file's bytes. *)
Variable sha256_file : list line → string.

Definition envelope_from_payload (id : string) (payload : pyval) : M OrderStateStore OrderEnvelope :=
  let str k dflt := v ← lift (vget_or payload k (VStr dflt)); mret (py_str v) in
  ext ← lift (vget payload "external_id");
  mode ← str "mode" "paper";
  stage ← str "stage_guard_stage" "manual_only";
  strat ← lift (vget payload "strategy_id");
  ticket ← lift (vget payload "ticket_id");
  prof ← str "profile" "paper";
  snap ← lift (vget payload "risk_snapshot"); snap ← lift (to_dict (snap or? VDict []));
  pips ← lift (vget payload "protect_pips");
  ro ← lift (vget_or payload "reduce_only" (VBool false));
  by_ ← str "submitted_by" "system";
  now ← utcnow_iso;
  at_ ← str "submitted_at" now;
  mret (Envelope id ext mode stage strat ticket prof snap pips (truthy ro) by_ at_).

Definition save_envelope (e : OrderEnvelope) : M OrderStateStore unit := modify (λ s,
  let dir := default [] (dlookup (env_mode e) (envelopes s)) in
  Store (mode_dirs s)
    (dset (env_mode e) (dset (env_order_id e) (VDict (envelope_to_dict e)) dir) (envelopes s))
    (archive s) (os_world s)).

Definition AUDIT : string := "logs/audit/order_state.jsonl".

Definition save_state (st : OrderState) (mode : string) : M OrderStateStore unit :=
  now ← now_utc;
  _ ← modify (λ s, set_dirs (dset mode
        (append_line (yyyymmdd now +:+ ".jsonl") (utc_us now) (LJson (VDict (state_to_dict st))) (dir_of mode s))
        (mode_dirs s)) s);
  ts ← utcnow_iso;
  append_jsonl AUDIT (VDict [("event", VStr "audit.order_state_saved"); ("ts", VStr ts);
    ("order_id", VStr (order_id st)); ("status", VStr (status st)); ("evidence_hash", VStr (evidence_hash st))]).

Definition load_envelope (id mode : string) : M OrderStateStore (option OrderEnvelope) :=
  f ← gets (envelope_of mode id);
  match f with
  | Some payload => e ← envelope_from_payload id (payload or? VDict []); mret (Some e)
  | None => mret None
  end.

Definition load (id mode : string) : M OrderStateStore (option OrderEnvelope * option OrderState) :=
  e ← load_envelope id mode;
  s ← get;
  st ← lift (latest_state id mode s);
  mret (e, st).

Fixpoint list_entries (mode : string) (filter : list string) (strategy : option string)
    (l : list (string * OrderState)) : M OrderStateStore (list (option OrderEnvelope * OrderState)) :=
  match l with
  | [] => mret []
  | (id, st) :: l =>
      if truthy filter && negb (str_in (status st) filter) then list_entries mode filter strategy l
      else
        e ← load_envelope id mode;
        let skip := match e, strategy with
          | Some e, Some s => truthy s && negb (eq_str (strategy_id e) s)
          | _, _ => false end in
        rest ← list_entries mode filter strategy l;
        mret (if skip then rest else (e, st) :: rest)
  end.

Definition list_orders (mode : string) (status_in : option (list string)) (strategy : option string)
    : M OrderStateStore (list (option OrderEnvelope * OrderState)) :=
  s ← get;
  latest ← lift (latest_all (records mode s) []);
  list_entries mode (default [] status_in) strategy latest.

(** ** Archiving *)

Definition yyyymm (us : Z) : string := String.substring 0 6 (yyyymmdd (from_utc_us us)).

(** One file: kept, or moved under the archive (an existing file of that name
    is replaced) with its checksum recorded. *)
Definition archive_file (cutoff : Z) (f : StateFile) : M OrderStateStore (option StateFile * option string) :=
  if cutoff <? f_mtime f then mret (Some f, None)
  else
    let dir := "archive/orders/" +:+ yyyymm cutoff in
    let dest := dir +:+ "/" +:+ f_name f in
    _ ← append_jsonl (dir +:+ "/checksums/order_states_" +:+ yyyymm cutoff +:+ ".sha256")
          (VStr (sha256_file (f_lines f) +:+ "  " +:+ f_name f));
    _ ← modify (λ s, Store (mode_dirs s) (envelopes s) (dset dest (f_lines f) (archive s)) (os_world s));
    mret (None, Some dest).

Fixpoint archive_files (cutoff : Z) (files : list StateFile) : M OrderStateStore (list StateFile * list string) :=
  match files with
  | [] => mret ([], [])
  | f :: files =>
      r ← archive_file cutoff f;
      rest ← archive_files cutoff files;
      mret (match r.1 with Some f => f :: rest.1 | None => rest.1 end,
            match r.2 with Some p => p :: rest.2 | None => rest.2 end)
  end.

Fixpoint archive_dirs (cutoff : Z) (dirs : list (string * list StateFile)) : M OrderStateStore (list string) :=
  match dirs with
  | [] => mret []
  | (mode, files) :: dirs =>
      r ← archive_files cutoff files;
      _ ← modify (λ s, set_dirs (dset mode r.1 (mode_dirs s)) s);
      rest ← archive_dirs cutoff dirs;
      mret (r.2 ++ rest)
  end.

Definition cleanup (days : Z) : M OrderStateStore (list string) :=
  now ← now_utc;
  let cutoff := utc_us now - days * 86400000000 in
  dirs ← gets mode_dirs;
  archived ← archive_dirs cutoff dirs;
  _ ← when (truthy archived) (
    ts ← utcnow_iso;
    append_jsonl "ops_worklog.jsonl" (VDict [("timestamp", VStr ts); ("task", VStr "order_state_archive");
      ("status", VStr "completed"); ("archived", VInt (Z.of_nat (length archived)));
      ("paths", VList (VStr <$> archived))]));
  mret archived.
End store.

(** * Encoding and decoding *)

(** What a stored record keeps: an absent parameter mapping reads back empty,
    an empty schema version as the current one. *)
Definition norm_action (a : RecoveryAction) : RecoveryAction :=
  Action (code a) (label a) (Some (default [] (action_parameters a))) (requires_manual a).
Definition norm_plan (p : RecoveryPlan) : RecoveryPlan :=
  Plan (plan_order_id p) (plan_id p) (trigger_reason p) (norm_action <$> actions p) (plan_runbook_ref p)
    (plan_status p) (assigned_to p) (created_at p) (updated_at p) (notes p).
Definition norm_state (s : OrderState) : OrderState :=
  State (order_id s) (status s) (last_transition s) (attempt s) (evidence_hash s) (error_code s)
    (retry_after s) (ack_received_at s) (fill_summary s) (norm_plan <$> recovery_plan s)
    (schema_version s or? "broker.order_state.v1").

Lemma action_roundtrip a : action_from_payload (action_to_dict a) = Ok (norm_action a).
Proof. by destruct a as [c l [[|]|] []]. Qed.

Lemma actions_roundtrip l :
  actions_from_payload ((λ a, VDict (action_to_dict a)) <$> l) = Ok (norm_action <$> l).
Proof.
  induction l as [|a l IH]; [done|]. cbn [fmap list_fmap actions_from_payload].
  rewrite action_roundtrip. cbn [mbind res_bind]. by rewrite IH.
Qed.

Lemma py_iter_or_empty l : py_iter (VList l or? VList []) = Ok l.
Proof. by destruct l. Qed.

Lemma plan_roundtrip p : plan_from_payload (plan_to_dict p) = Ok (norm_plan p).
Proof.
  unfold plan_from_payload.
  change (dget "actions" (plan_to_dict p)) with (VList ((λ a, VDict (action_to_dict a)) <$> actions p)).
  change (dget "notes" (plan_to_dict p)) with (VList (notes p)).
  rewrite !py_iter_or_empty. cbn [mbind res_bind]. by rewrite actions_roundtrip.
Qed.

Lemma state_roundtrip s : state_from_payload (VDict (state_to_dict s)) = Ok (norm_state s).
Proof.
  unfold state_from_payload. cbn [vget mbind res_bind as_dict_or_empty].
  change (dget "recovery_plan" (state_to_dict s)) with
    (match recovery_plan s with Some p => VDict (plan_to_dict p) | None => VNone end).
  assert (py_str (dget "schema_version" (state_to_dict s) or? VStr "broker.order_state.v1")
    = schema_version s or? "broker.order_state.v1") as Hv.
  { change (dget "schema_version" (state_to_dict s)) with (VStr (schema_version s)).
    unfold py_or. change (truthy (VStr (schema_version s))) with (truthy (schema_version s)).
    by destruct (truthy _). }
  rewrite Hv. unfold norm_state. destruct (recovery_plan s) as [p|]; [rewrite plan_roundtrip|]; reflexivity.
Qed.

(** * Reading back what was saved *)

Lemma states_of_snoc id rs r h :
  states_of id rs = Ok h →
  states_of id (rs ++ [r]) = (rid ← vget r "order_id";
    if String.eqb (py_str rid) id then st ← state_from_payload r; Ok (h ++ [st]) else Ok h).
Proof.
  revert h. induction rs as [|r' rs IH]; intros h; cbn [states_of app].
  - intros [= <-]. destruct (vget r "order_id") as [rid|]; [|done]. cbn [mbind res_bind].
    destruct (String.eqb _ _); [|done]. by destruct (state_from_payload r).
  - intros (rid & -> & H)%bind_ok. cbn [mbind res_bind]. destruct (String.eqb (py_str rid) id).
    + apply bind_ok in H as (st & -> & H). apply bind_ok in H as (rest & Hr & [= <-]). cbn [mbind res_bind].
      rewrite (IH rest Hr). destruct (vget r "order_id") as [x|]; [|done]. cbn [mbind res_bind].
      destruct (String.eqb (py_str x) id); [|done]. by destruct (state_from_payload r).
    + by apply IH.
Qed.

(** The files of a directory, with their names apart and none after [name]. *)
Definition chronological (name : string) (files : list StateFile) : Prop :=
  NoDup (f_name <$> files) ∧ ∀ f, f ∈ files → str_ltb name (f_name f) = false.

Lemma sorted_files_sorted files :
  StronglySorted (λ f g, str_ltb (f_name g) (f_name f) = false) (sorted_files files).
Proof.
  apply (isort_sorted _ (λ _, True)); [| |by apply Forall_true].
  - intros f g _ _. apply str_ltb_asym.
  - intros f g h _ _ _. apply str_ltb_ge_trans.
Qed.

(** The file called [name] is read last. *)
Lemma latest_file_last name files :
  chronological name files → name ∈ f_name <$> files →
  ∃ init f, sorted_files files = init ++ [f] ∧ f_name f = name ∧ ∀ g, g ∈ init → f_name g ≠ name.
Proof.
  intros [Hnd Hle] Hin. assert (sorted_files files ≡ₚ files) as Hp by apply isort_perm.
  pose proof (sorted_files_sorted files) as Hs.
  rewrite <- Hp in Hin. apply list_elem_of_fmap in Hin as (f & Hname & Hf).
  apply list_elem_of_split in Hf as (l1 & l2 & E). rewrite E in Hs, Hp.
  assert (NoDup (f_name <$> (l1 ++ f :: l2))) as Hnd' by by rewrite Hp.
  rewrite fmap_app, fmap_cons, NoDup_app, NoDup_cons in Hnd'. destruct Hnd' as (_ & H1 & H2 & _).
  assert (∀ g, g ∈ l2 → False) as Hl2.
  { intros g Hg. apply StronglySorted_app in Hs as (_ & _ & Hs). inversion Hs as [|? ? _ Hall]; subst.
    rewrite Forall_forall in Hall. specialize (Hall g Hg). apply H2.
    rewrite (str_ltb_total (f_name f) (f_name g)); [by apply list_elem_of_fmap_2| |done].
    apply Hle. rewrite <- Hp. apply elem_of_app. right. by right. }
  destruct l2 as [|g l2]; [|by destruct (Hl2 g); left].
  exists l1, f. split; [done|]. split; [done|]. intros g Hg E'. apply (H1 (f_name g)).
  - by apply list_elem_of_fmap_2.
  - rewrite E', Hname. by left.
Qed.

Lemma records_append name now l files :
  chronological name files →
  concat (read_jsonl <$> sorted_files (append_line name now l files)) =
  concat (read_jsonl <$> sorted_files files) ++ option_list (read_line l).
Proof.
  intros Hc. unfold append_line. set (upd := λ f, if String.eqb (f_name f) name then _ else f).
  assert (∀ f, f_name (upd f) = f_name f) as Hupd.
  { intros f. unfold upd. by destruct (String.eqb_spec (f_name f) name). }
  destruct (existsb _ files) eqn:Ex.
  - apply existsb_exists in Ex as (f0 & Hf0%list_elem_of_In & Hn%String.eqb_eq).
    destruct (latest_file_last name files Hc) as (init & f & E & Hf & Hi).
    { rewrite <- Hn. by apply list_elem_of_fmap_2. }
    unfold sorted_files at 1. rewrite isort_map by (intros; by rewrite !Hupd).
    fold (sorted_files files). rewrite E, !fmap_app, !concat_app. cbn [fmap list_fmap concat].
    rewrite !app_nil_r, <- app_assoc. f_equal.
    + f_equal. rewrite <- list_fmap_compose. apply list_fmap_ext. intros i g Hg%list_elem_of_lookup_2.
      cbn. unfold upd. by destruct (String.eqb_spec (f_name g) name) as [Hgn|]; [destruct (Hi g Hg)|].
    + unfold upd. rewrite Hf, String.eqb_refl. unfold read_jsonl. cbn [f_lines]. rewrite omap_app. cbn.
      by destruct (read_line l).
  - unfold sorted_files at 1. rewrite isort_snoc.
    + rewrite fmap_app, concat_app. cbn. rewrite app_nil_r. unfold read_jsonl at 2. cbn.
      by destruct (read_line l).
    + intros g Hg. cbn. by apply Hc.
Qed.

Section saved.
Context `{Env}.

Definition today (s : OrderStateStore) : string := yyyymmdd (clock_at (w_tick (os_world s))) +:+ ".jsonl".

Lemma save_state_records st mode s :
  chronological (today s) (dir_of mode s) →
  (save_state st mode s).1 = Ok tt ∧
  records mode (save_state st mode s).2 = records mode s ++ [VDict (state_to_dict st)].
Proof.
  intros Hc. split; [reflexivity|]. unfold records.
  assert (dir_of mode (save_state st mode s).2 = append_line (today s) (utc_us (clock_at (w_tick (os_world s))))
    (LJson (VDict (state_to_dict st))) (dir_of mode s)) as ->.
  { unfold dir_of at 1.
    change (mode_dirs (save_state st mode s).2) with (dset mode (append_line (today s)
      (utc_us (clock_at (w_tick (os_world s)))) (LJson (VDict (state_to_dict st))) (dir_of mode s)) (mode_dirs s)).
    by rewrite dlookup_dset_eq. }
  by rewrite records_append.
Qed.

Lemma saved_history st mode id s h :
  chronological (today s) (dir_of mode s) → history id mode s = Ok h →
  history id mode (save_state st mode s).2 = Ok (if String.eqb (order_id st) id then h ++ [norm_state st] else h).
Proof.
  intros Hc Hh. destruct (save_state_records st mode s Hc) as [_ Hr].
  unfold history in *. rewrite Hr, (states_of_snoc id _ _ h Hh). cbn [vget mbind res_bind].
  change (py_str (dget "order_id" (state_to_dict st))) with (order_id st).
  destruct (String.eqb (order_id st) id); [|done]. by rewrite state_roundtrip.
Qed.


Lemma save_envelope_envelope e s :
  envelope_of (env_mode e) (env_order_id e) (save_envelope e s).2 = Some (VDict (envelope_to_dict e)).
Proof. unfold envelope_of. cbn. rewrite dlookup_dset_eq. cbn. by rewrite dlookup_dset_eq. Qed.

(** A saved envelope loads back exactly, and saving it leaves the other
    envelopes of every mode as they were. *)
Theorem save_envelope_roundtrip (e : OrderEnvelope) (s : OrderStateStore) :
  let s' := (save_envelope e s).2 in
  (load_envelope (env_order_id e) (env_mode e) s').1 = Ok (Some e) ∧
  ∀ mode id, (mode, id) ≠ (env_mode e, env_order_id e) → envelope_of mode id s' = envelope_of mode id s.
Proof.
  cbn zeta. pose proof (save_envelope_envelope e s) as Hl. revert Hl.
  unfold save_envelope. cbn [modify snd]. set (dir := default [] _). set (s' := Store _ _ _ _). intros Hl.
  split.
  - unfold load_envelope. rewrite bind_run. cbn [gets]. rewrite Hl.
    destruct e as [oid ext md stage strat ticket prof [|kv snap] pips ro by_ at_]; reflexivity.
  - intros mode id Hne. unfold envelope_of, s'. cbn [envelopes].
    destruct (decide (env_mode e = mode)) as [<-|Hm].
    + rewrite dlookup_dset_eq. cbn. rewrite dlookup_dset_ne by congruence. unfold dir.
      by destruct (dlookup (env_mode e) (envelopes s)).
    + by rewrite dlookup_dset_ne.
Qed.
End saved.

(** * Archiving loses a file *)

Definition march (mode : string) : StateFile :=
  MkFile "20260101.jsonl" 0 [LJson (VDict [("order_id", VStr ("order-" +:+ mode))])].
Definition two_modes : OrderStateStore :=
  Store [("paper", [march "paper"]); ("live", [march "live"])] [] [] world0.

(** The archive has one directory for all modes: archiving two modes whose
    old files have the same date reports two archived files, but the second move
    replaces the first, so the records of the first mode are gone from the disk. *)
Theorem cleanup_loses_a_mode (sha256_file : list line → string) :
  let '(r, s') := @cleanup sample_env sha256_file 30 two_modes in
  r = Ok ["archive/orders/202602/20260101.jsonl"; "archive/orders/202602/20260101.jsonl"] ∧
  mode_dirs s' = [("paper", []); ("live", [])] ∧
  archive s' = [("archive/orders/202602/20260101.jsonl", f_lines (march "live"))].
Proof. vm_compute. by split_and!. Qed.

Definition sample_state : OrderState :=
  State "order-1" "created" "2026-03-20T08:00:00Z" 1 "abc" VNone VNone VNone VNone
    (Some (Plan "order-1" "recovery-1" "timeout" [Action "retry" "Retry" None true] "RUN-BROKER-API-02" "planned"
      VNone VNone VNone [VStr "n"])) "broker.order_state.v1".

