(* ===== verification/Recovery.v ===== *)
(** The recovery planner of [src/brokers/recovery.py]: the error map read from
    configuration, and the plan it makes for a failed order. *)

From S2P Require Import Prelude PyFloat PyVal PyEnv OrderStore.

Local Open Scope Z_scope.
Local Open Scope py_scope.

(** * Data *)

Record RetryPolicy := Retry {
  rp_mode : string; max_attempts : Z; backoff_sec : option (list pyval); handoff_role : pyval }.

Record BrokerErrorDescriptor := Descriptor {
  broker_code : string; d_trigger_reason : string; audit_event_id : string; runbook_ref : string;
  retry_policy : RetryPolicy; evidence_path_template : string; required_context : list pyval }.

Record ErrorContext := ErrCtx {
  c_broker_code : string; c_trigger_reason : string; c_audit_event_id : string; c_runbook_ref : string;
  c_retry_policy : RetryPolicy; evidence_path : string; context_data : dict; c_notes : list string }.

Definition retry_to_dict (r : RetryPolicy) : dict :=
  [("mode", VStr (rp_mode r)); ("max_attempts", VInt (max_attempts r));
   ("backoff_sec", VList (default [] (backoff_sec r))); ("handoff_role", handoff_role r)].

Abbreviation error_map := (list (string * BrokerErrorDescriptor)).

(** * Configuration *)

Definition parse_retry_policy (payload : pyval) : res RetryPolicy :=
  let data := as_dict_or_empty payload in
  n ← py_int (dget_or "max_attempts" (VInt 1) data);
  b ← py_iter (dget "backoff_sec" data or? VList []);
  Ok (Retry (py_str (dget_or "mode" (VStr "manual") data)) n (if truthy b then Some b else None)
    (dget "handoff_role" data)).

Definition parse_descriptor (key : string) (value : dict) : res BrokerErrorDescriptor :=
  policy ← parse_retry_policy (dget "retry_policy" value);
  ctx ← py_iter (dget "required_context" value or? VList []);
  Ok (Descriptor key (get_str "trigger_reason" value) (get_str "audit_event_id" value)
    (get_str "runbook_ref" value) policy (get_str "evidence_path_template" value) ctx).

Fixpoint parse_entries (raw : dict) : res error_map :=
  match raw with
  | [] => Ok []
  | (key, VDict value) :: raw => d ← parse_descriptor key value; rest ← parse_entries raw; Ok ((key, d) :: rest)
  | _ :: raw => parse_entries raw
  end.

(** The parsed YAML of a file; [None] is a missing file. *)
Definition load_error_map (yaml : option pyval) : res error_map :=
  match default (VDict []) yaml or? VDict [] with
  | VDict payload => match dget "error_map" payload with VDict raw => parse_entries raw | _ => Ok [] end
  | _ => Ok []
  end.

Definition load_config (yaml : option pyval) : dict :=
  match default (VDict []) yaml or? VDict [] with VDict d => d | _ => [] end.

Record RecoveryPlanner := Planner { errors : error_map; config : dict }.

Definition planner_init (map_yaml config_yaml : option pyval) : res RecoveryPlanner :=
  m ← load_error_map map_yaml; Ok (Planner m (load_config config_yaml)).

Definition lookup_error (p : RecoveryPlanner) (code : string) : option BrokerErrorDescriptor :=
  dlookup code (errors p).
Definition recovery_sla_minutes (p : RecoveryPlanner) : res Z := py_int (dget_or "sla_minutes" (VInt 120) (config p)).
Definition max_recovery_seconds (p : RecoveryPlanner) : res Z := py_int (dget_or "max_sec" (VInt 7200) (config p)).

(** * Planning *)

Definition actions_for_trigger (trigger : string) (policy : RetryPolicy) : list RecoveryAction :=
  if String.eqb trigger "rate_limit" then
    [Action "wait" "Wait for rate-limit cooldown" None false;
     Action "retry" "Retry order submission" (Some [("max_attempts", VInt (max_attempts policy))]) false]
  else if String.eqb trigger "timeout" then
    [Action "emergency_plan" "Trigger api_retry plan" None true; Action "retry" "Retry after approval" None true]
  else if String.eqb trigger "partial_fill_timeout" then
    [Action "reduce_only" "Convert remaining qty to reduce-only" None true]
  else if String.eqb trigger "broker_reject" then [Action "review" "Review compliance rejection" None true]
  else [Action "escalate" "Escalate to ops manager" None true].

(** [text.replace(pattern, t)], the pattern not empty; [fuel] bounds the scan. *)
Fixpoint replace_all (fuel : nat) (pattern t s : string) : string :=
  match fuel, s with
  | O, _ => s
  | _, EmptyString => EmptyString
  | Datatypes.S fuel, String c s' =>
      if String.prefix pattern s
      then t +:+ replace_all fuel pattern t (String.substring (String.length pattern) (String.length s - String.length pattern) s)
      else String c (replace_all fuel pattern t s')
  end.
Definition str_replace (pattern t s : string) : string := replace_all (String.length s) pattern t s.

(** [key not in d] *)
Definition key_missing (d : dict) (key : pyval) : res bool :=
  match key with
  | VStr k => Ok (negb (dmem k d))
  | VList _ | VDict _ => Raise (TypeError "unhashable type")
  | _ => Ok true
  end.

(** [",".join(keys)] *)
Definition key_text (v : pyval) : res string :=
  match v with VStr s => Ok s | _ => Raise (TypeError "sequence item: expected str instance") end.

Definition AUDIT : string := "logs/audit/order_recovery.jsonl".

Section plan.
Context `{Env} {S : Type} `{HasWorld S}.

Definition find_descriptor (m : error_map) (code : string) : option BrokerErrorDescriptor :=
  match dlookup code m with Some d => Some d | None => dlookup "UNKNOWN" m end.

Definition plan (p : RecoveryPlanner) (id broker stage : string) (attempts : Z) (last_attempt : pyval)
    (context : option dict) : M S (RecoveryPlan * ErrorContext) :=
  match find_descriptor (errors p) broker with
  | None => raise (RecoveryPlannerError ("missing error map for " +:+ broker))
  | Some first =>
      let ctx := dupdate (default [] context) [("stage_guard_stage", VStr stage); ("attempt_count", VInt attempts);
        ("last_attempt_ts", last_attempt)] in
      missing ← lift (filterM_res (key_missing ctx) (required_context first));
      names ← lift (mapM_res key_text missing);
      let ns := if truthy missing then ["missing_context:" +:+ join "," names] else [] in
      let d := if truthy missing then default first (dlookup "UNKNOWN" (errors p)) else first in
      let path := str_replace "<order_id>" id (evidence_path_template d) in
      let err := ErrCtx broker (d_trigger_reason d) (audit_event_id d) (runbook_ref d) (retry_policy d) path ctx ns in
      u ← fresh_uuid;
      t1 ← utcnow_iso;
      t2 ← utcnow_iso;
      let plan := Plan id ("recovery-" +:+ hex_prefix 10 u) (d_trigger_reason d)
        (actions_for_trigger (d_trigger_reason d) (retry_policy d)) (runbook_ref d) "planned"
        (dget "default_owner" (config p)) (VStr t1) (VStr t2)
        ([VStr ("broker_code=" +:+ broker); VStr ("retry_policy=" +:+ json_dumps (VDict (retry_to_dict (retry_policy d))))]
         ++ (VStr <$> ns)) in
      t3 ← utcnow_iso;
      _ ← append_jsonl AUDIT (VDict [("event", VStr (audit_event_id d)); ("ts", VStr t3); ("order_id", VStr id);
        ("trigger_reason", VStr (d_trigger_reason d)); ("broker_code", VStr broker);
        ("runbook_ref", VStr (runbook_ref d)); ("evidence_path", VStr path)]);
      _ ← when (truthy missing) (
        t4 ← utcnow_iso;
        append_jsonl AUDIT (VDict [("event", VStr "audit.order_recovery_planned.context_missing"); ("ts", VStr t4);
          ("order_id", VStr id); ("missing", VList missing); ("broker_code", VStr broker)]));
      mret (plan, err)
  end.
End plan.

(** * Theorems *)

(** Whether a plan may run without a person. *)
Definition unattended (acts : list RecoveryAction) : bool := forallb (λ a, negb (requires_manual a)) acts.

Lemma actions_spec trigger policy :
  let acts := actions_for_trigger trigger policy in
  acts ≠ [] ∧
  (trigger = "rate_limit" → unattended acts = true) ∧
  (trigger ≠ "rate_limit" → forallb requires_manual acts = true).
Proof.
  cbn zeta. unfold actions_for_trigger.
  destruct (String.eqb_spec trigger "rate_limit") as [->|Hr]; [done|].
  split; [|split; [done|intros _]]; repeat (destruct (String.eqb trigger _); [done|]); done.
Qed.

Section theorems.
Context `{Env} {S : Type} `{HasWorld S}.

Lemma missing_text ctx keys :
  (∀ k, k ∈ keys → ∃ t, k = VStr t) →
  ∃ missing names, filterM_res (key_missing ctx) keys = Ok missing ∧ mapM_res key_text missing = Ok names.
Proof.
  induction keys as [|k keys IH]; intros Hk; [by exists [], []|].
  destruct (Hk k) as [t ->]; [by left|].
  destruct IH as (m & ns & Em & En); [intros k' ?; apply Hk; by right|].
  cbn. rewrite Em. cbn. destruct (negb (dmem t ctx)); [|by exists m, ns].
  exists (VStr t :: m), (t :: ns). cbn. by rewrite En.
Qed.

(** Planning for a failed order: with a descriptor for the code, or one
    called "UNKNOWN", and required context keys that are text, it always returns
    a non-empty plan for that order with the reason and runbook of one of the two
    descriptors; every action needs a person unless the reason is "rate_limit". *)
Theorem plan_is_safe (p : RecoveryPlanner) (id broker stage : string) (attempts : Z) (last_attempt : pyval)
    (context : option dict) (s : S) (first : BrokerErrorDescriptor)
    (Hd : find_descriptor (errors p) broker = Some first)
    (Hk : ∀ k, k ∈ required_context first → ∃ t, k = VStr t) :
  ∃ pl err s' d, plan p id broker stage attempts last_attempt context s = (Ok (pl, err), s') ∧
    (d = first ∨ dlookup "UNKNOWN" (errors p) = Some d) ∧
    plan_order_id pl = id ∧ trigger_reason pl = d_trigger_reason d ∧ plan_runbook_ref pl = runbook_ref d ∧
    actions pl ≠ [] ∧
    (trigger_reason pl ≠ "rate_limit" → forallb requires_manual (actions pl) = true).
Proof.
  unfold plan. rewrite Hd. cbn zeta. set (ctx := dupdate _ _). clearbody ctx.
  destruct (missing_text ctx _ Hk) as (missing & names & Em & En).
  rewrite bind_run, Em. cbn [lift]. rewrite bind_run, En. cbn [lift].
  set (d := if truthy missing then _ else first).
  destruct (actions_spec (d_trigger_reason d) (retry_policy d)) as (Hne & _ & Hman).
  assert (d = first ∨ dlookup "UNKNOWN" (errors p) = Some d) as Hfrom.
  { unfold d. destruct (truthy missing); [|by left]. by destruct (dlookup "UNKNOWN" (errors p)); [right|left]. }
  clearbody d. destruct (truthy missing); eexists _, _, _, d; (split; [reflexivity|]); by split_and!.
Qed.
End theorems.

Definition sample_yaml : pyval :=
  VDict [("error_map", VDict
    [("TIMEOUT", VDict [("trigger_reason", VStr "timeout"); ("audit_event_id", VStr "audit.order_timeout");
       ("runbook_ref", VStr "RUN-BROKER-API-02"); ("evidence_path_template", VStr "evidence/<order_id>.json");
       ("required_context", VList [VStr "adapter"; VStr "attempt_count"])]);
     ("UNKNOWN", VDict [("trigger_reason", VStr "unknown"); ("audit_event_id", VStr "audit.order_unknown");
       ("runbook_ref", VStr "RUN-BROKER-API-09"); ("evidence_path_template", VStr "evidence/<order_id>.json")])])].
Definition sample_planner : RecoveryPlanner :=
  match planner_init (Some sample_yaml) None with Ok p => p | Raise _ => Planner [] [] end.

Lemma plan_is_safe_witness :
  ∃ pl err s', @plan sample_env world _ sample_planner "order-1" "TIMEOUT" "partial_auto" 1 VNone None world0 = (Ok (pl, err), s') ∧
    trigger_reason pl = "unknown" ∧ actions pl ≠ [].
Proof.
  destruct (find_descriptor (errors sample_planner) "TIMEOUT") as [first|] eqn:Ed; [|vm_compute in Ed; discriminate Ed].
  assert (∀ k, k ∈ required_context first → ∃ t, k = VStr t) as Hk.
  { vm_compute in Ed. injection Ed as <-. cbn. intros k Hk.
    repeat (apply elem_of_cons in Hk as [->|Hk]; [by eexists|]). by apply elem_of_nil in Hk. }
  destruct (@plan_is_safe sample_env world _ sample_planner "order-1" "TIMEOUT" "partial_auto" 1 VNone None world0 first Ed Hk)
    as (pl & err & s' & d & E & _ & _ & _ & _ & Hne & _).
  exists pl, err, s'. split; [exact E|]. split; [|exact Hne].
  vm_compute in E. injection E as <- _ _. reflexivity.
Defined.
