(* ===== verification/BrokerRules.v ===== *)
(** Broker rules and the pre-trade policy on them: [src/infra/broker_rules.py]
    (parsing of the rules file) and [src/brokers/policy.py] (validation of an
    order, trading windows). *)

From S2P Require Import Prelude PyFloat PyVal PyEnv.

Local Open Scope Z_scope.
Local Open Scope py_scope.

(** * Data *)

Record AllowedTimeWindow := TimeWindow {
  win_label : string; win_start : string; win_end : string; win_timezone : string;
  win_days : list string; win_notes : list string }.

Record SymbolRules := Symbol {
  sym_symbol : string; sym_description : string; pip_size : float; contract_size : float; min_lot : float;
  lot_step : float; precision : Z; min_distance_pips : list (string * float); freeze_level_pips : float;
  fifo_required : bool; margin_mode : string; allowed_time_windows : list AllowedTimeWindow;
  runbook_links : list string; sym_notes : list string; max_positions : option Z;
  rule_protect_pips : option float; allowed_order_types : list string; swap_triple_day : option string;
  liquidity_tags : list string; sym_metadata : dict }.

Record BrokerRules := Rules {
  rules_schema_version : string; rules_runbook_ref : string; last_reviewed : option string;
  rules_notes : list string; symbols : list (string * SymbolRules) }.

(** * Parsing *)

(** [try: ... except KeyError as exc: raise e] *)
Definition except_key {A} (m : res A) (e : exn) : res A :=
  match m with Raise (KeyError _) => Raise e | _ => m end.

(** [tuple(str(x) for x in v)] *)
Definition str_tuple (v : pyval) : res (list string) := l ← py_iter v; Ok (map py_str l).

Definition opt_val {A} (f : pyval → res A) (v : pyval) : res (option A) :=
  match v with VNone => Ok None | _ => x ← f v; Ok (Some x) end.

Definition window_fields (data : pyval) : res (string * string * string * string) :=
  label ← vindex data "label"; s ← vindex data "start"; e ← vindex data "end"; tz ← vindex data "timezone";
  Ok (py_str label, py_str s, py_str e, py_str tz).

Definition window_from_mapping (data : pyval) : res AllowedTimeWindow :=
  '(label, s, e, tz) ← except_key (window_fields data)
    (BrokerRulesError "Allowed time window is missing required fields");
  days_raw ← vget_or data "days" (VList []);
  days ← (match days_raw with VStr d => Ok [d] | _ => str_tuple days_raw end);
  notes_raw ← vget_or data "notes" (VList []);
  notes ← str_tuple notes_raw;
  Ok (TimeWindow label s e tz days notes).

Record symbol_fields := Fields {
  fd_description : string; fd_pip : float; fd_contract : float; fd_min_lot : float; fd_step : float;
  fd_precision : Z; fd_freeze : float; fd_fifo : bool; fd_margin : string; fd_links : pyval }.

Definition required_fields (data : pyval) : res symbol_fields :=
  let num k := v ← vindex data k; py_float v in
  description ← vindex data "description";
  pip ← num "pip_size"; contract ← num "contract_size"; lot ← num "min_lot"; step ← num "lot_step";
  p ← vindex data "precision"; p ← py_int p;
  freeze ← num "freeze_level_pips";
  fifo ← vindex data "fifo_required"; margin ← vindex data "margin_mode"; links ← vindex data "runbook_links";
  Ok (Fields (py_str description) pip contract lot step p freeze (truthy fifo) (py_str margin) links).

Definition symbol_from_mapping (symbol : string) (data : pyval) : res SymbolRules :=
  f ← except_key (required_fields data) (BrokerRulesError ("Symbol " +:+ symbol +:+ " is missing required fields"));
  dist_raw ← vget_or data "min_distance_pips" (VDict []);
  dist ← (match dist_raw with
    | VDict d => mapM_res (λ kv : string * pyval, x ← py_float kv.2; Ok (kv.1, x)) d
    | _ => Raise (BrokerRulesError ("Symbol " +:+ symbol +:+ " min_distance_pips must be a mapping")) end);
  windows_raw ← vget_or data "allowed_time_windows" (VList []);
  windows ← py_iter windows_raw;
  windows ← mapM_res window_from_mapping windows;
  links ← str_tuple (fd_links f);
  notes ← vget_or data "notes" (VList []); notes ← str_tuple notes;
  types ← vget_or data "allowed_order_types" (VList []); types ← str_tuple types;
  tags ← vget_or data "liquidity_tags" (VList []); tags ← str_tuple tags;
  meta ← vget_or data "metadata" (VDict []);
  meta ← (match meta with VDict d => Ok d
    | _ => Raise (BrokerRulesError ("Symbol " +:+ symbol +:+ " metadata must be a mapping")) end);
  mp ← vget data "max_positions"; pp ← vget data "protect_pips"; st ← vget data "swap_triple_day";
  mp ← opt_val py_int mp; pp ← opt_val py_float pp;
  st ← opt_val (λ v, Ok (py_str v)) st;
  Ok (Symbol symbol (fd_description f) (fd_pip f) (fd_contract f) (fd_min_lot f) (fd_step f) (fd_precision f) dist
    (fd_freeze f) (fd_fifo f) (fd_margin f) windows links notes mp pp types st tags meta).

Section load.
(** [jsonschema.validate(instance, schema)]: the error text, or [None]; the
    outer [None] when the package is not installed. *)
Variable jsonschema : option (pyval → pyval → option string).

Definition validate_schema_if_available (data : pyval) (schema : document) : res unit :=
  match jsonschema, schema with
  | None, _ | _, None => Ok tt
  | _, Some None => Raise (BrokerRulesError "Broker rules schema is invalid JSON: docs/schemas/broker_rules.schema.json")
  | Some validate, Some (Some s) =>
      match validate data s with
      | Some msg => Raise (BrokerRulesError ("Broker rules schema validation failed: " +:+ msg))
      | None => Ok tt
      end
  end.

(** [_load_rules_cached] on the parsed rules file ([None] when it is missing). *)
Definition load_broker_rules (path : string) (yaml : option pyval) (schema : document) : res BrokerRules :=
  match yaml with
  | None => Raise (BrokerRulesError ("Broker rules file does not exist: " +:+ path))
  | Some (VDict data) =>
      _ ← validate_schema_if_available (VDict data) schema;
      let version := py_str (dget_or "schema_version" (VStr "") data) in
      if negb (truthy version) then Raise (BrokerRulesError "Broker rules schema_version is required")
      else
        let ref := py_str (dget_or "runbook_ref" (VStr "") data) in
        if negb (truthy ref) then Raise (BrokerRulesError "Broker rules runbook_ref is required")
        else
          notes ← str_tuple (dget_or "notes" (VList []) data);
          match dget_or "symbols" (VDict []) data with
          | VDict raw =>
              syms ← mapM_res (λ kv : string * pyval, r ← symbol_from_mapping kv.1 kv.2; Ok (kv.1, r)) raw;
              Ok (Rules version ref
                (match dget "last_reviewed" data with VNone => None | v => Some (py_str v) end) notes syms)
          | _ => Raise (BrokerRulesError "Broker rules symbols section must be a mapping")
          end
  | Some _ => Raise (BrokerRulesError ("Broker rules file must deserialize to a mapping: " +:+ path))
  end.
End load.

Definition for_symbol (r : BrokerRules) (symbol : string) : res SymbolRules :=
  match dlookup symbol (symbols r) with
  | Some s => Ok s
  | None => Raise (BrokerRulesError ("Symbol " +:+ symbol +:+ " is not defined in broker rules (available: "
      +:+ join ", " (sorted_strings (keys (symbols r))) +:+ ")"))
  end.

(** * Policy *)

Record BrokerPolicyViolation := Violation { v_code : string; v_message : string; v_runbook_ref : option string }.

Definition normalize_entry_type (t : string) : string := if String.eqb t "marketable_limit" then "limit" else t.

(** [now.strftime("%a").lower()]; day 0 of the epoch was a Thursday. *)
Definition weekday_name (d : datetime) : string :=
  nth (Z.to_nat ((days_from_civil (dt_year d) (dt_month d) (dt_day d) + 3) mod 7))
    ["mon"; "tue"; "wed"; "thu"; "fri"; "sat"; "sun"] "".

(** One or two digits, as [strptime] reads [%H] and [%M] (the longest that
    stays below the limit). *)
Definition strp_field (limit : Z) (s : string) : option (Z * string) :=
  match s with
  | String a r =>
      match digit_of a with
      | Some x =>
          match r with
          | String b r' =>
              match digit_of b with
              | Some y => if x * 10 + y <? limit then Some (x * 10 + y, r') else Some (x, r)
              | None => Some (x, r)
              end
          | EmptyString => Some (x, r)
          end
      | None => None
      end
  | EmptyString => None
  end.

(** [datetime.strptime(text, "%H:%M").time()] in microseconds of the day. *)
Definition strptime_hm (text : string) : res Z :=
  match ('(h, s) ← strp_field 24 text; s ← expect ":"%char s; '(m, s) ← strp_field 60 s;
         if String.eqb s "" then Some (h * 60 + m) else None) with
  | Some t => Ok (minutes_us t)
  | None => Raise (ValueError "time data does not match format '%H:%M'")
  end.

Definition day_us : Z := 86400000000.

Section policy.
Context `{Env} {S : Type} `{HasWorld S}.
(** [ZoneInfo(name)]: the UTC offset in seconds at an instant, or no such zone. *)
Variable zoneinfo : string → option (Z → Z).

(** [now.astimezone(tz).time()] *)
Definition local_time (tz : string) (us : Z) : Z :=
  (us + (match zoneinfo tz with Some off => off us | None => 0 end) * 1000000) mod day_us.

Definition window_open (w : AllowedTimeWindow) (now : datetime) : res bool :=
  if truthy (win_days w) && negb (str_in (weekday_name now) (win_days w)) then Ok false
  else
    let t := local_time (win_timezone w) (utc_us now) in
    s ← strptime_hm (win_start w);
    e ← strptime_hm (win_end w);
    Ok (if s <=? e then (s <=? t) && (t <=? e) else (s <=? t) || (t <=? e)).

Fixpoint any_open (ws : list AllowedTimeWindow) (now : datetime) : res bool :=
  match ws with
  | [] => Ok false
  | w :: ws => b ← window_open w now; if b : bool then Ok true else any_open ws now
  end.

Definition is_within_trading_window (ws : list AllowedTimeWindow) (now : option datetime) : M S bool :=
  if negb (truthy ws) then mret true
  else
    now ← (match now with Some d => mret d | None => now_utc end);
    lift (any_open ws now).

(** The order-type rule. *)
Definition order_type_ok (r : SymbolRules) (entry_type : string) : bool :=
  let allowed := allowed_order_types r in
  let normalized := normalize_entry_type entry_type in
  if truthy allowed && truthy normalized then
    if String.eqb entry_type "marketable_limit"
    then existsb (λ t, str_in t allowed) ["marketable_limit"; "limit"]
    else str_in normalized allowed
  else true.

Definition positions_ok (r : SymbolRules) (n : Z) : bool :=
  match max_positions r with Some m => n <=? m | None => true end.

Definition validate (rules : BrokerRules) (payload : dict) (now : option datetime) : M S (list BrokerPolicyViolation) :=
  let symbol := py_str (dget "symbol" payload or? VStr "") in
  let entry_type := py_str (dget "entry_type" payload or? (dget "order_type" payload or? VStr "")) in
  open_positions ← lift (py_int (dget "open_positions" payload or? VInt 0));
  if negb (truthy symbol) then mret [Violation "symbol_missing" "Symbol is required." None]
  else match for_symbol rules symbol with
  | Raise (BrokerRulesError msg) => mret [Violation "symbol_unknown" msg None]
  | Raise e => raise e
  | Ok r =>
      let ref := head (runbook_links r) in
      let type_bad := if order_type_ok r entry_type then []
        else [Violation "order_type_invalid" (entry_type +:+ " is not allowed for " +:+ symbol) ref] in
      let pos_bad := if positions_ok r open_positions then []
        else [Violation "max_positions_exceeded" (pretty open_positions +:+ " exceeds max_positions="
          +:+ pretty (default 0 (max_positions r))) ref] in
      within ← (if truthy (allowed_time_windows r) then is_within_trading_window (allowed_time_windows r) now
                else mret true);
      let closed := if within : bool then []
        else [Violation "trading_session_closed" (symbol +:+ " is outside allowed trading windows") ref] in
      mret (type_bad ++ pos_bad ++ closed)
  end.
End policy.

(** * Theorems *)

Lemma strptime_hm_range text t : strptime_hm text = Ok t → 0 <= t < day_us.
Proof.
  assert (∀ lim s x r, 10 <= lim → strp_field lim s = Some (x, r) → 0 <= x < lim) as Hf.
  { intros lim s x r Hlim. destruct s as [|a s]; [done|]. cbn [strp_field].
    assert (∀ c v, digit_of c = Some v → 0 <= v <= 9) as Hd.
    { intros c v. unfold digit_of. destruct (_ && _)%bool eqn:E; [|done]. intros [= <-]. to_props. lia. }
    destruct (digit_of a) as [v|] eqn:Ea; [|done]. apply Hd in Ea.
    destruct s as [|b s]; [intros [= <- <-]; lia|]. destruct (digit_of b) as [y|] eqn:Eb; [|intros [= <- <-]; lia].
    apply Hd in Eb. destruct (_ <? _) eqn:E; intros [= <- <-]; to_props; lia. }
  unfold strptime_hm, minutes_us, day_us. intros H.
  destruct (strp_field 24 text) as [[h s]|] eqn:Eh; [|done]. cbn in H.
  destruct (expect _ s) as [s'|]; [|done]. cbn in H.
  destruct (strp_field 60 s') as [[m s'']|] eqn:Em; [|done]. cbn in H.
  destruct (String.eqb s'' ""); [|done]. injection H as <-.
  apply Hf in Eh; [|lia]. apply Hf in Em; [|lia]. lia.
Qed.

Section theorems.
Variable zoneinfo : string → option (Z → Z).
Abbreviation open w now := (window_open zoneinfo w now).

Lemma window_arc w now s e :
  strptime_hm (win_start w) = Ok s → strptime_hm (win_end w) = Ok e →
  truthy (win_days w) && negb (str_in (weekday_name now) (win_days w)) = false →
  open w now = Ok ((local_time zoneinfo (win_timezone w) (utc_us now) - s) mod day_us <=? (e - s) mod day_us).
Proof.
  intros Hs He Hd. unfold window_open. rewrite Hd. cbn zeta. rewrite Hs. cbn. rewrite He. cbn. f_equal.
  set (t := local_time _ _ _). assert (0 <= t < day_us) as Ht by (apply Z.mod_pos_bound; done).
  apply strptime_hm_range in Hs, He. clearbody t. unfold day_us in *.
  destruct (s <=? e) eqn:Ese; to_props; apply Bool.eq_iff_eq_true.
  - rewrite andb_true_iff, !Z.leb_le. split; intros; zdiv.
  - rewrite orb_true_iff, !Z.leb_le. split; intros; zdiv.
Qed.

(** ** The windows shipped for USDJPY in [config/broker_rules.yaml] *)

Definition weekdays : list string := ["mon"; "tue"; "wed"; "thu"; "fri"].
Definition ny_overlap : AllowedTimeWindow := TimeWindow "ny_overlap" "12:00" "21:00" "America/New_York" weekdays [].
Definition tokyo_core : AllowedTimeWindow := TimeWindow "tokyo_core" "00:00" "09:00" "Asia/Tokyo" weekdays [].

(** Friday 20 March 2026, 20:30 in New York, and Saturday the 21st, 08:00 in
    Tokyo, as the UTC readings the policy takes. *)
Definition friday_evening_ny : datetime := DateTime 2026 3 21 0 30 0 0 (Some 0).
Definition saturday_morning_tokyo : datetime := DateTime 2026 3 20 23 0 0 0 (Some 0).

(** The day of a trading window is compared with the UTC day, its hours with
    the local time of the window's zone: in the last half hour of New York's
    Friday session the window is closed, and on Saturday morning in Tokyo it is
    open, although the windows list Monday to Friday. *)
Theorem trading_day_is_utc_day (ny tokyo : Z → Z)
    (Hny : zoneinfo "America/New_York" = Some ny) (Hoff : ny (utc_us friday_evening_ny) = -14400)
    (Htk : zoneinfo "Asia/Tokyo" = Some tokyo) (Hoff' : tokyo (utc_us saturday_morning_tokyo) = 32400) :
  local_time zoneinfo "America/New_York" (utc_us friday_evening_ny) = minutes_us (20 * 60 + 30) ∧
  open ny_overlap friday_evening_ny = Ok false ∧
  local_time zoneinfo "Asia/Tokyo" (utc_us saturday_morning_tokyo) = minutes_us (8 * 60) ∧
  open tokyo_core saturday_morning_tokyo = Ok true.
Proof.
  assert (local_time zoneinfo "America/New_York" (utc_us friday_evening_ny) = minutes_us (20 * 60 + 30)) as E1.
  { unfold local_time. rewrite Hny, Hoff. by vm_compute. }
  assert (local_time zoneinfo "Asia/Tokyo" (utc_us saturday_morning_tokyo) = minutes_us (8 * 60)) as E2.
  { unfold local_time. rewrite Htk, Hoff'. by vm_compute. }
  split_and!; [done| |done|]; [by vm_compute|].
  unfold window_open. cbn [win_timezone tokyo_core]. rewrite E2. by vm_compute.
Qed.

(** A window that lists the day is open exactly when the local time lies on
    the arc of the 24-hour clock from its start to its end, both included, also
    when the window spans midnight. *)
Theorem window_is_clock_arc (w : AllowedTimeWindow) (now : datetime) (s e : Z)
    (Hs : strptime_hm (win_start w) = Ok s) (He : strptime_hm (win_end w) = Ok e)
    (Hd : win_days w = [] ∨ weekday_name now ∈ win_days w) :
  open w now = Ok ((local_time zoneinfo (win_timezone w) (utc_us now) - s) mod day_us <=? (e - s) mod day_us).
Proof.
  apply window_arc; [done|done|]. destruct Hd as [->|Hd]; [done|].
  apply str_in_spec in Hd. rewrite Hd. apply andb_false_r.
Qed.
End theorems.

Definition sample_zones (name : string) : option (Z → Z) :=
  if String.eqb name "America/New_York" then Some (λ _, -14400)
  else if String.eqb name "Asia/Tokyo" then Some (λ _, 32400) else None.

Lemma trading_day_is_utc_day_witness :
  window_open sample_zones ny_overlap friday_evening_ny = Ok false ∧
  window_open sample_zones tokyo_core saturday_morning_tokyo = Ok true.
Proof.
  destruct (trading_day_is_utc_day sample_zones (λ _, -14400) (λ _, 32400) eq_refl eq_refl eq_refl eq_refl)
    as (_ & H1 & _ & H2). by split.
Defined.

Lemma window_is_clock_arc_witness :
  window_open sample_zones (TimeWindow "night" "22:00" "02:00" "Asia/Tokyo" [] []) saturday_morning_tokyo = Ok false.
Proof.
  rewrite (window_is_clock_arc sample_zones (TimeWindow "night" "22:00" "02:00" "Asia/Tokyo" [] [])
    saturday_morning_tokyo (minutes_us (22 * 60)) (minutes_us 120)); [by vm_compute|reflexivity|reflexivity|by left].
Defined.
