(* ===== verification/Failover.v ===== *)
(** Failover and alerting: the emergency planner of [src/emergency/planner.py],
    the API failover planner of [src/brokers/failover.py] and the alert
    dispatcher of [src/infra/alert.py]. *)

From S2P Require Import Prelude PyFloat PyVal PyEnv.

Local Open Scope Z_scope.
Local Open Scope py_scope.

(** * Emergency plans *)

Record EmergencyPlan := Emergency {
  em_plan_id : string; em_scenario : string; em_runbook_ref : string; em_steps : list string;
  em_expected_recovery_min : Z; em_created_at : string }.

Definition emergency_to_dict (p : EmergencyPlan) : dict :=
  [("plan_id", VStr (em_plan_id p)); ("scenario", VStr (em_scenario p)); ("runbook_ref", VStr (em_runbook_ref p));
   ("steps", VList (map VStr (em_steps p))); ("expected_recovery_min", VInt (em_expected_recovery_min p));
   ("created_at", VStr (em_created_at p))].

(** The trigger is a stub that only describes itself. *)
Definition emergency_trigger (scenario runbook : string) (simulate : bool) : dict :=
  [("status", VStr "stub"); ("scenario", VStr scenario); ("runbook", VStr runbook); ("simulated", VBool simulate)].

Definition PLAN_LOG : string := "logs/events/emergency_plan.jsonl".

Section emergency.
Context `{Env} {S : Type} `{HasWorld S}.

Definition emergency_dispatch (p : EmergencyPlan) (simulate : bool) (metadata : option dict) : M S dict :=
  ts ← utcnow_iso;
  _ ← append_jsonl PLAN_LOG (VDict [("event", VStr "emergency.plan_dispatched"); ("ts", VStr ts);
    ("plan", VDict (emergency_to_dict p)); ("metadata", VDict (default [] metadata)); ("simulated", VBool simulate)]);
  mret [("status", VStr (if simulate then "simulated" else "triggered")); ("plan_id", VStr (em_plan_id p));
    ("emergency", VDict (emergency_trigger (em_scenario p) (em_runbook_ref p) simulate))].

Definition record_plan_created (p : EmergencyPlan) : M S unit :=
  ts ← utcnow_iso;
  append_jsonl PLAN_LOG (VDict ([("event", VStr "emergency.plan_created"); ("ts", VStr ts)] ++ emergency_to_dict p)).
End emergency.

(** * API failover *)

Record FailoverPlan := Failover {
  fo_plan_id : string; fo_trigger_reason : string; fo_actions : list string; fo_runbook_ref : string;
  fo_created_at : string; fo_expected_recovery_min : Z; fo_manual_steps : option (list string); fo_stage : string }.

Definition failover_to_dict (p : FailoverPlan) : dict :=
  [("plan_id", VStr (fo_plan_id p)); ("trigger_reason", VStr (fo_trigger_reason p));
   ("actions", VList (map VStr (fo_actions p))); ("runbook_ref", VStr (fo_runbook_ref p));
   ("created_at", VStr (fo_created_at p)); ("expected_recovery_min", VInt (fo_expected_recovery_min p));
   ("manual_steps", VList (map VStr (default [] (fo_manual_steps p)))); ("stage", VStr (fo_stage p))].

(** A state that holds the failover state file. *)
Class HasFailoverFile (S : Type) := {
  failover_file : S → document;
  set_failover_file : document → S → S;
  failover_get_set : ∀ d s, failover_file (set_failover_file d s) = d }.

(** The planner keeps only its runbook; its paths are constants here. *)
Record ApiFailoverPlanner := Planner { fp_runbook_ref : string }.
Definition default_failover_planner : ApiFailoverPlanner := Planner "RUN-BROKER-API-02".

Definition FAILOVER_LOG : string := "logs/events/broker_failover.jsonl".
Definition OPS_WORKLOG : string := "ops_worklog.jsonl".

Definition failover_actions : list string := ["pause_order_router"; "notify_ops"; "switch_to_manual"; "capture_evidence"].
Definition failover_manual_steps : list string :=
  ["Route orders to manual execution"; "Confirm kill switch state"; "Capture broker metrics snapshot"].

Section failover.
Context `{Env} {S : Type} `{HasWorld S} `{HasFailoverFile S}.

(** The state file that stops the order router. *)
Definition failover_payload (p : FailoverPlan) : dict :=
  [("status", VStr "blocked"); ("plan_id", VStr (fo_plan_id p)); ("runbook_ref", VStr (fo_runbook_ref p));
   ("trigger_reason", VStr (fo_trigger_reason p)); ("created_at", VStr (fo_created_at p))].

Definition write_state (p : FailoverPlan) : M S unit :=
  modify (set_failover_file (Some (Some (VDict (failover_payload p))))).

Definition record_plan (p : FailoverPlan) : M S unit :=
  ts ← utcnow_iso;
  append_jsonl FAILOVER_LOG (VDict [("event", VStr "broker_failover_planned"); ("ts", VStr ts);
    ("plan", VDict (failover_to_dict p))]).

Definition failover_dispatch (p : FailoverPlan) (simulate : bool) : M S dict :=
  _ ← write_state p;
  ts ← utcnow_iso;
  _ ← append_jsonl FAILOVER_LOG (VDict [("event", VStr "broker_failover_dispatched"); ("ts", VStr ts);
    ("plan", VDict (failover_to_dict p)); ("simulated", VBool simulate)]);
  ts ← utcnow_iso;
  _ ← append_jsonl OPS_WORKLOG (VDict [("timestamp", VStr ts); ("task", VStr "broker_api_failover");
    ("status", VStr (if simulate then "simulated" else "triggered")); ("plan_id", VStr (fo_plan_id p));
    ("runbook", VStr (fo_runbook_ref p))]);
  emergency_dispatch (Emergency (fo_plan_id p) "api_failover" (fo_runbook_ref p) (fo_actions p)
    (fo_expected_recovery_min p) (fo_created_at p)) simulate None.

Definition failover_plan (f : ApiFailoverPlanner) (reason : string) (dispatch : bool) : M S FailoverPlan :=
  now ← now_utc;
  created ← utcnow_iso;
  let p := Failover ("failover-" +:+ pretty (Z.quot (utc_us now) 1000000)) reason failover_actions
    (fp_runbook_ref f) created 30 (Some failover_manual_steps) "manual_only" in
  _ ← record_plan p;
  _ ← when dispatch (_ ← failover_dispatch p false; mret tt);
  mret p.
End failover.

(** * Alerts *)

Record AlertEvent := Event {
  ev_severity : string; ev_message : string; ev_reason : option string; ev_runbook_ref : option string;
  ev_metadata : option dict; ev_ts : option string }.

Definition AlertSendError (msg : string) : exn := OtherError "AlertSendError" msg.
Definition AlertChannelConfigError (msg : string) : exn := OtherError "AlertChannelConfigError" msg.
Definition AlertTemplateError (msg : string) : exn := OtherError "AlertTemplateError" msg.

Record email := Email {
  mail_host : string; mail_port : Z; mail_login : option (string * string);
  mail_from : string; mail_to : string; mail_subject : string; mail_body : string }.

Definition email_subject (payload : dict) : string :=
  "[tradectl][" +:+ upper (py_str (dget_or "severity" (VStr "info") payload)) +:+ "] "
    +:+ py_str (dget "reason" payload or? VStr "alert").

(** A line break. *)
Definition newline : string := String (ascii_of_N 10) "".

Definition render_body (payload : dict) : string :=
  let meta := dget "metadata" payload or? VDict [] in
  join newline
    (map (λ f : string * string, f.1 +:+ ": " +:+ py_str (dget f.2 payload))
       [("Severity", "severity"); ("Message", "message"); ("Reason", "reason"); ("Runbook", "runbook_ref")]
     ++ (if truthy meta then ["Metadata: " +:+ json_dumps meta] else [])).

Section alert.
Context `{Env} {S : Type} `{HasWorld S}.
(** [os.getenv], and the SMTP session: the text of the [OSError] it ends with. *)
Variable getenv : string → option string.
Variable smtp : email → option string.

Definition event_to_dict (e : AlertEvent) : M S dict :=
  ts ← (if truthy (ev_ts e) then mret (default "" (ev_ts e)) else utcnow_iso);
  mret [("ts", VStr ts); ("severity", VStr (ev_severity e)); ("message", VStr (ev_message e));
    ("reason", vopt_str (ev_reason e)); ("runbook_ref", vopt_str (ev_runbook_ref e));
    ("metadata", VDict (default [] (ev_metadata e)))].

Definition smtp_configured : bool :=
  truthy (getenv "ALERT_SMTP_HOST") && truthy (getenv "ALERT_SMTP_TO")
  && (truthy (getenv "ALERT_SMTP_FROM") || truthy (getenv "ALERT_SMTP_USER")).

Definition send_email (payload : dict) (override_to : option string) : res unit :=
  port ← py_int (VStr (default "587" (getenv "ALERT_SMTP_PORT")));
  let host := default "" (getenv "ALERT_SMTP_HOST") in
  let user := default "" (getenv "ALERT_SMTP_USER") in
  let password := default "" (getenv "ALERT_SMTP_PASS") in
  let sender := default user (getenv "ALERT_SMTP_FROM") in
  let recipients := default "" override_to or? default "" (getenv "ALERT_SMTP_TO") in
  if negb (truthy host) || negb (truthy sender) || negb (truthy recipients)
  then Raise (AlertChannelConfigError "SMTP configuration is missing")
  else match smtp (Email host port (if truthy user && truthy password then Some (user, password) else None)
               sender recipients (email_subject payload) (render_body payload)) with
       | Some msg => Raise (AlertSendError msg)
       | None => Ok tt
       end.

(** [except (AlertChannelConfigError, AlertSendError)] *)
Definition is_alert_error (e : exn) : bool :=
  match e with OtherError c _ => str_in c ["AlertChannelConfigError"; "AlertSendError"] | _ => false end.

Definition dispatch_alert (log_path : string) (level message : option string) (event : option AlertEvent)
    (raise_on_error : bool) : M S unit :=
  e ← (match event, level, message with
    | Some e, _, _ => mret e
    | None, Some l, Some m => mret (Event l m None None None None)
    | None, _, _ => raise (AlertTemplateError "level and message are required") end);
  payload ← event_to_dict e;
  _ ← append_jsonl log_path (VDict payload);
  if smtp_configured
  then try_catch (lift (send_email payload None))
         (λ e, if is_alert_error e && negb raise_on_error then Some (mret tt) else None)
  else mret tt.

Definition test_channel (channel to_address : string) : M S dict :=
  if negb (String.eqb channel "smtp") then raise (AlertChannelConfigError ("unsupported channel: " +:+ channel))
  else if negb smtp_configured then raise (AlertChannelConfigError "SMTP configuration is missing")
  else
    payload ← event_to_dict (Event "info" "Alert channel test" (Some "channel_test") None
      (Some [("channel", VStr channel)]) None);
    _ ← lift (send_email payload (Some to_address));
    mret [("status", VStr "ok"); ("channel", VStr channel); ("to", VStr to_address)].
End alert.

(** * Lemmas *)

(** Whether an order router reading the file is stopped by it. *)
Definition blocks (d : document) : bool :=
  match d with
  | Some (Some (VDict p)) => str_in (py_str (dget "status" p or? VStr "")) ["blocked"; "active"]
  | _ => false
  end.

Section lemmas.
Context `{Env} {S : Type} `{HasWorld S} `{HasFailoverFile S}.
(** Recording something does not touch the failover file. *)
Hypothesis file_wset : ∀ w s, failover_file (wset w s) = failover_file s.

Lemma total_failover_dispatch p b : total (failover_dispatch p b).
Proof. unfold failover_dispatch, write_state, emergency_dispatch. totals. Qed.

Lemma total_failover_plan f reason b : total (failover_plan f reason b).
Proof. pose proof total_failover_dispatch. unfold failover_plan, record_plan. totals. Qed.

Lemma blocked_world :
  preserves (λ s, blocks (failover_file s) = true) utcnow_iso ∧
  ∀ path v, preserves (λ s, blocks (failover_file s) = true) (append_jsonl path v).
Proof using file_wset.
  destruct (preserves_world (λ s, blocks (failover_file s) = true)) as (_ & Hi & _ & Ha & _); [|done].
  intros w s. by rewrite file_wset.
Qed.

Lemma dispatch_blocks p b s : blocks (failover_file (failover_dispatch p b s).2) = true.
Proof using file_wset.
  destruct blocked_world as [Hi Ha]. unfold failover_dispatch, write_state. rewrite bind_run. cbn [modify].
  match goal with |- context [(?m ≫= ?f) ?s0] =>
    cut (preserves (λ s, blocks (failover_file s) = true) (m ≫= f)); [intros Hp; apply (Hp s0)|] end.
  { by rewrite failover_get_set. }
  unfold emergency_dispatch. preserve.
Qed.

(** Dispatching a plan leaves the router blocked. *)
Lemma failover_plan_blocks f reason (s : S) : blocks (failover_file (failover_plan f reason true s).2) = true.
Proof using file_wset.
  unfold failover_plan. rewrite bind_run. cbn [now_utc]. rewrite bind_run. unfold utcnow_iso at 1. rewrite bind_run.
  cbn [now_utc mret M_ret]. set (p := Failover _ _ _ _ _ _ _ _). rewrite bind_run.
  unfold record_plan. rewrite bind_run. cbn [append_jsonl utcnow_iso].
  destruct (utcnow_iso _) as [[ts|e] s1] eqn:E; [|by destruct (total_utcnow_iso (wset (wget s) s)) as (? & ? & ?)].
  cbn [append_jsonl when]. rewrite !bind_run.
  match goal with |- context [failover_dispatch p false ?s0] =>
    pose proof (dispatch_blocks p false s0); destruct (failover_dispatch p false s0) as [[|] ?] end; done.
Qed.
End lemmas.
