(* ===== verification/BrokerMonitor.v ===== *)
(** The broker API monitor: the alert sink, the service-level thresholds, the
    monitor and the heartbeat of [src/brokers/monitor.py] (its rate limiter is in
    [RateLimit]).  The state joins what these operations reach: the world, the
    health monitor, the limiter that broker errors shrink, the failover file. *)

From S2P Require Import Prelude PyFloat PyVal PyEnv Health RateLimit Failover.

Local Open Scope Z_scope.
Local Open Scope py_scope.

(** * Data *)

Record BrokerAlert := Alert {
  al_alert_id : string; al_severity : string; al_code : string; al_message : string; al_adapter : string;
  al_operation : string; al_created_at : string; al_runbook_ref : option string; al_metadata : option dict }.

Definition alert_to_dict (a : BrokerAlert) : dict :=
  [("alert_id", VStr (al_alert_id a)); ("severity", VStr (al_severity a)); ("code", VStr (al_code a));
   ("message", VStr (al_message a)); ("adapter", VStr (al_adapter a)); ("operation", VStr (al_operation a));
   ("created_at", VStr (al_created_at a)); ("runbook_ref", vopt_str (al_runbook_ref a));
   ("metadata", VDict (default [] (al_metadata a)))].

(** The optional shadow store is present or not; the dispatcher is its log. *)
Record BrokerAlertSink := Sink {
  sink_log_path : string; sink_shadow_store : bool; sink_shadow_event_log : option string;
  sink_dispatcher : option string; sink_ops_worklog_path : string }.

Record BrokerSloConfig := Slo { latency_warn_ms : Z; latency_critical_ms : Z; queue_warn_sec : Z }.

Definition slo_from_path (yaml : option pyval) : res BrokerSloConfig :=
  let payload := default (VDict []) yaml in
  p95 ← vget_or payload "latency_ms_p95" (VInt 800);
  w ← vget_or payload "latency_warn_ms" p95; w ← py_int w;
  c ← vget_or payload "latency_critical_ms" (VInt 1500); c ← py_int c;
  q ← vget_or payload "queue_warn_sec" (VInt 30); q ← py_int q;
  Ok (Slo w c q).

(** The monitor's own fields; the health monitor and the limiter are objects it
    shares with the rest of the state ([mon_limited]: it has a limiter). *)
Record BrokerApiMonitor := ApiMonitor {
  mon_slo : BrokerSloConfig; mon_alert_sink : option BrokerAlertSink; mon_limited : bool;
  mon_failover_planner : option ApiFailoverPlanner }.

Definition monitor_init (slo : option pyval) (sink : option BrokerAlertSink) (limited : bool)
    (planner : option ApiFailoverPlanner) : res BrokerApiMonitor :=
  s ← slo_from_path slo; Ok (ApiMonitor s sink limited planner).

Record BrokerHeartbeatResult := Heartbeat {
  hb_status : string; hb_adapter : string; hb_latency_ms : float; hb_operations : list (string * string) }.

Definition heartbeat_to_dict (r : BrokerHeartbeatResult) : dict :=
  [("status", VStr (hb_status r)); ("adapter", VStr (hb_adapter r));
   ("latency_ms", VFloat (fround (hb_latency_ms r) 2));
   ("operations", VDict (map (λ kv : string * string, (kv.1, VStr kv.2)) (hb_operations r)))].

Record ApiState := Api {
  api_world : world; api_health : HealthMonitor; api_limiter : option RateLimitWindow;
  api_failover : document; api_perf : nat }.

#[export] Instance api_has_world : HasWorld ApiState.
Proof.
  refine {| wget := api_world;
    wset := λ w s, Api w (api_health s) (api_limiter s) (api_failover s) (api_perf s) |}; by try intros [].
Defined.

#[export] Instance api_has_failover : HasFailoverFile ApiState.
Proof.
  refine {| failover_file := api_failover;
    set_failover_file := λ d s, Api (api_world s) (api_health s) (api_limiter s) d (api_perf s) |}; by intros.
Defined.

Definition set_health (h : HealthMonitor) (s : ApiState) : ApiState :=
  Api (api_world s) h (api_limiter s) (api_failover s) (api_perf s).
Definition set_limiter (l : option RateLimitWindow) (s : ApiState) : ApiState :=
  Api (api_world s) (api_health s) l (api_failover s) (api_perf s).
Definition set_perf (n : nat) (s : ApiState) : ApiState :=
  Api (api_world s) (api_health s) (api_limiter s) (api_failover s) n.

(** A [float] compared with an [int]: exact, no conversion. *)
Definition fgeb_int (x : float) (z : Z) : bool :=
  match x with
  | S754_nan => false
  | S754_infinity s => negb s
  | S754_zero _ => z <=? 0
  | S754_finite s m e => let '(n, d) := ratio_of m e in z * Zpos d <=? with_sign s n
  end.

(** [str(exc)] *)
Definition exn_text (e : exn) : string :=
  match e with
  | ValueError m | TypeError m | AttributeError m | OverflowError m | ZeroDivisionError m | StageGuardError m
  | StageRequestNotFound m | StageRequestNotApproved m | OrderDispatchRejected m _ | BrokerAccessDenied m
  | BrokerOrderRejected m | BrokerRulesError m | RecoveryPlannerError m | SpreadDataDegradedError m
  | ProviderError m | DataQualityError m _ | OtherError _ m => m
  | KeyError k => str_repr k
  | StopIteration => ""
  end.

(** * Operations *)

Section monitor.
Context `{Env}.
(** [time.monotonic] and [time.perf_counter] by the number of the reading; the
    mail environment; the SQLite insertion of the shadow store. *)
Variable time_at perf_at : nat → float.
Variable getenv : string → option string.
Variable smtp : email → option string.
Variable add_alert : string → string → pyval → M ApiState unit.

Definition perf_counter : M ApiState float := λ s, (Ok (perf_at (api_perf s)), set_perf (1 + api_perf s) s).

(** ** Alert sink *)

Definition emit_sink (k : BrokerAlertSink) (a : BrokerAlert) : M ApiState unit :=
  let payload := VDict (alert_to_dict a) in
  _ ← append_jsonl (sink_log_path k) payload;
  _ ← (match sink_shadow_event_log k with
    | Some path => append_jsonl path (VDict [("event_type", VStr "broker_api.alert"); ("payload", payload);
        ("ts", VStr (al_created_at a))])
    | None => mret tt end);
  _ ← when (sink_shadow_store k) (add_alert (al_alert_id a) "broker_api.alert" payload);
  _ ← (match sink_dispatcher k with
    | Some log => dispatch_alert getenv smtp log (Some (al_severity a)) (Some (al_message a)) None false
    | None => mret tt end);
  when (String.eqb (al_severity a) "critical")
    (append_jsonl (sink_ops_worklog_path k) (VDict [("timestamp", VStr (al_created_at a));
      ("task", VStr "broker_api_recovery"); ("status", VStr "pending"); ("alert_id", VStr (al_alert_id a));
      ("runbook", vopt_str (al_runbook_ref a))])).

Fixpoint list_alert_lines (since : string) (ls : list line) : res (list pyval) :=
  match ls with
  | [] => Ok []
  | LJson r :: ls =>
      skip ← (if truthy since
        then v ← vget r "created_at"; Ok (str_ltb (py_str (v or? VStr "")) since) else Ok false);
      rest ← list_alert_lines since ls;
      Ok (if skip : bool then rest else r :: rest)
  | _ :: ls => list_alert_lines since ls
  end.
Definition list_alerts (log : file) (since : option string) : res (list pyval) :=
  list_alert_lines (default "" since) (file_lines log).

(** ** Monitor *)

Definition METRICS_PATH : string := "metrics/broker_api.jsonl".

Definition emit_alert (m : BrokerApiMonitor) (severity code message adapter operation : string)
    (runbook_ref : option string) (metadata : option dict) : M ApiState unit :=
  match mon_alert_sink m with
  | None => mret tt
  | Some k =>
      id ← fresh_uuid;
      ts ← utcnow_iso;
      emit_sink k (Alert ("broker-" +:+ hex_prefix 12 id) severity code message adapter operation ts runbook_ref
        (Some (default [] metadata)))
  end.

Definition raise_health (level reason : string) (detail : string) : M ApiState unit :=
  zoom api_health set_health
    (raise_condition level reason (Some detail) (Some "runbook:RUN-BROKER-API-02") false).

Definition plan_failover (m : BrokerApiMonitor) (reason : string) : M ApiState unit :=
  match mon_failover_planner m with
  | Some f => _ ← failover_plan f reason true; mret tt
  | None => mret tt
  end.

Definition latency_text (adapter operation : string) (ms : float) : string :=
  adapter +:+ ":" +:+ operation +:+ " latency " +:+ ffixed1 ms +:+ "ms".

Definition record (m : BrokerApiMonitor) (adapter operation : string) (latency_ms : float) (status : string)
    : M ApiState unit :=
  ts ← utcnow_iso;
  _ ← append_jsonl METRICS_PATH (VDict [("ts", VStr ts); ("adapter", VStr adapter); ("operation", VStr operation);
    ("latency_ms", VFloat (fround latency_ms 2)); ("status", VStr status); ("error_bucket", VNone)]);
  let text := latency_text adapter operation latency_ms in
  if fgeb_int latency_ms (latency_critical_ms (mon_slo m)) then
    _ ← emit_alert m "critical" "broker.latency.critical" text adapter operation (Some "RUN-BROKER-API-02") None;
    _ ← raise_health "critical" "broker_latency" text;
    plan_failover m "broker_latency"
  else if fgeb_int latency_ms (latency_warn_ms (mon_slo m)) then
    _ ← emit_alert m "warning" "broker.latency.warn" text adapter operation (Some "RUN-BROKER-API-02") None;
    raise_health "warning" "broker_latency" text
  else mret tt.

(** [self._rate_limiter.shrink_capacity()] with its defaults. *)
Definition shrink_limiter (m : BrokerApiMonitor) : M ApiState unit :=
  l ← gets api_limiter;
  match l, mon_limited m with
  | Some w, true => zoom (λ _, w) (λ w s, set_limiter (Some w) s) (shrink_capacity time_at (of_dec 8 (-1)) "rate_limit_hit")
  | _, _ => mret tt
  end.

Definition record_error (m : BrokerApiMonitor) (adapter operation error_bucket status : string) : M ApiState unit :=
  ts ← utcnow_iso;
  _ ← append_jsonl METRICS_PATH (VDict [("ts", VStr ts); ("adapter", VStr adapter); ("operation", VStr operation);
    ("latency_ms", VNone); ("status", VStr status); ("error_bucket", VStr error_bucket)]);
  let text := adapter +:+ ":" +:+ operation +:+ " error " +:+ error_bucket in
  _ ← emit_alert m (if str_in error_bucket ["auth"; "rate_limit"] then "critical" else "warning")
    ("broker.error." +:+ error_bucket) text adapter operation (Some "RUN-BROKER-API-02") None;
  _ ← when (String.eqb error_bucket "rate_limit") (shrink_limiter m);
  _ ← raise_health "degraded" ("broker_" +:+ error_bucket) text;
  when (str_in error_bucket ["auth"; "network"]) (plan_failover m ("broker_" +:+ error_bucket)).

Definition record_queue_wait (m : BrokerApiMonitor) (adapter operation : string) (wait_sec : float) (queue_depth : Z)
    : M ApiState unit :=
  ts ← utcnow_iso;
  _ ← append_jsonl METRICS_PATH (VDict [("ts", VStr ts); ("adapter", VStr adapter); ("operation", VStr operation);
    ("status", VStr "queued"); ("queue_wait_ms", VFloat (fround (fmul wait_sec (of_Z 1000)) 2));
    ("queue_depth", VInt queue_depth)]);
  let text := adapter +:+ ":" +:+ operation +:+ " queue_wait " +:+ ffixed1 wait_sec +:+ "s" in
  if fgeb_int wait_sec (queue_warn_sec (mon_slo m)) then
    _ ← emit_alert m "warning" "broker.queue.backlog" text adapter operation (Some "RUN-BROKER-API-02") None;
    raise_health "warning" "broker_queue" text
  else mret tt.

(** ** Summaries and report *)

Record metrics_summary := Summary { ms_requests : Z; ms_errors : Z; ms_rate_limit_hits : Z }.

Definition count (b : bool) (n : Z) : Z := if b then n + 1 else n.

Definition summarize_line (r : pyval) (acc : metrics_summary) : res metrics_summary :=
  ev ← vget r "event"; al ← vget_or r "allowed" (VBool true); st ← vget r "status"; eb ← vget r "error_bucket";
  ad ← vget r "adapter"; op ← vget r "operation";
  Ok (Summary (count (truthy ad && truthy op) (ms_requests acc)) (count (eq_str st "error" || truthy eb) (ms_errors acc))
    (count (eq_str ev "broker_rate_limit" && negb (truthy al)) (ms_rate_limit_hits acc))).

Fixpoint summarize_lines (ls : list line) (acc : metrics_summary) : res metrics_summary :=
  match ls with
  | [] => Ok acc
  | LJson r :: ls => acc ← summarize_line r acc; summarize_lines ls acc
  | _ :: ls => summarize_lines ls acc
  end.

Definition summarize_metrics (metrics : file) : res (string * metrics_summary) :=
  match metrics with
  | None => Ok ("missing", Summary 0 0 0)
  | Some ls => s ← summarize_lines ls (Summary 0 0 0); Ok (if ms_errors s =? 0 then "ok" else "warn", s)
  end.

Definition summarize_alerts (m : BrokerApiMonitor) (log : file) : res Z :=
  match mon_alert_sink m with
  | None => Ok 0
  | Some _ => l ← list_alerts log None; Ok (Z.of_nat (length l))
  end.

(** The path and the text of the report. *)
Definition report (m : BrokerApiMonitor) (window output_dir : string) (metrics log : file) : M ApiState (string * string) :=
  now ← now_utc;
  '(status, s) ← lift (summarize_metrics metrics);
  alerts ← lift (summarize_alerts m log);
  ts ← utcnow_iso;
  mret (output_dir +:+ "/broker_monitor_" +:+ yyyymmdd now +:+ ".md",
    join newline ["# Broker Monitor Report (" +:+ window +:+ ")"; ""; "- Generated At: " +:+ ts; "- Status: " +:+ status;
      "- Requests: " +:+ pretty (ms_requests s); "- Errors: " +:+ pretty (ms_errors s);
      "- Rate Limit Hits: " +:+ pretty (ms_rate_limit_hits s); "- Alerts: " +:+ pretty alerts; ""; "## Notes";
      "- Metrics captured in metrics/broker_api.jsonl"; "- Alerts captured in logs/events/broker_alerts.jsonl"; ""]
    +:+ newline).

(** ** Heartbeat *)

(** One probe of the adapter; any exception counts as an error. *)
Definition probe (m : BrokerApiMonitor) (adapter_id op : string) (outcome : M ApiState unit)
    : M ApiState (bool * string) := λ s,
  match outcome s with
  | (Ok _, s) => (Ok (true, "ok"), s)
  | (Raise e, s) => (_ ← record_error m adapter_id op "timeout" "error"; mret (false, "error:" +:+ exn_text e)) s
  end.

Definition check (m : BrokerApiMonitor) (adapter_id : string) (fetch_positions fetch_balances : M ApiState unit)
    : M ApiState BrokerHeartbeatResult :=
  start ← perf_counter;
  p ← probe m adapter_id "fetch_positions" fetch_positions;
  b ← probe m adapter_id "fetch_balances" fetch_balances;
  stop ← perf_counter;
  let elapsed := fmul (fsub stop start) (of_Z 1000) in
  let status := if p.1 && b.1 then "ok" else "error" in
  _ ← record m adapter_id "heartbeat" elapsed status;
  mret (Heartbeat status adapter_id elapsed [("fetch_positions", p.2); ("fetch_balances", b.2)]).
End monitor.

(** * A monitor without alert sink and limiter, as the order router makes it *)

Lemma total_raise_condition `{Env} level reason detail action simulated :
  total (raise_condition level reason detail action simulated).
Proof. unfold raise_condition, emit_health_event. totals. Qed.

Section plain.
Context `{Env}.
Variable time_at perf_at : nat → float.
Variable getenv : string → option string.
Variable smtp : email → option string.
Variable add_alert : string → string → pyval → M ApiState unit.
Variable m : BrokerApiMonitor.
Hypothesis no_sink : mon_alert_sink m = None.
Hypothesis no_limiter : mon_limited m = false.

Lemma total_emit_alert sev code msg a op ref meta : total (emit_alert getenv smtp add_alert m sev code msg a op ref meta).
Proof using no_sink. unfold emit_alert. rewrite no_sink. apply total_ret. Qed.

Lemma total_raise_health level reason detail : total (raise_health level reason detail).
Proof. apply total_zoom, total_raise_condition. Qed.

Lemma total_plan_failover reason : total (plan_failover m reason).
Proof. unfold plan_failover. pose proof total_failover_plan. totals. Qed.

Lemma total_shrink_limiter : total (shrink_limiter time_at m).
Proof using no_limiter. unfold shrink_limiter. rewrite no_limiter. totals. Qed.

Lemma total_record a op ms st : total (record getenv smtp add_alert m a op ms st).
Proof using no_sink.
  pose proof total_emit_alert. pose proof total_raise_health. pose proof total_plan_failover.
  unfold record. totals.
Qed.

Lemma total_record_error a op bucket st : total (record_error time_at getenv smtp add_alert m a op bucket st).
Proof using no_sink no_limiter.
  pose proof total_emit_alert. pose proof total_raise_health. pose proof total_plan_failover.
  pose proof total_shrink_limiter. unfold record_error. totals.
Qed.

Lemma total_record_queue_wait a op w d : total (record_queue_wait getenv smtp add_alert m a op w d).
Proof using no_sink.
  pose proof total_emit_alert. pose proof total_raise_health. unfold record_queue_wait. totals.
Qed.
End plain.

(** A call that took too long, seen by a monitor with a failover planner, leaves
    the order router blocked, whatever else happened on the way. *)
Lemma slow_call_blocks `{Env} getenv smtp add_alert m f a op ms st s u s' :
  mon_failover_planner m = Some f → fgeb_int ms (latency_critical_ms (mon_slo m)) = true →
  record getenv smtp add_alert m a op ms st s = (Ok u, s') → blocks (api_failover s') = true.
Proof.
  intros Hf Hms. unfold record. rewrite Hms. cbn zeta.
  intros (ts & s1 & _ & (u1 & s2 & _ & (u2 & s3 & _ & (u3 & s4 & _ & E)%bind_Ok)%bind_Ok)%bind_Ok)%bind_Ok.
  unfold plan_failover in E. rewrite Hf in E. apply bind_Ok in E as (p & s5 & E & [= _ <-]).
  pose proof (failover_plan_blocks (S:=ApiState) (λ _ _, eq_refl) f "broker_latency" s4) as Hb.
  by rewrite E in Hb.
Qed.
