(* ===== verification/OrderRouter.v ===== *)
(** Order dispatch: the adapter base, registry and sandbox of
    [src/brokers/adapter.py] and [src/brokers/sandbox.py], and the router of
    [src/execution/order_router.py] that takes an order through the failover
    file, the kill switch, the broker policy and the rate limiter to an adapter. *)

From S2P Require Import Prelude PyFloat PyVal PyEnv Health RateLimit BrokerRules Failover BrokerMonitor.

Local Open Scope Z_scope.
Local Open Scope py_scope.

(** * Data *)

Record BrokerOrderRequest := Request {
  rq_ticket_id : string; rq_symbol : string; rq_side : string; rq_quantity : float; rq_price : option float;
  rq_reduce_only : bool; rq_ttl_sec : option Z }.

Record BrokerOrder := Order {
  or_order_id : string; or_ticket_id : string; or_status : string; or_adapter : string; or_submitted_at : string;
  or_ack_at : option string; or_payload : dict }.

Record BrokerPosition := Position {
  po_symbol : string; po_quantity : float; po_avg_price : float; po_side : string; po_position_id : string }.

(** What an access check answers. *)
Record AccessResult := Access {
  ac_status : string; ac_reasons : list string; ac_runbook_ref : option string; ac_device_id : option string }.

(** The access governance is a stub that lets everything pass. *)
Definition enforce_policy (principal_id : string) : AccessResult := Access "allowed" [] None None.

Definition BrokerAdapterError (msg : string) : exn := OtherError "BrokerAdapterError" msg.

(** The files dispatch reads: the kill switch as the router and as the adapter
    see it, the feature flags, the default broker rules, the thresholds. *)
Record DispatchFiles := Files {
  kill_switch_file : document; adapter_kill_switch_file : document; flags_file : option pyval;
  default_rules : res BrokerRules; slo_file : option pyval }.

(** [enforcer] and [monitor] are the optional injected objects. *)
Record OrderRouter := Router {
  router_rules : BrokerRules; router_policy : option BrokerRules; router_monitor : option BrokerApiMonitor }.

Definition ORDERS_AUDIT : string := "logs/audit/broker_orders.jsonl".

(** * Coercions *)

(** [except (TypeError, ValueError): return None] *)
Definition none_on_error {A} (m : res A) : res (option A) :=
  match m with
  | Ok a => Ok (Some a)
  | Raise (TypeError _ | ValueError _) => Ok None
  | Raise e => Raise e
  end.

Definition coerce_float (v : pyval) : res (option float) :=
  match v with VNone => Ok None | _ => none_on_error (py_float v) end.
Definition coerce_int (v : pyval) : res (option Z) :=
  match v with VNone => Ok None | _ => none_on_error (py_int v) end.

Definition normalize_side (v : pyval) : string :=
  let text := lower (py_str (v or? VStr "")) in
  if str_in text ["long"; "buy"] then "buy" else if str_in text ["short"; "sell"] then "sell" else text.

(** * Building the request *)

Definition derive_marketable_limit_price (symbol side : string) (entry_price : option float) (rules : BrokerRules)
    : option float :=
  match entry_price with
  | None => None
  | Some p =>
      match for_symbol rules symbol with
      | Ok r =>
          match rule_protect_pips r with
          | None => Some p
          | Some pips =>
              let offset := fmul pips (pip_size r) in
              Some (if String.eqb side "buy" then fadd p offset else fsub p offset)
          end
      | Raise _ => Some p
      end
  end.

Record order_call := Call {
  call_request : BrokerOrderRequest; call_adapter : string; call_profile : string;
  call_principal : string; call_device : string }.

Definition rejected (reason : string) : exn := OrderDispatchRejected reason "RUN-BROKER-API-01".

Definition build_request_payload (payload : dict) (rules : BrokerRules) : res order_call :=
  let get k := dget k payload in
  let text v := py_str (v or? VStr "") in
  let ticket_id := text (get "ticket_id" or? get "id") in
  let symbol := text (get "symbol" or? get "pair") in
  let side := normalize_side (get "side" or? get "direction") in
  quantity ← coerce_float (get "quantity" or? get "size_lot");
  let entry_type := py_str (get "entry_type" or? (get "entry_mode" or? VStr "market")) in
  entry_price ← coerce_float (get "entry_price");
  let reduce_only := truthy (dget_or "reduce_only" (VBool false) payload) in
  ttl ← coerce_int (get "ttl_sec" or? get "ttl_seconds");
  let adapter := py_str (get "adapter" or? VStr "sandbox") in
  let profile := py_str (get "profile" or? (get "mode" or? VStr "paper")) in
  let principal := text (get "principal_id") in
  let device := text (get "device_id") in
  if negb (truthy ticket_id) then Raise (rejected "ticket_id_missing")
  else if negb (truthy symbol) then Raise (rejected "symbol_missing")
  else if negb (str_in side ["buy"; "sell"]) then Raise (rejected "side_missing")
  else match quantity with
  | None => Raise (rejected "quantity_missing")
  | Some q =>
      if negb (truthy principal) || negb (truthy device) then Raise (rejected "principal_or_device_missing")
      else
        price ← coerce_float (get "price");
        let price := match price with
          | None => if String.eqb entry_type "marketable_limit"
                    then derive_marketable_limit_price symbol side entry_price rules else None
          | p => p end in
        Ok (Call (Request ticket_id symbol side q price reduce_only ttl) adapter profile principal device)
  end.

Definition submap (k : string) (d : dict) : dict := as_dict_or_empty (dget k d).

Definition payload_from_ticket (ticket : dict) : dict :=
  let entry := submap "entry" ticket in
  let position := submap "position" ticket in
  let protect := submap "protect" ticket in
  let get k := dget k ticket in
  let payload :=
    [("ticket_id", get "ticket_id"); ("symbol", get "pair" or? get "symbol");
     ("side", VStr (normalize_side (dget "direction" position)));
     ("quantity", dget "size_lot" position or? dget "quantity" position);
     ("reduce_only", dget_or "reduce_only" (VBool false) position); ("entry_type", dget "type" entry);
     ("entry_price", dget "price" entry); ("price", dget "price" entry);
     ("ttl_seconds", dget "ttl_seconds" protect); ("principal_id", get "principal_id");
     ("device_id", get "device_id"); ("adapter", get "adapter" or? VStr "sandbox");
     ("profile", get "profile" or? (get "mode" or? VStr "paper"))] in
  let payload := if truthy (get "side") then dset "side" (get "side") payload else payload in
  if truthy (get "quantity") then dset "quantity" (get "quantity") payload else payload.

(** * Files *)

Definition load_kill_switch_state (d : document) : res string :=
  match d with
  | None | Some None => Ok "none"
  | Some (Some v) => s ← vget v "state"; Ok (lower (py_str (s or? VStr "none")))
  end.

(** The adapter reads the same file without lowering the case. *)
Definition adapter_kill_switch_state (d : document) : res string :=
  match d with
  | None | Some None => Ok "none"
  | Some (Some v) => s ← vget v "state"; Ok (py_str (s or? VStr "none"))
  end.

(** The flags parse as JSON or else as YAML; anything without the flag is off. *)
Definition feature_enabled (flag profile : string) (flags : option pyval) : bool :=
  match flags with
  | Some (VDict payload) =>
      match dget "defaults" payload with
      | VDict defaults => match dget profile defaults with VDict fl => truthy (dget flag fl) | _ => false end
      | _ => false
      end
  | _ => false
  end.

(** * Adapters *)

Inductive adapter := Sandbox.
Definition adapter_id (a : adapter) : string := match a with Sandbox => "sandbox" end.

Definition get_adapter (name profile : string) (flags : option pyval) : res adapter :=
  let name := if feature_enabled "brokers.api_enabled" profile flags then name else "sandbox" in
  if negb (String.eqb name "sandbox") && feature_enabled "brokers.api_sandbox_only" profile flags
  then Raise (BrokerAdapterError "broker api sandbox-only mode is enabled")
  else if String.eqb name "sandbox" then Ok Sandbox
  else Raise (BrokerAdapterError ("unknown broker adapter: " +:+ name)).

Section dispatch.
Context `{Env}.
Variable time_at perf_at : nat → float.
Variable getenv : string → option string.
Variable smtp : email → option string.
Variable add_alert : string → string → pyval → M ApiState unit.
Variable zoneinfo : string → option (Z → Z).
(** [SecretsVaultService.load(secret_id, purpose=...)]. *)
Variable vault_load : string → string → M ApiState pyval.
Variable files : DispatchFiles.

(** [{"ts": now, **payload}] *)
Definition append_with_ts (path : string) (payload : dict) : M ApiState unit :=
  ts ← utcnow_iso; append_jsonl path (VDict (dupdate [("ts", VStr ts)] payload)).

(** ** The base adapter *)

Definition require_access (principal_id device_id : string) : M ApiState unit :=
  let result := enforce_policy principal_id in
  let deny reasons := append_with_ts ORDERS_AUDIT [("event", VStr "audit.broker_access_denied");
    ("principal_id", VStr principal_id); ("device_id", VStr device_id); ("reasons", VList (map VStr reasons));
    ("runbook_ref", vopt_str (ac_runbook_ref result))] in
  if negb (String.eqb (ac_status result) "allowed") then
    _ ← deny (ac_reasons result);
    raise (BrokerAccessDenied ("access denied: " +:+ join ", " (ac_reasons result)))
  else if truthy (ac_device_id result) && negb (bool_decide (ac_device_id result = Some device_id)) then
    _ ← deny ["device_mismatch"];
    raise (BrokerAccessDenied "device mismatch")
  else mret tt.

(** [_load_secret]: a missing secret is [None]. *)
Definition load_secret (secret_id purpose : string) : M ApiState (option pyval) :=
  try_catch (v ← vault_load secret_id purpose; mret (Some v))
    (λ e, match e with OtherError c _ => if String.eqb c "SecretNotFoundError" then Some (mret None) else None
          | _ => None end).

(** ** The sandbox *)

Definition place_order (a : adapter) (r : BrokerOrderRequest) (principal_id device_id : string) : M ApiState BrokerOrder :=
  let me := VStr (adapter_id a) in
  _ ← require_access principal_id device_id;
  state ← lift (adapter_kill_switch_state (adapter_kill_switch_file files));
  secret ← load_secret ("brokers/" +:+ adapter_id a +:+ "/api_key") "broker_api";
  let present := VBool (truthy secret) in
  let fail_with reason := append_with_ts ORDERS_AUDIT [("event", VStr "audit.broker_order_failed"); ("adapter", me);
    ("ticket_id", VStr (rq_ticket_id r)); ("reason", VStr reason); ("secret_present", present)] in
  if str_in state ["stop"; "STOP"] then
    _ ← fail_with "kill_switch_stop"; raise (BrokerOrderRejected "kill switch stop")
  else if str_in state ["reduce_only"; "REDUCE_ONLY"] && negb (rq_reduce_only r) then
    _ ← fail_with "reduce_only_required"; raise (BrokerOrderRejected "reduce only required")
  else
    id ← fresh_uuid;
    t1 ← utcnow_iso;
    t2 ← utcnow_iso;
    let order := Order ("sbx-" +:+ hex_prefix 12 id) (rq_ticket_id r) "acknowledged" (adapter_id a) t1 (Some t2)
      [("symbol", VStr (rq_symbol r)); ("side", VStr (rq_side r)); ("quantity", VFloat (rq_quantity r));
       ("price", vopt_float (rq_price r)); ("reduce_only", VBool (rq_reduce_only r));
       ("ttl_sec", match rq_ttl_sec r with Some z => VInt z | None => VNone end);
       ("principal_id", VStr principal_id); ("device_id", VStr device_id)] in
    _ ← append_with_ts ORDERS_AUDIT [("event", VStr "audit.broker_order_submitted"); ("adapter", me);
      ("ticket_id", VStr (rq_ticket_id r)); ("order_id", VStr (or_order_id order));
      ("status", VStr (or_status order)); ("secret_present", present)];
    _ ← append_with_ts METRICS_PATH [("adapter", me); ("operation", VStr "place_order");
      ("status", VStr (or_status order)); ("error_code", VNone); ("latency_ms", VInt 0); ("retries", VInt 0);
      ("secret_present", present)];
    mret order.

Definition modify_order (a : adapter) (order_id : string) (updates : dict) : M ApiState BrokerOrder :=
  _ ← append_with_ts ORDERS_AUDIT [("event", VStr "audit.broker_order_modified"); ("adapter", VStr (adapter_id a));
    ("order_id", VStr order_id)];
  t1 ← utcnow_iso;
  t2 ← utcnow_iso;
  mret (Order order_id (py_str (dget "ticket_id" updates or? VStr "unknown")) "modified" (adapter_id a) t1 (Some t2) updates).

Definition cancel_order (a : adapter) (order_id : string) : M ApiState unit :=
  append_with_ts ORDERS_AUDIT [("event", VStr "audit.broker_order_cancelled"); ("adapter", VStr (adapter_id a));
    ("order_id", VStr order_id)].

Definition fetch_positions : M ApiState (list BrokerPosition) := mret [].
Definition fetch_balances : M ApiState (list (string * float)) := mret [("cash", fzero); ("margin_used", fzero)].

(** ** The router's guards *)

Definition assert_failover : M ApiState unit :=
  f ← gets api_failover;
  match f with
  | None | Some None => mret tt
  | Some (Some v) =>
      st ← lift (vget v "status");
      when (str_in (py_str (st or? VStr "")) ["blocked"; "active"])
        (raise (OrderDispatchRejected "broker_failover_active" "RUN-BROKER-API-02"))
  end.

Definition assert_kill_switch (r : BrokerOrderRequest) : M ApiState unit :=
  state ← lift (load_kill_switch_state (kill_switch_file files));
  let refuse reason :=
    _ ← append_with_ts ORDERS_AUDIT [("event", VStr "audit.broker_order_failed"); ("ticket_id", VStr (rq_ticket_id r));
      ("reason", VStr reason)];
    raise (OrderDispatchRejected reason "RUN-RISK-01") in
  if String.eqb state "stop" then refuse "kill_switch_stop"
  else if String.eqb state "reduce_only" && negb (rq_reduce_only r) then refuse "reduce_only_required"
  else mret tt.

(** The violations that count under a profile. *)
Definition effective_violations (profile : string) (vs : list BrokerPolicyViolation) : list BrokerPolicyViolation :=
  if String.eqb profile "live" then vs
  else List.filter (λ v, negb (String.eqb (v_code v) "trading_session_closed")) vs.

Definition assert_policy (o : OrderRouter) (payload : dict) (profile : string) : M ApiState unit :=
  rules ← lift (match router_policy o with Some r => Ok r | None => default_rules files end);
  vs ← validate zoneinfo rules payload None;
  match effective_violations profile vs with
  | [] => mret tt
  | v :: _ => raise (OrderDispatchRejected (v_code v) (default "" (v_runbook_ref v) or? "RUN-BROKER-API-02"))
  end.

Definition reserve_rate_limit : M ApiState (option RateLimitReservation) :=
  l ← gets api_limiter;
  match l with
  | None => mret None
  | Some w =>
      v ← zoom (λ _, w) (λ w s, set_limiter (Some w) s)
            (reserve_detail time_at "order.place" (Some (priority_for w "order.place")));
      mret (Some v)
  end.

(** [self.monitor or BrokerApiMonitor(failover_planner=ApiFailoverPlanner())]: the
    default one has its own new health monitor. *)
Definition resolve_monitor (o : OrderRouter) : M ApiState BrokerApiMonitor :=
  match router_monitor o with
  | Some m => mret m
  | None =>
      m ← lift (monitor_init (slo_file files) None false (Some default_failover_planner));
      _ ← modify (set_health (monitor0 world0));
      mret m
  end.

(** ** Submission *)

Definition refuse_deferred (m : BrokerApiMonitor) (adapter : string) (v : RateLimitReservation) : M ApiState BrokerOrder :=
  _ ← when (negb (feqb (wait_sec v) fzero))
        (record_queue_wait getenv smtp add_alert m adapter "order.place" (wait_sec v) (res_queue_depth v));
  _ ← record_error time_at getenv smtp add_alert m adapter "order.place" "rate_limit" "error";
  raise (OrderDispatchRejected "rate_limit_deferred" "RUN-BROKER-API-02").

(** [adapter.place_order] inside its [try]. *)
Definition place_guarded (m : BrokerApiMonitor) (adapter : string) (a : OrderRouter.adapter) (c : order_call)
    : M ApiState BrokerOrder :=
  let note bucket := record_error time_at getenv smtp add_alert m adapter "order.place" bucket "error" in
  try_catch (place_order a (call_request c) (call_principal c) (call_device c)) (λ e, Some (match e with
    | BrokerAccessDenied _ => _ ← note "auth"; raise (OrderDispatchRejected "broker_access_denied" "RUN-BROKER-API-02")
    | BrokerOrderRejected msg => _ ← note "policy"; raise (OrderDispatchRejected msg "RUN-BROKER-API-02")
    | e => _ ← note "unknown"; raise e
    end)).

Definition dispatch (m : BrokerApiMonitor) (c : order_call) : M ApiState BrokerOrder :=
  a ← lift (get_adapter (call_adapter c) (call_profile c) (flags_file files));
  start ← perf_counter perf_at;
  order ← place_guarded m (call_adapter c) a c;
  stop ← perf_counter perf_at;
  let latency := fmul (fsub stop start) (of_Z 1000) in
  _ ← record getenv smtp add_alert m (call_adapter c) "order.place" latency (or_status order);
  _ ← append_with_ts ORDERS_AUDIT [("event", VStr "audit.broker_order_ack"); ("adapter", VStr (or_adapter order));
    ("ticket_id", VStr (or_ticket_id order)); ("order_id", VStr (or_order_id order)); ("status", VStr (or_status order));
    ("payload", VDict (or_payload order))];
  _ ← append_with_ts METRICS_PATH [("adapter", VStr (or_adapter order)); ("operation", VStr "order_router.submit");
    ("status", VStr (or_status order)); ("ticket_id", VStr (or_ticket_id order));
    ("order_id", VStr (or_order_id order)); ("latency_ms", VFloat (fround latency 2)); ("retries", VInt 0)];
  mret order.

Definition submit (o : OrderRouter) (payload : dict) : M ApiState BrokerOrder :=
  c ← lift (build_request_payload payload (router_rules o));
  _ ← assert_failover;
  _ ← assert_kill_switch (call_request c);
  _ ← assert_policy o payload (call_profile c);
  m ← resolve_monitor o;
  reservation ← reserve_rate_limit;
  match reservation with
  | Some v => if allowed v then dispatch m c else refuse_deferred m (call_adapter c) v
  | None => dispatch m c
  end.

Definition submit_ticket (o : OrderRouter) (ticket : dict) : M ApiState BrokerOrder :=
  submit o (payload_from_ticket ticket).
End dispatch.

(** * What a submission needs *)

(** The failover file as the router reads it: not there, not JSON, or a mapping
    whose status does not block. *)
Definition failover_open (d : document) : bool :=
  match d with
  | None | Some None => true
  | Some (Some (VDict _)) => negb (blocks d)
  | _ => false
  end.

Definition kill_switch_admits (state : res string) (stop reduce : list string) (reduce_only : bool) : bool :=
  match state with
  | Ok k => negb (str_in k stop) && (negb (str_in k reduce) || reduce_only)
  | Raise _ => false
  end.

Section guards.
Context `{Env}.
Variable time_at : nat → float.
Variable zoneinfo : string → option (Z → Z).
Variable files : DispatchFiles.

Definition limiter_admits (s : ApiState) : bool :=
  match (reserve_rate_limit time_at s).1 with
  | Ok None => true
  | Ok (Some v) => allowed v
  | Raise _ => false
  end.

(** Every guard of a submission, on the state the order meets. *)
Definition admitted (o : OrderRouter) (payload : dict) (s : ApiState) (c : order_call) : Prop :=
  build_request_payload payload (router_rules o) = Ok c ∧
  failover_open (api_failover s) = true ∧
  kill_switch_admits (load_kill_switch_state (kill_switch_file files)) ["stop"] ["reduce_only"]
    (rq_reduce_only (call_request c)) = true ∧
  (∃ rules vs s1, match router_policy o with Some r => Ok r | None => default_rules files end = Ok rules ∧
    validate zoneinfo rules payload None s = (Ok vs, s1) ∧ effective_violations (call_profile c) vs = [] ∧
    limiter_admits s1 = true) ∧
  get_adapter (call_adapter c) (call_profile c) (flags_file files) = Ok Sandbox ∧
  kill_switch_admits (adapter_kill_switch_state (adapter_kill_switch_file files)) ["stop"; "STOP"]
    ["reduce_only"; "REDUCE_ONLY"] (rq_reduce_only (call_request c)) = true.

(** ** The guards one by one *)

Lemma assert_failover_Ok s s' : assert_failover s = (Ok tt, s') ↔ failover_open (api_failover s) = true ∧ s' = s.
Proof.
  unfold assert_failover. rewrite bind_run. cbn [gets]. unfold failover_open, blocks.
  assert (∀ s, (mret tt : M ApiState unit) s = (Ok tt, s') ↔ true = true ∧ s' = s) as Hret.
  { intros s0. split; [by intros [= ->]|by intros [_ ->]]. }
  destruct (api_failover s) as [[v|]|]; [|apply Hret..].
  rewrite bind_run. destruct v; cbn [lift vget]; try by split; [intros|intros []].
  destruct (str_in _ _); cbn [when negb]; [by split; [intros|intros []]|apply Hret].
Qed.

Lemma assert_kill_switch_Ok r s s' :
  assert_kill_switch files r s = (Ok tt, s') ↔
  kill_switch_admits (load_kill_switch_state (kill_switch_file files)) ["stop"] ["reduce_only"] (rq_reduce_only r) = true
    ∧ s' = s.
Proof.
  unfold assert_kill_switch. rewrite bind_run.
  assert (∀ s, (mret tt : M ApiState unit) s = (Ok tt, s') ↔ true = true ∧ s' = s) as Hret.
  { intros s0. split; [by intros [= ->]|by intros [_ ->]]. }
  destruct (load_kill_switch_state _) as [k|e]; cbn [lift kill_switch_admits]; [|by split; [intros|intros []]].
  unfold str_in. cbn [existsb]. rewrite !orb_false_r.
  assert (∀ path payload e, (_ ← append_with_ts path payload; raise e) s = (Ok tt, s') ↔ false = true ∧ s' = s) as Hraise.
  { intros path payload e. rewrite bind_run. destruct (append_with_ts _ _ s) as [[] ?]; by split; [intros|intros []]. }
  destruct (String.eqb k "stop"); cbn [negb andb]; [apply Hraise|].
  destruct (String.eqb k "reduce_only"), (rq_reduce_only r); cbn [negb andb orb]; (apply Hret || apply Hraise).
Qed.

Lemma assert_policy_Ok o payload profile s s' :
  assert_policy zoneinfo files o payload profile s = (Ok tt, s') ↔
  ∃ rules vs, match router_policy o with Some r => Ok r | None => default_rules files end = Ok rules ∧
    validate zoneinfo rules payload None s = (Ok vs, s') ∧ effective_violations profile vs = [].
Proof.
  unfold assert_policy. rewrite bind_Ok. split.
  - intros (rules & s1 & [E ->]%lift_Ok & (vs & s2 & E2 & E3)%bind_Ok). exists rules, vs.
    destruct (effective_violations profile vs) eqn:Ev; [|done]. unfold mret, M_ret in E3. by injection E3 as ->.
  - intros (rules & vs & E & E2 & E3). exists rules, s. split; [by apply lift_Ok|]. apply bind_Ok.
    exists vs, s'. by rewrite E3.
Qed.
End guards.

(** Turn "this run returns" into "this step always returns". *)
Ltac as_total := match goal with |- ∃ a s', ?m ?s = _ => cut (total m); [intros Hgoal; exact (Hgoal s)|] end.

Section submission.
Context `{Env}.
Variable time_at perf_at : nat → float.
Variable getenv : string → option string.
Variable smtp : email → option string.
Variable add_alert : string → string → pyval → M ApiState unit.
Variable zoneinfo : string → option (Z → Z).
Variable vault_load : string → string → M ApiState pyval.
Variable files : DispatchFiles.

Abbreviation adapter_admits r :=
  (kill_switch_admits (adapter_kill_switch_state (adapter_kill_switch_file files)) ["stop"; "STOP"]
    ["reduce_only"; "REDUCE_ONLY"] (rq_reduce_only r) = true).

(** The order the sandbox answers with carries the request unchanged. *)
Definition acknowledges (r : BrokerOrderRequest) (order : BrokerOrder) : Prop :=
  or_ticket_id order = rq_ticket_id r ∧ or_status order = "acknowledged" ∧ or_adapter order = "sandbox" ∧
  dget "symbol" (or_payload order) = VStr (rq_symbol r) ∧ dget "side" (or_payload order) = VStr (rq_side r) ∧
  dget "quantity" (or_payload order) = VFloat (rq_quantity r) ∧ dget "price" (or_payload order) = vopt_float (rq_price r) ∧
  dget "reduce_only" (or_payload order) = VBool (rq_reduce_only r).

Lemma total_append_with_ts path d : total (append_with_ts path d).
Proof. unfold append_with_ts. totals. Qed.

Lemma place_order_Ok r p d s order s' :
  place_order vault_load files Sandbox r p d s = (Ok order, s') → adapter_admits r ∧ acknowledges r order.
Proof.
  unfold place_order. intros (u & s1 & _ & E)%bind_Ok. apply bind_Ok in E as (k & s2 & [-> ->]%lift_Ok & E).
  apply bind_Ok in E as (sec & s3 & _ & E). cbn zeta in E. cbn [kill_switch_admits].
  destruct (str_in k ["stop"; "STOP"]); [by apply bind_Ok in E as (? & ? & _ & [=])|].
  destruct (str_in k ["reduce_only"; _]), (rq_reduce_only r) eqn:Er; cbn [negb andb] in E;
    try (by apply bind_Ok in E as (? & ? & _ & [=])).
  all: apply bind_Ok in E as (id & s4 & _ & E); apply bind_Ok in E as (t1 & s5 & _ & E);
    apply bind_Ok in E as (t2 & s6 & _ & E); apply bind_Ok in E as (u1 & s7 & _ & E);
    apply bind_Ok in E as (u2 & s8 & _ & [= <- _]); unfold acknowledges; rewrite Er; by split_and!.
Qed.

(** A vault that answers, or says it has no such secret. *)
Definition vault_answers : Prop := ∀ id p s, ∃ a s', vault_load id p s = (a, s') ∧
  match a with Ok _ => True | Raise e => ∃ msg, e = OtherError "SecretNotFoundError" msg end.

Lemma total_load_secret id p : vault_answers → total (load_secret vault_load id p).
Proof.
  intros Hv s. unfold load_secret, try_catch. rewrite bind_run.
  destruct (Hv id p s) as (a & s1 & -> & Ha). destruct a as [v|e]; [by eexists _, _|].
  destruct Ha as (msg & ->). by eexists _, _.
Qed.

Lemma place_order_runs r p d : vault_answers → adapter_admits r → total (place_order vault_load files Sandbox r p d).
Proof.
  intros Hv Ha. pose proof (λ i q, total_load_secret i q Hv). pose proof total_append_with_ts.
  destruct (adapter_kill_switch_state (adapter_kill_switch_file files)) as [k|] eqn:Ek; [|done].
  cbn [kill_switch_admits] in Ha. to_props.
  assert (str_in k ["reduce_only"; "REDUCE_ONLY"] && negb (rq_reduce_only r) = false) as Hr.
  { by destruct (str_in k ["reduce_only"; _]), (rq_reduce_only r). }
  match goal with H : str_in k ["stop"; "STOP"] = false |- _ => rename H into Hs end.
  assert (total (require_access p d)) as Hacc by (intros s; by eexists _, _).
  unfold place_order. intros s. cbn zeta. rewrite bind_run. destruct (Hacc s) as (u & s1 & ->).
  rewrite bind_run, Ek. cbn [lift]. as_total. apply total_bind; [done|intros sec]. rewrite Hs, Hr. totals.
Qed.

(** What happens once an order has been let through. *)
Lemma dispatch_Ok m c s order s' :
  dispatch time_at perf_at getenv smtp add_alert vault_load files m c s = (Ok order, s') →
  get_adapter (call_adapter c) (call_profile c) (flags_file files) = Ok Sandbox ∧
  adapter_admits (call_request c) ∧ acknowledges (call_request c) order.
Proof.
  unfold dispatch. intros (a & s1 & [Ea ->]%lift_Ok & E)%bind_Ok. destruct a.
  apply bind_Ok in E as (t & s2 & _ & E). apply bind_Ok in E as (ord & s3 & E1 & E).
  apply bind_Ok in E as (t' & s4 & _ & E). apply bind_Ok in E as (u1 & s5 & _ & E).
  apply bind_Ok in E as (u2 & s6 & _ & E). apply bind_Ok in E as (u3 & s7 & _ & [= <- _]).
  split; [done|]. unfold place_guarded, try_catch in E1.
  destruct (place_order _ _ _ _ _ _ s2) as [[o|e] s8] eqn:Ep.
  - injection E1 as -> _. by apply place_order_Ok in Ep.
  - exfalso. destruct e; by apply bind_Ok in E1 as (? & ? & _ & [=]).
Qed.

Lemma dispatch_runs m c :
  mon_alert_sink m = None → vault_answers →
  get_adapter (call_adapter c) (call_profile c) (flags_file files) = Ok Sandbox → adapter_admits (call_request c) →
  total (dispatch time_at perf_at getenv smtp add_alert vault_load files m c).
Proof.
  intros Hm Hv Hg Ha s. unfold dispatch. rewrite bind_run, Hg. cbn [lift]. as_total.
  assert (total (perf_counter perf_at)) by (intros s0; by eexists _, _).
  assert (total (place_guarded time_at getenv smtp add_alert vault_load files m (call_adapter c) Sandbox c)) as Hp.
  { intros s0. unfold place_guarded, try_catch.
    destruct (place_order_runs (call_request c) (call_principal c) (call_device c) Hv Ha s0) as (o & s1 & ->).
    by eexists _, _. }
  pose proof total_append_with_ts. pose proof (λ a op ms st, total_record getenv smtp add_alert m Hm a op ms st).
  totals.
Qed.
(** The monitor the router makes for itself. *)
Definition own_monitor (slo : BrokerSloConfig) : BrokerApiMonitor :=
  ApiMonitor slo None false (Some default_failover_planner).

Lemma resolve_own o slo s :
  router_monitor o = None → slo_from_path (slo_file files) = Ok slo →
  resolve_monitor files o s = (Ok (own_monitor slo), set_health (monitor0 world0) s).
Proof.
  intros Hm Hs. unfold resolve_monitor, monitor_init. rewrite Hm, Hs. reflexivity.
Qed.

Lemma reserve_rate_limit_runs s : ∃ v s1, reserve_rate_limit time_at s = (Ok v, s1) ∧
  ∀ h, (reserve_rate_limit time_at (set_health h s)).1 = Ok v.
Proof.
  unfold reserve_rate_limit. setoid_rewrite bind_run. cbn [gets]. cbn [api_limiter set_health].
  destruct (api_limiter s) as [w|]; [|by eexists _, _].
  setoid_rewrite bind_run. setoid_rewrite zoom_run. cbn [wget api_has_world set_health api_world].
  destruct (reserve_runs time_at "order.place" (Some (priority_for w "order.place")) (wset (api_world s) w))
    as (v & _ & r' & _ & E & _). rewrite E. cbn [fst snd]. by eexists _, _.
Qed.

Abbreviation run o payload s := (submit time_at perf_at getenv smtp add_alert zoneinfo vault_load files o payload s).
Abbreviation admits o payload s c := (admitted time_at zoneinfo files o payload s c).

Section own.
Variable o : OrderRouter.
Variable slo : BrokerSloConfig.
Hypothesis Hm : router_monitor o = None.
Hypothesis Hslo : slo_from_path (slo_file files) = Ok slo.

(** A submission up to the monitor. *)
Lemma submit_prefix payload s order s' :
  run o payload s = (Ok order, s') →
  ∃ c s1 v s2, build_request_payload payload (router_rules o) = Ok c ∧ failover_open (api_failover s) = true ∧
    kill_switch_admits (load_kill_switch_state (kill_switch_file files)) ["stop"] ["reduce_only"]
      (rq_reduce_only (call_request c)) = true ∧
    assert_policy zoneinfo files o payload (call_profile c) s = (Ok tt, s1) ∧
    reserve_rate_limit time_at (set_health (monitor0 world0) s1) = (Ok v, s2) ∧
    match v with Some v => allowed v = true | None => True end ∧
    dispatch time_at perf_at getenv smtp add_alert vault_load files (own_monitor slo) c s2 = (Ok order, s').
Proof using Hm Hslo.
  unfold submit. intros (c & s0 & [Ec ->]%lift_Ok & E)%bind_Ok.
  apply bind_Ok in E as ([] & s1 & [Hf ->]%assert_failover_Ok & E).
  apply bind_Ok in E as ([] & s2 & [Hk ->]%assert_kill_switch_Ok & E).
  apply bind_Ok in E as ([] & s3 & Hp & E). apply bind_Ok in E as (m & s4 & Em & E).
  rewrite (resolve_own o slo _ Hm Hslo) in Em. injection Em as <- <-.
  apply bind_Ok in E as (v & s5 & Er & E). exists c, s3, v, s5. split_and!; try done.
  - destruct v as [v|]; [|done]. destruct (allowed v); [done|]. exfalso. unfold refuse_deferred in E.
    apply bind_Ok in E as (? & ? & _ & (? & ? & _ & [=])%bind_Ok).
  - destruct v as [v|]; [|done]. destruct (allowed v); [done|]. exfalso. unfold refuse_deferred in E.
    apply bind_Ok in E as (? & ? & _ & (? & ? & _ & [=])%bind_Ok).
Qed.

(** C4. The whole admission rule of a router that makes its own monitor: an order
    is sent exactly when its payload is a complete request, the failover file
    does not block, the kill switch admits it for the router and for the
    adapter, the policy has no violation that counts under the profile, the rate
    limiter lets it through and the adapter is the sandbox; and the order that
    comes back carries the request unchanged. *)
Theorem submit_accepts_iff (payload : dict) (s : ApiState) (Hv : vault_answers) :
  ((∃ order s', run o payload s = (Ok order, s')) ↔ (∃ c, admits o payload s c)) ∧
  ∀ order s', run o payload s = (Ok order, s') →
    ∃ c, build_request_payload payload (router_rules o) = Ok c ∧ acknowledges (call_request c) order.
Proof using Hm Hslo.
  split; [split|].
  - intros (order & s' & E). apply submit_prefix in E as (c & s1 & v & s2 & Ec & Hf & Hk & Hp & Hr & Ha & E).
    exists c. apply dispatch_Ok in E as (Hg & Had & _). apply assert_policy_Ok in Hp as (rules & vs & E1 & E2 & E3).
    unfold admitted. split_and!; try done. exists rules, vs, s1. split_and!; try done.
    destruct (reserve_rate_limit_runs s1) as (v' & s3 & E & Eh). unfold limiter_admits. rewrite E. cbn [fst].
    specialize (Eh (monitor0 world0)). rewrite Hr in Eh. injection Eh as <-. by destruct v.
  - intros (c & Ec & Hf & Hk & (rules & vs & s1 & E1 & E2 & E3 & Hl) & Hg & Ha).
    unfold submit. rewrite bind_run, Ec. cbn [lift]. rewrite bind_run.
    rewrite (proj2 (assert_failover_Ok s s)) by done. rewrite bind_run.
    rewrite (proj2 (assert_kill_switch_Ok files (call_request c) s s)) by done. rewrite bind_run.
    rewrite (proj2 (assert_policy_Ok zoneinfo files o payload (call_profile c) s s1)) by eauto.
    rewrite bind_run, (resolve_own o slo _ Hm Hslo), bind_run.
    destruct (reserve_rate_limit_runs s1) as (v & s3 & E & Eh). unfold limiter_admits in Hl. rewrite E in Hl.
    cbn [fst] in Hl. specialize (Eh (monitor0 world0)).
    destruct (reserve_rate_limit time_at (set_health _ s1)) as [r s4]. cbn [fst] in Eh. subst r.
    pose proof (dispatch_runs (own_monitor slo) c eq_refl Hv Hg Ha s4) as Hd.
    destruct v as [v|]; [rewrite Hl|]; exact Hd.
  - intros order s' E. apply submit_prefix in E as (c & s1 & v & s2 & Ec & _ & _ & _ & _ & _ & E).
    exists c. split; [done|]. by apply dispatch_Ok in E as (_ & _ & ?).
Qed.

(** ** A slow order stops the router *)

Lemma perf_policy n payload profile : preserves (λ s, api_perf s = n) (assert_policy zoneinfo files o payload profile).
Proof.
  destruct (preserves_world (λ s : ApiState, api_perf s = n)) as (Hn & _); [done|].
  unfold assert_policy, validate, is_within_trading_window. preserve.
Qed.

Lemma perf_reserve n : preserves (λ s, api_perf s = n) (reserve_rate_limit time_at).
Proof. unfold reserve_rate_limit. preserve. by apply preserves_zoom. Qed.

Hypothesis vault_perf : ∀ id p s, api_perf (vault_load id p s).2 = api_perf s.

Lemma perf_place n r p d : preserves (λ s, api_perf s = n) (place_order vault_load files Sandbox r p d).
Proof using vault_perf.
  destruct (preserves_world (λ s : ApiState, api_perf s = n)) as (_ & Hi & Hu & Ha & _); [done|].
  assert (∀ path v, preserves (λ s, api_perf s = n) (append_with_ts path v)) as Ht.
  { intros path v. unfold append_with_ts. preserve. }
  assert (∀ i q, preserves (λ s, api_perf s = n) (load_secret vault_load i q)) as Hl.
  { intros i q s Hs. unfold load_secret, try_catch. rewrite bind_run. pose proof (vault_perf i q s) as Hv.
    destruct (vault_load i q s) as [[v|e] s1]; cbn in *; [congruence|].
    destruct e; try (cbn; congruence). destruct (String.eqb cls _); cbn; congruence. }
  unfold place_order. preserve.
Qed.

(** C8. The circuit breaker closes: once an order has taken longer than the
    critical latency, every further submission, by any router on the same
    failover file, is refused before anything is sent, until the file changes. *)
Theorem slow_order_blocks_router (payload : dict) (s : ApiState) (order : BrokerOrder) (s' : ApiState)
    (Hsub : run o payload s = (Ok order, s'))
    (Hslow : fgeb_int (fmul (fsub (perf_at (1 + api_perf s)) (perf_at (api_perf s))) (of_Z 1000))
      (latency_critical_ms slo) = true)
    (o' : OrderRouter) (payload' : dict) (c' : order_call) (Hc' : build_request_payload payload' (router_rules o') = Ok c') :
  run o' payload' s' = (Raise (OrderDispatchRejected "broker_failover_active" "RUN-BROKER-API-02"), s').
Proof using Hm Hslo vault_perf.
  cut (blocks (api_failover s') = true).
  { intros Hb. unfold submit. rewrite bind_run, Hc'. cbn [lift]. rewrite bind_run. unfold assert_failover, blocks in *.
    rewrite bind_run. cbn [gets]. destruct (api_failover s') as [[[]|]|]; try done. rewrite bind_run. cbn [lift vget].
    rewrite Hb. done. }
  apply submit_prefix in Hsub as (c & s1 & v & s2 & _ & _ & _ & Hp & Hr & _ & E).
  assert (api_perf s2 = api_perf s) as Hn.
  { pose proof (perf_policy (api_perf s) payload (call_profile c) s eq_refl) as H1. rewrite Hp in H1.
    pose proof (perf_reserve (api_perf s) (set_health (monitor0 world0) s1) H1) as H2. by rewrite Hr in H2. }
  unfold dispatch in E. apply bind_Ok in E as (a & s3 & [_ ->]%lift_Ok & E). destruct a.
  apply bind_Ok in E as (start & s4 & [= <- <-] & E). apply bind_Ok in E as (ord & s5 & Ep & E).
  apply bind_Ok in E as (stop & s6 & [= <- <-] & E). apply bind_Ok in E as (u & s7 & Er & E).
  assert (api_perf s5 = (1 + api_perf s)%nat) as Hn5.
  { unfold place_guarded, try_catch in Ep.
    pose proof (perf_place (1 + api_perf s) (call_request c) (call_principal c) (call_device c)
      (set_perf (1 + api_perf s2) s2)) as H3.
    destruct (place_order _ _ _ _ _ _ _) as [[x|e] s8] eqn:E8.
    - injection Ep as _ <-. apply H3. cbn. by rewrite Hn.
    - exfalso. destruct e; by apply bind_Ok in Ep as (? & ? & _ & [=]). }
  rewrite Hn5, Hn in Er.
  eapply slow_call_blocks in Er; [|reflexivity|exact Hslow].
  apply bind_Ok in E as (u2 & s8 & E8 & E). apply bind_Ok in E as (u3 & s9 & E9 & [= _ <-]).
  unfold append_with_ts in E8, E9. injection E8 as _ <-. injection E9 as _ <-. exact Er.
Qed.
End own.
End submission.

(** * Gaps between the guards and what they are for *)

Section gaps.
Context `{Env}.
Variable time_at perf_at : nat → float.
Variable getenv : string → option string.
Variable smtp : email → option string.
Variable add_alert : string → string → pyval → M ApiState unit.
Variable zoneinfo : string → option (Z → Z).
Variable vault_load : string → string → M ApiState pyval.

Definition with_kill_switch (d : document) (f : DispatchFiles) : DispatchFiles :=
  Files d d (flags_file f) (default_rules f) (slo_file f).

(** The kill-switch states that the health monitor, the risk manager and the
    runbooks use do not stop the router: a submission with "soft_stop" or
    "hard_stop" in the kill-switch file runs step by step as one with no file. *)
Theorem hard_stop_is_not_a_stop (files : DispatchFiles) (st : string) (o : OrderRouter) (payload : dict) (s : ApiState)
    (Hst : st ∈ ["soft_stop"; "hard_stop"]) :
  submit time_at perf_at getenv smtp add_alert zoneinfo vault_load
    (with_kill_switch (Some (Some (VDict [("state", VStr st)]))) files) o payload s =
  submit time_at perf_at getenv smtp add_alert zoneinfo vault_load (with_kill_switch None files) o payload s.
Proof.
  apply str_in_spec in Hst. unfold str_in in Hst. cbn [existsb] in Hst.
  apply orb_true_iff in Hst as [->%String.eqb_eq|Hst]; [reflexivity|].
  apply orb_true_iff in Hst as [->%String.eqb_eq|Hst]; [reflexivity|done].
Qed.

(** The protective price band never applies to a ticket: what a ticket is
    turned into does not depend on the broker rules at all, because the entry
    price is also passed on as the explicit price. *)
Theorem ticket_price_ignores_rules (ticket : dict) (rules rules' : BrokerRules) :
  build_request_payload (payload_from_ticket ticket) rules = build_request_payload (payload_from_ticket ticket) rules'.
Proof.
  set (p := payload_from_ticket ticket).
  assert (dget "price" p = dget "entry_price" p) as Hp.
  { unfold p, payload_from_ticket. cbn zeta. by destruct (truthy (dget "side" ticket)), (truthy (dget "quantity" ticket)). }
  clearbody p. unfold build_request_payload. cbn zeta. rewrite Hp.
  destruct (coerce_float (dget "quantity" p or? _)) as [q|]; [|done]. cbn [mbind res_bind].
  destruct (coerce_float (dget "entry_price" p)) as [ep|]; [|done]. cbn [mbind res_bind].
  by destruct ep.
Qed.
End gaps.

(** ** A concrete router *)

Definition sample_symbol : SymbolRules :=
  Symbol "USDJPY" "spot" (of_dec 1 (-2)) (of_Z 100000) (of_dec 1 (-1)) (of_dec 1 (-2)) 3 [] fzero true "netting" []
    ["docs/runbooks/RUN-HITL-01.md"] [] (Some 20) (Some (of_dec 15 (-1))) ["market"; "marketable_limit"; "stop"] None [] [].
Definition sample_rules : BrokerRules := Rules "broker.rules.v1" "RUN-HITL-01" None [] [("USDJPY", sample_symbol)].
Definition sample_router : OrderRouter := Router sample_rules None None.
Definition sample_files : DispatchFiles := Files None None None (Ok sample_rules) None.
Definition sample_state : ApiState := Api world0 (monitor0 world0) None None 0.
Definition no_secret (id purpose : string) : M ApiState pyval := raise (OtherError "SecretNotFoundError" id).
Definition no_store (id event : string) (payload : pyval) : M ApiState unit := mret tt.
Definition sample_payload (q : pyval) : dict :=
  [("ticket_id", VStr "T-1"); ("symbol", VStr "USDJPY"); ("side", VStr "buy"); ("quantity", q);
   ("entry_type", VStr "market"); ("principal_id", VStr "me"); ("device_id", VStr "desk")].

(** Two seconds between two readings of the performance counter. *)
Definition slow_clock (n : nat) : float := of_Z (2 * Z.of_nat n).

Abbreviation sample_submit q s := (@submit sample_env (λ _, fzero) slow_clock (λ _, None) (λ _, None) no_store
  (λ _, None) no_secret sample_files sample_router (sample_payload q) s).

(** The size of an order is never checked: every quantity other than zero,
    negative, infinite or not a number, is sent and acknowledged. *)
Theorem any_quantity_is_acknowledged (q : float) (Hq : truthy q = true) :
  ∃ order s', sample_submit (VFloat q) sample_state = (Ok order, s') ∧
    or_status order = "acknowledged" ∧ dget "quantity" (or_payload order) = VFloat q.
Proof.
  destruct q as [?| | |]; [done|..]; eexists _, _; (split; [vm_compute; reflexivity|by split]).
Qed.

Lemma any_quantity_is_acknowledged_witness :
  ∃ order s', sample_submit (VFloat (of_Z (-5))) sample_state = (Ok order, s') ∧
    or_status order = "acknowledged" ∧ dget "quantity" (or_payload order) = VFloat (of_Z (-5)).
Proof. exact (any_quantity_is_acknowledged (of_Z (-5)) eq_refl). Defined.

Lemma hard_stop_is_not_a_stop_witness :
  is_ok (@submit sample_env (λ _, fzero) slow_clock (λ _, None) (λ _, None) no_store (λ _, None) no_secret
    (with_kill_switch (Some (Some (VDict [("state", VStr "hard_stop")]))) sample_files) sample_router
    (sample_payload (VInt 1)) sample_state).1 = true.
Proof.
  rewrite (@hard_stop_is_not_a_stop sample_env (λ _, fzero) slow_clock (λ _, None) (λ _, None) no_store (λ _, None)
    no_secret sample_files "hard_stop" sample_router (sample_payload (VInt 1)) sample_state); [by vm_compute|].
  apply elem_of_cons. right. by left.
Defined.

Lemma no_secret_answers : vault_answers no_secret.
Proof. intros id p s. exists (Raise (OtherError "SecretNotFoundError" id)), s. split; [done|]. by exists id. Qed.

Definition sample_slo : BrokerSloConfig := Slo 800 1500 30.

Lemma submit_accepts_iff_witness :
  ∃ c, @admitted sample_env (λ _, fzero) (λ _, None) sample_files sample_router (sample_payload (VInt 1)) sample_state c.
Proof.
  destruct (@submit_accepts_iff sample_env (λ _, fzero) slow_clock (λ _, None) (λ _, None) no_store (λ _, None)
    no_secret sample_files sample_router sample_slo eq_refl eq_refl (sample_payload (VInt 1)) sample_state
    no_secret_answers) as [[H _] _].
  apply H. eexists _, _. vm_compute. reflexivity.
Defined.

Definition after_slow_order : ApiState := (sample_submit (VInt 1) sample_state).2.

Lemma slow_order_blocks_router_witness :
  (sample_submit (VInt 2) after_slow_order).1 =
    Raise (OrderDispatchRejected "broker_failover_active" "RUN-BROKER-API-02").
Proof.
  destruct (sample_submit (VInt 1) sample_state) as [[order|e] s'] eqn:E; [|vm_compute in E; discriminate E].
  unfold after_slow_order. rewrite E.
  destruct (build_request_payload (sample_payload (VInt 2)) (router_rules sample_router)) as [c'|e] eqn:Ec;
    [|vm_compute in Ec; discriminate Ec].
  cbn [snd].
  by rewrite (@slow_order_blocks_router sample_env (λ _, fzero) slow_clock (λ _, None) (λ _, None) no_store (λ _, None)
    no_secret sample_files sample_router sample_slo eq_refl eq_refl (λ _ _ _, eq_refl) (sample_payload (VInt 1))
    sample_state order s' E eq_refl sample_router (sample_payload (VInt 2)) c' Ec).
Defined.
