(* ===== verification/FillShadow.v ===== *)
(** Shadow fills: the recorder and its store of [src/brokers/fill_shadow.py], the
    drift detector of [src/brokers/fill_drift.py] and the replay of
    [src/brokers/fill_replay.py]. *)

From S2P Require Import Prelude PyFloat PyVal PyEnv BrokerRules.

Local Open Scope Z_scope.
Local Open Scope py_scope.

(** * Data *)

Record ShadowSession := Session {
  ss_session_id : string; ss_adapter : string; ss_profile : string; ss_scenario : option string;
  ss_strict : bool; ss_started_at : string }.

Record ShadowFillRecord := FillRecord {
  fr_event_id : string; fr_ticket_id : string; fr_order_id : option string; fr_status : string;
  fr_adapter : string; fr_profile : string; fr_recorded_at : string; fr_payload : dict }.

Record FillDriftAlert := DriftAlert {
  da_ticket_id : string; da_order_id : option string; da_symbol : string; da_drift_pips : float;
  da_severity : string; da_expected_price : float; da_fill_price : float }.

Record FillReplayReport := ReplayReport {
  rr_total_records : Z; rr_drift_alerts : list FillDriftAlert; rr_status : string }.

Definition FillReplayError (msg : string) : exn := OtherError "FillReplayError" msg.

(** * The store *)

Definition EVENT_LOG : string := "logs/broker/shadow_events.jsonl".
Definition SESSION_LOG : string := "logs/broker/shadow_sessions.jsonl".
Definition SHADOW_METRICS : string := "metrics/broker_shadow.jsonl".

(** A timestamp as microseconds of UTC; a text that is not one raises. *)
Definition shadow_parse_ts (value : string) : res (option Z) :=
  if negb (truthy value) then Ok None
  else match fromisoformat (replace_char "Z" "+00:00" value) with
    | None => Raise (ValueError ("Invalid isoformat string: " +:+ str_repr (replace_char "Z" "+00:00" value)))
    | Some d => match dt_tz d with
        | None => Ok (Some (utc_us d))
        | Some _ => us ← to_utc_us d; Ok (Some us)
        end
    end.

(** [_read_jsonl]: the lines that decode. *)
Definition read_records (f : file) : list pyval :=
  omap (λ l, match l with LJson v => Some v | _ => None end) (file_lines f).

Definition keep_record (since : option Z) (statuses : list string) (record : pyval) : res bool :=
  ts ← vget record "ts"; rec_at ← vget record "recorded_at";
  t ← shadow_parse_ts (py_str (ts or? (rec_at or? VStr "")));
  if match since, t with Some s, Some t => t <? s | _, _ => false end then Ok false
  else
    st ← vget record "status";
    Ok (negb (truthy statuses) || str_in (lower (py_str (st or? VStr ""))) statuses).

Definition list_records (log : file) (since : option Z) (status_filter : option (list string)) : res (list pyval) :=
  filterM_res (keep_record since (map lower (default [] status_filter))) (read_records log).

(** The destination path and the records written there. *)
Definition export_date (log : file) (date_value : string) (dest : option string) : res (string * list pyval) :=
  let prefix := replace_char "-" "" date_value in
  records ← filterM_res (λ r, t ← vget r "ts"; Ok (starts_with prefix (replace_char "-" "" (py_str (t or? VStr "")))))
              (read_records log);
  Ok (default ("logs/broker/shadow_" +:+ date_value +:+ ".jsonl") dest, records).

Section shadow.
Context `{Env} {S : Type} `{HasWorld S}.

Definition start_session (adapter profile : string) (scenario : option string) (strict : bool) : M S ShadowSession :=
  id ← fresh_uuid;
  ts ← utcnow_iso;
  let s := Session ("shadow-" +:+ hex_prefix 8 id) adapter profile scenario strict ts in
  _ ← append_jsonl SESSION_LOG (VDict [("session_id", VStr (ss_session_id s)); ("adapter", VStr adapter);
    ("profile", VStr profile); ("scenario", vopt_str scenario); ("strict", VBool strict); ("started_at", VStr ts)]);
  mret s.

Definition shadow_append (r : ShadowFillRecord) : M S unit :=
  append_jsonl EVENT_LOG (VDict [("event", VStr "shadow.fill_recorded"); ("event_id", VStr (fr_event_id r));
    ("ts", VStr (fr_recorded_at r)); ("ticket_id", VStr (fr_ticket_id r)); ("order_id", vopt_str (fr_order_id r));
    ("status", VStr (fr_status r)); ("adapter", VStr (fr_adapter r)); ("profile", VStr (fr_profile r));
    ("payload", VDict (fr_payload r))]).

Definition record_fill (ticket_id : string) (order_id : option string) (status adapter profile : string) (payload : dict)
    : M S ShadowFillRecord :=
  id ← fresh_uuid;
  ts ← utcnow_iso;
  let r := FillRecord ("shadow-" +:+ hex_prefix 12 id) ticket_id order_id status adapter profile ts payload in
  _ ← shadow_append r;
  mret r.

Definition is_pending (r : pyval) : res bool :=
  st ← vget r "status"; Ok (negb (str_in (lower (py_str (st or? VStr ""))) ["filled"; "acknowledged"])).

Definition pending_alert (r : pyval) : res pyval :=
  t ← vget r "ticket_id"; o ← vget r "order_id"; st ← vget r "status";
  Ok (VDict [("ticket_id", t); ("order_id", o); ("status", st)]).

(** [window_minutes] must keep the window inside the calendar. *)
Definition summary (log : file) (window_minutes : Z) (alerts : bool) : M S dict :=
  now ← now_utc;
  since ← lift (let us := utc_us now - minutes_us window_minutes in
    if in_range min_us us max_us then Ok us else Raise (OverflowError "date value out of range"));
  records ← lift (list_records log (Some since) None);
  pending ← lift (filterM_res is_pending records);
  items ← lift (if alerts then mapM_res pending_alert pending else Ok []);
  mret ([("status", VStr "ok"); ("window_minutes", VInt window_minutes); ("records", VInt (Z.of_nat (length records)));
    ("pending", VInt (Z.of_nat (length pending)))] ++ (if alerts then [("alerts", VList items)] else [])).
End shadow.

(** * Drift *)

Definition drift_coerce_float (v : pyval) : res (option float) :=
  match v with
  | VNone => Ok None
  | _ => match py_float v with
         | Ok x => Ok (Some x)
         | Raise (TypeError _ | ValueError _) => Ok None
         | Raise e => Raise e
         end
  end.

Definition compute_pips (symbol : string) (expected fill : float) (rules : BrokerRules) : float :=
  let size := match for_symbol rules symbol with Ok r => pip_size r | Raise _ => of_dec 1 (-4) end in
  let d := fabs (fsub fill expected) in
  if truthy size then fdiv_ieee d size else d.

Definition count_severity (alerts : list FillDriftAlert) : list (string * Z) :=
  fold_left (λ m a, dset (da_severity a) (default 0 (dlookup (da_severity a) m) + 1) m) alerts [].

(** The drift of one record, or [None] when it has no prices or no symbol. *)
Definition measure (rules : BrokerRules) (record : pyval) : res (option FillDriftAlert) :=
  p ← vget record "payload";
  let payload := as_dict_or_empty p in
  expected ← drift_coerce_float (dget "expected_price" payload);
  fill ← drift_coerce_float (dget "fill_price" payload);
  sym ← vget record "symbol";
  let symbol := py_str (dget "symbol" payload or? (sym or? VStr "")) in
  match expected, fill with
  | Some e, Some f =>
      if negb (truthy symbol) then Ok None
      else
        t ← vget record "ticket_id"; o ← vget record "order_id";
        let oid := py_str (o or? VStr "") in
        Ok (Some (DriftAlert (py_str (t or? VStr "")) (if truthy oid then Some oid else None) symbol
          (compute_pips symbol e f rules) "" e f))
  | _, _ => Ok None
  end.

(** Whether a drift is reported, and how severe it is. *)
Definition classify (threshold : float) (a : FillDriftAlert) : option FillDriftAlert :=
  if fltb (da_drift_pips a) threshold then None
  else Some (DriftAlert (da_ticket_id a) (da_order_id a) (da_symbol a) (da_drift_pips a)
    (if fgeb (da_drift_pips a) (fmul threshold (of_Z 2)) then "major" else "minor")
    (da_expected_price a) (da_fill_price a)).

Section drift.
Context `{Env} {S : Type} `{HasWorld S}.
Variable rules : BrokerRules.
Variable threshold : float.

Definition append_drift_event (a : FillDriftAlert) : M S unit :=
  ts ← utcnow_iso;
  append_jsonl EVENT_LOG (VDict [("ts", VStr ts); ("event", VStr "shadow.fill_drift_detected");
    ("ticket_id", VStr (da_ticket_id a)); ("order_id", vopt_str (da_order_id a)); ("symbol", VStr (da_symbol a));
    ("drift_pips", VFloat (da_drift_pips a)); ("severity", VStr (da_severity a));
    ("expected_price", VFloat (da_expected_price a)); ("fill_price", VFloat (da_fill_price a))]).

Fixpoint detect_records (records : list pyval) : M S (list FillDriftAlert) :=
  match records with
  | [] => mret []
  | r :: records =>
      m ← lift (measure rules r);
      match m ≫= classify threshold with
      | Some a => _ ← append_drift_event a; rest ← detect_records records; mret (a :: rest)
      | None => detect_records records
      end
  end.

Definition detect (records : list pyval) : M S (list FillDriftAlert) :=
  alerts ← detect_records records;
  _ ← when (truthy alerts) (
    ts ← utcnow_iso;
    append_jsonl SHADOW_METRICS (VDict [("ts", VStr ts); ("metric", VStr "broker_shadow");
      ("drift_count", VInt (Z.of_nat (length alerts)));
      ("severity_counts", VDict (map (λ kv : string * Z, (kv.1, VInt kv.2)) (count_severity alerts)))]));
  mret alerts.

Definition replay (records : list pyval) (strict : bool) : M S FillReplayReport :=
  alerts ← detect records;
  let report := ReplayReport (Z.of_nat (length records)) alerts (if truthy alerts then "drift_detected" else "ok") in
  if strict && truthy alerts then raise (FillReplayError "shadow drift detected during strict replay")
  else mret report.
End drift.

(** * Theorems *)

Section theorems.
Context `{Env} {S : Type} `{HasWorld S}.
Variable rules : BrokerRules.
Variable threshold : float.

(** The alerts of a list of measured records. *)
Definition drifts (ms : list (option FillDriftAlert)) : list FillDriftAlert := omap (λ m, m ≫= classify threshold) ms.

Lemma detect_records_runs records ms (s : S) :
  mapM_res (measure rules) records = Ok ms →
  ∃ s', detect_records rules threshold records s = (Ok (drifts ms), s').
Proof.
  revert ms s. induction records as [|r records IH]; intros ms s Hm; cbn [mapM_res] in Hm.
  - injection Hm as <-. by exists s.
  - apply bind_ok in Hm as (m & Em & Hm). apply bind_ok in Hm as (ms' & Ems & [= <-]).
    cbn [detect_records]. rewrite bind_run, Em. cbn [lift].
    destruct (m ≫= classify threshold) as [a|] eqn:Ea.
    + rewrite bind_run. assert (total (append_drift_event (S:=S) a)) as Ht by (unfold append_drift_event; totals).
      destruct (Ht s) as (u & s1 & ->). rewrite bind_run. destruct (IH ms' s1 Ems) as (s' & ->).
      exists s'. unfold drifts. cbn. by rewrite Ea.
    + destruct (IH ms' s Ems) as (s' & ->). exists s'. unfold drifts. cbn. by rewrite Ea.
Qed.

Lemma detect_runs records ms (s : S) :
  mapM_res (measure rules) records = Ok ms → ∃ s', detect rules threshold records s = (Ok (drifts ms), s').
Proof.
  intros Hm. unfold detect. rewrite bind_run. destruct (detect_records_runs records ms s Hm) as (s' & ->).
  rewrite bind_run. destruct (truthy (drifts ms)); by eexists.
Qed.

(** A measured drift that reaches the threshold. *)
Definition over_threshold (m : option FillDriftAlert) : bool :=
  match m with Some a => negb (fltb (da_drift_pips a) threshold) | None => false end.

Lemma over_threshold_truthy ms : existsb over_threshold ms = truthy (drifts ms).
Proof.
  unfold drifts. induction ms as [|[a|] ms IH]; cbn; [done| |exact IH].
  unfold classify at 1. by destruct (fltb (da_drift_pips a) threshold).
Qed.

(** A strict replay fails exactly when some record with both prices and a
    symbol drifted by at least the threshold; otherwise, and without [strict]
    always, it reports every drifting record, once and in order. *)
Theorem replay_strict_iff (records : list pyval) (ms : list (option FillDriftAlert)) (strict : bool) (s : S)
    (Hm : mapM_res (measure rules) records = Ok ms) :
  (replay rules threshold records strict s).1 =
    if strict && existsb over_threshold ms
    then Raise (FillReplayError "shadow drift detected during strict replay")
    else Ok (ReplayReport (Z.of_nat (length records)) (drifts ms) (if truthy (drifts ms) then "drift_detected" else "ok")).
Proof.
  rewrite over_threshold_truthy.
  unfold replay. rewrite bind_run. destruct (detect_runs records ms s Hm) as (s' & ->).
  by destruct (strict && truthy (drifts ms)).
Qed.
End theorems.

Definition drifted (fill : float) : pyval :=
  VDict [("ticket_id", VStr "T-1"); ("payload", VDict [("symbol", VStr "USDJPY"); ("expected_price", VFloat (of_Z 150));
    ("fill_price", VFloat fill)])].

Lemma replay_strict_iff_witness :
  (@replay sample_env world _ (Rules "v1" "RUN" None [] []) (of_dec 5 (-1)) [drifted (of_Z 150); drifted (of_Z 151)] true world0).1 =
    Raise (FillReplayError "shadow drift detected during strict replay").
Proof.
  destruct (mapM_res (measure (Rules "v1" "RUN" None [] [])) [drifted (of_Z 150); drifted (of_Z 151)]) as [ms|e] eqn:E;
    [|vm_compute in E; discriminate E].
  rewrite (@replay_strict_iff sample_env world _ (Rules "v1" "RUN" None [] []) (of_dec 5 (-1)) _ ms true world0 E).
  vm_compute in E. injection E as <-. vm_compute. reflexivity.
Defined.
