(* ===== verification/OrderLifecycle.v ===== *)
(** The order lifecycle manager of [src/brokers/order_lifecycle.py]: it creates
    order envelopes under the autonomy stage, records state changes in the order
    store, captures fills, plans recoveries and closes orders. *)

From S2P Require Import Prelude PyFloat PyVal PyEnv Health RateLimit StageGuard OrderStore Recovery Failover BrokerRules FillShadow BrokerMonitor.

Local Open Scope Z_scope.
Local Open Scope py_scope.

(** * Data *)

Record OrderCompletionReceipt := Receipt {
  rc_order_id : string; rc_status : string; rc_completed_at : string; rc_evidence_hash : string }.

Definition receipt_to_dict (r : OrderCompletionReceipt) : dict :=
  [("order_id", VStr (rc_order_id r)); ("status", VStr (rc_status r)); ("completed_at", VStr (rc_completed_at r));
   ("evidence_hash", VStr (rc_evidence_hash r))].

(** The manager's collaborators: the stage guard is only asked for its stage. *)
Record OrderLifecycleManager := Manager {
  lm_stage : StageName; lm_monitor : BrokerApiMonitor; lm_recovery_planner : RecoveryPlanner }.

Record Lifecycle := Life { lc_world : world; lc_store : OrderStateStore; lc_api : ApiState }.

#[export] Instance lifecycle_has_world : HasWorld Lifecycle.
Proof. refine {| wget := lc_world; wset := λ w s, Life w (lc_store s) (lc_api s) |}; by try intros []. Defined.

Definition set_store (d : OrderStateStore) (s : Lifecycle) : Lifecycle := Life (lc_world s) d (lc_api s).
Definition set_api (a : ApiState) (s : Lifecycle) : Lifecycle := Life (lc_world s) (lc_store s) a.

Definition LIFECYCLE_AUDIT : string := "logs/audit/order_lifecycle.jsonl".
Definition LIFECYCLE_METRICS : string := "metrics/broker_orders.jsonl".
Definition OPS_AGENDA : string := "logs/events/ops.agenda.jsonl".

(** The value with every mapping in it in key order, as [json.dumps] writes it
    with [sort_keys]. *)
Fixpoint sort_keys (v : pyval) : pyval :=
  match v with
  | VList l => VList (map sort_keys l)
  | VDict d => VDict (isort (λ a b : string * pyval, str_ltb a.1 b.1) (map (λ kv, (kv.1, sort_keys kv.2)) d))
  | v => v
  end.

Section lifecycle.
Context `{Env}.
Variable getenv : string → option string.
Variable smtp : email → option string.
Variable add_alert : string → string → pyval → M ApiState unit.
(** [hashlib.sha256(text.encode()).hexdigest()] *)
Variable sha256 : string → string.
(** [json.dumps(v)] with its default separators and escapes. *)
Variable dumps : pyval → string.
Variable g : OrderLifecycleManager.

Definition on_store {A} (m : M OrderStateStore A) : M Lifecycle A := zoom lc_store set_store m.
Definition on_api {A} (m : M ApiState A) : M Lifecycle A := zoom lc_api set_api m.

Definition default_evidence_hash (order_id : string) : string := sha256 order_id.
Definition hash_payload (payload : dict) : string := sha256 (dumps (sort_keys (VDict payload))).

Definition create (ticket : dict) (stage_guard_ctx : option dict) : M Lifecycle OrderEnvelope :=
  let stage := match stage_guard_ctx with
    | Some ctx => if truthy ctx then py_str (dget "stage" ctx) else stage_str (lm_stage g)
    | None => stage_str (lm_stage g) end in
  let ro := truthy (dget_or "reduce_only" (VBool false) ticket) in
  if String.eqb stage "manual_only" then raise (OrderDispatchRejected "stage_manual_only" "RUN-BROKER-API-03")
  else if String.eqb stage "reduce_only" && negb ro
  then raise (OrderDispatchRejected "stage_reduce_only_required" "RUN-RISK-01")
  else
    u ← fresh_uuid;
    let id := "order-" +:+ hex_prefix 12 u in
    let mode := dget_or "mode" (VStr "paper") ticket in
    snap ← lift (to_dict (dget "risk_snapshot" ticket or? VDict []));
    at_ ← utcnow_iso;
    let envelope := Envelope id (dget "external_id" ticket) (py_str mode) stage (dget "strategy_id" ticket)
      (dget "ticket_id" ticket) (py_str (dget_or "profile" mode ticket)) snap (dget "protect_pips" ticket) ro
      (py_str (dget_or "submitted_by" (VStr "system") ticket)) at_ in
    _ ← on_store (save_envelope envelope);
    ts ← utcnow_iso;
    _ ← on_store (save_state (State id "created" ts 1 (default_evidence_hash id) VNone VNone VNone VNone None
          "broker.order_state.v1") (env_mode envelope));
    ts ← utcnow_iso;
    _ ← append_jsonl LIFECYCLE_AUDIT (VDict [("event", VStr "audit.order_created"); ("ts", VStr ts);
      ("order_id", VStr id); ("stage_guard_stage", VStr stage); ("ticket_id", ticket_id envelope)]);
    mret envelope.

(** The backlog report of a queued order. *)
Definition report_queue (payload : dict) : M Lifecycle unit :=
  wait_ms ← lift (py_float (dget "queue_wait_ms" payload));
  if fgtb wait_ms fzero then
    depth ← lift (py_int (dget_or "queue_depth" (VInt 0) payload));
    _ ← on_api (record_queue_wait getenv smtp add_alert (lm_monitor g)
          (py_str (dget_or "adapter" (VStr "unknown") payload)) "order.place" (fdiv_ieee wait_ms (of_Z 1000)) depth);
    zoom (λ _, monitor0 world0) (λ _ s, s) (raise_condition "warn" "broker_queue_backlog"
      (Some ("queue_wait_ms=" +:+ frepr wait_ms)) (Some "runbook:RUN-BROKER-API-02#RL-01") false)
  else mret tt.

(** [recovery_plan] of the payload is a plan object; the rest of it are values. *)
Definition update_state (id status mode : string) (payload : dict) (recovery_plan : option RecoveryPlan)
    : M Lifecycle OrderState :=
  '(envelope, current) ← on_store (load id mode);
  n ← lift (py_int (dget_or "attempt" (VInt (match current with Some c => attempt c | None => 1 end)) payload));
  let n := if truthy (dget "increment_attempt" payload) then n + 1 else n in
  let hash := dget "evidence_hash" payload or? vopt_str (evidence_hash <$> current) in
  let hash := if truthy hash then hash else VStr (default_evidence_hash id) in
  ts ← utcnow_iso;
  let st := State id status ts n (py_str hash) (dget "error_code" payload) (dget "retry_after" payload)
    (dget "ack_received_at" payload) (dget "fill_summary" payload) recovery_plan "broker.order_state.v1" in
  _ ← on_store (save_state st mode);
  let stage := vopt_str (stage_guard_stage <$> envelope) in
  ts ← utcnow_iso;
  _ ← append_jsonl LIFECYCLE_AUDIT (VDict [("event", VStr "audit.order_state_changed"); ("ts", VStr ts);
    ("order_id", VStr id); ("status", VStr status); ("stage_guard_stage", stage); ("runbook_ref", dget "runbook_ref" payload)]);
  ts ← utcnow_iso;
  _ ← append_jsonl LIFECYCLE_METRICS (VDict [("ts", VStr ts); ("order_id", VStr id); ("status", VStr status);
    ("stage_guard_stage", stage); ("latency_ms", dget "latency_ms" payload);
    ("queue_wait_ms", dget "queue_wait_ms" payload); ("retry_after", dget "retry_after" payload)]);
  _ ← when (String.eqb status "queued" && truthy (dget "queue_wait_ms" payload)) (report_queue payload);
  mret st.

Definition attach_fill (id mode : string) (fill_event : dict) (status : string) : M Lifecycle OrderState :=
  let summary := hash_payload fill_event in
  _ ← record_fill (py_str (dget "ticket_id" fill_event or? VStr "")) (Some (py_str (dget "order_id" fill_event or? VStr id)))
        status (py_str (dget "adapter" fill_event or? VStr "")) (py_str (dget "profile" fill_event or? VStr "paper")) fill_event;
  update_state id status mode [("fill_summary", VStr summary); ("ack_received_at", dget "ack_received_at" fill_event)] None.

(** [(now + timedelta(minutes=m)).date().isoformat()] *)
Definition due_date (now : datetime) (minutes : Z) : res string :=
  let us := utc_us now + minutes_us minutes in
  if in_range min_us us max_us then Ok (iso_date (from_utc_us us)) else Raise (OverflowError "date value out of range").

Definition schedule_recovery (id mode broker_code : string) (context : option dict)
    : M Lifecycle (OrderState * RecoveryPlan) :=
  '(envelope, current) ← on_store (load id mode);
  let stage := match envelope with Some e => stage_guard_stage e | None => "manual_only" end in
  '(pl, err) ← plan (lm_recovery_planner g) id broker_code stage (match current with Some c => attempt c | None => 1 end)
                 (match current with Some c => VStr (last_transition c) | None => VNone end) context;
  st ← update_state id "error" mode [("error_code", VStr broker_code); ("runbook_ref", VStr (c_runbook_ref err))] (Some pl);
  now ← now_utc;
  due ← lift (sla ← recovery_sla_minutes (lm_recovery_planner g); due_date now sla);
  ts ← utcnow_iso;
  _ ← append_jsonl OPS_AGENDA (VDict [("event", VStr "ops.agenda.todo"); ("ts", VStr ts);
    ("task", VStr ("Order recovery " +:+ id)); ("owner", assigned_to pl or? VStr "ops"); ("due", VStr due);
    ("source", VStr "broker_orders"); ("order_id", VStr id); ("runbook_ref", VStr (plan_runbook_ref pl))]);
  mret (st, pl).

Definition finalize (id mode : string) : M Lifecycle OrderCompletionReceipt :=
  _ ← on_store (load id mode);
  st ← update_state id "reconciled" mode [] None;
  ts ← utcnow_iso;
  let r := Receipt id (status st) ts (evidence_hash st) in
  _ ← append_jsonl LIFECYCLE_AUDIT (VDict [("event", VStr "audit.order_lifecycle_completed"); ("ts", VStr (rc_completed_at r));
    ("order_id", VStr id); ("status", VStr (status st)); ("runbook_ref", VStr "RUN-BROKER-API-02")]);
  mret r.
End lifecycle.

(** * Theorems *)

Section theorems.
Context `{Env}.
Variable getenv : string → option string.
Variable smtp : email → option string.
Variable add_alert : string → string → pyval → M ApiState unit.
Variable sha256 : string → string.
Variable dumps : pyval → string.
Variable g : OrderLifecycleManager.

(** The envelope file of an order is missing or is one that was saved. *)
Definition saved_envelope (mode id : string) (d : OrderStateStore) : Prop :=
  envelope_of mode id d = None ∨ ∃ e, envelope_of mode id d = Some (VDict (envelope_to_dict e)).

(** No file of the mode is dated after a reading of the clock. *)
Definition up_to_date (mode : string) (d : OrderStateStore) : Prop :=
  ∀ n, chronological (yyyymmdd (clock_at n) +:+ ".jsonl") (dir_of mode d).

(** The history, the envelopes and the files of a store do not depend on its
    world. *)
Lemma history_dirs id mode d d' : mode_dirs d' = mode_dirs d → history id mode d' = history id mode d.
Proof. intros E. unfold history, records, dir_of. by rewrite E. Qed.
Lemma saved_envelopes id mode d d' : envelopes d' = envelopes d → saved_envelope mode id d → saved_envelope mode id d'.
Proof. intros E. unfold saved_envelope, envelope_of. by rewrite E. Qed.
Lemma up_to_date_dirs mode d d' : mode_dirs d' = mode_dirs d → up_to_date mode d → up_to_date mode d'.
Proof. intros E Hd n. unfold dir_of. rewrite E. apply Hd. Qed.

Lemma load_runs id mode d h :
  history id mode d = Ok h → saved_envelope mode id d →
  ∃ e d', load id mode d = (Ok (e, last h), d') ∧ mode_dirs d' = mode_dirs d ∧ envelopes d' = envelopes d.
Proof.
  intros Hh He.
  assert (∃ e d', load_envelope id mode d = (Ok e, d') ∧ mode_dirs d' = mode_dirs d ∧ envelopes d' = envelopes d)
    as (e & d' & E & Hd & Hn).
  { unfold load_envelope. rewrite bind_run. cbn [gets]. destruct He as [->|(e & ->)]; [by eexists _, _|].
    destruct e as [oid ext md stage strat ticket prof [|kv snap] pips ro by_ at_]; by eexists _, _. }
  exists e, d'. split; [|done]. unfold load. rewrite bind_run, E, bind_run. cbn [get]. rewrite bind_run.
  unfold latest_state, history, records, dir_of in *. rewrite Hd, Hh. reflexivity.
Qed.

(** The record an update writes. *)
Definition updated (id st : string) (payload : dict) (pl : option RecoveryPlan) (n : Z) (current : option OrderState)
    (o : OrderState) : Prop :=
  order_id o = id ∧ status o = st ∧ recovery_plan o = pl ∧ error_code o = dget "error_code" payload ∧
  attempt o = (if truthy (dget "increment_attempt" payload) then n + 1 else n) ∧
  evidence_hash o = py_str (let h := dget "evidence_hash" payload or? vopt_str (evidence_hash <$> current) in
    if truthy h then h else VStr (default_evidence_hash sha256 id)).

Lemma update_runs id st mode payload pl s h n :
  history id mode (lc_store s) = Ok h → saved_envelope mode id (lc_store s) → up_to_date mode (lc_store s) →
  py_int (dget_or "attempt" (VInt (match last h with Some c => attempt c | None => 1 end)) payload) = Ok n →
  String.eqb st "queued" && truthy (dget "queue_wait_ms" payload) = false →
  ∃ o s', update_state getenv smtp add_alert sha256 g id st mode payload pl s = (Ok o, s') ∧
    updated id st payload pl n (last h) o ∧ history id mode (lc_store s') = Ok (h ++ [norm_state o]).
Proof.
  intros Hh He Hd Hn Hq. unfold update_state. rewrite bind_run. unfold on_store at 1. rewrite zoom_run.
  destruct (load_runs id mode (wset (wget s) (lc_store s)) h) as (e & d1 & E & Hd1 & He1);
    [by rewrite (history_dirs id mode (lc_store s))|by eapply saved_envelopes|]. rewrite E. cbn [fst snd].
  rewrite bind_run, Hn. cbn [lift]. set (s1 := wset (wget d1) _). rewrite bind_run.
  unfold utcnow_iso at 1. rewrite bind_run. cbn [now_utc mret M_ret]. set (s2 := wset _ s1).
  set (o := State _ _ _ _ _ _ _ _ _ _ _).
  rewrite bind_run. unfold on_store at 1. rewrite zoom_run.
  assert (history id mode (wset (wget s2) (lc_store s2)) = Ok h) as Hh2.
  { rewrite <- Hh. by apply history_dirs. }
  assert (chronological (today (wset (wget s2) (lc_store s2))) (dir_of mode (wset (wget s2) (lc_store s2)))) as Hc.
  { by eapply up_to_date_dirs. }
  pose proof (saved_history o mode id _ h Hc Hh2) as Hs.
  destruct (save_state_records o mode _ Hc) as [Hok _].
  destruct (save_state o mode (wset (wget s2) (lc_store s2))) as [r d2]. cbn [fst snd] in *. subst r.
  change (order_id o) with id in Hs. rewrite String.eqb_refl in Hs.
  set (s3 := wset _ _). rewrite bind_run.
  unfold utcnow_iso at 1. rewrite bind_run. cbn [now_utc mret M_ret]. rewrite bind_run. cbn [append_jsonl].
  rewrite bind_run. unfold utcnow_iso at 1. rewrite bind_run. cbn [now_utc mret M_ret]. rewrite bind_run. cbn [append_jsonl].
  rewrite bind_run, Hq. cbn [when mret M_ret]. eexists o, _. split; [reflexivity|]. split; [by split_and!|]. exact Hs.
Qed.

Lemma finalize_runs id mode s h :
  history id mode (lc_store s) = Ok h → saved_envelope mode id (lc_store s) → up_to_date mode (lc_store s) →
  ∃ r s' o, finalize getenv smtp add_alert sha256 g id mode s = (Ok r, s') ∧
    rc_order_id r = id ∧ rc_status r = "reconciled" ∧ rc_evidence_hash r = evidence_hash o ∧
    updated id "reconciled" [] None (match last h with Some c => attempt c | None => 1 end) (last h) o ∧
    history id mode (lc_store s') = Ok (h ++ [norm_state o]).
Proof.
  intros Hh He Hd. unfold finalize. rewrite bind_run. unfold on_store at 1. rewrite zoom_run.
  destruct (load_runs id mode (wset (wget s) (lc_store s)) h) as (e & d1 & E & Hd1 & He1);
    [by rewrite (history_dirs id mode (lc_store s))|by eapply saved_envelopes|]. rewrite E. cbn [fst snd].
  set (s1 := wset (wget d1) _).
  assert (history id mode (lc_store s1) = Ok h) as Hh1.
  { rewrite <- Hh. by apply history_dirs. }
  destruct (update_runs id "reconciled" mode [] None s1 h (match last h with Some c => attempt c | None => 1 end) Hh1)
    as (o & s2 & E2 & Hu & Hs2).
  - by eapply saved_envelopes.
  - by eapply up_to_date_dirs.
  - reflexivity.
  - reflexivity.
  - rewrite bind_run, E2. rewrite bind_run. unfold utcnow_iso at 1. rewrite bind_run. cbn [now_utc mret M_ret].
    rewrite bind_run. cbn [append_jsonl]. eexists _, _, o. split; [reflexivity|].
    pose proof Hu as (_ & Hst & _). by split_and!.
Qed.

(** Nothing guards the end of an order: [finalize] returns a receipt and
    appends one "reconciled" state whatever the history is, empty for an order
    that was never created; the attempt count and the evidence hash carry over,
    the error code and the recovery plan of the last state do not. *)
Theorem finalize_never_refuses (id mode : string) (s : Lifecycle) (h : list OrderState)
    (Hh : history id mode (lc_store s) = Ok h) (He : saved_envelope mode id (lc_store s))
    (Hd : up_to_date mode (lc_store s)) :
  ∃ r s' o, finalize getenv smtp add_alert sha256 g id mode s = (Ok r, s') ∧
    rc_status r = "reconciled" ∧ history id mode (lc_store s') = Ok (h ++ [o]) ∧ status o = "reconciled" ∧
    attempt o = (match last h with Some c => attempt c | None => 1 end) ∧
    evidence_hash o = (match last h with
      | Some c => if truthy (evidence_hash c) then evidence_hash c else sha256 id
      | None => sha256 id end) ∧
    error_code o = VNone ∧ recovery_plan o = None.
Proof.
  destruct (finalize_runs id mode s h Hh He Hd) as (r & s' & o & E & _ & Hr & _ & (Hid & Hst & Hpl & Herr & Hat & Hev) & Hs).
  exists r, s', (norm_state o). split_and!; try done.
  - cbn [evidence_hash norm_state]. rewrite Hev. cbn zeta.
    change (dget "evidence_hash" []) with VNone. unfold py_or. change (truthy VNone) with false. cbn match.
    destruct (last h) as [c|]; cbn [fmap option_fmap option_map vopt_str]; [|done].
    change (truthy (VStr (evidence_hash c))) with (truthy (evidence_hash c)). by destruct (truthy (evidence_hash c)).
  - cbn [recovery_plan norm_state]. by rewrite Hpl.
Qed.
End theorems.

(** * A concrete manager on an empty store *)

Definition sample_manager : OrderLifecycleManager :=
  Manager partial_auto (ApiMonitor (Slo 750 1500 30) None false None) sample_planner.
Definition empty_life : Lifecycle := Life world0 (Store [] [] [] world0) (Api world0 (monitor0 world0) None None 0).

Lemma empty_up_to_date mode : @up_to_date sample_env mode (lc_store empty_life).
Proof. intros n. split; [constructor|]. intros f Hf. by apply elem_of_nil in Hf. Qed.

Lemma finalize_never_refuses_witness :
  ∃ r s', @finalize sample_env (λ _, None) (λ _, None) (λ _ _ _, mret tt) (λ t, "sha:" +:+ t) sample_manager
    "order-never-created" "paper" empty_life = (Ok r, s') ∧ rc_status r = "reconciled".
Proof.
  destruct (@finalize_never_refuses sample_env (λ _, None) (λ _, None) (λ _ _ _, mret tt) (λ t, "sha:" +:+ t) sample_manager
    "order-never-created" "paper" empty_life [] eq_refl (or_introl eq_refl) (empty_up_to_date "paper"))
    as (r & s' & o & E & Hr & _).
  exists r, s'. split; [exact E|exact Hr].
Defined.

