(* ===== verification/Sizing.v ===== *)
(** Position sizing: [src/sizing/fractional.py], [src/sizing/rounding.py] and
    [src/sizing/position_sizer.py]. *)

From S2P Require Import Prelude PyFloat PyVal PyEnv BrokerRules.

Local Open Scope Z_scope.
Local Open Scope py_scope.

(** * Data *)

Record SizingRequest := SizeRequest {
  sz_symbol : string; equity : float; risk_pct : float; stop_distance_pips : float; take_profit_ratio : float;
  atr_pips : option float; sz_entry_type : string; sz_ttl_seconds : option Z }.

Record OcoRecommendation := Oco { stop_loss_pips : float; take_profit_pips : float; oco_min_distance_pips : float }.

Record SizingResult := Sizing { size_lot : float; raw_size_lot : float; oco : OcoRecommendation; sz_metadata : dict }.

(** * Operations *)

(** [risk_pct / 100] is the only division that cannot fail. *)
Definition fractional_size (equity risk_pct stop_distance : float) : res float :=
  let risk_amount := fmul equity (fdiv_ieee risk_pct (of_Z 100)) in
  if fleb stop_distance fzero then Raise (ValueError "stop_distance must be positive")
  else fdiv risk_amount stop_distance.

Definition round_lot (size lot_step : float) : res float :=
  if fleb lot_step fzero then Raise (ValueError "lot_step must be positive")
  else
    q ← fdiv size lot_step;
    n ← ffloor q;
    x ← float_of_int n;
    let stepped := fmul x lot_step in
    Ok (if fleb stepped fzero then lot_step else stepped).

(** [min_distance_pips.get(short, min_distance_pips.get(long, 0.0))] *)
Definition min_distance (r : SymbolRules) (short long : string) : float :=
  default (default fzero (dlookup long (min_distance_pips r))) (dlookup short (min_distance_pips r)).

(** [if x is not None: stop = max(stop, x)] *)
Definition widen (stop : float) (x : option float) : float := match x with Some x => fmax stop x | None => stop end.

Definition stop_loss (r : SymbolRules) (q : SizingRequest) : float :=
  widen (widen (fmax (stop_distance_pips q) (min_distance r "sl" "stop_loss")) (rule_protect_pips r)) (atr_pips q).

(** The lots before and after rounding. *)
Definition lots (r : SymbolRules) (q : SizingRequest) : res (float * float) :=
  let pip_value_per_lot := fmul (contract_size r) (pip_size r) in
  raw ← fractional_size (equity q) (risk_pct q) (fmul (stop_distance_pips q) pip_value_per_lot);
  let raw := fmax raw (min_lot r) in
  size ← round_lot raw (lot_step r);
  Ok (raw, if fltb size (min_lot r) then min_lot r else size).

Definition size_on (r : SymbolRules) (q : SizingRequest) : res SizingResult :=
  if fleb (stop_distance_pips q) fzero then Raise (ValueError "stop_distance_pips must be positive")
  else if fleb (risk_pct q) fzero then Raise (ValueError "risk_pct must be positive")
  else if fleb (equity q) fzero then Raise (ValueError "equity must be positive")
  else
    '(raw, size) ← lots r q;
    let stop := stop_loss r q in
    let min_tp := min_distance r "tp" "take_profit" in
    Ok (Sizing size raw (Oco stop (fmax (fmul stop (take_profit_ratio q)) min_tp) (min_distance r "sl" "stop_loss"))
      [("min_lot", VFloat (min_lot r)); ("lot_step", VFloat (lot_step r)); ("pip_size", VFloat (pip_size r));
       ("contract_size", VFloat (contract_size r));
       ("min_distance_pips", VDict (map (λ kv : string * float, (kv.1, VFloat kv.2)) (min_distance_pips r)));
       ("entry_type", VStr (sz_entry_type q));
       ("ttl_seconds", match sz_ttl_seconds q with Some z => VInt z | None => VNone end)]).

(** [PositionSizer.size] with its rules. *)
Definition size (rules : BrokerRules) (q : SizingRequest) : res SizingResult :=
  r ← for_symbol rules (sz_symbol q); size_on r q.

(** * Theorems *)

Definition opt_nan (x : option float) : bool := match x with Some x => is_nan x | None => false end.

Lemma widen_ge stop x : is_nan stop = false → fleb stop (widen stop x) = true ∧ is_nan (widen stop x) = false.
Proof.
  intros Hs. destruct x as [x|]; cbn [widen]; [|split; [by apply fleb_refl|done]].
  pose proof (fmax_ge_l stop x Hs) as H. split; [done|]. by apply fleb_not_nan in H as [_ ?].
Qed.

Lemma widen_ge_r stop x y : is_nan y = false → x = Some y → is_nan stop = false → fleb y (widen stop x) = true.
Proof. intros Hy -> Hs. cbn. by apply fmax_ge_r. Qed.

Lemma size_inv rules q res0 :
  size rules q = Ok res0 → ∃ r raw sz, for_symbol rules (sz_symbol q) = Ok r ∧ lots r q = Ok (raw, sz) ∧
    fleb (stop_distance_pips q) fzero = false ∧
    size_lot res0 = sz ∧ raw_size_lot res0 = raw ∧ stop_loss_pips (oco res0) = stop_loss r q ∧
    take_profit_pips (oco res0) = fmax (fmul (stop_loss r q) (take_profit_ratio q)) (min_distance r "tp" "take_profit").
Proof.
  unfold size. intros (r & Er & E)%bind_ok. unfold size_on in E.
  destruct (fleb (stop_distance_pips q) fzero) eqn:Es; [done|]. destruct (fleb (risk_pct q) fzero); [done|].
  destruct (fleb (equity q) fzero); [done|]. apply bind_ok in E as ([raw sz] & El & [= <-]).
  exists r, raw, sz. by split_and!.
Qed.

(** Number inputs of a sizing. *)
Definition numeric (r : SymbolRules) (q : SizingRequest) : Prop :=
  is_nan (stop_distance_pips q) = false ∧ is_nan (min_lot r) = false ∧
  is_nan (min_distance r "sl" "stop_loss") = false ∧ is_nan (min_distance r "tp" "take_profit") = false ∧
  opt_nan (rule_protect_pips r) = false ∧ opt_nan (atr_pips q) = false.

(** C23. The recommendation respects every minimum: the size is at least the
    symbol's minimum lot, the stop at least the requested distance, the broker's
    minimum distance, the protective band and the ATR, the target at least the
    broker's minimum. *)
Theorem sizing_respects_minimums (rules : BrokerRules) (q : SizingRequest) (res0 : SizingResult) (r : SymbolRules)
    (Hrun : size rules q = Ok res0) (Hr : for_symbol rules (sz_symbol q) = Ok r) (Hnum : numeric r q)
    (Hsize : is_nan (size_lot res0) = false)
    (Htp : is_nan (fmul (stop_loss_pips (oco res0)) (take_profit_ratio q)) = false) :
  fleb (min_lot r) (size_lot res0) = true ∧
  fleb (stop_distance_pips q) (stop_loss_pips (oco res0)) = true ∧
  fleb (min_distance r "sl" "stop_loss") (stop_loss_pips (oco res0)) = true ∧
  (∀ p, rule_protect_pips r = Some p → fleb p (stop_loss_pips (oco res0)) = true) ∧
  (∀ a, atr_pips q = Some a → fleb a (stop_loss_pips (oco res0)) = true) ∧
  fleb (min_distance r "tp" "take_profit") (take_profit_pips (oco res0)) = true.
Proof.
  destruct Hnum as (N1 & N2 & N3 & N4 & N5 & N6).
  apply size_inv in Hrun as (r' & raw & sz & Er & El & _ & Hs & _ & Hst & Ht). rewrite Hr in Er. injection Er as <-.
  rewrite Hst in *. rewrite Ht. unfold stop_loss in *.
  set (s0 := fmax (stop_distance_pips q) (min_distance r "sl" "stop_loss")) in *.
  pose proof (fmax_ge_l (stop_distance_pips q) (min_distance r "sl" "stop_loss") N1) as H0. fold s0 in H0.
  pose proof (fmax_ge_r (stop_distance_pips q) (min_distance r "sl" "stop_loss") N1 N3) as H0'. fold s0 in H0'.
  assert (is_nan s0 = false) as Hn0 by (by apply fleb_not_nan in H0 as [_ ?]).
  destruct (widen_ge s0 (rule_protect_pips r) Hn0) as [H1 Hn1]. set (s1 := widen s0 (rule_protect_pips r)) in *.
  destruct (widen_ge s1 (atr_pips q) Hn1) as [H2 Hn2]. set (s2 := widen s1 (atr_pips q)) in *.
  split_and!.
  - unfold lots in El. apply bind_ok in El as (x & _ & El). apply bind_ok in El as (y & _ & [= _ <-]).
    rewrite Hs in *. destruct (fltb y (min_lot r)) eqn:E; [by apply fleb_refl|].
    rewrite fltb_fleb in E by done. by apply negb_false_iff.
  - eapply fleb_trans; [exact H0|]. by eapply fleb_trans.
  - eapply fleb_trans; [exact H0'|]. by eapply fleb_trans.
  - intros p Hp. eapply fleb_trans; [|exact H2]. eapply (widen_ge_r s0 (rule_protect_pips r)); [|done|done].
    rewrite Hp in N5. exact N5.
  - intros a Ha. eapply (widen_ge_r s1 (atr_pips q)); [|done|done]. rewrite Ha in N6. exact N6.
  - by apply fmax_ge_r.
Qed.

Definition with_atr (a : option float) (q : SizingRequest) : SizingRequest :=
  SizeRequest (sz_symbol q) (equity q) (risk_pct q) (stop_distance_pips q) (take_profit_ratio q) a (sz_entry_type q)
    (sz_ttl_seconds q).

(** The lots are sized on the requested stop, not on the recommended one: an
    ATR of any width moves the stop that is recommended but never the size, so
    the loss at that stop exceeds the risk budget by the same factor. *)
Theorem atr_leaves_size (rules : BrokerRules) (q : SizingRequest) (res0 : SizingResult) (a : float)
    (Hrun : size rules (with_atr None q) = Ok res0) :
  ∃ res1, size rules (with_atr (Some a) q) = Ok res1 ∧ size_lot res1 = size_lot res0 ∧
    raw_size_lot res1 = raw_size_lot res0 ∧ stop_loss_pips (oco res1) = fmax (stop_loss_pips (oco res0)) a.
Proof.
  revert Hrun. unfold size. cbn [sz_symbol with_atr]. intros (r & -> & E)%bind_ok. cbn [mbind res_bind].
  unfold size_on in *. cbn [stop_distance_pips risk_pct equity with_atr] in *.
  change (lots r (with_atr (Some a) q)) with (lots r (with_atr None q)).
  destruct (fleb (stop_distance_pips q) fzero); [done|]. destruct (fleb (risk_pct q) fzero); [done|].
  destruct (fleb (equity q) fzero); [done|]. destruct (lots r (with_atr None q)) as [[raw sz]|]; [|done].
  cbn [mbind res_bind] in *. injection E as <-. by eexists.
Qed.

(** ** One account *)

Definition eurusd : SymbolRules :=
  Symbol "EURUSD" "spot" (of_dec 1 (-4)) (of_Z 100000) (of_dec 1 (-2)) (of_dec 1 (-2)) 5
    [("entry", of_dec 15 (-1)); ("stop_loss", of_Z 2); ("take_profit", of_Z 2)] (of_Z 1) true "netting" [] [] [] (Some 18)
    (Some (of_dec 12 (-1))) ["market"; "limit"; "stop"] None [] [].
Definition eur_rules : BrokerRules := Rules "broker.rules.v1" "RUN-HITL-01" None [] [("EURUSD", eurusd)].
(** Ten thousand in the account, one per cent at risk, a stop at five pips. *)
Definition one_per_cent : SizingRequest := SizeRequest "EURUSD" (of_Z 10000) (of_Z 1) (of_Z 5) (of_Z 2) None "market" None.
Definition sized : SizingResult :=
  match size eur_rules one_per_cent with Ok s => s | Raise _ => Sizing fzero fzero (Oco fzero fzero fzero) [] end.

Lemma sizing_respects_minimums_witness :
  fleb (of_dec 1 (-2)) (size_lot sized) = true ∧ fleb (of_Z 2) (stop_loss_pips (oco sized)) = true.
Proof.
  destruct (sizing_respects_minimums eur_rules one_per_cent sized eurusd) as (H1 & _ & H2 & _);
    [by vm_compute|reflexivity|by split_and!|by vm_compute|by vm_compute|].
  split; [exact H1|exact H2].
Defined.

(** With an ATR of twenty pips the recommended stop risks four times the budget:
    the size is two lots for a stop at five pips as for one at twenty. *)
Lemma atr_leaves_size_witness :
  ∃ res1, size eur_rules (with_atr (Some (of_Z 20)) one_per_cent) = Ok res1 ∧ size_lot res1 = size_lot sized ∧
    stop_loss_pips (oco res1) = of_Z 20.
Proof.
  destruct (atr_leaves_size eur_rules one_per_cent sized (of_Z 20)) as (res1 & E & H1 & _ & H2); [by vm_compute|].
  exists res1. split; [exact E|]. split; [exact H1|]. rewrite H2. by vm_compute.
Defined.
