(* ===== verification/Sprt.v ===== *)
(** The sequential probability ratio test of [src/risk/sprt.py]: the evaluator,
    and the state machine with its cooldown. *)

From S2P Require Import Prelude PyFloat PyVal PyEnv.

Local Open Scope Z_scope.
Local Open Scope py_scope.

(** * Data *)

Record SprtResult := Result { rs_stop : bool; rs_reason : option string; rs_llr : float; rs_samples : Z }.

Record SprtState := State {
  llr : float; samples : Z; stopped_at : option datetime; last_reason : option string }.

Definition initial_state : SprtState := State fzero 0 None None.
Definition stopped (s : SprtState) : bool := match stopped_at s with Some _ => true | None => false end.

Record SprtEvaluator := Evaluator { p0 : float; p1 : float; log_a : float; log_b : float }.

(** The machine: evaluator, cooldown in hours, current state, world. *)
Record SprtStateMachine := Machine {
  evaluator : SprtEvaluator; cooldown_hours : Z; sm_state : SprtState; sm_world : world }.

#[export] Instance sprt_has_world : HasWorld SprtStateMachine.
Proof.
  refine {| wget := sm_world; wset := λ w m, Machine (evaluator m) (cooldown_hours m) (sm_state m) w |}; by try intros [].
Defined.

Definition set_state (s : SprtState) (m : SprtStateMachine) : SprtStateMachine :=
  Machine (evaluator m) (cooldown_hours m) s (sm_world m).

(** * Operations *)

Definition normalize_outcome (v : pyval) : res Z :=
  let bad := Raise (ValueError ("Unsupported outcome value: " +:+ py_str v)) in
  match v with
  | VBool b => Ok (if b then 1 else 0)
  | VInt z => if (z =? 0) || (z =? 1) then Ok z else bad
  | VFloat x => if fleb fzero x && fleb x (of_Z 1) then Ok (if fgeb x (of_dec 5 (-1)) then 1 else 0) else bad
  | _ => bad
  end.

Section sprt.
(** [math.log]: it raises outside its domain. *)
Variable log : float → res float.

Definition evaluator_init (alpha beta p0 p1 : float) : res SprtEvaluator :=
  let one := of_Z 1 in
  qa ← fdiv (fsub one beta) alpha;
  a ← log qa;
  qb ← fdiv beta (fsub one alpha);
  b ← log qb;
  Ok (Evaluator p0 p1 a b).

Definition log_likelihood_ratio (outcome : pyval) (p0 p1 : float) : res float :=
  value ← normalize_outcome outcome;
  if value =? 1 then q ← fdiv p1 p0; log q
  else q ← fdiv (fsub (of_Z 1) p1) (fsub (of_Z 1) p0); log q.

(** [SprtEvaluator.evaluate] on a state it mutates. *)
Fixpoint evaluate (e : SprtEvaluator) (outcomes : list pyval) : M SprtState SprtResult :=
  match outcomes with
  | [] => s ← get; mret (Result false None (llr s) (samples s))
  | o :: outcomes =>
      r ← lift (log_likelihood_ratio o (p0 e) (p1 e));
      _ ← modify (λ s, State (fadd (llr s) r) (samples s + 1) (stopped_at s) (last_reason s));
      s ← get;
      if fgeb (llr s) (log_a e) then
        _ ← modify (λ s, State (llr s) (samples s) (stopped_at s) (Some "accept"));
        mret (Result true (Some "accept") (llr s) (samples s))
      else if fleb (llr s) (log_b e) then
        _ ← modify (λ s, State (llr s) (samples s) (stopped_at s) (Some "reject"));
        mret (Result true (Some "reject") (llr s) (samples s))
      else evaluate e outcomes
  end.

Context `{Env}.

(** [self._evaluator.evaluate(outcomes, state=self._state)]: the machine's own
    state object is the one that is mutated. *)
Definition run_evaluator (outcomes : list pyval) : M SprtStateMachine SprtResult := λ m,
  let (r, s) := evaluate (evaluator m) outcomes (sm_state m) in (r, set_state s m).

Definition machine_evaluate (outcomes : list pyval) : M SprtStateMachine SprtResult :=
  s ← gets sm_state;
  if stopped s then
    mret (Result true (Some (default "" (last_reason s) or? "cooldown")) (llr s) (samples s))
  else
    result ← run_evaluator outcomes;
    _ ← when (rs_stop result) (
      now ← now_utc;
      modify (λ m, set_state (State (llr (sm_state m)) (samples (sm_state m)) (Some now) (rs_reason result)) m));
    mret result.

Definition try_resume (now : option datetime) : M SprtStateMachine bool :=
  m ← get;
  match stopped_at (sm_state m) with
  | None => mret true
  | Some t =>
      current ← (match now with Some d => mret d | None => now_utc end);
      if hours_us (cooldown_hours m) <=? utc_us current - utc_us t then
        _ ← modify (set_state initial_state);
        mret true
      else mret false
  end.
End sprt.

(** * The test as a walk *)

(** The sums after each step. *)
Fixpoint sums (x : float) (rs : list float) : list float :=
  match rs with [] => [] | r :: rs => fadd x r :: sums (fadd x r) rs end.

Definition crosses (e : SprtEvaluator) (x : float) : bool := fgeb x (log_a e) || fleb x (log_b e).
Definition verdict (e : SprtEvaluator) (x : float) : string := if fgeb x (log_a e) then "accept" else "reject".

(** The first sum on or over a boundary, with its index. *)
Fixpoint first_crossing (e : SprtEvaluator) (xs : list float) : option (Z * float) :=
  match xs with
  | [] => None
  | x :: xs => if crosses e x then Some (1, x) else '(k, y) ← first_crossing e xs; Some (k + 1, y)
  end.

Section theorems.
Variable log : float → res float.

Lemma evaluate_walk e outcomes rs s :
  mapM_res (λ o, log_likelihood_ratio log o (p0 e) (p1 e)) outcomes = Ok rs →
  evaluate log e outcomes s =
    match first_crossing e (sums (llr s) rs) with
    | Some (k, x) => (Ok (Result true (Some (verdict e x)) x (samples s + k)),
        State x (samples s + k) (stopped_at s) (Some (verdict e x)))
    | None => let x := default (llr s) (last (sums (llr s) rs)) in let n := samples s + Z.of_nat (length rs) in
        (Ok (Result false None x n), State x n (stopped_at s) (last_reason s))
    end.
Proof.
  revert rs s. induction outcomes as [|o outcomes IH]; intros rs s Hm; cbn [mapM_res] in Hm.
  { injection Hm as <-. cbn. rewrite !Z.add_0_r. by destruct s. }
  apply bind_ok in Hm as (r & Er & Hm). apply bind_ok in Hm as (rs' & Ers & [= <-]).
  cbn [evaluate sums first_crossing]. rewrite bind_run, Er. cbn [lift]. rewrite bind_run. cbn [modify].
  rewrite bind_run. cbn [get]. set (x := fadd (llr s) r). cbn [llr samples stopped_at last_reason].
  unfold crosses, verdict. destruct (fgeb x (log_a e)) eqn:Ea; cbn [orb].
  { by rewrite Ea. }
  destruct (fleb x (log_b e)) eqn:Eb; [by rewrite Ea|].
  rewrite (IH rs' _ Ers). cbn [llr samples stopped_at last_reason].
  destruct (first_crossing e (sums x rs')) as [[k y]|] eqn:Ec; cbn [mbind option_bind].
  - unfold verdict. by replace (samples s + (k + 1)) with (samples s + 1 + k) by lia.
  - cbn zeta. replace (samples s + 1 + Z.of_nat (length rs')) with (samples s + Z.of_nat (length (r :: rs')))
      by (cbn [length]; lia).
    replace (default (llr s) (last (x :: sums x rs'))) with (default x (last (sums x rs'))); [done|].
    rewrite last_cons. by destruct (last _).
Qed.

(** C21. The evaluator decides at the first step whose running sum reaches a
    boundary, and only there: it reports that sum, the number of outcomes read
    and the boundary; with no crossing it has read every outcome. *)
Theorem evaluate_decides_at_first_crossing (e : SprtEvaluator) (outcomes : list pyval) (rs : list float) (s : SprtState)
    (Hm : mapM_res (λ o, log_likelihood_ratio log o (p0 e) (p1 e)) outcomes = Ok rs) :
  evaluate log e outcomes s =
    match first_crossing e (sums (llr s) rs) with
    | Some (k, x) => (Ok (Result true (Some (verdict e x)) x (samples s + k)),
        State x (samples s + k) (stopped_at s) (Some (verdict e x)))
    | None => let x := default (llr s) (last (sums (llr s) rs)) in let n := samples s + Z.of_nat (length rs) in
        (Ok (Result false None x n), State x n (stopped_at s) (last_reason s))
    end.
Proof. by apply evaluate_walk. Qed.

(** A sequence of calls and what they answered: an evaluation whether to stop,
    a resumption whether it stays stopped. *)
Inductive sprt_op := OEvaluate (outcomes : list pyval) | OResume (now : datetime).

Section machine.
Context `{Env}.

Definition sprt_exec (op : sprt_op) : M SprtStateMachine bool :=
  match op with
  | OEvaluate os => r ← machine_evaluate log os; mret (rs_stop r)
  | OResume now => r ← try_resume (Some now); mret (negb r)
  end.

Fixpoint sprt_run (ops : list sprt_op) (m : SprtStateMachine) : list (res bool) * SprtStateMachine :=
  match ops with
  | [] => ([], m)
  | op :: ops => let (r, m1) := sprt_exec op m in let (rs, m2) := sprt_run ops m1 in (r :: rs, m2)
  end.

(** A stop holds for the whole cooldown: whatever evaluations, on any
    outcomes, and early resumptions follow, every one of them leaves the machine
    as it was and answers that it is stopped; once the cooldown has passed a
    resumption starts from the initial state. *)
Theorem stop_is_absorbing (m : SprtStateMachine) (t : datetime) (Ht : stopped_at (sm_state m) = Some t)
    (ops : list sprt_op)
    (Hops : ∀ now, OResume now ∈ ops → utc_us now - utc_us t < hours_us (cooldown_hours m)) (late : datetime)
    (Hlate : hours_us (cooldown_hours m) <= utc_us late - utc_us t) :
  sprt_run ops m = (replicate (length ops) (Ok true), m) ∧
  try_resume (Some late) (sprt_run ops m).2 = (Ok true, set_state initial_state m).
Proof.
  assert (sprt_run ops m = (replicate (length ops) (Ok true), m)) as E.
  { clear Hlate. induction ops as [|op ops IH]; [done|]. cbn [sprt_run].
    assert (sprt_exec op m = (Ok true, m)) as ->.
    { destruct op as [os|now]; cbn [sprt_exec].
      - unfold machine_evaluate. rewrite bind_run, bind_run. cbn [gets]. unfold stopped. by rewrite Ht.
      - unfold try_resume. rewrite bind_run, bind_run. cbn [get]. rewrite Ht, bind_run. cbn [mret M_ret].
        rewrite (proj2 (Z.leb_gt _ _)); [done|]. apply Hops. by left. }
    rewrite IH; [done|]. intros now Hin. apply Hops. by right. }
  split; [done|]. rewrite E. cbn [snd]. unfold try_resume. rewrite bind_run. cbn [get]. rewrite Ht, bind_run.
  cbn [mret M_ret]. by rewrite (proj2 (Z.leb_le _ _)).
Qed.
End machine.
End theorems.

(** ** A concrete test *)

(** A logarithm that is good enough for the sign of the steps. *)
Definition sample_log (x : float) : res float :=
  if fleb x fzero then Raise (ValueError "math domain error") else Ok (fsub x (of_Z 1)).
Definition sample_evaluator : SprtEvaluator := Evaluator (of_dec 5 (-1)) (of_dec 6 (-1)) (of_dec 5 (-1)) (of_dec (-5) (-1)).
Definition wins : list pyval := [VInt 1; VBool true; VFloat (of_dec 9 (-1)); VInt 0].

Lemma evaluate_decides_at_first_crossing_witness :
  rs_stop (match (evaluate sample_log sample_evaluator wins initial_state).1 with Ok r => r | _ => Result false None fzero 0 end) = true ∧
  samples (evaluate sample_log sample_evaluator wins initial_state).2 = 3.
Proof.
  destruct (mapM_res (λ o, log_likelihood_ratio sample_log o (p0 sample_evaluator) (p1 sample_evaluator)) wins)
    as [rs|e] eqn:E; [|vm_compute in E; discriminate E].
  rewrite (evaluate_decides_at_first_crossing sample_log sample_evaluator wins rs initial_state E).
  vm_compute in E. injection E as <-. by vm_compute.
Defined.

Definition stopped_machine : SprtStateMachine :=
  Machine sample_evaluator 24 (State (of_Z 1) 3 (Some (from_utc_us 1773999000000000)) (Some "accept")) world0.

Lemma stop_is_absorbing_witness :
  (@sprt_run sample_log sample_env [OEvaluate [VInt 0]; OResume (from_utc_us 1773999060000000)] stopped_machine).1 =
    [Ok true; Ok true].
Proof.
  destruct (@stop_is_absorbing sample_log sample_env stopped_machine (from_utc_us 1773999000000000) eq_refl
    [OEvaluate [VInt 0]; OResume (from_utc_us 1773999060000000)]) with (late := from_utc_us (1773999000000000 + 86400000000))
    as [H _].
  - intros now Hin. apply elem_of_cons in Hin as [[=]|Hin]. apply elem_of_cons in Hin as [[= ->]|Hin]; [by vm_compute|].
    by apply elem_of_nil in Hin.
  - by vm_compute.
  - rewrite H. reflexivity.
Defined.
