(* ===== verification/Scheduler.v ===== *)
(** The job scheduler of [src/core/scheduler.py]: the interval job's loop as a
    step on explicit readings of the event loop, the one-shot job, the job
    registry and the scheduler. *)

From S2P Require Import Prelude PyFloat PyVal PyEnv.

Local Open Scope Z_scope.
Local Open Scope py_scope.

Definition CancelledError : exn := OtherError "CancelledError" "".

(** What awaiting a coroutine ends with. *)
Inductive outcome := Returned | Cancelled | Failed (e : exn).

(** * Interval jobs *)

Record AsyncIntervalJob := IntervalJob {
  ij_name : string; interval : float; max_attempts : option Z; retry_backoff : option float;
  sleep_override : option float; jitter_ratio : float; max_skips : Z; lag_warn_ms : option float;
  lag_base_interval_ms : option float }.

Definition set_sleep_override (o : option float) (j : AsyncIntervalJob) : AsyncIntervalJob :=
  IntervalJob (ij_name j) (interval j) (max_attempts j) (retry_backoff j) o (jitter_ratio j) (max_skips j)
    (lag_warn_ms j) (lag_base_interval_ms j).

(** [AsyncIntervalJob.defer_retry] *)
Definition defer_retry (delay : option float) (j : AsyncIntervalJob) : AsyncIntervalJob :=
  set_sleep_override
    (Some (match delay with
      | Some d => d
      | None => match retry_backoff j with Some b => b or? interval j | None => interval j end
      end)) j.

(** A running job: the job object, the local variables of [run], how often the
    loop's clock was read, an await was entered, the coroutine was called and a
    random number was drawn, and the delays slept. *)
Record JobRun := Run {
  job : AsyncIntervalJob; attempts : Z; next_run : float; skip_count : Z;
  ticks : nat; awaits : nat; calls : nat; draws : nat; slept : list float; run_world : world }.

#[export] Instance job_run_world : HasWorld JobRun.
Proof.
  refine {| wget := run_world; wset := λ w s, Run (job s) (attempts s) (next_run s) (skip_count s) (ticks s)
    (awaits s) (calls s) (draws s) (slept s) w |}; by intros; repeat match goal with s : JobRun |- _ => destruct s end.
Defined.

Definition set_job (j : AsyncIntervalJob) (s : JobRun) : JobRun :=
  Run j (attempts s) (next_run s) (skip_count s) (ticks s) (awaits s) (calls s) (draws s) (slept s) (run_world s).
Definition set_attempts (n : Z) (s : JobRun) : JobRun :=
  Run (job s) n (next_run s) (skip_count s) (ticks s) (awaits s) (calls s) (draws s) (slept s) (run_world s).
Definition set_next_run (x : float) (s : JobRun) : JobRun :=
  Run (job s) (attempts s) x (skip_count s) (ticks s) (awaits s) (calls s) (draws s) (slept s) (run_world s).
Definition set_skip_count (n : Z) (s : JobRun) : JobRun :=
  Run (job s) (attempts s) (next_run s) n (ticks s) (awaits s) (calls s) (draws s) (slept s) (run_world s).

(** The names of a metric record. *)
Definition metric (event name status : string) (scheduled_at started_at lag_ms : float) (retry_delay : option float)
    (ts : string) : dict :=
  [("event", VStr event); ("job", VStr name); ("status", VStr status); ("scheduled_at", VFloat scheduled_at);
   ("started_at", VFloat started_at); ("lag_ms", VFloat lag_ms); ("ts", VStr ts)] ++
  match retry_delay with Some d => [("retry_delay", VFloat d)] | None => [] end.

Definition SCHEDULER_METRICS : string := "metrics/scheduler.jsonl".

Definition lag_of (scheduled_at started_at : float) : float :=
  fmax fzero (fmul (fsub started_at scheduled_at) (of_Z 1000)).

(** [self.lag_warn_ms or max(base_ms * 1.5, 2000.0)] *)
Definition warn_threshold (ivl : float) (j : AsyncIntervalJob) : float :=
  let base := match lag_base_interval_ms j with
    | Some b => b or? fmul ivl (of_Z 1000)
    | None => fmul ivl (of_Z 1000) end in
  let dflt := fmax (fmul base (of_dec 15 (-1))) (of_Z 2000) in
  match lag_warn_ms j with Some w => w or? dflt | None => dflt end.

(** The end of a streak: [max_attempts] is set and reached. *)
Definition exhausted (j : AsyncIntervalJob) (n : Z) : bool :=
  match max_attempts j with Some m => m <=? n | None => false end.

Section interval.
Context `{Env}.
(** [loop.time()] and [random.random()], reading by reading; what each call of
    the coroutine ends with; and for each await the [defer_retry] calls other
    tasks make meanwhile and whether the task is cancelled there. *)
Variable time_at : nat → float.
Variable random_at : nat → float.
Variable call_at : nat → outcome.
Variable deferred_at : nat → list (option float).
Variable cancelled_at : nat → bool.

Definition loop_time : M JobRun float := λ s,
  (Ok (time_at (ticks s)), Run (job s) (attempts s) (next_run s) (skip_count s) (S (ticks s)) (awaits s) (calls s)
    (draws s) (slept s) (run_world s)).

(** [random.uniform(a, b)], which the library defines as [a + (b - a) * random()]. *)
Definition uniform (a b : float) : M JobRun float := λ s,
  (Ok (fadd a (fmul (fsub b a) (random_at (draws s)))), Run (job s) (attempts s) (next_run s) (skip_count s) (ticks s)
    (awaits s) (calls s) (S (draws s)) (slept s) (run_world s)).

(** Other tasks run while this one waits. *)
Definition others (s : JobRun) : JobRun :=
  Run (fold_left (λ j d, defer_retry d j) (deferred_at (awaits s)) (job s)) (attempts s) (next_run s) (skip_count s)
    (ticks s) (S (awaits s)) (calls s) (draws s) (slept s) (run_world s).

(** [await asyncio.sleep(d)] *)
Definition sleep (d : float) : M JobRun unit := λ s,
  (if cancelled_at (awaits s) then Raise CancelledError else Ok tt,
   others (Run (job s) (attempts s) (next_run s) (skip_count s) (ticks s) (awaits s) (calls s) (draws s)
     (slept s ++ [d]) (run_world s))).

(** [await self.coroutine()] *)
Definition call : M JobRun outcome := λ s,
  (Ok (call_at (calls s)), others (Run (job s) (attempts s) (next_run s) (skip_count s) (ticks s) (awaits s)
    (S (calls s)) (draws s) (slept s) (run_world s))).

Definition record_metric (status : string) (scheduled_at started_at lag_ms : float) (retry_delay : option float)
    : M JobRun unit :=
  j ← gets job;
  now ← now_utc;
  _ ← try_append_jsonl SCHEDULER_METRICS (VDict (metric "scheduler.interval" (ij_name j) status scheduled_at started_at
    lag_ms retry_delay (isoformat now)));
  mret tt.

(** The pause that ends an iteration: the override if there is one, jittered. *)
Definition pace (ivl : float) : M JobRun unit :=
  j ← gets job;
  let sleep_for := match sleep_override j with Some d => d | None => ivl end in
  _ ← modify (λ s, set_job (set_sleep_override None (job s)) s);
  sleep_for ← (if truthy (jitter_ratio j) then
      u ← uniform (fopp (jitter_ratio j)) (jitter_ratio j);
      mret (fmax fzero (fmul sleep_for (fadd (of_Z 1) u)))
    else mret sleep_for);
  now ← loop_time;
  _ ← modify (set_next_run (fadd now sleep_for));
  when (fgtb sleep_for fzero) (sleep sleep_for).

(** What follows the call of the coroutine, by its outcome. *)
Definition after_call (ivl scheduled_at started_at lag_ms threshold : float) (r : outcome) : M JobRun unit :=
  match r with
  | Cancelled => raise CancelledError
  | Returned =>
      _ ← modify (set_attempts 0);
      _ ← record_metric "ok" scheduled_at started_at lag_ms None;
      _ ← when (fgtb lag_ms threshold) (record_metric "lag_warn" scheduled_at started_at lag_ms None);
      s ← get;
      when (max_skips (job s) <? skip_count s) (record_metric "skipped_excess" scheduled_at started_at lag_ms None)
  | Failed e =>
      _ ← modify (λ s, set_attempts (attempts s + 1) s);
      s ← get;
      if exhausted (job s) (attempts s) then
        _ ← record_metric "failed" scheduled_at started_at lag_ms None; raise e
      else
        let delay := default ivl (retry_backoff (job s)) in
        _ ← record_metric "retry" scheduled_at started_at lag_ms (Some delay);
        sleep delay
  end.

(** One turn of the loop of [AsyncIntervalJob.run]. *)
Definition iteration (ivl : float) : M JobRun unit :=
  scheduled_at ← gets next_run;
  started_at ← loop_time;
  j ← gets job;
  let lag_ms := lag_of scheduled_at started_at in
  let threshold := warn_threshold ivl j in
  _ ← modify (λ s, set_skip_count (if fgtb lag_ms threshold then skip_count s + 1 else 0) s);
  r ← call;
  _ ← after_call ivl scheduled_at started_at lag_ms threshold r;
  pace ivl.

(** [AsyncIntervalJob.run] followed for [n] turns: [Ok tt] when it is still
    running, the exception it ended with otherwise.  It never returns. *)
Fixpoint turns (n : nat) (ivl : float) : M JobRun unit :=
  match n with O => mret tt | S n => _ ← iteration ivl; turns n ivl end.

Definition run (n : nat) (j : AsyncIntervalJob) (w : world) : res unit * JobRun :=
  turns n (interval j) (Run j 0 (time_at 0) 0 1 0 0 0 [] w).
End interval.

(** * One-shot jobs *)

Record AsyncOneShotJob := OneShotJob { os_name : string; run_at : option datetime; delay : option float }.

(** [AsyncOneShotJob.defer_retry] *)
Definition one_shot_defer (d : option float) (j : AsyncOneShotJob) : AsyncOneShotJob :=
  OneShotJob (os_name j) (run_at j) (match d with Some _ => d | None => delay j end).

Record OneShotRun := ORun { o_ticks : nat; o_slept : list float; o_world : world }.

#[export] Instance one_shot_run_world : HasWorld OneShotRun.
Proof.
  refine {| wget := o_world; wset := λ w s, ORun (o_ticks s) (o_slept s) w |};
    by intros; repeat match goal with s : OneShotRun |- _ => destruct s end.
Defined.

Section one_shot.
Context `{Env}.
Variable time_at : nat → float.

Definition one_shot_time : M OneShotRun float := λ s,
  (Ok (time_at (o_ticks s)), ORun (S (o_ticks s)) (o_slept s) (o_world s)).

Definition one_shot_metric (j : AsyncOneShotJob) (status : string) (scheduled_at started_at : float) : M OneShotRun unit :=
  now ← now_utc;
  _ ← try_append_jsonl SCHEDULER_METRICS (VDict (metric "scheduler.one_shot" (os_name j) status scheduled_at started_at
    (lag_of scheduled_at started_at) None (isoformat now)));
  mret tt.

(** [(run_at - now).total_seconds()] *)
Definition seconds_until (at_ now : datetime) : res float :=
  match dt_tz at_ with
  | None => Raise (TypeError "can't subtract offset-naive and offset-aware datetimes")
  | Some _ => Ok (of_ratio (utc_us at_ - utc_us now) 1000000)
  end.

(** [AsyncOneShotJob.run], when its coroutine ends with [r] and the sleep is
    cancelled or not. *)
Definition run_once (j : AsyncOneShotJob) (r : outcome) (cancelled : bool) : M OneShotRun unit :=
  let d := match delay j with Some d => d or? fzero | None => fzero end in
  d ← (match run_at j with
    | Some at_ => now ← now_utc; delta ← lift (seconds_until at_ now); mret (fmax d delta)
    | None => mret d end);
  _ ← when (fgtb d fzero) (
    _ ← modify (λ s, ORun (o_ticks s) (o_slept s ++ [d]) (o_world s));
    when cancelled (raise CancelledError));
  scheduled_at ← one_shot_time;
  started_at ← one_shot_time;
  match r with
  | Returned => one_shot_metric j "ok" scheduled_at started_at
  | Cancelled => raise CancelledError
  | Failed e => _ ← one_shot_metric j "failed" scheduled_at started_at; raise e
  end.
End one_shot.

(** * The registry and the scheduler *)

(** The task of a job: none yet, one that runs (cancellation requested or not),
    one that has ended. *)
Inductive task := NoTask | Running (cancelling : bool) | Done.

Inductive job_body := BInterval (j : AsyncIntervalJob) | BOneShot (j : AsyncOneShotJob).
Record AsyncJob := Job { body : job_body; job_task : task }.

Definition name (j : AsyncJob) : string := match body j with BInterval b => ij_name b | BOneShot b => os_name b end.

(** [start]: a new task unless one is running. *)
Definition start_job (j : AsyncJob) : AsyncJob :=
  Job (body j) (match job_task j with Running c => Running c | _ => Running false end).

Definition cancel_job (j : AsyncJob) : AsyncJob :=
  Job (body j) (match job_task j with Running _ => Running true | t => t end).

Definition JobRegistry : Type := list (string * AsyncJob).

Definition register (j : AsyncJob) (r : JobRegistry) : res JobRegistry :=
  if dmem (name j) r then Raise (ValueError ("Job '" +:+ name j +:+ "' already registered")) else Ok (dset (name j) j r).
Definition unregister (n : string) (r : JobRegistry) : JobRegistry := dpop n r.
Definition get_job (n : string) (r : JobRegistry) : res AsyncJob :=
  match dlookup n r with Some j => Ok j | None => Raise (KeyError n) end.
Definition list_jobs (r : JobRegistry) : list AsyncJob := r.*2.

Record Scheduler := Sched {
  registry : JobRegistry; default_retry_delay : option float; shutdown_timeout : option float; max_retries : Z }.

Definition set_registry (r : JobRegistry) (s : Scheduler) : Scheduler :=
  Sched r (default_retry_delay s) (shutdown_timeout s) (max_retries s).

Definition on_jobs (f : AsyncJob → AsyncJob) (s : Scheduler) : Scheduler :=
  set_registry (map (λ kv : string * AsyncJob, (kv.1, f kv.2)) (registry s)) s.

Definition start : M Scheduler unit := modify (on_jobs start_job).

(** [Scheduler.run]: the tasks of the jobs are awaited together. *)
Definition run_all (gather : list AsyncJob → res unit) : M Scheduler unit :=
  _ ← start;
  js ← gets (λ s, List.filter (λ j, match job_task j with NoTask => false | _ => true end) (list_jobs (registry s)));
  if truthy js then lift (gather js) else mret tt.

Definition cancel (n : string) : M Scheduler unit :=
  s ← get;
  match get_job n (registry s) with
  | Raise _ => mret tt
  | Ok j =>
      _ ← modify (set_registry (dset n (cancel_job j) (registry s)));
      modify (λ s, set_registry (unregister n (registry s)) s)
  end.

(** [Scheduler.defer_retry]: [isinstance(job, SupportsDeferRetry)] on a protocol
    that is not [runtime_checkable] raises. *)
Definition sched_defer_retry (n : string) (delay : option float) : M Scheduler unit :=
  s ← get;
  _ ← lift (get_job n (registry s));
  raise (TypeError "Instance and class checks can only be used with @runtime_checkable protocols").

Definition with_defaults (s : Scheduler) (j : AsyncIntervalJob) : AsyncIntervalJob :=
  IntervalJob (ij_name j) (interval j)
    (match max_attempts j with None => Some (max_retries s) | o => o end)
    (match retry_backoff j with
     | None => match default_retry_delay s with Some d => if truthy d then Some d else None | None => None end
     | o => o end)
    (sleep_override j) (jitter_ratio j) (max_skips j) (lag_warn_ms j) (lag_base_interval_ms j).

Definition add_interval_job (j : AsyncIntervalJob) (t : task) : M Scheduler unit :=
  s ← get;
  r ← lift (register (Job (BInterval (with_defaults s j)) t) (registry s));
  modify (set_registry r).

Definition add_one_shot_job (j : AsyncOneShotJob) (t : task) : M Scheduler unit :=
  s ← get;
  r ← lift (register (Job (BOneShot j) t) (registry s));
  modify (set_registry r).

(** [shutdown] returns the cancelled jobs whose tasks it waits for. *)
Definition shutdown : M Scheduler (list AsyncJob) :=
  _ ← modify (on_jobs cancel_job);
  js ← gets (λ s, List.filter (λ j, match job_task j with NoTask => false | _ => true end) (list_jobs (registry s)));
  _ ← modify (set_registry []);
  mret js.

(** * The loop of an interval job *)

Section interval_facts.
Context `{Env}.
Variable time_at random_at : nat → float.
Variable call_at : nat → outcome.
Variable deferred_at : nat → list (option float).

Abbreviation never := (λ _ : nat, false).

(** What the proofs follow of a run: the consecutive failures, the calls made,
    the limit and the backoff of the job. *)
Definition core (s : JobRun) : Z * nat * option Z * option float :=
  (attempts s, calls s, max_attempts (job s), retry_backoff (job s)).

(** A step that returns and changes nothing of the core. *)
Definition quiet (m : M JobRun unit) : Prop := ∀ s, ∃ s', m s = (Ok tt, s') ∧ core s' = core s.

Lemma quiet_bind m1 m2 : quiet m1 → quiet m2 → quiet (_ ← m1; m2).
Proof.
  intros H1 H2 s. destruct (H1 s) as (s1 & E1 & C1). destruct (H2 s1) as (s2 & E2 & C2).
  exists s2. rewrite bind_run, E1, E2. split; [done|congruence].
Qed.

Lemma quiet_when b m : quiet m → quiet (when b m).
Proof. intros Hm s. destruct b; [apply Hm|by exists s]. Qed.

Lemma defer_limits ds j :
  max_attempts (fold_left (λ j d, defer_retry d j) ds j) = max_attempts j ∧
  retry_backoff (fold_left (λ j d, defer_retry d j) ds j) = retry_backoff j.
Proof. revert j. induction ds as [|d ds IH]; intros j; [done|]. exact (IH (defer_retry d j)). Qed.

Lemma core_others s : core (others deferred_at s) = core s.
Proof. unfold core, others. cbn. by destruct (defer_limits (deferred_at (awaits s)) (job s)) as [-> ->]. Qed.

Lemma record_metric_run st a b c d s : ∃ w, record_metric st a b c d s = (Ok tt, wset w s).
Proof.
  unfold record_metric. rewrite bind_run. cbn [gets]. rewrite bind_run. unfold now_utc. cbn [fst snd].
  rewrite bind_run. unfold try_append_jsonl. destruct (io_ok_at _); cbn; eexists; by rewrite ?wset_wset.
Qed.

Lemma quiet_metric st a b c d : quiet (record_metric st a b c d).
Proof. intros s. destruct (record_metric_run st a b c d s) as [w ->]. by eexists. Qed.

Lemma quiet_sleep d : quiet (sleep deferred_at never d).
Proof. intros s. eexists. split; [done|]. by rewrite core_others. Qed.

(** The jittered pause and where it leaves the run. *)
Definition pause (ivl : float) (j : AsyncIntervalJob) (draw : nat) : float :=
  let d := match sleep_override j with Some d => d | None => ivl end in
  let r := jitter_ratio j in
  if truthy r then fmax fzero (fmul d (fadd (of_Z 1) (fadd (fopp r) (fmul (fsub r (fopp r)) (random_at draw)))))
  else d.

Definition paused (x : float) : list float := if fgtb x fzero then [x] else [].

Lemma pace_run ivl s : ∃ s', pace time_at random_at deferred_at never ivl s = (Ok tt, s') ∧ core s' = core s ∧
  slept s' = slept s ++ paused (pause ivl (job s) (draws s)).
Proof.
  unfold pace, pause, paused. rewrite bind_run. cbn [gets]. rewrite bind_run. cbn [modify]. rewrite bind_run.
  destruct (truthy (jitter_ratio (job s))); cbn [uniform mret M_ret bind_run mbind M_bind].
  all: unfold mbind, M_bind; cbn; match goal with |- context [fgtb ?x fzero] => destruct (fgtb x fzero) end.
  all: eexists; (split; [done|]); cbn; rewrite ?app_nil_r; (split; [|done]); try done.
  all: rewrite core_others; done.
Qed.

Lemma quiet_pace ivl : quiet (pace time_at random_at deferred_at never ivl).
Proof. intros s. destruct (pace_run ivl s) as (s' & E & C & _). by exists s'. Qed.

Hypothesis not_cancelled : ∀ k, call_at k ≠ Cancelled.

(** The failures in a row after [k] calls. *)
Fixpoint streak (k : nat) : Z :=
  match k with
  | O => 0
  | S k => match call_at k with Failed _ => streak k + 1 | _ => 0 end
  end.

Abbreviation turn := (iteration time_at random_at call_at deferred_at never).

Lemma after_call_run ivl a b c d k s :
  calls s = S k → attempts s = streak k →
  ∃ s', after_call deferred_at never ivl a b c d (call_at k) s =
    (match call_at k with Failed e => if exhausted (job s) (streak (S k)) then Raise e else Ok tt | _ => Ok tt end, s') ∧
    core s' = (streak (S k), S k, max_attempts (job s), retry_backoff (job s)).
Proof.
  intros Hk Ha. pose proof (not_cancelled k) as Hc. cbn [streak]. unfold after_call.
  destruct (call_at k) as [| |e]; [|done|].
  - rewrite bind_run. cbn [modify].
    match goal with |- context [(?m : M JobRun unit) (set_attempts 0 s)] => assert (quiet m) as Hq end.
    { apply quiet_bind; [apply quiet_metric|]. apply quiet_bind; [apply quiet_when, quiet_metric|].
      intros s1. rewrite bind_run. cbn [get]. apply (quiet_when _ _ (quiet_metric _ _ _ _ _)). }
    destruct (Hq (set_attempts 0 s)) as (s' & E & C). exists s'. split; [exact E|]. rewrite C. unfold core. cbn. by rewrite Hk.
  - rewrite bind_run. cbn [modify]. rewrite bind_run. cbn [get].
    change (job (set_attempts (attempts s + 1) s)) with (job s).
    change (attempts (set_attempts (attempts s + 1) s)) with (attempts s + 1). rewrite Ha.
    destruct (exhausted (job s) (streak k + 1)).
    + rewrite bind_run. destruct (record_metric_run "failed" a b c None (set_attempts (streak k + 1) s)) as [w ->].
      eexists. split; [done|]. unfold core. cbn. by rewrite Hk.
    + destruct (quiet_bind _ _ (quiet_metric "retry" a b c (Some (default ivl (retry_backoff (job s)))))
        (quiet_sleep (default ivl (retry_backoff (job s)))) (set_attempts (streak k + 1) s)) as (s' & E & C).
      exists s'. split; [exact E|]. rewrite C. unfold core. cbn. by rewrite Hk.
Qed.

Definition limited (a : option Z) (n : Z) : bool := match a with Some m => m <=? n | None => false end.

(** The exception call [k] ends the loop with, if it does. *)
Definition stops (a : option Z) (k : nat) : option exn :=
  match call_at k with Failed e => if limited a (streak (S k)) then Some e else None | _ => None end.

(** A turn up to the end of its call. *)
Lemma turn_start ivl s : ∃ a b c d st,
  turn ivl s = (_ ← after_call deferred_at never ivl a b c d (call_at (calls s));
                pace time_at random_at deferred_at never ivl) st ∧
  job st = fold_left (λ j d, defer_retry d j) (deferred_at (awaits s)) (job s) ∧
  attempts st = attempts s ∧ calls st = S (calls s) ∧ awaits st = S (awaits s) ∧ draws st = draws s ∧ slept st = slept s.
Proof.
  eexists _, _, _, _, _. split.
  - unfold iteration. rewrite bind_run. cbn [gets]. rewrite bind_run. cbn [loop_time]. rewrite bind_run. cbn [gets].
    rewrite bind_run. cbn [modify]. rewrite bind_run. unfold call at 1. reflexivity.
  - done.
Qed.

Lemma turn_run ivl s k a b : core s = (streak k, k, a, b) →
  ∃ s', turn ivl s = (match stops a k with Some e => Raise e | None => Ok tt end, s') ∧
    core s' = (streak (S k), S k, a, b).
Proof using not_cancelled.
  intros [= Ha Hk Hl Hb]. destruct (turn_start ivl s) as (x & y & z & t & st & -> & Ej & Ea & Ec & _).
  destruct (defer_limits (deferred_at (awaits s)) (job s)) as [E1 E2]. rewrite <- Ej in E1, E2.
  rewrite Hk in Ec |- *. rewrite Ha in Ea. destruct (after_call_run ivl x y z t k st Ec Ea) as (s1 & E & C).
  rewrite bind_run, E. rewrite E1, E2, Hl, Hb in C. unfold exhausted. rewrite E1, Hl. unfold stops, limited.
  destruct (call_at k) as [| |e] eqn:Ek; [|by destruct (not_cancelled k)|].
  2: destruct (match a with Some m => m <=? streak (S k) | None => false end); [by exists s1|].
  all: destruct (quiet_pace ivl s1) as (s2 & E3 & C2); exists s2; by rewrite C2.
Qed.

Lemma turns_run n ivl s k a b e : core s = (streak k, k, a, b) →
  (turns time_at random_at call_at deferred_at never n ivl s).1 = Raise e ↔
  ∃ i, (k ≤ i < k + n)%nat ∧ stops a i = Some e ∧ ∀ j, (k ≤ j < i)%nat → stops a j = None.
Proof using not_cancelled.
  revert s k. induction n as [|n IH]; intros s k Hs; cbn [turns].
  - split; [done|intros (i & ? & _); lia].
  - rewrite bind_run. destruct (turn_run ivl s k a b Hs) as (s' & -> & Hs').
    destruct (stops a k) as [e'|] eqn:Ek; cbn [fst].
    + split.
      * intros [= <-]. exists k. split; [lia|]. split; [done|]. intros j ?; lia.
      * intros (i & Hi & Ei & Hj). destruct (decide (i = k)) as [->|]; [congruence|]. specialize (Hj k). rewrite Hj in Ek; [done|lia].
    + rewrite (IH s' (S k) Hs'). split; intros (i & Hi & Ei & Hj); exists i.
      * split; [lia|]. split; [done|]. intros j ?. destruct (decide (j = k)) as [->|]; [done|]. apply Hj. lia.
      * assert (i ≠ k) by (intros ->; congruence). split; [lia|]. split; [done|]. intros j ?. apply Hj. lia.
Qed.

(** The last [m] calls up to call [k] all failed. *)
Definition failed (k : nat) : Prop := ∃ e, call_at k = Failed e.
Definition streak_ends (m k : nat) : Prop := (m ≤ S k)%nat ∧ ∀ i, (S k - m ≤ i ≤ k)%nat → failed i.

Lemma streak_ge m n : (Z.of_nat m <= streak n) ↔ (m ≤ n)%nat ∧ ∀ i, (n - m ≤ i < n)%nat → failed i.
Proof using not_cancelled.
  revert m. induction n as [|n IH]; intros m; cbn [streak].
  - split; [intros; split; [lia|intros; lia]|lia].
  - assert (0 <= streak n) by (apply (IH 0%nat); split; [lia|intros; lia]).
    destruct (call_at n) as [| |e] eqn:En; [|by destruct (not_cancelled n)|].
    + split.
      * intros. split; [lia|]. intros; lia.
      * intros [Hm Hf]. destruct m as [|m]; [lia|]. destruct (Hf n) as [e He]; [lia|]. congruence.
    + destruct m as [|m]; [split; [intros; split; [lia|intros; lia]|lia]|].
      transitivity (Z.of_nat m <= streak n); [lia|]. rewrite IH. split.
      * intros [Hm Hf]. split; [lia|]. intros i Hi. destruct (decide (i = n)) as [->|]; [by exists e|]. apply Hf. lia.
      * intros [Hm Hf]. split; [lia|]. intros i Hi. apply Hf. lia.
Qed.

Lemma stops_streak m k e : (0 < m)%nat → stops (Some (Z.of_nat m)) k = Some e ↔ call_at k = Failed e ∧ streak_ends m k.
Proof using not_cancelled.
  intros Hm. unfold stops, limited, streak_ends. pose proof (streak_ge m (S k)) as Hs.
  assert ((∀ i, (S k - m ≤ i ≤ k)%nat → failed i) ↔ (∀ i, (S k - m ≤ i < S k)%nat → failed i)) as ->
    by (split; intros HH i Hi; apply HH; lia).
  rewrite <- Hs. destruct (call_at k) as [| |e']; [split; [done|by intros [? ?]]..|].
  destruct (Z.leb_spec (Z.of_nat m) (streak (S k))) as [Hle|Hgt]; split.
  - by intros [= ->].
  - by intros [[= ->] _].
  - done.
  - intros [_ ?]. lia.
Qed.

Lemma streak_decided m k : (0 < m)%nat → streak_ends m k → ∃ e, call_at k = Failed e.
Proof. intros Hm [_ Hf]. apply Hf. lia. Qed.

(** C12. The loop of an interval job ends exactly at the first run of [m]
    consecutive failures, with the error of its last call, and not before; a
    success in between starts the count again, however the clock reads, whatever
    the jitter draws and whatever deferrals arrive. *)
Theorem run_ends_at_first_streak (j : AsyncIntervalJob) (m : nat) (Hm : (0 < m)%nat)
    (Hj : max_attempts j = Some (Z.of_nat m)) (w : world) (n : nat) (e : exn) :
  (run time_at random_at call_at deferred_at never n j w).1 = Raise e ↔
  ∃ k, (k < n)%nat ∧ call_at k = Failed e ∧ streak_ends m k ∧ ∀ i, (i < k)%nat → ¬ streak_ends m i.
Proof using not_cancelled.
  unfold run. rewrite (turns_run _ _ _ 0 (Some (Z.of_nat m)) (retry_backoff j)); [|by rewrite <- Hj].
  split; intros (k & Hk).
  - destruct Hk as (Hk & Ek%stops_streak & Hj'); [|done]. exists k. split; [lia|]. destruct Ek. split_and!; [done..|].
    intros i Hi Hs. destruct (streak_decided m i Hm Hs) as [e' He']. specialize (Hj' i).
    rewrite (proj2 (stops_streak m i e' Hm) (conj He' Hs)) in Hj'.
    assert (Some e' = None) by (apply Hj'; lia). done.
  - destruct Hk as (Hk & Ek & Hs & Hn). exists k. split; [lia|]. split; [by apply stops_streak|].
    intros i Hi. destruct (stops _ i) as [e'|] eqn:E; [|done]. apply stops_streak in E as [_ E]; [|done].
    by destruct (Hn i); [lia|].
Qed.

(** A failed call that does not end the loop is followed by two sleeps: the
    backoff and then the whole pause of the iteration; a deferral replaces the
    second, never the first. *)
Theorem retry_waits_twice (ivl : float) (s : JobRun) (e : exn)
    (Hf : call_at (calls s) = Failed e) (Hx : exhausted (job s) (attempts s + 1) = false)
    (Hd : deferred_at (S (awaits s)) = []) :
  ∃ s', turn ivl s = (Ok tt, s') ∧
    slept s' = slept s ++ [default ivl (retry_backoff (job s))] ++
      paused (pause ivl (fold_left (λ j d, defer_retry d j) (deferred_at (awaits s)) (job s)) (draws s)).
Proof.
  destruct (turn_start ivl s) as (x & y & z & t & st & -> & Ej & Ea & Ec & Ew & Er & Es).
  destruct (defer_limits (deferred_at (awaits s)) (job s)) as [E1 E2]. rewrite <- Ej in E1, E2 |- *.
  rewrite Hf, bind_run. unfold after_call. rewrite bind_run. cbn [modify]. rewrite bind_run. cbn [get].
  change (job (set_attempts (attempts st + 1) st)) with (job st).
  change (attempts (set_attempts (attempts st + 1) st)) with (attempts st + 1).
  unfold exhausted in *. rewrite E1, Ea, Hx, E2. rewrite bind_run.
  destruct (record_metric_run "retry" x y z (Some (default ivl (retry_backoff (job s)))) (set_attempts (attempts s + 1) st)) as [w ->].
  cbn [sleep]. match goal with |- context [pace _ _ _ _ _ ?s2] => destruct (pace_run ivl s2) as (s' & -> & _ & Hs') end.
  exists s'. split; [done|]. rewrite Hs'. unfold others. cbn. rewrite Ew, Hd, Es, Er. cbn [fold_left].
  by rewrite <- app_assoc.
Qed.
End interval_facts.

(** * The registry *)

Inductive sched_op :=
  | SAddInterval (j : AsyncIntervalJob) (t : task)
  | SAddOneShot (j : AsyncOneShotJob) (t : task)
  | SStart
  | SCancel (n : string)
  | SDefer (n : string) (d : option float)
  | SShutdown.

Definition sched_step (op : sched_op) : M Scheduler unit :=
  match op with
  | SAddInterval j t => add_interval_job j t
  | SAddOneShot j t => add_one_shot_job j t
  | SStart => start
  | SCancel n => cancel n
  | SDefer n d => sched_defer_retry n d
  | SShutdown => _ ← shutdown; mret tt
  end.

(** An exception does not undo what was done before it. *)
Fixpoint sched_run (ops : list sched_op) (s : Scheduler) : Scheduler :=
  match ops with [] => s | op :: ops => sched_run ops (sched_step op s).2 end.

(** An interval job has a limit on its attempts. *)
Definition bounded_retries (j : AsyncJob) : Prop :=
  match body j with BInterval b => is_Some (max_attempts b) | BOneShot _ => True end.

(** Every job is stored once, under its own name, with its attempts limited. *)
Definition well_formed (r : JobRegistry) : Prop :=
  NoDup (keys r) ∧ Forall (λ kv : string * AsyncJob, kv.1 = name kv.2 ∧ bounded_retries kv.2) r.

Lemma dset_new {A} k (v : A) d : dmem k d = false → dset k v d = d ++ [(k, v)].
Proof.
  unfold dmem. induction d as [|[k' v'] d IH]; cbn [dset dlookup]; [done|].
  destruct (String.eqb k k') eqn:E; [done|]. intros Hd. by rewrite (IH Hd).
Qed.

Lemma dpop_dset {A} k (v w : A) d : dlookup k d = Some w → dpop k (dset k v d) = dpop k d.
Proof.
  induction d as [|[k' v'] d IH]; cbn [dlookup]; [done|]. destruct (String.eqb k k') eqn:E.
  - intros _. cbn [dset]. rewrite E. cbn [dpop]. by rewrite E.
  - intros Hd. cbn [dset]. rewrite E. cbn [dpop]. rewrite E. by rewrite IH.
Qed.

Lemma well_formed_register j r r' : well_formed r → bounded_retries j → register j r = Ok r' → well_formed r'.
Proof.
  unfold register. intros [Hn Hf] Hj. destruct (dmem (name j) r) eqn:E; [done|]. intros [= <-]. split.
  - by apply NoDup_dset.
  - rewrite dset_new by done. apply Forall_app. split; [done|]. by constructor.
Qed.

Lemma well_formed_jobs f r : (∀ j, name (f j) = name j) → (∀ j, bounded_retries j → bounded_retries (f j)) →
  well_formed r → well_formed (map (λ kv : string * AsyncJob, (kv.1, f kv.2)) r).
Proof.
  intros Hname Hb [Hn Hf]. split.
  - unfold keys. rewrite <- list_fmap_compose. exact Hn.
  - apply Forall_fmap. eapply Forall_impl; [exact Hf|]. intros [k j] [E ?]. cbn. rewrite Hname. split; [done|by apply Hb].
Qed.

Lemma well_formed_pop n r : well_formed r → well_formed (unregister n r).
Proof.
  intros [Hn Hf]. split; [by apply NoDup_dpop|]. unfold unregister. induction r as [|[k j] r IH]; [done|].
  apply Forall_cons in Hf as [Hk Hf]. cbn [dpop]. apply NoDup_cons in Hn as [_ Hn]. destruct (String.eqb _ _); [done|].
  constructor; [done|]. by apply IH.
Qed.

Lemma add_interval_bounded s j t : bounded_retries (Job (BInterval (with_defaults s j)) t).
Proof. unfold bounded_retries, with_defaults. cbn. by destruct (max_attempts j); eexists. Qed.

Lemma cancel_registry n s : registry (cancel n s).2 = dpop n (registry s).
Proof.
  unfold cancel. rewrite bind_run. cbn [get]. unfold get_job. destruct (dlookup n (registry s)) as [j|] eqn:E.
  - rewrite bind_run. cbn. by apply (dpop_dset _ _ j).
  - cbn. clear -E. induction (registry s) as [|[k j] r IH]; cbn [dlookup] in E; [done|]. cbn [dpop].
    destruct (String.eqb n k); [done|]. by rewrite <- (IH E).
Qed.

Lemma sched_step_well_formed op s : well_formed (registry s) → well_formed (registry (sched_step op s).2).
Proof.
  intros Hs. destruct op as [j t|j t| |n|n d|]; cbn [sched_step].
  1,2: unfold add_interval_job, add_one_shot_job; rewrite bind_run; cbn [get]; rewrite bind_run; unfold lift;
    destruct (register _ _) as [r|] eqn:E; [|exact Hs]; eapply well_formed_register; [exact Hs| |exact E];
    (apply add_interval_bounded || exact I).
  - by apply well_formed_jobs.
  - rewrite cancel_registry. by apply well_formed_pop.
  - unfold sched_defer_retry. rewrite bind_run. cbn [get]. rewrite bind_run. unfold lift. by destruct (get_job _ _).
  - split; constructor.
Qed.

(** Whatever operations a scheduler has run, refused ones included, its registry
    holds every job once, under the job's own name, and every interval job has a
    limit on its attempts, so no registered job can fail forever. *)
Theorem registry_well_formed (ops : list sched_op) (s : Scheduler) (Hs : well_formed (registry s)) :
  well_formed (registry (sched_run ops s)).
Proof. revert s Hs. induction ops as [|op ops IH]; intros s Hs; [done|]. by apply IH, sched_step_well_formed. Qed.

(** Asking the scheduler to defer a job never defers anything: it raises for
    every name, known or not, and changes nothing. *)
Theorem scheduler_defer_always_raises (n : string) (d : option float) (s : Scheduler) :
  ∃ e, sched_defer_retry n d s = (Raise e, s).
Proof.
  unfold sched_defer_retry. rewrite bind_run. cbn [get]. rewrite bind_run. unfold lift, raise.
  destruct (get_job n (registry s)); by eexists.
Qed.

(** * Instances *)

(** Fails twice, succeeds, then fails for good. *)
Definition flaky (k : nat) : outcome :=
  match k with 2%nat => Returned | _ => Failed (ValueError "feed down") end.

Definition feed_job : AsyncIntervalJob :=
  IntervalJob "feed" (of_Z 5) (Some 3) (Some (of_Z 1)) None (of_dec 1 (-1)) 1 None None.

Lemma flaky_not_cancelled k : flaky k ≠ Cancelled.
Proof. by do 3 (destruct k as [|k]; [done|]). Qed.

Abbreviation seconds := (λ n : nat, of_Z (Z.of_nat n)).

Lemma run_ends_at_first_streak_witness :
  (@run sample_env seconds (λ _, of_dec 5 (-1)) flaky (λ _, []) (λ _, false) 6 feed_job world0).1
    = Raise (ValueError "feed down") ∧
  ∃ k, (k < 6)%nat ∧ flaky k = Failed (ValueError "feed down") ∧ streak_ends flaky 3 k ∧
    ∀ i, (i < k)%nat → ¬ streak_ends flaky 3 i.
Proof.
  split; [by vm_compute|].
  apply (@run_ends_at_first_streak sample_env seconds (λ _, of_dec 5 (-1)) flaky (λ _, []) flaky_not_cancelled
    feed_job 3 ltac:(lia) eq_refl world0 6 (ValueError "feed down")).
  by vm_compute.
Defined.

Definition idle : JobRun := Run feed_job 0 fzero 0 0 0 0 0 [] world0.

Lemma retry_waits_twice_witness :
  ∃ s', @iteration sample_env seconds (λ _, of_dec 5 (-1)) flaky (λ n, match n with O => [Some (of_Z 7)] | _ => [] end)
      (λ _, false) (of_Z 5) idle = (Ok tt, s') ∧
    slept s' = [of_Z 1; of_Z 7].
Proof.
  destruct (@retry_waits_twice sample_env seconds (λ _, of_dec 5 (-1)) flaky
    (λ n, match n with O => [Some (of_Z 7)] | _ => [] end) (of_Z 5) idle (ValueError "feed down") eq_refl eq_refl eq_refl)
    as (s' & E & Es).
  exists s'. split; [exact E|]. rewrite Es. by vm_compute.
Defined.

Definition one_job : Scheduler := Sched [] None None 3.

Lemma registry_well_formed_witness :
  well_formed (registry (sched_run [SAddInterval feed_job NoTask; SAddInterval feed_job NoTask; SStart; SDefer "feed" None] one_job)) ∧
  keys (registry (sched_run [SAddInterval feed_job NoTask; SAddInterval feed_job NoTask; SStart; SDefer "feed" None] one_job)) = ["feed"].
Proof. split; [apply registry_well_formed; split; constructor|by vm_compute]. Defined.
