(* ===== verification/EventBus.v ===== *)
(** The event bus of [src/core/event_bus.py]: the bounded queue with its
    waiting publishers and competing subscribers, the JSONL log with rotation,
    retention and state file, and the replay of the log. *)

From S2P Require Import Prelude PyFloat PyVal PyEnv.

Local Open Scope Z_scope.
Local Open Scope py_scope.

(** * Configuration *)

Record EventBusConfig := BusConfig {
  queue_maxsize : Z; backpressure_policy : string; retention_days : Z; state_flush_interval_sec : Z }.

(** [EventBusConfig.__post_init__] *)
Definition config_init (c : EventBusConfig) : res EventBusConfig :=
  if queue_maxsize c <=? 0 then Raise (ValueError "queue_maxsize must be positive")
  else if retention_days c <=? 0 then Raise (ValueError "retention_days must be positive")
  else if state_flush_interval_sec c <=? 0 then Raise (ValueError "state_flush_interval_sec must be positive")
  else Ok c.

Record QueuePressureSample := Sample {
  qp_event_type : option string; qp_queue_depth : Z; qp_policy : string; qp_ts : datetime; qp_wait_ms : option float }.

(** * The log *)

(** A directory of JSONL files by name. *)
Abbreviation directory := (list (string * list line)).

Record EventLog := Log {
  state_cache : dict; current_log_path : option string; log_base : directory; archive_dir : directory;
  state_file : document; last_prune_epoch : float; last_state_flush : float; epochs : nat; log_world : world }.

#[export] Instance event_log_world : HasWorld EventLog.
Proof.
  refine {| wget := log_world; wset := λ w s, Log (state_cache s) (current_log_path s) (log_base s) (archive_dir s)
    (state_file s) (last_prune_epoch s) (last_state_flush s) (epochs s) w |};
    by intros; repeat match goal with s : EventLog |- _ => destruct s end.
Defined.

Definition set_cache (d : dict) (s : EventLog) : EventLog :=
  Log d (current_log_path s) (log_base s) (archive_dir s) (state_file s) (last_prune_epoch s) (last_state_flush s)
    (epochs s) (log_world s).
Definition set_current (p : option string) (s : EventLog) : EventLog :=
  Log (state_cache s) p (log_base s) (archive_dir s) (state_file s) (last_prune_epoch s) (last_state_flush s)
    (epochs s) (log_world s).
Definition set_files (base arch : directory) (s : EventLog) : EventLog :=
  Log (state_cache s) (current_log_path s) base arch (state_file s) (last_prune_epoch s) (last_state_flush s)
    (epochs s) (log_world s).
Definition set_state_file (d : document) (s : EventLog) : EventLog :=
  Log (state_cache s) (current_log_path s) (log_base s) (archive_dir s) d (last_prune_epoch s) (last_state_flush s)
    (epochs s) (log_world s).
Definition set_epochs (prune flush : float) (n : nat) (s : EventLog) : EventLog :=
  Log (state_cache s) (current_log_path s) (log_base s) (archive_dir s) (state_file s) prune flush n (log_world s).

(** The archive of "20260320.jsonl" is "20260320.jsonl.gz". *)
Definition archive_name (file : string) : string := file +:+ ".gz".

Definition LOG_BASE : string := "logs/events/".
Definition max_log_size : Z := 50 * 1024 * 1024.

Definition log_record (ts : string) (event_type : option string) (event : pyval) (context : dict) : dict :=
  [("ts", VStr ts); ("event_type", vopt_str event_type); ("event", event); ("context", VDict context)].

(** [_update_state_cache] on the path of the current log. *)
Definition update_state_cache (record : dict) (current : string) (cache : dict) : dict :=
  let event_type := strip (py_str (dget "event_type" record or? VStr "")) or? "unknown" in
  let cache := match dlookup "last_event" cache with Some _ => cache | None => dset "last_event" (VDict []) cache end in
  let cache := match dlookup "last_event" cache with
    | Some (VDict last_events) => dset "last_event" (VDict (dset event_type (dget "ts" record) last_events)) cache
    | _ => cache end in
  dset "last_log" (VStr current) (dset "last_ts" (dget "ts" record) cache).

Section log.
Context `{Env}.
(** [time.time()] reading by reading, the encoded size of a file and the
    modification times [stat] reports. *)
Variable epoch_at : nat → float.
Variable size_of : list line → Z.
Variable st_mtime : nat → string → float.
Variable config : EventBusConfig.

Definition time_time : M EventLog float := λ s,
  (Ok (epoch_at (epochs s)), set_epochs (last_prune_epoch s) (last_state_flush s) (S (epochs s)) s).

(** One guarded file operation: [false] on [OSError]. *)
Definition io_step : M EventLog bool := λ s,
  let w := wget s in
  (Ok (io_ok_at (w_io w)), wset (World (w_tick w) (w_uuid w) (S (w_io w)) (w_out w)) s).

(** [_rotate_if_needed]: a large file is copied over its archive and removed. *)
Definition rotate_if_needed (path : string) : M EventLog unit :=
  s ← get;
  match dlookup path (log_base s) with
  | None => mret tt
  | Some ls =>
      if size_of ls <? max_log_size then mret tt
      else
        ok ← io_step;
        when ok (modify (λ s, set_files (dpop path (log_base s)) (dset (archive_name path) ls (archive_dir s)) s))
  end.

(** [_current_log] *)
Definition current_log : M EventLog string :=
  now ← now_utc;
  let path := yyyymmdd now +:+ ".jsonl" in
  s ← get;
  _ ← (match current_log_path s with
    | Some p => when (negb (String.eqb p path)) (rotate_if_needed p)
    | None => mret tt end);
  _ ← modify (set_current (Some path));
  mret path.

(** [_prune_retention]: at most once an hour. *)
Definition keep_files (n : nat) (cutoff : float) (d : directory) : directory :=
  List.filter (λ f : string * list line, negb (fltb (st_mtime n f.1) cutoff)) d.

Definition prune_retention : M EventLog unit :=
  now ← time_time;
  s ← get;
  if fltb (fsub now (last_prune_epoch s)) (of_Z 3600) then mret tt
  else
    let cutoff := fsub now (of_Z (retention_days config * 86400)) in
    _ ← modify (λ s, set_files (keep_files (epochs s) cutoff (log_base s)) (keep_files (epochs s) cutoff (archive_dir s)) s);
    modify (λ s, set_epochs now (last_state_flush s) (epochs s) s).

(** [_flush_state_if_needed] *)
Definition flush_state_if_needed : M EventLog unit :=
  now ← time_time;
  s ← get;
  if fltb (fsub now (last_state_flush s)) (of_Z (state_flush_interval_sec config)) then mret tt
  else
    ok ← io_step;
    when ok (
      _ ← modify (λ s, set_state_file (Some (Some (VDict (state_cache s)))) s);
      modify (λ s, set_epochs (last_prune_epoch s) now (epochs s) s)).

(** [_append_log] *)
Definition append_log (event : pyval) (event_type : option string) (context : dict) : M EventLog unit :=
  path ← current_log;
  now ← now_utc;
  let record := log_record (iso_us_z now) event_type event context in
  ok ← io_step;
  _ ← when ok (modify (λ s,
      set_files (dset path (default [] (dlookup path (log_base s)) ++ [LJson (VDict record)]) (log_base s)) (archive_dir s) s));
  _ ← modify (λ s, set_cache (update_state_cache record (match current_log_path s with Some p => LOG_BASE +:+ p | None => "" end)
        (state_cache s)) s);
  _ ← rotate_if_needed path;
  _ ← prune_retention;
  flush_state_if_needed.

(** [recover]: the cache of the state file, if it can be read. *)
Definition recover (file : document) : M EventLog unit :=
  match file with
  | Some (Some payload) => d ← lift (to_dict payload); modify (set_cache d)
  | _ => mret tt
  end.

(** ** Replay *)

(** [_as_utc_naive] *)
Definition as_utc_naive (d : datetime) : res Z :=
  match dt_tz d with None => Ok (utc_us d) | Some _ => to_utc_us d end.

(** The time of a record, or [None] where the code skips the record. *)
Definition record_ts (record : dict) : option Z :=
  match fromisoformat (replace_char "Z" "+00:00" (py_str (dget "ts" record))) with
  | Some d => match as_utc_naive d with Ok us => Some us | Raise _ => None end
  | None => None
  end.

(** The type filter, with the nested type of an event that is a mapping. *)
Definition type_matches (types : option (list string)) (record : dict) : bool :=
  match types with
  | None | Some [] => true
  | Some ts =>
      str_in (lower (py_str (dget_or "event_type" (VStr "") record))) ts ||
      str_in (match dget "event" record or? VDict [] with
        | VDict e => lower (py_str (dget_or "event" (VStr "") e))
        | _ => "" end) ts
  end.

Definition in_window (from to_ : Z) (record : dict) : bool :=
  match record_ts record with Some t => (from <=? t) && (t <=? to_) | None => false end.

(** What one line contributes; a line that is not an object has no [get]. *)
Definition replay_line (from to_ : Z) (types : option (list string)) (l : line) : res (list dict) :=
  match l with
  | LJson (VDict r) => Ok (if in_window from to_ r && type_matches types r then [r] else [])
  | LJson _ => Raise (AttributeError "object has no attribute 'get'")
  | _ => Ok []
  end.

Definition sorted_files (d : directory) : list (list line) := (isort (λ a b, str_ltb a.1 b.1) d).*2.

(** Plain files first, then the archive; the whole scan is one step, where the
    code reads lazily. *)
Definition replay_files (s : EventLog) : list line := concat (sorted_files (log_base s) ++ sorted_files (archive_dir s)).

Definition replay (from : datetime) (to_ : option datetime) (event_types : option (list string)) : M EventLog (list dict) :=
  from ← lift (as_utc_naive from);
  to_ ← (match to_ with Some t => mret t | None => now_utc end);
  to_ ← lift (as_utc_naive to_);
  s ← get;
  rs ← lift (mapM_res (replay_line from to_ (option_map (map lower) event_types)) (replay_files s));
  mret (concat rs).

(** [_replay_since_ts] *)
Definition replay_since_ts (event_type : string) : M EventLog datetime :=
  s ← get;
  let cached := as_dict_or_empty (dget "last_event" (state_cache s)) in
  let ts := dget event_type cached or? dget (upper event_type) cached in
  match (if truthy ts then fromisoformat (replace_char "Z" "+00:00" (py_str ts)) else None) with
  | Some d => mret d
  | None => now ← now_utc; mret (from_utc_us (utc_us now - retention_days config * 86400000000))
  end.

Definition latest_event_snapshot (event_type : string) (since : datetime) : M EventLog (option dict) :=
  rs ← replay since None (Some [event_type]); mret (last rs).

(** [_replay_backlog]: the events a new subscriber first sees. *)
Definition replay_backlog (event_type mode : string) (filter : pyval → bool) : M EventLog (list pyval) :=
  let key := lower event_type in
  since ← replay_since_ts key;
  if String.eqb mode "snapshot" then
    r ← latest_event_snapshot key since;
    mret (match r with Some r => List.filter filter [dget "event" r] | None => [] end)
  else
    rs ← replay since None (Some [key]);
    mret (List.filter filter (map (dget "event") rs)).
End log.

(** * The queue *)

Record message := Message { m_event : pyval; m_event_type : option string; m_context : dict }.

(** A subscription and what it has yielded. *)
Record subscriber := Subscriber { sub_type : string; sub_filter : pyval → bool }.

(** The bus: its queue, the publishers that wait for a free place with the time
    they started to wait, and the subscriptions that read the same queue. *)
Record EventBus := Bus {
  queue : list message; putters : list (message * float); pressure_samples : list QueuePressureSample;
  dropped_events : Z; mono : nat; subscribers : list subscriber; log : EventLog }.

#[export] Instance event_bus_world : HasWorld EventBus.
Proof.
  refine {| wget := λ s, wget (log s); wset := λ w s, Bus (queue s) (putters s) (pressure_samples s) (dropped_events s)
    (mono s) (subscribers s) (wset w (log s)) |}.
  - intros w [? ? ? ? ? ? l]. apply wget_wset.
  - intros w w' [? ? ? ? ? ? l]. cbn. f_equal.
  - intros [? ? ? ? ? ? l]. cbn. f_equal. by destruct l.
Defined.

Definition set_queue (q : list message) (s : EventBus) : EventBus :=
  Bus q (putters s) (pressure_samples s) (dropped_events s) (mono s) (subscribers s) (log s).
Definition set_putters (p : list (message * float)) (s : EventBus) : EventBus :=
  Bus (queue s) p (pressure_samples s) (dropped_events s) (mono s) (subscribers s) (log s).
Definition add_sample (q : QueuePressureSample) (s : EventBus) : EventBus :=
  Bus (queue s) (putters s) (pressure_samples s ++ [q]) (dropped_events s) (mono s) (subscribers s) (log s).
Definition count_drop (s : EventBus) : EventBus :=
  Bus (queue s) (putters s) (pressure_samples s) (dropped_events s + 1) (mono s) (subscribers s) (log s).
Definition set_mono (n : nat) (s : EventBus) : EventBus :=
  Bus (queue s) (putters s) (pressure_samples s) (dropped_events s) n (subscribers s) (log s).
Definition set_log (l : EventLog) (s : EventBus) : EventBus :=
  Bus (queue s) (putters s) (pressure_samples s) (dropped_events s) (mono s) (subscribers s) l.
Definition add_subscriber (x : subscriber) (s : EventBus) : EventBus :=
  Bus (queue s) (putters s) (pressure_samples s) (dropped_events s) (mono s) (subscribers s ++ [x]) (log s).

Definition QUEUE_METRICS : string := "metrics/event_bus_queue.jsonl".

Definition sample_to_dict (q : QueuePressureSample) : dict :=
  [("event_type", vopt_str (qp_event_type q)); ("queue_depth", VInt (qp_queue_depth q)); ("policy", VStr (qp_policy q));
   ("ts", VStr (isoformat (qp_ts q)))] ++
  match qp_wait_ms q with Some w => [("queue_wait_ms", VFloat w)] | None => [] end.

(** What becomes of a message. *)
Inductive fate :=
  | Dropped (m : message)
  | Delivered (i : nat) (m : message)
  | Discarded (i : nat) (m : message).

Definition fate_message (f : fate) : message := match f with Dropped m | Delivered _ m | Discarded _ m => m end.

(** The subscription's loop on one message. *)
Definition accepts (x : subscriber) (m : message) : bool :=
  match m_event_type m with Some t => String.eqb t (sub_type x) | None => false end && sub_filter x (m_event m).

Section queue.
Context `{Env}.
Variable epoch_at mono_at : nat → float.
Variable size_of : list line → Z.
Variable st_mtime : nat → string → float.
Variable config : EventBusConfig.

Definition monotonic : M EventBus float := λ s, (Ok (mono_at (mono s)), set_mono (S (mono s)) s).
Definition depth (s : EventBus) : Z := Z.of_nat (length (queue s)).
Definition full (s : EventBus) : bool := queue_maxsize config <=? depth s.

(** [_emit_queue_metric] *)
Definition emit_queue_metric (q : QueuePressureSample) : M EventBus unit :=
  _ ← try_append_jsonl QUEUE_METRICS (VDict (sample_to_dict q)); mret tt.

(** [_maybe_record_queue_pressure] *)
Definition maybe_record_queue_pressure (queue_depth : Z) (event_type : option string) : M EventBus unit :=
  if fltb (of_ratio queue_depth (Z.to_pos (queue_maxsize config))) (of_dec 8 (-1)) then mret tt
  else
    now ← now_utc;
    let q := Sample event_type queue_depth (backpressure_policy config) now None in
    _ ← modify (add_sample q);
    emit_queue_metric q.

(** [_handle_drop_oldest] *)
Definition handle_drop_oldest : M EventBus (list fate) :=
  s ← get;
  match queue s with
  | m :: q => _ ← modify (set_queue q); _ ← modify count_drop; mret [Dropped m]
  | [] => mret []
  end.

(** [_apply_backpressure]; only [drop_oldest] makes room. *)
Definition apply_backpressure (queue_depth : Z) : M EventBus (list fate) :=
  if queue_depth <? queue_maxsize config then mret []
  else if String.eqb (backpressure_policy config) "drop_oldest" then handle_drop_oldest
  else mret [].

(** The end of [publish]: the message enters the queue, and a long wait leaves a
    metric. *)
Definition enqueue (m : message) (wait_started : float) : M EventBus unit :=
  s ← get;
  _ ← modify (set_queue (queue s ++ [m]));
  now ← monotonic;
  let wait_ms := fmul (fsub now wait_started) (of_Z 1000) in
  if fgeb wait_ms (of_Z 100) then
    s ← get;
    ts ← now_utc;
    emit_queue_metric (Sample (m_event_type m) (depth s) (backpressure_policy config) ts (Some wait_ms))
  else mret tt.

(** [publish] until it returns or waits for a place in the queue: nothing before
    [queue.put] suspends. *)
Definition publish (event : pyval) (event_type : option string) (context : dict) (persist : bool) : M EventBus (list fate) :=
  queue_depth ← gets depth;
  _ ← maybe_record_queue_pressure queue_depth event_type;
  fs ← apply_backpressure queue_depth;
  _ ← when persist (zoom log set_log (append_log epoch_at size_of st_mtime config event event_type context));
  wait_started ← monotonic;
  let m := Message event event_type context in
  s ← get;
  _ ← (if full s then modify (set_putters (putters s ++ [(m, wait_started)])) else enqueue m wait_started);
  mret fs.

(** A waiting publisher goes on once there is room. *)
Definition resume_put (i : nat) : M EventBus (list fate) :=
  s ← get;
  match putters s !! i with
  | Some (m, started) =>
      if full s then mret []
      else
        _ ← modify (set_putters (delete i (putters s)));
        _ ← enqueue m started;
        mret []
  | None => mret []
  end.

(** A subscription takes the oldest message, which is gone for all the others. *)
Definition take_next (i : nat) : M EventBus (list fate) :=
  s ← get;
  match subscribers s !! i, queue s with
  | Some x, m :: q =>
      _ ← modify (set_queue q);
      mret [if accepts x m then Delivered i m else Discarded i m]
  | _, _ => mret []
  end.

(** [subscribe]: the backlog, then the live loop. *)
Definition subscribe (event_type : string) (filter : pyval → bool) (mode : string) : M EventBus (list pyval) :=
  backlog ← (if str_in mode ["catchup"; "snapshot"]
    then zoom log set_log (replay_backlog config event_type mode filter) else mret []);
  _ ← modify (add_subscriber (Subscriber event_type filter));
  mret backlog.

(** [ShadowSessionOrchestrator.start] of [src/shadow/session.py], with a bus:
    one subscription per event type on the one queue. *)
Definition shadow_start (event_types : list string) : M EventBus unit :=
  for_each (λ t, _ ← subscribe t (λ _, true) "live"; mret tt) event_types.

(** ** Interleavings *)

Inductive bus_op :=
  | BPublish (event : pyval) (event_type : option string) (context : dict) (persist : bool)
  | BResume (i : nat)
  | BTake (i : nat)
  | BSubscribe (event_type : string) (filter : pyval → bool).

Definition bus_step (op : bus_op) : M EventBus (list fate) :=
  match op with
  | BPublish e t c p => publish e t c p
  | BResume i => resume_put i
  | BTake i => take_next i
  | BSubscribe t f => _ ← subscribe t f "live"; mret []
  end.

(** The fates along a run, a failing step ending none of the others. *)
Fixpoint bus_run (ops : list bus_op) (s : EventBus) : list fate * EventBus :=
  match ops with
  | [] => ([], s)
  | op :: ops =>
      let (r, s1) := bus_step op s in
      let (fs, s2) := bus_run ops s1 in
      (match r with Ok f => f ++ fs | Raise _ => fs end, s2)
  end.

Definition published (op : bus_op) : list message :=
  match op with BPublish e t c _ => [Message e t c] | _ => [] end.
End queue.

(** * The traffic of the bus *)

Section traffic.
Context `{Env}.
Variable epoch_at mono_at : nat → float.
Variable size_of : list line → Z.
Variable st_mtime : nat → string → float.
Variable config : EventBusConfig.

Definition traffic (s : EventBus) : list message * list (message * float) * list subscriber :=
  (queue s, putters s, subscribers s).

(** A step that returns and moves no message. *)
Definition still {A} (m : M EventBus A) : Prop := ∀ s, ∃ a s', m s = (Ok a, s') ∧ traffic s' = traffic s.

Lemma still_bind {A B} (m : M EventBus A) (f : A → M EventBus B) : still m → (∀ a, still (f a)) → still (m ≫= f).
Proof.
  intros Hm Hf s. destruct (Hm s) as (a & s1 & E1 & T1). destruct (Hf a s1) as (b & s2 & E2 & T2).
  exists b, s2. rewrite bind_run, E1, E2. split; [done|congruence].
Qed.

Lemma still_ret {A} (a : A) : still (mret a).
Proof. intros s. by exists a, s. Qed.
Lemma still_get : still get.
Proof. intros s. by exists s, s. Qed.
Lemma still_now : still now_utc.
Proof. intros s. by eexists _, _. Qed.
Lemma still_metric q : still (emit_queue_metric q).
Proof.
  intros s. unfold emit_queue_metric. rewrite bind_run. unfold try_append_jsonl. destruct (io_ok_at _); by eexists _, _.
Qed.
Lemma still_mono : still (monotonic mono_at).
Proof. intros s. by eexists _, _. Qed.

Lemma still_pressure d t : still (maybe_record_queue_pressure config d t).
Proof.
  unfold maybe_record_queue_pressure. destruct (fltb _ _); [apply still_ret|].
  apply still_bind; [apply still_now|]. intros now. apply still_bind; [|intros; apply still_metric].
  intros s. by eexists _, _.
Qed.

(** The log's own steps never raise. *)
Lemma total_rotate p : total (rotate_if_needed size_of p).
Proof.
  intros s. unfold rotate_if_needed. rewrite bind_run. cbn [get]. destruct (dlookup p (log_base s)); [|by eexists _, _].
  destruct (_ <? _); [by eexists _, _|]. rewrite bind_run. cbn [io_step]. destruct (io_ok_at _); by eexists _, _.
Qed.

Lemma total_append_log e t c : total (append_log epoch_at size_of st_mtime config e t c).
Proof.
  unfold append_log. apply total_bind.
  { unfold current_log. apply total_bind; [apply total_now_utc|]. intros now.
    apply total_bind; [apply total_get|]. intros s. apply total_bind; [|intros; totals].
    destruct (current_log_path s); [|apply total_ret]. apply total_when, total_rotate. }
  intros p. apply total_bind; [apply total_now_utc|]. intros now. apply total_bind; [intros s; by eexists _, _|].
  intros ok. apply total_bind; [totals|]. intros _. apply total_bind; [totals|]. intros _.
  apply total_bind; [apply total_rotate|]. intros _. apply total_bind; [|intros _].
  - unfold prune_retention. apply total_bind; [intros s; by eexists _, _|]. intros now'. totals.
  - unfold flush_state_if_needed. apply total_bind; [intros s; by eexists _, _|]. intros now'.
    apply total_bind; [apply total_get|]. intros s. destruct (fltb _ _); [apply total_ret|].
    apply total_bind; [intros s1; by eexists _, _|]. intros ok'. totals.
Qed.

Lemma still_append e t c : still (zoom log set_log (append_log epoch_at size_of st_mtime config e t c)).
Proof.
  intros s. rewrite zoom_run. destruct (total_append_log e t c (wset (wget s) (log s))) as (a & l & E).
  rewrite E. by eexists _, _.
Qed.

Lemma enqueue_run m t s : ∃ s', enqueue mono_at config m t s = (Ok tt, s') ∧
  traffic s' = (queue s ++ [m], putters s, subscribers s).
Proof.
  unfold enqueue. rewrite bind_run. cbn [get]. rewrite bind_run. cbn [modify].
  match goal with |- context [(?k : M EventBus unit) (set_queue _ s)] => assert (still k) as Hk end.
  { apply still_bind; [apply still_mono|]. intros now. destruct (fgeb _ _); [|apply still_ret].
    apply still_bind; [apply still_get|]. intros s1. apply still_bind; [apply still_now|]. intros; apply still_metric. }
  destruct (Hk (set_queue (queue s ++ [m]) s)) as ([] & s' & E & T). exists s'. split; [exact E|]. by rewrite T.
Qed.

(** The oldest message makes room when the queue is full and the policy says so. *)
Definition evicted (s : EventBus) : list message :=
  if full config s && String.eqb (backpressure_policy config) "drop_oldest" then take 1 (queue s) else [].

Definition kept (s : EventBus) : list message := drop (length (evicted s)) (queue s).

Lemma evicted_kept s : evicted s ++ kept s = queue s.
Proof.
  unfold kept, evicted. destruct (_ && _); [|done]. by destruct (queue s).
Qed.

Lemma publish_run e t c p s : ∃ s', publish epoch_at mono_at size_of st_mtime config e t c p s = (Ok (map Dropped (evicted s)), s') ∧
  subscribers s' = subscribers s ∧
  ((Z.of_nat (length (kept s)) < queue_maxsize config ∧ queue s' = kept s ++ [Message e t c] ∧ putters s' = putters s) ∨
   (queue_maxsize config <= Z.of_nat (length (kept s)) ∧ queue s' = kept s ∧
    ∃ started, putters s' = putters s ++ [(Message e t c, started)])).
Proof.
  unfold publish. rewrite bind_run. cbn [gets]. rewrite bind_run.
  destruct (still_pressure (depth s) t s) as ([] & s1 & -> & T1). rewrite bind_run.
  assert (∃ s2, apply_backpressure config (depth s) s1 = (Ok (map Dropped (evicted s)), s2) ∧
    traffic s2 = (kept s, putters s, subscribers s)) as (s2 & -> & T2).
  { injection T1 as Tq Tp Ts. unfold apply_backpressure, kept, evicted, full.
    rewrite (Z.leb_antisym (depth s)). destruct (depth s <? queue_maxsize config); cbn [negb andb].
    { exists s1. unfold traffic. by rewrite Tq, Tp, Ts. }
    destruct (String.eqb _ _); [|exists s1; unfold traffic; by rewrite Tq, Tp, Ts].
    unfold handle_drop_oldest. rewrite bind_run. cbn [get]. rewrite Tq.
    destruct (queue s) as [|m q]; [exists s1; unfold traffic; by rewrite Tq, Tp, Ts|].
    eexists. split; [done|]. unfold traffic. cbn. rewrite Tp, Ts. by destruct q. }
  rewrite bind_run.
  assert (∃ s3, when p (zoom log set_log (append_log epoch_at size_of st_mtime config e t c)) s2 = (Ok tt, s3) ∧
    traffic s3 = traffic s2) as (s3 & -> & T3).
  { destruct p; cbn [when]; [|by exists s2]. destruct (still_append e t c s2) as ([] & s3 & ? & ?). by exists s3. }
  rewrite bind_run. cbn [monotonic]. rewrite bind_run. cbn [get]. rewrite bind_run.
  rewrite T2 in T3. injection T3 as Tq Tp Ts. unfold full, depth. change (queue (set_mono _ s3)) with (queue s3).
  change (putters (set_mono _ s3)) with (putters s3). rewrite Tq.
  destruct (Z.leb_spec (queue_maxsize config) (Z.of_nat (length (kept s)))) as [Hle|Hlt].
  - cbn. eexists. split; [done|]. cbn. split; [done|]. right. split; [done|]. split; [done|]. eexists. by rewrite Tp.
  - match goal with |- context [enqueue _ _ ?m ?w ?st] => destruct (enqueue_run m w st) as (s' & -> & T') end.
    exists s'. split; [done|]. injection T' as -> -> ->. cbn. split; [done|]. left. by rewrite Tq.
Qed.

Abbreviation bstep := (bus_step epoch_at mono_at size_of st_mtime config).
Abbreviation brun := (bus_run epoch_at mono_at size_of st_mtime config).

(** Messages somewhere in the bus. *)
Definition held (s : EventBus) : list message := queue s ++ (putters s).*1.

Definition bounded (s : EventBus) : Prop := depth s <= queue_maxsize config.

(** What one operation may do: no message appears, disappears or is counted
    twice; the bound and the subscriptions are kept; a delivery is to a
    subscription that accepts it; under [drop_oldest] nobody waits, under the
    other policies nothing is dropped. *)
Definition accounted (op : bus_op) (s : EventBus) (fs : list fate) (s' : EventBus) : Prop :=
  held s ++ published op ≡ₚ map fate_message fs ++ held s' ∧
  (bounded s → bounded s') ∧
  subscribers s `prefix_of` subscribers s' ∧
  (∀ i m, Delivered i m ∈ fs → ∃ x, subscribers s !! i = Some x ∧ accepts x m = true) ∧
  (backpressure_policy config = "drop_oldest" → 0 < queue_maxsize config → bounded s → putters s = [] → putters s' = []) ∧
  (backpressure_policy config ≠ "drop_oldest" → ∀ m, Dropped m ∉ fs).

Ltac no_fate := intros; repeat match goal with
  | |- _ ∉ [] => apply not_elem_of_nil
  | H : _ ∈ [] |- _ => by apply not_elem_of_nil in H end.

(** An operation that does nothing. *)
Lemma accounted_idle op s : published op = [] → accounted op s [] s.
Proof. intros E. unfold accounted. rewrite E, app_nil_r. split_and!; by no_fate. Qed.

Lemma publish_step e t c p s : ∃ fs s', bstep (BPublish e t c p) s = (Ok fs, s') ∧ accounted (BPublish e t c p) s fs s'.
Proof.
  destruct (publish_run e t c p s) as (s' & E & Hs & Hq).
  exists (map Dropped (evicted s)), s'. split; [exact E|]. unfold accounted, held, bounded, depth. cbn [published].
  assert (map fate_message (map Dropped (evicted s)) = evicted s) as -> by (rewrite map_map; apply map_id).
  assert (Hlen : (length (kept s) <= length (queue s))%nat).
  { rewrite <- (evicted_kept s), length_app. lia. }
  split_and!.
  - rewrite <- (evicted_kept s) at 1. destruct Hq as [(_ & -> & ->)|(_ & -> & u & ->)].
    + rewrite <- !app_assoc. do 2 f_equiv. by rewrite (Permutation_app_comm (putters s).*1).
    + rewrite fmap_app, <- !app_assoc. done.
  - destruct Hq as [(? & -> & _)|(? & -> & _)]; rewrite ?length_app; cbn; lia.
  - by rewrite Hs.
  - intros i m (x & ? & _)%list_elem_of_fmap. done.
  - intros Hp Hpos Hb Hw. destruct Hq as [(_ & _ & ->)|(Hfull & _)]; [done|]. exfalso.
    unfold kept, evicted, full, depth in *. rewrite Hp in *. cbn in *. rewrite length_drop in *.
    destruct (Z.leb_spec (queue_maxsize config) (Z.of_nat (length (queue s)))); cbn in *; [|lia].
    destruct (queue s); cbn in *; lia.
  - intros Hp m (x & [= <-] & Hx)%list_elem_of_fmap. unfold evicted in Hx.
    assert (String.eqb (backpressure_policy config) "drop_oldest" = false) as Eb by (by apply String.eqb_neq).
    rewrite Eb, andb_false_r in Hx. by apply not_elem_of_nil in Hx.
Qed.

Lemma resume_step i s : ∃ fs s', bstep (BResume i) s = (Ok fs, s') ∧ accounted (BResume i) s fs s'.
Proof.
  cbn [bus_step]. unfold resume_put. rewrite bind_run. cbn [get].
  destruct (putters s !! i) as [[m u]|] eqn:Hi; [|eexists _, _; split; [done|by apply accounted_idle]].
  destruct (full config s) eqn:Hfull; [eexists _, _; split; [done|by apply accounted_idle]|].
  rewrite bind_run. cbn [modify]. rewrite bind_run.
  destruct (enqueue_run m u (set_putters (delete i (putters s)) s)) as (s' & -> & [= Tq Tp Ts]).
  exists [], s'. split; [done|]. unfold accounted, held, bounded, depth. rewrite Tq, Tp, Ts. cbn [published map].
  rewrite app_nil_r. split_and!; try by no_fate.
  - cbn. rewrite <- app_assoc. f_equiv. cbn. by rewrite (delete_Permutation _ _ _ Hi) at 1.
  - intros _. cbn. rewrite length_app. cbn. unfold full, depth in Hfull. to_props. lia.
  - intros _ _ _ Hw. by rewrite Hw in Hi.
Qed.

Lemma take_step i s : ∃ fs s', bstep (BTake i) s = (Ok fs, s') ∧ accounted (BTake i) s fs s'.
Proof.
  cbn [bus_step]. unfold take_next. rewrite bind_run. cbn [get].
  destruct (subscribers s !! i) as [x|] eqn:Ei; [|eexists _, _; split; [done|by apply accounted_idle]].
  destruct (queue s) as [|m q] eqn:Eq; [eexists _, _; split; [done|by apply accounted_idle]|].
  eexists _, _. split; [reflexivity|]. unfold accounted, held, bounded, depth. cbn. rewrite Eq. cbn. split_and!.
  - rewrite app_nil_r. by destruct (accepts x m).
  - lia.
  - done.
  - intros j m' Hm. destruct (accepts x m) eqn:Ea; apply list_elem_of_singleton in Hm; [|done].
    injection Hm as -> ->. by exists x.
  - done.
  - intros _ m' Hm. destruct (accepts x m); by apply list_elem_of_singleton in Hm.
Qed.

Lemma bus_step_run op s : ∃ fs s', bstep op s = (Ok fs, s') ∧ accounted op s fs s'.
Proof.
  destruct op as [e t c p|i|i|t f]; [apply publish_step|apply resume_step|apply take_step|].
  exists [], (add_subscriber (Subscriber t f) s). split; [done|]. unfold accounted. cbn. rewrite app_nil_r.
  split_and!; try by no_fate. by apply prefix_app_r.
Qed.

(** C11. Nothing is lost on the way and nothing doubled: whatever publishers,
    subscriptions and wake-ups do in whatever order, the messages that were in
    the bus or were published are, each once, those that were dropped, delivered
    or discarded and those still in it; the queue never outgrows its bound; and
    every delivery is of a message its subscription accepts. *)
Theorem bus_accounts_for_all (ops : list bus_op) (s : EventBus) (Hb : bounded s) (fs : list fate) (s' : EventBus)
    (Hrun : brun ops s = (fs, s')) :
  held s ++ flat_map published ops ≡ₚ map fate_message fs ++ held s' ∧ bounded s' ∧
  subscribers s `prefix_of` subscribers s' ∧
  ∀ i m, Delivered i m ∈ fs → ∃ x, subscribers s' !! i = Some x ∧ accepts x m = true.
Proof.
  revert s fs s' Hb Hrun. induction ops as [|op ops IH]; intros s fs s' Hb Hrun; cbn in Hrun.
  { injection Hrun as <- <-. rewrite app_nil_r. split_and!; by no_fate. }
  destruct (bus_step_run op s) as (f1 & s1 & E & Hp & Hb1 & Hs1 & Hd & _). rewrite E in Hrun.
  destruct (brun ops s1) as [f2 s2] eqn:E2. injection Hrun as <- <-.
  destruct (IH s1 f2 s2 (Hb1 Hb) E2) as (Hp2 & Hb2 & Hs2 & Hd2). split_and!; [|done|by etrans|].
  - cbn [flat_map]. rewrite app_assoc, Hp, map_app, <- !app_assoc. f_equiv. exact Hp2.
  - intros i m [Hm|Hm]%elem_of_app; [|by apply Hd2]. destruct (Hd i m Hm) as (x & Hx & Ha). exists x. split; [|done].
    assert (subscribers s `prefix_of` subscribers s2) as Hpre by (by etrans). by apply (prefix_lookup_Some _ _ _ _ Hx).
Qed.

(** C30. The backpressure policies keep their word: under [drop_oldest] no publisher
    ever waits, under the other two no message is ever dropped. *)
Theorem backpressure_policy_kept (ops : list bus_op) (s : EventBus) (Hpos : 0 < queue_maxsize config) (Hb : bounded s)
    (Hw : putters s = []) (fs : list fate) (s' : EventBus) (Hrun : brun ops s = (fs, s')) :
  (backpressure_policy config = "drop_oldest" → putters s' = []) ∧
  (backpressure_policy config ≠ "drop_oldest" → ∀ m, Dropped m ∉ fs).
Proof.
  assert (∀ s, bounded s → ∀ fs s', brun ops s = (fs, s') →
    (backpressure_policy config = "drop_oldest" → putters s = [] → putters s' = []) ∧
    (backpressure_policy config ≠ "drop_oldest" → ∀ m, Dropped m ∉ fs)) as Hall.
  { clear s Hb Hw fs s' Hrun. induction ops as [|op ops IH]; intros s Hb fs s' Hrun; cbn in Hrun.
    { injection Hrun as <- <-. split; by no_fate. }
    destruct (bus_step_run op s) as (f1 & s1 & E & _ & Hb1 & _ & _ & Hw1 & Hd1). rewrite E in Hrun.
    destruct (brun ops s1) as [f2 s2] eqn:E2. injection Hrun as <- <-.
    destruct (IH s1 (Hb1 Hb) f2 s2 E2) as [Hw2 Hd2]. split.
    - intros Hp Hs. apply Hw2; [done|]. by apply Hw1.
    - intros Hp m [Hm|Hm]%elem_of_app; [by apply (Hd1 Hp m)|by apply (Hd2 Hp m)]. }
  destruct (Hall s Hb fs s' Hrun) as [H1 H2]. split; [|done]. intros Hp. by apply H1.
Qed.

(** ** Competing subscriptions *)

(** One event after the other, each taken by the subscription that has waited
    longest: the [k]-th by number [k mod n]. *)
Fixpoint rounds (persist : bool) (n : nat) (t : string) (k : nat) (events : list pyval) : list bus_op :=
  match events with
  | [] => []
  | e :: events => BPublish e (Some t) [] persist :: BTake (k mod n) :: rounds persist n t (S k) events
  end.

Fixpoint shares (a n : nat) (t : string) (k : nat) (events : list pyval) : list fate :=
  match events with
  | [] => []
  | e :: events =>
      (if decide (k mod n = a)%nat then Delivered a (Message e (Some t) []) else Discarded (k mod n) (Message e (Some t) []))
        :: shares a n t (S k) events
  end.

Lemma shadow_start_run types s : ∃ s', shadow_start config types s = (Ok tt, s') ∧ queue s' = queue s ∧
  putters s' = putters s ∧ subscribers s' = subscribers s ++ map (λ t, Subscriber t (λ _, true)) types.
Proof.
  unfold shadow_start. revert s. induction types as [|t types IH]; intros s; cbn [for_each map].
  - exists s. by rewrite app_nil_r.
  - rewrite bind_run.
    change ((_ ← subscribe config t (λ _, true) "live"; mret tt) s) with
      ((Ok tt, add_subscriber (Subscriber t (λ _, true)) s) : res unit * EventBus).
    destruct (IH (add_subscriber (Subscriber t (λ _, true)) s)) as (s' & -> & Hq & Hp & Hs).
    exists s'. split_and!; [done..|]. rewrite Hs. cbn. by rewrite <- app_assoc.
Qed.

Lemma rounds_run types a t (Hn : NoDup types) (Ha : types !! a = Some t) p (Hpos : 0 < queue_maxsize config) events k s :
  queue s = [] → putters s = [] → subscribers s = map (λ t, Subscriber t (λ _, true)) types →
  (brun (rounds p (length types) t k events) s).1 = shares a (length types) t k events.
Proof.
  revert k s. induction events as [|e events IH]; intros k s Hq Hw Hs; [done|]. cbn [rounds shares bus_run bus_step].
  destruct (publish_run e (Some t) [] p s) as (s1 & -> & Hs1 & Hq1).
  assert (evicted s = [] ∧ kept s = []) as [Ee Ek].
  { unfold kept, evicted. rewrite Hq. by destruct (_ && _). }
  rewrite Ee. rewrite Ek in Hq1. destruct Hq1 as [(_ & Hq1 & Hw1)|(Hfull & _)]; [|cbn in Hfull; lia]. cbn [app] in Hq1.
  assert (k mod length types < length types)%nat as Hlt.
  { apply Nat.mod_upper_bound. apply lookup_lt_Some in Ha. lia. }
  apply lookup_lt_is_Some_2 in Hlt as [u Hu].
  unfold take_next. rewrite bind_run. cbn [get]. rewrite Hs1, Hs.
  change (map ?f ?l) with (f <$> l). rewrite list_lookup_fmap, Hu. cbn [fmap option_fmap option_map]. rewrite Hq1.
  rewrite bind_run. cbn [modify]. unfold mret, M_ret.
  match goal with |- context [brun (rounds p (length types) t (S k) events) ?s2] =>
    destruct (brun (rounds p (length types) t (S k) events) s2) as [f2 s3] eqn:E2;
    assert (f2 = shares a (length types) t (S k) events) as ->
      by (rewrite <- (IH (S k) s2); [by rewrite E2|done|by cbn; rewrite Hw1|by cbn; rewrite Hs1]) end.
  cbn [fst map app]. f_equal. unfold accepts. cbn. rewrite andb_true_r.
  destruct (decide (k mod length types = a)%nat) as [<-|Hne].
  - rewrite Ha in Hu. injection Hu as <-. by rewrite String.eqb_refl.
  - destruct (String.eqb t u) eqn:E; [|done]. apply String.eqb_eq in E as <-. destruct Hne. by eapply NoDup_lookup.
Qed.

(** The subscriptions of a session compete for one queue, and a message that the
    wrong one takes is thrown away: of the events of one type, published one by
    one to a session that follows [n] types, the subscription to that type sees
    only those whose turn falls on it, one in [n]; the others are discarded. *)
Theorem shadow_session_loses_events (types : list string) (Hn : NoDup types) (a : nat) (t : string)
    (Ha : types !! a = Some t) (Hpos : 0 < queue_maxsize config) (s : EventBus) (Hq : queue s = [])
    (Hw : putters s = []) (Hs : subscribers s = []) (persist : bool) (events : list pyval) :
  (brun (rounds persist (length types) t 0 events) (shadow_start config types s).2).1 = shares a (length types) t 0 events.
Proof.
  destruct (shadow_start_run types s) as (s' & -> & Hq' & Hw' & Hs'). rewrite Hq in Hq'. rewrite Hw in Hw'.
  rewrite Hs in Hs'. by apply rounds_run.
Qed.
End traffic.

(** * The log and its replay *)

Section replay_facts.
Context `{Env}.
Variable epoch_at : nat → float.
Variable size_of : list line → Z.
Variable st_mtime : nat → string → float.
Variable config : EventBusConfig.

(** The replay of a list of lines, and of one after another. *)
Lemma mapM_res_app {A B} (f : A → res B) l1 l2 :
  mapM_res f (l1 ++ l2) = (r1 ← mapM_res f l1; r2 ← mapM_res f l2; Ok (r1 ++ r2)).
Proof.
  induction l1 as [|x l1 IH]; cbn [app mapM_res].
  - cbn. by destruct (mapM_res f l2).
  - destruct (f x) as [y|e]; [|done]. cbn. rewrite IH. cbn. destruct (mapM_res f l1); [|done]. cbn.
    by destruct (mapM_res f l2).
Qed.

Lemma mapM_res_elem {A B} (f : A → res B) l r x : mapM_res f l = Ok r → x ∈ l → ∃ y, f x = Ok y ∧ y ∈ r.
Proof.
  intros Hr%mapM_res_Forall2 Hx. induction Hr as [|a b l r Hab Hr IH]; [by apply not_elem_of_nil in Hx|].
  apply elem_of_cons in Hx as [->|Hx]; [exists b; split; [done|by left]|].
  destruct (IH Hx) as (y & ? & ?). exists y. split; [done|by right].
Qed.

(** [dict] lookups under a filter on the keys. *)
Lemma dlookup_filter {A} (f : string → bool) k (d : list (string * A)) :
  f k = true → dlookup k (List.filter (λ kv : string * A, f kv.1) d) = dlookup k d.
Proof.
  intros Hk. induction d as [|[k' v] d IH]; [done|]. cbn [List.filter dlookup fst].
  destruct (String.eqb_spec k k') as [<-|Hne].
  - rewrite Hk. cbn [dlookup]. by rewrite String.eqb_refl.
  - destruct (f k'); [|done]. cbn [dlookup]. apply String.eqb_neq in Hne as ->. exact IH.
Qed.

Lemma dlookup_elem {A} k (v : A) d : dlookup k d = Some v → (k, v) ∈ d.
Proof.
  induction d as [|[k' v'] d IH]; cbn [dlookup]; [done|]. destruct (String.eqb_spec k k') as [<-|Hne].
  - intros [= ->]. by left.
  - intros Hd. right. by apply IH.
Qed.

(** ** The time a record carries *)

Lemma replace_char_absent c t s : has_char c s = false → replace_char c t s = s.
Proof.
  induction s as [|x s IH]; cbn; [done|]. intros [Hx Hs]%orb_false_iff.
  rewrite Hx. by rewrite IH.
Qed.

Lemma has_char_app c s t : has_char c (s +:+ t) = has_char c s || has_char c t.
Proof. induction s as [|x s IH]; cbn; [done|]. by rewrite IH, orb_assoc. Qed.

Lemma replace_char_app c t a b : replace_char c t (a +:+ b) = replace_char c t a +:+ replace_char c t b.
Proof.
  induction a as [|x a IH]; cbn; [done|]. rewrite IH. destruct (Ascii.eqb x c); [|done]. by rewrite string_app_assoc.
Qed.

Lemma pad2_plain n : 0 <= n < 100 → has_char "Z"%char (pad2 n) = false.
Proof.
  intros Hn. destruct (digit_char_plain (n / 10)) as [_ H1]; [zdiv|]. destruct (digit_char_plain (n mod 10)) as [_ H2]; [zdiv|].
  unfold pad2. cbn [has_char].
  by rewrite (proj2 (Ascii.eqb_neq _ _) (not_eq_sym H1)), (proj2 (Ascii.eqb_neq _ _) (not_eq_sym H2)).
Qed.

Definition as_utc (d : datetime) : datetime :=
  DateTime (dt_year d) (dt_month d) (dt_day d) (dt_hour d) (dt_minute d) (dt_second d) (dt_micro d) (Some 0).

Lemma iso_us_z_reads d : valid_dt (as_utc d) = true →
  fromisoformat (replace_char "Z" "+00:00" (iso_us_z d)) = Some (as_utc d).
Proof.
  intros Hv. rewrite <- (fromisoformat_isoformat _ Hv). f_equal. unfold iso_us_z. rewrite replace_char_app.
  rewrite replace_char_absent; [|].
  - unfold isoformat, iso_date, iso_clock, as_utc. cbn [dt_tz dt_year dt_month dt_day dt_hour dt_minute dt_second dt_micro].
    rewrite !string_app_assoc. reflexivity.
  - unfold valid_dt, in_range in Hv. cbn in Hv. to_props. pose proof (days_in_month_bound (dt_year d) (dt_month d)).
    unfold isoformat, iso_date, iso_clock, pad4. cbn [dt_tz dt_year dt_month dt_day dt_hour dt_minute dt_second dt_micro].
    rewrite !has_char_app, !pad2_plain by zdiv. cbn. destruct (dt_micro d =? 0); [done|].
    change (has_char "Z" ("." +:+ (pad2 (dt_micro d / 10000) +:+ (pad2 (dt_micro d mod 10000 / 100)
      +:+ pad2 ((dt_micro d mod 10000) mod 100)))) || false = false).
    rewrite !has_char_app, !pad2_plain by zdiv. done.
Qed.

(** ** An appended record is replayed *)

Lemma rotate_run p s : ∃ s', rotate_if_needed size_of p s = (Ok tt, s') ∧ w_tick (wget s') = w_tick (wget s) ∧
  epochs s' = epochs s ∧
  (∀ q, q ≠ p → dlookup q (log_base s') = dlookup q (log_base s)) ∧
  (∀ ls, dlookup p (log_base s) = Some ls → size_of ls < max_log_size → dlookup p (log_base s') = Some ls).
Proof.
  unfold rotate_if_needed. rewrite bind_run. cbn [get]. destruct (dlookup p (log_base s)) as [ls|] eqn:E.
  2: { exists s. by split_and!. }
  destruct (Z.ltb_spec (size_of ls) max_log_size) as [Hlt|Hge].
  { exists s. split_and!; try done. by intros ? [= ->]. }
  rewrite bind_run. cbn [io_step]. destruct (io_ok_at _); cbn [when].
  all: eexists; split; [done|]; split_and!; try done; cbn.
  - intros q Hq. by rewrite dlookup_dpop_ne.
  - intros ls' [= ->] ?. lia.
  - intros ls' [= ->] ?. lia.
Qed.

(** The file of the next record. *)
Definition today (s : EventLog) : string := yyyymmdd (clock_at (w_tick (wget s))) +:+ ".jsonl".

Lemma current_log_run s : ∃ s', current_log size_of s = (Ok (today s), s') ∧
  w_tick (wget s') = S (w_tick (wget s)) ∧ epochs s' = epochs s ∧
  dlookup (today s) (log_base s') = dlookup (today s) (log_base s).
Proof.
  unfold current_log. rewrite bind_run. cbn [now_utc]. change (yyyymmdd _ +:+ ".jsonl") with (today s).
  generalize (today s). intros p. rewrite bind_run. cbn [get].
  rewrite bind_run. destruct (current_log_path _) as [q|].
  2: { eexists. split; [done|]. by split_and!. }
  destruct (String.eqb_spec q p) as [->|Hne]; cbn [negb when].
  { eexists. split; [done|]. by split_and!. }
  match goal with |- context [rotate_if_needed _ q ?s1] => destruct (rotate_run q s1) as (s2 & -> & Ht & He & Hq & _) end.
  eexists. split; [done|]. cbn in *. split_and!; [by rewrite Ht|done|]. apply Hq. congruence.
Qed.

(** The record [append_log] writes from state [s], and the file it writes to. *)
Definition appended (s : EventLog) (event : pyval) (event_type : string) (context : dict) : dict :=
  log_record (iso_us_z (clock_at (S (w_tick (wget s))))) (Some event_type) event context.

Lemma append_log_file (event : pyval) (event_type : string) (context : dict) (s : EventLog)
    (Hio : ∀ n, io_ok_at n = true)
    (Hsize : size_of (default [] (dlookup (today s) (log_base s)) ++ [LJson (VDict (appended s event event_type context))])
      < max_log_size)
    (Hfresh : fltb (st_mtime (S (epochs s)) (today s))
      (fsub (epoch_at (epochs s)) (of_Z (retention_days config * 86400))) = false) :
  dlookup (today s) (log_base (append_log epoch_at size_of st_mtime config event (Some event_type) context s).2) =
    Some (default [] (dlookup (today s) (log_base s)) ++ [LJson (VDict (appended s event event_type context))]).
Proof.
  unfold append_log. rewrite bind_run. destruct (current_log_run s) as (s1 & -> & Ht & He & Hl).
  rewrite bind_run. cbn [now_utc]. rewrite Ht. rewrite bind_run. cbn [io_step]. rewrite Hio. rewrite bind_run. cbn [when modify].
  rewrite bind_run. cbn [modify]. rewrite bind_run.
  match goal with |- context [rotate_if_needed _ (today s) ?s2] =>
    destruct (rotate_run (today s) s2) as (s3 & -> & _ & He3 & _ & H3) end.
  change (log_record _ _ _ _) with (appended s event event_type context) in *.
  revert Hsize H3 Hfresh Hl. generalize (today s) (appended s event event_type context). intros p r Hsize H3 Hfresh Hl.
  cbn in H3, He3. rewrite dlookup_dset_eq, Hl in H3.
  specialize (H3 _ eq_refl Hsize). rewrite He in He3.
  assert (∀ s4, log_base (flush_state_if_needed epoch_at config s4).2 = log_base s4) as Hflush.
  { intros s4. unfold flush_state_if_needed. rewrite bind_run. cbn [time_time]. rewrite bind_run. cbn [get].
    destruct (fltb (fsub _ (last_state_flush _)) _); [done|]. rewrite bind_run. cbn [io_step]. by destruct (io_ok_at _). }
  rewrite bind_run. unfold prune_retention at 1. rewrite bind_run. cbn [time_time]. rewrite bind_run. cbn [get].
  rewrite He3. destruct (fltb (fsub _ (last_prune_epoch _)) _); [by cbn [mret M_ret]; rewrite Hflush|]. rewrite bind_run. cbn [modify].
  rewrite Hflush. cbn. unfold keep_files.
  rewrite (dlookup_filter (λ q, negb (fltb (st_mtime (S (epochs s)) q) _)) p); [exact H3|]. by rewrite Hfresh.
Qed.

Lemma file_lines_replayed p ls s l : dlookup p (log_base s) = Some ls → l ∈ ls → l ∈ replay_files s.
Proof.
  intros Hp Hl. unfold replay_files. apply list_elem_of_In, in_concat. exists ls. split; [|by apply list_elem_of_In].
  apply in_or_app. left. apply list_elem_of_In. unfold sorted_files. apply list_elem_of_fmap. exists (p, ls). split; [done|].
  apply elem_of_isort. by apply dlookup_elem.
Qed.


(** ** Archived files *)

(** Lines whose decoded value, if any, is an object. *)
Definition object_line (l : line) : Prop := match l with LJson (VDict _) => True | LJson _ => False | _ => True end.

Definition matching (lo hi : Z) (types : option (list string)) (l : line) : list dict :=
  match l with LJson (VDict r) => if in_window lo hi r && type_matches types r then [r] else [] | _ => [] end.

Lemma replay_objects lo hi types ls : (∀ l, l ∈ ls → object_line l) →
  mapM_res (replay_line lo hi types) ls = Ok (map (matching lo hi types) ls).
Proof.
  induction ls as [|l ls IH]; intros Hl; [done|]. cbn [mapM_res map]. rewrite IH by (intros; apply Hl; by right).
  assert (object_line l) as Ho by (apply Hl; by left). destruct l as [| | |v]; try done. by destruct v.
Qed.

(** A snapshot subscription is answered from the archive: once one archived
    record of the type lies in the window, the record returned is the last of
    the archived ones, however many later records the current logs hold. *)
Theorem snapshot_prefers_archive (event_type : string) (since : datetime) (s : EventLog) (lo hi : Z) (r : dict)
    (Hlo : as_utc_naive since = Ok lo) (Hhi : as_utc_naive (clock_at (w_tick (wget s))) = Ok hi)
    (Hobj : ∀ l, l ∈ replay_files s → object_line l)
    (Hr : last (concat (map (matching lo hi (Some [lower event_type])) (concat (sorted_files (archive_dir s))))) = Some r) :
  (latest_event_snapshot event_type since s).1 = Ok (Some r).
Proof.
  unfold latest_event_snapshot, replay. rewrite Hlo. rewrite bind_run, bind_run. cbn [lift]. rewrite bind_run. cbn [now_utc].
  rewrite Hhi. rewrite bind_run. cbn [lift]. rewrite bind_run. cbn [get]. rewrite bind_run. unfold lift at 1.
  change (replay_files _) with (replay_files s). rewrite replay_objects by done. cbn [mret M_ret option_map map].
  unfold mret, M_ret. cbn [fst]. do 2 f_equal. unfold replay_files. rewrite concat_app, map_app, concat_app.
  by rewrite last_app, Hr.
Qed.

(** The second rotation of a day overwrites the first: the archive of a file has
    one name per day, so what was archived under it before is gone. *)
Theorem rotation_loses_earlier_archive (path : string) (s : EventLog) (ls old : list line)
    (Hls : dlookup path (log_base s) = Some ls) (Hbig : max_log_size <= size_of ls)
    (Hold : dlookup (archive_name path) (archive_dir s) = Some old) (Hio : io_ok_at (w_io (wget s)) = true) :
  ∃ s', rotate_if_needed size_of path s = (Ok tt, s') ∧ log_base s' = dpop path (log_base s) ∧
    dlookup (archive_name path) (archive_dir s') = Some ls ∧ keys (archive_dir s') = keys (archive_dir s).
Proof.
  unfold rotate_if_needed. rewrite bind_run. cbn [get]. rewrite Hls. rewrite (proj2 (Z.ltb_ge _ _) Hbig).
  rewrite bind_run. cbn [io_step]. rewrite Hio. cbn [when modify]. eexists. split; [done|]. split; [done|]. split.
  - apply dlookup_dset_eq.
  - change (keys (dset (archive_name path) ls (archive_dir s)) = keys (archive_dir s)). rewrite keys_dset. unfold dmem. by rewrite Hold.
Qed.
End replay_facts.

(** * Instances *)

Definition small_bus (policy : string) : EventBusConfig := BusConfig 2 policy 7 30.
Definition empty_log : EventLog := Log [] None [] [] None fzero fzero 0 world0.
Definition empty_bus : EventBus := Bus [] [] [] 0 0 [] empty_log.

(** One subscription, three publishers, a queue of two. *)
Definition traffic_ops : list bus_op :=
  [BSubscribe "health.alert" (λ _, true); BPublish (VInt 1) (Some "health.alert") [] true;
   BPublish (VInt 2) (Some "ticket.proposed") [] false; BPublish (VInt 3) (Some "health.alert") [] true;
   BTake 0; BResume 0; BTake 0].

Abbreviation sample_bus_run policy :=
  (@bus_run sample_env (λ _, fzero) (λ _, fzero) (λ _, 0) (λ _ _, fzero) (small_bus policy) traffic_ops empty_bus).

Lemma bus_accounts_for_all_witness :
  bounded (small_bus "block") empty_bus ∧
  (sample_bus_run "block").1 =
    [Delivered 0 (Message (VInt 1) (Some "health.alert") []); Discarded 0 (Message (VInt 2) (Some "ticket.proposed") [])] ∧
  (held empty_bus ++ flat_map published traffic_ops ≡ₚ
    map fate_message (sample_bus_run "block").1 ++ held (sample_bus_run "block").2).
Proof.
  assert (bounded (small_bus "block") empty_bus) as Hb by (unfold bounded; vm_compute; congruence).
  split; [exact Hb|]. split; [by vm_compute|].
  exact (proj1 (@bus_accounts_for_all sample_env (λ _, fzero) (λ _, fzero) (λ _, 0) (λ _ _, fzero) (small_bus "block")
    traffic_ops empty_bus Hb _ _ (surjective_pairing _))).
Defined.

Lemma backpressure_policy_kept_witness :
  putters (sample_bus_run "drop_oldest").2 = [] ∧
  (sample_bus_run "drop_oldest").1 = [Dropped (Message (VInt 1) (Some "health.alert") []);
    Discarded 0 (Message (VInt 2) (Some "ticket.proposed") []); Delivered 0 (Message (VInt 3) (Some "health.alert") [])].
Proof.
  split; [|by vm_compute].
  refine (proj1 (@backpressure_policy_kept sample_env (λ _, fzero) (λ _, fzero) (λ _, 0) (λ _ _, fzero)
    (small_bus "drop_oldest") traffic_ops empty_bus _ _ eq_refl _ _ (surjective_pairing _)) eq_refl).
  - by vm_compute.
  - unfold bounded; vm_compute; congruence.
Defined.

(** Four tickets to a session that follows tickets and alerts: two arrive. *)
Lemma shadow_session_loses_events_witness :
  (@bus_run sample_env (λ _, fzero) (λ _, fzero) (λ _, 0) (λ _ _, fzero) (small_bus "block")
    (rounds false 2 "ticket.proposed" 0 [VInt 1; VInt 2; VInt 3; VInt 4])
    (@shadow_start sample_env (small_bus "block") ["ticket.proposed"; "health.alert"] empty_bus).2).1 =
  [Delivered 0 (Message (VInt 1) (Some "ticket.proposed") []); Discarded 1 (Message (VInt 2) (Some "ticket.proposed") []);
   Delivered 0 (Message (VInt 3) (Some "ticket.proposed") []); Discarded 1 (Message (VInt 4) (Some "ticket.proposed") [])].
Proof.
  etrans; [refine (@shadow_session_loses_events sample_env (λ _, fzero) (λ _, fzero) (λ _, 0) (λ _ _, fzero) (small_bus "block")
    ["ticket.proposed"; "health.alert"] _ 0 "ticket.proposed" eq_refl _ empty_bus eq_refl eq_refl eq_refl false
    [VInt 1; VInt 2; VInt 3; VInt 4])|by vm_compute].
  - repeat constructor; rewrite ?list_elem_of_singleton; [done|apply not_elem_of_nil].
  - by vm_compute.
Defined.

(** A day around the sample clock. *)
Definition day_start : datetime := DateTime 2026 3 20 0 0 0 0 (Some 0).
Definition day_end : datetime := DateTime 2026 3 21 0 0 0 0 (Some 0).


Definition stored (hour : string) (n : Z) : line :=
  LJson (VDict (log_record ("2026-03-20T" +:+ hour +:+ ":00:00Z") (Some "health.alert") (VInt n) [])).

(** The morning's file was rotated, the newest record is in the current log. *)
Definition rotated_log : EventLog :=
  Log [] None [("20260320.jsonl", [stored "09" 2])] [("20260320.jsonl.gz", [stored "08" 1])] None fzero fzero 0 world0.

Lemma snapshot_prefers_archive_witness :
  (@latest_event_snapshot sample_env "health.alert" day_start rotated_log).1 =
    Ok (Some (log_record "2026-03-20T08:00:00Z" (Some "health.alert") (VInt 1) [])).
Proof.
  refine (@snapshot_prefers_archive sample_env "health.alert" day_start rotated_log _ _ _ _ _ _ _);
    [vm_compute; reflexivity|vm_compute; reflexivity| |vm_compute; reflexivity].
  intros l Hl. vm_compute in Hl. repeat (apply elem_of_cons in Hl as [->|Hl]; [exact I|]). by apply not_elem_of_nil in Hl.
Defined.

Lemma rotation_loses_earlier_archive_witness :
  ∃ s', @rotate_if_needed sample_env (λ _, max_log_size) "20260320.jsonl" rotated_log = (Ok tt, s') ∧
    dlookup "20260320.jsonl.gz" (archive_dir s') = Some [stored "09" 2] ∧ log_base s' = [].
Proof.
  destruct (@rotation_loses_earlier_archive sample_env (λ _, max_log_size) "20260320.jsonl" rotated_log
    [stored "09" 2] [stored "08" 1] eq_refl (Z.le_refl _) eq_refl eq_refl) as (s' & E & Hb & Ha & _).
  exists s'. split; [exact E|]. split; [exact Ha|exact Hb].
Defined.
