(* ===== verification/Calendar.v ===== *)
(** The economic calendar of [src/calendar/]: events from CSV rows, upcoming
    events and blocking windows. *)

From S2P Require Import Prelude PyFloat PyVal PyEnv.

Local Open Scope Z_scope.
Local Open Scope py_scope.

(** * [datetime] comparison and arithmetic *)

Definition is_naive (d : datetime) : bool := match dt_tz d with None => true | Some _ => false end.

(** [a <= b]: naive and aware values do not compare. *)
Definition dt_le (a b : datetime) : res bool :=
  if Bool.eqb (is_naive a) (is_naive b) then Ok (utc_us a <=? utc_us b)
  else Raise (TypeError "can't compare offset-naive and offset-aware datetimes").

(** [d + timedelta(microseconds=us)]: the wall-clock fields move, the offset stays. *)
Definition dt_add (d : datetime) (us : Z) : res datetime :=
  let local := utc_us (DateTime (dt_year d) (dt_month d) (dt_day d) (dt_hour d) (dt_minute d) (dt_second d) (dt_micro d) None) + us in
  if in_range min_us local max_us then
    let r := from_utc_us local in
    Ok (DateTime (dt_year r) (dt_month r) (dt_day r) (dt_hour r) (dt_minute r) (dt_second r) (dt_micro r) (dt_tz d))
  else Raise (OverflowError "date value out of range").

Lemma utc_us_offset d o : utc_us (DateTime (dt_year d) (dt_month d) (dt_day d) (dt_hour d) (dt_minute d) (dt_second d) (dt_micro d) o) =
  utc_us d + (default 0 (dt_tz d) - default 0 o) * 1000000.
Proof.
  unfold utc_us. cbn [dt_year dt_month dt_day dt_hour dt_minute dt_second dt_micro dt_tz].
  generalize (days_from_civil (dt_year d) (dt_month d) (dt_day d)) (default 0 (dt_tz d)) (default 0 o). intros. lia.
Qed.

Lemma dt_add_Ok d us r : dt_add d us = Ok r → utc_us r = utc_us d + us ∧ is_naive r = is_naive d.
Proof.
  unfold dt_add. rewrite utc_us_offset. change (default 0 None) with 0. rewrite Z.sub_0_r.
  set (local := utc_us d + default 0 (dt_tz d) * 1000000 + us).
  pose proof (utc_us_from_utc_us local) as Hr.
  assert (dt_tz (from_utc_us local) = Some 0) as Hz by (unfold from_utc_us; by destruct (civil_from_days _) as [[? ?] ?]).
  generalize dependent (from_utc_us local). intros r0 Hr Hz. destruct (in_range _ _ _); [|done]. intros [= <-]. split; [|done].
  rewrite utc_us_offset, Hr, Hz. subst local. change (default 0 (Some 0)) with 0. generalize (default 0 (dt_tz d)). intros. lia.
Qed.

(** [d.replace(tzinfo=timezone.utc)] and [d.astimezone(timezone.utc)]. *)
Definition with_utc (d : datetime) : datetime :=
  DateTime (dt_year d) (dt_month d) (dt_day d) (dt_hour d) (dt_minute d) (dt_second d) (dt_micro d) (Some 0).
Definition astimezone_utc (d : datetime) : res datetime := us ← to_utc_us d; Ok (from_utc_us us).

(** [_normalize_now] and [_normalize_event] *)
Definition normalize (d : datetime) : res datetime := if is_naive d then Ok (with_utc d) else astimezone_utc d.

Lemma normalize_Ok d r : normalize d = Ok r → utc_us r = utc_us d ∧ is_naive r = false.
Proof.
  unfold normalize, is_naive. destruct (dt_tz d) as [o|] eqn:Ed; cbn.
  - unfold astimezone_utc. destruct (to_utc_us d) as [us|] eqn:E; [|done]. intros [= <-]. rewrite utc_us_from_utc_us. split.
    + unfold to_utc_us in E. destruct (in_range _ _ _); [by injection E|done].
    + unfold from_utc_us. by destruct (civil_from_days _) as [[? ?] ?].
  - intros [= <-]. split; [|done]. unfold with_utc. rewrite utc_us_offset, Ed. cbn [default id]. lia.
Qed.

(** * Events *)

Record CalendarEvent := Event {
  title : string; timestamp : datetime; impact : string; window_before_min : option Z; window_after_min : option Z }.

Definition window_start (e : CalendarEvent) : res datetime :=
  dt_add (timestamp e) (- minutes_us (default 0 (window_before_min e))).
Definition window_end (e : CalendarEvent) : res datetime :=
  dt_add (timestamp e) (minutes_us (default 0 (window_after_min e))).

(** ** Loading *)

Definition CalendarLoadError (msg : string) : exn := OtherError "CalendarLoadError" msg.

Definition parse_timestamp (raw : string) : res datetime :=
  match fromisoformat (replace_char "Z" "+00:00" raw) with
  | None => Raise (CalendarLoadError ("Invalid timestamp: " +:+ raw))
  | Some ts => normalize ts
  end.

(** [_parse_int] with the default [None]. *)
Definition parse_window_min (value : option string) : option Z :=
  v ← value; if truthy (strip v) then parse_int (strip v) else None.

(** One row of the CSV reader: the cells that are there. *)
Abbreviation row := (list (string * string)).

(** The first of the columns with a text. *)
Fixpoint cell (names : list string) (dflt : string) (r : row) : string :=
  match names with
  | [] => dflt
  | n :: names => match dlookup n r with Some v => if truthy v then v else cell names dflt r | None => cell names dflt r end
  end.

Definition event_of_row (r : row) : res CalendarEvent :=
  let t := strip (cell ["title"; "event"] "" r) in
  let ts_raw := strip (cell ["timestamp"; "ts"; "time"] "" r) in
  let impact := lower (strip (cell ["impact"; "severity"] "medium" r)) in
  if negb (truthy t) || negb (truthy ts_raw) then Raise (CalendarLoadError "Calendar CSV row missing title/timestamp")
  else
    ts ← parse_timestamp ts_raw;
    Ok (Event t ts impact (parse_window_min (dlookup "window_before_min" r)) (parse_window_min (dlookup "window_after_min" r))).

(** [load_events_from_csv] on the rows of the file, if it is there. *)
Definition load_events_from_csv (path : string) (file : option (list row)) : res (list CalendarEvent) :=
  match file with
  | None => Raise (CalendarLoadError ("Calendar CSV not found: " +:+ path))
  | Some rows =>
      events ← mapM_res event_of_row rows;
      if truthy events then Ok events else Raise (CalendarLoadError ("Calendar CSV empty: " +:+ path))
  end.

(** * The service *)

Record CalendarService := Service { default_window_min : Z; events : list CalendarEvent }.

(** [_load_from_path], the start of the service and [reload]: a file that cannot
    be read as events gives none. *)
Definition load_from_path (path : string) (file : option (list row)) : res (list CalendarEvent) :=
  match file with
  | None => Ok []
  | Some _ =>
      match load_events_from_csv path file with
      | Raise (OtherError "CalendarLoadError" _) => Ok []
      | m => m
      end
  end.

Definition apply_default_window (e : CalendarEvent) (m : Z) : CalendarEvent :=
  Event (title e) (timestamp e) (impact e) (Some (default m (window_before_min e))) (Some (default m (window_after_min e))).

Section service.
Context `{Env} {S : Type} `{HasWorld S}.

Definition normalize_now (now : option datetime) : M S datetime :=
  d ← (match now with Some d => mret d | None => now_utc end);
  lift (normalize d).

(** [sort(key=timestamp)]: one event of the other kind is enough for the
    comparison to fail. *)
Definition sort_events (l : list CalendarEvent) : res (list CalendarEvent) :=
  if match l with
     | [] => true
     | e :: l => forallb (λ e', Bool.eqb (is_naive (timestamp e')) (is_naive (timestamp e))) l
     end
  then Ok (isort (λ a b, utc_us (timestamp a) <? utc_us (timestamp b)) l)
  else Raise (TypeError "can't compare offset-naive and offset-aware datetimes").

Definition upcoming_events (c : CalendarService) (limit : Z) (now : option datetime) : M S (list CalendarEvent) :=
  now_ts ← normalize_now now;
  l ← lift (filterM_res (λ e, t ← normalize (timestamp e); Ok (utc_us now_ts <=? utc_us t)) (events c));
  l ← lift (sort_events l);
  mret (take (Z.to_nat (Z.max limit 0)) l).

(** Whether the window of an event holds the instant. *)
Definition event_blocks (m : Z) (now_ts : datetime) (e : CalendarEvent) : res bool :=
  let e := apply_default_window e m in
  a ← window_start e;
  b ← dt_le a now_ts;
  if b : bool then z ← window_end e; dt_le now_ts z else Ok false.

Fixpoint any_blocks (m : Z) (now_ts : datetime) (l : list CalendarEvent) : res bool :=
  match l with
  | [] => Ok false
  | e :: l => b ← event_blocks m now_ts e; if b : bool then Ok true else any_blocks m now_ts l
  end.

Definition is_blocked (c : CalendarService) (now : option datetime) : M S bool :=
  now_ts ← normalize_now now;
  lift (any_blocks (default_window_min c) now_ts (events c)).
End service.

(** Every upcoming event is at or after the instant asked for. *)
Lemma filterM_res_elem {A} (f : A → res bool) l l' x : filterM_res f l = Ok l' → x ∈ l' → f x = Ok true ∧ x ∈ l.
Proof.
  revert l'. induction l as [|a l IH]; intros l' E Hx; cbn in E.
  - injection E as <-. by apply not_elem_of_nil in Hx.
  - apply bind_ok in E as (b & Hb & (bs & Hbs & [= <-])%bind_ok). destruct b.
    + apply elem_of_cons in Hx as [->|Hx]; [by split; [|left]|]. destruct (IH bs Hbs Hx). by split; [|right].
    + destruct (IH bs Hbs Hx). by split; [|right].
Qed.

Lemma upcoming_after `{Env} {S : Type} `{HasWorld S} c limit (s : S) l s' e :
  upcoming_events c limit None s = (Ok l, s') → e ∈ l →
  utc_us (clock_at (w_tick (wget s))) <= utc_us (timestamp e).
Proof.
  unfold upcoming_events, normalize_now. intros (d & s1 & (d0 & s0 & E0 & [E1 ->]%lift_Ok)%bind_Ok & E2)%bind_Ok He.
  injection E0 as <- _. apply normalize_Ok in E1 as [E1 _].
  apply bind_Ok in E2 as (l1 & s2 & [Ef ->]%lift_Ok & (l2 & s3 & [Es _]%lift_Ok & E3)%bind_Ok). injection E3 as <- _.
  assert (e ∈ l1) as Hl1.
  { unfold sort_events in Es. assert (e ∈ l2) as He2 by (eapply elem_of_take in He as (i & ? & _); by eapply list_elem_of_lookup_2).
    match type of Es with (if ?b then _ else _) = _ => destruct b end; [|done]. injection Es as <-. by apply elem_of_isort in He2. }
  apply (filterM_res_elem _ _ _ _ Ef) in Hl1 as [Hf _]. apply bind_ok in Hf as (t & Ht & [= Hle]).
  apply normalize_Ok in Ht as [Ht _]. apply Z.leb_le in Hle. lia.
Qed.
