(* ===== verification/Spread.v ===== *)
(** The spread guard: evaluation and monitors of [src/execution/spread.py] and
    the configuration helpers of [src/core/spread_guard.py]. *)

From S2P Require Import Prelude PyFloat PyVal PyEnv Calendar.

Local Open Scope Z_scope.
Local Open Scope py_scope.

(** * [Decimal]: [m * 10^e], an infinity or a NaN (the sign of a zero is dropped) *)

Inductive decimal := DFin (m e : Z) | DInf (neg : bool) | DNan.

Definition InvalidOperation : exn := OtherError "InvalidOperation" "".

Definition dec_of_number (n : number) : decimal :=
  match n with NFin neg m e => DFin (with_sign neg m) e | NInf neg => DInf neg | NNan => DNan end.

(** [Decimal(str(x))] of a float: the digits of its [repr]. *)
Definition dec_of_float (x : float) : decimal :=
  match x with
  | S754_zero _ => DFin 0 0
  | S754_infinity s => DInf s
  | S754_nan => DNan
  | S754_finite s m e =>
      let '(n, d) := ratio_of m e in
      let '(q, e') := shortest 17 (S754_finite false m e) n d (dec_exp n d) 1 in
      DFin (with_sign s q) e'
  end.

(** [Decimal(str(v))] *)
Definition dec_of_value (v : pyval) : res decimal :=
  match v with
  | VFloat x => Ok (dec_of_float x)
  | VInt z => Ok (DFin z 0)
  | _ => match parse_number (py_str v) with Some n => Ok (dec_of_number n) | None => Raise InvalidOperation end
  end.

(** [float(d)] *)
Definition dec_to_float (d : decimal) : float :=
  match d with DFin m e => of_dec m e | DInf s => S754_infinity s | DNan => S754_nan end.

(** [a >= b]: exact on numbers; a NaN is an invalid operation. *)
Definition dec_ge (a b : decimal) : res bool :=
  match a, b with
  | DNan, _ | _, DNan => Raise InvalidOperation
  | DInf false, _ => Ok true
  | _, DInf true => Ok true
  | DInf true, _ => Ok false
  | _, DInf false => Ok false
  | DFin m e, DFin m' e' => let k := Z.min e e' in Ok (m' * 10 ^ (e' - k) <=? m * 10 ^ (e - k))
  end.

(** * States and evaluations *)

Record SpreadState := Spread {
  state : string; spread_pips : decimal; percentile : float; threshold_pips : decimal; cooldown_eta : option datetime;
  last_updated : datetime; lookback_window_sec : Z; reason : option string }.

Record SpreadSnapshot := Snapshot { symbol : string; spread_state : SpreadState }.

Record SpreadEvaluation := Evaluation {
  ev_status : string; ev_p95 : decimal; ev_p99 : decimal; ev_cooldown_reason : option string; ev_ntp_drift_ms : option Z;
  ev_news_id : option string; ev_expires_at : option datetime }.

Definition vopt_int (o : option Z) : pyval := match o with Some z => VInt z | None => VNone end.
Definition vopt_iso (o : option datetime) : pyval := match o with Some d => VStr (isoformat d) | None => VNone end.

Definition evaluation_to_dict (e : SpreadEvaluation) : dict :=
  [("status", VStr (ev_status e)); ("p95", VFloat (dec_to_float (ev_p95 e))); ("p99", VFloat (dec_to_float (ev_p99 e)));
   ("cooldown_reason", vopt_str (ev_cooldown_reason e)); ("ntp_drift_ms", vopt_int (ev_ntp_drift_ms e));
   ("news_id", vopt_str (ev_news_id e)); ("expires_at", vopt_iso (ev_expires_at e))].

Definition drop_last (s : string) : string := String.substring 0 (String.length s - 1) s.

(** [_parse_window_seconds]: [int(float(token) * k)], where only a [ValueError]
    is caught. *)
Definition scaled_seconds (text : string) (k : Z) : res (option Z) :=
  match parse_float text with
  | None => Ok None
  | Some x => match ftrunc (fmul x (of_Z k)) with
      | Ok z => Ok (Some z)
      | Raise (ValueError _) => Ok None
      | Raise e => Raise e
      end
  end.

Definition parse_window_seconds (window : pyval) : res (option Z) :=
  if negb (truthy window) then Ok None
  else match window with
  | VStr w =>
      let token := lower (strip w) in
      if ends_with "h" token then scaled_seconds (drop_last token) 3600
      else if ends_with "m" token then scaled_seconds (drop_last token) 60
      else scaled_seconds token 1
  | _ => Raise (AttributeError "object has no attribute 'strip'")
  end.

(** [_load_latest_ntp_drift]: the last line with a drift that is a number. *)
Definition drift_of (l : line) : res (option Z) :=
  match l with
  | LJson v =>
      drift ← vget v "clock_drift_ms";
      match drift with
      | VNone => Ok None
      | _ => match (x ← py_float drift; fround_int x) with
          | Ok z => Ok (Some z)
          | Raise (TypeError _) | Raise (ValueError _) => Ok None
          | Raise e => Raise e
          end
      end
  | _ => Ok None
  end.

Fixpoint first_drift (ls : list line) : res (option Z) :=
  match ls with
  | [] => Ok None
  | l :: ls => d ← drift_of l; match d with Some z => Ok (Some z) | None => first_drift ls end
  end.

Definition load_latest_ntp_drift (f : file) : res (option Z) := first_drift (rev (file_lines f)).

Section spread.
Context `{Env} {S : Type} `{HasWorld S}.

(** [_normalize_event_time] *)
Definition normalize_event_time (e : CalendarEvent) : datetime :=
  if is_naive (timestamp e) then with_utc (timestamp e) else timestamp e.

(** [_resolve_news_event]: every error of the calendar means no event. *)
Definition resolve_news_event (service : CalendarService) (now : datetime) (window_minutes : Z * Z) : M S (option string) :=
  λ s,
  match is_blocked service (Some now) s with
  | (Raise _, s) => (Ok None, s)
  | (Ok true, s) => (Ok (Some "calendar_blocked"), s)
  | (Ok false, s) =>
      match upcoming_events service 1 None s with
      | (Raise _, s) | (Ok [], s) => (Ok None, s)
      | (Ok (event :: _), s) =>
          let event_ts := normalize_event_time event in
          (start ← dt_add now (minutes_us window_minutes.1);
           end_ ← dt_add now (minutes_us window_minutes.2);
           a ← dt_le start event_ts;
           b ← (if a : bool then dt_le event_ts end_ else Ok false);
           Ok (if b : bool then Some (title event) else None), s)
      end
  end.

(** The label and the reasons of an evaluation. *)
Definition classify (p95 p99 cooldown_threshold block_threshold : decimal) (ntp_drift_ms : option Z) (ntp_max_ms : Z)
    (news_event : option string) : res (string * list string) :=
  blocked ← dec_ge p99 block_threshold;
  '(status, reasons) ← (if blocked : bool then Ok ("block", ["wide_spread"])
    else wide ← dec_ge p95 cooldown_threshold; Ok (if wide : bool then ("cooldown", ["wide_spread"]) else ("normal", [])));
  let '(status, reasons) := match ntp_drift_ms with
    | Some d => if ntp_max_ms <? d then (if String.eqb status "block" then "block" else "cooldown", reasons ++ ["ntp_drift"])
                else (status, reasons)
    | None => (status, reasons) end in
  Ok (if truthy news_event then (if String.eqb status "block" then "block" else "cooldown", reasons ++ ["news_volatility"])
      else (status, reasons)).

(** [evaluate_spread_guard]; the reasons are distinct, so removing duplicates
    keeps them. *)
Definition evaluate_spread_guard (p95 p99 cooldown_threshold block_threshold : float) (ntp_drift_ms : option Z)
    (ntp_max_ms : Z) (news_event : option string) (cooldown_minutes : Z) : M S SpreadEvaluation :=
  let p95_dec := dec_of_float p95 in
  let p99_dec := dec_of_float p99 in
  '(status, reasons) ← lift (classify p95_dec p99_dec (dec_of_float cooldown_threshold) (dec_of_float block_threshold)
    ntp_drift_ms ntp_max_ms news_event);
  expires_at ← (if String.eqb status "normal" then mret None
    else now ← now_utc; t ← lift (dt_add now (minutes_us cooldown_minutes)); mret (Some t));
  mret (Evaluation status p95_dec p99_dec (if truthy reasons then Some (join "," reasons) else None) ntp_drift_ms
    news_event expires_at).
End spread.

(** * The monitors *)

(** The parameters of a monitor, the file of time-sync metrics among them. *)
Record SpreadMonitor := Monitor {
  cooldown_threshold : decimal; block_threshold : decimal; ntp_max_ms : Z; cooldown_minutes : Z;
  default_lookback : Z; time_sync_metrics : file; calendar_service : CalendarService; news_block_minutes : Z * Z;
  enable_news_block : bool; emit_network_metrics : bool }.

Definition monitor_init (cooldown block : float) (ntp_max minutes : Z) (lookback : option Z) (time_sync : file)
    (calendar : CalendarService) (news : Z * Z) (enable_news emit : bool) : SpreadMonitor :=
  Monitor (dec_of_float cooldown) (dec_of_float block) ntp_max minutes
    (match lookback with Some z => if truthy z then z else 1800 | None => 1800 end) time_sync calendar news enable_news emit.

(** What a monitor keeps. *)
Record MonitorState := MState {
  states : list (string * SpreadState); reasons : list (string * option string); ntp_drift : option Z;
  news_id : option string; cooldown_started : list (string * datetime); mon_world : world }.

#[export] Instance monitor_state_world : HasWorld MonitorState.
Proof.
  refine {| wget := mon_world; wset := λ w s, MState (states s) (reasons s) (ntp_drift s) (news_id s) (cooldown_started s) w |};
    by intros; repeat match goal with s : MonitorState |- _ => destruct s end.
Defined.

Definition set_started (l : list (string * datetime)) (s : MonitorState) : MonitorState :=
  MState (states s) (reasons s) (ntp_drift s) (news_id s) l (mon_world s).

(** [cooldown_state] *)
Definition cooldown_state (s : MonitorState) : string :=
  if existsb (λ kv : string * SpreadState, str_in (state kv.2) ["block"; "halt"]) (states s) then "block"
  else if existsb (λ kv : string * SpreadState, str_in (state kv.2) ["cooldown"; "watch"]) (states s) then "cooldown"
  else "normal".

(** [current_state] and [current_snapshot] *)
Definition current_state (symbols : option (list string)) (s : MonitorState) : list (string * SpreadState) :=
  match symbols with
  | Some l => List.filter (λ kv : string * SpreadState, str_in kv.1 l) (states s)
  | None => states s
  end.

Definition current_snapshot (s : MonitorState) : res SpreadSnapshot :=
  match current_state None s with
  | (k, st) :: _ => Ok (Snapshot k st)
  | [] => Raise (SpreadDataDegradedError "SpreadMonitorProtocol.current_state() returned an empty mapping")
  end.

Definition NETWORK_METRICS : string := "metrics/network.jsonl".
Definition cooldown_states : list string := ["cooldown"; "block"; "halt"].

Definition frame_symbol (frame : dict) : string := py_str (dget "symbol" frame or? VStr "*").

Section monitor.
Context `{Env}.
Variable m : SpreadMonitor.

(** The symbol's new state, all its inputs read and converted. *)
Definition assess (frame : dict) : M MonitorState (SpreadEvaluation * SpreadState) :=
  let p95_value := dget_or "p95" (dget "spread_p95" frame) frame in
  let p99_value := dget_or "p99" (dget_or "spread_p99" p95_value frame) frame in
  match p95_value, p99_value with
  | VNone, _ | _, VNone => raise (SpreadDataDegradedError "spread metrics missing (p95/p99)")
  | _, _ =>
      let news := dget "news_id" frame or? dget "news_event" frame in
      w ← lift (parse_window_seconds (dget "window" frame));
      let window_seconds := match w with Some z => if truthy z then z else default_lookback m | None => default_lookback m end in
      p95 ← lift (py_float p95_value);
      p99 ← lift (py_float p99_value);
      drift ← lift (match dget "ntp_drift_ms" frame with VNone => Ok None | v => z ← py_int v; Ok (Some z) end);
      e ← evaluate_spread_guard p95 p99 (dec_to_float (cooldown_threshold m)) (dec_to_float (block_threshold m)) drift
        (ntp_max_ms m) (if truthy news then Some (py_str news) else None) (cooldown_minutes m);
      now ← now_utc;
      pips ← lift (dec_of_value p99_value);
      mret (e, Spread (ev_status e) pips (of_Z 99)
        (if String.eqb (ev_status e) "block" then block_threshold m else cooldown_threshold m)
        (ev_expires_at e) now window_seconds (ev_cooldown_reason e))
  end.

(** [SimpleSpreadMonitor.update] *)
Definition simple_update (frame : dict) : M MonitorState string :=
  '(e, st) ← assess frame;
  let k := frame_symbol frame in
  _ ← modify (λ s, MState (dset k st (states s)) (dset k (ev_cooldown_reason e) (reasons s)) (ev_ntp_drift_ms e)
    (ev_news_id e) (cooldown_started s) (mon_world s));
  gets cooldown_state.

(** [_record_network_metrics] *)
Definition seconds_between (start now : datetime) : float := fmax fzero (of_ratio (utc_us now - utc_us start) 1000000).

Definition record_network_metrics (k : string) (previous : string) (previous_reason : option string) (current : SpreadState)
    : M MonitorState unit :=
  let now := last_updated current in
  if str_in (state current) cooldown_states then
    when (negb (str_in previous cooldown_states) || negb (String.eqb previous (state current))) (
      _ ← modify (λ s, set_started (dset k now (cooldown_started s)) s);
      ts ← utcnow_iso;
      s ← get;
      append_jsonl NETWORK_METRICS (VDict [("ts", VStr ts); ("event", VStr "spread.cooldown.start"); ("symbol", VStr k);
        ("status", VStr (state current)); ("cooldown_reason", vopt_str (reason current));
        ("ntp_drift_ms", vopt_int (ntp_drift s)); ("news_id", vopt_str (news_id s));
        ("cooldown_eta", vopt_iso (cooldown_eta current))]))
  else
    s ← get;
    match dlookup k (cooldown_started s) with
    | None => mret tt
    | Some start =>
        _ ← modify (λ s, set_started (dpop k (cooldown_started s)) s);
        ts ← utcnow_iso;
        append_jsonl NETWORK_METRICS (VDict [("ts", VStr ts); ("event", VStr "spread.cooldown.clear"); ("symbol", VStr k);
          ("status", VStr (state current)); ("duration_sec", VFloat (seconds_between start now));
          ("cooldown_reason", vopt_str previous_reason)])
    end.

(** The frame with the drift and the news event the monitor finds itself. *)
Definition enrich (frame : dict) : M MonitorState dict :=
  frame ← (match dget "ntp_drift_ms" frame with
    | VNone => d ← lift (load_latest_ntp_drift (time_sync_metrics m));
        mret (match d with Some z => dset "ntp_drift_ms" (VInt z) frame | None => frame end)
    | _ => mret frame end);
  if enable_news_block m && negb (truthy (dget "news_id" frame or? dget "news_event" frame)) then
    now ← now_utc;
    event ← resolve_news_event (calendar_service m) now (news_block_minutes m);
    mret (if truthy event then dset "news_event" (vopt_str event) frame else frame)
  else mret frame.

(** [SpreadMonitor.update] *)
Definition update (frame : dict) : M MonitorState string :=
  let k := frame_symbol frame in
  s ← get;
  let previous := dlookup k (states s) in
  frame ← enrich frame;
  r ← simple_update frame;
  s ← get;
  _ ← (match dlookup k (states s) with
    | Some st => when (emit_network_metrics m) (record_network_metrics k
        (match previous with Some p => state p | None => "normal" end)
        (match previous with Some p => reason p | None => None end) st)
    | None => mret tt end);
  mret r.
End monitor.

(** * Configuration *)

Section guard_config.
(** The parsed manifest ([None] when it is absent or cannot be read) and the
    profile's [spread] and [gates] sections. *)
Variable manifest : option pyval.

Definition load_manifest : dict := match manifest with Some v => as_dict_or_empty v | None => [] end.

Definition extract_filters (entry : pyval) : dict :=
  match entry with
  | VDict e =>
      match dget "parameters" e with
      | VDict p => match dget "filters" p with VDict f => f | _ => as_dict_or_empty (dget "filters" e) end
      | _ => as_dict_or_empty (dget "filters" e)
      end
  | _ => []
  end.

(** A conversion whose type and value errors are skipped. *)
Definition skip_errors {A} (r : res A) : res (option A) :=
  match r with
  | Ok a => Ok (Some a)
  | Raise (TypeError _) | Raise (ValueError _) => Ok None
  | Raise e => Raise e
  end.

Definition parse_window (v : pyval) : res (option (Z * Z)) :=
  match v with
  | VList [a; b] => skip_errors (x ← py_int a; y ← py_int b; Ok (x, y))
  | _ => Ok None
  end.

Definition strategy_entries : option (list pyval) :=
  match dget "strategies" load_manifest with VDict d => Some d.*2 | _ => None end.

Definition resolve_news_block_window (dflt : Z * Z) : res (Z * Z) :=
  match strategy_entries with
  | None => Ok dflt
  | Some es =>
      ws ← mapM_res (λ e, parse_window (dget "news_block_minutes" (extract_filters e))) es;
      Ok (match omap id ws with
          | [] => dflt
          | w :: ws => (fold_left (λ a w, Z.min a w.1) ws w.1, fold_left (λ a w, Z.max a w.2) ws w.2)
          end)
  end.

Definition resolve_spread_guard_multiplier (dflt : float) : res float :=
  match strategy_entries with
  | None => Ok dflt
  | Some es =>
      ms ← mapM_res (λ e, match dget "spread_guard_multiplier" (extract_filters e) with
        | VNone => Ok None
        | v => skip_errors (py_float v) end) es;
      Ok (match omap id ms with [] => dflt | x :: xs => fold_left fmax xs x end)
  end.

(** The cooldown threshold, the block threshold and the cooldown minutes. *)
Definition resolve_spread_thresholds (spread : dict) : res (float * float * float) :=
  cooldown ← (match dget "guard_threshold_pips" spread with VNone => Ok (of_dec 12 (-1)) | v => py_float v end);
  multiplier ← resolve_spread_guard_multiplier (of_Z 2);
  minutes ← (match dget "cooldown_minutes" spread with VNone => Ok 10 | v => py_int v end);
  minutes ← float_of_int minutes;
  Ok (cooldown, fmul cooldown multiplier, minutes).

Definition build_spread_monitor (spread gates : dict) (time_sync : file) (calendar : CalendarService) : res SpreadMonitor :=
  '(cooldown, block, minutes) ← resolve_spread_thresholds spread;
  window ← resolve_news_block_window (-15, 30);
  minutes ← ftrunc minutes;
  Ok (monitor_init cooldown block 50 minutes None time_sync calendar window
    (truthy (dget_or "enable_news_block" (VBool true) gates)) true).
End guard_config.

(** * The classification *)

Section classification.
Context `{Env} {S : Type} `{HasWorld S}.

(** The reasons that hold, in their order. *)
Definition reasons_of (wide drift news : bool) : list string :=
  (if wide then ["wide_spread"] else []) ++ (if drift then ["ntp_drift"] else []) ++
  (if news then ["news_volatility"] else []).

Definition drifted (ntp : option Z) (max : Z) : bool := match ntp with Some d => max <? d | None => false end.

Lemma classify_eq p95 p99 cooldown block ntp ntp_max news bl wide :
  dec_ge p99 block = Ok bl → dec_ge p95 cooldown = Ok wide →
  classify p95 p99 cooldown block ntp ntp_max news =
    Ok (if bl then "block" else if wide || drifted ntp ntp_max || truthy news then "cooldown" else "normal",
        reasons_of (bl || wide) (drifted ntp ntp_max) (truthy news)).
Proof.
  intros Hbl Hwide. unfold classify, reasons_of, drifted. rewrite Hbl. cbn [mbind res_bind]. rewrite Hwide.
  destruct bl, wide; cbn [mbind res_bind orb]; (destruct ntp as [d|]; [destruct (ntp_max <? d)|]); destruct (truthy news); reflexivity.
Qed.

(** What an evaluation without NaN answers: block exactly when the 99th
    percentile reaches the block threshold, otherwise cooldown exactly when the
    95th reaches the cooldown threshold, the clock drifts too far or there is
    news, normal exactly when nothing holds; the reasons are those that hold and
    the expiry is [cooldown_minutes] after the next clock reading, set exactly
    when the status is not normal. *)
Theorem guard_classification (p95 p99 cooldown block : float) (ntp : option Z) (ntp_max : Z) (news : option string)
    (minutes : Z) (s : S) (bl wide : bool)
    (Hbl : dec_ge (dec_of_float p99) (dec_of_float block) = Ok bl)
    (Hwide : dec_ge (dec_of_float p95) (dec_of_float cooldown) = Ok wide)
    (eta : datetime) (Heta : dt_add (clock_at (w_tick (wget s))) (minutes_us minutes) = Ok eta) :
  let caution := wide || drifted ntp ntp_max || truthy news in
  ∃ e s', evaluate_spread_guard p95 p99 cooldown block ntp ntp_max news minutes s = (Ok e, s') ∧
    ev_status e = (if bl then "block" else if caution then "cooldown" else "normal") ∧
    ev_cooldown_reason e = (match reasons_of (bl || wide) (drifted ntp ntp_max) (truthy news) with
      | [] => None | l => Some (join "," l) end) ∧
    ev_expires_at e = (if bl || caution then Some eta else None).
Proof.
  cbn zeta. unfold evaluate_spread_guard. rewrite bind_run. unfold lift at 1. rewrite (classify_eq _ _ _ _ _ _ _ _ _ Hbl Hwide).
  assert ((now ← now_utc; t ← lift (dt_add now (minutes_us minutes)); mret (Some t)) s =
    (Ok (Some eta), (now_utc s).2)) as Hexp.
  { rewrite bind_run. cbn [now_utc]. rewrite bind_run. unfold lift. by rewrite Heta. }
  rewrite bind_run. destruct bl; [|destruct (wide || _ || _) eqn:E]; cbn [String.eqb Ascii.eqb Bool.eqb].
  1,2: rewrite Hexp.
  all: eexists _, _; split; [reflexivity|]; cbn [ev_status ev_cooldown_reason ev_expires_at]; split_and!; [done| |done];
    by destruct (reasons_of _ _ _).
Qed.
End classification.

(** * Tracking the cooldowns *)

Section tracking.
Context `{Env}.
Variable m : SpreadMonitor.
Hypothesis emits : emit_network_metrics m = true.

(** A start time is kept exactly for the symbols in cooldown or blocked, and
    every label is one the evaluation gives. *)
Definition tracked (s : MonitorState) : Prop :=
  NoDup (keys (cooldown_started s)) ∧
  ∀ k, (is_Some (dlookup k (cooldown_started s)) ↔ ∃ st, dlookup k (states s) = Some st ∧ state st ∈ ["cooldown"; "block"]) ∧
       (∀ st, dlookup k (states s) = Some st → state st ∈ ["normal"; "cooldown"; "block"]).

(** The parts of the state the proofs follow. *)
Definition books (s : MonitorState) := (states s, cooldown_started s).

Definition calm {A} (c : M MonitorState A) : Prop := ∀ s, books (c s).2 = books s.

Lemma calm_bind {A B} (c : M MonitorState A) (f : A → M MonitorState B) : calm c → (∀ a, calm (f a)) → calm (c ≫= f).
Proof.
  intros Hc Hf s. rewrite bind_run. specialize (Hc s). destruct (c s) as [[a|e] s1]; [|done]. by rewrite Hf.
Qed.

Lemma calm_ret {A} (a : A) : calm (mret a).
Proof. done. Qed.
Lemma calm_lift {A} (r : res A) : calm (lift r).
Proof. done. Qed.
Lemma calm_now : calm now_utc.
Proof. done. Qed.

Lemma calm_normalize now : calm (normalize_now now).
Proof. apply calm_bind; [by destruct now|]. intros; apply calm_lift. Qed.

Lemma calm_resolve c now w : calm (resolve_news_event c now w).
Proof.
  assert (calm (is_blocked c (Some now))) as Hb by (apply calm_bind; [apply calm_normalize|intros; apply calm_lift]).
  assert (calm (upcoming_events c 1 None)) as Hu.
  { apply calm_bind; [apply calm_normalize|]. intros. apply calm_bind; [apply calm_lift|]. intros.
    apply calm_bind; [apply calm_lift|]. done. }
  intros s. unfold resolve_news_event. specialize (Hb s). destruct (is_blocked c (Some now) s) as [[[]|e] s1]; [done| |done].
  cbn in Hb. rewrite <- Hb. specialize (Hu s1). by destruct (upcoming_events c 1 None s1) as [[[|ev l]|e] s2].
Qed.

Lemma calm_enrich frame : calm (enrich m frame).
Proof.
  unfold enrich. apply calm_bind.
  - destruct (dget "ntp_drift_ms" frame); try apply calm_ret. apply calm_bind; [apply calm_lift|intros; apply calm_ret].
  - intros f. destruct (_ && _); [|apply calm_ret]. apply calm_bind; [apply calm_now|]. intros.
    apply calm_bind; [apply calm_resolve|intros; apply calm_ret].
Qed.

Lemma calm_assess frame : calm (assess m frame).
Proof.
  assert (∀ a b c d e f g h, calm (evaluate_spread_guard a b c d e f g h)) as He.
  { intros. unfold evaluate_spread_guard. apply calm_bind; [apply calm_lift|]. intros [st rs].
    apply calm_bind; [|intros; apply calm_ret]. destruct (String.eqb _ _); [apply calm_ret|].
    apply calm_bind; [apply calm_now|]. intros. apply calm_bind; [apply calm_lift|intros; apply calm_ret]. }
  unfold assess. cbn zeta. repeat match goal with |- calm (match ?x with _ => _ end) => destruct x end; try done.
  all: repeat (apply calm_bind; [apply calm_lift|intros]); apply calm_bind; [apply He|]; intros;
    apply calm_bind; [apply calm_now|]; intros; apply calm_bind; [apply calm_lift|]; intros; apply calm_ret.
Qed.

(** The labels an assessment gives. *)
Lemma classify_status p95 p99 c b ntp ntp_max news st rs :
  classify p95 p99 c b ntp ntp_max news = Ok (st, rs) → st ∈ ["normal"; "cooldown"; "block"].
Proof.
  unfold classify. intros E.
  destruct (dec_ge p99 b) as [[]|]; [|destruct (dec_ge p95 c) as [[]|]|]; cbn [mbind res_bind] in E; try discriminate E.
  all: destruct ntp as [d|]; [destruct (ntp_max <? d)|]; destruct (truthy news); injection E as <- _; set_solver.
Qed.

Lemma assess_label frame s e st s' : assess m frame s = (Ok (e, st), s') → state st ∈ ["normal"; "cooldown"; "block"].
Proof.
  intros E. unfold assess in E. cbn zeta in E.
  repeat match type of E with (match ?x with _ => _ end) _ = _ => destruct x end; try discriminate E.
  all: repeat (apply bind_Ok in E as (? & ? & [? ->]%lift_Ok & E)); apply bind_Ok in E as (e' & ? & Ee & E).
  all: apply bind_Ok in E as (? & ? & _ & E); apply bind_Ok in E as (? & ? & _ & [= _ <- _]).
  all: unfold evaluate_spread_guard in Ee; apply bind_Ok in Ee as ([st rs] & ? & [Hc _]%lift_Ok & Ee).
  all: apply bind_Ok in Ee as (? & ? & _ & [= <- _]); by apply classify_status in Hc.
Qed.

Lemma simple_update_books frame s r s' : simple_update m frame s = (r, s') →
  (books s' = books s ∧ ∃ e, r = Raise e) ∨
  (∃ st, states s' = dset (frame_symbol frame) st (states s) ∧ cooldown_started s' = cooldown_started s ∧
    state st ∈ ["normal"; "cooldown"; "block"] ∧ is_ok r = true).
Proof.
  unfold simple_update. rewrite bind_run. pose proof (calm_assess frame s) as Hq.
  destruct (assess m frame s) as [[[e st]|e] s1] eqn:E; cbn in Hq.
  - intros [= <- <-]. right. exists st. injection Hq as Hs Hc. cbn. rewrite Hs, Hc. split_and!; try done.
    by eapply assess_label.
  - intros [= <- <-]. left. split; [done|by exists e].
Qed.

(** The start times after a label was recorded. *)
Definition started_after (k previous : string) (current : SpreadState) (l : list (string * datetime)) : list (string * datetime) :=
  if str_in (state current) cooldown_states then
    if negb (str_in previous cooldown_states) || negb (String.eqb previous (state current))
    then dset k (last_updated current) l else l
  else dpop k l.

Lemma dpop_absent {A} k (d : list (string * A)) : dlookup k d = None → dpop k d = d.
Proof.
  induction d as [|[k' v] d IH]; cbn [dlookup dpop]; [done|]. destruct (String.eqb k k'); [done|]. intros Hd. by rewrite IH.
Qed.

Lemma record_books k previous pr current s : ∃ s', record_network_metrics k previous pr current s = (Ok tt, s') ∧
  books s' = (states s, started_after k previous current (cooldown_started s)).
Proof.
  unfold record_network_metrics, started_after. destruct (str_in (state current) cooldown_states).
  - destruct (_ || _); cbn [when]; eexists; split; [done|done|done|done].
  - rewrite bind_run. cbn [get]. destruct (dlookup k (cooldown_started s)) eqn:E.
    + eexists. split; [done|]. done.
    + eexists. split; [done|]. unfold books. by rewrite dpop_absent.
Qed.

Lemma tracked_books s s' : books s' = books s → tracked s → tracked s'.
Proof. unfold tracked. by intros [= -> ->]. Qed.

Lemma label_cooldown x : x ∈ ["normal"; "cooldown"; "block"] →
  str_in x cooldown_states = bool_decide (x ∈ ["cooldown"; "block"]).
Proof. intros Hx. repeat (apply elem_of_cons in Hx as [->|Hx]; [reflexivity|]). by apply not_elem_of_nil in Hx. Qed.

Lemma tracked_record s s' k st :
  tracked s → state st ∈ ["normal"; "cooldown"; "block"] →
  books s' = (dset k st (states s),
    started_after k (match dlookup k (states s) with Some p => state p | None => "normal" end) st (cooldown_started s)) →
  tracked s'.
Proof.
  intros [Hn Ht] Hst [= Hs Hc]. unfold tracked. rewrite Hs, Hc. clear Hs Hc s'. unfold started_after. split.
  { destruct (str_in _ _); [|by apply NoDup_dpop]. destruct (_ || _); [by apply NoDup_dset|done]. }
  intros k'. destruct (decide (k' = k)) as [->|Hne].
  2: { rewrite dlookup_dset_ne by done. destruct (Ht k') as [H1 H2]. split; [|done]. rewrite <- H1.
    destruct (str_in _ _); [|by rewrite dlookup_dpop_ne by done]. destruct (_ || _); [by rewrite dlookup_dset_ne by done|done]. }
  rewrite dlookup_dset_eq. split; [|by intros ? [= <-]].
  transitivity (state st ∈ ["cooldown"; "block"]).
  2: { split; [intros; by exists st|by intros (? & [= <-] & ?)]. }
  rewrite (label_cooldown _ Hst). case_bool_decide as Hin.
  - split; [done|intros _]. destruct (dlookup k (states s)) as [p|] eqn:Ep.
    2: { change (negb (str_in "normal" cooldown_states)) with true. cbn [orb]. by rewrite dlookup_dset_eq. }
    destruct (negb _ || negb _) eqn:Efresh; [by rewrite dlookup_dset_eq|]. to_props.
    apply (Ht k). exists p. split; [done|]. congruence.
  - rewrite dlookup_dpop_eq by done. split; [by intros [? ?]|done].
Qed.

Lemma enrich_symbol frame s f s' : enrich m frame s = (Ok f, s') → frame_symbol f = frame_symbol frame.
Proof.
  unfold enrich. intros (f1 & s1 & E1 & E2)%bind_Ok. trans (frame_symbol f1).
  - destruct (_ && _); [|by injection E2 as <- _]. apply bind_Ok in E2 as (now & s2 & _ & (ev & s3 & _ & E3)%bind_Ok).
    injection E3 as <- _. destruct (truthy ev); [|done]. unfold frame_symbol. by rewrite dget_dset_ne.
  - destruct (dget "ntp_drift_ms" frame); try by injection E1 as <- _.
    apply bind_Ok in E1 as (d & s2 & _ & E1). injection E1 as <- _. destruct d; [|done]. unfold frame_symbol. by rewrite dget_dset_ne.
Qed.

Lemma update_tracked f s : tracked s → tracked (update m f s).2.
Proof using emits.
  intros Hs. unfold update. rewrite bind_run. cbn [get]. rewrite bind_run. pose proof (calm_enrich f s) as Hq.
  destruct (enrich m f s) as [[f'|e] s1] eqn:Ef; cbn in Hq; [|by apply (tracked_books s)].
  apply enrich_symbol in Ef. rewrite bind_run. destruct (simple_update m f' s1) as [r s2] eqn:E.
  apply simple_update_books in E as [[Hb [e ->]]|(st & Hst & Hc & Hlab & Hr)].
  { apply (tracked_books s); [exact (eq_trans Hb Hq)|done]. }
  destruct r as [r|]; [|done]. rewrite Ef in Hst. injection Hq as Hq1 Hq2. rewrite Hq1 in Hst. rewrite Hq2 in Hc.
  rewrite bind_run. cbn [get]. rewrite bind_run. rewrite Hst, dlookup_dset_eq, emits. cbn [when].
  match goal with |- context [record_network_metrics ?k ?p ?pr ?c s2] =>
    destruct (record_books k p pr c s2) as (s3 & -> & Hb) end.
  apply (tracked_record s s3 (frame_symbol f) st); [done|done|]. rewrite Hb, Hst, Hc. done.
Qed.

(** Whatever frames arrive, complete or not, the monitor keeps a start time
    exactly for the symbols that are in cooldown or blocked, and its labels are
    normal, cooldown and block. *)
Theorem cooldowns_are_tracked (frames : list dict) (s : MonitorState) (Hs : tracked s) :
  tracked (fold_left (λ s f, (update m f s).2) frames s).
Proof using emits. revert s Hs. induction frames as [|f frames IH]; intros s Hs; [done|]. by apply IH, update_tracked. Qed.
End tracking.

(** * The news window *)

Section news.
Context `{Env} {S : Type} `{HasWorld S}.

Lemma is_blocked_clock c now (s : S) : w_tick (wget (is_blocked c (Some now) s).2) = w_tick (wget s).
Proof. unfold is_blocked, normalize_now. rewrite !bind_run. cbn. by destruct (normalize now). Qed.

(** The start of the news window is dead when it is not in the future: the only
    event looked at is one that has not happened yet, so how far back the window
    reaches makes no difference. *)
Theorem news_window_start_is_dead (c : CalendarService) (now : datetime) (a a' b : Z) (s : S)
    (Haware : is_naive now = false) (Hclock : utc_us now <= utc_us (clock_at (w_tick (wget s))))
    (Ha : a <= 0) (Ha' : a' <= 0) (t t' : datetime)
    (Ht : dt_add now (minutes_us a) = Ok t) (Ht' : dt_add now (minutes_us a') = Ok t') :
  resolve_news_event c now (a, b) s = resolve_news_event c now (a', b) s.
Proof.
  unfold resolve_news_event. pose proof (is_blocked_clock c now s) as Htick.
  destruct (is_blocked c (Some now) s) as [[[]|e] s1]; [done| |done]. cbn in Htick.
  destruct (upcoming_events c 1 None s1) as [[[|ev l]|e] s2] eqn:E; [done| |done].
  assert (utc_us now <= utc_us (timestamp ev)) as Hev.
  { etrans; [exact Hclock|]. rewrite <- Htick. eapply upcoming_after; [exact E|by left]. }
  assert (∀ x y, x <= 0 → dt_add now (minutes_us x) = Ok y → dt_le y (normalize_event_time ev) = Ok true) as Hle.
  { intros x y Hx [Hy Hn]%dt_add_Ok. unfold dt_le. rewrite Hn, Haware.
    assert (is_naive (normalize_event_time ev) = false ∧ utc_us (normalize_event_time ev) = utc_us (timestamp ev)) as [-> ->].
    { unfold normalize_event_time, is_naive. destruct (dt_tz (timestamp ev)) as [o|] eqn:Ez; [by rewrite Ez|].
      split; [done|]. unfold with_utc. rewrite utc_us_offset, Ez. cbn [default id]. lia. }
    cbn [Bool.eqb]. f_equal. apply Z.leb_le. unfold minutes_us in Hy. lia. }
  cbn [fst snd]. rewrite Ht, Ht'. cbn [mbind res_bind]. destruct (dt_add now (minutes_us b)); [|done]. cbn [mbind res_bind].
  by rewrite (Hle a t Ha Ht), (Hle a' t' Ha' Ht').
Qed.
End news.

(** * Escalation *)

(** The duration a clear event reports starts at the last change between
    cooldown and block, not at the start of the cooldown: after an escalation at
    [u], clearing at [v] reports [v - u], whenever the cooldown had begun. *)
Theorem escalation_restarts_duration `{Env} (k : string) (pr pr' : option string) (blocked normal : SpreadState)
    (s : MonitorState) (began : datetime) (Hbegan : dlookup k (cooldown_started s) = Some began)
    (Hb : state blocked = "block") (Hn : state normal = "normal") :
  let s1 := (record_network_metrics k "cooldown" pr blocked s).2 in
  ∃ s2 d, record_network_metrics k "block" pr' normal s1 = (Ok tt, s2) ∧
    last (w_out (mon_world s2)) = Some (NETWORK_METRICS, VDict d) ∧
    dget "event" d = VStr "spread.cooldown.clear" ∧
    dget "duration_sec" d = VFloat (seconds_between (last_updated blocked) (last_updated normal)).
Proof.
  intros s1. assert (dlookup k (cooldown_started s1) = Some (last_updated blocked)) as Hs1.
  { pose proof (record_books k "cooldown" pr blocked s) as (s1' & E & [= _ Hc]). subst s1. rewrite E. cbn [snd]. rewrite Hc.
    unfold started_after. rewrite Hb. cbn. apply dlookup_dset_eq. }
  clearbody s1. unfold record_network_metrics. rewrite Hn.
  change (str_in "normal" cooldown_states) with false. cbn match. rewrite bind_run. cbn [get]. rewrite Hs1.
  eexists _, _. split; [reflexivity|]. split; [apply last_snoc|]. done.
Qed.

(** * Instances *)

Definition eur_monitor : SpreadMonitor :=
  monitor_init (of_dec 18 (-1)) (of_dec 25 (-1)) 50 5 None None (Service 30 []) (-15, 30) true true.
Definition fresh : MonitorState := MState [] [] None None [] world0.
Definition frame (p95 p99 : float) : dict := [("symbol", VStr "EURUSD"); ("p95", VFloat p95); ("p99", VFloat p99)].

Lemma guard_classification_witness :
  ∃ e s', @evaluate_spread_guard sample_env world _ (of_dec 19 (-1)) (of_dec 21 (-1)) (of_dec 18 (-1)) (of_dec 25 (-1))
      (Some 80) 50 None 5 world0 = (Ok e, s') ∧
    ev_status e = "cooldown" ∧ ev_cooldown_reason e = Some "wide_spread,ntp_drift" ∧
    ev_expires_at e = Some (from_utc_us (1773999000000000 + 300000000)).
Proof.
  exact (@guard_classification sample_env world _ (of_dec 19 (-1)) (of_dec 21 (-1)) (of_dec 18 (-1)) (of_dec 25 (-1))
    (Some 80) 50 None 5 world0 false true ltac:(by vm_compute) ltac:(by vm_compute)
    (from_utc_us (1773999000000000 + 300000000)) ltac:(by vm_compute)).
Defined.

Lemma tracked_fresh : tracked fresh.
Proof. split; [constructor|]. intros k. split; [|done]. split; [by intros [? ?]|by intros (? & ? & _)]. Qed.

Lemma cooldowns_are_tracked_witness :
  let frames := [frame (of_Z 1) (of_Z 2); frame (of_Z 2) (of_Z 2); frame (of_Z 2) S754_nan; []; frame (of_Z 2) (of_Z 3)] in
  let s := fold_left (λ s f, (@update sample_env eur_monitor f s).2) frames fresh in
  tracked s ∧ cooldown_state s = "block" ∧ keys (cooldown_started s) = ["EURUSD"].
Proof.
  split; [exact (@cooldowns_are_tracked sample_env eur_monitor eq_refl _ fresh tracked_fresh)|].
  split; by vm_compute.
Defined.

(** An event ten minutes ahead, seen at the first clock reading. *)
Definition payrolls : CalendarService :=
  Service 5 [Event "NFP" (from_utc_us (1773999000000000 + 600000000)) "high" None None].

Lemma news_window_start_is_dead_witness :
  (@resolve_news_event sample_env world _ payrolls (from_utc_us 1773998999000000) (-15, 30) world0).1 = Ok (Some "NFP") ∧
  @resolve_news_event sample_env world _ payrolls (from_utc_us 1773998999000000) (-15, 30) world0 =
  @resolve_news_event sample_env world _ payrolls (from_utc_us 1773998999000000) (0, 30) world0.
Proof.
  split; [by vm_compute|].
  refine (@news_window_start_is_dead sample_env world _ payrolls (from_utc_us 1773998999000000) (-15) 0 30 world0
    eq_refl _ _ _ (from_utc_us (1773998999000000 - 900000000)) (from_utc_us 1773998999000000) _ _);
    [vm_compute; congruence|lia|lia|by vm_compute|by vm_compute].
Defined.

Definition at_state (label : string) (us : Z) : SpreadState :=
  Spread label (DFin 2 0) (of_Z 99) (DFin 18 (-1)) None (from_utc_us us) 1800 None.

(** A cooldown from second 0, a block at 600, normal again at 660: one minute. *)
Lemma escalation_restarts_duration_witness :
  let s := MState [] [] None None [("EURUSD", from_utc_us 0)] world0 in
  let s1 := (@record_network_metrics sample_env "EURUSD" "cooldown" None (at_state "block" 600000000) s).2 in
  ∃ s2 d, @record_network_metrics sample_env "EURUSD" "block" None (at_state "normal" 660000000) s1 = (Ok tt, s2) ∧
    last (w_out (mon_world s2)) = Some (NETWORK_METRICS, VDict d) ∧ dget "duration_sec" d = VFloat (of_Z 60).
Proof.
  intros s s1.
  destruct (@escalation_restarts_duration sample_env "EURUSD" None None (at_state "block" 600000000) (at_state "normal" 660000000)
    s (from_utc_us 0) eq_refl eq_refl eq_refl) as (s2 & d & E & Hl & _ & Hd).
  exists s2, d. split; [exact E|]. split; [exact Hl|]. rewrite Hd. by vm_compute.
Defined.
