(* ===== verification/Cost.v ===== *)
(** The round-trip cost model of [src/execution/cost.py]: trading sessions,
    rollovers and weekend closes inside a holding window, and the price of a
    round trip from the tables of the configuration. *)

From S2P Require Import Prelude PyFloat PyVal PyEnv Calendar.

Local Open Scope Z_scope.
Local Open Scope py_scope.

(** * Loops *)

(** [while cond: body]; [None] when [fuel] turns were not enough. *)
Fixpoint while {A} (fuel : nat) (cond : A → bool) (body : A → res A) (a : A) : option (res A) :=
  match fuel with
  | O => None
  | S fuel =>
      if cond a then match body a with Ok b => while fuel cond body b | Raise e => Some (Raise e) end
      else Some (Ok a)
  end.

(** * Sessions *)

Definition CostConfigError (msg : string) : exn := OtherError "CostConfigError" msg.

Definition DAY : Z := 86400000000.
Definition HOUR : Z := 3600000000.
Definition ROLLOVER_HOUR_UTC : Z := 21.

Definition SESSION_WINDOWS : list (Z * Z * string) :=
  [(0, 6, "asia"); (6, 12, "london"); (12, 16, "overlap"); (16, 21, "ny"); (21, 24, "off_hours")].

(** [weekday()] of an instant of the UTC time line: Monday is 0, and the first
    day of the epoch was a Thursday. *)
Definition weekday (us : Z) : Z := (us / DAY + 3) mod 7.
Definition hour (us : Z) : Z := us mod DAY / HOUR.

Fixpoint session_in (ws : list (Z * Z * string)) (h : Z) : string :=
  match ws with
  | [] => "off_hours"
  | (a, b, label) :: ws => if (a <=? h) && (h <? b) then label else session_in ws h
  end.

Definition session_for_timestamp (timestamp : datetime) : res string :=
  if is_naive timestamp then Raise (ValueError "timestamp must be timezone-aware")
  else
    utc ← to_utc_us timestamp;
    let h := hour utc in
    let d := weekday utc in
    if d =? 5 then Ok "off_hours"
    else if (d =? 6) && (h <? ROLLOVER_HOUR_UTC) then Ok "off_hours"
    else if (d =? 4) && (ROLLOVER_HOUR_UTC <=? h) then Ok "off_hours"
    else Ok (session_in SESSION_WINDOWS h).

(** * Rollovers and weekends inside a holding window *)

(** [t + timedelta(...)] on the UTC time line. *)
Definition shift (t d : Z) : res Z :=
  if in_range min_us (t + d) max_us then Ok (t + d) else Raise (OverflowError "date value out of range").

(** [t.replace(hour=21, minute=0, second=0, microsecond=0)] *)
Definition rollover_of (t : Z) : Z := t / DAY * DAY + ROLLOVER_HOUR_UTC * HOUR.

(** Turns enough for a loop that steps through the days of [[a, b]]. *)
Definition days_fuel (a b : Z) : nat := Z.to_nat ((b - a) / DAY + 4).

(** The loops give [None] only without fuel, which [days_fuel] never is. *)
Definition count_rollovers (start_utc end_utc : Z) : option (res Z) :=
  let today_rollover := rollover_of start_utc in
  match (if start_utc <? today_rollover then Ok today_rollover else shift today_rollover DAY) with
  | Raise e => Some (Raise e)
  | Ok candidate =>
      match while (days_fuel start_utc end_utc) (λ s : Z * Z, s.2 <? end_utc)
        (λ s, c ← shift s.2 DAY; Ok (s.1 + 1, c)) (0, candidate) with
      | Some r => Some (s ← r; Ok s.1)
      | None => None
      end
  end.

Definition count_weekends (start_utc end_utc : Z) : option (res Z) :=
  match while (days_fuel start_utc end_utc) (λ c, start_utc <? c) (λ c, shift c (- DAY)) (rollover_of start_utc) with
  | Some (Ok cursor) =>
      match while (days_fuel start_utc end_utc) (λ s : Z * Z, s.2 <? end_utc)
        (λ s, c ← shift s.2 DAY;
              Ok (if c <=? start_utc then s.1 else if weekday c =? 4 then s.1 + 1 else s.1, c)) (0, cursor) with
      | Some r => Some (s ← r; Ok s.1)
      | None => None
      end
  | Some (Raise e) => Some (Raise e)
  | None => None
  end.

(** The window of a holding time, counted by [f]. *)
Definition crossings (f : Z → Z → option (res Z)) (start : datetime) (holding_minutes : Z) : res Z :=
  if holding_minutes <=? 0 then Ok 0
  else
    start_utc ← to_utc_us start;
    end_utc ← shift start_utc (minutes_us holding_minutes);
    default (Raise (OtherError "RecursionError" "out of fuel")) (f start_utc end_utc).

Definition count_rollover_crossings : datetime → Z → res Z := crossings count_rollovers.
Definition count_weekend_crossings : datetime → Z → res Z := crossings count_weekends.

(** * Configuration *)

Record ExecutionCostConfig := Config { raw : dict }.

Definition required_sections : list string := ["spread"; "slippage"; "commission"; "swap"; "weekend_gap"].

Definition load_execution_cost_config (path : string) (file : document) : res ExecutionCostConfig :=
  match file with
  | None => Raise (CostConfigError ("execution config missing at " +:+ path))
  | Some None => Raise (CostConfigError "execution config parse error")
  | Some (Some (VDict data)) =>
      let missing := List.filter (λ k, negb (dmem k data)) required_sections in
      if truthy missing then
        Raise (CostConfigError ("execution config missing required sections: " +:+ join ", " (isort str_ltb missing)))
      else Ok (Config data)
  | Some (Some _) => Raise (CostConfigError "execution config must be a mapping at the top level")
  end.

Fixpoint is_infix (p s : string) : bool :=
  String.prefix p s || match s with String _ s => is_infix p s | EmptyString => false end.

(** [k in v] for a text [k]. *)
Definition contains (k : string) (v : pyval) : res bool :=
  match v with
  | VDict d => Ok (dmem k d)
  | VList l => Ok (existsb (λ x, match x with VStr s => String.eqb s k | _ => false end) l)
  | VStr s => Ok (is_infix k s)
  | _ => Raise (TypeError "argument is not iterable")
  end.

(** One element of the sequence given to [dict]: a pair; a key that is not a
    text is never looked up. *)
Definition dict_item (d : dict) (v : pyval) : res dict :=
  l ← py_iter v;
  match l with
  | [VStr k; x] => Ok (dset k x d)
  | [VList _; _] | [VDict _; _] => Raise (TypeError "unhashable type")
  | [_; _] => Ok d
  | _ => Raise (ValueError "dictionary update sequence element has wrong length; 2 is required")
  end.

Fixpoint dict_items (d : dict) (l : list pyval) : res dict :=
  match l with [] => Ok d | v :: l => d ← dict_item d v; dict_items d l end.

(** [dict(v)] *)
Definition py_dict (v : pyval) : res dict :=
  match v with VDict d => Ok d | _ => l ← py_iter v; dict_items [] l end.

Definition symbol_bucket (table : pyval) (symbol : string) : res dict :=
  b ← contains symbol table;
  if b : bool then x ← vindex table symbol; py_dict x
  else
    b ← contains "default" table;
    if b : bool then x ← vindex table "default"; py_dict x
    else Raise (CostConfigError ("no cost bucket for symbol=" +:+ str_repr symbol +:+ " and no default")).

Definition require_float (container : dict) (key context : string) : res float :=
  match dlookup key container with
  | None => Raise (CostConfigError ("execution config missing " +:+ context +:+ "." +:+ key))
  | Some (VInt z) => float_of_int z
  | Some (VFloat f) => Ok f
  | Some _ => Raise (CostConfigError ("execution config " +:+ context +:+ "." +:+ key +:+ " must be numeric"))
  end.

(** * The cost of a round trip *)

Record RoundTripCost := RoundTrip { spread : float; slippage : float; commission : float; swap : float; weekend_gap : float }.

Definition total (c : RoundTripCost) : float :=
  fadd (fadd (fadd (fadd (spread c) (slippage c)) (commission c)) (swap c)) (weekend_gap c).

Definition twice (x : float) : float := fmul x (of_Z 2).

Definition slippage_cost (raw : dict) (symbol session : string) (volatile : option bool) : res float :=
  t ← dindex "slippage" raw;
  bucket ← symbol_bucket t symbol;
  let mode_key := if default (String.eqb session "off_hours") volatile then "volatile" else "base" in
  match dlookup mode_key bucket with
  | None => Raise (CostConfigError ("execution config slippage." +:+ symbol +:+ " missing mode " +:+ str_repr mode_key))
  | Some (VDict b) => p50 ← require_float b "p50" ("slippage." +:+ symbol +:+ "." +:+ mode_key); Ok (twice p50)
  | Some _ => Raise (CostConfigError ("execution config slippage." +:+ symbol +:+ "." +:+ mode_key +:+ " must be a mapping"))
  end.

(** A charge per crossing: nothing without one. *)
Definition per_crossing (raw : dict) (section symbol key : string) (charge : float → float) (crossed : Z) : res float :=
  if 0 <? crossed then
    t ← dindex section raw;
    bucket ← symbol_bucket t symbol;
    v ← require_float bucket key (section +:+ "." +:+ symbol);
    n ← float_of_int crossed;
    Ok (fmul (charge v) n)
  else Ok fzero.

Definition round_trip_cost (config : ExecutionCostConfig) (symbol side : string) (timestamp : datetime)
    (expected_holding_minutes : Z) (volatile : option bool) : res RoundTripCost :=
  if negb (str_in side ["long"; "short"]) then Raise (ValueError ("side must be 'long' or 'short', got " +:+ str_repr side))
  else if expected_holding_minutes <? 0 then Raise (ValueError "expected_holding_minutes must be non-negative")
  else if is_naive timestamp then Raise (ValueError "timestamp must be timezone-aware")
  else
    let raw := raw config in
    session ← session_for_timestamp timestamp;
    t ← dindex "spread" raw;
    bucket ← symbol_bucket t symbol;
    spread_per_side ← require_float bucket session ("spread." +:+ symbol);
    slip ← slippage_cost raw symbol session volatile;
    t ← dindex "commission" raw;
    bucket ← symbol_bucket t symbol;
    commission_per_side ← require_float bucket "per_side" ("commission." +:+ symbol);
    n ← count_rollover_crossings timestamp expected_holding_minutes;
    swap_cost ← per_crossing raw "swap" symbol (side +:+ "_per_night") (λ v, fmax fzero (fopp v)) n;
    n ← count_weekend_crossings timestamp expected_holding_minutes;
    gap ← per_crossing raw "weekend_gap" symbol "premium" id n;
    Ok (RoundTrip (twice spread_per_side) slip (twice commission_per_side) swap_cost gap).

(** * The loops end *)

Lemma while_iter {A} (cond : A → bool) (body : A → res A) (f : nat → A) (n fuel : nat) (a : A) :
  a = f O → (∀ i, (i < n)%nat → cond (f i) = true ∧ body (f i) = Ok (f (S i))) →
  cond (f n) = false → (n < fuel)%nat → while fuel cond body a = Some (Ok (f n)).
Proof.
  intros ->. revert f fuel. induction n as [|n IH]; intros f [|fuel] Hs Hn Hf; [lia| |lia|]; cbn [while].
  - by rewrite Hn.
  - destruct (Hs O) as [-> ->]; [lia|]. apply (IH (λ i, f (S i))); [|done|lia].
    intros i Hi. apply Hs. lia.
Qed.

(** The days of a window: [n] instants a day apart, from [c] on. *)
Definition daily (c : Z) (n : nat) : list Z := (λ i, c + Z.of_nat i * DAY) <$> seq 0 n.

Lemma daily_S c n : daily c (S n) = daily c n ++ [c + Z.of_nat n * DAY].
Proof. unfold daily. by rewrite seq_S, fmap_app. Qed.

Lemma NoDup_daily c n : NoDup (daily c n).
Proof. apply NoDup_fmap_2_strong; [|apply NoDup_seq]. unfold DAY. intros x y _ _ H. lia. Qed.

(** As many as there are below a bound. *)
Definition days_below (c e : Z) : nat := Z.to_nat ((e - c + DAY - 1) / DAY).

Lemma days_below_spec c e i : (i < days_below c e)%nat ↔ c + Z.of_nat i * DAY < e.
Proof. unfold days_below, DAY. split; intros H; zdiv. Qed.

Lemma elem_of_daily c e t : t ∈ daily c (days_below c e) ↔ c <= t < e ∧ (t - c) mod DAY = 0.
Proof.
  unfold daily. rewrite list_elem_of_fmap. split.
  - intros (i & -> & Hi). apply elem_of_seq in Hi. assert (i < days_below c e)%nat as Hi' by lia.
    apply days_below_spec in Hi'. unfold DAY in *. split; [lia|]. zdiv.
  - intros [Ht Hm]. assert (∃ i, t = c + Z.of_nat i * DAY) as [i ->].
    { exists (Z.to_nat ((t - c) / DAY)). unfold DAY in *. zdiv. }
    exists i. split; [done|]. apply elem_of_seq. assert (i < days_below c e)%nat; [|lia]. apply days_below_spec. lia.
Qed.

Lemma days_below_fuel c s e : s < e → s - DAY < c → (days_below c e < days_fuel s e)%nat.
Proof. unfold days_below, days_fuel, DAY. intros. zdiv. Qed.

Lemma shift_day c : min_us <= c + DAY <= max_us → shift c DAY = Ok (c + DAY).
Proof. intros H. unfold shift, in_range. by rewrite (proj2 (Z.leb_le _ _)), (proj2 (Z.leb_le _ _)) by lia. Qed.

Definition rollover (t : Z) : Prop := t mod DAY = ROLLOVER_HOUR_UTC * HOUR.

Lemma rollover_of_spec t : rollover (rollover_of t) ∧ t - DAY < rollover_of t <= t + DAY.
Proof. unfold rollover, rollover_of, ROLLOVER_HOUR_UTC, HOUR, DAY. split; zdiv. Qed.

Lemma rollover_step c t : rollover c → (t - c) mod DAY = 0 ↔ rollover t.
Proof. unfold rollover, ROLLOVER_HOUR_UTC, HOUR, DAY. intros H. split; intros H'; zdiv. Qed.

Section windows.
Variables s e : Z.
Hypothesis in_calendar : min_us <= s - DAY ∧ s < e ∧ e + DAY <= max_us.

(** The swap is charged once for every 21:00 UTC strictly inside the holding
    window: the loop ends and counts exactly these instants. *)
Theorem rollovers_counted : ∃ l, count_rollovers s e = Some (Ok (Z.of_nat (length l))) ∧ NoDup l ∧
  ∀ t, t ∈ l ↔ s < t < e ∧ rollover t.
Proof using in_calendar.
  destruct in_calendar as (Hlo & Hse & Hhi). pose proof (rollover_of_spec s) as [Hr Hb]. unfold count_rollovers.
  assert (∃ c, (if s <? rollover_of s then Ok (rollover_of s) else shift (rollover_of s) DAY) = Ok c ∧ rollover c ∧
    s < c <= s + DAY) as (c & -> & Hc & Hsc).
  { destruct (Z.ltb_spec s (rollover_of s)).
    - exists (rollover_of s). split_and!; [done|done|lia..].
    - exists (rollover_of s + DAY). rewrite shift_day by lia. split_and!; [done| |lia..].
      apply (rollover_step _ _ Hr). unfold DAY. zdiv. }
  exists (daily c (days_below c e)). split; [|split; [apply NoDup_daily|]].
  - rewrite (while_iter _ _ (λ i, (Z.of_nat i, c + Z.of_nat i * DAY)) (days_below c e)).
    + cbn. unfold daily. by rewrite length_fmap, length_seq.
    + f_equal. lia.
    + intros i Hi%days_below_spec. cbn. split; [by apply Z.ltb_lt|]. rewrite shift_day by (unfold DAY in *; lia).
      cbn. do 2 f_equal; lia.
    + cbn. apply Z.ltb_ge. pose proof (days_below_spec c e (days_below c e)). lia.
    + apply days_below_fuel; unfold DAY in *; lia.
  - intros t. rewrite elem_of_daily, (rollover_step c t Hc). split; intros [Ht H]; (split; [|done]); [lia|].
    assert (c <= t); [|lia]. unfold rollover, ROLLOVER_HOUR_UTC, HOUR, DAY in *. zdiv.
Qed.

(** The Fridays among them. *)
Definition fridays (c : Z) (n : nat) : list Z := filter (λ t, weekday t = 4) (daily c n).

Lemma fridays_S c n : Z.of_nat (length (fridays c (S n))) =
  if weekday (c + Z.of_nat n * DAY) =? 4 then Z.of_nat (length (fridays c n)) + 1 else Z.of_nat (length (fridays c n)).
Proof.
  unfold fridays. rewrite daily_S, filter_app, length_app, filter_cons, filter_nil.
  destruct (Z.eqb_spec (weekday (c + Z.of_nat n * DAY)) 4); [rewrite decide_True by done|rewrite decide_False by done]; cbn; lia.
Qed.

Definition friday_close (t : Z) : Prop := rollover t ∧ weekday t = 4.

(** The weekend gap is charged once for every Friday 21:00 UTC between the
    start of the holding window and a day after its end: the loop ends, but it
    moves its cursor before it looks at it, so a position that is closed within
    the day before the weekend pays for the weekend too. *)
Theorem weekends_counted_a_day_late : ∃ l, count_weekends s e = Some (Ok (Z.of_nat (length l))) ∧ NoDup l ∧
  ∀ t, t ∈ l ↔ s < t < e + DAY ∧ friday_close t.
Proof using in_calendar.
  destruct in_calendar as (Hlo & Hse & Hhi). pose proof (rollover_of_spec s) as [Hr Hb]. unfold count_weekends.
  assert (∃ c, while (days_fuel s e) (λ c, s <? c) (λ c, shift c (- DAY)) (rollover_of s) = Some (Ok c) ∧ rollover c ∧
    s - DAY < c <= s) as (c & -> & Hc & Hsc).
  { assert (∃ f, days_fuel s e = S (S f)) as [f ->].
    { exists (Z.to_nat ((e - s) / DAY + 2)). unfold days_fuel, DAY. zdiv. }
    cbn [while]. destruct (Z.ltb_spec s (rollover_of s)); [|exists (rollover_of s); split_and!; [done..|lia|lia]].
    assert (shift (rollover_of s) (- DAY) = Ok (rollover_of s - DAY)) as ->.
    { unfold shift, in_range. rewrite (proj2 (Z.leb_le _ _)), (proj2 (Z.leb_le _ _)) by lia. cbn. f_equal; lia. }
    exists (rollover_of s - DAY). rewrite (proj2 (Z.ltb_ge _ _)) by lia. split_and!; [done| |lia..].
    apply (rollover_step _ _ Hr). unfold DAY. zdiv. }
  set (n := days_below c e).
  exists (fridays (c + DAY) n). split; [|split; [apply NoDup_filter, NoDup_daily|]].
  - rewrite (while_iter _ _ (λ i, (Z.of_nat (length (fridays (c + DAY) i)), c + Z.of_nat i * DAY)) n).
    + done.
    + cbn. f_equal. lia.
    + intros i Hi%days_below_spec. split; [apply Z.ltb_lt; exact Hi|]. cbn [fst snd]. rewrite shift_day by (unfold DAY in *; lia).
      cbn [mbind res_bind]. rewrite fridays_S, (proj2 (Z.leb_gt _ _)) by (unfold DAY in *; lia).
      replace (c + DAY + Z.of_nat i * DAY) with (c + Z.of_nat i * DAY + DAY) by lia. do 2 f_equal. lia.
    + cbn. apply Z.ltb_ge. pose proof (days_below_spec c e n). subst n. lia.
    + apply days_below_fuel; lia.
  - intros t. unfold fridays, friday_close. rewrite list_elem_of_filter.
    replace n with (days_below (c + DAY) (e + DAY)) by (unfold n, days_below; do 2 f_equal; lia).
    rewrite elem_of_daily, (rollover_step (c + DAY) t).
    2: { apply (rollover_step _ _ Hc). unfold DAY. zdiv. }
    cbn beta. split; [intros (Hw & Ht & H); split_and!; [lia..|done|done]|].
    intros (Ht & H & Hw). split_and!; [done| |lia|done].
    unfold rollover, ROLLOVER_HOUR_UTC, HOUR, DAY in *. zdiv.
Qed.
End windows.

(** * Signs: what is not negative stays so *)

Definition nonneg (x : float) : bool :=
  match x with S754_zero _ => true | S754_infinity s | S754_finite s _ _ => negb s | S754_nan => false end.

Lemma nonneg_spec x : nonneg x = fleb fzero x.
Proof. by destruct x as [[]|[]| |[] ??]. Qed.

Section signs.

Lemma shr_1_nonneg r : 0 <= shr_m r → 0 <= shr_m (shr_1 r).
Proof. destruct r as [[|[p|p|]|p] r s]; cbn; lia. Qed.

Lemma iter_pos_nonneg p r : 0 <= shr_m r → 0 <= shr_m (iter_pos shr_1 p r).
Proof.
  revert r. induction p as [p IH|p IH|]; intros r Hr; cbn [iter_pos]; [apply IH, IH, shr_1_nonneg|apply IH, IH|apply shr_1_nonneg]; done.
Qed.

Lemma shr_fexp_nonneg m e l : 0 <= m → 0 <= shr_m (shr_fexp prec emax m e l).1.
Proof.
  intros Hm. unfold shr_fexp, shr. assert (0 <= shr_m (shr_record_of_loc m l)) as Hr by (destruct l as [|[]]; done).
  destruct (_ - e); [done|by apply iter_pos_nonneg|done].
Qed.

Lemma round_even_nonneg m l : 0 <= m → 0 <= round_nearest_even m l.
Proof. intros Hm. unfold round_nearest_even. destruct l as [|[]]; [done|destruct (Z.even m); lia|lia|lia]. Qed.

Lemma round_aux_nonneg m e l : 0 <= m → nonneg (binary_round_aux prec emax false m e l) = true.
Proof.
  intros Hm. unfold binary_round_aux. pose proof (shr_fexp_nonneg m e l Hm) as H1.
  destruct (shr_fexp prec emax m e l) as [r1 e1]. cbn in H1.
  pose proof (shr_fexp_nonneg _ e1 loc_Exact (round_even_nonneg _ (loc_of_shr_record r1) H1)) as H2.
  destruct (shr_fexp _ _ _ e1 _) as [r2 e2]. cbn in H2.
  destruct (shr_m r2) eqn:E; [done|by destruct (_ <=? _)|lia].
Qed.

Lemma normalize_nonneg m e s : 0 <= m → nonneg (binary_normalize prec emax m e s) = true.
Proof.
  destruct m as [|p|p]; [done| |lia]. intros _. cbn [binary_normalize]. unfold binary_round.
  destruct (shl_align _ _ _). by apply round_aux_nonneg.
Qed.

Lemma of_Z_nonneg z : 0 <= z → nonneg (of_Z z) = true.
Proof. apply normalize_nonneg. Qed.

Lemma fadd_nonneg x y : nonneg x = true → nonneg y = true → nonneg (fadd x y) = true.
Proof.
  destruct x as [sx|[]| |[] mx ex], y as [sy|[]| |[] my ey]; try done; intros _ _.
  - by destruct sx, sy.
  - unfold fadd, SFadd. apply normalize_nonneg. cbn [cond_Zopp]. lia.
Qed.

(** Only zero times infinity is not a number. *)
Lemma fmul_nonneg x y : nonneg x = true → nonneg y = true → is_inf x = false → is_inf y = false →
  nonneg (fmul x y) = true.
Proof.
  destruct x as [sx|[]| |[] mx ex], y as [sy|[]| |[] my ey]; try done; intros _ _ _ _.
  unfold fmul, SFmul. by apply round_aux_nonneg.
Qed.
End signs.

(** * Sessions follow the trading week *)

(** The place of an instant in the week that starts on Monday, and the hours the
    venues are closed: Friday 21:00 to Sunday 21:00. *)
Definition week_time (us : Z) : Z := (us + 3 * DAY) mod (7 * DAY).
Definition market_closed (us : Z) : bool :=
  (4 * DAY + 21 * HOUR <=? week_time us) && (week_time us <? 6 * DAY + 21 * HOUR).

(** A property of the hours of the week is checked hour by hour. *)
Lemma by_week_hour (P : Z → Z → Prop) `{∀ w h, Decision (P w h)} :
  forallb (λ w, forallb (λ h, bool_decide (P w h)) (seqZ 0 24)) (seqZ 0 7) = true →
  ∀ w h, 0 <= w < 7 → 0 <= h < 24 → P w h.
Proof.
  intros Hf w h Hw Hh. rewrite forallb_forall in Hf. specialize (Hf w). rewrite forallb_forall in Hf.
  eapply bool_decide_eq_true_1, Hf; apply list_elem_of_In, elem_of_seqZ; lia.
Qed.

(** An aware timestamp inside the calendar is in the session its UTC time of day
    gives, and off hours while the market is closed. *)
Theorem session_follows_week (d : datetime) (us : Z) (Ha : is_naive d = false) (Hus : to_utc_us d = Ok us) :
  session_for_timestamp d = Ok (
    let t := us mod DAY in
    if market_closed us then "off_hours" else if t <? 6 * HOUR then "asia" else if t <? 12 * HOUR then "london"
    else if t <? 16 * HOUR then "overlap" else if t <? 21 * HOUR then "ny" else "off_hours").
Proof.
  unfold session_for_timestamp. rewrite Ha, Hus. cbn [mbind res_bind]. unfold market_closed, week_time, weekday, hour, ROLLOVER_HOUR_UTC.
  set (t := us mod DAY). set (w := (us / DAY + 3) mod 7). set (h := t / HOUR).
  assert ((us + 3 * DAY) mod (7 * DAY) = w * DAY + t) as -> by (subst w t; unfold DAY; zdiv).
  assert (0 <= t < DAY) as Ht by by apply Z.mod_pos_bound. assert (0 <= w < 7) as Hw by by apply Z.mod_pos_bound.
  clearbody t w. assert (0 <= h < 24) as Hh.
  { subst h. unfold DAY, HOUR in *. zdiv. }
  assert (∀ k, (t <? k * HOUR) = (h <? k)) as Et.
  { intros k. apply eq_true_iff_eq. rewrite !Z.ltb_lt. subst h. unfold HOUR. zdiv. }
  assert ((4 * DAY + 21 * HOUR <=? w * DAY + t) = (117 <=? w * 24 + h)) as ->.
  { apply eq_true_iff_eq. rewrite !Z.leb_le. subst h. unfold DAY, HOUR in *. zdiv. }
  assert ((w * DAY + t <? 6 * DAY + 21 * HOUR) = (w * 24 + h <? 165)) as ->.
  { apply eq_true_iff_eq. rewrite !Z.ltb_lt. subst h. unfold DAY, HOUR in *. zdiv. }
  cbn zeta. rewrite !Et. clearbody h. clear Et Ht t.
  pattern w, h. eapply by_week_hour; [by vm_compute|done..].
Qed.

(** * A cost is never a gain *)

Fixpoint all_numbers (p : float → bool) (v : pyval) : bool :=
  match v with
  | VInt z => p (of_Z z)
  | VFloat f => p f
  | VList l => forallb (all_numbers p) l
  | VDict d => forallb (λ kv, all_numbers p kv.2) d
  | _ => true
  end.

Section tables.
Variable p : float → bool.
Abbreviation ok := (all_numbers p).
Abbreviation ok_dict := (λ d : dict, forallb (λ kv, all_numbers p kv.2) d = true).

Lemma ok_lookup k (d : dict) v : ok_dict d → dlookup k d = Some v → ok v = true.
Proof.
  induction d as [|[k' v'] d IH]; cbn; [done|]. intros [? ?]%andb_true_iff.
  destruct (String.eqb k k'); [by intros [= <-]|by apply IH].
Qed.

Lemma ok_dset k v (d : dict) : ok_dict d → ok v = true → ok_dict (dset k v d).
Proof.
  intros Hd Hv. induction d as [|[k' v'] d IH]; cbn in *; [by rewrite Hv|].
  apply andb_true_iff in Hd as [? ?]. destruct (String.eqb k k'); cbn; apply andb_true_iff; auto.
Qed.

Lemma ok_texts (l : list string) : Forall (λ v, ok v = true) (VStr <$> l).
Proof. apply Forall_fmap, Forall_true. done. Qed.

Lemma ok_iter v l : ok v = true → py_iter v = Ok l → Forall (λ v, ok v = true) l.
Proof.
  destruct v; try done; cbn; intros Hv [= <-]; [apply ok_texts| |apply ok_texts].
  apply Forall_forall. intros x Hx%list_elem_of_In. rewrite forallb_forall in Hv. by apply Hv.
Qed.

Lemma ok_items d l d' : ok_dict d → Forall (λ v, ok v = true) l → dict_items d l = Ok d' → ok_dict d'.
Proof.
  revert d. induction l as [|v l IH]; intros d Hd Hl; cbn; [by intros [= <-]|].
  apply Forall_cons in Hl as [Hv Hl]. destruct (dict_item d v) as [d1|] eqn:E; [|done]. cbn. apply IH; [|done].
  unfold dict_item in E. destruct (py_iter v) as [xs|] eqn:Ei; [|done]. cbn in E. pose proof (ok_iter v xs Hv Ei) as Hx.
  destruct xs as [|[| | | |k|?|?] [|x [|]]]; try done; injection E as <-; [done..|].
  apply ok_dset; [done|]. apply Forall_cons in Hx as [_ Hx]. by apply Forall_cons in Hx as [? _].
Qed.

Lemma ok_py_dict v d : ok v = true → py_dict v = Ok d → ok_dict d.
Proof.
  intros Hv. assert (∀ l, py_iter v = Ok l → dict_items [] l = Ok d → ok_dict d) as Hi.
  { intros l Hl. apply (ok_items []); [done|]. by eapply ok_iter. }
  unfold py_dict. destruct v; try done; [| |by intros [= <-]]; destruct (py_iter _) eqn:E; try done; by apply Hi.
Qed.

Lemma ok_index t k v : ok t = true → vindex t k = Ok v → ok v = true.
Proof.
  destruct t as [| | | | | |d]; try done. cbn. intros Ht H. unfold dindex in H.
  destruct (dlookup k d) eqn:E; [|done]. injection H as <-. by eapply ok_lookup.
Qed.

Lemma ok_bucket t s d : ok t = true → symbol_bucket t s = Ok d → ok_dict d.
Proof.
  intros Ht. unfold symbol_bucket. destruct (contains s t) as [[]|]; [| |done]; cbn.
  - destruct (vindex t s) eqn:E; [|done]. cbn. apply ok_py_dict. by eapply ok_index.
  - destruct (contains _ t) as [[]|]; [|done..]. cbn. destruct (vindex t _) eqn:E; [|done]. cbn.
    apply ok_py_dict. by eapply ok_index.
Qed.

Lemma ok_float d k ctx f : ok_dict d → require_float d k ctx = Ok f → p f = true.
Proof.
  unfold require_float. destruct (dlookup k d) as [v|] eqn:E; [|done]. intros Hd. pose proof (ok_lookup k d v Hd E) as Hv.
  destruct v; try done; [|by intros [= <-]]. unfold float_of_int. destruct (is_inf _); [done|by intros [= <-]].
Qed.
End tables.

Definition payable (x : float) : bool := nonneg x && negb (is_inf x).

Lemma twice_nonneg x : payable x = true → nonneg (twice x) = true.
Proof. intros [H1 H2%negb_true_iff]%andb_true_iff. apply fmul_nonneg; [done|by vm_compute|done|by vm_compute]. Qed.

Lemma per_crossing_nonneg (charge : float → float) (q : float → bool) raw section symbol key n x v :
  dlookup section raw = Some v → all_numbers q v = true → (∀ y, q y = true → payable (charge y) = true) →
  per_crossing raw section symbol key charge n = Ok x → nonneg x = true.
Proof.
  intros Hv Hq Hc. unfold per_crossing. destruct (Z.ltb_spec 0 n) as [Hn|]; [|by intros [= <-]].
  unfold dindex. rewrite Hv. cbn. destruct (symbol_bucket v symbol) as [d|] eqn:Ed; [|done]. cbn.
  destruct (require_float d key _) as [y|] eqn:Ey; [|done]. cbn.
  destruct (float_of_int n) as [m|] eqn:Em; [|done]. cbn. intros [= <-].
  apply (ok_float q) in Ey; [|by eapply ok_bucket]. apply Hc in Ey. apply andb_true_iff in Ey as [H1 H2%negb_true_iff].
  unfold float_of_int in Em. destruct (is_inf (of_Z n)) eqn:Ei; [done|]. injection Em as <-.
  apply fmul_nonneg; [done|apply of_Z_nonneg; lia|done|done].
Qed.

Lemma paid_swap_payable y : negb (is_inf y) = true → payable (fmax fzero (fopp y)) = true.
Proof. intros Hy. unfold fmax. by destruct y as [[]|[]| |[] ??]. Qed.

Lemma slippage_nonneg raw symbol session volatile x v :
  dlookup "slippage" raw = Some v → all_numbers payable v = true →
  slippage_cost raw symbol session volatile = Ok x → nonneg x = true.
Proof.
  intros Hv Hp. unfold slippage_cost, dindex. rewrite Hv. cbn -[str_repr]. destruct (symbol_bucket v symbol) as [d|] eqn:Ed; [|done].
  cbn -[str_repr]. destruct (dlookup _ d) as [[| | | | | |b]|] eqn:Eb; try done.
  destruct (require_float b _ _) as [y|] eqn:Ey; [|done]. cbn. intros [= <-]. apply twice_nonneg.
  apply (ok_float payable) in Ey; [done|]. by apply (ok_lookup payable _ _ _ (ok_bucket payable v symbol d Hp Ed)) in Eb.
Qed.

(** With tables that hold no negative and no infinite charge (the swap table may
    hold any finite number of either sign) every component of a round trip and
    its total are at least zero: a swap that would be received costs nothing. *)
Theorem costs_are_charges (config : ExecutionCostConfig) (symbol side : string) (timestamp : datetime) (minutes : Z)
    (volatile : option bool) (c : RoundTripCost)
    (Hpay : ∀ k v, k ∈ ["spread"; "slippage"; "commission"; "weekend_gap"] → dlookup k (raw config) = Some v →
      all_numbers payable v = true)
    (Hswap : ∀ v, dlookup "swap" (raw config) = Some v → all_numbers (λ x, negb (is_inf x)) v = true)
    (Hc : round_trip_cost config symbol side timestamp minutes volatile = Ok c) :
  Forall (λ x, fleb fzero x = true) [spread c; slippage c; commission c; swap c; weekend_gap c; total c].
Proof.
  unfold round_trip_cost in Hc. destruct (negb _); [done|]. destruct (_ <? 0); [done|]. destruct (is_naive _); [done|].
  apply bind_ok in Hc as (session & _ & Hc).
  apply bind_ok in Hc as (ts & Hts & Hc). apply bind_ok in Hc as (bs & Hbs & Hc). apply bind_ok in Hc as (x1 & H1 & Hc).
  apply bind_ok in Hc as (x2 & H2 & Hc).
  apply bind_ok in Hc as (tc & Htc & Hc). apply bind_ok in Hc as (bc & Hbc & Hc). apply bind_ok in Hc as (x3 & H3 & Hc).
  apply bind_ok in Hc as (n & _ & Hc). apply bind_ok in Hc as (x4 & H4 & Hc).
  apply bind_ok in Hc as (m & _ & Hc). apply bind_ok in Hc as (x5 & H5 & Hc). injection Hc as <-.
  unfold dindex in Hts, Htc. destruct (dlookup "spread" _) eqn:Es; [|done]. destruct (dlookup "commission" _) eqn:Ec; [|done].
  injection Hts as ->. injection Htc as ->.
  apply (ok_float payable) in H1; [|by eapply ok_bucket, Hbs; eapply Hpay, Es; set_solver].
  apply (ok_float payable) in H3; [|by eapply ok_bucket, Hbc; eapply Hpay, Ec; set_solver].
  apply twice_nonneg in H1, H3.
  assert (nonneg x2 = true) as H2'.
  { destruct (dlookup "slippage" (raw config)) as [v|] eqn:E; [|by unfold slippage_cost, dindex in H2; rewrite E in H2].
    eapply slippage_nonneg, H2; [done|]. eapply Hpay, E. set_solver. }
  assert (nonneg x4 = true) as H4'.
  { destruct (dlookup "swap" (raw config)) as [v|] eqn:E.
    - eapply per_crossing_nonneg, H4; [done|by apply Hswap|apply paid_swap_payable].
    - unfold per_crossing, dindex in H4. rewrite E in H4. destruct (0 <? n); [done|by injection H4 as <-]. }
  assert (nonneg x5 = true) as H5'.
  { destruct (dlookup "weekend_gap" (raw config)) as [v|] eqn:E.
    - eapply (per_crossing_nonneg id payable), H5; [done|eapply Hpay, E; set_solver|done].
    - unfold per_crossing, dindex in H5. rewrite E in H5. destruct (0 <? m); [done|by injection H5 as <-]. }
  repeat (apply Forall_cons; split; [rewrite <- nonneg_spec; cbn [spread slippage commission swap weekend_gap]; try done|]);
    [|constructor]. unfold total. by repeat apply fadd_nonneg.
Qed.

(** * Examples *)

Definition num (m e : Z) : pyval := VFloat (of_dec m e).

(** The tables of [config/execution.yaml] for one symbol. *)
Definition usdjpy_tables : dict := [
  ("schema_version", VStr "execution.cost.v1");
  ("spread", VDict [("USDJPY", VDict [("asia", num 12 (-3)); ("london", num 10 (-3)); ("ny", num 10 (-3));
    ("overlap", num 9 (-3)); ("off_hours", num 20 (-3))])]);
  ("slippage", VDict [("USDJPY", VDict [("base", VDict [("p50", num 3 (-3)); ("p90", num 10 (-3))]);
    ("volatile", VDict [("p50", num 10 (-3)); ("p90", num 30 (-3))])])]);
  ("commission", VDict [("USDJPY", VDict [("per_side", num 5 (-4))])]);
  ("swap", VDict [("USDJPY", VDict [("long_per_night", VFloat (fopp (of_dec 6 (-3)))); ("short_per_night", num 2 (-3))])]);
  ("weekend_gap", VDict [("USDJPY", VDict [("premium", num 20 (-3))])])].

Definition thursday_night : datetime := DateTime 2026 3 19 22 0 0 0 (Some 0).

(** A position held for one hour on Thursday night pays for the weekend. *)
Example thursday_hour_pays_weekend : count_weekend_crossings thursday_night 60 = Ok 1 ∧
  count_rollover_crossings thursday_night 60 = Ok 0 ∧
  (c ← round_trip_cost (Config usdjpy_tables) "USDJPY" "long" thursday_night 60 None; Ok (weekend_gap c)) = Ok (of_dec 20 (-3)).
Proof. by vm_compute. Qed.

(** Nothing refuses a negative charge, and then the cost is negative. *)
Example negative_charge_accepted :
  (c ← round_trip_cost (Config (dset "commission" (VDict [("default", VDict [("per_side", VInt (-1))])]) usdjpy_tables))
    "USDJPY" "short" thursday_night 0 None; Ok (fltb (total c) fzero)) = Ok true.
Proof. by vm_compute. Qed.

Lemma rollovers_counted_witness : ∃ l : list Z, length l = 2%nat ∧
  ∀ t, t ∈ l ↔ utc_us thursday_night < t < utc_us thursday_night + 2 * DAY ∧ rollover t.
Proof.
  destruct (rollovers_counted (utc_us thursday_night) (utc_us thursday_night + 2 * DAY)) as (l & E & _ & Hl).
  { by vm_compute. }
  exists l. split; [|done].
  assert (count_rollovers (utc_us thursday_night) (utc_us thursday_night + 2 * DAY) = Some (Ok 2)) as E' by by vm_compute.
  rewrite E in E'. injection E'. lia.
Defined.

Lemma weekends_counted_a_day_late_witness : ∃ l : list Z, length l = 1%nat ∧
  ∀ t, t ∈ l ↔ utc_us thursday_night < t < utc_us thursday_night + HOUR + DAY ∧ friday_close t.
Proof.
  destruct (weekends_counted_a_day_late (utc_us thursday_night) (utc_us thursday_night + HOUR)) as (l & E & _ & Hl).
  { by vm_compute. }
  exists l. split; [|done].
  assert (count_weekends (utc_us thursday_night) (utc_us thursday_night + HOUR) = Some (Ok 1)) as E' by by vm_compute.
  rewrite E in E'. injection E'. lia.
Defined.

Lemma session_follows_week_witness : session_for_timestamp thursday_night = Ok "off_hours".
Proof. rewrite (session_follows_week thursday_night (utc_us thursday_night)); by vm_compute. Defined.

Lemma costs_are_charges_witness : ∃ c,
  round_trip_cost (Config usdjpy_tables) "USDJPY" "long" thursday_night 60 None = Ok c ∧ fleb fzero (total c) = true.
Proof.
  eexists. split; [vm_compute; reflexivity|].
  refine (proj1 (List.Forall_forall _ _) (costs_are_charges (Config usdjpy_tables) "USDJPY" "long" thursday_night 60 None _ _ _ _) _ _).
  - intros k v Hk Hv. repeat (apply elem_of_cons in Hk as [->|Hk]; [vm_compute in Hv; injection Hv as <-; by vm_compute|]).
    by apply elem_of_nil in Hk.
  - intros v Hv. vm_compute in Hv. injection Hv as <-. by vm_compute.
  - vm_compute. reflexivity.
  - cbn. auto 10.
Defined.
