(* ===== verification/DataQuality.v ===== *)
(** The data quality guard of [src/data/quality.py] on the market frames of
    [src/data/service.py]: validation of a frame, latency alerts, comparison
    with a reference series, annotations. *)

From S2P Require Import Prelude PyFloat PyVal PyEnv Spread.

Local Open Scope Z_scope.
Local Open Scope py_scope.

(** * Data *)

(** A frame of bars; [validate] stores the flag it computes in the frame. *)
Record MarketFrame := Frame { f_symbol : string; f_timeframe : string; bars : list pyval; f_flag : Z }.

Definition set_flag (z : Z) (f : MarketFrame) : MarketFrame := Frame (f_symbol f) (f_timeframe f) (bars f) z.

Record QualityResult := Quality {
  q_status : string; q_issues : list string; q_action : option string; q_flag : Z;
  q_drift : option Z; q_missing_ratio : option float }.

Record QualityComparison := Comparison {
  cmp_status : string; cmp_issues : list string; drift_detected : bool; diff_stats : list (string * float) }.

Record DataLatencyAlert := LatencyAlert {
  la_symbol : string; la_provider : string; lag_seconds : float; la_drift : option Z; la_severity : string;
  manual_csv_required : bool }.

Definition alert_to_event (a : DataLatencyAlert) : dict := [
  ("event", VStr "data.latency_alert"); ("symbol", VStr (la_symbol a)); ("provider", VStr (la_provider a));
  ("lag_seconds", VFloat (lag_seconds a)); ("clock_drift_ms", vopt_int (la_drift a)); ("severity", VStr (la_severity a));
  ("manual_csv_required", VBool (manual_csv_required a))].

Definition QUALITY_FLAG_MAP : list (string * Z) :=
  [("missing_bars", 1); ("dup_bars", 2); ("out_of_order", 3); ("ts_mismatch", 4)].
Definition QUALITY_FLAG_ALIASES : list (string * string) :=
  [("empty_bars", "missing_bars"); ("gap_exceeds_threshold", "missing_bars"); ("missing_ratio_high", "missing_bars");
   ("timestamp_misaligned", "ts_mismatch"); ("missing_timestamp", "ts_mismatch")].

Definition append_issue (issue : string) (issues : list string) : list string :=
  if str_in issue issues then issues else issues ++ [issue].

Definition quality_flag_for_issues (issues : list string) : Z :=
  fold_right Z.max 0 (omap (λ i, dlookup (default i (dlookup i QUALITY_FLAG_ALIASES)) QUALITY_FLAG_MAP) issues).

(** * Bars *)

(** [_parse_timestamp]: microseconds on the UTC time line; whatever goes wrong
    gives none. *)
Definition parse_timestamp (value : pyval) : option Z :=
  match value with
  | VNone => None
  | _ =>
      let text := py_str value in
      let text := if ends_with "Z" text then drop_last text +:+ "+00:00" else text in
      match fromisoformat text with
      | Some d => match dt_tz d, to_utc_us d with
          | None, _ => Some (utc_us d)
          | _, Ok us => Some us
          | _, Raise _ => None
          end
      | None => None
      end
  end.

Definition as_float (value : pyval) : res (option float) :=
  match value with
  | VNone => Ok None
  | _ => match py_float value with
      | Ok x => Ok (Some x)
      | Raise (TypeError _) | Raise (ValueError _) => Ok None
      | Raise e => Raise e
      end
  end.

Definition minute_of (us : Z) : Z := us / 60000000 mod 60.
Definition second_of (us : Z) : Z := us / 1000000 mod 60.

(** [a.minute % n] *)
Definition py_mod (a n : Z) : res Z :=
  if n =? 0 then Raise (ZeroDivisionError "integer modulo by zero") else Ok (a mod n).

(** [int((b - a).total_seconds() // 60)] *)
Definition whole_minutes (us : Z) : res Z :=
  match of_ratio us 1000000 with
  | S754_finite s m e => let '(n, d) := ratio_of m e in Ok (with_sign s n / (Zpos d * 60))
  | S754_zero _ => Ok 0
  | x => ftrunc x
  end.

Definition ohlc_issue (low high open_ close : option float) : option string :=
  match low, high, open_, close with
  | Some l, Some h, Some o, Some c =>
      if fgtb l (fmin o c) || fltb h (fmax o c) || fgtb l h then Some "ohlc_bounds" else None
  | _, _, _, _ => Some "missing_ohlc"
  end.

Definition add_issue (o : option string) (issues : list string) : list string :=
  match o with Some i => append_issue i issues | None => issues end.

(** One bar: the timestamps so far, the last one and the issues. *)
Definition check_bar (expected : Z) (st : list Z * option Z * list string) (bar : pyval)
    : res (list Z * option Z * list string) :=
  let '(tss, last_seen, issues) := st in
  a ← vget bar "timestamp";
  ts ← (if truthy a then Ok a else vget bar "ts");
  match parse_timestamp ts with
  | None => Ok (tss, last_seen, append_issue "ts_mismatch" (append_issue "missing_timestamp" issues))
  | Some ts =>
      let issues := match last_seen with Some p => if ts <? p then append_issue "out_of_order" issues else issues | None => issues end in
      m ← py_mod (minute_of ts) expected;
      let issues := if negb (m =? 0) || negb (second_of ts =? 0)
        then append_issue "ts_mismatch" (append_issue "timestamp_misaligned" issues) else issues in
      v ← vget bar "low"; low ← as_float v;
      v ← vget bar "high"; high ← as_float v;
      v ← vget bar "open"; open_ ← as_float v;
      v ← vget bar "close"; close ← as_float v;
      let issues := add_issue (ohlc_issue low high open_ close) issues in
      v ← vget bar "volume"; volume ← as_float v;
      let issues := match volume with Some x => if fltb x fzero then append_issue "negative_volume" issues else issues | None => issues end in
      Ok (tss ++ [ts], Some ts, issues)
  end.

Fixpoint check_bars (expected : Z) (st : list Z * option Z * list string) (l : list pyval)
    : res (list Z * option Z * list string) :=
  match l with
  | [] => Ok st
  | b :: l => st ← check_bar expected st b; check_bars expected st l
  end.

(** ** The series of timestamps *)

Definition distinct (l : list Z) : list Z := remove_dups l.

(** [_compute_missing_ratio] on the sorted timestamps. *)
Definition compute_missing_ratio (timestamps : list Z) (expected_minutes : Z) : res (option float) :=
  match timestamps with
  | [] => Ok None
  | start :: _ =>
      if expected_minutes <=? 0 then Ok None
      else
        delta ← whole_minutes (List.last timestamps start - start);
        let expected := delta / expected_minutes + 1 in
        if expected <=? 0 then Ok None
        else Ok (Some (of_ratio (Z.max (expected - Z.of_nat (length (distinct timestamps))) 0) (Z.to_pos expected)))
  end.

(** The first gap over the limit ends the scan. *)
Fixpoint has_gap (limit : Z) (l : list Z) : res bool :=
  match l with
  | [] => Ok false
  | prev :: l =>
      match l with
      | [] => Ok false
      | cur :: _ => g ← whole_minutes (cur - prev); if limit <? g then Ok true else has_gap limit l
      end
  end.

(** * The guard *)

Record DataQualityGuard := Guard {
  expected_timeframe_minutes : Z; max_gap_minutes : Z; time_sync_metrics : file; ntp_max_ms : Z; missing_ratio_warn : float }.

Record GuardState := GState { last_result : option QualityResult; last_frame : option MarketFrame; g_world : world }.

#[export] Instance guard_world : HasWorld GuardState.
Proof.
  refine {| wget := g_world; wset w s := GState (last_result s) (last_frame s) w |}; by intros; try destruct s.
Defined.

Definition finalize (issues : list string) (action : option string) (flag : Z) (drift : option Z) (ratio : option float)
    : QualityResult :=
  Quality (match issues with
    | [] => "ok"
    | _ => if bool_decide (issues = ["empty_bars"]) || bool_decide (issues = ["empty_bars"; "missing_bars"]) then "warn" else "fail"
    end) issues action flag drift ratio.

(** The checks of [validate] on a frame with bars. *)
Definition bar_issues (g : DataQualityGuard) (issues : list string) (l : list pyval) : res (list string * option float) :=
  '(tss, _, issues) ← check_bars (expected_timeframe_minutes g) ([], None, issues) l;
  match tss with
  | [] => Ok (issues, None)
  | _ =>
      let issues := if Nat.eqb (length (distinct tss)) (length tss) then issues else append_issue "dup_bars" issues in
      let tss := isort Z.ltb tss in
      ratio ← compute_missing_ratio tss (expected_timeframe_minutes g);
      let issues := match ratio with
        | Some r => if fgtb r (missing_ratio_warn g) then append_issue "missing_ratio_high" issues else issues
        | None => issues end in
      gap ← has_gap (max_gap_minutes g) tss;
      Ok (if gap : bool then append_issue "missing_bars" (append_issue "gap_exceeds_threshold" issues) else issues, ratio)
  end.

Definition quality_of (g : DataQualityGuard) (l : list pyval) : res QualityResult :=
  drift ← load_latest_ntp_drift (time_sync_metrics g);
  let issues := match drift with Some d => if ntp_max_ms g <? d then ["ntp_drift"] else [] | None => [] end in
  match l with
  | [] =>
      let issues := append_issue "missing_bars" (append_issue "empty_bars" issues) in
      Ok (finalize issues (Some "runbook_run_data_05") (quality_flag_for_issues issues) drift None)
  | _ =>
      '(issues, ratio) ← bar_issues g issues l;
      Ok (finalize issues (Some "review_data_quality") (quality_flag_for_issues issues) drift ratio)
  end.

Section guard.
Context `{Env}.
Variable g : DataQualityGuard.

(** [validate] gives the result and the frame with its flag. *)
Definition validate (frame : MarketFrame) : M GuardState (QualityResult * MarketFrame) :=
  r ← lift (quality_of g (bars frame));
  let frame := set_flag (q_flag r) frame in
  _ ← modify (λ s, GState (Some r) (Some frame) (g_world s));
  mret (r, frame).

Definition severity_rank (s : string) : Z := if String.eqb s "critical" then 2 else if String.eqb s "major" then 1 else 0.
Definition promote (candidate severity : string) : string :=
  if severity_rank severity <? severity_rank candidate then candidate else severity.

Definition resolve_latency_severity (lag : option float) (ratio : option float) (drift : option Z) : string :=
  let s := "warn" in
  let s := match lag with
    | Some x => if fgeb x (of_Z (max_gap_minutes g * 120)) then promote "critical" s
                else if fgeb x (of_Z (max_gap_minutes g * 60)) then promote "major" s else s
    | None => s end in
  let w := missing_ratio_warn g in
  let s := match ratio with
    | Some r => if fgtb w fzero then
          if fgeb r (fmin (fmul w (of_Z 3)) (of_Z 1)) then promote "critical" s
          else if fgeb r (fmin (fmul w (of_Z 2)) (of_Z 1)) then promote "major" s
          else if fgeb r w then promote "warn" s else s
        else s
    | None => s end in
  match drift with
  | Some d => if 0 <? ntp_max_ms g then
        if ntp_max_ms g * 3 <=? d then promote "critical" s
        else if ntp_max_ms g * 2 <=? d then promote "major" s
        else if ntp_max_ms g <=? d then promote "warn" s else s
      else s
  | None => s
  end.

Definition evaluate (frame : MarketFrame) (provider : string) (lag : option float) : M GuardState (option DataLatencyAlert) :=
  '(r, _) ← validate frame;
  if String.eqb (q_status r) "ok" then mret None
  else mret (Some (LatencyAlert (f_symbol frame) provider
    (match lag with Some x => if truthy x then x else fzero | None => fzero end) (q_drift r)
    (resolve_latency_severity lag (q_missing_ratio r) (q_drift r))
    (String.eqb (q_status r) "fail" && String.eqb provider "primary"))).

Definition vopt_float (o : option float) : pyval := match o with Some x => VFloat x | None => VNone end.
Definition vtexts (l : list string) : pyval := VList (VStr <$> l).

(** [report]; writing it to a file is left out. *)
Definition report (s : GuardState) : dict :=
  let r := default (Quality "unknown" [] None 0 None None) (last_result s) in
  [("status", VStr (q_status r)); ("issues", vtexts (q_issues r)); ("recommended_action", vopt_str (q_action r));
   ("quality_flag", VInt (q_flag r)); ("clock_drift_ms", vopt_int (q_drift r)); ("missing_ratio", vopt_float (q_missing_ratio r))].

Definition ANNOTATIONS : string := "reports/quality/annotations.jsonl".

Definition annotate (event : dict) : M GuardState dict :=
  now ← now_utc;
  s ← get;
  let payload := [("ts", VStr (isoformat now)); ("event", VDict event);
    ("status", VStr (match last_result s with Some r => q_status r | None => "unknown" end));
    ("issues", vtexts (match last_result s with Some r => q_issues r | None => [] end));
    ("quality_flag", VInt (match last_result s with Some r => q_flag r | None => 0 end));
    ("symbol", vopt_str (f_symbol <$> last_frame s)); ("timeframe", vopt_str (f_timeframe <$> last_frame s))] in
  _ ← append_jsonl ANNOTATIONS (VDict payload);
  mret payload.

Definition record_manual_csv_hash_verification (hash_value symbol timeframe reviewer path : string) : M GuardState unit :=
  now ← now_utc;
  append_jsonl path (VDict [("ts", VStr (isoformat now)); ("symbol", VStr symbol); ("timeframe", VStr timeframe);
    ("hash", VStr hash_value); ("reviewer", VStr reviewer)]).
End guard.

(** * Comparison with a reference *)

(** [sum] of floats: compensated summation, added at the end when it is finite. *)
Fixpoint sum_from (acc c : float) (l : list float) : float :=
  match l with
  | [] => if truthy c && negb (is_nan c) && negb (is_inf c) then fadd acc c else acc
  | x :: l =>
      let t := fadd acc x in
      sum_from t (fadd c (if fgeb (fabs acc) (fabs x) then fadd (fsub acc t) x else fadd (fsub x t) acc)) l
  end.
Definition py_sum (l : list float) : float :=
  match l with [] => fzero | x :: l => sum_from (fadd fzero x) fzero l end.

Section compare.
(** [x ** 2] is the C library's [pow]; out of range it raises. *)
Variable pow : float → float → res float.

Definition close_of (b : pyval) : res (option float) := v ← vget b "close"; as_float v.
Definition closes_of (l : list pyval) : res (list float) :=
  os ← mapM_res close_of l; Ok (omap (M:=list) (λ o : option float, o) os).

(** The mean and the standard deviation of the closes. *)
Definition compute_bar_stats (l : list pyval) : res (float * float) :=
  closes ← closes_of l;
  match closes with
  | [] => Ok (fzero, fzero)
  | _ =>
      let n := of_Z (Z.of_nat (length closes)) in
      let mean := fdiv_ieee (py_sum closes) n in
      squares ← mapM_res (λ v, pow (fsub v mean) (of_Z 2)) closes;
      let variance := fdiv_ieee (py_sum squares) n in
      if fltb variance fzero then Raise (ValueError "math domain error") else Ok (mean, SFsqrt prec emax variance)
  end.

Definition diff_ratio (cur ref : float) : float := fdiv_ieee (fabs (fsub cur ref)) (fmax (fabs ref) (of_dec 1 (-6))).

Definition compare_error (issue : string) : QualityComparison := Comparison "error" [issue] false [].

Definition compare (reference : list MarketFrame) (s : GuardState) : res QualityComparison :=
  match last_frame s, last reference with
  | None, _ => Ok (compare_error "missing_current_frame")
  | _, None => Ok (compare_error "reference_missing")
  | Some cur, Some ref =>
      if negb (String.eqb (f_symbol ref) (f_symbol cur)) || negb (String.eqb (f_timeframe ref) (f_timeframe cur))
      then Ok (compare_error "reference_mismatch")
      else
        '(mean_cur, std_cur) ← compute_bar_stats (bars cur);
        '(mean_ref, std_ref) ← compute_bar_stats (bars ref);
        let m := diff_ratio mean_cur mean_ref in
        let d := diff_ratio std_cur std_ref in
        let drift := fgeb m (of_dec 5 (-2)) || fgeb d (of_dec 5 (-1)) in
        Ok (Comparison (if drift then "drift" else "ok") (if drift then ["drift_detected"] else []) drift
          [("mean_diff_ratio", m); ("std_diff_ratio", d); ("current_mean", mean_cur); ("reference_mean", mean_ref)])
  end.
End compare.

(** * A frame passes exactly when it is sound *)

Lemma append_issue_cons i l : append_issue i l ≠ [].
Proof. unfold append_issue. destruct (str_in i l) eqn:E; [by destruct l|by destruct l]. Qed.

Lemma add_issue_nil o l : add_issue o l = [] ↔ o = None ∧ l = [].
Proof.
  destruct o as [i|]; cbn; [|tauto]. split; [|by intros [? _]]. intros H. by destruct (append_issue_cons i l).
Qed.

(** An issue added under a condition. *)
Lemma issue_if_nil (b : bool) i l : (if b then append_issue i l else l) = [] ↔ b = false ∧ l = [].
Proof.
  destruct b; [|tauto]. split; [|by intros [? _]]. intros H. by destruct (append_issue_cons i l).
Qed.

Lemma opt_issue_nil {A} (o : option A) (f : A → bool) i l :
  match o with Some x => if f x then append_issue i l else l | None => l end = [] → (∀ x, o = Some x → f x = false) ∧ l = [].
Proof. destruct o as [x|]; [rewrite issue_if_nil|]; naive_solver. Qed.

(** The bar has a time on the grid of the timeframe, prices within its range,
    and no negative volume. *)
Definition sound_bar (expected : Z) (b : pyval) (ts : Z) : Prop :=
  (∃ a t, vget b "timestamp" = Ok a ∧ (if truthy a then Ok a else vget b "ts") = Ok t ∧ parse_timestamp t = Some ts) ∧
  py_mod (minute_of ts) expected = Ok 0 ∧ second_of ts = 0 ∧
  (∃ low high open_ close, (vget b "low" ≫= as_float) = Ok low ∧ (vget b "high" ≫= as_float) = Ok high ∧
    (vget b "open" ≫= as_float) = Ok open_ ∧ (vget b "close" ≫= as_float) = Ok close ∧ ohlc_issue low high open_ close = None) ∧
  (∃ v, (vget b "volume" ≫= as_float) = Ok v ∧ ∀ x, v = Some x → fltb x fzero = false).

Lemma check_bar_clean e tss lst issues b st : check_bar e (tss, lst, issues) b = Ok st →
  st.2 = [] → issues = [] ∧ ∃ ts, sound_bar e b ts ∧ st = (tss ++ [ts], Some ts, []) ∧ ∀ p, lst = Some p → p <= ts.
Proof.
  intros Hc. unfold check_bar in Hc.
  apply bind_ok in Hc as (a & Ea & Hc). apply bind_ok in Hc as (t & Et & Hc).
  destruct (parse_timestamp t) as [ts|] eqn:Ep.
  2: { injection Hc as <-. intros H. by destruct (append_issue_cons _ _ H). }
  apply bind_ok in Hc as (m & Em & Hc).
  apply bind_ok in Hc as (v1 & E1 & Hc). apply bind_ok in Hc as (low & F1 & Hc).
  apply bind_ok in Hc as (v2 & E2 & Hc). apply bind_ok in Hc as (high & F2 & Hc).
  apply bind_ok in Hc as (v3 & E3 & Hc). apply bind_ok in Hc as (open_ & F3 & Hc).
  apply bind_ok in Hc as (v4 & E4 & Hc). apply bind_ok in Hc as (close & F4 & Hc).
  apply bind_ok in Hc as (v5 & E5 & Hc). apply bind_ok in Hc as (volume & F5 & Hc). injection Hc as <-.
  cbn [snd]. intros H0. rewrite H0.
  apply (opt_issue_nil volume (λ x, fltb x fzero)) in H0 as [Hv H1]. apply add_issue_nil in H1 as [Ho H1].
  destruct (negb _ || negb _) eqn:Eg; [by destruct (append_issue_cons _ _ H1)|].
  apply orb_false_iff in Eg as [->%negb_false_iff%Z.eqb_eq Eg2%negb_false_iff%Z.eqb_eq].
  apply (opt_issue_nil lst (λ p, ts <? p)) in H1 as [Hl ->].
  split; [done|]. exists ts. split_and!; [|done|by intros p ?%Hl%Z.ltb_ge]. split_and!; [by exists a, t|done|done| |].
  - exists low, high, open_, close. rewrite E1, E2, E3, E4. by split_and!.
  - exists volume. by rewrite E5.
Qed.

Lemma check_bar_sound e tss lst b ts : sound_bar e b ts → (∀ p, lst = Some p → p <= ts) →
  check_bar e (tss, lst, []) b = Ok (tss ++ [ts], Some ts, []).
Proof.
  intros ((a & t & Ea & Et & Ep) & Em & Es & (low & high & open_ & close & E1 & E2 & E3 & E4 & Ho) & (v & E5 & Hv)) Hl.
  apply bind_ok in E1 as (v1 & E1 & F1). apply bind_ok in E2 as (v2 & E2 & F2). apply bind_ok in E3 as (v3 & E3 & F3).
  apply bind_ok in E4 as (v4 & E4 & F4). apply bind_ok in E5 as (v5 & E5 & F5).
  unfold check_bar. rewrite Ea. cbn [mbind res_bind]. rewrite Et. cbn [mbind res_bind]. rewrite Ep, Em, E1, E2, E3, E4, E5.
  cbn [mbind res_bind]. rewrite F1, F2, F3, F4, F5. cbn [mbind res_bind]. rewrite Es, Ho. cbn.
  assert (match lst with Some p => if ts <? p then ["out_of_order"] else [] | None => [] end = []) as E.
  { destruct lst as [p|]; [|done]. by rewrite (proj2 (Z.ltb_ge _ _)) by by apply Hl. }
  cbn in E. rewrite E. destruct v as [x|]; [|done]. by rewrite (Hv x).
Qed.

(** Times in order, after an earlier one. *)
Definition in_order (lst : option Z) (l : list Z) : Prop := Sorted Z.le (match lst with Some p => p :: l | None => l end).

Lemma in_order_cons lst ts l : in_order lst (ts :: l) ↔ (∀ p, lst = Some p → p <= ts) ∧ in_order (Some ts) l.
Proof.
  unfold in_order. destruct lst as [p|]; [|naive_solver]. split.
  - intros H. inversion H as [|? ? Hs Hd]; subst. inversion Hd; subst. split; [by intros ? [= <-]|done].
  - intros [Hp Hs]. constructor; [done|]. constructor. by apply Hp.
Qed.

Lemma check_bars_clean e l tss lst issues st : check_bars e (tss, lst, issues) l = Ok st → st.2 = [] →
  issues = [] ∧ ∃ ts, Forall2 (sound_bar e) l ts ∧ st.1.1 = tss ++ ts ∧ in_order lst ts.
Proof.
  revert tss lst issues. induction l as [|b l IH]; intros tss lst issues; cbn [check_bars].
  - intros [= <-]. cbn. intros ->. split; [done|]. exists []. rewrite app_nil_r.
    split_and!; [constructor|done|]. destruct lst; cbn; repeat constructor.
  - intros Hc Hst. apply bind_ok in Hc as ([[tss1 lst1] iss1] & H1 & H2).
    destruct (IH _ _ _ H2 Hst) as (-> & ts & Hf & Est & Ho).
    destruct (check_bar_clean _ _ _ _ _ _ H1 eq_refl) as (-> & t & Hb & [= -> ->] & Hp).
    split; [done|]. exists (t :: ts). rewrite <- app_assoc in Est. split_and!; [by constructor|done|]. by apply in_order_cons.
Qed.

Lemma check_bars_sound e l ts tss lst : Forall2 (sound_bar e) l ts → in_order lst ts →
  ∃ lst', check_bars e (tss, lst, []) l = Ok (tss ++ ts, lst', []).
Proof.
  intros Hf. revert tss lst. induction Hf as [|b t l ts Hb Hf IH]; intros tss lst Ho.
  - exists lst. by rewrite app_nil_r.
  - apply in_order_cons in Ho as [Hp Ho]. cbn [check_bars]. rewrite (check_bar_sound _ _ _ _ _ Hb Hp). cbn [mbind res_bind].
    destruct (IH (tss ++ [t]) (Some t) Ho) as [lst' ->]. exists lst'. by rewrite <- app_assoc.
Qed.

Lemma remove_dups_length (l : list Z) : (length (remove_dups l) ≤ length l)%nat.
Proof. induction l as [|x l IH]; cbn [remove_dups]; [done|]. destruct (decide_rel _ x l); cbn; lia. Qed.

Lemma remove_dups_all (l : list Z) : length (remove_dups l) = length l ↔ NoDup l.
Proof.
  induction l as [|x l IH]; cbn [remove_dups]; [by split; [constructor|]|]. rewrite NoDup_cons. pose proof (remove_dups_length l).
  destruct (decide_rel _ x l) as [Hx|Hx]; cbn [length].
  - split; [lia|by intros [? _]].
  - rewrite <- IH. split; [split; [done|lia]|intros [_ ?]; lia].
Qed.

Lemma in_order_strict l : in_order None l ∧ NoDup l ↔ StronglySorted Z.lt l.
Proof.
  unfold in_order. split.
  - intros [Hs%Sorted_StronglySorted Hn]; [|intros ???; lia]. induction Hs as [|x l Hs IH Hx]; [constructor|].
    apply NoDup_cons in Hn as [Hx' Hn]. constructor; [by apply IH|]. rewrite Forall_forall in Hx |- *. intros y Hy.
    specialize (Hx y Hy). assert (x ≠ y); [|lia]. by intros ->.
  - intros Hs. split.
    + apply StronglySorted_Sorted. induction Hs as [|x l Hs IH Hx]; constructor; [done|]. eapply Forall_impl; [done|]. intros; lia.
    + induction Hs as [|x l Hs IH Hx]; constructor; [|done]. intros Hin. rewrite Forall_forall in Hx. specialize (Hx x Hin). lia.
Qed.

Lemma isort_ordered l : StronglySorted Z.lt l → isort Z.ltb l = l.
Proof.
  induction l as [|x l IH] using rev_ind; intros Hs; [done|]. apply StronglySorted_app in Hs as (Hx & Hs & _).
  rewrite isort_snoc; [by rewrite IH|]. intros y Hy. apply Z.ltb_ge. specialize (Hx y x Hy). set_solver by lia.
Qed.

(** No two neighbours are further apart than the limit. *)
Definition gaps_within (limit : Z) (l : list Z) : Prop :=
  ∀ i a b, l !! i = Some a → l !! S i = Some b → ∃ n, whole_minutes (b - a) = Ok n ∧ n <= limit.

Lemma has_gap_false limit l : has_gap limit l = Ok false ↔ gaps_within limit l.
Proof.
  induction l as [|x l IH]; [by split|]. destruct l as [|y l]; [split; [|done]; intros _ i a b; by destruct i|].
  cbn [has_gap]. split.
  - intros H. apply bind_ok in H as (n & En & H). destruct (Z.ltb_spec limit n) as [|Hn]; [done|].
    intros [|i] a b; cbn; [|by apply IH]. intros [= <-] [= <-]. by exists n.
  - intros Hg. destruct (Hg 0%nat x y eq_refl eq_refl) as (n & -> & Hn). cbn [mbind res_bind].
    rewrite (proj2 (Z.ltb_ge _ _)) by done. apply IH. intros i. apply (Hg (S i)).
Qed.

Lemma finalize_ok issues a z d r : q_status (finalize issues a z d r) = "ok" ↔ issues = [].
Proof.
  destruct issues as [|i l]; [by split|]. unfold finalize. cbn [q_status]. split; [|done].
  by destruct (bool_decide _ || bool_decide _).
Qed.

(** A series of times a frame may have. *)
Definition sound_series (g : DataQualityGuard) (ts : list Z) : Prop :=
  StronglySorted Z.lt ts ∧
  (∀ x, compute_missing_ratio ts (expected_timeframe_minutes g) = Ok (Some x) → fgtb x (missing_ratio_warn g) = false) ∧
  gaps_within (max_gap_minutes g) ts.

(** The checks on the series, after those on the bars. *)
Lemma series_clean g tss (iss issues : list string) ratio : tss ≠ [] →
  (let iss := if Nat.eqb (length (distinct tss)) (length tss) then iss else append_issue "dup_bars" iss in
   r ← compute_missing_ratio (isort Z.ltb tss) (expected_timeframe_minutes g);
   let iss := match r with
     | Some r => if fgtb r (missing_ratio_warn g) then append_issue "missing_ratio_high" iss else iss
     | None => iss end in
   gap ← has_gap (max_gap_minutes g) (isort Z.ltb tss);
   Ok (if gap : bool then append_issue "missing_bars" (append_issue "gap_exceeds_threshold" iss) else iss, r)) = Ok (issues, ratio) →
  (issues = [] → iss = [] ∧ (in_order None tss → sound_series g tss)) ∧ (iss = [] → sound_series g tss → issues = []).
Proof.
  intros Hne Hb. cbn zeta in Hb. apply bind_ok in Hb as (r & Er & Hb). apply bind_ok in Hb as (gap & Eg & Hb). injection Hb as <- <-.
  unfold distinct in *. split.
  - intros Hi. destruct gap; [by destruct (append_issue_cons _ _ Hi)|].
    apply (opt_issue_nil r (λ x, fgtb x (missing_ratio_warn g))) in Hi as [Hr Hi].
    destruct (Nat.eqb_spec (length (remove_dups tss)) (length tss)) as [Hd%remove_dups_all|]; [|by destruct (append_issue_cons _ _ Hi)].
    split; [done|]. intros Ho. assert (StronglySorted Z.lt tss) as Hs by (by apply in_order_strict).
    rewrite (isort_ordered tss Hs) in Er, Eg.
    split_and!; [done| |by apply has_gap_false]. intros x Hx. rewrite Er in Hx. injection Hx as ->. by apply Hr.
  - intros -> (Hs & Hr & Hg). rewrite (isort_ordered tss Hs) in Er, Eg. apply has_gap_false in Hg. rewrite Hg in Eg. injection Eg as <-.
    apply in_order_strict in Hs as [_ Hn]. rewrite (proj2 (Nat.eqb_eq _ _)) by by apply remove_dups_all.
    destruct r as [x|]; [|done]. by rewrite (Hr x).
Qed.

Lemma bar_issues_clean g i0 l issues ratio : l ≠ [] → bar_issues g i0 l = Ok (issues, ratio) →
  issues = [] ↔ i0 = [] ∧ ∃ ts, Forall2 (sound_bar (expected_timeframe_minutes g)) l ts ∧ sound_series g ts.
Proof.
  intros Hl Hb. unfold bar_issues in Hb. apply bind_ok in Hb as ([[tss lst] iss] & Hc & Hb). split.
  - intros ->. assert (iss = [] ∧ (tss ≠ [] → in_order None tss → sound_series g tss)) as [-> Hs].
    { destruct tss as [|t tss]; [injection Hb as -> _; by split|].
      destruct (series_clean g (t :: tss) iss [] ratio) as [Hf _]; [done|exact Hb|]. destruct (Hf eq_refl) as [-> Hs]. by split. }
    destruct (check_bars_clean _ _ _ _ _ _ Hc eq_refl) as (-> & ts & Hf & Ets & Ho). cbn in Ets. subst tss.
    split; [done|]. exists ts. split; [done|]. apply Hs; [|done]. intros ->. by apply Forall2_nil_inv_r in Hf.
  - intros (-> & ts & Hf & Hs). pose proof Hs as [[Ho _]%in_order_strict _].
    destruct (check_bars_sound _ _ _ [] None Hf Ho) as [lst' E]. rewrite E in Hc. injection Hc as <- <- <-. cbn [app] in Hb.
    destruct ts as [|t ts]; [by apply Forall2_nil_inv_r in Hf|]. by apply (series_clean g (t :: ts) [] issues ratio ltac:(done) Hb).
Qed.

(** C33. A validation that returns says ok exactly when the clock drift is within its
    limit, there are bars, every bar is sound, their times are strictly
    increasing, not too many bars are missing from the grid, and no gap is longer
    than allowed. *)
Theorem quality_ok_iff (g : DataQualityGuard) (l : list pyval) (r : QualityResult) (Hr : quality_of g l = Ok r) :
  q_status r = "ok" ↔
    (∀ d, load_latest_ntp_drift (time_sync_metrics g) = Ok (Some d) → d <= ntp_max_ms g) ∧ l ≠ [] ∧
    ∃ ts, Forall2 (sound_bar (expected_timeframe_minutes g)) l ts ∧ sound_series g ts.
Proof.
  unfold quality_of in Hr. apply bind_ok in Hr as (drift & -> & Hr).
  set (i0 := match drift with Some d => if ntp_max_ms g <? d then ["ntp_drift"] else [] | None => [] end) in Hr.
  assert (i0 = [] ↔ ∀ d, Ok drift = Ok (Some d) → d <= ntp_max_ms g) as <-.
  { subst i0. destruct drift as [d|]; [|by split]. destruct (Z.ltb_spec (ntp_max_ms g) d); split; try done.
    - intros Hd. specialize (Hd d eq_refl). lia.
    - by intros _ ? [= <-]. }
  clearbody i0. destruct l as [|b l].
  { injection Hr as <-. rewrite finalize_ok. split; [intros H; by destruct (append_issue_cons _ _ H)|naive_solver]. }
  apply bind_ok in Hr as ([issues ratio] & Hb & Hr). injection Hr as <-. rewrite finalize_ok.
  rewrite (bar_issues_clean g i0 (b :: l) issues ratio ltac:(done) Hb). naive_solver.
Qed.

(** * Example: one hour of five-minute bars *)

Definition sample_bar (ts : string) (low : Z) : pyval := VDict [("timestamp", VStr ts); ("open", VInt (low + 2));
  ("high", VInt (low + 9)); ("low", VInt low); ("close", VInt (low + 5)); ("volume", VInt 10)].
Definition sample_bars : list pyval :=
  [sample_bar "2026-03-20T09:00:00Z" 100; sample_bar "2026-03-20T09:05:00Z" 101; sample_bar "2026-03-20T09:10:00Z" 99].
Definition sample_guard : DataQualityGuard := Guard 5 10 None 50 (of_dec 1 (-1)).

Lemma quality_ok_iff_witness : ∃ ts, Forall2 (sound_bar 5) sample_bars ts ∧ sound_series sample_guard ts.
Proof.
  destruct (quality_of sample_guard sample_bars) as [r|] eqn:E; [|vm_compute in E; discriminate E].
  refine (proj2 (proj2 (proj1 (quality_ok_iff sample_guard sample_bars r E) _))).
  vm_compute in E. injection E as <-. reflexivity.
Defined.

(** Corrupt prices fail the frame and leave its flag at zero. *)
Example corrupt_prices_have_no_flag :
  match quality_of sample_guard [VDict [("ts", VStr "2026-03-20T09:00:00Z"); ("open", VInt 1); ("high", VInt 1); ("low", VInt 2); ("close", VInt 1)]] with
  | Ok r => q_status r = "fail" ∧ q_flag r = 0
  | Raise _ => False
  end.
Proof. by vm_compute. Qed.
