(* ===== verification/DataService.v ===== *)
(** The data service of [src/data/service.py], first part: configuration of
    providers and priorities, the fetch buffer, the latency collector, the
    service-level and bar-ready logs, the rate-limit stages of
    [src/data/rate_limit_guard.py], worker plans, and the backfill of a range
    of time through the providers in order.

    A provider handler is a callable of the caller: its answer to the n-th
    invocation of the run is a parameter.  The raw log of the collector and the
    construction of the network handlers are left out. *)

From S2P Require Import Prelude PyFloat PyVal PyEnv Calendar Spread Health DataQuality.

Local Open Scope Z_scope.
Local Open Scope py_scope.

(** * Configuration *)

(** A YAML document that is expected to be a mapping. *)
Definition load_yaml_dict (d : document) : res dict :=
  match d with
  | None => Ok []
  | Some None => Raise (OtherError "YAMLError" "")
  | Some (Some (VDict d)) => Ok d
  | Some (Some _) => Ok []
  end.

Definition load_provider_priority : document → res dict := load_yaml_dict.
Definition load_provider_profiles : document → res dict := load_yaml_dict.

Definition load_ingestion_priorities (d : document) : res dict :=
  match d with
  | None => Ok []
  | Some None => Raise (OtherError "YAMLError" "")
  | Some (Some v) =>
      match v or? VDict [] with
      | VDict p => Ok [("symbol_weight", dget "symbol_weight" p or? VDict []); ("timeframe_weight", dget "timeframe_weight" p or? VDict [])]
      | _ => Ok []
      end
  end.

Record ProviderProfile := Profile { timeout_sec : option float; retry_max_attempts : option Z; retry_backoff_sec : option float }.

Definition merge_profile (base override : dict) : dict :=
  fold_left (λ merged kv,
    match kv.2, dget kv.1 merged with
    | VDict v, VDict old => dset kv.1 (VDict (dupdate old v)) merged
    | v, _ => dset kv.1 v merged
    end) override base.

(** [_coerce_int] and [_coerce_float] *)
Definition coerce {A} (conv : pyval → res A) (raw : pyval) : res (option A) :=
  match raw with
  | VNone => Ok None
  | _ => match conv raw with
      | Ok x => Ok (Some x)
      | Raise (TypeError _) | Raise (ValueError _) => Ok None
      | Raise e => Raise e
      end
  end.

Definition parse_provider_profile (raw : dict) : res ProviderProfile :=
  let retry := as_dict_or_empty (dget "retry" raw) in
  max_attempts ← coerce py_int (dget "max_attempts" retry);
  backoff_sec ← coerce py_float (dget "backoff_sec" retry);
  timeout ← coerce py_float (dget "timeout_sec" raw);
  Ok (Profile timeout
    (match max_attempts with Some n => if 0 <? n then Some n else None | None => None end)
    (match backoff_sec with Some x => if truthy x && fgeb x fzero then Some x else None | None => None end)).

Definition no_profile : ProviderProfile := Profile None None None.

Definition resolve_provider_profile (provider : string) (profiles : dict) : res ProviderProfile :=
  if truthy profiles then
    let defaults := as_dict_or_empty (dget "defaults" profiles) in
    let providers := as_dict_or_empty (dget "providers" profiles) in
    match dget_or provider (VDict []) providers with
    | VDict o => parse_provider_profile (merge_profile defaults o)
    | _ => Raise (AttributeError "object has no attribute 'items'")
    end
  else Ok no_profile.

Definition resolve_retry_settings (provider : string) (profiles : dict) (default_retries : Z) (default_backoff_ms : float)
    : res (Z * float) :=
  p ← resolve_provider_profile provider profiles;
  Ok (match retry_max_attempts p with Some n => Z.max (n - 1) 0 | None => default_retries end,
      match retry_backoff_sec p with Some x => fmax (fmul x (of_Z 1000)) fzero | None => default_backoff_ms end).

(** The provider names of a list. *)
Definition names_of (v : pyval) : res (list string) := l ← py_iter v; Ok (map py_str l).

Definition resolve_provider_priority (symbols provider_priority : list string) (config : dict) : res (list string) :=
  if truthy provider_priority then Ok provider_priority
  else
    let per_symbol := dget "per_symbol" config or? VDict [] in
    let default_order := dget "default_order" config or? VList [] in
    override ← (match symbols with
      | [] => Ok VNone
      | s :: _ => a ← vget per_symbol s; if truthy a then Ok a else vget per_symbol (upper s)
      end);
    if truthy override then names_of override
    else if truthy default_order then names_of default_order
    else Ok ["primary"].

(** [sorted(symbols, key=_score, reverse=True)] keeps the order of equal keys. *)
Definition order_symbols_by_priority (symbols : list string) (timeframe : string) (priorities : dict) : res (list string) :=
  if truthy priorities then
    let weights := dget_or "symbol_weight" (VDict []) priorities in
    w ← vget_or (dget_or "timeframe_weight" (VDict []) priorities) timeframe (VFloat (of_Z 1));
    tf_weight ← py_float w;
    keyed ← mapM_res (λ s, v ← vget_or weights s (VFloat (of_Z 1)); x ← py_float v; Ok (fmul x tf_weight, s)) symbols;
    Ok ((isort (λ a b : float * string, fltb b.1 a.1) keyed).*2)
  else Ok symbols.

(** * Results and the buffer *)

Record BackfillResult := BackfillOk { r_frames : list MarketFrame; provider_used : option string; retry_count : Z; r_status : string }.
Record ProviderResult := Result { frames : list MarketFrame; p95_ms : float; p99_ms : float; rate_limit_ratio : float }.
Record BufferItem := Item {
  b_provider : string; b_symbols : list string; b_timeframe : string; request_ts : datetime; enqueue_ts : datetime;
  b_frames : list MarketFrame }.
Record BufferCoordinator := Buffer { items : list BufferItem; maxsize : Z; dropped : Z }.

(** [popleft] before [append] when the buffer is full. *)
Definition make_room (b : BufferCoordinator) : res BufferCoordinator :=
  if maxsize b <=? Z.of_nat (length (items b)) then
    match items b with
    | [] => Raise (OtherError "IndexError" "pop from an empty deque")
    | _ :: l => Ok (Buffer l (maxsize b) (dropped b + 1))
    end
  else Ok b.
Definition push (i : BufferItem) (b : BufferCoordinator) : BufferCoordinator := Buffer (items b ++ [i]) (maxsize b) (dropped b).
Definition pop (b : BufferCoordinator) : BufferCoordinator := Buffer (List.tl (items b)) (maxsize b) (dropped b).
Definition drain (force : bool) (b : BufferCoordinator) : list (string * Z) * BufferCoordinator :=
  ([("flushed", Z.of_nat (length (items b))); ("dropped", dropped b); ("forced", if force then 1 else 0)],
   Buffer [] (maxsize b) (dropped b)).

(** * The latency collector *)

Record IngestionMetricsCollector := Collector {
  window_size : nat; c_warn_ms : float; c_breach_ms : float; latencies : list float; failures : Z; last_bars : Z;
  last_provider : option string; last_symbols : list string; last_stage : string; last_timeframe : string }.

Definition percentile (values : list float) (p : Z) : option float :=
  let data := isort fltb values in
  let n := Z.of_nat (length data) in
  match data with
  | [] => None
  | [x] => Some x
  | _ =>
      let k := fmul (of_Z (n - 1)) (of_ratio p 100) in
      let f := match ftrunc k with Ok z => z | Raise _ => 0 end in
      let c := Z.min (f + 1) (n - 1) in
      let at_ i := nth (Z.to_nat i) data fzero in
      Some (if f =? c then at_ f else fadd (fmul (at_ f) (fsub (of_Z c) k)) (fmul (at_ c) (fsub k (of_Z f))))
  end.

Definition compute_latency_status (p95 warn breach : float) : string :=
  if fgeb p95 breach then "breach" else if fgeb p95 warn then "watch" else "ok".

(** The window keeps the latest observations. *)
Definition observed (provider : string) (symbols : list string) (timeframe : string) (latency : float) (n : Z) (stage : string)
    (success : bool) (c : IngestionMetricsCollector) : IngestionMetricsCollector :=
  let l := if success then latencies c ++ [latency] else latencies c in
  Collector (window_size c) (c_warn_ms c) (c_breach_ms c) (drop (length l - window_size c) l)
    (if success then failures c else failures c + 1) n (Some provider) symbols stage timeframe.

Record CollectorSnapshot := CSnapshot { s_p95 : option float; s_p99 : option float; s_retries : Z; s_latency : string }.

Definition collector_snapshot (c : IngestionMetricsCollector) : CollectorSnapshot :=
  let p95 := percentile (latencies c) 95 in
  CSnapshot p95 (percentile (latencies c) 99) (failures c)
    (match p95 with Some x => compute_latency_status x (c_warn_ms c) (c_breach_ms c) | None => "unknown" end).

(** * Time *)

Definition parse_bar_timestamp (value : pyval) : option datetime :=
  match value with
  | VNone => None
  | _ =>
      let text := strip (py_str value) in
      if truthy text then
        let text := if ends_with "Z" text then drop_last text +:+ "+00:00" else text in
        d ← fromisoformat text; Some (if is_naive d then with_utc d else d)
      else None
  end.

Definition later (latest : option datetime) (d : datetime) : option datetime :=
  match latest with Some l => if utc_us l <? utc_us d then Some d else Some l | None => Some d end.

Fixpoint last_bar_from (latest : option datetime) (l : list MarketFrame) : res (option datetime) :=
  match l with
  | [] => Ok latest
  | f :: l =>
      match last (bars f) with
      | None => last_bar_from latest l
      | Some b =>
          a ← vget b "timestamp";
          c ← (if truthy a then Ok a else vget b "ts");
          last_bar_from (match parse_bar_timestamp c with Some d => later latest d | None => latest end) l
      end
  end.
Definition extract_last_bar_timestamp : list MarketFrame → res (option datetime) := last_bar_from None.

Definition total_seconds (b a : datetime) : float := of_ratio (utc_us b - utc_us a) 1000000.

Definition compute_bar_gap_minutes (anchor : datetime) (last_bar : option datetime) : res (option Z) :=
  match last_bar with
  | None => Ok None
  | Some d => n ← whole_minutes (utc_us anchor - utc_us d); Ok (Some (Z.max n 0))
  end.

(** ** The chunks of a range: what the generator yields and how it ends *)

Definition dt_min (a b : datetime) : datetime := if utc_us b <? utc_us a then b else a.

Fixpoint chunks_from (fuel : nat) (cursor end_ : datetime) (step : Z) : list (datetime * datetime) * option exn :=
  match fuel with
  | O => ([], None)
  | S fuel =>
      if utc_us cursor <? utc_us end_ then
        match dt_add cursor step with
        | Raise e => ([], Some e)
        | Ok t =>
            let chunk_end := dt_min end_ t in
            if utc_us chunk_end <=? utc_us cursor then ([], None)
            else let '(l, e) := chunks_from fuel chunk_end end_ step in ((cursor, chunk_end) :: l, e)
        end
      else ([], None)
  end.

Definition chunk_backfill_ranges (start end_ : datetime) (chunk_hours : Z) : list (datetime * datetime) * option exn :=
  if chunk_hours <=? 0 then ([(start, end_)], None)
  else
    let step := hours_us chunk_hours in
    chunks_from (Z.to_nat ((utc_us end_ - utc_us start) / step + 2)) start end_ step.

(** * The service at work *)

(** What a handler gives back: a result, a list of frames, something else, or an
    exception with its text. *)
Inductive answer := AResult (r : ProviderResult) | AFrames (l : list MarketFrame) | AOther | ARaise (msg : string).

(** The callables by provider; the argument is the number of the invocation in
    the run. *)
Abbreviation handlers := (list (string * (nat → answer))).

(** The local variables of a backfill that outlive an attempt. *)
Record BackfillAcc := Acc {
  bars_by_symbol : list (string * list pyval); quality_flags : list (string * Z); served_by : option string; total_retries : Z }.
Definition acc0 : BackfillAcc := Acc [] [] None 0.

(** The local variables of the fetch of one provider. *)
Record FetchLocal := Local { l_frames : list MarketFrame; l_flag : Z; l_ratio : float }.
Definition local0 : FetchLocal := Local [] 0 fzero.

Record Ingestion := Ing {
  buffer : BufferCoordinator; collector : option IngestionMetricsCollector; quality : GuardState; monitor : HealthMonitor;
  acc : BackfillAcc; invocations : nat; readings : nat; slept : list float;
  local : FetchLocal; i_world : world }.

#[export] Instance ingestion_world : HasWorld Ingestion.
Proof.
  refine {| wget := i_world; wset w s := Ing (buffer s) (collector s) (quality s) (monitor s) (acc s) (invocations s)
    (readings s) (slept s) (local s) w |}; by intros; try destruct s.
Defined.

Definition set_buffer (b : BufferCoordinator) (s : Ingestion) : Ingestion :=
  Ing b (collector s) (quality s) (monitor s) (acc s) (invocations s) (readings s) (slept s) (local s) (i_world s).
Definition set_collector (c : option IngestionMetricsCollector) (s : Ingestion) : Ingestion :=
  Ing (buffer s) c (quality s) (monitor s) (acc s) (invocations s) (readings s) (slept s) (local s) (i_world s).
Definition set_quality (q : GuardState) (s : Ingestion) : Ingestion :=
  Ing (buffer s) (collector s) q (monitor s) (acc s) (invocations s) (readings s) (slept s) (local s) (i_world s).
Definition set_monitor (m : HealthMonitor) (s : Ingestion) : Ingestion :=
  Ing (buffer s) (collector s) (quality s) m (acc s) (invocations s) (readings s) (slept s) (local s) (i_world s).
Definition set_acc (a : BackfillAcc) (s : Ingestion) : Ingestion :=
  Ing (buffer s) (collector s) (quality s) (monitor s) a (invocations s) (readings s) (slept s) (local s) (i_world s).
Definition count_invocation (s : Ingestion) : Ingestion :=
  Ing (buffer s) (collector s) (quality s) (monitor s) (acc s) (S (invocations s)) (readings s) (slept s) (local s) (i_world s).
Definition count_reading (s : Ingestion) : Ingestion :=
  Ing (buffer s) (collector s) (quality s) (monitor s) (acc s) (invocations s) (S (readings s)) (slept s) (local s) (i_world s).
Definition add_sleep (x : float) (s : Ingestion) : Ingestion :=
  Ing (buffer s) (collector s) (quality s) (monitor s) (acc s) (invocations s) (readings s) (slept s ++ [x]) (local s) (i_world s).

(** The keyword arguments of a fetch; without [monitored] no health monitor is
    given. *)
Record Options := Opts {
  retries : Z; backoff_ms : float; provider_profiles : dict; warn_ms : float; breach_ms : float;
  sla_thresholds : list (string * (float * float)); quality_guard : option DataQualityGuard; monitored : bool;
  fetch_delay_warn_sec : float; bar_gap_warn_minutes : Z; processing_delay_warn_sec : float;
  processing_delay_breach_sec : option float; metrics_path : string; bar_ready_path : string }.

Definition set_local (l : FetchLocal) (s : Ingestion) : Ingestion :=
  Ing (buffer s) (collector s) (quality s) (monitor s) (acc s) (invocations s) (readings s) (slept s) l (i_world s).

(** [try: ... except] that keeps the exception as a value. *)
Definition attempt {S A} (m : M S A) : M S (res A) := λ s, (Ok (m s).1, (m s).2).

(** [f"{x:.2f}"] *)
Definition ffixed2 (x : float) : string :=
  match x with
  | S754_zero s => if s then "-0.00" else "0.00"
  | S754_infinity s => if s then "-inf" else "inf"
  | S754_nan => "nan"
  | S754_finite s m e =>
      let '(n, d) := ratio_of m e in
      let q := div_half_even (n * 100) d in
      (if s then "-" else "") +:+ pretty (q / 100) +:+ "." +:+ pad2 (q mod 100)
  end.

(** [d.replace(microsecond=0).isoformat().replace("+00:00", "Z")] *)
Definition iso_seconds (d : datetime) : string :=
  let t := isoformat (DateTime (dt_year d) (dt_month d) (dt_day d) (dt_hour d) (dt_minute d) (dt_second d) 0 (dt_tz d)) in
  match dt_tz d with
  | Some 0 => isoformat (DateTime (dt_year d) (dt_month d) (dt_day d) (dt_hour d) (dt_minute d) (dt_second d) 0 None) +:+ "Z"
  | _ => t
  end.

Definition bar_count (l : list MarketFrame) : Z := Z.of_nat (length (concat (map bars l))).

Section service.
Context `{Env}.
(** The readings of [time.perf_counter]. *)
Variable perf_at : nat → float.
Variable o : Options.

Definition perf_counter : M Ingestion float := λ s, (Ok (perf_at (readings s)), count_reading s).
Definition elapsed_ms (start : float) : M Ingestion float := t ← perf_counter; mret (fmul (fsub t start) (of_Z 1000)).

(** ** Buffer and collector *)

Definition enqueue (provider : string) (symbols : list string) (timeframe : string) (request_ts : datetime) (frames : list MarketFrame)
    : M Ingestion BufferItem :=
  s ← get;
  b ← lift (make_room (buffer s));
  now ← now_utc;
  let item := Item provider symbols timeframe request_ts now frames in
  _ ← modify (set_buffer (push item b));
  mret item.

Definition pop_buffer : M Ingestion unit := modify (λ s, set_buffer (pop (buffer s)) s).

Definition observe (provider : string) (symbols : list string) (timeframe : string) (latency : float) (n : Z) (stage : string)
    (success : bool) : M Ingestion unit :=
  _ ← utcnow_iso;
  modify (λ s, set_collector (observed provider symbols timeframe latency n stage success <$> collector s) s).

Definition when_collector (m : M Ingestion unit) : M Ingestion unit :=
  s ← get; match collector s with Some _ => m | None => mret tt end.

(** The latencies logged for a result: those of the collector if there is one. *)
Definition logged_latency (r : ProviderResult) (provider : string) (symbols : list string) (timeframe : string) (elapsed : float)
    (n : Z) (stage : string) : M Ingestion (float * float) :=
  _ ← when_collector (observe provider symbols timeframe elapsed n stage true);
  s ← get;
  mret (match collector s with
    | Some c =>
        let snap := collector_snapshot c in
        (match s_p95 snap with Some x => if truthy x then x else p95_ms r | None => p95_ms r end,
         match s_p99 snap with Some x => if truthy x then x else p99_ms r | None => p99_ms r end)
    | None => (p95_ms r, p99_ms r)
    end).

(** ** Health and logs *)

Definition raise_health (reason detail action : string) : M Ingestion unit :=
  zoom monitor set_monitor (raise_condition "degraded" reason (Some detail) (Some action) false).

Definition maybe_raise_data_latency (delay_sec : float) (gap : option Z) (provider : string) (symbols : list string)
    : M Ingestion unit :=
  if monitored o then
    let reasons := (if fgtb delay_sec (fetch_delay_warn_sec o) then ["fetch_delay_sec=" +:+ ffixed2 delay_sec] else []) ++
      (match gap with Some z => if bar_gap_warn_minutes o <? z then ["bar_gap_minutes=" +:+ pretty z] else [] | None => [] end) in
    when (truthy reasons) (raise_health "data_latency_fetch"
      (join ";" reasons +:+ ";provider=" +:+ provider +:+ ";symbols=" +:+ join "," symbols) "runbook:RUN-DATA-05#enter_guarded")
  else mret tt.

Definition maybe_raise_processing_latency (delay_sec : float) (provider : string) (symbols : list string) : M Ingestion unit :=
  when (monitored o && negb (fleb delay_sec (processing_delay_warn_sec o)))
    (raise_health "data_latency_processing"
      ("processing_delay_sec=" +:+ ffixed2 delay_sec +:+ ";provider=" +:+ provider +:+ ";symbols=" +:+ join "," symbols)
      "runbook:RUN-DATA-05#processing_fallback").

(** The fields of an entry of the service-level log. *)
Record SlaEntry := Sla {
  e_provider : string; e_timeframe : string; e_symbols : list string; e_symbol : option string; e_stage : string;
  e_p95 : float; e_p99 : float; e_bars : Z; e_status : string; e_ratio : float; e_flag : option Z; e_last_bar : option string;
  e_gap : option Z; e_delay : option float }.

Definition opt_field {A} (k : string) (f : A → pyval) (x : option A) : dict := match x with Some a => [(k, f a)] | None => [] end.

Definition sla_payload (ts : string) (e : SlaEntry) : dict := [
  ("ts", VStr ts); ("provider", VStr (e_provider e)); ("stage", VStr (e_stage e)); ("phase", VStr (e_stage e));
  ("timeframe", VStr (e_timeframe e)); ("symbols", vtexts (e_symbols e)); ("fetch_p95_ms", VFloat (e_p95 e));
  ("fetch_p99_ms", VFloat (e_p99 e)); ("bars", VInt (e_bars e)); ("429_rate", VFloat (e_ratio e));
  ("latency_status", VStr (e_status e)); ("status", VStr (e_status e))] ++
  opt_field "symbol" VStr (e_symbol e) ++ opt_field "quality_flag" VInt (e_flag e) ++
  opt_field "last_bar_ts" VStr (e_last_bar e) ++ opt_field "bar_gap_minutes" VInt (e_gap e) ++
  opt_field "delay_sec" VFloat (e_delay e) ++
  (if String.eqb (e_stage e) "fetch" then opt_field "fetch_delay_sec" VFloat (e_delay e)
   else if String.eqb (e_stage e) "processing" then opt_field "processing_delay_sec" VFloat (e_delay e) else []).

Definition log_sla_entry (e : SlaEntry) : M Ingestion unit :=
  ts ← utcnow_iso;
  _ ← try_append_jsonl (metrics_path o) (VDict (sla_payload ts e));
  mret tt.

Definition log_processing_delay (provider timeframe symbol : string) (n : Z) (processing_ms : float) : M Ingestion unit :=
  let delay_sec := fmax (fdiv_ieee processing_ms (of_Z 1000)) fzero in
  _ ← maybe_raise_processing_latency delay_sec provider [symbol];
  let warn := fmul (processing_delay_warn_sec o) (of_Z 1000) in
  let breach_sec := default (fmul (processing_delay_warn_sec o) (of_ratio 3 2)) (processing_delay_breach_sec o) in
  let status := compute_latency_status processing_ms warn (fmul breach_sec (of_Z 1000)) in
  log_sla_entry (Sla provider timeframe [symbol] (Some symbol) "processing" processing_ms processing_ms n status fzero
    None None None (Some delay_sec)).

Definition bar_ready_event (ts source : string) (f : MarketFrame) : pyval := VDict [
  ("event", VStr "bar.ready"); ("ts", VStr ts); ("symbol", VStr (f_symbol f)); ("timeframe", VStr (f_timeframe f));
  ("bars", VList (bars f)); ("bar_count", VInt (Z.of_nat (length (bars f)))); ("quality_flag", VInt (f_flag f)); ("source", VStr source)].

(** One open file takes all the events, or none when it cannot be opened. *)
Definition append_bar_ready (frames : list MarketFrame) (source : string) : M Ingestion unit :=
  when (truthy frames) (
    ts ← utcnow_iso;
    s ← get;
    let w := i_world s in
    if io_ok_at (w_io w) then
      modify (wset (World (w_tick w) (w_uuid w) (S (w_io w))
        (w_out w ++ ((λ f, (bar_ready_path o, bar_ready_event ts source f)) <$> frames))))
    else modify (wset (World (w_tick w) (w_uuid w) (S (w_io w)) (w_out w)))).

(** ** One invocation of a provider *)

Fixpoint default_frames (symbols : list string) (timeframe : string) : M Ingestion (list MarketFrame) :=
  match symbols with
  | [] => mret []
  | s :: symbols =>
      ts ← utcnow_iso;
      l ← default_frames symbols timeframe;
      mret (Frame s timeframe [VDict [("timestamp", VStr ts); ("open", VFloat fzero); ("high", VFloat fzero);
        ("low", VFloat fzero); ("close", VFloat fzero)]] 0 :: l)
  end.

Definition plain_result (l : list MarketFrame) : ProviderResult := Result l (of_Z 120) (of_Z 150) fzero.

Definition invoke_provider (provider : string) (symbols : list string) (timeframe : string) (handler : option (nat → answer))
    : M Ingestion ProviderResult :=
  match handler with
  | None => l ← default_frames symbols timeframe; mret (plain_result l)
  | Some h =>
      n ← gets invocations;
      _ ← modify count_invocation;
      match h n with
      | AResult r => mret r
      | AFrames l => mret (plain_result l)
      | AOther => raise (ProviderError ("provider " +:+ provider +:+ " returned unsupported payload"))
      | ARaise msg => raise (ProviderError ("provider " +:+ provider +:+ " failed: " +:+ msg))
      end
  end.

(** The frames through the quality guard; [note] takes the flag of each. *)
Fixpoint validate_frames (g : DataQualityGuard) (note : string → Z → M Ingestion unit) (l : list MarketFrame)
    : M Ingestion (list MarketFrame) :=
  match l with
  | [] => mret []
  | f :: l =>
      '(q, f) ← zoom quality set_quality (validate g f);
      _ ← note (f_symbol f) (q_flag q);
      if str_in (q_status q) ["fail"; "error"] then
        raise (DataQualityError ("data_quality_failed: " +:+ py_repr (vtexts (q_issues q))) (q_flag q))
      else l ← validate_frames g note l; mret (f :: l)
  end.

Definition check_quality (note : string → Z → M Ingestion unit) (l : list MarketFrame) : M Ingestion (list MarketFrame) :=
  match quality_guard o with Some g => validate_frames g note l | None => mret l end.
End service.

(** * What the operations leave alone *)

(** The parts of the state that only the fetch loop changes. *)
Definition view (s : Ingestion) : BufferCoordinator * BackfillAcc * nat * list float := (buffer s, acc s, invocations s, slept s).

Definition silent {A} (m : M Ingestion A) : Prop := ∀ v, preserves (λ s, view s = v) m.

Lemma silent_run {A} (m : M Ingestion A) s : silent m → view (m s).2 = view s.
Proof. intros Hm. by apply (Hm (view s)). Qed.

Lemma silent_modify f : (∀ s, view (f s) = view s) → silent (modify f).
Proof. intros Hf v. apply preserves_modify. intros s <-. apply Hf. Qed.

Lemma silent_bind {A B} (m : M Ingestion A) (f : A → M Ingestion B) : silent m → (∀ a, silent (f a)) → silent (m ≫= f).
Proof. intros Hm Hf v. apply preserves_bind; [apply Hm|intros a; apply Hf]. Qed.

Lemma silent_when b (m : M Ingestion unit) : silent m → silent (when b m).
Proof. intros Hm v. apply preserves_when, Hm. Qed.

Lemma silent_for_each {A} (f : A → M Ingestion unit) l : (∀ a, silent (f a)) → silent (for_each f l).
Proof. intros Hf v. apply preserves_for_each. intros a. apply Hf. Qed.

Create HintDb ingest discriminated.

Lemma silent_ret {A} (a : A) : silent (mret a). Proof. by intros v s Hs. Qed.
Lemma silent_raise {A} e : silent (raise (A:=A) e). Proof. by intros v s Hs. Qed.
Lemma silent_get : silent get. Proof. by intros v s Hs. Qed.
Lemma silent_gets {A} (f : Ingestion → A) : silent (gets f). Proof. by intros v s Hs. Qed.
Lemma silent_lift {A} (r : res A) : silent (lift r). Proof. by intros v s Hs. Qed.
#[export] Hint Resolve silent_ret silent_raise silent_get silent_gets silent_lift silent_bind silent_when silent_for_each : ingest.

Ltac silents :=
  repeat (first
    [ assumption
    | solve [eauto with ingest nocore]
    | apply silent_bind; [|intros ?]
    | apply silent_when
    | apply silent_for_each; intros ?
    | apply silent_modify; by intros []
    | match goal with |- silent (match ?x with _ => _ end) => destruct x eqn:? end ]).

Section silent.
Context `{Env}.
Variable perf_at : nat → float.
Variable o : Options.

Lemma silent_world : silent now_utc ∧ silent utcnow_iso ∧ (∀ p v, silent (try_append_jsonl p v)).
Proof.
  assert (∀ v, (∀ w s, view s = v → view (wset w s) = v)) as Hw by by intros v w [] <-.
  split_and!; [intros v|intros v|intros p x v]; by apply (preserves_world (λ s, view s = v) (Hw v)).
Qed.
Lemma silent_now : silent now_utc. Proof. apply silent_world. Qed.
Lemma silent_iso : silent utcnow_iso. Proof. apply silent_world. Qed.
Lemma silent_try_append p v : silent (try_append_jsonl p v). Proof. apply silent_world. Qed.
Hint Resolve silent_now silent_iso silent_try_append : ingest.

Lemma silent_on_monitor {A} (m : M HealthMonitor A) : silent (zoom monitor set_monitor m).
Proof. intros v. apply preserves_zoom; [intros w|intros t]; by intros [] <-. Qed.
Lemma silent_on_quality {A} (m : M GuardState A) : silent (zoom quality set_quality m).
Proof. intros v. apply preserves_zoom; [intros w|intros t]; by intros [] <-. Qed.
Hint Resolve silent_on_monitor silent_on_quality : ingest.

Lemma silent_perf_counter : silent (perf_counter perf_at).
Proof. by intros v [] <-. Qed.
Hint Resolve silent_perf_counter : ingest.
Lemma silent_elapsed_ms x : silent (elapsed_ms perf_at x).
Proof. unfold elapsed_ms. silents. Qed.
Lemma silent_observe p ss t x n st b : silent (observe p ss t x n st b).
Proof. unfold observe. silents. Qed.
Hint Resolve silent_elapsed_ms silent_observe : ingest.
Lemma silent_when_collector m : silent m → silent (when_collector m).
Proof. intros Hm. unfold when_collector. silents. Qed.
Hint Resolve silent_when_collector : ingest.
Lemma silent_logged_latency r p ss t x n st : silent (logged_latency r p ss t x n st).
Proof. unfold logged_latency. silents. Qed.
Lemma silent_raise_health a b c : silent (raise_health a b c).
Proof. unfold raise_health. silents. Qed.
Hint Resolve silent_raise_health : ingest.
Lemma silent_data_latency d gap p ss : silent (maybe_raise_data_latency o d gap p ss).
Proof. unfold maybe_raise_data_latency. silents. Qed.
Lemma silent_processing_latency d p ss : silent (maybe_raise_processing_latency o d p ss).
Proof. unfold maybe_raise_processing_latency. silents. Qed.
Lemma silent_log_sla_entry e : silent (log_sla_entry o e).
Proof. unfold log_sla_entry. silents. Qed.
Hint Resolve silent_processing_latency silent_log_sla_entry : ingest.
Lemma silent_log_processing_delay p t s n x : silent (log_processing_delay o p t s n x).
Proof. unfold log_processing_delay. silents. Qed.
Lemma silent_append_bar_ready l s : silent (append_bar_ready o l s).
Proof. clear perf_at. unfold append_bar_ready. silents. Qed.
Lemma silent_default_frames ss t : silent (default_frames ss t).
Proof. clear perf_at o. induction ss as [|s ss IH]; cbn; silents. Qed.

Lemma total_perf_counter : total (perf_counter perf_at).
Proof. intros s. by eexists _, _. Qed.
Hint Resolve total_perf_counter : pytotal.
Lemma total_elapsed_ms x : total (elapsed_ms perf_at x).
Proof. unfold elapsed_ms. totals. Qed.
Lemma total_observe p ss t x n st b : total (observe p ss t x n st b).
Proof. unfold observe. totals. Qed.
Hint Resolve total_elapsed_ms total_observe : pytotal.
Lemma total_when_collector m : total m → total (when_collector m).
Proof. intros Hm. unfold when_collector. totals. Qed.
Lemma total_log_sla_entry e : total (log_sla_entry o e).
Proof. unfold log_sla_entry. totals. Qed.
Lemma total_default_frames ss t : total (default_frames ss t).
Proof. induction ss as [|s ss IH]; cbn; totals. Qed.
End silent.

#[export] Hint Resolve silent_now silent_iso silent_try_append silent_on_monitor silent_on_quality silent_perf_counter silent_elapsed_ms
  silent_observe silent_when_collector silent_logged_latency silent_raise_health silent_data_latency silent_processing_latency
  silent_log_sla_entry silent_log_processing_delay silent_append_bar_ready silent_default_frames : ingest.
#[export] Hint Resolve total_perf_counter total_elapsed_ms total_observe total_when_collector total_log_sla_entry
  total_default_frames : pytotal.
