(* ===== verification/Workers.v ===== *)
(** The provider workers: the stages of [src/data/rate_limit_guard.py], and the
    worker plans and polling loops of [src/data/service.py].  A job is a
    computation over a state of the client; the pause between two polls is a
    parameter. *)

From S2P Require Import Prelude PyFloat PyVal PyEnv.

Local Open Scope Z_scope.
Local Open Scope py_scope.

(** * The rate-limit guard *)

Record StageDecision := Decision_ {
  d_provider : string; d_stage : string; d_decision : string; tokens_remaining : float; d_rate : float; max_concurrent : Z;
  d_poll_interval : float; decision_source : option string; d_runbook_ref : option string }.

Definition stage_mapping (d : StageDecision) : dict := [
  ("provider", VStr (d_provider d)); ("stage", VStr (d_stage d)); ("decision", VStr (d_decision d));
  ("tokens_remaining", VFloat (tokens_remaining d)); ("sample_window_min", VInt 60); ("429_rate", VFloat (d_rate d));
  ("max_concurrent", VInt (max_concurrent d)); ("poll_interval_sec", VFloat (d_poll_interval d));
  ("decision_source", vopt_str (decision_source d)); ("runbook_ref", vopt_str (d_runbook_ref d))].

Record RateLimitGuard := Guard { tokens_per_minute : float; burst_tokens : float; g_poll_interval : float; g_stages : list string }.

(** [stages or ["stage0"]] *)
Definition stages (g : RateLimitGuard) : list string := g_stages g or? ["stage0"].

(** The index of a stage, that of the first one for an unknown stage. *)
Fixpoint position (x : string) (l : list string) : option nat :=
  match l with
  | [] => None
  | y :: l => if String.eqb y x then Some O else S <$> position x l
  end.
Definition stage_index (g : RateLimitGuard) (stage : string) : nat := default O (position stage (stages g)).
Definition stage_at (g : RateLimitGuard) (i : nat) : string := nth i (stages g) "".
Definition last_index (g : RateLimitGuard) : nat := pred (length (stages g)).

(** The stage and the decision for a 429 rate. *)
Definition decide_stage (g : RateLimitGuard) (rate : float) (allow_promotion : bool) (stage : string) : string * string :=
  let idx := stage_index g stage in
  if allow_promotion then
    if fleb rate (of_dec 1 (-2)) && (idx <? last_index g)%nat then (stage_at g (Nat.min (idx + 1) (last_index g)), "promote")
    else if fgtb rate (of_dec 15 (-3)) && (0 <? idx)%nat then (stage_at g (idx - 1), "rollback")
    else (stage, "hold")
  else (stage, "hold").

(** [current_stage or self.stages[0]] *)
Definition effective_stage (g : RateLimitGuard) (stage : option string) : string :=
  match stage with Some s => if truthy s then s else stage_at g 0 | None => stage_at g 0 end.

Definition poll_interval (g : RateLimitGuard) (stage : string) : float :=
  fmax (fsub (g_poll_interval g) (fmul (of_Z (Z.of_nat (stage_index g stage))) (of_ratio 3 2))) (of_Z 3).

Definition concurrency (tokens poll : float) : res Z :=
  slots ← fdiv (of_Z 60) (fmax poll (of_Z 1));
  if truthy slots then x ← fdiv tokens slots; ftrunc x else Ok 1.

Definition evaluate (g : RateLimitGuard) (provider : string) (rate : float) (current_stage : option string) (allow_promotion : bool)
    (source runbook : option string) : res StageDecision :=
  let '(stage, decision) := decide_stage g rate allow_promotion (effective_stage g current_stage) in
  let tokens := fmin (burst_tokens g) (tokens_per_minute g) in
  let poll := poll_interval g stage in
  n ← concurrency tokens poll;
  Ok (Decision_ provider stage decision tokens rate n poll source runbook).

(** * Worker plans *)

Record WorkerPlan := Plan { w_provider : string; w_stage : string; poll_interval_sec : float; max_workers : Z }.

(** The plan of the guard for a provider. *)
Definition guard_plan (g : RateLimitGuard) (provider : string) (stage : option string) : res WorkerPlan :=
  let stage := effective_stage g stage in
  let poll := poll_interval g stage in
  n ← concurrency (burst_tokens g) poll;
  Ok (Plan provider stage poll n).

Definition truthy_env (value : option string) : bool :=
  match value with Some v => str_in (lower (strip v)) ["1"; "true"; "yes"; "on"] | None => false end.
Definition read_int_env (value : option string) (dflt : Z) : Z :=
  match value with Some v => default dflt (parse_int v) | None => dflt end.

Section spawn.
Context `{Env} {S : Type} `{HasWorld S}.
Variable getenv : string → option string.

Definition capped_event (ts : string) (p : WorkerPlan) (target : Z) (catch_up : bool) (runbook : option string) : pyval := VDict [
  ("timestamp", VStr ts); ("task", VStr "worker_plan_capped"); ("provider", VStr (w_provider p)); ("stage", VStr (w_stage p));
  ("raw_max_workers", VInt (max_workers p)); ("max_workers", VInt (Z.min (max_workers p) target));
  ("target_max_workers", VInt target); ("catch_up_mode", VBool catch_up); ("runbook_ref", vopt_str runbook)].

Definition cap (p : WorkerPlan) (target : Z) : WorkerPlan :=
  Plan (w_provider p) (w_stage p) (poll_interval_sec p) (Z.min (max_workers p) target).

(** [raw] is the plan of a provider before the cap. *)
Definition raw_plan (guard : option RateLimitGuard) (state : list (string * string)) (poll : float) (workers : Z) (provider : string)
    : res WorkerPlan :=
  match guard with
  | Some g => guard_plan g provider (dlookup provider state)
  | None => Ok (Plan provider "stage0" poll workers)
  end.

Fixpoint capped_plans (worklog : string) (target : Z) (catch_up : bool) (runbook : option string) (raw : string → res WorkerPlan)
    (providers : list string) : M S (list WorkerPlan) :=
  match providers with
  | [] => mret []
  | p :: providers =>
      plan ← lift (raw p);
      _ ← when (negb (Z.min (max_workers plan) target =? max_workers plan))
        (ts ← utcnow_iso; append_jsonl worklog (capped_event ts plan target catch_up runbook));
      plans ← capped_plans worklog target catch_up runbook raw providers;
      mret (cap plan target :: plans)
  end.

Definition target_workers (catch_up_mode : option bool) (normal catch_up : option Z) : bool * Z :=
  let mode := match catch_up_mode with Some b => b | None => truthy_env (getenv "TRADECTL_CATCH_UP_MODE") end in
  let normal := match normal with Some n => n | None => read_int_env (getenv "TRADECTL_MAX_WORKERS_NORMAL") 4 end in
  let catch_up := match catch_up with Some n => n | None => read_int_env (getenv "TRADECTL_MAX_WORKERS_CATCH_UP") 6 end in
  (mode, if mode then catch_up else normal).

Definition spawn_provider_workers (providers : list string) (guard : option RateLimitGuard) (state : list (string * string))
    (default_poll : float) (default_workers : Z) (catch_up_mode : option bool) (normal catch_up : option Z) (runbook : option string)
    (worklog : string) : M S (list WorkerPlan) :=
  let '(mode, target) := target_workers catch_up_mode normal catch_up in
  capped_plans worklog target mode runbook (raw_plan guard state default_poll default_workers) (providers or? ["primary"]).
End spawn.

(** * Polling loops *)

Record PlanRun := Run { r_provider : string; r_stage : string; calls : Z; polls : Z; sleep_calls : Z; r_poll : float }.

Section loop.
Context {S : Type}.
Variable sleep : float → M S unit.

(** One poll: up to [slots] callables, from the queue while it has some. *)
Fixpoint poll_once (task : option (M S unit)) (slots : nat) (queue : list (M S unit)) : M S (list (M S unit) * Z) :=
  match slots with
  | O => mret (queue, 0)
  | Datatypes.S slots =>
      match queue, task with
      | job :: queue, _ => _ ← job; '(q, n) ← poll_once task slots queue; mret (q, n + 1)
      | [], Some t => _ ← t; '(q, n) ← poll_once task slots []; mret (q, n + 1)
      | [], None => mret ([], 0)
      end
  end.

Fixpoint poll_loop (plan : WorkerPlan) (task : option (M S unit)) (stop_when_empty : bool) (iterations : nat) (queue : list (M S unit))
    : M S (Z * Z * Z) :=
  match iterations with
  | O => mret (0, 0, 0)
  | Datatypes.S iterations =>
      '(queue, n) ← poll_once task (Z.to_nat (max_workers plan)) queue;
      if stop_when_empty && negb (truthy queue) && match task with None => true | Some _ => false end then mret (n, 1, 0)
      else
        _ ← sleep (poll_interval_sec plan);
        '(c, p, z) ← poll_loop plan task stop_when_empty iterations queue;
        mret (n + c, p + 1, z + 1)
  end.

Definition run_worker_plan (plan : WorkerPlan) (task : option (M S unit)) (queue : list (M S unit)) (iterations : Z)
    (stop_when_empty : bool) : M S PlanRun :=
  '(c, p, z) ← poll_loop plan task stop_when_empty (Z.to_nat iterations) queue;
  mret (Run (w_provider plan) (w_stage plan) c p z (poll_interval_sec plan)).

(** The queue of each provider, and the plans one after the other. *)
Definition provider_queues (queue : list (string * M S unit)) : list (string * list (M S unit)) :=
  fold_left (λ d j, dset j.1 (default [] (dlookup j.1 d) ++ [j.2]) d) queue [].

(** Each plan works on its own copy of the queue of its provider. *)
Fixpoint run_plans (iterations : Z) (stop_when_empty : bool) (queues : list (string * list (M S unit))) (plans : list WorkerPlan)
    : M S (list PlanRun) :=
  match plans with
  | [] => mret []
  | p :: plans =>
      r ← run_worker_plan p None (default [] (dlookup (w_provider p) queues)) iterations stop_when_empty;
      rs ← run_plans iterations stop_when_empty queues plans;
      mret (r :: rs)
  end.

Definition run_fetch_workers (plans : list WorkerPlan) (queue : list (string * M S unit)) (iterations : Z) (stop_when_empty : bool)
    : M S (list PlanRun) := run_plans iterations stop_when_empty (provider_queues queue) plans.
End loop.

(** * The ladder of stages *)

Lemma position_nth l i d : NoDup l → (i < length l)%nat → position (nth i l d) l = Some i.
Proof.
  revert i. induction l as [|x l IH]; intros i Hd Hi; cbn in Hi; [lia|]. apply NoDup_cons in Hd as [Hx Hd]. cbn [position].
  destruct i as [|i]; cbn [nth]; [by rewrite String.eqb_refl|].
  destruct (String.eqb x (nth i l d)) eqn:E; to_props; [|by rewrite (IH i Hd) by lia].
  exfalso. apply Hx. rewrite E. apply list_elem_of_In, nth_In. lia.
Qed.

Lemma stages_nonempty g : (0 < length (stages g))%nat.
Proof. unfold stages, py_or. destruct (g_stages g); cbn; lia. Qed.

Lemma stage_index_at g i : NoDup (stages g) → (i <= last_index g)%nat → stage_index g (stage_at g i) = i.
Proof.
  intros Hd Hi. unfold stage_index, stage_at. rewrite position_nth; [done|done|].
  unfold last_index in Hi. pose proof (stages_nonempty g). lia.
Qed.

(** The stages reached by evaluations at the given rates, one after the other. *)
Fixpoint climb (g : RateLimitGuard) (rates : list float) (stage : string) : string :=
  match rates with [] => stage | r :: rates => climb g rates (decide_stage g r true stage).1 end.

Definition clean (rate : float) : bool := fleb rate (of_dec 1 (-2)).
Definition limited (rate : float) : bool := fgtb rate (of_dec 15 (-3)).

Lemma clean_not_limited r : clean r = true → limited r = false.
Proof.
  intros Hc. apply fltb_asym. by apply (fleb_fltb_trans _ (of_dec 1 (-2))).
Qed.

Lemma clean_step g i r : NoDup (stages g) → (i <= last_index g)%nat → clean r = true →
  (decide_stage g r true (stage_at g i)).1 = stage_at g (Nat.min (i + 1) (last_index g)).
Proof.
  intros Hd Hi Hr. pose proof (clean_not_limited r Hr) as Hl. unfold decide_stage. rewrite stage_index_at by done.
  unfold clean in Hr. unfold limited in Hl. rewrite Hr, Hl. cbn [andb]. destruct (i <? last_index g)%nat eqn:E; to_props; [done|].
  cbn. f_equal. lia.
Qed.

Lemma limited_step g i r : NoDup (stages g) → (i <= last_index g)%nat → limited r = true →
  (decide_stage g r true (stage_at g i)).1 = stage_at g (i - 1).
Proof.
  intros Hd Hi Hr. assert (clean r = false) as Hc by (destruct (clean r) eqn:E; [by rewrite clean_not_limited in Hr|done]).
  unfold decide_stage. rewrite stage_index_at by done. unfold clean in Hc. unfold limited in Hr. rewrite Hr, Hc. cbn [andb].
  destruct (0 <? i)%nat eqn:E; to_props; [done|]. cbn. f_equal. lia.
Qed.

(** Readings move the stage along the ladder: from the [i]-th stage, [n]
    evaluations at 429 rates of at most 1% end [n] stages further, the last stage
    at most, and [n] evaluations at rates above 1.5% end [n] stages back, the
    first one at least. *)
Theorem readings_move_the_stage g i rates : NoDup (stages g) → (i <= last_index g)%nat →
  (Forall clean rates → climb g rates (stage_at g i) = stage_at g (Nat.min (i + length rates) (last_index g))) ∧
  (Forall limited rates → climb g rates (stage_at g i) = stage_at g (i - length rates)).
Proof.
  intros Hd Hi. split; intros Hr; revert i Hi; induction Hr as [|r rates Hr Hrs IH]; intros i Hi; cbn [climb length];
    [f_equal; lia| |f_equal; lia|]; apply Is_true_eq_true in Hr.
  - rewrite clean_step, IH by (done || lia). f_equal. lia.
  - rewrite limited_step, IH by (done || lia). f_equal. lia.
Qed.

(** * Plans and polls *)

(** Every provider gets a plan, in order, and no plan has more workers than the
    target of the mode. *)
Theorem plans_are_capped `{Env} {S : Type} `{HasWorld S} getenv providers guard state poll workers mode normal catch_up runbook worklog
    (s : S) plans s' :
  spawn_provider_workers getenv providers guard state poll workers mode normal catch_up runbook worklog s = (Ok plans, s') →
  w_provider <$> plans = (providers or? ["primary"]) ∧
  Forall (λ p, max_workers p <= (target_workers getenv mode normal catch_up).2 ∧ ∃ raw,
    raw_plan guard state poll workers (w_provider p) = Ok raw ∧ p = cap raw (target_workers getenv mode normal catch_up).2) plans.
Proof.
  unfold spawn_provider_workers. destruct (target_workers _ _ _ _) as [m target]. cbn [snd].
  generalize (providers or? ["primary"])%py as l. intros l. revert s plans s'.
  assert (∀ p raw, raw_plan guard state poll workers p = Ok raw → w_provider raw = p) as Hraw.
  { intros p raw. unfold raw_plan, guard_plan. destruct guard; [|by intros [= <-]]. by intros (n & _ & [= <-])%bind_ok. }
  induction l as [|p l IH]; intros s plans s'; cbn [capped_plans]; [by intros [= <- _]; split; [|constructor]|].
  intros (raw & s1 & [E ->]%lift_Ok & (? & s2 & _ & (ps & s3 & Hps & [= <- _])%bind_Ok)%bind_Ok)%bind_Ok.
  destruct (IH _ _ _ Hps) as [Hp Hf]. split; [cbn; f_equal; [exact (Hraw _ _ E)|exact Hp]|].
  constructor; [|exact Hf]. split; [cbn; lia|]. exists raw. split; [|done]. cbn. by rewrite (Hraw _ _ E).
Qed.

(** The jobs a loop runs before its queue or its polls are used up. *)
Definition budget (iterations workers : Z) : nat := (Z.to_nat iterations * Z.to_nat workers)%nat.

Section loops.
Context {S : Type}.

Definition run_jobs (jobs : list (M S unit)) : M S unit := for_each id jobs.

Lemma run_jobs_app l l' s : run_jobs (l ++ l') s = match run_jobs l s with (Ok _, s') => run_jobs l' s' | (Raise e, s') => (Raise e, s') end.
Proof.
  revert s. induction l as [|j l IH]; intros s; cbn; [done|]. rewrite !bind_run. change (id j s) with (j s). by destruct (j s) as [[]].
Qed.

Lemma poll_once_spec slots queue s :
  poll_once None slots queue s = match run_jobs (take slots queue) s with
    | (Ok _, s') => (Ok (drop slots queue, Z.of_nat (Nat.min slots (length queue))), s')
    | (Raise e, s') => (Raise e, s') end.
Proof.
  revert queue s. induction slots as [|n IH]; intros [|j queue] s; try done. unfold run_jobs in *. cbn [poll_once take drop for_each].
  rewrite !bind_run. change (id j s) with (j s).
  destruct (j s) as [[u|e] s1]; [|done]. rewrite bind_run, IH. destruct (for_each id (take n queue) s1) as [[?|e] s2]; [|done].
  cbn [length]. by rewrite <- Nat.succ_min_distr, Nat2Z.inj_succ.
Qed.

(** A plan runs the jobs of its queue in order, as many as its polls and
    workers allow, and stops at the first one that raises; a plan without workers
    runs none. *)
Theorem plan_runs_queue_in_order (sleep : float → M S unit) plan queue iterations stop s :
  (∀ x s, sleep x s = (Ok tt, s)) →
  match run_worker_plan sleep plan None queue iterations stop s, run_jobs (take (budget iterations (max_workers plan)) queue) s with
  | (Ok r, s1), (Ok _, s2) => s1 = s2 ∧ calls r = Z.of_nat (Nat.min (budget iterations (max_workers plan)) (length queue)) ∧
      0 <= sleep_calls r <= polls r ∧ polls r <= Z.max 0 iterations
  | (Raise e1, s1), (Raise e2, s2) => e1 = e2 ∧ s1 = s2
  | _, _ => False
  end.
Proof.
  intros Hsleep. unfold run_worker_plan, budget. rewrite bind_run. set (w := Z.to_nat (max_workers plan)).
  assert (∀ n queue s, match poll_loop sleep plan None stop n queue s, run_jobs (take (n * w) queue) s with
    | (Ok (c, p, z), s1), (Ok _, s2) => s1 = s2 ∧ c = Z.of_nat (Nat.min (n * w) (length queue)) ∧ 0 <= z <= p ∧ p <= Z.of_nat n
    | (Raise e1, s1), (Raise e2, s2) => e1 = e2 ∧ s1 = s2
    | _, _ => False end) as Hloop.
  { clear - Hsleep. induction n as [|n IH]; intros queue s; cbn [poll_loop]; [by split_and!|]. rewrite bind_run. fold w.
    rewrite poll_once_spec. replace (take (Datatypes.S n * w) queue) with (take w queue ++ take (n * w) (drop w queue))
      by (rewrite take_take_drop; f_equal; lia).
    rewrite run_jobs_app. destruct (run_jobs (take w queue) s) as [[u|e] s1]; [|done].
    assert (length (drop w queue) = length queue - w)%nat as Hl by apply length_drop.
    destruct (stop && _ && _) eqn:Estop; to_props.
    - destruct (drop w queue) eqn:Ed; [|done]. rewrite take_nil. cbn. cbn in Hl. split_and!; [done|lia..].
    - rewrite bind_run, Hsleep, bind_run. specialize (IH (drop w queue) s1). destruct (poll_loop _ _ _ _ _ _ s1) as [[[[c p] z]|e] s2];
        destruct (run_jobs _ s1) as [[?|?] s3]; try done. destruct IH as (-> & -> & Hz & Hp). rewrite Hl. split_and!; [done|lia..]. }
  specialize (Hloop (Z.to_nat iterations) queue s).
  destruct (poll_loop _ _ _ _ _ _ s) as [[[[c p] z]|e] s1]; destruct (run_jobs _ s) as [[?|?] s2]; try done.
  destruct Hloop as (-> & -> & Hz & Hp). cbn. split_and!; [done|done|lia..].
Qed.
End loops.

(** * Runs *)

Definition sample_guard (burst : Z) : RateLimitGuard := Guard (of_Z 30) (of_Z burst) (of_Z 10) ["stage0"; "stage1"; "stage2"].

Lemma readings_move_the_stage_witness :
  climb (sample_guard 60) [fzero; fzero; fzero] "stage0" = "stage2" ∧ climb (sample_guard 60) [of_Z 1] "stage2" = "stage1".
Proof.
  assert (NoDup (stages (sample_guard 60))) as Hd by by apply (bool_decide_unpack _).
  split.
  - apply (readings_move_the_stage (sample_guard 60) 0 [fzero; fzero; fzero] Hd); [vm_compute; lia|]. repeat constructor.
  - apply (readings_move_the_stage (sample_guard 60) 2 [of_Z 1] Hd); [vm_compute; lia|]. repeat constructor.
Defined.

Lemma plans_are_capped_witness :
  ["primary"; "backup"] = ["primary"; "backup"] ∧ Forall (λ p, max_workers p <= 4 ∧ ∃ raw,
    raw_plan (Some (sample_guard 60)) [] (of_Z 15) 4 (w_provider p) = Ok raw ∧ p = cap raw 4)
    [Plan "primary" "stage0" (of_Z 10) 4; Plan "backup" "stage0" (of_Z 10) 4].
Proof.
  refine (plans_are_capped (H:=sample_env) (S:=world) (λ _, None) ["primary"; "backup"] (Some (sample_guard 60)) [] (of_Z 15) 4 None None None
    None "ops_worklog.jsonl" world0 [Plan "primary" "stage0" (of_Z 10) 4; Plan "backup" "stage0" (of_Z 10) 4] _ _).
  vm_compute. reflexivity.
Defined.

Definition job (n : Z) : M (list Z) unit := modify (λ l, l ++ [n]).
Definition two_workers : WorkerPlan := Plan "primary" "stage0" (of_Z 10) 2.

Lemma plan_runs_queue_in_order_witness :
  match run_worker_plan (λ _, mret tt) two_workers None [job 1; job 2; job 3] 1 true [] with
  | (Ok r, l) => l = [1; 2] ∧ calls r = 2 ∧ 0 <= sleep_calls r <= polls r ∧ polls r <= 1
  | _ => False
  end.
Proof.
  exact (plan_runs_queue_in_order (λ _, mret tt) two_workers [job 1; job 2; job 3] 1 true [] (λ _ _, eq_refl)).
Defined.

(** A bucket of five tokens gives no worker at an interval of ten seconds: the
    tokens are fewer than the polls of a minute. *)
Example few_tokens_no_worker : guard_plan (Guard (of_Z 30) (of_Z 5) (of_Z 10) []) "primary" None = Ok (Plan "primary" "stage0" (of_Z 10) 0).
Proof. vm_compute. reflexivity. Qed.
