(* ===== verification/Backfill.v ===== *)
(** The backfill of [src/data/service.py]: a range of time is cut into chunks,
    the providers are tried in order for each of them, each as often as its
    retry budget allows, and the bars are collected by symbol. *)

From S2P Require Import Prelude PyFloat PyVal PyEnv Calendar Spread Health DataQuality DataService.

Local Open Scope Z_scope.
Local Open Scope py_scope.

(** * The accumulated result *)

Definition note_flag (symbol : string) (flag : Z) (a : BackfillAcc) : BackfillAcc :=
  Acc (bars_by_symbol a) (dset symbol (Z.max (default 0 (dlookup symbol (quality_flags a))) flag) (quality_flags a))
    (served_by a) (total_retries a).

(** [frames_by_symbol.setdefault(frame.symbol, []).extend(frame.bars)] and the
    flag of the frame. *)
Definition add_frame (a : BackfillAcc) (f : MarketFrame) : BackfillAcc :=
  note_flag (f_symbol f) (f_flag f)
    (Acc (dset (f_symbol f) (default [] (dlookup (f_symbol f) (bars_by_symbol a)) ++ bars f) (bars_by_symbol a))
      (quality_flags a) (served_by a) (total_retries a)).

Definition serve (provider : string) (a : BackfillAcc) : BackfillAcc :=
  Acc (bars_by_symbol a) (quality_flags a) (Some provider) (total_retries a).
Definition count_retry (a : BackfillAcc) : BackfillAcc :=
  Acc (bars_by_symbol a) (quality_flags a) (served_by a) (total_retries a + 1).

Definition on_acc (f : BackfillAcc → BackfillAcc) : M Ingestion unit := modify (λ s, set_acc (f (acc s)) s).

(** [max(quality_flags.values(), default=0)] *)
Definition worst_flag (a : BackfillAcc) : Z :=
  match (quality_flags a).*2 with [] => 0 | x :: l => fold_left Z.max l x end.

(** [except (ProviderError, DataQualityError)] *)
Definition is_ingestion_error (e : exn) : bool :=
  match e with ProviderError _ | DataQualityError _ _ => true | _ => false end.

Definition ms_of (sec : float) : float := fmul sec (of_Z 1000).

Section backfill.
Context `{Env}.
Variable perf_at : nat → float.
Variable o : Options.

(** ** One attempt *)

(** What an attempt works for. *)
Record Job := MkJob { j_provider : string; j_symbols : list string; j_timeframe : string; j_chunk_end : datetime;
  j_warn : float; j_breach : float }.

Definition log_success (j : Job) (r : ProviderResult) (frames : list MarketFrame) (lat : float * float) (delay_sec : float)
    : M Ingestion unit :=
  last_ts ← lift (extract_last_bar_timestamp frames);
  gap ← lift (compute_bar_gap_minutes (j_chunk_end j) last_ts);
  _ ← maybe_raise_data_latency o delay_sec gap (j_provider j) (j_symbols j);
  s ← get;
  log_sla_entry o (Sla (j_provider j) (j_timeframe j) (j_symbols j) None "backfill" lat.1 lat.2 (bar_count frames)
    (compute_latency_status lat.1 (j_warn j) (j_breach j)) (rate_limit_ratio r) (Some (worst_flag (acc s)))
    (iso_seconds <$> last_ts) gap (Some delay_sec)).

(** A buffered item up to the collection of its bars: validation, the delays and
    the logs. *)
Definition check_and_log (j : Job) (item : BufferItem) (r : ProviderResult) (elapsed : float) : M Ingestion (list MarketFrame) :=
  let delay_sec := fmax (total_seconds (enqueue_ts item) (request_ts item)) fzero in
  start ← perf_counter perf_at;
  frames ← check_quality o (λ symbol flag, on_acc (note_flag symbol flag)) (frames r);
  _ ← elapsed_ms perf_at start;
  now ← now_utc;
  let processing_ms := fmax (ms_of (total_seconds now (enqueue_ts item))) fzero in
  _ ← pop_buffer;
  lat ← logged_latency r (j_provider j) (j_symbols j) (j_timeframe j) elapsed (bar_count frames) "backfill";
  _ ← log_success j r frames lat delay_sec;
  _ ← for_each (λ f, log_processing_delay o (j_provider j) (j_timeframe j) (f_symbol f) (Z.of_nat (length (bars f))) processing_ms)
    frames;
  mret frames.

Definition process (j : Job) (item : BufferItem) (r : ProviderResult) (elapsed : float) : M Ingestion unit :=
  frames ← check_and_log j item r elapsed;
  on_acc (λ a, serve (j_provider j) (fold_left add_frame frames a)).

Definition fetch (j : Job) (handler : option (nat → answer)) (request_ts : datetime) (start : float)
    : M Ingestion (ProviderResult * float * BufferItem) :=
  r ← invoke_provider (j_provider j) (j_symbols j) (j_timeframe j) handler;
  elapsed ← elapsed_ms perf_at start;
  item ← enqueue (j_provider j) (j_symbols j) (j_timeframe j) request_ts (frames r);
  mret (r, elapsed, item).

(** Whether an item is buffered when an exception is handled, the start of the
    fetch, and how the attempt ends. *)
Definition run_attempt (j : Job) (handler : option (nat → answer)) : M Ingestion (bool * float * res unit) :=
  request_ts ← now_utc;
  start ← perf_counter perf_at;
  a ← attempt (fetch j handler request_ts start);
  match a with
  | Raise e => mret (false, start, Raise e)
  | Ok (r, elapsed, item) => out ← attempt (process j item r elapsed); mret (true, start, out)
  end.

(** The handler of a failed attempt. *)
Definition on_failure (j : Job) (buffered : bool) (start : float) (e : exn) : M Ingestion unit :=
  _ ← on_acc count_retry;
  elapsed ← elapsed_ms perf_at start;
  _ ← when buffered pop_buffer;
  _ ← when_collector (observe (j_provider j) (j_symbols j) (j_timeframe j) elapsed 0 "backfill" false);
  _ ← (match e with
    | DataQualityError _ flag => for_each (λ symbol, on_acc (note_flag symbol flag)) (j_symbols j)
    | _ => mret tt
    end);
  s ← get;
  log_sla_entry o (Sla (j_provider j) (j_timeframe j) (j_symbols j) None "backfill" fzero fzero 0 "error" fzero
    (Some (worst_flag (acc s))) None None None).

Definition retry_delay (backoff : float) (attempt_no : nat) : float :=
  let delay_ms := match attempt_no with 1%nat => backoff | _ => fmul backoff (of_Z 2) end in
  fmax (fdiv_ieee delay_ms (of_Z 1000)) fzero.

(** [while retry_budget >= 0]: [more] further attempts are allowed. *)
Fixpoint try_provider (j : Job) (handler : option (nat → answer)) (backoff : float) (more attempt_no : nat) : M Ingestion bool :=
  match more with
  | O => mret false
  | S more =>
      '(buffered, start, out) ← run_attempt j handler;
      match out with
      | Ok _ => mret true
      | Raise e =>
          if is_ingestion_error e then
            _ ← on_failure j buffered start e;
            match more with
            | O => mret false
            | S _ => _ ← modify (add_sleep (retry_delay backoff (S attempt_no))); try_provider j handler backoff more (S attempt_no)
            end
          else _ ← when buffered pop_buffer; mret false
      end
  end.

(** The attempts a retry budget allows. *)
Definition attempts_of (budget : Z) : nat := Z.to_nat (budget + 1).

Definition retry_settings (provider : string) : res (Z * float) :=
  resolve_retry_settings provider (provider_profiles o) (retries o) (backoff_ms o).

(** ** A chunk and a range *)

Fixpoint try_providers (hs : handlers) (symbols : list string) (timeframe : string) (chunk_end : datetime) (providers : list string)
    : M Ingestion bool :=
  match providers with
  | [] => mret false
  | p :: providers =>
      '(budget, backoff) ← lift (retry_settings p);
      let '(warn, breach) := default (warn_ms o, breach_ms o) (dlookup p (sla_thresholds o)) in
      ok ← try_provider (MkJob p symbols timeframe chunk_end warn breach) (dlookup p hs) backoff (attempts_of budget) 0;
      if ok : bool then mret true else try_providers hs symbols timeframe chunk_end providers
  end.

(** [handler_map = provider_handlers or build_provider_handlers(...)] *)
Definition handler_map (build_handlers : string → string → handlers) (given : handlers) (chunk : datetime * datetime) : handlers :=
  if truthy given then given else build_handlers (iso_seconds chunk.1) (iso_seconds chunk.2).

Fixpoint fill_chunks (build_handlers : string → string → handlers) (given : handlers) (symbols : list string) (timeframe : string)
    (providers : list string) (chunks : list (datetime * datetime)) : M Ingestion unit :=
  match chunks with
  | [] => mret tt
  | c :: chunks =>
      ok ← try_providers (handler_map build_handlers given c) symbols timeframe c.2 providers;
      if ok : bool then fill_chunks build_handlers given symbols timeframe providers chunks
      else raise (OtherError "BackfillFailedError" ("backfill failed for " +:+ isoformat c.1 +:+ ".." +:+ isoformat c.2))
  end.

Definition frames_of (symbols : list string) (timeframe : string) (a : BackfillAcc) : list MarketFrame :=
  map (λ s, Frame s timeframe (default [] (dlookup s (bars_by_symbol a))) (default 0 (dlookup s (quality_flags a)))) symbols.

Definition finish (symbols : list string) (timeframe : string) (priority : option string) : M Ingestion BackfillResult :=
  s ← get;
  let used := if truthy (served_by (acc s)) then served_by (acc s) else priority in
  let frames := frames_of symbols timeframe (acc s) in
  _ ← append_bar_ready o frames ("backfill:" +:+ (if truthy used then default "" used else "unknown"));
  mret (BackfillOk frames used (total_retries (acc s)) "ok").

(** The range that was asked for. *)
Definition backfill_range (start end_ : string) : res (datetime * datetime) :=
  match parse_bar_timestamp (VStr start), parse_bar_timestamp (VStr end_) with
  | Some s, Some e =>
      if utc_us e <=? utc_us s then Raise (OtherError "BackfillRangeError" "backfill end must be after start") else Ok (s, e)
  | _, _ => Raise (OtherError "BackfillRangeError" "backfill range must be valid ISO timestamps")
  end.

(** [buffer_coordinator or DEFAULT_BUFFER_COORDINATOR]: a coordinator has a
    length, so an empty one counts as none. *)
Definition buffer_in_use (given : option BufferCoordinator) (dflt : BufferCoordinator) : BufferCoordinator :=
  match given with Some b => if truthy (items b) then b else dflt | None => dflt end.

(** The buffer of the state is the default coordinator at the start and the one
    in use afterwards.  [priorities_doc] and [config_doc] are
    the documents of the configuration, the profiles of [o] are those given or read. *)
Definition backfill (build_handlers : string → string → handlers) (priorities_doc config_doc : document) (symbols : list string)
    (timeframe start end_ : string) (priority : option string) (provider_priority : list string) (given : handlers) (given_buffer : option BufferCoordinator)
    (chunk_hours : Z) : M Ingestion BackfillResult :=
  '(start, end_) ← lift (backfill_range start end_);
  _ ← modify (λ s, set_buffer (buffer_in_use given_buffer (buffer s)) s);
  priorities ← lift (load_ingestion_priorities priorities_doc);
  symbols ← lift (order_symbols_by_priority symbols timeframe priorities);
  config ← lift (if truthy provider_priority then Ok [] else load_provider_priority config_doc);
  providers ← lift (resolve_provider_priority symbols provider_priority config);
  _ ← on_acc (λ _, acc0);
  let '(chunks, ending) := chunk_backfill_ranges start end_ chunk_hours in
  _ ← fill_chunks build_handlers given symbols timeframe providers chunks;
  _ ← (match ending with Some e => raise e | None => mret tt end);
  finish symbols timeframe priority.
End backfill.

(** * The chunks tile the range *)

(** [tiles a l b]: the intervals of [l] follow each other from [a] to [b]. *)
Inductive tiles : datetime → list (datetime * datetime) → datetime → Prop :=
  | tiles_nil a : tiles a [] a
  | tiles_cons a b c l : utc_us a < utc_us b → tiles b l c → tiles a ((a, b) :: l) c.

Definition fits (step : Z) (c : datetime * datetime) : Prop := utc_us c.2 - utc_us c.1 <= step.

(** How the generator ends: at the end of the range, or at the end of the calendar. *)
Definition ended (start end_ : datetime) (step : Z) (out : list (datetime * datetime) * option exn) : Prop :=
  ∃ m, tiles start out.1 m ∧ Forall (fits step) out.1 ∧
    match out.2 with None => m = end_ | Some e => dt_add m step = Raise e ∧ utc_us m < utc_us end_ end.

Lemma chunks_from_tile fuel cursor end_ step :
  0 < step → (1 <= fuel)%nat → utc_us end_ - utc_us cursor <= (Z.of_nat fuel - 1) * step →
  (utc_us end_ <= utc_us cursor → cursor = end_) → ended cursor end_ step (chunks_from fuel cursor end_ step).
Proof.
  intros Hstep. revert cursor. induction fuel as [|fuel IH]; intros cursor Hf Hfuel Hend; [lia|]. cbn [chunks_from].
  destruct (utc_us cursor <? utc_us end_) eqn:Elt; to_props.
  2: { exists cursor. cbn. split_and!; [constructor|constructor|exact (Hend Elt)]. }
  destruct (dt_add cursor step) as [t|e] eqn:Et.
  2: { exists cursor. cbn. split_and!; [constructor|constructor|exact Et|exact Elt]. }
  apply dt_add_Ok in Et as [Et _].
  replace (Z.of_nat (S fuel) - 1) with (Z.of_nat fuel) in Hfuel by lia.
  assert (1 <= Z.of_nat fuel) as Hn by nia.
  assert (utc_us cursor < utc_us (dt_min end_ t) <= utc_us cursor + step ∧
    utc_us end_ - utc_us (dt_min end_ t) <= (Z.of_nat fuel - 1) * step ∧
    (utc_us end_ <= utc_us (dt_min end_ t) → dt_min end_ t = end_)) as (Hb & Hm & He).
  { unfold dt_min. destruct (utc_us t <? utc_us end_) eqn:E; to_props; split_and!; lia || nia || done. }
  destruct (utc_us (dt_min end_ t) <=? utc_us cursor) eqn:Ele; to_props; [lia|].
  destruct (IH (dt_min end_ t)) as (m & Ht & Hfit & Hlast); [lia|exact Hm|exact He|].
  destruct (chunks_from fuel (dt_min end_ t) end_ step) as [l e].
  exists m. cbn. split_and!; [constructor; [lia|exact Ht]|constructor; [unfold fits; cbn; lia|exact Hfit]|exact Hlast].
Qed.

(** The chunks of a backfill cover the asked range exactly: they start at its
    start, each begins where the one before ends, none is longer than
    [chunk_hours], and the last one ends at the end of the range, unless the
    calendar ends first and the addition raises there. *)
Theorem chunks_tile_range start end_ chunk_hours :
  0 < chunk_hours → utc_us start < utc_us end_ →
  ended start end_ (hours_us chunk_hours) (chunk_backfill_ranges start end_ chunk_hours).
Proof.
  intros Hh Hlt. unfold chunk_backfill_ranges. destruct (chunk_hours <=? 0) eqn:E; to_props; [lia|].
  assert (0 < hours_us chunk_hours) as Hs by (unfold hours_us; lia).
  pose proof (Z.div_mod (utc_us end_ - utc_us start) (hours_us chunk_hours)) as Hd.
  pose proof (Z.mod_pos_bound (utc_us end_ - utc_us start) (hours_us chunk_hours) Hs) as Hm.
  pose proof (Z.div_pos (utc_us end_ - utc_us start) (hours_us chunk_hours)) as Hp.
  apply chunks_from_tile; [exact Hs|lia| |lia]. rewrite Z2Nat.id by lia. nia.
Qed.

Definition at_hour (d h : Z) : datetime := DateTime 2025 1 d h 30 0 0 (Some 0).

Lemma chunks_tile_range_witness :
  ended (at_hour 6 9) (at_hour 7 4) (hours_us 6) (chunk_backfill_ranges (at_hour 6 9) (at_hour 7 4) 6).
Proof. apply (chunks_tile_range (at_hour 6 9) (at_hour 7 4) 6); vm_compute; reflexivity. Defined.

Example four_chunks :
  chunk_backfill_ranges (at_hour 6 9) (at_hour 7 4) 6 =
  ([(at_hour 6 9, at_hour 6 15); (at_hour 6 15, at_hour 6 21); (at_hour 6 21, at_hour 7 3); (at_hour 7 3, at_hour 7 4)], None).
Proof. reflexivity. Qed.

(** * The bars of a list of frames *)

Definition add_bars (m : list (string * list pyval)) (f : MarketFrame) : list (string * list pyval) :=
  dset (f_symbol f) (default [] (dlookup (f_symbol f) m) ++ bars f) m.

Definition bars_of (symbol : string) (l : list MarketFrame) : list pyval :=
  concat (map (λ f, if String.eqb (f_symbol f) symbol then bars f else []) l).

Lemma lookup_add_bars symbol l m :
  default [] (dlookup symbol (fold_left add_bars l m)) = default [] (dlookup symbol m) ++ bars_of symbol l.
Proof.
  revert m. induction l as [|f l IH]; intros m; cbn [fold_left]; [by rewrite app_nil_r|]. rewrite IH. unfold bars_of, add_bars. cbn.
  destruct (String.eqb (f_symbol f) symbol) eqn:E; to_props.
  - rewrite E, dlookup_dset_eq. cbn. by rewrite <- (assoc_L (++)).
  - by rewrite dlookup_dset_ne.
Qed.

(** Frames that carry the same bars. *)
Definition content (f : MarketFrame) : string * list pyval := (f_symbol f, bars f).

Lemma add_bars_content l l' m : map content l = map content l' → fold_left add_bars l m = fold_left add_bars l' m.
Proof.
  revert l' m. induction l as [|f l IH]; intros [|f' l'] m E; try done. cbn in E. injection E as E1 E2 E. cbn.
  unfold add_bars at 2 4. rewrite E1, E2. by apply IH.
Qed.

Lemma collected l a : bars_by_symbol (fold_left add_frame l a) = fold_left add_bars l (bars_by_symbol a).
Proof. revert a. induction l as [|f l IH]; intros a; cbn; [done|]. by rewrite IH. Qed.

Lemma collected_keeps l a : total_retries (fold_left add_frame l a) = total_retries a.
Proof. revert a. induction l as [|f l IH]; intros a; cbn; [done|]. by rewrite IH. Qed.

(** * What an attempt changes *)

(** The result that an answer stands for. *)
Definition result_of (provider : string) (a : answer) : res ProviderResult :=
  match a with
  | AResult r => Ok r
  | AFrames l => Ok (plain_result l)
  | AOther => Raise (ProviderError ("provider " +:+ provider +:+ " returned unsupported payload"))
  | ARaise msg => Raise (ProviderError ("provider " +:+ provider +:+ " failed: " +:+ msg))
  end.

(** What the fetch loop counts and collects, flags and buffer apart. *)
Definition tally (s : Ingestion) : list (string * list pyval) * option string * Z * nat * list float :=
  (bars_by_symbol (acc s), served_by (acc s), total_retries (acc s), invocations s, slept s).

Definition keeps {A} (m : M Ingestion A) : Prop := ∀ v, preserves (λ s, tally s = v) m.

Lemma keeps_silent {A} (m : M Ingestion A) : silent m → keeps m.
Proof.
  intros Hm v s <-. pose proof (silent_run m s Hm) as E. unfold tally. unfold view in E. by injection E as _ -> -> ->.
Qed.
Lemma keeps_bind {A B} (m : M Ingestion A) (f : A → M Ingestion B) : keeps m → (∀ a, keeps (f a)) → keeps (m ≫= f).
Proof. intros Hm Hf v. apply preserves_bind; [apply Hm|intros a; apply Hf]. Qed.
Lemma keeps_modify f : (∀ s, tally (f s) = tally s) → keeps (modify f).
Proof. intros Hf v s <-. apply Hf. Qed.
Lemma keeps_attempt {A} (m : M Ingestion A) : keeps m → keeps (attempt m).
Proof. intros Hm v s Hs. by apply (Hm v). Qed.
Lemma keeps_for_each {A} (f : A → M Ingestion unit) l : (∀ a, keeps (f a)) → keeps (for_each f l).
Proof. intros Hf v. apply preserves_for_each. intros a. apply Hf. Qed.
Lemma keeps_run {A} (m : M Ingestion A) s a s' : keeps m → m s = (a, s') → tally s' = tally s.
Proof. intros Hm E. pose proof (Hm (tally s) s eq_refl) as H. by rewrite E in H. Qed.

Lemma keeps_pop : keeps pop_buffer.
Proof. apply keeps_modify. by intros []. Qed.
Lemma keeps_note symbol flag : keeps (on_acc (note_flag symbol flag)).
Proof. apply keeps_modify. by intros []. Qed.

Create HintDb tally discriminated.
#[export] Hint Resolve keeps_bind keeps_attempt keeps_for_each keeps_pop keeps_note : tally.

Ltac keep :=
  repeat (first
    [ assumption
    | solve [eauto with tally nocore]
    | solve [apply keeps_silent; silents]
    | apply keeps_bind; [|intros ?]
    | apply keeps_for_each; intros ?
    | match goal with |- keeps (match ?x with _ => _ end) => destruct x eqn:? end ]).

Section attempts.
Context `{Env}.
Variable perf_at : nat → float.
Variable o : Options.

Lemma keeps_validate_frames g l : keeps (validate_frames g (λ symbol flag, on_acc (note_flag symbol flag)) l).
Proof.
  induction l as [|f l IH]; cbn [validate_frames]; [keep|]. apply keeps_bind; [keep|]. intros [q f']. keep.
Qed.
Lemma keeps_check_quality l : keeps (check_quality o (λ symbol flag, on_acc (note_flag symbol flag)) l).
Proof. unfold check_quality. destruct (quality_guard o); [apply keeps_validate_frames|keep]. Qed.
Lemma keeps_log_success j r l lat d : keeps (log_success o j r l lat d).
Proof. unfold log_success. keep. Qed.
Hint Resolve keeps_check_quality keeps_log_success : tally.
Lemma keeps_check_and_log j i r x : keeps (check_and_log perf_at o j i r x).
Proof. unfold check_and_log. keep. Qed.
Lemma keeps_enqueue p ss t d l : keeps (enqueue p ss t d l).
Proof. unfold enqueue. keep. Qed.

Lemma validated_content g note l s l' s' : validate_frames g note l s = (Ok l', s') → map content l' = map content l.
Proof.
  revert s l'. induction l as [|f l IH]; intros s l'; cbn [validate_frames]; [by intros [= <-]|].
  intros ([q f'] & s1 & E & (? & s2 & _ & E2)%bind_Ok)%bind_Ok. destruct (str_in _ _); [done|].
  apply bind_Ok in E2 as (l1 & s3 & E3 & [= <- <-]). cbn. rewrite (IH _ _ E3). f_equal.
  rewrite zoom_run in E. unfold validate in E. rewrite bind_run in E.
  destruct (lift _ _) as [[r|] t] in E; cbn in E; [|done]. by injection E as _ <- _.
Qed.

Lemma checked_content note l s l' s' : check_quality o note l s = (Ok l', s') → map content l' = map content l.
Proof. unfold check_quality. destruct (quality_guard o); [apply validated_content|by intros [= ->]]. Qed.

Lemma check_and_log_content j i r x s l s' : check_and_log perf_at o j i r x s = (Ok l, s') → map content l = map content (frames r).
Proof.
  intros (? & s1 & _ & (l' & s2 & E%checked_content & (? & s3 & _ & (? & s4 & _ & (? & s5 & _ & (? & s6 & _ &
    (? & s7 & _ & (? & s8 & _ & [= <- _])%bind_Ok)%bind_Ok)%bind_Ok)%bind_Ok)%bind_Ok)%bind_Ok)%bind_Ok)%bind_Ok. exact E.
Qed.

(** An answered fetch. *)
Lemma invoke_run p ss t h s : invoke_provider p ss t (Some h) s = (result_of p (h (invocations s)), count_invocation s).
Proof. unfold invoke_provider. rewrite !bind_run. cbn. by destruct (h _). Qed.

(** The counters and bars after an attempt that had the result [r]. *)
Definition gained (provider : string) (r : ProviderResult) (s s' : Ingestion) : Prop :=
  tally s' = (fold_left add_bars (frames r) (bars_by_symbol (acc s)), Some provider, total_retries (acc s), invocations s, slept s).

Lemma process_spec j i r x s out s' : process perf_at o j i r x s = (out, s') →
  match out with Ok _ => gained (j_provider j) r s s' | Raise _ => tally s' = tally s end.
Proof.
  unfold process. rewrite bind_run. destruct (check_and_log _ _ _ _ _ _ s) as [[l|e] s1] eqn:E.
  - intros [= <- <-]. pose proof (keeps_run _ _ _ _ (keeps_check_and_log _ _ _ _) E) as Ek.
    apply check_and_log_content in E. unfold gained. unfold tally in *. cbn. injection Ek as <- _ <- <- <-.
    by rewrite collected, collected_keeps, (add_bars_content _ _ _ E).
  - intros [= <- <-]. exact (keeps_run _ _ _ _ (keeps_check_and_log _ _ _ _) E).
Qed.

(** [r] is what the provider gives at the invocation [i]. *)
Definition answered (p : string) (symbols : list string) (h : option (nat → answer)) (i : nat) (r : ProviderResult) : Prop :=
  match h with Some h => result_of p (h i) = Ok r | None => map f_symbol (frames r) = symbols end.

(** The state once the provider was asked. *)
Definition asked (h : option (nat → answer)) (s : Ingestion) : Ingestion := match h with Some _ => count_invocation s | None => s end.

Lemma default_frames_run ss t s : ∃ l s', default_frames ss t s = (Ok l, s') ∧ map f_symbol l = ss.
Proof.
  revert s. induction ss as [|x ss IH]; intros s; cbn [default_frames]; [by eexists _, _|].
  rewrite bind_run. destruct (total_utcnow_iso s) as (ts & s1 & ->). rewrite bind_run.
  destruct (IH s1) as (l & s2 & -> & <-). by eexists _, _.
Qed.

Lemma invoke_spec p ss t h s : ∃ a s', invoke_provider p ss t h s = (a, s') ∧ tally s' = tally (asked h s) ∧
  match a with Ok r => answered p ss h (invocations s) r | Raise e => ∃ f, h = Some f ∧ result_of p (f (invocations s)) = Raise e end.
Proof.
  destruct h as [f|].
  - rewrite invoke_run. eexists _, _. split_and!; [done|done|]. cbn.
    destruct (result_of _ _) eqn:E; [done|by exists f].
  - unfold invoke_provider. rewrite bind_run. destruct (default_frames_run ss t s) as (l & s' & E & Hl). rewrite E.
    eexists _, _. split_and!; [done| |exact Hl]. apply (keeps_run _ _ _ _ (keeps_silent _ (silent_default_frames ss t)) E).
Qed.

Lemma tally_asked h s1 s2 : tally s1 = tally s2 → tally (asked h s1) = tally (asked h s2).
Proof. destruct h; [|done]. unfold tally. cbn. by intros [= -> -> -> -> ->]. Qed.

Lemma tally_eq s1 s2 : tally s1 = tally s2 →
  bars_by_symbol (acc s1) = bars_by_symbol (acc s2) ∧ served_by (acc s1) = served_by (acc s2) ∧
  total_retries (acc s1) = total_retries (acc s2) ∧ invocations s1 = invocations s2 ∧ slept s1 = slept s2.
Proof. unfold tally. by intros [= -> -> -> -> ->]. Qed.

Lemma fetch_spec j h t x s : ∃ a s', fetch perf_at j h t x s = (a, s') ∧ tally s' = tally (asked h s) ∧
  match a with
  | Ok (r, _, _) => answered (j_provider j) (j_symbols j) h (invocations s) r
  | Raise e => True
  end.
Proof.
  unfold fetch. rewrite bind_run. destruct (invoke_spec (j_provider j) (j_symbols j) (j_timeframe j) h s) as ([r|e] & s1 & -> & E1 & Ha).
  2: by eexists _, _.
  destruct (total_elapsed_ms perf_at x s1) as (y & s2 & E2). rewrite bind_run, E2, bind_run.
  apply (keeps_run _ _ _ _ (keeps_silent _ (silent_elapsed_ms _ _))) in E2.
  destruct (enqueue _ _ _ _ _ s2) as [[i|e] s3] eqn:E3; apply (keeps_run _ _ _ _ (keeps_enqueue _ _ _ _ _)) in E3;
    (eexists _, _; split_and!; [done|cbn; congruence|done]).
Qed.

Lemma run_attempt_spec j h s : ∃ b st out s', run_attempt perf_at o j h s = (Ok (b, st, out), s') ∧
  match out with
  | Ok _ => ∃ r, answered (j_provider j) (j_symbols j) h (invocations s) r ∧ gained (j_provider j) r (asked h s) s'
  | Raise _ => tally s' = tally (asked h s)
  end.
Proof.
  unfold run_attempt. rewrite bind_run. destruct (total_now_utc s) as (t0 & s1 & E1). rewrite E1, bind_run.
  destruct (total_perf_counter perf_at s1) as (x & s2 & E2). rewrite E2, bind_run.
  apply (keeps_run _ _ _ _ (keeps_silent _ silent_now)) in E1. apply (keeps_run _ _ _ _ (keeps_silent _ (silent_perf_counter _))) in E2.
  assert (tally s2 = tally s) as E by congruence. clear s1 E1 E2. apply (tally_asked h) in E as Eh.
  destruct (fetch_spec j h t0 x s2) as (a & s3 & E3 & Et & Ha). unfold attempt at 1. rewrite E3. cbn [fst snd].
  destruct a as [[[r y] i]|e]; [|eexists _, _, _, _; split; [done|cbn; congruence]].
  rewrite bind_run. unfold attempt. destruct (process perf_at o j i r y s3) as [out s4] eqn:E4. apply process_spec in E4.
  eexists _, _, _, _. split; [done|]. cbn [fst snd]. destruct out as [[]|e]; [|congruence].
  exists r. apply tally_eq in E as (_ & _ & _ & <- & _). split; [exact Ha|]. unfold gained in *.
  assert (tally s3 = tally (asked h s)) as (E5 & _ & E6 & E7 & E8)%tally_eq by congruence. by rewrite E4, E5, E6, E7, E8.
Qed.

(** A handled failure only counts the retry. *)
Lemma on_failure_run j b st e s : ∃ s', on_failure perf_at o j b st e s = (Ok tt, s') ∧
  tally s' = tally (set_acc (count_retry (acc s)) s).
Proof.
  unfold on_failure. rewrite bind_run. cbn. set (s0 := set_acc _ s).
  assert (∀ (f : unit → M Ingestion unit) m, total m → keeps m → (∀ s1, tally s1 = tally s0 → ∃ s', f tt s1 = (Ok tt, s') ∧ tally s' = tally s0) →
    ∀ s1, tally s1 = tally s0 → ∃ s', (m ≫= f) s1 = (Ok tt, s') ∧ tally s' = tally s0) as Hstep.
  { intros f m Ht Hk Hf s1 E. rewrite bind_run. destruct (Ht s1) as ([] & s2 & E2). rewrite E2. apply Hf.
    apply keeps_run in E2; [congruence|done]. }
  rewrite bind_run. destruct (total_elapsed_ms perf_at st s0) as (x & s1 & E1). rewrite E1.
  apply (keeps_run _ _ _ _ (keeps_silent _ (silent_elapsed_ms _ _))) in E1. revert s1 E1.
  apply Hstep; [destruct b; [apply total_modify|apply total_ret]|destruct b; keep|].
  apply Hstep; [apply total_when_collector, total_observe|keep|].
  apply Hstep; [|destruct e; keep|].
  { destruct e; try apply total_ret. clear. induction (j_symbols j) as [|y l IH]; cbn [for_each]; [apply total_ret|].
    apply total_bind; [apply total_modify|done]. }
  intros s1 E. rewrite bind_run. cbn. destruct (total_log_sla_entry o (Sla (j_provider j) (j_timeframe j) (j_symbols j) None "backfill"
    fzero fzero 0 "error" fzero (Some (worst_flag (acc s1))) None None None) s1) as ([] & s2 & E2).
  rewrite E2. exists s2. split; [done|]. apply keeps_run in E2; [congruence|keep].
Qed.

(** How a provider serves: it answers at the last invocation, the ones before
    were retries. *)
Lemma try_provider_spec j h backoff more k s : ∃ ok s', try_provider perf_at o j h backoff more k s = (Ok ok, s') ∧
  (invocations s <= invocations s' <= invocations s + more)%nat ∧
  if ok : bool then ∃ r i, answered (j_provider j) (j_symbols j) h i r ∧
    bars_by_symbol (acc s') = fold_left add_bars (frames r) (bars_by_symbol (acc s)) ∧ served_by (acc s') = Some (j_provider j)
  else bars_by_symbol (acc s') = bars_by_symbol (acc s) ∧ served_by (acc s') = served_by (acc s).
Proof.
  revert k s. induction more as [|more IH]; intros k s; cbn [try_provider]; [by eexists _, _; split_and!; [done|lia..|done]|].
  rewrite bind_run. destruct (run_attempt_spec j h s) as (b & st & out & s1 & E & Ho). rewrite E.
  assert (invocations s <= invocations (asked h s) <= S (invocations s))%nat as Hi by (destruct h; cbn; lia).
  destruct out as [[]|e].
  { destruct Ho as (r & Ha & Hg). unfold gained, tally in Hg. injection Hg as Hb Hs Ht Hn _. eexists _, _. split_and!; [done|lia..|].
    exists r, (invocations s). by destruct h. }
  apply tally_eq in Ho as (Hb & Hs & _ & Hn & _).
  assert (bars_by_symbol (acc (asked h s)) = bars_by_symbol (acc s) ∧ served_by (acc (asked h s)) = served_by (acc s)) as [Hb0 Hs0]
    by by destruct h.
  destruct (is_ingestion_error e).
  2: { rewrite bind_run. destruct b; cbn; exists false; eexists; (split_and!; [done|cbn; lia..|cbn; congruence|cbn; congruence]). }
  rewrite bind_run. destruct (on_failure_run j b st e s1) as (s2 & E2 & (Hb2 & Hs2 & _ & Hn2 & _)%tally_eq). rewrite E2.
  cbn in Hb2, Hs2, Hn2. destruct more as [|more].
  { exists false, s2. split_and!; [done|lia..|congruence|congruence]. }
  rewrite bind_run. cbn [modify].
  destruct (IH (S k) (add_sleep (retry_delay backoff (S k)) s2)) as (ok & s3 & E3 & Hn3 & H3). rewrite E3. cbn in Hn3, H3.
  exists ok, s3. split_and!; [done|lia..|]. destruct ok.
  - destruct H3 as (r & i & Ha & -> & ->). exists r, i. split_and!; [done|congruence|done].
  - destruct H3 as [-> ->]. split; congruence.
Qed.

Ltac pairs := repeat match goal with |- (_, _) = (_, _) => apply pair_equal_spec; split end.

Lemma refused_attempt j h s e : result_of (j_provider j) (h (invocations s)) = Raise e →
  ∃ st s', run_attempt perf_at o j (Some h) s = (Ok (false, st, Raise e), s') ∧ tally s' = tally (count_invocation s).
Proof.
  intros He. unfold run_attempt. rewrite bind_run. destruct (total_now_utc s) as (t0 & s1 & E1). rewrite E1, bind_run.
  destruct (total_perf_counter perf_at s1) as (x & s2 & E2). rewrite E2, bind_run.
  apply (keeps_run _ _ _ _ (keeps_silent _ silent_now)) in E1. apply (keeps_run _ _ _ _ (keeps_silent _ (silent_perf_counter _))) in E2.
  assert (tally s2 = tally s) as E by congruence. apply (tally_asked (Some h)) in E as Et.
  apply tally_eq in E as (_ & _ & _ & Hn & _). unfold attempt at 1, fetch. rewrite bind_run, invoke_run, Hn, He. cbn.
  eexists _, _. split; [done|exact Et].
Qed.

Definition refusing (p : string) (h : nat → answer) : Prop := ∀ i, is_ok (result_of p (h i)) = false.

Lemma refusal_handled p a e : result_of p a = Raise e → is_ingestion_error e = true.
Proof. destruct a; cbn; by intros [= <-]. Qed.

(** The delays between [S n] attempts after the first [k]. *)
Lemma refused_from j h backoff n k s : refusing (j_provider j) h → ∃ s',
  try_provider perf_at o j (Some h) backoff (S n) k s = (Ok false, s') ∧
  tally s' = (bars_by_symbol (acc s), served_by (acc s), total_retries (acc s) + Z.of_nat (S n), (invocations s + S n)%nat,
    slept s ++ map (retry_delay backoff) (seq (S k) n)).
Proof.
  intros Hr. revert k s. induction n as [|n IH]; intros k s; cbn [try_provider]; rewrite bind_run;
    destruct (result_of (j_provider j) (h (invocations s))) as [r|e] eqn:He;
    (by specialize (Hr (invocations s)); rewrite He in Hr) || (
      destruct (refused_attempt j h s e He) as (st & s1 & E1 & Ht1); rewrite E1; cbn [fst snd];
      rewrite (refusal_handled _ _ _ He), bind_run; destruct (on_failure_run j false st e s1) as (s2 & E2 & Ht2); rewrite E2;
      apply tally_eq in Ht1 as (Hb1 & Hs1 & Hr1 & Hn1 & Hl1); apply tally_eq in Ht2 as (Hb2 & Hs2 & Hr2 & Hn2 & Hl2);
      cbn in Hb1, Hs1, Hr1, Hn1, Hl1, Hb2, Hs2, Hr2, Hn2, Hl2).
  - exists s2. split; [done|]. unfold tally. cbn [map seq]. rewrite app_nil_r. pairs; congruence || lia.
  - rewrite bind_run. cbn [modify]. destruct (IH (S k) (add_sleep (retry_delay backoff (S k)) s2)) as (s3 & E3 & Ht3).
    exists s3. split; [exact E3|]. rewrite Ht3. cbn [add_sleep acc invocations slept map seq].
    rewrite <- (assoc_L (++)). cbn [app]. pairs; congruence || lia.
Qed.

Lemma delays_after_first backoff n k :
  map (retry_delay backoff) (seq (S (S k)) n) = repeat (fmax (fdiv_ieee (fmul backoff (of_Z 2)) (of_Z 1000)) fzero) n.
Proof. revert k. induction n as [|n IH]; intros k; cbn [map seq repeat]; [done|]. by rewrite IH. Qed.


(** * Chunks and ranges *)

(** The attempts the configuration allows a provider. *)
Definition allowed (p : string) : nat := match retry_settings o p with Ok (budget, _) => attempts_of budget | Raise _ => 0 end.

Definition gave (build : string → string → handlers) (given : handlers) (symbols providers : list string) (c : datetime * datetime)
    (r : ProviderResult) : Prop :=
  ∃ p i, p ∈ providers ∧ answered p symbols (dlookup p (handler_map build given c)) i r.

Lemma try_providers_spec hs ss tf ce ps s : ∃ out s', try_providers perf_at o hs ss tf ce ps s = (out, s') ∧
  (invocations s' <= invocations s + sum_list (allowed <$> ps))%nat ∧
  match out with
  | Ok true => ∃ p i r, p ∈ ps ∧ answered p ss (dlookup p hs) i r ∧
      bars_by_symbol (acc s') = fold_left add_bars (frames r) (bars_by_symbol (acc s))
  | Ok false => bars_by_symbol (acc s') = bars_by_symbol (acc s)
  | Raise _ => True
  end.
Proof.
  revert s. induction ps as [|p ps IH]; intros s; cbn [try_providers].
  { eexists _, _. split_and!; [done|cbn; lia|done]. }
  rewrite bind_run. unfold lift. destruct (retry_settings o p) as [[budget backoff]|e] eqn:Er;
    [|by eexists _, _; split_and!; [done|lia|]].
  assert (allowed p = attempts_of budget) as Hal by (unfold allowed; by rewrite Er).
  change (sum_list (allowed <$> p :: ps)) with (allowed p + sum_list (allowed <$> ps))%nat.
  destruct (default _ _) as [warn breach]. rewrite bind_run.
  destruct (try_provider_spec (MkJob p ss tf ce warn breach) (dlookup p hs) backoff (attempts_of budget) 0 s)
    as (ok & s1 & E & Hn & Hok). rewrite E. cbn [j_provider j_symbols] in Hok. destruct ok.
  - destruct Hok as (r & i & Ha & Hb & _). exists (Ok true), s1. split_and!; [done|lia|]. exists p, i, r. split_and!; [by left|done|done].
  - destruct Hok as [Hb _]. destruct (IH s1) as (out & s2 & E2 & Hn2 & Hout). rewrite E2. exists out, s2.
    split_and!; [done|lia|]. destruct out as [[]|]; [|congruence|done].
    destruct Hout as (p' & i & r & Hp & Ha & Hb2). exists p', i, r. split_and!; [by right|done|congruence].
Qed.

Lemma fill_chunks_spec build given ss tf ps cs s : ∃ out s', fill_chunks perf_at o build given ss tf ps cs s = (out, s') ∧
  (invocations s' <= invocations s + length cs * sum_list (allowed <$> ps))%nat ∧
  match out with
  | Ok _ => ∃ rs, Forall2 (gave build given ss ps) cs rs ∧
      bars_by_symbol (acc s') = fold_left add_bars (concat (map frames rs)) (bars_by_symbol (acc s))
  | Raise _ => True
  end.
Proof.
  revert s. induction cs as [|c cs IH]; intros s; cbn [fill_chunks].
  { eexists _, _. split_and!; [done|cbn; lia|]. by exists []. }
  rewrite bind_run. destruct (try_providers_spec (handler_map build given c) ss tf c.2 ps s) as (out & s1 & E & Hn & Hout). rewrite E.
  destruct out as [[]|e]; [|by eexists _, _; split_and!; [done|cbn; lia|]..].
  destruct Hout as (p & i & r & Hp & Ha & Hb). destruct (IH s1) as (out & s2 & E2 & Hn2 & Hout). rewrite E2. exists out, s2.
  split_and!; [done|cbn; lia|]. destruct out as [[]|]; [|done]. destruct Hout as (rs & Hrs & Hb2). exists (r :: rs).
  split; [constructor; [by exists p, i|done]|]. cbn. by rewrite fold_left_app, <- Hb.
Qed.

Lemma order_symbols_perm symbols tf pr l : order_symbols_by_priority symbols tf pr = Ok l → l ≡ₚ symbols.
Proof.
  unfold order_symbols_by_priority. destruct (truthy pr); [|by intros [= ->]].
  intros (w & _ & (x & _ & (keyed & Hk & [= <-])%bind_ok)%bind_ok)%bind_ok.
  rewrite isort_perm. apply mapM_res_Forall2 in Hk. induction Hk as [|a b l l' Hab Hk IH]; [done|]. cbn.
  apply bind_ok in Hab as (v & _ & (y & _ & [= <-])%bind_ok). by rewrite IH.
Qed.

Definition chunks_of (range : datetime * datetime) (chunk_hours : Z) : list (datetime * datetime) :=
  (chunk_backfill_ranges range.1 range.2 chunk_hours).1.

(** A backfill that gets past its configuration. *)
Lemma backfill_run build pd cd symbols tf start end_ pr pp given gb ch s out s' :
  backfill perf_at o build pd cd symbols tf start end_ pr pp given gb ch s = (out, s') →
  (invocations s' = invocations s ∧ is_ok out = false) ∨
  ∃ range ordered providers s1 s2 filled, backfill_range start end_ = Ok range ∧ ordered ≡ₚ symbols ∧
    (truthy pp = true → providers = pp) ∧ invocations s1 = invocations s ∧ bars_by_symbol (acc s1) = [] ∧
    fill_chunks perf_at o build given ordered tf providers (chunks_of range ch) s1 = (filled, s2) ∧
    invocations s' = invocations s2 ∧
    (is_ok out = true → filled = Ok tt ∧ out = Ok (BackfillOk (frames_of ordered tf (acc s2))
      (if truthy (served_by (acc s2)) then served_by (acc s2) else pr) (total_retries (acc s2)) "ok")).
Proof.
  unfold backfill. intros E. rewrite bind_run in E. unfold lift in E at 1.
  destruct (backfill_range start end_) as [[a b]|e] eqn:Er; [|left; by injection E as <- <-].
  rewrite bind_run in E. cbn [modify] in E. rewrite bind_run in E. unfold lift in E at 1.
  destruct (load_ingestion_priorities pd) as [prio|e]; [|left; by injection E as <- <-].
  rewrite bind_run in E. unfold lift in E at 1.
  destruct (order_symbols_by_priority symbols tf prio) as [ordered|e] eqn:Eo; [|left; by injection E as <- <-].
  rewrite bind_run in E. unfold lift in E at 1.
  destruct (if truthy pp then Ok [] else load_provider_priority cd) as [config|e]; [|left; by injection E as <- <-].
  rewrite bind_run in E. unfold lift in E at 1.
  destruct (resolve_provider_priority ordered pp config) as [providers|e] eqn:Ep; [|left; by injection E as <- <-].
  rewrite bind_run in E. cbn [on_acc modify] in E. set (s1 := set_acc acc0 _) in E.
  destruct (chunk_backfill_ranges a b ch) as [cs ending] eqn:Ec. rewrite bind_run in E.
  destruct (fill_chunks _ _ _ _ _ _ _ _ s1) as [filled s2] eqn:Ef. right. exists (a, b), ordered, providers, s1, s2, filled.
  split_and!; [done|by eapply order_symbols_perm| |done|done| |..].
  { intros Ht. unfold resolve_provider_priority in Ep. rewrite Ht in Ep. by injection Ep. }
  { unfold chunks_of. cbn [fst snd]. by rewrite Ec. }
  all: destruct filled as [[]|e]; [|by injection E as <- <-].
  all: rewrite bind_run in E; destruct ending as [e|]; [by injection E as <- <-|].
  all: cbn [mret M_ret] in E; unfold finish in E; rewrite bind_run in E; cbn [get] in E; rewrite bind_run in E;
    destruct (append_bar_ready _ _ _ s2) as [[u|e] s3] eqn:E3;
    apply (keeps_run _ _ _ _ (keeps_silent _ (silent_append_bar_ready _ _ _))) in E3;
    apply tally_eq in E3 as (_ & _ & _ & En & _); injection E as <- <-; done.
Qed.


(** A backfill ends after boundedly many requests: it invokes the handlers at
    most once per chunk, provider and attempt of the provider's retry budget. *)
Theorem backfill_asks_boundedly build pd cd symbols tf start end_ pr pp given gb ch s range :
  backfill_range start end_ = Ok range → pp ≠ [] →
  (invocations (backfill perf_at o build pd cd symbols tf start end_ pr pp given gb ch s).2 <=
    invocations s + length (chunks_of range ch) * sum_list (allowed <$> pp))%nat.
Proof.
  intros Hr Hpp. destruct (backfill _ _ _ _ _ _ _ _ _ _ _ _ _ _ s) as [out s'] eqn:E. cbn [snd].
  apply backfill_run in E as [[-> _]|(range' & ordered & providers & s1 & s2 & filled & Er & _ & Hp & Hn & _ & Ef & Hn2 & _)]; [lia|].
  rewrite Er in Hr. injection Hr as ->. rewrite Hp in Ef by by destruct pp.
  destruct (fill_chunks_spec build given ordered tf pp (chunks_of range ch) s1) as (out' & s2' & E2 & Hle & _).
  rewrite Ef in E2. injection E2 as <- <-. lia.
Qed.
End attempts.

(** * Runs *)

Definition sample_options (retries : Z) : Options := Opts retries (of_Z 500) [] (of_Z 1000) (of_Z 1500) [] None false (of_Z 18) 10
  (of_Z 12) None "data/metrics.jsonl" "data/bar_ready.jsonl".
Definition sample_ingestion : Ingestion := Ing (Buffer [] 256 0) None (GState None None world0) (monitor0 world0) acc0 0 0 [] local0 world0.
Definition sample_bar (ts : string) : pyval := VDict [("timestamp", VStr ts); ("close", VFloat (of_Z 1))].
Definition sample_frames : list MarketFrame := [Frame "EURUSD" "M5" [sample_bar "2025-01-06T09:30:00Z"] 0].

(** A handler whose first invocation fails. *)
Definition flaky (n : nat) : answer := match n with O => ARaise "timeout" | S _ => AFrames sample_frames end.
Definition down (_ : nat) : answer := ARaise "connection refused".

Definition no_handlers (_ _ : string) : handlers := [].
Definition sample_run {A} (m : M Ingestion A) : res A * Ingestion := m sample_ingestion.
Definition sample_backfill `{Env} (providers : list string) (given : handlers) (end_ : string) : M Ingestion BackfillResult :=
  backfill (λ _, fzero) (sample_options 1) no_handlers None None ["EURUSD"] "M5" "2025-01-06T09:30:00Z" end_ None providers given None 6.

Definition got (frames : list MarketFrame) : BackfillResult := BackfillOk frames (Some "primary") 1 "ok".


Lemma backfill_asks_boundedly_witness : let _ := sample_env in
  (invocations (sample_backfill ["primary"; "backup"] [("primary", down); ("backup", down)] "2025-01-06T12:30:00Z" sample_ingestion).2
    <= 0 + 1 * 4)%nat.
Proof.
  cbv zeta. apply (backfill_asks_boundedly (H:=sample_env) (λ _, fzero) (sample_options 1) no_handlers None None ["EURUSD"] "M5"
    "2025-01-06T09:30:00Z" "2025-01-06T12:30:00Z" None ["primary"; "backup"] [("primary", down); ("backup", down)] None 6 sample_ingestion
    (at_hour 6 9, at_hour 6 12)); [vm_compute; reflexivity|done].
Defined.

Definition primary_job : Job := MkJob "primary" ["EURUSD"] "M5" (at_hour 6 12) (of_Z 1000) (of_Z 1500).


(** Handlers given by the caller do not see the chunk: an answer for the whole
    range is collected once per chunk. *)
Definition whole_range (_ : nat) : answer := AFrames sample_frames.
Example given_handlers_repeat_bars : let _ := sample_env in
  bars <$> match sample_backfill ["primary"] [("primary", whole_range)] "2025-01-06T21:30:00Z" sample_ingestion with
    | (Ok r, _) => r_frames r | _ => [] end =
  [[sample_bar "2025-01-06T09:30:00Z"; sample_bar "2025-01-06T09:30:00Z"]].
Proof. vm_compute. reflexivity. Qed.

(** A coordinator that the caller has just made is not the one used. *)
Example new_coordinator_is_ignored : buffer_in_use (Some (Buffer [] 2 0)) (Buffer [] 256 0) = Buffer [] 256 0.
Proof. reflexivity. Qed.
