(* ===== verification/DataFetch.v ===== *)
(** The fetch of the latest bars of [src/data/service.py], with the fallback
    events of [src/data/fallback.py]: the providers are tried in order, or by
    their worker plans.  The hand-over of retry tasks to a queue of the caller is
    left out. *)

From S2P Require Import Prelude PyFloat PyVal PyEnv Calendar Spread Health DataQuality DataService Workers Backfill.

Local Open Scope Z_scope.
Local Open Scope py_scope.

(** * Fallback events *)

Record FallbackRetryTask := Task {
  t_provider : string; t_symbols : list string; t_timeframe : string; t_attempt : Z; t_max_attempts : Z; t_state : string;
  t_backoff_sec : option float; t_reason : option string; t_failover_to : option string; t_stage : string }.

Definition task_event (ts : string) (t : FallbackRetryTask) : pyval := VDict [
  ("ts", VStr ts); ("event", VStr "ingestion.failover.state"); ("state", VStr (t_state t)); ("provider", VStr (t_provider t));
  ("symbols", vtexts (t_symbols t)); ("timeframe", VStr (t_timeframe t)); ("attempt", VInt (t_attempt t));
  ("max_attempts", VInt (t_max_attempts t)); ("backoff_sec", vopt_float (t_backoff_sec t)); ("reason", vopt_str (t_reason t));
  ("failover_to", vopt_str (t_failover_to t)); ("stage", VStr (t_stage t)); ("runbook_ref", VStr "RUN-DATA-05")].

Definition record_fallback_event `{Env} (path : string) (t : FallbackRetryTask) : M Ingestion unit :=
  ts ← utcnow_iso; append_jsonl path (task_event ts t).

(** * The state of a fetch *)

(** The service, the stages of the rate-limit guard, the frames of the jobs, and
    the stages last written to the state file. *)
Record Fetching := Fetch { ing : Ingestion; rl_state : list (string * string); result_frames : list (string * list MarketFrame);
  persisted : option (list (string * string)) }.

#[export] Instance fetching_world : HasWorld Fetching.
Proof.
  refine {| wget s := i_world (ing s); wset w s := Fetch (wset w (ing s)) (rl_state s) (result_frames s) (persisted s) |}; by intros;
    destruct s as [[]].
Defined.

Definition set_ing (i : Ingestion) (s : Fetching) : Fetching := Fetch i (rl_state s) (result_frames s) (persisted s).
Definition set_rl_state (l : list (string * string)) (s : Fetching) : Fetching := Fetch (ing s) l (result_frames s) (persisted s).
Definition set_results (l : list (string * list MarketFrame)) (s : Fetching) : Fetching := Fetch (ing s) (rl_state s) l (persisted s).
Definition set_persisted (s : Fetching) : Fetching := Fetch (ing s) (rl_state s) (result_frames s) (Some (rl_state s)).

Definition in_service {A} (m : M Ingestion A) : M Fetching A := zoom ing set_ing m.

Definition on_local (f : FetchLocal → FetchLocal) : M Ingestion unit := modify (λ s, set_local (f (local s)) s).
Definition keep_frames (l : list MarketFrame) (x : FetchLocal) : FetchLocal := Local l (l_flag x) (l_ratio x).
Definition raise_flag (z : Z) (x : FetchLocal) : FetchLocal := Local (l_frames x) (Z.max (l_flag x) z) (l_ratio x).
Definition set_ratio (r : float) (x : FetchLocal) : FetchLocal := Local (l_frames x) (l_flag x) r.

(** The keyword arguments that a fetch has besides those of [Options]. *)
Record FetchOptions := FOpts {
  fetch_end : option string; rl_guard : option RateLimitGuard; rl_log_path : option string; auto_apply : bool;
  rl_source : option string; rl_runbook : option string; f_worker_plan : option WorkerPlan; apply_worker_plan : bool;
  fallback_log : option string; rl_state_path : option string }.

Section fetch.
Context `{Env}.
Variable perf_at : nat → float.
Variable getenv : string → option string.
Variable o : Options.
Variable fo : FetchOptions.
Variable hs : handlers.
Variable symbols : list string.
Variable timeframe : string.

(** [if fallback_log_path is not None: _emit_fallback_state(...)] *)
Definition emit_state (t : FallbackRetryTask) : M Ingestion unit :=
  match fallback_log fo with Some path => record_fallback_event path t | None => mret tt end.

(** ** One attempt *)

(** The frames are validated in place: those already seen carry their flag. *)
Fixpoint validate_local (g : DataQualityGuard) (seen todo : list MarketFrame) : M Ingestion unit :=
  match todo with
  | [] => mret tt
  | f :: todo =>
      '(q, f) ← zoom quality set_quality (validate g f);
      _ ← on_local (λ x, raise_flag (q_flag q) (keep_frames (seen ++ f :: todo) x));
      if str_in (q_status q) ["fail"; "error"] then
        raise (DataQualityError ("data_quality_failed: " +:+ py_repr (vtexts (q_issues q))) (q_flag q))
      else validate_local g (seen ++ [f]) todo
  end.

Definition request (provider : string) (request_ts : datetime) (start : float) : M Ingestion (ProviderResult * float * BufferItem) :=
  r ← invoke_provider provider symbols timeframe (dlookup provider hs);
  elapsed ← elapsed_ms perf_at start;
  _ ← on_local (keep_frames (frames r));
  item ← enqueue provider symbols timeframe request_ts (frames r);
  mret (r, elapsed, item).

(** [_parse_bar_timestamp(end) or datetime.now(timezone.utc)] *)
Definition fetch_anchor : M Ingestion datetime :=
  match parse_bar_timestamp (vopt_str (fetch_end fo)) with Some d => mret d | None => now_utc end.

Definition log_fetch (provider : string) (lat : float * float) (warn breach delay_sec : float) : M Ingestion unit :=
  anchor ← fetch_anchor;
  x ← gets local;
  last_ts ← lift (extract_last_bar_timestamp (l_frames x));
  gap ← lift (compute_bar_gap_minutes anchor last_ts);
  _ ← maybe_raise_data_latency o delay_sec gap provider symbols;
  log_sla_entry o (Sla provider timeframe symbols None "fetch" lat.1 lat.2 (Z.of_nat (length (l_frames x)))
    (compute_latency_status lat.1 warn breach) (l_ratio x) (Some (l_flag x)) (iso_seconds <$> last_ts) gap (Some delay_sec)).

Definition process_fetch (provider : string) (warn breach : float) (item : BufferItem) (r : ProviderResult) (elapsed : float)
    : M Ingestion unit :=
  let delay_sec := fmax (total_seconds (enqueue_ts item) (request_ts item)) fzero in
  start ← perf_counter perf_at;
  _ ← (match quality_guard o with Some g => validate_local g [] (frames r) | None => mret tt end);
  _ ← elapsed_ms perf_at start;
  now ← now_utc;
  let processing_ms := fmax (ms_of (total_seconds now (enqueue_ts item))) fzero in
  _ ← pop_buffer;
  _ ← on_local (set_ratio (rate_limit_ratio r));
  lat ← logged_latency r provider symbols timeframe elapsed (Z.of_nat (length (frames r))) "fetch";
  _ ← log_fetch provider lat warn breach delay_sec;
  for_each (λ f, log_processing_delay o provider timeframe (f_symbol f) (Z.of_nat (length (bars f))) processing_ms) (frames r).

Definition fetch_attempt (provider : string) (warn breach : float) : M Ingestion (bool * float * res unit) :=
  request_ts ← now_utc;
  start ← perf_counter perf_at;
  a ← attempt (request provider request_ts start);
  match a with
  | Raise e => mret (false, start, Raise e)
  | Ok (r, elapsed, item) => out ← attempt (process_fetch provider warn breach item r elapsed); mret (true, start, out)
  end.

Definition exn_message (e : exn) : string :=
  match e with ProviderError m | DataQualityError m _ => m | _ => "" end.

Definition on_fetch_failure (provider : string) (buffered : bool) (start : float) (e : exn) : M Ingestion unit :=
  elapsed ← elapsed_ms perf_at start;
  _ ← on_local (keep_frames []);
  _ ← when buffered pop_buffer;
  _ ← when_collector (observe provider symbols timeframe elapsed 0 "fetch" false);
  _ ← (match e with DataQualityError _ flag => on_local (raise_flag flag) | _ => mret tt end);
  x ← gets local;
  log_sla_entry o (Sla provider timeframe symbols None "fetch" fzero fzero 0 "error" fzero (Some (l_flag x)) None None None).

(** The base of the pauses: the interval of the plan, if there is one. *)
Definition backoff_base (plan : option WorkerPlan) (backoff : float) : float :=
  match plan with Some p => fmul (poll_interval_sec p) (of_Z 1000) | None => backoff end.

Definition retry_task (provider state reason : string) (attempt_no max_attempts : Z) (backoff_sec : option float) : FallbackRetryTask :=
  Task provider symbols timeframe attempt_no max_attempts state backoff_sec (Some reason) None "fetch_latest".

(** [while retry_budget >= 0]; the number of the failed attempts is returned. *)
Fixpoint fetch_loop (provider : string) (warn breach base : float) (max_attempts : Z) (more attempt_no : nat) : M Ingestion nat :=
  match more with
  | O => mret attempt_no
  | S more =>
      '(buffered, start, out) ← fetch_attempt provider warn breach;
      match out with
      | Ok _ => mret attempt_no
      | Raise e =>
          if is_ingestion_error e then
            _ ← on_fetch_failure provider buffered start e;
            let attempt_no := S attempt_no in
            match more with
            | O => mret attempt_no
            | S _ =>
                let delay_ms := match attempt_no with 1%nat => base | _ => fmul base (of_Z 2) end in
                _ ← emit_state (retry_task provider "retry_scheduled" (exn_message e) (Z.of_nat attempt_no) max_attempts None);
                _ ← emit_state (retry_task provider "retry_backoff" (exn_message e) (Z.of_nat attempt_no) max_attempts
                      (Some (fdiv_ieee delay_ms (of_Z 1000))));
                _ ← modify (add_sleep (fmax (fdiv_ieee delay_ms (of_Z 1000)) fzero));
                fetch_loop provider warn breach base max_attempts more attempt_no
            end
          else _ ← when buffered pop_buffer; mret attempt_no
      end
  end.

(** What the fetch of one provider returns. *)
Record Fetched := MkFetched { f_frames : list MarketFrame; f_ratio : float; f_attempt : Z; f_max_attempts : Z; f_quality : Z }.

Definition fetch_provider_once (provider : string) (current_plan provider_plan : option WorkerPlan) (retries : Z) (backoff : float)
    (emit_exhausted : bool) : M Ingestion Fetched :=
  let '(warn, breach) := default (warn_ms o, breach_ms o) (dlookup provider (sla_thresholds o)) in
  let plan := match current_plan with Some p => Some p | None => provider_plan end in
  _ ← on_local (λ _, local0);
  n ← fetch_loop provider warn breach (backoff_base plan backoff) (retries + 1) (attempts_of retries) 0;
  x ← gets local;
  _ ← when (negb (truthy (l_frames x)) && emit_exhausted)
    (emit_state (retry_task provider "retry_exhausted" "no_frames" (Z.of_nat n) (retries + 1) None));
  mret (MkFetched (l_frames x) (l_ratio x) (Z.of_nat n) (retries + 1) (l_flag x)).

(** ** The rate-limit stage of a provider *)

Definition evaluate_rate_limit (g : RateLimitGuard) (provider : string) (ratio : float) : M Fetching StageDecision :=
  s ← get;
  d ← lift (evaluate g provider ratio (dlookup provider (rl_state s)) true (rl_source fo) (rl_runbook fo));
  _ ← (match rl_log_path fo with
    | Some path =>
        ts ← utcnow_iso;
        _ ← try_append_jsonl path (VDict [("ts", VStr ts); ("provider", VStr provider); ("stage_eval", VDict (stage_mapping d))]);
        mret tt
    | None => mret tt
    end);
  mret d.

Definition apply_stage (provider : string) (d : StageDecision) : M Fetching unit :=
  when (auto_apply fo) (modify (λ s, set_rl_state (dset provider (d_stage d) (rl_state s)) s)).

(** ** Providers one after the other *)

Definition failover_task (provider : string) (f : Fetched) (state reason : string) (next : option string) : FallbackRetryTask :=
  Task provider symbols timeframe (f_attempt f) (f_max_attempts f) state None (Some reason) next "fetch_latest".

(** What becomes of the frames of a provider: kept, or dropped because its
    rate-limit stage went back and another provider follows. *)
Definition after_fetch (last_provider provider : string) (next : option string) (f : Fetched) : M Fetching (list MarketFrame) :=
  drop ← (match f_frames f, rl_guard fo with
    | _ :: _, Some g =>
        d ← evaluate_rate_limit g provider (f_ratio f);
        _ ← apply_stage provider d;
        mret (String.eqb (d_decision d) "rollback" && negb (String.eqb provider last_provider))
    | _, _ => mret false
    end);
  if drop : bool then
    _ ← in_service (emit_state (failover_task provider f "failover_to" "rate_limit_high" next)); mret []
  else
    _ ← in_service (when (negb (truthy (f_frames f)))
      (emit_state (failover_task provider f (match next with Some n => if truthy n then "failover_to" else "failed" | None => "failed" end)
        "no_frames" next)));
    mret (f_frames f).

Fixpoint fetch_in_order (plans : list (string * WorkerPlan)) (last_provider : string) (flag : Z) (providers : list string)
    : M Fetching (list MarketFrame * Z) :=
  match providers with
  | [] => mret ([], flag)
  | p :: providers =>
      '(retries, backoff) ← lift (retry_settings o p);
      let plan := if truthy plans then dlookup p plans else f_worker_plan fo in
      f ← in_service (fetch_provider_once p plan (dlookup p plans) retries backoff false);
      let flag := Z.max flag (f_quality f) in
      l ← after_fetch last_provider p (head providers) f;
      if truthy l then mret (l, flag) else fetch_in_order plans last_provider flag providers
  end.

(** ** Providers by their worker plans *)

Definition provider_job (plans : list (string * WorkerPlan)) (lookup : list (string * WorkerPlan)) (p : string) : M Fetching unit :=
  '(retries, backoff) ← lift (retry_settings o p);
  f ← in_service (fetch_provider_once p (dlookup p lookup) (dlookup p plans) retries backoff true);
  _ ← modify (λ s, set_results (dset p (f_frames f) (result_frames s)) s);
  match rl_guard fo with
  | Some g => d ← evaluate_rate_limit g p (f_ratio f); apply_stage p d
  | None => mret tt
  end.

Definition by_provider (plans : list WorkerPlan) : list (string * WorkerPlan) := fold_left (λ d p, dset (w_provider p) p d) plans [].

Definition first_frames (results : list (string * list MarketFrame)) (providers : list string) : list MarketFrame :=
  match list_find (λ p, truthy (default [] (dlookup p results)) = true) providers with
  | Some (_, p) => default [] (dlookup p results)
  | None => []
  end.

Definition fetch_by_plans (plans : list (string * WorkerPlan)) (providers : list string) : M Fetching (list MarketFrame) :=
  s ← get;
  let fixed := match plans, f_worker_plan fo with
    | [], Some w => map (λ p, Plan p (w_stage w) (poll_interval_sec w) (max_workers w)) providers
    | _, _ => plans.*2
    end in
  chosen ← (if truthy fixed then mret fixed
    else spawn_provider_workers getenv providers (rl_guard fo) (rl_state s) (of_Z 15) 4 None None None None "ops_worklog.jsonl");
  let lookup := by_provider chosen in
  _ ← run_fetch_workers (λ sec, in_service (modify (add_sleep sec))) chosen (map (λ p, (p, provider_job plans lookup p)) providers) 1 false;
  s ← get;
  mret (first_frames (result_frames s) providers).

Definition guard_plans (g : RateLimitGuard) (state : list (string * string)) (providers : list string) : res (list WorkerPlan) :=
  mapM_res (λ p, guard_plan g p (dlookup p state)) providers.

(** ** The fetch *)

Definition fetch_with (providers : list string) : M Fetching (list MarketFrame) :=
  s ← get;
  plans ← lift (match rl_guard fo with Some g => guard_plans g (rl_state s) providers | None => Ok [] end);
  let plans := by_provider plans in
  if apply_worker_plan fo then fetch_by_plans plans providers
  else
    '(l, flag) ← fetch_in_order plans (default "" (last providers)) 0 providers;
    _ ← in_service (when (negb (truthy l))
      (log_sla_entry o (Sla (default "unknown" (last providers)) timeframe symbols None "fetch" fzero fzero 0 "error" (of_Z 1)
        (if truthy providers then Some flag else None) None None None)));
    _ ← when (auto_apply fo && match rl_state_path fo with Some _ => true | None => false end) (modify set_persisted);
    _ ← in_service (append_bar_ready o l "fetch_latest");
    mret l.
End fetch.

(** [_load_rate_limit_state] *)
Definition load_rate_limit_state (d : document) : list (string * string) :=
  match d with Some (Some (VDict d)) => map (λ kv, (kv.1, py_str kv.2)) d | _ => [] end.

(** [given_state] is the state that the caller passes; the profiles of [o] are
    those given or read, the handlers those given or built. *)
Definition fetch_latest `{Env} (perf_at : nat → float) (getenv : string → option string) (o : Options) (fo : FetchOptions)
    (priorities_doc config_doc state_doc : document) (hs : handlers) (symbols : list string) (timeframe : string)
    (provider_priority : list string) (given_state : option (list (string * string))) (given_buffer : option BufferCoordinator)
    : M Fetching (list MarketFrame) :=
  priorities ← lift (load_ingestion_priorities priorities_doc);
  symbols ← lift (order_symbols_by_priority symbols timeframe priorities);
  config ← lift (if truthy provider_priority then Ok [] else load_provider_priority config_doc);
  providers ← lift (resolve_provider_priority symbols provider_priority config);
  _ ← modify (set_rl_state (match given_state with
    | Some l => l
    | None => match rl_state_path fo with Some _ => load_rate_limit_state state_doc | None => [] end
    end));
  _ ← in_service (modify (λ s, set_buffer (buffer_in_use given_buffer (buffer s)) s));
  fetch_with perf_at getenv o fo hs symbols timeframe providers.

(** * The worker mode does not save the stages *)

Section preserved.
Context {S : Type} (P : S → Prop) (sleep : float → M S unit).
Hypothesis Hsleep : ∀ x, preserves P (sleep x).

Lemma preserves_poll_once slots queue : Forall (preserves P) queue →
  hoare P (poll_once None slots queue) (λ out s, P s ∧ match out with Ok (q, _) => Forall (preserves P) q | Raise _ => True end).
Proof using Type.
  revert queue. induction slots as [|n IH]; intros queue Hq s Hs; [by split|]. destruct queue as [|j queue]; [by split|].
  apply Forall_cons in Hq as [Hj Hq]. cbn [poll_once]. rewrite bind_run. specialize (Hj s Hs). destruct (j s) as [[u|e] s1]; [|by split].
  rewrite bind_run. specialize (IH queue Hq s1 Hj). destruct (poll_once None n queue s1) as [[[q c]|e] s2]; exact IH.
Qed.

Lemma preserves_poll_loop plan stop n queue : Forall (preserves P) queue → preserves P (poll_loop sleep plan None stop n queue).
Proof using Hsleep.
  revert queue. induction n as [|n IH]; intros queue Hq s Hs; cbn [poll_loop]; [done|]. rewrite bind_run.
  pose proof (preserves_poll_once (Z.to_nat (max_workers plan)) queue Hq s Hs) as [H1 H2].
  destruct (poll_once _ _ queue s) as [[[q c]|e] s1]; [|done]. cbn in H1, H2. destruct (_ && _); [done|]. revert s1 H1.
  apply preserves_bind; [apply Hsleep|intros u]. apply preserves_bind; [by apply IH|]. intros [[? ?] ?]. apply preserves_ret.
Qed.

Lemma preserves_run_plans it stop queues plans : (∀ p, Forall (preserves P) (default [] (dlookup p queues))) →
  preserves P (run_plans sleep it stop queues plans).
Proof using Hsleep.
  intros Hq. induction plans as [|p plans IH]; cbn [run_plans]; [apply preserves_ret|]. apply preserves_bind.
  - unfold run_worker_plan. apply preserves_bind; [by apply preserves_poll_loop|]. intros [[? ?] ?]. apply preserves_ret.
  - intros r. apply preserves_bind; [done|intros rs; apply preserves_ret].
Qed.

Lemma queues_Forall (Q : M S unit → Prop) queue d : Forall (λ j, Q j.2) queue → (∀ p, Forall Q (default [] (dlookup p d))) →
  ∀ p, Forall Q (default [] (dlookup p (fold_left (λ d j, dset j.1 (default [] (dlookup j.1 d) ++ [j.2]) d) queue d))).
Proof using Type.
  intros Hq. revert d. induction Hq as [|j queue Hj Hq IH]; intros d Hd p; cbn [fold_left]; [apply Hd|]. apply IH. intros k.
  destruct (decide (j.1 = k)) as [<-|Hne]; [rewrite dlookup_dset_eq; cbn|by rewrite dlookup_dset_ne].
  apply Forall_app. split; [apply Hd|by constructor].
Qed.

Lemma preserves_fetch_workers plans queue it stop : Forall (λ j, preserves P j.2) queue →
  preserves P (run_fetch_workers sleep plans queue it stop).
Proof using Hsleep. intros Hq. apply preserves_run_plans, queues_Forall; [done|]. intros p. constructor. Qed.
End preserved.

Section unsaved.
Context `{Env}.
Variable perf_at : nat → float.
Variable getenv : string → option string.
Variable o : Options.
Variable fo : FetchOptions.

Abbreviation unsaved x := (λ s : Fetching, persisted s = x).

Lemma unsaved_world x (w : world) s : unsaved x s → unsaved x (wset w s).
Proof. done. Qed.
Lemma unsaved_service {A} x (m : M Ingestion A) : preserves (unsaved x) (in_service m).
Proof. apply preserves_zoom; intros t s Hs; exact Hs. Qed.
Lemma unsaved_evaluate x g p r : preserves (unsaved x) (evaluate_rate_limit fo g p r).
Proof.
  unfold evaluate_rate_limit. destruct (preserves_world (unsaved x) (unsaved_world x)) as (_ & Hi & _ & _ & Ht). preserve; apply Ht || apply Hi.
Qed.
Lemma unsaved_apply x p d : preserves (unsaved x) (apply_stage fo p d).
Proof. unfold apply_stage. preserve. Qed.

Lemma unsaved_job x hs ss tf plans lookup p : preserves (unsaved x) (provider_job perf_at o fo hs ss tf plans lookup p).
Proof.
  unfold provider_job. apply preserves_bind; [apply preserves_lift|]. intros [? ?]. apply preserves_bind; [apply unsaved_service|intros f].
  apply preserves_bind; [by apply preserves_modify|intros u]. destruct (rl_guard fo); [|apply preserves_ret].
  apply preserves_bind; [apply unsaved_evaluate|intros d; apply unsaved_apply].
Qed.

Lemma unsaved_spawn x ps g st poll w m n c r wl :
  preserves (unsaved x) (spawn_provider_workers getenv ps g st poll w m n c r wl : M Fetching _).
Proof.
  unfold spawn_provider_workers. destruct (target_workers _ _ _ _) as [mode target]. generalize (ps or? ["primary"])%py as l.
  destruct (preserves_world (unsaved x) (unsaved_world x)) as (_ & Hi & _ & Ha & _).
  intros l. induction l as [|p l IH]; cbn [capped_plans]; preserve; apply Hi || apply Ha.
Qed.

Ltac unsaved_step := first [apply preserves_lift | apply preserves_get | apply unsaved_service | by apply preserves_modify].

Lemma unsaved_plans x hs ss tf plans providers : preserves (unsaved x) (fetch_by_plans perf_at getenv o fo hs ss tf plans providers).
Proof.
  unfold fetch_by_plans. preserve; [apply unsaved_spawn|].
  apply preserves_fetch_workers; [intros y; apply unsaved_service|]. apply Forall_forall. intros j (p & <- & _)%list_elem_of_In%in_map_iff.
  apply unsaved_job.
Qed.

(** A fetch that applies worker plans does not write the stages of the
    rate-limit guard to their file, whatever stages it applied. *)
Theorem worker_mode_saves_no_stage pd cd sd hs symbols tf pp gs gb s : apply_worker_plan fo = true →
  persisted (fetch_latest perf_at getenv o fo pd cd sd hs symbols tf pp gs gb s).2 = persisted s.
Proof.
  intros Hw. assert (∀ x, preserves (unsaved x) (fetch_latest perf_at getenv o fo pd cd sd hs symbols tf pp gs gb)) as Hp
    by (intros x; unfold fetch_latest, fetch_with; rewrite Hw; repeat (first [apply unsaved_plans | apply preserves_bind; [unsaved_step|intros ?]])).
  exact (Hp (persisted s) s eq_refl).
Qed.
End unsaved.

(** * Exceptions that are not expected *)

(** The local variables and the room of the buffer. *)
Definition locals (s : Ingestion) : FetchLocal * Z * nat := (local s, maxsize (buffer s), length (items (buffer s))).

Ltac run := repeat (rewrite bind_run; cbn).

Section unexpected.
Context `{Env}.
Variable perf_at : nat → float.
Variable o : Options.
Variable fo : FetchOptions.

Lemma make_room_Ok b : 0 < maxsize b → ∃ b', make_room b = Ok b'.
Proof. intros Hm. unfold make_room. destruct (maxsize b <=? _) eqn:E; [|by eexists]. to_props. destruct (items b); [cbn in E; lia|by eexists]. Qed.

Lemma request_run provider hs symbols tf h l t x s : dlookup provider hs = Some h → h (invocations s) = AFrames l →
  0 < maxsize (buffer s) → ∃ y i s', request perf_at hs symbols tf provider t x s = (Ok (plain_result l, y, i), s') ∧
    local s' = keep_frames l (local s).
Proof.
  intros Hh Ha Hb. unfold request. rewrite Hh, bind_run, invoke_run, Ha. cbn [result_of]. unfold elapsed_ms. rewrite !bind_run.
  cbn [perf_counter mret M_ret]. rewrite bind_run. cbn [on_local modify]. rewrite bind_run. unfold enqueue. rewrite bind_run. cbn [get].
  rewrite bind_run. unfold lift. destruct (make_room_Ok (buffer s) Hb) as (b & E). cbn [buffer set_local count_reading count_invocation local].
  rewrite E. by eexists _, _, _.
Qed.

(** An exception that the quality guard does not foresee ends the attempts of
    a provider, and its frames are returned, although they were not validated:
    they count as fetched at the first attempt, with quality flag 0. *)
Theorem unexpected_error_serves_frames provider hs symbols tf plan provider_plan retries backoff emit s h f l g e :
  dlookup provider hs = Some h → h (invocations s) = AFrames (f :: l) → quality_guard o = Some g → quality_of g (bars f) = Raise e →
  is_ingestion_error e = false → 0 <= retries → 0 < maxsize (buffer s) →
  ∃ x s', fetch_provider_once perf_at o fo hs symbols tf provider plan provider_plan retries backoff emit s = (Ok x, s') ∧
    f_frames x = f :: l ∧ f_attempt x = 0 ∧ f_quality x = 0.
Proof.
  intros Hh Ha Hg Hq He Hr Hb. unfold fetch_provider_once. destruct (default _ _) as [warn breach]. rewrite bind_run. cbn [on_local modify].
  destruct (attempts_of retries) as [|n] eqn:En; [unfold attempts_of in En; lia|]. cbn [fetch_loop].
  set (s0 := set_local _ s). rewrite bind_run, bind_run.
  assert (∃ st s1, fetch_attempt perf_at o fo hs symbols tf provider warn breach s0 = (Ok (true, st, Raise e), s1) ∧
    local s1 = Local (f :: l) 0 fzero) as (st & s1 & E1 & El).
  { unfold fetch_attempt. rewrite bind_run. cbn [now_utc]. rewrite bind_run. cbn [perf_counter]. rewrite bind_run. unfold attempt at 1.
    match goal with |- context [request _ _ _ _ _ ?t ?x ?s1] =>
      destruct (request_run provider hs symbols tf h (f :: l) t x s1) as (y & i & s2 & E2 & El2); [done|exact Ha|exact Hb|] end.
    rewrite E2. cbn [fst snd]. rewrite bind_run. unfold attempt, process_fetch. rewrite bind_run. cbn [perf_counter].
    rewrite bind_run, Hg. cbn [frames plain_result validate_local]. rewrite bind_run, zoom_run. unfold validate. rewrite bind_run. unfold lift.
    rewrite Hq. cbn. eexists _, _. split; [done|exact El2]. }
  rewrite E1. cbn [fst snd]. rewrite He, bind_run. cbn.
  rewrite bind_run. cbn [gets local set_buffer]. rewrite El. cbn. by eexists _, _.
Qed.
End unexpected.

(** * Runs *)

Definition sample_fetch_options (applies : bool) : FetchOptions := FOpts None (Some (sample_guard 60)) None true None None None applies
  (Some "logs/events/ingestion_fallback.jsonl") (Some "data/rate_limit_state.json").
Definition sample_fetching : Fetching := Fetch sample_ingestion [] [] None.
Definition good (_ : nat) : answer := AFrames sample_frames.

Definition run_fetch `{Env} (applies : bool) (hs : handlers) (providers : list string) : res (list MarketFrame) * Fetching :=
  fetch_latest (λ _, fzero) (λ _, None) (sample_options 1) (sample_fetch_options applies) None None None hs ["EURUSD"] "M5" providers None None
    sample_fetching.

Lemma worker_mode_saves_no_stage_witness : let _ := sample_env in persisted (run_fetch true [("primary", good)] ["primary"]).2 = None.
Proof.
  cbv zeta. apply (worker_mode_saves_no_stage (H:=sample_env) (λ _, fzero) (λ _, None) (sample_options 1) (sample_fetch_options true)).
  reflexivity.
Defined.

(** The stage that the fetch applied, and what it saved, with and without worker
    plans; only the latter announces its bars. *)
Example stage_applied_in_both_modes : let _ := sample_env in
  let ordered := (run_fetch false [("primary", good)] ["primary"]).2 in let workers := (run_fetch true [("primary", good)] ["primary"]).2 in
  rl_state ordered = [("primary", "stage1")] ∧ persisted ordered = Some [("primary", "stage1")] ∧
  rl_state workers = [("primary", "stage1")] ∧ persisted workers = None ∧
  str_in "data/bar_ready.jsonl" (w_out (i_world (ing ordered))).*1 = true ∧
  str_in "data/bar_ready.jsonl" (w_out (i_world (ing workers))).*1 = false.
Proof. vm_compute. by split_and!. Qed.

(** A provider that fails twice is left for the next one. *)
Example failover_after_retries : let _ := sample_env in
  run_fetch false [("primary", down); ("backup", good)] ["primary"; "backup"] = (Ok sample_frames,
    (run_fetch false [("primary", down); ("backup", good)] ["primary"; "backup"]).2) ∧
  invocations (ing (run_fetch false [("primary", down); ("backup", good)] ["primary"; "backup"]).2) = 3%nat.
Proof. vm_compute. by split. Qed.

(** A bar that is not a mapping. *)
Definition broken_frame : MarketFrame := Frame "EURUSD" "M5" [VStr "2025-01-06T09:30:00Z"] 0.
Definition broken (_ : nat) : answer := AFrames [broken_frame].
Definition guarded_options : Options := Opts 1 (of_Z 500) [] (of_Z 1000) (of_Z 1500) [] (Some DataQuality.sample_guard) false (of_Z 18) 10
  (of_Z 12) None "data/metrics.jsonl" "data/bar_ready.jsonl".

Lemma unexpected_error_serves_frames_witness : let _ := sample_env in ∃ x s',
  fetch_provider_once (λ _, fzero) guarded_options (sample_fetch_options false) [("primary", broken)] ["EURUSD"] "M5" "primary" None None 1
    (of_Z 500) false sample_ingestion = (Ok x, s') ∧ f_frames x = [broken_frame] ∧ f_attempt x = 0 ∧ f_quality x = 0.
Proof.
  cbv zeta. destruct (quality_of DataQuality.sample_guard (bars broken_frame)) as [r|e] eqn:E; [vm_compute in E; discriminate E|].
  apply (unexpected_error_serves_frames (H:=sample_env) (λ _, fzero) guarded_options (sample_fetch_options false) "primary"
    [("primary", broken)] ["EURUSD"] "M5" None None 1 (of_Z 500) false sample_ingestion broken broken_frame [] DataQuality.sample_guard e
    eq_refl eq_refl eq_refl E); [vm_compute in E; by injection E as <-|lia|done].
Defined.
