(* ===== verification/ShadowGateway.v ===== *)
(** The shadow gateway of [src/shadow_gateway/]: feature flags, the audit and
    metric records, the session supervisor with its client, and the back-pressure
    governor.  The offline cache (SQLite and parquet files) is left out. *)

From S2P Require Import Prelude PyFloat PyVal PyEnv.

Local Open Scope Z_scope.
Local Open Scope py_scope.

(** * Feature flags *)

(** [_load]: whatever is not a mapping is an empty one. *)
Definition load_flags (d : document) : dict := match d with Some (Some (VDict p)) => p | _ => [] end.

Definition is_enabled (d : document) (flag mode : string) : bool :=
  match dget "defaults" (load_flags d) with
  | VDict defaults => match dget mode defaults with VDict p => truthy (dget_or flag (VBool false) p) | _ => false end
  | _ => false
  end.

(** The file after the call. *)
Definition set_flag (d : document) (flag mode : string) (value : bool) : document :=
  let payload := load_flags d in
  let defaults := match dget_or "defaults" (VDict []) payload with VDict x => x | _ => [] end in
  let profile := match dget mode defaults with VDict p => p | _ => [] end in
  Some (Some (VDict (dset "defaults" (VDict (dset mode (VDict (dset flag (VBool value) profile)) defaults)) payload))).

(** * Clients and sessions *)

(** [SseClient] and [WsClient] differ in nothing but their name. *)
Inductive client_kind := Sse | Ws.
Record Client := MkClient { c_kind : client_kind; endpoint : string; c_connected : bool; c_last_event_id : option Z }.

Definition connect (c : Client) : Client := MkClient (c_kind c) (endpoint c) true (c_last_event_id c).

(** [last_event_id is None or event_id > last_event_id] *)
Definition newest (last : option Z) (event_id : Z) : option Z :=
  match last with Some l => if l <? event_id then Some event_id else Some l | None => Some event_id end.

Definition client_record_event (c : Client) (event_id : Z) : Client :=
  MkClient (c_kind c) (endpoint c) (c_connected c) (newest (c_last_event_id c) event_id).

Definition build_client (protocol endpoint : string) : Client :=
  MkClient (if String.eqb protocol "ws" then Ws else Sse) endpoint false None.

Record GatewaySession := Session {
  session_id : string; primary_endpoint : string; secondary_endpoint : string; active_endpoint : string; protocol : string;
  profile : string; connected : bool; last_event_id : option Z; state : string }.

Definition to_dict (s : GatewaySession) : dict := [
  ("session_id", VStr (session_id s)); ("primary_endpoint", VStr (primary_endpoint s));
  ("secondary_endpoint", VStr (secondary_endpoint s)); ("active_endpoint", VStr (active_endpoint s));
  ("protocol", VStr (protocol s)); ("profile", VStr (profile s)); ("connected", VBool (connected s));
  ("last_event_id", match last_event_id s with Some z => VInt z | None => VNone end); ("state", VStr (state s))].

Definition with_last_event (z : option Z) (s : GatewaySession) : GatewaySession :=
  Session (session_id s) (primary_endpoint s) (secondary_endpoint s) (active_endpoint s) (protocol s) (profile s) (connected s) z (state s).
Definition with_state (st : string) (s : GatewaySession) : GatewaySession :=
  Session (session_id s) (primary_endpoint s) (secondary_endpoint s) (active_endpoint s) (protocol s) (profile s) (connected s)
    (last_event_id s) st.
Definition with_connected (b : bool) (s : GatewaySession) : GatewaySession :=
  Session (session_id s) (primary_endpoint s) (secondary_endpoint s) (active_endpoint s) (protocol s) (profile s) b (last_event_id s)
    (state s).
Definition with_active (e : string) (s : GatewaySession) : GatewaySession :=
  Session (session_id s) (primary_endpoint s) (secondary_endpoint s) e (protocol s) (profile s) (connected s) (last_event_id s) (state s).

(** * The supervisor *)

Record SessionSupervisor := Supervisor {
  session : option GatewaySession; client : option Client; features : document; time_readings : nat; commands : nat; sv_world : world }.

#[export] Instance supervisor_world : HasWorld SessionSupervisor.
Proof.
  refine {| wget := sv_world; wset w s := Supervisor (session s) (client s) (features s) (time_readings s) (commands s) w |};
    by intros; try destruct s.
Defined.

Definition set_session (x : option GatewaySession) (s : SessionSupervisor) : SessionSupervisor :=
  Supervisor x (client s) (features s) (time_readings s) (commands s) (sv_world s).
Definition set_client (x : option Client) (s : SessionSupervisor) : SessionSupervisor :=
  Supervisor (session s) x (features s) (time_readings s) (commands s) (sv_world s).
Definition read_time (s : SessionSupervisor) : SessionSupervisor :=
  Supervisor (session s) (client s) (features s) (S (time_readings s)) (commands s) (sv_world s).
Definition count_command (s : SessionSupervisor) : SessionSupervisor :=
  Supervisor (session s) (client s) (features s) (time_readings s) (S (commands s)) (sv_world s).

Definition opt_int (z : option Z) : pyval := match z with Some z => VInt z | None => VNone end.

Section gateway.
Context `{Env}.
Variable time_at : nat → float.
Variables audit_path metrics_path : string.
Variable max_reconnect_seconds : Z.

Definition audit (event_type : string) (payload : dict) : M SessionSupervisor unit :=
  ts ← utcnow_iso;
  append_jsonl audit_path (VDict [("ts", VStr ts); ("event_type", VStr event_type); ("payload", VDict payload)]).

(** The optional fields of a metric. *)
Record MetricFields := Fields { m_session_id : option string; m_channel : option string; m_latency_ms : option float;
  m_queue_depth : option Z; m_ratio : option float; m_retry_count : option Z; m_backpressure : option string }.
Definition no_fields : MetricFields := Fields None None None None None None None.

Definition record (metric : string) (value : pyval) (f : MetricFields) : M SessionSupervisor unit :=
  ts ← utcnow_iso;
  append_jsonl metrics_path (VDict [("ts", VStr ts); ("metric", VStr metric); ("value", value); ("session_id", vopt_str (m_session_id f));
    ("channel", vopt_str (m_channel f)); ("latency_ms", vopt_float (m_latency_ms f)); ("queue_depth", opt_int (m_queue_depth f));
    ("queue_depth_ratio", vopt_float (m_ratio f)); ("retry_count", opt_int (m_retry_count f));
    ("backpressure_state", vopt_str (m_backpressure f)); ("tags", VDict [])]).

Definition audit_session (s : GatewaySession) (reason st : string) (with_endpoint : bool) : M SessionSupervisor unit :=
  audit "audit.shadow_gateway.session" ([("session_id", VStr (session_id s)); ("profile", VStr (profile s)); ("reason", VStr reason);
    ("last_event_id", opt_int (last_event_id s)); ("state", VStr st)] ++
    (if with_endpoint then [("active_endpoint", VStr (active_endpoint s))] else [])).

Definition build_session (primary secondary prof proto active : string) (conn : bool) (st : string) : M SessionSupervisor GatewaySession :=
  u ← fresh_uuid;
  mret (Session ("shadow-gw-" +:+ hex_prefix 8 u) primary secondary active proto prof conn None st).

Definition start (primary secondary prof proto : string) : M SessionSupervisor GatewaySession :=
  s ← get;
  if negb (is_enabled (features s) "shadow.gateway.streaming" prof) then
    x ← build_session primary secondary prof proto primary false "disabled";
    _ ← modify (set_session (Some x));
    _ ← audit_session x "feature_flag_disabled" (state x) false;
    mret x
  else
    let forced := is_enabled (features s) "shadow.gateway.force_failover" prof in
    let active := if forced then secondary else primary in
    x ← build_session primary secondary prof proto active true "active";
    _ ← modify (λ s, set_session (Some x) (set_client (Some (connect (build_client proto active))) s));
    _ ← audit_session x (if forced then "started_force_failover" else "started") (state x) true;
    mret x.

Definition session_missing : dict := [("status", VStr "error"); ("reason", VStr "session_missing")].

Definition handle_disconnect (reason : string) : M SessionSupervisor dict :=
  s ← get;
  match session s with
  | None => mret session_missing
  | Some x =>
      _ ← audit_session x reason "disconnected" false;
      let reconnect_seconds := Z.max 1 (Z.min (max_reconnect_seconds - 1) 5) in
      _ ← record "shadow.gateway.reconnect_time" (VInt reconnect_seconds)
        (Fields (Some (session_id x)) (Some (protocol x)) None None None None None);
      _ ← audit "audit.shadow_gateway.retry" [("session_id", VStr (session_id x)); ("event_type", VStr "reconnect"); ("attempt", VInt 1);
        ("backoff_ms", VInt (reconnect_seconds * 1000)); ("result", VStr "ok")];
      _ ← modify (set_session (Some (with_state "active" (with_connected true x))));
      mret [("status", VStr "ok"); ("reconnect_seconds", VInt reconnect_seconds)]
  end.

Definition record_event (event_id : Z) : M SessionSupervisor unit :=
  modify (λ s,
    match session s with
    | None => s
    | Some x =>
        set_session (Some (with_last_event (newest (last_event_id x) event_id) x))
          (set_client ((λ c, client_record_event c event_id) <$> client s) s)
    end).

Definition failover (reason : string) : M SessionSupervisor dict :=
  s ← get;
  match session s with
  | None => mret session_missing
  | Some x =>
      let x := with_state "failover" (with_active (secondary_endpoint x) x) in
      _ ← modify (set_session (Some x));
      _ ← audit_session x ("failover:" +:+ reason) (state x) true;
      mret [("status", VStr "ok"); ("active_endpoint", VStr (active_endpoint x))]
  end.

Definition now_seconds : M SessionSupervisor float := λ s, (Ok (time_at (time_readings s)), read_time s).

(** The outcome of the n-th command of the run: a result, or an exception. *)
Variable command : nat → option bool.
Definition call_command : M SessionSupervisor bool := λ s, (Ok (default false (command (commands s))), count_command s).

(** [while attempt < max_attempts] with [more] turns left. *)
Fixpoint retry_loop (x : GatewaySession) (event_type : string) (more : nat) (attempt : Z) : M SessionSupervisor dict :=
  match more with
  | O => mret [("status", VStr "error"); ("attempts", VInt attempt)]
  | S more =>
      let attempt := attempt + 1 in
      t0 ← now_seconds;
      ok ← call_command;
      t1 ← now_seconds;
      let duration_ms := fmul (fsub t1 t0) (of_Z 1000) in
      _ ← audit "audit.shadow_gateway.retry" [("session_id", VStr (session_id x)); ("event_type", VStr event_type); ("attempt", VInt attempt);
        ("backoff_ms", VInt (250 * attempt)); ("result", VStr (if ok : bool then "ok" else "retry")); ("duration_ms", VFloat duration_ms)];
      _ ← record "shadow.gateway.command.retry" (VFloat (of_Z attempt))
        (Fields (Some (session_id x)) None (Some duration_ms) None None (Some attempt) None);
      if ok : bool then mret [("status", VStr "ok"); ("attempts", VInt attempt)] else retry_loop x event_type more attempt
  end.

Definition execute_with_retry (max_attempts : Z) (event_type : string) : M SessionSupervisor dict :=
  s ← get;
  match session s with
  | None => mret session_missing
  | Some x => retry_loop x event_type (Z.to_nat max_attempts) 0
  end.

(** ** Back pressure *)

Definition pressure (threshold : float) (queue_depth capacity : Z) : float * string :=
  let ratio := if capacity <=? 0 then fzero else of_ratio queue_depth (Z.to_pos capacity) in
  (ratio, if fgeb ratio threshold then "throttled" else "normal").

Definition observe (threshold : float) (queue_depth capacity : Z) (sid channel : option string) : M SessionSupervisor string :=
  let '(ratio, st) := pressure threshold queue_depth capacity in
  _ ← record "shadow.gateway.queue_depth" (VFloat ratio) (Fields sid channel None (Some queue_depth) (Some ratio) None (Some st));
  _ ← when (String.eqb st "throttled") (audit "audit.shadow_gateway.backpressure" [("session_id", vopt_str sid);
    ("queue_depth", VInt queue_depth); ("capacity", VInt capacity); ("ratio", VFloat ratio); ("state", VStr st)]);
  mret st.
End gateway.

(** * Flags *)

Lemma dget_or_dset k k' v dflt (d : dict) : dget_or k dflt (dset k' v d) = if decide (k' = k) then v else dget_or k dflt d.
Proof.
  unfold dget_or. destruct (decide (k' = k)) as [->|Hne]; [by rewrite dlookup_dset_eq|by rewrite dlookup_dset_ne].
Qed.
Lemma dget_dset k k' v (d : dict) : dget k (dset k' v d) = if decide (k' = k) then v else dget k d.
Proof. exact (dget_or_dset k k' v VNone d). Qed.

(** A flag that was set reads back as it was set, for its mode only, and no
    other flag of any mode changes, whatever the file held before. *)
Theorem set_flag_reads_back d flag mode value flag' mode' :
  is_enabled (set_flag d flag mode value) flag' mode' =
  if decide (mode = mode' ∧ flag = flag') then value else is_enabled d flag' mode'.
Proof.
  unfold is_enabled, set_flag at 1. cbn [load_flags]. rewrite dget_dset. rewrite decide_True by done. rewrite dget_dset.
  destruct (decide (mode = mode')) as [<-|Hm].
  - rewrite dget_or_dset. destruct (decide (flag = flag')) as [<-|Hf].
    + rewrite decide_True by done. by destruct value.
    + rewrite decide_False by naive_solver. unfold dget_or, dget. destruct (dlookup "defaults" (load_flags d)) as [[]|]; try done.
      cbn. by destruct (dlookup mode d0) as [[]|].
  - rewrite decide_False by naive_solver. unfold dget_or, dget. by destruct (dlookup "defaults" (load_flags d)) as [[]|].
Qed.

(** * Retries *)

Section retries.
Context `{Env}.
Variable time_at : nat → float.
Variables audit_path metrics_path : string.
Variable command : nat → option bool.

Definition succeeds (i : nat) : Prop := command i = Some true.
Definition outcome (ok : bool) (k : nat) : dict := [("status", VStr (if ok then "ok" else "error")); ("attempts", VInt (Z.of_nat k))].

(** The command was called for [k] times, all but the last without success. *)
Definition tried (first k : nat) (ok : bool) : Prop :=
  (∀ i, (S i < k)%nat → ¬ succeeds (first + i)) ∧
  if ok then (1 <= k)%nat ∧ succeeds (first + (k - 1)) else ∀ i, (i < k)%nat → ¬ succeeds (first + i).

Definition written (s : SessionSupervisor) : list string := (w_out (sv_world s)).*1.

Lemma audit_run e p s : ∃ s', audit audit_path e p s = (Ok tt, s') ∧ commands s' = commands s ∧ session s' = session s ∧
  written s' = written s ++ [audit_path].
Proof. unfold audit. destruct s. eexists. split; [done|]. split_and!; [done|done|]. unfold written. cbn. by rewrite fmap_app. Qed.

Lemma record_run m v f s : ∃ s', record metrics_path m v f s = (Ok tt, s') ∧ commands s' = commands s ∧ session s' = session s ∧
  written s' = written s ++ [metrics_path].
Proof. unfold record. destruct s. eexists. split; [done|]. split_and!; [done|done|]. unfold written. cbn. by rewrite fmap_app. Qed.

Lemma retry_loop_spec x et more a s : ∃ ok k s', retry_loop time_at audit_path metrics_path command x et more (Z.of_nat a) s =
    (Ok (outcome ok (a + k)), s') ∧ commands s' = (commands s + k)%nat ∧ (k <= more)%nat ∧ (ok = false → k = more) ∧
  tried (commands s) k ok ∧ written s' = written s ++ concat (repeat [audit_path; metrics_path] k).
Proof.
  revert a s. induction more as [|more IH]; intros a s; cbn [retry_loop].
  { exists false, 0%nat, s. split_and!; [by rewrite Nat.add_0_r|lia..|done| |by rewrite app_nil_r]. split; intros i Hi; lia. }
  rewrite bind_run. cbn [now_seconds]. rewrite bind_run. cbn [call_command]. rewrite bind_run. cbn [now_seconds]. cbv zeta.
  set (s0 := read_time (count_command _)). change (commands (read_time s)) with (commands s). set (ok := default false (command (commands s))).
  rewrite bind_run. match goal with |- context [audit audit_path ?e ?p ?t] => destruct (audit_run e p t) as (s1 & E1 & Hc1 & _ & Hw1) end.
  rewrite E1, bind_run. match goal with |- context [record metrics_path ?m ?v ?f ?t] => destruct (record_run m v f t) as (s2 & E2 & Hc2 & _ & Hw2) end.
  rewrite E2. rewrite Hc1 in Hc2. rewrite Hw1, <- (assoc_L (++)) in Hw2. change (commands s0) with (S (commands s)) in Hc2.
  change (written s0) with (written s) in Hw2.
  assert (ok = true ↔ succeeds (commands s)) as Hok by (unfold ok, succeeds; destruct (command _) as [[]|]; naive_solver).
  destruct ok.
  - exists true, 1%nat, s2. split_and!; [unfold outcome; by rewrite Nat2Z.inj_add|lia|lia|done| |done].
    split; [intros i Hi; lia|]. split; [lia|]. rewrite Nat.add_0_r. by apply Hok.
  - replace (Z.of_nat a + 1) with (Z.of_nat (S a)) by lia. destruct (IH (S a) s2) as (ok & k & s3 & E3 & Hc & Hk & Hf & (Ht1 & Ht2) & Hw).
    assert (∀ i, (i = 0%nat ∨ ¬ succeeds (commands s2 + (i - 1))) → ¬ succeeds (commands s + i)) as Hshift.
    { intros [|i] Hi; [rewrite Nat.add_0_r; naive_solver|]. destruct Hi as [?|Hi]; [lia|]. rewrite Hc2 in Hi.
      by replace (commands s + S i)%nat with (S (commands s) + (S i - 1))%nat by lia. }
    exists ok, (S k), s3. rewrite E3. split_and!; [by rewrite Nat.add_succ_r|lia|lia|intros ->; f_equal; auto| |].
    + split; [intros i Hi; apply Hshift; destruct i; [by left|right]; rewrite Nat.sub_succ, Nat.sub_0_r; apply Ht1; lia|].
      destruct ok; [|intros i Hi; apply Hshift; destruct i; [by left|right]; rewrite Nat.sub_succ, Nat.sub_0_r; apply Ht2; lia].
      destruct Ht2 as [H1 H2]. split; [lia|]. rewrite Hc2 in H2. by replace (commands s + (S k - 1))%nat with (S (commands s) + (k - 1))%nat by lia.
    + rewrite Hw, Hw2, <- (assoc_L (++)). done.
Qed.

(** A command that is executed with retries is called again until it succeeds,
    at most [max_attempts] times; the result says whether the last call succeeded
    and how many there were, and every call leaves one audit record and one metric. *)
Theorem retries_until_success max_attempts et x s : session s = Some x → ∃ ok k s',
  execute_with_retry time_at audit_path metrics_path command max_attempts et s = (Ok (outcome ok k), s') ∧
  (k <= Z.to_nat max_attempts)%nat ∧ (ok = false → k = Z.to_nat max_attempts) ∧ tried (commands s) k ok ∧
  commands s' = (commands s + k)%nat ∧ written s' = written s ++ concat (repeat [audit_path; metrics_path] k).
Proof.
  intros Hx. unfold execute_with_retry. rewrite bind_run. cbn [get]. rewrite Hx.
  destruct (retry_loop_spec x et (Z.to_nat max_attempts) 0 s) as (ok & k & s' & E & Hc & Hk & Hf & Ht & Hw).
  exists ok, k, s'. split_and!; [exact E|done..].
Qed.
End retries.

(** * The session of a run *)

Inductive op := OStart (primary secondary prof proto : string) | ODisconnect (reason : string) | OEvent (event_id : Z)
  | OFailover (reason : string) | ORetry (max_attempts : Z) (event_type : string).

Section runs.
Context `{Env}.
Variable time_at : nat → float.
Variables audit_path metrics_path : string.
Variable max_reconnect_seconds : Z.
Variable command : nat → option bool.

Definition step (a : op) (s : SessionSupervisor) : SessionSupervisor :=
  match a with
  | OStart p q prof proto => (start audit_path p q prof proto s).2
  | ODisconnect r => (handle_disconnect audit_path metrics_path max_reconnect_seconds r s).2
  | OEvent z => (record_event z s).2
  | OFailover r => (failover audit_path r s).2
  | ORetry n e => (execute_with_retry time_at audit_path metrics_path command n e s).2
  end.

Definition gw_run (ops : list op) (s : SessionSupervisor) : SessionSupervisor := fold_left (λ s a, step a s) ops s.

(** The events since the last start; none were taken before the first. *)
Definition events_since (events : list Z) (a : op) : list Z :=
  match a with OStart _ _ _ _ => [] | OEvent z => events ++ [z] | _ => events end.
Definition events_of (ops : list op) : list Z := fold_left events_since ops [].

(** The newest of the events, the states, and the endpoint in use. *)
Definition is_newest (events : list Z) (last : option Z) : Prop :=
  match last with Some m => m ∈ events ∧ Forall (λ z, z <= m) events | None => events = [] end.

Definition session_ok (events : list Z) (x : GatewaySession) : Prop :=
  is_newest events (last_event_id x) ∧ state x ∈ ["disabled"; "active"; "failover"] ∧
  active_endpoint x ∈ [primary_endpoint x; secondary_endpoint x] ∧ (state x = "failover" → active_endpoint x = secondary_endpoint x).

Lemma newest_is_newest events last z : is_newest events last → is_newest (events ++ [z]) (newest last z).
Proof.
  destruct last as [m|]; cbn.
  - intros [Hm Hall]. destruct (m <? z) eqn:E; to_props; cbn.
    + split; [by apply elem_of_app; right; left|]. apply Forall_app. split; [|by repeat constructor; lia].
      eapply Forall_impl; [exact Hall|]. intros y Hy; cbn in *; lia.
    + split; [by apply elem_of_app; left|]. apply Forall_app. split; [done|]. repeat constructor. lia.
  - intros ->. cbn. split; [by left|]. by repeat constructor; lia.
Qed.

Lemma retry_keeps_session n e s : session (execute_with_retry time_at audit_path metrics_path command n e s).2 = session s.
Proof.
  unfold execute_with_retry. rewrite bind_run. cbn [get]. destruct (session s) as [x|] eqn:Ex; [|exact Ex]. rewrite <- Ex.
  generalize (Z.to_nat n) as more, 0. intros more. clear Ex. revert s. induction more as [|more IH]; intros s a; [done|]. cbn [retry_loop].
  rewrite bind_run. cbn [now_seconds]. rewrite bind_run. cbn [call_command]. rewrite bind_run. cbn [now_seconds]. cbv zeta.
  rewrite bind_run. match goal with |- context [audit audit_path ?e ?p ?t] => destruct (audit_run audit_path e p t) as (s1 & E1 & _ & Hs1 & _) end.
  rewrite E1, bind_run.
  match goal with |- context [record metrics_path ?m ?v ?f ?t] => destruct (record_run metrics_path m v f t) as (s2 & E2 & _ & Hs2 & _) end.
  rewrite E2. cbn in Hs1. destruct (default false _); [cbn; congruence|]. rewrite IH. congruence.
Qed.

Lemma step_ok events a s : (∀ x, session s = Some x → session_ok events x) →
  ∀ x, session (step a s) = Some x → session_ok (events_since events a) x.
Proof.
  intros Hok. destruct a as [p q prof proto|r|z|r|n e]; cbn [step events_since].
  - unfold start. rewrite bind_run. cbn [get]. destruct (negb _).
    + unfold build_session, audit_session. rewrite !bind_run. cbn. intros x [= <-]. split_and!; cbn; [done|by left|by left|done].
    + unfold build_session, audit_session. rewrite !bind_run. cbn. intros x [= <-].
      split_and!; cbn; [done|by right; left|destruct (is_enabled _ _ _); [by right; left|by left]|done].
  - unfold handle_disconnect. rewrite bind_run. cbn [get]. destruct (session s) as [y|] eqn:Ey; [|cbn; congruence].
    destruct (Hok y eq_refl) as (H1 & H2 & H3 & H4). unfold audit_session. rewrite !bind_run. cbn. intros x [= <-].
    split_and!; cbn; [done|by right; left|done|done].
  - cbn. destruct (session s) as [y|] eqn:Ey; [|cbn; congruence]. destruct (Hok y eq_refl) as (H1 & H2 & H3 & H4).
    intros x [= <-]. split_and!; cbn; [by apply newest_is_newest|done..].
  - unfold failover. rewrite bind_run. cbn [get]. destruct (session s) as [y|] eqn:Ey; [|cbn; congruence].
    destruct (Hok y eq_refl) as (H1 & H2 & H3 & H4). rewrite bind_run. cbn. intros x [= <-].
    split_and!; cbn; [done|by right; right; left|by right; left|done].
  - rewrite retry_keeps_session. exact (Hok).
Qed.

(** C28. Whatever operations a supervisor runs, the last event id of its session is
    the largest of the events recorded since the session was started, the session
    is disabled, active or failed over, and a session that failed over uses its
    secondary endpoint. *)
Theorem session_follows_events ops s x : session s = None → session (gw_run ops s) = Some x → session_ok (events_of ops) x.
Proof.
  intros Hn. unfold gw_run, events_of. assert (∀ y, session s = Some y → session_ok [] y) as Hs by by rewrite Hn.
  clear Hn. revert s Hs. generalize (@nil Z) as events. induction ops as [|a ops IH]; intros events s Hs; cbn [fold_left]; [apply Hs|].
  apply IH. by apply step_ok.
Qed.
End runs.

(** * Examples *)

Definition flags (streaming : bool) : document := Some (Some (VDict [("defaults", VDict [("paper", VDict [
  ("shadow.gateway.streaming", VBool streaming)])])])).
Definition supervisor0 (d : document) : SessionSupervisor := Supervisor None None d 0 0 world0.
Definition sample_ops : list op := [OStart "https://a" "https://b" "paper" "sse"; OEvent 3; OEvent 8; OEvent 5; OFailover "manual"].
Definition sample_gw `{Env} (ops : list op) (d : document) : SessionSupervisor :=
  gw_run (λ _, fzero) "audit.jsonl" "metrics.jsonl" 30 (λ n, Some (2 <=? Z.of_nat n)) ops (supervisor0 d).

Definition sample_session (u : string) : GatewaySession :=
  Session ("shadow-gw-" +:+ hex_prefix 8 u) "https://a" "https://b" "https://b" "sse" "paper" true (Some 8) "failover".

Lemma session_follows_events_witness : let _ := sample_env in
  session (gw_run (λ _, fzero) "audit.jsonl" "metrics.jsonl" 30 (λ n, Some (2 <=? Z.of_nat n)) sample_ops (supervisor0 (flags true))) =
    Some (sample_session (uuid_at 0)) ∧ events_of sample_ops = [3; 8; 5] ∧ session_ok (events_of sample_ops) (sample_session (uuid_at 0)).
Proof.
  cbv zeta. match goal with |- ?P ∧ _ => assert P as E by (vm_compute; reflexivity) end.
  split; [exact E|]. split; [reflexivity|].
  exact (session_follows_events (H:=sample_env) (λ _, fzero) "audit.jsonl" "metrics.jsonl" 30 (λ n, Some (2 <=? Z.of_nat n)) sample_ops
    (supervisor0 (flags true)) _ eq_refl E).
Defined.

Lemma retries_until_success_witness : let _ := sample_env in ∃ x ok k s',
  execute_with_retry (λ _, fzero) "audit.jsonl" "metrics.jsonl" (λ n, Some (2 <=? Z.of_nat n)) 5 "command.retry"
    (set_session (Some x) (supervisor0 (flags true))) = (Ok (outcome ok k), s') ∧ ok = true ∧ k = 3%nat.
Proof.
  cbv zeta. set (x := Session "s" "a" "b" "a" "sse" "paper" true None "active"). exists x.
  destruct (retries_until_success (H:=sample_env) (λ _, fzero) "audit.jsonl" "metrics.jsonl" (λ n, Some (2 <=? Z.of_nat n)) 5 "command.retry" x
    (set_session (Some x) (supervisor0 (flags true))) eq_refl) as (ok & k & s' & E & _).
  exists ok, k, s'. split; [exact E|]. apply (f_equal fst) in E. cbn [fst] in E.
  match type of E with ?l = _ => assert (l = Ok (outcome true 3)) as E3 by (vm_compute; reflexivity) end.
  rewrite E3 in E. unfold outcome in E. destruct ok; [|discriminate E]. split; [reflexivity|]. injection E as E. lia.
Defined.

(** A lost connection activates a session that its flag disabled: there is no
    client, and it counts as connected. *)
Example disconnect_activates_disabled_session : let _ := sample_env in
  let s := sample_gw [OStart "https://a" "https://b" "paper" "sse"; ODisconnect "timeout"] (flags false) in
  client s = None ∧ (connected <$> session s) = Some true ∧ (state <$> session s) = Some "active".
Proof. vm_compute. by split_and!. Qed.

(** The client of a session that failed over is still that of the first endpoint. *)
Example failover_keeps_the_client : let _ := sample_env in
  let s := sample_gw sample_ops (flags true) in
  (endpoint <$> client s) = Some "https://a" ∧ (active_endpoint <$> session s) = Some "https://b".
Proof. vm_compute. by split. Qed.
