(* ===== verification/Emergency.v ===== *)
(** The emergency orchestrator of [src/emergency/orchestrator.py]: the playbook
    registry, the state file of triggered playbooks, and the operations trigger,
    ack, complete and status.  They refine an ordered board of statuses. *)

From S2P Require Import Prelude PyFloat PyVal PyEnv.

Local Open Scope Z_scope.
Local Open Scope py_scope.

(** * Data *)

(** The ops work log is a stub that drops its entries. *)
Record OpsWorklogEntry := WorklogEntry {
  wl_ts : datetime; wl_task : string; wl_owner : string; wl_source : string; wl_notes : option string }.

Record EmergencyContext := Context_of {
  health_state : string; kill_switch : string; board_mode : string; metrics : dict; ctx_runbook_refs : list string }.

Definition context_to_dict (c : EmergencyContext) : dict := [
  ("health_state", VStr (health_state c)); ("kill_switch", VStr (kill_switch c)); ("board_mode", VStr (board_mode c));
  ("metrics", VDict (metrics c)); ("runbook_refs", VList (map VStr (ctx_runbook_refs c)))].

Record EmergencyPlaybook := Playbook {
  pb_id : string; pb_trigger : string; pb_runbook_refs : list pyval; pb_action_sequence : list pyval; pb_severity : string;
  pb_description : pyval }.

Definition playbook_to_dict (p : EmergencyPlaybook) : dict := [
  ("playbook_id", VStr (pb_id p)); ("trigger", VStr (pb_trigger p)); ("runbook_refs", VList (pb_runbook_refs p));
  ("action_sequence", VList (pb_action_sequence p)); ("severity", VStr (pb_severity p)); ("description", pb_description p)].

(** The last five fields are read back as they are in the file. *)
Record PlaybookState := PState {
  playbook_id : string; status : string; triggered_at : string; trigger_name : string; runbook_refs : list pyval;
  acked_by : pyval; acked_at : pyval; completed_by : pyval; completed_at : pyval; notes : pyval }.

Definition state_to_dict (s : PlaybookState) : dict := [
  ("playbook_id", VStr (playbook_id s)); ("status", VStr (status s)); ("triggered_at", VStr (triggered_at s));
  ("trigger", VStr (trigger_name s)); ("runbook_refs", VList (runbook_refs s)); ("acked_by", acked_by s); ("acked_at", acked_at s);
  ("completed_by", completed_by s); ("completed_at", completed_at s); ("notes", notes s)].

(** * The registry *)

Definition list_of (v : pyval) : res (list pyval) := py_iter (v or? VList []).

Definition parse_playbook (raw : pyval) : res EmergencyPlaybook :=
  id ← get_either raw "id" "playbook_id";
  trigger ← get_either raw "trigger" "id";
  refs ← vget raw "runbook_refs";
  refs ← list_of refs;
  steps ← get_either raw "action_sequence" "steps";
  steps ← list_of steps;
  severity ← vget raw "severity";
  description ← vget raw "description";
  Ok (Playbook (py_str id) (py_str (trigger or? VStr "")) refs steps (py_str (severity or? VStr "critical")) description).

(** The playbooks of the file; an exception leaves the registry as it was. *)
Definition reload (config : document) : res (list EmergencyPlaybook) :=
  match config with
  | None => Ok []
  | Some None => Raise (OtherError "YAMLError" "")
  | Some (Some v) =>
      let payload := v or? VDict [] in
      raw ← vget payload "playbooks";
      raw ← (match raw with VNone => vget_or payload "actions" (VList []) | _ => Ok raw end);
      l ← py_iter (raw or? VList []);
      mapM_res parse_playbook l
  end.

Definition get_by_id (r : list EmergencyPlaybook) (id : string) : option EmergencyPlaybook :=
  List.find (λ p, String.eqb (pb_id p) id) r.
Definition find_by_trigger (r : list EmergencyPlaybook) (t : string) : option EmergencyPlaybook :=
  List.find (λ p, String.eqb (pb_trigger p) t) r.

(** * The orchestrator *)

Record EmergencyOrchestrator := Orchestrator { registry : list EmergencyPlaybook; state_file : document; eo_world : world }.

#[export] Instance orchestrator_world : HasWorld EmergencyOrchestrator.
Proof. refine {| wget := eo_world; wset w o := Orchestrator (registry o) (state_file o) w |}; by intros; try destruct s. Defined.

Definition set_state_file (d : document) (o : EmergencyOrchestrator) : EmergencyOrchestrator := Orchestrator (registry o) d (eo_world o).

Definition select_playbook (r : list EmergencyPlaybook) (trigger : string) (id : option string) : option EmergencyPlaybook :=
  if truthy id then get_by_id r (default "" id) else find_by_trigger r trigger.

Definition parse_state (raw : pyval) : res PlaybookState :=
  let text k dflt := v ← vget raw k; Ok (py_str (v or? VStr dflt)) in
  id ← text "playbook_id" "";
  st ← text "status" "pending";
  at_ ← text "triggered_at" "";
  trigger ← text "trigger" "";
  refs ← vget raw "runbook_refs";
  refs ← list_of refs;
  ab ← vget raw "acked_by"; aa ← vget raw "acked_at"; cb ← vget raw "completed_by"; ca ← vget raw "completed_at"; n ← vget raw "notes";
  Ok (PState id st at_ trigger refs ab aa cb ca n).

Definition load_all_states (d : document) : res (list PlaybookState) :=
  match d with
  | None => Ok []
  | Some None => Raise (OtherError "JSONDecodeError" "")
  | Some (Some payload) => raw ← vget_or payload "playbooks" (VList []); l ← py_iter raw; mapM_res parse_state l
  end.

Definition has_id (id : string) (s : PlaybookState) : bool := String.eqb (playbook_id s) id.
Definition state_document (states : list PlaybookState) : document :=
  Some (Some (VDict [("playbooks", VList (map (VDict ∘ state_to_dict) states))])).

Definition DEFAULT_EVENT_LOG : string := "logs/events/emergency_playbook.jsonl".
Definition DEFAULT_AUDIT_LOG : string := "logs/audit/emergency.jsonl".

Section orchestrator.
Context `{Env}.

Definition all_states : M EmergencyOrchestrator (list PlaybookState) := o ← get; lift (load_all_states (state_file o)).
Definition load_state (id : string) : M EmergencyOrchestrator (option PlaybookState) :=
  l ← all_states; mret (List.find (has_id id) l).

Definition save_state (s : PlaybookState) : M EmergencyOrchestrator unit :=
  l ← all_states;
  modify (set_state_file (state_document (List.filter (λ x, negb (has_id (playbook_id s) x)) l ++ [s]))).

Definition append_event (event : string) (s : PlaybookState) (actor : string) (n : option string) : M EmergencyOrchestrator unit :=
  ts ← utcnow_iso;
  append_jsonl DEFAULT_EVENT_LOG (VDict [("event", VStr event); ("ts", VStr ts); ("playbook_id", VStr (playbook_id s));
    ("status", VStr (status s)); ("actor", VStr actor); ("notes", vopt_str n); ("runbook_refs", VList (runbook_refs s))]).

Definition append_audit (payload : dict) : M EmergencyOrchestrator unit := append_jsonl DEFAULT_AUDIT_LOG (VDict payload).

(** [OpsWorklogService.record] *)
Definition worklog_record (e : OpsWorklogEntry) : M EmergencyOrchestrator unit := mret tt.
Definition record_worklog (task : string) (n : option string) : M EmergencyOrchestrator unit :=
  now ← now_utc; worklog_record (WorklogEntry now task "emergency_orchestrator" "emergency" n).

Definition trigger (name : string) (context : EmergencyContext) (id : option string) (actor : string) (simulate : bool)
    : M EmergencyOrchestrator dict :=
  o ← get;
  match select_playbook (registry o) name id with
  | None => mret [("status", VStr "not_found"); ("trigger", VStr name); ("playbook_id", vopt_str id)]
  | Some p =>
      ts ← utcnow_iso;
      let payload := [("event", VStr "EmergencyPlaybookTriggered"); ("schema_version", VStr "emergency.playbook.v1"); ("ts", VStr ts);
        ("playbook", VDict (playbook_to_dict p)); ("context", VDict (context_to_dict context)); ("actor", VStr actor);
        ("simulated", VBool simulate)] in
      if simulate then mret [("status", VStr "simulated"); ("payload", VDict payload)]
      else
        let s := PState (pb_id p) "pending" ts name (pb_runbook_refs p) VNone VNone VNone VNone VNone in
        _ ← save_state s;
        _ ← append_jsonl DEFAULT_EVENT_LOG (VDict payload);
        _ ← append_audit [("event", VStr "audit.emergency"); ("ts", VStr ts); ("action", VStr "playbook_trigger");
          ("playbook_id", VStr (pb_id p)); ("trigger", VStr name); ("actor", VStr actor); ("runbook_refs", VList (pb_runbook_refs p))];
        mret [("status", VStr "triggered"); ("playbook", VDict (playbook_to_dict p)); ("state", VDict (state_to_dict s))]
  end.

Definition not_found (id : string) : dict := [("status", VStr "not_found"); ("playbook_id", VStr id)].

Definition ack (id : string) (actor : string) (n : option string) : M EmergencyOrchestrator dict :=
  found ← load_state id;
  match found with
  | None => mret (not_found id)
  | Some s =>
      if negb (String.eqb (status s) "pending") then mret [("status", VStr "invalid_state"); ("state", VDict (state_to_dict s))]
      else
        ts ← utcnow_iso;
        let s := PState (playbook_id s) "acknowledged" (triggered_at s) (trigger_name s) (runbook_refs s) (VStr actor) (VStr ts)
          (completed_by s) (completed_at s) (vopt_str n) in
        _ ← save_state s;
        _ ← append_event "EmergencyPlaybookAcked" s actor n;
        _ ← record_worklog "emergency_playbook" (Some ("ack " +:+ id));
        mret [("status", VStr "ok"); ("state", VDict (state_to_dict s))]
  end.

Definition complete (id : string) (actor : string) (st : string) (n : option string) : M EmergencyOrchestrator dict :=
  found ← load_state id;
  match found with
  | None => mret (not_found id)
  | Some s =>
      ts ← utcnow_iso;
      let s := PState (playbook_id s) st (triggered_at s) (trigger_name s) (runbook_refs s) (acked_by s) (acked_at s)
        (VStr actor) (VStr ts) (vopt_str n) in
      _ ← save_state s;
      _ ← append_event "EmergencyPlaybookCompleted" s actor n;
      _ ← append_audit [("event", VStr "audit.emergency"); ("ts", VStr ts); ("action", VStr "playbook_completed");
        ("playbook_id", VStr id); ("actor", VStr actor); ("status", VStr st); ("runbook_refs", VList (runbook_refs s))];
      mret [("status", VStr "ok"); ("state", VDict (state_to_dict s))]
  end.

Definition status_report : M EmergencyOrchestrator (list dict) := l ← all_states; mret (map state_to_dict l).
End orchestrator.

(** * The board: the playbooks and their statuses, the latest change last *)

Definition board : Type := list (string * string).
Definition put (id st : string) (b : board) : board := List.filter (λ x : string * string, negb (String.eqb x.1 id)) b ++ [(id, st)].

(** An empty status is read back as pending. *)
Definition shown (st : string) : string := if String.eqb st "" then "pending" else st.

Inductive op :=
  | OTrigger (name : string) (context : EmergencyContext) (id : option string) (actor : string) (simulate : bool)
  | OAck (id actor : string) (n : option string)
  | OComplete (id actor st : string) (n : option string).

(** What an operation answers and does to the board. *)
Definition board_step (r : list EmergencyPlaybook) (a : op) (b : board) : string * board :=
  match a with
  | OTrigger name _ id _ simulate =>
      match select_playbook r name id with
      | None => ("not_found", b)
      | Some p => if simulate then ("simulated", b) else ("triggered", put (pb_id p) "pending" b)
      end
  | OAck id _ _ =>
      match dlookup id b with
      | None => ("not_found", b)
      | Some st => if String.eqb st "pending" then ("ok", put id "acknowledged" b) else ("invalid_state", b)
      end
  | OComplete id _ st _ => match dlookup id b with None => ("not_found", b) | Some _ => ("ok", put id (shown st) b) end
  end.

Definition board_run (r : list EmergencyPlaybook) (ops : list op) (b : board) : list string * board :=
  fold_left (λ '(answers, b) a, let '(x, b) := board_step r a b in (answers ++ [x], b)) ops ([], b).

Definition entry (s : PlaybookState) : string * string := (playbook_id s, status s).
Definition board_of (d : document) : res board := l ← load_all_states d; Ok (map entry l).

Section refinement.
Context `{Env}.

Definition exec (a : op) : M EmergencyOrchestrator dict :=
  match a with
  | OTrigger name context id actor simulate => trigger name context id actor simulate
  | OAck id actor n => ack id actor n
  | OComplete id actor st n => complete id actor st n
  end.

Fixpoint exec_all (ops : list op) : M EmergencyOrchestrator (list string) :=
  match ops with
  | [] => mret []
  | a :: ops => r ← exec a; l ← exec_all ops; mret (py_str (dget "status" r) :: l)
  end.
End refinement.

(** ** Reading back a saved state *)

Definition with_status (st : string) (s : PlaybookState) : PlaybookState :=
  PState (playbook_id s) st (triggered_at s) (trigger_name s) (runbook_refs s) (acked_by s) (acked_at s) (completed_by s)
    (completed_at s) (notes s).

Lemma parse_state_to_dict s : parse_state (VDict (state_to_dict s)) = Ok (with_status (shown (status s)) s).
Proof.
  destruct s as [id st at_ tr refs ab aa cb ca n]. unfold parse_state. cbn -[py_or py_str]. rewrite !text_or.
  assert (list_of (VList refs) = Ok refs) as -> by by destruct refs.
  unfold with_status, shown. cbn. do 2 f_equal; [by destruct (String.eqb_spec id "")|by destruct (String.eqb_spec at_ "")|by destruct (String.eqb_spec tr "")].
Qed.

Lemma parsed_status raw s : parse_state raw = Ok s → status s ≠ "".
Proof.
  unfold parse_state. intros E. cbv zeta in E. repeat (apply bind_ok in E as (? & ? & E)).
  injection E as <-. cbn. match goal with HH : (v ← vget raw "status"; _) = _ |- _ => apply bind_ok in HH as (v & _ & [= <-]) end.
  unfold py_or. destruct (truthy v) eqn:Ev; [by apply py_str_not_empty|done].
Qed.

Lemma loaded_statuses d l : load_all_states d = Ok l → Forall (λ s, status s ≠ "") l.
Proof.
  destruct d as [[v|]|]; cbn; [|done|by intros [= <-]]. intros E. apply bind_ok in E as (raw & _ & E).
  apply bind_ok in E as (vs & _ & E). apply mapM_res_Forall2 in E. induction E as [|raw' s vs l Hs _ IH]; constructor; [|done].
  by eapply parsed_status.
Qed.

Lemma load_state_document l : load_all_states (state_document l) = Ok (map (λ s, with_status (shown (status s)) s) l).
Proof.
  unfold load_all_states, state_document. cbn. induction l as [|s l IH]; [done|]. cbn -[parse_state].
  rewrite (parse_state_to_dict s). cbn. by rewrite IH.
Qed.

Lemma with_same_status s : with_status (status s) s = s.
Proof. by destruct s. Qed.

(** What the file holds after a save. *)
Definition saved (s : PlaybookState) (l : list PlaybookState) : list PlaybookState :=
  List.filter (λ x, negb (has_id (playbook_id s) x)) l ++ [with_status (shown (status s)) s].

Lemma load_after_save d s l : load_all_states d = Ok l →
  load_all_states (state_document (List.filter (λ x, negb (has_id (playbook_id s) x)) l ++ [s])) = Ok (saved s l).
Proof.
  intros Hl%loaded_statuses. rewrite load_state_document, map_app. unfold saved. do 2 f_equal.
  rewrite <- (map_id (List.filter _ l)) at 2. apply map_ext_in. intros x [Hx _]%filter_In.
  rewrite Forall_forall in Hl. specialize (Hl x (proj2 (list_elem_of_In _ _) Hx)). unfold shown.
  apply String.eqb_neq in Hl as ->. by apply with_same_status.
Qed.

Lemma entries_of_saved s l : map entry (saved s l) = put (playbook_id s) (shown (status s)) (map entry l).
Proof.
  unfold saved, put. rewrite map_app. f_equal. induction l as [|x l IH]; [done|]. cbn. unfold has_id.
  destruct (String.eqb _ _); cbn; [done|]. by rewrite <- IH.
Qed.

Lemma find_entry id l : status <$> List.find (has_id id) l = dlookup id (map entry l).
Proof.
  induction l as [|x l IH]; [done|]. cbn. unfold has_id at 1. rewrite (String.eqb_sym id). by destruct (String.eqb _ _).
Qed.

Lemma find_id id l s : List.find (has_id id) l = Some s → playbook_id s = id.
Proof. intros [_ E]%find_some. by apply String.eqb_eq. Qed.

Section steps.
Context `{Env}.

Lemma all_states_run o l : load_all_states (state_file o) = Ok l → all_states o = (Ok l, o).
Proof. intros E. unfold all_states. rewrite bind_run. cbn [get]. by unfold lift; rewrite E. Qed.

(** A save rewrites the file; the appends after it leave the file and the registry alone. *)
Lemma save_state_run s o l : load_all_states (state_file o) = Ok l → ∃ d, save_state s o = (Ok tt, set_state_file d o) ∧
  load_all_states d = Ok (saved s l).
Proof.
  intros E. eexists. unfold save_state. rewrite bind_run, (all_states_run o l E). split; [reflexivity|]. by eapply load_after_save.
Qed.

Definition same_board (o o' : EmergencyOrchestrator) : Prop := state_file o' = state_file o ∧ registry o' = registry o.

Lemma utcnow_run o : ∃ ts o', utcnow_iso o = (Ok ts, o') ∧ same_board o o'.
Proof. by eexists _, _. Qed.

Lemma load_state_run id o l : load_all_states (state_file o) = Ok l → load_state id o = (Ok (List.find (has_id id) l), o).
Proof. intros E. unfold load_state. by rewrite bind_run, (all_states_run o l E). Qed.

(** An operation on the board of [l]: its answer and the board after it. *)
Definition steps_to (a : op) (o : EmergencyOrchestrator) (b : board) : Prop :=
  ∃ r o', exec a o = (Ok r, o') ∧ py_str (dget "status" r) = (board_step (registry o) a b).1 ∧
  board_of (state_file o') = Ok (board_step (registry o) a b).2 ∧ registry o' = registry o.

(** Read the clock, save the state, and compute what is left. *)
Ltac save_step o l Hl :=
  rewrite bind_run; destruct (utcnow_run o) as (ts & o1 & Et & Hf & Hreg); rewrite Et; cbv zeta; rewrite bind_run;
  match goal with |- context [save_state ?s o1] =>
    let d := fresh "d" in destruct (save_state_run s o1 l) as (d & E & Hd); [by rewrite Hf|]; rewrite E end;
  eexists _, _; split; [reflexivity|]; split_and!; [done| |exact Hreg].
Ltac kept Hb := eexists _, _; split; [reflexivity|]; split_and!; [reflexivity|exact Hb|reflexivity].

Lemma trigger_steps name c id actor sim o b : board_of (state_file o) = Ok b → steps_to (OTrigger name c id actor sim) o b.
Proof.
  intros Hb. unfold steps_to. cbn [exec board_step]. unfold trigger. rewrite bind_run. cbn [get].
  destruct (select_playbook _ _ _) as [p|]; [|kept Hb]. apply bind_ok in Hb as (l & Hl & [= <-]).
  destruct sim; [rewrite bind_run; eexists _, _; split; [reflexivity|]; split_and!; [reflexivity|unfold board_of; cbn; by rewrite Hl|reflexivity]|].
  save_step o l Hl.
  cbn. unfold board_of. rewrite Hd. cbn. by rewrite entries_of_saved.
Qed.

Lemma ack_steps id actor n o b : board_of (state_file o) = Ok b → steps_to (OAck id actor n) o b.
Proof.
  intros Hb. unfold steps_to. cbn [exec board_step]. unfold ack. pose proof Hb as Hb'. apply bind_ok in Hb' as (l & Hl & [= <-]).
  rewrite bind_run, (load_state_run id o l Hl), <- find_entry. destruct (List.find _ _) as [s|] eqn:Es; cbn [fmap option_fmap option_map]; [|kept Hb].
  destruct (String.eqb (status s) "pending"); cbn [negb]; [|kept Hb]. save_step o l Hl.
  cbn. unfold board_of. rewrite Hd. cbn. rewrite entries_of_saved. cbn. by rewrite (find_id _ _ _ Es).
Qed.

Lemma complete_steps id actor st n o b : board_of (state_file o) = Ok b → steps_to (OComplete id actor st n) o b.
Proof.
  intros Hb. unfold steps_to. cbn [exec board_step]. unfold complete. pose proof Hb as Hb'. apply bind_ok in Hb' as (l & Hl & [= <-]).
  rewrite bind_run, (load_state_run id o l Hl), <- find_entry. destruct (List.find _ _) as [s|] eqn:Es; cbn [fmap option_fmap option_map]; [|kept Hb].
  save_step o l Hl.
  cbn. unfold board_of. rewrite Hd. cbn. rewrite entries_of_saved. cbn. by rewrite (find_id _ _ _ Es).
Qed.

Lemma exec_steps a o b : board_of (state_file o) = Ok b → steps_to a o b.
Proof. destruct a; [apply trigger_steps|apply ack_steps|apply complete_steps]. Qed.
End steps.

Lemma board_run_cons r a ops b : board_run r (a :: ops) b =
  ((board_step r a b).1 :: (board_run r ops (board_step r a b).2).1, (board_run r ops (board_step r a b).2).2).
Proof.
  unfold board_run. cbn [fold_left]. destruct (board_step r a b) as [x b']. cbn [fst snd app].
  assert (∀ answers b, fold_left (λ '(answers, b) a, let '(x, b) := board_step r a b in (answers ++ [x], b)) ops (answers, b) =
    (answers ++ (board_run r ops b).1, (board_run r ops b).2)) as H.
  { unfold board_run. induction ops as [|a' ops IH]; intros answers b0; cbn [fold_left]; [by rewrite app_nil_r|].
    destruct (board_step r a' b0) as [x' b'']. rewrite (IH (answers ++ [x'])), (IH ([] ++ [x'])). cbn. by rewrite <- (assoc_L (++)). }
  by rewrite (H [x] b').
Qed.

Lemma board_ids_unique r ops b : NoDup b.*1 → NoDup (board_run r ops b).2.*1.
Proof.
  assert (∀ id st b, NoDup b.*1 → NoDup (put id st b).*1) as Hput.
  { intros id st b0 Hb. unfold put. rewrite fmap_app. apply NoDup_app. split_and!.
    - eapply sublist_NoDup; [done|]. clear. induction b0 as [|x b IH]; [constructor|]. cbn. destruct (negb _); by constructor.
    - intros x [y [-> Hy]]%list_elem_of_fmap Hx%list_elem_of_singleton. apply list_elem_of_In, filter_In in Hy as [_ Hy].
      cbn in Hx, Hy. by rewrite Hx, String.eqb_refl in Hy.
    - apply NoDup_singleton. }
  revert b. induction ops as [|a ops IH]; intros b Hb; [done|]. rewrite board_run_cons. apply IH.
  destruct a; cbn; repeat case_match_goal; first [exact Hb|by apply Hput].
Qed.

(** C14. The orchestrator refines the board: from a readable state file any sequence
    of triggers, acknowledgements and completions returns, answers what the board
    answers, and leaves a readable file that shows the board after the sequence, on which no
    playbook is twice if none was before. *)
Theorem orchestrator_refines_board `{Env} ops o b : board_of (state_file o) = Ok b →
  ∃ o', exec_all ops o = (Ok (board_run (registry o) ops b).1, o') ∧ board_of (state_file o') = Ok (board_run (registry o) ops b).2 ∧
  (NoDup b.*1 → NoDup (board_run (registry o) ops b).2.*1).
Proof.
  revert o b. induction ops as [|a ops IH]; intros o b Hb; [by exists o|].
  destruct (exec_steps a o b Hb) as (r & o1 & E & Hr & Hb1 & Hreg). destruct (IH o1 _ Hb1) as (o2 & E2 & Hb2 & _).
  exists o2. split_and!; [| |apply board_ids_unique].
  - cbn [exec_all]. by rewrite bind_run, E, bind_run, E2, board_run_cons, Hr, Hreg.
  - rewrite board_run_cons. cbn [snd]. rewrite Hreg in Hb2. exact Hb2.
Qed.

(** A state file that cannot be read stops every operation that needs it with the
    error of the reader; the file and all logs stay as they are. *)
Theorem unreadable_file_refuses `{Env} a o e : load_all_states (state_file o) = Raise e →
  (match a with OTrigger name _ id _ simulate => is_Some (select_playbook (registry o) name id) ∧ simulate = false | _ => True end) →
  (exec a o).1 = Raise e ∧ state_file (exec a o).2 = state_file o ∧ w_out (eo_world (exec a o).2) = w_out (eo_world o).
Proof.
  intros Hl Ha. assert (∀ o1, state_file o1 = state_file o → all_states o1 = (Raise e, o1)) as E.
  { intros o1 Ho. unfold all_states. rewrite bind_run. cbn [get]. by unfold lift; rewrite Ho, Hl. }
  destruct a as [name c id actor sim|id actor n|id actor st n]; cbn [exec].
  - destruct Ha as [[p Hp] ->]. unfold trigger. rewrite bind_run. cbn [get]. rewrite Hp, bind_run.
    destruct o as [reg d w]. unfold utcnow_iso. rewrite bind_run. cbn [now_utc]. unfold mret, M_ret. cbv beta iota zeta.
    rewrite bind_run. unfold save_state. rewrite bind_run, E by done. done.
  - unfold ack, load_state. rewrite !bind_run. by rewrite E.
  - unfold complete, load_state. rewrite !bind_run. by rewrite E.
Qed.

(** * Examples *)

Definition sample_book : EmergencyPlaybook := Playbook "PB-1" "data_loss" [VStr "RUN-1"] [VStr "pause"] "critical" VNone.
Definition sample_orchestrator (d : document) : EmergencyOrchestrator := Orchestrator [sample_book] d world0.
Definition sample_context : EmergencyContext := Context_of "critical" "none" "guarded" [] [].
Definition sample_ops : list op := [OAck "PB-1" "ops" None; OTrigger "data_loss" sample_context None "system" false; OAck "PB-1" "ops" None;
  OAck "PB-1" "ops" None; OComplete "PB-1" "ops" "completed" None].

Lemma orchestrator_refines_board_witness : let _ := sample_env in
  ∃ o', exec_all sample_ops (sample_orchestrator None) = (Ok ["not_found"; "triggered"; "ok"; "invalid_state"; "ok"], o') ∧
  board_of (state_file o') = Ok [("PB-1", "completed")] ∧ (NoDup (@nil string) → NoDup ["PB-1"]).
Proof. exact (orchestrator_refines_board (H:=sample_env) sample_ops (sample_orchestrator None) [] eq_refl). Defined.

Lemma unreadable_file_refuses_witness : let _ := sample_env in let o := sample_orchestrator (Some None) in
  (exec (OAck "PB-1" "ops" None) o).1 = Raise (OtherError "JSONDecodeError" "") ∧ state_file (exec (OAck "PB-1" "ops" None) o).2 = state_file o ∧
  w_out (eo_world (exec (OAck "PB-1" "ops" None) o).2) = w_out (eo_world o).
Proof. exact (unreadable_file_refuses (H:=sample_env) (OAck "PB-1" "ops" None) (sample_orchestrator (Some None)) _ eq_refl I). Defined.

(** A playbook completes without an acknowledgement, and a completion with the
    status pending makes it open to one again. *)
Example complete_needs_no_ack : (board_run [sample_book] [OTrigger "data_loss" sample_context None "system" false;
  OComplete "PB-1" "ops" "completed" None; OComplete "PB-1" "ops" "" None; OAck "PB-1" "ops" None] []).1 = ["triggered"; "ok"; "ok"; "ok"].
Proof. reflexivity. Qed.
