(* ===== verification/Snapshot.v ===== *)
(** Snapshots and audit records: [src/core/snapshot.py], [src/persistence/] and
    the digest of [src/utils/hashing.py].  A snapshot is written to a temporary
    file that then replaces the last one; every file operation may fail. *)

From S2P Require Import Prelude PyFloat PyVal PyEnv.

Local Open Scope Z_scope.
Local Open Scope py_scope.

Definition RuntimeError (msg : string) : exn := OtherError "RuntimeError" msg.

(** * The snapshot manager *)

Definition SNAPSHOT_PERSIST_ERROR : string := "snapshot.persist_error".
Definition SNAPSHOT_HASH_ERROR : string := "snapshot.hash_error".
Definition SNAPSHOT_CORRUPTED_ERROR : string := "snapshot.corrupted".
Definition DATA_MISMATCH_DETECTED : string := "snapshot.data_mismatch".
Definition HASH_COMPUTATION_ERROR : string := "snapshot.hash_computation_error".
Definition DEFAULT_DATA_MISMATCH_LOG : string := "logs/events/snapshot.data_mismatch.jsonl".

Record SnapshotPersistResult := Persisted { path : string; checksum : string }.
Record HashComparisonReport := Comparison { expected_hash : string; actual_hash : string; matches : bool }.

(** [latest.json] and [latest.tmp] of the base directory. *)
Record SnapshotManager := Snapshots { latest : document; tmp : document; sn_world : world }.

#[export] Instance snapshots_world : HasWorld SnapshotManager.
Proof. refine {| wget := sn_world; wset w s := Snapshots (latest s) (tmp s) w |}; by intros; try destruct s. Defined.

Definition set_latest (d : document) (s : SnapshotManager) : SnapshotManager := Snapshots d (tmp s) (sn_world s).
Definition set_tmp (d : document) (s : SnapshotManager) : SnapshotManager := Snapshots (latest s) d (sn_world s).

(** [now.isoformat().replace("+00:00", "Z")] *)
Definition snapshot_payload (cfg_hash data_hash : string) (actor : option string) (created_at : datetime) (snapshot : pyval) : dict :=
  [("metadata", VDict [("cfg_hash", VStr cfg_hash); ("data_hash", VStr data_hash); ("actor", vopt_str actor);
     ("created_at", VStr (iso_us_z created_at))]); ("state", snapshot)].

Section snapshots.
Context `{Env}.
(** [hashlib.sha256] of a file, in hexadecimal. *)
Variable sha256 : document → string.
Variable base_path : string.

Definition sha256_path (d : document) : string := "sha256:" +:+ sha256 d.

(** A file operation that may fail: whether it went well. *)
Definition io_step : M SnapshotManager bool := λ s,
  let w := wget s in (Ok (io_ok_at (w_io w)), wset (World (w_tick w) (w_uuid w) (S (w_io w)) (w_out w)) s).

Definition os_error : M SnapshotManager unit := raise (OtherError "OSError" "").
Definition or_fail (ok : bool) : M SnapshotManager unit := if ok then mret tt else os_error.

(** Opening for writing empties the file, a write that fails leaves part of the text. *)
Definition write_tmp (payload : pyval) : M SnapshotManager unit :=
  ok ← io_step;
  _ ← or_fail ok;
  _ ← modify (set_tmp (Some None));
  ok ← io_step;
  _ ← or_fail ok;
  _ ← modify (set_tmp (Some (Some payload)));
  ok ← io_step;
  or_fail ok.

(** [tmp_path.replace(target)] *)
Definition replace_latest : M SnapshotManager unit :=
  ok ← io_step;
  _ ← or_fail ok;
  modify (λ s, set_tmp None (set_latest (tmp s) s)).

Definition digest : M SnapshotManager string :=
  ok ← io_step;
  _ ← or_fail ok;
  s ← get;
  mret (sha256_path (latest s)).

Definition is_os_error (e : exn) : bool := match e with OtherError c _ => String.eqb c "OSError" | _ => false end.

Definition persist (snapshot : pyval) (cfg_hash data_hash : string) (actor : option string) : M SnapshotManager SnapshotPersistResult :=
  if negb (truthy cfg_hash) || negb (truthy data_hash) then raise (RuntimeError SNAPSHOT_HASH_ERROR)
  else
    now ← now_utc;
    let payload := snapshot_payload cfg_hash data_hash actor now snapshot in
    sum ← try_catch (_ ← write_tmp (VDict payload); _ ← replace_latest; digest)
      (λ e, if is_os_error e then Some (raise (RuntimeError SNAPSHOT_PERSIST_ERROR)) else None);
    mret (Persisted (base_path +:+ "/latest.json") sum).

(** [restore]: the state of the file [d]; [target] names it in the error. *)
Definition restore (target : string) (d : document) : res pyval :=
  match d with
  | None => Raise (OtherError "FileNotFoundError" target)
  | Some None => Raise (RuntimeError SNAPSHOT_CORRUPTED_ERROR)
  | Some (Some data) =>
      metadata ← vget data "metadata";
      let metadata := metadata or? VDict [] in
      cfg_hash ← vget metadata "cfg_hash";
      data_hash ← vget metadata "data_hash";
      if negb (truthy cfg_hash) || negb (truthy data_hash) then Raise (RuntimeError SNAPSHOT_HASH_ERROR)
      else vget data "state"
  end.

Definition emit_data_mismatch (data_hash expected : string) : M SnapshotManager unit :=
  ts ← utcnow_iso;
  _ ← try_append_jsonl DEFAULT_DATA_MISMATCH_LOG (VDict [("event", VStr "snapshot.data_mismatch"); ("ts", VStr ts);
    ("source", VStr "snapshot"); ("expected_hash", VStr expected); ("actual_hash", VStr data_hash)]);
  raise (RuntimeError DATA_MISMATCH_DETECTED).

Definition compare_hash (data_hash expected : string) : M SnapshotManager HashComparisonReport :=
  if negb (truthy data_hash) || negb (truthy expected) then raise (RuntimeError HASH_COMPUTATION_ERROR)
  else
    let same := String.eqb data_hash expected in
    _ ← when (negb same) (emit_data_mismatch data_hash expected);
    mret (Comparison expected data_hash same).
End snapshots.

(** ** The plain store of [persistence/snapshot.py] *)

Definition store_save (payload : dict) : document := Some (Some (VDict payload)).
Definition store_load (d : document) : res pyval :=
  match d with
  | None => Ok VNone
  | Some None => Raise (OtherError "JSONDecodeError" "")
  | Some (Some v) => Ok v
  end.

(** * Audit records *)

Section audit.
Context `{Env} {S : Type} `{HasWorld S}.
(** The message of the first schema violation ([jsonschema]). *)
Variable schema_error : dict → option string.

Definition required : list string := ["ts"; "schema_version"; "ticket_id"; "action"; "actor"; "board_mode"; "kill_switch_state"; "spread_status";
  "profit_readiness_status"; "reduce_only"; "risk_disclosure_state"; "cfg_hash"; "data_hash"; "consent_reference_id"; "record_type"; "delta";
  "guardrails"].

Definition first_absent (l : list string) (d : dict) : option string := List.find (λ k, negb (dmem k d)) l.

Definition validate_required_fields (entry : dict) : res unit :=
  let missing := List.filter (λ k, negb (dmem k entry)) (sorted_strings required) in
  if truthy missing then Raise (ValueError ("audit record missing required fields: " +:+ join ", " missing))
  else match dget "delta" entry with
  | VDict delta =>
      match first_absent ["before"; "after"; "diff"; "decision"] delta with
      | Some k => Raise (ValueError ("audit record delta missing required field: " +:+ k))
      | None =>
          match dget "guardrails" entry with
          | VDict guardrails =>
              match first_absent ["kill_switch"; "spread_status"; "reduce_only"] guardrails with
              | Some k => Raise (ValueError ("audit record guardrails missing required field: " +:+ k))
              | None => Ok tt
              end
          | _ => Raise (ValueError "audit record guardrails must be an object")
          end
      end
  | _ => Raise (ValueError "audit record delta must be an object")
  end.

Definition validate_schema (kind : string) (entry : dict) : res unit :=
  match schema_error entry with Some m => Raise (ValueError (kind +:+ " schema validation failed: " +:+ m)) | None => Ok tt end.

(** [AuditLogger.record] *)
Definition log_record (log : string) (payload : dict) : M S dict :=
  _ ← lift (validate_required_fields payload);
  _ ← lift (validate_schema "audit record" payload);
  _ ← append_jsonl log (VDict payload);
  mret payload.

Definition setdefault (k : string) (v : pyval) (d : dict) : dict := if dmem k d then d else dset k v d.

(** The entry of [AuditWriter.record_ticket_action] before it is validated. *)
Definition ticket_entry (payload : dict) : dict :=
  let entry := setdefault "spread_state" (VDict []) payload in
  if dmem "health_status" entry then entry
  else match dget "guardrails" entry with
       | VDict g =>
           match dget "health_state" g or? dget "health_status" g with
           | VNone => entry
           | h => dset "health_status" h entry
           end
       | _ => entry
       end.

Definition record_ticket_action (path compliance_path : string) (payload : dict) : M S dict :=
  let entry := ticket_entry payload in
  _ ← log_record compliance_path entry;
  _ ← append_jsonl path (VDict entry);
  mret entry.

(** [ReleaseAuditLogger.record] *)
Definition release_record (path : string) (payload : dict) : M S dict :=
  let entry := setdefault "schema_version" (VStr "release.audit.v1") payload in
  _ ← lift (validate_schema "release audit" entry);
  _ ← append_jsonl path (VDict entry);
  mret entry.
End audit.

(** * Theorems *)

Section snapshot_theorems.
Context `{Env}.
Variable sha256 : document → string.
Variable base_path : string.

Lemma restore_payload t cfg_hash data_hash actor now snapshot : truthy cfg_hash = true → truthy data_hash = true →
  restore t (Some (Some (VDict (snapshot_payload cfg_hash data_hash actor now snapshot)))) = Ok snapshot.
Proof. intros Hc Hd. cbn. change (truthy (VStr cfg_hash)) with (truthy cfg_hash). change (truthy (VStr data_hash)) with (truthy data_hash). by rewrite Hc, Hd. Qed.

(** Whatever file operation fails, the last snapshot is the old one or the new one. *)
Definition atomic (payload : pyval) (s : SnapshotManager) (r : res string) (s' : SnapshotManager) : Prop :=
  w_out (sn_world s') = w_out (sn_world s) ∧
  match r with
  | Ok sum => latest s' = Some (Some payload) ∧ sum = sha256_path sha256 (latest s')
  | Raise e => e = OtherError "OSError" "" ∧ (latest s' = latest s ∨ latest s' = Some (Some payload))
  end.

Lemma write_and_replace payload s :
  let r := (_ ← write_tmp payload; _ ← replace_latest; digest sha256) s in atomic payload s r.1 r.2.
Proof.
  destruct s as [l t w]. cbv zeta. unfold write_tmp, replace_latest, digest, or_fail, os_error, io_step, mbind, M_bind, mret, M_ret.
  repeat (cbn; match goal with |- context [io_ok_at ?n] => destruct (io_ok_at n) end); unfold atomic; cbn; auto.
Qed.

(** C24. However many file operations fail, a snapshot is persisted completely or the
    last one stays: a result says that the new state can be restored, an error that
    the old file is in place or the new state can be restored. *)
Theorem persist_is_atomic snapshot cfg_hash data_hash actor t s :
  let r := persist sha256 base_path snapshot cfg_hash data_hash actor s in
  w_out (sn_world r.2) = w_out (sn_world s) ∧
  match r.1 with
  | Ok p => restore t (latest r.2) = Ok snapshot ∧ checksum p = sha256_path sha256 (latest r.2)
  | Raise e => e ∈ [RuntimeError SNAPSHOT_HASH_ERROR; RuntimeError SNAPSHOT_PERSIST_ERROR] ∧
      (latest r.2 = latest s ∨ restore t (latest r.2) = Ok snapshot)
  end.
Proof.
  cbv zeta. unfold persist. destruct (truthy cfg_hash) eqn:Hc; cbn [negb orb]; [|cbn; split; [done|]; split; [by left|by left]].
  destruct (truthy data_hash) eqn:Hd; cbn [negb]; [|cbn; split; [done|]; split; [by left|by left]].
  rewrite bind_run. cbn [now_utc]. set (payload := snapshot_payload _ _ _ _ _). set (s1 := wset _ s).
  pose proof (write_and_replace (VDict payload) s1) as Hw. cbv zeta in Hw. rewrite bind_run. unfold try_catch.
  pose proof (restore_payload t cfg_hash data_hash actor (clock_at (w_tick (wget s))) snapshot Hc Hd) as Hr. fold payload in Hr.
  set (m := _ ≫= _) in *. destruct (m s1) as [[sum|e] s2]; destruct Hw as [Ho Hw]; cbn [fst snd] in *.
  - destruct Hw as [Hl ->]. split; [exact Ho|]. change ((mret _ : M SnapshotManager _) s2) with (Ok (Persisted (base_path +:+ "/latest.json") (sha256_path sha256 (latest s2))), s2).
    cbn [fst snd checksum]. rewrite Hl. by split.
  - destruct Hw as [-> Hl]. cbn -[restore]. split; [exact Ho|]. split; [apply elem_of_cons; right; by apply list_elem_of_singleton|]. destruct Hl as [->| ->]; [by left|by right].
Qed.

(** A comparison of hashes returns only for equal ones: a mismatch is logged and
    raised, so a report never says that hashes differ. *)
Theorem compare_hash_returns_iff data_hash expected s rep :
  (compare_hash data_hash expected s).1 = Ok rep ↔ data_hash ≠ "" ∧ data_hash = expected ∧ rep = Comparison expected data_hash true.
Proof.
  unfold compare_hash. change (truthy data_hash) with (negb (String.eqb data_hash "")). change (truthy expected) with (negb (String.eqb expected "")).
  destruct (String.eqb_spec data_hash "") as [->|Hd]; cbn [negb orb]; [cbn; naive_solver|].
  destruct (String.eqb_spec expected "") as [->|He]; cbn [negb]; [cbn; naive_solver|].
  rewrite bind_run. destruct (String.eqb_spec data_hash expected) as [->|Hne]; cbn [when negb]; [cbn; naive_solver|].
  assert (∃ s', emit_data_mismatch data_hash expected s = (Raise (RuntimeError DATA_MISMATCH_DETECTED), s')) as (s' & ->).
  { unfold emit_data_mismatch, utcnow_iso, try_append_jsonl, mbind, M_bind, mret, M_ret. cbn. destruct (io_ok_at _); by eexists. }
  cbn. naive_solver.
Qed.
End snapshot_theorems.

Section audit_theorems.
Context `{Env} {S : Type} `{HasWorld S}.
Variable schema_error : dict → option string.

Lemma none_missing (entry : dict) l k : truthy (List.filter (λ k, negb (dmem k entry)) l) = false → k ∈ l → dmem k entry = true.
Proof.
  intros E Hk. destruct (dmem k entry) eqn:Ek; [done|].
  assert (k ∈ List.filter (λ k, negb (dmem k entry)) l) as Hin.
  { apply list_elem_of_In, filter_In. split; [by apply list_elem_of_In|by rewrite Ek]. }
  destruct (List.filter _ _); [by apply elem_of_nil in Hin|done].
Qed.

Lemma required_fields_ok entry : validate_required_fields entry = Ok tt → ∀ k, k ∈ required → dmem k entry = true.
Proof.
  intros E k Hk. unfold validate_required_fields in E. cbv zeta in E.
  pose proof (proj2 (elem_of_isort str_ltb k required) Hk) as Hk'. fold (sorted_strings required) in Hk'.
  set (l := sorted_strings required) in *. clearbody l. destruct (truthy _) eqn:Em; [discriminate E|]. by eapply none_missing.
Qed.

Lemma validate_required_fields_err entry e : validate_required_fields entry = Raise e → ∃ m, e = ValueError m.
Proof.
  unfold validate_required_fields. cbv zeta. set (l := sorted_strings required). clearbody l.
  destruct (truthy _); [intros [= <-]; by eexists|]. destruct (dget "delta" entry); try (intros [= <-]; by eexists).
  destruct (first_absent _ _); [intros [= <-]; by eexists|]. destruct (dget "guardrails" entry); try (intros [= <-]; by eexists).
  destruct (first_absent _ _); [intros [= <-]; by eexists|done].
Qed.

(** A ticket action is either refused with a [ValueError] and leaves no trace, or
    its complete and schema-conforming entry is appended to the compliance log and
    then to the raw log. *)
Theorem ticket_action_logged path compliance_path payload (s : S) :
  let r := record_ticket_action schema_error path compliance_path payload s in
  match r.1 with
  | Ok entry => (∀ k, k ∈ required → dmem k entry = true) ∧ schema_error entry = None ∧
      w_out (wget r.2) = w_out (wget s) ++ [(compliance_path, VDict entry); (path, VDict entry)]
  | Raise e => (∃ m, e = ValueError m) ∧ r.2 = s
  end.
Proof.
  cbv zeta. unfold record_ticket_action, log_record, validate_schema. set (entry := ticket_entry payload). rewrite !bind_run. unfold lift.
  destruct (validate_required_fields entry) as [[]|e] eqn:Ev; [|split; [by eapply validate_required_fields_err|done]].
  destruct (schema_error entry) as [m|] eqn:Es; [split; [by eexists|done]|].
  unfold append_jsonl, mbind, M_bind, mret, M_ret. cbn -[required]. rewrite !wget_wset. cbn -[required]. split; [by apply required_fields_ok|]. split; [done|]. by rewrite <- (assoc_L (++)).
Qed.
End audit_theorems.
