(* ===== verification/Workflow.v ===== *)
(** The pipeline workflow of [src/core/workflow.py] and the dependency registry
    of [src/infra/registry.py]. *)

From S2P Require Import Prelude PyFloat PyVal.

Local Open Scope Z_scope.

(** * The pipeline *)

Section workflow.
(** The session container a workflow carries along. *)
Context {Session : Type}.

Record WorkflowContext := WfContext { session : Session; step_sequence : list string; planned_steps : list string }.
Record WorkflowResult := WfResult { completed : bool; next_steps : list string }.
Record PipelineStep := Step { name : string; handler : WorkflowContext → res WorkflowContext }.

Definition with_sequence (l : list string) (c : WorkflowContext) : WorkflowContext := WfContext (session c) l (planned_steps c).
Definition with_planned (l : list string) (c : WorkflowContext) : WorkflowContext := WfContext (session c) (step_sequence c) l.

Definition register (w : list PipelineStep) (s : PipelineStep) : res (list PipelineStep) :=
  if existsb (λ e, String.eqb (name e) (name s)) w then Raise (ValueError ("Workflow step " +:+ str_repr (name s) +:+ " already registered"))
  else Ok (w ++ [s]).

Definition plan (w : list PipelineStep) : list string := map name w.

(** The loop of [run] over the steps that are left; the context is the one the
    last step returned. *)
Fixpoint run_steps (steps : list PipelineStep) (executed : list string) (c : WorkflowContext) : res (WorkflowResult * WorkflowContext) :=
  match steps with
  | [] => Ok (WfResult true [], with_sequence executed c)
  | s :: steps =>
      let executed := executed ++ [name s] in
      let c := with_sequence executed c in
      match handler s c with
      | Ok c => run_steps steps executed c
      | Raise StopIteration => Ok (WfResult false (plan steps), c)
      | Raise e => Raise e
      end
  end.

Definition run (w : list PipelineStep) (c : WorkflowContext) : res (WorkflowResult * WorkflowContext) :=
  run_steps w [] (if truthy (planned_steps c) then c else with_planned (plan w) c).
End workflow.
Arguments WorkflowContext : clear implicits.
Arguments PipelineStep : clear implicits.

(** * The registry *)

Section registry.
(** Objects, [None] being Python's, and the state the factories work on. *)
Context {Obj S : Type}.

Record RegistryEntry := Entry { factory : M S (option Obj); singleton : bool; instance : option Obj }.
Definition DependencyRegistry : Type := list (string * RegistryEntry).

Definition DependencyNotFoundError (n : string) : exn := OtherError "DependencyNotFoundError" n.

Definition register_factory (n : string) (f : M S (option Obj)) (single : bool) (r : DependencyRegistry) : DependencyRegistry :=
  dset n (Entry f single None) r.
Definition register_instance (n : string) (o : option Obj) (r : DependencyRegistry) : DependencyRegistry :=
  dset n (Entry (mret o) true o) r.

Definition with_instance (o : option Obj) (e : RegistryEntry) : RegistryEntry := Entry (factory e) (singleton e) o.

Definition resolve (n : string) : M (DependencyRegistry * S) (option Obj) := λ '(r, s),
  match dlookup n r with
  | None => (Raise (DependencyNotFoundError n), (r, s))
  | Some e =>
      if singleton e then
        match instance e with
        | Some o => (Ok (Some o), (r, s))
        | None =>
            match factory e s with
            | (Ok o, s) => (Ok o, (dset n (with_instance o e) r, s))
            | (Raise x, s) => (Raise x, (r, s))
            end
        end
      else let '(o, s) := factory e s in (o, (r, s))
  end.

Definition has (n : string) (r : DependencyRegistry) : bool := dmem n r.
Definition list_names (r : DependencyRegistry) : list string := sorted_strings (keys r).

Definition reset (n : option string) (r : DependencyRegistry) : DependencyRegistry :=
  match n with
  | None => map (λ x, (x.1, with_instance None x.2)) r
  | Some n => match dlookup n r with Some e => dset n (with_instance None e) r | None => r end
  end.
End registry.
Arguments RegistryEntry : clear implicits.
Arguments DependencyRegistry : clear implicits.

(** * Theorems *)

Section workflow_theorems.
Context {Session : Type}.
Abbreviation context := (WorkflowContext Session).

(** The steps that were executed and returned, from one context to another. *)
Inductive executes : list (PipelineStep Session) → list string → context → list string → context → Prop :=
  | executes_nil done c : executes [] done c done c
  | executes_cons s l done c c1 done' c' : handler s (with_sequence (done ++ [name s]) c) = Ok c1 →
      executes l (done ++ [name s]) c1 done' c' → executes (s :: l) done c done' c'.

(** How the steps of a run end: all of them return, or the first that does not stops
    the run or raises. *)
Definition run_outcome (w : list (PipelineStep Session)) (done : list string) (c : context) (r : res (WorkflowResult * context)) : Prop :=
  (∃ c', executes w done c (done ++ plan w) c' ∧ r = Ok (WfResult true [], with_sequence (done ++ plan w) c')) ∨
  (∃ before s after c', w = before ++ s :: after ∧ executes before done c (done ++ plan before) c' ∧
    let c1 := with_sequence (done ++ plan (before ++ [s])) c' in ∃ e, handler s c1 = Raise e ∧
    r = match e with StopIteration => Ok (WfResult false (plan after), c1) | _ => Raise e end).

Lemma run_steps_outcome w done c : run_outcome w done c (run_steps w done c).
Proof.
  revert done c. induction w as [|s w IH]; intros done c.
  { left. exists c. cbn. rewrite app_nil_r. split; [constructor|done]. }
  cbn [run_steps]. cbv zeta. destruct (handler s (with_sequence (done ++ [name s]) c)) as [c1|e] eqn:Eh.
  - assert (∀ l, (done ++ [name s]) ++ plan l = done ++ plan (s :: l)) as Hp by (intros; by rewrite <- (assoc_L (++))).
    destruct (IH (done ++ [name s]) c1) as [(c' & He & ->)|(before & s' & after & c' & -> & He & Hr)]; [left|right].
    + exists c'. rewrite Hp in *. split; [by econstructor|done].
    + exists (s :: before), s', after, c'. rewrite !Hp in *. split; [done|]. split; [by econstructor|exact Hr].
  - right. exists [], s, w, c. split; [done|]. split; [rewrite app_nil_r; constructor|]. exists e. split; [exact Eh|]. by destruct e.
Qed.

(** A workflow executes its steps in the order of their registration, each on the
    context the one before returned, until one does not return: [StopIteration] ends
    it with the names of the steps that are left, any other exception escapes; it is
    completed exactly when every step returned. *)
Theorem run_executes_in_order w (c : context) : run_outcome w [] (if truthy (planned_steps c) then c else with_planned (plan w) c) (run w c).
Proof. apply run_steps_outcome. Qed.

Lemma registered_names_unique w (s : PipelineStep Session) w' : register w s = Ok w' → NoDup (plan w) → NoDup (plan w').
Proof.
  unfold register. destruct (existsb _ w) eqn:E; [done|]. intros [= <-] Hw. unfold plan. rewrite map_app. apply NoDup_app.
  split_and!; [done| |apply NoDup_singleton]. intros n (x & <- & Hx)%list_elem_of_In%in_map_iff Hn%list_elem_of_singleton.
  assert (existsb (λ e, String.eqb (name e) (name s)) w = true) as Et; [|congruence].
  apply existsb_exists. exists x. by rewrite Hn, String.eqb_refl.
Qed.
End workflow_theorems.

Section registry_theorems.
Context {Obj S : Type}.
Abbreviation registry := (DependencyRegistry Obj S).

Inductive rop := ROther (n : string) (e : RegistryEntry Obj S) | RResolve (n : string) | RReset (n : string).

(** Registrations and resets of other names, and resolutions of any. *)
Definition rstep (a : rop) (st : registry * S) : registry * S :=
  match a with
  | ROther n e => (dset n e st.1, st.2)
  | RResolve n => (resolve n st).2
  | RReset n => (reset (Some n) st.1, st.2)
  end.
Definition leaves (n : string) (a : rop) : Prop := match a with ROther n' _ | RReset n' => n' ≠ n | RResolve _ => True end.

Lemma rstep_keeps n e a st : leaves n a → dlookup n st.1 = Some e → singleton e = true → is_Some (instance e) →
  dlookup n (rstep a st).1 = Some e.
Proof.
  destruct st as [r s]. intros Ha Hn Hs [o Ho]. destruct a as [n' e'|n'|n']; cbn in *.
  - by rewrite dlookup_dset_ne by congruence.
  - destruct (String.eqb_spec n' n) as [->|Hne].
    + rewrite Hn, Hs, Ho. exact Hn.
    + destruct (dlookup n' r) as [e'|] eqn:E'; [|done]. destruct (singleton e'); [|by destruct (factory e' s)].
      destruct (instance e'); [done|]. destruct (factory e' s) as [[o'|x] s']; cbn; [by rewrite dlookup_dset_ne|done].
  - destruct (dlookup n' r); cbn; [by rewrite dlookup_dset_ne|done].
Qed.

(** The factory of a singleton runs once: after a resolution that gave an object,
    whatever is resolved, registered or reset under other names, every later
    resolution gives the same object and leaves the state of the factories alone. *)
Theorem singleton_created_once n e (r r1 : registry) (s s1 : S) o ops : dlookup n r = Some e → singleton e = true →
  resolve n (r, s) = (Ok (Some o), (r1, s1)) → Forall (leaves n) ops →
  let st := fold_left (λ st a, rstep a st) ops (r1, s1) in resolve n st = (Ok (Some o), st).
Proof.
  intros Hn Hs E Hops. assert (∃ e1, dlookup n r1 = Some e1 ∧ singleton e1 = true ∧ instance e1 = Some o) as (e1 & H1 & Hs1 & Ho1).
  { unfold resolve in E. rewrite Hn, Hs in E. destruct (instance e) as [o'|] eqn:Ei; [simplify_eq; by exists e|].
    destruct (factory e s) as [[o'|x] s']; [|done]. injection E as -> <- <-. exists (with_instance (Some o) e). by rewrite dlookup_dset_eq. }
  cbv zeta. change r1 with (r1, s1).1 in H1. clear E Hn Hs. revert H1. generalize (r1, s1) as st. induction Hops as [|a ops Ha _ IH]; intros st H1.
  - destruct st as [r2 s2]. cbn in *. by rewrite H1, Hs1, Ho1.
  - cbn [fold_left]. apply IH. apply rstep_keeps; [done..|by eexists].
Qed.
End registry_theorems.

(** * Examples *)

Definition counter : M nat (option nat) := λ n, (Ok (Some n), S n).
Definition sample_registry : DependencyRegistry nat nat := register_factory "clock" counter true [].

Lemma singleton_created_once_witness : resolve "clock" (sample_registry, 7%nat) = (Ok (Some 7%nat), (resolve "clock" (sample_registry, 7%nat)).2) ∧
  let st := fold_left (λ st a, rstep a st) [ROther "bus" (Entry counter false None); RResolve "bus"; RResolve "clock"]
    (resolve "clock" (sample_registry, 7%nat)).2 in resolve "clock" st = (Ok (Some 7%nat), st).
Proof.
  split; [reflexivity|]. apply (singleton_created_once "clock" (Entry counter true None) sample_registry _ 7%nat _ 7%nat); [reflexivity..|].
  repeat constructor; done.
Defined.

(** A factory that gives [None] runs again at every resolution. *)
Example none_is_not_cached : let f : M nat (option nat) := λ n, (Ok None, S n) in
  let st := (resolve "x" (register_factory "x" f true [], 0%nat)).2 in (resolve "x" st).2.2 = 2%nat.
Proof. reflexivity. Qed.
