(* ===== verification/HealthStore.v ===== *)
(** The persisted health state of [src/core/health_store.py] and the escalation
    job of [src/core/health_jobs.py]: a state file, a history of transitions, a
    ledger of acknowledgements, and the counters computed from them. *)

From S2P Require Import Prelude PyFloat PyVal PyEnv Calendar EventBus.

Local Open Scope Z_scope.
Local Open Scope py_scope.

(** * Time *)

(** [value.replace("Z", "+00:00")] read as a time; whatever fails gives [None]. *)
Definition parse_ts (value : pyval) : option datetime :=
  if truthy value then match value with VStr s => fromisoformat (replace_char "Z" "+00:00" s) | _ => None end else None.

(** [ts.isoformat().replace("+00:00", "Z")]: the text occurs in no other place than
    the offset. *)
Definition iso_text (d : datetime) : string :=
  match dt_tz d with
  | Some z => if in_range 0 z 59 then iso_us_z d +:+ (if z =? 0 then "" else ":" +:+ pad2 z) else isoformat d
  | None => isoformat d
  end.

(** [a < b] *)
Definition dt_lt (a b : datetime) : res bool :=
  if Bool.eqb (is_naive a) (is_naive b) then Ok (utc_us a <? utc_us b)
  else Raise (TypeError "can't compare offset-naive and offset-aware datetimes").

(** [max(l)] of a list that is not empty. *)
Fixpoint dt_max_from (m : datetime) (l : list datetime) : res datetime :=
  match l with
  | [] => Ok m
  | d :: l => b ← dt_lt m d; dt_max_from (if b : bool then d else m) l
  end.

(** Days are counted from the epoch, a Thursday; Monday is 0. *)
Definition date_of (d : datetime) : Z := days_from_civil (dt_year d) (dt_month d) (dt_day d).
Definition weekday (day : Z) : Z := (day + 3) mod 7.
Definition last_date : Z := days_from_civil 9999 12 31.
Definition next_date (day : Z) : res Z := if day <? last_date then Ok (day + 1) else Raise (OverflowError "date value out of range").

(** [while cursor <= end_date]; [None] only without fuel. *)
Fixpoint count_from (fuel : nat) (cursor end_date count : Z) : option (res Z) :=
  if end_date <? cursor then Some (Ok count)
  else match fuel with
  | O => None
  | S fuel =>
      match next_date cursor with
      | Ok next => count_from fuel next end_date (if weekday cursor <? 5 then count + 1 else count)
      | Raise e => Some (Raise e)
      end
  end.

Definition business_days_since (start : option datetime) (end_ : datetime) : res Z :=
  match start with
  | None => Ok 0
  | Some start =>
      let start_date := date_of start in
      let end_date := date_of end_ in
      if end_date <=? start_date then Ok 0
      else
        cursor ← next_date start_date;
        default (Raise (OtherError "RecursionError" "out of fuel")) (count_from (Z.to_nat (end_date - start_date)) cursor end_date 0)
  end.

(** * The store *)

Record HealthStateSummary := Summary {
  current_state : string; last_ok_ts : pyval; rolling_30d_degraded_count : Z; business_days_since_last_ok : Z }.

Definition summary_to_dict (s : HealthStateSummary) : dict := [
  ("current_state", VStr (current_state s)); ("last_ok_ts", last_ok_ts s);
  ("rolling_30d_degraded_count", VInt (rolling_30d_degraded_count s)); ("business_days_since_last_ok", VInt (business_days_since_last_ok s))].

Record HealthStateStore := Store { state_file : document; history_file : file; hs_world : world }.

#[export] Instance health_store_world : HasWorld HealthStateStore.
Proof. refine {| wget := hs_world; wset w s := Store (state_file s) (history_file s) w |}; by intros; try destruct s. Defined.

Definition DEFAULT_ACK_LEDGER_PATH : string := "data/health/degraded_ack_ledger.jsonl".

Definition load_summary (d : document) : res HealthStateSummary :=
  match d with
  | None => Ok (Summary "ok" VNone 0 0)
  | Some None => Raise (OtherError "JSONDecodeError" "")
  | Some (Some payload) =>
      st ← vget payload "current_state";
      ok ← vget payload "last_ok_ts";
      n ← vget payload "rolling_30d_degraded_count"; n ← py_int (n or? VInt 0);
      d ← vget payload "business_days_since_last_ok"; d ← py_int (d or? VInt 0);
      Ok (Summary (py_str (st or? VStr "ok")) ok n d)
  end.

(** The history: the lines that decode. *)
Definition read_history (f : file) : list pyval := omap (λ l, match l with LJson v => Some v | _ => None end) (file_lines f).

Definition to_state_of (entry : pyval) : res string := t ← get_either entry "to" "to_state"; Ok (lower (py_str (t or? VStr ""))).

Definition ok_time (entry : pyval) : res (option datetime) :=
  st ← to_state_of entry;
  if String.eqb st "ok" then (t ← vget entry "ts"; Ok (parse_ts t)) else Ok None.

Definition latest_ok_ts (history : list pyval) : res (option datetime) :=
  times ← mapM_res ok_time history;
  match omap id times with
  | [] => Ok None
  | d :: l => m ← dt_max_from d l; Ok (Some m)
  end.

Definition counts_as_degraded (cutoff : datetime) (entry : pyval) : res bool :=
  t ← vget entry "ts";
  match parse_ts t with
  | None => Ok false
  | Some ts =>
      old ← dt_lt ts cutoff;
      if old : bool then Ok false else (st ← to_state_of entry; Ok (str_in st ["degraded"; "soft_stop"; "hard_stop"]))
  end.

Definition days_us (n : Z) : Z := n * 86400000000.

Definition rolling_degraded_count (history : list pyval) (now : datetime) : res Z :=
  cutoff ← dt_add now (- days_us 30);
  l ← filterM_res (counts_as_degraded cutoff) history;
  Ok (Z.of_nat (length l)).

Definition level_states : list (string * string) := [("ok", "ok"); ("info", "ok"); ("warn", "warn"); ("warning", "warn"); ("degraded", "degraded");
  ("soft_stop", "soft_stop"); ("critical", "soft_stop"); ("hard_stop", "hard_stop"); ("fatal", "hard_stop")].

(** [a or b or c ...] on the values of keys. *)
Fixpoint first_truthy (ks : list string) (d : dict) : pyval :=
  match ks with
  | [] => VNone
  | [k] => dget k d
  | k :: ks => dget k d or? first_truthy ks d
  end.

Definition resolve_to_state (event : dict) (fallback : string) : string :=
  let to_state := first_truthy ["to_state"; "to"; "status"] event in
  if truthy to_state then py_str to_state
  else default fallback (dlookup (lower (py_str (dget "level" event or? VStr ""))) level_states).

Definition set_state (d : document) (s : HealthStateStore) : HealthStateStore := Store d (history_file s) (hs_world s).
Definition push_history (v : pyval) (s : HealthStateStore) : HealthStateStore :=
  Store (state_file s) (Some (file_lines (history_file s) ++ [LJson v])) (hs_world s).

Section store.
Context `{Env}.

Definition load_state : M HealthStateStore HealthStateSummary := s ← get; lift (load_summary (state_file s)).
Definition write_state (x : HealthStateSummary) : M HealthStateStore unit := modify (set_state (Some (Some (VDict (summary_to_dict x))))).

Definition refresh_counters (summary : option HealthStateSummary) (now : option datetime) : M HealthStateStore HealthStateSummary :=
  x ← (match summary with Some x => mret x | None => load_state end);
  now ← (match now with Some d => mret d | None => now_utc end);
  s ← get;
  let history := read_history (history_file s) in
  last_ok ← lift (latest_ok_ts history);
  let ok := match last_ok with Some d => VStr (iso_text d) | None => last_ok_ts x end in
  n ← lift (rolling_degraded_count history now);
  d ← lift (business_days_since (parse_ts ok) now);
  mret (Summary (current_state x) ok n d).

(** The line a transition leaves in the history. *)
Definition transition_entry (event : dict) (from_state to_state : string) (ts : datetime) : dict := [
  ("ts", VStr (iso_text ts)); ("from", VStr from_state); ("to", VStr to_state);
  ("reason", first_truthy ["reason"; "code"; "detail"] event); ("alert_id", dget "alert_id" event); ("runbook_ref", dget "runbook_ref" event)].

Definition record_transition (event : dict) : M HealthStateStore HealthStateSummary :=
  x ← load_state;
  ts ← (match parse_ts (VStr (py_str (dget "ts" event or? VStr ""))) with Some d => mret d | None => now_utc end);
  let from_state := py_str (first_truthy ["from_state"; "from"] event or? VStr (current_state x)) in
  let to_state := resolve_to_state event (current_state x) in
  _ ← modify (push_history (VDict (transition_entry event from_state to_state ts)));
  let ok := if String.eqb to_state "ok" then VStr (iso_text ts) else last_ok_ts x in
  x ← refresh_counters (Some (Summary to_state ok (rolling_30d_degraded_count x) (business_days_since_last_ok x))) (Some ts);
  _ ← write_state x;
  mret x.

Definition record_degraded_ack (ack : dict) : M HealthStateStore Z :=
  x ← load_state;
  now ← now_utc;
  seq ← lift (business_days_since (parse_ts (last_ok_ts x)) now);
  ts ← utcnow_iso;
  _ ← append_jsonl DEFAULT_ACK_LEDGER_PATH (VDict [("ack_id", first_truthy ["ack_id"; "id"] ack); ("actor", first_truthy ["actor"; "user"] ack);
    ("source", dget "source" ack or? VStr "cli"); ("reason", dget "reason" ack); ("stage_after", first_truthy ["stage_after"; "status"] ack);
    ("runbook_ref", dget "runbook_ref" ack); ("business_day_seq", VInt seq); ("ts", VStr ts)]);
  _ ← write_state (Summary (current_state x) (last_ok_ts x) (rolling_30d_degraded_count x) seq);
  mret seq.

(** [list_history] with [since] in microseconds. *)
Definition recent (cutoff : datetime) (entry : pyval) : res bool :=
  t ← vget entry "ts"; match parse_ts t with Some ts => dt_le cutoff ts | None => Ok false end.

Definition list_history (since : option Z) (now : option datetime) : M HealthStateStore (list pyval) :=
  s ← get;
  let history := read_history (history_file s) in
  match since with
  | None => mret history
  | Some us =>
      now ← (match now with Some d => mret d | None => now_utc end);
      cutoff ← lift (dt_add now (- us));
      lift (filterM_res (recent cutoff) history)
  end.
End store.

(** * The escalation job *)

Record HealthEscalationJob := Job { js_store : HealthStateStore; js_bus : option EventBus }.

#[export] Instance job_world : HasWorld HealthEscalationJob.
Proof.
  refine {| wget j := hs_world (js_store j); wset w j := Job (wset w (js_store j)) (js_bus j) |}; intros; try done.
  by destruct s as [[? ? ?] ?].
Defined.

Definition DEFAULT_ESCALATION_LOG : string := "logs/events/health_escalate.jsonl".

Record Escalation := EscalationRules {
  business_days_threshold : Z; rolling_count_threshold : Z; calendar_version : string; esc_runbook_ref : string }.
Record HealthEscalationResult := EscalationResult { summary : HealthStateSummary; escalated : bool; event_payload : option dict }.

Definition should_escalate (c : Escalation) (x : HealthStateSummary) : bool :=
  (business_days_threshold c <=? business_days_since_last_ok x) || (rolling_count_threshold c <=? rolling_30d_degraded_count x).

Section job.
Context `{Env}.
Variable epoch_at mono_at : nat → float.
Variable size_of : list line → Z.
Variable st_mtime : nat → string → float.
Variable bus_config : EventBusConfig.
Variable c : Escalation.

Definition in_store {A} (m : M HealthStateStore A) : M HealthEscalationJob A := zoom js_store (λ x j, Job x (js_bus j)) m.

(** [publish] up to its first suspension. *)
Definition publish_escalation (payload : dict) : M HealthEscalationJob unit :=
  j ← get;
  match js_bus j with
  | None => mret tt
  | Some b =>
      _ ← zoom (λ j, default b (js_bus j)) (λ b j, Job (js_store j) (Some b))
        (publish epoch_at mono_at size_of st_mtime bus_config (VDict payload) (Some "health.escalate") [] true);
      mret tt
  end.

Definition run_job : M HealthEscalationJob HealthEscalationResult :=
  x ← in_store (x ← refresh_counters None None; _ ← write_state x; mret x);
  if should_escalate c x then
    ts ← utcnow_iso;
    let payload := [("event", VStr "health.escalate"); ("ts", VStr ts);
      ("business_days_since_last_ok", VInt (business_days_since_last_ok x)); ("rolling_30d_degraded_count", VInt (rolling_30d_degraded_count x));
      ("calendar_version", VStr (calendar_version c)); ("runbook_ref", VStr (esc_runbook_ref c))] in
    _ ← append_jsonl DEFAULT_ESCALATION_LOG (VDict payload);
    _ ← publish_escalation payload;
    mret (EscalationResult x true (Some payload))
  else mret (EscalationResult x false None).
End job.

(** * Times read back as they were written *)

Lemma iso_plain d : valid_dt d = true → has_char "Z"%char (isoformat d) = false.
Proof.
  intros Hv. unfold valid_dt, valid_tz, in_range in Hv. to_props. pose proof (days_in_month_bound (dt_year d) (dt_month d)).
  unfold isoformat, iso_date, iso_clock, pad4. rewrite !has_char_app, !pad2_plain by zdiv.
  assert (has_char "Z" (if dt_micro d =? 0 then "" else "." +:+ pad6 (dt_micro d)) = false) as ->.
  { destruct (dt_micro d =? 0); [done|]. unfold pad6, pad4. rewrite !has_char_app, !pad2_plain by zdiv. done. }
  destruct (dt_tz d) as [z|]; cbn [iso_offset]; [|done]. unfold in_range in *. to_props. rewrite !has_char_app, !pad2_plain by zdiv.
  destruct (z <? 0), (Z.abs z mod 60 =? 0); cbn [orb]; rewrite ?has_char_app, ?pad2_plain by zdiv; done.
Qed.

Lemma iso_text_not_empty d : iso_text d ≠ "".
Proof.
  unfold iso_text, iso_us_z. assert (∀ e, isoformat e ≠ "") as H by (intros e; unfold isoformat, iso_date, pad4, pad2; cbn; discriminate).
  destruct (dt_tz d); [|apply H]. destruct (in_range _ _ _); [|apply H]. apply app_not_empty_l, app_not_empty_l, H.
Qed.

Lemma parse_iso_text d : valid_dt d = true → parse_ts (VStr (iso_text d)) = Some d.
Proof.
  intros Hv. unfold parse_ts. change (truthy (VStr (iso_text d))) with (negb (String.eqb (iso_text d) "")).
  rewrite (proj2 (String.eqb_neq _ _) (iso_text_not_empty d)). cbn [negb]. rewrite <- (fromisoformat_isoformat d Hv). f_equal.
  unfold iso_text. destruct (dt_tz d) as [z|] eqn:Ez; [|apply replace_char_absent; by apply iso_plain].
  destruct (in_range 0 z 59) eqn:Er; [|apply replace_char_absent; by apply iso_plain]. unfold in_range in Er. to_props.
  unfold iso_us_z. rewrite !replace_char_app. rewrite replace_char_absent.
  - unfold isoformat. cbn [dt_tz dt_year dt_month dt_day dt_hour dt_minute dt_second dt_micro iso_offset]. rewrite Ez. cbn [iso_offset].
    rewrite (proj2 (Z.ltb_ge z 0)) by lia. rewrite (Z.abs_eq z) by lia. rewrite (Z.div_small z 3600), (Z.div_small z 60), (Z.mod_small z 60) by lia.
    rewrite !string_app_nil_r, !string_app_assoc. unfold iso_date, iso_clock. cbn [dt_year dt_month dt_day dt_hour dt_minute dt_second dt_micro].
    assert (replace_char "Z" "+00:00" (if z =? 0 then "" else ":" +:+ pad2 z) = if z =? 0 then "" else ":" +:+ pad2 z) as ->.
    { destruct (z =? 0); [done|]. apply replace_char_absent. rewrite has_char_app. by rewrite pad2_plain by lia. }
    change (replace_char "Z" "+00:00" "Z") with ("+" +:+ pad2 0 +:+ ":" +:+ pad2 (0 mod 60)). by rewrite !string_app_assoc.
  - apply (iso_plain (DateTime _ _ _ _ _ _ _ None)). revert Hv. unfold valid_dt. cbn. rewrite !andb_true_iff. naive_solver.
Qed.

(** * Times that are far from the ends of the calendar *)

Definition plain_time (d : datetime) : Prop := valid_dt d = true ∧ is_naive d = false ∧ 2 <= dt_year d <= 9998.

Lemma plain_day d : plain_time d → days_from_civil 2 1 1 <= date_of d < last_date.
Proof.
  intros (Hv & _ & Hy). unfold valid_dt, in_range in Hv. to_props. pose proof (days_in_month_bound (dt_year d) (dt_month d)).
  unfold date_of, last_date. change (days_from_civil 2 1 1) with (-718797). change (days_from_civil 9999 12 31) with 2932896.
  unfold days_from_civil. set (y := dt_year d) in *. set (m := dt_month d) in *. set (a := dt_day d) in *. clearbody y m a.
  destruct (Z.leb_spec m 2), (Z.ltb_spec 2 m); try lia; cbv zeta; zdiv.
Qed.

Lemma month_before d : plain_time d → ∃ c, dt_add d (- days_us 30) = Ok c ∧ utc_us c = utc_us d - days_us 30 ∧ is_naive c = false.
Proof.
  intros Hp. pose proof (plain_day d Hp) as Hd. destruct Hp as (Hv & Hn & Hy).
  destruct (dt_add d (- days_us 30)) as [c|e] eqn:E.
  - exists c. apply dt_add_Ok in E as [E1 E2]. rewrite E2. split_and!; [done|lia|done].
  - exfalso. unfold dt_add, in_range in E. revert E. unfold utc_us at 1 2. cbn [dt_year dt_month dt_day dt_hour dt_minute dt_second dt_micro dt_tz].
    fold (date_of d). change (days_from_civil 2 1 1) with (-718797) in Hd. change last_date with 2932896 in Hd. change (default 0 None) with 0.
    change min_us with (-62135596800000000). change max_us with 253402300799999999. unfold days_us.
    unfold valid_dt, in_range in Hv. to_props. set (a := date_of d) in *. clearbody a.
    rewrite (proj2 (Z.leb_le _ _)) by lia. rewrite (proj2 (Z.leb_le _ _)) by lia. done.
Qed.

(** * Business days *)

Definition is_business_day (day : Z) : bool := weekday day <? 5.
Definition business_days (first count : Z) : list Z := List.filter is_business_day (seqZ first count).

Lemma count_from_spec fuel cursor end_date count : end_date < last_date → end_date < cursor + Z.of_nat fuel →
  count_from fuel cursor end_date count = Some (Ok (count + Z.of_nat (length (business_days cursor (end_date - cursor + 1))))).
Proof.
  intros He. revert cursor count. induction fuel as [|fuel IH]; intros cursor count Hf; cbn [count_from].
  - rewrite (proj2 (Z.ltb_lt _ _)) by lia. unfold business_days. rewrite seqZ_nil by lia. cbn. by rewrite Z.add_0_r.
  - destruct (Z.ltb_spec end_date cursor) as [Hlt|Hge].
    { unfold business_days. rewrite seqZ_nil by lia. cbn. by rewrite Z.add_0_r. }
    unfold next_date. rewrite (proj2 (Z.ltb_lt _ _)) by lia. rewrite IH by lia. do 2 f_equal.
    unfold business_days. rewrite (seqZ_cons cursor) by lia. cbn [List.filter]. fold (is_business_day cursor).
    replace (Z.pred (end_date - cursor + 1)) with (end_date - (cursor + 1) + 1) by lia. unfold Z.succ.
    destruct (is_business_day cursor); cbn [length]; lia.
Qed.

Lemma week_has_five first : length (business_days first 7) = 5%nat.
Proof.
  unfold business_days, seqZ. change (Z.to_nat 7) with 7%nat. cbn [seq fmap list_fmap List.filter]. unfold is_business_day, weekday.
  pose proof (Z.mod_pos_bound (first + 3) 7). set (r := (first + 3) mod 7) in *.
  assert (∀ i, 0 <= i < 7 → (i + first + 3) mod 7 = if r + i <? 7 then r + i else r + i - 7) as Hi.
  { intros i Hi. subst r. destruct (Z.ltb_spec ((first + 3) mod 7 + i) 7); zdiv. }
  rewrite !Hi by lia. clear Hi. assert (r = 0 ∨ r = 1 ∨ r = 2 ∨ r = 3 ∨ r = 4 ∨ r = 5 ∨ r = 6) as Hr by lia.
  clearbody r. clear -Hr. by repeat (destruct Hr as [->|Hr]); [..|subst].
Qed.

Lemma weeks_have_five (k : nat) first : Z.of_nat (length (business_days first (7 * Z.of_nat k))) = 5 * Z.of_nat k.
Proof.
  revert first. induction k as [|k IH]; intros first; [done|]. replace (7 * Z.of_nat (S k)) with (7 + 7 * Z.of_nat k) by lia.
  unfold business_days. rewrite seqZ_app by lia. rewrite List.filter_app, length_app. fold (business_days first 7).
  fold (business_days (first + 7) (7 * Z.of_nat k)). rewrite week_has_five. specialize (IH (first + 7)). lia.
Qed.

(** The business days since a date are the Mondays to Fridays after it, up to and
    with the end: the loop ends, whole weeks count five days each, and a date that is
    not before the end gives none. *)
Theorem business_days_counted start end_ : date_of end_ < last_date →
  let days := date_of end_ - date_of start in
  business_days_since (Some start) end_ = Ok (Z.of_nat (length (business_days (date_of start + 1) days))) ∧
  (∀ k : nat, days = 7 * Z.of_nat k → business_days_since (Some start) end_ = Ok (5 * Z.of_nat k)).
Proof.
  intros He days.
  assert (business_days_since (Some start) end_ = Ok (Z.of_nat (length (business_days (date_of start + 1) days)))) as E.
  { unfold business_days_since. destruct (Z.leb_spec (date_of end_) (date_of start)) as [Hle|Hlt].
    - unfold business_days. by rewrite seqZ_nil by lia.
    - unfold next_date at 1. rewrite (proj2 (Z.ltb_lt _ _)) by lia. cbn [mbind res_bind]. rewrite count_from_spec by lia.
      cbn [default]. subst days. replace (date_of end_ - (date_of start + 1) + 1) with (date_of end_ - date_of start) by lia. done. }
  split; [exact E|]. intros k Hk. by rewrite E, Hk, weeks_have_five.
Qed.

(** * The history and what is counted in it *)

(** The history shows a log of times and states. *)
Definition shows_entry (e : pyval) (x : datetime * string) : Prop :=
  ∃ event from, e = VDict (transition_entry event from x.2 x.1) ∧ plain_time x.1 ∧ x.2 ≠ "".
Definition shows (history : list pyval) (log : list (datetime * string)) : Prop := Forall2 shows_entry history log.

Definition is_ok (x : datetime * string) : bool := String.eqb (lower x.2) "ok".
Definition ok_times (log : list (datetime * string)) : list datetime := (List.filter is_ok log).*1.
Definition is_latest (times : list datetime) (m : option datetime) : Prop :=
  match m with Some m => m ∈ times ∧ Forall (λ t, utc_us t <= utc_us m) times | None => times = [] end.

(** A degraded or stopped state within the 30 days before [now]. *)
Definition degraded_lately (now : datetime) (x : datetime * string) : bool :=
  (utc_us now - days_us 30 <=? utc_us x.1) && str_in (lower x.2) ["degraded"; "soft_stop"; "hard_stop"].

Lemma entry_time e x : shows_entry e x → ∃ t, vget e "ts" = Ok t ∧ parse_ts t = Some x.1.
Proof. intros (ev & from & -> & (Hv & _) & _). exists (VStr (iso_text x.1)). split; [done|by apply parse_iso_text]. Qed.

Lemma entry_state e x : shows_entry e x → to_state_of e = Ok (lower x.2).
Proof.
  intros (ev & from & -> & _ & Hs). unfold to_state_of, get_either. cbn -[truthy lower].
  change (truthy (VStr x.2)) with (negb (String.eqb x.2 "")). rewrite (proj2 (String.eqb_neq _ _) Hs). cbn -[lower].
  unfold py_or. change (truthy (VStr x.2)) with (negb (String.eqb x.2 "")). by rewrite (proj2 (String.eqb_neq _ _) Hs).
Qed.

Lemma entry_ok_time e x : shows_entry e x → ok_time e = Ok (if is_ok x then Some x.1 else None).
Proof.
  intros He. unfold ok_time. rewrite (entry_state e x He). cbn [mbind res_bind]. unfold is_ok. destruct (String.eqb _ _); [|done].
  destruct (entry_time e x He) as (t & -> & Ep). cbn [mbind res_bind]. by rewrite Ep.
Qed.

Lemma dt_max_from_spec m l : is_naive m = false → Forall (λ d, is_naive d = false) l →
  ∃ r, dt_max_from m l = Ok r ∧ is_latest (m :: l) (Some r).
Proof.
  intros Hm Hl. revert m Hm. induction Hl as [|d l Hd Hl IH]; intros m Hm; cbn [dt_max_from].
  { exists m. split; [done|]. split; [by left|]. by repeat constructor. }
  unfold dt_lt. rewrite Hm, Hd. cbn [Bool.eqb mbind res_bind]. destruct (Z.ltb_spec (utc_us m) (utc_us d)) as [Hlt|Hge].
  - destruct (IH d Hd) as (r & -> & Hin & Hall). exists r. split; [done|]. split; [by right|].
    constructor; [|done]. apply Forall_cons in Hall as [H1 _]. lia.
  - destruct (IH m Hm) as (r & -> & Hin & Hall). exists r. split; [done|]. apply Forall_cons in Hall as [H1 H2].
    split; [apply elem_of_cons in Hin as [->|Hin]; [by left|by right; right]|]. constructor; [done|]. constructor; [lia|done].
Qed.

Lemma latest_of_shown h log : shows h log → ∃ m, latest_ok_ts h = Ok m ∧ is_latest (ok_times log) m.
Proof.
  intros Hs. assert (∃ ts, mapM_res ok_time h = Ok ts ∧ omap id ts = ok_times log) as (ts & E & Ets).
  { induction Hs as [|e x h log He _ (ts & E & Ets)]; [by exists []|]. 
    exists ((if is_ok x then Some x.1 else None) :: ts). cbn [mapM_res]. rewrite (entry_ok_time e x He). cbn [mbind res_bind].
    rewrite E. split; [done|]. unfold ok_times. cbn [List.filter]. destruct (is_ok x); cbn; [f_equal|]; exact Ets. }
  assert (Forall (λ d, is_naive d = false) (ok_times log)) as Hn.
  { clear -Hs. unfold ok_times. induction Hs as [|e x h log (_ & _ & _ & (_ & Hn & _) & _) _ IH]; [constructor|]. cbn. destruct (is_ok x); [by constructor|done]. }
  unfold latest_ok_ts. rewrite E. cbn [mbind res_bind]. rewrite Ets. destruct (ok_times log) as [|d l]; [by exists None|].
  apply Forall_cons in Hn as [Hd Hl]. destruct (dt_max_from_spec d l Hd Hl) as (r & -> & Hr). by exists (Some r).
Qed.

Lemma entry_counts now c e x : shows_entry e x → utc_us c = utc_us now - days_us 30 → is_naive c = false →
  counts_as_degraded c e = Ok (degraded_lately now x).
Proof.
  intros He Hc Hn. destruct (entry_time e x He) as (t & Et & Ep). pose proof (entry_state e x He) as Es. unfold counts_as_degraded.
  rewrite Et. cbn [mbind res_bind]. rewrite Ep. unfold dt_lt. destruct He as (_ & _ & _ & (_ & Hna & _) & _). rewrite Hna, Hn, Hc.
  cbn [Bool.eqb mbind res_bind]. unfold degraded_lately. rewrite Z.leb_antisym. destruct (_ <? _); [done|]. by rewrite Es.
Qed.

Lemma count_of_shown now h log : plain_time now → shows h log →
  rolling_degraded_count h now = Ok (Z.of_nat (length (List.filter (degraded_lately now) log))).
Proof.
  intros Hp Hs. unfold rolling_degraded_count. destruct (month_before now Hp) as (c & -> & Hc & Hn). cbn [mbind res_bind].
  assert (∃ l, filterM_res (counts_as_degraded c) h = Ok l ∧ length l = length (List.filter (degraded_lately now) log)) as (l & -> & <-); [|done].
  induction Hs as [|e x h log He _ (l & E & El)]; [by exists []|]. cbn [filterM_res List.filter]. rewrite (entry_counts now c e x) by done.
  cbn [mbind res_bind]. rewrite E. cbn [mbind res_bind]. eexists. split; [reflexivity|]. destruct (degraded_lately now x); cbn [length]; by rewrite El.
Qed.

(** * A transition *)

Lemma business_days_return start now : plain_time now → ∃ n, business_days_since start now = Ok n.
Proof.
  intros Hp. destruct start as [start|]; [|by exists 0]. pose proof (plain_day now Hp) as Hd.
  unfold business_days_since. destruct (Z.leb_spec (date_of now) (date_of start)); [by eexists|].
  unfold next_date at 1. rewrite (proj2 (Z.ltb_lt _ _)) by lia. cbn [mbind res_bind]. rewrite count_from_spec by lia. by eexists.
Qed.

Lemma resolved_not_empty event fallback : fallback ≠ "" → resolve_to_state event fallback ≠ "".
Proof.
  intros Hf. unfold resolve_to_state. destruct (truthy _) eqn:E; [by apply py_str_not_empty|].
  unfold level_states. cbn [dlookup]. repeat (destruct (String.eqb _ _); [discriminate|]). exact Hf.
Qed.

Lemma loaded_state_not_empty d x : load_summary d = Ok x → current_state x ≠ "".
Proof.
  destruct d as [[v|]|]; cbn [load_summary]; [|done|by intros [= <-]]. intros E. repeat (apply bind_ok in E as (? & ? & E)). injection E as <-.
  cbn. unfold py_or. destruct (truthy _) eqn:Et; [by apply py_str_not_empty|done].
Qed.

Lemma load_written x : current_state x ≠ "" → load_summary (Some (Some (VDict (summary_to_dict x)))) = Ok x.
Proof.
  destruct x as [st ok n d]. cbn [current_state]. intros Hs. unfold load_summary.
  cbn -[py_or py_str py_int]. rewrite text_or, (proj2 (String.eqb_neq _ _) Hs).
  pose proof int_or as Hz.
  rewrite !Hz. done.
Qed.

Section transitions.
Context `{Env}.

Lemma refresh_run x now s log : plain_time now → shows (read_history (history_file s)) log →
  ∃ m n, is_latest (ok_times log) m ∧
    let ok := match m with Some d => VStr (iso_text d) | None => last_ok_ts x end in
    business_days_since (parse_ts ok) now = Ok n ∧
    refresh_counters (Some x) (Some now) s =
      (Ok (Summary (current_state x) ok (Z.of_nat (length (List.filter (degraded_lately now) log))) n), s).
Proof.
  intros Hp Hs. destruct (latest_of_shown _ _ Hs) as (m & Em & Hm). exists m.
  destruct (business_days_return (parse_ts match m with Some d => VStr (iso_text d) | None => last_ok_ts x end) now Hp) as (n & En). exists n.
  split; [done|]. cbv zeta. split; [done|]. unfold refresh_counters. rewrite bind_run. cbn [mret M_ret]. rewrite bind_run. cbn [mret M_ret]. rewrite bind_run. cbn [get]. cbv zeta.
  rewrite bind_run. unfold lift at 1. rewrite Em. cbv zeta. rewrite bind_run. unfold lift at 1. rewrite (count_of_shown now _ log) by done.
  rewrite bind_run. unfold lift at 1. by rewrite En.
Qed.

Definition event_time (event : dict) (s : HealthStateStore) : datetime :=
  default (clock_at (w_tick (hs_world s))) (parse_ts (VStr (py_str (dget "ts" event or? VStr "")))).

(** Recording a transition recounts the whole history: from a readable state file
    and a history of transitions, an event whose time is aware and inside the calendar
    is appended, and the state that is saved has the resolved state, the number of
    degraded and stopped entries of the 30 days before the event, the latest time the
    health was ok, and the business days since then. *)
Theorem transition_recounts event s log x :
  load_summary (state_file s) = Ok x → shows (read_history (history_file s)) log → plain_time (event_time event s) →
  let ts := event_time event s in
  let st := resolve_to_state event (current_state x) in
  let log' := log ++ [(ts, st)] in
  ∃ y s' m, record_transition event s = (Ok y, s') ∧ load_summary (state_file s') = Ok y ∧ shows (read_history (history_file s')) log' ∧
    current_state y = st ∧ rolling_30d_degraded_count y = Z.of_nat (length (List.filter (degraded_lately ts) log')) ∧
    is_latest (ok_times log') m ∧ last_ok_ts y = match m with Some d => VStr (iso_text d) | None => last_ok_ts x end ∧
    business_days_since (parse_ts (last_ok_ts y)) ts = Ok (business_days_since_last_ok y).
Proof.
  intros Hx Hs Hp ts st log'. subst ts st. set (ts := event_time event s) in *. set (st := resolve_to_state event (current_state x)) in *.
  assert (st ≠ "") as Hne by by apply resolved_not_empty, (loaded_state_not_empty _ _ Hx).
  unfold record_transition. rewrite bind_run. unfold load_state. rewrite bind_run. cbn [get]. unfold lift at 1. rewrite Hx. rewrite bind_run.
  assert (∃ s1, match parse_ts (VStr (py_str (dget "ts" event or? VStr ""))) with Some d => mret d | None => now_utc end s = (Ok ts, s1) ∧
    history_file s1 = history_file s) as (s1 & -> & Hh).
  { subst ts. unfold event_time. destruct (parse_ts _); by eexists. }
  cbv zeta. rewrite bind_run. cbn [modify]. fold st. set (entry := transition_entry _ _ _ _). set (s2 := push_history _ _).
  assert (shows (read_history (history_file s2)) log') as Hs2.
  { subst s2. unfold read_history, push_history. cbn. rewrite Hh, omap_app. apply Forall2_app; [exact Hs|]. constructor; [|constructor].
    by eexists _, _. }
  set (x1 := Summary _ _ _ _). destruct (refresh_run x1 ts s2 log' Hp Hs2) as (m & n & Hm & Hn & E). rewrite bind_run, E.
  eexists _, _, m. split; [reflexivity|]. split; [by apply (load_written (Summary st _ _ _))|]. split; [exact Hs2|]. split; [done|]. split; [done|].
  split; [done|]. split; [|exact Hn]. cbn [last_ok_ts]. destruct m; [done|]. subst x1. cbn [last_ok_ts].
  destruct (String.eqb_spec st "ok") as [Eok|]; [|done]. exfalso. cbn in Hm. unfold ok_times, log' in Hm. rewrite List.filter_app, fmap_app in Hm.
  apply app_eq_nil in Hm as [_ Hm]. cbn in Hm. unfold is_ok in Hm. cbn in Hm. by rewrite Eok in Hm.
Qed.

(** ** A time without an offset *)

Definition has_time (naive : bool) (e : pyval) : Prop := ∃ t d, vget e "ts" = Ok t ∧ parse_ts t = Some d ∧ is_naive d = naive.
Definition poisoned (s : HealthStateStore) : Prop :=
  Exists (has_time true) (read_history (history_file s)) ∧ Exists (has_time false) (read_history (history_file s)).

Lemma count_poisoned now h : Exists (has_time true) h → Exists (has_time false) h → ∃ e, rolling_degraded_count h now = Raise e.
Proof.
  intros Hn Ha. unfold rolling_degraded_count. destruct (dt_add now _) as [c|e]; [|by exists e].
  assert (Exists (has_time (negb (is_naive c))) h) as Hx by by destruct (is_naive c). clear Hn Ha. cbn [mbind res_bind].
  assert (∃ e, filterM_res (counts_as_degraded c) h = Raise e) as (e & ->); [|by exists e].
  induction Hx as [e h (t & d & Et & Ep & Hd)|e h _ (x & IH)]; cbn [filterM_res].
  - assert (∃ x, counts_as_degraded c e = Raise x) as (x & ->); [|by eexists]. unfold counts_as_degraded. rewrite Et.
    cbn [mbind res_bind]. rewrite Ep. unfold dt_lt. rewrite Hd. destruct (is_naive c); by eexists.
  - destruct (counts_as_degraded c e); cbn [mbind res_bind]; [|by eexists]. rewrite IH. by eexists.
Qed.

Lemma refresh_poisoned x now s : poisoned s → ∃ e s', refresh_counters (Some x) (Some now) s = (Raise e, s') ∧ history_file s' = history_file s.
Proof.
  intros [Hn Ha]. unfold refresh_counters. rewrite bind_run. cbn [mret M_ret]. rewrite bind_run. cbn [mret M_ret]. rewrite bind_run. cbn [get]. cbv zeta.
  rewrite bind_run. unfold lift at 1. destruct (latest_ok_ts _); [|by eexists _, _]. cbv zeta. rewrite bind_run. unfold lift at 1.
  destruct (count_poisoned now _ Hn Ha) as (e & ->). by eexists _, _.
Qed.

(** Once the history holds a time without an offset beside one with an offset,
    no transition can be recorded any more: every attempt raises, whatever the event,
    and leaves the history as poisoned as it was. *)
Theorem naive_time_poisons_history event s : poisoned s → (∃ e, (record_transition event s).1 = Raise e) ∧ poisoned (record_transition event s).2.
Proof.
  intros Hp. assert (∃ e s', record_transition event s = (Raise e, s') ∧ poisoned s') as (e & s' & -> & Hp'); [|split; [by exists e|exact Hp']].
  unfold record_transition. rewrite bind_run. unfold load_state. rewrite bind_run. cbn [get]. unfold lift at 1.
  destruct (load_summary (state_file s)) as [x|e]; [|by exists e, s]. rewrite bind_run.
  assert (∃ ts s1, match parse_ts (VStr (py_str (dget "ts" event or? VStr ""))) with Some d => mret d | None => now_utc end s = (Ok ts, s1) ∧
    history_file s1 = history_file s) as (ts & s1 & -> & Hh).
  { destruct (parse_ts _); by eexists _, _. }
  cbv zeta. rewrite bind_run. cbn [modify]. set (s2 := push_history _ _). assert (poisoned s2) as Hp2.
  { destruct Hp as [H1 H2]. subst s2. unfold poisoned, read_history, push_history. cbn. rewrite Hh, omap_app. split; apply Exists_app; by left. }
  rewrite bind_run. set (x1 := Summary _ _ _ _). destruct (refresh_poisoned x1 ts s2 Hp2) as (e & s3 & -> & Hh3). exists e, s3. split; [done|].
  unfold poisoned. by rewrite Hh3.
Qed.
End transitions.

(** * Examples *)

Definition empty_store : HealthStateStore := Store None None world0.
Definition degraded_event : dict := [("ts", VStr "2026-03-10T09:00:00Z"); ("level", VStr "critical"); ("reason", VStr "latency")].

Lemma transition_recounts_witness : let _ := sample_env in
  ∃ y s' m, record_transition degraded_event empty_store = (Ok y, s') ∧ current_state y = "soft_stop" ∧ rolling_30d_degraded_count y = 1 ∧
    is_latest [] m.
Proof.
  cbv zeta. destruct (transition_recounts (H:=sample_env) degraded_event empty_store [] (Summary "ok" VNone 0 0) eq_refl (Forall2_nil_2 _ _ _))
    as (y & s' & m & E & _ & _ & Hst & Hn & Hm & _); [by vm_compute|].
  exists y, s', m. split; [exact E|]. split; [rewrite Hst; by vm_compute|]. split; [rewrite Hn; by vm_compute|].
  replace (@nil datetime) with (ok_times ([] ++ [(event_time (H:=sample_env) degraded_event empty_store,
    resolve_to_state degraded_event (current_state (Summary "ok" VNone 0 0)))])) by by vm_compute. exact Hm.
Defined.

Definition business_days_sample : datetime := DateTime 2026 3 20 9 0 0 0 (Some 0).

Lemma business_days_counted_witness : business_days_since (Some (DateTime 2026 3 6 9 0 0 0 (Some 0))) business_days_sample = Ok 10.
Proof.
  apply (proj2 (business_days_counted (DateTime 2026 3 6 9 0 0 0 (Some 0)) business_days_sample ltac:(vm_compute; reflexivity)) 2%nat).
  vm_compute. reflexivity.
Defined.

Lemma naive_time_poisons_history_witness : let _ := sample_env in
  let s := Store None (Some [LJson (VDict [("ts", VStr "2026-03-10T09:00:00"); ("to", VStr "warn")]);
    LJson (VDict [("ts", VStr "2026-03-10T09:00:00Z"); ("to", VStr "warn")])]) world0 in
  (∃ e, (record_transition degraded_event s).1 = Raise e) ∧ poisoned (record_transition degraded_event s).2.
Proof.
  cbv zeta. apply (naive_time_poisons_history (H:=sample_env) degraded_event). split.
  - apply Exists_cons_hd. eexists _, _. split; [reflexivity|]. split; [vm_compute; reflexivity|reflexivity].
  - apply Exists_cons_tl, Exists_cons_hd. eexists _, _. split; [reflexivity|]. split; [vm_compute; reflexivity|reflexivity].
Defined.
