(* ===== verification/TimeSync.v ===== *)
(** The clock guard of [src/core/time_sync.py]: it classifies the latest clock
    drift, raises or resumes on the health monitor, and its scheduled job writes
    what a fresh monitor holds to the health state file. *)

From S2P Require Import Prelude PyFloat PyVal PyEnv Calendar Gate Health Scheduler.

Local Open Scope Z_scope.
Local Open Scope py_scope.

Definition DEFAULT_TIME_SYNC_METRICS : string := "metrics/time_sync.jsonl".
Definition DEFAULT_HEALTH_STATE_PATH : string := "snapshots/latest/health_state.json".
Definition DEFAULT_HEALTH_SUGGEST_LOG : string := "logs/events/health_suggested.jsonl".
Definition DEFAULT_HEALTH_ACTION_AUDIT : string := "logs/audit/health_action.jsonl".
Definition DEFAULT_OPS_WORKLOG : string := "ops_worklog.jsonl".
Definition DEFAULT_RUNBOOK : string := "docs/runbooks/RUN-TIME-01.md".

Record TimeSyncEvaluation := Evaluation {
  ev_status : string; drift_ms : option float; level : option string; action : option string; reason : option string;
  runbook : string; details : list string; ev_ts : string }.

Definition evaluation_to_dict (e : TimeSyncEvaluation) : dict := [
  ("status", VStr (ev_status e)); ("drift_ms", vopt_float (drift_ms e)); ("level", vopt_str (level e)); ("action", vopt_str (action e));
  ("reason", vopt_str (reason e)); ("runbook", VStr (runbook e)); ("details", VList (map VStr (details e))); ("ts", VStr (ev_ts e))].

Record TimeSyncGuard := Guard {
  warn_threshold_ms : Z; major_threshold_ms : Z; critical_threshold_ms : Z; resume_threshold_ms : Z; resume_window_minutes : Z;
  resume_min_samples : Z; guard_runbook : string }.
Definition default_guard : TimeSyncGuard := Guard 500 1500 3000 200 30 3 DEFAULT_RUNBOOK.

(** * Readings *)

(** [_read_jsonl]: the lines that decode to a mapping. *)
Definition read_entries (f : file) : list dict := omap (λ l, match l with LJson (VDict d) => Some d | _ => None end) (file_lines f).

Definition parse_ts (value : pyval) : option datetime :=
  match value with
  | VNone => None
  | _ => let text := py_str value in
      fromisoformat (if ends_with "Z" text then String.substring 0 (String.length text - 1) text +:+ "+00:00" else text)
  end.

(** [except (TypeError, ValueError)] *)
Definition is_conversion_error (e : exn) : bool := match e with TypeError _ | ValueError _ => true | _ => false end.

(** The number of an entry; [None] when there is none. *)
Definition drift_of (entry : dict) : res (option float) :=
  match dget "clock_drift_ms" entry with
  | VNone => Ok None
  | v => match py_float v with Ok x => Ok (Some x) | Raise e => if is_conversion_error e then Ok None else Raise e end
  end.

Fixpoint first_drift (l : list dict) : res (option float) :=
  match l with
  | [] => Ok None
  | e :: l => d ← drift_of e; match d with Some x => Ok (Some x) | None => first_drift l end
  end.
Definition find_latest_drift (entries : list dict) : res (option float) := first_drift (rev entries).

(** [ts < cutoff] for an aware cutoff. *)
Definition before (cutoff ts : datetime) : res bool :=
  if is_naive ts then Raise (TypeError "can't compare offset-naive and offset-aware datetimes") else Ok (utc_us ts <? utc_us cutoff).

Definition sample_of (cutoff : datetime) (entry : dict) : res (option float) :=
  match parse_ts (dget "ts" entry or? dget "timestamp" entry) with
  | None => Ok None
  | Some ts =>
      old ← before cutoff ts;
      if old : bool then Ok None else (d ← drift_of entry; Ok (option_map fabs d))
  end.

Definition recent_ok (g : TimeSyncGuard) (now : datetime) (entries : list dict) : res bool :=
  cutoff ← dt_add now (- minutes_us (resume_window_minutes g));
  samples ← mapM_res (sample_of cutoff) entries;
  let samples := omap id samples in
  Ok (if Z.of_nat (length samples) <? resume_min_samples g then false
      else forallb (λ x, fleb x (of_Z (resume_threshold_ms g))) samples).

(** * The evaluation *)

Definition CLOCK : string := "clock_out_of_sync".
Definition RECOVERED : string := "clock_out_of_sync_recovered".

(** Status and level of a drift; the thresholds are integers a float holds exactly. *)
Definition classify (g : TimeSyncGuard) (drift : float) : string * option string :=
  if fgeb drift (of_Z (critical_threshold_ms g)) then ("critical", Some "degraded")
  else if fgeb drift (of_Z (major_threshold_ms g)) then ("major", Some "degraded")
  else if fgeb drift (of_Z (warn_threshold_ms g)) then ("warn", Some "warning")
  else ("ok", None).

Record TimeSync := Sync { monitor : HealthMonitor; health_state_file : document }.

#[export] Instance time_sync_world : HasWorld TimeSync.
Proof.
  refine {| wget s := wget (monitor s); wset w s := Sync (wset w (monitor s)) (health_state_file s) |}; intros; try done.
  by destruct s as [[? ? ?] ?].
Defined.

Section evaluate.
Context `{Env}.
Variable g : TimeSyncGuard.
Variables persist_health_state log_events : bool.

Definition in_monitor {A} (m : M HealthMonitor A) : M TimeSync A := zoom monitor (λ x s, Sync x (health_state_file s)) m.

(** The ids of the actions [m] queues. *)
Definition new_actions (m : M HealthMonitor unit) : M TimeSync (list string) :=
  before ← gets (λ s, map action_id (hm_actions (monitor s)));
  _ ← in_monitor m;
  s ← get;
  mret (List.filter (λ i, negb (str_in i before)) (map action_id (hm_actions (monitor s)))).

(** [monitor.snapshot().to_dict()] with the queued actions. *)
Definition health_document (m : HealthMonitor) : dict :=
  dset "actions" (VList (map (λ a, VDict (action_to_dict a)) (hm_actions m))) (health_to_dict (hm_state m)).

Definition audit_action (a : HealthAction) : M TimeSync unit :=
  ts ← utcnow_iso;
  append_jsonl DEFAULT_HEALTH_ACTION_AUDIT (VDict [("event", VStr "health_action.suggested"); ("ts", VStr ts);
    ("action_id", VStr (action_id a)); ("action", VStr (action_name a)); ("reason", VStr (action_reason a));
    ("evidence", VList (map VStr (action_evidence a)))]).

(** What a queued action leaves on disk. *)
Definition report_actions (fresh : list string) (act why : option string) (drift : float) : M TimeSync unit :=
  _ ← when persist_health_state (modify (λ s, Sync (monitor s) (Some (Some (VDict (health_document (monitor s)))))));
  when log_events
    (s ← get;
     _ ← for_each audit_action (List.filter (λ a, str_in (action_id a) fresh) (hm_actions (monitor s)));
     ts ← utcnow_iso;
     _ ← append_jsonl DEFAULT_HEALTH_SUGGEST_LOG (VDict [("ts", VStr ts);
       ("event", VStr (if match act with Some a => String.eqb a "guarded" | None => false end then "health.suggest_guarded" else "health.suggest_resume"));
       ("reason", vopt_str why); ("drift_ms", VFloat drift); ("runbook_ref", VStr "RUN-TIME-01");
       ("evidence", VList [VStr DEFAULT_TIME_SYNC_METRICS]); ("health_state_path", VStr DEFAULT_HEALTH_STATE_PATH)]);
     ts ← utcnow_iso;
     append_jsonl DEFAULT_OPS_WORKLOG (VDict [("timestamp", VStr ts); ("task", VStr "time_sync_guard"); ("action", vopt_str act);
       ("reason", vopt_str why); ("drift_ms", VFloat drift); ("runbook_ref", VStr "RUN-TIME-01")])).

Definition evidence : list string := [DEFAULT_TIME_SYNC_METRICS].
Definition drift_text (drift : float) : string := "clock_drift_ms=" +:+ ffixed1 drift.

Definition raise_drift (lvl : string) (drift : float) : M HealthMonitor unit :=
  _ ← raise_condition lvl CLOCK (Some (drift_text drift)) (Some "runbook:RUN-TIME-01#sync") false;
  _ ← suggest_guarded CLOCK (Some (guard_runbook g)) None (Some evidence) None None;
  mret tt.

Definition no_reading (status detail ts : string) : TimeSyncEvaluation := Evaluation status None None None None (guard_runbook g) [detail] ts.

Definition evaluate (metrics : file) : M TimeSync TimeSyncEvaluation :=
  let entries := read_entries metrics in
  ts ← utcnow_iso;
  match entries with
  | [] => mret (no_reading "unavailable" "metrics_missing" ts)
  | _ =>
      latest ← lift (find_latest_drift entries);
      match latest with
      | None => mret (no_reading "unknown" "drift_unavailable" ts)
      | Some x =>
          let drift := fabs x in
          let '(st, lvl) := classify g drift in
          '(st, act, why, fresh) ← (match lvl with
            | Some l => fresh ← new_actions (raise_drift l drift); mret (st, Some "guarded", Some CLOCK, fresh)
            | None =>
                now ← now_utc;
                fine ← lift (recent_ok g now entries);
                if fine : bool then
                  fresh ← new_actions (suggest_resume RECOVERED (Some (guard_runbook g)) (Some evidence) None None);
                  mret ("recovered", Some "resume", Some RECOVERED, fresh)
                else mret (st, None, None, [])
            end);
          _ ← (match fresh with [] => mret tt | _ => report_actions fresh act why drift end);
          mret (Evaluation st (Some drift) lvl act why (guard_runbook g) [drift_text drift] ts)
      end
  end.
End evaluate.

(** [build_time_sync_job]: every run evaluates on a monitor of its own. *)
Definition time_sync_job (interval_sec : Z) : AsyncIntervalJob :=
  IntervalJob "time_sync_guard" (of_Z interval_sec) None None None (of_dec 1 (-1)) 1 None None.

Definition job_run `{Env} (g : TimeSyncGuard) (metrics : file) : M TimeSync unit :=
  _ ← modify (λ s, Sync (monitor0 (wget s)) (health_state_file s));
  _ ← evaluate g true true metrics;
  mret tt.

(** * Theorems *)

Section time_sync_theorems.
Context `{Env}.
Variable g : TimeSyncGuard.

Lemma in_monitor_run {A} (m : M HealthMonitor A) s r m' : m (monitor s) = (r, m') → in_monitor m s = (r, Sync m' (health_state_file s)).
Proof.
  intros E. unfold in_monitor. rewrite zoom_run. change (wget s) with (wget (monitor s)). rewrite wset_wget, E. cbn [fst snd]. f_equal.
  change (Sync (wset (wget m') m') (health_state_file s) = Sync m' (health_state_file s)). by rewrite wset_wget.
Qed.

Definition GUARDED_ID : string := "guarded:clock_out_of_sync".
Definition action_ids (m : HealthMonitor) : list string := map action_id (hm_actions m).

(** The reasons after the condition was raised: the earlier one is replaced. *)
Definition raised (lvl : string) (drift : float) (now : datetime) (rs : list HealthReason) : list HealthReason :=
  let r := Reason CLOCK lvl (Some (drift_text drift)) (Some "runbook:RUN-TIME-01#sync") now in
  if existsb (has_code CLOCK) rs then update_first (has_code CLOCK) (λ _, r) rs else rs ++ [r].

Lemma update_first_In {A} (p : A → bool) r l : existsb p l = true → r ∈ update_first p (λ _, r) l.
Proof.
  induction l as [|x l IH]; cbn; [done|]. destruct (p x); cbn; intros Hp; [by left|right; by apply IH].
Qed.

Lemma raised_In lvl drift now rs : Reason CLOCK lvl (Some (drift_text drift)) (Some "runbook:RUN-TIME-01#sync") now ∈ raised lvl drift now rs.
Proof.
  unfold raised. destruct (existsb _ rs) eqn:E; [by apply update_first_In|]. apply elem_of_app. right. by left.
Qed.

Definition merged (ok : bool) (st lvl : string) : string := if ok then merge_status st (map_level lvl) else st.

Lemma raise_drift_run lvl drift m : ∃ m', raise_drift g lvl drift m = (Ok tt, m') ∧
  reasons (hm_state m') = raised lvl drift (clock_at (w_tick (hm_world m))) (reasons (hm_state m)) ∧
  status (hm_state m') = merged (io_ok_at (w_io (hm_world m))) (status (hm_state m)) lvl ∧
  board_mode_suggestion (hm_state m') = Some CLOCK ∧
  action_ids m' = (if str_in GUARDED_ID (action_ids m) then action_ids m else action_ids m ++ [GUARDED_ID]).
Proof.
  destruct m as [[st rs bs br ks] acts w]. unfold raise_drift. rewrite bind_run.
  assert (∃ w' st', raise_condition lvl CLOCK (Some (drift_text drift)) (Some "runbook:RUN-TIME-01#sync") false (Monitor (Health st rs bs br ks) acts w) =
    (Ok tt, Monitor (Health st' (raised lvl drift (clock_at (w_tick w)) rs) bs br ks) acts w') ∧ st' = merged (io_ok_at (w_io w)) st lvl) as (w' & st' & -> & ->).
  { unfold raise_condition, emit_health_event, try_append_jsonl, mbind, M_bind. cbn. destruct (io_ok_at _); cbn; by eexists _, _. }
  rewrite bind_run. unfold suggest_guarded, queue_action. rewrite bind_run. cbn [modify]. rewrite bind_run. rewrite bind_run. cbn [gets].
  cbn [set_state hm_actions]. change ((default "" None or? ("guarded" +:+ ":" +:+ CLOCK))) with GUARDED_ID.
  destruct (List.find _ acts) as [a|] eqn:Ef.
  - eexists. split; [reflexivity|]. split_and!; [done..|]. unfold action_ids. cbn [hm_actions set_state wset wget health_has_world]. apply find_some in Ef as [Hin Heq]. to_props.
    assert (str_in GUARDED_ID (map action_id acts) = true) as ->; [|done]. apply str_in_spec, list_elem_of_In, in_map_iff. by exists a.
  - eexists. split; [reflexivity|]. split_and!; [done..|]. unfold action_ids. cbn [hm_actions set_state set_actions wset wget health_has_world]. rewrite map_app.
    assert (str_in GUARDED_ID (map action_id acts) = false) as ->; [|done]. apply str_in_false. intros (a & Ha & Hin)%list_elem_of_In%in_map_iff.
    pose proof (find_none _ _ Ef a Hin) as Hn. cbn in Hn. to_props. congruence.
Qed.

(** What is written about new actions leaves the monitor as it is. *)
Lemma append_run p v (s : TimeSync) : ∃ w, append_jsonl p v s = (Ok tt, Sync (Monitor (hm_state (monitor s)) (hm_actions (monitor s)) w) (health_state_file s)).
Proof. eexists. by destruct s as [[? ? ?] ?]. Qed.

Definition same_but_world (s s' : TimeSync) : Prop :=
  hm_state (monitor s') = hm_state (monitor s) ∧ hm_actions (monitor s') = hm_actions (monitor s) ∧ health_state_file s' = health_state_file s.

Lemma same_bind {A B} (m : M TimeSync A) (f : A → M TimeSync B) s : (∃ a s1, m s = (Ok a, s1) ∧ same_but_world s s1 ∧
  ∃ b s2, f a s1 = (Ok b, s2) ∧ same_but_world s1 s2) → ∃ b s2, (m ≫= f) s = (Ok b, s2) ∧ same_but_world s s2.
Proof.
  intros (a & s1 & E & (H1 & H2 & H3) & b & s2 & E2 & (H4 & H5 & H6)). exists b, s2. rewrite bind_run, E. split; [done|]. by split_and!; congruence.
Qed.

Lemma same_utcnow s : ∃ a s', utcnow_iso s = (Ok a, s') ∧ same_but_world s s'.
Proof. eexists _, _. split; [reflexivity|]. by destruct s as [[? ? ?] ?]. Qed.
Lemma same_append p v (s : TimeSync) : ∃ a s', append_jsonl p v s = (Ok a, s') ∧ same_but_world s s'.
Proof. eexists _, _. split; [reflexivity|]. by destruct s as [[? ? ?] ?]. Qed.

Lemma same_audits l s : ∃ a s', for_each audit_action l s = (Ok a, s') ∧ same_but_world s s'.
Proof.
  revert s. induction l as [|x l IH]; intros s; [by exists tt, s|]. cbn [for_each]. apply same_bind.
  assert (∃ a s', audit_action x s = (Ok a, s') ∧ same_but_world s s') as (a & s1 & E & Hs).
  { unfold audit_action. apply same_bind. destruct (same_utcnow s) as (ts & s1 & E & Hs). exists ts, s1. split; [done|]. split; [done|]. apply same_append. }
  exists a, s1. split; [done|]. split; [done|]. apply IH.
Qed.

Lemma report_run p lg fresh act why drift s : ∃ s', report_actions p lg fresh act why drift s = (Ok tt, s') ∧
  hm_state (monitor s') = hm_state (monitor s) ∧ hm_actions (monitor s') = hm_actions (monitor s) ∧
  health_state_file s' = if p then Some (Some (VDict (health_document (monitor s)))) else health_state_file s.
Proof.
  unfold report_actions. set (s1 := Sync (monitor s) (if p then Some (Some (VDict (health_document (monitor s)))) else health_state_file s)).
  rewrite bind_run. assert (when p (modify (λ s, Sync (monitor s) (Some (Some (VDict (health_document (monitor s))))))) s = (Ok tt, s1)) as ->.
  { subst s1. destruct p; [done|]. by destruct s. }
  destruct lg; cbn [when]; [|by exists s1]. rewrite bind_run. cbn [get].
  match goal with |- context [?m s1 = _] => assert (∃ a s', m s1 = (Ok a, s') ∧ same_but_world s1 s') as ([] & s' & E & H1 & H2 & H3) end.
  2: { exists s'. split; [exact E|]. by split_and!. }
  apply same_bind. destruct (same_audits (List.filter (λ a, str_in (action_id a) fresh) (hm_actions (monitor s1))) s1) as (a & s2 & E2 & Hs2).
  exists a, s2. split; [done|]. split; [done|]. apply same_bind. destruct (same_utcnow s2) as (ts & s3 & E3 & Hs3). exists ts, s3. split; [done|]. split; [done|].
  apply same_bind. match goal with |- context [append_jsonl ?p ?v s3] => destruct (same_append p v s3) as (u & s4 & E4 & Hs4) end.
  exists u, s4. split; [done|]. split; [done|]. apply same_bind. destruct (same_utcnow s4) as (ts' & s5 & E5 & Hs5).
  exists ts', s5. split; [done|]. split; [done|]. apply same_append.
Qed.
End time_sync_theorems.

Section drift.
Context `{Env}.
Variable g : TimeSyncGuard.
Variables (metrics : file) (x : float) (st l : string).
Hypothesis latest_drift : find_latest_drift (read_entries metrics) = Ok (Some x).
Hypothesis too_large : classify g (fabs x) = (st, Some l).

(** The monitor after the drift was raised on it. *)
Definition guarded_by (m m' : HealthMonitor) : Prop :=
  (∃ now, reasons (hm_state m') = raised l (fabs x) now (reasons (hm_state m))) ∧
  (∃ logged, status (hm_state m') = merged logged (status (hm_state m)) l) ∧
  board_mode_suggestion (hm_state m') = Some CLOCK ∧
  action_ids m' = (if str_in GUARDED_ID (action_ids m) then action_ids m else action_ids m ++ [GUARDED_ID]).

Lemma no_new_ids (before : list string) : List.filter (λ i, negb (str_in i before)) before = [].
Proof.
  assert (∀ l, (∀ i, i ∈ l → i ∈ before) → List.filter (λ i, negb (str_in i before)) l = []) as Hl; [|by apply Hl].
  induction l0 as [|i l0 IH]; intros Hi; cbn; [done|]. rewrite (proj2 (str_in_spec i before)) by (apply Hi; by left). cbn.
  apply IH. intros j Hj. apply Hi. by right.
Qed.

Lemma evaluate_run p lg s : ∃ e s', evaluate g p lg metrics s = (Ok e, s') ∧ ev_status e = st ∧ action e = Some "guarded" ∧
  guarded_by (monitor s) (monitor s') ∧
  health_state_file s' = (if p && negb (str_in GUARDED_ID (action_ids (monitor s)))
    then Some (Some (VDict (health_document (monitor s')))) else health_state_file s).
Proof using latest_drift too_large.
  unfold evaluate. cbv zeta. rewrite bind_run. destruct (same_utcnow s) as (ts & s1 & E1 & Hs1). rewrite E1.
  destruct (read_entries metrics) as [|e0 entries] eqn:Ee; [discriminate latest_drift|].
  rewrite bind_run. unfold lift at 1. rewrite latest_drift, too_large.
  destruct (raise_drift_run g l (fabs x) (monitor s1)) as (m' & Er & Hr & Hst & Hb & Ha). destruct Hs1 as (Hms & Hma & Hf).
  set (fresh := List.filter (λ i, negb (str_in i (map action_id (hm_actions (monitor s1))))) (map action_id (hm_actions m'))).
  assert (new_actions (raise_drift g l (fabs x)) s1 = (Ok fresh, Sync m' (health_state_file s1))) as En.
  { unfold new_actions. rewrite bind_run. cbn [gets]. rewrite bind_run, (in_monitor_run _ s1 _ m' Er). reflexivity. }
  rewrite bind_run, bind_run, En. cbn [mret M_ret]. rewrite bind_run.
  assert (guarded_by (monitor s) m') as Hg.
  { split; [eexists; by rewrite Hr, Hms|]. split; [eexists; by rewrite Hst, Hms|]. split; [done|]. rewrite Ha. unfold action_ids. by rewrite Hma. }
  assert (fresh = if str_in GUARDED_ID (action_ids (monitor s)) then [] else [GUARDED_ID]) as Efresh.
  { subst fresh. fold (action_ids m'). fold (action_ids (monitor s1)). rewrite Ha. unfold action_ids. rewrite Hma.
    set (ids := map action_id (hm_actions (monitor s))). destruct (str_in GUARDED_ID ids) eqn:Ei; [apply no_new_ids|]. rewrite List.filter_app, no_new_ids. cbn. by rewrite Ei. }
  rewrite Efresh. destruct (str_in GUARDED_ID (action_ids (monitor s))) eqn:Ei; cbn [negb andb].
  - eexists _, _. split; [reflexivity|]. split; [done|]. split; [done|]. split; [exact Hg|]. rewrite andb_false_r. exact Hf.
  - destruct (report_run p lg [GUARDED_ID] (Some "guarded") (Some CLOCK) (fabs x) (Sync m' (health_state_file s1))) as (s2 & E2 & Hm2 & Ha2 & Hf2).
    rewrite E2. eexists _, _. split; [reflexivity|]. split; [done|]. split; [done|]. cbn [monitor health_state_file] in *. split.
    + unfold guarded_by, action_ids in *. by rewrite Hm2, Ha2.
    + rewrite andb_true_r, Hf2, Hf. unfold health_document. by rewrite Hm2, Ha2.
Qed.

(** A drift of at least the warning threshold guards the board: the evaluation
    returns, the clock condition is among the reasons at the level of the drift, the
    guarded board is suggested and queued exactly once, and the health state is
    written only when the action is new. *)
Theorem drift_guards_the_board p lg s : ∃ e s', evaluate g p lg metrics s = (Ok e, s') ∧ ev_status e = st ∧ action e = Some "guarded" ∧
  guarded_by (monitor s) (monitor s') ∧
  health_state_file s' = (if p && negb (str_in GUARDED_ID (action_ids (monitor s)))
    then Some (Some (VDict (health_document (monitor s')))) else health_state_file s).
Proof using latest_drift too_large. apply evaluate_run. Qed.

(** The scheduled job forgets every other condition: whatever the health state
    file and the queue held, a run on a drift above the warning threshold leaves a
    file whose only reason is the clock and whose only action is the guarded board. *)
Theorem job_forgets_other_conditions s : ∃ s' m, job_run g metrics s = (Ok tt, s') ∧
  health_state_file s' = Some (Some (VDict (health_document m))) ∧ map reason_code (reasons (hm_state m)) = [CLOCK] ∧ action_ids m = [GUARDED_ID].
Proof using latest_drift too_large.
  unfold job_run. rewrite bind_run. cbn [modify]. set (s1 := Sync (monitor0 (wget s)) (health_state_file s)).
  destruct (evaluate_run true true s1) as (e & s' & E & _ & _ & (Hr & _ & _ & Ha) & Hf). rewrite bind_run, E.
  exists s', (monitor s'). split; [reflexivity|]. split; [exact Hf|]. split; [destruct Hr as (now & ->); reflexivity|exact Ha].
Qed.
End drift.

(** * Examples *)

Definition sample_metrics : file := Some [LJson (VDict [("ts", VStr "2026-03-20T09:00:00Z"); ("clock_drift_ms", VInt (-1800))])].
Definition sample_sync : TimeSync := Sync (monitor0 world0) (Some (Some (VDict [("status", VStr "hard_stop")]))).

Lemma drift_guards_the_board_witness : let _ := sample_env in ∃ e s', evaluate default_guard true false sample_metrics sample_sync = (Ok e, s') ∧
  ev_status e = "major" ∧ board_mode_suggestion (hm_state (monitor s')) = Some CLOCK.
Proof.
  cbv zeta. destruct (drift_guards_the_board (H:=sample_env) default_guard sample_metrics (of_Z (-1800)) "major" "degraded"
    ltac:(vm_compute; reflexivity) ltac:(vm_compute; reflexivity) true false sample_sync) as (e & s' & E & Hst & _ & (_ & _ & Hb & _) & _).
  exists e, s'. split; [exact E|]. split; [exact Hst|exact Hb].
Defined.

Lemma job_forgets_other_conditions_witness : let _ := sample_env in ∃ s' m, job_run default_guard sample_metrics sample_sync = (Ok tt, s') ∧
  health_state_file s' = Some (Some (VDict (health_document m))) ∧ map reason_code (reasons (hm_state m)) = [CLOCK].
Proof.
  cbv zeta. destruct (job_forgets_other_conditions (H:=sample_env) default_guard sample_metrics (of_Z (-1800)) "major" "degraded"
    ltac:(vm_compute; reflexivity) ltac:(vm_compute; reflexivity) sample_sync) as (s' & m & E & Hf & Hr & _).
  exists s', m. split; [exact E|]. split; [exact Hf|exact Hr].
Defined.

(** A drift that is not a number counts as a clock in order. *)
Example nan_drift_is_ok : classify default_guard (fabs S754_nan) = ("ok", None).
Proof. reflexivity. Qed.

(** A sample without an offset makes the guard raise. *)
Example naive_sample_raises : recent_ok default_guard (from_utc_us 1773999000000000) [[("ts", VStr "2026-03-20T09:00:00"); ("clock_drift_ms", VInt 5)]] =
  Raise (TypeError "can't compare offset-naive and offset-aware datetimes").
Proof. vm_compute. reflexivity. Qed.
