(* ===== verification/ExecutionModel.v ===== *)
(** The execution model of [src/execution/model.py]: from a signal, a market
    snapshot and a spread state to the expected entry, slippage, time to live and
    fill style, with a seeded human delay and a metrics record. *)

From S2P Require Import Prelude PyFloat PyVal PyEnv.

Local Open Scope Z_scope.
Local Open Scope py_scope.

Definition ExecutionConfigError (msg : string) : exn := OtherError "ExecutionConfigError" msg.
Definition ExecutionRuleViolationError (msg : string) : exn := OtherError "ExecutionRuleViolationError" msg.
Definition ExecutionModelInputError (msg : string) : exn := OtherError "ExecutionModelInputError" msg.

(** * Values *)

Record ExecutionAdjustments := Adjustments {
  expected_entry : option float; expected_slippage : option float; ttl_seconds : Z; fill_style : string; fill_policy : string;
  mode_label : string; drift_guard_r : option float }.

(** The context of a run: nothing, a mapping or an object; the attributes of its
    determinism object. *)
Record ModeContext := Ctx { ctx_is_map : bool; ctx_fields : dict; ctx_determinism : dict }.

(** A spread state: nothing, a mapping, an object with a state, or a plain value. *)
Inductive SpreadArg := SpreadNone | SpreadMap (d : dict) | SpreadObj (state : pyval) | SpreadVal (v : pyval).

Definition MODE_LABELS : list (string * string) :=
  [("market", "Market (IOC)"); ("marketable_limit", "Marketable Limit"); ("limit_requote", "Limit (Requote)")].
Definition SPREAD_TTL_BUCKET : list (string * string) := [("normal", "base"); ("watch", "fast_path"); ("cooldown", "slow_path")].

Definition extract_value (source : option ModeContext) (key : string) (dflt : pyval) : pyval :=
  match source with Some c => dget_or key dflt (ctx_fields c) | None => dflt end.

(** [except (TypeError, ValueError)] around [float(value)], [None] for none. *)
Definition try_float (value : pyval) : res (option float) :=
  match value with
  | VNone => Ok None
  | _ => match py_float value with
      | Ok x => Ok (Some x)
      | Raise e => match e with TypeError _ | ValueError _ => Ok None | _ => Raise e end
      end
  end.

Definition resolve_spread_state (s : SpreadArg) : option string :=
  let shown v := match v with VNone => None | _ => Some (py_str v) end in
  match s with
  | SpreadNone => None
  | SpreadMap d => shown (dget "state" d)
  | SpreadObj v | SpreadVal v => shown v
  end.

Definition resolve_entry_mode (signal : dict) (spread_state : string) : string :=
  let entry_mode := py_str (dget "entry_mode" signal or? VStr "marketable_limit") in
  if String.eqb spread_state "watch" then "market" else if String.eqb spread_state "cooldown" then "limit_requote" else entry_mode.

(** * The configuration *)

(** [config.get("defaults", {})], here and below on the mapping of the model. *)
Definition defaults_of (config : dict) : pyval := dget_or "defaults" (VDict []) config.

(** [value[key]] when [value] is a mapping. *)
Definition map_get (key : string) (value : pyval) : option pyval := match value with VDict d => Some (dget key d) | _ => None end.

Definition lookup_entry_mode (config : dict) (entry_mode : string) : res dict :=
  match defaults_of config with
  | VDict d =>
      match dget_or "entry_modes" (VDict []) d with
      | VDict modes => match dget entry_mode modes with VDict c => Ok c | _ => Raise (ExecutionConfigError ("Entry mode '" +:+ entry_mode +:+ "' not configured")) end
      | _ => Raise (ExecutionConfigError ("Entry mode '" +:+ entry_mode +:+ "' not configured"))
      end
  | _ => Raise (ExecutionConfigError ("Entry mode '" +:+ entry_mode +:+ "' not configured"))
  end.

Definition resolve_fill_style (c : dict) : string * string :=
  let style := match dget "fill_style" c with
    | VStr s => if str_in s ["ioc"; "fok"; "gtd"] then Some s else None
    | _ => None
    end in
  let style := match style with
    | Some s => s
    | None => if truthy (dget "allow_ioc" c) then "ioc" else if truthy (dget "allow_fok" c) then "fok" else "gtd"
    end in
  (style, if String.eqb style "gtd" && truthy (dget "allow_day" c) then "day" else style).

(** [d.get(mode)] for a mode that may be no text. *)
Definition get_mode (mode : pyval) (d : dict) : pyval := match mode with VStr m => dget m d | _ => VNone end.

Definition resolve_delay_stats (config : dict) (mode symbol : pyval) : res dict :=
  let delay_defaults := match defaults_of config with VDict d => dget_or "human_delay_seconds" (VDict []) d | _ => VDict [] end in
  let own := match symbol with
    | VStr s =>
        match dget_or "symbols" (VDict []) config with
        | VDict symbols =>
            match dget s symbols with
            | VDict c => match dget "human_delay_seconds" c with VDict delays => get_mode mode delays | _ => VNone end
            | _ => VNone
            end
        | _ => VNone
        end
    | _ => VNone
    end in
  let stats := match own, delay_defaults with VNone, VDict d => get_mode mode d | _, _ => own end in
  match stats with
  | VDict d => Ok d
  | _ => Raise (ExecutionConfigError ("Human delay distribution missing for mode '" +:+ py_str mode +:+ "'"))
  end.

Definition resolve_ttl_buffer (config : dict) (bucket : string) : res float :=
  let ttl_defaults := match defaults_of config with VDict d => dget_or "ttl_seconds" (VDict []) d | _ => VDict [] end in
  value ← match ttl_defaults with
    | VDict d => Ok (if dmem bucket d then dget bucket d else dget_or "base" (VInt 0) d)
    | v => vget_or v "base" (VInt 0)
    end;
  py_float value.

Definition fallbacks_of (config : dict) : res pyval := vget_or (defaults_of config) "fallbacks" (VDict []).

Definition apply_ttl_fallback (config : dict) (ttl : Z) (latency_status : pyval) : res Z :=
  fallbacks ← fallbacks_of config;
  match fallbacks with
  | VDict f =>
      extra ← (if v_in latency_status ["degraded"; "halt_recommended"] then py_float (dget_or "ttl_fallback_sec" (VFloat fzero) f) else Ok fzero);
      t ← float_of_int ttl;
      let t := fadd t extra in
      fround_int (if eq_str latency_status "halt_recommended" then fadd t extra else t)
  | _ => Ok ttl
  end.

Definition apply_slippage_fallback (config : dict) (slippage : option float) (slippage_status : pyval) : res (option float) :=
  fallbacks ← fallbacks_of config;
  match fallbacks with
  | VDict f =>
      fallback ← try_float (dget "slippage_fallback_pips" f);
      Ok (match fallback with
          | Some x =>
              if v_in slippage_status ["degraded"; "halt_recommended"]
              then Some (match slippage with Some s => fmax s x | None => x end)
              else slippage
          | None => slippage
          end)
  | _ => Ok slippage
  end.

Definition resolve_expected_slippage (config : dict) (spread_state : string) : res (option float) :=
  match map_get "slippage_pips" (defaults_of config) with
  | Some (VDict slippage) =>
      let '(bucket_name, percentile) := if String.eqb spread_state "watch" then ("volatile", "p90")
        else if String.eqb spread_state "cooldown" then ("base", "p90") else ("base", "p50") in
      let bucket := match dget bucket_name slippage with
        | VDict b => b
        | _ => default [] (head (omap (λ kv : string * pyval, match kv.2 with VDict b => Some b | _ => None end) slippage))
        end in
      if negb (truthy bucket) then Ok None
      else match dget percentile bucket with
      | VNone => match dget "p50" bucket with VNone => Ok None | v => x ← py_float v; Ok (Some x) end
      | v => x ← py_float v; Ok (Some x)
      end
  | _ => Ok None
  end.

(** * Prices and slippage *)

(** The first value of the keys that is there. *)
Fixpoint first_present (keys : list string) (d : dict) : pyval :=
  match keys with
  | [] => VNone
  | k :: keys => match dget k d with VNone => first_present keys d | v => v end
  end.

Definition entry_keys : list string := ["expected_entry"; "entry_price"; "price"; "mid"].

Definition resolve_expected_entry (signal market : dict) : res (option float) :=
  let v := match first_present entry_keys signal with VNone => first_present entry_keys market | v => v end in
  match v with VNone => Ok None | _ => x ← py_float v; Ok (Some x) end.

(** [x or 0.0] *)
Definition or_zero (x : option float) : float := match x with Some x => x or? fzero | None => fzero end.

Definition apply_spread_to_slippage (slippage spread_pips : option float) (entry : dict) (allow_exceed : bool) : res (option float) :=
  match spread_pips with
  | None => Ok slippage
  | Some spread =>
      let value := fmax (or_zero slippage) spread in
      cap ← try_float (dget "max_slippage_pips" entry);
      Ok (Some (match cap with Some c => if allow_exceed then value else fmin value c | None => value end))
  end.

Definition apply_observed_slippage (slippage observed : option float) : option float :=
  match observed with Some o => Some (fmax (or_zero slippage) o) | None => slippage end.

Definition apply_rollover_cost (slippage rollover : option float) : option float :=
  match rollover with Some r => Some (fmax (or_zero slippage) (fabs r)) | None => slippage end.

Definition enforce_spread (entry : dict) (spread_pips : option float) : res unit :=
  match spread_pips with
  | None => Ok tt
  | Some spread =>
      limit ← try_float (dget "max_spread_pips" entry);
      match limit with
      | Some m => if fgtb spread m
          then Raise (ExecutionRuleViolationError ("Spread " +:+ frepr spread +:+ " exceeds max_spread_pips " +:+ frepr m))
          else Ok tt
      | None => Ok tt
      end
  end.

Definition extract_spread_pips (signal market : dict) : res (option float) :=
  try_float (match dget "spread_pips" signal with VNone => dget "spread_pips" market | v => v end).

(** The first key whose value is a number. *)
Fixpoint first_number (keys : list string) (d : dict) : res (option float) :=
  match keys with
  | [] => Ok None
  | k :: keys => x ← try_float (dget k d); match x with Some x => Ok (Some x) | None => first_number keys d end
  end.

Definition log_number (keys : list string) (log : pyval) : res (option float) :=
  match log with VDict d => first_number keys d | _ => Ok None end.

(** [r or else the next]. *)
Definition or_else (r : res (option float)) (next : res (option float)) : res (option float) :=
  x ← r; match x with Some x => Ok (Some x) | None => next end.

(** A computation inside [try: ... except (TypeError, ValueError): pass]. *)
Definition swallow (r : res (option float)) : res (option float) :=
  match r with Raise (TypeError _) | Raise (ValueError _) => Ok None | _ => r end.

(** [max(l)] and [sum(l) / len(l)] of a list that may be empty. *)
Definition max_of (l : list float) : option float := match l with [] => None | x :: l => Some (fold_left fmax l x) end.
Definition mean_of (l : list float) : res (option float) :=
  match l with [] => Ok None | _ => x ← fdiv (fsum l) (of_Z (Z.of_nat (length l))); Ok (Some x) end.

Definition spread_observed (obs : pyval) : res (option float) :=
  if negb (truthy obs) then Ok None
  else swallow (l ← py_iter obs; xs ← mapM_res py_float (List.filter (λ v, match v with VNone => false | _ => true end) l); Ok (max_of (map fabs xs))).

Definition sampled (c : option ModeContext) : res (option float) :=
  match c with
  | Some c =>
      let samples := if ctx_is_map c then VNone else dget "slippage_samples" (ctx_fields c) in
      match samples with
      | VList _ | VStr _ | VDict _ =>
          if truthy samples then swallow (l ← py_iter samples; xs ← mapM_res py_float l; mean_of xs) else Ok None
      | _ => Ok None
      end
  | None => Ok None
  end.

Definition resolve_observed_slippage (market : dict) (c : option ModeContext) : res (option float) :=
  or_else (first_number ["observed_slippage_pips"; "slippage_pips"] market)
    (or_else (try_float (extract_value c "observed_slippage_pips" VNone))
      (or_else (log_number ["avg_pips"; "mean_pips"; "p95"; "avg"] (dget "slippage_log" market))
        (or_else (spread_observed (dget "spread_observations" market or? dget "spread_history" market)) (sampled c)))).

Definition resolve_rollover_cost (market : dict) (c : option ModeContext) : res (option float) :=
  or_else (first_number ["rollover_pips"; "swap_pips"] market)
    (or_else (try_float (extract_value c "rollover_pips" VNone))
      (log_number ["last_pips"; "avg_pips"; "p95"; "max_pips"] (dget "rollover_log" market))).

(** * Validation *)

(** [isinstance(value, (int, float))] with [value < 0]. *)
Definition numeric (v : pyval) : bool := match v with VBool _ | VInt _ | VFloat _ => true | _ => false end.
Definition negative (v : pyval) : bool := match v with VInt z => z <? 0 | VFloat x => fltb x fzero | _ => false end.

Definition check (b : bool) (msg : string) : res unit := if b then Ok tt else Raise (ExecutionConfigError msg).

Definition validate_delay_stats (stats : dict) (context : string) : res unit :=
  _ ← mapM_res (λ key,
    _ ← check (numeric (dget key stats)) (context +:+ " must define numeric '" +:+ key +:+ "'");
    check (negb (negative (dget key stats))) (context +:+ "." +:+ key +:+ " must be non-negative")) ["min"; "p50"; "p95"];
  minimum ← py_float (dget "min" stats);
  median ← py_float (dget "p50" stats);
  tail ← py_float (dget "p95" stats);
  check (fleb minimum median && fleb median tail) (context +:+ " must satisfy min <= p50 <= p95 (got " +:+ frepr minimum +:+ ", "
    +:+ frepr median +:+ ", " +:+ frepr tail +:+ ")").

(** A mapping under a key, or the message. *)
Definition section (key : string) (d : dict) (msg : string) : res dict :=
  match dget key d with VDict x => Ok x | _ => Raise (ExecutionConfigError msg) end.

Definition modes : list string := ["backtest"; "paper"; "live"].
Definition buckets : list string := ["base"; "fast_path"; "slow_path"].
Definition entry_modes : list string := ["market"; "marketable_limit"; "limit_requote"].

Definition validate_config (config : pyval) : res unit :=
  match config with
  | VDict c =>
      _ ← check (eq_str (dget "schema_version" c) "execution.model.v1") "Execution model config must declare schema_version 'execution.model.v1'";
      defaults ← section "defaults" c "Execution model config missing defaults mapping";
      delays ← section "human_delay_seconds" defaults "defaults.human_delay_seconds must be provided";
      _ ← mapM_res (λ m,
        stats ← section m delays ("human_delay_seconds missing '" +:+ m +:+ "' distribution");
        validate_delay_stats stats ("human_delay_seconds." +:+ m)) modes;
      ttl ← section "ttl_seconds" defaults "defaults.ttl_seconds must be provided";
      _ ← mapM_res (λ b,
        _ ← check (numeric (dget b ttl)) ("ttl_seconds bucket '" +:+ b +:+ "' must be a numeric value");
        check (negb (negative (dget b ttl))) "ttl_seconds buckets must be non-negative") buckets;
      let fallbacks := dget_or "fallbacks" (VDict []) defaults in
      _ ← (if truthy fallbacks then
             mapM_res (λ k, v ← vget fallbacks k; check (numeric v) ("defaults.fallbacks." +:+ k +:+ " must be numeric when provided"))
               ["slippage_fallback_pips"; "ttl_fallback_sec"]
           else Ok []);
      entries ← section "entry_modes" defaults "defaults.entry_modes must be provided";
      _ ← mapM_res (λ m, check (dmem m entries) ("entry_modes missing required configuration for '" +:+ m +:+ "'")) entry_modes;
      Ok tt
  | _ => Raise (ExecutionConfigError "Execution model config must be a mapping")
  end.

(** * The model *)

Record DeterministicExecutionModel := Model {
  config : dict; delay_stats_cache : gmap Z dict; metrics_path : option string; em_world : world }.

#[export] Instance execution_model_world : HasWorld DeterministicExecutionModel.
Proof.
  refine {| wget := em_world; wset w m := Model (config m) (delay_stats_cache m) (metrics_path m) w |}; by intros; try destruct s.
Defined.

Definition set_cache (c : gmap Z dict) (m : DeterministicExecutionModel) : DeterministicExecutionModel :=
  Model (config m) c (metrics_path m) (em_world m).

(** [EXEC_DETERMINISM_METRICS] set to 0 turns the metrics off. *)
Definition metrics_file (env_path metrics_path : option string) : option string :=
  match env_path with
  | Some e => if String.eqb (strip e) "0" then None else if truthy e then Some e else Some (default "metrics/execution_determinism.jsonl" metrics_path)
  | None => Some (default "metrics/execution_determinism.jsonl" metrics_path)
  end.

Definition model_init (c : pyval) (env_path metrics_path : option string) (w : world) : res DeterministicExecutionModel :=
  _ ← validate_config c;
  Ok (Model (as_dict_or_empty c) ∅ (metrics_file env_path metrics_path) w).

Section model.
Context `{Env}.
(** [random.Random(seed).random()] *)
Variable uniform : Z → float.

(** [math.sqrt] *)
Definition py_sqrt (x : float) : res float := if fltb x fzero then Raise (ValueError "math domain error") else Ok (SFsqrt prec emax x).

(** The triangular distribution between [minimum] and [maximum]. *)
Definition triangular (u minimum mode_value maximum : float) : res float :=
  c ← fdiv (fsub mode_value minimum) (fsub maximum minimum);
  if fltb u c then
    r ← py_sqrt (fmul (fmul u (fsub maximum minimum)) (fsub mode_value minimum));
    Ok (fadd minimum r)
  else
    r ← py_sqrt (fmul (fmul (fsub (of_Z 1) u) (fsub maximum minimum)) (fsub maximum mode_value));
    Ok (fsub maximum r).

Definition delay_of (stats : dict) (mode_label : pyval) (seed : Z) : res float :=
  minimum ← py_float (dget_or "min" (VFloat fzero) stats);
  mode_value ← py_float (dget_or "p50" (VFloat minimum) stats);
  maximum ← py_float (dget_or "p95" (VFloat (fmax mode_value minimum)) stats);
  let maximum := if fltb maximum minimum then minimum else maximum in
  let mode_value := if fltb mode_value minimum then minimum else mode_value in
  let mode_value := if fgtb mode_value maximum then maximum else mode_value in
  delay ← (if feqb maximum minimum then Ok minimum else triangular (uniform seed) minimum mode_value maximum);
  if v_in mode_label ["paper"; "live"] then z ← fround_int delay; float_of_int z else Ok delay.

Definition backtest_stats (c : dict) : res dict :=
  delays ← (match defaults_of c with VDict d => Ok (dget_or "human_delay_seconds" (VDict []) d) | _ => Ok (VDict []) end);
  stats ← vget_or delays "backtest" (VDict []);
  match stats with VDict d => Ok d | _ => Raise (AttributeError "get") end.

Definition apply_human_delay (seed : Z) : M DeterministicExecutionModel float :=
  m ← get;
  match delay_stats_cache m !! seed with
  | Some stats => lift (delay_of stats (dget "_mode" stats) seed)
  | None => lift (stats ← backtest_stats (config m); delay_of stats VNone seed)
  end.

(** [int(round(human_delay * 1000))] and the record around it. *)
Definition record_metrics (signal : dict) (spread_state : string) (seed ttl : Z) (human_delay : float)
    (slippage observed rollover : option float) (latency_status slippage_status mode : pyval) (determinism : dict)
    : M DeterministicExecutionModel unit :=
  path ← gets metrics_path;
  match path with
  | None => mret tt
  | Some path =>
      delay_ms ← lift (fround_int (fmul human_delay (of_Z 1000)));
      ts ← utcnow_iso;
      _ ← try_append_jsonl path (VDict [("event", VStr "execution.determinism"); ("strategy_id", dget "strategy_id" signal);
        ("symbol", dget "symbol" signal); ("spread_state", VStr spread_state); ("seed", VInt seed); ("mode", mode); ("ttl_seconds", VInt ttl);
        ("human_delay_ms", VInt delay_ms); ("expected_slippage_pips", vopt_float slippage); ("observed_slippage_pips", vopt_float observed);
        ("rollover_pips", vopt_float rollover); ("latency_status", latency_status); ("slippage_status", slippage_status);
        ("feature_version", dget "feature_version" determinism); ("data_manifest_hash", dget "data_manifest_hash" determinism);
        ("determinism_hash", dget "determinism_hash" determinism); ("ts", VStr ts)]);
      mret tt
  end.

(** The largest observation among the candidates. *)
Definition observed_max (observed : option float) (market : dict) (c : option ModeContext) : res float :=
  a ← try_float (dget "observed_slippage_pips" market);
  b ← try_float (dget "slippage_pips" market);
  d ← try_float (extract_value c "observed_slippage_pips" VNone);
  Ok (default fzero (max_of (map fabs (omap id [observed; a; b; d])))).

(** The slippage from its sources: configuration, spread, observations, rollover. *)
Definition market_slippage (cfg : dict) (state : string) (spread_pips observed rollover : option float) (obs_max : float) (entry : dict)
    : res (option float) :=
  base ← resolve_expected_slippage cfg state;
  s ← apply_spread_to_slippage base spread_pips entry (fltb fzero obs_max);
  let s := apply_observed_slippage s observed in
  let s := fold_left fmax (match rollover with Some r => [fabs r] | None => [] end) (fmax (or_zero s) obs_max) in
  Ok (apply_rollover_cost (Some s) rollover).

(** The delay sampled with [stats] in the cache under the seed, which leaves it again
    whatever happens. *)
Definition sample_delay (stats : dict) (seed : Z) : M DeterministicExecutionModel (res float) :=
  λ m, let '(r, m) := apply_human_delay seed (set_cache (<[seed := stats]> (delay_stats_cache m)) m) in
    (Ok r, set_cache (delete seed (delay_stats_cache m)) m).

Definition apply (signal market : dict) (spread_state : SpreadArg) (c : option ModeContext) : M DeterministicExecutionModel ExecutionAdjustments :=
  match resolve_spread_state spread_state with
  | None => raise (ExecutionModelInputError "Spread state is required for execution")
  | Some state =>
      if String.eqb state "halt" then raise (ExecutionRuleViolationError "Spread halt prohibits order routing")
      else
        cfg ← gets config;
        let mode := extract_value c "mode" (VStr "backtest") in
        seed ← lift (py_int (extract_value c "deterministic_seed" (VInt 0)));
        let symbol := dget "symbol" signal in
        let latency_status := extract_value c "latency_data_status" (VStr "ok") in
        let slippage_status := extract_value c "slippage_data_status" (VStr "ok") in
        observed ← lift (resolve_observed_slippage market c);
        rollover ← lift (resolve_rollover_cost market c);
        obs_max ← lift (observed_max observed market c);
        spread_pips ← lift (extract_spread_pips signal market);
        let entry_mode := resolve_entry_mode signal state in
        let label := default entry_mode (dlookup entry_mode MODE_LABELS) in
        entry ← lift (lookup_entry_mode cfg entry_mode);
        _ ← lift (enforce_spread entry spread_pips);
        let '(style, policy) := resolve_fill_style entry in
        stats ← lift (resolve_delay_stats cfg mode symbol);
        let stats := dset "_mode" mode stats in
        offset ← lift (py_int (dget_or "seed_offset" (VInt 0) stats));
        let delay_seed := Z.lxor seed offset in
        delayed ← sample_delay stats delay_seed;
        human_delay ← lift delayed;
        ttl_buffer ← lift (resolve_ttl_buffer cfg (default "base" (dlookup state SPREAD_TTL_BUCKET)));
        ttl ← lift (fround_int (fadd ttl_buffer human_delay));
        entry_price ← lift (resolve_expected_entry signal market);
        slip ← lift (market_slippage cfg state spread_pips observed rollover obs_max entry);
        ttl ← lift (apply_ttl_fallback cfg ttl latency_status);
        slip ← lift (apply_slippage_fallback cfg slip slippage_status);
        _ ← record_metrics signal state seed ttl human_delay slip observed rollover latency_status slippage_status mode
          (match c with Some c => ctx_determinism c | None => [] end);
        mret (Adjustments entry_price slip ttl style policy label None)
  end.
End model.

(** * The same seed gives the same adjustments *)

Definition same_model (m m' : DeterministicExecutionModel) : Prop := config m = config m' ∧ metrics_path m = metrics_path m'.

(** Two computations that answer the same on models of the same configuration. *)
Definition agree {A} (f g : M DeterministicExecutionModel A) : Prop :=
  ∀ m m', same_model m m' → (f m).1 = (g m').1 ∧ same_model (f m).2 (g m').2.

Lemma agree_bind {A B} (f g : M DeterministicExecutionModel A) (k h : A → M DeterministicExecutionModel B) :
  agree f g → (∀ a, agree (k a) (h a)) → agree (f ≫= k) (g ≫= h).
Proof.
  intros Hfg Hkh m m' Hm. destruct (Hfg m m' Hm) as [H1 H2]. rewrite !bind_run.
  destruct (f m) as [[a|e] m1], (g m') as [[a'|e'] m1']; cbn in H1, H2; try done; simplify_eq; [by apply Hkh|done].
Qed.
Lemma agree_lift {A} (r : res A) : agree (lift r) (lift r).
Proof. by intros m m' Hm. Qed.
Lemma agree_raise {A} e : agree (raise (A:=A) e) (raise e).
Proof. by intros m m' Hm. Qed.
Lemma agree_ret {A} (a : A) : agree (mret a) (mret a).
Proof. by intros m m' Hm. Qed.
Lemma agree_gets {A} (f : DeterministicExecutionModel → A) : (∀ m m', same_model m m' → f m = f m') → agree (gets f) (gets f).
Proof. intros Hf m m' Hm. cbn. split; [by rewrite (Hf m m')|done]. Qed.

Section determinism.
Context (E1 E2 : Env) (uniform : Z → float).

Lemma sample_delay_agree stats seed : agree (sample_delay uniform stats seed) (sample_delay uniform stats seed).
Proof.
  intros m m' [Hc Hp]. unfold sample_delay, apply_human_delay. rewrite !bind_run. cbn [get set_cache delay_stats_cache]. rewrite !lookup_insert.
  destruct (decide _); [|done]. by split.
Qed.

Lemma record_metrics_agree signal state seed ttl delay slip obs roll lat sli mode det :
  agree (record_metrics (H:=E1) signal state seed ttl delay slip obs roll lat sli mode det)
    (record_metrics (H:=E2) signal state seed ttl delay slip obs roll lat sli mode det).
Proof.
  unfold record_metrics. apply agree_bind; [apply agree_gets; by intros m m' [_ ?]|]. intros [path|]; [|apply agree_ret].
  apply agree_bind; [apply agree_lift|]. intros ms m m' [Hc Hp]. unfold utcnow_iso, try_append_jsonl, mbind, M_bind. cbn.
  destruct (io_ok_at _), (io_ok_at _); cbn; by split.
Qed.

(** The model is deterministic: on the same configuration and inputs it gives the
    same adjustments or the same exception, whatever the clock reads, whatever writes
    of metrics fail and whatever delay statistics a model has cached. *)
Theorem apply_is_deterministic signal market spread c m m' : config m = config m' → metrics_path m = metrics_path m' →
  (apply (H:=E1) uniform signal market spread c m).1 = (apply (H:=E2) uniform signal market spread c m').1.
Proof.
  intros Hc Hp. assert (agree (apply (H:=E1) uniform signal market spread c) (apply (H:=E2) uniform signal market spread c)) as Ha; [|by apply Ha].
  unfold apply. destruct (resolve_spread_state spread) as [state|]; [|apply agree_raise]. destruct (String.eqb state "halt"); [apply agree_raise|].
  apply agree_bind; [apply agree_gets; by intros ? ? [? _]|]. intros cfg. cbv zeta.
  repeat (apply agree_bind; [first [apply agree_lift|apply sample_delay_agree|apply record_metrics_agree]|intros ?]). apply agree_ret.
Qed.
End determinism.

(** * The slippage covers the market *)

(** What the market and the context say about slippage and rollover. *)
Definition observation (market : dict) (c : option ModeContext) (x : float) : Prop :=
  resolve_observed_slippage market c = Ok (Some x) ∨ resolve_rollover_cost market c = Ok (Some x) ∨
  try_float (dget "observed_slippage_pips" market) = Ok (Some x) ∨ try_float (dget "slippage_pips" market) = Ok (Some x) ∨
  try_float (extract_value c "observed_slippage_pips" VNone) = Ok (Some x).

Lemma fabs_not_nan x : is_nan (fabs x) = is_nan x.
Proof. by destruct x. Qed.

Lemma fmax_not_nan_l a b : is_nan (fmax a b) = false → is_nan a = false.
Proof. unfold fmax. destruct (fltb a b) eqn:E; [by destruct (fltb_not_nan _ _ E)|done]. Qed.

Lemma or_zero_ge x s : fleb x s = true → fleb x (or_zero (Some s)) = true.
Proof.
  by destruct s as [b|b| |b m e].
Qed.

Lemma or_zero_not_nan s : is_nan (or_zero (Some s)) = is_nan s.
Proof. unfold or_zero, py_or. by destruct s as [b|b| |b m e]. Qed.

Lemma fold_fmax_bounds l a : is_nan a = false → Forall (λ x, is_nan x = false) l →
  fleb a (fold_left fmax l a) = true ∧ Forall (λ x, fleb x (fold_left fmax l a) = true) l ∧ is_nan (fold_left fmax l a) = false.
Proof.
  intros Ha Hl. revert a Ha. induction Hl as [|x l Hx Hl IH]; intros a Ha; cbn [fold_left].
  { split; [by apply fleb_refl|]. by split. }
  assert (is_nan (fmax a x) = false) as Hm by (unfold fmax; by destruct (fltb a x)).
  destruct (IH _ Hm) as (H1 & H2 & H3). split; [apply (fleb_trans _ (fmax a x)); [by apply fmax_ge_l|done]|]. split; [|done].
  constructor; [apply (fleb_trans _ (fmax a x)); [by apply fmax_ge_r|done]|done].
Qed.

Lemma max_of_bounds l x : Forall (λ x, is_nan x = false) l → x ∈ l → ∃ m, max_of l = Some m ∧ fleb x m = true ∧ is_nan m = false.
Proof.
  destruct l as [|a l]; intros Hl Hx; [by apply elem_of_nil in Hx|]. apply Forall_cons in Hl as [Ha Hl].
  destruct (fold_fmax_bounds l a Ha Hl) as (H1 & H2 & H3). exists (fold_left fmax l a). split; [done|]. split; [|done].
  apply elem_of_cons in Hx as [->|Hx]; [done|]. rewrite Forall_forall in H2. by apply H2.
Qed.

Section slippage.
Variables (market : dict) (c : option ModeContext).
Hypothesis numbers : ∀ x, observation market c x → is_nan x = false.

(** The candidates the maximum of the observations is taken of. *)
Lemma observed_max_bounds observed m : resolve_observed_slippage market c = Ok observed → observed_max observed market c = Ok m →
  is_nan m = false ∧ (∀ x, observed = Some x → fleb (fabs x) m = true) ∧
  ∀ v x, v ∈ [dget "observed_slippage_pips" market; dget "slippage_pips" market; extract_value c "observed_slippage_pips" VNone] →
    try_float v = Ok (Some x) → fleb (fabs x) m = true.
Proof using numbers.
  intros Ho E. unfold observed_max in E. apply bind_ok in E as (a & Ea & E). apply bind_ok in E as (b & Eb & E). apply bind_ok in E as (d & Ed & E).
  injection E as <-. set (l := map fabs (omap id [observed; a; b; d])).
  assert (Forall (λ x, is_nan x = false) l) as Hl.
  { subst l. apply Forall_forall. intros y (x & <- & Hx)%list_elem_of_In%in_map_iff. rewrite fabs_not_nan. apply numbers.
    apply list_elem_of_In, list_elem_of_omap in Hx as (o & Hin & Hox). cbn in Hox. subst o. unfold observation.
    repeat (apply elem_of_cons in Hin as [Hin|Hin]); [..|by apply elem_of_nil in Hin]; subst; auto 10. }
  assert (∀ o x, o ∈ [observed; a; b; d] → o = Some x → fabs x ∈ l) as Hin.
  { intros o x Hox ->. subst l. apply list_elem_of_In, in_map_iff. exists x. split; [done|]. apply list_elem_of_In, list_elem_of_omap. by exists (Some x). }
  assert (is_nan (default fzero (max_of l)) = false) as Hn.
  { destruct l as [|y l]; [done|]. destruct (max_of_bounds (y :: l) y Hl) as (r & -> & _ & Hr); [by left|done]. }
  assert (∀ o x, o ∈ [observed; a; b; d] → o = Some x → fleb (fabs x) (default fzero (max_of l)) = true) as Hb.
  { intros o x Hox Ex. destruct (max_of_bounds l (fabs x) Hl) as (r & -> & Hr & _); [by eapply Hin|done]. }
  split; [done|]. split; [intros x Hx; by apply (Hb observed); [left|]|]. intros v x Hv Ev.
  repeat (apply elem_of_cons in Hv as [->|Hv]); [..|by apply elem_of_nil in Hv].
  - apply (Hb a); [set_solver|congruence].
  - apply (Hb b); [set_solver|congruence].
  - apply (Hb d); [set_solver|congruence].
Qed.

Lemma market_slippage_bounds cfg state spread observed rollover m entry v :
  resolve_observed_slippage market c = Ok observed → resolve_rollover_cost market c = Ok rollover → observed_max observed market c = Ok m →
  market_slippage cfg state spread observed rollover m entry = Ok v →
  ∃ s, v = Some s ∧ (is_nan s = false → ∀ x, observation market c x → fleb (fabs x) s = true).
Proof using numbers.
  intros Ho Hr Hm E. unfold market_slippage in E. apply bind_ok in E as (base & _ & E). apply bind_ok in E as (s1 & _ & E). injection E as <-.
  destruct (observed_max_bounds observed m Ho Hm) as (Hn & Hobs & Hcand). set (s2 := or_zero (apply_observed_slippage s1 observed)).
  set (t := fold_left fmax _ (fmax s2 m)).
  assert (is_nan s2 = false → is_nan t = false ∧ fleb m t = true ∧ ∀ r, rollover = Some r → fleb (fabs r) t = true) as Ht.
  { intros Hs2. assert (is_nan (fmax s2 m) = false) as Hf by (unfold fmax; by destruct (fltb s2 m)).
    assert (Forall (λ x, is_nan x = false) (match rollover with Some r => [fabs r] | None => [] end)) as Hall.
    { destruct rollover as [r|]; [|constructor]. constructor; [|constructor]. rewrite fabs_not_nan. apply numbers. right. by left. }
    destruct (fold_fmax_bounds _ _ Hf Hall) as (H1 & H2 & H3). fold t in H1, H2, H3. split; [done|]. split.
    - apply (fleb_trans _ (fmax s2 m)); [by apply fmax_ge_r|done].
    - intros r ->. by apply Forall_cons in H2 as [? _]. }
  assert (∀ s, (s = t ∨ ∃ r, rollover = Some r ∧ s = fmax (or_zero (Some t)) (fabs r)) → is_nan s = false →
    ∀ x, observation market c x → fleb (fabs x) s = true) as Hfin.
  { intros s Hs Hns x Hx. assert (is_nan t = false) as Hnt.
    { destruct Hs as [->|(r & _ & ->)]; [done|]. apply fmax_not_nan_l in Hns. by rewrite or_zero_not_nan in Hns. }
    assert (is_nan s2 = false) as Hs2.
    { subst t. destruct rollover as [r|]; cbn in Hnt; [apply fmax_not_nan_l in Hnt|]; by apply fmax_not_nan_l in Hnt. }
    destruct (Ht Hs2) as (_ & Hmt & Hroll). assert (fleb (fabs x) t = true) as Hxt.
    { destruct Hx as [Hx|[Hx|[Hx|[Hx|Hx]]]].
      - eapply fleb_trans; [apply Hobs; congruence|done].
      - apply Hroll. congruence.
      - eapply fleb_trans; [eapply Hcand; [|exact Hx]; set_solver|done].
      - eapply fleb_trans; [eapply Hcand; [|exact Hx]; set_solver|done].
      - eapply fleb_trans; [eapply Hcand; [|exact Hx]; set_solver|done]. }
    destruct Hs as [->|(r & _ & ->)]; [done|]. eapply fleb_trans; [by apply or_zero_ge|]. apply fmax_ge_l. by rewrite or_zero_not_nan. }
  destruct rollover as [r|]; cbn [apply_rollover_cost]; eexists; (split; [reflexivity|]); apply Hfin; [right; by exists r|by left].
Qed.

Lemma slippage_fallback_bounds cfg s status v : apply_slippage_fallback cfg (Some s) status = Ok v →
  ∃ s', v = Some s' ∧ (is_nan s' = false → is_nan s = false ∧ fleb s s' = true).
Proof.
  unfold apply_slippage_fallback. intros E. apply bind_ok in E as (f & _ & E). destruct f; try (injection E as <-; exists s; split; [done|]; intros; split; [done|by apply fleb_refl]).
  apply bind_ok in E as (o & _ & E). injection E as <-. destruct o as [x|]; [|exists s; split; [done|]; intros; split; [done|by apply fleb_refl]].
  destruct (v_in _ _); [|exists s; split; [done|]; intros; split; [done|by apply fleb_refl]].
  exists (fmax s x). split; [done|]. intros Hn%fmax_not_nan_l. split; [done|by apply fmax_ge_l].
Qed.
End slippage.

(** The expected slippage is never below what the market shows: when the model
    answers, its slippage is at least every observed slippage and the rollover cost of
    snapshot and context, in absolute value, unless a number is NaN. *)
Theorem slippage_covers_market `{Env} uniform signal market spread c m a m' :
  apply uniform signal market spread c m = (Ok a, m') → (∀ x, observation market c x → is_nan x = false) →
  ∃ s, expected_slippage a = Some s ∧ (is_nan s = false → ∀ x, observation market c x → fleb (fabs x) s = true).
Proof.
  intros E Hnum. unfold apply in E. destruct (resolve_spread_state spread) as [state|]; [|done]. destruct (String.eqb state "halt"); [done|].
  apply bind_Ok in E as (cfg & m1 & _ & E). cbv zeta in E. apply bind_Ok in E as (seed & m2 & _ & E).
  apply bind_Ok in E as (observed & m3 & [Ho _]%lift_Ok & E). apply bind_Ok in E as (rollover & m4 & [Hr _]%lift_Ok & E).
  apply bind_Ok in E as (mx & m5 & [Hm _]%lift_Ok & E). apply bind_Ok in E as (sp & m6 & _ & E). apply bind_Ok in E as (entry & m7 & _ & E).
  apply bind_Ok in E as ([] & m8 & _ & E). destruct (resolve_fill_style entry) as [style policy].
  do 7 (apply bind_Ok in E as (? & ? & _ & E)).
  apply bind_Ok in E as (slip & m9 & [Hs _]%lift_Ok & E). apply bind_Ok in E as (? & ? & _ & E). apply bind_Ok in E as (slip' & m10 & [Hf _]%lift_Ok & E).
  apply bind_Ok in E as (? & ? & _ & E). injection E as <- <-. cbn [expected_slippage].
  destruct (market_slippage_bounds market c Hnum _ _ _ _ _ _ _ _ Ho Hr Hm Hs) as (s & -> & Hb).
  destruct (slippage_fallback_bounds _ _ _ _ Hf) as (s' & -> & Hb'). exists s'. split; [done|]. intros Hn y Hy.
  destruct (Hb' Hn) as [Hns Hle]. eapply fleb_trans; [by apply Hb|done].
Qed.

(** * Refusals *)

(** A spread above the limit of the entry mode. *)
Definition too_wide (cfg signal market : dict) (state : string) : Prop :=
  ∃ entry spread limit, lookup_entry_mode cfg (resolve_entry_mode signal state) = Ok entry ∧
    extract_spread_pips signal market = Ok (Some spread) ∧ try_float (dget "max_spread_pips" entry) = Ok (Some limit) ∧ fgtb spread limit = true.

(** Without a spread state, on a halt, or with a spread above the limit of the
    entry mode the state asks for, no adjustments are given: the call raises and
    leaves the model, its cache and every file as they are. *)
Theorem wide_spread_is_refused `{Env} uniform signal market spread c m :
  (∀ state, resolve_spread_state spread = Some state → state = "halt" ∨ too_wide (config m) signal market state) →
  ∃ e, apply uniform signal market spread c m = (Raise e, m).
Proof.
  intros Hs. unfold apply. destruct (resolve_spread_state spread) as [state|]; [|by eexists]. destruct (String.eqb_spec state "halt") as [|Hne]; [by eexists|].
  destruct (Hs state eq_refl) as [|(entry & sp & limit & He & Hsp & Hl & Hw)]; [done|].
  assert (∀ A B (r : res A) (f : A → M DeterministicExecutionModel B) s, (∀ a, r = Ok a → ∃ e, f a s = (Raise e, s)) → ∃ e, (lift r ≫= f) s = (Raise e, s)) as Hl'.
  { intros A B r f s Hf. rewrite bind_run. unfold lift. destruct r as [a|e]; [by apply Hf|by eexists]. }
  rewrite bind_run. cbn [gets]. cbv zeta. do 4 (apply Hl'; intros ? _). apply Hl'. intros sp' Esp. apply Hl'. intros en Een. apply Hl'. intros [] Eu.
  exfalso. rewrite He in Een. injection Een as <-. rewrite Hsp in Esp. injection Esp as <-. unfold enforce_spread in Eu. rewrite Hl in Eu.
  cbn [mbind res_bind] in Eu. by rewrite Hw in Eu.
Qed.

(** * Examples: the configuration the repository ships *)

Definition num (m : Z) : pyval := VFloat (of_dec m (-1)).
Definition delays (a b c : Z) : pyval := VDict [("min", num a); ("p50", num b); ("p95", num c); ("seed_offset", VInt 0)].
Definition limits (spread slippage : Z) : dict := [("max_spread_pips", num spread); ("max_slippage_pips", num slippage)].
Definition sample_config : dict := [("schema_version", VStr "execution.model.v1"); ("defaults", VDict [
  ("human_delay_seconds", VDict [("backtest", delays 0 5 10); ("paper", delays 20 60 150); ("live", delays 40 120 300)]);
  ("slippage_pips", VDict [("base", VDict [("p10", num 1); ("p50", num 4); ("p90", num 11)]); ("volatile", VDict [("p50", num 12); ("p90", num 24)])]);
  ("ttl_seconds", VDict [("base", VInt 90); ("fast_path", VInt 45); ("slow_path", VInt 180)]);
  ("fallbacks", VDict [("slippage_fallback_pips", num 8); ("ttl_fallback_sec", VInt 30)]);
  ("entry_modes", VDict [("market", VDict (limits 8 6 ++ [("allow_ioc", VBool true)])); ("marketable_limit", VDict (limits 18 16));
    ("limit_requote", VDict [("allow_fok", VBool true); ("allow_day", VBool true)])])]);
  ("symbols", VDict [("EURUSD", VDict [("entry_modes", VDict [("market", VDict [("max_spread_pips", num 7)])])])])].
Definition sample_model : DeterministicExecutionModel := Model sample_config ∅ (Some "metrics.jsonl") world0.
Definition sample_market : dict := [("mid", VFloat (of_dec 11 (-1))); ("slippage_pips", num 9); ("rollover_pips", VInt (-2))].
Definition sample_context (mode : string) : option ModeContext := Some (Ctx true [("mode", VStr mode); ("deterministic_seed", VInt 7)] []).
Definition sample_uniform (seed : Z) : float := of_dec 3 (-1).

Example sample_config_is_valid : validate_config (VDict sample_config) = Ok tt.
Proof. vm_compute. reflexivity. Qed.

(** Another clock, failing writes, and a model that has cached something. *)
Definition failing_env : Env := {| clock_at _ := from_utc_us 0; uuid_at _ := ""; io_ok_at _ := false |}.
Definition used_model : DeterministicExecutionModel := set_cache (<[7 := []]> ∅) sample_model.

Lemma apply_is_deterministic_witness :
  (apply (H:=sample_env) sample_uniform [] sample_market (SpreadVal (VStr "normal")) (sample_context "paper") sample_model).1 =
  (apply (H:=failing_env) sample_uniform [] sample_market (SpreadVal (VStr "normal")) (sample_context "paper") used_model).1.
Proof. apply apply_is_deterministic; reflexivity. Defined.

Lemma slippage_covers_market_witness : let _ := sample_env in ∃ a s,
  (apply sample_uniform [] sample_market (SpreadVal (VStr "normal")) (sample_context "paper") sample_model).1 = Ok a ∧
  expected_slippage a = Some s ∧ (is_nan s = false → fleb (of_Z 2) s = true).
Proof.
  cbv zeta. destruct (apply (H:=sample_env) sample_uniform [] sample_market (SpreadVal (VStr "normal")) (sample_context "paper") sample_model)
    as [[a|e] m'] eqn:E; [|apply (f_equal fst) in E; vm_compute in E; discriminate E].
  destruct (slippage_covers_market (H:=sample_env) sample_uniform [] sample_market (SpreadVal (VStr "normal")) (sample_context "paper") sample_model a m' E)
    as (s & Hs & Hb).
  { intros x [Hx|[Hx|[Hx|[Hx|Hx]]]]; vm_compute in Hx; first [discriminate Hx|injection Hx as <-; reflexivity]. }
  exists a, s. split; [reflexivity|]. split; [exact Hs|]. intros Hn. apply (Hb Hn (of_Z (-2))). right. left. vm_compute. reflexivity.
Defined.

Lemma wide_spread_is_refused_witness : let _ := sample_env in ∃ e,
  apply sample_uniform [("entry_mode", VStr "market")] [("spread_pips", VInt 1)] (SpreadVal (VStr "normal")) None sample_model = (Raise e, sample_model).
Proof.
  cbv zeta. apply (wide_spread_is_refused (H:=sample_env)). intros state [= <-]. right.
  eexists _, _, _. split; [reflexivity|]. split; [vm_compute; reflexivity|]. split; [vm_compute; reflexivity|]. vm_compute. reflexivity.
Defined.

(** The limits and the regimes the configuration gives a symbol are never read: a
    spread of 0.75 pips passes although the limit of EURUSD is 0.7. *)
Example symbol_limits_are_ignored : let _ := sample_env in
  is_ok (apply sample_uniform [("symbol", VStr "EURUSD"); ("entry_mode", VStr "market")] [("spread_pips", VFloat (of_dec 75 (-2)))]
    (SpreadVal (VStr "normal")) None sample_model).1 = true.
Proof. vm_compute. reflexivity. Qed.

(** A time to live that is not a number passes the validation and breaks every call. *)
Definition nan_ttl (d : dict) : dict := dset "defaults" (VDict (dset "ttl_seconds" (VDict [("base", VFloat S754_nan); ("fast_path", VInt 45); ("slow_path", VInt 180)])
  (as_dict_or_empty (dget "defaults" d)))) d.
Example nan_ttl_is_accepted : let _ := sample_env in validate_config (VDict (nan_ttl sample_config)) = Ok tt ∧
  is_ok (apply sample_uniform [] [] (SpreadVal (VStr "normal")) None (Model (nan_ttl sample_config) ∅ None world0)).1 = false.
Proof. vm_compute. by split. Qed.
