(* ===== verification/Resync.v ===== *)
(** The resync queue of [src/core/resync.py]: a JSONL file of jobs, of which the
    last entry of each job counts, and a coordinator that backfills the jobs,
    appends what became of them to the queue and files manual work for those that
    failed. *)

From S2P Require Import Prelude PyFloat PyVal PyEnv Calendar Spread HealthStore Health DataQuality DataService Backfill.

Local Open Scope Z_scope.
Local Open Scope py_scope.

Definition DEFAULT_MANUAL_CSV_JOBS_LOG : string := "data/manual_fallback/jobs/jobs.jsonl".
Definition DEFAULT_OPS_WORKLOG : string := "ops_worklog.jsonl".

(** * Jobs *)

Record ResyncJob := RJob {
  job_id : string; resync_job_id : pyval; start : datetime; end_ : datetime; symbols : list string; timeframe : string; priority : string;
  failover_plan : list string; manual_csv_required : bool; job_retry_count : Z; status : string; segment_index : pyval; segment_total : pyval }.

(** The values are those of JSON, so none is a [datetime] already. *)
Definition parse_dt (value : pyval) : option datetime :=
  match value with
  | VNone => None
  | _ =>
      let text := strip (py_str value) in
      if String.eqb text "" then None
      else
        let text := if ends_with "Z" text then drop_last text +:+ "+00:00" else text in
        d ← fromisoformat text; Some (if is_naive d then with_utc d else d)
  end.

(** [[str(s) for s in value or ()]] *)
Definition strings_of (value : pyval) : res (list string) := if truthy value then l ← py_iter value; Ok (map py_str l) else Ok [].

Section from_mapping.
Context `{Env} {S : Type} `{HasWorld S}.

(** [_parse_dt(value) or datetime.now(timezone.utc)] *)
Definition time_or_now (value : pyval) : M S datetime := match parse_dt value with Some d => mret d | None => now_utc end.

Definition from_mapping (payload : dict) : M S ResyncJob :=
  let text key dflt := py_str (dget key payload or? VStr dflt) in
  start ← time_or_now (dget "start" payload);
  stop ← time_or_now (dget "end" payload);
  symbols ← lift (strings_of (dget "symbols" payload));
  plan ← lift (strings_of (dget "failover_plan" payload));
  retries ← lift (py_int (dget "retry_count" payload or? VInt 0));
  mret (RJob (text "job_id" "") (dget "resync_job_id" payload) start stop symbols (text "timeframe" "M5") (text "priority" "normal") plan
    (truthy (dget_or "manual_csv_required" (VBool false) payload)) retries (text "status" "queued")
    (dget "segment_index" payload) (dget "segment_total" payload)).
End from_mapping.

(** * Ordering *)

(** The order of numbers is exact, whatever their types. *)
Definition num_lt (a b : Z + float) : bool :=
  match a, b with
  | inl x, inl y => x <? y
  | inr x, inr y => fltb x y
  | inl x, inr (S754_finite s m e) => let m := if s then Zneg m else Zpos m in x * 2 ^ Z.max (- e) 0 <? m * 2 ^ Z.max e 0
  | inr (S754_finite s m e), inl y => let m := if s then Zneg m else Zpos m in m * 2 ^ Z.max e 0 <? y * 2 ^ Z.max (- e) 0
  | inl x, inr (S754_zero _) => x <? 0
  | inr (S754_zero _), inl y => 0 <? y
  | inl _, inr (S754_infinity s) => negb s
  | inr (S754_infinity s), inl _ => s
  | _, _ => false
  end.
Definition num_eq (a b : Z + float) : bool :=
  match a, b with
  | inl x, inr S754_nan | inr S754_nan, inl x => false
  | inr x, inr y => feqb x y
  | _, _ => negb (num_lt a b) && negb (num_lt b a)
  end.

(** [a == b] and [a < b] on values. *)
Fixpoint py_eqb (a b : pyval) : bool :=
  match num_of a, num_of b with
  | Some x, Some y => num_eq x y
  | _, _ =>
      match a, b with
      | VNone, VNone => true
      | VStr x, VStr y => String.eqb x y
      | VList l, VList l' =>
          (fix go l l' := match l, l' with [], [] => true | a :: l, b :: l' => py_eqb a b && go l l' | _, _ => false end) l l'
      | VDict d, VDict d' =>
          (length d =? length d')%nat &&
          (fix go d := match d with
            | [] => true
            | (k, a) :: d => match dlookup k d' with Some b => py_eqb a b && go d | None => false end
            end) d
      | _, _ => false
      end
  end.

Fixpoint py_lt (a b : pyval) : res bool :=
  match num_of a, num_of b with
  | Some x, Some y => Ok (num_lt x y)
  | _, _ =>
      match a, b with
      | VStr x, VStr y => Ok (str_ltb x y)
      | VList l, VList l' =>
          (fix go l l' := match l, l' with
            | _, [] => Ok false
            | [], _ :: _ => Ok true
            | a :: l, b :: l' => if py_eqb a b then go l l' else py_lt a b
            end) l l'
      | _, _ => Raise (TypeError "'<' not supported between instances")
      end
  end.

(** The tuple (resync id, segment, start) of a job and the order of two of them. *)
Definition sort_key (j : ResyncJob) : pyval * pyval * datetime := (resync_job_id j or? VStr "", segment_index j or? VInt 0, start j).

Definition key_lt (a b : pyval * pyval * datetime) : res bool :=
  let '(id, segment, t) := a in
  let '(id', segment', t') := b in
  if negb (py_eqb id id') then py_lt id id'
  else if negb (py_eqb segment segment') then py_lt segment segment'
  else dt_lt t t'.

Definition job_ltb (a b : ResyncJob) : bool := match key_lt (sort_key a) (sort_key b) with Ok b => b | Raise _ => false end.

Fixpoint pairs {A} (l : list A) : list (A * A) := match l with [] => [] | x :: l => map (λ y, (x, y)) l ++ pairs l end.

(** [jobs.sort(key=...)]: keys of which two cannot be compared make it raise; every
    sort has to compare two of them. *)
Definition sort_jobs (l : list ResyncJob) : res (list ResyncJob) :=
  _ ← mapM_res (λ p, key_lt (sort_key p.1) (sort_key p.2)) (pairs l);
  Ok (isort job_ltb l).

(** * The coordinator *)

(** The state: what the backfill works on and the queue file. *)
Record Resync := MkResync { ingestion : Ingestion; queue_file : file }.

#[export] Instance resync_world : HasWorld Resync.
Proof.
  refine {| wget s := i_world (ingestion s); wset w s := MkResync (wset w (ingestion s)) (queue_file s) |}; by intros; try destruct s as [[]].
Defined.

Definition push_queue (v : pyval) (s : Resync) : Resync := MkResync (ingestion s) (Some (file_lines (queue_file s) ++ [LJson v])).
Definition in_ingestion {A} (m : M Ingestion A) : M Resync A := zoom ingestion (λ i s, MkResync i (queue_file s)) m.

(** [_read_jsonl]: the lines that decode. *)
Definition read_queue (f : file) : list pyval := omap (λ l, match l with LJson v => Some v | _ => None end) (file_lines f).

(** The last entry of each job id, in the order in which the ids first occur. *)
Fixpoint latest_entries (entries : list pyval) (latest : list (string * dict)) : res (list (string * dict)) :=
  match entries with
  | [] => Ok latest
  | VDict e :: entries => latest_entries entries (if truthy (dget "job_id" e) then dset (py_str (dget "job_id" e)) e latest else latest)
  | _ => Raise (AttributeError "get")
  end.

(** The local variables of [process_jobs]. *)
Record Summary := MkSummary {
  results : list dict; failover_used : list string; manual_csv_enqueued : Z; jobs_completed : Z; jobs_failed : Z; retried : Z }.
Definition summary0 : Summary := MkSummary [] [] 0 0 0 0.
Definition add_result (r : dict) (x : Summary) : Summary :=
  MkSummary (results x ++ [r]) (failover_used x) (manual_csv_enqueued x) (jobs_completed x) (jobs_failed x) (retried x).
Definition add_manual (n : Z) (x : Summary) : Summary :=
  MkSummary (results x) (failover_used x) (manual_csv_enqueued x + n) (jobs_completed x) (jobs_failed x) (retried x).
Definition add_failed (x : Summary) : Summary :=
  MkSummary (results x) (failover_used x) (manual_csv_enqueued x) (jobs_completed x) (jobs_failed x + 1) (retried x).
Definition add_completed (used : option string) (n : Z) (x : Summary) : Summary :=
  let seen := match used with Some p => if truthy p && negb (str_in p (failover_used x)) then failover_used x ++ [p] else failover_used x
    | None => failover_used x end in
  MkSummary (results x) seen (manual_csv_enqueued x) (jobs_completed x + 1) (jobs_failed x) (retried x + n).

Definition vstrs (l : list string) : pyval := VList (VStr <$> l).

Definition summary_to_dict (x : Summary) : dict := [
  ("jobs", VList (VDict <$> results x)); ("jobs_completed", VInt (jobs_completed x)); ("jobs_failed", VInt (jobs_failed x));
  ("failover_used", vstrs (failover_used x)); ("manual_csv_enqueued", VInt (manual_csv_enqueued x)); ("retry_count", VInt (retried x))].

(** [except (BackfillFailedError, BackfillRangeError)], and the text of the exception. *)
Definition backfill_error (e : exn) : option string :=
  match e with
  | OtherError "BackfillFailedError" msg | OtherError "BackfillRangeError" msg => Some msg
  | _ => None
  end.

(** The part of a queue update that is there for every status. *)
Definition update_fields (ts : string) (j : ResyncJob) (st : string) (retries : option Z) : dict := [
  ("ts", VStr ts); ("job_id", VStr (job_id j)); ("resync_job_id", resync_job_id j); ("segment_index", segment_index j);
  ("segment_total", segment_total j); ("start", VStr (iso_text (start j))); ("end", VStr (iso_text (end_ j)));
  ("symbols", vstrs (symbols j)); ("timeframe", VStr (timeframe j)); ("priority", VStr (priority j));
  ("failover_plan", vstrs (failover_plan j)); ("manual_csv_required", VBool (manual_csv_required j || String.eqb st "manual_csv_required"));
  ("retry_count", VInt (default (job_retry_count j) retries)); ("status", VStr st)].

Definition update_extra (used : option string) (n : option Z) (error : option string) : dict :=
  match used with Some p => if truthy p then [("provider_used", VStr p)] else [] | None => [] end ++
  match n with Some n => [("bars", VInt n)] | None => [] end ++
  match error with Some e => if truthy e then [("error", VStr e)] else [] | None => [] end.

Section coordinator.
Context `{Env}.
Variable perf_at : nat → float.
Variable build_handlers : string → string → handlers.
Variables priorities_doc config_doc profiles_doc : document.
Variables (warn breach : float) (bar_ready : string).

Definition load_queue : M Resync (list ResyncJob) :=
  s ← get;
  latest ← lift (latest_entries (read_queue (queue_file s)) []);
  jobs ← mapM from_mapping (map snd latest);
  lift (sort_jobs jobs).

Definition append_queue_update (j : ResyncJob) (st : string) (used : option string) (n : option Z) (error : option string) (retries : option Z)
    : M Resync unit :=
  ts ← utcnow_iso;
  modify (push_queue (VDict (update_fields ts j st retries ++ update_extra used n error))).

Definition manual_job (ts : string) (j : ResyncJob) (symbol : string) : dict :=
  let date := iso_date (start j) in [
  ("ts", VStr ts); ("job_id", VStr ("manual_csv_" +:+ symbol +:+ "_" +:+ timeframe j +:+ "_" +:+ date)); ("task", VStr "manual_csv");
  ("provider", VStr "manual_csv"); ("symbol", VStr symbol); ("timeframe", VStr (timeframe j)); ("date", VStr date);
  ("start", VStr (iso_text (start j))); ("end", VStr (iso_text (end_ j))); ("status", VStr "queued");
  ("resync_job_id", resync_job_id j); ("source_job_id", VStr (job_id j))].

(** [{"timestamp": ..., "task": task, **payload}]: the payload has a task itself. *)
Definition append_ops_worklog (task : string) (payload : dict) : M Resync unit :=
  now ← utcnow_iso;
  append_jsonl DEFAULT_OPS_WORKLOG (VDict (dupdate [("timestamp", VStr now); ("task", VStr task)] payload)).

Definition enqueue_manual_csv_jobs (j : ResyncJob) : M Resync Z :=
  _ ← for_each (λ symbol,
    ts ← utcnow_iso;
    _ ← append_jsonl DEFAULT_MANUAL_CSV_JOBS_LOG (VDict (manual_job ts j symbol));
    append_ops_worklog "manual_csv_enqueue" (manual_job ts j symbol)) (symbols j);
  mret (Z.of_nat (length (symbols j))).

(** What a run is called with. *)
Record Params := MkParams {
  provider_handlers : handlers; p_thresholds : list (string * (float * float)); p_guard : option DataQualityGuard; p_metrics : option string;
  p_retries : Z; p_backoff : float; p_chunk_hours : Z; dry_run : bool }.

Definition options_of (p : Params) (profiles : dict) : Options := Opts (p_retries p) (p_backoff p) profiles warn breach (p_thresholds p) (p_guard p)
  false (of_Z 18) 10 (of_Z 12) None (default "metrics/data_ingestion_sla.jsonl" (p_metrics p)) bar_ready.

(** The backfill of a job: without collector, health monitor or buffer of its own. *)
Definition backfill_job (p : Params) (j : ResyncJob) : M Ingestion BackfillResult :=
  let a := iso_text (start j) in
  let b := iso_text (end_ j) in
  _ ← lift (backfill_range a b);
  profiles ← lift (load_provider_profiles profiles_doc);
  _ ← modify (set_collector None);
  backfill perf_at (options_of p profiles) build_handlers priorities_doc config_doc (symbols j) (timeframe j) a b None
    (failover_plan j) (provider_handlers p) None (p_chunk_hours p).

Definition result_fields (j : ResyncJob) (st : string) (mid : dict) : dict :=
  [("job_id", VStr (job_id j)); ("status", VStr st)] ++ mid ++ [("symbols", vstrs (symbols j)); ("timeframe", VStr (timeframe j))].

Definition planned (j : ResyncJob) : dict :=
  result_fields j "planned" [] ++ [("start", VStr (iso_text (start j))); ("end", VStr (iso_text (end_ j))); ("priority", VStr (priority j))].

(** The body of [try] and its handler. *)
Definition run_backfill (p : Params) (j : ResyncJob) (x : Summary) : M Resync Summary :=
  out ← attempt (in_ingestion (backfill_job p j));
  match out with
  | Ok r =>
      let n := Z.of_nat (length (concat (map bars (r_frames r)))) in
      let x := add_completed (provider_used r) (retry_count r) x in
      _ ← append_queue_update j "completed" (provider_used r) (Some n) None (Some (retry_count r));
      mret (add_result (result_fields j "completed" [("provider_used", vopt_str (provider_used r)); ("bars", VInt n)]) x)
  | Raise e =>
      match backfill_error e with
      | Some msg =>
          n ← enqueue_manual_csv_jobs j;
          _ ← append_queue_update j "failed" None None (Some msg) (Some (job_retry_count j));
          mret (add_result (result_fields j "failed" [("error", VStr msg)]) (add_manual n (add_failed x)))
      | None => raise e
      end
  end.

Definition process_job (p : Params) (j : ResyncJob) (x : Summary) : M Resync Summary :=
  if String.eqb (job_id j) "" then mret x
  else if dry_run p then mret (add_result (planned j) x)
  else if manual_csv_required j then
    n ← enqueue_manual_csv_jobs j;
    _ ← append_queue_update j "manual_csv_required" None None None None;
    mret (add_result (result_fields j "manual_csv_required" []) (add_manual n x))
  else run_backfill p j x.

Fixpoint process_list (p : Params) (jobs : list ResyncJob) (x : Summary) : M Resync Summary :=
  match jobs with
  | [] => mret x
  | j :: jobs => x ← process_job p j x; process_list p jobs x
  end.

(** A job or the mapping of one. *)
Definition process_jobs (p : Params) (jobs : list (dict + ResyncJob)) : M Resync Summary :=
  jobs ← mapM (λ j, match j with inl d => from_mapping d | inr j => mret j end) jobs;
  process_list p jobs summary0.
End coordinator.

(** * Queue entries read back *)

Lemma substring_full s r : String.substring 0 (String.length s) (s +:+ r) = s.
Proof. induction s as [|c s IH]; cbn; [by destruct r|]. by rewrite IH. Qed.

Lemma drop_last_snoc s c : drop_last (s +:+ String c "") = s.
Proof.
  unfold drop_last. assert (String.length (s +:+ String c "") = S (String.length s)) as ->.
  { induction s as [|x s IH]; cbn; [done|]. by f_equal. }
  replace (S (String.length s) - 1)%nat with (String.length s) by lia. apply substring_full.
Qed.

Lemma lstrip_iso d r : valid_dt d = true → lstrip (isoformat d +:+ r) = isoformat d +:+ r.
Proof.
  intros H. unfold valid_dt, in_range in H. to_props. unfold isoformat, iso_date, pad4, pad2 at 1.
  cbn -[pad2 iso_clock iso_offset]. destruct (digit_char_plain (dt_year d / 100 / 10)) as [-> _]; [zdiv|done].
Qed.

(** A time with an offset of whole minutes. *)
Definition job_time (d : datetime) : Prop := valid_dt d = true ∧ ∃ z, dt_tz d = Some z ∧ in_range 1 z 59 = false.

Lemma iso_text_cases d : job_time d →
  (∃ d', iso_text d = isoformat d' +:+ "Z" ∧ valid_dt d' = true ∧ isoformat d' +:+ "+00:00" = isoformat d) ∨ iso_text d = isoformat d.
Proof.
  intros (Hv & z & Ez & Hz). unfold iso_text. rewrite Ez. destruct (in_range 0 z 59) eqn:Er; [|by right]. left.
  assert (z = 0) as -> by (unfold in_range in *; to_props; lia). rewrite string_app_nil_r.
  exists (DateTime (dt_year d) (dt_month d) (dt_day d) (dt_hour d) (dt_minute d) (dt_second d) (dt_micro d) None).
  split_and!; [done| |].
  - revert Hv. unfold valid_dt. cbn. rewrite !andb_true_iff. naive_solver.
  - unfold isoformat. cbn [dt_tz dt_year dt_month dt_day dt_hour dt_minute dt_second dt_micro iso_offset]. rewrite Ez. cbn [iso_offset].
    rewrite string_app_nil_r, !string_app_assoc. done.
Qed.

Lemma parse_dt_iso_text d : job_time d → parse_dt (VStr (iso_text d)) = Some d.
Proof.
  intros Hj. pose proof Hj as (Hv & z & Ez & _). unfold parse_dt. cbn [py_str].
  assert (strip (iso_text d) = iso_text d ∧
    (if ends_with "Z" (iso_text d) then drop_last (iso_text d) +:+ "+00:00" else iso_text d) = isoformat d) as [-> Ht].
  { destruct (iso_text_cases d Hj) as [(d' & -> & Hv' & E)| ->].
    - unfold strip. rewrite lstrip_iso by done. change "Z" with (String "Z" "") at 1 2 3. rewrite rstrip_snoc by done.
      rewrite ends_with_char_snoc, bool_decide_true by done. by rewrite drop_last_snoc.
    - destruct (isoformat_plain d Hv) as [-> ->]. done. }
  rewrite (proj2 (String.eqb_neq _ _) (iso_text_not_empty d)), Ht, fromisoformat_isoformat by done. cbn. unfold is_naive. by rewrite Ez.
Qed.

Lemma strings_of_vstrs l : strings_of (vstrs l) = Ok l.
Proof.
  unfold strings_of, vstrs. destruct l as [|s l]; [done|]. cbn -[map]. f_equal. cbn. f_equal. rewrite map_map. cbn. by rewrite map_id.
Qed.

(** A job whose entry reads back as written. *)
Definition plain_id (v : pyval) : Prop := v = VNone ∨ ∃ s, v = VStr s.
Definition plain_index (v : pyval) : Prop := v = VNone ∨ ∃ z, v = VInt z.
Definition plain_job (j : ResyncJob) : Prop :=
  timeframe j ≠ "" ∧ priority j ≠ "" ∧ job_time (start j) ∧ job_time (end_ j) ∧ plain_id (resync_job_id j) ∧ plain_index (segment_index j).

(** The job as the queue shows it after an update. *)
Definition updated (j : ResyncJob) (st : string) (retries : Z) : ResyncJob :=
  RJob (job_id j) (resync_job_id j) (start j) (end_ j) (symbols j) (timeframe j) (priority j) (failover_plan j)
    (manual_csv_required j || String.eqb st "manual_csv_required") retries st (segment_index j) (segment_total j).

Lemma from_mapping_update `{Env} {S} `{HasWorld S} ts j st n extra (s : S) : plain_job j → st ≠ "" →
  from_mapping (update_fields ts j st (Some n) ++ extra) s = (Ok (updated j st n), s).
Proof.
  intros (Ht & Hp & Hs & He & _ & _) Hst. unfold from_mapping. rewrite bind_run. unfold time_or_now.
  change (dget "start" (update_fields ts j st (Some n) ++ extra)) with (VStr (iso_text (start j))). rewrite parse_dt_iso_text by done.
  cbn [mret M_ret]. rewrite bind_run. change (dget "end" (update_fields ts j st (Some n) ++ extra)) with (VStr (iso_text (end_ j))).
  rewrite parse_dt_iso_text by done. cbn [mret M_ret]. rewrite bind_run.
  change (dget "symbols" (update_fields ts j st (Some n) ++ extra)) with (vstrs (symbols j)). rewrite strings_of_vstrs. cbn [lift]. rewrite bind_run.
  change (dget "failover_plan" (update_fields ts j st (Some n) ++ extra)) with (vstrs (failover_plan j)). rewrite strings_of_vstrs. cbn [lift].
  rewrite bind_run. change (dget "retry_count" (update_fields ts j st (Some n) ++ extra)) with (VInt n).
  rewrite int_or. cbn [lift mret M_ret].
  unfold mret, M_ret, updated. f_equal. f_equal.
  transitivity (RJob (py_str (VStr (job_id j) or? VStr "")) (resync_job_id j) (start j) (end_ j) (symbols j)
    (py_str (VStr (timeframe j) or? VStr "M5")) (py_str (VStr (priority j) or? VStr "normal")) (failover_plan j)
    (manual_csv_required j || String.eqb st "manual_csv_required") n (py_str (VStr st or? VStr "queued")) (segment_index j) (segment_total j));
    [reflexivity|].
  rewrite !text_or, (proj2 (String.eqb_neq _ _) Ht), (proj2 (String.eqb_neq _ _) Hp), (proj2 (String.eqb_neq _ _) Hst).
  by destruct (String.eqb_spec (job_id j) "") as [->|].
Qed.

(** * The last entry of a job *)

Lemma latest_entries_app l1 l2 m : latest_entries (l1 ++ l2) m = (m' ← latest_entries l1 m; latest_entries l2 m').
Proof. revert m. induction l1 as [|[] l1 IH]; intros m; cbn; done. Qed.

(** The entry that counts for an id: the last of the list, else the one there. *)
Fixpoint last_entry (id : string) (l : list dict) (e : option dict) : option dict :=
  match l with
  | [] => e
  | x :: l => last_entry id l (if truthy (dget "job_id" x) && String.eqb (py_str (dget "job_id" x)) id then Some x else e)
  end.

Lemma latest_entries_dicts l m : ∃ m', latest_entries (map VDict l) m = Ok m' ∧ (NoDup (keys m) → NoDup (keys m')) ∧
  (∀ id, dlookup id m' = last_entry id l (dlookup id m)) ∧ (∀ id e, (id, e) ∈ m' → (id, e) ∈ m ∨ e ∈ l).
Proof.
  revert m. induction l as [|x l IH]; intros m; cbn [map latest_entries]; [exists m; naive_solver|].
  destruct (truthy (dget "job_id" x)) eqn:Et; cbn [last_entry]; rewrite Et.
  2: { destruct (IH m) as (m' & E & Hn & Hl & Hin). exists m'. split_and!; [done|done| |].
       - intros id. by rewrite Hl.
       - intros id e He. destruct (Hin id e He); [by left|right; by constructor]. }
  destruct (IH (dset (py_str (dget "job_id" x)) x m)) as (m' & E & Hn & Hl & Hin). exists m'. split_and!; [done| | |].
  - intros Hm. apply Hn. by apply NoDup_dset.
  - intros id. rewrite Hl. f_equal. cbn. destruct (String.eqb (py_str (dget "job_id" x)) id) eqn:Ei; to_props.
    + by rewrite <- Ei, dlookup_dset_eq.
    + by rewrite dlookup_dset_ne.
  - intros id e He. destruct (Hin id e He) as [Hd|]; [|right; by constructor]. apply elem_of_dset in Hd as [[-> ->]|Hd]; [right; constructor|by left].
Qed.

(** * What becomes of a job *)

(** What a job came to: the state, retries and the two records of it. *)
Record Outcome := MkOutcome { o_job : ResyncJob; o_status : string; o_retries : Z; o_entry : dict; o_result : dict }.

(** The records of an outcome agree with it and with each other. *)
Definition consistent (o : Outcome) : Prop :=
  o_status o ∈ ["completed"; "failed"; "manual_csv_required"] ∧
  (∃ ts used n error, o_entry o = update_fields ts (o_job o) (o_status o) (Some (o_retries o)) ++ update_extra used n error) ∧
  (∃ mid, o_result o = result_fields (o_job o) (o_status o) mid).

Definition live (jobs : list ResyncJob) : list ResyncJob := List.filter (λ j, negb (String.eqb (job_id j) "")) jobs.
Definition count_status (st : string) (os : list Outcome) : Z := Z.of_nat (length (List.filter (λ o, String.eqb (o_status o) st) os)).
Definition manual_work (os : list Outcome) : Z :=
  foldr Z.add 0 (map (λ o, if String.eqb (o_status o) "completed" then 0 else Z.of_nat (length (symbols (o_job o)))) os).

(** The summary after the outcomes [os]. *)
Definition accounts (x x' : Summary) (os : list Outcome) : Prop :=
  results x' = results x ++ map o_result os ∧ jobs_completed x' = jobs_completed x + count_status "completed" os ∧
  jobs_failed x' = jobs_failed x + count_status "failed" os ∧ manual_csv_enqueued x' = manual_csv_enqueued x + manual_work os.

Definition queued (os : list Outcome) (f f' : file) : Prop :=
  file_lines f' = file_lines f ++ map (λ o, LJson (VDict (o_entry o))) os.

Section outcomes.
Context `{Env}.
Variable perf_at : nat → float.
Variable build_handlers : string → string → handlers.
Variables priorities_doc config_doc profiles_doc : document.
Variables (warn breach : float) (bar_ready : string).
Abbreviation run_job := (process_job perf_at build_handlers priorities_doc config_doc profiles_doc warn breach bar_ready).
Abbreviation run_list := (process_list perf_at build_handlers priorities_doc config_doc profiles_doc warn breach bar_ready).

(** Steps that leave the queue file alone. *)
Definition keeps_queue {A} (m : M Resync A) : Prop := ∀ s, queue_file (m s).2 = queue_file s.

Lemma keeps_zoom {A} (m : M Ingestion A) : keeps_queue (in_ingestion m).
Proof. intros s. unfold in_ingestion. by rewrite zoom_run. Qed.

Lemma enqueue_manual_run j s : ∃ s', enqueue_manual_csv_jobs j s = (Ok (Z.of_nat (length (symbols j))), s') ∧ queue_file s' = queue_file s.
Proof.
  unfold enqueue_manual_csv_jobs. rewrite bind_run.
  assert (∀ l s, ∃ s', for_each (λ symbol, ts ← utcnow_iso; _ ← append_jsonl DEFAULT_MANUAL_CSV_JOBS_LOG (VDict (manual_job ts j symbol));
    append_ops_worklog "manual_csv_enqueue" (manual_job ts j symbol)) l s = (Ok tt, s') ∧ queue_file s' = queue_file s) as Hl.
  { induction l as [|x l IH]; intros t; cbn [for_each]; [by exists t|]. rewrite bind_run.
    destruct (IH ((ts ← utcnow_iso; _ ← append_jsonl DEFAULT_MANUAL_CSV_JOBS_LOG (VDict (manual_job ts j x));
      append_ops_worklog "manual_csv_enqueue" (manual_job ts j x)) t).2) as (s' & E & Hq). exists s'.
    split; [exact E|by rewrite Hq]. }
  destruct (Hl (symbols j) s) as (s' & -> & Hq). by exists s'.
Qed.

Lemma append_update_run j st used n error retries s : ∃ ts s', append_queue_update j st used n error retries s = (Ok tt, s') ∧
  queue_file s' = Some (file_lines (queue_file s) ++ [LJson (VDict (update_fields ts j st retries ++ update_extra used n error))]).
Proof. by eexists _, _. Qed.

(** One job of a run that is not dry: it is skipped, settled with one entry and one
    result, or the run ends with an error that is none of a backfill. *)
Lemma process_job_spec p j x s : dry_run p = false → ∃ out s', run_job p j x s = (out, s') ∧
  match out with
  | Ok x' => ∃ os, map o_job os = live [j] ∧ Forall consistent os ∧ accounts x x' os ∧ queued os (queue_file s) (queue_file s')
  | Raise e => backfill_error e = None ∧ queue_file s' = queue_file s
  end.
Proof.
  intros Hd. unfold process_job, live. cbn [List.filter]. destruct (String.eqb (job_id j) "") eqn:Ej; cbn [negb].
  { exists (Ok x), s. split; [done|]. exists []. split_and!; try done; unfold accounts, queued, count_status; cbn; rewrite ?app_nil_r; [|done].
    split_and!; lia || done. }
  rewrite Hd. destruct (manual_csv_required j) eqn:Em.
  - rewrite bind_run. destruct (enqueue_manual_run j s) as (s1 & -> & Hq1). rewrite bind_run.
    destruct (append_update_run j "manual_csv_required" None None None None s1) as (ts & s2 & -> & Hq2). eexists _, s2. split; [reflexivity|].
    exists [MkOutcome j "manual_csv_required" (job_retry_count j)
      (update_fields ts j "manual_csv_required" None ++ update_extra None None None) (result_fields j "manual_csv_required" [])].
    split_and!; [done| |unfold accounts, count_status; cbn; split_and!; lia || done|unfold queued; by rewrite Hq2, Hq1].
    constructor; [|done]. split_and!; [set_solver|by exists ts, None, None, None|by exists []].
  - unfold run_backfill. rewrite bind_run. unfold attempt.
    pose proof (keeps_zoom (backfill_job perf_at build_handlers priorities_doc config_doc profiles_doc warn breach bar_ready p j) s) as Hq0.
    destruct (in_ingestion _ s) as [[r|e] s0]; cbn [fst snd] in *.
    + rewrite bind_run.
      destruct (append_update_run j "completed" (provider_used r) (Some (Z.of_nat (length (concat (map bars (r_frames r)))))) None (Some (retry_count r)) s0)
        as (ts & s2 & -> & Hq2). eexists _, s2. split; [reflexivity|]. rewrite Hq0 in Hq2.
      eexists [MkOutcome j "completed" (retry_count r) _ (result_fields j "completed" _)].
      split_and!; [done| |unfold accounts, count_status; split_and!; [reflexivity|cbn; lia..]|unfold queued; by rewrite Hq2].
      constructor; [|done]. split_and!; [set_solver|by eexists _, _, _, _|by eexists _].
    + destruct (backfill_error e) as [msg|] eqn:Ee; [|by exists (Raise e), s0]. rewrite bind_run.
      destruct (enqueue_manual_run j s0) as (s1 & -> & Hq1). rewrite bind_run.
      destruct (append_update_run j "failed" None None (Some msg) (Some (job_retry_count j)) s1) as (ts & s2 & -> & Hq2).
      eexists _, s2. split; [reflexivity|]. rewrite Hq1, Hq0 in Hq2. eexists [MkOutcome j "failed" (job_retry_count j) _ (result_fields j "failed" _)].
      split_and!; [done| |unfold accounts, count_status; split_and!; [reflexivity|cbn; lia..]|unfold queued; by rewrite Hq2].
      constructor; [|done]. split_and!; [set_solver|by eexists _, _, _, _|by eexists _].
Qed.

Lemma process_list_spec p jobs x s : dry_run p = false → ∃ out s' os, run_list p jobs x s = (out, s') ∧
  Forall consistent os ∧ queued os (queue_file s) (queue_file s') ∧
  match out with
  | Ok x' => map o_job os = live jobs ∧ accounts x x' os
  | Raise e => backfill_error e = None ∧ map o_job os `prefix_of` live jobs
  end.
Proof.
  intros Hd. revert x s. induction jobs as [|j jobs IH]; intros x s; cbn [process_list].
  { exists (Ok x), s, []. unfold queued, accounts, count_status. cbn. rewrite !app_nil_r. split_and!; done || lia. }
  rewrite bind_run. destruct (process_job_spec p j x s Hd) as ([x1|e] & s1 & -> & H1).
  2: { exists (Raise e), s1, []. destruct H1 as [He Hq]. unfold queued. rewrite Hq, app_nil_r. split_and!; try done. apply prefix_nil. }
  destruct H1 as (os1 & Hj & Hc & Ha & Hq). destruct (IH x1 s1) as (out & s2 & os2 & -> & Hc2 & Hq2 & H2).
  exists out, s2, (os1 ++ os2). split_and!; [done|by apply Forall_app| |].
  { unfold queued in *. by rewrite Hq2, Hq, map_app, (assoc_L (++)). }
  assert (live (j :: jobs) = live [j] ++ live jobs) as -> by (unfold live; cbn; by destruct (negb _)).
  rewrite map_app, Hj. destruct out as [x'|e].
  - destruct H2 as [-> (Hr & Hk & Hf & Hm)]. split; [done|]. destruct Ha as (Hr1 & Hk1 & Hf1 & Hm1). unfold accounts.
    rewrite Hr, Hr1, map_app, (assoc_L (++)). split; [done|]. unfold count_status, manual_work in *.
    rewrite !List.filter_app, !length_app, map_app, foldr_app. rewrite Hk, Hk1, Hf, Hf1, Hm, Hm1.
    assert (∀ l a, foldr Z.add a l = foldr Z.add 0 l + a) as Hs by (induction l as [|z l IHl]; intros a; cbn; [done|rewrite IHl; lia]).
    rewrite (Hs _ (foldr Z.add 0 _)). lia.
  - destruct H2 as [He Hpre]. split; [done|]. by apply prefix_app.
Qed.

(** * The queue before and after a run *)

Definition dicts (f : file) : list dict := omap (λ v, match v with VDict d => Some d | _ => None end) (read_queue f).

(** The entry is read as [j], without a look at the clock, and can be sorted. *)
Definition entry_of (e : dict) (j : ResyncJob) : Prop :=
  (∀ s : Resync, from_mapping e s = (Ok j, s)) ∧ plain_id (resync_job_id j) ∧ plain_index (segment_index j) ∧ is_naive (start j) = false.

Definition readable (f : file) : Prop := Forall (λ v, ∃ e j, v = VDict e ∧ entry_of e j) (read_queue f).

Lemma readable_dicts f : readable f → read_queue f = map VDict (dicts f) ∧ Forall (λ e, ∃ j, entry_of e j) (dicts f).
Proof.
  unfold readable, dicts. induction 1 as [|v l (e & j & -> & He) Hl IH]; [done|]. destruct IH as [E IH]. cbn. split; [by f_equal|].
  constructor; [by exists j|done].
Qed.

Lemma entry_id e j : entry_of e j → job_id j = py_str (dget "job_id" e or? VStr "").
Proof.
  intros [He _]. specialize (He (MkResync (Ing (Buffer [] 0 0) None (GState None None world0) (monitor0 world0) acc0 0 0 [] local0 world0) None)).
  unfold from_mapping in He. repeat (apply bind_Ok in He as (? & ? & _ & He)). cbn in He. by injection He as <- _.
Qed.

Lemma read_all l (s : Resync) : Forall (λ e, ∃ j, entry_of e j) l → ∃ js, mapM from_mapping l s = (Ok js, s) ∧ Forall2 entry_of l js.
Proof.
  induction 1 as [|e l (j & He) Hl (js & E & IH)]; [by exists []|]. exists (j :: js). split; [|by constructor].
  cbn [mapM]. rewrite bind_run, (proj1 He s), bind_run, E. done.
Qed.

Lemma sort_returns js : Forall (λ j, plain_id (resync_job_id j) ∧ plain_index (segment_index j) ∧ is_naive (start j) = false) js →
  sort_jobs js = Ok (isort job_ltb js).
Proof.
  intros Hjs. unfold sort_jobs.
  assert (∀ l, (∀ p, p ∈ l → ∃ b, key_lt (sort_key p.1) (sort_key p.2) = Ok b) →
    ∃ r, mapM_res (λ p, key_lt (sort_key p.1) (sort_key p.2)) l = Ok r) as Hm.
  { induction l as [|q l IH]; intros Hl; [by exists []|]. cbn [mapM_res]. destruct (Hl q) as [b ->]; [left|]. destruct IH as [r ->]; [|by eexists].
    intros q' Hq. apply Hl. by right. }
  destruct (Hm (pairs js)) as [r ->]; [|done]. intros [a b] Hin. cbn [fst snd].
  assert (a ∈ js ∧ b ∈ js) as [Ha Hb].
  { clear -Hin. induction js as [|j js IH]; cbn in Hin; [by apply not_elem_of_nil in Hin|]. apply elem_of_app in Hin as [Hin|Hin].
    - apply list_elem_of_fmap in Hin as (y & [= -> ->] & Hy). split; [left|by right].
    - destruct (IH Hin). split; by right. }
  rewrite Forall_forall in Hjs. destruct (Hjs a Ha) as (Hi & Hx & Hn), (Hjs b Hb) as (Hi' & Hx' & Hn').
  unfold key_lt, sort_key, dt_lt. rewrite Hn, Hn'. cbn [Bool.eqb].
  assert (∀ v, plain_id v → ∃ t, (v or? VStr "") = VStr t) as Hid.
  { intros v [-> |[t ->]]; [by exists ""|]. unfold py_or. destruct (truthy _); by eexists. }
  assert (∀ v, plain_index v → ∃ z, (v or? VInt 0) = VInt z) as Hix.
  { intros v [-> |[t ->]]; [by exists 0|]. unfold py_or. destruct (truthy _); by eexists. }
  destruct (Hid _ Hi) as [t ->], (Hid _ Hi') as [t' ->], (Hix _ Hx) as [z ->], (Hix _ Hx') as [z' ->].
  destruct (negb _); [by eexists|]. destruct (negb _); by eexists.
Qed.

Lemma last_entry_id id l e : last_entry id l None = Some e → id = py_str (dget "job_id" e) ∧ truthy (dget "job_id" e) = true.
Proof.
  assert (∀ o, (∀ e', o = Some e' → id = py_str (dget "job_id" e') ∧ truthy (dget "job_id" e') = true) →
    last_entry id l o = Some e → id = py_str (dget "job_id" e) ∧ truthy (dget "job_id" e) = true) as Hg; [|by apply Hg].
  induction l as [|x l IH]; intros o Ho; cbn [last_entry]; [by apply Ho|]. apply IH.
  destruct (_ && _) eqn:E; [|done]. apply andb_true_iff in E as [Et E]. to_props. by intros e' [= <-].
Qed.

(** The queue: per id the job its last entry reads as. *)
Lemma load_spec s : readable (queue_file s) → ∃ q, load_queue s = (Ok q, s) ∧ NoDup (map job_id q) ∧
  ∀ j, j ∈ q ↔ job_id j ≠ "" ∧ ∃ e, last_entry (job_id j) (dicts (queue_file s)) None = Some e ∧ entry_of e j.
Proof.
  intros [Eq Hd]%readable_dicts. unfold load_queue. rewrite bind_run. cbn [get]. rewrite bind_run, Eq.
  destruct (latest_entries_dicts (dicts (queue_file s)) []) as (m & -> & Hn & Hl & Hin). cbn [lift].
  assert (∀ id e, (id, e) ∈ m → (∃ j, entry_of e j) ∧ id = py_str (dget "job_id" e) ∧ truthy (dget "job_id" e) = true) as Hm.
  { intros id e Hie. split.
    - destruct (Hin id e Hie) as [Hx|Hx]; [by apply not_elem_of_nil in Hx|]. rewrite Forall_forall in Hd. by apply Hd.
    - apply (dlookup_in id e m) in Hie; [|by apply Hn, NoDup_nil]. rewrite Hl in Hie. by eapply last_entry_id. }
  rewrite bind_run. destruct (read_all (map snd m) s) as (js & -> & Hjs).
  { apply Forall_forall. intros e He. apply list_elem_of_fmap in He as ([id e'] & -> & He). exact (proj1 (Hm id e' He)). }
  assert (map job_id js = keys m) as Hk.
  { clear -Hjs Hm. unfold keys. revert js Hjs. induction m as [|[id e] m IH]; intros js Hjs; inversion Hjs as [|e' j l js' He Hrest]; subst; [done|].
    cbn. destruct (Hm id e) as (_ & -> & Ht); [left|]. f_equal.
    - rewrite (entry_id e j He). unfold py_or. by rewrite Ht.
    - apply IH; [|done]. intros id' e' H'. apply Hm. by right. }
  rewrite sort_returns.
  2: { clear -Hjs. revert Hjs. generalize (map snd m). intros l Hjs. induction Hjs as [|e j l js He _ IH]; [done|]. constructor; [apply He|done]. }
  exists (isort job_ltb js). split; [done|]. split.
  { rewrite (Permutation_map job_id (isort_perm job_ltb js)), Hk. by apply Hn, NoDup_nil. }
  intros j. rewrite elem_of_isort. split.
  - intros Hj. apply list_elem_of_lookup in Hj as [i Hi]. destruct (Forall2_lookup_r _ _ _ _ _ Hjs Hi) as (e & He & Hej).
    apply list_lookup_fmap_Some in He as ([id e'] & -> & He). apply list_elem_of_lookup_2 in He. cbn [snd] in *.
    destruct (Hm id e' He) as (_ & Hid & Ht). assert (job_id j = id) as Hji.
    { rewrite (entry_id _ _ Hej), Hid. unfold py_or. by rewrite Ht. }
    rewrite Hji. split.
    + rewrite Hid. by apply py_str_not_empty.
    + exists e'. split; [|done]. rewrite (dlookup_in id e' m) in He by (by apply Hn, NoDup_nil). by rewrite <- He, Hl.
  - intros (_ & e & He & Hej). change None with (dlookup (job_id j) ([] : list (string * dict))) in He. rewrite <- Hl in He.
    apply dlookup_in in He; [|by apply Hn, NoDup_nil]. apply list_elem_of_lookup in He as [i Hi].
    assert (map snd m !! i = Some e) as Hi' by (apply list_lookup_fmap_Some; by exists (job_id j, e)).
    destruct (Forall2_lookup_l _ _ _ _ _ Hjs Hi') as (j' & Hj' & Hej').
    assert (j = j') as ->; [|by eapply list_elem_of_lookup_2]. destruct Hej as [E _], Hej' as [E' _]. specialize (E s). rewrite E' in E. congruence.
Qed.

(** The last outcome of an id. *)
Definition last_outcome (id : string) (os : list Outcome) : option Outcome := last (List.filter (λ o, String.eqb (job_id (o_job o)) id) os).

Definition shown (o : Outcome) : ResyncJob := updated (o_job o) (o_status o) (o_retries o).

Lemma last_entry_outcomes id os e : Forall (λ o, consistent o ∧ job_id (o_job o) ≠ "") os →
  last_entry id (map o_entry os) e = match last_outcome id os with Some o => Some (o_entry o) | None => e end.
Proof.
  intros Hos. revert e. induction Hos as [|o os ((_ & (ts & u & n & er & Eo) & _) & Hid) Hos IH]; intros e; [done|].
  cbn [map last_entry]. unfold last_outcome. cbn [List.filter].
  assert (dget "job_id" (o_entry o) = VStr (job_id (o_job o))) as -> by (by rewrite Eo).
  change (truthy (VStr (job_id (o_job o)))) with (negb (String.eqb (job_id (o_job o)) "")). rewrite (proj2 (String.eqb_neq _ _) Hid). cbn [negb andb py_str].
  rewrite IH. unfold last_outcome. destruct (String.eqb _ id); [|done]. rewrite last_cons. by destruct (last _).
Qed.

Lemma outcome_entry o : consistent o → plain_job (o_job o) → entry_of (o_entry o) (shown o).
Proof.
  intros (Hs & (ts & u & n & er & ->) & _) Hp. split; [|destruct Hp as (_ & _ & (_ & z & Ez & _) & _ & Hi & Hx); cbn; split_and!; [done|done|]].
  - intros s. apply from_mapping_update; [done|]. intros E. rewrite E in Hs. set_solver.
  - unfold is_naive. by rewrite Ez.
Qed.

Lemma queued_dicts os f f' : queued os f f' → dicts f' = dicts f ++ map o_entry os ∧ read_queue f' = read_queue f ++ map (VDict ∘ o_entry) os.
Proof.
  intros Hq. assert (read_queue f' = read_queue f ++ map (VDict ∘ o_entry) os) as E.
  { unfold read_queue. rewrite Hq, omap_app. f_equal. clear. induction os as [|o os IH]; [done|]. cbn. by f_equal. }
  split; [|done]. unfold dicts. rewrite E, omap_app. f_equal. clear. induction os as [|o os IH]; [done|]. cbn. by f_equal.
Qed.

Lemma outcomes_live os jobs : map o_job os `prefix_of` live jobs → Forall plain_job jobs →
  Forall (λ o, plain_job (o_job o) ∧ job_id (o_job o) ≠ "") os.
Proof.
  intros [rest E] Hp. apply Forall_forall. intros o Ho. assert (o_job o ∈ live jobs) as Hin.
  { rewrite E. apply elem_of_app. left. by apply list_elem_of_fmap_2. }
  unfold live in Hin. apply list_elem_of_In, List.filter_In in Hin as [Hin Hid]. apply list_elem_of_In in Hin. rewrite Forall_forall in Hp.
  split; [by apply Hp|]. by apply negb_true_iff, String.eqb_neq in Hid.
Qed.

Lemma process_jobs_given p jobs s :
  process_jobs perf_at build_handlers priorities_doc config_doc profiles_doc warn breach bar_ready p (map inr jobs) s = run_list p jobs summary0 s.
Proof.
  unfold process_jobs. rewrite bind_run.
  assert (mapM (λ j : dict + ResyncJob, match j with inl d => from_mapping d | inr j => mret j end) (map inr jobs) s = (Ok jobs, s)) as ->; [|done].
  induction jobs as [|j jobs IH]; [done|]. cbn [map mapM]. rewrite bind_run. cbn [mret M_ret]. by rewrite bind_run, IH.
Qed.

(** C18. A run of the resync coordinator settles its jobs one after the other: each
    job with an id gets exactly one update in the queue and one result, both with
    the same status, and the summary counts them; the run ends early only with an
    error that is none of a backfill, after whole outcomes.  Afterwards the queue is
    the one before with the settled jobs in place: a job is in it exactly when it is
    the last outcome of its id, with the new status and retries, or was in it before
    and has no outcome; no id is there twice. *)
Theorem resync_updates_queue p jobs s : dry_run p = false → Forall plain_job jobs → readable (queue_file s) →
  ∃ out s' os q0 q,
    process_jobs perf_at build_handlers priorities_doc config_doc profiles_doc warn breach bar_ready p (map inr jobs) s = (out, s') ∧
    Forall consistent os ∧ queued os (queue_file s) (queue_file s') ∧
    match out with
    | Ok x => map o_job os = live jobs ∧ accounts summary0 x os
    | Raise e => backfill_error e = None ∧ map o_job os `prefix_of` live jobs
    end ∧
    load_queue s = (Ok q0, s) ∧ load_queue s' = (Ok q, s') ∧ NoDup (map job_id q) ∧
    ∀ j, j ∈ q ↔ match last_outcome (job_id j) os with Some o => j = shown o | None => j ∈ q0 end.
Proof.
  intros Hd Hp Hr. rewrite process_jobs_given. destruct (process_list_spec p jobs summary0 s Hd) as (out & s' & os & -> & Hc & Hq & Ho).
  assert (Forall (λ o, plain_job (o_job o) ∧ job_id (o_job o) ≠ "") os) as Hos.
  { apply (outcomes_live os jobs); [|done]. destruct out; destruct Ho as [H1 H2]; [by rewrite H1|done]. }
  destruct (queued_dicts _ _ _ Hq) as [Ed Er]. rewrite Forall_forall in Hc, Hos.
  assert (readable (queue_file s')) as Hr'.
  { unfold readable. rewrite Er. apply Forall_app. split; [done|]. apply Forall_forall. intros v Hv.
    apply list_elem_of_fmap in Hv as (o & -> & Hv). exists (o_entry o), (shown o). split; [done|]. apply outcome_entry; [by apply Hc|by apply Hos]. }
  destruct (load_spec s Hr) as (q0 & E0 & _ & Hq0), (load_spec s' Hr') as (q & E & Hn & Hq'). exists out, s', os, q0, q.
  split_and!; try done; [by apply Forall_forall|]. intros j. rewrite Hq', Ed.
  assert (∀ l1 l2 e, last_entry (job_id j) (l1 ++ l2) e = last_entry (job_id j) l2 (last_entry (job_id j) l1 e)) as Happ
    by (induction l1 as [|y l1 IH]; intros l2 e; cbn; [done|apply IH]).
  rewrite Happ, last_entry_outcomes.
  2: { apply Forall_forall. intros o Hin. split; [by apply Hc|by apply Hos]. }
  destruct (last_outcome (job_id j) os) as [o|] eqn:El; [|by rewrite Hq0].
  assert (o ∈ os ∧ job_id (o_job o) = job_id j) as [Hin Hid].
  { apply last_Some in El as [l El]. assert (o ∈ List.filter (λ o, String.eqb (job_id (o_job o)) (job_id j)) os) as Hf by (rewrite El; set_solver).
    apply list_elem_of_In, List.filter_In in Hf as [Hf Hb]. apply list_elem_of_In in Hf. split; [done|by apply String.eqb_eq]. }
  destruct (outcome_entry o) as (He & Hi); [by apply Hc|by apply Hos|]. split.
  - intros (_ & e & [= <-] & [Hj _]). specialize (He s). rewrite Hj in He. congruence.
  - intros ->. split; [by apply Hos|]. by exists (o_entry o).
Qed.
End outcomes.

(** * A run *)

Definition utc_time (d h : Z) : datetime := DateTime 2025 1 d h 0 0 0 (Some 0).
Definition sample_job (id : string) (symbols : list string) (manual : bool) : ResyncJob :=
  RJob id (VStr "R1") (utc_time 6 9) (utc_time 6 10) symbols "M5" "normal" ["mt5"] manual 0 "queued" (VInt 1) (VInt 3).
Definition sample_entry (id : string) : dict := update_fields "2025-01-06T08:00:00Z" (sample_job id ["EURUSD"] false) "queued" None.
Definition sample_resync : Resync :=
  MkResync sample_ingestion (Some [LJson (VDict (sample_entry "J1")); LSpace; LBad; LJson (VDict (sample_entry "J9"))]).
Definition sample_params (given : handlers) (dry : bool) : Params := MkParams given [] None None 1 (of_Z 500) 6 dry.
Definition sample_jobs : list ResyncJob :=
  [sample_job "J1" ["EURUSD"] false; sample_job "" ["EURUSD"] false; sample_job "J2" ["EURUSD"; "GBPUSD"] true].

Lemma sample_plain id l b : plain_job (sample_job id l b).
Proof.
  assert (∀ d h, valid_dt (utc_time d h) = true → job_time (utc_time d h)) as Ht by (intros d h Hv; split; [done|by exists 0]).
  split_and!; [done|done|by apply Ht|by apply Ht|right; by eexists|right; by eexists].
Qed.

Lemma sample_jobs_plain : Forall plain_job sample_jobs.
Proof. unfold sample_jobs. do 3 (apply Forall_cons; split; [apply sample_plain|]). apply Forall_nil; done. Qed.

Lemma sample_readable : let _ := sample_env in readable (queue_file sample_resync).
Proof.
  intros env. assert (∀ id, id ≠ "" → entry_of (sample_entry id) (sample_job id ["EURUSD"] false)) as He.
  { intros id Hid. split; [|split_and!; [right; by eexists|right; by eexists|done]]. intros s.
    pose proof (from_mapping_update "2025-01-06T08:00:00Z" (sample_job id ["EURUSD"] false) "queued" 0 [] s (sample_plain _ _ _)) as E.
    rewrite app_nil_r in E. by apply E. }
  repeat constructor; by eexists _, _; split; [reflexivity|by apply He].
Qed.

Definition run_sample `{Env} (given : handlers) (dry : bool) : M Resync Summary :=
  process_jobs (λ _, fzero) no_handlers None None None (of_Z 1000) (of_Z 1500) "data/bar_ready.jsonl" (sample_params given dry) (map inr sample_jobs).

Lemma resync_updates_queue_witness : let _ := sample_env in ∃ out s' os q0 q,
  run_sample [("mt5", flaky)] false sample_resync = (out, s') ∧ Forall consistent os ∧ queued os (queue_file sample_resync) (queue_file s') ∧
  match out with
  | Ok x => map o_job os = live sample_jobs ∧ accounts summary0 x os
  | Raise e => backfill_error e = None ∧ map o_job os `prefix_of` live sample_jobs
  end ∧
  load_queue sample_resync = (Ok q0, sample_resync) ∧ load_queue s' = (Ok q, s') ∧ NoDup (map job_id q) ∧
  ∀ j, j ∈ q ↔ match last_outcome (job_id j) os with Some o => j = shown o | None => j ∈ q0 end.
Proof.
  intros env. apply (resync_updates_queue (λ _, fzero) no_handlers None None None (of_Z 1000) (of_Z 1500) "data/bar_ready.jsonl"
    (sample_params [("mt5", flaky)] false) sample_jobs sample_resync); [reflexivity|exact sample_jobs_plain|exact sample_readable].
Defined.

(** The statuses of the queue after a run. *)
Definition statuses `{Env} (s : Resync) : res (list (string * string)) :=
  q ← (load_queue s).1; Ok (map (λ j, (job_id j, status j)) q).

(** The first job is backfilled on the second attempt, the second is manual. *)
Example sample_statuses : let _ := sample_env in statuses (run_sample [("mt5", flaky)] false sample_resync).2 =
  Ok [("J1", "completed"); ("J9", "queued"); ("J2", "manual_csv_required")].
Proof. vm_compute. reflexivity. Qed.

(** A dry run leaves the queue alone. *)
Example dry_run_plans : let _ := sample_env in queue_file (run_sample [("mt5", flaky)] true sample_resync).2 = queue_file sample_resync.
Proof. vm_compute. reflexivity. Qed.

(** The work log never shows the task it is given: the task of the payload comes
    after it. *)
Example worklog_task_is_overwritten : let _ := sample_env in
  map (λ r : string * pyval, match r.2 with VDict d => dget "task" d | _ => VNone end)
    (List.filter (λ r : string * pyval, String.eqb r.1 DEFAULT_OPS_WORKLOG)
      (w_out (wget (enqueue_manual_csv_jobs (sample_job "J2" ["EURUSD"] true) sample_resync).2))) = [VStr "manual_csv"].
Proof. vm_compute. reflexivity. Qed.

(** A job whose provider is down is still in the queue, as failed. *)
Example failed_job_stays : let _ := sample_env in
  statuses (run_sample [("mt5", down)] false sample_resync).2 = Ok [("J1", "failed"); ("J9", "queued"); ("J2", "manual_csv_required")].
Proof. vm_compute. reflexivity. Qed.
