(* ===== verification/LiquidityMonitor.v ===== *)
(** The liquidity monitor of [src/risk/liquidity_monitor.py]: quotes of several
    sources are kept per symbol for a window of time and summed up in a snapshot,
    whose state goes into the gate file, the event bus and the logs. *)

From S2P Require Import Prelude PyFloat PyVal PyEnv Calendar HealthStore Gate EventBus DataService.

Local Open Scope Z_scope.
Local Open Scope py_scope.

Definition DEFAULT_METRICS_PATH : string := "metrics/liquidity_monitor.jsonl".
Definition DEFAULT_OPS_WORKLOG : string := "ops_worklog.jsonl".
Definition RUNBOOK : string := "docs/runbooks/RUN-LIQ-01.md".

(** * Helpers *)

Definition pip_size (symbol : string) : float :=
  if ends_with "JPY" (upper (replace_char "/" "" symbol)) then of_dec 1 (-2) else of_dec 1 (-4).

Definition percentile (values : list float) (p : Z) : option float :=
  let data := isort fltb values in
  match data with
  | [] => None
  | x :: _ =>
      let n := Z.of_nat (length data) in
      let idx := match fround_int (fmul (fdiv_ieee (of_Z p) (of_Z 100)) (of_Z (n - 1))) with Ok z => z | Raise _ => 0 end in
      Some (nth (Z.to_nat (Z.min (Z.max idx 0) (n - 1))) data x)
  end.

(** [median] and [max] of a list that is not empty. *)
Definition median (values : list float) : float :=
  let data := isort fltb values in
  let n := length data in
  if Nat.odd n then nth (n / 2) data fzero
  else fdiv_ieee (fadd (nth (n / 2 - 1) data fzero) (nth (n / 2) data fzero)) (of_Z 2).
Definition max_from (x : float) (l : list float) : float := fold_left fmax l x.

(** [f"{x:.0f}"] *)
Definition ffixed0 (x : float) : string :=
  match x with
  | S754_zero s => if s then "-0" else "0"
  | S754_infinity s => if s then "-inf" else "inf"
  | S754_nan => "nan"
  | S754_finite s m e => let '(n, d) := ratio_of m e in (if s then "-" else "") +:+ pretty (div_half_even n d)
  end.

(** [str] of an optional number. *)
Definition opt_text (x : option float) : string := match x with Some x => frepr x | None => "None" end.

(** * Data *)

Record LiquiditySample := LSample {
  source : string; sym : string; sample_ts : datetime; bid : float; ask : float; sample_spread : float; update_latency_ms : float;
  depth : option float }.
Record LiquidityAlert := LAlert { alert_code : string; alert_severity : string; alert_symbol : string; alert_detail : string;
  alert_source : option string; alert_id : string; alert_ts : string }.
Record LiquiditySnapshot := LSnapshot {
  snap_symbol : string; snap_state : string; divergence_p95 : option float; update_latency_p95 : option float;
  spread_multiplier : option float; stale_ratio : option float; snap_alerts : list LiquidityAlert; recommendation : string;
  snap_runbook : option string; snap_updated_at : string; snap_sources : list (string * dict) }.
Record LiquidityAssessment := LAssessment { as_symbol : string; as_state : string; as_recommendation : string; as_alerts : list LiquidityAlert }.
Record LiquidityThresholds := LThresholds {
  divergence_warn_pips : float; divergence_alert_pips : float; latency_warn_ms : float; latency_alert_ms : float;
  spread_warn_multiplier : float; spread_alert_multiplier : float }.

Definition default_thresholds : LiquidityThresholds := LThresholds (of_dec 15 (-1)) (of_Z 3) (of_Z 1500) (of_Z 3000) (of_Z 2) (of_Z 3).

Definition alert_to_dict (a : LiquidityAlert) : dict := [
  ("alert_id", VStr (alert_id a)); ("code", VStr (alert_code a)); ("severity", VStr (alert_severity a)); ("symbol", VStr (alert_symbol a));
  ("detail", VStr (alert_detail a)); ("source", vopt_str (alert_source a)); ("ts", VStr (alert_ts a))].

Definition snapshot_to_dict (s : LiquiditySnapshot) : dict := [
  ("symbol", VStr (snap_symbol s)); ("state", VStr (snap_state s)); ("divergence_p95", vopt_float (divergence_p95 s));
  ("update_latency_p95", vopt_float (update_latency_p95 s)); ("spread_multiplier", vopt_float (spread_multiplier s));
  ("stale_ratio", vopt_float (stale_ratio s)); ("alerts", VList (map (VDict ∘ alert_to_dict) (snap_alerts s)));
  ("recommendation", VStr (recommendation s)); ("runbook", vopt_str (snap_runbook s)); ("updated_at", VStr (snap_updated_at s));
  ("sources", VDict (map (λ kv : string * dict, (kv.1, VDict kv.2)) (snap_sources s)))].

Definition thresholds_from_mapping (payload : dict) : res LiquidityThresholds :=
  let number key dflt := py_float (dget_or key (VFloat dflt) payload) in
  a ← number "divergence_warn_pips" (of_dec 15 (-1));
  b ← number "divergence_alert_pips" (of_Z 3);
  c ← number "latency_warn_ms" (of_Z 1500);
  d ← number "latency_alert_ms" (of_Z 3000);
  e ← number "spread_warn_multiplier" (of_Z 2);
  f ← number "spread_alert_multiplier" (of_Z 3);
  Ok (LThresholds a b c d e f).

Definition LiquiditySampleError (msg : string) : exn := OtherError "LiquiditySampleError" msg.
Definition LiquiditySymbolNotFound (msg : string) : exn := OtherError "LiquiditySymbolNotFound" msg.

(** * The state *)

(** With a running event loop the publications are tasks for later. *)
Record LiquidityMonitor := LMonitor {
  samples : list (string * list LiquiditySample); latest : list (string * LiquiditySnapshot); lm_bus : option EventBus;
  tasks : list (pyval * string); gate_file : document; snapshot_file : document; validation_logs : list (string * list string); lm_world : world }.

#[export] Instance liquidity_monitor_world : HasWorld LiquidityMonitor.
Proof.
  refine {| wget := lm_world; wset w s := LMonitor (samples s) (latest s) (lm_bus s) (tasks s) (gate_file s) (snapshot_file s)
    (validation_logs s) w |}; by intros; try destruct s.
Defined.

Definition set_samples (x : list (string * list LiquiditySample)) (s : LiquidityMonitor) : LiquidityMonitor :=
  LMonitor x (latest s) (lm_bus s) (tasks s) (gate_file s) (snapshot_file s) (validation_logs s) (lm_world s).
Definition set_latest (x : list (string * LiquiditySnapshot)) (s : LiquidityMonitor) : LiquidityMonitor :=
  LMonitor (samples s) x (lm_bus s) (tasks s) (gate_file s) (snapshot_file s) (validation_logs s) (lm_world s).
Definition set_bus (x : EventBus) (s : LiquidityMonitor) : LiquidityMonitor :=
  LMonitor (samples s) (latest s) (Some x) (tasks s) (gate_file s) (snapshot_file s) (validation_logs s) (lm_world s).
Definition add_task (x : pyval * string) (s : LiquidityMonitor) : LiquidityMonitor :=
  LMonitor (samples s) (latest s) (lm_bus s) (tasks s ++ [x]) (gate_file s) (snapshot_file s) (validation_logs s) (lm_world s).
Definition set_gate_file (x : document) (s : LiquidityMonitor) : LiquidityMonitor :=
  LMonitor (samples s) (latest s) (lm_bus s) (tasks s) x (snapshot_file s) (validation_logs s) (lm_world s).
Definition set_snapshot_file (x : document) (s : LiquidityMonitor) : LiquidityMonitor :=
  LMonitor (samples s) (latest s) (lm_bus s) (tasks s) (gate_file s) x (validation_logs s) (lm_world s).
Definition set_validation_logs (x : list (string * list string)) (s : LiquidityMonitor) : LiquidityMonitor :=
  LMonitor (samples s) (latest s) (lm_bus s) (tasks s) (gate_file s) (snapshot_file s) x (lm_world s).

(** * Reading samples *)

Section reading.
Context `{Env}.

(** A timestamp that is no text is read as now: values of JSON hold no [datetime]. *)
Definition sample_time (v : pyval) : M LiquidityMonitor datetime :=
  match v with
  | VStr s => match fromisoformat (replace_char "Z" "+00:00" s) with
      | Some d => mret d
      | None => raise (ValueError "Invalid isoformat string")
      end
  | _ => now_utc
  end.

Definition sample_from_mapping (payload : dict) : M LiquidityMonitor LiquiditySample :=
  let number key := lift (py_float (dget_or key (VFloat fzero) payload)) in
  ts ← sample_time (dget "ts" payload);
  bid ← number "bid";
  ask ← number "ask";
  spread ← number "spread";
  latency ← number "update_latency_ms";
  depth ← lift (match dget "depth" payload with VNone => Ok None | v => x ← py_float v; Ok (Some x) end);
  mret (LSample (py_str (dget "source" payload or? VStr "unknown")) (py_str (dget "symbol" payload or? VStr "UNKNOWN")) ts bid ask spread
    latency depth).

(** A sample or the mapping of one. *)
Definition parse_samples (l : list (dict + LiquiditySample)) : M LiquidityMonitor (list LiquiditySample) :=
  mapM (λ x, match x with inl d => sample_from_mapping d | inr s => mret s end) l.

(** [(now - ts).total_seconds() <= window_sec] *)
Definition fresh (now : datetime) (window_sec : Z) (s : LiquiditySample) : res bool :=
  if is_naive (sample_ts s) then Raise (TypeError "can't subtract offset-naive and offset-aware datetimes")
  else Ok (fleb (total_seconds now (sample_ts s)) (of_Z window_sec)).

Definition add_sample (m : list (string * list LiquiditySample)) (s : LiquiditySample) : list (string * list LiquiditySample) :=
  dset (sym s) (default [] (dlookup (sym s) m) ++ [s]) m.

(** The loop over the symbols drops what is too old. *)
Definition prune (now : datetime) (window_sec : Z) : M LiquidityMonitor unit :=
  s ← get;
  for_each (λ kv : string * list LiquiditySample,
    l ← lift (filterM_res (fresh now window_sec) kv.2);
    modify (λ s, set_samples (dset kv.1 l (samples s)) s)) (samples s).
End reading.

(** * The snapshot *)

(** The newest sample of each source, in the order in which the sources first occur. *)
Definition by_source (items : list LiquiditySample) : list (string * LiquiditySample) :=
  fold_left (λ m s, dset (source s) s m) (isort (λ a b, utc_us (sample_ts a) <? utc_us (sample_ts b)) items) [].

Definition source_payload (s : LiquiditySample) : dict := [
  ("bid", VFloat (bid s)); ("ask", VFloat (ask s)); ("spread", VFloat (sample_spread s)); ("update_latency_ms", VFloat (update_latency_ms s))].

Definition mid (s : LiquiditySample) : float := fdiv_ieee (fadd (bid s) (ask s)) (of_Z 2).

(** The distances of the mids of every two sources, in pips. *)
Fixpoint divergences (pip : float) (l : list LiquiditySample) : list float :=
  match l with
  | [] => []
  | a :: l => map (λ b, fdiv_ieee (fabs (fsub (mid a) (mid b))) pip) l ++ divergences pip l
  end.

Definition multiplier_of (spreads : list float) : option float :=
  match spreads with
  | [] => None
  | x :: l =>
      let baseline := median spreads in
      if fgtb baseline fzero then Some (fdiv_ieee (max_from x l) baseline) else None
  end.

(** The severity of a value against its two thresholds. *)
Definition severity_of (x : option float) (warn alert : float) : option string :=
  match x with
  | None => None
  | Some x => if fgeb x alert then Some "critical" else if fgeb x warn then Some "warning" else None
  end.

(** State, recommendation and runbook for a list of severities. *)
Definition state_of (severities : list string) (measured : bool) : string * string * option string :=
  if str_in "critical" severities then ("halted", "halted", Some RUNBOOK)
  else match severities with
  | _ :: _ => ("guarded", "guarded", Some RUNBOOK)
  | [] => (if measured then "watch" else "normal", "monitor", None)
  end.

Section snapshot.
Context `{Env}.

Definition raise_alert (code : string) (x : option float) (warn alert : float) (symbol : string) (detail : float → string)
    : M LiquidityMonitor (list LiquidityAlert) :=
  match severity_of x warn alert with
  | None => mret []
  | Some severity =>
      id ← fresh_uuid;
      ts ← utcnow_iso;
      mret [LAlert code severity symbol (detail (default fzero x)) None ("liq-" +:+ hex_prefix 8 id) ts]
  end.

Definition build_snapshot (symbol : string) (t : LiquidityThresholds) : M LiquidityMonitor LiquiditySnapshot :=
  s ← get;
  let items := default [] (dlookup symbol (samples s)) in
  match items with
  | [] => raise (LiquiditySymbolNotFound ("Symbol '" +:+ symbol +:+ "' not registered"))
  | _ =>
      let sources := by_source items in
      let divergence := percentile (divergences (pip_size symbol) sources.*2) 95 in
      let latencies := map update_latency_ms items in
      let latency := percentile latencies 95 in
      let multiplier := multiplier_of (map sample_spread items) in
      a ← raise_alert "price_divergence" divergence (divergence_warn_pips t) (divergence_alert_pips t) symbol
        (λ x, "divergence_p95=" +:+ ffixed2 x +:+ "pips");
      b ← raise_alert "stale_quote" latency (latency_warn_ms t) (latency_alert_ms t) symbol (λ x, "update_latency_p95=" +:+ ffixed0 x +:+ "ms");
      c ← raise_alert "spread_shock" multiplier (spread_warn_multiplier t) (spread_alert_multiplier t) symbol
        (λ x, "spread_multiplier=" +:+ ffixed2 x);
      let alerts := a ++ b ++ c in
      let '(st, advice, runbook) := state_of (map alert_severity alerts) (bool_decide (is_Some divergence) || bool_decide (is_Some latency)) in
      let stale := Z.of_nat (length (List.filter (λ x, fgeb x (latency_warn_ms t)) latencies)) in
      let ratio := fdiv_ieee (of_Z stale) (of_Z (Z.max (Z.of_nat (length latencies)) 1)) in
      now ← utcnow_iso;
      mret (LSnapshot symbol st divergence latency multiplier (Some ratio) alerts advice runbook now
        (map (λ kv : string * LiquiditySample, (kv.1, source_payload kv.2)) sources))
  end.
End snapshot.

(** * Effects *)

Section effects.
Context `{Env}.
Variable epoch_at mono_at : nat → float.
Variable size_of : list line → Z.
Variable st_mtime : nat → string → float.
Variable bus_config : EventBusConfig.
Variable os : os_env.
(** Whether the caller runs inside an event loop. *)
Variable loop_running : bool.

Definition append_metrics (x : LiquiditySnapshot) : M LiquidityMonitor unit :=
  append_jsonl DEFAULT_METRICS_PATH (VDict [("ts", VStr (snap_updated_at x)); ("symbol", VStr (snap_symbol x));
    ("divergence_p95", vopt_float (divergence_p95 x)); ("update_latency_p95", vopt_float (update_latency_p95 x));
    ("alerts_count", VInt (Z.of_nat (length (snap_alerts x)))); ("state", VStr (snap_state x))]).

(** The gate of the file; whatever goes wrong gives the default gate. *)
Definition load_gate (d : document) : GateState :=
  match d with
  | Some (Some v) => match gate_from_dict v with Ok g => g | Raise _ => gate_default end
  | _ => gate_default
  end.

Definition update_gate_state (x : LiquiditySnapshot) : M LiquidityMonitor unit :=
  s ← get;
  let aggregator := aggregator_init VNone (Some (load_gate (gate_file s))) in
  match fromisoformat (replace_char "Z" "+00:00" (snap_updated_at x)) with
  | None => raise (ValueError "Invalid isoformat string")
  | Some updated_at =>
      let aggregator := update_liquidity (Some (Gate.Liquidity (VStr (snap_state x)) (VStr (recommendation x)) (Some updated_at))) aggregator in
      '(_, d) ← lift (persist_latest os VNone VNone aggregator);
      modify (set_gate_file (Some (Some (VDict d))))
  end.

Definition publish_event (payload : dict) (event_type : string) : M LiquidityMonitor unit :=
  s ← get;
  match lm_bus s with
  | None => mret tt
  | Some b =>
      if loop_running then modify (add_task (VDict payload, event_type))
      else
        _ ← zoom (λ s, default b (lm_bus s)) set_bus
          (publish epoch_at mono_at size_of st_mtime bus_config (VDict payload) (Some event_type) [] true);
        mret tt
  end.

Definition emit_events (x : LiquiditySnapshot) : M LiquidityMonitor unit :=
  s ← get;
  match lm_bus s with
  | None => mret tt
  | Some _ =>
      try_catch (
        _ ← publish_event (dupdate [("event", VStr "liquidity.snapshot")] (snapshot_to_dict x)) "liquidity.snapshot";
        for_each (λ a, publish_event (dset "event" (VStr "liquidity.alert") (alert_to_dict a)) "liquidity.alert") (snap_alerts x))
        (λ _, Some (mret tt))
  end.

Definition append_ops_worklog (x : LiquiditySnapshot) : M LiquidityMonitor unit :=
  for_each (λ a, append_jsonl DEFAULT_OPS_WORKLOG (VDict [("timestamp", VStr (snap_updated_at x)); ("task", VStr "liquidity_watch");
    ("symbol", VStr (snap_symbol x)); ("alert", VStr (alert_code a)); ("severity", VStr (alert_severity a)); ("alert_id", VStr (alert_id a))]))
    (snap_alerts x).

Definition validation_lines (x : LiquiditySnapshot) : list string :=
  [ "## Liquidity Alert (" +:+ snap_symbol x +:+ ")"; ""; "| Field | Value |"; "| --- | --- |";
    "| Timestamp | " +:+ snap_updated_at x +:+ " |"; "| State | " +:+ snap_state x +:+ " |";
    "| Recommendation | " +:+ recommendation x +:+ " |"; "| Divergence p95 | " +:+ opt_text (divergence_p95 x) +:+ " |";
    "| Update latency p95 | " +:+ opt_text (update_latency_p95 x) +:+ " |";
    "| Spread multiplier | " +:+ opt_text (spread_multiplier x) +:+ " |";
    "| Alerts | " +:+ pretty (Z.of_nat (length (snap_alerts x))) +:+ " |";
    "| Runbook | " +:+ default RUNBOOK (snap_runbook x) +:+ " |"; ""; "| Alert ID | Code | Severity | Detail |"; "| --- | --- | --- | --- |"] ++
  map (λ a, "| " +:+ alert_id a +:+ " | " +:+ alert_code a +:+ " | " +:+ alert_severity a +:+ " | " +:+ alert_detail a +:+ " |") (snap_alerts x) ++ [""].

Definition write_validation_log (x : LiquiditySnapshot) : M LiquidityMonitor unit :=
  now ← now_utc;
  let path := "reports/validation_log/liquidity_alert_" +:+ yyyymmdd now +:+ ".md" in
  modify (λ s, set_validation_logs (dset path (validation_lines x) (validation_logs s)) s).

(** * The service *)

Definition update (l : list (dict + LiquiditySample)) (window_sec : Z) (thresholds : option LiquidityThresholds) : M LiquidityMonitor LiquiditySnapshot :=
  parsed ← parse_samples l;
  match last parsed with
  | None => raise (LiquiditySampleError "No liquidity samples provided")
  | Some final =>
      now ← now_utc;
      _ ← modify (λ s, set_samples (fold_left add_sample parsed (samples s)) s);
      _ ← prune now window_sec;
      let symbol := sym final in
      x ← build_snapshot symbol (default default_thresholds thresholds);
      _ ← modify (λ s, set_latest (dset symbol x (latest s)) s);
      _ ← modify (set_snapshot_file (Some (Some (VDict (snapshot_to_dict x)))));
      _ ← append_metrics x;
      _ ← update_gate_state x;
      _ ← emit_events x;
      _ ← (match snap_alerts x with [] => mret tt | _ => _ ← append_ops_worklog x; write_validation_log x end);
      mret x
  end.

Definition evaluate (symbol : string) : M LiquidityMonitor LiquidityAssessment :=
  s ← get;
  match dlookup symbol (latest s) with
  | None => raise (LiquiditySymbolNotFound ("Symbol '" +:+ symbol +:+ "' not registered"))
  | Some x => mret (LAssessment symbol (snap_state x) (recommendation x) (snap_alerts x))
  end.

Definition export_state (path : string) (s : LiquidityMonitor) : dict := [
  ("status", VStr "ok"); ("snapshots", VDict (map (λ kv : string * LiquiditySnapshot, (kv.1, VDict (snapshot_to_dict kv.2))) (latest s)));
  ("snapshot_path", VStr path)].
End effects.

(** * What an update does *)

(** The parts of the state the assessment reads and the gate depends on. *)
Definition board (s : LiquidityMonitor) : list (string * list LiquiditySample) * list (string * LiquiditySnapshot) * document :=
  (samples s, latest s, gate_file s).

(** Steps that return and leave the board alone. *)
Definition quiet {A} (m : M LiquidityMonitor A) (P : A → Prop) : Prop := ∀ s, ∃ a s', m s = (Ok a, s') ∧ board s' = board s ∧ P a.

Lemma files_bind {A B} (m : M LiquidityMonitor A) (f : A → M LiquidityMonitor B) P Q :
  quiet m P → (∀ a, P a → quiet (f a) Q) → quiet (m ≫= f) Q.
Proof.
  intros Hm Hf s. destruct (Hm s) as (a & s1 & E & Hb & Ha). destruct (Hf a Ha s1) as (b & s2 & E2 & Hb2 & Hq).
  exists b, s2. rewrite bind_run, E. by rewrite Hb2, Hb.
Qed.

Lemma quiet_each {A} (f : A → M LiquidityMonitor unit) l : (∀ a, quiet (f a) (λ _, True)) → quiet (for_each f l) (λ _, True).
Proof.
  intros Hf. induction l as [|a l IH]; cbn [for_each]; [intros s; by exists tt, s|]. by eapply files_bind.
Qed.

(** What a snapshot says about the samples of its symbol. *)
Definition severities (x : LiquiditySnapshot) (t : LiquidityThresholds) : list string :=
  omap id [severity_of (divergence_p95 x) (divergence_warn_pips t) (divergence_alert_pips t);
    severity_of (update_latency_p95 x) (latency_warn_ms t) (latency_alert_ms t);
    severity_of (spread_multiplier x) (spread_warn_multiplier t) (spread_alert_multiplier t)].

Definition assesses (symbol : string) (items : list LiquiditySample) (t : LiquidityThresholds) (x : LiquiditySnapshot) : Prop :=
  snap_symbol x = symbol ∧
  divergence_p95 x = percentile (divergences (pip_size symbol) (by_source items).*2) 95 ∧
  update_latency_p95 x = percentile (map update_latency_ms items) 95 ∧
  spread_multiplier x = multiplier_of (map sample_spread items) ∧
  map alert_severity (snap_alerts x) = severities x t ∧
  (snap_state x, recommendation x, snap_runbook x) = state_of (severities x t) true.

Lemma percentile_some x l p : is_Some (percentile (x :: l) p).
Proof.
  unfold percentile. destruct (isort fltb (x :: l)) eqn:E; [|by eexists]. pose proof (isort_length fltb (x :: l)) as Hl. by rewrite E in Hl.
Qed.

Section updates.
Context `{Env}.

Lemma raise_alert_quiet code x warn alert symbol detail :
  quiet (raise_alert code x warn alert symbol detail) (λ l, map alert_severity l = omap id [severity_of x warn alert]).
Proof. intros s. unfold raise_alert. destruct (severity_of x warn alert) as [sev|]; by eexists _, _. Qed.

Lemma iso_seconds_parse d : valid_dt d = true →
  ∃ u, fromisoformat (replace_char "Z" "+00:00" (iso_z d)) = Some u ∧ valid_dt u = true.
Proof.
  intros Hv. set (u := DateTime (dt_year d) (dt_month d) (dt_day d) (dt_hour d) (dt_minute d) (dt_second d) 0 (Some 0)).
  assert (valid_dt u = true) as Hu by (revert Hv; unfold valid_dt; cbn; rewrite !andb_true_iff; naive_solver). exists u. split; [|done].
  pose proof (parse_iso_text u Hu) as E. unfold parse_ts in E.
  change (truthy (VStr (iso_text u))) with (negb (String.eqb (iso_text u) "")) in E.
  rewrite (proj2 (String.eqb_neq _ _) (iso_text_not_empty u)) in E. cbn [negb] in E. rewrite <- E. by do 2 f_equal.
Qed.

(** Readings of the clock are times of the calendar. *)
Definition clock_ok : Prop := ∀ n, valid_dt (clock_at n) = true.

Lemma build_snapshot_spec symbol t s i items : clock_ok → dlookup symbol (samples s) = Some (i :: items) →
  ∃ x s', build_snapshot symbol t s = (Ok x, s') ∧ board s' = board s ∧ assesses symbol (i :: items) t x ∧
    ∃ u, fromisoformat (replace_char "Z" "+00:00" (snap_updated_at x)) = Some u ∧ valid_dt u = true.
Proof.
  intros Hc Hl. unfold build_snapshot. rewrite bind_run. cbn [get]. rewrite Hl. cbn [default id]. cbv beta iota zeta.
  set (div := percentile (divergences _ _) 95). set (lat := percentile (map update_latency_ms _) 95). set (mul := multiplier_of _).
  rewrite bind_run. match goal with |- context [raise_alert "price_divergence" _ ?w ?a _ ?d s] =>
    destruct (raise_alert_quiet "price_divergence" div w a symbol d s) as (l1 & s1 & -> & Hb1 & H1) end.
  rewrite bind_run. match goal with |- context [raise_alert "stale_quote" _ ?w ?a _ ?d s1] =>
    destruct (raise_alert_quiet "stale_quote" lat w a symbol d s1) as (l2 & s2 & -> & Hb2 & H2) end.
  rewrite bind_run. match goal with |- context [raise_alert "spread_shock" _ ?w ?a _ ?d s2] =>
    destruct (raise_alert_quiet "spread_shock" mul w a symbol d s2) as (l3 & s3 & -> & Hb3 & H3) end.
  assert (map alert_severity (l1 ++ l2 ++ l3) = omap id [severity_of div (divergence_warn_pips t) (divergence_alert_pips t);
    severity_of lat (latency_warn_ms t) (latency_alert_ms t); severity_of mul (spread_warn_multiplier t) (spread_alert_multiplier t)]) as Hs.
  { rewrite !map_app, H1, H2, H3. cbn. by destruct (severity_of _ _ _), (severity_of _ _ _), (severity_of _ _ _). }
  rewrite Hs. assert (bool_decide (is_Some div) || bool_decide (is_Some lat) = true) as ->.
  { rewrite orb_true_iff. right. apply bool_decide_true, percentile_some. }
  destruct (state_of _ true) as [[st advice] runbook] eqn:Est. eexists _, _. split; [reflexivity|].
  split; [cbn; by rewrite <- Hb1, <- Hb2, <- Hb3|]. split; [unfold assesses, severities; cbn; by split_and!|]. by apply iso_seconds_parse.
Qed.
End updates.

(** ** The samples that are kept *)

Definition samples_of (symbol : string) (m : list (string * list LiquiditySample)) : list LiquiditySample := default [] (dlookup symbol m).
Definition aware (x : LiquiditySample) : Prop := is_naive (sample_ts x) = false.
Definition recent (now : datetime) (window_sec : Z) (x : LiquiditySample) : bool := fleb (total_seconds now (sample_ts x)) (of_Z window_sec).
Definition quotes (symbol : string) (l : list LiquiditySample) : list LiquiditySample := List.filter (λ x, String.eqb (sym x) symbol) l.

Lemma samples_of_add symbol l m :
  samples_of symbol (fold_left add_sample l m) = samples_of symbol m ++ quotes symbol l.
Proof.
  revert m. induction l as [|x l IH]; intros m; cbn [fold_left]; [by rewrite app_nil_r|]. rewrite IH. unfold samples_of, add_sample, quotes. cbn.
  destruct (String.eqb_spec (sym x) symbol) as [->|Hs]; [rewrite dlookup_dset_eq; cbn; by rewrite <- (assoc_L (++))|by rewrite dlookup_dset_ne].
Qed.

Lemma NoDup_add l m : NoDup (keys m) → NoDup (keys (fold_left add_sample l m)).
Proof. revert m. induction l as [|x l IH]; intros m Hm; cbn [fold_left]; [done|]. by apply IH, NoDup_dset. Qed.

Lemma filter_fresh now w l : Forall aware l → filterM_res (fresh now w) l = Ok (List.filter (recent now w) l).
Proof.
  induction 1 as [|x l Hx Hl IH]; [done|]. cbn [filterM_res].
  assert (fresh now w x = Ok (recent now w x)) as -> by (unfold fresh; by rewrite Hx). cbn. rewrite IH. by destruct (recent now w x).
Qed.

Definition all_aware (m : list (string * list LiquiditySample)) : Prop := ∀ k, Forall aware (samples_of k m).

Lemma all_aware_add l m : all_aware m → Forall aware l → all_aware (fold_left add_sample l m).
Proof.
  intros Hm Hl k. rewrite samples_of_add. apply Forall_app. split; [done|]. apply Forall_forall. intros x Hx.
  apply list_elem_of_In, List.filter_In in Hx as [Hx _]. rewrite Forall_forall in Hl. by apply Hl, list_elem_of_In.
Qed.

Lemma lookup_pruned f k (l m : list (string * list LiquiditySample)) : NoDup (keys l) →
  dlookup k (fold_left (λ m kv, dset kv.1 (f kv.2) m) l m) = match dlookup k l with Some v => Some (f v) | None => dlookup k m end.
Proof.
  revert m. induction l as [|[k' v] l IH]; intros m Hn; [done|]. apply NoDup_cons in Hn as [Hk Hn]. cbn [fold_left]. rewrite IH by done. cbn.
  destruct (String.eqb_spec k k') as [->|Hne]; [|by rewrite dlookup_dset_ne]. apply dlookup_None_keys in Hk. cbn in Hk. by rewrite Hk, dlookup_dset_eq.
Qed.

Lemma prune_spec now w s : NoDup (keys (samples s)) → all_aware (samples s) → ∃ s', prune now w s = (Ok tt, s') ∧
  latest s' = latest s ∧ gate_file s' = gate_file s ∧ lm_world s' = lm_world s ∧ NoDup (keys (samples s')) ∧
  ∀ k, dlookup k (samples s') = List.filter (recent now w) <$> dlookup k (samples s).
Proof.
  intros Hn Ha. unfold prune. rewrite bind_run. cbn [get].
  assert (∀ l s, (∀ kv, kv ∈ l → Forall aware kv.2) → ∃ s', for_each (λ kv : string * list LiquiditySample,
      l ← lift (filterM_res (fresh now w) kv.2); modify (λ s, set_samples (dset kv.1 l (samples s)) s)) l s = (Ok tt, s') ∧
    latest s' = latest s ∧ gate_file s' = gate_file s ∧ lm_world s' = lm_world s ∧
    samples s' = fold_left (λ m kv, dset kv.1 (List.filter (recent now w) kv.2) m) l (samples s)) as Hl.
  { clear. induction l as [|kv l IH]; intros s Hl; cbn [for_each fold_left]; [by exists s|].
    rewrite bind_run, bind_run, filter_fresh by (apply Hl; left). cbn [lift modify].
    destruct (IH (set_samples (dset kv.1 (List.filter (recent now w) kv.2) (samples s)) s)) as (s' & E & H1); [intros kv' Hk; apply Hl; by right|].
    by exists s'. }
  destruct (Hl (samples s) s) as (s' & E & H1 & H2 & H3 & H4).
  { intros [k v] Hk. specialize (Ha k). unfold samples_of in Ha. apply dlookup_in in Hk; [|done]. by rewrite Hk in Ha. }
  exists s'. split_and!; [done..| |].
  { rewrite H4. generalize (samples s) at 1. intros l. revert Hn. generalize (samples s). induction l as [|kv l IH]; intros m Hn; cbn; [done|].
    by apply IH, NoDup_dset. }
  intros k. rewrite H4, lookup_pruned by done. by destruct (dlookup k (samples s)).
Qed.

Section service.
Context `{Env}.
Variable epoch_at mono_at : nat → float.
Variable size_of : list line → Z.
Variable st_mtime : nat → string → float.
Variable bus_config : EventBusConfig.
Variable os : os_env.
Variable loop_running : bool.
Abbreviation run_update := (update epoch_at mono_at size_of st_mtime bus_config os loop_running).

(** ** The effects leave the board alone *)

Definition keeps_board {A} (m : M LiquidityMonitor A) : Prop := ∀ s, board (m s).2 = board s.

Lemma keeps_board_bind {A B} (m : M LiquidityMonitor A) (f : A → M LiquidityMonitor B) :
  keeps_board m → (∀ a, keeps_board (f a)) → keeps_board (m ≫= f).
Proof. intros Hm Hf s. rewrite bind_run. specialize (Hm s). destruct (m s) as [[a|e] s1]; [|done]. by rewrite Hf. Qed.

Lemma publish_event_keeps payload ty : keeps_board (publish_event epoch_at mono_at size_of st_mtime bus_config loop_running payload ty).
Proof.
  intros s. unfold publish_event. rewrite bind_run. cbn [get]. destruct (lm_bus s) as [b|]; [|done]. destruct loop_running; [done|].
  apply (keeps_board_bind (zoom _ _ _)); [|done]. intros s2. by rewrite zoom_run.
Qed.

Lemma emit_quiet x : quiet (emit_events epoch_at mono_at size_of st_mtime bus_config loop_running x) (λ _, True).
Proof.
  intros s. unfold emit_events. rewrite bind_run. cbn [get]. destruct (lm_bus s) as [b|]; [|by exists tt, s]. unfold try_catch.
  match goal with |- context [match ?m s with _ => _ end] => assert (keeps_board m) as Hk end.
  { apply keeps_board_bind; [apply publish_event_keeps|]. intros _. induction (snap_alerts x) as [|a l IH]; cbn [for_each]; [done|].
    apply keeps_board_bind; [apply publish_event_keeps|done]. }
  specialize (Hk s). revert Hk. match goal with |- board (?m s).2 = _ → _ => destruct (m s) as [[[]|e] s1] end; intros Hk; by exists tt, s1.
Qed.

Lemma reports_quiet x : quiet (match snap_alerts x with [] => mret tt | _ => _ ← append_ops_worklog x; write_validation_log x end) (λ _, True).
Proof.
  destruct (snap_alerts x) eqn:E; [intros s; by exists tt, s|]. eapply files_bind with (P:=λ _, True); [|intros _ _ s0; unfold write_validation_log; rewrite bind_run; unfold now_utc, modify; cbv beta iota zeta; eexists tt, _; split; [reflexivity|done]].
  unfold append_ops_worklog. apply quiet_each. intros a0 s. eexists tt, _; split; [reflexivity|done].
Qed.

(** ** The gate file *)

(** The gate after the snapshot [x]: its liquidity is that of [x]; with an alert
    nothing runs by itself. *)
Definition gate_follows (x : LiquiditySnapshot) (g0 g : GateState) : Prop :=
  liq_state (market_liquidity (market g)) = VStr (snap_state x) ∧ risk g = risk g0 ∧ human g = human g0 ∧
  (snap_alerts x ≠ [] → auto_execute g = false ∧
    ∀ board_mode kill_switch spread, auto_execute (enforce_auto_execute_guards board_mode kill_switch spread (with_auto_execute true g)) = false).

Lemma alerts_state t x : map alert_severity (snap_alerts x) = severities x t →
  (snap_state x, recommendation x, snap_runbook x) = state_of (severities x t) true →
  v_in (VStr (snap_state x)) ["guarded"; "halted"] = negb (bool_decide (snap_alerts x = [])).
Proof.
  intros <- Hs. revert Hs. destruct (snap_alerts x) as [|a l].
  - intros E. cbn in E. injection E as -> _ _. done.
  - rewrite bool_decide_false by done. unfold state_of. destruct (str_in _ _); [by intros [= -> _ _]|]. cbn [map]. by intros [= -> _ _].
Qed.

Lemma update_gate_spec t x s u hs : map alert_severity (snap_alerts x) = severities x t →
  (snap_state x, recommendation x, snap_runbook x) = state_of (severities x t) true →
  fromisoformat (replace_char "Z" "+00:00" (snap_updated_at x)) = Some u → valid_dt u = true →
  resolve_hashes os VNone VNone = Ok hs → gate_ok (load_gate (gate_file s)) →
  ∃ s', update_gate_state os x s = (Ok tt, s') ∧ samples s' = samples s ∧ latest s' = latest s ∧
    gate_follows x (load_gate (gate_file s)) (load_gate (gate_file s')).
Proof.
  intros Hal Hst Hu Hv Hh Hg. unfold update_gate_state. rewrite bind_run. cbn [get]. rewrite Hu. rewrite bind_run. unfold persist_latest. rewrite Hh.
  destruct hs as [c d]. cbn -[gate_to_dict gate_from_dict set_hashes update_liquidity aggregator_init]. eexists. split; [reflexivity|]. split; [done|]. split; [done|].
  cbn -[gate_to_dict gate_from_dict set_hashes update_liquidity aggregator_init]. set (g0 := load_gate (gate_file s)) in *.
  set (g := set_hashes c d (update_liquidity _ _)).
  assert (gate_ok g ∧ gate_follows x g0 g) as [Hok Hf].
  2: { by rewrite gate_roundtrip. }
  subst g. unfold update_liquidity. cbn [liq_state]. rewrite (alerts_state t x Hal Hst). destruct Hg as (H1 & H2 & _ & H4 & H5).
  destruct (bool_decide (snap_alerts x = [])) eqn:E; cbn [negb].
  - apply bool_decide_eq_true in E. split; [by split_and!|]. by split_and!.
  - split; [by split_and!|]. split_and!; [done..|]. intros _. split; [done|]. intros bm ks sp. unfold enforce_auto_execute_guards.
    match goal with |- context [v_in ?v ["guarded"; "halted"]] => change v with (VStr (snap_state x)) end.
    rewrite (alerts_state t x Hal Hst), E. cbn [negb]. by rewrite !orb_true_r.
Qed.

Lemma parse_given parsed s : parse_samples (map inr parsed) s = (Ok parsed, s).
Proof.
  unfold parse_samples. induction parsed as [|x l IH]; [done|]. cbn [map mapM]. rewrite bind_run. cbn [mret M_ret]. by rewrite bind_run, IH.
Qed.

Lemma kept_final now w parsed final s1 m : last parsed = Some final → recent now w final = true →
  (∀ k, dlookup k (samples s1) = List.filter (recent now w) <$> dlookup k (fold_left add_sample parsed m)) →
  ∃ i items, dlookup (sym final) (samples s1) = Some (i :: items) ∧
    i :: items = List.filter (recent now w) (samples_of (sym final) m ++ quotes (sym final) parsed).
Proof.
  intros Hl Hr Hs. apply last_Some in Hl as [l ->].
  assert (final ∈ List.filter (recent now w) (samples_of (sym final) m ++ quotes (sym final) (l ++ [final]))) as Hin.
  { apply list_elem_of_In, List.filter_In. split; [|done]. apply in_or_app. right. unfold quotes. apply List.filter_In.
    split; [apply in_or_app; right; by left|apply String.eqb_refl]. }
  pose proof (samples_of_add (sym final) (l ++ [final]) m) as Ha. unfold samples_of at 1 in Ha. rewrite Hs.
  destruct (dlookup (sym final) (fold_left add_sample (l ++ [final]) m)) as [v|]; cbn [default fmap option_fmap option_map] in *.
  - unfold id in Ha. rewrite Ha in *. destruct (List.filter _ _) as [|i items]; [by apply not_elem_of_nil in Hin|by exists i, items].
  - unfold id in Ha. rewrite <- Ha in Hin. by apply not_elem_of_nil in Hin.
Qed.

(** C27. An update with aware samples of which the last one is in the window returns:
    the snapshot is made of the samples of that symbol in the window, has one alert
    per measure at or above its threshold and is halted with a critical alert,
    guarded with a warning and watched without; it becomes the latest of its symbol.
    The gate that is read back from the gate file shows the state of the snapshot,
    keeps its risk and human parts, and with an alert does not execute by itself, nor
    does any guard let it.  Samples stay aware and filed once per symbol. *)
Theorem update_assesses_and_gates parsed final w th s hs : clock_ok → NoDup (keys (samples s)) → all_aware (samples s) → Forall aware parsed →
  last parsed = Some final → recent (clock_at (w_tick (lm_world s))) w final = true →
  resolve_hashes os VNone VNone = Ok hs → gate_ok (load_gate (gate_file s)) →
  ∃ x s', run_update (map inr parsed) w th s = (Ok x, s') ∧
    assesses (sym final) (List.filter (recent (clock_at (w_tick (lm_world s))) w) (samples_of (sym final) (samples s) ++ quotes (sym final) parsed))
      (default default_thresholds th) x ∧
    (∀ k, dlookup k (latest s') = if String.eqb k (sym final) then Some x else dlookup k (latest s)) ∧
    gate_follows x (load_gate (gate_file s)) (load_gate (gate_file s')) ∧ NoDup (keys (samples s')) ∧ all_aware (samples s').
Proof.
  intros Hc Hn Ha Hp Hl Hr Hh Hg. unfold update. rewrite bind_run, parse_given, Hl, bind_run. set (now := clock_at (w_tick (lm_world s))) in *.
  match goal with |- context [now_utc s] => change (now_utc s) with (Ok (A:=datetime) now, (now_utc s).2) end. cbv beta iota. rewrite bind_run. cbn [modify].
  set (s1 := set_samples _ _). assert (samples s1 = fold_left add_sample parsed (samples s)) as Es1 by done.
  assert (latest s1 = latest s ∧ gate_file s1 = gate_file s) as [El1 Eg1] by done. clearbody s1. rewrite bind_run.
  destruct (prune_spec now w s1) as (s2 & -> & El2 & Eg2 & _ & Hn2 & Hs2).
  { rewrite Es1. by apply NoDup_add. }
  { rewrite Es1. by apply all_aware_add. }
  rewrite Es1 in Hs2. destruct (kept_final now w parsed final s2 (samples s) Hl Hr Hs2) as (i & items & Hi & <-).
  rewrite bind_run. destruct (build_snapshot_spec (sym final) (default default_thresholds th) s2 i items Hc Hi) as (x & s3 & -> & Hb3 & Hx & u & Hu & Hv).
  injection Hb3 as Hb3a Hb3b Hb3c. rewrite bind_run. cbn [modify]. rewrite bind_run. cbn [modify]. rewrite bind_run.
  set (s4 := set_snapshot_file _ _). destruct (append_metrics x s4) as [r s5] eqn:E5.
  assert (r = Ok tt ∧ samples s5 = samples s2 ∧ gate_file s5 = gate_file s ∧ latest s5 = dset (sym final) x (latest s)) as (-> & Es5 & Eg5 & El5).
  { injection E5 as <- <-. cbn. by rewrite Hb3a, Hb3b, Hb3c, El2, El1, Eg2, Eg1. }
  clear E5. clearbody s4. destruct Hx as (Hx1 & Hx2 & Hx3 & Hx4 & Hx5 & Hx6). rewrite bind_run.
  destruct (update_gate_spec (default default_thresholds th) x s5 u hs Hx5 Hx6 Hu Hv Hh) as (s6 & -> & Es6 & El6 & Hf); [by rewrite Eg5|].
  rewrite bind_run. destruct (emit_quiet x s6) as ([] & s7 & -> & Hb7 & _). rewrite bind_run.
  destruct (reports_quiet x s7) as ([] & s8 & E8 & Hb8 & _). rewrite E8. injection Hb7 as Hs7 Hl7 Hg7. injection Hb8 as Hs8 Hl8 Hg8.
  exists x, s8. split; [done|]. split; [by split_and!|]. rewrite Hl8, Hl7, El6, El5, Hg8, Hg7, Hs8, Hs7, Es6, Es5. rewrite Eg5 in Hf.
  split_and!; [|done|done|].
  - intros k. destruct (String.eqb_spec k (sym final)) as [->|]; [by rewrite dlookup_dset_eq|by rewrite dlookup_dset_ne].
  - intros k. unfold samples_of. rewrite Hs2. pose proof (all_aware_add parsed (samples s) Ha Hp k) as Hk. unfold samples_of in Hk.
    destruct (dlookup k _) as [l|]; cbn in *; [|done]. apply Forall_forall. intros y Hy. rewrite Forall_forall in Hk. apply Hk.
    apply list_elem_of_In in Hy. apply List.filter_In in Hy as [Hy _]. by apply list_elem_of_In.
Qed.
End service.

(** * A sample without an offset *)

Definition poisoned (s : LiquidityMonitor) : Prop := ∃ k x, x ∈ samples_of k (samples s) ∧ is_naive (sample_ts x) = true.

Lemma fresh_naive now w x l : x ∈ l → is_naive (sample_ts x) = true → ∃ e, filterM_res (fresh now w) l = Raise e.
Proof.
  intros Hx Hn. induction l as [|y l IH]; [by apply not_elem_of_nil in Hx|]. cbn [filterM_res]. apply elem_of_cons in Hx as [<-|Hx].
  - exists (TypeError "can't subtract offset-naive and offset-aware datetimes"). assert (fresh now w x = Raise _) as -> by (unfold fresh; by rewrite Hn). done.
  - destruct (IH Hx) as [e He]. destruct (fresh now w y) as [b|e']; cbn; [rewrite He|]; by eexists.
Qed.

Lemma prune_poisoned now w s : poisoned s → ∃ e s', prune now w s = (Raise e, s') ∧ poisoned s'.
Proof.
  intros (k & x & Hx & Hn). unfold prune. rewrite bind_run. cbn [get].
  assert (∀ l t v, dlookup k l = Some v → x ∈ v → samples_of k (samples t) = v → ∃ e t', for_each (λ kv : string * list LiquiditySample,
      l ← lift (filterM_res (fresh now w) kv.2); modify (λ s, set_samples (dset kv.1 l (samples s)) s)) l t = (Raise e, t') ∧
    samples_of k (samples t') = v) as Hl.
  { clear -Hn. induction l as [|[k' v'] l IH]; intros t v Hv Hx Ht; [done|]. cbn [for_each]. rewrite bind_run, bind_run. cbn [snd fst].
    cbn in Hv. destruct (String.eqb_spec k k') as [->|Hne].
    - injection Hv as ->. destruct (fresh_naive now w x v Hx Hn) as [e ->]. by exists e, t.
    - destruct (filterM_res (fresh now w) v') as [b|e]; cbn [lift modify]; [|by exists e, t].
      apply (IH _ v Hv Hx). unfold samples_of. cbn. by rewrite dlookup_dset_ne. }
  unfold samples_of in Hx. destruct (dlookup k (samples s)) as [v|] eqn:Ek; [|by apply not_elem_of_nil in Hx].
  destruct (Hl (samples s) s v Ek Hx) as (e & s' & -> & E); [unfold samples_of; by rewrite Ek|]. exists e, s'. split; [done|].
  exists k, x. rewrite E. by split.
Qed.

Lemma parse_keeps `{Env} l s : board (parse_samples l s).2 = board s.
Proof.
  unfold parse_samples. apply (λ H, H s). clear s. induction l as [|x l IH]; intros s; [done|]. cbn [mapM].
  apply keeps_board_bind; [|intros a; apply keeps_board_bind; [exact IH|done]]. clear. destruct x as [d|x]; [|done].
  unfold sample_from_mapping. apply keeps_board_bind; [intros s; unfold sample_time; by destruct (dget "ts" d) as [| | | |t| |]; try done; destruct (fromisoformat _)|].
  intros t. repeat (apply keeps_board_bind; [done|intros ?]). done.
Qed.

(** Once a sample whose time has no offset is filed under any symbol, every later
    update of any symbol raises, and the sample stays: the monitor assesses nothing
    any more, whatever comes in. *)
Theorem naive_sample_stops_monitor `{Env} epoch_at mono_at size_of st_mtime config os running l w th s : poisoned s →
  ∃ e s', update epoch_at mono_at size_of st_mtime config os running l w th s = (Raise e, s') ∧ poisoned s'.
Proof.
  intros Hp. unfold update. rewrite bind_run. pose proof (parse_keeps l s) as Hb. destruct (parse_samples l s) as [[parsed|e] s1]; cbn in Hb;
    injection Hb as Hb1 _ _; [|exists e, s1; split; [done|]; unfold poisoned in *; by rewrite Hb1].
  destruct (last parsed) as [final|]; [|exists (LiquiditySampleError "No liquidity samples provided"), s1; split; [done|]; unfold poisoned in *; by rewrite Hb1].
  rewrite bind_run. unfold now_utc. cbv beta iota zeta. rewrite bind_run. cbn [modify]. rewrite bind_run.
  match goal with |- context [prune ?n w ?t] => destruct (prune_poisoned n w t) as (e & s' & -> & H') end; [|by exists e, s'].
  destruct Hp as (k & x & Hx & Hn). exists k, x. split; [|done]. cbn [samples set_samples wset liquidity_monitor_world]. rewrite samples_of_add, Hb1.
  apply elem_of_app. by left.
Qed.

(** * Runs *)

Definition quote (name symbol : string) (tz : option Z) (price latency spread : Z) : LiquiditySample :=
  LSample name symbol (DateTime 2026 3 20 9 0 0 0 tz) (of_dec price (-4)) (of_dec (price + 1) (-4)) (of_dec spread (-4)) (of_Z latency) None.

Definition sample_monitor : LiquidityMonitor :=
  LMonitor [("EURUSD", [quote "lp1" "EURUSD" (Some 0) 10850 20 1])] [] None [] (Some (Some (VDict (gate_to_dict sample_gate)))) None [] world0.
Definition no_os : os_env := OsEnv None None None None.
Definition sample_bus_config : EventBusConfig := BusConfig 8 "block" 30 60.
Definition sample_update `{Env} (l : list LiquiditySample) : M LiquidityMonitor LiquiditySnapshot :=
  update (λ _, fzero) (λ _, fzero) (λ _, 0) (λ _ _, fzero) sample_bus_config no_os false (map inr l) 300 None.

(** Two sources that disagree by five pips. *)
Definition torn : list LiquiditySample := [quote "lp2" "EURUSD" (Some 0) 10855 30 1].

Definition steady_env : Env := {| clock_at _ := DateTime 2026 3 20 9 1 0 0 (Some 0); uuid_at n := "0123456789abcdef"; io_ok_at _ := true |}.

Lemma update_assesses_and_gates_witness : let _ := steady_env in ∃ x s', sample_update torn sample_monitor = (Ok x, s') ∧
  assesses "EURUSD" (List.filter (recent (clock_at 0) 300) (samples_of "EURUSD" (samples sample_monitor) ++ quotes "EURUSD" torn)) default_thresholds x ∧
  (∀ k, dlookup k (latest s') = if String.eqb k "EURUSD" then Some x else dlookup k (latest sample_monitor)) ∧
  gate_follows x (load_gate (gate_file sample_monitor)) (load_gate (gate_file s')) ∧ NoDup (keys (samples s')) ∧ all_aware (samples s').
Proof.
  intros env. apply (update_assesses_and_gates (λ _, fzero) (λ _, fzero) (λ _, 0) (λ _ _, fzero) sample_bus_config no_os false torn
    (quote "lp2" "EURUSD" (Some 0) 10855 30 1) 300 None sample_monitor (VNone, VNone)).
  - intros n. reflexivity.
  - apply NoDup_singleton.
  - intros k. unfold samples_of. cbn. destruct (String.eqb k "EURUSD"); repeat constructor.
  - repeat constructor.
  - reflexivity.
  - vm_compute. reflexivity.
  - reflexivity.
  - unfold load_gate, sample_monitor. cbn [gate_file]. rewrite gate_roundtrip; apply sample_gate_ok.
Defined.

(** The state and the alerts of an update, and the liquidity of the gate after it. *)
Definition outcome `{Env} (l : list LiquiditySample) (s : LiquidityMonitor) : res (string * list (string * string)) * pyval :=
  let '(r, s) := sample_update l s in
  (x ← r; Ok (snap_state x, map (λ a, (alert_code a, alert_severity a)) (snap_alerts x)),
    liq_state (market_liquidity (market (load_gate (gate_file s))))).

Example torn_market_halts : let _ := steady_env in
  outcome torn sample_monitor = (Ok ("halted", [("price_divergence", "critical")]), VStr "halted").
Proof. vm_compute. reflexivity. Qed.

Definition calm : list LiquiditySample := [quote "lp1" "GBPUSD" (Some 0) 12650 25 1].

(** The gate has one liquidity state, that of the last update: a calm symbol lifts
    the halt of another one whose market is still torn. *)
Example calm_symbol_lifts_halt : let _ := steady_env in
  outcome calm (sample_update torn sample_monitor).2 = (Ok ("watch", []), VStr "watch") ∧
  snap_state <$> dlookup "EURUSD" (latest (sample_update calm (sample_update torn sample_monitor).2).2) = Some "halted".
Proof. split; vm_compute; reflexivity. Qed.

(** Of a batch only the symbol of the last sample is assessed. *)
Example batch_assesses_last_symbol : let _ := steady_env in
  outcome (torn ++ calm) sample_monitor = (Ok ("watch", []), VStr "watch").
Proof. vm_compute. reflexivity. Qed.

Definition naive_quote : LiquiditySample := quote "lp3" "EURUSD" None 10850 20 1.

(** One sample without an offset raises, and is kept. *)
Example naive_quote_poisons : let _ := steady_env in poisoned (sample_update [naive_quote] sample_monitor).2.
Proof. exists "EURUSD", naive_quote. split; [|reflexivity]. vm_compute. right. left. Qed.

Lemma naive_sample_stops_monitor_witness : let _ := steady_env in
  ∃ e s', sample_update calm (sample_update [naive_quote] sample_monitor).2 = (Raise e, s') ∧ poisoned s'.
Proof.
  intros env. apply (naive_sample_stops_monitor (λ _, fzero) (λ _, fzero) (λ _, 0) (λ _ _, fzero) sample_bus_config no_os false (map inr calm) 300 None).
  exact naive_quote_poisons.
Defined.

(** An unreadable gate file is replaced by a gate that forgot a recommended kill
    switch and reduce-only. *)
Example unreadable_gate_is_reset : let _ := steady_env in
  risk (load_gate (gate_file (sample_update calm (set_gate_file (Some None) sample_monitor)).2)) = risk_default.
Proof. vm_compute. reflexivity. Qed.
