(* ===== verification/Stress.v ===== *)
(** The margin stress lab of [src/risk/stress_lab.py]: scenarios from a presets
    file are run against a risk manager and the capital and correlation guards,
    and give results and a recommended envelope. *)

From S2P Require Import Prelude PyFloat PyVal PyEnv Calendar Gate Health RiskManager.

Local Open Scope Z_scope.
Local Open Scope py_scope.

Definition StressPolicyError (msg : string) : exn := OtherError "StressPolicyError" msg.
Definition DEFAULT_METRICS_PATH : string := "metrics/margin_stress.jsonl".
Definition DEFAULT_AUDIT_LOG : string := "logs/audit/margin_stress.jsonl".

(** * Data *)

Record StressScenario := Scenario { scenario_id : string; kind : string; shock_profile : dict; duration : pyval; confidence_level : option float;
  ref_events : list pyval }.
Record StressInputBundle := Bundle { account_state_snapshot : option string; position_book : option string; signal_history : option string;
  vol_surface : option string; correlation_matrix : option string; margin_schedule : option string }.
Record StressResult := SResult { r_scenario : string; max_drawdown_r : float; net_equity_pct : float; margin_utilization_peak : float;
  r_eff_peak : float; capital_guard_transition : string; kill_switch : option string; board_mode_path : list string; notes : option string }.
Record RiskEnvelope := Envelope { profile : string; generated_at : string; primary_metrics : dict; recommended_thresholds : dict;
  evidence_refs : list string }.
Record StressCampaignResult := Campaign { scenario_results : list StressResult; envelope : RiskEnvelope }.

Definition vtexts (l : list string) : pyval := VList (VStr <$> l).

Definition scenario_to_dict (s : StressScenario) : dict := [
  ("scenario_id", VStr (scenario_id s)); ("kind", VStr (kind s)); ("shock_profile", VDict (shock_profile s)); ("duration", duration s);
  ("confidence_level", vopt_float (confidence_level s)); ("ref_events", VList (ref_events s))].
Definition result_to_dict (r : StressResult) : dict := [
  ("scenario_id", VStr (r_scenario r)); ("max_drawdown_r", VFloat (max_drawdown_r r)); ("net_equity_pct", VFloat (net_equity_pct r));
  ("margin_utilization_peak", VFloat (margin_utilization_peak r)); ("r_eff_peak", VFloat (r_eff_peak r));
  ("capital_guard_transition", VStr (capital_guard_transition r)); ("kill_switch_recommendation", vopt_str (kill_switch r));
  ("board_mode_path", vtexts (board_mode_path r)); ("notes", vopt_str (notes r))].
Definition envelope_to_dict (e : RiskEnvelope) : dict := [
  ("profile", VStr (profile e)); ("generated_at", VStr (generated_at e)); ("primary_metrics", VDict (primary_metrics e));
  ("recommended_thresholds", VDict (recommended_thresholds e)); ("evidence_refs", vtexts (evidence_refs e))].
Definition campaign_to_dict (c : StressCampaignResult) : dict := [
  ("scenario_results", VList (map (VDict ∘ result_to_dict) (scenario_results c))); ("envelope", VDict (envelope_to_dict (envelope c)))].
Definition bundle_to_dict (b : StressInputBundle) : dict := [
  ("account_state_snapshot", vopt_str (account_state_snapshot b)); ("position_book", vopt_str (position_book b));
  ("signal_history", vopt_str (signal_history b)); ("vol_surface", vopt_str (vol_surface b));
  ("correlation_matrix", vopt_str (correlation_matrix b)); ("margin_schedule", vopt_str (margin_schedule b))].

(** [_coerce_float] *)
Definition coerce_float (value : pyval) : res (option float) :=
  match value with
  | VNone => Ok None
  | _ => match py_float value with
      | Ok x => Ok (Some x)
      | Raise (TypeError _) | Raise (ValueError _) => Ok None
      | Raise e => Raise e
      end
  end.

(** [_coerce_float(value) or dflt] *)
Definition float_or (value : pyval) (dflt : float) : res float :=
  x ← coerce_float value;
  Ok (match x with Some x => x or? dflt | None => dflt end).

(** * Policy and presets *)

(** The text of a YAML file as a value, [{}] when it is empty. *)
Definition yaml_payload (d : document) (missing : string) : res pyval :=
  match d with
  | None => Raise (StressPolicyError missing)
  | Some None => Raise (OtherError "YAMLError" "")
  | Some (Some v) => Ok (if truthy v then v else VDict [])
  end.

Definition load_policy (policy : document) (profile : string) : res pyval :=
  payload ← yaml_payload policy "risk policy missing";
  let missing := Raise (StressPolicyError ("profile missing: " +:+ profile)) in
  match (match payload with VDict d => dget "profiles" d | _ => VNone end) with
  | VDict profiles => match dlookup profile profiles with Some p => Ok p | None => missing end
  | _ => missing
  end.

Definition load_presets (presets : document) : res (list pyval) :=
  payload ← yaml_payload presets "stress presets missing";
  match (match payload with VDict d => dget "presets" d | _ => VNone end) with
  | VList l => Ok l
  | _ => Raise (StressPolicyError "invalid stress presets")
  end.

Definition scenario_of (entry : pyval) (id : string) : res StressScenario :=
  k ← vget entry "kind";
  shock ← vget entry "shock_profile"; shock ← to_dict (shock or? VDict []);
  duration ← vget entry "duration";
  c ← vget entry "confidence_level"; c ← coerce_float c;
  refs ← vget entry "ref_events"; refs ← py_iter (refs or? VList []);
  Ok (Scenario id (py_str (k or? VStr "historical")) shock duration c refs).

(** The scenario of a preset, none when it has no id or is not selected. *)
Definition pick (selected : list string) (entry : pyval) : res (option StressScenario) :=
  id ← vget entry "id";
  let id := py_str (id or? VStr "") in
  if String.eqb id "" then Ok None
  else if truthy selected && negb (str_in id selected) then Ok None
  else s ← scenario_of entry id; Ok (Some s).

Definition generate_scenarios (presets : document) (selected : list string) : res (list StressScenario) :=
  entries ← load_presets presets;
  l ← mapM_res (pick selected) entries;
  match omap id l with
  | [] => Raise (StressPolicyError "no stress presets selected")
  | l => Ok l
  end.

(** * A campaign *)

(** The thresholds of the guards of the lab. *)
Definition capital_warn : float := of_dec 7 (-1).
Definition capital_halt : float := of_dec 9 (-1).
Definition corr_threshold : float := of_dec 85 (-2).

(** [int(_coerce_float(value) or 0)] *)
Definition streak_of (value : pyval) : res Z :=
  x ← coerce_float value;
  match x with Some x => if truthy x then ftrunc x else Ok 0 | None => Ok 0 end.

Definition run_scenario (rm : RiskManager) (s : StressScenario) : res StressResult :=
  let shock k := dget k (shock_profile s) in
  drawdown ← float_or (shock "drawdown_pct") fzero;
  weekly ← float_or (shock "weekly_drawdown_pct") drawdown;
  streak ← streak_of (shock "loss_streak");
  margin ← float_or (shock "margin_peak") fzero;
  r_eff ← float_or (shock "r_eff_peak") fzero;
  hotness ← float_or (shock "corr_hotness") fzero;
  let ks := simulate_losses rm drawdown weekly streak in
  Ok (SResult (scenario_id s) (fround (fdiv_ieee drawdown (of_Z 100)) 4) (fround (fsub (of_Z 100) drawdown) 2) (fround margin 4) (fround r_eff 4)
    (simulate_capital capital_warn capital_halt margin) ks ["normal"; if truthy ks then "guarded" else "normal"]
    (Some ("corr_state=" +:+ simulate_correlation corr_threshold hotness))).

Definition build_thresholds (policy : pyval) : res dict :=
  let get v k := match v with VDict d => dget k d | _ => VDict [] end in
  let risk_limits := get policy "risk_limits" in
  let drawdown := get (get policy "kill_switch") "drawdown_threshold_pct" in
  d ← vget drawdown "daily"; d ← float_or d (of_dec 25 (-1));
  w ← vget drawdown "weekly"; w ← float_or w (of_Z 5);
  m ← vget risk_limits "margin_warn"; m ← float_or m (of_dec 45 (-2));
  t ← vget risk_limits "margin_throttle"; t ← float_or t (of_dec 6 (-1));
  let share x k p := VFloat (fround (fmul x (of_dec k (-2))) p) in
  Ok [("daily_loss", share d 90 2); ("weekly_loss", share w 90 2); ("margin_warn", share m 95 3); ("margin_throttle", share t 95 3);
    ("corr_hotness", VFloat (of_dec 85 (-2)))].

(** The lab: what it has written is in the world, but for the envelope files. *)
Record MarginStressLab := Lab { envelope_files : list (string * dict); lab_world : world }.

#[export] Instance lab_has_world : HasWorld MarginStressLab.
Proof. refine {| wget := lab_world; wset w s := Lab (envelope_files s) w |}; by intros; try destruct s. Defined.

Section lab.
Context `{Env}.
Variables policy_file presets_file : document.

Definition append_record (path : string) (payload : dict) : M MarginStressLab unit :=
  ts ← utcnow_iso;
  append_jsonl path (VDict (dupdate [("ts", VStr ts)] payload)).

Definition build_envelope (policy : pyval) (results : list StressResult) (profile : string) : M MarginStressLab RiskEnvelope :=
  recommended ← lift (build_thresholds policy);
  ts ← utcnow_iso;
  mret (Envelope profile ts [("scenarios", VList (map (VDict ∘ result_to_dict) results))] recommended []).

Definition run (bundle : StressInputBundle) (scenarios : list StressScenario) (profile actor runbook_ref : string)
    : M MarginStressLab StressCampaignResult :=
  policy ← lift (load_policy policy_file profile);
  rm ← lift (from_policy (default None policy_file) profile None);
  results ← lift (mapM_res (run_scenario rm) scenarios);
  envelope ← build_envelope policy results profile;
  _ ← append_record DEFAULT_AUDIT_LOG [("event", VStr "audit.margin_stress_run"); ("actor", VStr actor); ("profile", VStr profile);
    ("runbook_ref", VStr runbook_ref); ("scenarios", vtexts (map scenario_id scenarios)); ("input_bundle", VDict (bundle_to_dict bundle))];
  mret (Campaign results envelope).

Definition scenario_count (e : RiskEnvelope) : Z :=
  match dget_or "scenarios" (VList []) (primary_metrics e) with VList l => Z.of_nat (length l) | _ => 0 end.

Definition publish (e : RiskEnvelope) (actor runbook_ref : string) : M MarginStressLab string :=
  now ← now_utc;
  let stamp := yyyymmdd now in
  let path := "reports/risk/envelopes/envelope_" +:+ stamp +:+ ".yaml" in
  _ ← modify (λ s, Lab (dset path (envelope_to_dict e) (envelope_files s)) (lab_world s));
  _ ← append_record DEFAULT_METRICS_PATH [("run_id", VStr stamp); ("actor", VStr actor); ("runbook_ref", VStr runbook_ref);
    ("recommended_thresholds", VDict (recommended_thresholds e)); ("scenario_count", VInt (scenario_count e))];
  _ ← append_record DEFAULT_AUDIT_LOG [("event", VStr "audit.margin_stress_published"); ("actor", VStr actor); ("profile", VStr (profile e));
    ("runbook_ref", VStr runbook_ref); ("envelope_path", VStr path)];
  mret path.
End lab.

(** * The prediction and the live manager *)

(** The snapshot a scenario stands for: its drawdowns, nothing else. *)
Definition drawdowns (d w : float) : RiskSnapshot := Snapshot d w None None None None None.

Lemma live_stop rm d w n : n < 5 → fst <$> (guard_rails rm (drawdowns d w)).2 = simulate_losses rm d w n.
Proof.
  intros Hn. unfold guard_rails, simulate_losses. cbn. rewrite (proj2 (Z.leb_gt 5 n)) by done.
  by destruct (fgeb w _), (fgeb d _).
Qed.

(** C17. What the lab predicts for a scenario with a loss streak below five is what
    the live risk manager does: evaluated at the drawdowns of the scenario it returns
    the same kill-switch suggestion, and a ticket decided with that assessment runs on
    the board mode the path of the scenario ends in. *)
Theorem lab_predicts_live_manager `{Env} rm s r m : run_scenario rm s = Ok r → reduce_only_advisor rm = None →
  (∀ n, streak_of (dget "loss_streak" (shock_profile s)) = Ok n → n < 5) →
  ∃ d w a m', float_or (dget "drawdown_pct" (shock_profile s)) fzero = Ok d ∧ float_or (dget "weekly_drawdown_pct" (shock_profile s)) d = Ok w ∧
    evaluate rm (drawdowns d w) m = (Ok a, m') ∧ kill_switch_suggestion a = kill_switch r ∧
    last (board_mode_path r) = Some (d_board_mode (ticket_decision rm None (Some a) (Some "normal") None)).
Proof.
  intros Hr Ha Hn. unfold run_scenario in Hr. apply bind_ok in Hr as (d & Ed & Hr). apply bind_ok in Hr as (w & Ew & Hr).
  apply bind_ok in Hr as (n & En & Hr). repeat (apply bind_ok in Hr as (? & _ & Hr)). injection Hr as <-. specialize (Hn n En).
  assert (∃ ks m', evaluate rm (drawdowns d w) m = (Ok (Assessment (Risk false VNone (vopt_str (fst <$> ks)) (vopt_str (snd <$> ks))) (fst <$> ks) (snd <$> ks) None), m') ∧
    fst <$> ks = simulate_losses rm d w n) as (ks & m' & E & Hks).
  { unfold evaluate. rewrite <- (live_stop rm d w n Hn). destruct (guard_rails rm (drawdowns d w)) as [[ro ror] ks] eqn:Eg.
    assert (ro = false ∧ ror = None) as [-> ->] by (revert Eg; unfold guard_rails; cbn; by intros [= <- <- _]). exists ks. cbn [funding_rate drawdowns].
    assert (match funding_curve rm with Some c => None | None => None end = None (A:=float)) as Hf by by destruct (funding_curve rm).
    destruct ks as [[level reason]|]; cbn [when fst snd fmap option_fmap option_map].
    - match goal with |- context [raise_condition ?l ?a ?b ?c ?e] => destruct (raise_condition_spec l a b c e m) as (Hok & _ & _) end.
      rewrite bind_run. destruct (raise_condition _ _ _ _ _ m) as [res m']. cbn in Hok. subst res. exists m'. cbn. by destruct (funding_curve rm).
    - exists m. cbn. by destruct (funding_curve rm). }
  eexists d, w, _, m'. split_and!; [exact Ed|exact Ew|exact E|exact Hks|]. cbn [board_mode_path last]. f_equal.
  unfold ticket_decision, evaluate_reduce_only_advisor. rewrite Ha, Hks. unfold simulate_losses.
  cbn. destruct (fgeb w _); [done|]. destruct (fgeb d _); [done|]. by rewrite (proj2 (Z.leb_gt 5 n)).
Qed.

(** * Runs *)

Definition sample_policy : document := Some (Some (VDict [("profiles", VDict [("m1_baseline", VDict [
  ("risk_limits", VDict [("exposure_r_eff_soft_stop", VFloat (of_Z 2)); ("exposure_r_eff_hard_stop", VFloat (of_dec 25 (-1)))]);
  ("kill_switch", VDict [("drawdown_threshold_pct", VDict [("daily", VFloat (of_dec 25 (-1))); ("weekly", VFloat (of_Z 5))])])])])])).
Definition preset (id : string) (drawdown r_eff streak : Z) : pyval := VDict [("id", VStr id); ("shock_profile", VDict [
  ("drawdown_pct", VInt drawdown); ("r_eff_peak", VInt r_eff); ("loss_streak", VInt streak); ("margin_peak", VFloat (of_dec 72 (-2)))])].
Definition sample_presets : document := Some (Some (VDict [("presets", VList [preset "crash" 6 2 4; preset "" 1 1 1; preset "calm" 1 3 1; preset "grind" 1 1 6])])).
Definition sample_lab : MarginStressLab := Lab [] world0.
Definition no_bundle : StressInputBundle := Bundle None None None None None None.
Definition sample_manager : RiskManager := Manager (of_dec 25 (-1)) (of_dec 50 (-1)) (of_Z 2) (of_dec 25 (-1)) (of_Z 80) None None.
Definition sample_scenario (id : string) (drawdown r_eff streak : Z) : StressScenario :=
  Scenario id "historical" (match preset id drawdown r_eff streak with VDict d => as_dict_or_empty (dget "shock_profile" d) | _ => [] end) VNone None [].

(** What a campaign predicts: the kill switch and the transition of each scenario. *)
Definition predictions `{Env} (selected : list string) : res (list (string * option string * string)) :=
  l ← generate_scenarios sample_presets selected;
  c ← (run sample_policy no_bundle l "m1_baseline" "ops" "RUN-RISK-01" sample_lab).1;
  Ok (map (λ r, (r_scenario r, kill_switch r, capital_guard_transition r)) (scenario_results c)).

Example campaign_of_all : let _ := sample_env in predictions [] =
  Ok [("crash", Some "soft_stop", "throttle"); ("calm", None, "throttle"); ("grind", Some "soft_stop", "throttle")].
Proof. vm_compute. reflexivity. Qed.

Example nothing_selected : let _ := sample_env in predictions ["unknown"] = Raise (StressPolicyError "no stress presets selected").
Proof. vm_compute. reflexivity. Qed.

Lemma lab_predicts_live_manager_witness : let _ := sample_env in ∃ r, run_scenario sample_manager (sample_scenario "crash" 6 2 4) = Ok r ∧
  ∃ d w a m', float_or (dget "drawdown_pct" (shock_profile (sample_scenario "crash" 6 2 4))) fzero = Ok d ∧
    float_or (dget "weekly_drawdown_pct" (shock_profile (sample_scenario "crash" 6 2 4))) d = Ok w ∧
    evaluate sample_manager (drawdowns d w) (monitor0 world0) = (Ok a, m') ∧ kill_switch_suggestion a = kill_switch r ∧
    last (board_mode_path r) = Some (d_board_mode (ticket_decision sample_manager None (Some a) (Some "normal") None)).
Proof.
  intros env. destruct (run_scenario sample_manager (sample_scenario "crash" 6 2 4)) as [r|e] eqn:E; [|vm_compute in E; discriminate E].
  exists r. split; [reflexivity|]. apply (lab_predicts_live_manager sample_manager (sample_scenario "crash" 6 2 4) r (monitor0 world0) E); [reflexivity|].
  intros n En. vm_compute in En. injection En as <-. reflexivity.
Defined.

(** The lab does not look at the exposure of a scenario: at 3 R effective the live
    manager suggests a hard stop, the lab predicts none. *)
Example lab_ignores_exposure : let _ := sample_env in
  kill_switch <$> run_scenario sample_manager (sample_scenario "calm" 1 3 1) = Ok None ∧
  fst <$> (guard_rails sample_manager (Snapshot (of_Z 1) (of_Z 1) None (Some (of_Z 3)) None None None)).2 = Some "hard_stop".
Proof. split; vm_compute; reflexivity. Qed.

(** Five losses in a row stop the lab; the live manager has no such rule. *)
Example streak_is_lab_only : let _ := sample_env in
  kill_switch <$> run_scenario sample_manager (sample_scenario "grind" 1 1 6) = Ok (Some "soft_stop") ∧
  (guard_rails sample_manager (drawdowns (of_Z 1) (of_Z 1))).2 = None.
Proof. split; vm_compute; reflexivity. Qed.
