(* ===== verification/Bridge.v ===== *)
(** The evidence log of [src/execution/bridge.py]: a metrics record, a report per
    day, and for a breach a health condition and a work-log entry. *)

From S2P Require Import Prelude PyFloat PyVal PyEnv Health.

Local Open Scope Z_scope.
Local Open Scope py_scope.

Definition DEFAULT_METRICS_PATH : string := "metrics/execution_bridge.jsonl".
Definition OPS_WORKLOG_PATH : string := "ops_worklog.jsonl".
Definition LATENCY_WARN_THRESHOLD_MS : float := of_Z 350.
Definition ERROR_RATE_WARN_THRESHOLD : float := of_dec 1 (-2).

Definition ExecutionBridgeLogError (msg : string) : exn := OtherError "ExecutionBridgeLogError" msg.

Record ExecutionBridgeRecord := BridgeRecord { b_timestamp : string; b_mode : string; b_broker : string; b_stage : string; b_session_id : string;
  b_latency_ms : float; b_error_rate : float; b_decision : string; b_notes : option string; b_metrics_path : string; b_report_path : string }.

Definition record_to_mapping (r : ExecutionBridgeRecord) : dict := [
  ("timestamp", VStr (b_timestamp r)); ("mode", VStr (b_mode r)); ("broker", VStr (b_broker r)); ("stage", VStr (b_stage r));
  ("session_id", VStr (b_session_id r)); ("latency_ms", VFloat (b_latency_ms r)); ("error_rate", VFloat (b_error_rate r));
  ("stage_guard_decision", VStr (b_decision r)); ("notes", vopt_str (b_notes r)); ("metrics_path", VStr (b_metrics_path r));
  ("report_path", VStr (b_report_path r))].

(** What is reported. *)
Record Measure := MkMeasure { m_mode : string; m_broker : string; m_stage : string; m_session : string; m_latency : float; m_errors : float;
  m_decision : string; m_notes : option string }.

(** [f"{x:.2%}"]: two decimals of a hundred times the exact value, ties to even. *)
Definition percent2 (x : float) : string :=
  match x with
  | S754_zero s => if s then "-0.00%" else "0.00%"
  | S754_infinity s => if s then "-inf%" else "inf%"
  | S754_nan => "nan%"
  | S754_finite s m e =>
      match fmul x (of_Z 100) with
      | S754_finite _ m' e' =>
          let '(n, d) := ratio_of m' e' in
          let q := div_half_even (n * 100) d in
          (if s then "-" else "") +:+ pretty (q / 100) +:+ "." +:+ pad2 (q mod 100) +:+ "%"
      | S754_zero _ => if s then "-0.00%" else "0.00%"
      | _ => if s then "-inf%" else "inf%"
      end
  end.

Definition metrics_entry (ts : string) (m : Measure) (breach : bool) : dict := [
  ("timestamp", VStr ts); ("mode", VStr (m_mode m)); ("broker", VStr (m_broker m)); ("stage", VStr (m_stage m)); ("session_id", VStr (m_session m));
  ("latency_ms", VFloat (m_latency m)); ("error_rate", VFloat (m_errors m)); ("decision", VStr (m_decision m)); ("notes", vopt_str (m_notes m));
  ("latency_warn_threshold_ms", VFloat LATENCY_WARN_THRESHOLD_MS); ("error_rate_warn_threshold", VFloat ERROR_RATE_WARN_THRESHOLD);
  ("breach", VBool breach)].

Definition report_lines (date : datetime) (ts : string) (m : Measure) : list string := [
  "# Execution Bridge Evidence — " +:+ iso_date date; "";
  "- Generated At: " +:+ ts; "- Mode: " +:+ m_mode m; "- Broker: " +:+ m_broker m; "- StageGuard Stage: " +:+ m_stage m;
  "- Session ID: " +:+ m_session m; ""; "## Metrics"; ""; "- Latency p95 (ms): " +:+ frepr (m_latency m);
  "- Error Rate: " +:+ percent2 (m_errors m); ""; "## StageGuard Exercise"; ""; "- Decision: " +:+ m_decision m;
  "- Notes: " +:+ (default "" (m_notes m) or? "n/a"); ""; "## Actions"; "";
  "- Capture CLI logs and attach to RUN-BROKER-01 evidence bundle.";
  "- Update ops_worklog task `profit_readiness` if latency > 350ms or error_rate > 1%."; ""].

(** The report files by path, and the world. *)
Record Bridge := MkBridge { reports : list (string * list string); bridge_world : world }.

#[export] Instance bridge_has_world : HasWorld Bridge.
Proof. refine {| wget := bridge_world; wset w s := MkBridge (reports s) w |}; by intros; try destruct s. Defined.

Section bridge.
Context `{Env}.

(** The outcome of the next guarded file operation. *)
Definition io_step : M Bridge bool := λ s,
  let w := wget s in (Ok (io_ok_at (w_io w)), wset (World (w_tick w) (w_uuid w) (S (w_io w)) (w_out w)) s).

Definition report_path (date : datetime) : string := "reports/execution/live_bridge_" +:+ yyyymmdd date +:+ ".md".

Definition render_report (ts : string) (m : Measure) (date : datetime) : M Bridge string :=
  ok ← io_step;
  if ok : bool then
    _ ← modify (λ s, MkBridge (dset (report_path date) (report_lines date ts m) (reports s)) (bridge_world s));
    mret (report_path date)
  else raise (ExecutionBridgeLogError "Unable to write report into reports/execution").

(** The condition is raised on a monitor of its own, of which only the event log
    stays. *)
Definition raise_execution_bridge_warning (ts : string) (m : Measure) : M Bridge unit :=
  _ ← zoom (λ _, monitor0 world0) (λ _ s, s) (raise_condition "warn" "execution_bridge_latency"
    (Some ("latency_ms=" +:+ frepr (m_latency m) +:+ ",error_rate=" +:+ frepr (m_errors m))) (Some "runbook:RUN-BROKER-01#bridge_latency") false);
  append_jsonl OPS_WORKLOG_PATH (VDict [("timestamp", VStr ts); ("task", VStr "execution_bridge_latency"); ("mode", VStr (m_mode m));
    ("broker", VStr (m_broker m)); ("stage", VStr (m_stage m)); ("session_id", VStr (m_session m)); ("latency_ms", VFloat (m_latency m));
    ("error_rate", VFloat (m_errors m)); ("decision", VStr (m_decision m)); ("runbook_ref", VStr "RUN-BROKER-01")]).

Definition log_execution_bridge (m : Measure) (date : option datetime) : M Bridge ExecutionBridgeRecord :=
  ts ← utcnow_iso;
  let breach := fgtb (m_latency m) LATENCY_WARN_THRESHOLD_MS || fgtb (m_errors m) ERROR_RATE_WARN_THRESHOLD in
  ok ← try_append_jsonl DEFAULT_METRICS_PATH (VDict (metrics_entry ts m breach));
  if ok : bool then
    date ← (match date with Some d => mret d | None => now_utc end);
    path ← render_report ts m date;
    _ ← when breach (raise_execution_bridge_warning ts m);
    mret (BridgeRecord ts (m_mode m) (m_broker m) (m_stage m) (m_session m) (m_latency m) (m_errors m) (m_decision m) (m_notes m)
      DEFAULT_METRICS_PATH path)
  else raise (ExecutionBridgeLogError ("Unable to append metrics to " +:+ DEFAULT_METRICS_PATH)).

(** * What is logged *)

(** The records on a path. *)
Definition on_path (path : string) (s : Bridge) : list pyval := map snd (List.filter (λ r : string * pyval, String.eqb r.1 path) (w_out (bridge_world s))).

Definition breach_of (m : Measure) : bool := fgtb (m_latency m) LATENCY_WARN_THRESHOLD_MS || fgtb (m_errors m) ERROR_RATE_WARN_THRESHOLD.

Lemma on_path_app path w w' l : w_out (bridge_world w') = w_out (bridge_world w) ++ l →
  on_path path w' = on_path path w ++ map snd (List.filter (λ r : string * pyval, String.eqb r.1 path) l).
Proof. intros E. unfold on_path. by rewrite E, List.filter_app, map_app. Qed.

Lemma warning_run ts m s : ∃ l x s', raise_execution_bridge_warning ts m s = (Ok tt, s') ∧ reports s' = reports s ∧
  w_out (bridge_world s') = w_out (bridge_world s) ++ l ++ [(OPS_WORKLOG_PATH, x)] ∧ Forall (λ r, r.1 = DEFAULT_HEALTH_EVENT_LOG) l.
Proof.
  unfold raise_execution_bridge_warning. rewrite bind_run, zoom_run.
  match goal with |- context [raise_condition ?l ?a ?b ?c ?e ?t] =>
    assert (∃ t' l', raise_condition l a b c e t = (Ok tt, t') ∧ w_out (hm_world t') = w_out (hm_world t) ++ l' ∧
      Forall (λ r, r.1 = DEFAULT_HEALTH_EVENT_LOG) l') as (t' & l' & -> & Hw & Hl) end.
  { unfold raise_condition, emit_health_event, now_utc, try_append_jsonl, gets, modify, mbind, M_bind. cbn -[merge_status map_level].
    destruct (io_ok_at _); eexists _, _; (split; [reflexivity|]); cbn; [split; [reflexivity|by repeat constructor]|].
    split; [by rewrite app_nil_r|constructor]. }
  cbn [fst snd]. exists l', (VDict [("timestamp", VStr ts); ("task", VStr "execution_bridge_latency"); ("mode", VStr (m_mode m));
    ("broker", VStr (m_broker m)); ("stage", VStr (m_stage m)); ("session_id", VStr (m_session m)); ("latency_ms", VFloat (m_latency m));
    ("error_rate", VFloat (m_errors m)); ("decision", VStr (m_decision m)); ("runbook_ref", VStr "RUN-BROKER-01")]).
  eexists. split; [reflexivity|]. split; [done|]. split; [|done]. cbn in *. by rewrite Hw, <- (assoc_L (++)).
Qed.

Lemma try_append_run path v s : ∃ ok s', try_append_jsonl path v s = (Ok ok, s') ∧ reports s' = reports s ∧
  w_out (bridge_world s') = w_out (bridge_world s) ++ if ok then [(path, v)] else [].
Proof. unfold try_append_jsonl. destruct (io_ok_at _); eexists _, _; (split; [reflexivity|]); cbn; by rewrite ?app_nil_r. Qed.

Lemma io_step_run s : ∃ ok s', io_step s = (Ok ok, s') ∧ reports s' = reports s ∧ w_out (bridge_world s') = w_out (bridge_world s).
Proof. by eexists _, _. Qed.

(** A measure is refused with at most its metrics record written, or it is logged:
    one metrics record, the report of its day, and one work-log entry exactly when
    the latency is above 350 ms or the error rate above one percent. *)
Theorem log_is_complete m date s :
  (∃ msg s', log_execution_bridge m date s = (Raise (ExecutionBridgeLogError msg), s') ∧ reports s' = reports s ∧
    on_path OPS_WORKLOG_PATH s' = on_path OPS_WORKLOG_PATH s) ∨
  (∃ r s' ts, log_execution_bridge m date s = (Ok r, s') ∧
    on_path DEFAULT_METRICS_PATH s' = on_path DEFAULT_METRICS_PATH s ++ [VDict (metrics_entry ts m (breach_of m))] ∧
    (∃ d, dlookup (b_report_path r) (reports s') = Some (report_lines d ts m)) ∧
    length (on_path OPS_WORKLOG_PATH s') = (length (on_path OPS_WORKLOG_PATH s) + (if breach_of m then 1 else 0))%nat).
Proof.
  unfold log_execution_bridge. rewrite bind_run. unfold utcnow_iso. rewrite bind_run. cbn [now_utc mret M_ret].
  match goal with |- context [(_ ≫= _) ?t] => set (s0 := t) end. set (ts := iso_z _). fold (breach_of m). rewrite bind_run.
  destruct (try_append_run DEFAULT_METRICS_PATH (VDict (metrics_entry ts m (breach_of m))) s0) as (ok & s1 & -> & Hr1 & Hw1).
  change (reports s0) with (reports s) in Hr1. change (w_out (bridge_world s0)) with (w_out (bridge_world s)) in Hw1. clearbody ts s0.
  destruct ok; [|left; eexists _, s1; split; [reflexivity|]; unfold on_path; by rewrite Hr1, Hw1, app_nil_r].
  rewrite bind_run.
  assert (∃ d s2, match date with Some d => mret d | None => now_utc end s1 = (Ok d, s2) ∧ reports s2 = reports s1 ∧
    w_out (bridge_world s2) = w_out (bridge_world s1)) as (d & s2 & -> & Hr2 & Hw2) by (destruct date as [d|]; by eexists _, _).
  rewrite bind_run. unfold render_report. rewrite bind_run. destruct (io_step_run s2) as (ok & s2' & -> & Hr2' & Hw2').
  destruct ok.
  2: { left. eexists _, s2'. split; [reflexivity|]. split; [congruence|]. unfold on_path. by rewrite Hw2', Hw2, Hw1, List.filter_app, app_nil_r. }
  right. rewrite bind_run. cbn [modify mret M_ret]. rewrite bind_run. match goal with |- context [when _ _ ?t] => set (s3 := t) end.
  assert (w_out (bridge_world s3) = w_out (bridge_world s1) ∧ dlookup (report_path d) (reports s3) = Some (report_lines d ts m)) as [Hw3 Hr3].
  { cbn. split; [congruence|]. by rewrite dlookup_dset_eq. }
  clearbody s3. rewrite Hw1 in Hw3. destruct (breach_of m) eqn:Eb; cbn [when].
  - destruct (warning_run ts m s3) as (l & x & s4 & -> & Hr4 & Hw4 & Hl). eexists _, s4, ts. split; [reflexivity|]. rewrite Hw3, <- (assoc_L (++)) in Hw4.
    assert (∀ p, p ≠ DEFAULT_HEALTH_EVENT_LOG → List.filter (λ r : string * pyval, String.eqb r.1 p) l = []) as Hp.
    { intros p Hp. clear -Hl Hp. induction Hl as [|[k v] l Hk Hl IH]; [done|]. cbn in *. subst k. by rewrite (proj2 (String.eqb_neq _ _)). }
    rewrite (on_path_app DEFAULT_METRICS_PATH _ _ _ Hw4), (on_path_app OPS_WORKLOG_PATH _ _ _ Hw4). cbn [List.filter fst].
    rewrite !List.filter_app, !Hp by done. cbn. split_and!; [done|exists d; by rewrite Hr4|]. by rewrite length_app.
  - exists (BridgeRecord ts (m_mode m) (m_broker m) (m_stage m) (m_session m) (m_latency m) (m_errors m) (m_decision m) (m_notes m)
      DEFAULT_METRICS_PATH (report_path d)), s3, ts. split; [done|].
    rewrite (on_path_app DEFAULT_METRICS_PATH _ _ _ Hw3), (on_path_app OPS_WORKLOG_PATH _ _ _ Hw3). cbn.
    split_and!; [done|by exists d|]. by rewrite app_nil_r, Nat.add_0_r.
Qed.
End bridge.

(** A second report of a day replaces the first one. *)
Definition sample_measure (latency : Z) : Measure := MkMeasure "live" "mt5" "tiny_live" "S1" (of_Z latency) fzero "promote" None.
Definition sample_day : option datetime := Some (DateTime 2026 3 20 0 0 0 0 None).
Example second_report_replaces : let _ := sample_env in
  length (reports (log_execution_bridge (sample_measure 20) sample_day (log_execution_bridge (sample_measure 900) sample_day (MkBridge [] world0)).2).2) = 1%nat.
Proof. vm_compute. reflexivity. Qed.
