(* ===== verification/Portfolio.v ===== *)
(** The exposure analysis of [src/risk/portfolio_exposure.py]: guard inputs from
    the aggregated account state, the variances against the thresholds, and the
    records and the alert that report them. *)

From S2P Require Import Prelude PyFloat PyVal PyEnv Calendar DataService Failover.

Local Open Scope Z_scope.
Local Open Scope py_scope.

Definition DEFAULT_METRICS_PATH : string := "metrics/accounts_aggregator.jsonl".
Definition DEFAULT_AUDIT_LOG : string := "logs/audit/account_aggregator.jsonl".
Definition DEFAULT_ALERT_LOG : string := "logs/events/alerts.jsonl".
Definition RUNBOOK : string := "runbook:RUN-ACCOUNT-02".

Record GuardInputs := Inputs { total_equity : float; margin_utilization : float; net_r_eff : float; hedge_ratio : float }.
Record PortfolioVariance := Variance { v_kind : string; v_severity : string; v_details : string; detected_at : string; recommended_action : option string }.

Definition inputs_to_dict (i : GuardInputs) : dict := [
  ("total_equity", VFloat (total_equity i)); ("margin_utilization", VFloat (margin_utilization i)); ("net_r_eff", VFloat (net_r_eff i));
  ("hedge_ratio", VFloat (hedge_ratio i))].
Definition variance_to_dict (v : PortfolioVariance) : dict := [
  ("kind", VStr (v_kind v)); ("severity", VStr (v_severity v)); ("details", VStr (v_details v)); ("detected_at", VStr (detected_at v));
  ("recommended_action", vopt_str (recommended_action v))].

(** * Thresholds *)

Definition default_thresholds : list (string * float) := [
  ("margin_utilization_warn", of_dec 45 (-2)); ("margin_utilization_critical", of_dec 6 (-1)); ("hedge_ratio_warn", of_dec 3 (-1));
  ("net_r_eff_warn", of_dec 8 (-1)); ("net_r_eff_critical", of_dec 12 (-1))].

(** A value that is no number is skipped. *)
Fixpoint override (given : dict) (l : list (string * float)) : res (list (string * float)) :=
  match given with
  | [] => Ok l
  | (k, v) :: given =>
      match py_float v with
      | Ok x => override given (dset k x l)
      | Raise (TypeError _) | Raise (ValueError _) => override given l
      | Raise e => Raise e
      end
  end.

Definition load_thresholds (d : document) : res (list (string * float)) :=
  match d with
  | None => Ok default_thresholds
  | Some None => Raise (OtherError "YAMLError" "")
  | Some (Some v) =>
      match (if truthy v then v else VDict []) with
      | VDict p => match dget "thresholds" p with VDict t => override t default_thresholds | _ => Ok default_thresholds end
      | _ => Ok default_thresholds
      end
  end.

Definition threshold (k : string) (l : list (string * float)) : float := default fzero (dlookup k l).

(** * The analysis *)

(** [float(state.get(key) or 0.0)] *)
Definition number (key : string) (state : dict) : res float := py_float (dget key state or? VFloat fzero).

Definition compute_guard_inputs (state : dict) : res GuardInputs :=
  equity ← number "total_equity" state;
  margin ← py_float (dget "total_margin_used" state or? dget "total_margin" state or? VFloat fzero);
  utilization ← (if truthy equity then fdiv margin equity else Ok fzero);
  r ← number "r_eff_total" state;
  h ← number "hedge_ratio" state;
  Ok (Inputs equity utilization r h).

(** The severity of a measure with a warning and perhaps a critical threshold. *)
Definition grade (x : float) (critical : option float) (warn : float) : option string :=
  if match critical with Some c => fgeb x c | None => false end then Some "critical" else if fgeb x warn then Some "warn" else None.

Definition measures (i : GuardInputs) (t : list (string * float)) : list (string * float * option string) := [
  ("margin_utilization", margin_utilization i,
    grade (margin_utilization i) (Some (threshold "margin_utilization_critical" t)) (threshold "margin_utilization_warn" t));
  ("hedge_ratio", hedge_ratio i, grade (hedge_ratio i) None (threshold "hedge_ratio_warn" t));
  ("net_r_eff", net_r_eff i, grade (net_r_eff i) (Some (threshold "net_r_eff_critical" t)) (threshold "net_r_eff_warn" t))].

(** [sorted({v.severity for v in variances})] *)
Definition severities (l : list PortfolioVariance) : list string :=
  List.filter (λ s, str_in s (map v_severity l)) ["critical"; "warn"].

Section analyzer.
Context `{Env} {S : Type} `{HasWorld S}.
Variable getenv : string → option string.
Variable smtp : email → option string.
Variable thresholds : list (string * float).

Fixpoint variances (l : list (string * float * option string)) : M S (list PortfolioVariance) :=
  match l with
  | [] => mret []
  | (kind, x, None) :: l => variances l
  | (kind, x, Some severity) :: l =>
      ts ← utcnow_iso;
      vs ← variances l;
      mret (Variance kind severity (kind +:+ "=" +:+ ffixed2 x) ts (Some RUNBOOK) :: vs)
  end.

Definition append_record (path : string) (payload : dict) : M S unit :=
  ts ← utcnow_iso;
  append_jsonl path (VDict (dupdate [("ts", VStr ts)] payload)).

Definition detect_variance (state : dict) : M S (list dict) :=
  inputs ← lift (compute_guard_inputs state);
  l ← variances (measures inputs thresholds);
  _ ← (match l with
    | [] => mret tt
    | _ =>
        _ ← append_record DEFAULT_METRICS_PATH [("event", VStr "account_aggregator.variance_detected");
          ("variance_count", VInt (Z.of_nat (length l))); ("severity", VList (VStr <$> severities l))];
        _ ← append_record DEFAULT_AUDIT_LOG [("event", VStr "account_aggregator.variance_detected")];
        dispatch_alert getenv smtp DEFAULT_ALERT_LOG (Some "warning") (Some "account_aggregator variance detected") None false
    end);
  mret (map variance_to_dict l).
End analyzer.

(** * What is detected *)

(** The variances with the time of detection left out. *)
Definition found (l : list PortfolioVariance) : list (string * string * string) := map (λ v, (v_kind v, v_severity v, v_details v)) l.

(** The kinds and severities that the thresholds ask for. *)
Definition expected (l : list (string * float * option string)) : list (string * string * string) :=
  omap (λ m : string * float * option string, (λ s, (m.1.1, s, m.1.1 +:+ "=" +:+ ffixed2 m.1.2)) <$> m.2) l.

Lemma variances_run `{Env} {S} `{HasWorld S} l (s : S) : ∃ vs s', variances l s = (Ok vs, s') ∧ found vs = expected l ∧ w_out (wget s') = w_out (wget s).
Proof.
  revert s. induction l as [|[[k x] [sev|]] l IH]; intros s; cbn [variances]; [by exists [], s| |].
  - unfold utcnow_iso. rewrite bind_run, bind_run. cbn [now_utc mret M_ret].
    destruct (IH (wset (World (1 + w_tick (wget s)) (w_uuid (wget s)) (w_io (wget s)) (w_out (wget s))) s)) as (vs & s' & E & Hf & Hw).
    eexists _, s'. rewrite bind_run, E. split; [reflexivity|]. cbn. split; [by f_equal|]. by rewrite Hw, wget_wset.
  - destruct (IH s) as (vs & s' & E & Hf & Hw). exists vs, s'. by split_and!.
Qed.

Lemma append_record_run `{Env} {S} `{HasWorld S} path d (s : S) : ∃ v s', append_record path d s = (Ok tt, s') ∧
  w_out (wget s') = w_out (wget s) ++ [(path, v)].
Proof.
  unfold append_record, utcnow_iso. rewrite bind_run, bind_run. cbn [now_utc mret M_ret]. eexists _, _. split; [reflexivity|].
  by rewrite !wget_wset.
Qed.

(** An analysis returns one variance per measure at or above a threshold, critical
    before warning, in the order margin, hedge, net exposure; with none nothing is
    written, otherwise one metrics record, one audit record and one alert. *)
Theorem variances_reported `{Env} {S} `{HasWorld S} getenv smtp t state i (s : S) :
  compute_guard_inputs state = Ok i → smtp_configured getenv = false →
  ∃ vs s' out, detect_variance getenv smtp t state s = (Ok (map variance_to_dict vs), s') ∧ found vs = expected (measures i t) ∧
    w_out (wget s') = w_out (wget s) ++ out ∧
    map fst out = match vs with [] => [] | _ => [DEFAULT_METRICS_PATH; DEFAULT_AUDIT_LOG; DEFAULT_ALERT_LOG] end.
Proof.
  intros Hi Hsmtp. unfold detect_variance. rewrite bind_run, Hi. cbn [lift]. rewrite bind_run.
  destruct (variances_run (measures i t) s) as (vs & s1 & -> & Hf & Hw). rewrite bind_run. destruct vs as [|v vs].
  { exists [], s1, []. rewrite app_nil_r. by split_and!. }
  set (l := v :: vs) in *. rewrite bind_run.
  match goal with |- context [append_record DEFAULT_METRICS_PATH ?d s1] =>
    destruct (append_record_run DEFAULT_METRICS_PATH d s1) as (x1 & s2 & -> & Hw2) end. rewrite bind_run.
  match goal with |- context [append_record DEFAULT_AUDIT_LOG ?d s2] =>
    destruct (append_record_run DEFAULT_AUDIT_LOG d s2) as (x2 & s3 & -> & Hw3) end.
  unfold dispatch_alert, event_to_dict, utcnow_iso. rewrite bind_run. cbn [mret M_ret]. rewrite bind_run, bind_run. cbn [ev_ts truthy truthy_option].
  rewrite bind_run. cbn [now_utc mret M_ret]. rewrite bind_run. cbn [append_jsonl]. rewrite Hsmtp. cbn [mret M_ret].
  eexists l, _, _. split; [reflexivity|]. split; [done|]. rewrite !wget_wset. cbn [w_out]. rewrite Hw3, Hw2, Hw, <- !(assoc_L (++)). by split.
Qed.

(** * A run *)

Definition no_mail (_ : string) : option string := None.
Definition sample_state : dict := [("total_equity", VFloat (of_Z 1000)); ("total_margin_used", VFloat (of_Z 700)); ("hedge_ratio", VFloat (of_dec 1 (-1)));
  ("r_eff_total", VFloat (of_dec 9 (-1)))].

Example sample_variances : let _ := sample_env in
  (λ l, map (λ d, (dget "kind" d, dget "severity" d, dget "details" d)) l) <$>
    (detect_variance no_mail (λ _, None) default_thresholds sample_state world0).1 =
  Ok [(VStr "margin_utilization", VStr "critical", VStr "margin_utilization=0.70"); (VStr "net_r_eff", VStr "warn", VStr "net_r_eff=0.90")].
Proof. vm_compute. reflexivity. Qed.

(** A short exposure has a negative sum, which no threshold catches. *)
Example short_exposure_is_quiet : let _ := sample_env in
  (detect_variance no_mail (λ _, None) default_thresholds [("total_equity", VFloat (of_Z 1000)); ("r_eff_total", VFloat (of_Z (-5)))] world0).1 = Ok [].
Proof. vm_compute. reflexivity. Qed.
