(* ===== verification/Alpha.v ===== *)
(** The alpha overlay: the pulse synthesizer of [src/strategies/alpha_pulse.py], the
    sizing overlay of [src/execution/alpha_overlay.py], the feedback loop of
    [src/analytics/pnl_feedback.py] and the price adjustment of
    [src/execution/adjustments.py]. *)

From S2P Require Import Prelude PyFloat PyVal PyEnv Cost.

Local Open Scope Z_scope.
Local Open Scope py_scope.

(** * Data *)

Record ProfitTargetBand := Band { band_label : string; target_rr : float; band_min_conviction : float; max_hold_minutes : Z; exit_policy : string }.
Record AlphaPulse := Pulse {
  pulse_id : string; pair : string; regime : string; conviction : float; half_life_bars : Z; entry_window_pips : float * float;
  size_band : float * float; reduce_only_hint : bool; pulse_status : string; playbook_hint : option string; protect_levels : option dict;
  profit_targets : list ProfitTargetBand }.
Record AlphaProfile := Profile {
  profile_id : string; risk_budget_pct : float; baseline_edge_bps : float; max_lot : float; min_conviction : float; default_target_band : string;
  playbooks : list string; max_dynamic_adjust_pct : float; profile_notes : option string }.
Record AlphaPulseInputs := PulseInputs {
  in_pair : string; in_regime : string; momentum_score : float; mean_reversion_score : float; macro_score : float; spread_cooldown_factor : float;
  latency_minutes : float; account_equity : float; in_entry_window : float * float; volatility_penalty : float; in_board_mode : string }.

Definition band_to_dict (b : ProfitTargetBand) : dict := [
  ("label", VStr (band_label b)); ("target_rr", VFloat (target_rr b)); ("min_conviction", VFloat (band_min_conviction b));
  ("max_hold_minutes", VInt (max_hold_minutes b)); ("exit_policy", VStr (exit_policy b))].
Definition pair_list (p : float * float) : pyval := VList [VFloat p.1; VFloat p.2].
Definition pulse_to_dict (p : AlphaPulse) : dict := [
  ("pulse_id", VStr (pulse_id p)); ("pair", VStr (pair p)); ("regime", VStr (regime p)); ("conviction", VFloat (conviction p));
  ("half_life_bars", VInt (half_life_bars p)); ("entry_window_pips", pair_list (entry_window_pips p)); ("size_band", pair_list (size_band p));
  ("reduce_only_hint", VBool (reduce_only_hint p)); ("status", VStr (pulse_status p)); ("playbook_hint", vopt_str (playbook_hint p));
  ("protect_levels", match protect_levels p with Some d => if truthy d then VDict d else VNone | None => VNone end);
  ("profit_targets", VList (map (VDict ∘ band_to_dict) (profit_targets p)))].

(** * The pulse *)

Definition clamp_unit (x : float) : float := fmax fzero (fmin (of_Z 1) x).
Definition clamp_ratio (x maximum : float) : float := fmax fzero (fmin maximum x).

Definition normalize_regime (regime : string) : string :=
  if str_in regime ["trending"; "trend"] then "trend" else if str_in regime ["ranging"; "range"] then "range" else regime or? "unknown".

Definition weight (k : string) (weights : list (string * float)) : float := default fzero (dlookup k weights).

Definition conviction_score (i : AlphaPulseInputs) (weights : list (string * float)) (spread_weight latency_per_min : float) : float :=
  let term k score := fmul (weight k weights) (clamp_unit score) in
  let weighted := fadd (fadd (term "momentum" (momentum_score i)) (term "mean_reversion" (mean_reversion_score i))) (term "macro" (macro_score i)) in
  let penalty_spread := fmul (fmax fzero (spread_cooldown_factor i)) spread_weight in
  let penalty_latency := fmul (fmax fzero (latency_minutes i)) latency_per_min in
  clamp_unit (fsub (fsub weighted penalty_spread) penalty_latency).

Definition board_factor (board_mode : string) : float :=
  default (of_Z 1) (dlookup board_mode [("normal", of_Z 1); ("guarded", of_dec 6 (-1)); ("halted", fzero)]).

(** The band before its ends are rounded to six digits. *)
Definition size_max (i : AlphaPulseInputs) (p : AlphaProfile) (c : float) : float :=
  let penalty := clamp_ratio (volatility_penalty i) (of_dec 4 (-1)) in
  let base := fmul (fmul (fmul (account_equity i) (risk_budget_pct p)) c) (fsub (of_Z 1) penalty) in
  let base := fmax fzero base in
  fmax fzero (fmul (fmin (max_lot p) base) (board_factor (in_board_mode i))).

Definition size_band_of (i : AlphaPulseInputs) (p : AlphaProfile) (c : float) : float * float :=
  let m := size_max i p c in (fround (fmul m (of_dec 5 (-1))) 6, fround m 6).

(** * Profiles *)

Definition load_yaml (d : document) : res pyval :=
  match d with
  | None => Ok (VDict [])
  | Some None => Raise (OtherError "YAMLError" "")
  | Some (Some v) => Ok (if truthy v then v else VDict [])
  end.

Definition ensure_list (value : pyval) : list string :=
  match value with
  | VList l => map py_str (List.filter (λ v, match v with VNone => false | _ => true end) l)
  | VNone => []
  | v => [py_str v]
  end.

Definition load_profile (d : document) (path profile_id : string) : res AlphaProfile :=
  payload ← load_yaml d;
  profiles ← vget payload "profiles";
  match profiles with
  | VDict ps =>
      match dget profile_id ps with
      | VDict raw =>
          let number k := py_float (dget_or k (VFloat fzero) raw) in
          budget ← number "risk_budget_pct";
          edge ← number "baseline_edge_bps";
          lot ← number "max_lot";
          conv ← number "min_conviction";
          adjust ← number "max_dynamic_adjust_pct";
          Ok (Profile profile_id budget edge lot conv (py_str (dget_or "default_target_band" (VStr "") raw)) (ensure_list (dget "playbooks" raw))
            adjust (if truthy (dget "notes" raw) then Some (py_str (dget "notes" raw)) else None))
      | _ => Raise (ValueError ("alpha profile not found: " +:+ profile_id))
      end
  | _ => Raise (ValueError ("alpha profile file missing profiles: " +:+ path))
  end.

(** * The synthesizer *)

Record AlphaPulseSynthesizer := Synthesizer {
  profile : AlphaProfile; weights : list (string * float); spread_penalty_weight : float; latency_penalty_per_min : float;
  half_life_map : list (string * Z); last_regime : option string; audit_path : option string; syn_world : world }.

#[export] Instance synthesizer_world : HasWorld AlphaPulseSynthesizer.
Proof.
  refine {| wget := syn_world; wset w s := Synthesizer (profile s) (weights s) (spread_penalty_weight s) (latency_penalty_per_min s)
    (half_life_map s) (last_regime s) (audit_path s) w |}; by intros; try destruct s.
Defined.

Definition set_last_regime (r : string) (s : AlphaPulseSynthesizer) : AlphaPulseSynthesizer :=
  Synthesizer (profile s) (weights s) (spread_penalty_weight s) (latency_penalty_per_min s) (half_life_map s) (Some r) (audit_path s) (syn_world s).

Definition default_weights : list (string * float) := [("momentum", of_dec 4 (-1)); ("mean_reversion", of_dec 4 (-1)); ("macro", of_dec 2 (-1))].
Definition default_half_life : list (string * Z) := [("trend", 40); ("range", 20); ("news", 10); ("illiquid", 6); ("unknown", 15)].

Definition synthesizer_init (d : document) (path profile_id : string) (weights : list (string * float)) (spread_weight latency_per_min : float)
    (half_life : list (string * Z)) (audit : option string) (w : world) : res AlphaPulseSynthesizer :=
  p ← load_profile d path profile_id;
  Ok (Synthesizer p (if truthy weights then weights else default_weights) spread_weight latency_per_min
    (if truthy half_life then half_life else default_half_life) None audit w).

Definition resolve_half_life (regime : string) (m : list (string * Z)) : Z :=
  default (default 15 (dlookup "unknown" m)) (dlookup (regime or? "unknown") m).

(** [observe] below 0.15, [reduce_only] below 0.25, else [active]. *)
Definition status_of (c : float) : string :=
  if fltb c (of_dec 15 (-2)) then "observe" else if fltb c (of_dec 25 (-2)) then "reduce_only" else "active".

Section synthesizer.
Context `{Env}.

(** The path of the day when none is given. *)
Definition resolve_audit_path {S} `{HasWorld S} (given : option string) (prefix : string) : M S string :=
  match given with
  | Some p => mret p
  | None => now ← now_utc; mret ("logs/audit/" +:+ prefix +:+ "_" +:+ yyyymmdd now +:+ ".jsonl")
  end.

Definition pulse_audit (p : AlphaPulse) : M AlphaPulseSynthesizer unit :=
  given ← gets audit_path;
  path ← resolve_audit_path given "alpha_pulse";
  ts ← utcnow_iso;
  append_jsonl path (VDict [("event", VStr "audit.alpha_pulse"); ("ts", VStr ts); ("pulse_id", VStr (pulse_id p)); ("pair", VStr (pair p));
    ("regime", VStr (regime p)); ("conviction", VFloat (conviction p)); ("status", VStr (pulse_status p))]).

Definition refresh (i : AlphaPulseInputs) : M AlphaPulseSynthesizer AlphaPulse :=
  s ← get;
  let regime := normalize_regime (in_regime i) in
  let c := conviction_score i (weights s) (spread_penalty_weight s) (latency_penalty_per_min s) in
  let bars := resolve_half_life regime (half_life_map s) in
  let band := size_band_of i (profile s) c in
  id ← fresh_uuid;
  let p := Pulse id (in_pair i) regime c bars (in_entry_window i) band (fltb c (of_dec 25 (-2))) (status_of c) None None [] in
  _ ← modify (set_last_regime regime);
  _ ← pulse_audit p;
  mret p.
End synthesizer.

(** * The overlay *)

Record AlphaOverlayResult := Overlay { size_hint : float; o_max_lot : float; o_reduce_only : bool; o_protect_levels : dict; o_notes : list string }.

Definition overlay_to_dict (o : AlphaOverlayResult) : dict := [
  ("size_hint", VFloat (size_hint o)); ("max_lot", VFloat (o_max_lot o)); ("reduce_only", VBool (o_reduce_only o));
  ("protect_levels", VDict (o_protect_levels o)); ("notes", VList (VStr <$> o_notes o))].

Definition build_protect_levels (rr : option float) (reduce_only : bool) : dict :=
  [("reduce_only_hint", VBool reduce_only)] ++ match rr with Some r => [("target_rr", VFloat r)] | None => [] end.

(** The size before it is rounded to six digits. *)
Definition overlay_size (lot_ladder_factor : float) (p : AlphaPulse) (prof : AlphaProfile) (board_mode : string) (auto_execute : bool) : float :=
  let size := (size_band p).2 in
  let size := if String.eqb board_mode "guarded" then fmul size (of_dec 6 (-1)) else if String.eqb board_mode "halted" then fzero else size in
  let size := if auto_execute && String.eqb board_mode "normal" then fmul size (fmax fzero lot_ladder_factor) else size in
  fmin size (max_lot prof).

Definition overlay_apply (lot_ladder_factor : float) (p : AlphaPulse) (prof : AlphaProfile) (board_mode : string) (kill_switch auto_execute : bool)
    (rr : option float) : AlphaOverlayResult :=
  let ro := reduce_only_hint p || kill_switch || negb (String.eqb board_mode "normal") in
  Overlay (fround (overlay_size lot_ladder_factor p prof board_mode auto_execute) 6) (max_lot prof) ro (build_protect_levels rr ro)
    ((if String.eqb board_mode "guarded" then ["board_mode_guarded"] else if String.eqb board_mode "halted" then ["board_mode_halted"] else []) ++
      if ro then ["reduce_only"] else []).

Record LotLadderRule := Rule { pf_min : option float; sharpe_min : option float; maxdd_max : option float; watchlist_max : option Z; size_factor : float }.

(** What a rule is tested against. *)
Record Track := MkTrack { pf_all : float; sharpe : float; maxdd_pct : float; watchlist : Z }.

Definition below (x : float) (m : option float) : bool := match m with Some m => fltb x m | None => false end.
Definition above (x : float) (m : option float) : bool := match m with Some m => fgtb x m | None => false end.

(** None of the conditions that skip a rule. *)
Definition applies (t : Track) (r : LotLadderRule) : bool :=
  negb (below (pf_all t) (pf_min r)) && negb (below (sharpe t) (sharpe_min r)) && negb (above (maxdd_pct t) (maxdd_max r)) &&
  negb (match watchlist_max r with Some m => m <? watchlist t | None => false end).

Definition ladder_factor (rules : list LotLadderRule) (t : Track) : float :=
  fold_left (λ f r, if applies t r then fmax f (size_factor r) else f) rules (of_Z 1).

Record FeedbackVector := Feedback { realized_rr : float; fb_target_rr : float; max_adverse : option float; max_favorable : option float; slippage_bp : option float }.

(** [spread_penalty > 0.05] or [latency_p95_ms > 350] *)
Definition degraded (spread_penalty latency_p95_ms : option float) : bool :=
  match spread_penalty with Some x => fgtb x (of_dec 5 (-2)) | None => false end ||
  match latency_p95_ms with Some x => fgtb x (of_Z 350) | None => false end.

Definition apply_hands_off_sizing (base_size : float) (board_mode : string) (auto_execute reduce_only : bool) (rules : list LotLadderRule) (t : Track)
    (feedback : option FeedbackVector) (max_adjust : float) (dynamic_enabled : bool) (spread_penalty latency_p95_ms : option float)
    : float * float * bool :=
  if negb auto_execute || reduce_only || negb (String.eqb board_mode "normal") then (base_size, of_Z 1, false)
  else
    let factor := ladder_factor rules t in
    let size := fmul base_size factor in
    match feedback with
    | Some f =>
        if negb dynamic_enabled || degraded spread_penalty latency_p95_ms then (size, factor, false)
        else
          let gap := fsub (realized_rr f) (fb_target_rr f) in
          if fgeb (fabs gap) (of_dec 5 (-1)) then
            let direction := if fgtb gap fzero then of_Z 1 else of_Z (-1) in
            let cap := fmax fzero (fmin max_adjust (of_Z 1)) in
            (fmul size (fmax fzero (fadd (of_Z 1) (fmul cap direction))), factor, true)
          else (size, factor, false)
    | None => (size, factor, false)
    end.

Definition apply_lot_ladder (base_size : float) (board_mode : string) (auto_execute : bool) (rules : list LotLadderRule) (t : Track) : float * float :=
  if negb auto_execute || negb (String.eqb board_mode "normal") then (base_size, of_Z 1)
  else (fmul base_size (ladder_factor rules t), ladder_factor rules t).

(** * The feedback loop *)

Definition apply_dynamic_adjustment (conviction size : float) (f : FeedbackVector) (max_adjust : float) (dynamic_enabled : bool)
    (spread_penalty latency_p95_ms : option float) : float * float * bool :=
  if negb dynamic_enabled || degraded spread_penalty latency_p95_ms then (conviction, size, false)
  else
    let gap := fsub (realized_rr f) (fb_target_rr f) in
    let adjusted delta := (fmin (fmax (fmul conviction (fadd (of_Z 1) delta)) fzero) (of_Z 1), fmul size (fadd (of_Z 1) delta), true) in
    if fgeb gap (of_dec 5 (-1)) then adjusted max_adjust
    else if fleb gap (of_dec (-5) (-1)) then adjusted (fopp max_adjust)
    else (conviction, size, false).

Record ProfitLoopEntry := LoopEntry {
  e_timestamp : string; e_strategy_id : string; e_pair : string; e_pulse_id : option string; e_conviction : float; e_realized_rr : float;
  e_target_rr : float; e_rr_gap : float; e_size_hint : float; e_size_adjust_pct : float; e_applied : bool; e_board_mode : string;
  e_decision_latency_ms : option float; e_feedback_cycle_minutes : option float; e_mode : string; e_spread_penalty : option float;
  e_latency_p95_ms : option float }.

Definition entry_to_dict (e : ProfitLoopEntry) : dict := [
  ("timestamp", VStr (e_timestamp e)); ("strategy_id", VStr (e_strategy_id e)); ("pair", VStr (e_pair e)); ("pulse_id", vopt_str (e_pulse_id e));
  ("conviction", VFloat (e_conviction e)); ("realized_rr", VFloat (e_realized_rr e)); ("target_rr", VFloat (e_target_rr e));
  ("rr_gap", VFloat (e_rr_gap e)); ("size_hint", VFloat (e_size_hint e)); ("size_adjust_pct", VFloat (e_size_adjust_pct e));
  ("dynamic_adjust_applied", VBool (e_applied e)); ("board_mode", VStr (e_board_mode e)); ("decision_latency_ms", vopt_float (e_decision_latency_ms e));
  ("feedback_cycle_minutes", vopt_float (e_feedback_cycle_minutes e)); ("mode", VStr (e_mode e)); ("spread_penalty", vopt_float (e_spread_penalty e));
  ("latency_p95_ms", vopt_float (e_latency_p95_ms e))].

Definition PROFIT_LOOP_METRICS : string := "metrics/profit_loop.jsonl".

Section feedback.
Context `{Env} {S : Type} `{HasWorld S}.

Definition feedback_audit (given : option string) (e : ProfitLoopEntry) : M S unit :=
  path ← resolve_audit_path given "alpha_feedback";
  append_jsonl path (VDict [("event", VStr "audit.alpha_feedback"); ("ts", VStr (e_timestamp e)); ("strategy_id", VStr (e_strategy_id e));
    ("pair", VStr (e_pair e)); ("pulse_id", vopt_str (e_pulse_id e)); ("rr_gap", VFloat (e_rr_gap e)); ("size_adjust_pct", VFloat (e_size_adjust_pct e));
    ("dynamic_adjust_applied", VBool (e_applied e)); ("board_mode", VStr (e_board_mode e)); ("mode", VStr (e_mode e))]).

Definition feedback_record (given : option string) (strategy_id pair : string) (pulse_id : option string) (conviction size : float) (f : FeedbackVector)
    (board_mode : string) (decision_latency_ms feedback_cycle_minutes : option float) (mode : string) (spread_penalty latency_p95_ms : option float)
    (max_adjust : float) (dynamic_enabled : bool) : M S ProfitLoopEntry :=
  let '(c, n, applied) := apply_dynamic_adjustment conviction size f max_adjust dynamic_enabled spread_penalty latency_p95_ms in
  pct ← lift (if truthy size then x ← fdiv n size; Ok (fsub x (of_Z 1)) else Ok fzero);
  ts ← utcnow_iso;
  let e := LoopEntry ts strategy_id pair pulse_id c (realized_rr f) (fb_target_rr f) (fsub (realized_rr f) (fb_target_rr f)) n pct applied board_mode
    decision_latency_ms feedback_cycle_minutes mode spread_penalty latency_p95_ms in
  _ ← append_jsonl PROFIT_LOOP_METRICS (VDict (entry_to_dict e));
  _ ← feedback_audit given e;
  mret e.
End feedback.

(** * The adjusted price *)

Record ExecutionAdjustments := MkAdjustments { slippage_bps : float; spread_bps : float; hitl_latency_sec : float }.

Definition adjusted_price (a : ExecutionAdjustments) (price : float) : float :=
  fmul price (fadd (of_Z 1) (fdiv_ieee (fadd (slippage_bps a) (spread_bps a)) (of_Z 10000))).

(** * Bounds *)

Lemma clamp_unit_bounds x : fleb fzero (clamp_unit x) = true ∧ fleb (clamp_unit x) (of_Z 1) = true.
Proof.
  unfold clamp_unit, fmax, fmin. destruct (fltb x (of_Z 1)) eqn:E1.
  - destruct (fltb fzero x) eqn:E2; split; try done; by apply fltb_fleb_weak.
  - by destruct (fltb fzero (of_Z 1)) eqn:E2.
Qed.

(** Whatever the scores, weights and penalties are, the conviction of a pulse is
    between 0 and 1, its status names the range it is in, and the hint to reduce is
    set exactly below the active range. *)
Theorem pulse_is_classified `{Env} i s : ∃ p s', refresh i s = (Ok p, s') ∧
  fleb fzero (conviction p) = true ∧ fleb (conviction p) (of_Z 1) = true ∧
  pulse_status p = status_of (conviction p) ∧ reduce_only_hint p = negb (String.eqb (pulse_status p) "active") ∧
  regime p = normalize_regime (in_regime i) ∧ last_regime s' = Some (regime p) ∧ size_band p = size_band_of i (profile s) (conviction p).
Proof.
  unfold refresh. rewrite bind_run. cbn [get]. rewrite bind_run. unfold fresh_uuid at 1. cbv beta iota zeta. rewrite bind_run. cbn [modify].
  set (c := conviction_score _ _ _ _). set (p := Pulse _ _ _ _ _ _ _ _ _ _ _ _). rewrite bind_run. match goal with |- context [pulse_audit p ?t] => set (s1 := t) end.
  assert (∃ s2, pulse_audit p s1 = (Ok tt, s2) ∧ last_regime s2 = last_regime s1) as (s2 & -> & Hl).
  { unfold pulse_audit, resolve_audit_path. rewrite bind_run. cbn [gets]. rewrite bind_run. by destruct (audit_path s1); eexists. }
  pose proof (clamp_unit_bounds (fsub (fsub (fadd (fadd (fmul (weight "momentum" (weights s)) (clamp_unit (momentum_score i)))
    (fmul (weight "mean_reversion" (weights s)) (clamp_unit (mean_reversion_score i)))) (fmul (weight "macro" (weights s)) (clamp_unit (macro_score i))))
    (fmul (fmax fzero (spread_cooldown_factor i)) (spread_penalty_weight s))) (fmul (fmax fzero (latency_minutes i)) (latency_penalty_per_min s)))) as [H0 H1].
  exists p, s2. split; [done|]. split; [exact H0|]. split; [exact H1|]. split; [done|]. split; [|split; [done|by rewrite Hl]].
  change (fltb c (of_dec 25 (-2)) = negb (String.eqb (status_of c) "active")). unfold status_of. destruct (fltb c (of_dec 15 (-2))) eqn:Ea; [|by destruct (fltb c (of_dec 25 (-2)))].
  exact (fleb_fltb_trans c (of_dec 15 (-2)) (of_dec 25 (-2)) (fltb_fleb_weak _ _ Ea) eq_refl).
Qed.

(** The ladder factor is one or the factor of a rule that applies, and no rule that
    applies has a larger one. *)
Theorem ladder_factor_is_best rules t : Forall (λ r, is_nan (size_factor r) = false) rules →
  (ladder_factor rules t = of_Z 1 ∨ ∃ r, r ∈ rules ∧ applies t r = true ∧ ladder_factor rules t = size_factor r) ∧
  fleb (of_Z 1) (ladder_factor rules t) = true ∧
  ∀ r, r ∈ rules → applies t r = true → fleb (size_factor r) (ladder_factor rules t) = true.
Proof.
  intros Hr. unfold ladder_factor.
  assert (∀ f, is_nan f = false → let g := fold_left (λ f r, if applies t r then fmax f (size_factor r) else f) rules f in
    (g = f ∨ ∃ r, r ∈ rules ∧ applies t r = true ∧ g = size_factor r) ∧ fleb f g = true ∧
    ∀ r, r ∈ rules → applies t r = true → fleb (size_factor r) g = true) as Hg; [|by apply Hg].
  induction Hr as [|r rules Hn Hr IH]; intros f Hf; cbn [fold_left].
  { split; [by left|]. split; [by apply fleb_refl|]. by intros ? ?%not_elem_of_nil. }
  destruct (applies t r) eqn:Ea.
  - assert (is_nan (fmax f (size_factor r)) = false) as Hm by (unfold fmax; by destruct (fltb _ _)).
    destruct (IH _ Hm) as (H1 & H2 & H3). pose proof (fmax_ge_l f (size_factor r) Hf) as Hl. pose proof (fmax_ge_r f (size_factor r) Hf Hn) as Hr'.
    split; [|split].
    + destruct H1 as [-> |(r' & ? & ? & ->)]; [|right; exists r'; split_and!; [by right|done..]]. unfold fmax. destruct (fltb f (size_factor r)); [|by left].
      right. exists r. split_and!; [left|done..].
    + exact (fleb_trans _ (fmax f (size_factor r)) _ Hl H2).
    + intros r' [-> |Hin]%elem_of_cons Ha; [exact (fleb_trans _ (fmax f (size_factor r)) _ Hr' H2)|by apply H3].
  - destruct (IH f Hf) as (H1 & H2 & H3). split; [|split; [done|]].
    + destruct H1 as [-> |(r' & ? & ? & ->)]; [by left|right; exists r'; split_and!; [by right|done..]].
    + intros r' [-> |Hin]%elem_of_cons Ha; [congruence|by apply H3].
Qed.

(** The overlay never asks for more than the lot limit before it rounds, nothing at
    all on a halted board, and only reduces unless the board is normal, the kill
    switch off and the pulse active. *)
Theorem overlay_is_bounded factor p prof board ks auto rr : is_nan (max_lot prof) = false → is_nan (overlay_size factor p prof board auto) = false →
  size_hint (overlay_apply factor p prof board ks auto rr) = fround (overlay_size factor p prof board auto) 6 ∧
  fleb (overlay_size factor p prof board auto) (max_lot prof) = true ∧
  (board = "halted" → fleb fzero (max_lot prof) = true → size_hint (overlay_apply factor p prof board ks auto rr) = fzero) ∧
  (o_reduce_only (overlay_apply factor p prof board ks auto rr) = false ↔ reduce_only_hint p = false ∧ ks = false ∧ board = "normal").
Proof.
  intros Hm Hs. split; [done|]. split; [|split].
  - unfold overlay_size, fmin in *. destruct (fltb (max_lot prof) _) eqn:E; [by apply fleb_refl|]. destruct (fleb_total _ (max_lot prof) Hs Hm) as [H|H]; [done|].
    rewrite fltb_fleb in E by done. by apply negb_false_iff in E.
  - intros -> Hz. cbn. unfold overlay_size. cbn. rewrite andb_false_r. unfold fmin. apply fleb_spec in Hz as Hz'.
    destruct (fltb (max_lot prof) fzero) eqn:E; [|done]. by rewrite fltb_fleb, Hz in E.
  - cbn. rewrite !orb_false_iff, negb_false_iff, String.eqb_eq. naive_solver.
Qed.

(** * Behaviours worth knowing *)

Definition sample_inputs (momentum : float) : AlphaPulseInputs :=
  PulseInputs "EURUSD" "trending" momentum fzero fzero fzero fzero (of_Z 100) (fzero, fzero) fzero "normal".

(** A score that is not a number counts as the best score. *)
Example nan_score_is_full : conviction_score (sample_inputs S754_nan) default_weights (of_dec 2 (-1)) (of_dec 1 (-2)) =
  conviction_score (sample_inputs (of_Z 1)) default_weights (of_dec 2 (-1)) (of_dec 1 (-2)).
Proof. vm_compute. reflexivity. Qed.

(** A rule that would shrink the size is never used: the factor starts at one. *)
Example shrinking_rule_is_ignored : ladder_factor [Rule None None (Some (of_Z 5)) None (of_dec 5 (-1))] (MkTrack (of_Z 1) (of_Z 1) (of_Z 2) 0) = of_Z 1.
Proof. vm_compute. reflexivity. Qed.

(** The feedback loop has no cap where the overlay has one: an adjustment above one
    turns the size negative. *)
Example feedback_turns_size_negative :
  let f := Feedback fzero (of_Z 1) None None None in
  (apply_dynamic_adjustment (of_dec 5 (-1)) (of_Z 2) f (of_dec 15 (-1)) true None None).1.2 = of_Z (-1) ∧
  (apply_hands_off_sizing (of_Z 2) "normal" true false [] (MkTrack fzero fzero fzero 0) (Some f) (of_dec 15 (-1)) true None None).1.1 = fzero.
Proof. split; vm_compute; reflexivity. Qed.
