(* ===== verification/Strategy.v ===== *)
(** What the strategy plugins of [src/strategies/] share: the evaluation context of
    [src/strategies/base.py], the feature store they read, and the two plugins
    without session state, the Donchian breakout of [src/strategies/donchian.py] and
    the trend pullback of [src/strategies/us_session_momentum.py]. *)

From S2P Require Import Prelude PyFloat PyVal PyEnv Calendar.

Local Open Scope Z_scope.
Local Open Scope py_scope.

(** * The evaluation context *)

(** A stored feature: a scalar, or an object with [iloc] (a pandas series) by its values. *)
Inductive feature := Scalar (v : pyval) | Series (l : list pyval).

Record FeatureContext := Features {
  symbols : list string; timeframes : list string; available_keys : list string; determinism : pyval;
  store : list (string * list (string * list (string * feature))) }.

Definition FeatureLookupError (key : string) : exn := OtherError "FeatureLookupError" key.

Definition lookup (f : FeatureContext) (symbol key timeframe : string) : res feature :=
  match (d ← dlookup symbol (store f); d ← dlookup timeframe d; dlookup key d) with
  | Some v => Ok v
  | None => Raise (FeatureLookupError key)
  end.

(** The objects of other layers (gate, account, configuration) are read through
    [getattr] only: an object is the dictionary of its attributes.  The clock's
    [now] is [None] when it is not a [datetime]. *)
Record StrategyContext := SContext {
  features : FeatureContext; regime : pyval; gate : pyval; account : pyval; config : pyval; watchlist : list string;
  clock_now : option datetime; clock_timeframe : pyval; seed : Z; parameters : pyval }.

Record StrategyMetadata := Metadata { name : string; version : string; required_features : list string; tags : list string; seed_offset : Z }.

Definition subset (a b : list string) : bool := forallb (λ k, str_in k b) a.
Definition is_applicable (m : StrategyMetadata) (c : StrategyContext) : bool := subset (required_features m) (available_keys (features c)).

Definition getattr (o : pyval) (k : string) : pyval := dget k (as_dict_or_empty o).

(** [sorted(context.watchlist or frozenset(default))] *)
Definition symbols_of (watchlist dflt : list string) : list string :=
  sorted_strings (if truthy watchlist then watchlist else remove_dups dflt).

(** * Coercions *)

(** The value, unless the conversion raised ([except Exception]). *)
Definition ok_or_none {A} (r : res A) : option A := match r with Ok a => Some a | Raise _ => None end.

Definition somes {A} (l : list (option A)) : list A := omap (λ x : option A, x) l.

(** A number is converted outside the [try], so an [int] too large for a float raises. *)
Definition coerce_float (v : pyval) : res (option float) :=
  match v with
  | VNone => Ok None
  | VBool _ | VInt _ | VFloat _ => x ← py_float v; Ok (Some x)
  | _ => Ok (ok_or_none (py_float v))
  end.

Definition coerce_float_or (v : pyval) (dflt : float) : res float := x ← coerce_float v; Ok (default dflt x).

Definition latest (f : feature) : res (option float) :=
  match f with
  | Scalar v => coerce_float v
  | Series l => Ok (v ← last l; ok_or_none (py_float v))
  end.

(** [extract_map(value).get(key)] *)
Definition sub (v : pyval) (k : string) : pyval := dget k (as_dict_or_empty v).

Definition entry_params (parameters : pyval) : dict := as_dict_or_empty (sub parameters "entry").
Definition execution_params (parameters : pyval) : dict := as_dict_or_empty (sub parameters "execution").

(** The nested filters, unless they are missing or empty. *)
Definition filter_params (parameters : pyval) : dict :=
  let nested := as_dict_or_empty (dget "filters" (entry_params parameters)) in
  if truthy nested then nested else as_dict_or_empty (sub parameters "filters").

Definition hour_of_day (z : Z) : bool := in_range 0 z 23.
(** [start <= hour <= end], or around midnight when [start > end] *)
Definition hour_between (start end_ hour : Z) : bool :=
  if start <=? end_ then in_range start hour end_ else (start <=? hour) || (hour <=? end_).

(** * Donchian breakout *)

Record BreakoutSignal := Breakout {
  b_strategy_id : string; b_symbol : string; direction : string; breakout : string; level : option float; buffer : option float; rationale : string;
  breakout_width : option float; filter_flags : option (list (string * bool)); filter_block_reason : option string; quality_score : option float }.

(** [_BaseDonchianBreakoutStrategy]: its class attributes and its state. *)
Record Donchian := MkDonchian { id : string; mode : string; metadata : StrategyMetadata; default_watchlist : list string; context : option StrategyContext }.
Definition set_context (c : StrategyContext) (s : Donchian) : Donchian := MkDonchian (id s) (mode s) (metadata s) (default_watchlist s) (Some c).

Definition parse_session_range (filters : dict) : Z * Z :=
  match dget "session_utc_range" filters with
  | VStr s =>
      match split_all "-" (strip s) with
      | [a; b] =>
          match parse_int a, parse_int b with
          | Some x, Some y => if hour_of_day x && hour_of_day y then (x, y) else (6, 21)
          | _, _ => (6, 21)
          end
      | _ => (6, 21)
      end
  | _ => (6, 21)
  end.

Definition session_allowed (ts : option datetime) (filters : dict) : bool :=
  match ts with Some t => let r := parse_session_range filters in hour_between r.1 r.2 (dt_hour t) | None => true end.

Definition resolve_direction (mode breakout : string) : option string :=
  if String.eqb mode "upper_only" then if String.eqb breakout "upper" then Some "long" else None
  else if String.eqb mode "long_only" then Some "long"
  else Some (if String.eqb breakout "upper" then "long" else "short").

Definition extract_filters (parameters : pyval) : dict :=
  match dlookup "filters" (entry_params parameters) with
  | Some (VDict nested) => nested
  | _ => as_dict_or_empty (sub parameters "filters")
  end.

(** A filter's flag, and its reason unless an earlier filter gave one. *)
Definition note (flag : string) (ok : bool) (why : string) (r : list (string * bool) * option string) : list (string * bool) * option string :=
  (r.1 ++ [(flag, ok)], if ok then r.2 else Some (default why r.2)).

Definition buffer_of (parameters : pyval) (atr : float) : res float :=
  let b := sub (sub parameters "entry") "buffer" in
  minimum ← coerce_float_or (sub b "min_abs") (of_dec 5 (-2));
  mult ← coerce_float_or (sub b "atr_multiplier") (of_dec 2 (-2));
  Ok (fmax minimum (fmul atr mult)).

(** The side and the level the close has left by more than the buffer. *)
Definition breakout_of (close upper lower buf : float) : option (string * float * string) :=
  if fgtb close (fadd upper buf) then Some ("upper", upper, "breakout_upper")
  else if fltb close (fsub lower buf) then Some ("lower", lower, "breakout_lower")
  else None.

Definition trend_filter (filters : dict) (direction : string) (trend : option float) : res (list (string * bool) * option string) :=
  threshold ← coerce_float (dget "trend_threshold" filters);
  let threshold := default fzero (threshold or? Some fzero) in
  Ok (if truthy (dget "trend_required" filters) then
    match trend with
    | None => note "trend_ok" false "trend_missing" ([], None)
    | Some t => note "trend_ok" (if String.eqb direction "long" then fgtb t threshold else fltb t (fopp threshold)) "trend_mismatch" ([], None)
    end
  else ([], None)).

(** The least width: the largest of the thresholds that are configured. *)
Definition breakout_threshold (filters execution : dict) (atr : float) : res (option float) :=
  least ← coerce_float (dget "min_breakout_abs" filters);
  atr_mult ← coerce_float (dget "breakout_min_atr_mult" filters);
  cost_mult ← coerce_float (dget "breakout_min_cost_mult" filters);
  by_cost ← match cost_mult with
    | Some m =>
        spread ← coerce_float (dget "spread" execution);
        slippage ← coerce_float (dget "slippage" execution);
        let cost := fadd (default fzero (spread or? Some fzero)) (default fzero (slippage or? Some fzero)) in
        Ok (if fgtb cost fzero then [fmul m cost] else [])
    | None => Ok []
    end;
  Ok (match match least with Some x => [x] | None => [] end ++ match atr_mult with Some m => [fmul m atr] | None => [] end ++ by_cost with
    | [] => None
    | x :: l => Some (fold_left fmax l x)
    end).

Definition quality_of (width : float) (threshold : option float) : option float :=
  t ← threshold; if fgtb t fzero then Some (fdiv_ieee width t) else None.

(** Flags, reason and quality score of a breakout. *)
Definition apply_filters (filters execution : dict) (direction : string) (trend : option float) (atr width : float)
    : res (list (string * bool) * option string * option float) :=
  r ← trend_filter filters direction trend;
  atr_min ← coerce_float (dget "atr_min" filters);
  let r := match atr_min with Some m => note "atr_ok" (fgeb atr m) "atr_below_min" r | None => r end in
  threshold ← breakout_threshold filters execution atr;
  let quality := quality_of width threshold in
  let r := match threshold with Some t => note "breakout_quality_ok" (fgeb width t) "breakout_quality" r | None => r end in
  min_quality ← coerce_float (dget "min_quality_score" filters);
  let r := match min_quality with
    | Some m => note "quality_score_ok" (match quality with Some q => fgeb q m | None => false end) "quality_score_below_min" r
    | None => r
    end in
  Ok (r, quality).

Definition hour_features (f : FeatureContext) (symbol : string) : option (feature * feature * feature * feature * feature * feature) :=
  ok_or_none (
    upper ← lookup f symbol "donchian_upper20_1h" "1h";
    lower ← lookup f symbol "donchian_lower20_1h" "1h";
    mid ← lookup f symbol "donchian_mid20_1h" "1h";
    close ← lookup f symbol "close_5m" "5m";
    atr ← lookup f symbol "atr_14_1h" "1h";
    trend ← lookup f symbol "regime_trend_1h" "1h";
    Ok (upper, lower, mid, close, atr, trend)).

(** The daily bands; all three are [None] when one is missing. *)
Definition day_features (f : FeatureContext) (symbol : string) : feature * feature * feature :=
  default (Scalar VNone, Scalar VNone, Scalar VNone) (ok_or_none (
    upper ← lookup f symbol "donchian_upper20_1d" "1d";
    lower ← lookup f symbol "donchian_lower20_1d" "1d";
    mid ← lookup f symbol "donchian_mid20_1d" "1d";
    Ok (upper, lower, mid))).

(** [self._latest(a) or self._latest(b)] *)
Definition latest_or (a b : feature) : res (option float) :=
  x ← latest a; if truthy x then Ok x else latest b.

Definition symbol_signal (s : Donchian) (c : StrategyContext) (symbol : string) : res (option BreakoutSignal) :=
  let filters := extract_filters (parameters c) in
  if negb (session_allowed (clock_now c) filters) then Ok None
  else match hour_features (features c) symbol with
  | None => Ok None
  | Some (upper_h, lower_h, mid_h, close, atr, trend) =>
      let '(upper_d, lower_d, mid_d) := day_features (features c) symbol in
      upper ← latest_or upper_h upper_d;
      lower ← latest_or lower_h lower_d;
      mid ← latest_or mid_h mid_d;
      close ← latest close;
      atr ← latest atr;
      match upper, lower, close, atr with
      | Some upper, Some lower, Some close, Some atr =>
          buf ← buffer_of (parameters c) atr;
          match breakout_of close upper lower buf with
          | None => Ok None
          | Some (side, lvl, why) =>
              match resolve_direction (mode s) side with
              | None => Ok None
              | Some dir =>
                  let width := fabs (fsub close (if truthy lvl then lvl else close)) in
                  trend ← latest trend;
                  '(flags, reason, quality) ← apply_filters filters (execution_params (parameters c)) dir trend atr width;
                  Ok (match reason with
                    | Some _ => None
                    | None => Some (Breakout (id s) symbol dir side (Some lvl) (Some buf) why (Some width)
                        (if truthy flags then Some flags else None) None quality)
                    end)
              end
          end
      | _, _, _, _ => Ok None
      end
  end.

Definition signals_of (s : Donchian) (c : StrategyContext) : res (list BreakoutSignal) :=
  if negb (is_applicable (metadata s) c) then Ok []
  else l ← mapM_res (symbol_signal s c) (symbols_of (watchlist c) (default_watchlist s)); Ok (somes l).

Definition generate_signals (c : StrategyContext) : M Donchian (list BreakoutSignal) :=
  _ ← modify (set_context c);
  s ← get;
  lift (signals_of s c).

Definition donchian_features : list string := [
  "donchian_upper20_1h"; "donchian_lower20_1h"; "donchian_mid20_1h"; "donchian_upper20_1d"; "donchian_lower20_1d"; "donchian_mid20_1d";
  "atr_14_1h"; "close_5m"; "regime_trend_1h"; "session_tag_5m"].
Definition donchian_defaults : list string := ["USDJPY"; "EURUSD"; "GBPUSD"; "EURJPY"; "AUDUSD"].
Definition donchian_init (id mode : string) (m : StrategyMetadata) (dflt : list string) : Donchian :=
  MkDonchian id mode m (if truthy dflt then dflt else donchian_defaults) None.

Definition DonchianBreakoutStrategy : list string → Donchian :=
  donchian_init "m1_baseline_donchian" "bidirectional" (Metadata "M1 Baseline Donchian" "0.1.2" donchian_features ["baseline"; "breakout"] 0).
Definition DonchianBreakoutLongOnlyStrategy : list string → Donchian :=
  donchian_init "m1_baseline_donchian_long_only" "long_only"
    (Metadata "M1 Baseline Donchian (Long Only)" "0.1.0" donchian_features ["baseline"; "breakout"; "long_only"] 0).
Definition DonchianBreakoutUpperOnlyStrategy : list string → Donchian :=
  donchian_init "m1_baseline_donchian_upper_only" "upper_only"
    (Metadata "M1 Baseline Donchian (Upper Only)" "0.1.0" donchian_features ["baseline"; "breakout"; "upper_only"] 0).

(** * US-session trend pullback *)

Record UsMomentumSignal := Momentum {
  m_strategy_id : string; m_symbol : string; m_direction : string; m_confidence : float; m_rationale : string; m_score : float; m_quality : float }.

Record UsPullback := MkPullback { us_watchlist : list string; us_context : option StrategyContext }.
Definition us_init (dflt : list string) : UsPullback := MkPullback (if truthy dflt then dflt else ["USDJPY"; "EURUSD"; "GBPUSD"]) None.
Definition us_id : string := "m1_us_session_trend_pullback".
Definition us_metadata : StrategyMetadata := Metadata "M1 US Session Trend Pullback" "0.1.0"
  ["ema_fast_5m"; "ema_slow_5m"; "rsi_14_5m"; "atr_14_1h"; "ema55_slope_1h"; "close_5m"; "session_tag_5m"; "regime_trend_1h"]
  ["us_session"; "momentum"; "pullback"] 0.

(** A range that cannot be read allows every hour. *)
Definition us_session_allowed (ts : option datetime) (session_range : string) : bool :=
  match ts, split_once "-" session_range with
  | Some t, Some (l, r) =>
      match parse_int l, parse_int r with
      | Some a, Some b => if hour_of_day a && hour_of_day b then hour_between a b (dt_hour t) else true
      | _, _ => true
      end
  | _, _ => true
  end.

(** A list's items, a text's parts, or the value itself. *)
Definition raw_items (v : pyval) : list pyval :=
  match v with
  | VNone => []
  | VList l => l
  | VStr s => map (VStr ∘ strip) (split_all "," s)
  | v => [v]
  end.

(** [int(item)]: only [TypeError] and [ValueError] are caught. *)
Definition item_hour (item : pyval) : res (option Z) :=
  match py_int item with
  | Ok z => Ok (if hour_of_day z then Some z else None)
  | Raise (TypeError _) | Raise (ValueError _) => Ok None
  | Raise e => Raise e
  end.
Definition blocked_hours (v : pyval) : res (list Z) := l ← mapM_res item_hour (raw_items v); Ok (somes l).

Definition weekday_tokens : list (string * Z) := [
  ("mon", 0); ("monday", 0); ("tue", 1); ("tuesday", 1); ("wed", 2); ("wednesday", 2); ("thu", 3); ("thursday", 3); ("fri", 4); ("friday", 4);
  ("sat", 5); ("saturday", 5); ("sun", 6); ("sunday", 6)].
Definition item_weekday (item : pyval) : res (option Z) :=
  match item with
  | VBool _ | VInt _ | VFloat _ => z ← py_int item; Ok (if in_range 0 z 6 then Some z else None)
  | v => Ok (dlookup (lower (strip (py_str v))) weekday_tokens)
  end.
Definition weekdays (v : pyval) : res (list Z) := l ← mapM_res item_weekday (raw_items v); Ok (somes l).

Definition directions (v : pyval) : list string :=
  List.filter (λ t, str_in t ["long"; "short"]) (map (λ x, lower (strip (py_str x))) (raw_items v)).

Definition z_in (z : Z) (l : list Z) : bool := existsb (Z.eqb z) l.

Section local_time.
(** [ZoneInfo(name)]: the UTC offset in seconds at an instant, or no such zone. *)
Variable zoneinfo : string → option (Z → Z).

(** The wall clock of the zone, unless the zone is unknown or the time out of range. *)
Definition local_clock (zone : string) (us : Z) : option datetime :=
  off ← zoneinfo zone;
  let t := us + off us * 1000000 in
  if in_range min_us t max_us then Some (from_utc_us t) else None.

Definition dt_weekday (d : datetime) : Z := (days_from_civil (dt_year d) (dt_month d) (dt_day d) + 3) mod 7.

(** One block: [true] when it covers the time and the direction. *)
Definition block_covers (us : Z) (direction : string) (block : dict) : res bool :=
  let zone := strip (py_str (dget_or "timezone" (VStr "UTC") block)) or? "UTC" in
  match local_clock zone us with
  | None => Ok false
  | Some t =>
      days ← weekdays (dget_or "weekdays" (dget "weekday" block) block);
      if truthy days && negb (z_in (dt_weekday t) days) then Ok false
      else
        hours ← blocked_hours (dget_or "hours" (dget "hour" block) block);
        if truthy hours && negb (z_in (dt_hour t) hours) then Ok false
        else
          let dirs := directions (dget_or "directions" (dget "direction" block) block) in
          Ok (negb (truthy dirs && negb (str_in direction dirs)))
  end.

Fixpoint any_block_covers (us : Z) (direction : string) (l : list pyval) : res bool :=
  match l with
  | [] => Ok false
  | VDict block :: l => b ← block_covers us direction block; if b : bool then Ok true else any_block_covers us direction l
  | _ :: l => any_block_covers us direction l
  end.

Definition blocked_local_direction_window (ts : option datetime) (direction : string) (entry filters : dict) : res bool :=
  match dget_or "blocked_local_direction_windows" (dget "blocked_local_direction_windows" filters) entry, ts with
  | VList blocks, Some t => any_block_covers (utc_us t) direction blocks
  | _, _ => Ok false
  end.

Definition score_components (trend_gap atr slope regime : float) : float * float :=
  let norm := fmax atr (of_dec 1 (-6)) in
  let gap := fmul (fdiv_ieee (fabs trend_gap) norm) (of_dec 6 (-1)) in
  let slope := fmul (fdiv_ieee (fabs slope) norm) (of_dec 25 (-2)) in
  let quality := fmax fzero (fadd (fadd gap slope) (fmul (fabs regime) (of_dec 15 (-2)))) in
  (fmin (of_Z 3) (fmax (of_dec 1 (-1)) quality), quality).

(** What the plugin reads from its parameters before it looks at a symbol. *)
Record UsLimits := MkUsLimits {
  session_range : string; us_atr_min : float; trend_threshold : float; slope_min : float; rsi_long : float * float; rsi_short : float * float;
  spread_limit : float; spread : float; hours_blocked : list Z }.

Definition us_limits (entry filters execution : dict) : res UsLimits :=
  atr_min ← coerce_float_or (dget "atr_min" filters) fzero;
  threshold ← coerce_float_or (dget "trend_threshold" entry) fzero;
  slope ← coerce_float_or (dget "slope_min" entry) fzero;
  l0 ← coerce_float_or (dget "rsi_long_min" entry) (of_Z 48);
  l1 ← coerce_float_or (dget "rsi_long_max" entry) (of_Z 64);
  s0 ← coerce_float_or (dget "rsi_short_min" entry) (of_Z 36);
  s1 ← coerce_float_or (dget "rsi_short_max" entry) (of_Z 52);
  limit ← coerce_float_or (dget "spread_max" filters) (of_Z (-1));
  spread ← coerce_float_or (dget "spread" execution) fzero;
  hours ← blocked_hours (dget_or "blocked_utc_hours" (dget "blocked_utc_hours" filters) entry);
  Ok (MkUsLimits (py_str (dget_or "session_utc_range" (VStr "16-23") entry)) atr_min threshold slope (l0, l1) (s0, s1) limit spread hours).

Record UsReading := Reading { ema_fast : float; ema_slow : float; rsi : float; us_atr : float; slope : float; us_close : float; us_regime : float }.

(** The seven values, unless one is missing or cannot be read. *)
Definition us_reading (f : FeatureContext) (symbol : string) : option UsReading :=
  let get key timeframe : option float := (v ← ok_or_none (lookup f symbol key timeframe); x ← ok_or_none (latest v); x) in
  fast ← get "ema_fast_5m" "5m"; slow ← get "ema_slow_5m" "5m"; rsi ← get "rsi_14_5m" "5m"; atr ← get "atr_14_1h" "1h";
  slope ← get "ema55_slope_1h" "1h"; close ← get "close_5m" "5m"; regime ← get "regime_trend_1h" "1h";
  Some (Reading fast slow rsi atr slope close regime).

Definition within (r : float * float) (x : float) : bool := fleb r.1 x && fleb x r.2.
Definition long_bias (l : UsLimits) (r : UsReading) : bool :=
  fgtb (us_regime r) (trend_threshold l) && fgtb (fsub (ema_fast r) (ema_slow r)) fzero && fgtb (slope r) (slope_min l) &&
  within (rsi_long l) (rsi r) && fgeb (us_close r) (ema_fast r).
Definition short_bias (l : UsLimits) (r : UsReading) : bool :=
  fltb (us_regime r) (fopp (trend_threshold l)) && fltb (fsub (ema_fast r) (ema_slow r)) fzero && fltb (slope r) (fopp (slope_min l)) &&
  within (rsi_short l) (rsi r) && fleb (us_close r) (ema_fast r).

(** The gates that do not depend on the symbol. *)
Definition us_open (l : UsLimits) (ts : option datetime) : bool :=
  us_session_allowed ts (session_range l) &&
  negb (match ts with Some t => z_in (dt_hour t) (hours_blocked l) | None => false end) &&
  negb (fgeb (spread_limit l) fzero && fgtb (spread l) (spread_limit l)).

Definition us_symbol_signal (l : UsLimits) (entry filters : dict) (c : StrategyContext) (symbol : string) : res (option UsMomentumSignal) :=
  if negb (us_open l (clock_now c)) then Ok None
  else match us_reading (features c) symbol with
  | None => Ok None
  | Some r =>
      if fltb (us_atr r) (us_atr_min l) || (negb (long_bias l r) && negb (short_bias l r)) then Ok None
      else
        let dir := if long_bias l r then "long" else "short" in
        blocked ← blocked_local_direction_window (clock_now c) dir entry filters;
        if blocked : bool then Ok None
        else
          let '(conf, quality) := score_components (fsub (ema_fast r) (ema_slow r)) (us_atr r) (slope r) (us_regime r) in
          Ok (Some (Momentum us_id symbol dir (fround conf 4) "us_session_pullback_resume" (fround quality 4) (fround quality 4)))
  end.

Definition us_signals_of (s : UsPullback) (c : StrategyContext) : res (list UsMomentumSignal) :=
  if negb (is_applicable us_metadata c) then Ok []
  else
    let entry := entry_params (parameters c) in
    let filters := filter_params (parameters c) in
    lim ← us_limits entry filters (execution_params (parameters c));
    l ← mapM_res (us_symbol_signal lim entry filters c) (symbols_of (watchlist c) (us_watchlist s));
    Ok (somes l).

Definition us_generate_signals (c : StrategyContext) : M UsPullback (list UsMomentumSignal) :=
  _ ← modify (λ s, MkPullback (us_watchlist s) (Some c));
  s ← get;
  lift (us_signals_of s c).
End local_time.

(** * Signals *)

(** A plugin answers for some of the symbols, at most once for each, in their order. *)
Section answers.
Context {A : Type} (f : string → res (option A)) (name : A → string).
Hypothesis names : ∀ k a, f k = Ok (Some a) → name a = k.

Lemma somes_answer l r a : Forall2 (λ k o, f k = Ok o) l r → a ∈ somes r → f (name a) = Ok (Some a) ∧ name a ∈ l.
Proof.
  intros Hm Ha. apply list_elem_of_omap in Ha as (x & Hx & ->).
  induction Hm as [|k y l r Hf Hm IH]; [by apply not_elem_of_nil in Hx|].
  apply elem_of_cons in Hx as [<-|Hx]; [|destruct (IH Hx); split; [done|by right]].
  rewrite (names _ _ Hf). split; [done|by left].
Qed.

Lemma somes_nodup l r : Forall2 (λ k o, f k = Ok o) l r → NoDup l → NoDup (map name (somes r)).
Proof.
  induction 1 as [|k y l r Hf Hm IH]; intros Hl; [constructor|].
  apply NoDup_cons in Hl as [Hk Hl]. destruct y as [a|]; [|by apply IH]. cbn. apply NoDup_cons. split; [|by apply IH].
  intros (b & Hb & Hin)%list_elem_of_fmap. rewrite (names _ _ Hf) in Hb.
  destruct (somes_answer l r b Hm Hin) as [_ Hl']. by rewrite <- Hb in Hl'.
Qed.

Lemma answers_spec l r : mapM_res f l = Ok r → NoDup l →
  NoDup (map name (somes r)) ∧ ∀ a, a ∈ somes r → f (name a) = Ok (Some a) ∧ name a ∈ l.
Proof. intros Hm%mapM_res_Forall2 Hl. split; [by eapply somes_nodup|]. intros a Ha. by eapply somes_answer. Qed.
End answers.

Lemma symbols_of_nodup w dflt : NoDup w → NoDup (symbols_of w dflt).
Proof.
  intros Hw. unfold symbols_of, sorted_strings. rewrite isort_perm. destruct w; [apply NoDup_remove_dups|done].
Qed.

(** The filters passed: no reason, so every flag is set. *)
Definition clean (r : list (string * bool) * option string) : Prop := r.2 = None → Forall (λ kv : string * bool, kv.2 = true) r.1.

Lemma note_clean flag ok why r : clean r → clean (note flag ok why r).
Proof.
  unfold clean, note. cbn. destruct ok; [|done]. intros H Hr. apply Forall_app. split; [by apply H|by repeat constructor].
Qed.

Lemma apply_filters_clean filters execution dir trend atr width r quality :
  apply_filters filters execution dir trend atr width = Ok (r, quality) → clean r.
Proof.
  unfold apply_filters, trend_filter. assert (clean ([], None)) as H0 by constructor.
  destruct (coerce_float (dget "trend_threshold" filters)) as [th|]; [|done]. cbn [mbind res_bind].
  set (r0 := if truthy (dget "trend_required" filters) then _ else _).
  assert (clean r0) as H1 by (subst r0; destruct (truthy _); [destruct trend; by apply note_clean|done]).
  destruct (coerce_float (dget "atr_min" filters)) as [am|]; [|done]. cbn [mbind res_bind].
  set (r1 := match am with Some _ => _ | None => _ end).
  assert (clean r1) as H2 by (subst r1; destruct am; [by apply note_clean|done]).
  destruct (breakout_threshold filters execution atr) as [bt|]; [|done]. cbn [mbind res_bind].
  set (r2 := match bt with Some _ => _ | None => _ end).
  assert (clean r2) as H3 by (subst r2; destruct bt; [by apply note_clean|done]).
  destruct (coerce_float (dget "min_quality_score" filters)) as [mq|]; [|done]. cbn [mbind res_bind].
  intros [= <- _]. destruct mq; [by apply note_clean|done].
Qed.

Lemma breakout_of_spec close upper lower buf side lvl why : breakout_of close upper lower buf = Some (side, lvl, why) →
  side = "upper" ∧ lvl = upper ∧ fgtb close (fadd lvl buf) = true ∨ side = "lower" ∧ lvl = lower ∧ fltb close (fsub lvl buf) = true.
Proof.
  unfold breakout_of. destruct (fgtb close (fadd upper buf)) eqn:E1; [intros [= <- <- _]; by left|].
  destruct (fltb close (fsub lower buf)) eqn:E2; [intros [= <- <- _]; by right|done].
Qed.

(** The band a side breaks out of: the hourly one, or the daily one where that is missing or zero. *)
Definition band_of (c : StrategyContext) (symbol side : string) : res (option float) :=
  h ← lookup (features c) symbol (if String.eqb side "upper" then "donchian_upper20_1h" else "donchian_lower20_1h") "1h";
  let '(upper, lower, _) := day_features (features c) symbol in latest_or h (if String.eqb side "upper" then upper else lower).

(** What a Donchian signal says about its symbol. *)
Definition is_breakout (s : Donchian) (c : StrategyContext) (b : BreakoutSignal) : Prop :=
  session_allowed (clock_now c) (extract_filters (parameters c)) = true ∧ b_strategy_id b = id s ∧
  resolve_direction (mode s) (breakout b) = Some (direction b) ∧ Forall (λ kv, kv.2 = true) (default [] (filter_flags b)) ∧
  ∃ close atr lvl buf,
    (f ← lookup (features c) (b_symbol b) "close_5m" "5m"; latest f) = Ok (Some close) ∧
    (f ← lookup (features c) (b_symbol b) "atr_14_1h" "1h"; latest f) = Ok (Some atr) ∧
    buffer_of (parameters c) atr = Ok buf ∧ level b = Some lvl ∧ buffer b = Some buf ∧ band_of c (b_symbol b) (breakout b) = Ok (Some lvl) ∧
    (breakout b = "upper" ∧ fgtb close (fadd lvl buf) = true ∨ breakout b = "lower" ∧ fltb close (fsub lvl buf) = true).

Lemma hour_features_spec f k u l m cl at_ t : hour_features f k = Some (u, l, m, cl, at_, t) →
  lookup f k "close_5m" "5m" = Ok cl ∧ lookup f k "atr_14_1h" "1h" = Ok at_ ∧ lookup f k "donchian_upper20_1h" "1h" = Ok u ∧
  lookup f k "donchian_lower20_1h" "1h" = Ok l.
Proof.
  unfold hour_features. destruct (lookup f k "donchian_upper20_1h" "1h"); [|done]. destruct (lookup f k "donchian_lower20_1h" "1h"); [|done].
  destruct (lookup f k "donchian_mid20_1h" "1h"); [|done]. destruct (lookup f k "close_5m" "5m"); [|done].
  destruct (lookup f k "atr_14_1h" "1h"); [|done]. destruct (lookup f k "regime_trend_1h" "1h"); [|done]. by intros [= <- <- _ <- <- _].
Qed.

Lemma symbol_signal_spec s c k b : symbol_signal s c k = Ok (Some b) → b_symbol b = k ∧ is_breakout s c b.
Proof.
  unfold symbol_signal. destruct (session_allowed _ _) eqn:Es; [|done]. cbn [negb].
  destruct (hour_features (features c) k) as [[[[[[u l] m] cl] at_] t]|] eqn:Eh; [|done]. apply hour_features_spec in Eh as (Hc & Ha & Hu & Hl).
  destruct (day_features (features c) k) as [[ud ld] md] eqn:Eday.
  destruct (latest_or u ud) as [u'|] eqn:Eu; [|done]. destruct (latest_or l ld) as [l'|] eqn:El; [|done]. destruct (latest_or m md) as [m'|]; [|done].
  destruct (latest cl) as [cl'|] eqn:Ecl; [|done]. destruct (latest at_) as [at'|] eqn:Eat; [|done]. cbn [mbind res_bind].
  destruct u' as [up|]; [|done]. destruct l' as [lo|]; [|done]. destruct cl' as [close|]; [|done]. destruct at' as [atr|]; [|done].
  destruct (buffer_of (parameters c) atr) as [buf|] eqn:Eb; [|done]. cbn [mbind res_bind].
  destruct (breakout_of close up lo buf) as [[[side lvl] why]|] eqn:Eo; [|done]. apply breakout_of_spec in Eo.
  destruct (resolve_direction (mode s) side) as [dir|] eqn:Ed; [|done].
  destruct (latest t) as [t'|]; [|done]. cbn [mbind res_bind].
  destruct (apply_filters _ _ _ _ _ _) as [[[flags reason] quality]|] eqn:Ef; [|done]. cbn. destruct reason; [done|]. intros [= <-].
  split; [done|]. split_and!; [done..| |].
  - apply apply_filters_clean in Ef. specialize (Ef eq_refl). cbn in Ef |- *. destruct flags; [constructor|exact Ef].
  - exists close, atr, lvl, buf. cbn. rewrite Hc, Ha. cbn. split_and!; [done..| |naive_solver].
    unfold band_of. destruct Eo as [(-> & -> & _)|(-> & -> & _)]; cbn; rewrite ?Hu, ?Hl, Eday; by cbn.
Qed.


(** What a pullback signal says: every gate is open, the direction's bias holds on
    the values read, and the confidence is the quality kept between 0.1 and 3. *)
Definition is_pullback (zoneinfo : string → option (Z → Z)) (lim : UsLimits) (entry filters : dict) (c : StrategyContext) (m : UsMomentumSignal) : Prop :=
  us_open lim (clock_now c) = true ∧
  blocked_local_direction_window zoneinfo (clock_now c) (m_direction m) entry filters = Ok false ∧
  ∃ r, us_reading (features c) (m_symbol m) = Some r ∧ fltb (us_atr r) (us_atr_min lim) = false ∧
    (m_direction m = "long" ∧ long_bias lim r = true ∨ m_direction m = "short" ∧ short_bias lim r = true) ∧
    ∃ conf, m_confidence m = fround conf 4 ∧ fleb (of_dec 1 (-1)) conf = true ∧ fleb conf (of_Z 3) = true.

Lemma score_components_bounds gap atr slope regime : let conf := (score_components gap atr slope regime).1 in
  fleb (of_dec 1 (-1)) conf = true ∧ fleb conf (of_Z 3) = true.
Proof.
  unfold score_components. cbv beta zeta iota. cbn [fst]. match goal with |- context [fmax (of_dec 1 (-1)) ?x] => generalize x end. intros q. unfold fmin, fmax.
  destruct (fltb (of_dec 1 (-1)) q) eqn:E1.
  - destruct (fltb q (of_Z 3)) eqn:E2; [split; by apply fltb_fleb_weak|done].
  - by change (fltb (of_dec 1 (-1)) (of_Z 3)) with true.
Qed.

Lemma us_symbol_signal_spec zi lim entry filters c k m : us_symbol_signal zi lim entry filters c k = Ok (Some m) →
  m_symbol m = k ∧ is_pullback zi lim entry filters c m.
Proof.
  unfold us_symbol_signal. destruct (us_open lim (clock_now c)) eqn:Eo; [|done]. cbn [negb].
  destruct (us_reading (features c) k) as [r|] eqn:Er; [|done].
  destruct (fltb (us_atr r) (us_atr_min lim)) eqn:Ea; [done|]. cbn [orb].
  destruct (negb (long_bias lim r) && negb (short_bias lim r)) eqn:Ebias; [done|]. apply andb_false_iff in Ebias. rewrite !negb_false_iff in Ebias.
  destruct (blocked_local_direction_window _ _ _ _ _) as [[|]|] eqn:Ebl; [done| |done]. cbn [mbind res_bind].
  pose proof (score_components_bounds (fsub (ema_fast r) (ema_slow r)) (us_atr r) (slope r) (us_regime r)) as [H0 H1].
  destruct (score_components _ _ _ _) as [conf quality]. intros [= <-]. cbn in H0, H1. split; [done|]. split; [done|]. split; [done|].
  exists r. split; [done|]. split; [done|]. split; [|by exists conf].
  cbn [m_direction]. destruct (long_bias lim r); [by left|right]. destruct Ebias; [done|by split].
Qed.

(** Every signal of the US pullback plugin passed the session, the blocked hours and
    the spread limit, agrees with the trend bias of its direction, is outside every
    blocked local window, and has a confidence between 0.1 and 3; no symbol has two. *)
Theorem pullback_signals_agree zi s c l : us_signals_of zi s c = Ok l → NoDup (watchlist c) →
  NoDup (map m_symbol l) ∧ ∀ m, m ∈ l → ∃ lim,
    us_limits (entry_params (parameters c)) (filter_params (parameters c)) (execution_params (parameters c)) = Ok lim ∧
    is_pullback zi lim (entry_params (parameters c)) (filter_params (parameters c)) c m.
Proof.
  unfold us_signals_of. destruct (is_applicable us_metadata c); cbn [negb]; [|intros [= <-] _; split; [constructor|by intros ? ?%not_elem_of_nil]].
  destruct (us_limits _ _ _) as [lim|]; [|done]. cbn [mbind res_bind].
  destruct (mapM_res _ _) as [r|] eqn:Em; [|done]. intros [= <-] Hw.
  destruct (answers_spec (us_symbol_signal zi lim _ _ c) m_symbol (λ k m H, proj1 (us_symbol_signal_spec zi lim _ _ c k m H)) _ _ Em
    (symbols_of_nodup _ _ Hw)) as [Hn Ha].
  split; [exact Hn|]. intros m Hm. exists lim. split; [done|]. destruct (Ha m Hm) as [Hf _]. apply us_symbol_signal_spec in Hf as [_ Hf]. exact Hf.
Qed.

(** * Behaviours worth knowing *)

Definition fl (m e : Z) : feature := Series [VFloat (of_dec m e)].
Definition sample_store : list (string * list (string * list (string * feature))) := [
  ("USDJPY", [("5m", [("close_5m", fl 1512 (-1))]);
    ("1h", [("donchian_upper20_1h", fl 150 0); ("donchian_lower20_1h", fl 148 0); ("donchian_mid20_1h", fl 149 0); ("atr_14_1h", fl 5 (-1));
      ("regime_trend_1h", fl 1 0)])])].
Definition sample_context (filters : dict) : StrategyContext :=
  SContext (Features ["USDJPY"] ["5m"; "1h"] donchian_features VNone sample_store) VNone VNone VNone VNone ["USDJPY"]
    (Some (DateTime 2026 3 20 9 0 0 0 (Some 0))) (VStr "5m") 0 (VDict [("filters", VDict filters)]).


(** A band or level of exactly zero counts as missing: the daily band is used for it. *)
Example zero_band_falls_back : latest_or (fl 0 0) (fl 1 0) = Ok (Some (of_Z 1)).
Proof. vm_compute. reflexivity. Qed.
