(* ===== verification/SessionBreakout.v ===== *)
(** The two plugins that follow a session bar by bar: the opening range breakout with
    a VWAP retest of [src/strategies/us_orb_vwap_retest.py] and the compression
    breakout of [src/strategies/asia_compression_expansion_breakout.py].  Each keeps a
    state per symbol and session; the helpers the two files share verbatim are
    defined once.  An instant is its number of microseconds since the epoch. *)

From S2P Require Import Prelude PyFloat PyVal PyEnv Calendar Strategy.

Local Open Scope Z_scope.
Local Open Scope py_scope.

(** * Coercions *)

Definition latest_value (f : feature) : pyval := match f with Scalar v => v | Series l => default VNone (last l) end.

Definition coerce_int (v : pyval) (dflt : Z) : Z := match v with VNone => dflt | _ => default dflt (ok_or_none (py_int v)) end.

Definition normalize_token (v : pyval) : string := match v with VNone => "" | _ => lower (strip (py_str v)) end.

(** Only the number before the unit can fail. *)
Definition timeframe_to_minutes (token : string) : res Z :=
  let t := lower (strip token) in
  let prefix := String.substring 0 (String.length t - 1) t in
  let units k := match parse_int prefix with Some n => Ok (Z.max 1 n * k) | None => Raise (ValueError "invalid literal for int()") end in
  if ends_with "m" t then units 1 else if ends_with "h" t then units 60 else if ends_with "d" t then units 1440 else Ok 5.

Definition parse_hhmm (v : pyval) (default_hour : Z) : Z * Z :=
  match v with
  | VStr s =>
      let token := strip s in
      match split_once ":" token with
      | Some (l, r) =>
          match parse_int l, parse_int r with
          | Some h, Some m => if hour_of_day h && in_range 0 m 59 then (h, m) else (default_hour, 0)
          | _, _ => (default_hour, 0)
          end
      | None => match parse_int token with Some h => if hour_of_day h then (h, 0) else (default_hour, 0) | None => (default_hour, 0) end
      end
  | _ => (default_hour, 0)
  end.

Definition parse_range (v : pyval) (dflt : Z * Z) : Z * Z :=
  match v with
  | VStr s =>
      match split_once "-" s with
      | Some (l, r) =>
          match parse_int l, parse_int r with
          | Some a, Some b => if hour_of_day a && hour_of_day b then (a, b) else dflt
          | _, _ => dflt
          end
      | None => dflt
      end
  | _ => dflt
  end.

Definition in_session (ts : datetime) (r : Z * Z) : bool := hour_between r.1 r.2 (dt_hour ts).

Definition allowed_token_set (v : pyval) : list string :=
  let items := match v with
    | VNone => []
    | VStr s => map strip (split_all "," s)
    | VList l => map (strip ∘ py_str) l
    | v => [strip (py_str v)]
    end in
  map lower (List.filter (λ t, truthy t) items).

(** A set that is empty falls back to the default. *)
Definition tokens_or (v : pyval) (dflt : list string) : list string := let l := allowed_token_set v in if truthy l then l else dflt.

(** [value.strip().lower()] of a text that is not blank *)
Definition token_text (v : pyval) : option string := match v with VStr s => if truthy (strip s) then Some (lower (strip s)) else None | _ => None end.

Definition kill_switch_state (gate : pyval) : string :=
  let risk := getattr gate "risk" in
  match token_text (getattr risk "kill_switch_recommendation") with
  | Some t => t
  | None => if truthy (getattr risk "reduce_only") then "soft_stop" else "normal"
  end.

Definition board_mode (gate config : pyval) : string :=
  match token_text (getattr gate "board_mode"), token_text (getattr config "board_mode") with
  | Some t, _ | None, Some t => t
  | None, None =>
      match token_text (getattr (getattr gate "market") "profit_readiness_status") with
      | Some t => if str_in t ["guarded"; "halted"] then t else "normal"
      | None => "normal"
      end
  end.

Definition bounded (v : pyval) (dflt : float) : res float := x ← coerce_float_or v dflt; Ok (fmax fzero x).

(** [entry.get(key, filters.get(key))] *)
Definition either_param (key : string) (entry filters : dict) : pyval := dget_or key (dget key filters) entry.

(** * Sessions *)

Definition date_of (d : datetime) : Z := days_from_civil (dt_year d) (dt_month d) (dt_day d).
Definition day_us : Z := 86400000000.

(** A session that crosses midnight belongs to the day it started on. *)
Definition session_date (ts : datetime) (hm : Z * Z) (wraps : bool) : res Z :=
  if negb wraps then Ok (date_of ts)
  else if (hm.1 <? dt_hour ts) || ((dt_hour ts =? hm.1) && (hm.2 <=? dt_minute ts)) then Ok (date_of ts)
  else d ← dt_add ts (- day_us); Ok (date_of d).

Definition plus_minutes (us m : Z) : res Z :=
  let t := us + minutes_us m in if in_range min_us t max_us then Ok t else Raise (OverflowError "date value out of range").

Section states.
Context {T : Type} (state_date : T → Z) (state_start : T → Z) (fresh : Z → Z → Z → T).

Definition start_ltb (a b : string * T) : bool := state_start a.2 <? state_start b.2.

(** Beyond 64 symbols the states of the oldest sessions are dropped. *)
Definition keep_recent (l : list (string * T)) : list (string * T) :=
  if (64 <? length l)%nat then
    let stale := take (length l - 64) (isort start_ltb l) in
    List.filter (λ kv : string * T, negb (str_in kv.1 stale.*1)) l
  else l.

(** The state of the session [ts] is in, made anew at its first bar; [None] before the session starts. *)
Definition resolve_state (l : list (string * T)) (symbol : string) (ts : datetime) (hm : Z * Z) (wraps : bool) (minutes : Z)
    : res (option T * list (string * T)) :=
  date ← session_date ts hm wraps;
  let start := date * day_us + minutes_us (hm.1 * 60 + hm.2) in
  if utc_us ts <? start then Ok (None, l)
  else
    end_ ← plus_minutes start minutes;
    let anew := let st := fresh date start end_ in Ok (Some st, keep_recent (dset symbol st l)) in
    match dlookup symbol l with
    | Some st => if state_date st =? date then Ok (Some st, l) else anew
    | None => anew
    end.

(** The object of a symbol after it was changed: a dropped one is no longer in the table. *)
Definition put_state (symbol : string) (st : T) (l : list (string * T)) : list (string * T) :=
  if dmem symbol l then dset symbol st l else l.

(** One symbol of an evaluation, on the table of states: nothing before the session,
    beyond the quota, or without a bar to look at; else the step of the state. *)
Definition follow {B Sig} (emitted : T → Z) (quota : Z) (hm : Z * Z) (wraps : bool) (minutes : Z) (ts : datetime) (read : string → option B)
    (step : string → B → T → T * res (option Sig)) (symbol : string) : M (list (string * T)) (option Sig) :=
  l ← get;
  '(st, l) ← lift (resolve_state l symbol ts hm wraps minutes);
  _ ← modify (λ _, l);
  match st with
  | None => mret None
  | Some st =>
      if quota <=? emitted st then mret None
      else match read symbol with
      | None => mret None
      | Some b =>
          let r := step symbol b st in
          _ ← modify (put_state symbol r.1);
          lift r.2
      end
  end.
End states.

(** * Bars *)

Record bar := Bar { b_open : float; b_high : float; b_low : float; b_close : float; b_volume : float; b_atr : float; b_tag : string; b_trend : float }.

Section reading.
Variables (f : FeatureContext) (symbol : string).

Definition value (key timeframe : string) : res float := v ← lookup f symbol key timeframe; coerce_float_or (latest_value v) fzero.

(** [None] when a lookup or a conversion raised; the trend only where the plugin reads it. *)
Definition read_bar (with_trend : bool) : option bar := ok_or_none (
  o ← value "open_5m" "5m"; h ← value "high_5m" "5m"; l ← value "low_5m" "5m"; c ← value "close_5m" "5m";
  v ← value "volume_5m" "5m"; a ← value "atr_14_1h" "1h"; tag ← lookup f symbol "session_tag_5m" "5m";
  t ← (if with_trend then value "regime_trend_1h" "1h" else Ok fzero);
  Ok (Bar o h l c (fmax fzero v) a (normalize_token (latest_value tag)) t)).
End reading.

Definition priced (b : bar) : bool := negb (fleb (b_high b) fzero || fleb (b_low b) fzero || fleb (b_close b) fzero).

Definition extend_high (o : option float) (x : float) : float := match o with None => x | Some y => fmax y x end.
Definition extend_low (o : option float) (x : float) : float := match o with None => x | Some y => fmin y x end.

(** The range is too narrow for the cost, where a ratio is configured. *)
Definition too_costly (ratio cost width : float) : bool :=
  fgeb ratio fzero && (if fgtb width fzero then fgtb (fdiv_ieee cost width) ratio else fleb width fzero).

Definition quality_of (distance cost : float) : float := fmax (of_dec 1 (-1)) (fdiv_ieee distance (fmax cost (of_dec 1 (-6)))).

(** * Opening range, breakout, retest *)

Record OrbVwapRetestSignal := OrbSignal {
  os_strategy_id : string; os_symbol : string; os_direction : string; os_confidence : float; os_rationale : string; os_score : float; os_quality : float;
  os_high : float; os_low : float; os_width : float; os_vwap : float; os_distance : float; os_cost : float }.

Record OrbState := Orb {
  orb_date : Z; orb_start : Z; orb_end : Z; orb_bars : Z; orb_high : option float; orb_low : option float; vwap_pv : float; vwap_volume : float;
  breakout_direction : option string; breakout_level : option float; breakout_price : option float; breakout_at : option Z;
  retest_deadline : option Z; signals_emitted : Z }.

Definition orb_fresh (date start end_ : Z) : OrbState := Orb date start end_ 0 None None fzero fzero None None None None None 0.

Definition set_range (bars : Z) (h l : option float) (s : OrbState) : OrbState :=
  Orb (orb_date s) (orb_start s) (orb_end s) bars h l (vwap_pv s) (vwap_volume s) (breakout_direction s) (breakout_level s) (breakout_price s)
    (breakout_at s) (retest_deadline s) (signals_emitted s).
Definition set_vwap (pv volume : float) (s : OrbState) : OrbState :=
  Orb (orb_date s) (orb_start s) (orb_end s) (orb_bars s) (orb_high s) (orb_low s) pv volume (breakout_direction s) (breakout_level s)
    (breakout_price s) (breakout_at s) (retest_deadline s) (signals_emitted s).
Definition set_breakout (dir : option string) (lvl price : option float) (at_ deadline : option Z) (s : OrbState) : OrbState :=
  Orb (orb_date s) (orb_start s) (orb_end s) (orb_bars s) (orb_high s) (orb_low s) (vwap_pv s) (vwap_volume s) dir lvl price at_ deadline
    (signals_emitted s).
Definition reset_breakout : OrbState → OrbState := set_breakout None None None None None.
Definition count_signal (s : OrbState) : OrbState :=
  Orb (orb_date s) (orb_start s) (orb_end s) (orb_bars s) (orb_high s) (orb_low s) (vwap_pv s) (vwap_volume s) (breakout_direction s)
    (breakout_level s) (breakout_price s) (breakout_at s) (retest_deadline s) (signals_emitted s + 1).

Record OrbParams := MkOrbParams {
  p_session : Z * Z; p_start : Z * Z; p_timeframe : Z; p_orb_minutes : Z; p_retest_bars : Z; p_max_signals : Z; p_cost : float;
  p_tags : list string; p_directions : list string; min_breakout : float; breakout_atr_mult : float; breakout_cost_mult : float;
  vwap_bias_cost_mult : float; min_retest : float; retest_cost_mult : float; retest_atr_mult : float; p_cost_ratio : float }.

Definition orb_id : string := "m1_us_orb_vwap_retest".
Definition orb_metadata : StrategyMetadata := Metadata "M1 US ORB + VWAP Retest Continuation" "0.1.0"
  ["open_5m"; "high_5m"; "low_5m"; "close_5m"; "volume_5m"; "atr_14_1h"; "session_tag_5m"] ["us_session"; "orb"; "vwap"; "retest"; "breakout"] 0.

Definition timeframe_of (c : StrategyContext) (entry : dict) : res Z :=
  timeframe_to_minutes (py_str (dget_or "timeframe" (if truthy (clock_timeframe c) then clock_timeframe c else VStr "5m") entry)).

(** The spread limit, the kill switch and the board: [false] ends the evaluation without a signal. *)
Definition market_open (c : StrategyContext) (filters : dict) (spread : float) : res bool :=
  spread_max ← coerce_float_or (dget "spread_max" filters) (of_Z (-1));
  Ok (negb (fgeb spread_max fzero && fgtb spread spread_max) &&
    negb (str_in (kill_switch_state (gate c)) (tokens_or (dget "kill_switch_blocked_states" filters) ["soft_stop"; "hard_stop"; "triggered"])) &&
    str_in (board_mode (gate c) (config c)) (tokens_or (dget "board_modes" filters) ["normal"; "guarded"])).

Definition orb_params (c : StrategyContext) : res (option OrbParams) :=
  let entry := entry_params (parameters c) in
  let filters := filter_params (parameters c) in
  let execution := execution_params (parameters c) in
  let session := parse_range (dget_or "session_utc_range" (dget_or "session_utc_range" (VStr "13-21") filters) entry) (13, 21) in
  let token := match dget "session_start_utc" entry with
    | VNone => VStr (if session.1 =? 13 then "13:30" else pad2 session.1 +:+ ":00")
    | v => v
    end in
  tf ← timeframe_of c entry;
  let minutes := Z.max tf (coerce_int (dget "orb_minutes" entry) 30) in
  let retest := Z.max 1 (coerce_int (dget "retest_max_bars" entry) 6) in
  let quota := Z.max 1 (coerce_int (dget "max_signals_per_session" entry) 1) in
  spread ← bounded (dget "spread" execution) fzero;
  slippage ← bounded (dget "slippage" execution) fzero;
  go ← market_open c filters spread;
  if negb go then Ok None
  else
    let num k d := bounded (dget k filters) d in
    a ← num "min_breakout_abs" (of_dec 3 (-2)); b ← num "breakout_atr_mult" (of_dec 25 (-2)); d ← num "breakout_cost_mult" (of_Z 3);
    e ← num "vwap_bias_cost_mult" (of_dec 5 (-1)); f ← num "retest_min_abs" (of_dec 1 (-2)); g ← num "retest_cost_mult" (of_dec 12 (-1));
    h ← num "retest_atr_mult" (of_dec 5 (-2)); ratio ← coerce_float_or (dget "max_cost_to_range_ratio" filters) (of_Z (-1));
    Ok (Some (MkOrbParams session (parse_hhmm token session.1) tf minutes retest quota (fadd spread slippage)
      (tokens_or (either_param "allowed_session_tags" entry filters) ["newyork"; "overlap"; "us"])
      (tokens_or (either_param "allowed_directions" entry filters) ["long"; "short"]) a b d e f g h ratio)).

Definition vwap_of (s : OrbState) : option float := if fgtb (vwap_volume s) fzero then Some (fdiv_ieee (vwap_pv s) (vwap_volume s)) else None.

Definition add_volume (b : bar) (s : OrbState) : OrbState :=
  if fgtb (b_volume b) fzero then set_vwap (fadd (vwap_pv s) (fmul (b_close b) (b_volume b))) (fadd (vwap_volume s) (b_volume b)) s else s.

Definition max3 (a b c : float) : float := fmax (fmax a b) c.

(** No breakout is followed yet: does this bar start one? *)
Definition orb_breakout (p : OrbParams) (now : Z) (b : bar) (vwap : float) (high low : float) (s : OrbState) : OrbState * res (option OrbVwapRetestSignal) :=
  let buf := max3 (min_breakout p) (fmul (b_atr b) (breakout_atr_mult p)) (fmul (p_cost p) (breakout_cost_mult p)) in
  let bias := fmul (p_cost p) (vwap_bias_cost_mult p) in
  let c := b_close b in
  let long := str_in "long" (p_directions p) && fgtb c (fadd high buf) && fgeb c (fadd vwap bias) in
  let short := str_in "short" (p_directions p) && fltb c (fsub low buf) && fleb c (fsub vwap bias) in
  if negb long && negb short then (s, Ok None)
  else
    let follow deadline := set_breakout (Some (if long then "long" else "short")) (Some (if long then high else low)) (Some c) (Some now) deadline s in
    match plus_minutes now (p_timeframe p * p_retest_bars p) with
    | Ok d => (follow (Some d), Ok None)
    | Raise e => (follow (retest_deadline s), Raise e)
    end.

(** The bar comes back to the VWAP and continues: touch, hold and continuation. *)
Definition retested (p : OrbParams) (b : bar) (vwap : float) (dir : string) (lvl price : float) : bool :=
  let tol := max3 (min_retest p) (fmul (p_cost p) (retest_cost_mult p)) (fmul (b_atr b) (retest_atr_mult p)) in
  let c := b_close b in
  if String.eqb dir "long"
  then fleb (b_low b) (fadd vwap tol) && (fgeb c vwap && fgeb c lvl) && (fgeb c price && fgeb c (b_open b))
  else fgeb (b_high b) (fsub vwap tol) && (fleb c vwap && fleb c lvl) && (fleb c price && fleb c (b_open b)).

Definition distance_of (dir : string) (lvl c : float) : float := if String.eqb dir "long" then fsub c lvl else fsub lvl c.

Definition orb_signal (p : OrbParams) (symbol dir : string) (b : bar) (vwap high low lvl : float) : OrbVwapRetestSignal :=
  let d := distance_of dir lvl (b_close b) in
  let q := quality_of d (p_cost p) in
  OrbSignal orb_id symbol dir (fround (fmin (of_Z 3) q) 4) "us_orb_breakout_vwap_retest_continue" (fround q 4) (fround q 4) (fround high 6) (fround low 6)
    (fround (fmax fzero (fsub high low)) 6) (fround vwap 6) (fround d 6) (fround (p_cost p) 6).

(** A breakout is followed: its deadline, its failure, its retest. *)
Definition orb_retest (p : OrbParams) (symbol : string) (now : Z) (b : bar) (vwap : option float) (high low : float) (dir : string) (s : OrbState)
    : OrbState * option OrbVwapRetestSignal :=
  if match retest_deadline s with Some d => d <? now | None => false end then (reset_breakout s, None)
  else match vwap with
  | None => (s, None)
  | Some vwap =>
      match breakout_level s, breakout_price s with
      | Some lvl, Some price =>
          if String.eqb dir "long" && fltb (b_close b) low || String.eqb dir "short" && fgtb (b_close b) high then (reset_breakout s, None)
          else if retested p b vwap dir lvl price then (reset_breakout (count_signal s), Some (orb_signal p symbol dir b vwap high low lvl))
          else (s, None)
      | _, _ => (reset_breakout s, None)
      end
  end.

(** One priced bar of an allowed session tag. *)
Definition orb_step (p : OrbParams) (symbol : string) (now : Z) (b : bar) (s : OrbState) : OrbState * res (option OrbVwapRetestSignal) :=
  let s := add_volume b s in
  if now <? orb_end s then (set_range (orb_bars s + 1) (Some (extend_high (orb_high s) (b_high b))) (Some (extend_low (orb_low s) (b_low b))) s, Ok None)
  else match orb_high s, orb_low s with
  | Some high, Some low =>
      if (orb_bars s <? Z.max 1 (p_orb_minutes p / p_timeframe p)) || too_costly (p_cost_ratio p) (p_cost p) (fmax fzero (fsub high low))
      then (s, Ok None)
      else match breakout_direction s with
      | None => match vwap_of s with Some vwap => orb_breakout p now b vwap high low s | None => (s, Ok None) end
      | Some dir => let r := orb_retest p symbol now b (vwap_of s) high low dir s in (r.1, Ok r.2)
      end
  | _, _ => (s, Ok None)
  end.

(** The plugin, its states by symbol. *)
Record OrbStrategy := MkOrbStrategy { orb_watchlist : list string; orb_states : list (string * OrbState); orb_context : option StrategyContext }.
Definition orb_init (dflt : list string) : OrbStrategy := MkOrbStrategy (if truthy dflt then dflt else ["USDJPY"]) [] None.
Definition set_orb_states (l : list (string * OrbState)) (s : OrbStrategy) : OrbStrategy := MkOrbStrategy (orb_watchlist s) l (orb_context s).

Definition in_orb_states {A} (m : M (list (string * OrbState)) A) : M OrbStrategy A := λ s,
  let r := m (orb_states s) in (r.1, set_orb_states r.2 s).

Definition orb_reads (p : OrbParams) (c : StrategyContext) (symbol : string) : option bar :=
  b ← read_bar (features c) symbol false; if priced b && str_in (b_tag b) (p_tags p) then Some b else None.

Definition orb_symbol (p : OrbParams) (c : StrategyContext) (ts : datetime) : string → M (list (string * OrbState)) (option OrbVwapRetestSignal) :=
  follow orb_date orb_start orb_fresh signals_emitted (p_max_signals p) (p_start p) ((p_session p).2 <? (p_session p).1) (p_orb_minutes p) ts
    (orb_reads p c) (λ symbol, orb_step p symbol (utc_us ts)).

Definition orb_generate_signals (c : StrategyContext) : M OrbStrategy (list OrbVwapRetestSignal) :=
  _ ← modify (λ s, MkOrbStrategy (orb_watchlist s) (orb_states s) (Some c));
  if negb (is_applicable orb_metadata c) then mret []
  else
    p ← lift (orb_params c);
    match p, clock_now c with
    | Some p, Some ts =>
        ts ← lift (normalize ts);
        if negb (in_session ts (p_session p)) then mret []
        else s ← get; l ← in_orb_states (mapM (orb_symbol p c ts) (symbols_of (watchlist c) (orb_watchlist s))); mret (somes l)
    | _, _ => mret []
    end.

(** * Compression, expansion *)

Record AsiaCompressionExpansionSignal := AsiaSignal {
  as_strategy_id : string; as_symbol : string; as_direction : string; as_confidence : float; as_rationale : string; as_score : float; as_quality : float;
  as_high : float; as_low : float; as_range : float; as_distance : float; as_atr : float; as_cost : float }.

Record AsiaState := Asia {
  asia_date : Z; asia_start : Z; asia_end : Z; c_bars : Z; c_high : option float; c_low : option float; c_range : option float; c_valid : bool;
  asia_emitted : Z }.
Definition asia_fresh (date start end_ : Z) : AsiaState := Asia date start end_ 0 None None None true 0.
Definition set_compression (bars : Z) (h l r : option float) (valid : bool) (s : AsiaState) : AsiaState :=
  Asia (asia_date s) (asia_start s) (asia_end s) bars h l r valid (asia_emitted s).
Definition count_asia (s : AsiaState) : AsiaState :=
  Asia (asia_date s) (asia_start s) (asia_end s) (c_bars s) (c_high s) (c_low s) (c_range s) (c_valid s) (asia_emitted s + 1).

Record AsiaParams := MkAsiaParams {
  a_session : Z * Z; a_breakout_session : Z * Z; a_start : Z * Z; a_timeframe : Z; a_minutes : Z; a_max_signals : Z; a_cost : float;
  a_tags : list string; a_directions : list string; a_aligned : bool; a_trend_min : float; a_min_volume : float; a_atr_min : float; a_atr_max : float;
  min_compression : float; compression_atr_mult : float; a_min_breakout : float; a_breakout_atr_mult : float; a_breakout_cost_mult : float;
  expansion_min : float; expansion_atr_mult : float; a_cost_ratio : float }.

Definition asia_id : string := "m1_asia_compression_expansion_breakout".
Definition asia_metadata : StrategyMetadata := Metadata "M1 Asia Compression Expansion Breakout" "0.1.0"
  ["open_5m"; "high_5m"; "low_5m"; "close_5m"; "volume_5m"; "atr_14_1h"; "session_tag_5m"; "regime_trend_1h"]
  ["asia_session"; "compression"; "expansion"; "breakout"] 0.

Definition asia_params (c : StrategyContext) : res (option AsiaParams) :=
  let entry := entry_params (parameters c) in
  let filters := filter_params (parameters c) in
  let execution := execution_params (parameters c) in
  let range k text d := parse_range (dget_or k (dget_or k (VStr text) filters) entry) d in
  let session := range "session_utc_range" "00-14" (0, 14) in
  tf ← timeframe_of c entry;
  let minutes := Z.max tf (coerce_int (dget "compression_minutes" entry) 360) in
  let quota := Z.max 1 (coerce_int (dget "max_signals_per_session" entry) 1) in
  spread ← bounded (dget "spread" execution) fzero;
  slippage ← bounded (dget "slippage" execution) fzero;
  go ← market_open c filters spread;
  if negb go then Ok None
  else
    let num k d := bounded (dget k filters) d in
    trend ← bounded (dget "trend_min_abs" entry) fzero;
    v ← num "min_volume" fzero; a0 ← num "atr_min" fzero; a1 ← coerce_float_or (dget "atr_max" filters) (of_Z (-1));
    m ← num "min_compression_abs" (of_dec 10 (-2)); n ← num "compression_atr_mult" (of_dec 90 (-2)); a ← num "min_breakout_abs" (of_dec 4 (-2));
    b ← num "breakout_atr_mult" (of_dec 30 (-2)); d ← num "breakout_cost_mult" (of_dec 25 (-1)); e ← num "expansion_min_abs" (of_dec 3 (-2));
    f ← num "expansion_atr_mult" (of_dec 10 (-2)); ratio ← coerce_float_or (dget "max_cost_to_range_ratio" filters) (of_Z (-1));
    Ok (Some (MkAsiaParams session (range "breakout_session_utc_range" "06-14" (6, 14))
      (parse_hhmm (dget_or "compression_start_utc" (VStr "00:00") entry) session.1) tf minutes quota (fadd spread slippage)
      (allowed_token_set (either_param "allowed_session_tags" entry filters))
      (tokens_or (either_param "allowed_directions" entry filters) ["long"; "short"])
      (truthy (dget_or "require_regime_alignment" (VBool false) entry)) trend v a0 a1 m n a b d e f ratio)).

(** The bars the plugin looks at. *)
Definition asia_admits (p : AsiaParams) (b : bar) : bool :=
  priced b && negb (fgtb (a_min_volume p) fzero && fltb (b_volume b) (a_min_volume p)) && negb (fltb (b_atr b) (a_atr_min p)) &&
  negb (fgeb (a_atr_max p) fzero && fgtb (b_atr b) (a_atr_max p)) && negb (truthy (a_tags p) && negb (str_in (b_tag b) (a_tags p))).

(** The range is measured once, by the first bar after the compression, and judged by the ATR of that bar. *)
Definition measure (p : AsiaParams) (b : bar) (high low : float) (s : AsiaState) : AsiaState :=
  match c_range s with
  | Some _ => s
  | None =>
      let r := fmax fzero (fsub high low) in
      let allowed := fmax (min_compression p) (fmul (b_atr b) (compression_atr_mult p)) in
      set_compression (c_bars s) (c_high s) (c_low s) (Some r) (c_valid s && negb (fleb r fzero) && negb (fgtb r allowed)) s
  end.

Definition asia_long (p : AsiaParams) (b : bar) (high : float) (enough : bool) (buf : float) : bool :=
  str_in "long" (a_directions p) && fgtb (b_close b) (fadd high buf) && fgeb (b_close b) (b_open b) && enough &&
  negb (a_aligned p && fgtb (a_trend_min p) fzero && fltb (b_trend b) (a_trend_min p)).
Definition asia_short (p : AsiaParams) (b : bar) (low : float) (enough : bool) (buf : float) : bool :=
  str_in "short" (a_directions p) && fltb (b_close b) (fsub low buf) && fleb (b_close b) (b_open b) && enough &&
  negb (a_aligned p && fgtb (a_trend_min p) fzero && fgtb (b_trend b) (fopp (a_trend_min p))).

Definition asia_signal (p : AsiaParams) (symbol dir : string) (b : bar) (high low r : float) : AsiaCompressionExpansionSignal :=
  let d := if String.eqb dir "long" then fsub (b_close b) high else fsub low (b_close b) in
  let q := quality_of d (a_cost p) in
  AsiaSignal asia_id symbol dir (fround (fmin (of_Z 3) q) 4) "asia_compression_expansion_breakout" (fround q 4) (fround q 4)
    (fround high 6) (fround low 6) (fround r 6) (fround d 6) (fround (b_atr b) 6) (fround (a_cost p) 6).

(** The breakout of a valid range [r]: its side, if any. *)
Definition asia_breakout (p : AsiaParams) (ts : datetime) (b : bar) (high low r : float) : option string :=
  if too_costly (a_cost_ratio p) (a_cost p) r || negb (in_session ts (a_breakout_session p)) then None
  else
    let buf := max3 (a_min_breakout p) (fmul (b_atr b) (a_breakout_atr_mult p)) (fmul (a_cost p) (a_breakout_cost_mult p)) in
    let enough := fgeb (fmax fzero (fsub (b_high b) (b_low b))) (fmax (expansion_min p) (fmul (b_atr b) (expansion_atr_mult p))) in
    if asia_long p b high enough buf then Some "long" else if asia_short p b low enough buf then Some "short" else None.

(** One admitted bar. *)
Definition asia_step (p : AsiaParams) (symbol : string) (ts : datetime) (b : bar) (s : AsiaState) : AsiaState * option AsiaCompressionExpansionSignal :=
  if utc_us ts <? asia_end s then
    (set_compression (c_bars s + 1) (Some (extend_high (c_high s) (b_high b))) (Some (extend_low (c_low s) (b_low b))) (c_range s) (c_valid s) s, None)
  else match c_high s, c_low s with
  | Some high, Some low =>
      if c_bars s <? Z.max 1 (a_minutes p / a_timeframe p) then (s, None)
      else
        let s := measure p b high low s in
        match c_range s with
        | Some r =>
            if negb (c_valid s) then (s, None)
            else match asia_breakout p ts b high low r with
            | Some dir => (count_asia s, Some (asia_signal p symbol dir b high low r))
            | None => (s, None)
            end
        | None => (s, None)
        end
  | _, _ => (s, None)
  end.

Record AsiaStrategy := MkAsiaStrategy { asia_watchlist : list string; asia_states : list (string * AsiaState); asia_context : option StrategyContext }.
Definition asia_init (dflt : list string) : AsiaStrategy := MkAsiaStrategy (if truthy dflt then dflt else ["USDJPY"]) [] None.
Definition set_asia_states (l : list (string * AsiaState)) (s : AsiaStrategy) : AsiaStrategy := MkAsiaStrategy (asia_watchlist s) l (asia_context s).

Definition in_asia_states {A} (m : M (list (string * AsiaState)) A) : M AsiaStrategy A := λ s,
  let r := m (asia_states s) in (r.1, set_asia_states r.2 s).

Definition asia_reads (p : AsiaParams) (c : StrategyContext) (symbol : string) : option bar :=
  b ← read_bar (features c) symbol true; if asia_admits p b then Some b else None.

Definition asia_symbol (p : AsiaParams) (c : StrategyContext) (ts : datetime)
    : string → M (list (string * AsiaState)) (option AsiaCompressionExpansionSignal) :=
  follow asia_date asia_start asia_fresh asia_emitted (a_max_signals p) (a_start p) ((a_session p).2 <? (a_session p).1) (a_minutes p) ts
    (asia_reads p c) (λ symbol b st, let r := asia_step p symbol ts b st in (r.1, Ok r.2)).

Definition asia_generate_signals (c : StrategyContext) : M AsiaStrategy (list AsiaCompressionExpansionSignal) :=
  _ ← modify (λ s, MkAsiaStrategy (asia_watchlist s) (asia_states s) (Some c));
  if negb (is_applicable asia_metadata c) then mret []
  else
    p ← lift (asia_params c);
    match p, clock_now c with
    | Some p, Some ts =>
        ts ← lift (normalize ts);
        if negb (in_session ts (a_session p)) then mret []
        else s ← get; l ← in_asia_states (mapM (asia_symbol p c ts) (symbols_of (watchlist c) (asia_watchlist s))); mret (somes l)
    | _, _ => mret []
    end.

(** * A symbol's quota of signals

    A plugin that follows sessions is described by its state's day, start and count
    of signals, and by a step that counts each signal it gives. *)

Section quota.
Context {T B Sig : Type} (date start emitted : T → Z) (fresh : Z → Z → Z → T) (name : Sig → string).
Hypothesis fresh_date : ∀ d a b, date (fresh d a b) = d.
Hypothesis fresh_emitted : ∀ d a b, emitted (fresh d a b) = 0.

Definition signalled (r : res (option Sig)) : Z := match r with Ok (Some _) => 1 | _ => 0 end.

(** Signals given for a symbol in the session of day [d]. *)
Definition used (d : Z) (l : list (string * T)) (k : string) : Z :=
  match dlookup k l with Some st => if date st =? d then emitted st else 0 | None => 0 end.

Definition count (k : string) (l : list Sig) : Z := Z.of_nat (length (List.filter (λ x, String.eqb (name x) k) l)).

(** The signals [sigs] are counted in the table [l'] that replaces [l], and no symbol exceeds [n]. *)
Definition accounts (d n : Z) (l l' : list (string * T)) (sigs : list Sig) : Prop :=
  ∀ k, used d l k <= n → count k sigs + used d l k = used d l' k ∧ used d l' k <= n.

Lemma count_app k a b : count k (a ++ b) = count k a + count k b.
Proof. unfold count. rewrite List.filter_app, length_app. lia. Qed.

Lemma accounts_nil d n l : accounts d n l l [].
Proof. intros k H. by split. Qed.

Lemma accounts_app d n l1 l2 l3 a b : accounts d n l1 l2 a → accounts d n l2 l3 b → accounts d n l1 l3 (a ++ b).
Proof. intros H1 H2 k Hk. destruct (H1 k Hk) as [? H]. destruct (H2 k H). rewrite count_app. lia. Qed.

(** At most 64 symbols, each once: no state is ever dropped. *)
Definition room (U : list string) (l : list (string * T)) : Prop := NoDup (keys l) ∧ ∀ k, k ∈ keys l → k ∈ U.

Lemma room_length U l : room U l → (length l ≤ length U)%nat.
Proof.
  intros [Hn Hs]. rewrite <- (length_fmap fst l : length (keys l) = length l). by apply submseteq_length, NoDup_submseteq.
Qed.

Lemma room_dset U k st l : k ∈ U → room U l → room U (dset k st l).
Proof.
  intros Hk [Hn Hs]. split; [by apply NoDup_dset|]. intros k'. rewrite keys_dset. destruct (dmem k l); [apply Hs|].
  intros [H| ->%list_elem_of_singleton]%elem_of_app; [by apply Hs|done].
Qed.

Lemma used_dset d k st l k' : used d (dset k st l) k' = if String.eqb k' k then (if date st =? d then emitted st else 0) else used d l k'.
Proof.
  unfold used. destruct (String.eqb_spec k' k) as [->|Hk]; [by rewrite dlookup_dset_eq|by rewrite dlookup_dset_ne].
Qed.

Section session.
Variables (U : list string) (d : Z) (quota : Z) (hm : Z * Z) (wraps : bool) (minutes : Z) (ts : datetime).
Hypothesis few : (length U ≤ 64)%nat.
Hypothesis today : session_date ts hm wraps = Ok d.

Lemma resolve_used k l o l' : room U l → k ∈ U → resolve_state date start fresh l k ts hm wraps minutes = Ok (o, l') →
  room U l' ∧ (∀ k', used d l' k' = used d l k') ∧ ∀ st, o = Some st → dlookup k l' = Some st ∧ date st = d.
Proof.
  intros Hr Hk. unfold resolve_state. rewrite today. cbn [mbind res_bind].
  destruct (_ <? _); [intros [= <- <-]; by split_and!|]. destruct (plus_minutes _ _) as [e|]; [|done]. cbn [mbind res_bind].
  set (st := fresh d _ e).
  assert (used d l k = 0 → Ok (Some st, keep_recent start (dset k st l)) = Ok (o, l') →
    room U l' ∧ (∀ k', used d l' k' = used d l k') ∧ ∀ st, o = Some st → dlookup k l' = Some st ∧ date st = d) as Hnew.
  { intros Hu. pose proof (room_dset U k st l Hk Hr) as Hr'. unfold keep_recent. pose proof (room_length U _ Hr').
    rewrite (proj2 (Nat.ltb_ge 64 _)) by lia. intros [= <- <-]. split; [done|]. split.
    - intros k'. rewrite used_dset. destruct (String.eqb_spec k' k) as [->|]; [|done]. subst st. by rewrite fresh_date, Z.eqb_refl, fresh_emitted, Hu.
    - intros ? [= <-]. split; [apply dlookup_dset_eq|apply fresh_date]. }
  unfold used in Hnew at 1. destruct (dlookup k l) as [st'|] eqn:El; [|by apply Hnew].
  destruct (Z.eqb_spec (date st') d) as [Hd|]; [|by apply Hnew]. intros [= <- <-]. split; [done|]. split; [done|]. by intros ? [= <-].
Qed.

Variables (read : string → option B) (step : string → B → T → T * res (option Sig)).
Hypothesis step_counts : ∀ k b st, date (step k b st).1 = date st ∧ emitted (step k b st).1 = emitted st + signalled (step k b st).2.

Abbreviation one := (follow date start fresh emitted quota hm wraps minutes ts read step).

Lemma follow_used k l r l' : room U l → k ∈ U → one k l = (r, l') →
  room U l' ∧ (∀ k', used d l' k' = used d l k' + if String.eqb k' k then signalled r else 0) ∧ (signalled r = 1 → used d l' k <= quota).
Proof.
  intros Hr Hk. assert (∀ l1, room U l1 → (∀ k', used d l1 k' = used d l k') → signalled r = 0 → room U l1 ∧
    (∀ k', used d l1 k' = used d l k' + if String.eqb k' k then signalled r else 0) ∧ (signalled r = 1 → used d l1 k <= quota)) as H0.
  { intros l1 H1 H2 H3. rewrite H3. split; [done|]. split; [intros k'; rewrite H2; destruct (String.eqb k' k); lia|lia]. }
  unfold follow. rewrite bind_run. cbn [get]. rewrite bind_run. unfold lift at 1.
  destruct (resolve_state _ _ _ _ _ _ _ _ _) as [[o l1]|] eqn:Ers; [|intros [= <- <-]; by apply H0].
  destruct (resolve_used k l o l1 Hr Hk Ers) as (Hr1 & Hu1 & Ho). rewrite bind_run. cbn [modify].
  destruct o as [st|]; [|intros [= <- <-]; by apply H0]. destruct (Ho st eq_refl) as [Hl Hd].
  destruct (Z.leb_spec quota (emitted st)); [intros [= <- <-]; by apply H0|].
  destruct (read k) as [b|]; [|intros [= <- <-]; by apply H0].
  destruct (step_counts k b st) as [Hd' He']. destruct (step k b st) as [st' r'] eqn:Es. cbn [fst snd] in *.
  rewrite bind_run. cbn [modify]. unfold lift. cbn [fst snd]. intros [= <- <-].
  assert (used d l1 k = emitted st) as Hus by (unfold used; rewrite Hl, (proj2 (Z.eqb_eq _ _) Hd); done).
  assert (put_state k st' l1 = dset k st' l1) as -> by (unfold put_state, dmem; by rewrite Hl).
  split; [by apply room_dset|]. assert (∀ k', used d (dset k st' l1) k' = used d l k' + if String.eqb k' k then signalled r' else 0) as Hu.
  { intros k'. rewrite used_dset, <- Hu1. destruct (String.eqb_spec k' k) as [->|]; [|lia].
    rewrite Hd', (proj2 (Z.eqb_eq _ _) Hd), He'. lia. }
  split; [exact Hu|]. intros H1. rewrite Hu, String.eqb_refl, <- Hu1. lia.
Qed.

Hypothesis named : ∀ k l sig l', one k l = (Ok (Some sig), l') → name sig = k.

Lemma follow_all n ks l os l' : quota <= n → room U l → (∀ k, k ∈ ks → k ∈ U) → mapM one ks l = (Ok os, l') →
  room U l' ∧ accounts d n l l' (somes os).
Proof.
  intros Hn. revert l os. induction ks as [|k ks IH]; intros l os Hr Hks; cbn [mapM]; [intros [= <- <-]; split; [done|apply accounts_nil]|].
  rewrite bind_run. destruct (one k l) as [[o|e] l1] eqn:E; [|done]. rewrite bind_run.
  destruct (follow_used k l (Ok o) l1 Hr (Hks k ltac:(left)) E) as (Hr1 & Hu1 & Hq).
  destruct (mapM one ks l1) as [[os'|e] l2] eqn:E2; [|done]. intros [= <- <-].
  destruct (IH l1 os' Hr1 ltac:(intros; apply Hks; by right) E2) as [Hr2 Ha]. split; [done|].
  change (somes (o :: os')) with (match o with Some x => x :: somes os' | None => somes os' end).
  assert (somes (o :: os') = somes [o] ++ somes os') as Hs by by destruct o. change (match o with Some x => x :: somes os' | None => somes os' end) with (somes (o :: os')).
  rewrite Hs. apply (accounts_app d n l l1 l2); [|exact Ha]. intros k' Hk'. destruct o as [sig|]; cbn [signalled] in Hu1, Hq.
  - rewrite (Hu1 k'). unfold count, somes. cbn. rewrite (named k l sig l1 E). rewrite (String.eqb_sym k k').
    destruct (String.eqb_spec k' k) as [->|]; cbn; [|lia]. specialize (Hq eq_refl). rewrite (Hu1 k), String.eqb_refl in Hq. lia.
  - rewrite (Hu1 k'). unfold count, somes. cbn. destruct (String.eqb k' k); lia.
Qed.
End session.
End quota.

(** ** Opening range breakout *)

Lemma orb_step_counts p k now b st : orb_date (orb_step p k now b st).1 = orb_date st ∧
  signals_emitted (orb_step p k now b st).1 = signals_emitted st + signalled (orb_step p k now b st).2.
Proof.
  unfold orb_step. assert (orb_date (add_volume b st) = orb_date st ∧ signals_emitted (add_volume b st) = signals_emitted st) as [<- <-]
    by (unfold add_volume; by destruct (fgtb _ _)).
  generalize (add_volume b st). clear st. intros st. destruct (now <? orb_end st); [cbn; lia|].
  destruct (orb_high st) as [hi|]; [|cbn; lia]. destruct (orb_low st) as [lo|]; [|cbn; lia].
  destruct (_ || _); [cbn; lia|]. destruct (breakout_direction st) as [dir|].
  - unfold orb_retest. destruct (match retest_deadline st with Some _ => _ | None => _ end); [cbn; lia|].
    destruct (vwap_of st); [|cbn; lia]. destruct (breakout_level st); [|cbn; lia]. destruct (breakout_price st); [|cbn; lia].
    destruct (_ || _); [cbn; lia|]. destruct (retested _ _ _ _ _ _); cbn; lia.
  - destruct (vwap_of st); [|cbn; lia]. unfold orb_breakout. destruct (_ && _); [cbn; lia|]. destruct (plus_minutes _ _); cbn; lia.
Qed.

Lemma orb_step_named p k now b st x : (orb_step p k now b st).2 = Ok (Some x) → os_symbol x = k.
Proof.
  unfold orb_step. generalize (add_volume b st). clear st. intros st. destruct (now <? orb_end st); [done|].
  destruct (orb_high st) as [hi|]; [|done]. destruct (orb_low st) as [lo|]; [|done]. destruct (_ || _); [done|].
  destruct (breakout_direction st) as [dir|].
  - unfold orb_retest. destruct (match retest_deadline st with Some _ => _ | None => _ end); [done|].
    destruct (vwap_of st); [|done]. destruct (breakout_level st); [|done]. destruct (breakout_price st); [|done].
    destruct (_ || _); [done|]. destruct (retested _ _ _ _ _ _); [|done]. by intros [= <-].
  - destruct (vwap_of st); [|done]. unfold orb_breakout. destruct (_ && _); [done|]. by destruct (plus_minutes _ _).
Qed.

Lemma follow_named {T B Sig} (date start emitted : T → Z) fresh (name : Sig → string) q hm wraps minutes ts read (step : string → B → T → T * res (option Sig)) :
  (∀ k b st x, (step k b st).2 = Ok (Some x) → name x = k) →
  ∀ k l x l', follow date start fresh emitted q hm wraps minutes ts read step k l = (Ok (Some x), l') → name x = k.
Proof.
  intros Hs k l x l'. unfold follow. rewrite bind_run. cbn [get]. rewrite bind_run. unfold lift at 1.
  destruct (resolve_state _ _ _ _ _ _ _ _ _) as [[o l1]|]; [|done]. rewrite bind_run. cbn [modify].
  destruct o as [st|]; [|done]. destruct (_ <=? _); [done|]. destruct (read k) as [b|]; [|done]. rewrite bind_run. cbn [modify]. unfold lift.
  intros [= H _]. by apply (Hs k b st).
Qed.

(** Every evaluation of [c] that gets as far as the symbols falls into the session of
    day [d] and allows at most [n] signals; its symbols are among [U]. *)
Definition orb_during (U : list string) (d n : Z) (w : list string) (c : StrategyContext) : Prop :=
  (∀ k, k ∈ symbols_of (watchlist c) w → k ∈ U) ∧
  ∀ p ts ts', orb_params c = Ok (Some p) → clock_now c = Some ts → normalize ts = Ok ts' →
    session_date ts' (p_start p) ((p_session p).2 <? (p_session p).1) = Ok d ∧ p_max_signals p <= n.

Lemma orb_call U d n c l s s' : (length U ≤ 64)%nat → room U (orb_states s) → orb_during U d n (orb_watchlist s) c →
  orb_generate_signals c s = (Ok l, s') → orb_watchlist s' = orb_watchlist s ∧ room U (orb_states s') ∧
  accounts orb_date signals_emitted os_symbol d n (orb_states s) (orb_states s') l.
Proof.
  intros HU Hr [Hw Hd]. unfold orb_generate_signals. rewrite bind_run. cbn [modify].
  set (s1 := MkOrbStrategy _ _ _).
  assert ((Ok [], s1) = (Ok l, s') → orb_watchlist s' = orb_watchlist s ∧ room U (orb_states s') ∧
    accounts orb_date signals_emitted os_symbol d n (orb_states s) (orb_states s') l) as H0.
  { intros [= <- <-]. split; [done|]. split; [exact Hr|apply accounts_nil]. }
  destruct (negb _); [exact H0|]. rewrite bind_run. unfold lift. destruct (orb_params c) as [[p|]|] eqn:Ep; [|exact H0|done].
  destruct (clock_now c) as [ts|] eqn:Ets; [|exact H0]. rewrite bind_run. destruct (normalize ts) as [ts'|] eqn:En; [|done].
  destruct (negb _); [exact H0|]. rewrite bind_run. cbn [get]. rewrite bind_run. unfold in_orb_states.
  destruct (Hd p ts ts' eq_refl eq_refl En) as [Hday Hq]. change (orb_states s1) with (orb_states s). change (orb_watchlist s1) with (orb_watchlist s).
  destruct (mapM (orb_symbol p c ts') _ (orb_states s)) as [[os|e] l'] eqn:Em; cbn [fst snd]; [|done]. intros [= <- <-]. split; [done|].
  change (orb_states (set_orb_states l' s1)) with l'.
  refine (follow_all _ _ _ _ os_symbol (λ _ _ _, eq_refl) (λ _ _ _, eq_refl) U d _ _ _ _ _ HU Hday _ _ _ _ n _ _ _ _ Hq Hr Hw Em).
  - intros k b st. apply orb_step_counts.
  - apply follow_named. intros k b st x. apply orb_step_named.
Qed.

(** C15. In the evaluations of one session the opening range plugin gives for each symbol
    at most as many signals as the session still allows, however many bars, breakouts
    and retests there are; what it has given is what its state counts. *)
Theorem orb_respects_quota U d n cs ls s s' : (length U ≤ 64)%nat → room U (orb_states s) → Forall (orb_during U d n (orb_watchlist s)) cs →
  mapM orb_generate_signals cs s = (Ok ls, s') → ∀ k, used orb_date signals_emitted d (orb_states s) k <= n →
  count os_symbol k (concat ls) + used orb_date signals_emitted d (orb_states s) k = used orb_date signals_emitted d (orb_states s') k ∧
  count os_symbol k (concat ls) <= n - used orb_date signals_emitted d (orb_states s) k.
Proof.
  intros HU Hr Hc Hm. enough (accounts orb_date signals_emitted os_symbol d n (orb_states s) (orb_states s') (concat ls)) as Ha.
  { intros k Hk. destruct (Ha k Hk). lia. }
  revert s ls Hr Hc Hm. induction cs as [|c cs IH]; intros s ls Hr Hc; cbn [mapM]; [intros [= <- <-]; apply accounts_nil|].
  apply Forall_cons in Hc as [Hc Hcs]. rewrite bind_run. destruct (orb_generate_signals c s) as [[l|] s1] eqn:E; [|done].
  destruct (orb_call U d n c l s s1 HU Hr Hc E) as (Hw1 & Hr1 & Ha1). rewrite bind_run.
  destruct (mapM orb_generate_signals cs s1) as [[ls'|] s2] eqn:E2; [|done]. intros [= <- <-]. rewrite <- Hw1 in Hcs.
  exact (accounts_app _ _ _ _ _ _ _ _ _ _ Ha1 (IH s1 ls' Hr1 Hcs E2)).
Qed.

(** ** Compression breakout *)

Lemma measure_kept p b h l s : asia_date (measure p b h l s) = asia_date s ∧ asia_emitted (measure p b h l s) = asia_emitted s.
Proof. unfold measure. by destruct (c_range s). Qed.

Lemma asia_step_spec p k ts b st : let r := asia_step p k ts b st in
  asia_date r.1 = asia_date st ∧ asia_emitted r.1 = asia_emitted st + signalled (Ok r.2) ∧ ∀ x, r.2 = Some x → as_symbol x = k.
Proof.
  cbv zeta. unfold asia_step. destruct (_ <? asia_end st); [cbn; split_and!; [done|lia|done]|].
  destruct (c_high st) as [hi|]; [|cbn; split_and!; [done|lia|done]]. destruct (c_low st) as [lo|]; [|cbn; split_and!; [done|lia|done]].
  destruct (c_bars st <? _); [cbn; split_and!; [done|lia|done]|]. destruct (measure_kept p b hi lo st) as [<- <-].
  generalize (measure p b hi lo st). clear st. intros st.
  destruct (c_range st) as [r|]; [|cbn; split_and!; [done|lia|done]]. destruct (negb (c_valid st)); [cbn; split_and!; [done|lia|done]|].
  destruct (asia_breakout p ts b hi lo r) as [dir|]; cbn; (split_and!; [done|lia|]); [by intros x [= <-]|done].
Qed.

Definition asia_during (U : list string) (d n : Z) (w : list string) (c : StrategyContext) : Prop :=
  (∀ k, k ∈ symbols_of (watchlist c) w → k ∈ U) ∧
  ∀ p ts ts', asia_params c = Ok (Some p) → clock_now c = Some ts → normalize ts = Ok ts' →
    session_date ts' (a_start p) ((a_session p).2 <? (a_session p).1) = Ok d ∧ a_max_signals p <= n.

Lemma asia_call U d n c l s s' : (length U ≤ 64)%nat → room U (asia_states s) → asia_during U d n (asia_watchlist s) c →
  asia_generate_signals c s = (Ok l, s') → asia_watchlist s' = asia_watchlist s ∧ room U (asia_states s') ∧
  accounts asia_date asia_emitted as_symbol d n (asia_states s) (asia_states s') l.
Proof.
  intros HU Hr [Hw Hd]. unfold asia_generate_signals. rewrite bind_run. cbn [modify].
  set (s1 := MkAsiaStrategy _ _ _).
  assert ((Ok [], s1) = (Ok l, s') → asia_watchlist s' = asia_watchlist s ∧ room U (asia_states s') ∧
    accounts asia_date asia_emitted as_symbol d n (asia_states s) (asia_states s') l) as H0.
  { intros [= <- <-]. split; [done|]. split; [exact Hr|apply accounts_nil]. }
  destruct (negb _); [exact H0|]. rewrite bind_run. unfold lift. destruct (asia_params c) as [[p|]|] eqn:Ep; [|exact H0|done].
  destruct (clock_now c) as [ts|] eqn:Ets; [|exact H0]. rewrite bind_run. destruct (normalize ts) as [ts'|] eqn:En; [|done].
  destruct (negb _); [exact H0|]. rewrite bind_run. cbn [get]. rewrite bind_run. unfold in_asia_states.
  destruct (Hd p ts ts' eq_refl eq_refl En) as [Hday Hq]. change (asia_states s1) with (asia_states s). change (asia_watchlist s1) with (asia_watchlist s).
  destruct (mapM (asia_symbol p c ts') _ (asia_states s)) as [[os|e] l'] eqn:Em; cbn [fst snd]; [|done]. intros [= <- <-]. split; [done|].
  change (asia_states (set_asia_states l' s1)) with l'.
  refine (follow_all _ _ _ _ as_symbol (λ _ _ _, eq_refl) (λ _ _ _, eq_refl) U d _ _ _ _ _ HU Hday _ _ _ _ n _ _ _ _ Hq Hr Hw Em).
  - intros k b st. cbv zeta. cbn [fst snd]. destruct (asia_step_spec p k ts' b st) as (? & ? & _). done.
  - apply follow_named. intros k b st x. cbn [fst snd]. intros [= H]. by apply (asia_step_spec p k ts' b st).
Qed.

(** The compression plugin respects the quota of a session in the same way. *)
Theorem asia_respects_quota U d n cs ls s s' : (length U ≤ 64)%nat → room U (asia_states s) → Forall (asia_during U d n (asia_watchlist s)) cs →
  mapM asia_generate_signals cs s = (Ok ls, s') → accounts asia_date asia_emitted as_symbol d n (asia_states s) (asia_states s') (concat ls).
Proof.
  intros HU Hr Hc Hm. revert s ls Hr Hc Hm. induction cs as [|c cs IH]; intros s ls Hr Hc; cbn [mapM]; [intros [= <- <-]; apply accounts_nil|].
  apply Forall_cons in Hc as [Hc Hcs]. rewrite bind_run. destruct (asia_generate_signals c s) as [[l|] s1] eqn:E; [|done].
  destruct (asia_call U d n c l s s1 HU Hr Hc E) as (Hw1 & Hr1 & Ha1). rewrite bind_run.
  destruct (mapM asia_generate_signals cs s1) as [[ls'|] s2] eqn:E2; [|done]. intros [= <- <-]. rewrite <- Hw1 in Hcs.
  exact (accounts_app _ _ _ _ _ _ _ _ _ _ Ha1 (IH s1 ls' Hr1 Hcs E2)).
Qed.

(** * A session *)

Definition price (m : Z) : feature := Series [VFloat (of_dec m (-2))].
Definition sample_bar (minute : Z) (o h l c : Z) : StrategyContext :=
  SContext (Features ["USDJPY"] ["5m"; "1h"] (required_features asia_metadata) VNone [("USDJPY", [
      ("5m", [("open_5m", price o); ("high_5m", price h); ("low_5m", price l); ("close_5m", price c); ("volume_5m", price 10000);
        ("session_tag_5m", Scalar (VStr "us"))]);
      ("1h", [("atr_14_1h", price 10); ("regime_trend_1h", price 0)])])])
    VNone VNone VNone VNone [] (Some (DateTime 2026 3 20 13 minute 0 0 (Some 0))) (VStr "5m") 0
    (VDict [("entry", VDict [("orb_minutes", VInt 5); ("compression_minutes", VInt 5); ("compression_start_utc", VStr "13:30")])]).
(** The opening range, a breakout above it, its retest, and a second bar like it. *)
Definition sample_session : list StrategyContext := [
  sample_bar 30 15010 15020 15000 15010; sample_bar 35 15020 15045 15020 15040; sample_bar 40 15030 15050 15020 15045; sample_bar 45 15030 15060 15020 15055].

Example session_signals_once : match mapM orb_generate_signals sample_session (orb_init []) with
  | (Ok ls, s) => map (map os_direction) ls = [[]; []; ["long"]; []] ∧ map (λ kv, signals_emitted kv.2) (orb_states s) = [1]
  | _ => False
  end.
Proof. vm_compute. split; reflexivity. Qed.

Lemma sample_params minute o h l c : orb_params (sample_bar minute o h l c) = orb_params (sample_bar 30 0 0 0 0).
Proof. reflexivity. Qed.

Lemma sample_during m o h l c : m ∈ [30; 35; 40; 45] → orb_during ["USDJPY"] 20532 1 ["USDJPY"] (sample_bar m o h l c).
Proof.
  intros Hm. split; [by intros k Hk%elem_of_isort|]. intros p ts ts' Hps [= <-] Hn. rewrite sample_params in Hps. vm_compute in Hps. injection Hps as <-.
  repeat (apply elem_of_cons in Hm as [->|Hm]; [injection Hn as <-; split; [by vm_compute|done]|]). by apply not_elem_of_nil in Hm.
Qed.

Lemma sample_session_during : Forall (orb_during ["USDJPY"] 20532 1 ["USDJPY"]) sample_session.
Proof. repeat (apply Forall_cons; split; [apply sample_during; set_solver|]). constructor. Qed.

Lemma room_start : room ["USDJPY"] (orb_states (orb_init [])).
Proof. split; [constructor|by intros ? ?%not_elem_of_nil]. Qed.

Lemma orb_respects_quota_witness : ∃ ls s', mapM orb_generate_signals sample_session (orb_init []) = (Ok ls, s') ∧
  count os_symbol "USDJPY" (concat ls) + used orb_date signals_emitted 20532 (orb_states (orb_init [])) "USDJPY" =
    used orb_date signals_emitted 20532 (orb_states s') "USDJPY" ∧
  count os_symbol "USDJPY" (concat ls) <= 1 - used orb_date signals_emitted 20532 (orb_states (orb_init [])) "USDJPY".
Proof.
  destruct (mapM orb_generate_signals sample_session (orb_init [])) as [[ls|] s'] eqn:E; [|vm_compute in E; discriminate E].
  exists ls, s'. split; [reflexivity|].
  apply (orb_respects_quota ["USDJPY"] 20532 1 sample_session ls (orb_init []) s'); [apply Nat.leb_le; reflexivity|exact room_start|exact sample_session_during|exact E|].
  change (0 <= 1). lia.
Defined.
