(* ===== verification/RoundNumber.v ===== *)
(** The candidate contract of [src/contract.py] and the plugin that emits such
    candidates, the round-number rejection of
    [src/strategies/round_number_rejection.py]. *)

From S2P Require Import Prelude PyFloat PyVal PyEnv Calendar SessionBreakout.

Local Open Scope Z_scope.
Local Open Scope py_scope.

(** * The contract *)

(** Annotations are not enforced, so a field is any value; a timestamp that is no
    [datetime] is the name of its type. *)
Record Candidate := MkCandidate {
  strategy_id : pyval; symbol : pyval; side : pyval; entry : pyval; stop : pyval; target : pyval; expected_edge : pyval; estimated_cost : pyval;
  confidence : pyval; expected_holding_minutes : pyval; portfolio_group : pyval; exposure_bucket : pyval; regime_fit : pyval;
  timestamp : datetime + string }.

Definition CandidateContractError (msg : string) : exn := OtherError "CandidateContractError" msg.

Definition type_name (v : pyval) : string :=
  match v with VNone => "NoneType" | VBool _ => "bool" | VInt _ => "int" | VFloat _ => "float" | VStr _ => "str" | VList _ => "list" | VDict _ => "dict" end.

Definition require_str (name : string) (v : pyval) : res unit :=
  match v with
  | VStr s => if truthy s then Ok tt else Raise (CandidateContractError (name +:+ " must be a non-empty str, got " +:+ py_repr v))
  | _ => Raise (CandidateContractError (name +:+ " must be a non-empty str, got " +:+ py_repr v))
  end.

Definition require_number (name : string) (v : pyval) : res float :=
  match v with
  | VInt _ | VFloat _ => py_float v
  | _ => Raise (CandidateContractError (name +:+ " must be numeric (int or float), got " +:+ type_name v))
  end.

Definition require (b : bool) (msg : string) : res unit := if b then Ok tt else Raise (CandidateContractError msg).

Definition is_positive_int (v : pyval) : bool := match v with VInt z => 0 <? z | _ => false end.

Definition price_sides (long : bool) (entry stop target : float) : res unit :=
  if long then require (fltb stop entry && fltb entry target)
    ("long candidate requires stop < entry < target, got stop=" +:+ frepr stop +:+ ", entry=" +:+ frepr entry +:+ ", target=" +:+ frepr target)
  else require (fltb target entry && fltb entry stop)
    ("short candidate requires target < entry < stop, got target=" +:+ frepr target +:+ ", entry=" +:+ frepr entry +:+ ", stop=" +:+ frepr stop).

Definition validate_candidate (c : Candidate) : res unit :=
  _ ← require_str "strategy_id" (strategy_id c);
  _ ← require_str "symbol" (symbol c);
  _ ← require_str "portfolio_group" (portfolio_group c);
  _ ← require_str "exposure_bucket" (exposure_bucket c);
  _ ← require (eq_str (side c) "long" || eq_str (side c) "short") ("side must be 'long' or 'short', got " +:+ py_repr (side c));
  entry ← require_number "entry" (entry c);
  stop ← require_number "stop" (stop c);
  target ← require_number "target" (target c);
  _ ← require_number "expected_edge" (expected_edge c);
  cost ← require_number "estimated_cost" (estimated_cost c);
  _ ← require (negb (fltb cost fzero)) ("estimated_cost must be >= 0, got " +:+ frepr cost);
  conf ← require_number "confidence" (confidence c);
  _ ← require (fleb fzero conf && fleb conf (of_Z 1)) ("confidence must be within [0.0, 1.0], got " +:+ frepr conf);
  fit ← require_number "regime_fit" (regime_fit c);
  _ ← require (fleb (of_Z (-1)) fit && fleb fit (of_Z 1)) ("regime_fit must be within [-1.0, 1.0], got " +:+ frepr fit);
  _ ← require (is_positive_int (expected_holding_minutes c))
    ("expected_holding_minutes must be a positive int, got " +:+ py_repr (expected_holding_minutes c));
  _ ← match timestamp c with
    | inl t => require (negb (is_naive t)) "timestamp must be timezone-aware (UTC preferred)"
    | inr t => Raise (CandidateContractError ("timestamp must be a datetime, got " +:+ t))
    end;
  price_sides (eq_str (side c) "long") entry stop target.

Definition required_field_names : list string := [
  "strategy_id"; "symbol"; "side"; "entry"; "stop"; "target"; "expected_edge"; "estimated_cost"; "confidence"; "expected_holding_minutes";
  "portfolio_group"; "exposure_bucket"; "regime_fit"; "timestamp"].

(** * Round-number rejection *)

Definition ROUND_LEVELS : list float := [fzero; of_dec 5 (-1)].
Definition SESSION_START_HOUR : Z := 6.
Definition SESSION_END_HOUR : Z := 16.
Definition MIN_ATR : float := of_dec 60 (-2).
Definition STOP_PIPS : float := of_dec 15 (-2).
Definition TARGET_PIPS : float := of_dec 15 (-2).
Definition COOLDOWN_BARS : Z := 6.
Definition STRATEGY_ID : string := "round_number_rejection".
Definition PORTFOLIO_GROUP : string := "microstructure".
Definition EXPOSURE_BUCKET : string := "jpy_intraday".

Record RoundNumber := Round { touched_today : list float; last_signal_date : option Z; bars_since_signal : Z }.
Definition round_init : RoundNumber := Round [] None COOLDOWN_BARS.

Definition reset_daily (day : Z) (s : RoundNumber) : RoundNumber :=
  if bool_decide (last_signal_date s = Some day) then s else Round [] (Some day) (bars_since_signal s).

(** [x % 1] of a finite float: exact for a positive one, rounded once for a negative. *)
Definition fmod1 (x : float) : float := match ffloor x with Ok z => fsub x (of_Z z) | Raise _ => S754_nan end.

Definition f_in (x : float) (l : list float) : bool := existsb (feqb x) l.

Definition is_round_level (low high level : float) : bool := f_in (fround (fmod1 level) 2) ROUND_LEVELS && fleb low level && fleb level high.

(** The scan from [level] upwards in steps of a half, to the first round level of the
    bar that was not touched; [None] when the fuel ends first. *)
Fixpoint first_touch (fuel : nat) (low high : float) (touched : list float) (level : float) : option (option float) :=
  if fleb level (fadd high (of_dec 1 (-3))) then
    match fuel with
    | O => None
    | S fuel =>
        if is_round_level low high level && negb (f_in level touched) then Some (Some level)
        else first_touch fuel low high touched (fadd level (of_dec 5 (-1)))
    end
  else Some None.

Record tick := Tick { tk_time : datetime; tk_open : float; tk_high : float; tk_low : float; tk_close : float; tk_atr : float; tk_cost : float }.

(** Side, entry, stop and target for a level approached from below or from above. *)
Definition trade_at (from_below : bool) (level : float) : string * float * float * float :=
  if from_below then let entry := fsub level (of_dec 3 (-3)) in ("short", entry, fadd level STOP_PIPS, fsub entry TARGET_PIPS)
  else let entry := fadd level (of_dec 3 (-3)) in ("long", entry, fsub level STOP_PIPS, fadd entry TARGET_PIPS).

Definition confidence_of (atr : float) : float := fmin (of_dec 85 (-2)) (fadd (of_dec 5 (-1)) (fmul (fsub atr MIN_ATR) (of_dec 5 (-1)))).
Definition regime_of (atr : float) : float := fmin (of_Z 1) (fmax (of_Z (-1)) (fdiv_ieee (fsub atr MIN_ATR) MIN_ATR)).

Definition candidate_at (t : tick) (utc_ts : datetime) (level : float) : Candidate :=
  let '(side, entry, stop, target) := trade_at (fltb (tk_open t) level) level in
  MkCandidate (VStr STRATEGY_ID) (VStr "USDJPY") (VStr side) (VFloat (fround entry 3)) (VFloat (fround stop 3)) (VFloat (fround target 3))
    (VFloat (fround (fsub TARGET_PIPS (tk_cost t)) 6)) (VFloat (fround (tk_cost t) 6)) (VFloat (fround (confidence_of (tk_atr t)) 4)) (VInt 45)
    (VStr PORTFOLIO_GROUP) (VStr EXPOSURE_BUCKET) (VFloat (fround (regime_of (tk_atr t)) 4)) (inl utc_ts).

(** The gates before the cooldown: an aware time, the hours, the weekday, the ATR. *)
Definition bar_admitted (t : tick) (utc_ts : datetime) : bool :=
  ((SESSION_START_HOUR <=? dt_hour utc_ts) && (dt_hour utc_ts <? SESSION_END_HOUR)) &&
  negb (5 <=? (date_of utc_ts + 3) mod 7) && negb (fltb (tk_atr t) MIN_ATR).

(** The generator run to its end: its candidates, or the exception it stops with; the
    outer [None] is the end of the fuel. *)
Definition generate (fuel : nat) (t : tick) (s : RoundNumber) : option (res (list Candidate) * RoundNumber) :=
  if is_naive (tk_time t) then Some (Ok [], s)
  else match astimezone_utc (tk_time t) with
  | Raise e => Some (Raise e, s)
  | Ok utc_ts =>
      if negb (bar_admitted t utc_ts) then Some (Ok [], s)
      else if bars_since_signal s <? COOLDOWN_BARS then Some (Ok [], Round (touched_today s) (last_signal_date s) (bars_since_signal s + 1))
      else
        let s := reset_daily (date_of utc_ts) s in
        match ftrunc (fmul (tk_low t) (of_Z 2)) with
        | Raise e => Some (Raise e, s)
        | Ok z =>
            match first_touch fuel (tk_low t) (tk_high t) (touched_today s) (of_ratio z 2) with
            | None => None
            | Some None => Some (Ok [], s)
            | Some (Some level) => Some (Ok [candidate_at t utc_ts level], Round (touched_today s ++ [level]) (last_signal_date s) 0)
            end
        end
  end.

(** A run over bars, until one raises or the fuel of a scan ends. *)
Fixpoint run (fuel : nat) (ts : list tick) (s : RoundNumber) : option (list Candidate * RoundNumber) :=
  match ts with
  | [] => Some ([], s)
  | t :: ts =>
      match generate fuel t s with
      | Some (Ok l, s) => match run fuel ts s with Some (ls, s) => Some (l ++ ls, s) | None => None end
      | _ => None
      end
  end.

(** * The scan ends *)

(** Equality of floats as data. *)
Definition same (a b : float) : bool :=
  match a, b with
  | S754_finite s m e, S754_finite s' m' e' => Bool.eqb s s' && Pos.eqb m m' && Z.eqb e e'
  | S754_zero s, S754_zero s' | S754_infinity s, S754_infinity s' => Bool.eqb s s'
  | S754_nan, S754_nan => true
  | _, _ => false
  end.

Lemma same_eq a b : same a b = true → a = b.
Proof.
  destruct a, b; cbn; try done; rewrite ?andb_true_iff, ?Bool.eqb_true_iff, ?Pos.eqb_eq, ?Z.eqb_eq; naive_solver.
Qed.

(** A property of the multiples of a half below 1001, by computing all of them. *)
Lemma halves_forall (P : Z → bool) : forallb P (seqZ 0 2002) = true → ∀ k, 0 <= k <= 2001 → P k = true.
Proof.
  rewrite forallb_forall. intros H k Hk. apply H, list_elem_of_In, elem_of_seqZ. lia.
Qed.

Lemma half_step k : 0 <= k <= 2001 → fadd (of_ratio k 2) (of_dec 5 (-1)) = of_ratio (k + 1) 2.
Proof.
  intros Hk. apply same_eq. revert k Hk. apply (halves_forall (λ k, same (fadd (of_ratio k 2) (of_dec 5 (-1))) (of_ratio (k + 1) 2))).
  vm_compute. reflexivity.
Qed.

(** Below 1000 the scan takes at most 2002 steps; the level it finds is a multiple of
    a half inside the bar that was not touched. *)
Lemma first_touch_ends fuel low high touched k : fleb (fadd high (of_dec 1 (-3))) (of_Z 1000) = true → 0 <= k <= 2001 → 2001 - k <= Z.of_nat fuel →
  ∃ r, first_touch fuel low high touched (of_ratio k 2) = Some r ∧ ∀ level, r = Some level →
    f_in level touched = false ∧ fleb low level = true ∧ fleb level high = true ∧ ∃ j, 0 <= j <= 2001 ∧ level = of_ratio j 2.
Proof.
  intros Hh. revert k. induction fuel as [|fuel IH]; intros k Hk Hf.
  - assert (k = 2001) as -> by lia. exists None. split; [|done]. cbn [first_touch].
    destruct (fleb (of_ratio 2001 2) _) eqn:E; [|done]. by pose proof (fleb_trans _ _ _ E Hh).
  - cbn [first_touch]. destruct (fleb (of_ratio k 2) _) eqn:E; [|by exists None].
    destruct (is_round_level low high (of_ratio k 2) && _) eqn:El.
    + eexists. split; [done|]. intros level [= <-]. unfold is_round_level in El. rewrite !andb_true_iff, negb_true_iff in El.
      destruct El as [[[_ ?] ?] ?]. split_and!; [done..|]. by exists k.
    + assert (k ≠ 2001) by (intros ->; by pose proof (fleb_trans _ _ _ E Hh)). rewrite half_step by done. apply IH; lia.
Qed.

(** A bar with prices the scan is made for. *)
Definition priced_below_1000 (t : tick) : Prop :=
  fleb (fadd (tk_high t) (of_dec 1 (-3))) (of_Z 1000) = true ∧ ∃ z, ftrunc (fmul (tk_low t) (of_Z 2)) = Ok z ∧ 0 <= z <= 2001.

Definition scan_fuel : nat := 2001.

(** * The candidates *)

(** Rounded to three digits, entry, stop and target keep their order at every level. *)
Lemma sides_hold k below : 0 <= k <= 2001 → let '(side, entry, stop, target) := trade_at below (of_ratio k 2) in
  price_sides (String.eqb side "long") (fround entry 3) (fround stop 3) (fround target 3) = Ok tt ∧
  (side = "long" ∨ side = "short").
Proof.
  assert (∀ b k, 0 <= k <= 2001 → (let '(side, entry, stop, target) := trade_at b (of_ratio k 2) in
    is_ok (price_sides (String.eqb side "long") (fround entry 3) (fround stop 3) (fround target 3))) = true) as H.
  { intros b. apply (halves_forall (λ k, let '(side, entry, stop, target) := trade_at b (of_ratio k 2) in
      is_ok (price_sides (String.eqb side "long") (fround entry 3) (fround stop 3) (fround target 3)))). destruct b; vm_compute; reflexivity. }
  intros Hk. specialize (H below k Hk). destruct (trade_at below (of_ratio k 2)) as [[[side en] st] ta] eqn:E.
  split; [by destruct (price_sides _ _ _ _) as [[]|]|]. unfold trade_at in E. destruct below; injection E as <- _ _ _; [by right|by left].
Qed.

(** The values of the bar that the contract still has to judge. *)
Definition judged (t : tick) : Prop :=
  fltb (fround (tk_cost t) 6) fzero = false ∧
  (fleb fzero (fround (confidence_of (tk_atr t)) 4) && fleb (fround (confidence_of (tk_atr t)) 4) (of_Z 1)) = true ∧
  (fleb (of_Z (-1)) (fround (regime_of (tk_atr t)) 4) && fleb (fround (regime_of (tk_atr t)) 4) (of_Z 1)) = true.

Lemma candidate_contract t ts k : is_naive ts = false → 0 <= k <= 2001 →
  validate_candidate (candidate_at t ts (of_ratio k 2)) = Ok tt ↔ judged t.
Proof.
  intros Ht Hk. unfold candidate_at, judged. pose proof (sides_hold k (fltb (tk_open t) (of_ratio k 2)) Hk) as H.
  destruct (trade_at _ _) as [[[sd en] sto] ta]. destruct H as [Hp Hs].
  unfold validate_candidate. cbn [strategy_id symbol side entry stop target expected_edge estimated_cost confidence expected_holding_minutes
    portfolio_group exposure_bucket regime_fit timestamp require_str require_number py_float mbind res_bind].
  change (truthy STRATEGY_ID) with true. change (truthy "USDJPY") with true. change (truthy PORTFOLIO_GROUP) with true. change (truthy EXPOSURE_BUCKET) with true.
  cbn [mbind res_bind eq_str is_positive_int].
  assert ((String.eqb sd "long" || String.eqb sd "short") = true) as -> by (by destruct Hs as [-> | ->]). cbn [require mbind res_bind].
  rewrite Ht. cbn [negb]. unfold require. destruct (fltb (fround (tk_cost t) 6) fzero); cbn [negb mbind res_bind]; [naive_solver|].
  destruct (fleb fzero _ && _); cbn [mbind res_bind]; [|naive_solver]. destruct (fleb (of_Z (-1)) _ && _); cbn [mbind res_bind]; [|naive_solver].
  change (0 <? 45) with true. cbn [mbind res_bind]. by rewrite Hp.
Qed.

Lemma astimezone_utc_aware d u : astimezone_utc d = Ok u → is_naive u = false.
Proof.
  unfold astimezone_utc. destruct (to_utc_us d) as [us|]; [|done]. intros [= <-]. unfold from_utc_us. by destruct (civil_from_days _) as [[? ?] ?].
Qed.


(** * Signals of a run *)

Lemma generate_spaced fuel t s l s' : 0 <= bars_since_signal s <= 6 → generate fuel t s = Some (Ok l, s') →
  0 <= bars_since_signal s' <= 6 ∧ 7 * Z.of_nat (length l) + bars_since_signal s' <= 1 + bars_since_signal s.
Proof.
  intros Hb. unfold generate. destruct (is_naive (tk_time t)); [intros [= <- <-]; cbn; lia|].
  destruct (astimezone_utc (tk_time t)) as [u|]; [|done]. destruct (bar_admitted t u); cbn [negb]; [|intros [= <- <-]; cbn; lia].
  change COOLDOWN_BARS with 6. destruct (Z.ltb_spec (bars_since_signal s) 6); [intros [= <- <-]; cbn; lia|].
  assert (bars_since_signal (reset_daily (date_of u) s) = bars_since_signal s) as Hr by (unfold reset_daily; by case_bool_decide).
  destruct (ftrunc _) as [z|]; [|done]. destruct (first_touch _ _ _ _ _) as [[level|]|]; [| |done]; intros [= <- <-].
  - cbn. lia.
  - rewrite Hr. cbn. lia.
Qed.

(** Whatever bars come in whatever order, two signals are at least seven bars apart:
    [n] bars give at most one signal per seven, and one more when the cooldown of the
    start is over. *)
Theorem signals_are_spaced fuel ts s cs s' : 0 <= bars_since_signal s <= 6 → run fuel ts s = Some (cs, s') →
  7 * Z.of_nat (length cs) <= Z.of_nat (length ts) + bars_since_signal s.
Proof.
  intros Hb Hr. enough (0 <= bars_since_signal s' <= 6 ∧ 7 * Z.of_nat (length cs) + bars_since_signal s' <= Z.of_nat (length ts) + bars_since_signal s) by lia.
  revert s cs Hb Hr. induction ts as [|t ts IH]; intros s cs Hb; cbn [run]; [intros [= <- <-]; cbn; lia|].
  destruct (generate fuel t s) as [[[l|e] s1]|] eqn:E; [|done..]. destruct (generate_spaced fuel t s l s1 Hb E) as [Hb1 H1].
  destruct (run fuel ts s1) as [[ls s2]|] eqn:E2; [|done]. intros [= <- <-]. destruct (IH s1 ls Hb1 E2). rewrite length_app. cbn [length]. lia.
Qed.

(** New levels, none of them among the old ones or twice. *)
Fixpoint anew (old : list float) (levels : list float) : Prop :=
  match levels with [] => True | x :: l => f_in x old = false ∧ anew (old ++ [x]) l end.

Lemma anew_app old a b : anew old a → anew (old ++ a) b → anew old (a ++ b).
Proof.
  revert old. induction a as [|x a IH]; intros old; [by rewrite app_nil_r|]. cbn [anew app]. intros [Hx Ha] Hb. split; [done|]. apply IH; [done|]. by rewrite <- app_assoc.
Qed.

Definition day_of (t : tick) (d : Z) : Prop := ∀ u, astimezone_utc (tk_time t) = Ok u → date_of u = d.

Lemma generate_levels fuel t s l s' d : day_of t d → generate fuel t s = Some (Ok l, s') → ∃ levels,
  touched_today (reset_daily d s') = touched_today (reset_daily d s) ++ levels ∧ anew (touched_today (reset_daily d s)) levels ∧ length levels = length l.
Proof.
  intros Hd. unfold generate. destruct (is_naive (tk_time t)); [intros [= <- <-]; exists []; by rewrite app_nil_r|].
  destruct (astimezone_utc (tk_time t)) as [u|] eqn:Eu; [|done]. destruct (bar_admitted t u); cbn [negb]; [|intros [= <- <-]; exists []; by rewrite app_nil_r].
  destruct (_ <? _).
  { intros [= <- <-]. exists []. rewrite app_nil_r. split; [|done]. unfold reset_daily. cbn. by case_bool_decide. }
  rewrite (Hd u Eu). assert (reset_daily d (reset_daily d s) = reset_daily d s) as Hi.
  { unfold reset_daily. destruct (bool_decide (last_signal_date s = Some d)) eqn:E; [by rewrite E|]. cbn. by rewrite (bool_decide_eq_true_2 (Some d = Some d)). }
  destruct (ftrunc _) as [z|]; [|done]. destruct (first_touch _ _ _ _ _) as [[level|]|] eqn:Ef; [| |done]; intros [= <- <-].
  - exists [level]. assert (last_signal_date (reset_daily d s) = Some d) as Hl by (unfold reset_daily; by case_bool_decide).
    split; [|split; [|done]]; [unfold reset_daily at 1; cbn; by rewrite Hl, (bool_decide_eq_true_2 (Some d = Some d))|]. split; [|done].
    revert Ef. generalize (of_ratio z 2). induction fuel as [|fuel IH]; intros x; cbn [first_touch]; destruct (fleb x _); [done|done| |done].
    destruct (is_round_level _ _ x && _) eqn:E; [|apply IH]. intros [= ->]. apply andb_true_iff in E as [_ E]. by apply negb_true_iff in E.
  - exists []. rewrite app_nil_r, Hi. done.
Qed.

(** On one UTC day every signal is for a level of its own. *)
Theorem levels_signalled_once fuel ts s cs s' d : Forall (λ t, day_of t d) ts → run fuel ts s = Some (cs, s') → ∃ levels,
  touched_today (reset_daily d s') = touched_today (reset_daily d s) ++ levels ∧ anew (touched_today (reset_daily d s)) levels ∧ length levels = length cs.
Proof.
  intros Ht. revert s cs. induction Ht as [|t ts Hd Ht IH]; intros s cs; cbn [run]; [intros [= <- <-]; exists []; by rewrite app_nil_r|].
  destruct (generate fuel t s) as [[[l|e] s1]|] eqn:E; [|done..]. destruct (generate_levels fuel t s l s1 d Hd E) as (l1 & E1 & Ha1 & Hn1).
  destruct (run fuel ts s1) as [[ls s2]|] eqn:E2; [|done]. intros [= <- <-]. destruct (IH s1 ls E2) as (l2 & E3 & Ha2 & Hn2).
  exists (l1 ++ l2). rewrite E3, E1, app_assoc. split; [done|]. rewrite E1 in Ha2. split; [by apply anew_app|]. rewrite !length_app. lia.
Qed.

(** * Behaviours worth knowing *)

Definition at_minute (m : Z) (low high : Z) (atr : float) : tick :=
  Tick (DateTime 2026 3 20 9 m 0 0 (Some 0)) (of_dec low (-2)) (of_dec high (-2)) (of_dec low (-2)) (of_dec high (-2)) atr (of_dec 2 (-2)).
Definition atr_ok : float := of_dec 12 (-1).


(** That candidate meets the contract. *)
Example usual_bar_judged : judged (at_minute 0 14990 15010 atr_ok).
Proof. split_and!; vm_compute; reflexivity. Qed.

(** An ATR that is not a number passes the filter, with the highest confidence. *)
Example nan_atr_is_confident : ∃ c s', generate scan_fuel (at_minute 0 14990 15010 S754_nan) round_init = Some (Ok [c], s') ∧
  confidence c = VFloat (of_dec 85 (-2)) ∧ regime_fit c = VFloat (of_Z (-1)) ∧ validate_candidate c = Ok tt.
Proof. eexists _, _. split; [vm_compute; reflexivity|]. split_and!; vm_compute; reflexivity. Qed.

(** A level touched during the cooldown is not remembered: its next touch signals. *)
Example cooldown_touch_is_forgotten :
  let quiet m := at_minute m 15010 15020 atr_ok in
  let bars := [at_minute 0 14990 15010 atr_ok; at_minute 5 15040 15060 atr_ok; quiet 10; quiet 15; quiet 20; quiet 25; quiet 30; at_minute 35 15040 15060 atr_ok] in
  match run scan_fuel bars round_init with Some (cs, s) => length cs = 2%nat ∧ touched_today s = [of_Z 150; of_dec 1505 (-1)] | None => False end.
Proof. vm_compute. split; reflexivity. Qed.

(** The entry is three tenths of a pip from the level, at two digits a pip. *)
Example entry_offset : (trade_at true (of_Z 150)).1.1.2 = fsub (of_Z 150) (of_dec 3 (-3)).
Proof. reflexivity. Qed.

Lemma signals_are_spaced_witness : ∃ cs s', run scan_fuel [at_minute 0 14990 15010 atr_ok; at_minute 5 15040 15060 atr_ok] round_init = Some (cs, s') ∧
  7 * Z.of_nat (length cs) <= Z.of_nat (length [at_minute 0 14990 15010 atr_ok; at_minute 5 15040 15060 atr_ok]) + bars_since_signal round_init.
Proof.
  destruct (run scan_fuel [at_minute 0 14990 15010 atr_ok; at_minute 5 15040 15060 atr_ok] round_init) as [[cs s']|] eqn:E; [|vm_compute in E; discriminate E].
  exists cs, s'. split; [reflexivity|]. apply (signals_are_spaced scan_fuel _ round_init cs s'); [split; discriminate|exact E].
Defined.
