(* ===== verification/Manifest.v ===== *)
(** The strategy manifest of [src/strategies/registry.py]: life cycles, metadata,
    entries, the checks of a manifest that is loaded, watchlists, and the rotation
    of the registry's logs.  The engine that runs a manifest is in Registry. *)

From S2P Require Import Prelude PyFloat PyVal PyEnv Calendar Strategy.

Local Open Scope Z_scope.
Local Open Scope py_scope.

Definition ManifestLoadError (msg : string) : exn := OtherError "ManifestLoadError" msg.
Definition ManifestValidationError (msg : string) : exn := OtherError "ManifestValidationError" msg.

(** * Life cycles *)

Record StrategyLifecycle := Lifecycle {
  lc_status : string; last_validated_at : datetime; expires_at : option datetime; deprecated_after_days : Z; runbook_ref : option string }.

Definition days_us (n : Z) : Z := n * 86400000000.

(** The status at an instant. *)
Definition status_at (l : StrategyLifecycle) (us : Z) : string :=
  if String.eqb (lc_status l) "blocked" then "blocked"
  else if String.eqb (lc_status l) "deprecated" then "deprecated"
  else if match expires_at l with Some e => utc_us e <=? us | None => false end then "deprecated"
  else if days_us (deprecated_after_days l) <? us - utc_us (last_validated_at l) then "deprecated"
  else lc_status l.

Section clock.
Context `{Env} {S : Type} `{HasWorld S}.

Definition as_utc (d : option datetime) : M S datetime := match d with None => now_utc | Some d => lift (normalize d) end.

Definition lifecycle_status (l : StrategyLifecycle) (now : option datetime) : M S string := d ← as_utc now; mret (status_at l (utc_us d)).
Definition is_stale (l : StrategyLifecycle) (now : option datetime) : M S bool := st ← lifecycle_status l now; mret (String.eqb st "deprecated").
End clock.

(** * Entries *)

Record StrategyEntry := Entry {
  enabled : bool; priority : Z; weight : float; entry_metadata : StrategyMetadata; feature_flags : list (string * bool);
  entry_watchlist : option (list string); lifecycle : option StrategyLifecycle; entry_parameters : dict; determinism_key : string }.

Record StrategyManifest := MkManifest {
  schema_version : string; manifest_name : string; revision_tag : string; last_reviewed_at : datetime; notes : option string;
  strategies : list (string * StrategyEntry) }.

(** The first occurrences, after each element is cleaned; the error for an empty one. *)
Fixpoint clean_all (clean : string → string) (err : string) (l acc : list string) : res (list string) :=
  match l with
  | [] => Ok acc
  | x :: l =>
      let t := clean x in
      if negb (truthy t) then Raise (ValueError err) else clean_all clean err l (if str_in t acc then acc else acc ++ [t])
  end.

Definition normalise_required_features (values : list string) : res (list string) :=
  l ← clean_all strip "required_features entries must be non-empty strings" values [];
  if truthy l then Ok l else Raise (ValueError "required_features must contain at least one entry").

Definition normalise_watchlist (value : option (list string)) : res (option (list string)) :=
  match value with
  | None => Ok None
  | Some v => l ← clean_all (upper ∘ strip) "Watchlist symbols must be non-empty strings" v []; Ok (if truthy l then Some l else None)
  end.

Definition validate_determinism_key (value : string) : res string :=
  if truthy (strip value) then Ok (strip value) else Raise (ValueError "determinism_key must be a non-empty string").

Definition normalise_timestamps (l : StrategyLifecycle) : res StrategyLifecycle :=
  v ← normalize (last_validated_at l);
  e ← match expires_at l with Some e => e ← normalize e; Ok (Some e) | None => Ok None end;
  Ok (Lifecycle (lc_status l) v e (deprecated_after_days l) (runbook_ref l)).

(** [Field(ge=.., le=..)] and the literals of the status *)
Definition field_in (b : bool) : res unit := if b then Ok tt else Raise (ValueError "Input should be in range").
Definition STATUSES : list string := ["draft"; "active"; "deprecated"; "blocked"].

Definition validate_lifecycle_model (l : StrategyLifecycle) : res StrategyLifecycle :=
  _ ← field_in (str_in (lc_status l) STATUSES && in_range 7 (deprecated_after_days l) 365);
  normalise_timestamps l.

Definition validate_entry (e : StrategyEntry) : res StrategyEntry :=
  let m := entry_metadata e in
  _ ← field_in (in_range 0 (priority e) 255 && fleb fzero (weight e) && fleb (weight e) (of_Z 1));
  fs ← normalise_required_features (required_features m);
  w ← normalise_watchlist (entry_watchlist e);
  lc ← match lifecycle e with Some l => l ← validate_lifecycle_model l; Ok (Some l) | None => Ok None end;
  key ← validate_determinism_key (determinism_key e);
  Ok (Entry (enabled e) (priority e) (weight e) (Metadata (name m) (version m) fs (tags m) (seed_offset m)) (feature_flags e) w lc
    (entry_parameters e) key).

Section status.
Context `{Env} {S : Type} `{HasWorld S}.
Definition entry_status (e : StrategyEntry) (now : option datetime) : M S string :=
  match lifecycle e with None => mret (if enabled e then "active" else "draft") | Some l => lifecycle_status l now end.
End status.

(** * The manifest *)

Fixpoint ensure_strategies (l acc : list (string * StrategyEntry)) : res (list (string * StrategyEntry)) :=
  match l with
  | [] => Ok acc
  | (k, e) :: l =>
      if negb (truthy (strip k)) then Raise (ValueError "Strategy identifiers must be non-empty strings") else ensure_strategies l (dset (strip k) e acc)
  end.

Definition enabled_strategies (m : StrategyManifest) : list (string * StrategyEntry) := List.filter (λ kv, enabled kv.2) (strategies m).

Definition validate_weights (l : list (string * StrategyEntry)) : res unit :=
  if fgtb (fsum (map (λ kv, weight kv.2) (List.filter (λ kv, enabled kv.2) l))) (fadd (of_Z 1) (of_dec 1 (-9)))
  then Raise (ValueError "Sum of enabled strategy weights must not exceed 1.0") else Ok tt.

Definition with_strategies (l : list (string * StrategyEntry)) (m : StrategyManifest) : StrategyManifest :=
  MkManifest (schema_version m) (manifest_name m) (revision_tag m) (last_reviewed_at m) (notes m) l.

(** The validators of the model, on what the model's parser made of the payload. *)
Definition validate_model (m : StrategyManifest) : res StrategyManifest :=
  es ← mapM_res (λ kv : string * StrategyEntry, e ← validate_entry kv.2; Ok (kv.1, e)) (strategies m);
  _ ← (if truthy es then Ok tt else Raise (ValueError "Manifest must declare at least one strategy entry"));
  l ← ensure_strategies es [];
  _ ← validate_weights l;
  Ok (with_strategies l m).

Definition difference (a b : list string) : list string := List.filter (λ x, negb (str_in x b)) a.
Definition inter (a b : list string) : list string := List.filter (λ x, str_in x b) a.

(** Symbols without blanks around them, in upper case, each once. *)
Definition normalise_symbol_set (symbols : list string) : list string :=
  remove_dups (map upper (List.filter (λ t, truthy t) (map strip symbols))).

(** What each enabled entry lacks. *)
Definition lacking (f : StrategyEntry → list string) (m : StrategyManifest) : list (string * list string) :=
  List.filter (λ kv, truthy kv.2) (map (λ kv : string * StrategyEntry, (kv.1, f kv.2)) (enabled_strategies m)).

Definition refuse (msg : string) (l : list (string * list string)) : res unit :=
  if truthy l then Raise (ManifestValidationError (msg +:+ ": " +:+ py_repr (VDict (map (λ kv, (kv.1, VList (map VStr (sorted_strings kv.2)))) l)))) else Ok tt.

Definition validate_feature_contract (m : StrategyManifest) (available : list string) : res unit :=
  refuse "Strategy manifest references unavailable features" (lacking (λ e, difference (required_features (entry_metadata e)) available) m).

Definition validate_watchlists (m : StrategyManifest) (available_symbols : list string) : res unit :=
  let set := normalise_symbol_set available_symbols in
  refuse "Strategy watchlist references symbols missing from feature context" (lacking (λ e, difference (default [] (entry_watchlist e)) set) m).

Section manifest.
Context `{Env} {S : Type} `{HasWorld S}.
(** The model's parser: field types and coercions, before any validator. *)
Variable parse_model : pyval → res StrategyManifest.

Definition from_dict (payload : pyval) : res StrategyManifest :=
  match (m ← parse_model payload; validate_model m) with
  | Ok m => Ok m
  | Raise _ => Raise (ManifestValidationError "Strategy manifest validation failed")
  end.

(** The watchlists of the enabled entries that are not deprecated; all symbols when there is none. *)
Fixpoint watched (l : list (string * StrategyEntry)) (set : list string) (now : option datetime) : M S (list string) :=
  match l with
  | [] => mret []
  | (_, e) :: l =>
      st ← entry_status e now;
      rest ← watched l set now;
      mret (if String.eqb st "deprecated" then rest else inter (default [] (entry_watchlist e)) set ++ rest)
  end.

Definition resolve_watchlist (m : StrategyManifest) (available_symbols : list string) (now : option datetime) : M S (list string) :=
  let set := normalise_symbol_set available_symbols in
  _ ← lift (validate_watchlists m set);
  l ← watched (enabled_strategies m) set now;
  mret (if truthy l then remove_dups l else set).

Fixpoint stale_entries (l : list (string * StrategyEntry)) (reference : datetime) : M S (list (string * string)) :=
  match l with
  | [] => mret []
  | (k, e) :: l =>
      st ← entry_status e (Some reference);
      why ← (if String.eqb st "deprecated" then
        stale ← match lifecycle e with Some lc => is_stale lc (Some reference) | None => mret false end;
        mret [(k, if stale : bool then "validation stale (> deprecated_after_days)" else "status=deprecated")]
      else mret []);
      rest ← stale_entries l reference;
      mret (why ++ rest)
  end.

Definition validate_lifecycle (m : StrategyManifest) (now : option datetime) : M S unit :=
  reference ← as_utc now;
  stale ← stale_entries (enabled_strategies m) reference;
  if truthy stale then raise (ManifestValidationError ("Enabled strategies have lapsed lifecycle status: " +:+
    join ", " (map (λ kv, kv.1 +:+ ": " +:+ kv.2) stale))) else mret tt.

Definition load (path : string) (file : document) : M S StrategyManifest :=
  match file with
  | None => raise (ManifestLoadError ("Manifest file does not exist: " +:+ path))
  | Some None => raise (ManifestLoadError "Failed to parse manifest YAML")
  | Some (Some payload) =>
      m ← lift (from_dict payload);
      _ ← validate_lifecycle m None;
      mret m
  end.
End manifest.

(** * Logs of bounded size *)

(** The text after the first newline, if there is one. *)
Definition newline : ascii := ascii_of_N 10.
Definition after_newline (s : string) : option string := snd <$> split_once newline s.

Definition str_len (s : string) : Z := Z.of_nat (String.length s).
Definition str_drop (n : Z) (s : string) : string := String.substring (Z.to_nat n) (String.length s - Z.to_nat n) s.

Definition tail_bytes (content : string) (keep_bytes : Z) : string :=
  if keep_bytes <=? 0 then ""
  else if str_len content <=? keep_bytes then content
  else let t := str_drop (str_len content - keep_bytes) content in default t (after_newline t).

Definition maybe_rotate_log (content : option string) (max_bytes : option Z) (keep_bytes : Z) : option string :=
  match max_bytes, content with
  | Some m, Some s => if (m <=? 0) || (str_len s <=? m) then content else Some (tail_bytes s keep_bytes)
  | _, _ => content
  end.

(** [_int_env]: blank or unreadable is the default, not positive is no limit. *)
Definition int_env (raw : option string) (dflt : option Z) : option Z :=
  match raw with
  | None => dflt
  | Some s =>
      if negb (truthy (strip s)) then dflt
      else match parse_int s with None => dflt | Some v => if v <=? 0 then None else Some v end
  end.

(** * Well-formed manifests *)

Definition well_formed_entry (e : StrategyEntry) : Prop :=
  0 <= priority e <= 255 ∧ fleb fzero (weight e) = true ∧ fleb (weight e) (of_Z 1) = true ∧
  required_features (entry_metadata e) ≠ [] ∧ NoDup (required_features (entry_metadata e)) ∧
  (∀ w, entry_watchlist e = Some w → w ≠ [] ∧ NoDup w) ∧ determinism_key e ≠ "" ∧
  ∀ l, lifecycle e = Some l → lc_status l ∈ STATUSES ∧ is_naive (last_validated_at l) = false ∧
    match expires_at l with Some d => is_naive d = false | None => True end.

Definition well_formed (m : StrategyManifest) : Prop :=
  strategies m ≠ [] ∧ NoDup (keys (strategies m)) ∧ Forall (λ kv, kv.1 ≠ "" ∧ well_formed_entry kv.2) (strategies m) ∧ validate_weights (strategies m) = Ok tt.

Lemma clean_all_spec clean err l acc r : clean_all clean err l acc = Ok r → NoDup acc → NoDup r.
Proof.
  revert acc. induction l as [|x l IH]; intros acc; cbn [clean_all]; [by intros [= <-]|].
  destruct (negb _); [done|]. intros H Hn. apply (IH _ H). destruct (str_in (clean x) acc) eqn:E; [done|].
  apply str_in_false in E. apply NoDup_app. split_and!; [done| |apply NoDup_singleton]. by intros y Hy ->%list_elem_of_singleton.
Qed.

Lemma truthy_list_ne {A} (l : list A) : truthy l = true → l ≠ [].
Proof. by destruct l. Qed.
Lemma truthy_string_ne (s : string) : truthy s = true → s ≠ "".
Proof. by intros H ->. Qed.

Lemma field_in_Ok b u : field_in b = Ok u → b = true.
Proof. by destruct b. Qed.

Lemma normalize_aware d r : normalize d = Ok r → is_naive r = false.
Proof. by intros [_ H]%normalize_Ok. Qed.

Lemma validate_lifecycle_model_spec l l' : validate_lifecycle_model l = Ok l' → lc_status l' ∈ STATUSES ∧ is_naive (last_validated_at l') = false ∧
  match expires_at l' with Some d => is_naive d = false | None => True end.
Proof.
  unfold validate_lifecycle_model, normalise_timestamps. destruct (field_in _) as [u|] eqn:Ef; [|done].
  apply field_in_Ok, andb_true_iff in Ef as [Hs _]. apply str_in_spec in Hs. cbn [mbind res_bind].
  destruct (normalize (last_validated_at l)) as [v|] eqn:Ev; [|done]. cbn [mbind res_bind]. apply normalize_aware in Ev.
  destruct (expires_at l) as [e|]; [destruct (normalize e) as [e'|] eqn:Ee; [|done]; apply normalize_aware in Ee|]; cbn [mbind res_bind]; by intros [= <-].
Qed.

Lemma validate_entry_spec e e' : validate_entry e = Ok e' → well_formed_entry e'.
Proof.
  unfold validate_entry. destruct (field_in _) as [u|] eqn:Ef; [|done]. apply field_in_Ok in Ef. rewrite !andb_true_iff in Ef.
  destruct Ef as [[Hp Hw0] Hw1]. cbn [mbind res_bind].
  unfold normalise_required_features. destruct (clean_all strip _ _ _) as [fs|] eqn:Efs; [|done]. cbn [mbind res_bind].
  destruct (truthy fs) eqn:Et; [|done]. cbn [mbind res_bind]. apply clean_all_spec in Efs; [|constructor].
  destruct (normalise_watchlist (entry_watchlist e)) as [w|] eqn:Ew; [|done]. cbn [mbind res_bind].
  destruct (match lifecycle e with Some _ => _ | None => _ end) as [lc|] eqn:El; [|done]. cbn [mbind res_bind].
  unfold validate_determinism_key. destruct (truthy (strip (determinism_key e))) eqn:Ek; [|done]. cbn [mbind res_bind]. intros [= <-].
  unfold well_formed_entry. cbn [priority weight entry_metadata required_features entry_watchlist determinism_key lifecycle].
  split; [unfold in_range in Hp; lia|]. split_and!; [done|done|by apply truthy_list_ne|done| |by apply truthy_string_ne|].
  - unfold normalise_watchlist in Ew. destruct (entry_watchlist e) as [v|]; [|by injection Ew as <-].
    destruct (clean_all _ _ v []) as [l|] eqn:Ec; [|done]. cbn [mbind res_bind] in Ew. injection Ew as <-. apply clean_all_spec in Ec; [|constructor].
    intros x. destruct (truthy l) eqn:E; [|done]. intros [= <-]. split; [by apply truthy_list_ne|done].
  - intros l ->. destruct (lifecycle e) as [l0|]; [|done]. destruct (validate_lifecycle_model l0) as [l1|] eqn:E; [|done].
    injection El as ->. by apply validate_lifecycle_model_spec in E.
Qed.

Lemma ensure_strategies_spec l acc r : ensure_strategies l acc = Ok r → Forall (λ kv, well_formed_entry kv.2) l →
  NoDup (keys acc) → Forall (λ kv, kv.1 ≠ "" ∧ well_formed_entry kv.2) acc →
  NoDup (keys r) ∧ Forall (λ kv, kv.1 ≠ "" ∧ well_formed_entry kv.2) r ∧ (l ≠ [] → r ≠ []).
Proof.
  intros Hr Hl Hn Ha. assert (NoDup (keys r) ∧ Forall (λ kv, kv.1 ≠ "" ∧ well_formed_entry kv.2) r ∧ (l ≠ [] ∨ acc ≠ [] → r ≠ [])) as (?&?&H); [|naive_solver].
  revert acc Hr Hn Ha. induction Hl as [|[k e] l He Hl IH]; intros acc; cbn [ensure_strategies]; [intros [= ->]; naive_solver|].
  destruct (truthy (strip k)) eqn:Ek; [|done]. cbn [negb]. intros Hr Hn Ha.
  destruct (IH _ Hr) as (H1 & H2 & H3); [by apply NoDup_dset| |].
  - apply Forall_forall. intros [k' e'] [[-> ->]|Hin]%elem_of_dset; [split; [by apply truthy_string_ne|done]|]. by apply (proj1 (Forall_forall _ _) Ha).
  - split_and!; [done..|]. intros _. apply H3. right. intros E. pose proof (dlookup_dset_eq (strip k) e acc) as Hd. by rewrite E in Hd.
Qed.

Lemma validate_model_spec m m' : validate_model m = Ok m' → well_formed m'.
Proof.
  unfold validate_model. destruct (mapM_res _ _) as [es|] eqn:Em; [|done]. cbn [mbind res_bind]. destruct (truthy es) eqn:Et; [|done]. cbn [mbind res_bind].
  destruct (ensure_strategies es []) as [l|] eqn:Ee; [|done]. cbn [mbind res_bind]. destruct (validate_weights l) as [[]|] eqn:Ew; [|done]. intros [= <-].
  destruct (ensure_strategies_spec es [] l Ee) as (H1 & H2 & H3); [|constructor|constructor|].
  - apply mapM_res_Forall2 in Em. clear -Em. induction Em as [|kv kv' l l' H Hm IH]; constructor; [|done].
    destruct (validate_entry kv.2) eqn:E; [|done]. injection H as <-. by apply validate_entry_spec in E.
  - split_and!; [by apply H3, truthy_list_ne|done..].
Qed.

Section load.
Context `{Env} {S : Type} `{HasWorld S}.
Variable parse_model : pyval → res StrategyManifest.

(** Not lapsed at the instant [us]. *)
Definition current (us : Z) (kv : string * StrategyEntry) : Prop :=
  match lifecycle kv.2 with Some l => status_at l us ≠ "deprecated" | None => True end.

Lemma stale_entries_none l reference (s s' : S) : is_naive reference = false → stale_entries l reference s = (Ok [], s') →
  Forall (current (utc_us reference)) l.
Proof.
  intros Hr. revert s'. induction l as [|[k e] l IH]; intros s'; cbn [stale_entries]; [constructor|]. intros H2.
  apply bind_Ok in H2 as (st & s1 & Hst & H2). unfold entry_status in Hst.
  assert (s1 = s ∧ (match lifecycle e with Some lc => st = status_at lc (utc_us reference) | None => st ≠ "deprecated" end)) as [-> Hst'].
  { destruct (lifecycle e) as [lc|]; [|injection Hst as <- <-; by destruct (enabled e)]. unfold lifecycle_status, as_utc in Hst.
    apply bind_Ok in Hst as (d & s2 & Hd & Hst). apply lift_Ok in Hd as [Hd ->]. apply normalize_Ok in Hd as [Hd _]. injection Hst as <- <-. by rewrite Hd. }
  apply bind_Ok in H2 as (why & s2 & Hw & H2). apply bind_Ok in H2 as (rest & s3 & Hrest & [= Hnil _]). apply app_nil in Hnil as [-> ->].
  destruct (String.eqb_spec st "deprecated") as [->|Hne].
  - apply bind_Ok in Hw as (? & ? & _ & [=]).
  - injection Hw as <-. constructor; [|by apply (IH s3)]. unfold current. cbn. destruct (lifecycle e); [by subst|done].
Qed.

(** C25. A manifest that is loaded is well formed (identifiers unique and not blank,
    priorities and weights in range and their sum bounded, features and watchlists
    without repetitions, times aware) and no enabled strategy in it has expired or
    gone without validation for too long at the time of loading. *)
Theorem loaded_manifest_well_formed path file (s s' : S) m : is_naive (clock_at (w_tick (wget s))) = false →
  load parse_model path file s = (Ok m, s') →
  well_formed m ∧ Forall (current (utc_us (clock_at (w_tick (wget s))))) (enabled_strategies m).
Proof.
  intros Hc. unfold load. destruct file as [[payload|]|]; [|done..]. intros H2. apply bind_Ok in H2 as (m0 & s1 & Hm & H2). apply lift_Ok in Hm as [Hm ->].
  apply bind_Ok in H2 as (u & s2 & Hv & [= <- <-]). unfold from_dict in Hm.
  destruct (parse_model payload) as [raw|]; [|done]. cbn [mbind res_bind] in Hm. destruct (validate_model raw) as [m1|] eqn:Ev; [|done]. injection Hm as <-.
  split; [by apply validate_model_spec in Ev|]. unfold validate_lifecycle in Hv. apply bind_Ok in Hv as (d & s3 & [= <- <-] & Hv).
  apply bind_Ok in Hv as (l & s4 & Hl & Hv). destruct l as [|x l]; [|done]. by eapply stale_entries_none.
Qed.
End load.

(** * Rotation keeps the end of the log *)

Lemma split_once_app c s a b : split_once c s = Some (a, b) → s = a +:+ String c b.
Proof.
  revert a b. induction s as [|x s IH]; intros a b; cbn; [done|]. destruct (Ascii.eqb_spec x c) as [->|]; [by intros [= <- <-]|].
  destruct (split_once c s) as [[a' b']|]; [|done]. cbn. intros [= <- <-]. cbn. by rewrite (IH a' b').
Qed.

Lemma substring_drop n s : (n ≤ String.length s)%nat → ∃ pre, s = pre +:+ String.substring n (String.length s - n) s ∧ String.length pre = n.
Proof.
  revert n. induction s as [|x s IH]; intros n Hn; cbn in Hn |- *; [assert (n = 0)%nat as -> by lia; by exists ""|].
  destruct n as [|n]; [exists ""; split; [|done]; cbn; f_equal|].
  - clear. induction s as [|y s IH]; cbn; [done|]. by rewrite <- IH.
  - destruct (IH n) as (pre & E & Hl); [lia|]. exists (String x pre). cbn. split; [by f_equal|by rewrite Hl].
Qed.

Lemma str_app_length a b : String.length (a +:+ b) = (String.length a + String.length b)%nat.
Proof. induction a as [|x a IH]; cbn; [done|]. by rewrite IH. Qed.

(** What remains of a rotated log is its end, at most the bytes to keep. *)
Theorem rotation_keeps_the_end s max keep : ∃ pre t, maybe_rotate_log (Some s) max keep = Some t ∧ s = pre +:+ t ∧
  (t = s ∨ str_len t <= Z.max 0 keep).
Proof.
  assert (∀ m, ∃ pre, s = pre +:+ tail_bytes s m ∧ (tail_bytes s m = s ∨ str_len (tail_bytes s m) <= Z.max 0 m)) as Ht.
  { intros m. unfold tail_bytes. destruct (Z.leb_spec m 0).
    - exists s. split; [|right; unfold str_len; cbn [String.length]; lia]. clear. induction s as [|x s IH]; cbn; [done|]. by rewrite <- IH.
    - destruct (Z.leb_spec (str_len s) m); [by exists ""; split; [done|left]|]. unfold str_drop. unfold str_len in *.
      destruct (substring_drop (Z.to_nat (Z.of_nat (String.length s) - m)) s) as (pre & E & Hl); [lia|].
      set (t := String.substring _ _ s) in *. assert (Z.of_nat (String.length t) = m) as Hlen.
      { pose proof (f_equal String.length E) as Hs. rewrite str_app_length in Hs. lia. }
      unfold after_newline. destruct (split_once newline t) as [[a b]|] eqn:Es; cbn.
      + apply split_once_app in Es. exists (pre +:+ a +:+ String newline ""). split.
        * rewrite !string_app_assoc. change (String newline "" +:+ b) with (String newline b). by rewrite <- Es.
        * right. pose proof (f_equal String.length Es) as Hs. rewrite str_app_length in Hs. cbn in Hs. lia.
      + exists pre. split; [done|]. right. lia. }
  unfold maybe_rotate_log. destruct max as [m|]; [|exists "", s; by split_and!; [..|left]].
  destruct (_ || _); [exists "", s; by split_and!; [..|left]|]. destruct (Ht keep) as (pre & E & Hk). by exists pre, (tail_bytes s keep).
Qed.

(** * A manifest *)

Definition sample_entry : StrategyEntry :=
  Entry true 10 (of_dec 6 (-1)) (Metadata "M1 Baseline Donchian" "0.1.2" donchian_features ["baseline"; "breakout"] 0) [] (Some ["usdjpy "; "USDJPY"])
    (Some (Lifecycle "active" (DateTime 2026 3 1 0 0 0 0 (Some 0)) None 90 None)) [] "donchian_v1".
Definition sample_raw : StrategyManifest :=
  MkManifest "1.0" "baseline" "r1" (DateTime 2026 3 1 0 0 0 0 (Some 0)) None [(" m1_baseline_donchian", sample_entry)].
(** The sample as it is read: blanks and repetitions gone. *)
Definition sample_manifest : StrategyManifest := match validate_model sample_raw with Ok m => m | Raise _ => sample_raw end.

Lemma sample_manifest_well_formed : well_formed sample_manifest.
Proof.
  destruct (validate_model sample_raw) as [m|] eqn:E; [|vm_compute in E; discriminate E].
  unfold sample_manifest. rewrite E. by apply validate_model_spec in E.
Qed.

Lemma loaded_manifest_well_formed_witness : let _ := sample_env in
  ∃ m w, load (λ _, Ok sample_raw) "m.yaml" (Some (Some (VDict []))) (World 0 0 0 []) = (Ok m, w) ∧
    keys (strategies m) = ["m1_baseline_donchian"] ∧ well_formed m ∧ Forall (current (utc_us (clock_at 0))) (enabled_strategies m).
Proof.
  cbv zeta. destruct (load (H:=sample_env) (λ _, Ok sample_raw) "m.yaml" (Some (Some (VDict []))) (World 0 0 0 [])) as [[m|] w] eqn:E;
    [|vm_compute in E; discriminate E].
  exists m, w. split; [reflexivity|]. split; [vm_compute in E; injection E as <- _; reflexivity|].
  exact (loaded_manifest_well_formed (H:=sample_env) (λ _, Ok sample_raw) "m.yaml" _ (World 0 0 0 []) w m eq_refl E).
Defined.
