(* ===== verification/Registry.v ===== *)
(** The strategy engine of [src/strategies/registry.py]: plugins behind one interface,
    their evaluation in the order of a manifest, the trade fields and candidates made
    of their signals, the events, and the allocation of what they propose. *)

From S2P Require Import Prelude PyFloat PyVal PyEnv Calendar Allocation Strategy SessionBreakout Manifest.

Local Open Scope Z_scope.
Local Open Scope py_scope.

(** * Signals and plugins *)

(** An attribute that may hold a [datetime]. *)
Inductive moment := MValue (v : pyval) | MTime (d : datetime).

(** A signal is any object, read through [getattr]. *)
Record RawSignal := MkRaw { attrs : dict; sig_timestamp : moment; sig_expire_at : moment }.
Definition attr (k : string) (s : RawSignal) : pyval := dget k (attrs s).

(** What the engine asks of a plugin. *)
Class StrategyPlugin (P : Type) := {
  plugin_id : P → string;
  plugin_key : P → string;
  plugin_metadata : P → StrategyMetadata;
  plugin_set_context : StrategyContext → P → P;
  plugin_generate : StrategyContext → M P (list RawSignal);
  plugin_evaluate : StrategyContext → M P (list RawSignal);
}.

(** A plugin object: its type, its operations and its state. *)
Record plugin := Pack { pl_type : Type; pl_ops : StrategyPlugin pl_type; pl_state : pl_type }.
#[export] Existing Instance pl_ops.

Definition pl_id (p : plugin) : string := plugin_id (pl_state p).
Definition pl_metadata (p : plugin) : StrategyMetadata := plugin_metadata (pl_state p).
Definition with_context (c : StrategyContext) (p : plugin) : plugin := Pack (pl_type p) (pl_ops p) (plugin_set_context c (pl_state p)).

(** [try: plugin.generate_signals(c) except AttributeError: plugin.evaluate(c)] *)
Definition call_plugin (c : StrategyContext) (p : plugin) : res (list RawSignal) * plugin :=
  let r := plugin_generate c (pl_state p) in
  let r := match r.1 with Raise (AttributeError _) => plugin_evaluate c r.2 | _ => r end in
  (r.1, Pack (pl_type p) (pl_ops p) r.2).

(** ** The plugins of the repository *)

Definition raw_of (d : dict) : RawSignal := MkRaw d (MValue VNone) (MValue VNone).
Definition vopt_flags (o : option (list (string * bool))) : pyval :=
  match o with Some l => VDict (map (λ kv, (kv.1, VBool kv.2)) l) | None => VNone end.

Definition breakout_attrs (b : BreakoutSignal) : dict := [
  ("strategy_id", VStr (b_strategy_id b)); ("symbol", VStr (b_symbol b)); ("direction", VStr (direction b)); ("breakout", VStr (breakout b));
  ("level", vopt_float (level b)); ("buffer", vopt_float (buffer b)); ("rationale", VStr (rationale b)); ("breakout_width", vopt_float (breakout_width b));
  ("filter_flags", vopt_flags (filter_flags b)); ("filter_block_reason", vopt_str (filter_block_reason b)); ("quality_score", vopt_float (quality_score b))].
Definition momentum_attrs (m : UsMomentumSignal) : dict := [
  ("strategy_id", VStr (m_strategy_id m)); ("symbol", VStr (m_symbol m)); ("direction", VStr (m_direction m)); ("confidence", VFloat (m_confidence m));
  ("rationale", VStr (m_rationale m)); ("score", VFloat (m_score m)); ("quality_score", VFloat (m_quality m))].
Definition orb_attrs (o : OrbVwapRetestSignal) : dict := [
  ("strategy_id", VStr (os_strategy_id o)); ("symbol", VStr (os_symbol o)); ("direction", VStr (os_direction o)); ("confidence", VFloat (os_confidence o));
  ("rationale", VStr (os_rationale o)); ("score", VFloat (os_score o)); ("quality_score", VFloat (os_quality o)); ("orb_high", VFloat (os_high o));
  ("orb_low", VFloat (os_low o)); ("orb_width", VFloat (os_width o)); ("vwap", VFloat (os_vwap o)); ("breakout_distance", VFloat (os_distance o));
  ("cost_estimate", VFloat (os_cost o))].
Definition asia_attrs (a : AsiaCompressionExpansionSignal) : dict := [
  ("strategy_id", VStr (as_strategy_id a)); ("symbol", VStr (as_symbol a)); ("direction", VStr (as_direction a)); ("confidence", VFloat (as_confidence a));
  ("rationale", VStr (as_rationale a)); ("score", VFloat (as_score a)); ("quality_score", VFloat (as_quality a)); ("compression_high", VFloat (as_high a));
  ("compression_low", VFloat (as_low a)); ("compression_range", VFloat (as_range a)); ("breakout_distance", VFloat (as_distance a));
  ("atr_value", VFloat (as_atr a)); ("cost_estimate", VFloat (as_cost a))].

(** The signals of a plugin's own type as the engine sees them. *)
Definition raw {P A} (f : A → dict) (m : M P (list A)) : M P (list RawSignal) := l ← m; mret (map (raw_of ∘ f) l).

#[export] Instance donchian_plugin : StrategyPlugin Donchian := {|
  plugin_id := id; plugin_key := λ s, if String.eqb (mode s) "bidirectional" then "donchian_v1" else "donchian_v1_" +:+ mode s;
  plugin_metadata := metadata; plugin_set_context := set_context;
  plugin_generate c := raw breakout_attrs (generate_signals c); plugin_evaluate c := raw breakout_attrs (generate_signals c) |}.
#[export] Instance us_pullback_plugin (zoneinfo : string → option (Z → Z)) : StrategyPlugin UsPullback := {|
  plugin_id _ := us_id; plugin_key _ := "us_session_trend_pullback_v1"; plugin_metadata _ := us_metadata;
  plugin_set_context c s := MkPullback (us_watchlist s) (Some c);
  plugin_generate c := raw momentum_attrs (us_generate_signals zoneinfo c); plugin_evaluate c := raw momentum_attrs (us_generate_signals zoneinfo c) |}.
#[export] Instance orb_plugin : StrategyPlugin OrbStrategy := {|
  plugin_id _ := orb_id; plugin_key _ := "us_orb_vwap_retest_v1"; plugin_metadata _ := orb_metadata;
  plugin_set_context c s := MkOrbStrategy (orb_watchlist s) (orb_states s) (Some c);
  plugin_generate c := raw orb_attrs (orb_generate_signals c); plugin_evaluate c := raw orb_attrs (orb_generate_signals c) |}.
#[export] Instance asia_plugin : StrategyPlugin AsiaStrategy := {|
  plugin_id _ := asia_id; plugin_key _ := "asia_compression_expansion_breakout_v1"; plugin_metadata _ := asia_metadata;
  plugin_set_context c s := MkAsiaStrategy (asia_watchlist s) (asia_states s) (Some c);
  plugin_generate c := raw asia_attrs (asia_generate_signals c); plugin_evaluate c := raw asia_attrs (asia_generate_signals c) |}.

(** * Trade fields *)

Definition iso_or_none (m : moment) : res (option string) :=
  match m with
  | MValue (VStr s) => Ok (Some s)
  | MValue _ => Ok None
  | MTime d => u ← normalize d; Ok (Some (iso_us_z u))
  end.

(** An unreadable number of minutes is five, of hours one, of days one. *)
Definition timeframe_minutes (value : string) : Z :=
  let t := lower (strip (value or? "5m")) in
  let prefix := String.substring 0 (String.length t - 1) t in
  let units k dflt := match parse_int prefix with Some n => Z.max 1 n * k | None => dflt end in
  if ends_with "m" t then units 1 5 else if ends_with "h" t then units 60 60 else if ends_with "d" t then units 1440 1440 else 5.

Definition latest_feature (c : StrategyContext) (symbol key timeframe : string) : res (option float) :=
  match lookup (features c) symbol key timeframe with Ok f => latest f | Raise _ => Ok None end.

Record TradeFields := MkFields {
  tf_entry : option float; tf_stop : option float; tf_target : option float; tf_level : option float; tf_buffer : option float;
  tf_expire_at : option string; ttl_bars : Z; entry_minutes : Z; target_r_multiple : float; trail_atr_mult : option float; spread_pips : float;
  slippage_pips : float; slippage_std : float; tf_atr : float }.

Definition fields_dict (t : TradeFields) : dict := [
  ("entry", vopt_float (tf_entry t)); ("stop", vopt_float (tf_stop t)); ("target", vopt_float (tf_target t)); ("level", vopt_float (tf_level t));
  ("buffer", vopt_float (tf_buffer t)); ("expire_at", vopt_str (tf_expire_at t)); ("ttl_bars", VInt (ttl_bars t));
  ("entry_timeframe_minutes", VInt (entry_minutes t)); ("target_r_multiple", VFloat (target_r_multiple t));
  ("trail_atr_mult", vopt_float (trail_atr_mult t)); ("spread_pips", VFloat (spread_pips t)); ("slippage_pips", VFloat (slippage_pips t));
  ("slippage_std", VFloat (slippage_std t)); ("atr_value", VFloat (tf_atr t))].

(** [coerce(a) or coerce(b) or dflt] *)
Definition number_or (a b : pyval) (dflt : float) : res float :=
  x ← Strategy.coerce_float a;
  y ← (if truthy x then Ok x else Strategy.coerce_float b);
  Ok (match y with Some y => if truthy y then y else dflt | None => dflt end).

(** The distance to the stop: given by both prices, or by the ATR within 0.02% and 2% of the price. *)
Definition risk_distance (entry stop close : option float) (atr atr_sl_mult : float) : option float :=
  match entry, stop, close with
  | Some e, Some s, _ => Some (fabs (fsub e s))
  | _, _, Some c =>
      let least := fmax (fmul c (of_dec 2 (-4))) (of_dec 5 (-4)) in
      let most := fmax (fmul c (of_dec 2 (-2))) least in
      Some (fmin (fmax (fmax (fmul atr (fmax (of_dec 1 (-1)) atr_sl_mult)) fzero) least) most)
  | _, _, None => None
  end.

(** [Some true] long, [Some false] short *)
Definition is_long (direction : pyval) : option bool :=
  match direction with
  | VStr s => if String.eqb (lower s) "long" then Some true else if String.eqb (lower s) "short" then Some false else None
  | _ => None
  end.

(** [base + x] for a long side, [base - x] for a short one, where no price is given. *)
Definition side_price (given : option float) (long : option bool) (base : option float) (xs : list float) : option float :=
  match given, long, base with
  | Some x, _, _ => Some x
  | None, Some true, Some b => Some (fold_left fadd xs b)
  | None, Some false, Some b => Some (fold_left fsub xs b)
  | None, _, _ => None
  end.

Definition expiry (given : option string) (now : option datetime) (minutes : Z) : res (option string) :=
  match given, now with
  | Some s, _ => Ok (Some s)
  | None, Some t => u ← normalize t; us ← plus_minutes (utc_us u) minutes; Ok (Some (iso_us_z (from_utc_us us)))
  | None, None => Ok None
  end.

Definition derive_signal_trade_fields (s : RawSignal) (c : StrategyContext) : res TradeFields :=
  let symbol := match attr "symbol" s with VStr k => if truthy (strip k) then Some (upper k) else None | _ => None end in
  let long := is_long (attr "direction" s) in
  let p := Strategy.parameters c in
  let entry_cfg := entry_params p in
  let sizing := as_dict_or_empty (sub p "sizing") in
  let execution := execution_params p in
  level ← Strategy.coerce_float (attr "level" s);
  buffer ← Strategy.coerce_float (attr "buffer" s);
  entry ← Strategy.coerce_float (attr "entry" s);
  stop ← Strategy.coerce_float (attr "stop" s);
  target ← Strategy.coerce_float (attr "target" s);
  expire ← iso_or_none (sig_expire_at s);
  ttl ← py_int (dget "ttl_bars" sizing or? (attr "ttl_bars" s or? VInt 0));
  let ttl := if ttl <=? 0 then 1 else ttl in
  minutes ← py_int (attr "entry_timeframe_minutes" s or? VInt (timeframe_minutes (py_str (dget_or "timeframe" (VStr "5m") entry_cfg))));
  let minutes := Z.max 1 minutes in
  r_multiple ← number_or (attr "target_r_multiple" s) (dget "tp_r_multiple" sizing) (of_Z 1);
  sl_mult ← number_or (dget "atr_sl_mult" sizing) VNone (of_Z 1);
  spread ← number_or (attr "spread_pips" s) (dget "spread" execution) fzero;
  slippage ← number_or (attr "slippage_pips" s) (dget "slippage" execution) fzero;
  std ← number_or (attr "slippage_std" s) (dget "slippage_std" execution) fzero;
  trail ← Strategy.coerce_float (attr "trail_atr_mult" s);
  trail ← (if truthy trail then Ok trail else Strategy.coerce_float (dget "atr_sl_mult" sizing));
  close ← Strategy.coerce_float (attr "price" s);
  close ← match symbol with Some k => if truthy close then Ok close else latest_feature c k "close_5m" "5m" | None => Ok close end;
  atr ← match symbol with Some k => latest_feature c k "atr_14_1h" "1h" | None => Ok None end;
  let atr := match atr with Some a => if truthy a then a else of_dec 8 (-2) | None => of_dec 8 (-2) end in
  let entry := side_price entry long close [spread; slippage] in
  let risk := risk_distance entry stop close atr sl_mult in
  let away x base := match risk with Some r => side_price None x base [r] | None => None end in
  let stop := match stop with Some x => Some x | None => away (negb <$> long) entry end in
  let target := match target, risk with
    | Some x, _ => Some x
    | None, Some r => side_price None long entry [fmul r_multiple r]
    | None, None => None
    end in
  expire ← expiry expire (clock_now c) (minutes * ttl);
  Ok (MkFields entry stop target (match level with Some _ => level | None => entry end) (match buffer with Some _ => buffer | None => risk end) expire
    ttl minutes r_multiple trail spread slippage std atr).

(** * The engine *)

Record StrategyEngine := Engine {
  plugins : list (string * plugin); manifest : option StrategyManifest; last_determinism_events : list dict; last_allocation_outcomes : list dict;
  last_candidate_trades : list dict; allocation_policy : option StrategyAllocationPolicy; determinism_log_path : string;
  determinism_metrics_path : string; signal_log_path : string; en_world : world }.

#[export] Instance engine_has_world : HasWorld StrategyEngine.
Proof.
  refine {| wget := en_world; wset w e := Engine (plugins e) (manifest e) (last_determinism_events e) (last_allocation_outcomes e)
    (last_candidate_trades e) (allocation_policy e) (determinism_log_path e) (determinism_metrics_path e) (signal_log_path e) w |}; by intros; try destruct s.
Defined.

Definition set_plugins (l : list (string * plugin)) (e : StrategyEngine) : StrategyEngine :=
  Engine l (manifest e) (last_determinism_events e) (last_allocation_outcomes e) (last_candidate_trades e) (allocation_policy e)
    (determinism_log_path e) (determinism_metrics_path e) (signal_log_path e) (en_world e).
Definition set_manifest (m : StrategyManifest) (e : StrategyEngine) : StrategyEngine :=
  Engine (plugins e) (Some m) (last_determinism_events e) (last_allocation_outcomes e) (last_candidate_trades e) (allocation_policy e)
    (determinism_log_path e) (determinism_metrics_path e) (signal_log_path e) (en_world e).
Definition set_events (d a t : list dict) (e : StrategyEngine) : StrategyEngine :=
  Engine (plugins e) (manifest e) d a t (allocation_policy e) (determinism_log_path e) (determinism_metrics_path e) (signal_log_path e) (en_world e).
Definition set_allocation_policy (p : option StrategyAllocationPolicy) (e : StrategyEngine) : StrategyEngine :=
  Engine (plugins e) (manifest e) (last_determinism_events e) (last_allocation_outcomes e) (last_candidate_trades e) p
    (determinism_log_path e) (determinism_metrics_path e) (signal_log_path e) (en_world e).
Definition clear_allocation_policy : StrategyEngine → StrategyEngine := set_allocation_policy None.

Definition push_event (d : dict) (e : StrategyEngine) : StrategyEngine :=
  set_events (last_determinism_events e ++ [d]) (last_allocation_outcomes e) (last_candidate_trades e) e.
Definition push_outcome (d : dict) (e : StrategyEngine) : StrategyEngine :=
  set_events (last_determinism_events e) (last_allocation_outcomes e ++ [d]) (last_candidate_trades e) e.
Definition push_trade (d : dict) (e : StrategyEngine) : StrategyEngine :=
  set_events (last_determinism_events e) (last_allocation_outcomes e) (last_candidate_trades e ++ [d]) e.

Definition DEFAULT_SIGNAL_EVENT_LOG : string := "logs/events/signal.generated.jsonl".
Definition DEFAULT_DETERMINISM_METRICS : string := "metrics/determinism.jsonl".

(** The paths of the constructor and of the environment ([""] counts as unset). *)
Definition engine_init (log metrics metrics_env signal_env : option string) (w : world) : StrategyEngine :=
  Engine [] None [] [] [] None (default "logs/strategy/registry.log" log)
    (match metrics with Some p => p | None => default "" metrics_env or? DEFAULT_DETERMINISM_METRICS end)
    (default "" signal_env or? DEFAULT_SIGNAL_EVENT_LOG) w.

Definition StrategyRegistrationError (msg : string) : exn := OtherError "StrategyRegistrationError" msg.
(** The message also shows the cause. *)
Definition StrategyExecutionError (strategy_id : string) : exn := OtherError "StrategyExecutionError" ("Strategy '" +:+ strategy_id +:+ "' execution failed").

Definition register_plugin (p : plugin) : M StrategyEngine unit :=
  e ← get;
  let sid := pl_id p in
  if negb (truthy sid) then raise (StrategyRegistrationError "Strategy plugins must define a non-empty 'id' attribute")
  else if dmem sid (plugins e) then raise (StrategyRegistrationError ("Strategy '" +:+ sid +:+ "' is already registered"))
  else if negb (truthy (strip (plugin_key (pl_state p))))
    then raise (StrategyRegistrationError ("Strategy '" +:+ sid +:+ "' must declare a non-empty 'determinism_key'"))
  else modify (set_plugins (plugins e ++ [(sid, p)])).

Definition get_parameters (strategy_id : string) : M StrategyEngine dict :=
  e ← get;
  match manifest e with
  | None => raise (ManifestLoadError "Strategy manifest has not been loaded")
  | Some m =>
      match dlookup strategy_id (strategies m) with
      | Some x => mret (entry_parameters x)
      | None => raise (StrategyRegistrationError ("Strategy '" +:+ strategy_id +:+ "' is not defined in the manifest"))
      end
  end.

(** What [run_all] is given: the context of the plugins but for its watchlist, its
    seed and its parameters, and the account's positions. *)
Record RawPosition := MkPosition { rp_fields : dict; rp_opened_at : option datetime }.

(** [account.positions], or [account.open_positions] when that is [None]; the value
    may be no sequence of positions (a text, a mapping, a number). *)
Inductive positions_attr := NoPositions | NotPositions | Positions (l : list RawPosition).
Record Inputs := MkInputs {
  in_features : FeatureContext; in_regime : pyval; in_gate : pyval; in_account : pyval; in_config : pyval; in_now : option datetime; in_timeframe : pyval;
  in_positions : positions_attr; in_open_positions : positions_attr }.

Definition build_context (i : Inputs) (watchlist : list string) (seed : Z) (m : StrategyMetadata) (parameters : dict) : StrategyContext :=
  SContext (in_features i) (in_regime i) (in_gate i) (in_account i) (in_config i) watchlist (in_now i) (in_timeframe i) (seed + seed_offset m)
    (VDict parameters).

Definition is_guarded_mode (gate : pyval) : bool :=
  truthy (getattr (getattr gate "risk") "reduce_only") ||
  match getattr (getattr gate "market") "profit_readiness_status" with VStr s => str_in (lower s) ["guarded"; "halted"] | _ => false end.

(** ** What the allocation is told *)

Definition text_of (d : dict) (k : string) : string := strip (py_str (dget k d or? VStr "")).

Definition active_position (r : RawPosition) : res (option AllocationActivePosition) :=
  let d := rp_fields r in
  let symbol := upper (text_of d "symbol") in
  if negb (truthy symbol) then Ok None
  else
    opened ← match rp_opened_at r with Some t => u ← normalize t; Ok (Some u) | None => Ok None end;
    Ok (Some (Position (text_of d "strategy_id") symbol (lower (text_of d "direction")) opened
      (strip (py_str (dget "position_id" d or? (dget "id" d or? VStr "")))) (text_of d "portfolio_group") (text_of d "exposure_bucket"))).

Definition allocation_open_positions (i : Inputs) : res (list AllocationActivePosition) :=
  match (match in_positions i with NoPositions => in_open_positions i | p => p end) with
  | Positions l => ps ← mapM_res active_position l; Ok (somes ps)
  | _ => Ok []
  end.

Definition allocation_kill_switch_state (gate config : pyval) : string :=
  let risk := getattr gate "risk" in
  match token_text (getattr risk "kill_switch_recommendation") with
  | Some t => t
  | None => if truthy (getattr risk "reduce_only") then "soft_stop" else default "normal" (token_text (getattr config "kill_switch_state"))
  end.

Definition allocation_regime_value (f : FeatureContext) (symbol : string) : res (option float) :=
  match lookup f symbol "regime_trend_1h" "1h" with Ok v => latest v | Raise _ => Ok None end.

Definition alloc_signal (s : RawSignal) : Signal := MkSignal (attr "symbol" s) (attr "direction" s) (attr "score" s) (attr "confidence" s) (attr "quality_score" s).

(** [str(getattr(signal, "symbol", "UNKNOWN")).upper()]: a missing attribute, not [None], is unknown. *)
Definition group_symbol (s : RawSignal) : string := upper (py_str (dget_or "symbol" (VStr "UNKNOWN") (attrs s))).
Definition lookup_symbol (s : RawSignal) : string := upper (strip (py_str (dget_or "symbol" (VStr "UNKNOWN") (attrs s)))) or? "UNKNOWN".

(** A signal with the candidate made of it. *)
Record proposal := Propose { p_signal : RawSignal; p_candidate : AllocationCandidate; p_flags : list (string * bool) }.

Section engine.
Context `{Env}.
(** SHA-1 of a text in hexadecimal; BLAKE2b of the canonical JSON text of a payload. *)
Variable sha1 : string → string.
Variable blake2b : dict → string.
Variable parse_model : pyval → res StrategyManifest.

Definition load_manifest (path : string) (file : document) : M StrategyEngine StrategyManifest :=
  m ← Manifest.load parse_model path file;
  _ ← modify (set_manifest m);
  mret m.

Definition compute_deterministic_hash (strategy_id key : string) (seed : Z) (watchlist features : list string) (version data_hash : pyval) : string :=
  blake2b ([("strategy_id", VStr strategy_id); ("determinism_key", VStr (strip key)); ("seed", VInt seed);
    ("watchlist", VList (map VStr (sorted_strings watchlist))); ("required_features", VList (map VStr (sorted_strings features)))] ++
    (if truthy version then [("feature_version", version)] else []) ++ (if truthy data_hash then [("data_manifest_hash", data_hash)] else [])).

(** [None] parts are empty. *)
Definition candidate_id_from_parts (parts : list (option string)) : string := hex_prefix 16 (sha1 (join "|" (map (default "") parts))).

Definition filter_none (d : dict) : dict := List.filter (λ kv, match kv.2 with VNone => false | _ => true end) d.

Definition build_candidate_trade (strategy_id : string) (s : RawSignal) (c : StrategyContext) : M StrategyEngine CandidateTrade :=
  f ← lift (derive_signal_trade_fields s c);
  let symbol := upper (strip (py_str (attr "symbol" s or? VStr ""))) or? "UNKNOWN" in
  e ← get;
  meta ← lift (match allocation_policy e with Some pol => candidate_metadata pol strategy_id (Some symbol) | None => Ok [] end);
  given ← lift (iso_or_none (sig_timestamp s));
  ts ← match given with
    | Some t => if truthy t then mret t else match clock_now c with Some d => u ← lift (normalize d); mret (iso_us_z u) | None => utcnow_iso end
    | None => match clock_now c with Some d => u ← lift (normalize d); mret (iso_us_z u) | None => utcnow_iso end
    end;
  let side := lower (strip (py_str (attr "direction" s or? VStr ""))) or? "unknown" in
  let num k := Strategy.coerce_float (attr k s) in
  conf ← lift (num "confidence");
  holding ← lift (Strategy.coerce_float (dget "expected_holding_minutes" meta));
  cost ← lift (Strategy.coerce_float (dget "cost_estimate" (fields_dict f)));
  quality ← lift (num "quality_score");
  fit ← lift (num "score");
  atr ← lift (num "atr_value");
  trend ← lift (num "trend_value");
  ratio ← lift (num "cost_ratio");
  let text k := strip (py_str (dget k meta or? VStr "")) in
  mret (Trade (candidate_id_from_parts [Some strategy_id; Some symbol; Some side; Some ts; frepr <$> tf_entry f; frepr <$> tf_stop f; frepr <$> tf_target f])
    strategy_id symbol side ts (tf_entry f) (tf_stop f) (tf_target f) conf holding (text "portfolio_group") (text "exposure_bucket") None
    cost quality fit (match attr "session_tag" s with VNone => None | v => Some (lower (strip (py_str v))) end) atr trend ratio
    (filter_none [("rationale", attr "rationale" s); ("breakout", attr "breakout" s); ("level", attr "level" s); ("buffer", attr "buffer" s);
      ("badges", attr "badges" s); ("expire_at", vopt_str (tf_expire_at f)); ("ttl_bars", VInt (ttl_bars f));
      ("target_r_multiple", VFloat (target_r_multiple f)); ("slippage_std", VFloat (slippage_std f))])).

(** ** Events *)

Definition flags_dict (l : list (string * bool)) : dict := map (λ kv, (kv.1, VBool kv.2)) l.
Definition signal_keys : list string := [
  "symbol"; "direction"; "confidence"; "rationale"; "breakout"; "level"; "buffer"; "breakout_width"; "filter_flags"; "filter_block_reason"; "quality_score";
  "score"; "badges"; "compression_high"; "compression_low"; "compression_range"; "breakout_distance"; "cost_estimate"; "orb_high"; "orb_low"; "orb_width"; "vwap"].

Definition candidate_entries (t : option CandidateTrade) : dict :=
  match t with Some t => [("candidate", VDict (trade_as_dict t)); ("candidate_id", VStr (candidate_id t))] | None => [] end.

(** A write that fails is only logged. *)
Definition emit_signal_event (strategy_id : string) (signal : option RawSignal) (trade : option CandidateTrade) (c : StrategyContext)
    (flags : list (string * bool)) (status : string) (reason : option string) : M StrategyEngine unit :=
  ts ← utcnow_iso;
  let head := [("event", VStr "signal.generated"); ("ts", VStr ts); ("status", VStr status); ("reason", vopt_str reason); ("strategy_id", VStr strategy_id);
    ("feature_flags", VDict (flags_dict flags)); ("seed", VInt (seed c)); ("watchlist", VList (map VStr (sorted_strings (watchlist c))))] in
  payload ← match signal with
    | Some s => f ← lift (derive_signal_trade_fields s c); mret (dupdate (dupdate head (map (λ k, (k, attr k s)) signal_keys)) (fields_dict f))
    | None => mret head
    end;
  e ← get;
  _ ← try_append_jsonl (signal_log_path e) (VDict (dupdate payload (candidate_entries trade)));
  mret tt.

Definition emit_portfolio_admission_event (strategy_id : string) (s : RawSignal) (trade : option CandidateTrade) (payload : dict)
    (flags : list (string * bool)) : M StrategyEngine unit :=
  ts ← (if truthy (dget "ts" payload) then mret (dget "ts" payload) else t ← utcnow_iso; mret (VStr t));
  e ← get;
  _ ← try_append_jsonl (signal_log_path e) (VDict ([("event", VStr "portfolio.admission"); ("ts", ts); ("strategy_id", VStr strategy_id);
    ("status", dget "decision" payload); ("reason", dget "reason_code" payload); ("feature_flags", VDict (flags_dict flags));
    ("allocation_decision", VDict payload)] ++ map (λ k, (k, attr k s)) ["symbol"; "direction"; "confidence"; "score"; "quality_score"] ++
    candidate_entries trade));
  mret tt.

Definition append_determinism_log (payload : dict) : M StrategyEngine bool := e ← get; try_append_jsonl (determinism_log_path e) (VDict payload).

Definition append_determinism_metrics (payload : dict) : M StrategyEngine unit :=
  ts ← (if truthy (dget "ts" payload) then mret (dget "ts" payload) else t ← utcnow_iso; mret (VStr t));
  e ← get;
  _ ← try_append_jsonl (determinism_metrics_path e) (VDict [("ts", ts); ("strategy_id", dget "strategy_id" payload);
    ("feature_version", dget "feature_version" payload); ("determinism_hash", dget "determinism_hash" payload); ("status", VStr "ok");
    ("latency_ms", dget "latency_ms" payload); ("mode", dget "mode" payload or? VStr "unknown")]);
  mret tt.

(** The log and the metrics; the second is not tried when the first fails. *)
Definition record_determinism_event (payload : dict) : M StrategyEngine unit :=
  _ ← modify (push_event payload);
  ok ← append_determinism_log payload;
  if ok : bool then append_determinism_metrics payload else mret tt.

(** ** One entry of the manifest *)

(** Name and version, then the features, must be the plugin's. *)
Definition check_plugin (strategy_id : string) (en : StrategyEntry) (p : plugin) (available : list string) : res unit :=
  let m := entry_metadata en in
  let pm := pl_metadata p in
  if negb (String.eqb (name m) (name pm)) || negb (String.eqb (version m) (version pm))
  then Raise (StrategyRegistrationError ("Manifest metadata mismatch for strategy '" +:+ strategy_id +:+ "': manifest=(" +:+ name m +:+ ", " +:+ version m +:+
    "), plugin=(" +:+ name pm +:+ ", " +:+ version pm +:+ ")"))
  else if negb (subset (required_features m) (required_features pm) && subset (required_features pm) (required_features m))
  then Raise (StrategyRegistrationError ("Required features mismatch for strategy '" +:+ strategy_id +:+ "': manifest=" +:+
    py_repr (VList (map VStr (sorted_strings (required_features m)))) +:+ ", plugin=" +:+ py_repr (VList (map VStr (sorted_strings (required_features pm))))))
  else
    let missing := difference (required_features pm) available in
    if truthy missing then Raise (ManifestValidationError ("Strategy '" +:+ strategy_id +:+ "' missing required features: " +:+
      py_repr (VList (map VStr (sorted_strings missing))))) else Ok tt.

(** The candidate, the event and the place in the lists of one signal; [n] signals came before it. *)
Definition propose (strategy_id : string) (en : StrategyEntry) (c : StrategyContext) (n : nat) (s : RawSignal) : M StrategyEngine proposal :=
  trade ← build_candidate_trade strategy_id s c;
  _ ← modify (push_trade (trade_as_dict trade));
  _ ← emit_signal_event strategy_id (Some s) (Some trade) c (feature_flags en) "generated" None;
  mret (Propose s (Candidate (Z.of_nat n) strategy_id (alloc_signal s) (priority en) (weight en) (entry_parameters en) (Some trade)) (feature_flags en)).

Fixpoint propose_all (strategy_id : string) (en : StrategyEntry) (c : StrategyContext) (n : nat) (l : list RawSignal) : M StrategyEngine (list proposal) :=
  match l with
  | [] => mret []
  | s :: l => p ← propose strategy_id en c n s; ps ← propose_all strategy_id en c (S n) l; mret (p :: ps)
  end.

Definition determinism_payload (ts strategy_id : string) (en : StrategyEntry) (p : plugin) (c : StrategyContext) (f : FeatureContext) (count : nat) : dict :=
  let version_ := getattr (determinism f) "feature_version" in
  let data_hash := getattr (determinism f) "data_manifest_hash" in
  let pm := pl_metadata p in
  let h := compute_deterministic_hash strategy_id (plugin_key (pl_state p)) (seed c) (watchlist c) (required_features pm) version_ data_hash in [
  ("event", VStr "strategy.determinism"); ("ts", VStr ts); ("strategy_id", VStr strategy_id); ("determinism_key", VStr (plugin_key (pl_state p)));
  ("deterministic_hash", VStr h); ("determinism_hash", VStr h); ("seed", VInt (seed c)); ("feature_seed", getattr (determinism f) "seed");
  ("feature_version", version_); ("data_manifest_hash", data_hash); ("watchlist", VList (map VStr (sorted_strings (watchlist c))));
  ("required_features", VList (map VStr (sorted_strings (required_features pm)))); ("signal_count", VInt (Z.of_nat count));
  ("feature_flags", VDict (flags_dict (feature_flags en)));
  ("manifest_metadata", VDict [("name", VStr (name (entry_metadata en))); ("version", VStr (version (entry_metadata en)))]); ("priority", VInt (priority en))].

(** A guarded board silences the strategies without the flag. *)
Definition suppressed (i : Inputs) (en : StrategyEntry) : bool :=
  is_guarded_mode (in_gate i) && negb (default false (dlookup "guarded_board_required" (feature_flags en))).

Definition run_entry (i : Inputs) (watchlist : list string) (seed : Z) (n : nat) (strategy_id : string) (en : StrategyEntry)
    : M StrategyEngine (list proposal) :=
  e ← get;
  match dlookup strategy_id (plugins e) with
  | None => raise (StrategyRegistrationError ("Strategy '" +:+ strategy_id +:+ "' defined in manifest but not registered"))
  | Some p =>
      _ ← lift (check_plugin strategy_id en p (available_keys (in_features i)));
      let c := build_context i watchlist seed (pl_metadata p) (entry_parameters en) in
      let p := with_context c p in
      if suppressed i en then
        _ ← modify (set_plugins (dset strategy_id p (plugins e)));
        _ ← emit_signal_event strategy_id None None c (feature_flags en) "suppressed_guarded" (Some "guarded_mode");
        mret []
      else
        let r := call_plugin c p in
        _ ← modify (set_plugins (dset strategy_id r.2 (plugins e)));
        signals ← lift r.1;
        ps ← try_catch (propose_all strategy_id en c n signals) (λ _, Some (raise (StrategyExecutionError strategy_id)));
        ts ← utcnow_iso;
        _ ← record_determinism_event (determinism_payload ts strategy_id en p c (in_features i) (length signals));
        mret ps
  end.

Fixpoint run_entries (i : Inputs) (watchlist : list string) (seed : Z) (n : nat) (l : list (string * StrategyEntry)) : M StrategyEngine (list proposal) :=
  match l with
  | [] => mret []
  | (k, en) :: l => ps ← run_entry i watchlist seed n k en; rest ← run_entries i watchlist seed (n + length ps) l; mret (ps ++ rest)
  end.

(** By priority, then by identifier. *)
Definition entry_ltb (a b : string * StrategyEntry) : bool :=
  (priority a.2 <? priority b.2) || ((priority a.2 =? priority b.2) && str_ltb a.1 b.1).
Definition ordered_entries (m : StrategyManifest) : list (string * StrategyEntry) := isort entry_ltb (enabled_strategies m).

(** ** Allocation *)

Definition allocation_context (i : Inputs) (symbol : string) (positions : list AllocationActivePosition) (now : datetime) : res AllocationContext :=
  r ← allocation_regime_value (in_features i) symbol;
  Ok (AllocCtx now (SessionBreakout.board_mode (in_gate i) (in_config i)) (allocation_kill_switch_state (in_gate i) (in_config i)) r positions).

Definition allocation_now (i : Inputs) : M StrategyEngine datetime := match in_now i with Some d => lift (normalize d) | None => now_utc end.

(** The last candidate of a strategy and a symbol. *)
Definition find_candidate (strategy_id symbol : string) (l : list proposal) : option proposal :=
  last (List.filter (λ p, String.eqb (strategy_id) (Allocation.strategy_id (p_candidate p)) && String.eqb symbol (lookup_symbol (p_signal p))) l).

Definition flags_of (e : StrategyEngine) (strategy_id : string) : list (string * bool) :=
  match manifest e with Some m => match dlookup strategy_id (strategies m) with Some en => feature_flags en | None => [] end | None => [] end.

Definition record_allocation_outcome (ctx : AllocationContext) (candidates : list proposal) (o : AllocationOutcome) : M StrategyEngine unit :=
  let payload := dupdate (outcome_as_dict o) [("ts", VStr (iso_us_z (Allocation.now ctx))); ("board_mode", VStr (Allocation.board_mode ctx));
    ("kill_switch_state", VStr (Allocation.kill_switch_state ctx)); ("regime_value", vopt_float (regime_value ctx));
    ("open_position_count", VInt (Z.of_nat (length (open_positions ctx))))] in
  _ ← modify (push_outcome payload);
  match find_candidate (o_strategy_id o) (o_symbol o) candidates with
  | None => mret tt
  | Some p =>
      e ← get;
      emit_portfolio_admission_event (o_strategy_id o) (p_signal p) (trade (p_candidate p)) payload (flags_of e (o_strategy_id o))
  end.

Fixpoint group_by_symbol (l : list proposal) (acc : list (string * list proposal)) : list (string * list proposal) :=
  match l with
  | [] => acc
  | p :: l => let k := group_symbol (p_signal p) in group_by_symbol l (dset k (default [] (dlookup k acc) ++ [p]) acc)
  end.

Definition group_ltb (a b : string * list proposal) : bool := str_ltb a.1 b.1.

(** The signals of the selected candidates, which are objects of the list. *)
Definition signals_selected (sel : list AllocationCandidate) (l : list proposal) : list RawSignal :=
  omap (λ c : AllocationCandidate, p_signal <$> List.find (λ p, object_id (p_candidate p) =? object_id c) l) sel.

Definition allocate_symbol (pol : StrategyAllocationPolicy) (i : Inputs) (positions : list AllocationActivePosition) (now : datetime)
    (g : string * list proposal) : M StrategyEngine (list RawSignal) :=
  ctx ← lift (allocation_context i g.1 positions now);
  r ← lift (allocate pol (map p_candidate g.2) ctx);
  _ ← for_each (record_allocation_outcome ctx g.2) (outcomes r);
  mret (signals_selected (selected r) g.2).

Definition apply_allocation (pol : StrategyAllocationPolicy) (i : Inputs) (l : list proposal) : M StrategyEngine (list RawSignal) :=
  if negb (truthy l) then mret []
  else
    now ← allocation_now i;
    positions ← lift (allocation_open_positions i);
    rs ← mapM (allocate_symbol pol i positions now) (isort group_ltb (group_by_symbol l []));
    mret (concat rs).

(** ** The run *)

Definition resolve_run_watchlist (m : StrategyManifest) (i : Inputs) (given : option (list string)) : M StrategyEngine (list string) :=
  match given with
  | Some (_ :: _ as w) =>
      let set := normalise_symbol_set w in
      let missing := difference set (normalise_symbol_set (symbols (in_features i))) in
      if truthy missing then raise (ManifestValidationError ("Provided watchlist contains symbols missing from feature context: " +:+
        py_repr (VList (map VStr (sorted_strings missing))))) else mret set
  | _ => resolve_watchlist m (symbols (in_features i)) None
  end.

Definition run_all (i : Inputs) (given : option (list string)) (seed : Z) : M StrategyEngine (list RawSignal) :=
  e ← get;
  match manifest e with
  | None => raise (ManifestLoadError "Strategy manifest has not been loaded")
  | Some m =>
      _ ← modify (set_events [] [] []);
      _ ← lift (validate_feature_contract m (available_keys (in_features i)));
      _ ← lift (validate_watchlists m (symbols (in_features i)));
      w ← resolve_run_watchlist m i given;
      ps ← run_entries i w seed 0 (ordered_entries m);
      match allocation_policy e with
      | None => mret (map p_signal ps)
      | Some pol => apply_allocation pol i ps
      end
  end.
End engine.

(** * Runs *)

(** What the events of a run leave alone. *)
Definition frame (ps : list (string * plugin)) (m : option StrategyManifest) (pol : option StrategyAllocationPolicy) (e : StrategyEngine) : Prop :=
  plugins e = ps ∧ manifest e = m ∧ allocation_policy e = pol.

Section runs.
Context `{Env}.
Variables (sha1 : string → string) (blake2b : dict → string).
Variables (tbl : list (string * plugin)) (mf : option StrategyManifest) (po : option StrategyAllocationPolicy).

Lemma frame_world : ∀ w e, frame tbl mf po e → frame tbl mf po (wset w e).
Proof. by intros w e (? & ? & ?). Qed.

Lemma frame_iso : preserves (frame tbl mf po) utcnow_iso.
Proof. apply (preserves_world _ frame_world). Qed.
Lemma frame_append p v : preserves (frame tbl mf po) (try_append_jsonl p v).
Proof. apply (preserves_world _ frame_world). Qed.
Lemma frame_now : preserves (frame tbl mf po) now_utc.
Proof. apply (preserves_world _ frame_world). Qed.
Hint Resolve frame_iso frame_append frame_now : pymon.

Ltac framed := repeat first [progress (intros; cbv zeta) | solve [eauto with pymon] | apply preserves_bind | apply preserves_modify; intros ? [-> [-> ->]]; done | case_match_goal].

Lemma frame_emit sid s t c fl st why : preserves (frame tbl mf po) (emit_signal_event sid s t c fl st why).
Proof. unfold emit_signal_event. framed. Qed.
Lemma frame_admission sid s t d fl : preserves (frame tbl mf po) (emit_portfolio_admission_event sid s t d fl).
Proof. unfold emit_portfolio_admission_event. framed. Qed.
Lemma frame_determinism d : preserves (frame tbl mf po) (record_determinism_event d).
Proof. unfold record_determinism_event, append_determinism_log, append_determinism_metrics. framed. Qed.
Lemma frame_trade sid s c : preserves (frame tbl mf po) (build_candidate_trade sha1 sid s c).
Proof. unfold build_candidate_trade. framed. Qed.
Hint Resolve frame_emit frame_admission frame_determinism frame_trade : pymon.
Lemma frame_propose sid en c n s : preserves (frame tbl mf po) (propose sha1 sid en c n s).
Proof. unfold propose. framed. Qed.
Hint Resolve frame_propose : pymon.
Lemma frame_propose_all sid en c n l : preserves (frame tbl mf po) (propose_all sha1 sid en c n l).
Proof. revert n. induction l as [|s l IH]; intros n; cbn [propose_all]; framed. Qed.
End runs.

(** ** What the plugins answer *)

(** The answer of one entry's plugin, in the state it has in [tbl]. *)
Definition answer (i : Inputs) (w : list string) (seed : Z) (tbl : list (string * plugin)) (kv : string * StrategyEntry) : res (list RawSignal) :=
  match dlookup kv.1 tbl with
  | None => Raise (StrategyRegistrationError ("Strategy '" +:+ kv.1 +:+ "' defined in manifest but not registered"))
  | Some p =>
      _ ← check_plugin kv.1 kv.2 p (available_keys (in_features i));
      let c := build_context i w seed (pl_metadata p) (entry_parameters kv.2) in
      if suppressed i kv.2 then Ok [] else (call_plugin c (with_context c p)).1
  end.

(** A candidate that was made of its signal by the strategy [sid]. *)
Definition made_by (sid : string) (p : proposal) : Prop :=
  strategy_id (p_candidate p) = sid ∧ signal (p_candidate p) = alloc_signal (p_signal p).

Definition numbered (n : nat) (ps : list proposal) : Prop := map (object_id ∘ p_candidate) ps = map Z.of_nat (seq n (length ps)).

Lemma numbered_app n ps ps' : numbered n ps → numbered (n + length ps) ps' → numbered n (ps ++ ps').
Proof. unfold numbered. intros H1 H2. by rewrite !map_app, length_app, seq_app, map_app, H1, H2. Qed.

Lemma catch_all_Ok {S A} (m : M S A) (x : exn) s a s' : try_catch m (λ _, Some (raise x)) s = (Ok a, s') → m s = (Ok a, s').
Proof. unfold try_catch. by destruct (m s) as [[]]. Qed.

Lemma preserves_Ok {S A} (P : S → Prop) (m : M S A) s a s' : preserves P m → m s = (Ok a, s') → P s → P s'.
Proof. intros Hm E Hs. specialize (Hm s Hs). by rewrite E in Hm. Qed.

Section answers.
Context `{Env}.
Variables (sha1 : string → string) (blake2b : dict → string).

Lemma propose_all_spec sid en c l : ∀ n e ps e', propose_all sha1 sid en c n l e = (Ok ps, e') →
  map p_signal ps = l ∧ numbered n ps ∧ Forall (made_by sid) ps.
Proof.
  induction l as [|s l IH]; intros n e ps e' Hp; cbn [propose_all] in Hp.
  { injection Hp as <- <-. done. }
  apply bind_Ok in Hp as (p & e1 & Hp & Hl). apply bind_Ok in Hl as (ps' & e2 & Hl & [= <- <-]).
  apply IH in Hl as (<- & Hn & Hf). unfold propose in Hp.
  do 3 (apply bind_Ok in Hp as (? & ? & _ & Hp)). injection Hp as <- <-.
  split; [done|]. split; [|by constructor]. unfold numbered in *. cbn. by rewrite Hn.
Qed.

Lemma run_entry_spec i w seed n sid en e ps e' :
  run_entry sha1 blake2b i w seed n sid en e = (Ok ps, e') →
  answer i w seed (plugins e) (sid, en) = Ok (map p_signal ps) ∧ numbered n ps ∧ Forall (made_by sid) ps ∧
  (suppressed i en = true → ps = []) ∧ (∀ k, k ≠ sid → dlookup k (plugins e') = dlookup k (plugins e)).
Proof.
  unfold run_entry, answer. cbn [fst snd]. intros Hr. apply bind_Ok in Hr as (e0 & e1 & [= <- <-] & Hr).
  destruct (dlookup sid (plugins e)) as [p|] eqn:Ep; [|done].
  apply bind_Ok in Hr as (u & e1 & [Hc ->]%lift_Ok & Hr). rewrite Hc. cbn [mbind res_bind]. cbv zeta in Hr |- *.
  destruct (suppressed i en).
  - apply bind_Ok in Hr as (u1 & e1 & [= <- <-] & Hr). apply bind_Ok in Hr as (u2 & e2 & He & [= <- <-]).
    do 4 (split; [done|]). intros k Hk.
    pose proof (preserves_Ok _ _ _ _ _ (frame_emit _ _ _ _ _ _ _ _ _ _) He (conj eq_refl (conj eq_refl eq_refl))) as [-> _].
    cbn. by apply dlookup_dset_ne.
  - apply bind_Ok in Hr as (u1 & e1 & [= <- <-] & Hr). apply bind_Ok in Hr as (l & e1 & [Hl ->]%lift_Ok & Hr).
    apply bind_Ok in Hr as (ps' & e2 & Hp%catch_all_Ok & Hr). apply bind_Ok in Hr as (ts & e3 & Ht & Hr).
    apply bind_Ok in Hr as (u2 & e4 & Hd & [= <- <-]).
    destruct (propose_all_spec _ _ _ _ _ _ _ _ Hp) as (-> & Hn & Hf). split; [done|]. do 3 (split; [done|]). intros k Hk.
    pose proof (preserves_Ok _ _ _ _ _ (frame_propose_all _ _ _ _ _ _ _ _ _) Hp (conj eq_refl (conj eq_refl eq_refl))) as F.
    apply (preserves_Ok _ _ _ _ _ (frame_iso _ _ _) Ht) in F. apply (preserves_Ok _ _ _ _ _ (frame_determinism _ _ _ _) Hd) in F as [-> _].
    cbn. by apply dlookup_dset_ne.
Qed.

Lemma answer_ext i w seed tbl tbl' kv : dlookup kv.1 tbl' = dlookup kv.1 tbl → answer i w seed tbl' kv = answer i w seed tbl kv.
Proof. unfold answer. by intros ->. Qed.

(** Proposals of one strategy after the other. *)
Definition offered (i : Inputs) (l : list (string * StrategyEntry)) (p : proposal) : Prop :=
  ∃ sid en, (sid, en) ∈ l ∧ suppressed i en = false ∧ made_by sid p.

Lemma run_entries_spec i w seed l : ∀ n e ps e', NoDup (keys l) →
  run_entries sha1 blake2b i w seed n l e = (Ok ps, e') →
  mapM_res (answer i w seed (plugins e)) l ≫= (λ ls, Ok (concat ls)) = Ok (map p_signal ps) ∧ numbered n ps ∧ Forall (offered i l) ps.
Proof.
  induction l as [|[sid en] l IH]; intros n e ps e' Hd Hr; cbn [run_entries] in Hr.
  { injection Hr as <- <-. done. }
  apply NoDup_cons in Hd as [Hk Hd].
  apply bind_Ok in Hr as (ps1 & e1 & H1 & Hr). apply bind_Ok in Hr as (ps2 & e2 & H2 & [= <- <-]).
  destruct (run_entry_spec _ _ _ _ _ _ _ _ _ H1) as (Ha & Hn & Hf & Hs & Hp).
  apply (IH _ _ _ _ Hd) in H2 as (Hl & Hn2 & Hf2). split; [|split; [by apply numbered_app|]].
  - cbn [mapM_res]. rewrite Ha. 
    assert (mapM_res (answer i w seed (plugins e1)) l = mapM_res (answer i w seed (plugins e)) l) as E.
    { clear -Hp Hk. induction l as [|[k en'] l IH]; [done|]. cbn [mapM_res]. cbn in Hk. apply not_elem_of_cons in Hk as [Hne Hk].
      rewrite (answer_ext _ _ _ (plugins e) (plugins e1)) by (apply Hp; cbn; congruence). by rewrite IH. }
    rewrite E in Hl. destruct (mapM_res _ l) as [ls|]; [|done]. cbn in Hl |- *. injection Hl as Hl. by rewrite map_app, Hl.
  - apply Forall_app. split.
    + destruct (suppressed i en) eqn:Es; [by rewrite (Hs eq_refl)|]. eapply Forall_impl; [exact Hf|]. intros p Hm.
      exists sid, en. split; [by left|done].
    + eapply Forall_impl; [exact Hf2|]. intros p (sid' & en' & Hin & ?). exists sid', en'. split; [by right|done].
Qed.
End answers.

(** * Whole runs *)

Section resolve.
Context `{Env}.
Variables (tbl : list (string * plugin)) (mf : option StrategyManifest) (po : option StrategyAllocationPolicy).

Lemma frame_as_utc d : preserves (frame tbl mf po) (as_utc d).
Proof. unfold as_utc. destruct d; [apply preserves_lift|apply frame_now]. Qed.
Lemma frame_status en t : preserves (frame tbl mf po) (entry_status en t).
Proof.
  unfold entry_status. destruct (lifecycle en); [|apply preserves_ret]. unfold lifecycle_status.
  apply preserves_bind; [apply frame_as_utc|intros ?; apply preserves_ret].
Qed.
Lemma frame_watched l set t : preserves (frame tbl mf po) (watched l set t).
Proof.
  induction l as [|[k en] l IH]; cbn [watched]; [apply preserves_ret|].
  apply preserves_bind; [apply frame_status|intros st]. apply preserves_bind; [apply IH|intros rest; apply preserves_ret].
Qed.
Lemma frame_resolve m i given : preserves (frame tbl mf po) (resolve_run_watchlist m i given).
Proof.
  unfold resolve_run_watchlist. destruct given as [[|x w]|]; [|destruct (truthy _); [apply preserves_raise|apply preserves_ret]|];
    (unfold resolve_watchlist; apply preserves_bind; [apply preserves_lift|intros ?; apply preserves_bind; [apply frame_watched|intros ?; apply preserves_ret]]).
Qed.
End resolve.

Lemma keys_filter_NoDup {A} (f : string * A → bool) (l : list (string * A)) : NoDup (keys l) → NoDup (keys (List.filter f l)).
Proof.
  induction l as [|kv l IH]; [done|]. cbn. intros [Hk Hd]%NoDup_cons. destruct (f kv); [|by apply IH]. cbn. constructor; [|by apply IH].
  intros Hin. apply Hk. apply list_elem_of_fmap in Hin as (x & E & Hx). apply list_elem_of_fmap. exists x. split; [done|].
  apply list_elem_of_In, filter_In in Hx as [Hx _]. by apply list_elem_of_In.
Qed.

Lemma ordered_entries_NoDup m : NoDup (keys (strategies m)) → NoDup (keys (ordered_entries m)).
Proof.
  intros Hd. unfold ordered_entries, keys. rewrite isort_perm. by apply keys_filter_NoDup.
Qed.

Section whole_runs.
Context `{Env}.
Variables (sha1 : string → string) (blake2b : dict → string).

(** What a run that returns has been through. *)
Lemma run_all_phases i given seed e m out e' : manifest e = Some m → NoDup (keys (strategies m)) →
  run_all sha1 blake2b i given seed e = (Ok out, e') →
  ∃ w ps e1, (resolve_run_watchlist m i given (set_events [] [] [] e)).1 = Ok w ∧
    mapM_res (answer i w seed (plugins e)) (ordered_entries m) ≫= (λ ls, Ok (concat ls)) = Ok (map p_signal ps) ∧
    numbered 0 ps ∧ Forall (offered i (ordered_entries m)) ps ∧
    match allocation_policy e with None => out = map p_signal ps | Some pol => apply_allocation pol i ps e1 = (Ok out, e') end.
Proof.
  intros Hm Hd Hr. unfold run_all in Hr. apply bind_Ok in Hr as (e0 & e1 & [= <- <-] & Hr). rewrite Hm in Hr.
  apply bind_Ok in Hr as (u & e1 & [= _ <-] & Hr). apply bind_Ok in Hr as (u1 & e1 & [_ ->]%lift_Ok & Hr).
  apply bind_Ok in Hr as (u2 & e1 & [_ ->]%lift_Ok & Hr). apply bind_Ok in Hr as (w & e1 & Hw & Hr).
  apply bind_Ok in Hr as (ps & e2 & Hp & Hr).
  pose proof (preserves_Ok _ _ _ _ _ (frame_resolve _ _ _ m i given) Hw (conj eq_refl (conj eq_refl eq_refl))) as (Ht & _).
  destruct (run_entries_spec _ _ i w seed _ _ _ _ _ (ordered_entries_NoDup m Hd) Hp) as (Ha & Hn & Hf).
  exists w, ps, e2. rewrite Hw. split; [done|]. rewrite Ht in Ha. do 3 (split; [done|]).
  destruct (allocation_policy e) as [pol|]; [done|]. by injection Hr as <- <-.
Qed.


(** ** With a policy *)

Lemma group_by_symbol_elem l : ∀ acc g p, g ∈ group_by_symbol l acc → p ∈ g.2 →
  p ∈ l ∨ ∃ g', g' ∈ acc ∧ p ∈ g'.2.
Proof.
  induction l as [|q l IH]; intros acc g p; cbn [group_by_symbol]; [by right; exists g|]. cbv zeta. intros Hg Hp.
  destruct (IH _ _ _ Hg Hp) as [?|([k' l'] & Hin & Hp')]; [by left; right|].
  apply elem_of_dset in Hin as [[-> ->]|Hin]; [|right; by exists (k', l')].
  cbn in Hp'. apply elem_of_app in Hp' as [Hp'| ->%list_elem_of_singleton]; [|by left; left].
  destruct (dlookup (group_symbol (p_signal q)) acc) as [l0|] eqn:E; [|by apply elem_of_nil in Hp'].
  right. exists (group_symbol (p_signal q), l0). split; [|done]. clear -E.
  induction acc as [|[k v] acc IH]; [done|]. cbn in E. destruct (String.eqb_spec (group_symbol (p_signal q)) k) as [->|]; [injection E as ->; by left|right; by apply IH].
Qed.

Lemma elem_of_mapM {S A B} (f : A → M S (list B)) l : ∀ s rs s' x, mapM f l s = (Ok rs, s') → x ∈ concat rs →
  ∃ a s1 r s2, a ∈ l ∧ f a s1 = (Ok r, s2) ∧ x ∈ r.
Proof.
  induction l as [|a l IH]; intros s rs s' x Hm Hx; cbn [mapM] in Hm; [injection Hm as <- _; by apply elem_of_nil in Hx|].
  apply bind_Ok in Hm as (r & s1 & Hr & Hm). apply bind_Ok in Hm as (rs' & s2 & Hm & [= <- <-]).
  cbn in Hx. apply elem_of_app in Hx as [Hx|Hx]; [exists a, s, r, s1; by split; [left|]|].
  destruct (IH _ _ _ _ Hm Hx) as (a' & t & r' & t' & ? & ?). exists a', t, r', t'. split; [by right|done].
Qed.

(** A selected candidate is found as the proposal it came from. *)
Lemma selected_of pol i positions now g e out e' s : is_pass_through pol = false →
  allocate_symbol pol i positions now g e = (Ok out, e') → s ∈ out →
  ∃ ctx c cfg p, allocation_context i g.1 positions now = Ok ctx ∧ admissible pol c ctx cfg ∧ p ∈ g.2 ∧ p_signal p = s ∧
    object_id (p_candidate p) = object_id c ∧ c ∈ map p_candidate g.2.
Proof.
  intros Hpt Ha Hs. unfold allocate_symbol in Ha. apply bind_Ok in Ha as (ctx & e1 & [Hctx ->]%lift_Ok & Ha).
  apply bind_Ok in Ha as (r & e1 & [Hr ->]%lift_Ok & Ha). apply bind_Ok in Ha as (u & e1 & _ & [= <- <-]).
  unfold signals_selected in Hs. apply list_elem_of_omap in Hs as (c & Hc & Hf).
  destruct (List.find _ g.2) as [p|] eqn:E; [|done]. injection Hf as <-.
  apply find_some in E as [Hp Hid%Z.eqb_eq]. destruct (selected_accepted pol _ _ _ _ Hpt Hr Hc) as (ev & He & <- & Hacc).
  destruct (accepted_admissible pol _ _ _ He Hacc) as [cfg Hadm].
  exists ctx, (e_candidate ev), cfg, p. split_and!; try done; [by apply list_elem_of_In|by eapply selected_offered].
Qed.

Lemma same_number ps p q : numbered 0 ps → p ∈ ps → q ∈ ps → object_id (p_candidate p) = object_id (p_candidate q) → p = q.
Proof.
  intros Hn [a Ha]%list_elem_of_lookup [b Hb]%list_elem_of_lookup E.
  assert (∀ k x, ps !! k = Some x → object_id (p_candidate x) = Z.of_nat k) as Hid.
  { intros k x Hk. assert (map (object_id ∘ p_candidate) ps !! k = Some (object_id (p_candidate x))) as Hl by (by apply list_lookup_fmap_Some; exists x).
    rewrite Hn in Hl. apply list_lookup_fmap_Some in Hl as (j & -> & [-> _]%lookup_seq). done. }
  apply Hid in Ha as Ha', Hb as Hb'. assert (a = b) as -> by lia. congruence.
Qed.

End whole_runs.

(** The cost of a signal never reaches its candidate: it is read from the trade fields,
    which have no such key. *)
Lemma built_trade_has_no_cost `{Env} sha1 sid s c (e e' : StrategyEngine) t :
  build_candidate_trade sha1 sid s c e = (Ok t, e') → tr_estimated_cost t = None.
Proof.
  unfold build_candidate_trade. intros Hb.
  apply bind_Ok in Hb as (f & e1 & _ & Hb). apply bind_Ok in Hb as (e0 & e2 & _ & Hb). apply bind_Ok in Hb as (meta & e3 & _ & Hb).
  apply bind_Ok in Hb as (given & e4 & _ & Hb). apply bind_Ok in Hb as (ts & e5 & _ & Hb). apply bind_Ok in Hb as (conf & e6 & _ & Hb).
  apply bind_Ok in Hb as (holding & e7 & _ & Hb). apply bind_Ok in Hb as (cost & e8 & [Hcost _]%lift_Ok & Hb). injection Hcost as <-.
  do 5 (apply bind_Ok in Hb as (? & ? & _ & Hb)). by injection Hb as <- _.
Qed.

(** * A run *)

Definition sample_engine (pol : option StrategyAllocationPolicy) : StrategyEngine :=
  Engine [("m1_baseline_donchian", Pack Donchian donchian_plugin (DonchianBreakoutStrategy []))] (Some sample_manifest) [] [] [] pol
    "registry.log" "determinism.jsonl" "signals.jsonl" (World 0 0 0 []).
Lemma sample_engine_manifest pol : manifest (sample_engine pol) = Some sample_manifest.
Proof. unfold sample_engine. cbn [manifest]. reflexivity. Qed.
Lemma sample_engine_policy pol : allocation_policy (sample_engine pol) = pol.
Proof. unfold sample_engine. cbn [allocation_policy]. reflexivity. Qed.
Definition sample_inputs (gate : pyval) : Inputs :=
  MkInputs (features (Strategy.sample_context [])) VNone gate VNone VNone (Some (DateTime 2026 3 20 9 0 0 0 (Some 0))) (VStr "5m") NoPositions NoPositions.
Definition lenient_policy : StrategyAllocationPolicy :=
  Policy "hybrid" default_rules "select_one" None [("score", VDict [("min_score", VFloat (of_Z (-1000)))])] [("m1_baseline_donchian", [])] None.

(** The number of signals of an answer; [-1] for an exception. *)
Definition answered {A} (r : res (list A)) : Z := match r with Ok l => Z.of_nat (length l) | Raise _ => -1 end.
Lemma answered_one {A} (r : res (list A)) : answered r = 1 → ∃ s, r = Ok [s].
Proof. destruct r as [[|s [|]]|]; cbn; [done|by exists s|lia|done]. Qed.


