(* ===== verification/Certification.v ===== *)
(** The broker certification of [src/brokers/certification.py]: the plan, the four
    scenarios over the adapter, the router, the rate limiter and the failover planner,
    the evidence, and the status that the stage guard reads back. *)

From S2P Require Import Prelude PyFloat PyVal PyEnv StageGuard RateLimit BrokerRules Failover BrokerMonitor OrderRouter.

Local Open Scope Z_scope.
Local Open Scope py_scope.

(** * Data *)

(** What [load_result] reads back is not checked, so a message is any value. *)
Record CertificationScenario := Scenario {
  sc_name : string; sc_type : string; sc_status : string; sc_message : pyval; sc_attachments : list pyval; sc_metrics : dict }.

Definition scenario_to_dict (s : CertificationScenario) : dict := [
  ("name", VStr (sc_name s)); ("scenario_type", VStr (sc_type s)); ("status", VStr (sc_status s)); ("message", sc_message s);
  ("attachments", VList (sc_attachments s)); ("metrics", VDict (sc_metrics s))].

(** Paths are texts; [Path("")] is ["."]. *)
Record CertificationPlan := CertPlan {
  cp_plan_id : string; cp_adapter : string; cp_profile : string; cp_principal_id : pyval; cp_device_id : pyval; simulate : bool;
  cp_scenarios : list pyval; feature_flags_path : string; rate_limit_path : string; slo_path : string; evidence_root : string; cp_metrics_path : string }.

Definition py_path (v : pyval) : res string := match v with VStr s => Ok (s or? ".") | _ => Raise (TypeError "expected str, bytes or os.PathLike object") end.

Definition plan_from_path (yaml : pyval) : res CertificationPlan :=
  let payload := yaml or? VDict [] in
  let text k d := v ← vget_or payload k (VStr d); Ok (py_str v) in
  let path k d := v ← vget_or payload k (VStr d); py_path v in
  id ← text "plan_id" "broker_certification";
  adapter ← text "adapter" "sandbox";
  profile ← text "profile" "paper";
  principal ← vget payload "principal_id";
  device ← vget payload "device_id";
  sim ← vget_or payload "simulate" (VBool false);
  scenarios ← vget_or payload "scenarios" (VList []);
  scenarios ← py_iter scenarios;
  flags ← path "feature_flags" "config/feature_flags.yaml";
  limits ← path "rate_limit_path" "config/brokers/sandbox.yaml";
  slo ← path "slo_path" "config/brokers/slo.yaml";
  root ← path "evidence_root" "evidence/broker_certification";
  metrics ← path "metrics_path" "metrics/broker_certification.jsonl";
  Ok (CertPlan id adapter profile principal device (truthy sim) scenarios flags limits slo root metrics).

Record CertificationResult := CertResult {
  run_id : string; re_plan_id : string; re_adapter : string; re_profile : string; overall_status : string; started_at : string; finished_at : string;
  re_scenarios : list CertificationScenario; evidence_dir : string }.

Definition result_to_dict (r : CertificationResult) : dict := [
  ("run_id", VStr (run_id r)); ("plan_id", VStr (re_plan_id r)); ("adapter", VStr (re_adapter r)); ("profile", VStr (re_profile r));
  ("overall_status", VStr (overall_status r)); ("started_at", VStr (started_at r)); ("finished_at", VStr (finished_at r));
  ("scenarios", VList (map (λ s, VDict (scenario_to_dict s)) (re_scenarios r))); ("evidence_dir", VStr (evidence_dir r))].

Definition load_scenario (item : pyval) : res CertificationScenario :=
  name ← vget item "name";
  type ← vget item "scenario_type";
  status ← vget item "status";
  message ← vget item "message";
  attachments ← vget item "attachments";
  attachments ← py_iter (attachments or? VList []);
  metrics ← vget item "metrics";
  metrics ← to_dict (metrics or? VDict []);
  Ok (Scenario (py_str name) (py_str type) (py_str status) message attachments metrics).

Definition load_result (payload : pyval) : res CertificationResult :=
  items ← vget_or payload "scenarios" (VList []);
  items ← py_iter items;
  scenarios ← mapM_res load_scenario items;
  let text k := v ← vget payload k; Ok (py_str v) in
  id ← text "run_id"; plan ← text "plan_id"; adapter ← text "adapter"; profile ← text "profile"; overall ← text "overall_status";
  started ← text "started_at"; finished ← text "finished_at";
  dir ← vget payload "evidence_dir";
  dir ← py_path (dir or? VStr "");
  Ok (CertResult id plan adapter profile overall started finished scenarios dir).

Definition rollup_status (l : list CertificationScenario) : string :=
  let statuses := remove_dups (map sc_status l) in
  if str_in "fail" statuses then "fail"
  else if str_in "warning" statuses then "pass_with_warning"
  else if str_in "skipped" statuses && (length statuses =? 1)%nat then "skipped"
  else "pass".

Definition default_scenarios : list pyval :=
  map (λ n, VDict [("name", VStr n); ("type", VStr n)]) ["sandbox_connectivity"; "reduce_only_dispatch"; "rate_limit_burst"; "failover_switch"].

(** [str(a or b or ...)] of a definition *)
Definition scenario_name (d : pyval) : res string :=
  n ← vget d "name"; s ← vget d "scenario"; Ok (py_str (n or? (s or? VStr "unknown"))).

(** * The suite *)

(** What a run writes besides appended records: documents, texts and copies of
    files, with the state of the components it drives. *)
Inductive evidence := Document (v : pyval) | Text (lines : list string) | CopyOf (src : string).
Record CertState := Cert { ct_api : ApiState; ct_written : list (string * evidence) }.

#[export] Instance cert_has_world : HasWorld CertState.
Proof.
  refine {| wget s := wget (ct_api s); wset w s := Cert (wset w (ct_api s)) (ct_written s) |}; by intros; try destruct s as [[]].
Defined.

Definition set_api (a : ApiState) (s : CertState) : CertState := Cert a (ct_written s).
Definition push_written (path : string) (v : evidence) (s : CertState) : CertState := Cert (ct_api s) (ct_written s ++ [(path, v)]).

Definition join_path (a b : string) : string := if String.eqb a "." then b else a +:+ "/" +:+ b.
(** [Path.name] *)
Fixpoint path_name (s : string) (acc : string) : string :=
  match s with
  | EmptyString => acc
  | String c s => if Ascii.eqb c "/" then path_name s "" else path_name s (acc +:+ String c "")
  end.

Definition UnboundLocalError (name : string) : exn :=
  OtherError "UnboundLocalError" ("cannot access local variable '" +:+ name +:+ "' where it is not associated with a value").

(** [f"{now:%Y%m%d%H%M%S}"], and its first eight digits *)
Definition stamp8 (d : datetime) : string := pad4 (dt_year d) +:+ pad2 (dt_month d) +:+ pad2 (dt_day d).
Definition stamp14 (d : datetime) : string := stamp8 d +:+ pad2 (dt_hour d) +:+ pad2 (dt_minute d) +:+ pad2 (dt_second d).

Section suite.
Context `{Env}.
(** Clocks by the number of the reading: [time.perf_counter], the limiter of the
    router a scenario makes, the limiter of the burst. *)
Variable perf_at router_clock burst_clock : nat → float.
Variable getenv : string → option string.
Variable smtp : email → option string.
Variable add_alert : string → string → pyval → M ApiState unit.
Variable zoneinfo : string → option (Z → Z).
Variable vault_load : string → string → M ApiState pyval.
(** The files dispatch reads, the YAML documents at a path, and the files that exist. *)
Variable files : DispatchFiles.
Variable yaml_at : string → option pyval.
Variable exists_at : string → bool.
Variable resolve : string → string.
Variable monitor : BrokerApiMonitor.

Definition api {A} (m : M ApiState A) : M CertState A := zoom ct_api set_api m.

Definition answer (name status : string) (message : pyval) (metrics : dict) : CertificationScenario :=
  Scenario name name status message [] metrics.

Definition run_sandbox_connectivity (plan : CertificationPlan) : M CertState CertificationScenario :=
  _ ← lift (get_adapter (cp_adapter plan) (cp_profile plan) (flags_file files));
  start ← api (perf_counter perf_at);
  '(status, message) ← try_catch (_ ← api fetch_positions; _ ← api fetch_balances; mret ("pass", VNone))
    (λ e, Some (mret ("fail", VStr (exn_text e))));
  stop ← api (perf_counter perf_at);
  let latency := fmul (fsub stop start) (of_Z 1000) in
  _ ← api (record getenv smtp add_alert monitor (cp_adapter plan) "cert_connectivity" latency status);
  mret (answer "sandbox_connectivity" status message [("latency_ms", VFloat (fround latency 2))]).

(** A router of its own: a new limiter, and a monitor with a health monitor of its
    own, neither of which the suite sees again. *)
Definition in_new_router {A} (w : RateLimitWindow) (m : M ApiState A) : M ApiState A := λ s,
  let r := m (set_limiter (Some w) s) in (r.1, set_limiter (api_limiter s) (set_health (api_health s) r.2)).

Definition RATE_LIMIT_PATH : string := "config/brokers/sandbox.yaml".

Definition dispatch_payload (plan : CertificationPlan) (d : dict) (principal device : pyval) (now : datetime) : res dict :=
  q ← py_float (dget_or "quantity" (VFloat (of_dec 1 (-1))) d);
  Ok [("ticket_id", VStr ("cert-reduce-" +:+ stamp14 now)); ("symbol", dget_or "symbol" (VStr "EURUSD") d); ("side", dget_or "side" (VStr "buy") d);
    ("quantity", VFloat q); ("entry_type", VStr "marketable_limit"); ("entry_price", dget_or "entry_price" (VFloat (of_dec 11 (-1))) d);
    ("reduce_only", VBool true); ("adapter", VStr (cp_adapter plan)); ("profile", VStr (cp_profile plan)); ("principal_id", principal);
    ("device_id", device)].

Definition run_reduce_only_dispatch (plan : CertificationPlan) (d : dict) : M CertState CertificationScenario :=
  let principal := dget "principal_id" d or? cp_principal_id plan in
  let device := dget "device_id" d or? cp_device_id plan in
  if negb (truthy principal) || negb (truthy device)
  then mret (answer "reduce_only_dispatch" "fail" (VStr "principal_id/device_id required") [])
  else
    rules ← lift (default_rules files);
    cfg ← lift (load_config (yaml_at RATE_LIMIT_PATH));
    let router := Router rules None None in
    let w := window_init router_clock cfg world0 in
    now ← now_utc;
    payload ← lift (dispatch_payload plan d principal device now);
    '(status, message, metrics) ← try_catch
      (order ← api (in_new_router w (submit router_clock perf_at getenv smtp add_alert zoneinfo vault_load files router payload));
       mret ("pass", VNone, [("order_id", VStr (or_order_id order))]))
      (λ e, match e with OrderDispatchRejected reason _ => Some (mret ("fail", VStr reason, [])) | _ => None end);
    mret (answer "reduce_only_dispatch" status message metrics).

(** [n] reservations: how many were deferred, and the last one. *)
Fixpoint burst_loop (n : nat) (deferred : Z) (r : option RateLimitReservation) : M RateLimitWindow (Z * option RateLimitReservation) :=
  match n with
  | O => mret (deferred, r)
  | S n =>
      v ← reserve_detail burst_clock "order.place" (Some "high");
      burst_loop n (if allowed v then deferred else deferred + 1) (Some v)
  end.

Definition run_rate_limit_burst (plan : CertificationPlan) (d : dict) : M CertState CertificationScenario :=
  cfg ← lift (load_config (yaml_at (rate_limit_path plan)));
  slo ← lift (slo_from_path (yaml_at (slo_path plan)));
  n ← lift (py_int (dget_or "burst" (VInt (burst cfg)) d));
  '(deferred, r) ← zoom (λ _, window_init burst_clock cfg world0) (λ _ s, s) (burst_loop (Z.to_nat (n + 1)) 0 None);
  match r with
  | None => raise (UnboundLocalError "reservation")
  | Some v =>
      let queue_ok := fgeb_int (fopp (queue_wait_ms v)) (- (queue_warn_sec slo * 1000)) in
      let '(status, message) := if negb queue_ok then ("fail", VStr "queue_wait_exceeded")
        else if 0 <? deferred then ("pass", VNone) else ("warning", VStr "no throttle triggered") in
      mret (answer "rate_limit_burst" status message [("deferred", VInt deferred); ("queue_wait_ms", VFloat (queue_wait_ms v))])
  end.

Definition run_failover_switch : M CertState CertificationScenario :=
  p ← api (failover_plan default_failover_planner "certification_failover" true);
  mret (answer "failover_switch" "pass" VNone [("plan_id", VStr (fo_plan_id p))]).

Definition execute_scenario (plan : CertificationPlan) (d : pyval) : M CertState CertificationScenario :=
  name ← lift (scenario_name d);
  type ← lift (vget d "type");
  let type := py_str (type or? VStr name) in
  if simulate plan then mret (Scenario name type "pass" (VStr "simulated") [] [])
  else if String.eqb type "sandbox_connectivity" then run_sandbox_connectivity plan
  else if String.eqb type "reduce_only_dispatch" then run_reduce_only_dispatch plan (as_dict_or_empty d)
  else if String.eqb type "rate_limit_burst" then run_rate_limit_burst plan (as_dict_or_empty d)
  else if String.eqb type "failover_switch" then run_failover_switch
  else mret (Scenario name type "skipped" (VStr "unsupported scenario") [] []).

(** ** Evidence *)

Definition copy_attachment (dir : string) (a : pyval) : M CertState unit :=
  src ← lift (py_path a);
  let dest := join_path dir (path_name src "") in
  when (exists_at src && negb (String.eqb (resolve src) (resolve dest))) (modify (push_written dest (CopyOf src))).

Definition write_evidence (r : CertificationResult) : M CertState unit :=
  _ ← modify (push_written (join_path (evidence_dir r) "result.json") (Document (VDict (result_to_dict r))));
  for_each (λ s, for_each (copy_attachment (evidence_dir r)) (sc_attachments s)) (re_scenarios r).

Definition cert_metrics_entry (ts : string) (plan : CertificationPlan) (r : CertificationResult) : dict := [
  ("ts", VStr ts); ("event", VStr "broker_certification"); ("run_id", VStr (run_id r)); ("plan_id", VStr (cp_plan_id plan));
  ("adapter", VStr (cp_adapter plan)); ("profile", VStr (cp_profile plan)); ("status", VStr (overall_status r));
  ("scenario_count", VInt (Z.of_nat (length (re_scenarios r))))].

Definition append_cert_metrics (plan : CertificationPlan) (r : CertificationResult) : M CertState unit :=
  ts ← utcnow_iso; append_jsonl (cp_metrics_path plan) (VDict (cert_metrics_entry ts plan r)).

Definition bypass : CertificationScenario :=
  Scenario "certification_bypass" "feature_flag_bypass" "warning" (VStr "brokers.certification_required is false") [] [].

Definition run_certification (plan : CertificationPlan) (outdir : option string) : M CertState CertificationResult :=
  started ← utcnow_iso;
  id ← fresh_uuid;
  let rid := "cert-" +:+ hex_prefix 12 id in
  let dir := default (join_path (evidence_root plan) rid) outdir in
  scenarios ← (if negb (feature_enabled "brokers.certification_required" (cp_profile plan) (yaml_at (feature_flags_path plan)))
    then mret [bypass]
    else mapM (execute_scenario plan) (if truthy (cp_scenarios plan) then cp_scenarios plan else default_scenarios));
  finished ← utcnow_iso;
  let r := CertResult rid (cp_plan_id plan) (cp_adapter plan) (cp_profile plan) (rollup_status scenarios) started finished scenarios dir in
  _ ← write_evidence r;
  _ ← append_cert_metrics plan r;
  mret r.

Definition report_lines (r : CertificationResult) : list string := [
  "# Broker Certification (" +:+ overall_status r +:+ ")"; ""; "- Run ID: " +:+ run_id r; "- Plan: " +:+ re_plan_id r;
  "- Adapter: " +:+ re_adapter r; "- Profile: " +:+ re_profile r; "- Started: " +:+ started_at r; "- Finished: " +:+ finished_at r;
  "- Evidence Dir: " +:+ evidence_dir r; ""; "## Scenario Results"] ++
  map (λ s, "- " +:+ sc_name s +:+ ": " +:+ sc_status s +:+ " (" +:+ py_str (sc_message s or? VStr "ok") +:+ ")") (re_scenarios r).

Definition write_validation_report (r : CertificationResult) (outdir : string) : M CertState string :=
  now ← now_utc;
  let path := join_path outdir ("AC-06_broker_certification_" +:+ stamp8 now +:+ ".md") in
  _ ← modify (push_written path (Text (report_lines r)));
  mret path.
End suite.

(** * The status of a run *)

Lemma rollup_fail l : rollup_status l = "fail" ↔ ∃ x, x ∈ l ∧ sc_status x = "fail".
Proof.
  unfold rollup_status. destruct (str_in "fail" _) eqn:E.
  - apply str_in_spec, elem_of_remove_dups, list_elem_of_fmap in E as (x & Hx & Hin). split; [|done]. intros _. by exists x.
  - apply str_in_false in E. split.
    + by destruct (str_in "warning" _); [|destruct (_ && _)].
    + intros (x & Hin & Hx). destruct E. apply elem_of_remove_dups, list_elem_of_fmap. by exists x.
Qed.

Lemma rollup_skipped l : l ≠ [] → rollup_status l = "skipped" ↔ ∀ x, x ∈ l → sc_status x = "skipped".
Proof.
  intros Hne. assert (∀ s, s ∈ remove_dups (map sc_status l) ↔ ∃ x, x ∈ l ∧ sc_status x = s) as Hd.
  { intros s. rewrite elem_of_remove_dups, list_elem_of_fmap. naive_solver. }
  pose proof (NoDup_remove_dups (map sc_status l)) as Hn. unfold rollup_status. set (ss := remove_dups _) in *. split.
  - destruct (str_in "fail" ss); [done|]. destruct (str_in "warning" ss); [done|]. destruct (str_in "skipped" ss && _) eqn:E; [|done].
    intros _ x Hx. apply andb_true_iff in E as [Hs Hl%Nat.eqb_eq]. apply str_in_spec in Hs. destruct ss as [|s [|]]; [done| |done].
    apply list_elem_of_singleton in Hs. subst s. assert (sc_status x ∈ ["skipped"]) as H%list_elem_of_singleton by (apply Hd; by exists x). done.
  - intros Ha. assert (ss = ["skipped"]) as ->; [|done]. destruct l as [|x l]; [done|].
    assert (∀ s, s ∈ ss → s = "skipped") as Hall by (intros s (y & Hy & <-)%Hd; by apply Ha).
    assert ("skipped" ∈ ss) as Hin by (apply Hd; exists x; split; [by left|by apply Ha; left]).
    destruct ss as [|a [|b ss]]; [by apply elem_of_nil in Hin|by rewrite (Hall a (list_elem_of_here _ _))|].
    exfalso. apply NoDup_cons in Hn as [Hn _]. apply Hn. rewrite (Hall a), (Hall b); [by left|by right; left|by left].
Qed.

Lemma rollup_values l : rollup_status l ∈ ["fail"; "pass_with_warning"; "skipped"; "pass"].
Proof.
  unfold rollup_status. destruct (str_in "fail" _); [by left|]. destruct (str_in "warning" _); [by right; left|].
  destruct (_ && _); [by right; right; left|by right; right; right; left].
Qed.

(** What the stage guard accepts of a run. *)
Definition certifies (l : list CertificationScenario) : Prop :=
  (∀ x, x ∈ l → sc_status x ≠ "fail") ∧ ∃ x, x ∈ l ∧ sc_status x ≠ "skipped".

Lemma rollup_passes l : l ≠ [] → str_in (rollup_status l) ["pass"; "pass_with_warning"] = true ↔ certifies l.
Proof.
  intros Hne. pose proof (rollup_values l) as Hv. pose proof (rollup_fail l) as Hf. pose proof (rollup_skipped l Hne) as Hs. unfold certifies.
  split.
  - intros H. split.
    + intros x Hx E. rewrite (proj2 Hf (ex_intro _ x (conj Hx E))) in H. done.
    + destruct (decide (Exists (λ x, sc_status x ≠ "skipped") l)) as [[x Hx]%Exists_exists|Hn]; [by exists x|].
      exfalso. rewrite (proj2 Hs) in H; [done|]. intros x Hx. destruct (decide (sc_status x = "skipped")) as [|Hne']; [done|].
      destruct Hn. apply Exists_exists. by exists x.
  - intros [Ha (x & Hx & Hne')]. repeat (apply elem_of_cons in Hv as [Hv|Hv]); [| | | |by apply elem_of_nil in Hv]; rewrite Hv in *; [|done| |done].
    + apply proj1 in Hf. destruct (Hf eq_refl) as (y & Hy & E). by destruct (Ha y Hy).
    + destruct Hne'. by apply (proj1 Hs).
Qed.

Section runs.
Context `{Env}.
Variables (perf_at router_clock burst_clock : nat → float) (getenv : string → option string) (smtp : email → option string)
  (add_alert : string → string → pyval → M ApiState unit) (zoneinfo : string → option (Z → Z)) (vault_load : string → string → M ApiState pyval)
  (files : DispatchFiles) (yaml_at : string → option pyval) (exists_at : string → bool) (resolve : string → string) (monitor : BrokerApiMonitor).

Abbreviation certify := (run_certification perf_at router_clock burst_clock getenv smtp add_alert zoneinfo vault_load files yaml_at exists_at resolve monitor).

Lemma mapM_length {S A B} (f : A → M S B) l : ∀ s r s', mapM f l s = (Ok r, s') → length r = length l.
Proof.
  induction l as [|a l IH]; intros s r s' Hm; cbn [mapM] in Hm; [by injection Hm as <- _|].
  apply bind_Ok in Hm as (b & s1 & _ & Hm). apply bind_Ok in Hm as (r' & s2 & Hm & [= <- _]). cbn. by rewrite (IH _ _ _ Hm).
Qed.

Lemma last_json_snoc ls v : last_json (Some (ls ++ [LJson v])) = Some v.
Proof. unfold last_json, last_line. unfold file_lines. cbn [default from_option id]. rewrite List.filter_app. cbn [List.filter is_blank negb]. by rewrite last_snoc. Qed.

Lemma append_jsonl_out {S} `{HasWorld S} p v (s s' : S) u : append_jsonl p v s = (Ok u, s') → w_out (wget s') = w_out (wget s) ++ [(p, v)].
Proof. unfold append_jsonl. intros [= _ <-]. by rewrite wget_wset. Qed.

(** The other reasons of the stage. *)
Lemma certification_reason c b : match certification_status c with Some s => negb (str_in s ["pass"; "pass_with_warning"]) | None => true end = b →
  "broker_certification_not_pass" ∈ stage_requirements reduce_only c ↔ b = true.
Proof.
  intros Hb. unfold stage_requirements. rewrite Hb. clear Hb. rewrite !elem_of_app. unfold reason_if. split.
  - intros [H'|[H'|[H'|H']]]; revert H'; repeat case_match; rewrite ?list_elem_of_singleton, ?elem_of_nil; done.
  - intros ->. right; left. by left.
Qed.

(** C37. The certification and the stage guard agree: a run appends one record to its
    metrics, the stage guard reads back its overall status from any file that ends
    with that record, and the certificate is no obstacle to the reduce-only stage
    exactly when no scenario of the run failed and not all were skipped. *)
Theorem certification_decides_stage plan outdir s r s' : certify plan outdir s = (Ok r, s') →
  ∃ ts before, w_out (wget s') = before ++ [(cp_metrics_path plan, VDict (cert_metrics_entry ts plan r))] ∧
    (∀ ls, load_certification_status (Some (ls ++ [LJson (VDict (cert_metrics_entry ts plan r))])) = Ok (Some (overall_status r))) ∧
    ∀ c, certification_status c = Some (overall_status r) →
      "broker_certification_not_pass" ∉ stage_requirements reduce_only c ↔ certifies (re_scenarios r).
Proof.
  unfold run_certification. intros Hr. apply bind_Ok in Hr as (started & s1 & _ & Hr). apply bind_Ok in Hr as (id & s2 & _ & Hr).
  cbv zeta in Hr. apply bind_Ok in Hr as (l & s3 & Hl & Hr). apply bind_Ok in Hr as (finished & s4 & _ & Hr).
  apply bind_Ok in Hr as (u & s5 & _ & Hr). apply bind_Ok in Hr as (u2 & s6 & Ha & [= <- <-]).
  unfold append_cert_metrics in Ha. apply bind_Ok in Ha as (ts & s7 & _ & Ha%append_jsonl_out).
  exists ts. eexists. split; [exact Ha|].
  assert (rollup_status l ≠ "") as Hne.
  { pose proof (rollup_values l) as Hv. intros E. rewrite E in Hv. by repeat (apply elem_of_cons in Hv as [Hv|Hv]); try apply elem_of_nil in Hv. }
  split.
  - intros ls. unfold load_certification_status. rewrite last_json_snoc. cbn. by destruct (rollup_status l).
  - intros c Hc. cbn [re_scenarios overall_status] in *. rewrite <- rollup_passes.
    + rewrite (certification_reason c _ eq_refl), Hc. by destruct (str_in _ _).
    + destruct (negb _); [by injection Hl as <- _|]. apply mapM_length in Hl. intros ->. by destruct (cp_scenarios plan).
Qed.
End runs.

(** * A result is read back *)

Theorem result_roundtrip r : evidence_dir r ≠ "" → load_result (VDict (result_to_dict r)) = Ok r.
Proof.
  intros Hd. unfold load_result, result_to_dict. cbn -[mapM_res load_scenario].
  assert (mapM_res load_scenario (map (λ s, VDict (scenario_to_dict s)) (re_scenarios r)) = Ok (re_scenarios r)) as ->.
  { induction (re_scenarios r) as [|x l IH]; [done|]. cbn [map mapM_res]. rewrite IH. destruct x as [n t st msg at_ me]. by destruct at_, me. }
  cbn. destruct r as [? ? ? ? ? ? ? ? dir]. cbn in *. by destruct dir.
Qed.

(** * Behaviours worth knowing *)

Section behaviours.
Context `{Env}.
Variables (perf_at router_clock burst_clock : nat → float) (getenv : string → option string) (smtp : email → option string)
  (add_alert : string → string → pyval → M ApiState unit) (zoneinfo : string → option (Z → Z)) (vault_load : string → string → M ApiState pyval)
  (files : DispatchFiles) (yaml_at : string → option pyval) (exists_at : string → bool) (resolve : string → string) (monitor : BrokerApiMonitor).

(** Without the feature flag (no flags file, no profile, an unreadable one) a run
    certifies nothing and says so with a status the stage guard accepts. *)
Theorem missing_flag_certifies plan outdir s r s' :
  feature_enabled "brokers.certification_required" (cp_profile plan) (yaml_at (feature_flags_path plan)) = false →
  run_certification perf_at router_clock burst_clock getenv smtp add_alert zoneinfo vault_load files yaml_at exists_at resolve monitor plan outdir s = (Ok r, s') →
  re_scenarios r = [bypass] ∧ overall_status r = "pass_with_warning" ∧ certifies (re_scenarios r).
Proof.
  intros Hf. unfold run_certification. intros Hr. apply bind_Ok in Hr as (started & s1 & _ & Hr). apply bind_Ok in Hr as (id & s2 & _ & Hr).
  cbv zeta in Hr. rewrite Hf in Hr. cbn [negb] in Hr. apply bind_Ok in Hr as (l & s3 & [= <- <-] & Hr). apply bind_Ok in Hr as (finished & s4 & _ & Hr).
  apply bind_Ok in Hr as (u & s5 & _ & Hr). apply bind_Ok in Hr as (u2 & s6 & _ & [= <- _]). cbn [re_scenarios overall_status].
  split; [done|]. split; [done|]. by apply rollup_passes.
Qed.
End behaviours.

(** How many of the default burst's reservations are deferred when no time passes. *)
Definition deferrals (cfg : RateLimitConfig) : option Z :=
  match (@burst_loop sample_env (λ _, fzero) (Z.to_nat (burst cfg + 1)) 0 None (window_init (λ _, fzero) cfg world0)).1 with Ok r => Some r.1 | Raise _ => None end.

(** The default burst never meets the throttle: it asks burst + 1 times with high
    priority, and the limiter lends one token to such a call. *)
Example default_burst_is_granted : match load_config None with Ok cfg => deferrals cfg = Some 0 | Raise _ => False end.
Proof. vm_compute. reflexivity. Qed.

Definition sample_plan (sim : bool) : CertificationPlan :=
  CertPlan "broker_certification" "sandbox" "paper" (VStr "me") (VStr "desk") sim
    [VDict [("name", VStr "sandbox_connectivity")]; VDict [("name", VStr "reduce_only_dispatch"); ("symbol", VStr "USDJPY")];
     VDict [("name", VStr "rate_limit_burst"); ("burst", VInt 40)]; VDict [("name", VStr "failover_switch")]]
    "flags.yaml" "limits.yaml" "slo.yaml" "evidence" "metrics/broker_certification.jsonl".
Definition sample_yaml (path : string) : option pyval :=
  if String.eqb path "flags.yaml" then Some (VDict [("defaults", VDict [("paper", VDict [("brokers.certification_required", VBool true)])])])
  else if String.eqb path "limits.yaml" then Some (VDict [("rate_limit", VDict [("reset_sec", VInt 10)])]) else None.
Definition sample_monitor : BrokerApiMonitor := ApiMonitor sample_slo None false None.
Abbreviation sample_run sim := (@run_certification sample_env (λ _, fzero) (λ _, fzero) (λ _, fzero) (λ _, None) (λ _, None) no_store (λ _, None) no_secret sample_files sample_yaml
    (λ _, false) (λ p, p) sample_monitor (sample_plan sim) None (Cert sample_state [])).

Lemma certification_decides_stage_witness : let _ := sample_env in
  ∃ r s' ts before, sample_run false = (Ok r, s') ∧ overall_status r = "pass" ∧
    w_out (wget s') = before ++ [("metrics/broker_certification.jsonl", VDict (cert_metrics_entry ts (sample_plan false) r))] ∧ certifies (re_scenarios r).
Proof.
  cbv zeta. assert (match (sample_run false).1 with Ok r => overall_status r | Raise _ => "" end = "pass") as Hp by (vm_compute; reflexivity).
  destruct (sample_run false) as [[r|e] s'] eqn:E; cbn [fst] in Hp; [|discriminate Hp].
  pose proof (certification_decides_stage (H:=sample_env) (λ _, fzero) (λ _, fzero) (λ _, fzero) (λ _, None) (λ _, None) no_store (λ _, None) no_secret
    sample_files sample_yaml (λ _, false) (λ p, p) sample_monitor (sample_plan false) None (Cert sample_state []) r s') as Q.
  destruct (Q E) as (ts & before & H1 & _ & H2). exists r, s', ts, before. split; [reflexivity|]. split; [exact Hp|]. split; [exact H1|].
  apply (H2 (Context_ None (Some (overall_status r)) 0 false false 0 true false [])); [reflexivity|].
  rewrite (certification_reason _ _ eq_refl). rewrite Hp. intros Hn. discriminate Hn.
Defined.

Lemma result_roundtrip_witness : match (sample_run true).1 with Ok r => load_result (VDict (result_to_dict r)) = Ok r | Raise _ => False end.
Proof.
  assert (match (sample_run true).1 with Ok r => evidence_dir r | Raise _ => "" end = "evidence/cert-0123456789ab") as Hp by (vm_compute; reflexivity).
  destruct (sample_run true).1 as [r|e]; [|discriminate Hp]. apply result_roundtrip. intros E. rewrite E in Hp. discriminate Hp.
Defined.

Lemma missing_flag_certifies_witness : ∃ r s',
  @run_certification sample_env (λ _, fzero) (λ _, fzero) (λ _, fzero) (λ _, None) (λ _, None) no_store (λ _, None) no_secret sample_files (λ _, None)
    (λ _, false) (λ p, p) sample_monitor (sample_plan false) None (Cert sample_state []) = (Ok r, s') ∧ certifies (re_scenarios r).
Proof.
  destruct (@run_certification sample_env (λ _, fzero) (λ _, fzero) (λ _, fzero) (λ _, None) (λ _, None) no_store (λ _, None) no_secret sample_files (λ _, None)
    (λ _, false) (λ p, p) sample_monitor (sample_plan false) None (Cert sample_state [])) as [[r|e] s'] eqn:E; [|discriminate E].
  exists r, s'. split; [reflexivity|].
  exact (proj2 (proj2 (missing_flag_certifies (H:=sample_env) _ _ _ _ _ _ _ _ _ (λ _, None) _ _ _ (sample_plan false) None (Cert sample_state []) r s' eq_refl E))).
Defined.

(** The failover scenario dispatches a real plan: after a certification that passed,
    the router refuses every order. *)
Example certification_blocks_the_router :
  overall_status <$> (sample_run false).1 = Ok "pass" ∧
  (@submit sample_env (λ _, fzero) slow_clock (λ _, None) (λ _, None) no_store (λ _, None) no_secret sample_files sample_router
    (sample_payload (VInt 1)) (ct_api (sample_run false).2)).1 = Raise (OrderDispatchRejected "broker_failover_active" "RUN-BROKER-API-02").
Proof. by vm_compute. Qed.
