(* ===== verification/Profile.v ===== *)
(** The mode profiles of [src/core/session.py]: the profile read from its YAML
    file through the cache of the loader, and the context built from it.  The
    frozen copy of a value ([_freeze]) is the value itself. *)

From S2P Require Import Prelude PyFloat PyVal PyEnv.

Local Open Scope Z_scope.
Local Open Scope py_scope.

(** * Profiles *)

Record ModeProfile := MkProfile {
  profile_id : string; mode : string; schema_version : pyval; metadata : pyval; data_ingestion : pyval; timeframes : pyval; risk : pyval;
  gates : pyval; strategies : list pyval; execution : pyval; spread : pyval; funding : pyval; correlation : pyval; scheduler : pyval;
  raw : dict; source : string }.

Definition required_keys : list string := ["profile_id"; "mode"; "schema_version"; "data_ingestion"; "timeframes"; "risk"; "gates";
  "strategies"; "execution"; "spread"; "funding"; "correlation"; "scheduler"].
Definition PROFILE_MODES : list string := ["backtest"; "paper"; "live"].

(** Membership in a set needs a hash. *)
Definition hashable (v : pyval) : bool := match v with VList _ | VDict _ => false | _ => true end.
Definition in_set (v : pyval) (l : list string) : res bool :=
  if hashable v then Ok (v_in v l) else Raise (TypeError "unhashable type").

(** A [Sequence]; a text is one too. *)
Definition sequence_of (v : pyval) : option (list pyval) :=
  match v with VList l => Some l | VStr s => Some (VStr <$> string_chars s) | _ => None end.

Definition check_strategies (payload : dict) : res (list pyval) :=
  let v := dget "strategies" payload in
  match sequence_of v with
  | Some l => if truthy v then Ok l else Raise (ValueError "Profile strategies must contain at least one entry")
  | None => Raise (ValueError "Profile strategies must contain at least one entry")
  end.

Definition from_mapping (payload : dict) (source : string) : res ModeProfile :=
  let missing := sorted_strings (List.filter (λ k, negb (dmem k payload)) required_keys) in
  if truthy missing then Raise (ValueError ("Profile payload missing required keys: " +:+ py_repr (VList (VStr <$> missing))))
  else
    let m := dget "mode" payload in
    known ← in_set m PROFILE_MODES;
    if negb known then Raise (ValueError ("Unsupported mode value: " +:+ py_repr m))
    else
      l ← check_strategies payload;
      let field k := dget k payload in
      Ok (MkProfile (py_str (field "profile_id")) (py_str m) (field "schema_version") (dget_or "metadata" (VDict []) payload)
        (field "data_ingestion") (field "timeframes") (field "risk") (field "gates") l (field "execution") (field "spread") (field "funding")
        (field "correlation") (field "scheduler") payload source).

(** * What is built from a profile *)

Record MarketClock := Clock { clock_mode : string; timeframe : string; timezone : string }.
Record DataFeedBundle := Feeds { primary : string; fallbacks : list string; poll_interval_sec : option Z; catch_up_enabled : bool;
  manual_fallback_allowed : bool; sla_threshold_profile : option string }.
Record ExecutionProfile := ExecProfile { slippage_bps : pyval; latency_simulation_ms : pyval; additional_settings : dict }.
Record AccountGateway := Gateway { gw_mode : string; gw_profile_id : string }.
Record AuditChannel := Audit { audit_profile_id : string; streams : list string }.
Record HitlProfile := Hitl { board_mode_default : string; enable_news_block : bool; require_double_ack_on_resume : bool;
  enforce_research_ticket : bool; required_roles : list string; manual_comment_required : bool; comment_min_length : Z; comment_max_length : Z }.
Record ModeContext := MkModeContext { mc_mode : string; profile : ModeProfile; clock : MarketClock; deterministic_seed : Z;
  data_feeds : DataFeedBundle; execution_profile : ExecutionProfile; account_gateway : AccountGateway; audit_channel : AuditChannel;
  hitl : HitlProfile; catch_up_state : string }.

(** A sequence that is not a text, as texts. *)
Definition texts_of (v : pyval) : list string := match v with VList l => map py_str l | _ => [] end.

Definition build_clock (p : ModeProfile) : res MarketClock :=
  tf ← vget_or (timeframes p) "trigger" (VStr "");
  tz ← vget_or (scheduler p) "timezone" (VStr "UTC");
  Ok (Clock (mode p) (py_str tf) (py_str tz)).

Definition build_data_feeds (p : ModeProfile) : res DataFeedBundle :=
  let ingestion := data_ingestion p in
  fallbacks ← vget ingestion "fallback_providers";
  poll ← vget ingestion "poll_interval_sec";
  poll ← (match poll with VNone => Ok None | v => z ← py_int v; Ok (Some z) end);
  sla ← vget ingestion "sla_threshold_profile";
  provider ← vget_or ingestion "provider" (VStr "");
  catch_up ← vget_or ingestion "catch_up_enabled" (VBool false);
  manual ← vget_or ingestion "manual_fallback_allowed" (VBool false);
  Ok (Feeds (py_str provider) (texts_of fallbacks) poll (truthy catch_up) (truthy manual)
    (match sla with VNone => None | v => Some (py_str v) end)).

Definition build_execution_profile (p : ModeProfile) : res ExecutionProfile :=
  slippage ← vget (execution p) "slippage_bps";
  latency ← vget (execution p) "latency_simulation_ms";
  Ok (ExecProfile slippage latency (List.filter (λ kv : string * pyval, negb (str_in kv.1 ["slippage_bps"; "latency_simulation_ms"]))
    (as_dict_or_empty (execution p)))).

Definition build_account_gateway (p : ModeProfile) : AccountGateway := Gateway (mode p) (profile_id p).
Definition build_audit_channel (p : ModeProfile) : AuditChannel := Audit (profile_id p) ["session"; "signals"; "execution"].

Definition build_hitl_profile (p : ModeProfile) : res HitlProfile :=
  let g := gates p in
  let flag k := v ← vget_or g k (VBool false); Ok (truthy v) in
  let number k := v ← vget_or g k (VInt 0); py_int (v or? VInt 0) in
  roles ← vget g "required_roles";
  board ← vget_or g "board_mode_default" (VStr "normal");
  news ← flag "enable_news_block";
  double_ack ← flag "require_double_ack_on_resume";
  research ← flag "enforce_research_ticket";
  comment ← flag "manual_comment_required";
  lo ← number "comment_min_length";
  hi ← number "comment_max_length";
  Ok (Hitl (py_str board) news double_ack research (texts_of roles) comment lo hi).

(** * The loader and its cache *)

(** [lru_cache(maxsize=16)]: the profiles by directory and name, the least recently
    used first; an exception is not kept. *)
Abbreviation key := (string * string)%type.
Abbreviation cache := (list (key * ModeProfile)).
Definition CACHE_SIZE : nat := 16.

Definition other_than (k : key) (e : key * ModeProfile) : bool := negb (bool_decide (e.1 = k)).

Section loader.
(** The YAML document at a path. *)
Variable yaml_at : string → document.

Definition profile_path (k : key) : string := k.1 +:+ "/" +:+ k.2 +:+ ".yaml".

Definition read_profile (k : key) : res ModeProfile :=
  let path := profile_path k in
  match yaml_at path with
  | None => Raise (OtherError "FileNotFoundError" ("Profile configuration not found: " +:+ path))
  | Some None => Raise (OtherError "YAMLError" path)
  | Some (Some (VDict payload)) => from_mapping payload path
  | Some (Some _) => Raise (ValueError ("Profile YAML at " +:+ path +:+ " must contain a mapping root"))
  end.

Definition load_profile (k : key) : M cache ModeProfile :=
  c ← get;
  match List.find (λ e, bool_decide (e.1 = k)) c with
  | Some e => _ ← modify (λ c, List.filter (other_than k) c ++ [e]); mret e.2
  | None =>
      p ← lift (read_profile k);
      _ ← modify (λ c, drop (S (length c) - CACHE_SIZE) c ++ [(k, p)]);
      mret p
  end.

(** ** Contexts *)

(** The number that the 16 bytes of a [blake2b] digest are. *)
Variable blake2b_16 : string → Z.

Definition derive_seed (p : ModeProfile) (session_id : string) : Z :=
  blake2b_16 (profile_id p +:+ mode p +:+ py_str (schema_version p) +:+ session_id).

Definition build_context (p : ModeProfile) (session_id : string) : res ModeContext :=
  c ← build_clock p;
  feeds ← build_data_feeds p;
  ex ← build_execution_profile p;
  h ← build_hitl_profile p;
  Ok (MkModeContext (mode p) p c (derive_seed p session_id) feeds ex (build_account_gateway p) (build_audit_channel p) h "idle").

(** [ModeContextFactory.create] of the factory over a directory. *)
Definition create (dir profile_name session_id : string) : M cache ModeContext :=
  p ← load_profile (dir, profile_name);
  lift (build_context p session_id).

Record SessionConfig := Config { cfg_mode : string; telemetry_enabled : bool; cfg_snapshot_path : option string;
  profile_name : option string; mode_factory : option string }.
Record SessionContext := MkContext { session_id : string; ctx_mode : string; feature_flags : option (list (string * bool));
  mode_context : option ModeContext }.

(** Factories are given by their directories; [default_dir] is that of a factory
    made without one. *)
Variable default_dir : string.

Definition create_session_context (name id : string) (config : option SessionConfig) (factory : option string)
    (flags : option (list (string * bool))) : M cache SessionContext :=
  let dir := default default_dir (match factory with Some d => Some d | None => c ← config; mode_factory c end) in
  mc ← create dir name id;
  match config with
  | None => mret (MkContext id (mc_mode mc) flags (Some mc))
  | Some c =>
      if match profile_name c with Some n => negb (String.eqb n name) | None => false end then
        raise (ValueError ("SessionConfig.profile_name=" +:+ py_repr (vopt_str (profile_name c)) +:+ " does not match requested profile " +:+ str_repr name))
      else if negb (String.eqb (cfg_mode c) (mc_mode mc)) then
        raise (ValueError ("SessionConfig.mode must align with the profile mode (expected " +:+ str_repr (mc_mode mc) +:+ ", found " +:+ str_repr (cfg_mode c) +:+ ")"))
      else mret (MkContext id (cfg_mode c) flags (Some mc))
  end.
End loader.

(** * A profile that loads is well formed *)

(** The modes of a profile and of the context it gives. *)
Definition well_formed (p : ModeProfile) : Prop :=
  mode p ∈ PROFILE_MODES ∧ strategies p ≠ [] ∧ ∀ k, k ∈ required_keys → is_Some (dlookup k (raw p)).

Lemma dmem_is_Some {A} k (d : list (string * A)) : dmem k d = true ↔ is_Some (dlookup k d).
Proof. unfold dmem. destruct (dlookup k d); split; intros H; done. Qed.

Lemma from_mapping_well_formed d src p : from_mapping d src = Ok p → well_formed p ∧ raw p = d ∧ source p = src.
Proof.
  unfold from_mapping. destruct (truthy _) eqn:Em; [done|]. intros (known & Hk & H)%bind_ok. destruct known; [|done]. cbn [negb] in H.
  apply bind_ok in H as (l & Hl & [= <-]). split; [|done]. split_and!; cbn.
  - unfold in_set in Hk. destruct (hashable _); [|done]. injection Hk as Hk. destruct (dget "mode" d); try discriminate Hk. by apply str_in_spec.
  - unfold check_strategies in Hl. destruct (sequence_of _) as [l'|] eqn:Es; [|done]. destruct (truthy (dget "strategies" d)) eqn:Et; [|done]. injection Hl as <-.
    intros ->. destruct (dget "strategies" d) as [| | | |[]|[]|]; done.
  - intros k Hk'. apply dmem_is_Some. destruct (dmem k d) eqn:E; [done|]. exfalso.
    assert (k ∈ sorted_strings (List.filter (λ k, negb (dmem k d)) required_keys)) as Hin.
    { unfold sorted_strings. rewrite isort_perm. apply list_elem_of_In, filter_In. split; [by apply list_elem_of_In|by rewrite E]. }
    by destruct (sorted_strings _) as [|? ?]; [apply elem_of_nil in Hin|].
Qed.

Lemma read_profile_well_formed yaml_at k p : read_profile yaml_at k = Ok p → well_formed p.
Proof. unfold read_profile. destruct (yaml_at _) as [[[]|]|]; try done. by intros [? _]%from_mapping_well_formed. Qed.

(** * The cache *)

Section lru.
Variables (k : key) (p : ModeProfile).

(** The entry of [k], with what was used after it. *)
Definition holds (others : list key) (c : cache) : Prop :=
  NoDup (c.*1) ∧ (length c <= CACHE_SIZE)%nat ∧ ∃ pre post, c = pre ++ (k, p) :: post ∧ post.*1 ⊆ others.

Lemma find_key (k' : key) (c : cache) e : List.find (λ e, bool_decide (e.1 = k')) c = Some e → e ∈ c ∧ e.1 = k'.
Proof. intros [Hin Hb]%List.find_some. apply bool_decide_eq_true in Hb. split; [by apply list_elem_of_In|done]. Qed.
Lemma find_no_key (k' : key) (c : cache) : List.find (λ e, bool_decide (e.1 = k')) c = None → k' ∉ c.*1.
Proof.
  intros Hf (e & -> & Hin)%list_elem_of_fmap. pose proof (List.find_none _ _ Hf e) as H. cbn in H.
  rewrite bool_decide_true in H by done. assert (true = false); [|done]. apply H. by apply list_elem_of_In.
Qed.

Lemma filter_others_keys k' (c : cache) : (List.filter (other_than k') c).*1 = List.filter (λ x, negb (bool_decide (x = k'))) c.*1.
Proof. induction c as [|[x y] c IH]; [done|]. cbn. unfold other_than at 1. cbn. case_bool_decide; cbn; by rewrite IH. Qed.

(** Moving an entry to the end. *)
Lemma touch_ok k' e (c : cache) : NoDup c.*1 → e ∈ c → e.1 = k' → let c' := List.filter (other_than k') c ++ [e] in
  NoDup c'.*1 ∧ (length c' <= length c)%nat.
Proof.
  intros Hn Hin He c'. subst c'. rewrite fmap_app, filter_others_keys. split.
  - apply NoDup_app. split_and!; [by apply NoDup_ListNoDup, List.NoDup_filter, NoDup_ListNoDup| |apply NoDup_singleton].
    intros x [_ Hx]%list_elem_of_In%filter_In. cbn. rewrite list_elem_of_singleton, He. intros ->. by rewrite bool_decide_true in Hx.
  - rewrite length_app. cbn. apply list_elem_of_split in Hin as (l1 & l2 & ->). rewrite List.filter_app, !length_app. cbn. unfold other_than at 2.
    rewrite bool_decide_true by done. cbn. pose proof (List.filter_length_le (other_than k') l1). pose proof (List.filter_length_le (other_than k') l2). lia.
Qed.

(** A new entry at the end, the first one dropped when the cache is full. *)
Lemma push_ok (e : key * ModeProfile) (c : cache) : NoDup c.*1 → e.1 ∉ c.*1 → (length c <= CACHE_SIZE)%nat →
  let c' := drop (S (length c) - CACHE_SIZE) c ++ [e] in NoDup c'.*1 ∧ (length c' <= CACHE_SIZE)%nat.
Proof.
  intros Hn He Hl c'. subst c'. split.
  - rewrite fmap_app, fmap_drop. apply NoDup_app. split_and!; [|intros x Hx; cbn; rewrite list_elem_of_singleton; intros ->; apply He|apply NoDup_singleton].
    + rewrite <- (take_drop (S (length c) - CACHE_SIZE) c.*1) in Hn. by apply NoDup_app in Hn as (_ & _ & ?).
    + rewrite <- (take_drop (S (length c) - CACHE_SIZE) c.*1). apply elem_of_app. by right.
  - rewrite length_app, length_drop. cbn. unfold CACHE_SIZE in *. lia.
Qed.

Lemma load_holds others yaml_at k' (c : cache) : NoDup others → (length others < CACHE_SIZE)%nat → k' = k ∨ k' ∈ others →
  holds others c → holds others (load_profile yaml_at k' c).2.
Proof.
  intros Ho Hlo Hk' (Hn & Hl & pre & post & Ec & Hpost). unfold load_profile. rewrite bind_run. cbn [get].
  destruct (List.find (λ e, bool_decide (e.1 = k')) c) as [e|] eqn:Ef.
  - apply find_key in Ef as [Hin He]. change (holds others (List.filter (other_than k') c ++ [e])). destruct (touch_ok k' e c Hn Hin He) as [Hn' Hl']. split_and!; [exact Hn'|etrans; [exact Hl'|exact Hl]|].
    destruct (decide (k' = k)) as [->|Hne].
    + assert (e = (k, p)) as ->.
      { destruct e as [x q]. cbn in He. subst x. subst c. rewrite fmap_app, fmap_cons in Hn. apply NoDup_app in Hn as (_ & Hd & Hn).
        apply NoDup_cons in Hn as [Hn _]. apply elem_of_app in Hin as [Hin|[[= ->]|Hin]%elem_of_cons]; [|done|].
        - apply (list_elem_of_fmap_2 fst) in Hin. cbn in Hin. destruct (Hd k Hin). by left.
        - apply (list_elem_of_fmap_2 fst) in Hin. done. }
      eexists _, []. split; [done|]. by intros ? ?%elem_of_nil.
    + subst c. rewrite List.filter_app. cbn [List.filter]. unfold other_than at 2. cbn. rewrite bool_decide_false by congruence. cbn.
      eexists _, (List.filter (other_than k') post ++ [e]). split; [by rewrite <- (assoc_L (++))|].
      rewrite fmap_app. intros x [Hx|Hx]%elem_of_app.
      * apply Hpost. rewrite filter_others_keys in Hx. apply list_elem_of_In, filter_In in Hx as [Hx _]. by apply list_elem_of_In.
      * apply list_elem_of_singleton in Hx. subst x. rewrite He. by destruct Hk'.
  - apply find_no_key in Ef. rewrite bind_run. unfold lift. destruct (read_profile yaml_at k') as [q|]; [|by split_and!; [..|eexists _, _]].
    change (holds others (drop (S (length c) - CACHE_SIZE) c ++ [(k', q)])). destruct (push_ok (k', q) c Hn Ef Hl) as [Hn' Hl']. split_and!; [exact Hn'|exact Hl'|].
    assert (k' ∈ others ∧ k' ∉ post.*1) as [Hin Hnp].
    { subst c. rewrite fmap_app, fmap_cons, elem_of_app, elem_of_cons in Ef. destruct Hk' as [->|]; naive_solver. }
    assert (S (length post) <= length others)%nat as Hc.
    { assert (k' :: post.*1 ⊆+ others) as Hs%submseteq_length.
      { apply NoDup_submseteq; [|set_solver]. apply NoDup_cons. split; [done|]. subst c. rewrite fmap_app in Hn. apply NoDup_app in Hn as (_ & _ & Hn).
        rewrite fmap_cons in Hn. by apply NoDup_cons in Hn as [_ ?]. }
      cbn in Hs. by rewrite length_fmap in Hs. }
    exists (drop (S (length c) - CACHE_SIZE) pre), (post ++ [(k', q)]). split.
    + assert (S (length c) - CACHE_SIZE <= length pre)%nat as Hd by (subst c; rewrite length_app in *; cbn in *; unfold CACHE_SIZE in *; lia).
      rewrite Ec at 2. rewrite drop_app_le by exact Hd. by rewrite <- (assoc_L (++)).
    + rewrite fmap_app. intros x [Hx|Hx]%elem_of_app; [by apply Hpost|]. apply list_elem_of_singleton in Hx. by subst x.
Qed.

(** Loads of profiles, each from the files as they are then. *)
Definition load_all (loads : list ((string → document) * key)) (c : cache) : cache :=
  fold_left (λ c l, (load_profile l.1 l.2 c).2) loads c.

Lemma load_all_holds others loads c : NoDup others → (length others < CACHE_SIZE)%nat → Forall (λ l, l.2 = k ∨ l.2 ∈ others) loads →
  holds others c → holds others (load_all loads c).
Proof.
  intros Ho Hl Hf. revert c. induction Hf as [|l loads Hk _ IH]; intros c Hc; [done|]. cbn. by apply IH, load_holds.
Qed.

Lemma held_is_loaded others yaml_at c : holds others c → (load_profile yaml_at k c).1 = Ok p.
Proof.
  intros (Hn & _ & pre & post & -> & _). unfold load_profile. rewrite bind_run. cbn [get].
  destruct (List.find _ _) as [e|] eqn:Ef.
  - apply find_key in Ef as [Hin He]. cbn. destruct e as [x q]. cbn in He. subst x. rewrite fmap_app, fmap_cons in Hn.
    apply NoDup_app in Hn as (_ & Hd & Hn). apply NoDup_cons in Hn as [Hn _].
    apply elem_of_app in Hin as [Hin|[[= ->]|Hin]%elem_of_cons]; [|done|]; apply (list_elem_of_fmap_2 fst) in Hin; cbn in Hin; [|done].
    destruct (Hd k Hin). by left.
  - apply find_no_key in Ef. destruct Ef. rewrite fmap_app, fmap_cons. apply elem_of_app. right. by left.
Qed.
End lru.

(** A cache the loader works on. *)
Definition cache_ok (c : cache) : Prop := NoDup c.*1 ∧ (length c <= CACHE_SIZE)%nat.

(** The load of a profile leaves it at the end of the cache. *)
Lemma loaded_is_held yaml_at k p (c c' : cache) : cache_ok c → load_profile yaml_at k c = (Ok p, c') → holds k p [] c'.
Proof.
  intros [Hn Hl] E. unfold load_profile in E. rewrite bind_run in E. cbn [get] in E.
  destruct (List.find _ c) as [e|] eqn:Ef.
  - apply find_key in Ef as [Hin He]. cbn in E. injection E as Ep <-. destruct (touch_ok k e c Hn Hin He) as [Hn' Hl'].
    split_and!; [exact Hn'|etrans; [exact Hl'|exact Hl]|]. destruct e as [x q]. cbn in *. subst. eexists _, []. split; [done|]. by intros ? ?%elem_of_nil.
  - apply find_no_key in Ef. rewrite bind_run in E. unfold lift in E. destruct (read_profile yaml_at k) as [q|]; [|done]. cbn in E. injection E as -> <-.
    destruct (push_ok (k, p) c Hn Ef Hl) as [Hn' Hl']. split_and!; [done..|]. eexists _, []. split; [done|]. by intros ? ?%elem_of_nil.
Qed.

Lemma load_profile_cache_ok yaml_at k (c : cache) : cache_ok c → cache_ok (load_profile yaml_at k c).2.
Proof.
  intros [Hn Hl]. unfold load_profile. rewrite bind_run. cbn [get]. destruct (List.find _ c) as [e|] eqn:Ef.
  - apply find_key in Ef as [Hin He]. destruct (touch_ok k e c Hn Hin He) as [Hn' Hl']. split; [exact Hn'|]. etrans; [exact Hl'|exact Hl].
  - apply find_no_key in Ef. rewrite bind_run. unfold lift. destruct (read_profile yaml_at k) as [p|]; [|done].
    exact (push_ok (k, p) c Hn Ef Hl).
Qed.

(** C32. A profile is pinned by its first load: as long as fewer than sixteen other
    profiles are loaded, and whatever becomes of the files meanwhile, loading it
    again gives the profile that was read then. *)
Theorem profile_is_pinned yaml_at yaml_at' k p c c' loads : cache_ok c → load_profile yaml_at k c = (Ok p, c') →
  (length (remove_dups (List.filter (λ x, negb (bool_decide (x = k))) (map snd loads))) < CACHE_SIZE)%nat →
  (load_profile yaml_at' k (load_all loads c')).1 = Ok p.
Proof.
  intros Hc E Hlt. set (others := remove_dups _) in Hlt. apply (held_is_loaded k p others), load_all_holds; [apply NoDup_remove_dups|exact Hlt| |].
  - apply Forall_forall. intros l Hl. destruct (decide (l.2 = k)) as [|Hne]; [by left|right]. apply elem_of_remove_dups.
    apply list_elem_of_In, filter_In. split; [by apply in_map, list_elem_of_In|by rewrite bool_decide_false].
  - destruct (loaded_is_held _ _ _ _ _ Hc E) as (Hn & Hl & pre & post & -> & Hp). split_and!; [done..|]. exists pre, post. split; [done|]. set_solver.
Qed.

(** * The context of a session *)

Lemma load_profile_well_formed yaml_at k (c c' : cache) p : Forall (λ e, well_formed e.2) c → load_profile yaml_at k c = (Ok p, c') →
  well_formed p ∧ Forall (λ e, well_formed e.2) c'.
Proof.
  intros Hc E. unfold load_profile in E. rewrite bind_run in E. cbn [get] in E. destruct (List.find _ c) as [e|] eqn:Ef.
  - apply find_key in Ef as [Hin _]. injection E as <- <-. rewrite Forall_forall in Hc. split; [by apply Hc|].
    apply Forall_app. split; [|apply Forall_singleton; by apply Hc]. apply Forall_forall. intros x [Hx _]%list_elem_of_In%filter_In.
    by apply Hc, list_elem_of_In.
  - rewrite bind_run in E. unfold lift in E. destruct (read_profile yaml_at k) as [q|] eqn:Eq; [|done]. injection E as <- <-.
    apply read_profile_well_formed in Eq. split; [done|]. apply Forall_app. split; [by apply Forall_drop|by apply Forall_singleton].
Qed.

Lemma build_context_profile blake p id mc : build_context blake p id = Ok mc → profile mc = p ∧ mc_mode mc = mode p ∧ catch_up_state mc = "idle".
Proof.
  unfold build_context. intros (c & _ & H)%bind_ok. apply bind_ok in H as (f & _ & H). apply bind_ok in H as (ex & _ & H).
  by apply bind_ok in H as (h & _ & [= <-]).
Qed.

Definition agrees (name id : string) (config : option SessionConfig) (x : SessionContext) : Prop :=
  session_id x = id ∧ (∃ mc, mode_context x = Some mc ∧ ctx_mode x = mode (profile mc) ∧ mc_mode mc = mode (profile mc) ∧
    well_formed (profile mc) ∧ catch_up_state mc = "idle") ∧
  ∀ k, config = Some k → cfg_mode k = ctx_mode x ∧ ∀ n, profile_name k = Some n → n = name.

(** A session context that is created agrees with its configuration: its mode
    is the mode of the profile it was built from, one of backtest, paper and live,
    and the one the configuration asks for. *)
Theorem created_context_agrees yaml_at blake dflt name id config factory flags c x c' : Forall (λ e, well_formed e.2) c →
  create_session_context yaml_at blake dflt name id config factory flags c = (Ok x, c') → agrees name id config x ∧ Forall (λ e, well_formed e.2) c'.
Proof.
  intros Hc E. unfold create_session_context in E. apply bind_Ok in E as (mc & c1 & E1 & E). unfold create in E1.
  apply bind_Ok in E1 as (p & c2 & Ep & E1). apply lift_Ok in E1 as [Eb ->]. apply load_profile_well_formed in Ep as [Hp Hc2]; [|done].
  apply build_context_profile in Eb as (Hmp & Hmm & Hs). assert (c' = c2) as ->.
  { destruct config; repeat case_match; try discriminate E; by injection E as _ <-. }
  split; [|done]. unfold agrees. destruct config as [k|].
  - destruct (profile_name k) as [n|] eqn:En.
    + destruct (String.eqb n name) eqn:E1; [|done]. destruct (String.eqb (cfg_mode k) (mc_mode mc)) eqn:E2; [|done]. cbn in E. injection E as <-.
      to_props. cbn. rewrite <- Hmp in *. split_and!; [done|exists mc; split_and!; congruence|]. intros ? [= <-]. rewrite En. naive_solver.
    + destruct (String.eqb (cfg_mode k) (mc_mode mc)) eqn:E2; [|done]. cbn in E. injection E as <-. to_props. cbn. rewrite <- Hmp in *.
      split_and!; [done|exists mc; split_and!; congruence|]. intros ? [= <-]. by rewrite En.
  - injection E as <-. cbn. rewrite <- Hmp in *. split_and!; [done|exists mc; split_and!; congruence|done].
Qed.

(** * A profile *)

Definition sample_profile_doc : dict := [
  ("profile_id", VStr "paper_default"); ("mode", VStr "paper"); ("schema_version", VInt 1);
  ("data_ingestion", VDict [("provider", VStr "yfinance"); ("fallback_providers", VList [VStr "cache"]); ("poll_interval_sec", VStr "30")]);
  ("timeframes", VDict [("trigger", VStr "M5")]); ("risk", VDict []); ("gates", VDict [("board_mode_default", VStr "guarded")]);
  ("strategies", VList [VDict [("id", VStr "donchian")]]); ("execution", VDict [("slippage_bps", VFloat (of_Z 2)); ("venue", VStr "sim")]);
  ("spread", VDict []); ("funding", VDict []); ("correlation", VDict []); ("scheduler", VDict [])].
Definition sample_yaml_at (path : string) : document :=
  if String.eqb path "config/profiles/paper.yaml" then Some (Some (VDict sample_profile_doc)) else None.
Definition sample_key : key := ("config/profiles", "paper").
Definition sample_config : SessionConfig := Config "paper" true None (Some "paper") None.

(** The file is gone, but the profile is still loaded. *)
Lemma profile_is_pinned_witness : ∃ p, (load_profile sample_yaml_at sample_key []).1 = Ok p ∧
  (load_profile (λ _, None) sample_key (load_all [((λ _, None), ("config/profiles", "live")); (sample_yaml_at, sample_key)]
    (load_profile sample_yaml_at sample_key []).2)).1 = Ok p.
Proof.
  destruct (load_profile sample_yaml_at sample_key []) as [[p|e] c'] eqn:E; [|discriminate E]. exists p. split; [reflexivity|].
  apply (profile_is_pinned sample_yaml_at (λ _, None) sample_key p [] c'); [split; [constructor|cbn; unfold CACHE_SIZE; lia]|exact E|vm_compute; lia].
Defined.

Lemma created_context_agrees_witness : ∃ x c', create_session_context sample_yaml_at (λ _, 7) "config/profiles" "paper" "S1" (Some sample_config)
  None None [] = (Ok x, c') ∧ agrees "paper" "S1" (Some sample_config) x.
Proof.
  destruct (create_session_context sample_yaml_at (λ _, 7) "config/profiles" "paper" "S1" (Some sample_config) None None []) as [[x|e] c'] eqn:E;
    [|discriminate E]. exists x, c'. split; [reflexivity|].
  exact (proj1 (created_context_agrees sample_yaml_at (λ _, 7) "config/profiles" "paper" "S1" (Some sample_config) None None [] x c'
    (Forall_nil_2 _) E)).
Defined.

(** A text passes as a sequence of strategies. *)
Example text_of_strategies : strategies <$> from_mapping (dset "strategies" (VStr "ab") sample_profile_doc) "p" = Ok [VStr "a"; VStr "b"].
Proof. reflexivity. Qed.
