(* ===== verification/Session.v ===== *)
(** The session manager of [src/core/session.py]: a session is started over the
    workflow, stopped, and caught up with the market after an interruption: the
    catch-up gathers what the logs say about the last resync, plans backfill jobs
    for the missing range, runs them through the resync coordinator, and judges
    the lag. *)

From S2P Require Import Prelude PyFloat PyVal PyEnv Calendar Spread HealthStore Health DataQuality DataService Workers Backfill DataFetch Resync Workflow Profile.

Local Open Scope Z_scope.
Local Open Scope py_scope.

Definition DEFAULT_HASH : string := "sha256:0000000000000000000000000000000000000000000000000000000000000000".
Definition DEFAULT_RESYNC_JOBS_PATH : string := "metrics/resync_jobs.jsonl".
Definition DEFAULT_RESYNC_QUEUE_PATH : string := "metrics/resync_queue.jsonl".
Definition DEFAULT_RESYNC_LATENCY_PATH : string := "metrics/resync_latency.jsonl".
Definition MAJOR_SYMBOLS : list string := ["USDJPY"; "EURUSD"; "GBPUSD"; "AUDUSD"].

(** * Timeframes *)

Definition isdigit (s : string) : bool :=
  negb (String.eqb s "") && forallb (λ c, match digit_of c with Some _ => true | None => false end) (String.list_ascii_of_string s).

Definition drop_first (s : string) : string := match s with String _ r => r | EmptyString => "" end.

(** The number of a text that is all digits. *)
Definition digits (s : string) : option Z := if isdigit s then parse_int s else None.

(** The minutes of "5m", "1h", "m5" or "h1". *)
Definition unit_minutes (token : string) : option Z :=
  let suffixed u k := if ends_with u token then z ← digits (drop_last token); Some (z * k) else None in
  let prefixed u k := if starts_with u token then z ← digits (drop_first token); Some (z * k) else None in
  match suffixed "m" 1 with
  | Some z => Some z
  | None => match suffixed "h" 60 with
      | Some z => Some z
      | None => match prefixed "m" 1 with Some z => Some z | None => prefixed "h" 60 end
      end
  end.

Definition timeframe_to_seconds (value : string) : option Z :=
  let token := lower (strip value) in
  match unit_minutes token with Some z => Some (z * 60) | None => digits token end.

(** The spacing the quality guard of a catch-up expects. *)
Definition expected_minutes (timeframe : string) : Z := default 5 (unit_minutes (lower (strip timeframe))).

(** * The state of the manager *)

(** The context the last start was called with (the caller's object), whether it is
    active, what the last start left, and the parts of the system a catch-up
    reaches: the profile cache, the ingestion, the collector of the caller, the
    queue files and the session snapshots by path, the shared health state. *)
Record SessionState := MkSession {
  given : option SessionContext; running : bool; last_result : option WorkflowResult; session_log_path : option string;
  snapshot_path : option string; last_plan : list string; last_workflow_context : option (WorkflowContext SessionContext);
  profile_cache : list ((string * string) * ModeProfile); s_ingestion : Ingestion; s_collector : option IngestionMetricsCollector;
  queues : list (string * list line); snapshots : list (string * option pyval); health_file : option dict }.

Definition set_world (w : world) (s : SessionState) : SessionState :=
  MkSession (given s) (running s) (last_result s) (session_log_path s) (snapshot_path s) (last_plan s) (last_workflow_context s)
    (profile_cache s) (wset w (s_ingestion s)) (s_collector s) (queues s) (snapshots s) (health_file s).

#[export] Instance session_world : HasWorld SessionState.
Proof. refine {| wget s := wget (s_ingestion s); wset := set_world |}; by intros; try destruct s as [? ? ? ? ? ? ? ? []]. Defined.

Definition set_given (c : SessionContext) (s : SessionState) : SessionState :=
  MkSession (Some c) (running s) (last_result s) (session_log_path s) (snapshot_path s) (last_plan s) (last_workflow_context s)
    (profile_cache s) (s_ingestion s) (s_collector s) (queues s) (snapshots s) (health_file s).
Definition set_paths (log snapshot : string) (s : SessionState) : SessionState :=
  MkSession (given s) (running s) (last_result s) (Some log) (Some snapshot) (last_plan s) (last_workflow_context s)
    (profile_cache s) (s_ingestion s) (s_collector s) (queues s) (snapshots s) (health_file s).
Definition set_plan (l : list string) (s : SessionState) : SessionState :=
  MkSession (given s) (running s) (last_result s) (session_log_path s) (snapshot_path s) l (last_workflow_context s)
    (profile_cache s) (s_ingestion s) (s_collector s) (queues s) (snapshots s) (health_file s).
Definition activate (r : WorkflowResult) (c : WorkflowContext SessionContext) (s : SessionState) : SessionState :=
  MkSession (Some (session c)) true (Some r) (session_log_path s) (snapshot_path s) (last_plan s) (Some c)
    (profile_cache s) (s_ingestion s) (s_collector s) (queues s) (snapshots s) (health_file s).
Definition deactivate (s : SessionState) : SessionState :=
  MkSession (given s) false None None None (last_plan s) None (profile_cache s) (s_ingestion s) (s_collector s) (queues s) (snapshots s) (health_file s).
Definition set_cache (c : list ((string * string) * ModeProfile)) (s : SessionState) : SessionState :=
  MkSession (given s) (running s) (last_result s) (session_log_path s) (snapshot_path s) (last_plan s) (last_workflow_context s)
    c (s_ingestion s) (s_collector s) (queues s) (snapshots s) (health_file s).
Definition set_ingestion (i : Ingestion) (c : option IngestionMetricsCollector) (s : SessionState) : SessionState :=
  MkSession (given s) (running s) (last_result s) (session_log_path s) (snapshot_path s) (last_plan s) (last_workflow_context s)
    (profile_cache s) i c (queues s) (snapshots s) (health_file s).
Definition set_queue (path : string) (l : list line) (s : SessionState) : SessionState :=
  MkSession (given s) (running s) (last_result s) (session_log_path s) (snapshot_path s) (last_plan s) (last_workflow_context s)
    (profile_cache s) (s_ingestion s) (s_collector s) (dset path l (queues s)) (snapshots s) (health_file s).
Definition set_snapshot (path : string) (v : pyval) (s : SessionState) : SessionState :=
  MkSession (given s) (running s) (last_result s) (session_log_path s) (snapshot_path s) (last_plan s) (last_workflow_context s)
    (profile_cache s) (s_ingestion s) (s_collector s) (queues s) (dset path (Some v) (snapshots s)) (health_file s).
Definition set_health_file (d : dict) (s : SessionState) : SessionState :=
  MkSession (given s) (running s) (last_result s) (session_log_path s) (snapshot_path s) (last_plan s) (last_workflow_context s)
    (profile_cache s) (s_ingestion s) (s_collector s) (queues s) (snapshots s) (Some d).

Definition active_context (s : SessionState) : option SessionContext := if running s then given s else None.

(** [replace(mode_context, catch_up_state=...)] on the active session, if it has one. *)
Definition with_state (st : string) (m : ModeContext) : ModeContext :=
  MkModeContext (mc_mode m) (profile m) (clock m) (deterministic_seed m) (data_feeds m) (execution_profile m) (account_gateway m)
    (audit_channel m) (hitl m) st.
Definition set_catch_up (st : string) (s : SessionState) : SessionState :=
  match active_context s with
  | Some c =>
      match mode_context c with
      | Some m => set_given (MkContext (session_id c) (ctx_mode c) (feature_flags c) (Some (with_state st m))) s
      | None => s
      end
  | None => s
  end.

(** ** The parts *)

Section parts.
Context {A : Type}.
Definition in_cache (m : M (list ((string * string) * ModeProfile)) A) : M SessionState A :=
  λ s, let '(r, c) := m (profile_cache s) in (r, set_cache c s).
Definition in_ingestion (m : M Ingestion A) : M SessionState A := zoom s_ingestion (λ i s, set_ingestion i (s_collector s) s) m.
(** The coordinator over the queue file at a path, with a guard of its own. *)
Definition in_resync (path : string) (m : M Resync A) : M SessionState A :=
  zoom (λ s, MkResync (set_quality (GState None None world0) (s_ingestion s)) (dlookup path (queues s)))
    (λ r s, set_ingestion (ingestion r) (s_collector s) (match queue_file r with Some l => set_queue path l s | None => s end)) m.
(** A fetch with the collector of the caller. *)
Definition in_fetching (m : M Fetching A) : M SessionState A :=
  zoom (λ s, Fetch (set_collector (s_collector s) (s_ingestion s)) [] [] None) (λ f s, set_ingestion (ing f) (collector (ing f)) s) m.
(** A health monitor made for the occasion. *)
Definition in_new_monitor (m : M HealthMonitor A) : M SessionState A := zoom (λ _, monitor0 world0) (λ _ s, s) m.
End parts.

(** * What the logs say *)

(** [if key in record and key not in stats: stats[dest] = record[key]] *)
Definition take_missing (record : dict) (stats : dict) (kd : string * string) : dict :=
  match dlookup kd.1 record with Some v => if dmem kd.2 stats then stats else dset kd.2 v stats | None => stats end.

Definition STATS_KEYS : list string := ["catch_up_elapsed_sec"; "catch_up_lag_minutes"; "recovered_symbols"; "failover_used"; "manual_csv_required";
  "cfg_hash"; "data_hash"; "fetch_p95_ms"; "fetch_p99_ms"; "retry_count"; "latency_status"; "determinism_hash"].

Definition stats_of (record : dict) : dict :=
  let stats := as_dict_or_empty (dget "payload" record) in
  let stats := fold_left (take_missing record) (map (λ k, (k, k)) STATS_KEYS) stats in
  let stats := fold_left (take_missing (as_dict_or_empty (dget "context" record)))
    (map (λ k, (k, k)) ["mode"; "board_mode"; "cfg_hash"; "data_hash"]) stats in
  fold_left (take_missing record) [("symbols", "recovered_symbols"); ("since", "since")] stats.

(** The latest lines come first. *)
Fixpoint latest_stats (l : list line) : res dict :=
  match l with
  | [] => Ok []
  | LJson (VDict record) :: l =>
      resync ← in_set (dget "event" record) ["resync.completed"; "resync.simulated"];
      if resync : bool then Ok (stats_of record) else latest_stats l
  | _ :: l => latest_stats l
  end.

(** A conversion of the value at a key, if it is there and can be converted. *)
Definition converted {A} (conv : pyval → res A) (key : string) (record : dict) : res (option A) :=
  match dlookup key record with Some v => coerce conv v | None => Ok None end.

Definition metrics_of (record : dict) : res dict :=
  p95 ← converted py_float "p95_latency_sec" record;
  p99 ← converted py_float "p99_latency_sec" record;
  retry ← converted py_int "retry_count" record;
  flag ← converted py_int "quality_flag" record;
  let ms x := VFloat (fmul x (of_Z 1000)) in
  Ok (opt_field "fetch_p95_ms" ms p95 ++ opt_field "fetch_p99_ms" ms p99 ++
    (if dmem "latency_status" record || dmem "status" record then [("latency_status", dget "latency_status" record or? dget "status" record)] else []) ++
    opt_field "retry_count" VInt retry ++ opt_field "catch_up_lag_minutes" id (dlookup "catch_up_lag_minutes" record) ++
    opt_field "quality_flag" VInt flag).

(** [record.get("phase") in {None, "fetch"}] *)
Definition of_fetch (record : dict) : res bool :=
  match dget "phase" record with VNone => Ok true | v => in_set v ["fetch"] end.

Fixpoint latest_metrics (l : list line) : res dict :=
  match l with
  | [] => Ok []
  | LJson (VDict record) :: l =>
      fetch ← of_fetch record;
      if fetch : bool then p ← metrics_of record; if truthy p then Ok p else latest_metrics l else latest_metrics l
  | _ :: l => latest_metrics l
  end.

(** [_coalesce_int] and [_coalesce_float] *)
Fixpoint coalesce {A} (conv : pyval → res A) (values : list pyval) (dflt : A) : res A :=
  match values with
  | [] => Ok dflt
  | v :: values => x ← coerce conv v; match x with Some x => Ok x | None => coalesce conv values dflt end
  end.

Definition compute_catch_up_priority (lag : Z) (symbols : list string) : string :=
  let majors := Z.of_nat (length (List.filter (λ s, str_in (upper s) MAJOR_SYMBOLS) symbols)) in
  if (30 <=? lag) && (4 <=? majors) then "critical" else if 30 <=? lag then "high" else if 20 <=? lag then "high" else "normal".

Definition parse_since (value : option string) : option datetime := parse_dt (vopt_str value).

Definition compute_range_minutes (since : option datetime) (now : datetime) : res (option Z) :=
  match since with
  | None => Ok None
  | Some d => n ← whole_minutes (utc_us now - utc_us d); Ok (Some (Z.max n 0))
  end.

Definition vopt_int (o : option Z) : pyval := match o with Some z => VInt z | None => VNone end.

(** [str(uuid4())] of the digits of [uuid4().hex]. *)
Definition uuid_text (h : string) : string :=
  let part i n := String.substring i n h in
  part 0%nat 8%nat +:+ "-" +:+ part 8%nat 4%nat +:+ "-" +:+ part 12%nat 4%nat +:+ "-" +:+ part 16%nat 4%nat +:+ "-" +:+ part 20%nat 12%nat.

(** [list(dict.fromkeys(values))]: the values need a hash. *)
Fixpoint unique (values kept : list pyval) : res (list pyval) :=
  match values with
  | [] => Ok kept
  | v :: values =>
      if negb (hashable v) then Raise (TypeError "unhashable type")
      else unique values (if existsb (py_eqb v) kept then kept else kept ++ [v])
  end.

(** * Catching up: the call *)

Record CatchUp := MkCatchUp {
  a_since : option string; a_symbols : list string; a_force : bool; a_failover_report : bool; a_dry_run : bool; a_attachments : list string;
  a_collector : option IngestionMetricsCollector; a_timeframe : option string; a_priority : list string; a_handlers : option handlers }.

(** What the logs, the environment and the collector say before anything is done. *)
Record Measures := MkMeasures {
  m_cfg : pyval; m_data : pyval; m_board : pyval; m_mode : pyval; m_determinism : pyval; m_elapsed : Z; m_elapsed_logged : bool; m_lag : Z; m_failover : list pyval;
  m_manual : bool; m_recovered : list pyval; m_p95 : float; m_p99 : float; m_retries : Z; m_quality : Z; m_latency : pyval }.

Definition snapshot_dict (c : option IngestionMetricsCollector) : dict :=
  match c with
  | Some c =>
      let s := collector_snapshot c in
      [("fetch_p95_ms", vopt_float (s_p95 s)); ("fetch_p99_ms", vopt_float (s_p99 s)); ("retry_count", VInt (s_retries s));
       ("latency_status", VStr (s_latency s))]
  | None => []
  end.

Section manager.
Context `{Env}.
Variable perf_at : nat → float.
Variable getenv : string → option string.
(** The YAML profiles, the JSONL logs as their readers see them, and the gate state. *)
Variable yaml_at : string → document.
Variable lines_at : string → file.
Variable json_at : string → document.
Variable blake2b_16 : string → Z.
(** What the data service reads and builds. *)
Variable build_handlers : string → string → handlers.
Variable latest_handlers : handlers.
Variables priorities_doc config_doc profiles_doc : document.
Variable time_sync : file.
(** The manager: its configuration, its factory, its directories, its workflow. *)
Variable config : SessionConfig.
Variable manager_factory : option string.
Variables default_dir session_log_dir snapshot_root : string.
Variable workflow : list (PipelineStep SessionContext).

(** [os.getenv(k) or d] and [os.getenv(k, d)] *)
Definition env_or (k d : string) : string := default "" (getenv k) or? d.
Definition env_default (k d : string) : string := default d (getenv k).

(** ** The readers *)

Definition load_gate_state : res dict :=
  match json_at (env_default "TRADECTL_GATE_STATE_PATH" "snapshots/latest/gate_state.json") with
  | Some (Some data) =>
      cfg ← vget data "cfg_hash";
      dat ← vget data "data_hash";
      auto ← vget data "auto_execute";
      Ok [("cfg_hash", cfg or? VStr (env_or "TRADECTL_CFG_HASH" DEFAULT_HASH)); ("data_hash", dat or? VStr (env_or "TRADECTL_DATA_HASH" DEFAULT_HASH));
          ("board_mode", VStr (match auto with VBool true => "normal" | _ => "guarded" end))]
  | _ => Ok []
  end.

(** The file is read from its last 8192 bytes. *)
Definition load_latest_determinism_hash : pyval :=
  match last_line (lines_at (env_default "TRADECTL_DETERMINISM_LOG" "logs/strategy/registry.log")) with
  | Some (LJson (VDict d)) => dget "determinism_hash" d or? dget "deterministic_hash" d
  | _ => VNone
  end.

Definition load_latest_resync_stats : res dict :=
  latest_stats (rev (file_lines (lines_at (env_default "TRADECTL_RESYNC_LOG_PATH" "logs/resync/resync_events.jsonl")))).
Definition ingestion_metrics_path : string := env_default "TRADECTL_INGESTION_METRICS_PATH" "metrics/data_ingestion_sla.jsonl".
Definition load_latest_ingestion_metrics : res dict := latest_metrics (rev (file_lines (lines_at ingestion_metrics_path))).

Definition catch_up_lag (measured ingestion snap : dict) (range : option Z) : res Z :=
  lag ← coalesce py_int [dget "catch_up_lag_minutes" measured; dget "catch_up_lag_minutes" snap; vopt_str (getenv "TRADECTL_RESYNC_LAG_MINUTES")] 0;
  let measured_lag := dget "catch_up_lag_minutes" measured in
  let ingestion_lag := dget "catch_up_lag_minutes" ingestion in
  lag ← (match ingestion_lag with VNone => Ok lag | v => if truthy measured_lag then Ok lag else py_int v end);
  Ok (match range, ingestion_lag with
    | Some r, VNone => if negb (truthy measured_lag) && (lag =? 0) then r else lag
    | _, _ => lag
    end).

Definition measure (a : CatchUp) (gate measured ingestion : dict) (elapsed : Z) (range : option Z) : res Measures :=
  let snap := snapshot_dict (a_collector a) in
  let known key dflt := dget key measured or? (dget_or key dflt gate or? dflt) in
  let tokens := default "" (getenv "TRADECTL_RESYNC_FAILOVER_USED") in
  let from_env := if truthy tokens then List.filter (λ t, truthy (strip t)) (split_all "," tokens) else [] in
  elapsed ← coalesce py_int [dget "catch_up_elapsed_sec" measured; VInt elapsed] 0;
  lag ← catch_up_lag measured ingestion snap range;
  failover ← py_iter (dget "failover_used" measured or? vstrs from_env);
  recovered ← py_iter (dget "recovered_symbols" measured or? vstrs (a_symbols a));
  let sources key env := [dget key snap; dget key measured; dget key ingestion; vopt_str (getenv env)] in
  p95 ← coalesce py_float (sources "fetch_p95_ms" "TRADECTL_RESYNC_FETCH_P95_MS") (of_Z 500);
  p99 ← coalesce py_float (sources "fetch_p99_ms" "TRADECTL_RESYNC_FETCH_P99_MS") (of_Z 800);
  retries ← coalesce py_int (sources "retry_count" "TRADECTL_RESYNC_RETRY_COUNT") 0;
  quality ← coalesce py_int [dget "quality_flag" measured; dget "quality_flag" ingestion; vopt_str (getenv "TRADECTL_RESYNC_QUALITY_FLAG")] 0;
  Ok (MkMeasures (known "cfg_hash" (VStr (env_or "TRADECTL_CFG_HASH" DEFAULT_HASH))) (known "data_hash" (VStr (env_or "TRADECTL_DATA_HASH" DEFAULT_HASH)))
    (known "board_mode" (VStr (env_or "TRADECTL_BOARD_MODE" "normal"))) (dget "mode" measured or? VStr (cfg_mode config))
    (dget "determinism_hash" measured or? (vopt_str (getenv "TRADECTL_DETERMINISM_HASH") or? load_latest_determinism_hash))
    elapsed (truthy (dget "catch_up_elapsed_sec" measured)) lag failover
    (truthy (dget_or "manual_csv_required" (VBool false) measured)) recovered p95 p99 retries quality
    (dget "latency_status" snap or? (dget "latency_status" measured or? (dget "latency_status" ingestion or?
      VStr (env_default "TRADECTL_RESYNC_LATENCY_STATUS" "ok"))))).

(** ** Health *)

Definition check_snapshot_consistency (cfg data : pyval) : M SessionState unit :=
  gate ← lift load_gate_state;
  let differs key v := truthy (dget key gate) && negb (py_eqb (dget key gate) v) in
  let mismatch := (if differs "cfg_hash" cfg then ["cfg_hash"] else []) ++ (if differs "data_hash" data then ["data_hash"] else []) in
  when (truthy mismatch) (in_new_monitor (raise_condition "warning" "snapshot_consistency_mismatch"
    (Some ("mismatch=" +:+ join "," mismatch)) (Some "verify_snapshot_consistency") false)).

(** The lag is a number already when it is judged. *)
Definition judge_lag (lag : Z) (evidence : string) : M HealthMonitor HealthState :=
  let detail := Some ("catch_up_lag_minutes=" +:+ pretty lag) in
  _ ← (if 30 <=? lag then
      _ ← raise_condition "degraded" "data_latency_catch_up" detail (Some "runbook:RUN-DATA-06#guarded_checklist") false;
      _ ← suggest_guarded "data_latency_catch_up" (Some "docs/runbooks/RUN-DATA-06.md") None (Some [evidence]) None None;
      mret tt
    else if 20 <=? lag then
      raise_condition "warning" "data_latency_catch_up" detail (Some "runbook:RUN-DATA-06#notify_ops") false
    else suggest_resume "data_latency_catch_up_recovered" (Some "docs/runbooks/RUN-DATA-05.md") (Some [evidence]) None None);
  gets hm_state.

Definition apply_catch_up_thresholds (lag : Z) : M SessionState unit :=
  s ← get;
  h ← in_new_monitor (judge_lag lag (default "" (snapshot_path s)));
  modify (set_health_file (health_to_dict h)).

(** A snapshot that does not decode counts as empty. *)
Definition update_session_snapshot (summary : dict) : M SessionState unit :=
  s ← get;
  match snapshot_path s with
  | None => mret tt
  | Some path =>
      payload ← lift (match dlookup path (snapshots s) with
        | None | Some None => Ok []
        | Some (Some (VDict d)) => Ok d
        | Some (Some _) => Raise (AttributeError "setdefault")
        end);
      let id := match active_context s with Some c => VStr (session_id c) | None => VNone end in
      let payload := if dmem "session_id" payload then payload else dset "session_id" id payload in
      now ← utcnow_iso;
      modify (set_snapshot path (VDict (dset "catch_up_summary" (VDict summary) (dset "updated_at" (VStr now) payload))))
  end.

(** ** Logs *)

Definition log_resync_job (id : string) (range : option Z) (symbols : list string) (priority : string) (plan : list string) (manual : bool)
    (duration : Z) (status : string) : M SessionState unit :=
  now ← now_utc;
  _ ← try_append_jsonl (env_default "TRADECTL_RESYNC_JOBS_PATH" DEFAULT_RESYNC_JOBS_PATH) (VDict [
    ("ts", VStr (iso_us_z now)); ("job_id", VStr id); ("range_minutes", vopt_int range); ("symbols", vstrs symbols); ("priority", VStr priority);
    ("failover_plan", vstrs plan); ("manual_csv_required", VBool manual); ("duration_sec", VInt duration); ("status", VStr status)]);
  mret tt.

Definition log_resync_latency (id : string) (sec : Z) (ratio : option float) (timeframe : string) : M SessionState unit :=
  now ← now_utc;
  _ ← try_append_jsonl (env_default "TRADECTL_RESYNC_LATENCY_PATH" DEFAULT_RESYNC_LATENCY_PATH) (VDict ([
    ("ts", VStr (iso_us_z now)); ("resync_job_id", VStr id); ("resync_latency_sec", VInt sec); ("timeframe", VStr timeframe)] ++
    opt_field "resync_latency_ratio" VFloat ratio));
  mret tt.

Definition bar_ready : string := env_default "TRADECTL_BAR_READY_QUEUE" "data/queues/bar_ready.jsonl".

(** What a fetch or a log entry of the catch-up runs with. *)
Definition fetch_options (profiles : dict) (metrics : string) : Options :=
  Opts 2 (of_Z 500) profiles (of_Z 1000) (of_Z 1500) [] None false (of_Z 18) 10 (of_Z 12) None metrics bar_ready.

(** [IngestionMetricsCollector.write_snapshot] *)
Definition write_snapshot (c : IngestionMetricsCollector) : M Ingestion unit :=
  let snap := collector_snapshot c in
  match s_p95 snap with
  | None => mret tt
  | Some p95 =>
      let p99 := match s_p99 snap with Some x => if truthy x then x else p95 | None => p95 end in
      log_sla_entry (fetch_options [] ingestion_metrics_path) (Sla (default "" (last_provider c) or? "resync") (last_timeframe c or? "unknown")
        (last_symbols c) None (last_stage c or? "fetch") p95 p99 (last_bars c) (s_latency snap) fzero None None None None)
  end.

(** ** Backfill jobs *)

(** What all the jobs of a catch-up have in common. *)
Record JobPlan := MkJobPlan { jp_resync_id : string; jp_symbols : list string; jp_timeframe : string; jp_priority : string;
  jp_failover_plan : list string; jp_manual : bool; jp_retries : Z; jp_status : string }.

Definition segment_minutes (manual : bool) (retries total : Z) : Z := if manual && (3 <=? retries) && (24 * 60 <=? total) then 4 * 60 else total.

(** The loop over the segments: each begins where the one before ends. *)
Definition segments (start end_ : datetime) (minutes : Z) : res (list (datetime * datetime)) :=
  let step := minutes_us minutes in
  let '(l, e) := chunks_from (Z.to_nat ((utc_us end_ - utc_us start) / step + 2)) start end_ step in
  match e with Some e => Raise e | None => Ok l end.

Definition without_micro (d : datetime) : datetime :=
  DateTime (dt_year d) (dt_month d) (dt_day d) (dt_hour d) (dt_minute d) (dt_second d) 0 (dt_tz d).

Definition job_payload (p : JobPlan) (ts : datetime) (id : string) (i n range : Z) (s : datetime * datetime) : dict := [
  ("ts", VStr (iso_us_z ts)); ("job_id", VStr (uuid_text id)); ("resync_job_id", VStr (jp_resync_id p)); ("segment_index", VInt i);
  ("segment_total", VInt n); ("start", VStr (iso_text (without_micro s.1))); ("end", VStr (iso_text (without_micro s.2)));
  ("range_minutes", VInt range); ("symbols", vstrs (jp_symbols p)); ("timeframe", VStr (jp_timeframe p)); ("priority", VStr (jp_priority p));
  ("failover_plan", vstrs (jp_failover_plan p)); ("manual_csv_required", VBool (jp_manual p)); ("retry_count", VInt (jp_retries p));
  ("status", VStr (jp_status p))].

Fixpoint job_payloads (p : JobPlan) (n i : Z) (l : list (datetime * datetime)) : M SessionState (list dict) :=
  match l with
  | [] => mret []
  | s :: l =>
      range ← lift (whole_minutes (utc_us s.2 - utc_us s.1));
      ts ← now_utc;
      id ← fresh_uuid;
      rest ← job_payloads p n (i + 1) l;
      mret (job_payload p ts id i n range s :: rest)
  end.

(** One open file takes all the lines, or none when it cannot be opened. *)
Definition append_queue (path : string) (l : list dict) : M SessionState bool := λ s,
  let w := wget s in
  let s := wset (World (w_tick w) (w_uuid w) (S (w_io w)) (w_out w)) s in
  if io_ok_at (w_io w) then (Ok true, set_queue path (file_lines (dlookup path (queues s)) ++ map (LJson ∘ VDict) l) s) else (Ok false, s).

Definition resolve_resync_queue_path : string := env_or "TRADECTL_RESYNC_QUEUE_PATH" DEFAULT_RESYNC_QUEUE_PATH.

Definition enqueue_backfill_jobs (p : JobPlan) (start : option datetime) (end_ : datetime) : M SessionState (list dict * option string) :=
  match start with
  | None => mret ([], None)
  | Some start =>
      if negb (truthy (jp_symbols p)) then mret ([], None)
      else
        total ← lift (whole_minutes (utc_us end_ - utc_us start));
        if total <=? 0 then mret ([], None)
        else
          l ← lift (segments start end_ (segment_minutes (jp_manual p) (jp_retries p) total));
          payloads ← job_payloads p (Z.of_nat (length l)) 1 l;
          if truthy payloads then
            ok ← append_queue resolve_resync_queue_path payloads;
            mret (payloads, if ok : bool then Some resolve_resync_queue_path else None)
          else mret (payloads, None)
  end.

(** ** Running the jobs, and the latest bars *)

Definition resync_params (tf : string) (given : handlers) : Params :=
  let minutes := expected_minutes tf in
  MkParams given [] (Some (DataQuality.Guard minutes (Z.max (minutes * 2) 10) time_sync 50 (of_dec 1 (-1)))) (Some ingestion_metrics_path)
    2 (of_Z 500) 6 false.

(** [None] when there is nothing to do or the coordinator raises. *)
Definition run_jobs (a : CatchUp) (tf : string) (jobs : list dict) (path : option string) : M SessionState (option Summary) :=
  if truthy jobs && negb (a_dry_run a) then
    out ← attempt (in_resync (default DEFAULT_RESYNC_QUEUE_PATH path)
      (process_jobs perf_at build_handlers priorities_doc config_doc profiles_doc (of_Z 1000) (of_Z 1500) bar_ready
        (resync_params tf (default [] (a_handlers a))) (map inl jobs)));
    mret (match out with Ok x => Some x | Raise _ => None end)
  else mret None.

Definition rate_limit_guard : res (option RateLimitGuard) :=
  if String.eqb (env_default "TRADECTL_RATE_LIMIT_GUARD_ENABLED" "1") "0" then Ok None
  else
    let text := env_default "TRADECTL_RATE_LIMIT_STAGES" "stage0,stage1,stage2" in
    let stages := List.filter truthy (map strip (split_all "," text)) or? ["stage0"] in
    let number k d := coalesce py_float [vopt_str (getenv k)] (of_Z d) in
    tokens ← number "TRADECTL_RATE_LIMIT_TPM" 60;
    burst ← number "TRADECTL_RATE_LIMIT_BURST" 90;
    poll ← number "TRADECTL_RATE_LIMIT_POLL_SEC" 15;
    Ok (Some (Workers.Guard tokens burst poll stages)).

Definition fetch_bars (a : CatchUp) (tf : string) (given : handlers) : M SessionState unit :=
  guard ← lift rate_limit_guard;
  profiles ← lift (load_provider_profiles profiles_doc);
  let fo := FOpts None guard (Some (env_default "TRADECTL_RATE_LIMIT_LOG" "metrics/rate_limit_window.jsonl")) false None None None
    (negb (String.eqb (env_default "TRADECTL_WORKER_PLAN_ENABLED" "1") "0")) (Some "logs/events/ingestion_fallback.jsonl") None in
  _ ← in_fetching (fetch_latest perf_at getenv (fetch_options profiles "metrics/data_ingestion_sla.jsonl") fo priorities_doc config_doc None
    (given or? latest_handlers) (a_symbols a) tf (a_priority a or? ["primary"]) (Some []) None);
  mret tt.

Definition fetch_if_wired (a : CatchUp) (tf : string) : M SessionState unit :=
  match a_collector a, a_handlers a with
  | Some _, Some given => when (negb (a_dry_run a)) (_ ← attempt (fetch_bars a tf given); mret tt)
  | _, _ => mret tt
  end.

(** ** [catch_up] *)

(** What the jobs have changed of the measures. *)
Record Outcome := MkOutcome { r_failover : list pyval; r_retries : Z; r_manual : bool; r_jobs : list dict }.

Definition merge_processing (failover : list pyval) (retries : Z) (manual : bool) (jobs : list dict) (x : option Summary) : res Outcome :=
  match x with
  | None => Ok (MkOutcome failover retries manual jobs)
  | Some x =>
      l ← unique (failover ++ (VStr <$> Resync.failover_used x)) [];
      Ok (MkOutcome l (Z.max retries (retried x)) (manual || negb (manual_csv_enqueued x =? 0)) (results x or? jobs))
  end.

Definition resync_latency (since : option datetime) (now : datetime) (tf_seconds : option Z) : res (option Z * option float) :=
  match since with
  | None => Ok (None, None)
  | Some d =>
      sec ← ftrunc (total_seconds now d);
      Ok (Some sec, match tf_seconds with Some z => if z =? 0 then None else Some (fdiv_ieee (of_Z sec) (of_Z z)) | None => None end)
  end.

Definition catch_up_start (since : option datetime) (now : datetime) (lag : Z) : res (option datetime) :=
  match since with
  | Some d => Ok (Some d)
  | None => if 0 <? lag then d ← dt_add now (- minutes_us lag); Ok (Some d) else Ok None
  end.

Definition catch_up_summary (a : CatchUp) (m : Measures) (o : Outcome) (elapsed : Z) (id : string) (range : option Z) (priority : string)
    (plan : list string) (latency : option Z * option float) (queue : option string) : dict := [
  ("catch_up_elapsed_sec", VInt (Z.max 0 elapsed)); ("catch_up_lag_minutes", VInt (m_lag m)); ("recovered_symbols", VList (m_recovered m));
  ("failover_used", VList (r_failover o)); ("manual_csv_required", VBool (r_manual o)); ("cfg_hash", m_cfg m); ("data_hash", m_data m);
  ("board_mode", m_board m); ("mode", m_mode m); ("determinism_hash", m_determinism m); ("attachments", vstrs (a_attachments a));
  ("since", vopt_str (a_since a)); ("force", VBool (a_force a)); ("failover_report", VBool (a_failover_report a));
  ("dry_run", VBool (a_dry_run a)); ("fetch_p95_ms", VFloat (m_p95 m)); ("fetch_p99_ms", VFloat (m_p99 m)); ("retry_count", VInt (r_retries o));
  ("latency_status", m_latency m); ("quality_flag", VInt (m_quality m)); ("resync_job_id", VStr id); ("range_minutes", vopt_int range);
  ("priority", VStr priority); ("failover_plan", vstrs plan); ("resync_latency_sec", vopt_int latency.1);
  ("resync_latency_ratio", vopt_float latency.2); ("backfill_jobs", VList (VDict <$> r_jobs o)); ("resync_queue_path", vopt_str queue)].

Definition seconds_since (started : float) : M SessionState Z := t ← in_ingestion (perf_counter perf_at); lift (ftrunc (fsub t started)).

(** Everything up to the plan of the jobs: the measures, the range and the plan. *)
Definition gather (a : CatchUp) (now : datetime) (started : float) : M SessionState (Measures * option Z * (option datetime * string)) :=
  id ← fresh_uuid;
  let since := parse_since (a_since a) in
  range ← lift (compute_range_minutes since now);
  gate ← lift load_gate_state;
  measured ← lift load_latest_resync_stats;
  elapsed ← seconds_since started;
  ingestion ← lift load_latest_ingestion_metrics;
  m ← lift (measure a gate measured ingestion elapsed range);
  mret (m, range, (since, uuid_text id)).

(** What follows when the jobs have run: reports and judgement. *)
Definition settle (a : CatchUp) (tf : string) (summary : dict) (m : Measures) (id : string) (range : option Z) (priority : string)
    (plan : list string) (manual : bool) (elapsed : Z) (latency : option Z * option float) : M SessionState unit :=
  _ ← when (negb (a_dry_run a)) (_ ← update_session_snapshot summary; apply_catch_up_thresholds (m_lag m));
  _ ← log_resync_job id range (a_symbols a) priority plan manual elapsed (if a_dry_run a then "dry_run" else "completed");
  _ ← (match latency.1 with Some sec => log_resync_latency id sec latency.2 tf | None => mret tt end);
  s ← get;
  _ ← (match a_collector a, s_collector s with
    | Some _, Some c => _ ← attempt (in_ingestion (write_snapshot c)); mret tt
    | _, _ => mret tt
    end);
  _ ← modify (set_catch_up "idle");
  check_snapshot_consistency (m_cfg m) (m_data m).

Definition catch_up (a : CatchUp) : M SessionState dict :=
  _ ← modify (λ s, set_ingestion (s_ingestion s) (a_collector a) s);
  started ← in_ingestion (perf_counter perf_at);
  now ← now_utc;
  _ ← when (negb (a_dry_run a)) (modify (set_catch_up "resyncing"));
  '(m, range, (since, id)) ← gather a now started;
  let tf := default "" (a_timeframe a) or? "M5" in
  latency ← lift (resync_latency since now (timeframe_to_seconds tf));
  let lag := m_lag m in
  let range := match range with None => if 0 <? lag then Some lag else None | r => r end in
  let priority := compute_catch_up_priority lag (a_symbols a) in
  let plan := if String.eqb priority "critical" && negb (truthy (a_priority a)) then ["cache"; "dukascopy"; "yfinance"] else a_priority a in
  let manual := m_manual m || (3 <=? m_retries m) in
  start ← lift (catch_up_start since now lag);
  '(jobs, queue) ← enqueue_backfill_jobs (MkJobPlan id (a_symbols a) tf priority plan manual (m_retries m)
    (if a_dry_run a then "planned" else "queued")) start now;
  processing ← run_jobs a tf jobs queue;
  o ← lift (merge_processing (m_failover m) (m_retries m) manual jobs processing);
  _ ← fetch_if_wired a tf;
  elapsed ← (if m_elapsed_logged m then mret (m_elapsed m) else z ← seconds_since started; mret (Z.max 0 z));
  let summary := catch_up_summary a m o elapsed id range priority plan latency queue in
  _ ← settle a tf summary m id range priority plan (r_manual o) elapsed latency;
  mret summary.

(** ** Start and stop *)

Definition manager_dir : string := default default_dir (match manager_factory with Some d => Some d | None => mode_factory config end).

(** The context of a session without one is built from the profile of the
    configuration, or the one named like the mode of the context. *)
Definition resolve_context (c : SessionContext) : M SessionState SessionContext :=
  match mode_context c with
  | Some _ => mret c
  | None =>
      mc ← in_cache (create yaml_at blake2b_16 manager_dir (default "" (profile_name config) or? ctx_mode c) (session_id c));
      mret (MkContext (session_id c) (mc_mode mc) (feature_flags c) (Some mc))
  end.

Definition RuntimeError (msg : string) : exn := OtherError "RuntimeError" msg.

Definition start (c : SessionContext) : M SessionState unit :=
  s ← get;
  if running s then raise (RuntimeError "A session is already running")
  else
    c ← resolve_context c;
    _ ← modify (set_given c);
    if negb (String.eqb (ctx_mode c) (cfg_mode config)) then
      raise (ValueError ("SessionContext.mode must align with SessionConfig.mode (expected " +:+ str_repr (cfg_mode config) +:+ ", found " +:+ str_repr (ctx_mode c) +:+ ")"))
    else
      _ ← modify (set_paths (session_log_dir +:+ "/" +:+ session_id c +:+ ".log")
        (snapshot_root +:+ "/" +:+ ctx_mode c +:+ "/" +:+ session_id c +:+ ".json"));
      let steps := Workflow.plan workflow in
      _ ← modify (set_plan steps);
      '(r, wc) ← lift (Workflow.run workflow (WfContext c [] steps));
      _ ← modify (activate r wc);
      check_snapshot_consistency (VStr (env_or "TRADECTL_CFG_HASH" DEFAULT_HASH)) (VStr (env_or "TRADECTL_DATA_HASH" DEFAULT_HASH)).

Definition stop : M SessionState unit := modify deactivate.

Definition request_snapshot : M SessionState (option string) :=
  gets (λ s, match active_context s with Some _ => snapshot_path s | None => None end).
End manager.

(** * The jobs of a catch-up cover its range *)

Lemma whole_minutes_pos us n : whole_minutes us = Ok n → 0 < n → 0 < us.
Proof.
  destruct us as [|p|p]; [by intros [= <-]|lia|]. intros Hw Hn. exfalso. revert Hw. unfold whole_minutes, of_ratio, of_ratio_pos.
  destruct (SFdiv_core_binary _ _ _ _ _ _) as [[q e] l]. unfold binary_round_aux. destruct (shr_fexp _ _ _ _ _) as [r e1].
  destruct (shr_fexp _ _ _ _ _) as [r2 e2]. destruct (shr_m r2) as [|m|m]; [intros [= <-]; lia| |done].
  destruct (Z.leb e2 _); [|done]. destruct (ratio_of m e2) as [a d] eqn:Er. intros [= <-]. cbn in Hn.
  assert (0 <= a) as Ha. { unfold ratio_of in Er. destruct e2; injection Er as <- _; lia. }
  pose proof (Z.div_le_upper_bound (- a) (Zpos d * 60) 0). lia.
Qed.

Lemma segments_tile start end_ n l : 0 < n → utc_us start < utc_us end_ → segments start end_ n = Ok l →
  tiles start l end_ ∧ Forall (fits (minutes_us n)) l.
Proof.
  intros Hn Hlt. unfold segments. assert (0 < minutes_us n) as Hs by (unfold minutes_us; lia).
  pose proof (Z.div_mod (utc_us end_ - utc_us start) (minutes_us n)) as Hd.
  pose proof (Z.mod_pos_bound (utc_us end_ - utc_us start) (minutes_us n) Hs) as Hm.
  pose proof (Z.div_pos (utc_us end_ - utc_us start) (minutes_us n)) as Hp.
  edestruct (chunks_from_tile (Z.to_nat ((utc_us end_ - utc_us start) / minutes_us n + 2)) start end_ (minutes_us n)) as (m & Ht & Hf & He);
    [exact Hs|lia|rewrite Z2Nat.id by lia; nia|lia|].
  destruct (chunks_from _ start end_ (minutes_us n)) as [l' [e|]]; [done|]. intros [= <-]. cbn in *. by subst.
Qed.

Section jobs.
Context `{Env}.
Variable getenv : string → option string.

Abbreviation enqueue := (enqueue_backfill_jobs getenv).
Abbreviation queue_path := (resolve_resync_queue_path getenv).

(** A job stands for the segment of its number. *)
Definition job_of (p : JobPlan) (n : Z) (i : nat) (s : datetime * datetime) (job : dict) : Prop :=
  ∃ ts id range, whole_minutes (utc_us s.2 - utc_us s.1) = Ok range ∧ job = job_payload p ts id (Z.of_nat i + 1) n range s.

(** Everything but the world and the queue files. *)
Definition rest (s : SessionState) := (given s, running s, last_result s, session_log_path s, snapshot_path s, last_plan s, last_workflow_context s,
  profile_cache s, snapshots s, health_file s, invocations (s_ingestion s), s_collector s).

Lemma job_payloads_spec p n : ∀ l i s jobs s', job_payloads p n (Z.of_nat i + 1) l s = (Ok jobs, s') →
  length jobs = length l ∧ (∀ k x job, l !! k = Some x → jobs !! k = Some job → job_of p n (i + k) x job) ∧ rest s' = rest s ∧ queues s' = queues s.
Proof.
  induction l as [|x l IH]; intros i s jobs s' E; cbn [job_payloads] in E; [by injection E as <- <-|].
  apply bind_Ok in E as (range & s1 & [Hr ->]%lift_Ok & E). apply bind_Ok in E as (ts & s2 & Hts & E). apply bind_Ok in E as (id & s3 & Hid & E).
  apply bind_Ok in E as (more & s4 & Hm & [= <- <-]). replace (Z.of_nat i + 1 + 1) with (Z.of_nat (S i) + 1) in Hm by lia.
  destruct (IH (S i) s3 more s4 Hm) as (Hl & Hj & Hrest & Hq). unfold fresh_uuid in Hid. injection Hid as _ <-. unfold now_utc in Hts. injection Hts as _ <-.
  split_and!; [cbn; lia| |exact Hrest|exact Hq]. intros [|k] y job Hy Hjob; cbn in Hy, Hjob.
  - injection Hy as ->. injection Hjob as <-. rewrite Nat.add_0_r. by eexists _, _, _.
  - replace (i + S k)%nat with (S i + k)%nat by lia. by apply Hj.
Qed.

(** What planning the jobs of a range that is at least a minute long gives. *)
Definition covers (p : JobPlan) (start end_ : datetime) (total : Z) (out : list dict * option string) (s s' : SessionState) : Prop :=
  ∃ l, tiles start l end_ ∧ Forall (fits (minutes_us (segment_minutes (jp_manual p) (jp_retries p) total))) l ∧ length out.1 = length l ∧
    (∀ k x job, l !! k = Some x → out.1 !! k = Some job → job_of p (Z.of_nat (length l)) k x job) ∧ rest s' = rest s ∧
    match out.2 with
    | Some path => path = queue_path ∧ queues s' = dset path (file_lines (dlookup path (queues s)) ++ map (LJson ∘ VDict) out.1) (queues s)
    | None => queues s' = queues s
    end.

End jobs.

(** * Dry runs *)

Section dry.
Context `{Env}.
Variables (perf_at : nat → float) (getenv : string → option string) (lines_at : string → file) (json_at : string → document)
  (build_handlers : string → string → handlers) (latest_handlers : handlers) (priorities_doc config_doc profiles_doc : document) (time_sync : file)
  (config : SessionConfig).

Abbreviation run_catch_up := (catch_up perf_at getenv lines_at json_at build_handlers latest_handlers priorities_doc config_doc profiles_doc time_sync config).

(** What a dry run must leave alone; of the session only the state of its catch-up
    may change. *)
Definition session_frame (c : SessionContext) : SessionContext :=
  MkContext (session_id c) (ctx_mode c) (feature_flags c) (with_state "" <$> mode_context c).
Definition frame (s : SessionState) := (session_frame <$> given s, running s, last_result s, session_log_path s, snapshot_path s, last_plan s,
  last_workflow_context s, profile_cache s, snapshots s, health_file s, invocations (s_ingestion s)).

(** The queue files only get more planned jobs. *)
Definition only_planned (s s' : SessionState) : Prop := ∀ path, ∃ jobs,
  file_lines (dlookup path (queues s')) = file_lines (dlookup path (queues s)) ++ map (LJson ∘ VDict) jobs ∧
  Forall (λ d, dget "status" d = VStr "planned") jobs.

Variable s0 : SessionState.
Definition kept (s : SessionState) : Prop := frame s = frame s0 ∧ only_planned s0 s.

Lemma kept_same s s' : frame s' = frame s → queues s' = queues s → kept s → kept s'.
Proof using Type. intros Hf Hq [H1 H2]. split; [by rewrite Hf|]. unfold only_planned. by rewrite Hq. Qed.

Lemma kept_wset w s : kept s → kept (wset w s).
Proof using Type. by apply kept_same. Qed.

Lemma kept_world : preserves kept now_utc ∧ preserves kept utcnow_iso ∧ preserves kept fresh_uuid ∧
  (∀ p v, preserves kept (append_jsonl p v)) ∧ (∀ p v, preserves kept (try_append_jsonl p v)).
Proof using Type. apply preserves_world. intros w s. apply kept_wset. Qed.

Lemma kept_now : preserves kept now_utc.
Proof using Type. apply kept_world. Qed.
Lemma kept_uuid : preserves kept fresh_uuid.
Proof using Type. apply kept_world. Qed.
Lemma kept_append p v : preserves kept (try_append_jsonl p v).
Proof using Type. apply kept_world. Qed.

Lemma kept_new_monitor {A} (m : M HealthMonitor A) : preserves kept (in_new_monitor m).
Proof using Type. apply preserves_zoom; [intros w s; apply kept_wset|done]. Qed.

Lemma kept_ingestion {A} (m : M Ingestion A) : (∀ i, invocations (m i).2 = invocations i) → preserves kept (in_ingestion m).
Proof using Type.
  intros Hm s. unfold in_ingestion. rewrite zoom_run. cbn [snd]. set (i := wset (wget s) (s_ingestion s)). apply kept_same; [|done].
  unfold frame. f_equal. exact (Hm i).
Qed.

Lemma kept_catch_up st : preserves kept (modify (set_catch_up st)).
Proof using Type.
  apply preserves_modify. intros s. apply kept_same; unfold set_catch_up, active_context; destruct (running s) eqn:Er; try done.
  - destruct (given s) as [c|] eqn:Eg; [|done]. destruct (mode_context c) as [m|] eqn:Em; [|done]. unfold frame, set_given. cbn. rewrite Eg, Er. cbn.
    do 10 f_equal. unfold session_frame. cbn. by rewrite Em.
  - destruct (given s) as [c|]; [|done]. by destruct (mode_context c).
Qed.

Lemma write_snapshot_asks_nobody c i : invocations (write_snapshot getenv c i).2 = invocations i.
Proof using Type.
  unfold write_snapshot. destruct (s_p95 _); [|done]. unfold log_sla_entry.
  destruct (preserves_world (λ j : Ingestion, invocations j = invocations i)) as (_ & H2 & _ & _ & H5); [by intros|].
  apply (preserves_bind _ _ _ H2 (λ ts, preserves_bind _ _ _ (H5 _ _) (λ _, preserves_ret _ tt))); done.
Qed.
Lemma kept_snapshot_check cfg data : preserves kept (check_snapshot_consistency getenv json_at cfg data).
Proof using Type. apply preserves_bind; [apply preserves_lift|intros gate]. apply preserves_when, kept_new_monitor. Qed.

Lemma kept_seconds started : preserves kept (seconds_since perf_at started).
Proof using Type. apply preserves_bind; [by apply kept_ingestion|intros t; apply preserves_lift]. Qed.

Lemma kept_gather a now started : preserves kept (gather perf_at getenv lines_at json_at config a now started).
Proof using Type.
  unfold gather. apply preserves_bind; [apply kept_uuid|intros id]. repeat (apply preserves_bind; [apply preserves_lift|intros ?]).
  apply preserves_bind; [apply kept_seconds|intros el]. repeat (apply preserves_bind; [apply preserves_lift|intros ?]). apply preserves_ret.
Qed.

Lemma kept_job_payloads p n l : ∀ i, preserves kept (job_payloads p n i l).
Proof using Type.
  induction l as [|x l IH]; intros i; cbn [job_payloads]; [apply preserves_ret|]. apply preserves_bind; [apply preserves_lift|intros r].
  apply preserves_bind; [apply kept_now|intros ts]. apply preserves_bind; [apply kept_uuid|intros id].
  apply preserves_bind; [apply IH|intros more; apply preserves_ret].
Qed.

Lemma payloads_planned p n l : jp_status p = "planned" → ∀ i s jobs s', job_payloads p n i l s = (Ok jobs, s') →
  Forall (λ d, dget "status" d = VStr "planned") jobs.
Proof using Type.
  intros Hp. induction l as [|x l IH]; intros i s jobs s' E; cbn [job_payloads] in E; [by injection E as <- _|].
  apply bind_Ok in E as (r & s1 & _ & E). apply bind_Ok in E as (ts & s2 & _ & E). apply bind_Ok in E as (id & s3 & _ & E).
  apply bind_Ok in E as (more & s4 & Hm & [= <- _]). constructor; [|by eapply IH]. by rewrite <- Hp.
Qed.

Lemma kept_append_queue path jobs : Forall (λ d, dget "status" d = VStr "planned") jobs → preserves kept (append_queue path jobs).
Proof using Type.
  intros Hj s Hs. unfold append_queue. set (s1 := wset _ s). assert (kept s1) as H1 by (by apply kept_wset).
  destruct (io_ok_at _); [|exact H1]. destruct H1 as [Hf Hq]. split; [exact Hf|]. intros path'. destruct (Hq path') as (l & El & Hl). cbn [snd].
  unfold set_queue. cbn [queues]. destruct (decide (path = path')) as [->|Hne].
  - rewrite dlookup_dset_eq. exists (l ++ jobs). change (queues s1) with (queues s) in El. rewrite map_app, (assoc_L (++)), <- El.
    split; [done|]. by apply Forall_app.
  - rewrite dlookup_dset_ne by done. exists l. by split.
Qed.

Lemma kept_enqueue p start end_ : jp_status p = "planned" → preserves kept (enqueue_backfill_jobs getenv p start end_).
Proof using Type.
  intros Hp. unfold enqueue_backfill_jobs. destruct start as [start|]; [|apply preserves_ret]. destruct (negb _); [apply preserves_ret|].
  apply preserves_bind; [apply preserves_lift|intros total]. destruct (total <=? 0); [apply preserves_ret|].
  apply preserves_bind; [apply preserves_lift|intros l]. intros s Hs. rewrite bind_run.
  pose proof (kept_job_payloads p (Z.of_nat (length l)) l 1 s Hs) as H1.
  destruct (job_payloads p _ 1 l s) as [[jobs|e] s1] eqn:E; [|exact H1]. apply payloads_planned in E; [|done].
  destruct (truthy jobs); [|exact H1]. revert s1 H1. apply preserves_bind; [by apply kept_append_queue|intros ok; apply preserves_ret].
Qed.

Lemma kept_settle a tf summary m id range priority plan manual elapsed latency : a_dry_run a = true →
  preserves kept (settle getenv json_at a tf summary m id range priority plan manual elapsed latency).
Proof using Type.
  intros Hd. unfold settle. rewrite Hd. apply preserves_bind; [apply preserves_ret|intros _].
  apply preserves_bind; [apply preserves_bind; [apply kept_now|intros now]; apply preserves_bind; [apply kept_append|intros _; apply preserves_ret]|intros _].
  apply preserves_bind; [destruct latency.1; [|apply preserves_ret]; apply preserves_bind; [apply kept_now|intros now];
    apply preserves_bind; [apply kept_append|intros _; apply preserves_ret]|intros _].
  apply preserves_bind; [apply preserves_get|intros s1]. apply preserves_bind; [|intros _].
  - destruct (a_collector a); [|apply preserves_ret]. destruct (s_collector s1) as [c|]; [|apply preserves_ret].
    apply preserves_bind; [|intros r; apply preserves_ret]. intros s Hs. unfold attempt. cbn [snd].
    exact (kept_ingestion (write_snapshot getenv c) (write_snapshot_asks_nobody c) s Hs).
  - apply preserves_bind; [apply kept_catch_up|intros _; apply kept_snapshot_check].
Qed.

Lemma kept_catch_up_run a : a_dry_run a = true → preserves kept (run_catch_up a).
Proof using Type.
  intros Hd. unfold catch_up. apply preserves_bind; [by apply preserves_modify; intros s; apply kept_same|intros _].
  apply preserves_bind; [by apply kept_ingestion|intros started]. apply preserves_bind; [apply kept_now|intros now]. rewrite Hd. cbn [negb when].
  apply preserves_bind; [apply preserves_ret|intros _]. apply preserves_bind; [apply kept_gather|intros [[m range] [since id]]]. cbv zeta.
  apply preserves_bind; [apply preserves_lift|intros latency]. apply preserves_bind; [apply preserves_lift|intros start].
  apply preserves_bind; [by apply kept_enqueue|intros [jobs queue]]. apply preserves_bind; [|intros x].
  { unfold run_jobs. rewrite Hd, andb_false_r. apply preserves_ret. }
  apply preserves_bind; [apply preserves_lift|intros o]. apply preserves_bind; [|intros _].
  { unfold fetch_if_wired. rewrite Hd. destruct (a_collector a), (a_handlers a); apply preserves_ret. }
  apply preserves_bind; [|intros elapsed].
  { destruct (m_elapsed_logged m); [apply preserves_ret|]. apply preserves_bind; [apply kept_seconds|intros z; apply preserves_ret]. }
  apply preserves_bind; [by apply kept_settle|intros _; apply preserves_ret].
Qed.
End dry.

Section dry_runs.
Context `{Env}.
Variables (perf_at : nat → float) (getenv : string → option string) (lines_at : string → file) (json_at : string → document)
  (build_handlers : string → string → handlers) (latest_handlers : handlers) (priorities_doc config_doc profiles_doc : document) (time_sync : file)
  (config : SessionConfig).

(** C35. A dry catch-up, whether it returns or raises, asks no provider, writes no
    session snapshot and no health state, and leaves the session as it was but for
    the state of its catch-up; queue files only get jobs that are marked as planned. *)
Theorem dry_run_is_dry a s : a_dry_run a = true →
  let s' := (catch_up perf_at getenv lines_at json_at build_handlers latest_handlers priorities_doc config_doc profiles_doc time_sync config a s).2 in
  frame s' = frame s ∧ only_planned s s'.
Proof.
  intros Hd. apply (kept_catch_up_run perf_at getenv lines_at json_at build_handlers latest_handlers priorities_doc config_doc profiles_doc time_sync
    config s a Hd). split; [done|]. intros path. exists []. by rewrite app_nil_r.
Qed.
End dry_runs.

(** * The judgement of a catch-up *)

(** The health state that is written: it knows of the lag only. *)
Definition judged (lag : Z) (h : HealthState) : Prop :=
  Health.status h = (if 30 <=? lag then "degraded" else if 20 <=? lag then "warn" else "ok") ∧
  map reason_code (reasons h) = (if 20 <=? lag then ["data_latency_catch_up"] else []) ∧
  board_mode_suggestion h = (if 30 <=? lag then Some "data_latency_catch_up" else if 20 <=? lag then None else Some "data_latency_catch_up_recovered") ∧
  kill_switch h = None.

Section judgement.
Context `{Env}.

Lemma judge_lag_spec lag evidence w : (∀ n, io_ok_at n = true) → ∃ h m, judge_lag lag evidence (monitor0 w) = (Ok h, m) ∧ judged lag h.
Proof.
  intros Hio. unfold judged, judge_lag, raise_condition, suggest_guarded, suggest_resume, queue_action, emit_health_event, try_append_jsonl, now_utc, gets, modify, mbind, M_bind.
  destruct (30 <=? lag) eqn:E; [|destruct (20 <=? lag) eqn:E2].
  - assert (20 <=? lag = true) as -> by (to_props; apply Z.leb_le; lia). cbn -[map_level merge_status]. rewrite Hio. cbn -[map_level merge_status].
    eexists _, _. by split.
  - cbn -[map_level merge_status]. rewrite Hio. cbn -[map_level merge_status]. eexists _, _. by split.
  - cbn. eexists _, _. by split.
Qed.

Variables (perf_at : nat → float) (getenv : string → option string) (lines_at : string → file) (json_at : string → document)
  (build_handlers : string → string → handlers) (latest_handlers : handlers) (priorities_doc config_doc profiles_doc : document) (time_sync : file)
  (config : SessionConfig).

Abbreviation run_catch_up := (catch_up perf_at getenv lines_at json_at build_handlers latest_handlers priorities_doc config_doc profiles_doc time_sync config).

(** A property of the health file and the active session, which the reports that
    follow the judgement keep. *)
Section reports.
Variable P : SessionState → Prop.
Hypothesis HP : ∀ s s', health_file s' = health_file s → given s' = given s → running s' = running s → P s → P s'.

Lemma reports_world : preserves P now_utc ∧ preserves P utcnow_iso ∧ preserves P fresh_uuid ∧
  (∀ p v, preserves P (append_jsonl p v)) ∧ (∀ p v, preserves P (try_append_jsonl p v)).
Proof using HP. apply preserves_world. intros w s. by apply HP. Qed.

Lemma reports_log a tf range priority plan manual elapsed st id : preserves P (log_resync_job getenv id range (a_symbols a) priority plan manual elapsed st) ∧
  ∀ sec ratio, preserves P (log_resync_latency getenv id sec ratio tf).
Proof using HP.
  destruct reports_world as (H1 & _ & _ & _ & H5).
  split; [|intros sec ratio]; (apply preserves_bind; [exact H1|intros now]; apply preserves_bind; [apply H5|intros _; apply preserves_ret]).
Qed.

Lemma reports_ingestion {A} (m : M Ingestion A) : preserves P (attempt (in_ingestion m)).
Proof using HP. intros s Hs. unfold attempt, in_ingestion. rewrite zoom_run. cbn [snd]. by eapply HP; [..|exact Hs]. Qed.

Lemma reports_check cfg data : preserves P (check_snapshot_consistency getenv json_at cfg data).
Proof using HP.
  apply preserves_bind; [apply preserves_lift|intros gate]. apply preserves_when. apply preserves_zoom; [|done]. intros w s. by apply HP.
Qed.
End reports.

(** The state of the catch-up of the active session. *)
Definition catch_up_of (s : SessionState) : option string := c ← active_context s; catch_up_state <$> mode_context c.

Lemma catch_up_of_set st s : catch_up_of (set_catch_up st s) = (λ _, st) <$> catch_up_of s.
Proof using Type.
  unfold catch_up_of, set_catch_up, active_context. destruct s as [g r]. cbn. destruct r; [|done]. by destruct g as [[? ? ? [m|]]|].
Qed.

Definition health_is (x : option dict) (s : SessionState) : Prop := health_file s = x.

Lemma settle_spec a tf summary m id range priority plan manual elapsed latency s s' : (∀ n, io_ok_at n = true) → a_dry_run a = false →
  settle getenv json_at a tf summary m id range priority plan manual elapsed latency s = (Ok tt, s') →
  (∃ h, health_file s' = Some (health_to_dict h) ∧ judged (m_lag m) h) ∧ ∀ st, catch_up_of s' = Some st → st = "idle".
Proof using Type.
  intros Hio Hd E. unfold settle in E. rewrite Hd in E. cbn [negb when] in E.
  apply bind_Ok in E as (u & s1 & E1 & E). apply bind_Ok in E1 as (u0 & s0 & _ & E1). unfold apply_catch_up_thresholds in E1.
  apply bind_Ok in E1 as (s2 & s3 & [= <- <-] & E1). rewrite bind_run in E1. unfold in_new_monitor in E1. rewrite zoom_run in E1.
  destruct (judge_lag_spec (m_lag m) (default "" (snapshot_path s0)) (wget s0) Hio) as (h & hm & Ej & Hj).
  change (wset (wget s0) (monitor0 world0)) with (monitor0 (wget s0)) in E1. rewrite Ej in E1. cbn [fst snd] in E1. injection E1 as _ <-.
  set (s1 := set_health_file _ _) in E. assert (health_is (Some (health_to_dict h)) s1) as H1 by done. clearbody s1. clear Ej.
  assert (∀ a b : SessionState, health_file b = health_file a → given b = given a → running b = running a →
    health_is (Some (health_to_dict h)) a → health_is (Some (health_to_dict h)) b) as HP by (unfold health_is; congruence).
  destruct (reports_log _ HP a tf range priority plan manual elapsed "completed" id) as [Hlog Hlat].
  apply bind_Ok in E as (u1 & s4 & E2 & E). pose proof (Hlog s1 H1) as H2. rewrite E2 in H2. cbn [snd] in H2.
  apply bind_Ok in E as (u2 & s5 & E3 & E). assert (health_is (Some (health_to_dict h)) s5) as H3.
  { destruct latency.1 as [sec|]; [|by injection E3 as _ <-]. pose proof (Hlat sec latency.2 s4 H2) as H3. by rewrite E3 in H3. }
  apply bind_Ok in E as (s6 & s7 & [= <- <-] & E). apply bind_Ok in E as (u3 & s8 & E4 & E).
  assert (health_is (Some (health_to_dict h)) s8) as H4.
  { destruct (a_collector a); [|by injection E4 as _ <-]. destruct (s_collector s5) as [c|]; [|by injection E4 as _ <-].
    apply bind_Ok in E4 as (r & s9 & E4 & [= _ <-]). pose proof (reports_ingestion _ HP (write_snapshot getenv c) s5 H3) as H4. by rewrite E4 in H4. }
  apply bind_Ok in E as (u4 & s9 & [= _ <-] & E). split.
  - exists h. split; [|exact Hj]. assert (health_is (Some (health_to_dict h)) (set_catch_up "idle" s8)) as H5.
    { unfold health_is, set_catch_up. destruct (active_context s8) as [c|]; [|done]. by destruct (mode_context c). }
    pose proof (reports_check _ HP (m_cfg m) (m_data m) _ H5) as H6. by rewrite E in H6.
  - set (Q := λ s, ∀ st, catch_up_of s = Some st → st = "idle"). change (Q s').
    assert (∀ a b : SessionState, health_file b = health_file a → given b = given a → running b = running a → Q a → Q b) as HQ.
    { intros x y _ Hg Hr. unfold Q, catch_up_of, active_context. by rewrite Hg, Hr. }
    assert (Q (set_catch_up "idle" s8)) as H5. { intros st. rewrite catch_up_of_set. destruct (catch_up_of s8); [by intros [= <-]|done]. }
    pose proof (reports_check _ HQ (m_cfg m) (m_data m) _ H5) as H6. by rewrite E in H6.
Qed.

(** A catch-up that returns judges its lag: from 30 minutes on the health is
    degraded and guarded mode is suggested, from 20 minutes on it is a warning,
    below a resume is suggested.  The health state that is written knows of no other
    condition, and the session is idle again. *)
Theorem catch_up_judges_lag a s d s' : (∀ n, io_ok_at n = true) → a_dry_run a = false → run_catch_up a s = (Ok d, s') →
  ∃ lag h, dget "catch_up_lag_minutes" d = VInt lag ∧ health_file s' = Some (health_to_dict h) ∧ judged lag h ∧
    ∀ st, catch_up_of s' = Some st → st = "idle".
Proof using Type.
  intros Hio Hd E. unfold catch_up in E. apply bind_Ok in E as (u & s1 & _ & E). apply bind_Ok in E as (started & s2 & _ & E).
  apply bind_Ok in E as (now & s3 & _ & E). apply bind_Ok in E as (u2 & s4 & _ & E). apply bind_Ok in E as ([[m range] [since id]] & s5 & _ & E).
  cbv zeta in E. apply bind_Ok in E as (latency & s6 & _ & E). apply bind_Ok in E as (start & s7 & _ & E).
  apply bind_Ok in E as ([jobs queue] & s8 & _ & E). apply bind_Ok in E as (x & s9 & _ & E). apply bind_Ok in E as (o & s10 & _ & E).
  apply bind_Ok in E as (u3 & s11 & _ & E). apply bind_Ok in E as (elapsed & s12 & _ & E). apply bind_Ok in E as ([] & s13 & Es & [= <- <-]).
  apply settle_spec in Es as ((h & Hh & Hj) & Hc); [|exact Hio|exact Hd]. exists (m_lag m), h. by split_and!.
Qed.
End judgement.

(** * The life of a session *)

(** What a caller may do with a manager. *)
Inductive session_op := OStart (c : SessionContext) | OStop | OCatchUp (a : CatchUp).

Section life.
Context `{Env}.
Variables (perf_at : nat → float) (getenv : string → option string) (yaml_at : string → document) (lines_at : string → file)
  (json_at : string → document) (blake2b_16 : string → Z) (build_handlers : string → string → handlers) (latest_handlers : handlers)
  (priorities_doc config_doc profiles_doc : document) (time_sync : file) (config : SessionConfig) (manager_factory : option string)
  (default_dir session_log_dir snapshot_root : string) (workflow : list (PipelineStep SessionContext)).

Abbreviation start_session := (start getenv yaml_at json_at blake2b_16 config manager_factory default_dir session_log_dir snapshot_root workflow).
Abbreviation run_catch_up := (catch_up perf_at getenv lines_at json_at build_handlers latest_handlers priorities_doc config_doc profiles_doc time_sync config).

Definition session_exec (op : session_op) (s : SessionState) : SessionState :=
  match op with
  | OStart c => (start_session c s).2
  | OStop => (stop s).2
  | OCatchUp a => (run_catch_up a s).2
  end.

(** A running session has a context, a result and a plan, and its snapshot lies in
    the directory of the configured mode; one that does not run has no result. *)
Definition session_ok (s : SessionState) : Prop :=
  cache_ok (profile_cache s) ∧
  if running s then
    is_Some (given s) ∧ is_Some (last_result s) ∧ is_Some (last_workflow_context s) ∧ last_plan s = Workflow.plan workflow ∧
    ∃ id, snapshot_path s = Some (snapshot_root +:+ "/" +:+ cfg_mode config +:+ "/" +:+ id +:+ ".json") ∧
      session_log_path s = Some (session_log_dir +:+ "/" +:+ id +:+ ".log")
  else last_result s = None ∧ last_workflow_context s = None.

(** What the invariant looks at. *)
Definition skeleton (s : SessionState) := (bool_decide (is_Some (given s)), running s, last_result s, session_log_path s, snapshot_path s, last_plan s,
  last_workflow_context s, profile_cache s).

Lemma session_ok_skeleton s s' : skeleton s' = skeleton s → session_ok s → session_ok s'.
Proof using Type.
  unfold skeleton, session_ok. intros [= Hg -> -> -> -> -> -> ->]. destruct (running s); [|done].
  assert (is_Some (given s) → is_Some (given s')) as H1; [|intros (Hc & Hg1 & Hrest); split; [exact Hc|]; split; [exact (H1 Hg1)|exact Hrest]]. intros Hs. rewrite (bool_decide_true (is_Some (given s))) in Hg by done.
  by apply bool_decide_eq_true in Hg.
Qed.

Lemma ok_zoom {T A} `{HasWorld T} (g : SessionState → T) (p : T → SessionState → SessionState) (m : M T A) :
  (∀ t s, skeleton (p t s) = skeleton s) → preserves session_ok (zoom g p m).
Proof using Type. intros Hp. apply preserves_zoom; [intros w s|intros t s]; apply session_ok_skeleton; [done|apply Hp]. Qed.

Lemma ok_attempt {A} (m : M SessionState A) : preserves session_ok m → preserves session_ok (attempt m).
Proof using Type. intros Hm s Hs. exact (Hm s Hs). Qed.

Lemma ok_world : preserves session_ok now_utc ∧ preserves session_ok utcnow_iso ∧ preserves session_ok fresh_uuid ∧
  (∀ p v, preserves session_ok (append_jsonl p v)) ∧ (∀ p v, preserves session_ok (try_append_jsonl p v)).
Proof using Type. apply preserves_world. intros w s. by apply session_ok_skeleton. Qed.
Lemma ok_now : preserves session_ok now_utc. Proof using Type. apply ok_world. Qed.
Lemma ok_iso : preserves session_ok utcnow_iso. Proof using Type. apply ok_world. Qed.
Lemma ok_uuid : preserves session_ok fresh_uuid. Proof using Type. apply ok_world. Qed.
Lemma ok_append p v : preserves session_ok (try_append_jsonl p v). Proof using Type. apply ok_world. Qed.
Lemma ok_modify f : (∀ s, skeleton (f s) = skeleton s) → preserves session_ok (modify f).
Proof using Type. intros Hf. apply preserves_modify. intros s. by apply session_ok_skeleton. Qed.
Lemma ok_ingestion {A} (m : M Ingestion A) : preserves session_ok (in_ingestion m). Proof using Type. by apply ok_zoom. Qed.
Lemma ok_monitor {A} (m : M HealthMonitor A) : preserves session_ok (in_new_monitor m). Proof using Type. by apply ok_zoom. Qed.

Lemma ok_set_catch_up st : preserves session_ok (modify (set_catch_up st)).
Proof using Type.
  apply ok_modify. intros s. unfold set_catch_up, active_context. destruct s as [g r]. cbn. destruct r; [|done]. by destruct g as [[? ? ? [m|]]|].
Qed.

Lemma ok_stop : preserves session_ok stop.
Proof using Type. apply preserves_modify. by intros s [Hc _]. Qed.

Lemma ok_check cfg data : preserves session_ok (check_snapshot_consistency getenv json_at cfg data).
Proof using Type. apply preserves_bind; [apply preserves_lift|intros gate]. apply preserves_when, ok_monitor. Qed.

Lemma ok_cache {A} (m : M (list ((string * string) * ModeProfile)) A) : preserves cache_ok m → preserves session_ok (in_cache m).
Proof using Type.
  intros Hm s [Hc Hs]. unfold in_cache. specialize (Hm _ Hc). destruct (m (profile_cache s)) as [r c]. split; [exact Hm|exact Hs].
Qed.

Lemma ok_resolve c : preserves session_ok (resolve_context yaml_at blake2b_16 config manager_factory default_dir c).
Proof using Type.
  unfold resolve_context. destruct (mode_context c); [apply preserves_ret|]. apply preserves_bind; [|intros mc; apply preserves_ret]. apply ok_cache.
  unfold create. apply preserves_bind; [intros s; apply load_profile_cache_ok|intros p; apply preserves_lift].
Qed.

(** A start that is refused changes nothing; one that succeeds makes the session run
    on the result of its workflow. *)
Lemma ok_start c : preserves session_ok (start_session c).
Proof using Type.
  intros s Hs. unfold start. rewrite bind_run. cbn [get]. destruct (running s) eqn:Er; [exact Hs|].
  rewrite bind_run. pose proof (ok_resolve c s Hs) as H1. assert (running (resolve_context yaml_at blake2b_16 config manager_factory default_dir c s).2 = false) as R1.
  { unfold resolve_context. destruct (mode_context c); [exact Er|]. rewrite bind_run. unfold in_cache. by destruct (create _ _ _ _ _ _) as [[]]. }
  destruct (resolve_context _ _ _ _ _ c s) as [[x|e] s1]; [|exact H1]. cbn [snd] in *.
  assert (session_ok (set_given x s1)) as H2 by (revert H1; unfold session_ok, set_given; cbn; by rewrite R1).
  rewrite bind_run. cbn [modify]. destruct (String.eqb (ctx_mode x) (cfg_mode config)) eqn:Em; cbn [negb]; [|exact H2]. to_props.
  rewrite bind_run. cbn [modify]. set (s2 := set_paths _ _ _). rewrite bind_run. cbn [modify]. set (s3 := set_plan _ _).
  assert (session_ok s3) as H3 by (revert H2; unfold session_ok, s3, s2, set_plan, set_paths, set_given; cbn; by rewrite R1).
  rewrite bind_run. unfold lift at 1. destruct (Workflow.run workflow _) as [[r wc]|e]; [|exact H3]. rewrite bind_run. cbn [modify].
  apply ok_check. split; [exact (proj1 H3)|]. cbn. split_and!; [by eexists..|done|]. exists (session_id x). by rewrite <- Em.
Qed.

Lemma ok_job_payloads p n l : ∀ i, preserves session_ok (job_payloads p n i l).
Proof using Type.
  induction l as [|x l IH]; intros i; cbn [job_payloads]; [apply preserves_ret|]. apply preserves_bind; [apply preserves_lift|intros r].
  apply preserves_bind; [apply ok_now|intros ts]. apply preserves_bind; [apply ok_uuid|intros id].
  apply preserves_bind; [apply IH|intros more; apply preserves_ret].
Qed.

Lemma ok_append_queue path jobs : preserves session_ok (append_queue path jobs).
Proof using Type. intros s. unfold append_queue. destruct (io_ok_at _); by apply session_ok_skeleton. Qed.

Lemma ok_enqueue p from end_ : preserves session_ok (enqueue_backfill_jobs getenv p from end_).
Proof using Type.
  unfold enqueue_backfill_jobs. destruct from as [from|]; [|apply preserves_ret]. destruct (negb _); [apply preserves_ret|].
  apply preserves_bind; [apply preserves_lift|intros total]. destruct (total <=? 0); [apply preserves_ret|].
  apply preserves_bind; [apply preserves_lift|intros l]. apply preserves_bind; [apply ok_job_payloads|intros jobs].
  destruct (truthy jobs); [|apply preserves_ret]. apply preserves_bind; [apply ok_append_queue|intros ok; apply preserves_ret].
Qed.

Lemma ok_run_jobs a tf jobs path : preserves session_ok
  (run_jobs perf_at getenv build_handlers priorities_doc config_doc profiles_doc time_sync a tf jobs path).
Proof using Type.
  unfold run_jobs. destruct (_ && _); [|apply preserves_ret]. apply preserves_bind; [|intros r; apply preserves_ret]. apply ok_attempt, ok_zoom.
  intros r s. by destruct (queue_file r).
Qed.

Lemma ok_fetch a tf : preserves session_ok (fetch_if_wired perf_at getenv latest_handlers priorities_doc config_doc profiles_doc a tf).
Proof using Type.
  unfold fetch_if_wired. destruct (a_collector a); [|apply preserves_ret]. destruct (a_handlers a); [|apply preserves_ret]. apply preserves_when.
  apply preserves_bind; [|intros r; apply preserves_ret]. apply ok_attempt. unfold fetch_bars.
  apply preserves_bind; [apply preserves_lift|intros guard]. apply preserves_bind; [apply preserves_lift|intros profiles].
  apply preserves_bind; [by apply ok_zoom|intros fetched; apply preserves_ret].
Qed.

Lemma ok_settle a tf summary m id range priority plan manual elapsed latency :
  preserves session_ok (settle getenv json_at a tf summary m id range priority plan manual elapsed latency).
Proof using Type.
  unfold settle. apply preserves_bind; [apply preserves_when; apply preserves_bind|intros _].
  - apply preserves_bind; [apply preserves_get|intros s1]. destruct (snapshot_path s1); [|apply preserves_ret].
    apply preserves_bind; [apply preserves_lift|intros payload]. apply preserves_bind; [apply ok_iso|intros now]. by apply ok_modify.
  - intros _. apply preserves_bind; [apply preserves_get|intros s1]. apply preserves_bind; [apply ok_monitor|intros h]. by apply ok_modify.
  - apply preserves_bind; [apply preserves_bind; [apply ok_now|intros now]; apply preserves_bind; [apply ok_append|intros _; apply preserves_ret]|intros _].
    apply preserves_bind; [destruct latency.1; [|apply preserves_ret]; apply preserves_bind; [apply ok_now|intros now];
      apply preserves_bind; [apply ok_append|intros _; apply preserves_ret]|intros _].
    apply preserves_bind; [apply preserves_get|intros s1]. apply preserves_bind; [|intros _].
    + destruct (a_collector a); [|apply preserves_ret]. destruct (s_collector s1); [|apply preserves_ret].
      apply preserves_bind; [|intros r; apply preserves_ret]. apply ok_attempt, ok_ingestion.
    + apply preserves_bind; [apply ok_set_catch_up|intros _; apply ok_check].
Qed.

Lemma ok_catch_up a : preserves session_ok (run_catch_up a).
Proof using Type.
  unfold catch_up. apply preserves_bind; [by apply ok_modify|intros _]. apply preserves_bind; [apply ok_ingestion|intros started].
  apply preserves_bind; [apply ok_now|intros now]. apply preserves_bind; [apply preserves_when, ok_set_catch_up|intros _].
  apply preserves_bind; [|intros [[m range] [since id]]].
  { unfold gather. apply preserves_bind; [apply ok_uuid|intros id]. repeat (apply preserves_bind; [apply preserves_lift|intros ?]).
    apply preserves_bind; [apply preserves_bind; [apply ok_ingestion|intros t; apply preserves_lift]|intros el].
    repeat (apply preserves_bind; [apply preserves_lift|intros ?]). apply preserves_ret. }
  cbv zeta. apply preserves_bind; [apply preserves_lift|intros latency]. apply preserves_bind; [apply preserves_lift|intros from].
  apply preserves_bind; [apply ok_enqueue|intros [jobs queue]]. apply preserves_bind; [apply ok_run_jobs|intros x].
  apply preserves_bind; [apply preserves_lift|intros o]. apply preserves_bind; [apply ok_fetch|intros _].
  apply preserves_bind; [|intros elapsed; apply preserves_bind; [apply ok_settle|intros _; apply preserves_ret]].
  destruct (m_elapsed_logged m); [apply preserves_ret|]. apply preserves_bind; [|intros z; apply preserves_ret].
  apply preserves_bind; [apply ok_ingestion|intros t; apply preserves_lift].
Qed.

(** C34. Whatever a caller does with a manager, in any order and whether or not the
    calls raise: a session runs with a context, a workflow result and the plan of
    its workflow, its snapshot lies in the directory of the configured mode, a
    snapshot can be requested exactly while it runs, and a second start is refused
    without any effect. *)
Theorem session_stays_consistent ops s : session_ok s →
  let s' := fold_left (λ s op, session_exec op s) ops s in
  session_ok s' ∧ (request_snapshot s').1 = Ok (if running s' then snapshot_path s' else None) ∧
  (running s' = true → ∀ c, start_session c s' = (Raise (RuntimeError "A session is already running"), s') ∧ is_Some (snapshot_path s')).
Proof.
  intros Hs s'. assert (session_ok s') as Hs'.
  { subst s'. revert s Hs. induction ops as [|op ops IH]; intros s Hs; cbn [fold_left]; [exact Hs|]. apply IH.
    destruct op as [c| |a]; [by apply ok_start|by apply ok_stop|by apply ok_catch_up]. }
  split; [exact Hs'|]. clearbody s'. destruct Hs' as [_ Hr]. unfold request_snapshot, gets, active_context. destruct (running s') eqn:Er.
  - destruct Hr as ((c & Hc) & _ & _ & _ & id & Hp & _). cbn. rewrite Hc. split; [done|]. intros _ c'. split; [|by rewrite Hp].
    unfold start. rewrite bind_run. cbn [get]. by rewrite Er.
  - by split.
Qed.
End life.

(** * What the metrics log does not say *)

Lemma sla_payload_lacks ts e k : k ∈ ["p95_latency_sec"; "p99_latency_sec"; "retry_count"; "catch_up_lag_minutes"] →
  dlookup k (sla_payload ts e) = None.
Proof.
  intros Hk. unfold sla_payload, opt_field. destruct e as [? ? ? sym stage ? ? ? st ? flag last gap delay]. cbn [e_symbol e_flag e_last_bar e_gap e_delay e_stage].
  repeat (apply elem_of_cons in Hk as [->|Hk]); try by apply elem_of_nil in Hk.
  all: destruct sym, flag, last, gap, delay; cbn [app]; destruct (String.eqb stage "fetch"), (String.eqb stage "processing"); reflexivity.
Qed.

(** The entries that the data service writes carry their latencies under other keys
    than the session manager reads: it never finds a percentile, a retry count or a
    lag in them, only the status of the latency and the quality flag. *)
Theorem sla_entries_have_no_percentiles ts e p k : metrics_of (sla_payload ts e) = Ok p →
  k ∈ ["fetch_p95_ms"; "fetch_p99_ms"; "retry_count"; "catch_up_lag_minutes"] → dlookup k p = None.
Proof.
  intros Hp Hk. unfold metrics_of, converted in Hp. 
  rewrite (sla_payload_lacks ts e "p95_latency_sec"), (sla_payload_lacks ts e "p99_latency_sec"), (sla_payload_lacks ts e "retry_count"),
    (sla_payload_lacks ts e "catch_up_lag_minutes") in Hp by (rewrite !elem_of_cons; tauto).
  cbn [mbind res_bind] in Hp. apply bind_ok in Hp as (flag & _ & Hp). cbn [opt_field app] in Hp. injection Hp as <-.
  repeat (apply elem_of_cons in Hk as [->|Hk]); try by apply elem_of_nil in Hk.
  all: destruct flag; reflexivity.
Qed.

(** * A session *)

Definition sample_workflow : list (PipelineStep SessionContext) := [Step "load" (λ c, Ok c); Step "signal" (λ c, Ok c)].
Definition sample_session : SessionState := MkSession None false None None None [] None [] sample_ingestion None [] [] None.
Definition new_context : SessionContext := MkContext "S1" "paper" None None.

(** The last resync left a lag of the given value. *)
Definition logged (lag : pyval) (path : string) : file :=
  if String.eqb path "logs/resync/resync_events.jsonl" then
    Some [LJson (VDict [("event", VStr "resync.completed"); ("payload", VDict [("catch_up_lag_minutes", lag); ("retry_count", VInt 1)])]); LSpace]
  else None.
Definition no_file (_ : string) : file := None.

Definition sample_call (dry : bool) (since : option string) : CatchUp :=
  MkCatchUp since ["EURUSD"; "USDJPY"] false false dry [] None None [] (Some [("primary", good)]).

Abbreviation sample_catch_up lines a :=
  (@catch_up sample_env (λ _, fzero) (λ _, None) lines (λ _, None) no_handlers [] None None None None Profile.sample_config a).
Abbreviation sample_exec lines op :=
  (@session_exec sample_env (λ _, fzero) (λ _, None) sample_yaml_at lines (λ _, None) (λ _, 7) no_handlers [] None None None None
    Profile.sample_config None "config/profiles" "logs/sessions" "snapshots/sessions" sample_workflow op).
Definition started : SessionState := sample_exec no_file (OStart new_context) sample_session.

Lemma sample_session_ok : session_ok Profile.sample_config "logs/sessions" "snapshots/sessions" sample_workflow sample_session.
Proof. split; [split; [constructor|cbn; unfold CACHE_SIZE; lia]|by split]. Qed.

(** A start, a catch-up, a second start, a stop. *)
Definition sample_ops : list session_op := [OStart new_context; OCatchUp (sample_call false (Some "2026-03-20T08:00:00Z")); OStart new_context; OStop].

Lemma session_stays_consistent_witness :
  let s' := fold_left (λ s op, sample_exec no_file op s) sample_ops sample_session in
  session_ok Profile.sample_config "logs/sessions" "snapshots/sessions" sample_workflow s' ∧ running s' = false ∧ (request_snapshot s').1 = Ok None.
Proof.
  cbv zeta. destruct (session_stays_consistent (H:=sample_env) (λ _, fzero) (λ _, None) sample_yaml_at no_file (λ _, None) (λ _, 7) no_handlers []
    None None None None Profile.sample_config None "config/profiles" "logs/sessions" "snapshots/sessions" sample_workflow sample_ops sample_session
    sample_session_ok) as (H1 & H2 & _).
  set (s' := fold_left _ sample_ops sample_session) in *. assert (running s' = false) as Hr by (vm_compute; reflexivity).
  rewrite Hr in H2. split; [exact H1|]. split; [exact Hr|exact H2].
Defined.

Definition sample_plan : JobPlan := MkJobPlan "R1" ["EURUSD"] "M5" "high" ["cache"] true 3 "queued".


Lemma dry_run_is_dry_witness : let s' := (sample_catch_up (logged (VInt 45)) (sample_call true None) started).2 in
  frame s' = frame started ∧ only_planned started s' ∧ length (file_lines (dlookup DEFAULT_RESYNC_QUEUE_PATH (queues s'))) = 1%nat.
Proof.
  cbv zeta. destruct (dry_run_is_dry (H:=sample_env) (λ _, fzero) (λ _, None) (logged (VInt 45)) (λ _, None) no_handlers [] None None None None
    Profile.sample_config (sample_call true None) started eq_refl) as [H1 H2]. split; [exact H1|]. split; [exact H2|]. vm_compute. reflexivity.
Defined.

Lemma catch_up_judges_lag_witness : ∃ d s' h, sample_catch_up (logged (VInt 45)) (sample_call false None) started = (Ok d, s') ∧
  health_file s' = Some (health_to_dict h) ∧ judged 45 h ∧ catch_up_of s' = Some "idle".
Proof.
  assert (match (sample_catch_up (logged (VInt 45)) (sample_call false None) started).1 with Ok d => dget "catch_up_lag_minutes" d | Raise _ => VNone end =
    VInt 45) as Hl by (vm_compute; reflexivity).
  assert (catch_up_of (sample_catch_up (logged (VInt 45)) (sample_call false None) started).2 = Some "idle") as Hi by (vm_compute; reflexivity).
  destruct (sample_catch_up (logged (VInt 45)) (sample_call false None) started) as [[d|e] s'] eqn:E; [|discriminate Hl]. cbn [fst snd] in Hl, Hi.
  destruct (catch_up_judges_lag (H:=sample_env) (λ _, fzero) (λ _, None) (logged (VInt 45)) (λ _, None) no_handlers [] None None None None
    Profile.sample_config (sample_call false None) started d s' (λ _, eq_refl) eq_refl E) as (lag & h & H1 & H2 & H3 & _).
  rewrite Hl in H1. injection H1 as <-. exists d, s', h. split; [reflexivity|]. split; [exact H2|]. split; [exact H3|exact Hi].
Defined.

(** The lag a summary reports, when the last resync measured none and the caller says
    it was away for an hour: the zero counts as missing. *)
Example measured_zero_is_ignored :
  match (sample_catch_up (logged (VInt 0)) (sample_call false (Some "2026-03-20T08:30:00Z")) started).1 with
  | Ok d => dget "catch_up_lag_minutes" d | Raise _ => VNone end = VInt 60.
Proof. vm_compute. reflexivity. Qed.

(** A range of ninety minutes and a half is queued as two jobs, the second of which
    has no whole minute. *)
Example seconds_make_a_job :
  let half := DateTime 2025 1 6 10 30 30 0 (Some 0) in
  match (@enqueue_backfill_jobs sample_env (λ _, None) (MkJobPlan "R1" ["EURUSD"] "M5" "high" [] false 0 "queued") (Some (utc_time 6 9)) half
    sample_session).1 with
  | Ok out => map (dget "range_minutes") out.1
  | Raise _ => []
  end = [VInt 90; VInt 0].
Proof. vm_compute. reflexivity. Qed.

(** A catch-up that raises leaves the session resyncing. *)
Example failed_catch_up_stays_resyncing :
  let lines path := if String.eqb path "metrics/data_ingestion_sla.jsonl" then Some [LJson (VDict [("catch_up_lag_minutes", VStr "soon")])] else None in
  let out := sample_catch_up lines (sample_call false None) started in
  out.1 = Raise (ValueError "invalid literal for int()") ∧ catch_up_of out.2 = Some "resyncing".
Proof. by vm_compute. Qed.

(** A start whose workflow raises leaves its paths behind: the session does not run,
    but a catch-up writes a snapshot of it, without an identifier. *)
Example failed_start_leaves_a_snapshot :
  let failing := [Step "load" (λ _ : WorkflowContext SessionContext, Raise (ValueError "no data"))] in
  let s1 := @session_exec sample_env (λ _, fzero) (λ _, None) sample_yaml_at no_file (λ _, None) (λ _, 7) no_handlers [] None None None None
    Profile.sample_config None "config/profiles" "logs/sessions" "snapshots/sessions" failing (OStart new_context) sample_session in
  let s2 := sample_exec no_file (OCatchUp (sample_call false None)) s1 in
  running s1 = false ∧ match dlookup "snapshots/sessions/paper/S1.json" (snapshots s2) with
    | Some (Some (VDict d)) => dlookup "session_id" d | _ => None end = Some VNone.
Proof. by vm_compute. Qed.
