(* ===== verification/Config.v ===== *)
(** Configuration: the registry of [src/infra/config.py], which patches the
    configuration file under a list of dangerous keys, and the diff service of
    [src/config/diff.py], which lists what two profiles differ in and rates it. *)

From S2P Require Import Prelude PyFloat PyVal PyEnv Calendar Spread HealthStore Health DataQuality DataService Resync OrderLifecycle.

Local Open Scope Z_scope.
Local Open Scope py_scope.

(** * Dotted paths *)

(** [f"{prefix}.{key}" if prefix else key] *)
Definition dotted (prefix key : string) : string := if truthy prefix then prefix +:+ "." +:+ key else key.

(** [_flatten_keys]: the paths of all entries, mappings included. *)
Fixpoint flatten_keys (prefix : string) (v : pyval) {struct v} : list string :=
  match v with
  | VDict d => (fix go (d : dict) : list string :=
      match d with
      | [] => []
      | (k, v) :: d => let path := dotted prefix k in path :: flatten_keys path v ++ go d
      end) d
  | _ => []
  end.

(** [_deep_get] *)
Fixpoint deep_get (current : pyval) (parts : list string) : pyval :=
  match parts with
  | [] => current
  | part :: parts => match current with VDict d => deep_get (dget part d) parts | _ => VNone end
  end.

Definition path_of (key : string) : list string := split_all "." key.

(** * The registry *)

Definition ConfigValidationError (msg : string) : exn := OtherError "ConfigValidationError" msg.
Definition ConfigChangeDenied (msg : string) : exn := OtherError "ConfigChangeDenied" msg.

Record ConfigSnapshot := Snapshot { values : dict; snap_hash : string; snap_dangerous : list string }.
Record ValidationReport := Report { report_status : string; warnings : list string; report_dangerous : list string }.
Record ConfigApplyResult := Applied { apply_status : string; next_effective_at : option string; apply_hash : string; pending_path : option string }.

(** The configuration file, the patches that wait in the pending directory by file
    name, and the world of the audit log. *)
Record ConfigState := CState { config_file : document; pending : list (string * pyval); cfg_world : world }.

#[export] Instance config_has_world : HasWorld ConfigState.
Proof. refine {| wget := cfg_world; wset w s := CState (config_file s) (pending s) w |}; by intros; try destruct s. Defined.

Definition write_config (d : dict) (s : ConfigState) : ConfigState := CState (Some (Some (VDict d))) (pending s) (cfg_world s).
Definition add_pending (name : string) (v : pyval) (s : ConfigState) : ConfigState := CState (config_file s) (dset name v (pending s)) (cfg_world s).

Record ConfigRegistry := Registry_ { config_path : string; has_schema : bool; audit_log : string; dangerous_keys : list string; pending_dir : string }.

Definition merge_dict (base diff : dict) : dict := merge_into base diff.

(** [_detect_dangerous], a set of paths. *)
Definition detect_dangerous (payload : pyval) (keys : list string) : list string :=
  remove_dups (List.filter (λ k, str_in k keys) (flatten_keys "" payload)).

Section registry.
Context `{Env}.
(** [sha256(text).hexdigest()], [json.dumps], and the first error of the schema. *)
Variable sha256 : string → string.
Variable dumps : pyval → string.
Variable schema_error : pyval → option string.
Variable r : ConfigRegistry.

Definition hash_value (v : pyval) : string := sha256 (dumps (sort_keys v)).

(** An empty document is an empty mapping. *)
Definition load_config_file (f : document) : res dict :=
  match f with
  | None => Ok []
  | Some None => Raise (OtherError "YAMLError" (config_path r))
  | Some (Some v) =>
      match v or? VDict [] with
      | VDict d => Ok d
      | _ => Raise (ConfigValidationError "config payload must be a mapping")
      end
  end.

Definition snapshot (f : document) : res ConfigSnapshot :=
  d ← load_config_file f; Ok (Snapshot d (hash_value (VDict d)) (dangerous_keys r)).

Definition validate (payload : pyval) : res ValidationReport :=
  let dangerous := sorted_strings (detect_dangerous payload (dangerous_keys r)) in
  let warnings := if truthy dangerous then ["dangerous_keys: " +:+ join ", " dangerous] else [] in
  match (if has_schema r then schema_error payload else None) with
  | Some msg => Raise (ConfigValidationError msg)
  | None => Ok (Report (if truthy warnings then "warn" else "ok") warnings dangerous)
  end.

(** [now:%Y%m%dT%H%M%SZ] *)
Definition patch_stamp (d : datetime) : string :=
  yyyymmdd d +:+ "T" +:+ pad2 (dt_hour d) +:+ pad2 (dt_minute d) +:+ pad2 (dt_second d) +:+ "Z".

Definition write_pending (diff : pyval) : M ConfigState string :=
  now ← now_utc;
  let path := pending_dir r +:+ "/config_patch_" +:+ patch_stamp now +:+ ".yaml" in
  _ ← modify (add_pending path diff);
  mret path.

(** Five minutes from now; the clock is not near the end of the calendar. *)
Definition next_effective : M ConfigState string :=
  now ← now_utc; t ← lift (dt_add now (minutes_us 5)); mret (iso_z t).

Definition audit_entry (ts : string) (actor : option string) (hash : string) (dangerous : list string) (status : string) (path : option string) : dict := [
  ("event", VStr "audit.config_change"); ("ts", VStr ts); ("actor", vopt_str actor); ("cfg_hash", VStr hash); ("dangerous_keys", vstrs dangerous);
  ("status", VStr status); ("pending_path", vopt_str path)].

Definition apply_patch (diff : pyval) (actor : option string) (approved defer_dangerous : bool) : M ConfigState ConfigApplyResult :=
  match diff with
  | VDict d =>
      s ← get;
      current ← lift (load_config_file (config_file s));
      let merged := merge_dict current d in
      _ ← lift (validate (VDict merged));
      let dangerous := sorted_strings (detect_dangerous diff (dangerous_keys r)) in
      if truthy dangerous && negb approved then raise (ConfigChangeDenied "dangerous keys require approval")
      else
        let hash := hash_value (VDict merged) in
        let waits := truthy dangerous in
        next ← (if waits then t ← next_effective; mret (Some t) else mret None);
        let status := if waits then "pending" else "applied" in
        path ← (if waits && defer_dangerous then p ← write_pending diff; mret (Some p)
                else _ ← modify (write_config merged); mret None);
        ts ← utcnow_iso;
        _ ← append_jsonl (audit_log r) (VDict (audit_entry ts actor hash dangerous status path));
        mret (Applied status next hash path)
  | _ => raise (ConfigValidationError "config diff must be a mapping")
  end.

Definition export_hash (f : document) (key : string) : res string :=
  d ← load_config_file f; Ok (hash_value (deep_get (VDict d) (path_of key))).
End registry.

(** * Shell patterns: [fnmatch.fnmatch] *)

(** A pattern as tokens: any text, any character, a character, or a class of ranges. *)
Inductive token := Star | AnyChar | Char (c : ascii) | Class (negated : bool) (ranges : list (ascii * ascii)).

Fixpoint class_ranges (fuel : nat) (s : list ascii) : list (ascii * ascii) :=
  match fuel, s with
  | S fuel, a :: m :: b :: s' => if Ascii.eqb m "-"%char then (a, b) :: class_ranges fuel s' else (a, a) :: class_ranges fuel (m :: b :: s')
  | S fuel, a :: s' => (a, a) :: class_ranges fuel s'
  | _, _ => []
  end.

(** The text up to the bracket that closes a class, and what follows it. *)
Fixpoint until_bracket (s : list ascii) : option (list ascii * list ascii) :=
  match s with
  | [] => None
  | c :: s => if Ascii.eqb c "]"%char then Some ([], s) else '(a, b) ← until_bracket s; Some (c :: a, b)
  end.

(** A bracket right after the opening one belongs to the class. *)
Definition read_class (s : list ascii) : option (token * list ascii) :=
  let negated := match s with c :: _ => Ascii.eqb c "!"%char | [] => false end in
  let body := if negated then List.tl s else s in
  let first := match body with c :: _ => Ascii.eqb c "]"%char | [] => false end in
  '(content, rest) ← until_bracket (if first then List.tl body else body);
  let content := if first then "]"%char :: content else content in
  Some (Class negated (class_ranges (length content) content), rest).

Fixpoint tokens (fuel : nat) (s : list ascii) : list token :=
  match fuel, s with
  | S fuel, c :: s =>
      if Ascii.eqb c "*"%char then Star :: tokens fuel s
      else if Ascii.eqb c "?"%char then AnyChar :: tokens fuel s
      else if Ascii.eqb c "["%char then
        match read_class s with Some (t, rest) => t :: tokens fuel rest | None => Char c :: tokens fuel s end
      else Char c :: tokens fuel s
  | _, _ => []
  end.

Definition between (c : ascii) (r : ascii * ascii) : bool := (N_of_ascii r.1 <=? N_of_ascii c)%N && (N_of_ascii c <=? N_of_ascii r.2)%N.

Definition token_char (t : token) (c : ascii) : bool :=
  match t with
  | Star => false
  | AnyChar => true
  | Char x => Ascii.eqb x c
  | Class negated ranges => xorb negated (existsb (between c) ranges)
  end.

Fixpoint glob (l : list token) (s : list ascii) {struct l} : bool :=
  match l with
  | [] => match s with [] => true | _ => false end
  | Star :: l => (fix any (s : list ascii) : bool := glob l s || match s with [] => false | _ :: s => any s end) s
  | t :: l => match s with c :: s => token_char t c && glob l s | [] => false end
  end.

Definition fnmatch (name pattern : string) : bool :=
  let p := String.list_ascii_of_string pattern in glob (tokens (length p) p) (String.list_ascii_of_string name).

(** * Differences between profiles *)

Record ConfigDiffEntry := DiffEntry { de_path : string; from_value : pyval; to_value : pyval; change_type : string; risk_level : string }.

Definition entry_to_dict (e : ConfigDiffEntry) : dict := [
  ("path", VStr (de_path e)); ("from", from_value e); ("to", to_value e); ("change_type", VStr (change_type e)); ("risk_level", VStr (risk_level e))].

(** [_flatten]: the values by path, a later one in place of an earlier one of the
    same path; an empty mapping leaves nothing. *)
Fixpoint leaves (prefix : string) (v : pyval) {struct v} : list (string * pyval) :=
  match v with
  | VDict d => (fix go (d : dict) : list (string * pyval) :=
      match d with
      | [] => []
      | (k, v) :: d =>
          let path := dotted prefix k in
          (match v with VDict _ => leaves path v | _ => [(path, v)] end) ++ go d
      end) d
  | _ => []
  end.
Definition flatten (payload : dict) : dict := dupdate [] (leaves "" (VDict payload)).

Definition differs_at (base target : dict) (path : string) : option ConfigDiffEntry :=
  match dlookup path base, dlookup path target with
  | None, None => None
  | None, Some v => Some (DiffEntry path VNone v "added" "low")
  | Some v, None => Some (DiffEntry path v VNone "removed" "low")
  | Some v, Some v' => if py_eqb v v' then None else Some (DiffEntry path v v' "changed" "low")
  end.

Definition diff_mappings (base target : dict) : list ConfigDiffEntry :=
  let base := flatten base in
  let target := flatten target in
  omap (differs_at base target) (sorted_strings (remove_dups (keys base ++ keys target))).

(** Patterns that are no texts make [fnmatch] raise. *)
Fixpoint matches_any (path : string) (patterns : list pyval) : res bool :=
  match patterns with
  | [] => Ok false
  | VStr p :: patterns => if fnmatch path p then Ok true else matches_any path patterns
  | _ => Raise (TypeError "expected str, bytes or os.PathLike object")
  end.

Definition risk_level_of (path : string) (critical risk : list pyval) : res string :=
  c ← matches_any path critical;
  if c : bool then Ok "critical" else r ← matches_any path risk; Ok (if r : bool then "risk" else "low").

Definition with_risk (e : ConfigDiffEntry) (level : string) : ConfigDiffEntry := DiffEntry (de_path e) (from_value e) (to_value e) (change_type e) level.

(** ** Numbers *)

Definition as_float (x : Z + float) : res float := match x with inl z => float_of_int z | inr f => Ok f end.
Definition number_val (x : Z + float) : pyval := match x with inl z => VInt z | inr f => VFloat f end.

Definition number_sub (a b : Z + float) : res (Z + float) :=
  match a, b with
  | inl x, inl y => Ok (inl (x - y))
  | _, _ => x ← as_float a; y ← as_float b; Ok (inr (fsub x y))
  end.
Definition number_abs (a : Z + float) : Z + float := match a with inl z => inl (Z.abs z) | inr f => inr (fabs f) end.
Definition number_is_zero (a : Z + float) : bool := match a with inl z => z =? 0 | inr f => feqb f fzero end.

(** [a / b] for [b] not zero. *)
Definition number_div (a b : Z + float) : res float :=
  match a, b with
  | inl x, inl y =>
      let q := of_ratio (x * Z.sgn y) (Z.to_pos (Z.abs y)) in
      if is_inf q then Raise (OverflowError "integer division result too large for a float") else Ok q
  | _, _ => x ← as_float a; y ← as_float b; fdiv x y
  end.

Definition numeric_change (e : ConfigDiffEntry) : res (option dict) :=
  match num_of (from_value e), num_of (to_value e) with
  | Some a, Some b =>
      delta ← number_sub b a;
      pct ← (if number_is_zero a then Ok VNone else q ← number_div delta (number_abs a); Ok (VFloat q));
      Ok (Some [("path", VStr (de_path e)); ("from", from_value e); ("to", to_value e); ("delta", number_val delta); ("pct", pct)])
  | _, _ => Ok None
  end.

Record ConfigDiffSummary := DiffSummary { counts : list (string * Z); risk_counts : list (string * Z); numeric_changes : list dict }.

Definition count_in (d : list (string * Z)) (k : string) : list (string * Z) := dset k (default 0 (dlookup k d) + 1) d.

Definition summarize (entries : list ConfigDiffEntry) : res ConfigDiffSummary :=
  l ← mapM_res numeric_change entries;
  Ok (DiffSummary (fold_left count_in (map change_type entries) [("added", 0); ("removed", 0); ("changed", 0)])
    (fold_left count_in (map risk_level entries) []) (omap id l)).

(** ** Rendering: a document, or lines of text *)

Definition tab : string := String (ascii_of_N 9) "".
Definition table_row (e : ConfigDiffEntry) : string :=
  join tab [de_path e; py_str (from_value e); py_str (to_value e); change_type e; risk_level e].
Definition tick (s : string) : string := "`" +:+ s +:+ "`".
Definition md_row (e : ConfigDiffEntry) : string :=
  "| " +:+ tick (de_path e) +:+ " | " +:+ tick (py_str (from_value e)) +:+ " | " +:+ tick (py_str (to_value e)) +:+ " | " +:+ change_type e +:+
  " | " +:+ risk_level e +:+ " |".

Definition render (entries : list ConfigDiffEntry) (format : string) : pyval + list string :=
  if String.eqb format "json" then inl (VList (map (VDict ∘ entry_to_dict) entries))
  else if String.eqb format "md" then
    inr ("| Path | From | To | Change | Risk |" :: "| --- | --- | --- | --- | --- |" :: map md_row entries)
  else inr (join tab ["path"; "from"; "to"; "change"; "risk"] :: map table_row entries).

(** ** The service *)

Definition ConfigSchemaError (msg : string) : exn := OtherError "ConfigSchemaError" msg.

Record SignedDiff := Signed { diff_id : string; profile_from : string; profile_to : string; digest : string; signed_at : string; signer : string;
  signature : string; signature_path : string }.

(** The audit log is the world's; the signatures are written by path. *)
Record DiffState := DState { signatures : list (string * pyval); diff_world : world }.

#[export] Instance diff_has_world : HasWorld DiffState.
Proof. refine {| wget := diff_world; wset w s := DState (signatures s) w |}; by intros; try destruct s. Defined.

Definition add_signature (path : string) (v : pyval) (s : DiffState) : DiffState := DState (dset path v (signatures s)) (diff_world s).

Section service.
Context `{Env}.
Variable sha256 : string → string.
Variable dumps : pyval → string.
Variable schema_error : pyval → option string.
(** The documents that exist, by path, those whose text starts with a bracket (read
    as JSON), and the signature of a digest under a key file. *)
Variable doc_at : string → document.
Variable is_json : string → bool.
Variable sign_payload : string → string → res string.
Variables risk_config_path diff_audit_log : string.

Definition DEFAULT_PROFILE_DIR : string := "config/profiles".

Definition load_yaml (path : string) : res pyval :=
  match doc_at path with
  | Some (Some v) => Ok (if is_json path then v else v or? VDict [])
  | Some None => Raise (if is_json path then ValueError path else OtherError "YAMLError" path)
  | None => Raise (OtherError "FileNotFoundError" path)
  end.

Definition resolve_profile_path (profile : string) : res string :=
  let exists_at p := match doc_at p with Some _ => true | None => false end in
  let yaml := DEFAULT_PROFILE_DIR +:+ "/" +:+ profile +:+ ".yaml" in
  let yml := DEFAULT_PROFILE_DIR +:+ "/" +:+ profile +:+ ".yml" in
  if exists_at profile then Ok profile
  else if exists_at yaml then Ok yaml
  else if exists_at yml then Ok yml
  else Raise (OtherError "FileNotFoundError" ("profile not found: " +:+ profile)).

Definition load_profile_config (profile : string) : res dict :=
  path ← resolve_profile_path profile;
  payload ← load_yaml path;
  match payload with
  | VDict d => match schema_error payload with Some msg => Raise (ConfigSchemaError msg) | None => Ok d end
  | _ => Raise (ConfigSchemaError "config payload must be a mapping")
  end.

Definition load_risk_config : res (list pyval * list pyval) :=
  match doc_at risk_config_path with
  | None => Ok ([], [])
  | Some _ =>
      payload ← load_yaml risk_config_path;
      critical ← vget payload "critical_paths";
      critical ← py_iter (critical or? VList []);
      risk ← vget payload "risk_paths";
      risk ← py_iter (risk or? VList []);
      Ok (critical, risk)
  end.

Definition config_diff (from to : string) : M DiffState (list ConfigDiffEntry) :=
  base ← lift (load_profile_config from);
  target ← lift (load_profile_config to);
  '(critical, risk) ← lift load_risk_config;
  entries ← lift (mapM_res (λ e, level ← risk_level_of (de_path e) critical risk; Ok (with_risk e level)) (diff_mappings base target));
  ts ← utcnow_iso;
  _ ← append_jsonl diff_audit_log (VDict [("event", VStr "config.diff.generated"); ("ts", VStr ts); ("profile_from", VStr from); ("profile_to", VStr to);
    ("diff_count", VInt (Z.of_nat (length entries)))]);
  mret entries.

Definition signature_payload (d : SignedDiff) : dict := [
  ("diff_id", VStr (diff_id d)); ("profile_from", VStr (profile_from d)); ("profile_to", VStr (profile_to d)); ("sha256", VStr (digest d));
  ("signed_at", VStr (signed_at d)); ("signer", VStr (signer d)); ("signature", VStr (signature d))].

Definition prepare_signature (entries : list ConfigDiffEntry) (from to key_path who signature_dir : string) : M DiffState SignedDiff :=
  let digest := sha256 (dumps (sort_keys (VList (map (VDict ∘ entry_to_dict) entries)))) in
  id ← fresh_uuid;
  sig ← lift (sign_payload digest key_path);
  let path := signature_dir +:+ "/" +:+ id +:+ ".sig" in
  now ← utcnow_iso;
  let d := Signed id from to digest now who sig path in
  _ ← modify (add_signature path (VDict (signature_payload d)));
  ts ← utcnow_iso;
  _ ← append_jsonl diff_audit_log (VDict [("event", VStr "config.diff.signed"); ("ts", VStr ts); ("diff_id", VStr id); ("profile_from", VStr from);
    ("profile_to", VStr to); ("signature_path", VStr path); ("signer", VStr who)]);
  mret d.
End service.

(** * Paths and trees *)

Lemma split_all_not_nil c s : split_all c s ≠ [].
Proof. destruct s as [|x s]; simpl; [done|]. destruct (Ascii.eqb x c); [done|]. by destruct (split_all c s). Qed.

(** A path is the text of its parts. *)
Lemma join_split c s : join (String c "") (split_all c s) = s.
Proof.
  induction s as [|x s IH]; [done|]. cbn [split_all]. pose proof (split_all_not_nil c s) as Hn.
  destruct (Ascii.eqb_spec x c) as [->|Hx]; destruct (split_all c s) as [|y l] eqn:E; try done.
  - simpl in *. by rewrite IH.
  - destruct l; simpl in *; by rewrite IH.
Qed.

Lemma join_path_of key : join "." (path_of key) = key.
Proof. apply join_split. Qed.
Lemma path_of_not_nil key : path_of key ≠ [].
Proof. apply split_all_not_nil. Qed.

Definition plain (k : string) : bool := truthy k && negb (has_char "."%char k).

Lemma split_app c k s : has_char c k = false → split_all c (k +:+ String c s) = k :: split_all c s.
Proof.
  induction k as [|x k IH]; simpl; intros H.
  - by rewrite Ascii.eqb_refl.
  - apply orb_false_iff in H as [Hx H]. rewrite (IH H). by destruct (Ascii.eqb_spec x c); [|done].
Qed.

Lemma split_plain c k : has_char c k = false → split_all c k = [k].
Proof.
  induction k as [|x k IH]; cbn [has_char split_all]; intros H; [done|].
  apply orb_false_iff in H as [Hx H]. rewrite (IH H). by destruct (Ascii.eqb_spec x c).
Qed.

Lemma path_of_join parts : parts ≠ [] → Forall (λ k, plain k = true) parts → path_of (join "." parts) = parts.
Proof.
  intros Hn Hp. induction Hp as [|k parts Hk Hp IH]; [done|].
  apply andb_true_iff in Hk as [_ Hk%negb_true_iff].
  destruct parts as [|k' parts]; [by apply split_plain|].
  change (path_of (k +:+ String "."%char (join "." (k' :: parts))) = k :: k' :: parts). unfold path_of.
  rewrite (split_app _ _ _ Hk). f_equal. by apply IH.
Qed.

(** A text under the keys of its path: [dotted] nests. *)
Lemma dotted_join pre k parts : truthy k = true → parts ≠ [] →
  dotted (dotted pre k) (join "." parts) = dotted pre (join "." (k :: parts)).
Proof.
  intros Hk Hn. destruct parts as [|k' parts]; [done|]. cbn [join].
  assert (truthy (dotted pre k) = true) as Hd.
  { unfold dotted. destruct (truthy pre) eqn:Hp; [|done]. by destruct pre. }
  unfold dotted at 1. rewrite Hd. unfold dotted. destruct (truthy pre); [|done]. by rewrite !string_app_assoc.
Qed.

(** The keys of every mapping of a value are distinct and satisfy [ok]. *)
Fixpoint tree_ok (ok : string → bool) (v : pyval) {struct v} : bool :=
  match v with
  | VDict d => bool_decide (NoDup (keys d)) && (fix go (d : dict) : bool :=
      match d with
      | [] => true
      | (k, v) :: d => ok k && tree_ok ok v && go d
      end) d
  | _ => true
  end.

Lemma tree_ok_dict ok d : tree_ok ok (VDict d) = true →
  NoDup (keys d) ∧ ∀ k v, (k, v) ∈ d → ok k = true ∧ tree_ok ok v = true.
Proof.
  cbn [tree_ok]. intros [Hn%bool_decide_eq_true H]%andb_true_iff. split; [exact Hn|]. clear Hn.
  induction d as [|[k v] d IH]; intros k' v' Hin; [by apply not_elem_of_nil in Hin|].
  apply andb_true_iff in H as [[Hk Hv]%andb_true_iff H].
  apply elem_of_cons in Hin as [[= -> ->]|Hin]; [done|by apply IH].
Qed.

(** ** A patch keeps what it does not name *)

(** The path leads through the mappings of the value. *)
Fixpoint present (v : pyval) (parts : list string) : bool :=
  match parts with
  | [] => true
  | p :: parts => match v with
    | VDict d => match dlookup p d with Some v => present v parts | None => false end
    | _ => false
    end
  end.

Lemma deep_get_absent v parts : present v parts = false → deep_get v parts = VNone.
Proof.
  revert v. induction parts as [|p parts IH]; intros v; cbn [present deep_get]; [done|].
  destruct v as [| | | | | |d]; try done. unfold dget. destruct (dlookup p d) as [v|]; cbn [default]; [apply IH|].
  intros _. destruct parts as [|? ?]; done.
Qed.

Lemma flatten_keys_dict pre d :
  flatten_keys pre (VDict d) = concat (map (λ kv, dotted pre kv.1 :: flatten_keys (dotted pre kv.1) kv.2) d).
Proof. cbn [flatten_keys]. induction d as [|[k v] d IH]; [done|]. cbn [map concat fst snd]. cbn. f_equal. f_equal. exact IH. Qed.

Lemma dlookup_Some_in {A} k (v : A) d : dlookup k d = Some v → (k, v) ∈ d.
Proof.
  induction d as [|[k' v'] d IH]; cbn [dlookup]; [done|].
  destruct (String.eqb_spec k k') as [->|]; [intros [= ->]; left|right; by apply IH].
Qed.

Lemma elem_of_dotted pre d k v x : (k, v) ∈ d → x = dotted pre k ∨ x ∈ flatten_keys (dotted pre k) v → x ∈ flatten_keys pre (VDict d).
Proof.
  intros Hin Hx. rewrite flatten_keys_dict. apply list_elem_of_In, in_concat.
  exists (dotted pre k :: flatten_keys (dotted pre k) v). split.
  - apply in_map_iff. exists (k, v). split; [done|]. by apply list_elem_of_In.
  - apply list_elem_of_In. destruct Hx as [->|Hx]; [left|by right].
Qed.

(** What a path leads to is among the keys. *)
Lemma present_in_keys parts : ∀ pre v, parts ≠ [] → truthy (dotted pre (hd "" parts)) = true →
  present v parts = true → dotted pre (join "." parts) ∈ flatten_keys pre v.
Proof.
  induction parts as [|p parts IH]; intros pre v Hn Ht; cbn [present hd]; [done|].
  destruct v as [| | | | | |d]; try done. destruct (dlookup p d) as [v|] eqn:E; [|done]. intros Hp.
  apply dlookup_Some_in in E. eapply elem_of_dotted; [exact E|].
  destruct parts as [|p' parts]; [by left|]. right. cbn [hd] in Ht.
  assert (dotted pre (join "." (p :: p' :: parts)) = dotted (dotted pre p) (join "." (p' :: parts))) as ->.
  { unfold dotted at 2. rewrite Ht. cbn [join]. unfold dotted. destruct (truthy pre); [|done]. by rewrite !string_app_assoc. }
  apply IH; [done| |exact Hp]. cbn [hd]. unfold dotted at 1. rewrite Ht. by destruct (dotted pre p).
Qed.

(** The patch puts something that is no mapping in place of a mapping above the path. *)
Fixpoint replaces_above (base diff : dict) (parts : list string) : bool :=
  match parts with
  | p :: parts => truthy parts && match dlookup p diff, dlookup p base with
      | Some (VDict diff), Some (VDict base) => replaces_above base diff parts
      | Some (VDict _), _ => false
      | Some _, Some (VDict _) => true
      | _, _ => false
      end
  | [] => false
  end.

Lemma merge_keeps parts : ∀ base diff, tree_ok (λ _, true) (VDict diff) = true → parts ≠ [] →
  present (VDict diff) parts = false → replaces_above base diff parts = false →
  deep_get (VDict (merge_into base diff)) parts = deep_get (VDict base) parts.
Proof.
  induction parts as [|p parts IH]; intros base diff Hd Hn; cbn [present deep_get replaces_above]; [done|].
  apply tree_ok_dict in Hd as [Hnd Hd]. unfold dget. rewrite (dlookup_merge_into p base diff Hnd).
  destruct (dlookup p diff) as [v|] eqn:E; [|done]. intros Hp Hr. cbn [default].
  apply dlookup_Some_in, Hd in E as [_ Hv].
  destruct parts as [|p' parts]; [done|].
  destruct v as [| | | | | |dd]; try (destruct (dlookup p base) as [[]|]; done).
  destruct (dlookup p base) as [[| | | | | |bb]|] eqn:Eb; cbn [default]; rewrite ?merge_val_dict; try by apply IH.
  all: change (merge_val _ (VDict dd)) with (VDict dd); by apply deep_get_absent.
Qed.

(** ** The leaves of a tree *)

Definition subtree (pre : string) (kv : string * pyval) : list (string * pyval) :=
  match kv.2 with VDict _ => leaves (dotted pre kv.1) kv.2 | v => [(dotted pre kv.1, v)] end.

Lemma leaves_dict pre d : leaves pre (VDict d) = concat (map (subtree pre) d).
Proof. cbn [leaves]. induction d as [|[k v] d IH]; [done|]. cbn [map concat]. rewrite IH. by destruct v. Qed.

Lemma elem_of_leaves_dict pre d path x : (path, x) ∈ leaves pre (VDict d) ↔ ∃ k v, (k, v) ∈ d ∧ (path, x) ∈ subtree pre (k, v).
Proof.
  rewrite leaves_dict, list_elem_of_In, in_concat. split.
  - intros (l & Hl & Hx). apply in_map_iff in Hl as ([k v] & <- & Hin). exists k, v. by rewrite !list_elem_of_In.
  - intros (k & v & Hin & Hx). exists (subtree pre (k, v)). rewrite in_map_iff, <- !list_elem_of_In. split; [|done].
    exists (k, v). by rewrite <- list_elem_of_In.
Qed.

(** The value at the end of a path, when it is no mapping. *)
Fixpoint leaf_at (v : pyval) (parts : list string) : option pyval :=
  match parts with
  | [] => if is_mapping v then None else Some v
  | p :: parts => match v with VDict d => v ← dlookup p d; leaf_at v parts | _ => None end
  end.

Lemma leaf_at_plain parts : ∀ v x, tree_ok plain v = true → leaf_at v parts = Some x → Forall (λ k, plain k = true) parts.
Proof.
  induction parts as [|p parts IH]; intros v x Hv; cbn [leaf_at]; [constructor|].
  destruct v as [| | | | | |d]; try done. apply tree_ok_dict in Hv as [_ Hv].
  intros (v & E & Hl)%bind_Some. apply dlookup_Some_in, Hv in E as [Hk Hv']. constructor; [done|by eapply IH].
Qed.

Lemma elem_of_leaves v : ∀ pre path x, tree_ok plain v = true →
  (path, x) ∈ leaves pre v ↔ ∃ parts, parts ≠ [] ∧ leaf_at v parts = Some x ∧ path = dotted pre (join "." parts).
Proof.
  induction v as [| | | | | |d IH] using pyval_rect_nested; intros pre path x Hok.
  1-6: cbn [leaves]; split; [by intros ?%not_elem_of_nil|intros ([|p parts] & Hn & Hl & _); [done|discriminate Hl]].
  apply tree_ok_dict in Hok as [Hnd Hok]. rewrite elem_of_leaves_dict. rewrite Forall_forall in IH.
  assert (∀ k v, (k, v) ∈ d → (path, x) ∈ subtree pre (k, v) ↔
    ∃ parts, leaf_at v parts = Some x ∧ path = dotted pre (join "." (k :: parts))) as Hsub.
  { intros k v Hin. destruct (Hok k v Hin) as [Hk Hv]. unfold subtree. cbn [fst snd].
    pose proof Hk as [Hk0 _]%andb_true_iff.
    destruct v as [| | | | | |d'] eqn:Ev.
    7: { rewrite (IH _ Hin (dotted pre k) path x Hv). split.
      - intros (parts & Hn & Hl & ->). exists parts. by rewrite dotted_join.
      - intros (parts & Hl & ->). destruct parts as [|p parts]; [done|]. exists (p :: parts). by rewrite dotted_join. }
    all: rewrite list_elem_of_singleton; split; [intros [= -> ->]; by exists []|].
    all: intros ([|p parts] & Hl & ->); [by injection Hl as <-|discriminate Hl]. }
  split.
  - intros (k & v & Hin & Hx). apply Hsub in Hx as (parts & Hl & ->); [|done]. exists (k :: parts). split_and!; [done| |done].
    cbn [leaf_at]. apply bind_Some. exists v. split; [by apply dlookup_in|done].
  - intros ([|k parts] & Hn & Hl & ->); [done|]. cbn [leaf_at] in Hl. apply bind_Some in Hl as (v & E & Hl).
    apply dlookup_Some_in in E. exists k, v. split; [done|]. apply (Hsub k v E). by exists parts.
Qed.

Lemma dupdate_notin k (l : dict) : ∀ d, (∀ x, (k, x) ∉ l) → dlookup k (dupdate d l) = dlookup k d.
Proof.
  induction l as [|[k' x'] l IH]; intros d Hl; [done|]. change (dupdate d ((k', x') :: l)) with (dupdate (dset k' x' d) l).
  rewrite IH by (intros x Hx; apply (Hl x); by right).
  apply dlookup_dset_ne. intros ->. apply (Hl x'). left.
Qed.

Lemma dupdate_in k x (l : dict) : ∀ d, (∀ x', (k, x') ∈ l → x' = x) → dlookup k d = Some x ∨ (k, x) ∈ l → dlookup k (dupdate d l) = Some x.
Proof.
  induction l as [|[k' x'] l IH]; intros d Hl Hx; [destruct Hx as [|?%not_elem_of_nil]; done|].
  change (dupdate d ((k', x') :: l)) with (dupdate (dset k' x' d) l).
  apply IH; [intros y Hy; apply Hl; by right|].
  destruct (String.eqb_spec k k') as [->|Hne].
  - left. rewrite dlookup_dset_eq. f_equal. apply Hl. left.
  - rewrite dlookup_dset_ne by congruence. destruct Hx as [Hx|[[= ? ->]|Hx]%elem_of_cons]; [by left|done|by right].
Qed.

(** The flattened mapping holds the leaves by path. *)
Lemma flatten_leaf d path : tree_ok plain (VDict d) = true → dlookup path (flatten d) = leaf_at (VDict d) (path_of path).
Proof.
  intros Hok. unfold flatten.
  assert (∀ x, (path, x) ∈ leaves "" (VDict d) ↔ leaf_at (VDict d) (path_of path) = Some x) as Hx.
  { intros x. rewrite (elem_of_leaves _ "" path x Hok). split.
    - intros (parts & Hn & Hl & ->). change (dotted "" ?s) with s. by rewrite path_of_join by eauto using leaf_at_plain.
    - intros Hl. exists (path_of path). split_and!; [apply path_of_not_nil|done|]. change (dotted "" ?s) with s. by rewrite join_path_of. }
  destruct (leaf_at (VDict d) (path_of path)) as [x|] eqn:E.
  - apply dupdate_in; [|right; by apply Hx]. intros x' Hx'%Hx. congruence.
  - rewrite dupdate_notin; [done|]. intros x Hin%Hx. discriminate.
Qed.

Lemma elem_of_keys_lookup {A} k (d : list (string * A)) : k ∈ keys d ↔ dlookup k d ≠ None.
Proof. rewrite dlookup_None_keys. destruct (decide (k ∈ keys d)); tauto. Qed.

(** Sorted texts without duplicates ascend. *)
Lemma sorted_strings_ascend l : NoDup l → StronglySorted (λ a b, str_ltb a b = true) (sorted_strings l).
Proof.
  intros Hn.
  assert (StronglySorted (λ x y, str_ltb y x = false) (sorted_strings l)) as Hs.
  { apply (isort_sorted str_ltb (λ _, True)); [intros; by apply str_ltb_asym|intros x y z _ _ _; apply str_ltb_ge_trans|by apply Forall_true]. }
  assert (NoDup (sorted_strings l)) as Hn' by (unfold sorted_strings; by rewrite isort_perm).
  induction Hs as [|x s Hs IH Hall]; [constructor|]. apply NoDup_cons in Hn' as [Hx Hn']. constructor; [by apply IH|].
  rewrite Forall_forall in Hall |- *. intros y Hy. destruct (str_ltb x y) eqn:E; [done|]. exfalso. apply Hx.
  by rewrite (str_ltb_total x y E (Hall y Hy)).
Qed.

Lemma differs_path base target p e : differs_at base target p = Some e → de_path e = p.
Proof. unfold differs_at. repeat case_match; intros [= <-]; done. Qed.

Lemma omap_ascend base target l : StronglySorted (λ a b, str_ltb a b = true) l →
  StronglySorted (λ a b, str_ltb a b = true) (map de_path (omap (differs_at base target) l)).
Proof.
  induction 1 as [|p l Hs IH Hall]; [constructor|]. cbn [omap list_omap].
  destruct (differs_at base target p) as [e|] eqn:E; [|done]. constructor; [done|]. rewrite (differs_path _ _ _ _ E).
  rewrite Forall_forall in Hall |- *. intros q (e' & -> & He')%list_elem_of_fmap.
  apply list_elem_of_omap in He' as (q' & Hq' & He'). rewrite (differs_path _ _ _ _ He'). by apply Hall.
Qed.

Lemma elem_of_diff_mappings base target e :
  e ∈ diff_mappings base target ↔ differs_at (flatten base) (flatten target) (de_path e) = Some e.
Proof.
  unfold diff_mappings, sorted_strings. rewrite list_elem_of_omap. split.
  - intros (p & _ & He). by rewrite (differs_path _ _ _ _ He).
  - intros He. exists (de_path e). split; [|done]. rewrite elem_of_isort, elem_of_remove_dups, elem_of_app, !elem_of_keys_lookup.
    revert He. unfold differs_at. destruct (dlookup _ _); [by left|]. destruct (dlookup _ _); [by right|done].
Qed.

(** A summary counts the entries of every kind and of every level. *)
Lemma fold_counts k l : ∀ d, default 0 (dlookup k (fold_left count_in l d)) = default 0 (dlookup k d) + Z.of_nat (count_occ String.string_dec l k).
Proof.
  induction l as [|x l IH]; intros d; cbn [fold_left count_occ]; [lia|]. rewrite IH. unfold count_in.
  destruct (String.string_dec x k) as [->|Hx]; [rewrite dlookup_dset_eq|rewrite dlookup_dset_ne by congruence]; cbn; lia.
Qed.

Lemma summary_counts entries s k : summarize entries = Ok s →
  default 0 (dlookup k (counts s)) = Z.of_nat (count_occ String.string_dec (map change_type entries) k) ∧
  default 0 (dlookup k (risk_counts s)) = Z.of_nat (count_occ String.string_dec (map risk_level entries) k).
Proof.
  unfold summarize. destruct (mapM_res numeric_change entries) as [l|e]; [|done]. intros [= <-]. cbn [counts risk_counts].
  rewrite !fold_counts. split; [|done]. cbn [dlookup]. by repeat case_match.
Qed.

(** * Theorems *)

(** C19. The diff of two profiles lists, in the order of the paths and each once,
    exactly the paths at which the trees hold different leaves: an entry is there
    just when its path ends in a leaf of one tree only (added, removed) or in
    leaves of both that compare unequal (changed), with the values found. *)
Theorem diff_lists_changes base target : tree_ok plain (VDict base) = true → tree_ok plain (VDict target) = true →
  StronglySorted (λ a b, str_ltb a b = true) (map de_path (diff_mappings base target)) ∧
  ∀ e, e ∈ diff_mappings base target ↔
    match leaf_at (VDict base) (path_of (de_path e)), leaf_at (VDict target) (path_of (de_path e)) with
    | None, None => False
    | None, Some y => e = DiffEntry (de_path e) VNone y "added" "low"
    | Some x, None => e = DiffEntry (de_path e) x VNone "removed" "low"
    | Some x, Some y => py_eqb x y = false ∧ e = DiffEntry (de_path e) x y "changed" "low"
    end.
Proof.
  intros Hb Ht. split.
  - apply omap_ascend, sorted_strings_ascend, NoDup_remove_dups.
  - intros e. rewrite elem_of_diff_mappings. unfold differs_at. rewrite (flatten_leaf _ _ Hb), (flatten_leaf _ _ Ht).
    assert (∀ a b : ConfigDiffEntry, Some a = Some b ↔ b = a) as Heq by (split; congruence).
    destruct (leaf_at (VDict base) _) as [x|], (leaf_at (VDict target) _) as [y|]; try apply Heq; [|done].
    destruct (py_eqb x y); [by split; [|intros []]|]. rewrite Heq. by split; [|intros []].
Qed.

(** A text matches a pattern when it is cut into what the tokens stand for. *)
Inductive matches : list token → list ascii → Prop :=
  | matches_nil : matches [] []
  | matches_star l s s' : matches l s' → matches (Star :: l) (s ++ s')
  | matches_char t l c s : t ≠ Star → token_char t c = true → matches l s → matches (t :: l) (c :: s).

Lemma matches_star_inv l s : matches (Star :: l) s ↔ ∃ s1 s2, s = s1 ++ s2 ∧ matches l s2.
Proof.
  split; [|intros (s1 & s2 & -> & Hm); by constructor].
  intros Hm. remember (Star :: l) as l' eqn:E. destruct Hm as [|l1 s1 s2 Hm|t l1 c s Ht]; simplify_eq. by exists s1, s2.
Qed.

Lemma glob_matches l : ∀ s, glob l s = true ↔ matches l s.
Proof.
  induction l as [|t l IH]; intros s.
  { destruct s; split; try done; [constructor|inversion 1]. }
  assert (t ≠ Star → (match s with c :: s => token_char t c && glob l s | [] => false end) = true ↔ matches (t :: l) s) as Hone.
  { intros Ht. destruct s as [|c s]; [split; [done|inversion 1; congruence]|]. rewrite andb_true_iff, IH.
    split; [intros []; by constructor|]. inversion 1; [congruence|done]. }
  destruct t; try by apply Hone. clear Hone. cbn [glob]. rewrite matches_star_inv.
  induction s as [|c s IHs].
  - rewrite orb_false_r, IH. split; [by exists [], []|]. intros (s1 & s2 & [_ ->]%eq_sym%app_eq_nil & Hm). done.
  - rewrite orb_true_iff, IH, IHs. split.
    + intros [Hm|(s1 & s2 & -> & Hm)]; [by exists [], (c :: s)|by exists (c :: s1), s2].
    + intros ([|x s1] & s2 & Hs & Hm); simpl in Hs; [by left; subst|]. injection Hs as <- ->. right. by exists s1, s2.
Qed.

Section claims.
Context `{Env}.
Context (sha256 : string → string) (dumps : pyval → string) (schema_error : pyval → option string) (r : ConfigRegistry).

Lemma unapproved_patch_runs diff actor defer s res s' :
  apply_patch sha256 dumps schema_error r (VDict diff) actor false defer s = (res, s') →
  match res with
  | Raise _ => s' = s
  | Ok res => ∃ cur, load_config_file r (config_file s) = Ok cur ∧ detect_dangerous (VDict diff) (dangerous_keys r) = [] ∧
      config_file s' = Some (Some (VDict (merge_into cur diff))) ∧ pending s' = pending s ∧
      res = Applied "applied" None (hash_value sha256 dumps (VDict (merge_into cur diff))) None
  end.
Proof using Type.
  unfold apply_patch. rewrite bind_run. cbn [get fst snd]. unfold get. rewrite bind_run. unfold lift at 1.
  destruct (load_config_file r (config_file s)) as [cur|e]; [|by intros [= <- <-]].
  rewrite bind_run. unfold lift at 1. destruct (validate schema_error r _) as [rep|e]; [|by intros [= <- <-]].
  destruct (detect_dangerous (VDict diff) (dangerous_keys r)) as [|x l] eqn:Ed.
  - change (sorted_strings []) with (@nil string). change (truthy []) with false. cbn. intros [= <- <-].
    exists cur. by destruct s.
  - assert (truthy (sorted_strings (x :: l)) = true) as ->; [|by intros [= <- <-]].
    pose proof (isort_length str_ltb (x :: l)) as Hl. unfold sorted_strings. by destruct (isort str_ltb (x :: l)).
Qed.

End claims.

(** * Samples *)

Abbreviation sample_registry := (Registry_ "config/app.yaml" false "logs/audit/config_changes.jsonl" ["risk.limit"; "broker.live"] "config/pending").
Abbreviation sample_file := [("risk", VDict [("limit", VInt 2); ("mode", VStr "soft")]); ("name", VStr "fx")].
Abbreviation sample_state := (CState (Some (Some (VDict sample_file))) [] (World 0 0 0 [])).
Abbreviation sample_hash := (λ s : string, s).
Abbreviation sample_apply diff approved defer :=
  (apply_patch (H:=sample_env) sample_hash json_dumps (λ _, None) sample_registry (VDict diff) None approved defer sample_state).
Abbreviation limit_of s := (deep_get (default VNone (default None (config_file s))) ["risk"; "limit"]).

(** A dangerous key needs approval and then waits in a file of its own. *)
Example dangerous_patch_waits :
  (sample_apply [("risk", VDict [("limit", VInt 9)])] false true) = (Raise (ConfigChangeDenied "dangerous keys require approval"), sample_state) ∧
  limit_of (sample_apply [("risk", VDict [("limit", VInt 9)])] true true).2 = VInt 2 ∧
  keys (pending (sample_apply [("risk", VDict [("limit", VInt 9)])] true true).2) = ["config/pending/config_patch_20260320T093001Z.yaml"].
Proof. vm_compute. repeat split; reflexivity. Qed.

(** Written over at once when it is not deferred, though it is reported as pending. *)
Example undeferred_patch_is_immediate :
  limit_of (sample_apply [("risk", VDict [("limit", VInt 9)])] true false).2 = VInt 9 ∧
  match (sample_apply [("risk", VDict [("limit", VInt 9)])] true false).1 with Ok r => apply_status r = "pending" | _ => False end.
Proof. vm_compute. repeat split; reflexivity. Qed.

(** The mapping above a dangerous key is replaced without approval. *)
Example ancestor_replaced_without_approval :
  match (sample_apply [("risk", VInt 5)] false true).1 with Ok r => apply_status r = "applied" | _ => False end ∧
  limit_of sample_state = VInt 2 ∧ limit_of (sample_apply [("risk", VInt 5)] false true).2 = VNone.
Proof. vm_compute. repeat split; reflexivity. Qed.


Lemma diff_lists_changes_witness :
  map (λ e, (de_path e, change_type e)) (diff_mappings sample_file [("risk", VDict [("limit", VFloat (of_Z 2))]); ("stage", VInt 1)]) =
    [("name", "removed"); ("risk.mode", "removed"); ("stage", "added")] ∧
  DiffEntry "risk.mode" (VStr "soft") VNone "removed" "low" ∈ diff_mappings sample_file [("risk", VDict [("limit", VFloat (of_Z 2))]); ("stage", VInt 1)].
Proof.
  split; [vm_compute; reflexivity|].
  apply (diff_lists_changes sample_file [("risk", VDict [("limit", VFloat (of_Z 2))]); ("stage", VInt 1)] eq_refl eq_refl). reflexivity.
Defined.

(** An empty mapping leaves no trace in a diff. *)
Example empty_mapping_unseen : diff_mappings [("risk", VDict [])] [] = [].
Proof. reflexivity. Qed.

Example risk_patterns : risk_level_of "risk.limit.max" [VStr "broker.*"] [VStr "risk.[k-m]*"] = Ok "risk".
Proof. reflexivity. Qed.
