(* ===== verification/PaperPoc.v ===== *)
(** The paper-trading simulator of [src/backtest/paper_poc.py]: the risk profile, the
    cost model, the streak rules, the admission and the exit of positions, and the
    loop over the bars, which asks the strategy engine of Registry for signals.
    The price frames are what pandas makes of the data files; the normal draws of
    the seeded generator, the correlation of returns and the drawdown of the equity
    curve (numpy and pandas) are parameters.  Instants are UTC microseconds. *)

From S2P Require Import Prelude PyFloat PyVal PyEnv Calendar Allocation Strategy Manifest Registry.

Local Open Scope Z_scope.
Local Open Scope py_scope.

(** * Settings *)

Record StreakRules := Streak {
  loss_threshold : Z; loss_risk_pct : float; win_threshold : Z; win_step_pct : float; win_cap_pct : float; reset_on_loss : bool }.
Record StrategyRiskLimits := RiskLimits {
  per_trade_pct : float; r_eff_soft : option float; r_eff_hard : option float; max_concurrent_overall : option Z; max_concurrent_bucket : option Z }.
Record RiskProfileSettings := RiskProfile {
  base_equity : float; base_per_trade_pct : float; streak : StreakRules; per_strategy_limits : list (string * StrategyRiskLimits);
  total_risk_soft_pct : option float; total_risk_hard_pct : option float; bucket_risk_cap_pct : option float; profile_r_eff_soft : option float;
  profile_r_eff_hard : option float; corr_group_risk_cap_pct : option float }.

(** [float(v) or None] *)
Definition float_or_none (v : pyval) : res (option float) := x ← py_float v; Ok (if truthy x then Some x else None).

Definition float_at (d : pyval) (k : string) (dflt : pyval) : res float := v ← vget_or d k dflt; py_float v.
Definition int_at (d : pyval) (k : string) (dflt : Z) : res Z := v ← vget_or d k (VInt dflt); py_int v.

Definition load_streak (limits : pyval) : res StreakRules :=
  cfg ← vget_or limits "streak_adjustments" (VDict []);
  losing ← vget_or cfg "losing" (VDict []);
  winning ← vget_or cfg "winning" (VDict []);
  loss_threshold ← int_at losing "threshold_trades" 3;
  loss_risk ← float_at losing "per_trade_risk_pct" (VFloat (of_dec 5 (-1)));
  win_threshold ← int_at winning "threshold_trades" 2;
  step ← float_at winning "step_increment_pct" (VFloat (of_dec 1 (-1)));
  cap ← float_at winning "cap_per_trade_pct" (VFloat (of_Z 1));
  reset ← vget_or winning "reset_on_loss" (VBool true);
  Ok (Streak loss_threshold loss_risk win_threshold step cap (truthy reset)).

Definition load_strategy_limits (limits : pyval) (base_pct : float) (raw : pyval) : res StrategyRiskLimits :=
  pct ← float_at raw "per_trade_risk_pct" (VFloat base_pct);
  soft_dflt ← vget_or limits "exposure_r_eff_soft_stop" (VFloat (of_Z 2));
  soft ← float_at raw "exposure_r_eff_soft_stop" soft_dflt;
  hard_dflt ← vget_or limits "exposure_r_eff_hard_stop" (VFloat (of_dec 25 (-1)));
  hard ← float_at raw "exposure_r_eff_hard_stop" hard_dflt;
  conc ← vget raw "max_concurrent_positions";
  '(overall, bucket) ← match conc with
    | VDict _ => o ← int_at conc "overall" 1; b ← int_at conc "per_currency_bucket" 1; Ok (Some o, Some b)
    | _ => Ok (None, None)
    end;
  Ok (RiskLimits pct (Some soft) (Some hard) overall bucket).

Definition load_risk_policy (policy : pyval) (profile : string) : res RiskProfileSettings :=
  metadata ← vget_or policy "metadata" (VDict []);
  base_capital ← float_at metadata "base_capital_jpy" (VInt 12000000);
  profiles ← vget_or policy "profiles" (VDict []);
  selected ← vget_or profiles profile (VDict []);
  limits ← vget_or selected "risk_limits" (VDict []);
  total ← vget_or limits "total_open_risk_pct" (VDict []);
  bucket ← vget limits "bucket_open_risk_pct";
  v ← vget_or limits "exposure_r_eff_soft_stop" (VInt 0); soft ← float_or_none v;
  v ← vget_or limits "exposure_r_eff_hard_stop" (VInt 0); hard ← float_or_none v;
  corr ← vget limits "correlation_group_risk_pct";
  base_pct ← float_at limits "per_trade_risk_pct" (VFloat (of_dec 5 (-1)));
  streak ← load_streak limits;
  per ← vget_or limits "per_strategy_limits" (VDict []);
  per ← (match per with VDict d => Ok d | _ => Raise (AttributeError "items") end);
  per ← mapM_res (λ kv : string * pyval, l ← load_strategy_limits limits base_pct kv.2; Ok (kv.1, l)) per;
  v ← vget_or total "soft" (VInt 0); total_soft ← float_or_none v;
  v ← vget_or total "hard" (VInt 0); total_hard ← float_or_none v;
  bucket_cap ← float_or_none (bucket or? VInt 0);
  corr_cap ← float_or_none (corr or? VInt 0);
  Ok (RiskProfile base_capital base_pct streak per total_soft total_hard bucket_cap soft hard corr_cap).

(** The arguments of [simulate_paper_poc] that the loop reads. *)
Record Options := SimOptions {
  spread_pips : float; slippage_pips : float; slippage_std : float; commission_pct : float; fixed_risk : bool; entry_on_next_bar : bool;
  session_start : option Z; session_end : option Z; trail_atr_mult : option float; target_r_multiple : float; ttl_bars : Z }.

(** * Costs and parameters *)

Definition symbol_mult (symbol : string) : float :=
  let s := upper symbol in
  if str_in s ["USDJPY"; "EURUSD"] then of_Z 1 else if str_in s ["GBPUSD"; "EURJPY"; "AUDUSD"] then of_dec 105 (-2) else of_dec 11 (-1).
Definition hour_at (ts : Z) : Z := ts / 3600000000 mod 24.
Definition session_mult (ts : Z) : float := if (hour_at ts <? 6) || (22 <=? hour_at ts) then of_dec 115 (-2) else of_Z 1.

Definition spread_for (symbol : string) (ts : Z) (base_spread : float) : float := fmul (fmul base_spread (session_mult ts)) (symbol_mult symbol).

Definition exit_with_cost (price : float) (direction : string) (spread slippage : float) : float :=
  if String.eqb direction "long" then fsub (fsub price spread) slippage else fadd (fadd price spread) slippage.

Definition safe_float : pyval → res (option float) := Strategy.coerce_float.

(** The readers below have the text of those of the pullback plugin. *)
Definition weekdays_from_value : pyval → res (list Z) := weekdays.
Definition hours_from_value : pyval → res (list Z) := blocked_hours.
Definition directions_from_value : pyval → list string := directions.

Definition hour_allowed_by_session (hour : Z) (session_range : pyval) : bool :=
  match session_range with
  | VStr s =>
      match split_once "-" s with
      | Some (l, r) =>
          match parse_int (strip l), parse_int (strip r) with
          | Some a, Some b => if hour_of_day a && hour_of_day b then hour_between a b hour else true
          | _, _ => true
          end
      | None => true
      end
  | _ => true
  end.

Definition filters_of (entry : dict) : dict := as_dict_or_empty (dget "filters" entry).
Definition blocked_hours_from_params (entry : dict) : res (list Z) :=
  hours_from_value (dget_or "blocked_utc_hours" (dget "blocked_utc_hours" (filters_of entry)) entry).
Definition blocked_local_direction_window_from_params (zoneinfo : string → option (Z → Z)) (ts : Z) (direction : string) (entry : dict) : res bool :=
  blocked_local_direction_window zoneinfo (Some (from_utc_us ts)) (lower (strip direction)) entry (filters_of entry).

Definition timeframe_to_minutes (timeframe : string) : res Z :=
  let units k := match parse_int (String.substring 0 (String.length timeframe - 1) timeframe) with
    | Some n => Ok (n * k)
    | None => Raise (ValueError "invalid literal for int() with base 10")
    end in
  if ends_with "m" timeframe then units 1
  else if ends_with "h" timeframe then units 60
  else if ends_with "d" timeframe then units (60 * 24)
  else Raise (ValueError ("Unsupported timeframe '" +:+ timeframe +:+ "'")).

(** * Streaks *)

Record RiskState := Risk { current_risk_pct : float; consecutive_wins : Z; consecutive_losses : Z }.

Definition update_after_trade (r_multiple : float) (s : StreakRules) (base : float) (r : RiskState) : RiskState :=
  if fgtb r_multiple fzero then
    let wins := consecutive_wins r + 1 in
    Risk (if win_threshold s <=? wins
      then fmin (win_cap_pct s) (fadd base (fmul (of_Z (wins - win_threshold s + 1)) (win_step_pct s))) else base) wins 0
  else
    let losses := consecutive_losses r + 1 in
    Risk (if loss_threshold s <=? losses then loss_risk_pct s else base) 0 losses.

(** * Positions *)

(** A bar's row of a frame: the cells by column. *)
Abbreviation row := dict.
Definition cell (r : row) (k : string) : res float := v ← dindex k r; py_float v.
(** [float(row.get(k, 0) or 0)] *)
Definition cell_or_zero (r : row) (k : string) : res float := py_float (dget_or k (VInt 0) r or? VInt 0).

(** What is to be opened: the attributes of a signal, and the base price when the
    entry is not on the next bar. *)
Record Spec := MkSpec {
  sp_symbol : string; sp_strategy : string; sp_direction : string; sp_level : pyval; sp_buffer : pyval; sp_breakout : pyval; sp_breakout_width : pyval;
  sp_quality : pyval; sp_flags : pyval; sp_trend : float; sp_atr : float; sp_entry_base : option float }.

Record OpenPosition := MkOpen {
  op_strategy : string; op_symbol : string; op_base_risk : float; op_direction : string; op_entry : float; op_stop : float; op_target : float;
  op_distance : float; op_amount : float; op_opened_at : Z; op_expire_at : Z; op_breakout : pyval; op_level : pyval; op_buffer : pyval;
  op_breakout_width : pyval; op_quality : pyval; op_flags : pyval; op_trend : float; op_atr : float; op_spread : float; op_slippage : float }.

Definition with_stop (p : OpenPosition) (stop : float) : OpenPosition :=
  MkOpen (op_strategy p) (op_symbol p) (op_base_risk p) (op_direction p) (op_entry p) stop (op_target p) (op_distance p) (op_amount p) (op_opened_at p)
    (op_expire_at p) (op_breakout p) (op_level p) (op_buffer p) (op_breakout_width p) (op_quality p) (op_flags p) (op_trend p) (op_atr p) (op_spread p)
    (op_slippage p).

Record TradeRecord := Trade {
  tr_strategy : string; tr_opened_at : Z; tr_closed_at : Z; tr_symbol : string; tr_direction : string; tr_entry : float; tr_exit : float; tr_stop : float;
  tr_target : float; tr_r_multiple : float; tr_pnl : float; tr_breakout : pyval; tr_level : pyval; tr_buffer : pyval; tr_breakout_width : pyval;
  tr_quality : pyval; tr_flags : pyval; tr_trend : float; tr_atr : float; tr_spread : float; tr_slippage : float }.

Definition is_long_trade (direction : string) : bool := String.eqb direction "long".

(** ** Open risk *)

Definition currencies (sym : string) : option string * option string :=
  (if (3 <=? String.length sym)%nat then Some (upper (String.substring 0 3 sym)) else None,
   if (6 <=? String.length sym)%nat then Some (upper (String.substring 3 3 sym)) else None).

Definition same_currency (a b : option string) : bool := match a, b with Some x, Some y => String.eqb x y | _, _ => false end.
Definition overlaps (a b : string) : bool :=
  let '(base, quote) := currencies a in
  let '(b1, q1) := currencies b in
  same_currency base b1 || same_currency base q1 || (same_currency quote b1 || same_currency quote q1).

(** [pos["risk_amount"] / equity_value * 100] *)
Definition risk_pct (equity_value : float) (p : OpenPosition) : res float := q ← fdiv (op_amount p) equity_value; Ok (fmul q (of_Z 100)).

(** The default of [equity_value] is the equity at the start of the simulation. *)
Definition open_risk_pct_total (start : float) (l : list OpenPosition) : res float := ps ← mapM_res (risk_pct start) l; Ok (fsum ps).

Definition add_pct (equity_value : float) (acc : res float) (p : OpenPosition) : res float := a ← acc; q ← risk_pct equity_value p; Ok (fadd a q).
Definition open_risk_pct_bucket (start : float) (sym : string) (l : list OpenPosition) : res float :=
  fold_left (add_pct start) (List.filter (λ p, overlaps sym (op_symbol p)) l) (Ok fzero).

Definition bucket_overlap_count (sym : string) (l : list OpenPosition) : Z := Z.of_nat (length (List.filter (λ p, overlaps sym (op_symbol p)) l)).

(** The correlations by pair; the group takes the equity of the moment. *)
Definition correlated (corr : list (string * string * float)) (a b : string) : bool :=
  match List.find (λ x : string * string * float, String.eqb a x.1.1 && String.eqb b x.1.2) corr with
  | Some (_, c) => fgeb c (of_dec 7 (-1))
  | None => false
  end.
Definition corr_group_pct (corr : list (string * string * float)) (equity : float) (sym : string) (new : float) (l : list OpenPosition) : res float :=
  fold_left (add_pct equity) (List.filter (λ p, correlated corr sym (op_symbol p)) l) (Ok new).

(** [cap and x > cap] *)
Definition over (cap : option float) (x : float) : bool := match cap with Some c => truthy c && fgtb x c | None => false end.
Definition reached (limit : option Z) (n : Z) : bool := match limit with Some m => m <=? n | None => false end.

(** The limits of a strategy, those of the profile where it has none. *)
Definition limits_of (s : RiskProfileSettings) (strategy : string) : StrategyRiskLimits :=
  default (RiskLimits (base_per_trade_pct s) None None None None) (dlookup strategy (per_strategy_limits s)).
Definition base_risk_of (s : RiskProfileSettings) (strategy : string) : float := per_trade_pct (limits_of s strategy) or? base_per_trade_pct s.

(** The caps of a position of [new] percent in [sym]: [true] when none is exceeded. *)
Definition caps_admit (s : RiskProfileSettings) (corr : list (string * string * float)) (equity : float) (sym strategy : string) (new : float)
    (l : list OpenPosition) : res bool :=
  let lim := limits_of s strategy in
  total ← open_risk_pct_total (base_equity s) l;
  let after := fadd total new in
  if over (total_risk_hard_pct s) after || over (total_risk_soft_pct s) after then Ok false
  else
    bucket_over ← (if truthy (bucket_risk_cap_pct s) then
        b ← open_risk_pct_bucket (base_equity s) sym l; Ok (over (bucket_risk_cap_pct s) (fadd b new)) else Ok false);
    if bucket_over : bool then Ok false
    else
      group_over ← (if truthy (corr_group_risk_cap_pct s) && truthy corr then
          g ← corr_group_pct corr equity sym new l; Ok (over (corr_group_risk_cap_pct s) g) else Ok false);
      Ok (negb (group_over || over (r_eff_hard lim or? profile_r_eff_hard s) after || over (r_eff_soft lim or? profile_r_eff_soft s) after
        || reached (max_concurrent_overall lim) (Z.of_nat (length l)) || reached (max_concurrent_bucket lim) (bucket_overlap_count sym l))).

(** ** Prices of an entry *)

(** The stop and the buffer it was set with; [None] when there is no room for one. *)
Definition entry_stop (direction : string) (entry atr mult : float) (level buffer : pyval) : res (option (float * pyval)) :=
  match level with
  | VNone =>
      let b := fmul atr mult in
      if fleb b fzero then Ok None else Ok (Some (if is_long_trade direction then fsub entry b else fadd entry b, buffer))
  | _ =>
      short ← match buffer with VNone => Ok true | _ => b ← py_float buffer; Ok (fleb b fzero) end;
      let buffer := if short : bool then VFloat (fmax (of_dec 8 (-2)) (fmul atr (of_dec 3 (-2)))) else buffer in
      lv ← py_float level;
      b ← py_float buffer;
      Ok (Some (if is_long_trade direction then fsub lv b else fadd lv b, buffer))
  end.

(** * The simulator *)

Record Sim := MkSim {
  equity : float; risk_state : RiskState; open_positions : list OpenPosition; pending_entries : list Spec; all_trades : list TradeRecord;
  dd_curve : list float; draws : nat; pipeline_symbols : list string; engine : StrategyEngine }.

Definition set_open (l : list OpenPosition) (s : Sim) : Sim :=
  MkSim (equity s) (risk_state s) l (pending_entries s) (all_trades s) (dd_curve s) (draws s) (pipeline_symbols s) (engine s).
Definition set_pending (l : list Spec) (s : Sim) : Sim :=
  MkSim (equity s) (risk_state s) (open_positions s) l (all_trades s) (dd_curve s) (draws s) (pipeline_symbols s) (engine s).
Definition book (pnl : float) (r : RiskState) (t : TradeRecord) (s : Sim) : Sim :=
  MkSim (fadd (equity s) pnl) r (open_positions s) (pending_entries s) (all_trades s ++ [t]) (dd_curve s) (draws s) (pipeline_symbols s) (engine s).
Definition mark (s : Sim) : Sim :=
  MkSim (equity s) (risk_state s) (open_positions s) (pending_entries s) (all_trades s) (dd_curve s ++ [equity s]) (draws s) (pipeline_symbols s) (engine s).
Definition drawn (s : Sim) : Sim :=
  MkSim (equity s) (risk_state s) (open_positions s) (pending_entries s) (all_trades s) (dd_curve s) (1 + draws s) (pipeline_symbols s) (engine s).
Definition set_engine (symbols : list string) (e : StrategyEngine) (s : Sim) : Sim :=
  MkSim (equity s) (risk_state s) (open_positions s) (pending_entries s) (all_trades s) (dd_curve s) (draws s) symbols e.

Section simulation.
Context `{Env}.
Variable sha1 : string → string.
Variable blake2b : dict → string.
(** [ZoneInfo(name)], and the n-th normal draw of the generator with a mean and a deviation. *)
Variable zoneinfo : string → option (Z → Z).
Variable normal : nat → float → float → float.
Variable o : Options.
Variable s : RiskProfileSettings.
(** The [entry] and [sizing] parameters by strategy, and the multiple of the first. *)
Variables entry_params sizing_params : list (string * dict).
Variable atr_sl_mult : float.
Variable corr : list (string * string * float).
(** The manifest's selected strategies, the features they require, and the pipeline's
    keys and timeframes. *)
Variables selected required pl_keys pl_timeframes : list string.
Variable engine_seed : Z.

Definition slippage_for (symbol : string) (ts : Z) : M Sim float :=
  let mu := fmul (fmul (slippage_pips o) (session_mult ts)) (symbol_mult symbol) in
  let sigma := fmul (fmul (slippage_std o) (session_mult ts)) (symbol_mult symbol) in
  if fleb sigma fzero then mret mu
  else
    n ← gets draws;
    _ ← modify drawn;
    mret (normal n mu sigma).

(** ** Entries *)

Definition params_of (l : list (string * dict)) (strategy : string) : dict := default [] (dlookup strategy l).

(** The hours and the directions in which the strategy may enter. *)
Definition entry_allowed (ts : Z) (direction : string) (entry : dict) : res bool :=
  if negb (hour_allowed_by_session (hour_at ts) (dget "session_utc_range" entry)) then Ok false
  else
    hours ← blocked_hours_from_params entry;
    if z_in (hour_at ts) hours then Ok false
    else
      b ← blocked_local_direction_window_from_params zoneinfo ts direction entry;
      Ok (negb b).

Definition entry_base (given : option float) (r : row) : res float :=
  match given with
  | Some x => Ok x
  | None => open_value ← safe_float (dget "open" r); match open_value with Some x => Ok x | None => cell r "close" end
  end.

(** [min(risk_state.current_risk_pct, base)] *)
Definition new_risk_pct (r : RiskState) (strategy : string) : float := fmin (current_risk_pct r) (base_risk_of s strategy).

Definition position_of (spec : Spec) (ts ttl : Z) (entry stop : float) (buffer : pyval) (new equity spread slip : float) : OpenPosition :=
  let distance := fabs (fsub entry stop) in
  let reach := fmul (target_r_multiple o) distance in
  MkOpen (sp_strategy spec) (sp_symbol spec) (base_risk_of s (sp_strategy spec)) (sp_direction spec) entry stop
    (if is_long_trade (sp_direction spec) then fadd entry reach else fsub entry reach) distance
    (fmul (if fixed_risk o then base_equity s else equity) (fdiv_ieee new (of_Z 100))) ts (ts + minutes_us ttl) (sp_breakout spec) (sp_level spec) buffer
    (sp_breakout_width spec) (sp_quality spec) (sp_flags spec) (sp_trend spec) (sp_atr spec) spread slip.

Definition attempt_open_position (spec : Spec) (ts : Z) (r : row) : M Sim unit :=
  let entry := params_of entry_params (sp_strategy spec) in
  mult ← lift (float_at (VDict (params_of sizing_params (sp_strategy spec))) "atr_sl_mult" (VFloat atr_sl_mult));
  tf ← lift (timeframe_to_minutes (py_str (dget_or "timeframe" (VStr "5m") entry)));
  ok ← lift (entry_allowed ts (sp_direction spec) entry);
  if negb ok then mret tt
  else
    base ← lift (entry_base (sp_entry_base spec) r);
    let spread := spread_for (sp_symbol spec) ts (spread_pips o) in
    slip ← slippage_for (sp_symbol spec) ts;
    let entry_price := if is_long_trade (sp_direction spec) then fadd (fadd base spread) slip else fsub (fsub base spread) slip in
    st ← lift (entry_stop (sp_direction spec) entry_price (sp_atr spec) mult (sp_level spec) (sp_buffer spec));
    match st with
    | None => mret tt
    | Some (stop, buffer) =>
        if fleb (fabs (fsub entry_price stop)) fzero then mret tt
        else
          sim ← get;
          let new := new_risk_pct (risk_state sim) (sp_strategy spec) in
          ok ← lift (caps_admit s corr (equity sim) (sp_symbol spec) (sp_strategy spec) new (open_positions sim));
          if negb ok then mret tt
          else modify (set_open (open_positions sim ++
            [position_of spec ts (ttl_bars o * tf) entry_price stop buffer new (equity sim) spread slip]))
    end.

(** ** Exits *)

(** The stop follows the bar's extreme when the trailing is on. *)
Definition trail (p : OpenPosition) (low high atr : float) : OpenPosition :=
  match trail_atr_mult o with
  | Some m =>
      if fgtb atr fzero then
        let d := fmax (of_dec 5 (-2)) (fmul atr m) in
        with_stop p (if is_long_trade (op_direction p) then fmax (op_stop p) (fsub high d) else fmin (op_stop p) (fadd low d))
      else p
  | None => p
  end.

(** The price at which the bar takes the position out: the stop before the target. *)
Definition touched (p : OpenPosition) (low high : float) : option float :=
  if is_long_trade (op_direction p) then
    if fleb low (op_stop p) then Some (op_stop p) else if fgeb high (op_target p) then Some (op_target p) else None
  else if fgeb high (op_stop p) then Some (op_stop p) else if fleb low (op_target p) then Some (op_target p) else None.

Definition exit_level (p : OpenPosition) (ts : Z) (low high close : float) : option float :=
  match touched p low high with
  | Some x => Some x
  | None => if op_expire_at p <=? ts then Some close else None
  end.

Definition r_multiple_of (p : OpenPosition) (exit : float) : res float :=
  fdiv (if is_long_trade (op_direction p) then fsub exit (op_entry p) else fsub (op_entry p) exit) (op_distance p).
Definition pnl_of (p : OpenPosition) (r : float) : float :=
  let pnl := fmul r (op_amount p) in
  if truthy (commission_pct o) then fsub pnl (fmul (op_amount p) (fdiv_ieee (commission_pct o) (of_Z 100))) else pnl.

Definition trade_of (p : OpenPosition) (ts : Z) (exit r : float) : TradeRecord :=
  Trade (op_strategy p) (op_opened_at p) ts (op_symbol p) (op_direction p) (op_entry p) exit (op_stop p) (op_target p) (fround r 4)
    (fround (pnl_of p r) 2) (op_breakout p) (op_level p) (op_buffer p) (op_breakout_width p) (op_quality p) (op_flags p) (op_trend p) (op_atr p)
    (op_spread p) (op_slippage p).

(** Close a position at a price before costs. *)
Definition settle_position (p : OpenPosition) (ts : Z) (price spread : float) : M Sim unit :=
  slip ← slippage_for (op_symbol p) ts;
  let exit := exit_with_cost price (op_direction p) spread slip in
  r ← lift (r_multiple_of p exit);
  sim ← get;
  modify (book (pnl_of p r) (update_after_trade r (streak s) (op_base_risk p) (risk_state sim)) (trade_of p ts exit r)).

(** The positions of the bar's symbol, in the order of their opening; those that stay. *)
Fixpoint check_exits (symbol : string) (ts : Z) (low high close atr : float) (l : list OpenPosition) : M Sim (list OpenPosition) :=
  match l with
  | [] => mret []
  | p :: l =>
      if String.eqb (op_symbol p) symbol then
        let p := trail p low high atr in
        match exit_level p ts low high close with
        | Some x => _ ← settle_position p ts x (spread_for symbol ts (spread_pips o)); check_exits symbol ts low high close atr l
        | None => rest ← check_exits symbol ts low high close atr l; mret (p :: rest)
        end
      else rest ← check_exits symbol ts low high close atr l; mret (p :: rest)
  end.

Definition exits_of_bar (ts : Z) (symbol : string) (r : row) : M Sim unit :=
  sim ← get;
  if existsb (λ p, String.eqb (op_symbol p) symbol) (open_positions sim) then
    low ← lift (cell r "low");
    high ← lift (cell r "high");
    close ← lift (cell r "close");
    atr ← lift (cell_or_zero r "atr_14_1h");
    rest ← check_exits symbol ts low high close atr (open_positions sim);
    modify (set_open rest)
  else mret tt.

(** ** Signals *)

Definition isna (v : pyval) : bool := match v with VNone => true | VFloat f => is_nan f | _ => false end.

(** The features of a row under the timeframe at the end of their names. *)
Definition add_feature (r : row) (d : list (string * list (string * feature))) (key : string) : list (string * list (string * feature)) :=
  let v := dget key r in
  if isna v then d
  else
    let tf := List.last (split_all "_" key) "" in
    dset tf (dset key (Scalar v) (default [] (dlookup tf d))) d.
Definition feature_row (r : row) : list (string * list (string * feature)) := fold_left (add_feature r) pl_keys [].

(** The pipeline's context of one bar, with the symbols the pipeline has seen. *)
Definition feature_context_for_row (seen : list string) (symbol : string) (r : row) : FeatureContext :=
  Features (remove_dups (seen ++ [upper symbol])) pl_timeframes pl_keys VNone [(symbol, feature_row r)].

(** The gate of the simulation blocks nothing; an object is its attributes. *)
Definition gate_state (syms : list string) : pyval :=
  let news := VDict [("blocked", VBool false); ("reason", VNone); ("release_ts", VNone)] in
  let calendar := VDict [("blocked", VBool false); ("holiday_block", VBool false); ("reason", VNone)] in
  let spread := VDict [("state", VStr "normal"); ("reason", VNone); ("cooldown_eta", VNone)] in
  VDict [
    ("market", VDict [("news", news); ("calendar", calendar); ("spread", spread); ("latency_data_status", VStr "ok"); ("slippage_data_status", VStr "ok");
      ("profit_readiness_status", VStr "ok");
      ("per_symbol", VDict (map (λ k, (k, VDict [("news", news); ("calendar", calendar); ("spread", spread)])) syms))]);
    ("risk", VDict [("reduce_only", VBool false); ("reduce_only_reason", VNone)]);
    ("human", VDict [("double_entry_required", VBool false); ("required_roles", VList []); ("acknowledged_roles", VList []); ("ack_deadline", VNone);
      ("manual_comment_required", VBool false); ("comment_min_length", VInt 0)]);
    ("schema_version", VStr "poc")].

Definition account_position (p : OpenPosition) : RawPosition :=
  MkPosition [("strategy_id", VStr (op_strategy p)); ("symbol", VStr (op_symbol p)); ("direction", VStr (op_direction p))]
    (Some (from_utc_us (op_opened_at p))).

Definition inputs_of (syms : list string) (f : FeatureContext) (ts : Z) (sim : Sim) : Inputs :=
  MkInputs f (VDict [("mode", VStr "normal")]) (gate_state syms) (VDict [("equity", VFloat (equity sim))]) (VDict [("cfg_hash", VStr "poc")])
    (Some (from_utc_us ts)) (VStr "5m") (Positions (map account_position (open_positions sim))) NoPositions.

(** The selected entries watch the symbol of the bar. *)
Definition watch (symbol : string) (m : StrategyManifest) : StrategyManifest :=
  with_strategies (map (λ kv : string * StrategyEntry, (kv.1, let e := kv.2 in if str_in kv.1 selected then
    Entry (enabled e) (priority e) (weight e) (entry_metadata e) (feature_flags e) (Some [symbol]) (lifecycle e) (entry_parameters e) (determinism_key e)
    else e)) (strategies m)) m.
Definition watching (symbol : string) (e : StrategyEngine) : StrategyEngine :=
  match manifest e with Some m => set_manifest (watch symbol m) e | None => e end.

Definition ask_engine (syms : list string) (f : FeatureContext) (symbol : string) (ts : Z) : M Sim (list RawSignal) := λ sim,
  let '(r, e) := run_all sha1 blake2b (inputs_of syms f ts sim) (Some [symbol]) engine_seed (engine sim) in
  (r, set_engine (pipeline_symbols sim) e sim).

(** [str(getattr(signal, k, dflt))] *)
Definition text_attr (k dflt : string) (sig : RawSignal) : string := py_str (dget_or k (VStr dflt) (attrs sig)).

Definition spec_of (symbol primary : string) (r : row) (base : option float) (sig : RawSignal) : res Spec :=
  trend ← cell_or_zero r "regime_trend_1h";
  atr ← cell_or_zero r "atr_14_1h";
  Ok (MkSpec symbol (text_attr "strategy_id" primary sig) (text_attr "direction" "long" sig) (attr "level" sig) (attr "buffer" sig) (attr "breakout" sig)
    (attr "breakout_width" sig) (attr "quality_score" sig) (attr "filter_flags" sig) trend atr base).

Definition take_signal (symbol primary : string) (ts : Z) (r : row) (sig : RawSignal) : M Sim unit :=
  if entry_on_next_bar o then
    spec ← lift (spec_of symbol primary r None sig);
    sim ← get;
    modify (set_pending (pending_entries sim ++ [spec]))
  else
    spec ← lift (spec_of symbol primary r None sig);
    close ← lift (cell r "close");
    attempt_open_position (MkSpec (sp_symbol spec) (sp_strategy spec) (sp_direction spec) (sp_level spec) (sp_buffer spec) (sp_breakout spec)
      (sp_breakout_width spec) (sp_quality spec) (sp_flags spec) (sp_trend spec) (sp_atr spec) (Some close)) ts r.

(** ** The loop *)

(** What waits for the symbol is tried once. *)
Definition open_pending (symbol : string) (ts : Z) (r : row) : M Sim unit :=
  sim ← get;
  _ ← for_each (λ spec, attempt_open_position spec ts r) (List.filter (λ sp, String.eqb (sp_symbol sp) symbol) (pending_entries sim));
  modify (set_pending (List.filter (λ sp, negb (String.eqb (sp_symbol sp) symbol)) (pending_entries sim))).

Definition in_session (ts : Z) : bool :=
  match session_start o, session_end o with Some a, Some b => hour_between a b (hour_at ts) | _, _ => true end.

Definition signals_of_bar (syms : list string) (primary symbol : string) (ts : Z) (r : row) : M Sim unit :=
  sim ← get;
  let f := feature_context_for_row (pipeline_symbols sim) symbol r in
  _ ← modify (set_engine (symbols f) (engine sim));
  if negb (truthy (feature_row r)) || existsb (λ k, isna (dget k r)) required then mret tt
  else
    sigs ← ask_engine syms f symbol ts;
    for_each (take_signal symbol primary ts r) sigs.

(** One bar: the watchlists, the exits, then in the session the entries and the signals. *)
Definition on_bar (syms : list string) (primary : string) (ev : Z * string * row) : M Sim unit :=
  let '(ts, symbol, r) := ev in
  sim ← get;
  _ ← modify (set_engine (pipeline_symbols sim) (watching symbol (engine sim)));
  _ ← exits_of_bar ts symbol r;
  _ ← (if in_session ts then _ ← open_pending symbol ts r; signals_of_bar syms primary symbol ts r else mret tt);
  modify mark.

Definition last_row (frames : list (string * list (Z * row))) (symbol : string) : res row :=
  f ← dindex symbol frames;
  match last f with Some (_, r) => Ok r | None => Raise (OtherError "IndexError" "single positional indexer is out-of-bounds") end.

(** The positions left are closed at the last price of their symbol. *)
Definition close_residual (frames : list (string * list (Z * row))) (last_ts : Z) : M Sim unit :=
  sim ← get;
  _ ← for_each (λ p, r ← lift (last_row frames (op_symbol p)); close ← lift (cell r "close");
    settle_position p last_ts close (spread_for (op_symbol p) last_ts (spread_pips o))) (open_positions sim);
  _ ← modify (set_open []);
  modify mark.

(** [events.sort(key=lambda x: x[0])], a stable sort. *)
Definition event_ltb (a b : Z * string * row) : bool := a.1.1 <? b.1.1.
Definition event_stream (frames : list (string * list (Z * row))) : list (Z * string * row) :=
  isort event_ltb (concat (map (λ f : string * list (Z * row), map (λ b : Z * row, (b.1, f.1, b.2)) f.2) frames)).

Definition run_loop (syms : list string) (primary : string) (frames : list (string * list (Z * row))) : M Sim unit :=
  let events := event_stream frames in
  _ ← for_each (on_bar syms primary) events;
  sim ← get;
  match last events with
  | Some ev => if truthy (open_positions sim) then close_residual frames ev.1.1 else mret tt
  | None => mret tt
  end.
End simulation.

(** * The whole simulation *)

(** The text after the last occurrence of "::". *)
Fixpoint after_last (t : string) : option string :=
  match t with
  | EmptyString => None
  | String _ r =>
      match after_last r with
      | Some x => Some x
      | None => if starts_with "::" t then Some (String.substring 2 (String.length t - 2) t) else None
      end
  end.

Definition dataset_ref_strategy_id (value : pyval) : option string :=
  match value with
  | VStr t => x ← after_last (strip t); if truthy (strip x) then Some (strip x) else None
  | _ => None
  end.

Fixpoint find_entry (strategies : dict) (candidates : list string) : res (option dict) :=
  match candidates with
  | [] => Ok None
  | c :: l =>
      match dget c strategies with
      | VDict e =>
          if dmem "dataset_path" e && dmem "dataset_sha256" e then Ok (Some e)
          else Raise (ValueError ("Data manifest entry '" +:+ c +:+ "' missing dataset_path/dataset_sha256"))
      | _ => find_entry strategies l
      end
  end.

Definition load_data_manifest_payload (payload : pyval) : res dict :=
  v ← vget payload "strategies";
  match v with VDict d => Ok d | _ => Raise (ValueError "Data manifest must contain a strategies mapping") end.

Definition distinct (l : list string) : list string := fold_left (λ acc x, if str_in x acc then acc else acc ++ [x]) l [].

(** The entry of the strategy, or of one that its dataset references name. *)
Definition load_data_manifest_entry (strategies : dict) (strategy_id : string) (dataset_ids : list pyval) : res dict :=
  let candidates := distinct (strategy_id :: omap dataset_ref_strategy_id dataset_ids) in
  e ← find_entry strategies candidates;
  match e with
  | Some d => Ok d
  | None => Raise (KeyError ("Strategy '" +:+ strategy_id +:+ "' missing in data manifest candidates: " +:+ py_repr (VList (map VStr candidates))))
  end.

Definition with_enabled (b : bool) (e : StrategyEntry) : StrategyEntry :=
  Entry b (priority e) (weight e) (entry_metadata e) (feature_flags e) (entry_watchlist e) (lifecycle e) (entry_parameters e) (determinism_key e).
Definition restrict_manifest_to_strategy (m : StrategyManifest) (strategy_id : string) : StrategyManifest :=
  with_strategies (map (λ kv : string * StrategyEntry, (kv.1, with_enabled (String.eqb kv.1 strategy_id) kv.2)) (strategies m)) m.

Definition resolve_manifest_entries (m : StrategyManifest) (strategy : option string) : res (StrategyManifest * list (string * StrategyEntry)) :=
  let sid := default "" strategy in
  if truthy sid then
    let m := restrict_manifest_to_strategy m sid in
    e ← dindex sid (strategies m); Ok (m, [(sid, e)])
  else if truthy (enabled_strategies m) then Ok (m, enabled_strategies m)
  else Raise (ValueError "No enabled strategies found in strategy manifest").

Definition check_options (o : Options) : res unit :=
  _ ← match session_start o, session_end o with
    | Some a, Some b =>
        if hour_of_day a && hour_of_day b then Ok tt else Raise (ValueError "session_start_hour/session_end_hour must be 0-23")
    | None, None => Ok tt
    | _, _ => Raise (ValueError "session_start_hour and session_end_hour must be set together")
    end;
  match trail_atr_mult o with
  | Some t => if fleb t fzero then Raise (ValueError "trail_atr_mult must be positive") else Ok tt
  | None => Ok tt
  end.

(** [np.random.seed] *)
Definition check_seed (seed : Z) : res unit :=
  if in_range 0 seed 4294967295 then Ok tt else Raise (ValueError "Seed must be between 0 and 2**32 - 1").

Definition resolve_symbols (given : list string) (entries : list (string * StrategyEntry)) : list string :=
  let union := remove_dups (concat (map (λ kv : string * StrategyEntry, map upper (default [] (entry_watchlist kv.2))) entries)) in
  let resolved := if truthy given then given else if truthy union then sorted_strings union else ["USDJPY"] in
  map (upper ∘ strip) (List.filter (λ t, truthy (strip t)) resolved).

(** The datasets by symbol, the first entry that has one. *)
Definition add_dataset (d : list (string * dict)) (kv : string * pyval) : list (string * dict) :=
  match kv.2 with
  | VDict e => if dmem (upper kv.1) d then d else dset (upper kv.1) e d
  | _ => d
  end.
Definition watchlist_datasets (entries : list dict) : res (list (string * dict)) :=
  ds ← mapM_res (λ e : dict, match dget "watchlist_datasets" e or? VDict [] with VDict d => Ok d | _ => Raise (AttributeError "items") end) entries;
  Ok (fold_left add_dataset (concat ds) []).

Definition section_params (section : string) (entries : list (string * StrategyEntry)) : list (string * dict) :=
  map (λ kv : string * StrategyEntry, (kv.1, as_dict_or_empty (dget section (entry_parameters kv.2)))) entries.

Definition as_path (v : pyval) : res string := match v with VStr p => Ok p | _ => Raise (TypeError "expected str, bytes or os.PathLike object") end.

(** ** Metrics *)

Record PocMetrics := Metrics {
  pf_all : float; win_rate : float; avg_r : float; max_drawdown : float; n_trades : Z; start_equity : float; end_equity : float }.
Record PocResult := Poc {
  metrics : PocMetrics; poc_trades : list TradeRecord; dataset_path : list string; dataset_hash : list pyval; seed_used : Z; equity_curve : list float }.

Definition won (t : TradeRecord) : bool := fgtb (tr_r_multiple t) fzero.
Definition lost (t : TradeRecord) : bool := fleb (tr_r_multiple t) fzero.

(** With no trade, or with no lost one, the profit factor is one. *)
Definition profit_factor (l : list TradeRecord) : res float :=
  if truthy (List.filter lost l) then fdiv (fsum (map tr_pnl (List.filter won l))) (fabs (fsum (map tr_pnl (List.filter lost l)))) else Ok (of_Z 1).

Definition ratio_of_trades (x : float) (l : list TradeRecord) : res float := if truthy l then fdiv x (of_Z (Z.of_nat (length l))) else Ok fzero.

Section simulate.
Context `{Env}.
Variable sha1 : string → string.
Variable blake2b : dict → string.
Variable zoneinfo : string → option (Z → Z).
(** The draws of numpy's generator by seed. *)
Variable normal : Z → nat → float → float → float.
(** What pandas makes of files and of series: the rows of a symbol from the file at a
    path, in the window, sorted, with their features; the returns of a frame, how many
    there are, and the correlation of two; the drawdown of a curve. *)
Variable load_frame : string → string → res (list (Z * row)).
Variable returns : Type.
Variable returns_of : list (Z * row) → res returns.
Variable count_returns : returns → Z.
Variable correlation : returns → returns → float.
Variable drawdown : list float → float.
(** The plugins by identifier, and the override of their parameters. *)
Variable available_plugins : list (string * plugin).
Variable apply_parameters : dict → plugin → res plugin.
(** The identifiers of an entry's datasets; the keys and timeframes of the pipeline. *)
Variable dataset_ids : string → list pyval.
Variables pl_keys pl_timeframes : list string.

(** The correlation in both orders for every pair with more than ten returns each. *)
Fixpoint corr_matrix (l : list (string * returns)) : list (string * string * float) :=
  match l with
  | [] => []
  | (a, ra) :: l =>
      concat (map (λ kv : string * returns,
        if (10 <? count_returns ra) && (10 <? count_returns kv.2)
        then [((a, kv.1), correlation ra kv.2); ((kv.1, a), correlation ra kv.2)] else []) l) ++ corr_matrix l
  end.

Definition load_frames (syms : list string) (datasets : list (string * dict)) (primary : dict) :
    res (list (string * list (Z * row)) * list string * list pyval) :=
  l ← mapM_res (λ symbol,
    let ds := default [] (dlookup symbol datasets) in
    path ← as_path (dget_or "path" (dget "dataset_path" primary) ds);
    frame ← load_frame symbol path;
    Ok (symbol, path, dget_or "sha256" (dget "dataset_sha256" primary) ds, frame)) syms;
  Ok (fold_left (λ d x, let '(symbol, _, _, frame) := x in if truthy frame then dset symbol frame d else d) l [],
    map (λ x, let '(_, path, _, _) := x in path) l, map (λ x, let '(_, _, hash, _) := x in hash) l).

Definition register_all (entries : list (string * StrategyEntry)) : M StrategyEngine unit :=
  for_each (λ kv : string * StrategyEntry,
    match dlookup kv.1 available_plugins with
    | None => raise (KeyError ("Unknown strategy '" +:+ kv.1 +:+ "' for PoC simulation"))
    | Some p => p ← lift (apply_parameters (entry_parameters kv.2) p); register_plugin p
    end) entries.

Definition metrics_of (start : float) (sim : Sim) : res PocMetrics :=
  let l := all_trades sim in
  pf ← profit_factor l;
  wr ← ratio_of_trades (of_Z (Z.of_nat (length (List.filter won l)))) l;
  ar ← ratio_of_trades (fsum (map tr_r_multiple l)) l;
  Ok (Metrics (fround pf 4) (fround wr 4) (fround ar 4) (fround (drawdown (dd_curve sim)) 4) (Z.of_nat (length l)) (fround start 2) (fround (equity sim) 2)).

Definition initial_sim (settings : RiskProfileSettings) (primary : string) (e : StrategyEngine) : Sim :=
  MkSim (base_equity settings) (Risk (base_risk_of settings primary) 0 0) [] [] [] [base_equity settings] 0 [] e.

Definition simulate_paper_poc (o : Options) (strategy : option string) (given_symbols : list string) (seed : option Z) (manifest : StrategyManifest)
    (data_manifest policy : pyval) (profile : string) (allocation : option StrategyAllocationPolicy) (e : StrategyEngine) : res (PocResult * Sim) :=
  _ ← check_options o;
  let seed := default 0 seed in
  _ ← check_seed seed;
  _ ← (match strategy with
    | Some sid => if dmem sid (strategies manifest) then Ok tt else Raise (KeyError ("Unknown strategy '" +:+ sid +:+ "' for PoC simulation"))
    | None => Ok tt
    end);
  '(manifest, entries) ← resolve_manifest_entries manifest strategy;
  payload ← load_data_manifest_payload data_manifest;
  data ← mapM_res (λ kv : string * StrategyEntry, load_data_manifest_entry payload kv.1 (dataset_ids kv.1)) entries;
  let syms := resolve_symbols given_symbols entries in
  datasets ← watchlist_datasets data;
  settings ← load_risk_policy policy profile;
  let primary := default "" (head entries.*1) in
  let sizing := section_params "sizing" entries in
  mult ← float_at (VDict (params_of sizing primary)) "atr_sl_mult" (VFloat (of_Z 1));
  let '(registered, e) := register_all entries e in
  _ ← registered;
  let e := set_allocation_policy (match allocation with Some p => Some p | None => allocation_policy e end) (set_manifest manifest e) in
  '(frames, paths, hashes) ← load_frames syms datasets (default [] (head data));
  rs ← mapM_res (λ f : string * list (Z * row), x ← returns_of f.2; Ok (f.1, x)) frames;
  let required := remove_dups (concat (map (λ kv : string * StrategyEntry, required_features (entry_metadata kv.2)) entries)) in
  let '(looped, sim) := run_loop sha1 blake2b zoneinfo (normal seed) o settings (section_params "entry" entries) sizing mult (corr_matrix rs) entries.*1
    required pl_keys pl_timeframes seed syms primary frames (initial_sim settings primary e) in
  _ ← looped;
  m ← metrics_of (base_equity settings) sim;
  if truthy paths then Ok (Poc m (all_trades sim) paths hashes seed (dd_curve sim), sim)
  else Raise (OtherError "IndexError" "list index out of range").
End simulate.

(** * The exit stage, and what a trade is *)

Record Fill := MkFill { f_position : OpenPosition; f_ts : Z; f_exit : float; f_r : float }.

Lemma fmax_not_below a b c : fltb a c = false → fltb (fmax a b) c = false.
Proof.
  unfold fmax. intros Hc. destruct (fltb a b) eqn:E; [|done]. apply not_true_is_false. intros Hx.
  by rewrite (fltb_trans _ _ _ E Hx) in Hc.
Qed.
Lemma fmin_not_above a b c : fltb c a = false → fltb c (fmin a b) = false.
Proof.
  unfold fmin. intros Hc. destruct (fltb b a) eqn:E; [|done]. apply not_true_is_false. intros Hx.
  by rewrite (fltb_trans _ _ _ Hx E) in Hc.
Qed.

Section facts.
Context `{Env}.
Context (sha1 : string → string) (blake2b : dict → string) (zoneinfo : string → option (Z → Z)) (normal : nat → float → float → float).
Context (o : Options) (s : RiskProfileSettings) (entry_params sizing_params : list (string * dict)) (atr_sl_mult : float).
Context (corr : list (string * string * float)) (selected required pl_keys pl_timeframes : list string) (engine_seed : Z).

Abbreviation slip := (slippage_for normal o).
Abbreviation settle := (settle_position normal o s).
Abbreviation attempt := (attempt_open_position zoneinfo normal o s entry_params sizing_params atr_sl_mult corr).
Abbreviation bar := (on_bar sha1 blake2b zoneinfo normal o s entry_params sizing_params atr_sl_mult corr selected required pl_keys pl_timeframes engine_seed).
Abbreviation loop := (run_loop sha1 blake2b zoneinfo normal o s entry_params sizing_params atr_sl_mult corr selected required pl_keys pl_timeframes engine_seed).

(** Draws and the engine are no part of the books. *)
Definition same_books (a b : Sim) : Prop :=
  equity b = equity a ∧ risk_state b = risk_state a ∧ open_positions b = open_positions a ∧ pending_entries b = pending_entries a ∧
  all_trades b = all_trades a ∧ dd_curve b = dd_curve a.

Lemma slippage_books symbol ts sim x sim' : slip symbol ts sim = (x, sim') → same_books sim sim' ∧ ∃ y, x = Ok y.
Proof using Type.
  unfold slippage_for. destruct (fleb _ _); [intros [= <- <-]; split; [done|by eexists]|].
  cbn. intros [= <- <-]. split; [done|by eexists].
Qed.

(** A position as it was admitted, but for a stop that was only tightened. *)
Definition admitted (now : Z) (p : OpenPosition) : Prop :=
  op_opened_at p <= now ∧ op_base_risk p = base_risk_of s (op_strategy p) ∧ fleb (op_distance p) fzero = false ∧
  (∃ current eq, op_amount p = fmul (if fixed_risk o then base_equity s else eq) (fdiv_ieee (fmin current (op_base_risk p)) (of_Z 100))) ∧
  ∃ stop, op_distance p = fabs (fsub (op_entry p) stop) ∧
    if is_long_trade (op_direction p) then fltb (op_stop p) stop = false else fltb stop (op_stop p) = false.

(** A trade: an admitted position closed later at a price with costs. *)
Definition sound_fill (f : Fill) : Prop :=
  admitted (f_ts f) (f_position f) ∧ r_multiple_of (f_position f) (f_exit f) = Ok (f_r f) ∧
  ∃ price slippage, f_exit f = exit_with_cost price (op_direction (f_position f)) (spread_for (op_symbol (f_position f)) (f_ts f) (spread_pips o)) slippage.

Definition fill_trade (f : Fill) : TradeRecord := trade_of o (f_position f) (f_ts f) (f_exit f) (f_r f).
Definition fill_equity (e : float) (f : Fill) : float := fadd e (pnl_of o (f_position f) (f_r f)).
Definition fill_risk (r : RiskState) (f : Fill) : RiskState := update_after_trade (f_r f) (streak s) (op_base_risk (f_position f)) r.

(** The books at a time: the trades, the equity and the streak are those of the fills. *)
Definition books (r0 : RiskState) (now : Z) (sim : Sim) : Prop := ∃ fills,
  Forall sound_fill fills ∧ StronglySorted (λ a b, f_ts a <= f_ts b) fills ∧ Forall (λ f, f_ts f <= now) fills ∧
  all_trades sim = map fill_trade fills ∧ equity sim = fold_left fill_equity fills (base_equity s) ∧
  risk_state sim = fold_left fill_risk fills r0.

Lemma books_same r0 now a b : same_books a b → books r0 now a → books r0 now b.
Proof using Type. intros (He & Hr & _ & _ & Ht & _) (fills & Hb). exists fills. by rewrite He, Hr, Ht. Qed.

Lemma admitted_later now now' p : now <= now' → admitted now p → admitted now' p.
Proof using Type. intros Hle [Ho Hp]. split; [lia|done]. Qed.

Lemma books_later r0 now now' sim : now <= now' → books r0 now sim → books r0 now' sim.
Proof using Type.
  intros Hle (fills & Hf & Hs & Hn & Hb). exists fills. split_and!; [done|done| |apply Hb..].
  eapply Forall_impl; [exact Hn|]. intros f Hf'. cbn in Hf'. lia.
Qed.

Lemma sorted_snoc (fills : list Fill) f : StronglySorted (λ a b, f_ts a <= f_ts b) fills → Forall (λ g, f_ts g <= f_ts f) fills →
  StronglySorted (λ a b, f_ts a <= f_ts b) (fills ++ [f]).
Proof using Type.
  induction 1 as [|g l Hs IH Hall]; intros Hf; simpl; [by repeat constructor|].
  apply Forall_cons in Hf as [Hg Hf]. constructor; [by apply IH|]. apply Forall_app. split; [done|]. by constructor.
Qed.

(** Settling books one sound fill and touches nothing else. *)
Lemma settle_books r0 p ts x sim sim' u : admitted ts p → books r0 ts sim →
  settle p ts x (spread_for (op_symbol p) ts (spread_pips o)) sim = (Ok u, sim') →
  books r0 ts sim' ∧ open_positions sim' = open_positions sim ∧ pending_entries sim' = pending_entries sim ∧ dd_curve sim' = dd_curve sim.
Proof using Type.
  intros Hp Hb. unfold settle_position. intros (sl & s1 & Hs & E)%bind_Ok.
  apply slippage_books in Hs as [Hs1 _]. apply bind_Ok in E as (r & s2 & [Hr ->]%lift_Ok & E).
  apply bind_Ok in E as (s3 & s4 & [= <- <-] & [= <- <-]).
  pose proof (books_same _ _ _ _ Hs1 Hb) as (fills & Hf & Hss & Hn & Ht & He & Hk).
  destruct Hs1 as (_ & _ & Ho & Hpe & _ & Hd). split_and!; [|done..].
  exists (fills ++ [MkFill p ts (exit_with_cost x (op_direction p) (spread_for (op_symbol p) ts (spread_pips o)) sl) r]).
  rewrite map_app, !fold_left_app. cbn [book all_trades equity risk_state map fold_left]. rewrite <- Ht, <- He, <- Hk. split_and!; try done.
  - apply Forall_app. split; [done|]. repeat constructor; [apply Hp..|done|]. by eexists _, _.
  - by apply sorted_snoc.
  - apply Forall_app. split; [done|]. constructor; [cbn; lia|constructor].
Qed.

Lemma trail_admitted now p low high atr : admitted now p → admitted now (trail o p low high atr).
Proof using Type.
  unfold trail. destruct (trail_atr_mult o) as [m|]; [|done]. destruct (fgtb atr fzero); [|done].
  intros (Ho & Hr & Hd & Ha & stop & Hs & Hst). do 3 (split; [assumption|]). split; [exact Ha|]. exists stop. split; [exact Hs|].
  cbn [with_stop op_direction op_stop].
  generalize (fmax (of_dec 5 (-2)) (fmul atr m)). intros d. revert Hst. destruct (is_long_trade (op_direction p)); intros Hst.
  - by apply fmax_not_below.
  - by apply fmin_not_above.
Qed.

Definition tag (p : OpenPosition) : string * string := (op_strategy p, op_symbol p).
Lemma trail_tag p low high atr : tag (trail o p low high atr) = tag p ∧ op_symbol (trail o p low high atr) = op_symbol p.
Proof using Type. unfold trail. destruct (trail_atr_mult o); [|done]. by destruct (fgtb atr fzero). Qed.

(** The exits of a bar: who stays, in order; every other position is booked. *)
Lemma check_exits_books r0 symbol ts low high close atr l : ∀ sim rest sim',
  Forall (admitted ts) l → books r0 ts sim → check_exits normal o s symbol ts low high close atr l sim = (Ok rest, sim') →
  books r0 ts sim' ∧ Forall (admitted ts) rest ∧ map tag rest `sublist_of` map tag l ∧
  rest = omap (λ p, if String.eqb (op_symbol p) symbol then
      let p := trail o p low high atr in match exit_level p ts low high close with Some _ => None | None => Some p end
    else Some p) l ∧
  open_positions sim' = open_positions sim ∧ pending_entries sim' = pending_entries sim ∧ dd_curve sim' = dd_curve sim.
Proof using Type.
  induction l as [|p l IH]; intros sim rest sim' Hl Hb; cbn [check_exits].
  { intros [= <- <-]. split_and!; done. }
  apply Forall_cons in Hl as [Hp Hl]. cbn [omap list_omap map].
  destruct (String.eqb (op_symbol p) symbol) eqn:Es.
  - pose proof (trail_admitted _ _ low high atr Hp) as Hp'. pose proof (trail_tag p low high atr) as [Htag Hsym].
    apply String.eqb_eq in Es. cbv zeta. destruct (exit_level (trail o p low high atr) ts low high close) as [x|].
    + intros (u & s1 & E & Hrest)%bind_Ok. rewrite <- Es, <- Hsym in E.
      destruct (settle_books _ _ _ _ _ _ _ Hp' Hb E) as (Hb1 & Ho & Hpe & Hd).
      destruct (IH _ _ _ Hl Hb1 Hrest) as (? & ? & ? & ? & Ho' & Hpe' & Hd').
      split_and!; try done; try congruence. by apply sublist_cons.
    + intros (rest' & s1 & Hrest & [= <- <-])%bind_Ok.
      destruct (IH _ _ _ Hl Hb Hrest) as (? & ? & ? & -> & ? & ? & ?). split_and!; try done; [by constructor|].
      cbn [map]. rewrite Htag. by apply sublist_skip.
  - intros (rest' & s1 & Hrest & [= <- <-])%bind_Ok.
    destruct (IH _ _ _ Hl Hb Hrest) as (? & ? & ? & -> & ? & ? & ?). split_and!; try done; [by constructor|].
    cbn [map]. by apply sublist_skip.
Qed.

(** ** Limits on the number of positions *)

(** What the limits ask of a position opened after others (strategies and symbols). *)
Definition within_limits (before : list (string * string)) (p : string * string) : Prop :=
  reached (max_concurrent_overall (limits_of s p.1)) (Z.of_nat (length before)) = false ∧
  reached (max_concurrent_bucket (limits_of s p.1)) (Z.of_nat (length (List.filter (λ q : string * string, overlaps p.2 q.2) before))) = false.

Definition concurrent (l : list (string * string)) : Prop := ∀ l1 p l2, l = l1 ++ p :: l2 → within_limits l1 p.

Lemma reached_less m a b : a <= b → reached m b = false → reached m a = false.
Proof using Type. destruct m as [m|]; [|done]. cbn. lia. Qed.

Lemma sublist_filter_length {A} (f : A → bool) l l' : l `sublist_of` l' → (length (List.filter f l) <= length (List.filter f l'))%nat.
Proof using Type. induction 1 as [|x l l' Hs IH|x l l' Hs IH]; simpl; [lia| |]; destruct (f x); simpl; lia. Qed.

Lemma within_limits_less before before' p : before' `sublist_of` before → within_limits before p → within_limits before' p.
Proof using Type.
  intros Hs [H1 H2]. split; (eapply reached_less; [|eassumption]).
  - apply sublist_length in Hs. lia.
  - pose proof (sublist_filter_length (λ q : string * string, overlaps p.2 q.2) _ _ Hs). lia.
Qed.

Lemma concurrent_sublist l l' : l' `sublist_of` l → concurrent l → concurrent l'.
Proof using Type.
  intros Hs Hc l1 p l2 ->. apply sublist_app_l in Hs as (k1 & k2 & -> & Hs1 & Hs2).
  apply sublist_cons_l in Hs2 as (k3 & k4 & -> & Hs3). rewrite app_assoc in Hc.
  eapply within_limits_less; [|by apply (Hc (k1 ++ k3) p k4)]. etrans; [exact Hs1|]. by apply sublist_inserts_r.
Qed.

Lemma concurrent_snoc l p : concurrent l → within_limits l p → concurrent (l ++ [p]).
Proof using Type.
  intros Hc Hp l1 q l2 E. destruct l2 as [|x l2 _] using rev_ind.
  - apply app_inj_tail in E as [-> ->]. done.
  - rewrite app_comm_cons, app_assoc in E. apply app_inj_tail in E as [-> _]. by apply (Hc l1 q l2).
Qed.

(** The invariant of the simulation at a time. *)
Definition sim_ok (r0 : RiskState) (now : Z) (sim : Sim) : Prop :=
  books r0 now sim ∧ Forall (admitted now) (open_positions sim) ∧ concurrent (map tag (open_positions sim)).

Lemma sim_ok_later r0 now now' sim : now <= now' → sim_ok r0 now sim → sim_ok r0 now' sim.
Proof using Type.
  intros Hle (Hb & Ha & Hc). split_and!; [by eapply books_later| |done]. eapply Forall_impl; [exact Ha|]. intros p. by apply admitted_later.
Qed.
Lemma sim_ok_same r0 now a b : same_books a b → sim_ok r0 now a → sim_ok r0 now b.
Proof using Type. intros Hs (Hb & Ha & Hc). pose proof Hs as (_ & _ & Ho & _). split_and!; [by eapply books_same|by rewrite Ho..]. Qed.

Lemma caps_limits equity sym strategy new l : caps_admit s corr equity sym strategy new l = Ok true →
  within_limits (map tag l) (strategy, sym).
Proof using Type.
  unfold caps_admit. intros (t & _ & E)%bind_ok. destruct (over _ _ || over _ _); [done|].
  apply bind_ok in E as ([] & _ & E); [done|]. apply bind_ok in E as (g & _ & E). revert E.
  intros [= [[_ H1]%orb_false_iff H2]%negb_true_iff%orb_false_iff]. split; cbn [fst snd].
  - by rewrite length_map.
  - unfold bucket_overlap_count in H2. rewrite <- H2. f_equal. f_equal. clear. induction l as [|p l IH]; [done|]. simpl.
    destruct (overlaps sym (op_symbol p)); simpl; by rewrite IH.
Qed.

(** An attempt adds at most one admitted position. *)
Lemma attempt_ok r0 spec ts r sim sim' u : sim_ok r0 ts sim → attempt spec ts r sim = (Ok u, sim') →
  sim_ok r0 ts sim' ∧ pending_entries sim' = pending_entries sim ∧ dd_curve sim' = dd_curve sim.
Proof using Type.
  intros Hok. unfold attempt_open_position.
  intros (mult & s1 & [_ ->]%lift_Ok & E)%bind_Ok. apply bind_Ok in E as (tf & s1 & [_ ->]%lift_Ok & E).
  apply bind_Ok in E as ([] & s1 & [_ ->]%lift_Ok & E); cbn [negb] in E; [|by injection E as <- <-].
  apply bind_Ok in E as (base & s1 & [_ ->]%lift_Ok & E). apply bind_Ok in E as (sl & s1 & [Hs _]%slippage_books & E).
  pose proof (sim_ok_same _ _ _ _ Hs Hok) as Hok1. pose proof Hs as (_ & _ & _ & Hpe & _ & Hdd). clear Hok.
  apply bind_Ok in E as (st & s2 & [Hst ->]%lift_Ok & E). destruct st as [[stop buffer]|]; [|by injection E as <- <-].
  destruct (fleb _ fzero) eqn:Hd; [by injection E as <- <-|].
  apply bind_Ok in E as (s2 & s3 & [= <- <-] & E). apply bind_Ok in E as ([] & s3 & [Hc ->]%lift_Ok & E); cbn [negb] in E; [|by injection E as <- <-].
  injection E as <- <-. cbn [set_open pending_entries dd_curve]. split_and!; [|done..].
  destruct Hok1 as (Hb & Ha & Hco). split_and!; [exact Hb| |].
  - cbn [open_positions set_open]. apply Forall_app. split; [done|]. constructor; [|constructor]. split_and!; cbn; [lia|done|exact Hd| |].
    + by exists (current_risk_pct (risk_state s1)), (equity s1).
    + exists stop. split; [done|]. destruct (String.eqb _ _); apply fltb_irrefl.
  - cbn [open_positions set_open]. rewrite map_app. apply concurrent_snoc; [done|]. by apply caps_limits in Hc.
Qed.

(** ** The steps of a bar *)

Lemma exits_ok r0 ts symbol r sim sim' u : sim_ok r0 ts sim → exits_of_bar normal o s ts symbol r sim = (Ok u, sim') →
  sim_ok r0 ts sim' ∧ dd_curve sim' = dd_curve sim.
Proof using Type.
  intros (Hb & Ha & Hc). unfold exits_of_bar. intros (s1 & s2 & [= <- <-] & E)%bind_Ok.
  destruct (existsb _ _); [|by injection E as <- <-].
  apply bind_Ok in E as (low & s2 & [_ ->]%lift_Ok & E). apply bind_Ok in E as (high & s2 & [_ ->]%lift_Ok & E).
  apply bind_Ok in E as (close & s2 & [_ ->]%lift_Ok & E). apply bind_Ok in E as (atr & s2 & [_ ->]%lift_Ok & E).
  apply bind_Ok in E as (rest & s2 & Hr & [= <- <-]).
  destruct (check_exits_books r0 _ _ _ _ _ _ _ _ _ _ Ha Hb Hr) as (Hb' & Ha' & Ht & _ & _ & _ & Hd).
  split; [|done]. split_and!; [exact Hb'|exact Ha'|by eapply concurrent_sublist].
Qed.

(** Steps that keep the invariant and the curve. *)
Definition keeps (r0 : RiskState) (ts : Z) (m : M Sim unit) : Prop := ∀ sim u sim',
  sim_ok r0 ts sim → m sim = (Ok u, sim') → sim_ok r0 ts sim' ∧ dd_curve sim' = dd_curve sim.

Lemma steps_for_each {A} r0 ts (f : A → M Sim unit) l : (∀ a, keeps r0 ts (f a)) → keeps r0 ts (for_each f l).
Proof using Type.
  intros Hf. induction l as [|a l IH]; intros sim u sim' Hok; cbn [for_each].
  - by intros [= <- <-].
  - intros (u1 & s1 & E1 & E)%bind_Ok. destruct (Hf a _ _ _ Hok E1) as [Hok1 Hd1]. destruct (IH _ _ _ Hok1 E) as [Hok2 Hd2].
    split; [done|congruence].
Qed.

Lemma attempt_keeps r0 ts spec r : keeps r0 ts (attempt spec ts r).
Proof using Type. intros sim u sim' Hok E. by destruct (attempt_ok _ _ _ _ _ _ _ Hok E) as (? & _ & ?). Qed.

Lemma open_pending_ok r0 symbol ts r : keeps r0 ts (open_pending zoneinfo normal o s entry_params sizing_params atr_sl_mult corr symbol ts r).
Proof using Type.
  intros sim u sim' Hok. unfold open_pending. intros (s1 & s2 & [= <- <-] & E)%bind_Ok.
  apply bind_Ok in E as (u1 & s2 & E & [= <- <-]).
  eapply (steps_for_each r0 ts) in E as [Hok2 Hd]; [|intros; apply attempt_keeps|exact Hok]. by split.
Qed.

Lemma take_signal_ok r0 symbol primary ts r sig :
  keeps r0 ts (take_signal zoneinfo normal o s entry_params sizing_params atr_sl_mult corr symbol primary ts r sig).
Proof using Type.
  intros sim u sim' Hok. unfold take_signal. destruct (entry_on_next_bar o).
  - intros (spec & s1 & [_ ->]%lift_Ok & E)%bind_Ok. apply bind_Ok in E as (s1 & s2 & [= <- <-] & [= <- <-]). by split.
  - intros (spec & s1 & [_ ->]%lift_Ok & E)%bind_Ok. apply bind_Ok in E as (close & s1 & [_ ->]%lift_Ok & E). by eapply attempt_keeps.
Qed.

Lemma signals_ok r0 syms primary symbol ts r :
  keeps r0 ts (signals_of_bar sha1 blake2b zoneinfo normal o s entry_params sizing_params atr_sl_mult corr required pl_keys pl_timeframes engine_seed
    syms primary symbol ts r).
Proof using Type.
  intros sim u sim' Hok. unfold signals_of_bar. intros (s1 & s2 & [= <- <-] & E)%bind_Ok.
  apply bind_Ok in E as (u1 & s2 & [= <- <-] & E).
  assert (same_books sim (set_engine (symbols (feature_context_for_row pl_keys pl_timeframes (pipeline_symbols sim) symbol r)) (engine sim) sim)) as Hsame by done.
  destruct (negb _ || _); [injection E as <- <-; split; [by eapply sim_ok_same|done]|].
  apply bind_Ok in E as (sigs & s2 & Ha & E).
  assert (same_books sim s2) as Hs2.
  { revert Ha. unfold ask_engine. destruct (run_all _ _ _ _ _ _) as [res e]. by intros [= -> <-]. }
  eapply steps_for_each in E as [Hok' Hd]; [|intros; apply take_signal_ok|by eapply sim_ok_same].
  split; [exact Hok'|]. rewrite Hd. apply Hs2.
Qed.

Lemma bar_ok r0 now syms primary ts symbol r sim sim' u : now <= ts → sim_ok r0 now sim →
  bar syms primary (ts, symbol, r) sim = (Ok u, sim') → sim_ok r0 ts sim' ∧ dd_curve sim' = dd_curve sim ++ [equity sim'].
Proof using Type.
  intros Hle Hok%(sim_ok_later _ _ ts); [|done]. unfold on_bar. intros (s1 & s2 & [= <- <-] & E)%bind_Ok.
  apply bind_Ok in E as (u1 & s2 & [= <- <-] & E). apply bind_Ok in E as (u2 & s2 & Hx & E).
  eapply exits_ok in Hx as [Hok2 Hd2]; [|by eapply sim_ok_same]. cbn in Hd2.
  apply bind_Ok in E as (u3 & s3 & Hin & [= <- <-]).
  assert (sim_ok r0 ts s3 ∧ dd_curve s3 = dd_curve s2) as [Hok3 Hd3].
  { destruct (in_session o ts); [|by injection Hin as <- <-].
    apply bind_Ok in Hin as (u4 & s4 & Ho & Hsig). apply (open_pending_ok r0) in Ho as [Hok4 Hd4]; [|done].
    apply (signals_ok r0) in Hsig as [Hok5 Hd5]; [|done]. split; [done|congruence]. }
  cbn [mark dd_curve equity]. rewrite Hd3, Hd2. split; [|done]. exact Hok3.
Qed.

(** The bars of an ordered stream keep the invariant, and each marks the curve once. *)
Lemma bars_ok r0 syms primary evs : ∀ now sim sim' u,
  Forall (λ ev, now <= ev.1.1) evs → StronglySorted (λ a b : Z * string * row, event_ltb b a = false) evs → sim_ok r0 now sim →
  last (dd_curve sim) = Some (equity sim) →
  for_each (bar syms primary) evs sim = (Ok u, sim') →
  sim_ok r0 (default now (ev ← last evs; Some ev.1.1)) sim' ∧ length (dd_curve sim') = (length evs + length (dd_curve sim))%nat ∧
  last (dd_curve sim') = Some (equity sim').
Proof using Type.
  induction evs as [|[[ts symbol] r] evs IH]; intros now sim sim' u Hn Hs Hok Hl; cbn [for_each].
  { by intros [= <- <-]. }
  intros (u1 & s1 & E1 & E)%bind_Ok. apply Forall_cons in Hn as [Hle Hn]. apply StronglySorted_inv in Hs as [Hs Hall].
  destruct (bar_ok _ _ _ _ _ _ _ _ _ _ Hle Hok E1) as [Hok1 Hd1]. cbn [fst] in *.
  destruct (IH ts s1 sim' u) as (Hok' & Hlen & Hl'); [|done|done|by rewrite Hd1, last_snoc|done|].
  { eapply Forall_impl; [exact Hall|]. intros ev Hev. unfold event_ltb in Hev. cbn in Hev. lia. }
  split_and!; [|rewrite Hlen, Hd1, length_app; cbn; lia|done].
  destruct evs as [|ev evs]; [done|]. change (last ((ts, symbol, r) :: ev :: evs)) with (last (ev :: evs)).
  destruct (last (ev :: evs)) eqn:E2; [done|]. by apply last_None in E2.
Qed.

Lemma residual_ok r0 frames now ts sim sim' u : now <= ts → sim_ok r0 now sim →
  close_residual normal o s frames ts sim = (Ok u, sim') →
  sim_ok r0 ts sim' ∧ open_positions sim' = [] ∧ dd_curve sim' = dd_curve sim ++ [equity sim'].
Proof using Type.
  intros Hle (Hb & Ha & _)%(sim_ok_later _ _ ts); [|done]. unfold close_residual. intros (s1 & s2 & [= <- <-] & E)%bind_Ok.
  apply bind_Ok in E as (u1 & s2 & E & E'). apply bind_Ok in E' as (u2 & s3 & [= <- <-] & [= <- <-]).
  assert (books r0 ts s2 ∧ dd_curve s2 = dd_curve sim) as [Hb2 Hd2].
  { revert Ha Hb E. generalize (open_positions sim). intros l. revert sim. induction l as [|p l IH]; intros sim Ha Hb; cbn [for_each].
    - by intros [= <- <-].
    - apply Forall_cons in Ha as [Hp Ha]. intros (u3 & s3 & E & E')%bind_Ok.
      apply bind_Ok in E as (r & s4 & [_ ->]%lift_Ok & E). apply bind_Ok in E as (close & s4 & [_ ->]%lift_Ok & E).
      destruct (settle_books _ _ _ _ _ _ _ Hp Hb E) as (Hb3 & _ & _ & Hd3).
      destruct (IH _ Ha Hb3 E') as [? ?]. split; [done|congruence]. }
  cbn [mark set_open dd_curve equity open_positions]. rewrite Hd2. split; [|done]. split; [exact Hb2|]. split; [constructor|].
  intros l1 p l2 E0. by destruct l1.
Qed.

Lemma initial_ok now primary e : let sim := initial_sim s primary e in sim_ok (risk_state sim) now sim.
Proof using Type. intros sim. split; [|split; [constructor|]]. { exists []. split_and!; constructor. } intros l1 p l2 E0. by destruct l1. Qed.

(** The stream is ordered by time. *)
Lemma event_stream_sorted frames : StronglySorted (λ a b : Z * string * row, event_ltb b a = false) (event_stream frames).
Proof using Type.
  apply (isort_sorted event_ltb (λ _, True)); [intros x y _ _|intros x y z _ _ _|by apply Forall_true]; unfold event_ltb; lia.
Qed.

Definition first_ts (evs : list (Z * string * row)) : Z := match evs with ev :: _ => ev.1.1 | [] => 0 end.
Lemma from_first evs : StronglySorted (λ a b : Z * string * row, event_ltb b a = false) evs → Forall (λ ev, first_ts evs <= ev.1.1) evs.
Proof using Type.
  intros [|ev l Hs Hall]; constructor; [cbn; lia|]. eapply Forall_impl; [exact Hall|]. intros x Hx. unfold event_ltb in Hx. cbn. lia.
Qed.

(** ** The theorems *)

(** What a bar does to a position: the one that goes with the level it goes at. *)
Definition leaves_at (symbol : string) (ts : Z) (low high close atr : float) (p : OpenPosition) : option (OpenPosition * float) :=
  if String.eqb (op_symbol p) symbol then let p := trail o p low high atr in x ← exit_level p ts low high close; Some (p, x) else None.
Definition stays (symbol : string) (ts : Z) (low high close atr : float) (p : OpenPosition) : option OpenPosition :=
  if String.eqb (op_symbol p) symbol then let p := trail o p low high atr in
    match exit_level p ts low high close with Some _ => None | None => Some p end
  else Some p.

(** The trade of a position that left at a level: the level with the spread of the bar
    and some slippage. *)
Definition trade_at (symbol : string) (ts : Z) (x : OpenPosition * float) (t : TradeRecord) : Prop := ∃ slippage r,
  let exit := exit_with_cost x.2 (op_direction x.1) (spread_for symbol ts (spread_pips o)) slippage in
  r_multiple_of x.1 exit = Ok r ∧ t = trade_of o x.1 ts exit r.

Lemma check_exits_trades symbol ts low high close atr l : ∀ sim rest sim',
  check_exits normal o s symbol ts low high close atr l sim = (Ok rest, sim') →
  rest = omap (stays symbol ts low high close atr) l ∧
  ∃ new, all_trades sim' = all_trades sim ++ new ∧ Forall2 (trade_at symbol ts) (omap (leaves_at symbol ts low high close atr) l) new.
Proof using Type.
  induction l as [|p l IH]; intros sim rest sim'; cbn [check_exits].
  { intros [= <- <-]. split; [done|]. exists []. by rewrite app_nil_r. }
  cbn [omap list_omap]. unfold stays at 1, leaves_at at 1. destruct (String.eqb (op_symbol p) symbol) eqn:Es.
  - cbv zeta. destruct (exit_level (trail o p low high atr) ts low high close) as [x|] eqn:Ex; cbn [mbind option_bind].
    + intros (u & s1 & E & Hrest)%bind_Ok. destruct (IH _ _ _ Hrest) as (-> & new & Ht & Hnew). split; [done|].
      unfold settle_position in E. apply bind_Ok in E as (sl & s2 & [Hs _]%slippage_books & E).
      apply bind_Ok in E as (r & s3 & [Hr ->]%lift_Ok & E). apply bind_Ok in E as (s3 & s4 & [= <- <-] & [= <- <-]).
      eexists (_ :: new). rewrite Ht. cbn [book all_trades]. destruct Hs as (_ & _ & _ & _ & -> & _). rewrite <- app_assoc. split; [done|].
      constructor; [|exact Hnew]. exists sl, r. split; [exact Hr|done].
    + intros (rest' & s1 & Hrest & [= <- <-])%bind_Ok. destruct (IH _ _ _ Hrest) as (-> & new & Ht & Hnew). split; [done|]. by exists new.
  - intros (rest' & s1 & Hrest & [= <- <-])%bind_Ok. destruct (IH _ _ _ Hrest) as (-> & new & Ht & Hnew). split; [done|]. by exists new.
Qed.



End facts.

(** * Samples *)

Abbreviation fl := of_dec.
Definition sample_policy : pyval := VDict [("metadata", VDict [("base_capital_jpy", VInt 1000000)]);
  ("profiles", VDict [("m1", VDict [("risk_limits", VDict [("per_trade_risk_pct", VFloat (of_Z 1)); ("total_open_risk_pct", VDict [("hard", VFloat (of_dec 2 0))]);
    ("per_strategy_limits", VDict [("m1_baseline_donchian", VDict [("max_concurrent_positions", VDict [("overall", VInt 1)])])])])])])].
Definition sample_settings : RiskProfileSettings :=
  RiskProfile (of_Z 1000000) (of_Z 1) (Streak 3 (of_dec 5 (-1)) 2 (of_dec 1 (-1)) (of_Z 1) true)
    [("m1_baseline_donchian", RiskLimits (of_Z 1) (Some (of_Z 2)) (Some (of_dec 25 (-1))) (Some 1) (Some 1))] None (Some (of_Z 2)) None None None None.

Example sample_policy_loads : load_risk_policy sample_policy "m1" = Ok sample_settings.
Proof. vm_compute. reflexivity. Qed.

Definition sample_options : Options := SimOptions (of_dec 1 (-2)) fzero fzero fzero false true None None None (of_Z 2) 12.
Definition bar_cells (o h l c : Z) : dict :=
  [("open", VFloat (of_dec o (-2))); ("high", VFloat (of_dec h (-2))); ("low", VFloat (of_dec l (-2))); ("close", VFloat (of_dec c (-2)))].
Definition signal_cells : dict := [("close_5m", VFloat (of_dec 1512 (-1))); ("donchian_upper20_1h", VFloat (of_Z 150)); ("donchian_lower20_1h", VFloat (of_Z 148));
  ("donchian_mid20_1h", VFloat (of_Z 149)); ("atr_14_1h", VFloat (of_dec 5 (-1))); ("regime_trend_1h", VFloat (of_Z 1))].
Definition t0 : Z := utc_us (DateTime 2026 3 20 9 0 0 0 (Some 0)).
Definition sample_frames : list (string * list (Z * dict)) := [("USDJPY", [
  (t0, bar_cells 15100 15130 15090 15120 ++ signal_cells); (t0 + minutes_us 5, bar_cells 15110 15130 15100 15120);
  (t0 + minutes_us 10, bar_cells 15120 16500 15110 16000)])].

Abbreviation sample_loop frames := (run_loop (H:=sample_env) (λ _, "0123456789abcdef0123456789abcdef") (λ _, "") (λ _, None) (λ _ mu _, mu) sample_options sample_settings
  [("m1_baseline_donchian", [])] [] (of_Z 1) [] ["m1_baseline_donchian"] ["close_5m"] donchian_features ["5m"; "1h"] 7 ["USDJPY"] "m1_baseline_donchian" frames).
Abbreviation sample_bar := (on_bar (H:=sample_env) (λ _, "0123456789abcdef0123456789abcdef") (λ _, "") (λ _, None) (λ _ mu _, mu) sample_options sample_settings
  [("m1_baseline_donchian", [])] [] (of_Z 1) [] ["m1_baseline_donchian"] ["close_5m"] donchian_features ["5m"; "1h"] 7 ["USDJPY"] "m1_baseline_donchian").
Abbreviation sample_start := (initial_sim sample_settings "m1_baseline_donchian" (sample_engine None)).


Definition sample_events : list (Z * string * dict) := event_stream sample_frames.
Definition sample_held : Sim := (for_each sample_bar (take 2 sample_events) sample_start).2.



(** The total open risk is measured against the equity at the start: after the equity
    has halved, positions of twice the hard cap are admitted. *)
Example risk_cap_measured_at_start :
  let half := of_Z 500000 in
  let held := position_of sample_options (RiskProfile (of_Z 1000000) (of_Z 2) (streak sample_settings) [] None (Some (of_Z 2)) None None None None)
    (MkSpec "USDJPY" "a" "long" VNone VNone VNone VNone VNone VNone fzero fzero None) 0 5 (of_Z 150) (of_Z 149) VNone (of_Z 2) half fzero fzero in
  caps_admit (RiskProfile (of_Z 1000000) (of_Z 1) (streak sample_settings) [] None (Some (of_Z 2)) None None None None) [] half "EURUSD" "b" (of_Z 1) [held] = Ok true ∧
  risk_pct half held = Ok (of_Z 2).
Proof. vm_compute. split; reflexivity. Qed.

(** The raised percentage of a winning streak is cut back to the strategy's base. *)
Lemma win_streak_never_raises s r strategy : fltb (base_risk_of s strategy) (new_risk_pct s r strategy) = false.
Proof. unfold new_risk_pct, fmin. destruct (fltb (base_risk_of s strategy) (current_risk_pct r)) eqn:E; [apply fltb_irrefl|exact E]. Qed.

(** The flag [reset_on_loss] changes nothing. *)
Lemma reset_on_loss_is_idle r l a b c d e base st :
  update_after_trade r (Streak l a b c d e) base st = update_after_trade r (Streak l a b c d (negb e)) base st.
Proof. reflexivity. Qed.

(** An ATR that is no number gives a stop and a distance that are none, and the
    position is admitted all the same. *)
Example nan_atr_is_admitted :
  entry_stop "long" (of_Z 150) S754_nan (of_Z 1) VNone VNone = Ok (Some (S754_nan, VNone)) ∧ fleb (fabs (fsub (of_Z 150) S754_nan)) fzero = false.
Proof. vm_compute. split; reflexivity. Qed.

(** The stop is trailed by the high of the bar before the low of the same bar is
    tested: a bar that rises to 110 and never falls below 104 closes a position whose
    stop was at 95. *)
Example trailed_within_the_bar :
  let o := SimOptions fzero fzero fzero fzero false true None None (Some (of_Z 1)) (of_Z 2) 12 in
  let p := MkOpen "a" "USDJPY" (of_Z 1) "long" (of_Z 100) (of_Z 95) (of_Z 120) (of_Z 5) (of_Z 1) 0 1000 VNone VNone VNone VNone VNone VNone fzero fzero fzero fzero in
  exit_level p 5 (of_Z 104) (of_Z 110) (of_Z 109) = None ∧
  exit_level (trail o p (of_Z 104) (of_Z 110) (of_Z 5)) 5 (of_Z 104) (of_Z 110) (of_Z 109) = Some (of_Z 105).
Proof. vm_compute. split; reflexivity. Qed.

(** A simulation that only wins has the profit factor one. *)
Example only_wins_have_factor_one t : won t = true → profit_factor [t] = Ok (of_Z 1).
Proof.
  intros Hw. unfold profit_factor. cbn [List.filter]. assert (lost t = false) as ->; [|done]. unfold won, lost, fgtb in *.
  apply not_true_is_false. intros Hl. pose proof (fleb_fltb_trans _ _ _ Hl Hw) as Hx. by rewrite fltb_irrefl in Hx.
Qed.
