(* ===== verification/Ideas.v ===== *)
(** The registry of research ideas of [src/research/registry.py]: manifests by idea,
    the stages an idea advances through, their checklists, the history a manifest
    keeps, and the report.  Identifiers are plain names; a [created_at] that YAML
    reads as a timestamp is kept apart from the other values of a manifest. *)

From S2P Require Import Prelude PyFloat PyVal PyEnv Calendar.

Local Open Scope Z_scope.
Local Open Scope py_scope.

(** * Stages and checklists *)

Definition STAGE_ORDER : list string := ["draft"; "screening"; "paper"; "ready"].
Definition DEFAULT_STAGE_REQUIREMENTS : list (string * list string) := [
  ("draft", ["hypothesis"]); ("screening", ["data_sources"; "baseline_metrics"]); ("paper", ["validation_report"; "risk_review"]);
  ("ready", ["ops_signoff"])].

Definition IdeaRegistryError (msg : string) : exn := OtherError "IdeaRegistryError" msg.
Definition IdeaNotFoundError (msg : string) : exn := OtherError "IdeaNotFoundError" msg.
Definition StageTransitionError (msg : string) : exn := OtherError "StageTransitionError" msg.
Definition StageIncompleteError (idea_id : string) (missing : list string) : exn :=
  OtherError "StageIncompleteError" ("Checklist incomplete for " +:+ idea_id +:+ ": " +:+ join ", " missing).

Record StageChecklist := Checklist { ck_stage : string; required_evidence : list string; completed : list string; signoff : option string; artifacts : list string }.

Definition missing (c : StageChecklist) : list string :=
  let done := map strip (List.filter (λ t, truthy (strip t)) (completed c)) in List.filter (λ t, negb (str_in t done)) (required_evidence c).

Definition checklist_to_dict (c : StageChecklist) : dict := [
  ("stage", VStr (ck_stage c)); ("required_evidence", VList (map VStr (required_evidence c))); ("completed", VList (map VStr (completed c)));
  ("signoff", vopt_str (signoff c)); ("artifacts", VList (map VStr (artifacts c))); ("missing", VList (map VStr (missing c)))].

Record IdeaRecord := Idea {
  idea_id : string; title : string; owner : option string; created_at : datetime; hypothesis : option string; data_sources : list string;
  risk_flags : list string; stage : string; next_actions : list string; reviewers : list string; tags : list string; manifest_path : string }.

Definition record_to_dict (r : IdeaRecord) : dict := [
  ("idea_id", VStr (idea_id r)); ("title", VStr (title r)); ("owner", vopt_str (owner r)); ("created_at", VStr (iso_us_z (created_at r)));
  ("hypothesis", vopt_str (hypothesis r)); ("data_sources", VList (map VStr (data_sources r))); ("risk_flags", VList (map VStr (risk_flags r)));
  ("stage", VStr (stage r)); ("next_actions", VList (map VStr (next_actions r))); ("reviewers", VList (map VStr (reviewers r)));
  ("tags", VList (map VStr (tags r))); ("manifest_path", VStr (manifest_path r))].

Record StageChange := Change { ch_ts : string; from_stage : string; to_stage : string; actor : option string; note : option string; force : bool }.

Definition change_to_dict (c : StageChange) : dict := [
  ("ts", VStr (ch_ts c)); ("from", VStr (from_stage c)); ("to", VStr (to_stage c)); ("actor", vopt_str (actor c)); ("note", vopt_str (note c));
  ("force", VBool (force c))].

(** * Reading a manifest *)

Definition as_list (v : pyval) : list string :=
  match v with
  | VNone => []
  | VList l => List.filter (λ t, truthy (strip t)) (map py_str l)
  | v => [py_str v]
  end.

Definition text_or (v : pyval) (dflt : string) : string := py_str (v or? VStr dflt).
Definition opt_text (v : pyval) : option string := if truthy v then Some (py_str v) else None.

Definition validate_stage (st : string) : res unit :=
  if str_in st STAGE_ORDER then Ok tt else Raise (StageTransitionError ("Unknown stage '" +:+ st +:+ "' (expected ('draft', 'screening', 'paper', 'ready'))")).

(** [STAGE_ORDER.index(stage)] *)
Fixpoint index_in (x : string) (l : list string) : Z :=
  match l with [] => 0 | y :: l => if String.eqb x y then 0 else 1 + index_in x l end.
Definition stage_index (st : string) : Z := index_in st STAGE_ORDER.

(** A manifest: its document, and [created_at] when that is a timestamp. *)
Record manifest_file := ManifestFile { mf_document : document; mf_created : option datetime }.

(** The manifests by identifier, the reports by path, and the world of the event log. *)
Record IdeaState := IState { manifests : list (string * manifest_file); reports : list (string * list string); idea_world : world }.

#[export] Instance idea_has_world : HasWorld IdeaState.
Proof. refine {| wget := idea_world; wset w s := IState (manifests s) (reports s) w |}; by intros; try destruct s. Defined.

Definition write_manifest (id : string) (d : dict) (s : IdeaState) : IdeaState :=
  IState (dset id (ManifestFile (Some (Some (VDict d))) (m ← dlookup id (manifests s); mf_created m)) (manifests s)) (reports s) (idea_world s).
Definition write_report (path : string) (l : list string) (s : IdeaState) : IdeaState := IState (manifests s) (dset path l (reports s)) (idea_world s).

Section registry.
Context `{Env}.
(** [astimezone(timezone.utc)] of a time without zone, in the zone of the system. *)
Variable system_utc : datetime → res datetime.
Variables root event_log report_dir : string.

Definition parse_datetime (v : pyval) (t : option datetime) : res (option datetime) :=
  match t with
  | Some d => u ← normalize d; Ok (Some u)
  | None =>
      if truthy v then
        match fromisoformat (replace_char "Z" "+00:00" (py_str v)) with
        | None => Ok None
        | Some d => u ← (if is_naive d then system_utc d else astimezone_utc d); Ok (Some u)
        end
      else Ok None
  end.

Definition path_of_idea (id : string) : string := root +:+ "/" +:+ id +:+ "/manifest.yaml".

Definition resolve_manifest (id : string) (s : IdeaState) : res manifest_file :=
  match dlookup id (manifests s) with
  | Some m => match mf_document m with Some _ => Ok m | None => Raise (IdeaNotFoundError ("Idea manifest not found: " +:+ path_of_idea id)) end
  | None => Raise (IdeaNotFoundError ("Idea manifest not found: " +:+ path_of_idea id))
  end.

(** A document that YAML cannot read, or that is no mapping, is an error of the registry. *)
Definition load_yaml (id : string) (m : manifest_file) : res dict :=
  match mf_document m with
  | Some (Some v) =>
      match v or? VDict [] with
      | VDict d => Ok d
      | _ => Raise (IdeaRegistryError ("Invalid idea manifest payload: " +:+ path_of_idea id))
      end
  | _ => Raise (IdeaRegistryError ("Failed to parse " +:+ path_of_idea id))
  end.

Definition parse_idea_record (d : dict) (created : option datetime) (id : string) : M IdeaState IdeaRecord :=
  let iid := text_or (dget "idea_id" d) id in
  given ← lift (parse_datetime (dget "created_at" d) created);
  at_ ← (match given with Some t => mret t | None => now_utc end);
  let st := text_or (dget "stage" d) "draft" in
  _ ← lift (validate_stage st);
  mret (Idea iid (text_or (dget "title" d) iid) (opt_text (dget "owner" d)) at_ (opt_text (dget "hypothesis" d)) (as_list (dget "data_sources" d))
    (as_list (dget "risk_flags" d)) st (as_list (dget "next_actions" d)) (as_list (dget "reviewers" d)) (as_list (dget "tags" d)) (path_of_idea id)).

Definition parse_checklist (d : dict) (st : string) : res StageChecklist :=
  _ ← validate_stage st;
  entry ← (match dget "checklists" d or? VDict [] with VDict c => Ok (dget st c) | _ => Ok (VDict []) end);
  done ← vget entry "completed";
  sign ← vget entry "signoff";
  arts ← vget entry "artifacts";
  Ok (Checklist st (default [] (dlookup st DEFAULT_STAGE_REQUIREMENTS)) (as_list done) (opt_text sign) (as_list arts)).

Fixpoint parse_changes (l : list pyval) : M IdeaState (list StageChange) :=
  match l with
  | [] => mret []
  | VDict e :: l =>
      ts ← (if truthy (dget "ts" e) then mret (py_str (dget "ts" e)) else utcnow_iso);
      rest ← parse_changes l;
      mret (Change ts (text_or (dget "from" e) "") (text_or (dget "to" e) "") (opt_text (dget "actor" e)) (opt_text (dget "note" e))
        (truthy (dget_or "force" (VBool false) e)) :: rest)
  | _ :: l => parse_changes l
  end.
Definition parse_stage_history (history : pyval) : M IdeaState (list StageChange) :=
  match history with VList l => parse_changes l | _ => mret [] end.

(** * Operations *)

Definition get_idea (id : string) : M IdeaState IdeaRecord :=
  s ← get;
  m ← lift (resolve_manifest id s);
  d ← lift (load_yaml id m);
  parse_idea_record d (mf_created m) id.

(** The document of an idea that was found. *)
Definition payload_of (id : string) : M IdeaState dict := s ← get; m ← lift (resolve_manifest id s); lift (load_yaml id m).

Definition checklist (id : string) (st : option string) : M IdeaState StageChecklist :=
  r ← get_idea id;
  d ← payload_of id;
  lift (parse_checklist d (default "" st or? stage r)).

Definition advance_stage (id target : string) (why who : option string) (forced : bool) : M IdeaState StageChecklist :=
  r ← get_idea id;
  _ ← lift (validate_stage target);
  if (stage_index target <? stage_index (stage r)) && negb forced
  then raise (StageTransitionError ("Cannot regress stage from " +:+ stage r +:+ " to " +:+ target +:+ " without --force"))
  else
    c ← checklist id (Some target);
    if truthy (missing c) && negb forced then raise (StageIncompleteError id (missing c))
    else
      d ← payload_of id;
      let d := dset "stage" (VStr target) d in
      history ← parse_stage_history (dget "stage_history" d);
      ts ← utcnow_iso;
      let history := history ++ [Change ts (stage r) target who why forced] in
      _ ← modify (write_manifest id (dset "stage_history" (VList (map (VDict ∘ change_to_dict) history)) d));
      ts ← utcnow_iso;
      _ ← append_jsonl event_log (VDict [("event", VStr "research.idea.stage_changed"); ("ts", VStr ts); ("idea_id", VStr id); ("from", VStr (stage r));
        ("to", VStr target); ("actor", vopt_str who); ("note", vopt_str why); ("force", VBool forced); ("manifest_path", VStr (manifest_path r))]);
      mret c.

Fixpoint load_all (l : list (string * manifest_file)) : M IdeaState (list IdeaRecord) :=
  match l with
  | [] => mret []
  | (id, m) :: l =>
      d ← lift (load_yaml id m);
      r ← parse_idea_record d (mf_created m) id;
      rest ← load_all l;
      mret (r :: rest)
  end.

Definition id_ltb (a b : string * manifest_file) : bool := str_ltb a.1 b.1.

(** [list(stage=..., owner=...)]: a filter that is missing or empty keeps all. *)
Definition list_ideas (st own : option string) : M IdeaState (list IdeaRecord) :=
  s ← get;
  l ← load_all (isort id_ltb (List.filter (λ kv : string * manifest_file, match mf_document kv.2 with Some _ => true | None => false end) (manifests s)));
  let l := if truthy st then List.filter (λ r, String.eqb (stage r) (default "" st)) l else l in
  mret (if truthy own then List.filter (λ r, match owner r with Some o => String.eqb o (default "" own) | None => false end) l else l).

Definition report_lines (r : IdeaRecord) (c : StageChecklist) : list string :=
  ["# Idea Report: " +:+ idea_id r; ""; "- Title: " +:+ title r; "- Owner: " +:+ (default "" (owner r) or? "n/a"); "- Stage: " +:+ stage r;
   "- Created: " +:+ iso_date (created_at r); ""; "## Checklist"; ""; "| Item | Status |"; "| --- | --- |"]
  ++ map (λ item, "| " +:+ item +:+ " | " +:+ (if str_in item (missing c) then "missing" else "ok") +:+ " |") (required_evidence c)
  ++ (if truthy (next_actions r) then ["" ; "## Next Actions"] ++ map (λ a, "- " +:+ a) (next_actions r) else []).

Definition generate_report (id : string) : M IdeaState string :=
  r ← get_idea id;
  c ← checklist id None;
  let path := report_dir +:+ "/" +:+ id +:+ ".md" in
  _ ← modify (write_report path (report_lines r c));
  mret path.
End registry.

(** * The guarded ladder *)

Section ladder.
Context `{Env} (system_utc : datetime → res datetime) (root event_log report_dir : string).

Abbreviation get_idea := (get_idea system_utc root).
Abbreviation payload_of := (payload_of root).
Abbreviation checklist := (checklist system_utc root).
Abbreviation advance := (advance_stage system_utc root event_log).

(** Reading moves the clock only. *)
Definition as_in (s0 s : IdeaState) : Prop := manifests s = manifests s0 ∧ reports s = reports s0 ∧ w_out (idea_world s) = w_out (idea_world s0).

Lemma reading_now s0 : preserves (as_in s0) now_utc.
Proof using Type. by intros s (? & ? & ?). Qed.
Lemma reading_iso s0 : preserves (as_in s0) utcnow_iso.
Proof using Type. by intros s (? & ? & ?). Qed.

Lemma reading_record s0 d created id : preserves (as_in s0) (parse_idea_record system_utc root d created id).
Proof using Type.
  unfold parse_idea_record. cbv zeta. apply preserves_bind; [apply preserves_lift|]. intros t.
  apply preserves_bind; [destruct t; [apply preserves_ret|apply reading_now]|]. intros at_.
  apply preserves_bind; [apply preserves_lift|]. intros _. apply preserves_ret.
Qed.

Lemma reading_get s0 id : preserves (as_in s0) (get_idea id).
Proof using Type.
  unfold Ideas.get_idea. apply preserves_bind; [apply preserves_get|]. intros s1. apply preserves_bind; [apply preserves_lift|]. intros m.
  apply preserves_bind; [apply preserves_lift|]. intros d. apply reading_record.
Qed.
Lemma reading_payload s0 id : preserves (as_in s0) (payload_of id).
Proof using Type.
  unfold Ideas.payload_of. apply preserves_bind; [apply preserves_get|]. intros s1. apply preserves_bind; [apply preserves_lift|]. intros m. apply preserves_lift.
Qed.
Lemma reading_checklist s0 id st : preserves (as_in s0) (checklist id st).
Proof using Type.
  unfold Ideas.checklist. apply preserves_bind; [apply reading_get|]. intros r. apply preserves_bind; [apply reading_payload|]. intros d. apply preserves_lift.
Qed.
Lemma reading_changes s0 l : preserves (as_in s0) (parse_changes l).
Proof using Type.
  induction l as [|v l IH]; [apply preserves_ret|]. destruct v as [| | | | | |e]; try exact IH. cbn [parse_changes].
  apply preserves_bind; [destruct (truthy (dget "ts" e)); [apply preserves_ret|apply reading_iso]|]. intros ts.
  apply preserves_bind; [exact IH|]. intros rest. apply preserves_ret.
Qed.
Lemma reading_history s0 v : preserves (as_in s0) (parse_stage_history v).
Proof using Type. destruct v; try apply preserves_ret. apply reading_changes. Qed.

Lemma reading_step {A} (m : M IdeaState A) s0 s r s' : preserves (as_in s0) m → as_in s0 s → m s = (r, s') → as_in s0 s'.
Proof using Type. intros Hm Hs E. specialize (Hm s Hs). by rewrite E in Hm. Qed.

(** ** The history *)

Definition kept_change (c : StageChange) : Prop := ch_ts c ≠ "" ∧ actor c ≠ Some "" ∧ note c ≠ Some "".

Lemma opt_text_not_empty v : opt_text v ≠ Some "".
Proof using Type. unfold opt_text. destruct (truthy v) eqn:E; [|done]. intros [= Hv]. by apply (py_str_not_empty v E). Qed.

Lemma parse_changes_kept l : ∀ s h s', parse_changes l s = (Ok h, s') → Forall kept_change h.
Proof using Type.
  induction l as [|v l IH]; intros s h s'; cbn [parse_changes]; [by intros [= <- _]|].
  destruct v as [| | | | | |e]; try by apply IH.
  intros (ts & s1 & Ets & E)%bind_Ok. apply bind_Ok in E as (rest & s2 & Er & [= <- <-]). constructor; [|by eapply IH].
  split_and!; cbn; try apply opt_text_not_empty. destruct (truthy (dget "ts" e)) eqn:Et.
  - injection Ets as <- _. by apply py_str_not_empty.
  - unfold utcnow_iso in Ets. apply bind_Ok in Ets as (d & s3 & _ & [= <- _]). unfold iso_z. by apply app_not_empty_r.
Qed.

(** What is written is read back, without a look at the clock. *)
Lemma changes_roundtrip h : Forall kept_change h → ∀ s, parse_changes (map (VDict ∘ change_to_dict) h) s = (Ok h, s).
Proof using Type.
  induction 1 as [|c h (Hts & Hac & Hno) Hh IH]; intros s; [done|]. cbn [map].
  destruct c as [ts f t a n fo]. cbn [ch_ts actor note] in *. change ((VDict ∘ change_to_dict) ?c) with (VDict (change_to_dict c)). cbn [parse_changes].
  change (dget "ts" _) with (VStr ts). assert (truthy (VStr ts) = true) as ->.
  { change (negb (String.eqb ts "") = true). by destruct (String.eqb_spec ts ""). }
  rewrite bind_run. cbn [mret M_ret]. rewrite bind_run, IH. unfold mret, M_ret. f_equal. f_equal. f_equal.
  assert (∀ x : string, text_or (VStr x) "" = x) as Htext by (intros x; unfold text_or; rewrite PyVal.text_or; by destruct (String.eqb_spec x "")).
  assert (∀ x : option string, x ≠ Some "" → opt_text (vopt_str x) = x) as Hopt.
  { intros [x|] Hx; [|done]. unfold opt_text. cbn [vopt_str]. change (truthy (VStr x)) with (negb (String.eqb x "")).
    destruct (String.eqb_spec x ""); [congruence|done]. }
  change (dget "from" _) with (VStr f). change (dget "to" _) with (VStr t). change (dget "actor" _) with (vopt_str a).
  change (dget "note" _) with (vopt_str n). change (truthy (dget_or "force" _ _)) with fo. by rewrite !Htext, !Hopt.
Qed.

(** ** Advancing *)

Lemma resolve_same id s s0 m : as_in s0 s → resolve_manifest root id s = Ok m ↔ resolve_manifest root id s0 = Ok m.
Proof using Type. intros (Hm & _). unfold resolve_manifest. by rewrite Hm. Qed.

Lemma payload_run id s s0 d s' : as_in s0 s → payload_of id s = (Ok d, s') →
  s' = s ∧ ∃ m, resolve_manifest root id s0 = Ok m ∧ load_yaml root id m = Ok d.
Proof using Type.
  intros Hs. unfold Ideas.payload_of. intros (s1 & s2 & [= <- <-] & E)%bind_Ok. apply bind_Ok in E as (m & s2 & [Hm ->]%lift_Ok & [Hd ->]%lift_Ok).
  split; [done|]. exists m. split; [|done]. by apply (resolve_same id s).
Qed.

Lemma get_run id s s0 r s' : as_in s0 s → get_idea id s = (Ok r, s') → as_in s0 s' ∧
  ∃ m d, resolve_manifest root id s0 = Ok m ∧ load_yaml root id m = Ok d ∧ stage r = text_or (dget "stage" d) "draft" ∧ manifest_path r = path_of_idea root id.
Proof using Type.
  intros Hs E. split; [by eapply reading_step; [apply reading_get|..]|]. revert E. unfold Ideas.get_idea.
  intros (s1 & s2 & [= <- <-] & E)%bind_Ok. apply bind_Ok in E as (m & s2 & [Hm ->]%lift_Ok & E). apply bind_Ok in E as (d & s2 & [Hd ->]%lift_Ok & E).
  exists m, d. split; [by apply (resolve_same id s)|]. split; [done|]. unfold parse_idea_record in E.
  apply bind_Ok in E as (t & s2 & _ & E). apply bind_Ok in E as (a & s3 & _ & E). apply bind_Ok in E as (u & s4 & _ & [= <- _]). done.
Qed.

(** C38. An idea advances only as its checklists allow: without force never to an
    earlier stage and never with evidence of the target missing; then its manifest
    alone is rewritten, all but the stage and the history unchanged, the history
    extended by the change (and read back so), and one event is logged.  A call that
    raises leaves manifests, reports and events as they were. *)
Theorem advance_is_guarded id target why who forced s r s' : advance id target why who forced s = (r, s') →
  match r with
  | Raise _ => as_in s s'
  | Ok c => ∃ m d d' h ts ev,
      resolve_manifest root id s = Ok m ∧ load_yaml root id m = Ok d ∧ parse_checklist d target = Ok c ∧
      (forced = true ∨ stage_index (text_or (dget "stage" d) "draft") <= stage_index target ∧ missing c = []) ∧
      manifests s' = dset id (ManifestFile (Some (Some (VDict d'))) (mf_created m)) (manifests s) ∧ reports s' = reports s ∧
      w_out (idea_world s') = w_out (idea_world s) ++ [(event_log, ev)] ∧
      dget "stage" d' = VStr target ∧ (∀ k, k ≠ "stage" → k ≠ "stage_history" → dget k d' = dget k d) ∧
      (∃ s1 s2, parse_stage_history (dget "stage_history" d) s1 = (Ok h, s2)) ∧
      let change := Change ts (text_or (dget "stage" d) "draft") target who why forced in
      kept_change change → ∀ s3, parse_stage_history (dget "stage_history" d') s3 = (Ok (h ++ [change]), s3)
  end.
Proof using Type.
  assert (as_in s s) as H0 by done. unfold advance_stage. rewrite bind_run.
  destruct (get_idea id s) as [[rec|e] s1] eqn:Eg; [|intros [= <- <-]; by eapply reading_step; [apply reading_get|..]].
  destruct (get_run _ _ _ _ _ H0 Eg) as (H1 & m & d & Hm & Hd & Hst & Hpath).
  rewrite bind_run. unfold lift at 1. destruct (validate_stage target) as [u|e] eqn:Hv; [|by intros [= <- <-]].
  destruct ((stage_index target <? stage_index (stage rec)) && negb forced) eqn:Hreg; [by intros [= <- <-]|].
  rewrite bind_run. destruct (checklist id (Some target) s1) as [[c|e] s2] eqn:Ec;
    pose proof (reading_step _ _ _ _ _ (reading_checklist s id (Some target)) H1 Ec) as H2; [|by intros [= <- <-]].
  destruct (truthy (missing c) && negb forced) eqn:Hmiss; [by intros [= <- <-]|].
  rewrite bind_run. destruct (payload_of id s2) as [[d1|e] s3] eqn:Ep; [|intros [= <- <-]; by eapply reading_step; [apply reading_payload|..]].
  destruct (payload_run _ _ _ _ _ H2 Ep) as (-> & m1 & Hm1 & Hd1). rewrite Hm in Hm1. injection Hm1 as <-. rewrite Hd in Hd1. injection Hd1 as <-.
  rewrite bind_run. destruct (parse_stage_history _ s2) as [[h|e] s4] eqn:Eh;
    pose proof (reading_step _ _ _ _ _ (reading_history s _) H2 Eh) as H4; [|by intros [= <- <-]].
  intros E. rewrite bind_run in E. destruct (utcnow_iso s4) as [[ts|e] s5] eqn:Et; [|done].
  pose proof (reading_step _ _ _ _ _ (reading_iso s) H4 Et) as (H5m & H5r & H5w).
  cbn in E. injection E as <- <-. rewrite dget_dset_ne in Eh by done.
  assert (truthy target = true) as Htt.
  { change (negb (String.eqb target "") = true). destruct (String.eqb_spec target "") as [->|]; [by vm_compute in Hv|done]. }
  exists m, d, (dset "stage_history" (VList (map (VDict ∘ change_to_dict) (h ++ [Change ts (stage rec) target who why forced]))) (dset "stage" (VStr target) d)), h, ts.
  eexists. cbn [manifests reports idea_world wget idea_has_world w_out]. rewrite H5m, H5r, H5w, Hst. do 2 (split; [assumption|]). split; [|split; [|split; [|split; [done|split; [done|split; [|split; [|split; [by exists s2, s4|]]]]]]]].
  - unfold Ideas.checklist in Ec. apply bind_Ok in Ec as (r2 & s6 & E6 & Ec). destruct (get_run _ _ _ _ _ H1 E6) as (H6 & _).
    apply bind_Ok in Ec as (d2 & s7 & E7 & [Ec _]%lift_Ok). destruct (payload_run _ _ _ _ _ H6 E7) as (_ & m2 & Hm2 & Hd2).
    rewrite Hm in Hm2. injection Hm2 as <-. rewrite Hd in Hd2. injection Hd2 as <-. rewrite <- Ec. f_equal.
    change (target = if truthy target then target else stage r2). by rewrite Htt.
  - rewrite <- Hst. destruct forced; [by left|right]. rewrite andb_true_r in Hreg, Hmiss. split; [lia|]. by destruct (missing c).
  - unfold resolve_manifest in Hm. destruct (dlookup id (manifests s)) as [m'|]; [|done]. destruct (mf_document m') eqn:Em; [|done]. by injection Hm as <-.
  - rewrite dget_dset_ne by done. apply dget_dset_eq.
  - intros k Hk1 Hk2. by rewrite !dget_dset_ne.
  - intros Hkept s3. rewrite dget_dset_eq. unfold parse_stage_history. apply changes_roundtrip, Forall_app. split; [|by constructor; [exact Hkept|constructor]].
    clear -Eh. destruct (dget "stage_history" d); try (injection Eh as <- _; constructor). by eapply parse_changes_kept.
Qed.
End ladder.

(** * Samples *)

Definition sample_idea (stage : string) : manifest_file := ManifestFile (Some (Some (VDict [
  ("idea_id", VStr "alpha"); ("stage", VStr stage); ("checklists", VDict [("screening", VDict [("completed", VList [VStr "data_sources"; VStr " baseline_metrics "])]);
    ("ready", VDict [("completed", VList [VStr "ops_signoff"])])])]))) None.
Abbreviation sample_ideas st := (IState [("alpha", sample_idea st)] [] (World 0 0 0 [])).
Abbreviation sample_advance st target forced := (advance_stage (H:=sample_env) (λ d, Ok d) "ideas" "log" "alpha" target None (Some "kim") forced (sample_ideas st)).

Lemma advance_is_guarded_witness : let s' := (sample_advance "draft" "screening" false).2 in
  ∃ d', dlookup "alpha" (manifests s') = Some (ManifestFile (Some (Some (VDict d'))) None) ∧ dget "stage" d' = VStr "screening" ∧ length (w_out (idea_world s')) = 1%nat.
Proof.
  cbv zeta. destruct (sample_advance "draft" "screening" false) as [r s'] eqn:E.
  pose proof (advance_is_guarded (H:=sample_env) (λ d, Ok d) "ideas" "log" "alpha" "screening" None (Some "kim") false (sample_ideas "draft") r s' E) as Q.
  assert (∃ c, r = Ok c) as [c ->] by (eexists; exact (eq_sym (f_equal fst E))).
  destruct Q as (m & d & d' & h & ts & ev & Hm & _ & _ & _ & Hs & _ & Hw & Hst & _). injection Hm as <-.
  cbn [snd]. exists d'. rewrite Hs, Hw. split; [exact (dlookup_dset_eq _ _ _)|]. split; [exact Hst|reflexivity].
Defined.

(** From the first stage to the last on the checklist of the last alone. *)
Example stages_can_be_skipped : is_ok (sample_advance "draft" "ready" false).1 = true.
Proof. vm_compute. reflexivity. Qed.

(** A stage without an entry in the checklists fails, by force too. *)
Example missing_checklist_entry_raises : (sample_advance "screening" "paper" true).1 = Raise (AttributeError "get").
Proof. vm_compute. reflexivity. Qed.

Example backwards_needs_force : is_ok (sample_advance "ready" "screening" false).1 = false ∧ is_ok (sample_advance "ready" "screening" true).1 = true.
Proof. vm_compute. split; reflexivity. Qed.
