(* ===== verification/Evaluation.v ===== *)
(** Evaluations of live data: the live guard of [src/risk/live_guard.py] on the
    profit factor, the Sharpe ratio and the latency of a strategy, and the evaluator
    of candidate feeds of [src/data/realtime_evaluator.py].  Return series are what
    pandas reads from a file since an instant (a parameter); sorting is on lists
    without NaN. *)

From S2P Require Import Prelude PyFloat PyVal PyEnv Calendar Spread HealthStore Health DataQuality Failover.

Local Open Scope Z_scope.
Local Open Scope py_scope.

(** * Statistics *)

(** The sum of finite numbers as a ratio; [None] when one is not finite. *)
Definition add_ratio (acc : option (Z * positive)) (x : float) : option (Z * positive) :=
  '(n, d) ← acc;
  match x with
  | S754_zero _ => Some (n, d)
  | S754_finite s m e => let '(a, b) := ratio_of m e in Some (n * Zpos b + with_sign s a * Zpos d, (d * b)%positive)
  | _ => None
  end.

(** [statistics.mean]: exact on finite numbers; otherwise the sum of those that are not. *)
Definition mean (l : list float) : float :=
  match fold_left add_ratio l (Some (0, 1%positive)) with
  | Some (n, d) => of_ratio n (d * Pos.of_nat (length l))%positive
  | None => fold_left fadd (List.filter (λ x, is_nan x || is_inf x) l) fzero
  end.

Definition nth_float (l : list float) (i : Z) : float := nth (Z.to_nat i) l fzero.

Section statistics.
(** [x ** y] *)
Variable pow : float → float → res float.

Definition std (l : list float) : res float :=
  if (length l <? 2)%nat then Ok fzero
  else
    squares ← mapM_res (λ v, pow (fsub v (mean l)) (of_Z 2)) l;
    let variance := fdiv_ieee (fsum squares) (of_Z (Z.of_nat (length l))) in
    if fltb variance fzero then Raise (ValueError "math domain error") else Ok (SFsqrt prec emax variance).

Definition sharpe_ratio (l : list float) : res float :=
  if negb (truthy l) then Ok fzero
  else
    sd ← std l;
    if fleb sd fzero then Ok fzero
    else q ← fdiv (mean l) sd; Ok (fmul q (SFsqrt prec emax (of_Z (Z.of_nat (length l))))).
End statistics.

(** Without a loss the profit factor is infinite. *)
Definition profit_factor (l : list float) : res float :=
  let negatives := List.filter (λ v, fltb v fzero) l in
  if negb (truthy negatives) then Ok (S754_infinity false)
  else fdiv (fsum (List.filter (λ v, fgtb v fzero) l)) (fabs (fsum negatives or? of_dec 1 (-9))).

Definition percentile (l : list float) (quantile : float) : res float :=
  match isort fltb l with
  | [] => Ok fzero
  | [x] => Ok x
  | sorted =>
      let n := Z.of_nat (length sorted) in
      let index := fmul (of_Z (n - 1)) quantile in
      lower ← ftrunc index;
      let upper := Z.min (lower + 1) (n - 1) in
      let weight := fsub index (of_Z lower) in
      Ok (fadd (fmul (nth_float sorted lower) (fsub (of_Z 1) weight)) (fmul (nth_float sorted upper) weight))
  end.

Definition round_or_none (x : option float) : option float :=
  match x with Some v => Some (if is_inf v || is_nan v then v else fround v 4) | None => None end.

(** * The live guard *)

Definition DEFAULT_LATENCY_PATH : string := "metrics/execution_bridge.jsonl".
Definition DEFAULT_PROFIT_LOOP_PATH : string := "metrics/profit_loop.jsonl".

Definition is_digits (s : string) : bool :=
  negb (String.eqb s "") && forallb (λ c, match digit_of c with Some _ => true | None => false end) (String.list_ascii_of_string s).

Definition window_to_days (window : string) : option Z :=
  let token := lower (strip window) in
  let value := String.substring 0 (String.length token - 1) token in
  if negb (truthy token) || negb (is_digits value) then None
  else
    n ← parse_int value;
    if ends_with "d" token then Some n else if ends_with "w" token then Some (n * 7) else if ends_with "h" token then Some (Z.max (n / 24) 1) else None.

Record LiveGuardResult := GuardResult {
  lg_status : string; exit_code : Z; lg_strategy_id : string; lg_mode : string; window_days : Z; pf_trailing : option float; sharpe_trailing : option float;
  latency_p75 : option float; lg_thresholds : float * float * float; recommended_mode : string; lg_alerts : list string; runbook_ref : option string;
  generated_at : string; samples : Z; latency_samples : Z; latency_source : option string }.

Definition thresholds_dict (t : float * float * float) : dict :=
  let '(pf, sharpe, latency) := t in
  [("pf_threshold", VFloat pf); ("sharpe_threshold", VFloat sharpe); ("latency_p75_threshold", VFloat latency)].

Definition metrics_payload (r : LiveGuardResult) : dict := [
  ("timestamp", VStr (generated_at r)); ("strategy_id", VStr (lg_strategy_id r)); ("mode", VStr (lg_mode r)); ("window_days", VInt (window_days r));
  ("pf_trailing", vopt_float (pf_trailing r)); ("sharpe_trailing", vopt_float (sharpe_trailing r)); ("latency_p75", vopt_float (latency_p75 r));
  ("recommended_mode", VStr (recommended_mode r)); ("status", VStr (lg_status r)); ("alerts", VList (map VStr (lg_alerts r)));
  ("thresholds", VDict (thresholds_dict (lg_thresholds r))); ("runbook_ref", vopt_str (runbook_ref r))].

Section live_guard.
Context `{Env} {S : Type} `{HasWorld S}.
Variable pow : float → float → res float.
(** The files that exist, as lines; the returns in a frame since an instant. *)
Variable file_at : string → file.
Variable frame_exists : string → bool.
Variable frame_returns : string → Z → res (list float).

(** Any error of reading gives no configuration. *)
Definition load_guard_config (f : document) : pyval := match f with Some (Some v) => v or? VDict [] | _ => VDict [] end.

(** [datetime.now(timezone.utc) - timedelta(days=n)] *)
Definition cutoff (days : Z) : M S Z :=
  now ← now_utc;
  let us := utc_us now - days * 86400000000 in
  if (days <? -999999999) || (999999999 <? days) then raise (OverflowError "days; must have magnitude <= 999999999")
  else if in_range min_us us max_us then mret us else raise (OverflowError "date value out of range").

Definition load_returns (returns_path equity_path : option string) (days : Z) : M S (list float) :=
  let existing p := match p with Some x => frame_exists x | None => false end in
  match (if existing returns_path then returns_path else if existing equity_path then equity_path else None) with
  | None => mret []
  | Some path => since ← cutoff days; lift (frame_returns path since)
  end.

Definition parse_iso (v : pyval) : res (option Z) :=
  match v with
  | VStr s =>
      if negb (truthy s) then Ok None
      else
        let t := strip s in
        let t := if ends_with "Z" t then String.substring 0 (String.length t - 1) t +:+ "+00:00" else t in
        match fromisoformat t with
        | None => Ok None
        | Some d => u ← normalize d; Ok (Some (utc_us u))
        end
  | _ => Ok None
  end.

(** The latency of a line in seconds, when it is recent and a number. *)
Definition latency_of (since : Z) (l : line) : res (option float) :=
  match l with
  | LJson v =>
      given ← vget v "timestamp";
      given ← (if truthy given then Ok given else vget v "ts");
      ts ← parse_iso given;
      match ts with
      | None => Ok None
      | Some t =>
          if t <? since then Ok None
          else
            raw ← vget v "latency_ms";
            raw ← (if truthy raw then Ok raw else vget v "decision_latency_ms");
            match raw with
            | VBool _ | VInt _ | VFloat _ => x ← py_float raw; Ok (Some (fdiv_ieee x (of_Z 1000)))
            | _ => Ok None
            end
      end
  | _ => Ok None
  end.

Definition read_latency_samples (path : string) (days : Z) : M S (list float) :=
  match file_at path with
  | None => mret []
  | Some lines => since ← cutoff days; l ← lift (mapM_res (latency_of since) lines); mret (omap id l)
  end.

Definition load_latency_samples (latency_path fallback_path : string) (days : Z) : M S (list float * option string) :=
  l ← read_latency_samples latency_path days;
  if truthy l then mret (l, Some latency_path)
  else l ← read_latency_samples fallback_path days; mret (l, if truthy l then Some fallback_path else None).

(** The verdict on the three measures. *)
Definition judge (pf sharpe latency : option float) (t : float * float * float) : string * list string :=
  match pf, sharpe, latency with
  | Some p, Some s, Some l =>
      let '(pf_min, sharpe_min, latency_max) := t in
      let alerts := (if fltb p pf_min then ["pf"] else []) ++ (if fltb s sharpe_min then ["sharpe"] else []) ++ (if fgtb l latency_max then ["latency"] else []) in
      (if truthy alerts then "alert" else "ok", alerts)
  | _, _, _ => ("pending", ["missing_inputs"])
  end.

Definition if_any {A} (l : list A) (r : res float) : res (option float) := if truthy l then x ← r; Ok (Some x) else Ok None.

Definition evaluate_live_guard (strategy_id window : string) (mode returns_path equity_path : option string) (latency_path : string) (config : document)
    (strict : bool) : M S LiveGuardResult :=
  let config := load_guard_config config in
  days ← (match window_to_days window with
    | Some (Zpos p) => mret (Zpos p)
    | _ => v ← lift (vget_or config "window_days" (VInt 28)); lift (py_int v)
    end);
  eff ← (if truthy mode then mret (default "" mode) else v ← lift (vget_or config "live_guard_mode" (VStr "paper")); mret (py_str v));
  v ← lift (vget_or config "pf_threshold" (VFloat (of_Z 1))); pf_min ← lift (py_float v);
  v ← lift (vget_or config "sharpe_threshold" (VFloat fzero)); sharpe_min ← lift (py_float v);
  v ← lift (vget_or config "latency_p75_threshold" (VFloat (of_Z 120))); latency_max ← lift (py_float v);
  ref ← lift (vget config "runbook_ref");
  returns ← load_returns returns_path equity_path days;
  pf ← lift (if_any returns (profit_factor returns));
  sharpe ← lift (if_any returns (sharpe_ratio pow returns));
  '(lat, source) ← load_latency_samples latency_path DEFAULT_PROFIT_LOOP_PATH days;
  p75 ← lift (if_any lat (percentile lat (of_dec 75 (-2))));
  let '(status, alerts) := judge pf sharpe p75 (pf_min, sharpe_min, latency_max) in
  ts ← utcnow_iso;
  mret (GuardResult status (if strict && negb (String.eqb status "ok") then 42 else 0) strategy_id eff days (round_or_none pf) (round_or_none sharpe)
    (round_or_none p75) (pf_min, sharpe_min, latency_max) (if String.eqb status "ok" then "normal" else "guarded") alerts
    (if truthy ref then Some (py_str ref) else None) ts (Z.of_nat (length returns)) (Z.of_nat (length lat)) source).
End live_guard.

(** * Candidate feeds *)

Definition ProviderProfileError (msg : string) : exn := OtherError "ProviderProfileError" msg.
Definition FeedEvaluationError (msg : string) : exn := OtherError "FeedEvaluationError" msg.
Definition FeedLicensingError (msg : string) : exn := OtherError "FeedLicensingError" msg.
Definition FeedCostOverflow (msg : string) : exn := OtherError "FeedCostOverflow" msg.
Definition FeedComparisonError (msg : string) : exn := OtherError "FeedComparisonError" msg.

Record ProviderCandidate := Candidate {
  cand_id : string; display_name : pyval; license_required : bool; cost_per_hour_jpy : option float; rate_limit_per_min : option Z; max_symbols : option Z;
  legal_notes : pyval; cand_mode : pyval }.

(** [float(v)], [int(v)]: only [TypeError] and [ValueError] give [None]. *)
Definition or_none {A} (r : res A) : res (option A) :=
  match r with
  | Ok a => Ok (Some a)
  | Raise (TypeError _) | Raise (ValueError _) => Ok None
  | Raise e => Raise e
  end.
Definition optional_float (v : pyval) : res (option float) := match v with VNone => Ok None | _ => or_none (py_float v) end.
Definition optional_int (v : pyval) : res (option Z) := match v with VNone => Ok None | _ => or_none (py_int v) end.

Definition provider_id_of (e : dict) : string := py_str ((dget "provider_id" e or? dget "id" e) or? VStr "").

Fixpoint load_candidates (l : list pyval) (cache : list (string * ProviderCandidate)) : res (list (string * ProviderCandidate)) :=
  match l with
  | [] => Ok cache
  | VDict e :: l =>
      let id := provider_id_of e in
      if negb (truthy id) then load_candidates l cache
      else
        cost ← optional_float (dget "cost_per_hour_jpy" e);
        rate ← optional_int (dget "rate_limit_per_min" e);
        syms ← optional_int (dget "max_symbols" e);
        load_candidates l (dset id (Candidate id (dget "display_name" e) (truthy (dget_or "license_required" (VBool true) e)) cost rate syms
          (dget "legal_notes" e) (dget "mode" e)) cache)
  | _ :: l => load_candidates l cache
  end.

Definition load_registry (f : document) : res (list (string * ProviderCandidate)) :=
  match f with
  | None => Ok []
  | Some None => Raise (OtherError "YAMLError" "")
  | Some (Some v) =>
      match v or? VDict [] with
      | VDict d =>
          match dget_or "candidates" (VList []) d with
          | VList l => load_candidates l []
          | _ => Raise (ProviderProfileError "real_time_candidates.candidates must be list")
          end
      | _ => Raise (ProviderProfileError "real_time_candidates schema invalid")
      end
  end.

Definition require_candidate (cache : list (string * ProviderCandidate)) (id : string) : res ProviderCandidate :=
  match dlookup id cache with Some c => Ok c | None => Raise (ProviderProfileError ("unknown provider: " +:+ id)) end.

Record FeedEvaluationConfig := FeedConfig { max_fetch_p95_ms : float; max_hourly_cost_jpy : float; min_uptime_pct : float }.
Definition default_feed_config : FeedEvaluationConfig := FeedConfig (of_Z 12000) (of_Z 10000) (of_Z 99).

Record FeedEvaluationResult := FeedResult {
  fr_provider : string; fr_window : float; fetch_p95_ms : float; fetch_p99_ms : float; processing_p95_ms : float; uptime_pct : float; rate_limit_hits : Z;
  fr_cost : float; comparison_gap_p95 : float; decision : string; fr_notes : option string; fr_ts : string }.

Definition feed_result_to_dict (r : FeedEvaluationResult) : dict := [
  ("ts", VStr (fr_ts r)); ("provider_id", VStr (fr_provider r)); ("window_hours", VFloat (fr_window r)); ("fetch_p95_ms", VFloat (fetch_p95_ms r));
  ("fetch_p99_ms", VFloat (fetch_p99_ms r)); ("processing_p95_ms", VFloat (processing_p95_ms r)); ("uptime_pct", VFloat (uptime_pct r));
  ("rate_limit_hits", VInt (rate_limit_hits r)); ("cost_per_hour_jpy", VFloat (fr_cost r)); ("comparison_gap_p95_pips", VFloat (comparison_gap_p95 r));
  ("decision", VStr (decision r)); ("notes", vopt_str (fr_notes r))].

Record ShadowComparisonReport := Comparison { cmp_provider : string; primary_provider : string; cmp_window : float; gap_p95_pips : float; missing_pct : float }.
Definition comparison_to_dict (r : ShadowComparisonReport) : dict := [
  ("provider_id", VStr (cmp_provider r)); ("primary_provider", VStr (primary_provider r)); ("window_hours", VFloat (cmp_window r));
  ("gap_p95_pips", VFloat (gap_p95_pips r)); ("missing_pct", VFloat (missing_pct r))].

Record ThresholdProposal := Proposal {
  th_provider : string; th_fetch_p95 : float; th_fetch_p99 : float; th_uptime : float; th_rate_limit_hits : Z; th_notes : option string }.
Definition proposal_to_dict (p : ThresholdProposal) : dict := [
  ("provider_id", VStr (th_provider p)); ("max_fetch_p95_ms", VFloat (th_fetch_p95 p)); ("max_fetch_p99_ms", VFloat (th_fetch_p99 p));
  ("min_uptime_pct", VFloat (th_uptime p)); ("max_rate_limit_hits", VInt (th_rate_limit_hits p)); ("notes", vopt_str (th_notes p))].

(** [_percentile]: [lower + (upper - lower) * weight]. *)
Definition feed_percentile (l : list float) (percentile : float) : res float :=
  match l with
  | [] => Raise (FeedEvaluationError "percentile input empty")
  | x :: l' =>
      if fleb percentile fzero then Ok (fold_left fmin l' x)
      else if fgeb percentile (of_Z 100) then Ok (fold_left fmax l' x)
      else
        let ordered := isort fltb l in
        let n := Z.of_nat (length ordered) in
        let rank := fmul (fdiv_ieee percentile (of_Z 100)) (of_Z (n - 1)) in
        i ← ftrunc rank;
        let lower := nth_float ordered i in
        let upper := nth_float ordered (Z.min (i + 1) (n - 1)) in
        Ok (fadd lower (fmul (fsub upper lower) (fsub rank (of_Z i))))
  end.

Definition decision_from_metrics (fetch_p95 uptime cost : float) (c : FeedEvaluationConfig) : string :=
  if fgtb fetch_p95 (max_fetch_p95_ms c) || fltb uptime (min_uptime_pct c) then "hold"
  else if fgtb cost (max_hourly_cost_jpy c) then "reject" else "candidate".

Definition apply_thresholds (r : FeedEvaluationResult) (c : FeedEvaluationConfig) : ThresholdProposal :=
  Proposal (fr_provider r) (fmax (fetch_p95_ms r) (max_fetch_p95_ms c)) (fmul (fmax (fetch_p99_ms r) (fetch_p95_ms r)) (of_dec 12 (-1)))
    (fmin (uptime_pct r) (of_Z 100)) (Z.max (rate_limit_hits r) 1) (Some "auto-generated from feed evaluation").

Section feeds.
Context `{Env} {S : Type} `{HasWorld S}.
Variable getenv : string → option string.
Variable smtp : email → option string.
(** The license registry's check: the text of the exception it raises. *)
Variable license_precheck : option (string → option string).
Variable cache : list (string * ProviderCandidate).
Variable config : FeedEvaluationConfig.
Variables metrics_dir alert_log : string.

Definition maybe_alert (r : FeedEvaluationResult) : M S unit :=
  if fleb (fetch_p95_ms r) (max_fetch_p95_ms config) && fleb (fr_cost r) (max_hourly_cost_jpy config) then mret tt
  else
    let messages :=
      (if fgtb (fetch_p95_ms r) (max_fetch_p95_ms config)
       then ["fetch_p95_ms " +:+ frepr (fetch_p95_ms r) +:+ " exceeds " +:+ frepr (max_fetch_p95_ms config)] else []) ++
      (if fgtb (fr_cost r) (max_hourly_cost_jpy config)
       then ["cost_per_hour_jpy " +:+ frepr (fr_cost r) +:+ " exceeds " +:+ frepr (max_hourly_cost_jpy config)] else []) in
    dispatch_alert getenv smtp alert_log (Some "warning") (Some ("[feed_eval] " +:+ fr_provider r +:+ ": " +:+ join "; " messages)) None false.

Definition run_evaluation (id : string) (window : float) (fetch processing : list float) (gaps : list float) (hits : Z) (uptime cost : option float)
    (license_ok : bool) (notes : option string) : M S FeedEvaluationResult :=
  c ← lift (require_candidate cache id);
  if license_required c && negb license_ok then raise (FeedLicensingError ("license missing for " +:+ id))
  else
    _ ← (match license_precheck with
      | Some check => if license_required c then match check id with Some msg => raise (FeedLicensingError msg) | None => mret tt end else mret tt
      | None => mret tt
      end);
    if negb (truthy fetch) || negb (truthy processing) then raise (FeedEvaluationError "missing latency samples")
    else
      p95 ← lift (feed_percentile fetch (of_Z 95));
      p99 ← lift (feed_percentile fetch (of_Z 99));
      proc ← lift (feed_percentile processing (of_Z 95));
      gap ← lift (if truthy gaps then feed_percentile gaps (of_Z 95) else Ok fzero);
      let up := default (of_Z 100) uptime in
      let hourly := match cost with Some x => x | None => match cost_per_hour_jpy c with Some x => if truthy x then x else fzero | None => fzero end end in
      if fgtb hourly (max_hourly_cost_jpy config) then raise (FeedCostOverflow ("cost_per_hour_jpy " +:+ frepr hourly +:+ " exceeds limit"))
      else
        ts ← utcnow_iso;
        let r := FeedResult id window p95 p99 proc up hits hourly gap (decision_from_metrics p95 up hourly config) notes ts in
        _ ← append_jsonl (metrics_dir +:+ "/feed_evaluation_" +:+ id +:+ ".jsonl") (VDict (feed_result_to_dict r));
        _ ← maybe_alert r;
        mret r.

Definition shadow_compare (id primary : string) (window : float) (gaps : list float) (missing : float) : res ShadowComparisonReport :=
  _ ← require_candidate cache id;
  if fltb missing fzero || fgtb missing (of_Z 100) then Raise (FeedComparisonError "missing_pct must be 0-100")
  else if negb (truthy gaps) then Raise (FeedComparisonError "comparison gaps required")
  else g ← feed_percentile gaps (of_Z 95); Ok (Comparison id primary window g missing).
End feeds.

(** * Theorems *)

Section verdicts.
Context `{Env} {S : Type} `{HasWorld S}.

Lemma if_any_Some {A} (l : list A) r x : if_any l r = Ok x → (x = None ↔ l = []).
Proof using Type. unfold if_any. destruct l as [|a l]; [by intros [= <-]|]. intros (y & _ & [= <-])%bind_ok. by split. Qed.

(** The verdict of the live guard: [ok] exactly when there are returns and latencies
    and no measure is beyond its threshold, [pending] exactly when a measure is
    missing; every other status than [ok] recommends the guarded mode, and exits with
    42 when the run is strict. *)
Theorem live_guard_verdict pow file_at frame_exists frame_returns strategy_id window mode returns_path equity_path latency_path config strict (s s' : S) r :
  evaluate_live_guard pow file_at frame_exists frame_returns strategy_id window mode returns_path equity_path latency_path config strict s = (Ok r, s') →
  ∃ pf sharpe latency : option float, let '(pf_min, sharpe_min, latency_max) := lg_thresholds r in
    (pf_trailing r, sharpe_trailing r, latency_p75 r) = (round_or_none pf, round_or_none sharpe, round_or_none latency) ∧
    (pf = None ↔ samples r = 0) ∧ (sharpe = None ↔ samples r = 0) ∧ (latency = None ↔ latency_samples r = 0) ∧
    (lg_status r = "ok" ↔ ∃ p x l, pf = Some p ∧ sharpe = Some x ∧ latency = Some l ∧ fltb p pf_min = false ∧ fltb x sharpe_min = false ∧ fgtb l latency_max = false) ∧
    (lg_status r = "pending" ↔ samples r = 0 ∨ latency_samples r = 0) ∧
    (recommended_mode r = "normal" ↔ lg_status r = "ok") ∧ (exit_code r = 42 ↔ strict = true ∧ lg_status r ≠ "ok").
Proof using Type.
  unfold evaluate_live_guard. cbv zeta. intros E.
  apply bind_Ok in E as (days & s1 & _ & E). apply bind_Ok in E as (eff & s2 & _ & E).
  apply bind_Ok in E as (v1 & s3 & _ & E). apply bind_Ok in E as (pf_min & s4 & _ & E).
  apply bind_Ok in E as (v2 & s5 & _ & E). apply bind_Ok in E as (sharpe_min & s6 & _ & E).
  apply bind_Ok in E as (v3 & s7 & _ & E). apply bind_Ok in E as (latency_max & s8 & _ & E).
  apply bind_Ok in E as (ref & s9 & _ & E). apply bind_Ok in E as (returns & s10 & _ & E).
  apply bind_Ok in E as (pf & s11 & [Hpf _]%lift_Ok & E). apply bind_Ok in E as (sharpe & s12 & [Hsh _]%lift_Ok & E).
  apply bind_Ok in E as ([lat source] & s13 & _ & E). apply bind_Ok in E as (p75 & s14 & [Hlat _]%lift_Ok & E).
  apply if_any_Some in Hpf, Hsh, Hlat.
  destruct (judge pf sharpe p75 (pf_min, sharpe_min, latency_max)) as [st alerts] eqn:Ej.
  apply bind_Ok in E as (ts & s15 & _ & [= <- _]). exists pf, sharpe, p75. cbn.
  assert (∀ A (l : list A), l = [] ↔ Z.of_nat (length l) = 0) as Hlen by (intros A [|? ?]; cbn; split; [done|done|done|lia]).
  rewrite <- !Hlen. do 4 (split; [done|]).
  assert ((st = "ok" ↔ ∃ p x l, pf = Some p ∧ sharpe = Some x ∧ p75 = Some l ∧ fltb p pf_min = false ∧ fltb x sharpe_min = false ∧ fgtb l latency_max = false) ∧
    (st = "pending" ↔ pf = None ∨ sharpe = None ∨ p75 = None)) as [Hok Hpend].
  { unfold judge in Ej.
    destruct pf as [p|]; [|injection Ej as <- _; split; split; try done; [by intros (? & ? & ? & [=] & _)|by left]].
    destruct sharpe as [x|]; [|injection Ej as <- _; split; split; try done; [by intros (? & ? & ? & _ & [=] & _)|by right; left]].
    destruct p75 as [l|]; [|injection Ej as <- _; split; split; try done; [by intros (? & ? & ? & _ & _ & [=] & _)|by right; right]].
    destruct (fltb p pf_min) eqn:E1; destruct (fltb x sharpe_min) eqn:E2; destruct (fgtb l latency_max) eqn:E3; injection Ej as <- _;
      (split; split; try done; try (by intros (? & ? & ? & [= <-] & [= <-] & [= <-] & ? & ? & ?); congruence); try (by intros [[=]|[[=]|[=]]]);
       intros _; by exists p, x, l). }
  split; [exact Hok|]. split; [rewrite Hpend; tauto|]. split.
  - clear. by destruct (String.eqb_spec st "ok").
  - clear. by destruct (String.eqb_spec st "ok"), strict; cbn; split; try done; intros [].
Qed.

(** An alert only adds to what was logged. *)
Definition logged (out : list (string * pyval)) (s : S) : Prop := ∃ rest, w_out (wget s) = out ++ rest.

Lemma logged_iso out : preserves (logged out) utcnow_iso.
Proof using Type. intros s [rest Hr]. exists rest. change (w_out (wget (utcnow_iso s).2)) with (w_out (wget (wset (World (1 + w_tick (wget s)) (w_uuid (wget s)) (w_io (wget s)) (w_out (wget s))) s))). by rewrite wget_wset. Qed.
Lemma logged_append out p v : preserves (logged out) (append_jsonl p v).
Proof using Type. intros s [rest Hr]. exists (rest ++ [(p, v)]). cbn. rewrite wget_wset. cbn. by rewrite Hr, <- app_assoc. Qed.

Lemma logged_alert getenv smtp config alert_log r out : preserves (logged out) (maybe_alert getenv smtp config alert_log r).
Proof using Type.
  unfold maybe_alert. destruct (_ && _); [apply preserves_ret|]. unfold dispatch_alert, event_to_dict.
  apply preserves_bind; [apply preserves_ret|]. intros e. apply preserves_bind.
  { apply preserves_bind; [destruct (truthy (ev_ts e)); [apply preserves_ret|apply logged_iso]|]. intros ts. apply preserves_ret. }
  intros payload. apply preserves_bind; [apply logged_append|]. intros _. destruct (smtp_configured _); [|apply preserves_ret].
  intros s Hs. unfold try_catch, lift. destruct (send_email _ _ _ _) as [?|x]; [exact Hs|]. by destruct (is_alert_error x && _).
Qed.

(** What an evaluation of a feed that returns says: the licence was in order, the cost
    is within its limit (so nothing is ever rejected for its cost), the feed is a
    candidate unless its latency or uptime holds it, and its record is the first
    thing that was logged. *)
Theorem feed_evaluation_verdict getenv smtp precheck cache config metrics_dir alert_log id window fetch processing gaps hits uptime cost license_ok notes
    (s s' : S) r :
  run_evaluation getenv smtp precheck cache config metrics_dir alert_log id window fetch processing gaps hits uptime cost license_ok notes s = (Ok r, s') →
  (∃ c, dlookup id cache = Some c ∧ (license_required c = true → license_ok = true ∧ match precheck with Some check => check id = None | None => True end)) ∧
  fetch ≠ [] ∧ processing ≠ [] ∧ fgtb (fr_cost r) (max_hourly_cost_jpy config) = false ∧
  (decision r = "candidate" ↔ fgtb (fetch_p95_ms r) (max_fetch_p95_ms config) = false ∧ fltb (uptime_pct r) (min_uptime_pct config) = false) ∧
  decision r ≠ "reject" ∧
  ∃ rest, w_out (wget s') = w_out (wget s) ++ (metrics_dir +:+ "/feed_evaluation_" +:+ id +:+ ".jsonl", VDict (feed_result_to_dict r)) :: rest.
Proof using Type.
  unfold run_evaluation. intros (c & s1 & [Hc ->]%lift_Ok & E)%bind_Ok. unfold require_candidate in Hc.
  destruct (dlookup id cache) as [c'|] eqn:El; [injection Hc as ->|done].
  destruct (license_required c && negb license_ok) eqn:Hlic; [done|].
  apply bind_Ok in E as (u & s1 & Hpre & E).
  assert (s1 = s ∧ (license_required c = true → match precheck with Some check => check id = None | None => True end)) as [-> Hcheck].
  { destruct precheck as [check|]; [|by injection Hpre as _ <-]. destruct (license_required c); [|by injection Hpre as _ <-].
    destruct (check id); [done|]. by injection Hpre as _ <-. }
  destruct (negb (truthy fetch) || negb (truthy processing)) eqn:Hs; [done|].
  apply bind_Ok in E as (p95 & s1 & [_ ->]%lift_Ok & E). apply bind_Ok in E as (p99 & s1 & [_ ->]%lift_Ok & E).
  apply bind_Ok in E as (proc & s1 & [_ ->]%lift_Ok & E). apply bind_Ok in E as (gap & s1 & [_ ->]%lift_Ok & E). cbv zeta in E.
  set (hourly := match cost with Some x => x | None => _ end) in E. set (up := default (of_Z 100) uptime) in E.
  destruct (fgtb hourly (max_hourly_cost_jpy config)) eqn:Hcost; [done|].
  apply bind_Ok in E as (ts & s1 & Hts & E). apply bind_Ok in E as (u2 & s2 & Happ & E). apply bind_Ok in E as (u3 & s3 & Hal & [= <- <-]).
  cbn [fr_cost decision fetch_p95_ms uptime_pct]. split_and!.
  - exists c. split; [done|]. intros Hl. split; [|by apply Hcheck]. rewrite Hl in Hlic. by destruct license_ok.
  - by destruct fetch.
  - destruct processing; [|done]. by destruct fetch.
  - exact Hcost.
  - unfold decision_from_metrics. rewrite Hcost. destruct (fgtb p95 _), (fltb up _); cbn; split; try done; by intros [].
  - unfold decision_from_metrics. rewrite Hcost. by destruct (fgtb p95 _ || fltb up _).
  - assert (w_out (wget s1) = w_out (wget s)) as H1' by (unfold utcnow_iso in Hts; cbn in Hts; injection Hts as _ <-; by rewrite wget_wset).
    unfold append_jsonl in Happ. injection Happ as _ <-.
    match type of Hal with maybe_alert _ _ _ _ ?v ?u = _ => set (fr := v) in Hal; set (s2 := u) in Hal end.
    assert (logged (w_out (wget s2)) s3) as [rest Hr].
    { change s3 with ((Ok u3, s3) : res unit * S).2. rewrite <- Hal. apply logged_alert. exists []. by rewrite app_nil_r. }
    exists rest. rewrite Hr. subst s2. rewrite wget_wset. cbn [w_out]. by rewrite H1', <- app_assoc.
Qed.
End verdicts.

(** Measures that are no numbers pass every threshold. *)
Example nan_measures_are_ok t : judge (Some S754_nan) (Some S754_nan) (Some S754_nan) t = ("ok", []).
Proof. by destruct t as [[[] []] []]. Qed.

Example nan_latency_is_a_candidate : decision_from_metrics S754_nan (of_Z 100) fzero default_feed_config = "candidate".
Proof. vm_compute. reflexivity. Qed.

Example percentiles_interpolate :
  percentile [of_Z 4; of_Z 1; of_Z 2; of_Z 3; of_Z 5] (of_dec 75 (-2)) = Ok (of_Z 4) ∧ feed_percentile [of_Z 30; of_Z 10; of_Z 20] (of_Z 50) = Ok (of_Z 20) ∧
  mean [of_dec 1 (-1); of_dec 2 (-1); of_dec 3 (-1)] = of_dec 2 (-1).
Proof. vm_compute. split_and!; reflexivity. Qed.
